(* ===== verification/_CoqProject ===== *)
-Q . S2P
Prelude.v
GoStrings.v
TrimSpace.v
GoNet.v
GoTime.v
GoPath.v
AtomicFile.v
ClientIP.v
LoginLimiter.v
Blacklist.v
Tickets.v
Totp.v
MediaRef.v
UserModel.v
UserPolicy.v
Users.v
Sessions.v
UserFacts.v
Tokens.v
Middleware.v
Gate.v
Acl.v
Router.v
RateLimit.v
Jail.v
Netguard.v
FwRules.v
Firewall.v
FirewallFacts.v
Snapshots.v
VMSched.v
Regex.v
ConfigStore.v
ConfigFacts.v
Settings.v
Chain.v
BackupNames.v
PathSafety.v
NetMount.v
Retention.v
BackupStore.v
BackupStoreFacts.v
Reconcile.v
Quota.v
EventHub.v
Alerts.v
History.v
Notify.v
Yaml.v
Base64.v
CloudInit.v
CloudInitFacts.v
Snippets.v
SnippetFacts.v
Dict.v
Netplan.v
Combined.v
ImgSafe.v
DiskNames.v
BackingGuard.v
StorageMove.v
StorageMoveFacts.v
Producer.v
Remote.v
Runner.v
RunnerFacts.v
RunArchives.v
Restore.v
Jobs.v
Download.v
Uploads.v
IsoJobs.v
DiskState.v
HostCmd.v
StorageTools.v
DiskGuards.v
HostDisks.v
HostDiskFacts.v
Smart.v
Nodes.v
