(* ===== verification/Prelude.v ===== *)
(** * WebKVM verification library

    WebKVM is a web console for KVM and Incus machines: a Go server
    ([src/backend]) with a browser client.  This library models the parts of
    the server that decide who may do what, what the host's firewall lets in,
    what survives a crash, and what is deleted unattended, and proves them
    correct.  Paths below are relative to [src/backend/internal].

    ** The program's parts and how they meet

    A request first meets the limiter of requests per client
    (auth/ratelimit_global.go), then [auth.Manager.Middleware] (jwt.go), which
    strips the identity headers and sets them from a checked credential: a
    ticket (ticket.go, vnc_ticket.go), a session token checked against the
    denylist (blacklist.go), or an API token (tokens/store.go).
    [SessionEnforcer] (must_change.go) compares the credential's epoch with the
    account's (user/store.go).  The router (api/router.go) puts role,
    capability and ownership guards (rbac.go, api/authz.go) around every
    handler, and the handlers consult allowlists of pools, networks, tags and
    groups.  The login handlers are guarded by a lockout per client address and
    user (ratelimit.go, logging/clientip.go), the listener by a connection cap
    and a handshake cooldown, and failures feed the jail (netguard).  The
    firewall manager renders the rules of machines and host into one nftables
    table, and applies host rules on trial until they are confirmed.

    Backups go to targets kept in a registry with their schedules and jobs
    (backupstore/store.go), on paths checked against a deny list and on shares
    the server mounts itself; they form chains of increments (chain.go) that a
    janitor prunes (retention.go), and a reconciliation adopts what storage
    holds and the registry does not know.  Quotas (api/quota.go) are checked
    before a machine is created or started; schedules (vmsched) start and stop
    machines and rotate automatic snapshots.  Two hypervisors are served as one
    (compute/combined.go).  A new machine gets its disks under free names
    (libvirt/disknaming.go) from images that are checked first (imgsafe) and a
    cloud-init seed from the request and the snippets the caller may read
    (cloudinit, api/cloudinit.go); disks move between pools step by step
    (libvirt/storage_move.go), and a base of clones stays
    (libvirt/backing_guard.go).  Host bonds are kept in netplan files
    (api/host_netplan.go).  A backup run (backupstore/runner.go) pauses, copies
    and resumes machines through a producer of archives
    (libvirt/export_check.go and its callers, writeBackup) and a transport to its
    target; a restore unpacks an archive and defines the machine anew.  Images
    and archives come in through uploads and background downloads
    (api/storage_uploads.go, api/storage_download_client.go), and disks of the
    host become storage (api/host_disks.go) after the mounts declared for them
    have been looked up (diskstate).  Samples feed a history and drive
    alert rules (metrics); alerts and state changes reach the administrators
    through channels (notify) and the browsers through a hub (events/hub.go).

    ** The files

    - Prelude, GoStrings, TrimSpace, GoNet, GoTime, GoPath, Regex: results and
      errors, the state and error monad of the handlers, [int64] with its wrap-around,
      instants and durations, reachability, tactics; the functions of Go's
      [strings], [net], [time], [path/filepath] and [regexp] that the program
      uses.
    - AtomicFile: write-then-rename persistence, system call by system call;
      its class [Persist] is the interface every store is written against.
    - ClientIP, LoginLimiter, RateLimit: [ResolveClientIP], trusted peers, the
      lockout buckets, and the limiter of requests per client.
    - Blacklist, Tickets, Totp, MediaRef: revoked tokens, console and VNC
      tickets, one-time passwords (with base32 and HMAC-SHA1 computed), media
      references.
    - UserModel, UserPolicy, Users, UserFacts: the account record and its
      capabilities, the checks, every operation of the account store as a
      state transformer, and the theorems about sequences of operations.
    - Sessions, Middleware, Tokens, Gate: the session gate, the authentication
      middleware, the API-token store, and their composition as the server
      wires it.
    - Acl, Router: who may see and touch which machine, pool, network, disk
      image and folder; the tree of routes as the source builds it, flattened
      to a table, and the verdict of the guards of a route.
    - Jail, Netguard: bans, and the guards of the listener.
    - FwRules, Firewall, FirewallFacts: rules, their validation and rendering
      (to a syntax tree and to text) and what a ruleset does to a packet; the
      stores, the manager and the trial protocol with its timer, as a step
      relation that also splits [Apply] where it interleaves.
    - Snapshots, VMSched: the snapshot tree of a machine and its recursive
      deletion; the schedule store, the cron entries and the rotation.
    - Chain, BackupNames, Retention: backup chains, the grammar of archive
      names, and the decision which runs are deleted.
    - PathSafety, NetMount, BackupStore, BackupStoreFacts, Reconcile: the deny
      list, the mounts of shares with their cleanup, the registry, its
      theorems, and the reconciliation with storage.
    - ConfigStore, ConfigFacts, Settings: the settings store with its schema,
      validators and file, its theorems, and what start-up, limiters, TLS and
      firewall make of the settings, with the handlers.
    - Yaml, Base64: a reader of the part of YAML that seeds and snippets use,
      with the printer it inverts; the standard encoding with its decoder.
    - CloudInit, CloudInitFacts: the checks of a request, the documents and the
      image of a seed, generated passwords; that the documents read back.
    - Snippets, SnippetFacts: the snippet store with its presets, who may read
      and change a snippet, the handlers, and the life of a seed image.
    - Dict, Netplan: documents as ordered maps; the bond in a netplan file.
    - Combined: the dispatch between two back ends, as a class, with every
      operation of the interface.
    - ImgSafe: untrusted images, conversion, chains of backing files.
    - DiskNames, BackingGuard: names of disks, the sweep after a machine, and
      the guard of backing files.
    - StorageMove, StorageMoveFacts: the move of a machine's disks and of a
      volume, every intermediate state recorded, and that no state loses a
      disk.
    - Producer, Remote, Runner, RunnerFacts, RunArchives, Restore:
      the tar archives of a machine and of the configuration, the transports to a
      target, a run over a fleet with its job and its archives, and the restores.
    - Jobs, Download, Uploads, IsoJobs: the table of background jobs, the client
      that dials public addresses only, uploads into a pool, and an ISO download
      from the request to the end of its job.
    - DiskState, HostCmd, StorageTools, DiskGuards, HostDisks,
      HostDiskFacts: who is going to mount a device; commands and the history of
      what was done, with rules for what holds of all of it; md and ZFS; the guards
      before a disk is destroyed, the handlers behind them, and the pools of a new
      disk.
    - Smart, Nodes: the report of a disk's health with its cache; the registry of
      the nodes of a fleet with what is probed of them, and the store of bridges.
    - Quota: accounting and the quota checks over the account store.
    - EventHub: the hub as a step relation over interleaved goroutines.
    - Alerts, History, Notify: the alert rules' state machine and the incident
      table; the ring of samples with its files; the notifier, its channels,
      the address filter, mail text and the deduplicating engine.

    Each operation is one Definition with the name of its Go function, its
    guards and early returns in the code's order ([Set_], [Record_], [Status_]
    where the name is taken).  A store is a Record; a method maps it to its
    result and the new store, and mutations made before an error are kept, as
    the code keeps them.  A mutex-protected section is one step; where a method
    can interleave in the middle (EventHub, Firewall) it is split there.  The
    clock, random bytes, generated ids and the outcomes of system calls and
    commands are arguments.

    ** What the theorems show

    - Identity: [Middleware_identity], [guarded_route_live],
      [live_token_privileges_current], [revocation_is_final],
      [revoked_until_expiry], [revoked_token_dead], [Validate_sound],
      [ticket_single_use], [ticket_valid_until_ttl], [vnc_ticket_scope],
      [HasPermission_policy].
    - Access: [vm_routes_owned], [writes_need_operator],
      [admin_areas_closed], [list_matches_access], [disk_source_confined],
      [schedule_needs_capability].
    - Credentials: [totp_no_replay], [backup_code_single_use],
      [MatchTOTP_window], [ChangePassword_effective], [seed_admin_kept].
    - Abuse: [brute_force_bound], [lockout_enforced], [rate_limit_isolated],
      [sweep_bounds_memory], [ResolveClientIP_sound],
      [ResolveClientIP_unspoofable], [whitelisted_never_banned],
      [ban_at_threshold], [cooldown_no_false_positive], [per_ip_cap].
    - Firewall: [management_always_reachable], [ruleset_exact],
      [ruleset_tokens_clean], [safe_apply_reverts],
      [restart_restores_firewall].
    - Durability: [saves_are_atomic], [users_roundtrip],
      [restart_preserves_revocation], [restart_keeps_registry],
      [restart_ends_jobs].
    - Backups: [OrderedEntries_complete], [AppendEntry_extends],
      [decideRetention_exact], [retention_all_or_nothing],
      [retention_spares], [ValidBackupFilename_safe], [backup_store_typed],
      [CreateTargetOpts_all_or_nothing], [DeleteBackupFile_confined],
      [ValidateTargetPath_exact], [smb_mount_exact],
      [failed_mount_leaves_no_file], [Reconcile_converges].
    - Runs and restores: [successful_run_is_complete], [every_run_ends_its_job],
      [full_run_keeps_files], [scheduled_ticks_do_nothing],
      [config_archive_holds_no_secret], [archive_restores_disks],
      [unpinned_host_gets_nothing], [restore_confined], [restore_gives_back],
      [checkpoint_rebuilds_lineage].
    - Uploads and jobs: [iso_job_ends], [disk_upload_vetted],
      [uploads_never_clobber], [jobs_accounted], [jobs_private],
      [isBlockedIP_exact].
    - Host disks: [nothing_in_use_destroyed], [disk_free_exact],
      [zvol_created_exact], [zvol_device_confined], [pools_one_per_purpose],
      [findOrphans_exact], [ata_report_sensible], [Probe_cached].
    - Fleet: [registry_keeps_local], [registry_survives_restart],
      [Summary_counts], [bridges_saved_exact].
    - Machines: [checkQuota_exact], [checkStartQuota_exact],
      [bytesToGB_rounding], [DeleteSnapshot_exact], [schedules_in_sync],
      [auto_snapshots_bounded].
    - Seeds and snippets: [user_data_reads_back], [network_config_reads_back],
      [GeneratePassword_total], [snippets_confidential], [snippets_protected],
      [snippets_survive_restart], [applyCloudInit_exact],
      [ReapplyCloudInit_exact].
    - Storage and host: [MoveDomainStorage_exact], [VMDiskPath_fresh],
      [dependents_guard_deletion], [Inspect_exact],
      [Convert_never_overwrites], [CheckChainInside_exact],
      [moves_stay_on_one_side], [merged_lists_exact], [import_needs_admin],
      [persistNetplanBond_all_or_nothing], [bond_entries_exact].
    - Settings: [SetMany_all_or_nothing], [settings_sound],
      [settings_survive_restart], [settings_reach_components],
      [rate_change_is_live], [exempt_equals_trusted].
    - Events: [hub_safe], [alerts_sustained_and_spaced],
      [incidents_bounded], [history_bounded], [buckets_exact],
      [History_exact], [alerts_sent_exact], [notifier_safe],
      [dial_filter_exact], [mail_text_clean]; and [media_ref_canonical].

    Examples in the files show where the code departs from its comments or
    from its intent.  The gravest: the rotation of automatic snapshots deletes
    every snapshot ([rotation_deletes_everything]); from the second flush on
    the metric history does not survive a restart ([restart_loses_history]); a
    fleet run shared by two chains lets retention delete the base of one
    ([shared_run_prunes_base]); every firewall change unbans the jailed
    addresses ([apply_clears_jail]), and a late timer rolls back the wrong
    change ([stale_timer_rolls_back]); a backup target's path is not checked
    when its type changes ([type_change_escapes]); the last administrator can
    be lost ([last_admin_lost]); a refused update still changes the password
    ([refused_update_changes_password]); a move that is rolled back can leave a
    machine without its disk ([rollback_leaves_the_machine_at_nothing]); a
    scheduled backup never runs ([scheduled_ticks_do_nothing]); a
    snippet shadows the parts of the generated document it repeats
    ([snippet_shadows]); a base image is deleted when the pools cannot be
    listed ([unlistable_pools_free_the_base]); only the last file of an upload is
    vetted ([first_file_not_vetted]); a job whose worker panicked runs for ever
    ([jobs_accounted]); formatting a partition can format another one
    ([sibling_formatted]), and a device path given as the topology of a pool passes
    every guard by ([topology_is_a_device]).

    ** Parameters and bounds

    Code outside the repository is a parameter: bcrypt, the JWT library,
    SHA-256, the Unicode tables, the token buckets of golang.org/x/time/rate,
    the cron parsers; [sort.Slice] is any function that sorts, as its
    documentation says, and no more, and the order of a walk over a map is any
    order of its keys.  [filepath.EvalSymlinks], the kind of a file and the
    output of systemd-escape are parameters; theorems that need more of them
    say so (a resolved path is absolute and clean).  The hypervisor is a record
    of the calls the code makes; [nft] is its documented transaction, with the
    accept, drop, dnat and set semantics of the rules rendered; libvirt's
    snapshot calls keep a tree.  Documents on disk are the values stored
    (whole or torn), a metric line one token, so that where lines break is
    modelled and their JSON text is not.

    The readers and writers of compressed streams, [net/url], the resolver and the
    network, the SSH and S3 clients, and [virsh] are parameters or outcomes.  A
    command on the host is its argument list, and its answer any function of the
    whole history of what was done before it, so that a theorem about a sequence of
    checks and commands does not take the host to stand still; the JSON of [lsblk]
    is taken decoded.

    The crypt hash, [text/template], the YAML library of the netplan code,
    [qemu-img], symbolic links, file kinds, file copies and the answers of the
    hypervisor to a change of a definition are parameters or outcomes.  The
    documents of a seed are concrete text; what is proved of them is relative
    to the reader in Yaml, which keeps to block collections, plain and quoted
    scalars and literal blocks, takes flow collections and double-quoted text
    as they stand, and refuses everything else.

    A number of a settings request is a 64-bit float, a significand and an
    exponent of two; an [int] conversion out of range yields the least integer,
    as on amd64.

    Fuel occurs in [lineage] (one more than the entries of a well-formed chain
    is enough, and proved to be), in the recursive deletion of snapshots (one
    more than there are; proved enough on a tree), in the walk to the parent of
    a missing path (its length), in the eviction of incidents (the size of the
    table, each turn removes one), in the decimal printers (20 digits hold any
    [int64]) and in the string stripper (the length of the string).  Session
    epochs are [int64]; the theorems about them assume fewer operations than
    would overflow one.  A chain of backing files is followed for 64 images, as
    the code does; the YAML reader has fuel for three turns for each line, which
    the theorems that documents read back show to be enough.

    ** Not modelled, and why

    The connectors to libvirt and Incus beyond the snapshot tree and the storage
    operations named above, because they translate requests into XML and calls of
    a daemon whose answers they pass on; the command-line programs, which parse
    flags and call the server; the exporters of metrics and the JSON of [smartctl];
    the browsing of remote shares, which calls SMB and NFS clients; the audit log and the logging, which append text to files;
    the catalogues of appliances and helper scripts, which are data; [recover] and
    panics other than those of background jobs; the listing of arrays from sysfs,
    which is [filepath.Glob] and [fmt.Sscanf]; the embedded frontend, and everything
    that is not Go. *)

From Stdlib Require Export ZArith Lia.
From stdpp Require Export base option list gmap strings sorting.

#[export] Set Default Goal Selector "!".
Open Scope Z_scope.

(** ** Results: a Go function's [(value, error)] pair *)

Inductive res (E A : Type) : Type :=
| Ok (a : A)
| Err (e : E).
Arguments Ok {E A} a.
Arguments Err {E A} e.

#[export] Instance res_ret {E} : MRet (res E) := fun _ => Ok.
#[export] Instance res_bind {E} : MBind (res E) := fun _ _ f r =>
  match r with Ok a => f a | Err e => Err e end.
#[export] Instance res_fmap {E} : FMap (res E) := fun _ _ f r =>
  match r with Ok a => Ok (f a) | Err e => Err e end.

Definition is_ok {E A} (r : res E A) : bool :=
  match r with Ok _ => true | Err _ => false end.

#[export] Instance res_eq_dec {E A} `{EqDecision E} `{EqDecision A} :
  EqDecision (res E A).
Proof. solve_decision. Defined.

(** ** Handlers: state passing with errors

    A method that mutates its receiver in place and may return an error: the
    mutations made before the error stay. *)

Definition SE (S E A : Type) : Type := S -> res E A * S.

Section SE.
Context {S E : Type}.
#[export] Instance se_ret : MRet (SE S E) := fun _ a s => (Ok a, s).
#[export] Instance se_bind : MBind (SE S E) := fun _ _ f m s =>
  match m s with (Ok a, s) => f a s | (Err e, s) => (Err e, s) end.
Definition se_modify (f : S -> S) : SE S E unit := fun s => (Ok tt, f s).
Definition se_get : SE S E S := fun s => (Ok s, s).
Definition se_fail {A} (e : E) : SE S E A := fun s => (Err e, s).
(** [if c { return e }] *)
Definition se_guard (c : bool) (e : E) : SE S E unit := fun s => (if c then Err e else Ok tt, s).
Definition se_when (c : bool) (m : SE S E unit) : SE S E unit := if c then m else mret tt.
Definition se_lift {A} (r : res E A) : SE S E A := fun s => (r, s).

(** [m] moves the state along [R], whatever it returns. *)
Definition se_within {A} (R : S -> S -> Prop) (m : SE S E A) : Prop := forall s, R s (m s).2.

Lemma se_within_bind {A B} (R1 R2 R : S -> S -> Prop) (m : SE S E A) (f : A -> SE S E B) :
  (forall s1 s2 s3, R1 s1 s2 -> R2 s2 s3 -> R s1 s3) -> (forall s1 s2, R1 s1 s2 -> R s1 s2) ->
  se_within R1 m -> (forall a, se_within R2 (f a)) -> se_within R (m ≫= f).
Proof.
  intros Ht Hi Hm Hf s. unfold mbind, se_bind. specialize (Hm s).
  destruct (m s) as [[a|e] s']; simpl in *; [|by apply Hi].
  eapply Ht; [done|apply Hf].
Qed.

(** How the first statement of a method runs. *)
Lemma run_guard {B} c (e : E) (f : SE S E B) s :
  (se_guard c e ≫= fun _ => f) s = if c then (Err e, s) else f s.
Proof. by destruct c. Qed.

Lemma run_get {B} (f : S -> SE S E B) s : (se_get ≫= f) s = f s s.
Proof. done. Qed.

Lemma run_lift {A B} (r : res E A) (f : A -> SE S E B) s :
  (se_lift r ≫= f) s = match r with Ok a => f a s | Err e => (Err e, s) end.
Proof. by destruct r. Qed.

Lemma run_modify {B} g (f : SE S E B) s : (se_modify g ≫= fun _ => f) s = f (g s).
Proof. done. Qed.

Lemma run_bind {A B} (m : SE S E A) (f : A -> SE S E B) s :
  (m ≫= f) s = match m s with (Ok a, s) => f a s | (Err e, s) => (Err e, s) end.
Proof. done. Qed.

(** [m] keeps the invariant [P], whatever it returns. *)
Definition preserves {A} (P : S -> Prop) (m : SE S E A) : Prop := forall s, P s -> P (m s).2.

Section Preserves.
Context (P : S -> Prop).

Lemma pres_ret {A} (a : A) : preserves P (mret a).
Proof. by intros s. Qed.

Lemma pres_get : preserves P se_get.
Proof. by intros s. Qed.

Lemma pres_fail {A} (e : E) : preserves P (se_fail (A := A) e).
Proof. by intros s. Qed.

Lemma pres_guard c (e : E) : preserves P (se_guard c e).
Proof. by intros s. Qed.

Lemma pres_lift {A} (r : res E A) : preserves P (se_lift r).
Proof. by intros s. Qed.

Lemma pres_modify (f : S -> S) : (forall s, P s -> P (f s)) -> preserves P (se_modify f).
Proof. intros H s. apply H. Qed.

Lemma pres_when c (m : SE S E unit) : (c = true -> preserves P m) -> preserves P (se_when c m).
Proof. destruct c; [by intros H; apply H|by intros _ s]. Qed.

Lemma pres_bind {A B} (m : SE S E A) (f : A -> SE S E B) :
  preserves P m -> (forall a, preserves P (f a)) -> preserves P (m ≫= f).
Proof.
  intros Hm Hf s Hs. unfold mbind, se_bind. specialize (Hm s Hs).
  destruct (m s) as [[a|e] s']; [by apply Hf|done].
Qed.

(** A value that was computed without touching the state. *)
Lemma pres_bind_lift {A B} (r : res E A) (f : A -> SE S E B) :
  (forall a, r = Ok a -> preserves P (f a)) -> preserves P (se_lift r ≫= f).
Proof. intros Hf s Hs. unfold mbind, se_bind, se_lift. destruct r; [by apply Hf|done]. Qed.
End Preserves.
End SE.
Create HintDb pres discriminated.
#[export] Hint Resolve pres_ret pres_get pres_fail pres_guard pres_lift : pres.

(** ** Machine integers

    [int] and [int64] are 64-bit two's complement; [wrap64] is the value an
    out-of-range result wraps to. *)

Definition int64_min : Z := - 2 ^ 63.
Definition int64_max : Z := 2 ^ 63 - 1.
Definition wrap64 (x : Z) : Z := (x + 2 ^ 63) mod 2 ^ 64 - 2 ^ 63.
Definition is_int64 (x : Z) : Prop := int64_min <= x <= int64_max.

Lemma wrap64_id x : is_int64 x -> wrap64 x = x.
Proof.
  unfold is_int64, int64_min, int64_max, wrap64; intros H.
  rewrite Z.mod_small; lia.
Qed.

Lemma wrap64_range x : is_int64 (wrap64 x).
Proof.
  unfold is_int64, int64_min, int64_max, wrap64.
  pose proof (Z.mod_pos_bound (x + 2 ^ 63) (2 ^ 64)). lia.
Qed.

(** Undoing an increment. *)
Lemma wrap64_pred_succ e : is_int64 e -> wrap64 (wrap64 (e + 1) - 1) = e.
Proof.
  unfold wrap64, is_int64, int64_min, int64_max. intros He.
  replace ((e + 1 + 2 ^ 63) mod 2 ^ 64 - 2 ^ 63 - 1 + 2 ^ 63)
    with ((e + 1 + 2 ^ 63) mod 2 ^ 64 + (-1)) by lia.
  rewrite Z.add_mod_idemp_l by lia. rewrite Z.mod_small; lia.
Qed.

(** ** time.Time and time.Duration

    An instant is its number of nanoseconds since the Unix epoch; the zero
    [time.Time] is 1 January of year 1.  A duration is an [int64] of
    nanoseconds: [Time.Sub] saturates, duration products wrap. *)

Definition nsec : Z := 1.
Definition second : Z := 1000000000.
Definition minute : Z := 60 * second.
Definition hour : Z := 60 * minute.
Definition day : Z := 24 * hour.

Definition time_zero : Z := - 62135596800 * second.
Definition is_zero (t : Z) : bool := t =? time_zero.
Definition before (t u : Z) : bool := t <? u.
Definition after (t u : Z) : bool := u <? t.
Definition sat64 (x : Z) : Z := Z.max int64_min (Z.min int64_max x).
Definition time_sub (t u : Z) : Z := sat64 (t - u).
Definition time_add (t d : Z) : Z := t + d.
Definition time_unix (t : Z) : Z := t / second.
Definition truncate (t d : Z) : Z :=
  if d <=? 0 then t else t - (t - time_zero) mod d.

Lemma time_sub_exact t u : is_int64 (t - u) -> time_sub t u = t - u.
Proof. unfold time_sub, sat64, is_int64. lia. Qed.

(** Saturation is harmless for comparisons against an [int64] bound. *)
Lemma time_sub_gt t u d : is_int64 d -> d <> int64_max -> (d < time_sub t u <-> d < t - u).
Proof. unfold time_sub, sat64, is_int64. lia. Qed.

Lemma time_sub_ge t u d : is_int64 d -> d <> int64_min -> (d <= time_sub t u <-> d <= t - u).
Proof. unfold time_sub, sat64, is_int64. lia. Qed.

Lemma time_sub_lt t u d : is_int64 d -> d <> int64_min -> (time_sub t u < d <-> t - u < d).
Proof. unfold time_sub, sat64, is_int64. lia. Qed.

Lemma time_sub_le t u d : is_int64 d -> d <> int64_max -> (time_sub t u <= d <-> t - u <= d).
Proof. unfold time_sub, sat64, is_int64. lia. Qed.

Create HintDb go discriminated.
#[export] Hint Resolve wrap64_range wrap64_id : go.

(** ** Tactics *)

(** Turn the boolean tests of the translated code into propositions. *)
Ltac bool_norm :=
  repeat match goal with
  | H : (_ && _)%bool = true |- _ => apply andb_prop in H as [? ?]
  | H : (_ || _)%bool = false |- _ => apply orb_false_elim in H as [? ?]
  | H : negb _ = true |- _ => apply negb_true_iff in H
  | H : negb _ = false |- _ => apply negb_false_iff in H
  | H : (_ =? _)%Z = true |- _ => apply Z.eqb_eq in H
  | H : (_ =? _)%Z = false |- _ => apply Z.eqb_neq in H
  | H : (_ <? _)%Z = true |- _ => apply Z.ltb_lt in H
  | H : (_ <? _)%Z = false |- _ => apply Z.ltb_ge in H
  | H : (_ <=? _)%Z = true |- _ => apply Z.leb_le in H
  | H : (_ <=? _)%Z = false |- _ => apply Z.leb_gt in H
  | H : String.eqb _ _ = true |- _ => apply String.eqb_eq in H
  | H : String.eqb _ _ = false |- _ => apply String.eqb_neq in H
  | H : bool_decide _ = true |- _ => apply bool_decide_eq_true in H
  | H : bool_decide _ = false |- _ => apply bool_decide_eq_false in H
  end.

(** A lookup at [i] in a map updated at [j]: the new entry, or the old one. *)
Ltac lookup_cases i j :=
  destruct (decide (i = j)) as [->|?];
  [rewrite ?lookup_insert_eq | rewrite ?lookup_insert_ne by done].

(** Linear arithmetic with the bounds of [int64]. *)
Ltac int64_lia := unfold is_int64, int64_min, int64_max in *; lia.

(** Case-split every [match]/[if] of the goal or of hypothesis [H]. *)
Ltac split_goal := repeat (case_match; simplify_eq/=; try done).
Ltac split_in H :=
  repeat match type of H with
  | context [match ?x with _ => _ end] => destruct x eqn:?; simplify_eq/=
  end.

(** ** Reachability: finite sequences of steps *)

Section Star.
Context {S L : Type} (step : L -> S -> S).

(** The state after a sequence of labelled deterministic steps. *)
Definition run (ls : list L) (s : S) : S := foldl (fun s l => step l s) s ls.

Lemma run_app ls1 ls2 s : run (ls1 ++ ls2) s = run ls2 (run ls1 s).
Proof. apply foldl_app. Qed.

Lemma run_invariant (P : S -> Prop) ls s :
  (forall l s, P s -> P (step l s)) -> P s -> P (run ls s).
Proof. intros Hstep; revert s; induction ls; simpl; eauto. Qed.

Lemma run_invariant_labels (Q : L -> Prop) (P : S -> Prop) ls s :
  (forall l s, Q l -> P s -> P (step l s)) -> Forall Q ls -> P s -> P (run ls s).
Proof. intros Hstep HF; revert s; induction HF; simpl; eauto. Qed.
End Star.

(** ** Map and list lemmas shared by the components *)

(** [for k, v := range m { if p(v) { delete(m, k) } }] *)
Definition map_delete_if {K V} `{Countable K} (p : K -> V -> bool) (m : gmap K V) : gmap K V :=
  filter (fun kv => p kv.1 kv.2 = false) m.

Lemma lookup_map_delete_if {K V} `{Countable K} (p : K -> V -> bool) (m : gmap K V) k :
  map_delete_if p m !! k =
    match m !! k with Some v => if p k v then None else Some v | None => None end.
Proof.
  unfold map_delete_if. destruct (m !! k) as [v|] eqn:Hk.
  - destruct (p k v) eqn:E.
    + apply map_lookup_filter_None. right. intros v' Hv'. simpl. congruence.
    + apply map_lookup_filter_Some. by split.
  - apply map_lookup_filter_None. by left.
Qed.

Lemma map_delete_if_subseteq {K V} `{Countable K} (p : K -> V -> bool) (m : gmap K V) :
  map_delete_if p m ⊆ m.
Proof. apply map_filter_subseteq. Qed.

Lemma find_app {A} (f : A -> bool) l l' :
  List.find f (l ++ l') = match List.find f l with Some x => Some x | None => List.find f l' end.
Proof. induction l as [|a l IH]; simpl; [done|]. by destruct (f a). Qed.
