(* ===== verification/GoStrings.v ===== *)
(** * GoStrings: the functions of Go's [strings] package the program uses

    A Go string is a sequence of bytes; it is modelled by [string] (a list of
    8-bit [ascii] characters), so indices and lengths count bytes as in Go.
    [TrimSpace] also strips the UTF-8 encodings of the non-ASCII white space
    characters. *)

From stdpp Require Export pretty.
From S2P Require Export Prelude.
From Stdlib Require Export Ascii.
Open Scope Z_scope.

#[global] Arguments String.append !_ _ / : simpl nomatch.

Definition nonempty (s : string) : bool := negb (String.eqb s "").
Definition slen (s : string) : nat := String.length s.

(** [s\[n:\]] and [s\[:n\]] (within bounds). *)
Fixpoint drop_str (n : nat) (s : string) : string :=
  match n, s with
  | O, _ => s
  | S n, EmptyString => EmptyString
  | S n, String _ s => drop_str n s
  end.

Fixpoint take_str (n : nat) (s : string) : string :=
  match n, s with
  | O, _ => EmptyString
  | S n, EmptyString => EmptyString
  | S n, String c s => String c (take_str n s)
  end.

Definition has_prefix (p s : string) : bool := String.prefix p s.

Definition has_suffix (p s : string) : bool :=
  if Nat.leb (slen p) (slen s) then String.eqb (drop_str (slen s - slen p) s) p else false.

Definition trim_suffix (p s : string) : string :=
  if has_suffix p s then take_str (slen s - slen p) s else s.

(** [strings.IndexByte]: position of the first occurrence. *)
Fixpoint index_byte (c : ascii) (s : string) : option nat :=
  match s with
  | EmptyString => None
  | String d s => if Ascii.eqb c d then Some O else S <$> index_byte c s
  end.

(** [strings.LastIndexByte]. *)
Fixpoint last_index_byte (c : ascii) (s : string) : option nat :=
  match s with
  | EmptyString => None
  | String d s =>
      match last_index_byte c s with
      | Some i => Some (S i)
      | None => if Ascii.eqb c d then Some O else None
      end
  end.

Definition contains_byte (c : ascii) (s : string) : bool :=
  match index_byte c s with Some _ => true | None => false end.

(** [strings.Contains s sub]. *)
Fixpoint contains_str (sub s : string) : bool :=
  has_prefix sub s ||
  match s with EmptyString => false | String _ s' => contains_str sub s' end.

(** [strings.Split s sep] for a one-byte separator. *)
Fixpoint split_byte (sep : ascii) (s : string) : list string :=
  match s with
  | EmptyString => [EmptyString]
  | String c s =>
      if Ascii.eqb c sep then EmptyString :: split_byte sep s
      else match split_byte sep s with
           | w :: ws => String c w :: ws
           | [] => [String c EmptyString]
           end
  end.

Fixpoint join_str (sep : string) (l : list string) : string :=
  match l with
  | [] => EmptyString
  | [w] => w
  | w :: ws => w +:+ sep +:+ join_str sep ws
  end.

Fixpoint all_bytes (p : ascii -> bool) (s : string) : bool :=
  match s with EmptyString => true | String c s => p c && all_bytes p s end.

Fixpoint map_str (f : ascii -> ascii) (s : string) : string :=
  match s with EmptyString => EmptyString | String c s => String (f c) (map_str f s) end.

(** ** Character classes *)

Definition code (c : ascii) : Z := Z.of_N (N_of_ascii c).
Definition in_range (lo hi : ascii) (c : ascii) : bool :=
  (code lo <=? code c) && (code c <=? code hi).
Definition is_digit (c : ascii) : bool := in_range "0" "9" c.
Definition is_lower (c : ascii) : bool := in_range "a" "z" c.
Definition is_upper (c : ascii) : bool := in_range "A" "Z" c.
Definition is_alpha (c : ascii) : bool := is_lower c || is_upper c.

Definition lower_ascii (c : ascii) : ascii :=
  if is_upper c then ascii_of_N (N_of_ascii c + 32) else c.
Definition upper_ascii (c : ascii) : ascii :=
  if is_lower c then ascii_of_N (N_of_ascii c - 32) else c.

(** [strings.ToLower] / [ToUpper] on the ASCII range; other bytes are kept. *)
Definition to_lower (s : string) : string := map_str lower_ascii s.
Definition to_upper (s : string) : string := map_str upper_ascii s.

(** ** [strings.TrimSpace] *)

Definition bytes_str (l : list N) : string :=
  foldr (fun n s => String (ascii_of_N n) s) EmptyString l.

(** UTF-8 encodings of the characters with [unicode.IsSpace]. *)
Definition space_encodings : list string := map bytes_str
  [[9];[10];[11];[12];[13];[32];[194;133];[194;160];[225;154;128];
   [226;128;128];[226;128;129];[226;128;130];[226;128;131];[226;128;132];
   [226;128;133];[226;128;134];[226;128;135];[226;128;136];[226;128;137];
   [226;128;138];[226;128;168];[226;128;169];[226;128;175];[226;129;159];
   [227;128;128]]%N.

Definition strip_space_left (s : string) : option string :=
  match List.find (fun p => has_prefix p s) space_encodings with
  | Some p => Some (drop_str (slen p) s)
  | None => None
  end.

Definition strip_space_right (s : string) : option string :=
  match List.find (fun p => has_suffix p s) space_encodings with
  | Some p => Some (take_str (slen s - slen p) s)
  | None => None
  end.

Fixpoint iter_strip (f : string -> option string) (fuel : nat) (s : string) : string :=
  match fuel with
  | O => s
  | S n => match f s with Some s' => iter_strip f n s' | None => s end
  end.

(** Every stripping step removes at least one byte, so [slen s] steps are
    enough. *)
Definition trim_space (s : string) : string :=
  let l := iter_strip strip_space_left (slen s) s in
  iter_strip strip_space_right (slen l) l.

(** [strings.TrimRight s "="] and the like: drop trailing bytes of a set. *)
Fixpoint trim_right_set (p : ascii -> bool) (s : string) : string :=
  match s with
  | EmptyString => EmptyString
  | String c s' =>
      match trim_right_set p s' with
      | EmptyString => if p c then EmptyString else String c EmptyString
      | t => String c t
      end
  end.

(** [sort.Strings]: byte order. *)
Definition str_le (a b : string) : Prop := String.leb a b = true.
#[export] Instance str_le_dec : RelDecision str_le.
Proof. intros a b. unfold str_le. apply _. Defined.
Definition sort_strings (l : list string) : list string := merge_sort str_le l.

(** ** Lemmas *)

Lemma sort_strings_Permutation l : sort_strings l ≡ₚ l.
Proof. apply merge_sort_Permutation. Qed.

Lemma slen_app s1 s2 : slen (s1 +:+ s2) = (slen s1 + slen s2)%nat.
Proof. unfold slen. induction s1; simpl; [done|]. by rewrite IHs1. Qed.

Lemma take_drop_str n s : take_str n s +:+ drop_str n s = s.
Proof. revert n; induction s; intros [|n]; simpl; try done. by rewrite IHs. Qed.

Lemma take_str_app_length s1 s2 : take_str (slen s1) (s1 +:+ s2) = s1.
Proof. induction s1; simpl; [by destruct s2|]. by rewrite IHs1. Qed.

Lemma drop_str_app_length s1 s2 : drop_str (slen s1) (s1 +:+ s2) = s2.
Proof. induction s1; simpl; [by destruct s2|done]. Qed.

Lemma app_str_assoc (s1 s2 s3 : string) : (s1 +:+ s2) +:+ s3 = s1 +:+ (s2 +:+ s3).
Proof. induction s1; simpl; [done|]. by rewrite IHs1. Qed.

Lemma app_str_nil_r s : s +:+ "" = s.
Proof. induction s; simpl; [done|]. by rewrite IHs. Qed.

Lemma take_str_length n s : slen (take_str n s) = (n `min` slen s)%nat.
Proof. revert n; induction s; intros [|n]; simpl; try done. by rewrite IHs. Qed.

Lemma drop_str_length n s : slen (drop_str n s) = (slen s - n)%nat.
Proof. revert n; induction s; intros [|n]; simpl; try done. Qed.

Lemma app_str_inj s t1 t2 : s +:+ t1 = s +:+ t2 -> t1 = t2.
Proof. induction s; simpl; [done|]. intros [=]. auto. Qed.

(** Two decompositions of one string, the first cut not to the right of the second. *)
Lemma app_str_split (s1 s2 s3 s4 : string) :
  s1 +:+ s2 = s3 +:+ s4 -> (slen s1 <= slen s3)%nat ->
  exists m, s3 = s1 +:+ m /\ s2 = m +:+ s4.
Proof.
  revert s3. induction s1 as [|c s1 IH]; intros s3 H Hl; [by exists s3|].
  destruct s3 as [|d s3]; [simpl in Hl; lia|]. simpl in H. injection H as -> H.
  apply IH in H as (m & -> & ->); [by exists m|simpl in Hl; lia].
Qed.

(** Cutting off a known prefix and suffix. *)
Lemma cut_middle p m q :
  drop_str (slen p) (take_str (slen (p +:+ m +:+ q) - slen q) (p +:+ m +:+ q)) = m.
Proof.
  replace (slen (p +:+ m +:+ q) - slen q)%nat with (slen (p +:+ m)) by (rewrite !slen_app; lia).
  by rewrite <- app_str_assoc, take_str_app_length, drop_str_app_length.
Qed.

Lemma has_prefix_spec p s : has_prefix p s = true <-> exists t, s = p +:+ t.
Proof.
  unfold has_prefix. revert s. induction p as [|c p IH]; intros [|d s].
  1,2: split; [by eexists|done].
  1: split; [done|by intros [t ?]].
  cbn [String.prefix]. destruct (ascii_dec c d) as [->|Hne].
  - rewrite IH. split; intros [t Ht]; exists t; simpl in *; congruence.
  - split; [done|]. intros [t [=]]. congruence.
Qed.

Lemma has_suffix_spec p s : has_suffix p s = true <-> exists t, s = t +:+ p.
Proof.
  unfold has_suffix. destruct (Nat.leb_spec (slen p) (slen s)) as [Hle|Hgt].
  - rewrite String.eqb_eq. split.
    + intros Hd. exists (take_str (slen s - slen p) s).
      etrans; [symmetry; apply (take_drop_str (slen s - slen p))|]. by rewrite Hd.
    + intros [t ->]. rewrite slen_app, Nat.add_sub. apply drop_str_app_length.
  - split; [done|]. intros [t ->]. rewrite slen_app in Hgt. lia.
Qed.

Lemma trim_suffix_app t p : trim_suffix p (t +:+ p) = t.
Proof.
  unfold trim_suffix. rewrite (proj2 (has_suffix_spec _ _)); [|eauto].
  rewrite slen_app, Nat.add_sub. apply take_str_app_length.
Qed.

Lemma split_byte_ne sep s : split_byte sep s <> [].
Proof. destruct s; simpl; [done|]. repeat case_match; done. Qed.

(** Appending a suffix after a separator appends its pieces. *)
Lemma split_byte_app sep s1 s2 :
  split_byte sep (s1 +:+ String sep s2) = split_byte sep s1 ++ split_byte sep s2.
Proof.
  induction s1 as [|c s1 IH]; simpl.
  - by rewrite Ascii.eqb_refl.
  - destruct (Ascii.eqb c sep); rewrite IH; [done|].
    destruct (split_byte sep s1) eqn:E; [by apply split_byte_ne in E|done].
Qed.

Lemma last_index_byte_None c s : last_index_byte c s = None <-> contains_byte c s = false.
Proof.
  unfold contains_byte. induction s as [|d s IH]; simpl; [done|].
  destruct (last_index_byte c s), (index_byte c s), (Ascii.eqb c d); simpl in *; intuition congruence.
Qed.

Lemma contains_byte_app c s1 s2 :
  contains_byte c (s1 +:+ s2) = contains_byte c s1 || contains_byte c s2.
Proof.
  unfold contains_byte. induction s1 as [|d s1 IH]; simpl; [done|].
  destruct (Ascii.eqb c d); [done|].
  destruct (index_byte c (s1 +:+ s2)), (index_byte c s1); simpl in *; congruence.
Qed.

(** The last occurrence splits [s] as [l ++ c ++ r] with no [c] in [r]. *)
Lemma last_index_byte_app c l r :
  contains_byte c r = false -> last_index_byte c (l +:+ String c r) = Some (slen l).
Proof.
  intros Hr. induction l as [|d l IH]; simpl.
  - apply last_index_byte_None in Hr. by rewrite Hr, Ascii.eqb_refl.
  - by rewrite IH.
Qed.

Lemma all_bytes_app p s1 s2 : all_bytes p (s1 +:+ s2) = all_bytes p s1 && all_bytes p s2.
Proof. induction s1; simpl; [done|]. by rewrite IHs1, andb_assoc. Qed.

Lemma all_bytes_no_byte p c s : all_bytes p s = true -> p c = false -> contains_byte c s = false.
Proof.
  intros Hs Hc. unfold contains_byte. induction s as [|d s IH]; [done|].
  simpl in *. apply andb_prop in Hs as [Hd Hs]. destruct (Ascii.eqb_spec c d) as [->|]; [congruence|].
  specialize (IH Hs). by destruct (index_byte c s).
Qed.

Lemma contains_byte_drop c n s : contains_byte c s = false -> contains_byte c (drop_str n s) = false.
Proof.
  intros H. rewrite <- (take_drop_str n s), contains_byte_app in H. by apply orb_false_elim in H as [_ H].
Qed.
