(* ===== verification/TrimSpace.v ===== *)
(** * TrimSpace: what [strings.TrimSpace] removes

    The encodings of the white space characters are prefix-free and
    suffix-free, so trimming is well defined by its result: the middle of any
    decomposition into white space, a text that neither starts nor ends with
    it, and white space. *)

From S2P Require Export GoStrings.

Definition starts_space (s : string) : bool := existsb (fun p => has_prefix p s) space_encodings.
Definition ends_space (s : string) : bool := existsb (fun p => has_suffix p s) space_encodings.

(** Concatenations of white space characters. *)
Inductive spaces : string -> Prop :=
| spaces_nil : spaces ""
| spaces_cons e s : In e space_encodings -> spaces s -> spaces (e +:+ s).

Lemma spaces_app a b : spaces a -> spaces b -> spaces (a +:+ b).
Proof. induction 1; intros Hb; simpl; [done|]. rewrite app_str_assoc. by constructor; auto. Qed.
Lemma spaces_one e : In e space_encodings -> spaces e.
Proof. intros H. rewrite <- (app_str_nil_r e). apply spaces_cons; [done|constructor]. Qed.

(** ** The encodings *)

Lemma encodings_free :
  forallb (fun e => forallb (fun p => (String.eqb e p || negb (has_prefix e p)) && (String.eqb e p || negb (has_suffix e p)))
    space_encodings && negb (String.eqb e "")) space_encodings = true.
Proof. by vm_compute. Qed.

Lemma encoding_free e p :
  In e space_encodings -> In p space_encodings ->
  (has_prefix e p = true -> e = p) /\ (has_suffix e p = true -> e = p) /\ e <> "".
Proof.
  intros He Hp. pose proof (proj1 (forallb_forall _ _) encodings_free e He) as H. cbn beta in H.
  apply andb_prop in H as [H Hn]. pose proof (proj1 (forallb_forall _ _) H p Hp) as H'. cbn beta in H'.
  apply andb_prop in H' as [H1 H2]. destruct (String.eqb_spec e p) as [E|Hne], (String.eqb_spec e "") as [E0|]; try done.
  by destruct (has_prefix e p), (has_suffix e p).
Qed.

Lemma prefix_free e m : In e space_encodings -> In (e +:+ m) space_encodings -> e = e +:+ m.
Proof. intros He Hp. destruct (encoding_free _ _ He Hp) as (H & _ & _). apply H, has_prefix_spec. eauto. Qed.
Lemma suffix_free e m : In e space_encodings -> In (m +:+ e) space_encodings -> e = m +:+ e.
Proof. intros He Hp. destruct (encoding_free _ _ He Hp) as (_ & H & _). apply H, has_suffix_spec. eauto. Qed.

(** No encoding starts inside a text that ends an encoding: a proper beginning
    of one is never completed by the beginning of another. *)
Lemma no_overlap :
  forallb (fun e => forallb (fun n => forallb (fun p => match drop_str n e, p with
      | String c _, String d _ => negb (Ascii.eqb c d)
      | _, _ => true
      end) space_encodings) (seq 1 (slen e - 1))) space_encodings = true.
Proof. by vm_compute. Qed.

Lemma encoding_strip_left e s : In e space_encodings -> strip_space_left (e +:+ s) = Some s.
Proof.
  intros He. unfold strip_space_left. destruct (List.find _ _) as [p|] eqn:Ef.
  - apply find_some in Ef as [Hp [t Ht]%has_prefix_spec].
    assert (p = e) as ->; [|by rewrite drop_str_app_length].
    destruct (Nat.le_gt_cases (slen e) (slen p)) as [Hl|Hl].
    + apply app_str_split in Ht as (m & -> & _); [|done]. symmetry. by apply prefix_free.
    + symmetry in Ht. apply app_str_split in Ht as (m & -> & _); [|lia]. by apply prefix_free.
  - apply (find_none _ _ Ef) in He. cbn beta in He. assert (has_prefix e (e +:+ s) = true) by (apply has_prefix_spec; eauto). congruence.
Qed.

Lemma encoding_strip_right e s : In e space_encodings -> strip_space_right (s +:+ e) = Some s.
Proof.
  intros He. unfold strip_space_right. destruct (List.find _ _) as [p|] eqn:Ef.
  - apply find_some in Ef as [Hp [t Ht]%has_suffix_spec].
    assert (p = e) as ->; [|by rewrite slen_app, Nat.add_sub, take_str_app_length].
    destruct (Nat.le_gt_cases (slen s) (slen t)) as [Hl|Hl].
    + apply app_str_split in Ht as (m & -> & E); [|done]. rewrite E. apply suffix_free; [done|by rewrite <- E].
    + symmetry in Ht. apply app_str_split in Ht as (m & -> & E); [|lia]. rewrite E. symmetry. apply suffix_free; [done|by rewrite <- E].
  - apply (find_none _ _ Ef) in He. cbn beta in He. assert (has_suffix e (s +:+ e) = true) by (apply has_suffix_spec; eauto). congruence.
Qed.

Lemma find_existsb {A} (f : A -> bool) l : (exists x, List.find f l = Some x) \/ (List.find f l = None /\ existsb f l = false).
Proof. induction l as [|x l IH]; simpl; [by right|]. destruct (f x); [by left; eexists|]. simpl. done. Qed.

Lemma strip_left_cases s :
  (starts_space s = false /\ strip_space_left s = None) \/
  exists e t, In e space_encodings /\ s = e +:+ t /\ strip_space_left s = Some t.
Proof.
  unfold starts_space, strip_space_left. destruct (find_existsb (fun p => has_prefix p s) space_encodings) as [[p E]|[E ->]]; rewrite E; [right|by left].
  apply find_some in E as [Hp [t ->]%has_prefix_spec]. exists p, t. by rewrite drop_str_app_length.
Qed.
Lemma strip_right_cases s :
  (ends_space s = false /\ strip_space_right s = None) \/
  exists e t, In e space_encodings /\ s = t +:+ e /\ strip_space_right s = Some t.
Proof.
  unfold ends_space, strip_space_right. destruct (find_existsb (fun p => has_suffix p s) space_encodings) as [[p E]|[E ->]]; rewrite E; [right|by left].
  apply find_some in E as [Hp [t ->]%has_suffix_spec]. exists p, t. by rewrite slen_app, Nat.add_sub, take_str_app_length.
Qed.

(** ** Trimming one side *)

Lemma encoding_length e : In e space_encodings -> (1 <= slen e)%nat.
Proof. intros H. destruct (encoding_free e e H H) as (_ & _ & He). destruct e; simpl; [done|lia]. Qed.

Lemma left_trim fuel s :
  (slen s <= fuel)%nat ->
  exists a, spaces a /\ s = a +:+ iter_strip strip_space_left fuel s /\ starts_space (iter_strip strip_space_left fuel s) = false.
Proof.
  revert s. induction fuel as [|fuel IH]; intros s Hl.
  - destruct s; [|simpl in Hl; lia]. exists "". split; [constructor|]. done.
  - cbn [iter_strip]. destruct (strip_left_cases s) as [[Hs ->]|(e & t & He & -> & ->)].
    + exists "". split; [constructor|done].
    + rewrite slen_app in Hl. pose proof (encoding_length e He). destruct (IH t) as (a & Ha & E & Hs); [lia|].
      exists (e +:+ a). split; [by constructor|]. split; [|done]. rewrite app_str_assoc. by f_equal.
Qed.

Lemma right_trim fuel s :
  (slen s <= fuel)%nat ->
  exists b, spaces b /\ s = iter_strip strip_space_right fuel s +:+ b /\ ends_space (iter_strip strip_space_right fuel s) = false.
Proof.
  revert s. induction fuel as [|fuel IH]; intros s Hl.
  - destruct s; [|simpl in Hl; lia]. exists "". split; [constructor|]. done.
  - cbn [iter_strip]. destruct (strip_right_cases s) as [[Hs ->]|(e & t & He & -> & ->)].
    + exists "". split; [constructor|]. by rewrite app_str_nil_r.
    + rewrite slen_app in Hl. pose proof (encoding_length e He). destruct (IH t) as (b & Hb & E & Hs); [lia|].
      exists (b +:+ e). split; [by apply spaces_app, spaces_one|]. split; [|done]. rewrite <- app_str_assoc. by f_equal.
Qed.

Lemma ends_space_encoding v e : In e space_encodings -> ends_space (v +:+ e) = true.
Proof. intros He. apply existsb_exists. exists e. split; [done|]. apply has_suffix_spec. eauto. Qed.
Lemma starts_space_encoding e v : In e space_encodings -> starts_space (e +:+ v) = true.
Proof. intros He. apply existsb_exists. exists e. split; [done|]. apply has_prefix_spec. eauto. Qed.

(** The rest is determined. *)
Lemma left_unique a b u v :
  spaces a -> spaces b -> a +:+ u = b +:+ v -> starts_space u = false -> starts_space v = false -> u = v.
Proof.
  intros Ha. revert b. induction Ha as [|e a He Ha IH]; intros b Hb E Hu Hv; destruct Hb as [|e' b He' Hb].
  - done.
  - simpl in E. subst u. by rewrite app_str_assoc, starts_space_encoding in Hu.
  - simpl in E. subst v. by rewrite app_str_assoc, starts_space_encoding in Hv.
  - rewrite !app_str_assoc in E. apply (f_equal strip_space_left) in E. rewrite !encoding_strip_left in E by done.
    injection E as E. eauto.
Qed.

Lemma spaces_snoc b : spaces b -> b = "" \/ exists c e, b = c +:+ e /\ In e space_encodings /\ spaces c.
Proof.
  induction 1 as [|e s He Hs IH]; [by left|]. right. destruct IH as [->|(c & e' & -> & He' & Hc)].
  - exists "", e. rewrite app_str_nil_r. split_and!; [done|done|constructor].
  - exists (e +:+ c), e'. rewrite app_str_assoc. split_and!; [done|done|by constructor].
Qed.

Lemma right_unique_aux n a b u v :
  (slen a <= n)%nat ->
  spaces a -> spaces b -> u +:+ a = v +:+ b -> ends_space u = false -> ends_space v = false -> u = v.
Proof.
  revert a b. induction n as [|n IH]; intros a b Hn Ha Hb E Hu Hv;
    (destruct (spaces_snoc a Ha) as [->|(c & e & -> & He & Hc)];
     [|rewrite slen_app in Hn; pose proof (encoding_length e He); try lia];
     destruct (spaces_snoc b Hb) as [->|(c' & e' & -> & He' & Hc')];
     rewrite ?app_str_nil_r, <- ?app_str_assoc in E; try done).
  1,2: subst u; by rewrite ends_space_encoding in Hu.
  - subst v. by rewrite ends_space_encoding in Hv.
  - apply (f_equal strip_space_right) in E. rewrite !encoding_strip_right in E by done.
    injection E as E. apply (IH c c'); try done. lia.
Qed.
Lemma right_unique a b u v :
  spaces a -> spaces b -> u +:+ a = v +:+ b -> ends_space u = false -> ends_space v = false -> u = v.
Proof. by apply (right_unique_aux (slen a)). Qed.

(** ** Trimming *)

(** What [trim_space] leaves. *)
Lemma trim_space_decompose s :
  exists a b, spaces a /\ spaces b /\ s = a +:+ trim_space s +:+ b /\
    starts_space (trim_space s +:+ b) = false /\ ends_space (trim_space s) = false.
Proof.
  unfold trim_space. destruct (left_trim (slen s) s) as (a & Ha & E & Hs); [done|].
  set (l := iter_strip strip_space_left (slen s) s) in *.
  destruct (right_trim (slen l) l) as (b & Hb & E' & He); [done|].
  exists a, b. by rewrite <- E'.
Qed.

Lemma spaces_starts b : spaces b -> b <> "" -> starts_space b = true.
Proof. intros Hb Hn. destruct Hb; [done|]. by apply starts_space_encoding. Qed.

(** A text that starts with no white space still does not when white space follows it. *)
Lemma starts_space_app v b : starts_space v = false -> spaces b -> v <> "" -> starts_space (v +:+ b) = false.
Proof.
  intros Hv Hb Hn. apply not_true_iff_false. intros (e & He & [t Ht]%has_prefix_spec)%existsb_exists.
  destruct (Nat.le_gt_cases (slen e) (slen v)) as [Hl|Hl].
  - symmetry in Ht. apply app_str_split in Ht as (m & -> & _); [|done]. by rewrite starts_space_encoding in Hv.
  - apply app_str_split in Ht as (m & -> & E); [|lia].
    pose proof (proj1 (forallb_forall _ _) no_overlap _ He) as H. cbn beta in H.
    assert (1 <= slen v)%nat by (destruct v; simpl; [done|lia]). rewrite !slen_app in *.
    pose proof (proj1 (forallb_forall _ _) H (slen v)) as H'. cbn beta in H'.
    rewrite drop_str_app_length in H'. assert (m <> "") as Hm by (intros ->; simpl in Hl; lia).
    destruct Hb as [|p b Hp Hb]; [by destruct m|].
    assert (forallb (fun p => match m, p with String c _, String d _ => negb (Ascii.eqb c d) | _, _ => true end) space_encodings = true) as HH.
    { apply H', in_seq. destruct m; simpl in *; [done|lia]. }
    pose proof (proj1 (forallb_forall _ _) HH p Hp) as H2. cbn beta in H2.
    destruct m as [|c m]; [done|]. destruct p as [|d p]; [by apply encoding_length in Hp; simpl in Hp; lia|].
    simpl in E. injection E as -> _. by rewrite Ascii.eqb_refl in H2.
Qed.

(** Trimming ignores white space around its argument. *)
Lemma trim_space_around a v b : spaces a -> spaces b -> trim_space (a +:+ v +:+ b) = trim_space v.
Proof.
  intros Ha Hb. destruct (trim_space_decompose v) as (a' & b' & Ha' & Hb' & Ev & Hs & He).
  destruct (trim_space_decompose (a +:+ v +:+ b)) as (a2 & b2 & Ha2 & Hb2 & E2 & Hs2 & He2).
  set (t := trim_space v) in *. set (t2 := trim_space (a +:+ v +:+ b)) in *.
  rewrite Ev, !app_str_assoc in E2. rewrite <- app_str_assoc in E2.
  assert (spaces (a +:+ a')) as Haa by (by apply spaces_app). assert (spaces (b' +:+ b)) as Hbb by (by apply spaces_app).
  destruct (String.eqb_spec t "") as [Et|Et].
  - rewrite Et in E2. simpl in E2. symmetry.
    assert (t2 +:+ b2 = "") as Hz.
    { apply (left_unique a2 ((a +:+ a') +:+ (b' +:+ b))); try done.
      - by apply spaces_app.
      - by rewrite app_str_nil_r, <- E2. }
    rewrite Et. by destruct t2.
  - assert (starts_space (t +:+ (b' +:+ b)) = false) as Hs'.
    { rewrite <- app_str_assoc. destruct (String.eqb_spec (t +:+ b') "") as [E|]; [by destruct t|]. by apply starts_space_app. }
    pose proof (left_unique _ _ _ _ Haa Ha2 E2 Hs' Hs2) as E3.
    symmetry. by eapply right_unique; [exact Hbb|exact Hb2|exact E3|..].
Qed.

Lemma trim_space_left a v : spaces a -> trim_space (a +:+ v) = trim_space v.
Proof. intros Ha. rewrite <- (trim_space_around a v "") by (done || constructor). by rewrite app_str_nil_r. Qed.
Lemma trim_space_right v b : spaces b -> trim_space (v +:+ b) = trim_space v.
Proof. intros Hb. by rewrite <- (trim_space_around "" v b) by (done || constructor). Qed.
Lemma trim_space_idem s : trim_space (trim_space s) = trim_space s.
Proof.
  destruct (trim_space_decompose s) as (a & b & Ha & Hb & E & _). rewrite E at 2. symmetry. by apply trim_space_around.
Qed.

(** ** Lists of trimmed items *)

Lemma spaces_no_byte c s :
  spaces s -> existsb (contains_byte c) space_encodings = false -> contains_byte c s = false.
Proof.
  intros Hs Hc. induction Hs as [|e s He Hs IH]; [done|]. rewrite contains_byte_app, IH, orb_false_r.
  apply not_true_iff_false. intros H. apply not_true_iff_false in Hc. apply Hc, existsb_exists. eauto.
Qed.

Lemma split_byte_prefix sep a s :
  contains_byte sep a = false ->
  split_byte sep (a +:+ s) = match split_byte sep s with w :: ws => (a +:+ w) :: ws | [] => [] end.
Proof.
  induction a as [|c a IH]; simpl; intros Hc.
  - by destruct (split_byte sep s).
  - unfold contains_byte in Hc. simpl in Hc. rewrite Ascii.eqb_sym. destruct (Ascii.eqb sep c); [done|].
    rewrite IH; [|by unfold contains_byte; destruct (index_byte sep a)].
    by destruct (split_byte sep s) eqn:E; [apply split_byte_ne in E|].
Qed.

Lemma split_byte_suffix sep s b :
  contains_byte sep b = false ->
  exists ws w, split_byte sep s = ws ++ [w] /\ split_byte sep (s +:+ b) = ws ++ [w +:+ b].
Proof.
  intros Hb. induction s as [|c s (ws & w & E1 & E2)]; simpl.
  - exists [], "". split; [done|]. simpl. pose proof (split_byte_prefix sep b "" Hb) as E. rewrite app_str_nil_r in E.
    rewrite E. simpl. by rewrite app_str_nil_r.
  - rewrite E1, E2. destruct (Ascii.eqb c sep); [by exists ("" :: ws), w|]. destruct ws as [|x ws]; simpl; [by exists [], (String c w)|].
    by exists (String c x :: ws), w.
Qed.

(** Trimming a comma-separated list before it is split changes none of the
    trimmed items. *)
Lemma trim_items_trim sep s :
  existsb (contains_byte sep) space_encodings = false ->
  map trim_space (split_byte sep (trim_space s)) = map trim_space (split_byte sep s).
Proof.
  intros Hsep. destruct (trim_space_decompose s) as (a & b & Ha & Hb & E & _). rewrite E at 2. symmetry.
  rewrite split_byte_prefix by (by apply spaces_no_byte).
  destruct (split_byte_suffix sep (trim_space s) b) as (ws & w & E1 & E2); [by apply spaces_no_byte|].
  rewrite E1, E2. destruct ws as [|x ws]; simpl; [by rewrite trim_space_around|].
  rewrite trim_space_left by done. rewrite !map_app. simpl. by rewrite (trim_space_right w b).
Qed.

(** ** Texts without a byte of white space *)

Definition plain (c : ascii) : bool := forallb (fun e => negb (contains_byte c e)) space_encodings.
Lemma plain_spaces a : spaces a -> all_bytes plain a = true -> a = "".
Proof.
  intros [|e s He _]; [done|]. rewrite all_bytes_app. intros [Hp _]%andb_prop. exfalso.
  assert (forallb (fun e => negb (all_bytes plain e)) space_encodings = true) as Hn by (vm_compute; reflexivity).
  rewrite forallb_forall in Hn. specialize (Hn e He). by rewrite Hp in Hn.
Qed.
Lemma trim_space_plain s : all_bytes plain s = true -> trim_space s = s.
Proof.
  intros Hs. destruct (trim_space_decompose s) as (a & b & Ha & Hb & E & _).
  rewrite E, !all_bytes_app in Hs. apply andb_prop in Hs as [Hs1 Hs]. apply andb_prop in Hs as [_ Hs2].
  rewrite (plain_spaces a Ha Hs1), (plain_spaces b Hb Hs2), app_str_nil_r in E. by symmetry.
Qed.
