(* ===== verification/GoNet.v ===== *)
(** * GoNet: the part of Go's [net] package the program uses

    [net.ParseIP], [net.ParseCIDR], [IPNet.Contains], [IP.IsLoopback],
    [IP.String], [IPNet.String] and [net.SplitHostPort], translated from the
    documented behaviour of the standard library.

    A [net.IP] is the value of its 16 bytes (IPv4 addresses are stored
    4-in-6, as [ParseIP] does); [to4] recovers the 32-bit address. *)

From S2P Require Export GoStrings.
Open Scope Z_scope.

Definition ip := Z.

Definition v4_in_v6_prefix : Z := Z.shiftl 65535 32.

Definition to4 (a : ip) : option Z :=
  if Z.shiftr a 32 =? 65535 then Some (Z.land a (Z.ones 32)) else None.

Definition of4 (a : Z) : ip := Z.lor v4_in_v6_prefix a.

(** ** Parsing *)

(** One decimal field of a dotted quad: 1 to 3 digits, no leading zero,
    at most 255. *)
Fixpoint digits_value (acc : Z) (s : string) : option Z :=
  match s with
  | EmptyString => Some acc
  | String c s => if is_digit c then digits_value (acc * 10 + (code c - 48)) s else None
  end.

Definition parse_octet (s : string) : option Z :=
  match s with
  | EmptyString => None
  | String "0" (String _ _) => None
  | _ => v ← digits_value 0 s; if v <=? 255 then Some v else None
  end.

Definition parse_ipv4 (s : string) : option Z :=
  match split_byte "." s with
  | [a; b; c; d] =>
      a ← parse_octet a; b ← parse_octet b; c ← parse_octet c; d ← parse_octet d;
      Some (Z.lor (Z.shiftl a 24) (Z.lor (Z.shiftl b 16) (Z.lor (Z.shiftl c 8) d)))
  | _ => None
  end.

Definition hex_digit (c : ascii) : option Z :=
  if is_digit c then Some (code c - 48)
  else if in_range "a" "f" c then Some (code c - 87)
  else if in_range "A" "F" c then Some (code c - 55)
  else None.

(** The maximal prefix of hex digits, with its length; [None] for more than
    four digits. *)
Fixpoint hex_field (n : nat) (acc : Z) (s : string) : option (nat * Z * string) :=
  match s with
  | EmptyString => Some (n, acc, s)
  | String c s' =>
      match hex_digit c with
      | None => Some (n, acc, s)
      | Some d => if Nat.leb 4 n then None else hex_field (S n) (acc * 16 + d) s'
      end
  end.

(** The loop of [parseIPv6]: [i] bytes are filled ([acc] holds the 16-bit
    groups, last first), [ell] is the number of groups before the [::]. *)
Fixpoint ipv6_loop (fuel : nat) (acc : list Z) (ell : option nat) (s : string)
    : option (list Z * option nat * string) :=
  match fuel with
  | O => Some (acc, ell, s)
  | S fuel =>
      if Nat.leb 8 (length acc) then Some (acc, ell, s) else
      '(n, v, rest) ← hex_field 0 0 s;
      if Nat.eqb n 0 then None else
      match rest with
      | String "." _ =>
          if (match ell with None => negb (Nat.eqb (length acc) 6) | _ => false end) then None
          else if Nat.ltb 6 (length acc) then None
          else a ← parse_ipv4 s;
               Some (Z.land a 65535 :: Z.shiftr a 16 :: acc, ell, EmptyString)
      | EmptyString => Some (v :: acc, ell, EmptyString)
      | String ":" EmptyString => None
      | String ":" (String ":" rest') =>
          match ell with
          | Some _ => None
          | None =>
              let ell := Some (S (length acc)) in
              match rest' with
              | EmptyString => Some (v :: acc, ell, EmptyString)
              | _ => ipv6_loop fuel (v :: acc) ell rest'
              end
          end
      | String ":" rest' => ipv6_loop fuel (v :: acc) ell rest'
      | _ => None
      end
  end.

Definition groups_value (l : list Z) : Z := fold_left (fun a g => Z.lor (Z.shiftl a 16) g) l 0.

(** The end of [parseIPv6]: the whole text was read; the [::] is filled with zeros. *)
Definition ipv6_finish (r : option (list Z * option nat * string)) : option Z :=
  '(acc, ell, rest) ← r;
  match rest with
  | String _ _ => None
  | EmptyString =>
      let gs := rev acc in
      match ell with
      | None => if Nat.eqb (length gs) 8 then Some (groups_value gs) else None
      | Some e =>
          if Nat.leb 8 (length gs) then None
          else Some (groups_value (firstn e gs ++ repeat 0 (8 - length gs) ++ skipn e gs))
      end
  end.

Definition parse_ipv6 (s : string) : option Z :=
  match s with
  | String ":" (String ":" EmptyString) => Some 0
  | String ":" (String ":" s') => ipv6_finish (ipv6_loop 8 [] (Some O) s')
  | _ => ipv6_finish (ipv6_loop 8 [] None s)
  end.

(** [netip.ParseAddr] without zone: the first of [.], [:], [%] decides. *)
Fixpoint addr_family (s : string) : option bool :=
  match s with
  | EmptyString => None
  | String "." _ => Some true
  | String ":" _ => Some false
  | String "%" _ => None
  | String _ s => addr_family s
  end.

Definition ParseIP (s : string) : option ip :=
  match addr_family s with
  | Some true => of4 <$> parse_ipv4 s
  | Some false => parse_ipv6 s
  | None => None
  end.

(** ** Networks *)

Record ipnet := IPNet { net_v4 : bool; net_addr : Z; net_plen : Z }.

#[export] Instance ipnet_eq_dec : EqDecision ipnet.
Proof. solve_decision. Defined.

Definition mask_bits (v4 : bool) : Z := if v4 then 32 else 128.
Definition apply_mask (v4 : bool) (plen a : Z) : Z :=
  Z.shiftl (Z.shiftr a (mask_bits v4 - plen)) (mask_bits v4 - plen).

Definition ParseCIDR (s : string) : option ipnet :=
  i ← index_byte "/" s;
  let addr := take_str i s in
  let mask := drop_str (S i) s in
  v4 ← addr_family addr;
  a ← ParseIP addr;
  match mask with
  | EmptyString => None
  | _ =>
      n ← digits_value 0 mask;
      if mask_bits v4 <? n then None
      else Some (IPNet v4 (apply_mask v4 n (if v4 then Z.land a (Z.ones 32) else a)) n)
  end.

(** [IPNet.Contains]; a masked IPv6 network that lies in the 4-in-6 block is
    matched as the IPv4 network it embeds. *)
Definition Contains (n : ipnet) (a : ip) : bool :=
  let '(nv4, naddr, nplen) :=
    if net_v4 n then (true, net_addr n, net_plen n)
    else match to4 (net_addr n) with
         | Some x => (true, x, Z.max 0 (net_plen n - 96))
         | None => (false, net_addr n, net_plen n)
         end in
  match to4 a with
  | Some x => nv4 && (Z.shiftr x (32 - nplen) =? Z.shiftr naddr (32 - nplen))
  | None => negb nv4 && (Z.shiftr a (128 - nplen) =? Z.shiftr naddr (128 - nplen))
  end.

Definition IsLoopback (a : ip) : bool :=
  match to4 a with
  | Some x => Z.shiftr x 24 =? 127
  | None => a =? 1
  end.

(** ** Printing *)

Definition show_nat (n : Z) : string := pretty (Z.to_N n).

Definition ipv4_string (a : Z) : string :=
  join_str "." (map (fun k => show_nat (Z.land (Z.shiftr a k) 255)) [24; 16; 8; 0]).

Definition hex_char (d : Z) : ascii :=
  ascii_of_N (Z.to_N (if d <? 10 then d + 48 else d + 87)).

(** A 16-bit group in lower-case hex without leading zeros. *)
Definition hex_group (g : Z) : string :=
  let d k := Z.land (Z.shiftr g k) 15 in
  let tail := String (hex_char (d 0)) EmptyString in
  if g <? 16 then tail
  else let tail := String (hex_char (d 4)) tail in
       if g <? 256 then tail
       else let tail := String (hex_char (d 8)) tail in
            if g <? 4096 then tail else String (hex_char (d 12)) tail.

Definition ip_groups (a : Z) : list Z :=
  map (fun k => Z.land (Z.shiftr a k) 65535) [112; 96; 80; 64; 48; 32; 16; 0].

(** Length of the run of zero groups starting at the head. *)
Fixpoint zero_run (l : list Z) : nat :=
  match l with 0 :: l => S (zero_run l) | _ => O end.

(** The first longest run of at least two zero groups: (start, length). *)
Fixpoint best_zero_run (i : nat) (l : list Z) (best : nat * nat) : nat * nat :=
  match l with
  | [] => best
  | _ :: l' =>
      let r := zero_run l in
      let best := if Nat.leb 2 r && Nat.ltb best.2 r then (i, r) else best in
      best_zero_run (S i) l' best
  end.

Definition ipv6_string (a : Z) : string :=
  let gs := ip_groups a in
  match best_zero_run 0 gs (0%nat, 0%nat) with
  | (_, O) => join_str ":" (map hex_group gs)
  | (st, len) =>
      join_str ":" (map hex_group (firstn st gs)) +:+ "::" +:+
      join_str ":" (map hex_group (skipn (st + len) gs))
  end.

Definition ip_string (a : ip) : string :=
  match to4 a with Some x => ipv4_string x | None => ipv6_string a end.

Definition ipnet_string (n : ipnet) : string :=
  let '(v4, addr, plen) :=
    if net_v4 n then (true, net_addr n, net_plen n)
    else match to4 (net_addr n) with
         | Some x => (true, x, Z.max 0 (net_plen n - 96))
         | None => (false, net_addr n, net_plen n)
         end in
  (if v4 then ipv4_string addr else ipv6_string addr) +:+ "/" +:+ show_nat plen.

(** ** [net.SplitHostPort] *)

Definition SplitHostPort (hp : string) : option (string * string) :=
  i ← last_index_byte ":" hp;
  let port := drop_str (S i) hp in
  let check host j k :=
    if contains_byte "[" (drop_str j hp) then None
    else if contains_byte "]" (drop_str k hp) then None
    else Some (host, port) in
  match hp with
  | String "[" _ =>
      e ← index_byte "]" hp;
      if Nat.eqb (S e) i then check (take_str (e - 1) (drop_str 1 hp)) 1%nat (S e) else None
  | _ =>
      let host := take_str i hp in
      if contains_byte ":" host then None else check host 0%nat 0%nat
  end.

(** ** Sanity checks against the documented behaviour *)

Example ParseIP_v4 : ParseIP "192.168.1.10" = Some (of4 3232235786).
Proof. vm_compute. reflexivity. Qed.
Example ParseIP_v4_leading_zero : ParseIP "192.168.01.10" = None.
Proof. vm_compute. reflexivity. Qed.
Example ParseIP_v6_loop : ParseIP "::1" = Some 1.
Proof. vm_compute. reflexivity. Qed.
Example ParseIP_v6_embedded : ParseIP "::ffff:10.0.0.1" = ParseIP "10.0.0.1".
Proof. vm_compute. reflexivity. Qed.
Example ParseIP_zone : ParseIP "fe80::1%eth0" = None.
Proof. vm_compute. reflexivity. Qed.
Example ip_string_v6 : ip_string <$> ParseIP "2001:db8:0:0:1:0:0:1" = Some "2001:db8::1:0:0:1".
Proof. vm_compute. reflexivity. Qed.
Example ParseCIDR_host : ipnet_string <$> ParseCIDR "10.1.2.3/8" = Some "10.0.0.0/8".
Proof. vm_compute. reflexivity. Qed.
Example SplitHostPort_v6 : SplitHostPort "[::1]:8080" = Some ("::1", "8080").
Proof. vm_compute. reflexivity. Qed.
Example SplitHostPort_bare_v6 : SplitHostPort "::1" = None.
Proof. vm_compute. reflexivity. Qed.

(** ** The characters of addresses *)

Lemma shiftr_eq a k b : 0 <= a -> 0 <= k -> (Z.shiftr a k =? b) = ((b * 2 ^ k <=? a) && (a <? (b + 1) * 2 ^ k)).
Proof.
  intros Ha Hk. rewrite Z.shiftr_div_pow2 by done. assert (0 < 2 ^ k) by (apply Z.pow_pos_nonneg; lia).
  destruct (Z.eqb_spec (a / 2 ^ k) b) as [<-|Hne].
  - pose proof (Z.mul_div_le a (2 ^ k)). pose proof (Z.mul_succ_div_gt a (2 ^ k)).
    symmetry. apply andb_true_intro. split; [apply Z.leb_le|apply Z.ltb_lt]; lia.
  - symmetry. apply andb_false_iff. destruct (Z.leb_spec (b * 2 ^ k) a); [right|by left]. apply Z.ltb_ge.
    destruct (Z_lt_le_dec a ((b + 1) * 2 ^ k)); [|done]. exfalso. apply Hne. symmetry.
    apply (Z.div_unique a (2 ^ k) b (a - 2 ^ k * b)); lia.
Qed.

Definition ip_char (c : ascii) : bool :=
  match hex_digit c with Some _ => true | None => Ascii.eqb c ":" || Ascii.eqb c "." end.
Definition cidr_char (c : ascii) : bool := ip_char c || Ascii.eqb c "/".

Lemma all_bytes_impl (p q : ascii -> bool) s : (forall c, p c = true -> q c = true) -> all_bytes p s = true -> all_bytes q s = true.
Proof. intros Hpq. induction s as [|c s IH]; [done|]. simpl. rewrite !andb_true_iff. intros [? ?]. auto. Qed.

Lemma digits_value_digits acc s v : digits_value acc s = Some v -> all_bytes is_digit s = true.
Proof. revert acc. induction s as [|c s IH]; intros acc; [done|]. simpl. destruct (is_digit c); [|done]. apply IH. Qed.

Lemma split_all_bytes p sep s : p sep = true -> Forall (fun w => all_bytes p w = true) (split_byte sep s) -> all_bytes p s = true.
Proof.
  intros Hsep. induction s as [|c s IH]; [done|]. simpl. destruct (Ascii.eqb_spec c sep) as [->|Hc].
  - intros [_ H]%Forall_cons. by rewrite Hsep, IH.
  - destruct (split_byte sep s) as [|w ws] eqn:E; intros H; [by apply split_byte_ne in E|].
    apply Forall_cons in H as [Hw H]. simpl in Hw. apply andb_prop in Hw as [-> Hw]. apply IH. by constructor.
Qed.

Lemma digit_ip_char c : is_digit c = true -> ip_char c = true.
Proof. unfold ip_char, hex_digit. by intros ->. Qed.

Lemma parse_octet_chars s v : parse_octet s = Some v -> all_bytes ip_char s = true.
Proof.
  intros H. assert (exists w, digits_value 0 s = Some w) as [w Hw].
  { unfold parse_octet in H. destruct (digits_value 0 s) as [w|] eqn:E; [eauto|].
    destruct s as [|c s]; [done|]. repeat case_match; done. }
  apply digits_value_digits in Hw. revert Hw. apply all_bytes_impl, digit_ip_char.
Qed.

Lemma parse_ipv4_chars s v : parse_ipv4 s = Some v -> all_bytes ip_char s = true.
Proof.
  unfold parse_ipv4. intros H. apply (split_all_bytes ip_char "."); [done|].
  destruct (split_byte "." s) as [|a [|b [|c [|d [|? ?]]]]]; try done.
  destruct (parse_octet a) eqn:Ea, (parse_octet b) eqn:Eb, (parse_octet c) eqn:Ec, (parse_octet d) eqn:Ed; try done.
  repeat constructor; by eapply parse_octet_chars.
Qed.

Lemma hex_field_chars n acc s m v rest :
  hex_field n acc s = Some (m, v, rest) -> exists p, s = p +:+ rest /\ all_bytes ip_char p = true.
Proof.
  revert n acc. induction s as [|c s IH]; intros n acc; cbn [hex_field]; [intros [= _ _ <-]; by exists ""|].
  destruct (hex_digit c) as [d|] eqn:Ed; [|intros [= _ _ <-]; by exists ""].
  destruct (Nat.leb 4 n); [done|]. intros (p & -> & Hp)%IH. exists (String c p). split; [done|].
  simpl. unfold ip_char at 1. by rewrite Ed, Hp.
Qed.

Lemma ipv6_loop_chars fuel acc ell s acc' ell' rest :
  ipv6_loop fuel acc ell s = Some (acc', ell', rest) -> exists p, s = p +:+ rest /\ all_bytes ip_char p = true.
Proof.
  revert acc ell s. induction fuel as [|fuel IH]; intros acc ell s; cbn [ipv6_loop]; [intros [= _ _ <-]; by exists ""|].
  destruct (Nat.leb 8 (length acc)); [intros [= _ _ <-]; by exists ""|].
  destruct (hex_field 0 0 s) as [[[n v] r]|] eqn:Eh; [|done]. simpl.
  apply hex_field_chars in Eh as (p & Es & Hp). destruct (Nat.eqb n 0); [done|].
  assert (forall q t, r = q +:+ t -> all_bytes ip_char q = true -> t = rest -> exists p, s = p +:+ rest /\ all_bytes ip_char p = true) as Hend.
  { intros q t -> Hq ->. exists (p +:+ q). by rewrite Es, app_str_assoc, all_bytes_app, Hp, Hq. }
  assert (forall q t acc ell, r = q +:+ t -> all_bytes ip_char q = true -> ipv6_loop fuel acc ell t = Some (acc', ell', rest) ->
    exists p, s = p +:+ rest /\ all_bytes ip_char p = true) as Hrec.
  { intros q t acc0 ell0 -> Hq (p' & -> & Hp')%IH. exists (p +:+ q +:+ p'). by rewrite Es, !app_str_assoc, !all_bytes_app, Hp, Hq. }
  destruct r as [|c r]; [intros [= _ _ <-]; by apply (Hend "" "")|].
  destruct (Ascii.eqb_spec c ".") as [->|Hdot].
  { destruct (match ell with None => _ | _ => _ end); [done|]. destruct (Nat.ltb 6 (length acc)); [done|].
    destruct (parse_ipv4 s) as [a|] eqn:E4; [|done]. intros [= _ _ <-]. exists s.
    split; [by rewrite app_str_nil_r|]. by eapply parse_ipv4_chars. }
  destruct (Ascii.eqb_spec c ":") as [->|Hcol].
  { destruct r as [|d r]; [done|]. destruct (Ascii.eqb_spec d ":") as [->|Hd].
    - destruct ell; [done|]. destruct r as [|e r]; [intros [= _ _ <-]; by apply (Hend "::" "")|].
      intros H. by apply (Hrec "::" (String e r) _ _ eq_refl eq_refl H).
    - intros H. apply (Hrec ":" (String d r) (v :: acc) ell eq_refl eq_refl).
      destruct d as [[] [] [] [] [] [] [] []]; try exact H; done. }
  destruct c as [[] [] [] [] [] [] [] []]; done.
Qed.

Lemma ipv6_finish_chars ell s a : ipv6_finish (ipv6_loop 8 [] ell s) = Some a -> all_bytes ip_char s = true.
Proof.
  unfold ipv6_finish. destruct (ipv6_loop 8 [] ell s) as [[[acc' ell'] rest]|] eqn:E; [|done]. simpl.
  apply ipv6_loop_chars in E as (p & -> & Hp). destruct rest; [|done]. intros _. by rewrite app_str_nil_r.
Qed.

Lemma ParseIP_chars s a : ParseIP s = Some a -> all_bytes ip_char s = true.
Proof.
  unfold ParseIP. destruct (addr_family s) as [[]|]; [|intros H|done].
  { destruct (parse_ipv4 s) eqn:E; [|done]. intros _. by eapply parse_ipv4_chars. }
  unfold parse_ipv6 in H. destruct s as [|c s]; [done|].
  destruct (Ascii.eqb_spec c ":") as [->|Hc].
  - destruct s as [|d s]; [by apply ipv6_finish_chars in H|]. destruct (Ascii.eqb_spec d ":") as [->|Hd].
    + destruct s as [|e s]; [done|]. by apply ipv6_finish_chars in H.
    + apply (ipv6_finish_chars None _ a). destruct d as [[] [] [] [] [] [] [] []]; first [exact H|by destruct Hd].
  - apply (ipv6_finish_chars None _ a). destruct c as [[] [] [] [] [] [] [] []]; first [exact H|by destruct Hc].
Qed.

Lemma index_byte_split c s i : index_byte c s = Some i -> s = take_str i s +:+ String c (drop_str (S i) s).
Proof.
  revert i. induction s as [|d s IH]; [done|]. intros i. simpl. destruct (Ascii.eqb_spec c d) as [->|].
  - intros [= <-]. by destruct s.
  - destruct (index_byte c s) as [k|]; [|done]. intros [= <-]. simpl. f_equal. by apply IH.
Qed.

Lemma ParseCIDR_chars s n : ParseCIDR s = Some n -> all_bytes cidr_char s = true.
Proof.
  unfold ParseCIDR. destruct (index_byte "/" s) as [i|] eqn:Ei; [|done]. cbn [mbind option_bind].
  destruct (addr_family _); [|done]. cbn [mbind option_bind]. destruct (ParseIP (take_str i s)) as [a|] eqn:Ea; [|done]. cbn [mbind option_bind].
  apply ParseIP_chars in Ea. intros H. revert H. set (m := drop_str (S i) s). intros H.
  rewrite (index_byte_split _ _ _ Ei), all_bytes_app. fold m. cbn [all_bytes]. change (cidr_char "/") with true. cbn [andb].
  apply andb_true_iff. split; [revert Ea; apply all_bytes_impl; unfold cidr_char; intros c; by intros ->|].
  destruct m as [|d m']; [done|]. destruct (digits_value 0 (String d m')) as [v|] eqn:Ed; [|by cbn in H].
  apply digits_value_digits in Ed. revert Ed. apply all_bytes_impl. unfold cidr_char. intros c Hc%digit_ip_char. by rewrite Hc.
Qed.
