(* ===== verification/GoTime.v ===== *)
(** * GoTime: calendar fields of an instant in UTC

    [Time.UTC().Format] for the layouts the program uses, [Time.ISOWeek] and
    [ParseDuration].  Dates follow the proleptic Gregorian calendar, as Go's
    [time] package does; the days-to-date conversion counts from 1 March of
    year 0, in eras of 400 years. *)

From S2P Require Export GoStrings.
From Stdlib Require Import SpecFloat.
Open Scope Z_scope.

(** Days since 1 January 1970. *)
Definition unix_day (t : Z) : Z := time_unix t / 86400.
Definition second_of_day (t : Z) : Z := time_unix t mod 86400.

(** Year, month, day of a day number. *)
Definition civil (z : Z) : Z * Z * Z :=
  let z := z + 719468 in
  let era := z / 146097 in
  let doe := z mod 146097 in
  let yoe := (doe - doe / 1460 + doe / 36524 - doe / 146096) / 365 in
  let doy := doe - (365 * yoe + yoe / 4 - yoe / 100) in
  let mp := (5 * doy + 2) / 153 in
  let d := doy - (153 * mp + 2) / 5 + 1 in
  let m := if mp <? 10 then mp + 3 else mp - 9 in
  let y := yoe + era * 400 + (if m <=? 2 then 1 else 0) in
  (y, m, d).

(** Day number of a date. *)
Definition days_from_civil (y m d : Z) : Z :=
  let y := if m <=? 2 then y - 1 else y in
  let era := y / 400 in
  let yoe := y mod 400 in
  let doy := (153 * (if 2 <? m then m - 3 else m + 9) + 2) / 5 + d - 1 in
  let doe := yoe * 365 + yoe / 4 - yoe / 100 + doy in
  era * 146097 + doe - 719468.

(** Monday = 0 ... Sunday = 6 (1 January 1970 was a Thursday). *)
Definition weekday_monday (day : Z) : Z := (day + 3) mod 7.

(** ISO 8601 week: the week of the Thursday of the same Monday-based week. *)
Definition ISOWeek (t : Z) : Z * Z :=
  let day := unix_day t in
  let thursday := day - weekday_monday day + 3 in
  let '(y, _, _) := civil thursday in
  (y, (thursday - days_from_civil y 1 1) / 7 + 1).

(** Zero-padded decimals ([%02d], [%04d]). *)
Definition pad_left (w : nat) (n : Z) : string :=
  let s := pretty (Z.to_N n) in
  foldr (fun c s => String c s) s (repeat "0"%char (w - slen s)).

(** [t.Format("2006-01-02")], [t.Format("2006-01")], [time.RFC3339] (UTC). *)
Definition format_day (t : Z) : string :=
  let '(y, m, d) := civil (unix_day t) in
  pad_left 4 y +:+ "-" +:+ pad_left 2 m +:+ "-" +:+ pad_left 2 d.

Definition format_month (t : Z) : string :=
  let '(y, m, _) := civil (unix_day t) in pad_left 4 y +:+ "-" +:+ pad_left 2 m.

Definition format_rfc3339 (t : Z) : string :=
  let s := second_of_day t in
  format_day t +:+ "T" +:+ pad_left 2 (s / 3600) +:+ ":" +:+
  pad_left 2 (s / 60 mod 60) +:+ ":" +:+ pad_left 2 (s mod 60) +:+ "Z".

Example civil_epoch : civil 0 = (1970, 1, 1).
Proof. reflexivity. Qed.
Example civil_leap : civil 19782 = (2024, 2, 29).
Proof. reflexivity. Qed.
Example civil_inverse : days_from_civil 2024 2 29 = 19782.
Proof. reflexivity. Qed.
Example civil_year_one : civil (unix_day time_zero) = (1, 1, 1).
Proof. reflexivity. Qed.
(** 1 January 2021 was a Friday of ISO week 53 of 2020. *)
Example iso_week_2021 : ISOWeek (days_from_civil 2021 1 1 * day) = (2020, 53).
Proof. reflexivity. Qed.
Example iso_week_2024 : ISOWeek (days_from_civil 2024 12 30 * day) = (2025, 1).
Proof. reflexivity. Qed.
Example rfc3339_demo : format_rfc3339 (1700000000 * second) = "2023-11-14T22:13:20Z".
Proof. vm_compute. reflexivity. Qed.

(** ** [time.ParseDuration] *)

(** The duration with an optional sign, as a sequence of decimal numbers with
    units.  [uint64] values that pass [2^63] are errors, as in the source of the
    package; a fraction is scaled with the same two floating-point roundings. *)
Definition unit_of (u : string) : option Z :=
  if String.eqb u "ns" then Some nsec
  else if String.eqb u "us" || String.eqb u (bytes_str [194; 181; 115]%N) || String.eqb u (bytes_str [206; 188; 115]%N)
  then Some 1000
  else if String.eqb u "ms" then Some 1000000
  else if String.eqb u "s" then Some second
  else if String.eqb u "m" then Some minute
  else if String.eqb u "h" then Some hour else None.

Definition digit_of (c : ascii) : Z := code c - 48.

(** [leadingInt]: [None] on overflow. *)
Fixpoint leadingInt (x : Z) (s : string) : option (Z * string) :=
  match s with
  | String c s' =>
      if is_digit c then
        if 2 ^ 63 / 10 <? x then None else
        let x := x * 10 + digit_of c in
        if 2 ^ 63 <? x then None else leadingInt x s'
      else Some (x, s)
  | EmptyString => Some (x, s)
  end.

(** [leadingFraction]: digits, the power of ten that scales them, the rest. *)
Fixpoint leadingFraction (x scale : Z) (overflow : bool) (s : string) : Z * Z * string :=
  match s with
  | String c s' =>
      if is_digit c then
        if overflow || ((2 ^ 63 - 1) / 10 <? x) then leadingFraction x scale true s' else
        let y := x * 10 + digit_of c in
        if 2 ^ 63 <? y then leadingFraction x scale true s' else leadingFraction y (scale * 10) false s'
      else (x, scale, s)
  | EmptyString => (x, scale, s)
  end.

Fixpoint take_unit (s : string) : string * string :=
  match s with
  | String c s' => if is_digit c || Ascii.eqb c "." then ("", s) else
                   let '(u, r) := take_unit s' in (String c u, r)
  | EmptyString => ("", "")
  end.

Definition f64_int (n : Z) : spec_float := binary_normalize 53 1024 n 0 false.
Definition f64_trunc (x : spec_float) : Z :=
  match x with
  | S754_finite sg m e => (if sg then -1 else 1) * (if 0 <=? e then Z.pos m * 2 ^ e else Z.pos m / 2 ^ (- e))
  | _ => 0
  end.
Definition scaled (f unit scale : Z) : Z :=
  f64_trunc (SFmul 53 1024 (f64_int f) (SFdiv 53 1024 (f64_int unit) (f64_int scale))).

(** One number with its unit: the nanoseconds and the rest. *)
Definition one_quantity (s : string) : option (Z * string) :=
  match s with
  | EmptyString => None
  | String c _ =>
      if negb (is_digit c || Ascii.eqb c ".") then None else
      '(v, s1) ← leadingInt 0 s;
      let pre := negb (Nat.eqb (slen s) (slen s1)) in
      let '(f, scale, s2, post) :=
        match s1 with
        | String "." s1' => let '(f, scale, s2) := leadingFraction 0 1 false s1' in
                            (f, scale, s2, negb (Nat.eqb (slen s1') (slen s2)))
        | _ => (0, 1, s1, false)
        end in
      if negb pre && negb post then None else
      let '(u, s3) := take_unit s2 in
      unit ← (if String.eqb u "" then None else unit_of u);
      if 2 ^ 63 / unit <? v then None else
      let v := v * unit + (if 0 <? f then scaled f unit scale else 0) in
      if (0 <? f) && (2 ^ 63 <? v) then None else Some (v, s3)
  end.

(** Every round eats a byte, so the length of the string is enough fuel. *)
Fixpoint quantities (fuel : nat) (d : Z) (s : string) : option Z :=
  match s, fuel with
  | EmptyString, _ => Some d
  | _, O => None
  | _, S fuel =>
      '(v, s) ← one_quantity s;
      if 2 ^ 63 <? d + v then None else quantities fuel (d + v) s
  end.

Definition ParseDuration (s : string) : option Z :=
  let '(neg, s) := match s with
                   | String "-" s => (true, s)
                   | String "+" s => (false, s)
                   | _ => (false, s)
                   end in
  if String.eqb s "0" then Some 0
  else if String.eqb s "" then None
  else
    d ← quantities (slen s) 0 s;
    if neg then Some (- d) else if 2 ^ 63 - 1 <? d then None else Some d.

Example duration_demo :
  map ParseDuration ["24h"; "1h30m"; "1.5h"; "-0.5s"; "10"; ""; "0"; "2562048h"; "9223372036854775808ns"; "1m.5s"; "3d"]
  = [Some (24 * hour); Some (90 * minute); Some (90 * minute); Some (- 500000000); None; None; Some 0; None; None;
     Some (60 * second + 500000000); None].
Proof. vm_compute. reflexivity. Qed.
