(* ===== verification/GoPath.v ===== *)
(** * GoPath: the functions of Go's [path/filepath] package on Unix paths

    [Clean], [IsAbs], [Base], [Dir] and [Join] as the package documents them,
    and the view the theorems use: a cleaned absolute path is [abs_path l], the
    list [l] of its components, none of them empty, [.], [..] or with a slash. *)

From S2P Require Export GoStrings.
Open Scope Z_scope.

(** Lexical processing of the components; [stack] is reversed. *)
Fixpoint clean_comps (rooted : bool) (stack cs : list string) : list string :=
  match cs with
  | [] => rev stack
  | c :: cs =>
      if String.eqb c "" || String.eqb c "." then clean_comps rooted stack cs
      else if String.eqb c ".." then
        match stack with
        | [] => if rooted then clean_comps rooted [] cs else clean_comps rooted [c] cs
        | d :: stack' =>
            if String.eqb d ".." then clean_comps rooted (c :: stack) cs
            else clean_comps rooted stack' cs
        end
      else clean_comps rooted (c :: stack) cs
  end.

Definition IsAbs (p : string) : bool := has_prefix "/" p.

Definition abs_path (l : list string) : string := "/" +:+ join_str "/" l.

Definition Clean (p : string) : string :=
  if IsAbs p then abs_path (clean_comps true [] (split_byte "/" p))
  else match clean_comps false [] (split_byte "/" p) with
       | [] => "."
       | l => join_str "/" l
       end.

(** [Base]: the last element, trailing slashes removed. *)
Definition Base (p : string) : string :=
  if String.eqb p "" then "."
  else
    let q := trim_right_set (fun c => Ascii.eqb c "/") p in
    let b := match last_index_byte "/" q with Some i => drop_str (S i) q | None => q end in
    if String.eqb b "" then "/" else b.

(** [Dir]: all but the last element, cleaned. *)
Definition Dir (p : string) : string :=
  Clean (match last_index_byte "/" p with Some i => take_str (S i) p | None => "" end).

Fixpoint drop_empty (l : list string) : list string :=
  match l with
  | [] => []
  | s :: l' => if String.eqb s "" then drop_empty l' else l
  end.

Definition Join (elems : list string) : string :=
  match drop_empty elems with [] => "" | l => Clean (join_str "/" l) end.

(** [Ext]: the suffix from the last dot of the last element. *)
Definition Ext (p : string) : string :=
  let b := match last_index_byte "/" p with Some i => drop_str (S i) p | None => p end in
  match last_index_byte "." b with Some i => drop_str i b | None => "" end.

(** [Rel]: from one cleaned path to another, component by component; [None] when
    it would need to know the directory above a [..]. *)
Fixpoint rel_comps (b t : list string) : option (list string) :=
  match b, t with
  | x :: b', y :: t' =>
      if String.eqb x y then rel_comps b' t'
      else if bool_decide (".." ∈ b) then None else Some (map (fun _ => "..") b ++ t)
  | _, _ => if bool_decide (".." ∈ b) then None else Some (map (fun _ => "..") b ++ t)
  end.

Definition comps_of (p : string) : list string := clean_comps (IsAbs p) [] (split_byte "/" p).

Definition Rel (base targ : string) : option string :=
  if negb (Bool.eqb (IsAbs base) (IsAbs targ)) then None
  else match rel_comps (comps_of base) (comps_of targ) with
       | None => None
       | Some [] => Some "."
       | Some l => Some (join_str "/" l)
       end.

(** ** Components *)

Definition comp (c : string) : Prop :=
  c <> "" /\ c <> "." /\ c <> ".." /\ contains_byte "/" c = false.

#[global] Instance comp_dec c : Decision (comp c).
Proof. unfold comp. solve_decision. Defined.

Lemma split_byte_no sep c : contains_byte sep c = false -> split_byte sep c = [c].
Proof.
  unfold contains_byte. induction c as [|d c IH]; simpl; [done|].
  rewrite (Ascii.eqb_sym sep d). destruct (Ascii.eqb d sep); [done|].
  intros H. rewrite IH; [done|]. by destruct (index_byte sep c).
Qed.

Lemma split_byte_pieces sep s :
  Forall (fun c => contains_byte sep c = false) (split_byte sep s).
Proof.
  induction s as [|c s IH]; simpl; [by repeat constructor|].
  destruct (Ascii.eqb c sep) eqn:E; [by constructor|].
  destruct (split_byte sep s); simplify_list_eq.
  - constructor; [|done]. unfold contains_byte. simpl. by rewrite Ascii.eqb_sym, E.
  - inversion IH as [|?? H1 H2]; subst. constructor; [|done].
    unfold contains_byte in *. simpl. rewrite Ascii.eqb_sym, E. by destruct (index_byte sep _).
Qed.

Lemma join_str_cons sep w ws :
  ws <> [] -> join_str sep (w :: ws) = w +:+ sep +:+ join_str sep ws.
Proof. by destruct ws. Qed.

Lemma join_str_app sep l1 l2 :
  l1 <> [] -> l2 <> [] -> join_str sep (l1 ++ l2) = join_str sep l1 +:+ sep +:+ join_str sep l2.
Proof.
  intros H1 H2. induction l1 as [|w l1 IH]; [done|]. clear H1.
  destruct l1 as [|w' l1].
  - simpl. by destruct l2.
  - change (join_str sep ((w :: w' :: l1) ++ l2)) with (w +:+ sep +:+ join_str sep ((w' :: l1) ++ l2)).
    rewrite IH by done.
    change (join_str sep (w :: w' :: l1)) with (w +:+ sep +:+ join_str sep (w' :: l1)).
    by rewrite !app_str_assoc.
Qed.

(** Splitting is inverse to joining pieces without the separator. *)
Lemma split_join sep l :
  l <> [] -> Forall (fun c => contains_byte sep c = false) l ->
  split_byte sep (join_str (String sep "") l) = l.
Proof.
  induction l as [|w l IH]; [done|]. intros _ HF. inversion HF as [|?? Hw Hl]; subst.
  destruct l as [|w' l].
  - simpl. by apply split_byte_no.
  - change (join_str (String sep "") (w :: w' :: l))
      with (w +:+ String sep (join_str (String sep "") (w' :: l))).
    rewrite split_byte_app, IH, split_byte_no by done. done.
Qed.

Lemma clean_comps_valid cs stack :
  Forall comp stack -> Forall (fun c => contains_byte "/" c = false) cs ->
  Forall comp (clean_comps true stack cs).
Proof.
  intros Hs Hcs. revert stack Hs. induction Hcs as [|c cs Hc Hcs IH]; intros stack Hs; simpl.
  - by apply Forall_rev.
  - destruct (_ || _) eqn:E1; [by apply IH|].
    destruct (String.eqb c "..") eqn:E2.
    + destruct stack as [|d stack]; [by apply IH|].
      inversion Hs as [|?? Hd Hs']; subst.
      destruct (String.eqb_spec d ".."); [by destruct Hd as (_ & _ & ? & _)|]. by apply IH.
    + bool_norm. apply IH. constructor; [|done]. done.
Qed.

Lemma clean_comps_id rooted stack l :
  Forall comp l -> clean_comps rooted stack l = rev stack ++ l.
Proof.
  intros Hl. revert stack. induction Hl as [|c l (H1 & H2 & H3 & _) Hl IH]; intros stack; simpl.
  - by rewrite app_nil_r.
  - rewrite (proj2 (String.eqb_neq _ _) H1), (proj2 (String.eqb_neq _ _) H2),
      (proj2 (String.eqb_neq _ _) H3). simpl. rewrite IH. simpl. by rewrite <- app_assoc.
Qed.

(** Valid components move to the stack; trailing empty pieces are dropped. *)
Lemma clean_comps_app rooted stack m k :
  Forall comp m -> clean_comps rooted stack (m ++ k) = clean_comps rooted (rev m ++ stack) k.
Proof.
  intros Hm. revert stack. induction Hm as [|d m (H1 & H2 & H3 & _) Hm IH]; intros s; [done|].
  simpl. rewrite (proj2 (String.eqb_neq _ _) H1), (proj2 (String.eqb_neq _ _) H2),
    (proj2 (String.eqb_neq _ _) H3). simpl. rewrite IH, <- app_assoc. done.
Qed.

Lemma clean_comps_pieces rooted stack l :
  Forall comp l -> clean_comps rooted stack (split_byte "/" (join_str "/" l)) = rev stack ++ l.
Proof.
  intros Hl. destruct l as [|d l]; [simpl; by rewrite app_nil_r|].
  rewrite (split_join "/"); [by apply clean_comps_id|done|].
  eapply Forall_impl; [exact Hl|]. by intros c (_ & _ & _ & ?).
Qed.

(** ** Cleaned absolute paths *)

Lemma comps_no_slash l : Forall comp l -> Forall (fun c => contains_byte "/" c = false) l.
Proof. intros H. eapply Forall_impl; [exact H|]. by intros c (_ & _ & _ & ?). Qed.

(** The pieces of an absolute path: an empty one, then its components. *)
Lemma split_abs l :
  Forall comp l -> split_byte "/" (abs_path l) = "" :: match l with [] => [""] | _ => l end.
Proof.
  intros Hl. unfold abs_path. simpl. destruct l as [|c l]; [done|].
  rewrite (split_join "/"); [done|done|]. by apply comps_no_slash.
Qed.

Lemma Clean_abs l : Forall comp l -> Clean (abs_path l) = abs_path l.
Proof.
  intros Hl. unfold Clean. simpl IsAbs. unfold IsAbs.
  rewrite (proj2 (has_prefix_spec _ _)) by (by eexists).
  rewrite split_abs by done. f_equal. destruct l as [|c l]; [done|].
  exact (clean_comps_id true [] (c :: l) Hl).
Qed.

Lemma Clean_is_abs p : IsAbs p = true -> exists l, Forall comp l /\ Clean p = abs_path l.
Proof.
  intros Hp. unfold Clean. rewrite Hp. eexists; split; [|done].
  apply clean_comps_valid; [done|]. apply split_byte_pieces.
Qed.

Lemma IsAbs_abs l : IsAbs (abs_path l) = true.
Proof. apply has_prefix_spec. by eexists. Qed.

Lemma abs_path_app l1 l2 :
  l1 <> [] -> l2 <> [] -> abs_path (l1 ++ l2) = abs_path l1 +:+ "/" +:+ join_str "/" l2.
Proof. intros. unfold abs_path. rewrite join_str_app by done. by rewrite !app_str_assoc. Qed.

Lemma abs_path_nil : abs_path [] = "/".
Proof. done. Qed.

Lemma abs_path_inj l1 l2 : Forall comp l1 -> Forall comp l2 -> abs_path l1 = abs_path l2 -> l1 = l2.
Proof.
  intros H1 H2 E. apply (f_equal (split_byte "/")) in E. rewrite !split_abs in E by done.
  injection E as E. destruct l1 as [|c1 l1], l2 as [|c2 l2]; simplify_eq; [done| | |done].
  - by inversion H2 as [|?? (? & _)].
  - by inversion H1 as [|?? (? & _)].
Qed.

(** A relative path stays relative when cleaned. *)
Lemma clean_comps_pieces_ok rooted cs stack :
  Forall (fun c => c <> "" /\ contains_byte "/" c = false) stack ->
  Forall (fun c => contains_byte "/" c = false) cs ->
  Forall (fun c => c <> "" /\ contains_byte "/" c = false) (clean_comps rooted stack cs).
Proof.
  intros Hs Hcs. revert stack Hs. induction Hcs as [|c cs Hc Hcs IH]; intros stack Hs; simpl.
  - by apply Forall_rev.
  - destruct (_ || _) eqn:E1; [by apply IH|]. bool_norm.
    destruct (String.eqb c "..") eqn:E2; [|by apply IH; constructor].
    destruct stack as [|d stack].
    + destruct rooted; apply IH; by repeat constructor.
    + inversion Hs; subst. destruct (String.eqb d ".."); apply IH; [by constructor|done].
Qed.

Lemma IsAbs_Clean p : IsAbs (Clean p) = IsAbs p.
Proof.
  destruct (IsAbs p) eqn:E; unfold Clean; rewrite E; [apply IsAbs_abs|].
  pose proof (clean_comps_pieces_ok false _ [] (Forall_nil_2 _) (split_byte_pieces "/" p)) as H.
  destruct (clean_comps false [] (split_byte "/" p)) as [|c l]; [reflexivity|].
  inversion H as [|?? [Hne Hc] _]; subst. apply not_true_is_false. intros E2.
  apply has_prefix_spec in E2 as [t Ht]. destruct c as [|b c]; [done|].
  destruct l; simpl in Ht; injection Ht as -> _; done.
Qed.

(** An absolute path is its directory part, a slash and its last component. *)
Definition dir_part (l : list string) : string :=
  match l with [] => "" | _ => abs_path l end.

Lemma abs_path_snoc l c : abs_path (l ++ [c]) = (dir_part l +:+ "/") +:+ c.
Proof.
  destruct l as [|d l]; [done|]. rewrite abs_path_app by done.
  by rewrite app_str_assoc.
Qed.

Lemma clean_dir_part l k :
  Forall comp l ->
  Clean (dir_part l +:+ String "/" k) = abs_path (clean_comps true (rev l) (split_byte "/" k)).
Proof.
  intros Hl. unfold Clean, IsAbs. rewrite (proj2 (has_prefix_spec _ _)) by (destruct l; by eexists).
  f_equal. rewrite split_byte_app. destruct l as [|d l]; [done|].
  unfold dir_part. rewrite split_abs by done.
  change (clean_comps true [] ((d :: l) ++ split_byte "/" k) = clean_comps true (rev (d :: l)) (split_byte "/" k)).
  rewrite clean_comps_app by done. by rewrite app_nil_r.
Qed.

Lemma trim_right_set_keep p s c : p c = false -> trim_right_set p (s +:+ String c "") = s +:+ String c "".
Proof.
  intros Hc. induction s as [|d s IH]; simpl; [by rewrite Hc|]. rewrite IH. by destruct s.
Qed.

Lemma trim_right_set_no s c t :
  c <> "" -> contains_byte t c = false ->
  trim_right_set (fun b => Ascii.eqb b t) (s +:+ c) = s +:+ c.
Proof.
  intros Hne Hc. assert (exists c' b, c = c' +:+ String b "") as (c' & b & ->).
  { clear Hc. induction c as [|b c IH]; [done|]. destruct c as [|b' c]; [by exists "", b|].
    destruct IH as (c' & x & E); [done|]. exists (String b c'), x. simpl. by rewrite <- E. }
  rewrite <- app_str_assoc. apply trim_right_set_keep.
  rewrite contains_byte_app in Hc. apply orb_false_elim in Hc as [_ Hc].
  unfold contains_byte in Hc. simpl in Hc. rewrite Ascii.eqb_sym in Hc. by destruct (Ascii.eqb b t).
Qed.

Lemma last_slash_snoc l c :
  comp c -> last_index_byte "/" (abs_path (l ++ [c])) = Some (slen (dir_part l)).
Proof.
  intros (_ & _ & _ & Hc). rewrite abs_path_snoc, app_str_assoc. by apply last_index_byte_app.
Qed.

Lemma slen_slash s : S (slen s) = slen (s +:+ "/").
Proof. rewrite slen_app. simpl. lia. Qed.

Lemma Base_abs l c : comp c -> Base (abs_path (l ++ [c])) = c.
Proof.
  intros Hc. unfold Base. destruct (String.eqb_spec (abs_path (l ++ [c])) ""); [done|].
  replace (trim_right_set _ _) with (abs_path (l ++ [c])).
  - rewrite last_slash_snoc, abs_path_snoc, slen_slash, drop_str_app_length by done.
    by rewrite (proj2 (String.eqb_neq _ _) (proj1 Hc)).
  - rewrite abs_path_snoc. symmetry. by apply trim_right_set_no; apply Hc.
Qed.

Lemma Dir_abs l c : Forall comp l -> comp c -> Dir (abs_path (l ++ [c])) = abs_path l.
Proof.
  intros Hl Hc. unfold Dir.
  rewrite last_slash_snoc, abs_path_snoc, slen_slash, take_str_app_length by done.
  rewrite (clean_dir_part l "") by done. simpl. by rewrite rev_involutive.
Qed.

Lemma Dir_root : Dir "/" = "/".
Proof. reflexivity. Qed.

(** [Join] of an absolute path with cleaned relative parts. *)
Lemma Join_abs l c tail :
  Forall comp l -> comp c -> Forall comp tail ->
  Join [abs_path l; c; join_str "/" tail] = abs_path (l ++ c :: tail).
Proof.
  intros Hl Hc Ht.
  change (Join [abs_path l; c; join_str "/" tail])
    with (Clean (abs_path l +:+ String "/" (c +:+ String "/" (join_str "/" tail)))).
  unfold Clean, IsAbs. rewrite (proj2 (has_prefix_spec _ _)) by (by eexists).
  f_equal. rewrite !split_byte_app, split_abs, (split_byte_no "/" c) by (done || apply Hc).
  destruct l as [|d l].
  - change (clean_comps true [] ([c] ++ split_byte "/" (join_str "/" tail)) = c :: tail).
    rewrite clean_comps_app, clean_comps_pieces by auto. done.
  - change (clean_comps true [] ((d :: l) ++ [c] ++ split_byte "/" (join_str "/" tail)) = (d :: l) ++ c :: tail).
    rewrite !clean_comps_app, clean_comps_pieces by auto.
    rewrite app_nil_r. simpl. by rewrite rev_app_distr, rev_involutive, <- app_assoc.
Qed.

(** [Join] of a directory and a file name. *)
Lemma Join_file l c :
  Forall comp l -> l <> [] -> comp c -> Join [abs_path l; c] = abs_path (l ++ [c]).
Proof.
  intros Hl Hne Hc. rewrite <- (Clean_abs (l ++ [c])) by (apply Forall_app; auto).
  by rewrite abs_path_app.
Qed.

Lemma Join_rel c tail :
  comp c -> Forall comp tail -> Join [c; join_str "/" tail] = join_str "/" (c :: tail).
Proof.
  intros Hc Ht. unfold Join. simpl drop_empty. rewrite (proj2 (String.eqb_neq _ _) (proj1 Hc)).
  change (Clean (c +:+ String "/" (join_str "/" tail)) = join_str "/" (c :: tail)).
  assert (IsAbs (c +:+ String "/" (join_str "/" tail)) = false) as Habs.
  { destruct Hc as (H1 & _ & _ & H4). destruct c as [|b c]; [done|].
    destruct (IsAbs _) eqn:E; [|done]. apply has_prefix_spec in E as [t [= -> _]]. done. }
  unfold Clean. rewrite Habs, split_byte_app, (split_byte_no "/" c) by apply Hc.
  rewrite clean_comps_app, clean_comps_pieces by auto. done.
Qed.

Lemma IsAbs_Join p f : IsAbs p = true -> IsAbs (Join [p; f]) = true.
Proof.
  intros Hp. unfold Join. simpl drop_empty. destruct (String.eqb_spec p "") as [->|_]; [done|].
  rewrite IsAbs_Clean. apply has_prefix_spec in Hp as [t ->]. apply has_prefix_spec.
  exists (t +:+ "/" +:+ f). by rewrite <- app_str_assoc.
Qed.

Lemma comps_of_abs l : Forall comp l -> comps_of (abs_path l) = l.
Proof.
  intros Hl. unfold comps_of. rewrite IsAbs_abs, split_abs by done. destruct l as [|c l]; [done|].
  exact (clean_comps_id true [] (c :: l) Hl).
Qed.

Lemma comp_not_dotdot l : Forall comp l -> ".." ∉ l.
Proof. intros Hl Hin. rewrite Forall_forall in Hl. by destruct (Hl _ Hin) as (_ & _ & ? & _). Qed.

(** Between absolute paths [Rel] never fails, and does not start upwards
    exactly when the target lies in the base. *)
Lemma rel_comps_spec b t :
  Forall comp b ->
  exists l, rel_comps b t = Some l /\
    (l = [] -> t = b) /\
    (forall k, t = b ++ k -> l = k) /\
    (~ b `prefix_of` t -> exists l', l = ".." :: l').
Proof.
  intros Hb. revert t. induction b as [|x b IH]; intros t.
  - exists t. split_and!; [by destruct t|done|done|]. intros Hn. exfalso. apply Hn. by exists t.
  - pose proof (comp_not_dotdot _ Hb) as Hdd. inversion Hb as [|?? Hx Hb']; subst.
    assert (exists l, Some (map (fun _ => "..") (x :: b) ++ t) = Some l /\ exists l', l = ".." :: l') as (l & El & l' & ->).
    { eexists. split; [done|]. by eexists. }
    destruct t as [|y t]; cbn [rel_comps].
    + rewrite bool_decide_eq_false_2 by done. exists (".." :: l'). split_and!; [done|done|by intros k [=]|eauto].
    + destruct (String.eqb_spec x y) as [->|Hne].
      * destruct (IH Hb' t) as (l0 & E0 & H1 & H2 & H3). exists l0. split_and!; [done| | |].
        -- intros ->. by rewrite H1.
        -- intros k [= ->]. by apply H2.
        -- intros Hn. apply H3. intros [k ->]. apply Hn. by exists k.
      * rewrite bool_decide_eq_false_2 by done. exists (".." :: l').
        split_and!; [done|done|intros k [= -> _]; done|eauto].
Qed.

Definition inside_rel (rel : string) : bool :=
  negb (String.eqb rel ".") && negb (String.eqb rel "..") && negb (has_prefix "../" rel).

Lemma has_prefix_up l : l <> [] -> has_prefix "../" (join_str "/" (".." :: l)) = true.
Proof. intros H. rewrite join_str_cons by done. apply has_prefix_spec. by eexists. Qed.

(** [Rel] followed by the test of the callers: strictly below the base. *)
Lemma Rel_inside b t rel :
  Forall comp b -> Forall comp t ->
  Rel (abs_path b) (abs_path t) = Some rel ->
  inside_rel rel = true <-> b `prefix_of` t /\ b <> t.
Proof.
  intros Hb Ht. unfold Rel. rewrite !IsAbs_abs, !comps_of_abs by done. cbn [Bool.eqb negb].
  destruct (rel_comps_spec b t Hb) as (l & -> & H1 & H2 & H3).
  destruct (decide (b `prefix_of` t)) as [[k ->]|Hn].
  - rewrite (H2 k eq_refl). destruct k as [|c k].
    + intros [= <-]. split; [done|]. intros [_ []]. by rewrite app_nil_r.
    + intros [= <-]. apply Forall_app in Ht as [_ Ht]. inversion Ht as [|?? (Hc1 & Hc2 & Hc3 & Hc4) Hk]; subst.
      split; intros _; [split; [by exists (c :: k)|intros E; apply (f_equal length) in E; rewrite length_app in E; simpl in E; lia]|].
      unfold inside_rel. rewrite !andb_true_iff, !negb_true_iff, !String.eqb_neq. split_and!.
      * destruct k; simpl; [done|]. intros E. destruct c as [|a [|]]; simplify_eq/=.
      * destruct k; simpl; [done|]. intros E. destruct c as [|a [|a' [|]]]; simplify_eq/=.
      * apply not_true_is_false. intros [u E]%has_prefix_spec.
        assert (split_byte "/" (join_str "/" (c :: k)) = split_byte "/" ("../" +:+ u)) as E'
          by exact (f_equal (split_byte "/") E).
        rewrite (split_join "/") in E'; [|done|by apply comps_no_slash].
        change ("../" +:+ u) with (".." +:+ String "/" u) in E'. rewrite split_byte_app in E'. simpl in E'. by injection E' as ->.
  - destruct (H3 Hn) as [l' ->]. intros [= <-]. split; [|by intros [? _]].
    intros Hi. exfalso. unfold inside_rel in Hi. destruct l' as [|c l']; [done|].
    apply andb_prop in Hi as [_ Hi]. apply negb_true_iff in Hi.
    exact (eq_true_false_abs _ (has_prefix_up (c :: l') ltac:(done)) Hi).
Qed.

Lemma Rel_abs_some b t : Forall comp b -> Forall comp t -> is_Some (Rel (abs_path b) (abs_path t)).
Proof.
  intros Hb Ht. unfold Rel. rewrite !IsAbs_abs, !comps_of_abs by done. cbn [Bool.eqb negb].
  destruct (rel_comps_spec b t Hb) as (l & -> & _). destruct l; by eexists.
Qed.

Example Rel_ex1 : Rel "/a/b" "/a/b/c/d" = Some "c/d". Proof. reflexivity. Qed.
Example Rel_ex2 : Rel "/a/b" "/a/c" = Some "../c". Proof. reflexivity. Qed.
Example Rel_ex3 : Rel "/" "/a" = Some "a". Proof. reflexivity. Qed.
Example Clean_ex1 : Clean "/a/./b//../c/" = "/a/c". Proof. reflexivity. Qed.
Example Clean_ex2 : Clean "../a/../../b" = "../../b". Proof. reflexivity. Qed.
Example Clean_ex3 : Clean "" = ".". Proof. reflexivity. Qed.
Example Clean_ex4 : Clean "/.." = "/". Proof. reflexivity. Qed.
Example Base_ex : (Base "/", Base "a/b/", Base "") = ("/", "b", "."). Proof. reflexivity. Qed.
Example Dir_ex : (Dir "/a", Dir "a", Dir "/a/b/") = ("/", ".", "/a/b"). Proof. reflexivity. Qed.

(** ** Files directly below an absolute directory *)

Lemma clean_comps_snoc cs c : comp c -> forall stack, clean_comps true stack (cs ++ [c]) = clean_comps true stack cs ++ [c].
Proof.
  intros (H1 & H2 & H3 & _). induction cs as [|d cs IH]; intros stack; cbn [clean_comps app].
  - by rewrite (proj2 (String.eqb_neq _ _) H1), (proj2 (String.eqb_neq _ _) H2), (proj2 (String.eqb_neq _ _) H3).
  - destruct (_ || _); [by apply IH|]. destruct (String.eqb d ".."); [|apply IH]. destruct stack as [|e stack]; [apply IH|].
    destruct (String.eqb e ".."); apply IH.
Qed.

(** A file directly below an absolute directory. *)
Lemma Join_below dir f : IsAbs dir = true -> comp f ->
  exists l, Forall comp l /\ Clean dir = abs_path l /\ Join [dir; f] = abs_path (l ++ [f]).
Proof.
  intros Ha Hf. exists (clean_comps true [] (split_byte "/" dir)). split_and!.
  - apply clean_comps_valid; [constructor|apply split_byte_pieces].
  - unfold Clean. by rewrite Ha.
  - assert (String.eqb dir "" = false) as Hne by (by destruct dir). unfold Join. cbn [drop_empty]. rewrite Hne.
    change (join_str "/" [dir; f]) with (dir +:+ String "/" f). unfold Clean.
    assert (IsAbs (dir +:+ String "/" f) = true) as ->.
    { unfold IsAbs in *. apply has_prefix_spec in Ha as [t ->]. apply has_prefix_spec. exists (t +:+ String "/" f). by rewrite app_str_assoc. }
    rewrite split_byte_app, (split_byte_no "/" f) by apply Hf. by rewrite clean_comps_snoc.
Qed.

Lemma Join_below_inj dir f g : IsAbs dir = true -> comp f -> comp g -> Join [dir; f] = Join [dir; g] -> f = g.
Proof.
  intros Ha Hf Hg. destruct (Join_below dir f Ha Hf) as (l & Hl & E1 & ->), (Join_below dir g Ha Hg) as (k & Hk & E2 & ->).
  intros E%abs_path_inj; [|by rewrite Forall_app, Forall_singleton..]. by apply app_inj_tail in E as [_ ->].
Qed.

(** A file of [config/] is not one of the directory itself. *)
Lemma Join_below_sub dir f s g : IsAbs dir = true -> comp f -> comp s -> comp g ->
  Join [dir; f] <> Join [Join [dir; s]; g].
Proof.
  intros Ha Hf Hs Hg. destruct (Join_below dir f Ha Hf) as (l & Hl & E1 & ->), (Join_below dir s Ha Hs) as (k & Hk & E2 & ->).
  rewrite E1 in E2. apply abs_path_inj in E2 as <-; [|done..].
  destruct (Join_below (abs_path (l ++ [s])) g (IsAbs_abs _) Hg) as (m & Hm & E3 & ->).
  rewrite Clean_abs in E3 by (by rewrite Forall_app, Forall_singleton).
  apply abs_path_inj in E3 as <-; [|by rewrite Forall_app, Forall_singleton|done].
  intros E%abs_path_inj; [|by rewrite ?Forall_app, ?Forall_singleton..].
  apply (f_equal length) in E. rewrite !length_app in E. cbn in E. lia.
Qed.

Lemma Rel_below dir f : IsAbs dir = true -> comp f -> Rel dir (Join [dir; f]) = Some f.
Proof.
  intros Ha Hf. destruct (Join_below dir f Ha Hf) as (l & Hl & Ec & ->).
  assert (comps_of dir = l) as El.
  { apply abs_path_inj; [|done|].
    - unfold comps_of. rewrite Ha. apply clean_comps_valid; [constructor|apply split_byte_pieces].
    - rewrite <- Ec. unfold Clean, comps_of. by rewrite Ha. }
  unfold Rel. rewrite Ha, IsAbs_abs, El, comps_of_abs by (by rewrite Forall_app, Forall_singleton). cbn [Bool.eqb negb].
  destruct (rel_comps_spec l (l ++ [f]) Hl) as (k & -> & _ & H & _). by rewrite (H [f] eq_refl).
Qed.
