(* ===== verification/AtomicFile.v ===== *)
(** * AtomicFile: the write-then-rename persistence of every store

    All stores of the program persist by writing [path.tmp] and renaming it
    over [path].  Three variants exist: [saveJSON] of [backupstore/store.go]
    (also inlined in the chain, token, schedule and alert stores), [save] of
    [user/store.go] (removes the temporary file when the rename fails) and
    [saveLocked] of [auth/blacklist.go] (open, write, fsync, close, rename).

    The file system is a map from paths to contents.  Each system call
    consumes an outcome of the environment (it may fail, and a failed write
    may leave a torn file) and records the resulting state, so a crash can
    stop the machine at any recorded state.  JSON encoding is typed: a file
    holds the document it encodes, or [Torn] bytes that decode to nothing. *)

From S2P Require Export GoStrings.
Open Scope Z_scope.

Inductive content (D : Type) : Type :=
| Whole (d : D)
| Torn.
Arguments Whole {D} d.
Arguments Torn {D}.

Inductive outcome := Succeed | Fail | FailTorn.

Section FS.
Context {D : Type}.

Abbreviation files := (gmap string (content D)).

Record fs := MkFs {
  fs_files : files;
  fs_env : list outcome;       (* outcomes of the next system calls; then success *)
  fs_trace : list files        (* every state reached so far, latest first *)
}.

Definition step_fs (w : fs) (m : files) : fs := MkFs m (tail (fs_env w)) (m :: fs_trace w).
Definition next_outcome (w : fs) : outcome := default Succeed (head (fs_env w)).

(** A call that creates or overwrites [p] with contents [c]. *)
Definition sys_put (p : string) (c : content D) (w : fs) : bool * fs :=
  match next_outcome w with
  | Succeed => (true, step_fs w (<[p := c]> (fs_files w)))
  | Fail => (false, step_fs w (fs_files w))
  | FailTorn => (false, step_fs w (<[p := Torn]> (fs_files w)))
  end.

Definition sys_rename (p q : string) (w : fs) : bool * fs :=
  match next_outcome w, fs_files w !! p with
  | Succeed, Some c => (true, step_fs w (<[q := c]> (delete p (fs_files w))))
  | _, _ => (false, step_fs w (fs_files w))
  end.

Definition sys_remove (p : string) (w : fs) : fs :=
  match next_outcome w with
  | Succeed => step_fs w (delete p (fs_files w))
  | _ => step_fs w (fs_files w)
  end.

(** [fsync], [close], directory [fsync]: no change of the name space. *)
Definition sys_nop (w : fs) : bool * fs :=
  (match next_outcome w with Succeed => true | _ => false end, step_fs w (fs_files w)).

Definition tmp_of (path : string) : string := path +:+ ".tmp".

(** [saveJSON]. *)
Definition saveJSON (path : string) (d : D) (w : fs) : bool * fs :=
  let '(ok, w) := sys_put (tmp_of path) (Whole d) w in
  if ok then sys_rename (tmp_of path) path w else (false, w).

(** [user.Store.save]. *)
Definition save_users (path : string) (d : D) (w : fs) : bool * fs :=
  let '(ok, w) := sys_put (tmp_of path) (Whole d) w in
  if ok then
    let '(ok, w) := sys_rename (tmp_of path) path w in
    if ok then (true, w) else (false, sys_remove (tmp_of path) w)
  else (false, w).

(** [TokenBlacklist.saveLocked]. *)
Definition saveLocked (path : string) (d : D) (w : fs) : bool * fs :=
  if String.eqb path "" then (true, w) else
  let '(ok, w) := sys_put (tmp_of path) Torn w in                       (* OpenFile, truncated *)
  if negb ok then (false, w) else
  let '(ok, w) := sys_put (tmp_of path) (Whole d) w in                  (* Write *)
  if negb ok then (false, sys_remove (tmp_of path) (sys_nop w).2) else
  let w := (sys_nop w).2 in                                             (* Sync: logged only *)
  let '(ok, w) := sys_nop w in                                          (* Close *)
  if negb ok then (false, sys_remove (tmp_of path) w) else
  let '(ok, w) := sys_rename (tmp_of path) path w in
  if negb ok then (false, sys_remove (tmp_of path) w) else
  (true, (sys_nop w).2).                                                (* directory Sync *)

(** ** The contract of a save *)

(** States visited by a run that starts in [w] and ends in [w']. *)
Definition visited (w w' : fs) (m : files) : Prop :=
  exists new, fs_trace w' = new ++ fs_trace w /\ m ∈ new.

(** [extends P w w']: [w'] comes from [w] through states that all satisfy [P]. *)
Definition extends (P : files -> Prop) (w w' : fs) : Prop :=
  exists new, fs_trace w' = new ++ fs_trace w /\ Forall P new /\ (P (fs_files w) -> P (fs_files w')).

Lemma extends_refl P w : extends P w w.
Proof. exists []. by split_and!. Qed.

Lemma extends_trans P w1 w2 w3 : extends P w1 w2 -> extends P w2 w3 -> extends P w1 w3.
Proof.
  intros (n1 & H1 & F1 & I1) (n2 & H2 & F2 & I2). exists (n2 ++ n1).
  split_and!; [by rewrite H2, H1, app_assoc|by apply Forall_app|auto].
Qed.

Lemma extends_step (P : files -> Prop) w m : P m -> extends P w (step_fs w m).
Proof. intros Hm. exists [m]. split_and!; simpl; auto. Qed.

Lemma tmp_of_ne path : tmp_of path <> path.
Proof.
  unfold tmp_of. intros H. apply (f_equal slen) in H. rewrite slen_app in H. simpl in H. lia.
Qed.

Section Contract.
Context (path : string) (d : D) (old : option (content D)).

Definition old_or_new (m : files) : Prop := m !! path = old \/ m !! path = Some (Whole d).

Lemma sys_put_tmp c w :
  old_or_new (fs_files w) ->
  let '(ok, w') := sys_put (tmp_of path) c w in
  extends old_or_new w w' /\ fs_files w' !! path = fs_files w !! path /\
  (ok = true -> fs_files w' !! tmp_of path = Some c).
Proof.
  pose proof (tmp_of_ne path) as Hne. intros Hw. unfold sys_put, old_or_new in *.
  destruct (next_outcome w); (split_and!; [apply extends_step|..]; simpl);
    rewrite ?lookup_insert_ne, ?lookup_insert_eq by done; done.
Qed.

Lemma sys_rename_tmp w :
  fs_files w !! path = old -> fs_files w !! tmp_of path = Some (Whole d) ->
  let '(ok, w') := sys_rename (tmp_of path) path w in
  extends old_or_new w w' /\
  fs_files w' !! path = if ok then Some (Whole d) else old.
Proof.
  intros Hw Ht. unfold sys_rename. rewrite Ht.
  destruct (next_outcome w); simpl; (split; [apply extends_step|]; unfold old_or_new; simpl);
    rewrite ?lookup_insert_eq; auto.
Qed.

Lemma sys_remove_tmp w :
  old_or_new (fs_files w) ->
  extends old_or_new w (sys_remove (tmp_of path) w) /\
  fs_files (sys_remove (tmp_of path) w) !! path = fs_files w !! path.
Proof.
  pose proof (tmp_of_ne path) as Hne. intros Hw. unfold sys_remove, old_or_new in *.
  destruct (next_outcome w); (split; [apply extends_step|]; simpl);
    rewrite ?lookup_delete_ne by done; done.
Qed.

Lemma sys_nop_ext w :
  old_or_new (fs_files w) ->
  extends old_or_new w (sys_nop w).2 /\ fs_files (sys_nop w).2 = fs_files w.
Proof. intros Hw. unfold sys_nop. simpl. split; [by apply extends_step|done]. Qed.
End Contract.

(** What every variant guarantees: each state a crash could leave behind has
    the complete old file or the complete new one at [path]; a reported
    success means the new one is there, a reported failure the old one. *)
Definition atomic_save (save : string -> D -> fs -> bool * fs) (path : string) : Prop :=
  forall d w, let '(ok, w') := save path d w in
    extends (old_or_new path d (fs_files w !! path)) w w' /\
    fs_files w' !! path = if ok then Some (Whole d) else fs_files w !! path.

Lemma saveJSON_atomic path : atomic_save saveJSON path.
Proof.
  intros d w. unfold saveJSON.
  pose proof (sys_put_tmp path d (fs_files w !! path) (Whole d) w (or_introl eq_refl)) as Hp.
  destruct (sys_put _ _ w) as [[] w1], Hp as (He & Hl & Ht); [|by split].
  pose proof (sys_rename_tmp path d (fs_files w !! path) w1 Hl (Ht eq_refl)) as Hr.
  destruct (sys_rename _ _ w1) as [ok w2], Hr as [He2 Hl2].
  split; [by eapply extends_trans|done].
Qed.

Lemma save_users_atomic path : atomic_save save_users path.
Proof.
  intros d w. unfold save_users.
  pose proof (sys_put_tmp path d (fs_files w !! path) (Whole d) w (or_introl eq_refl)) as Hp.
  destruct (sys_put _ _ w) as [[] w1], Hp as (He & Hl & Ht); [|by split].
  pose proof (sys_rename_tmp path d (fs_files w !! path) w1 Hl (Ht eq_refl)) as Hr.
  destruct (sys_rename _ _ w1) as [[] w2], Hr as [He2 Hl2];
    [split; [by eapply extends_trans|done]|].
  destruct (sys_remove_tmp path d (fs_files w !! path) w2 (or_introl Hl2)) as [He3 Hl3].
  split; [by eapply extends_trans; [|eapply extends_trans]|congruence].
Qed.

(** A run that keeps the old file at [path]. *)
Definition keeps_old (path : string) (d : D) (w w' : fs) : Prop :=
  extends (old_or_new path d (fs_files w !! path)) w w' /\
  fs_files w' !! path = fs_files w !! path.

Lemma keeps_old_trans path d w1 w2 w3 :
  keeps_old path d w1 w2 -> keeps_old path d w2 w3 -> keeps_old path d w1 w3.
Proof.
  intros [H1 L1] [H2 L2]. split; [|congruence]. eapply extends_trans; [done|by rewrite <- L1].
Qed.

Lemma put_keeps_old path d c w :
  let '(ok, w') := sys_put (tmp_of path) c w in
  keeps_old path d w w' /\ (ok = true -> fs_files w' !! tmp_of path = Some c).
Proof.
  pose proof (sys_put_tmp path d (fs_files w !! path) c w (or_introl eq_refl)) as H.
  destruct (sys_put _ _ w). unfold keeps_old. intuition.
Qed.

Lemma nop_keeps_old path d w : keeps_old path d w (sys_nop w).2.
Proof.
  destruct (sys_nop_ext path d (fs_files w !! path) w (or_introl eq_refl)) as [H L].
  split; [done|by rewrite L].
Qed.

Lemma remove_keeps_old path d w : keeps_old path d w (sys_remove (tmp_of path) w).
Proof. apply sys_remove_tmp. by left. Qed.

Lemma rename_keeps_old_or_saves path d w :
  fs_files w !! tmp_of path = Some (Whole d) ->
  let '(ok, w') := sys_rename (tmp_of path) path w in
  extends (old_or_new path d (fs_files w !! path)) w w' /\
  fs_files w' !! path = if ok then Some (Whole d) else fs_files w !! path.
Proof. apply (sys_rename_tmp path d _ w eq_refl). Qed.

Lemma saveLocked_atomic path : path <> "" -> atomic_save saveLocked path.
Proof.
  intros Hp d w. unfold saveLocked. rewrite (proj2 (String.eqb_neq _ _) Hp).
  pose proof (put_keeps_old path d Torn w) as H1.
  destruct (sys_put (tmp_of path) Torn w) as [[] w1], H1 as [H1 _]; cbn [negb]; [|exact H1].
  pose proof (put_keeps_old path d (Whole d) w1) as H2.
  destruct (sys_put (tmp_of path) (Whole d) w1) as [[] w2], H2 as [H2 Ht]; cbn [negb]; cycle 1.
  { exact (keeps_old_trans _ _ _ _ _ (keeps_old_trans _ _ _ _ _ H1 H2)
      (keeps_old_trans _ _ _ _ _ (nop_keeps_old path d w2) (remove_keeps_old path d _))). }
  specialize (Ht eq_refl).
  assert (keeps_old path d w (sys_nop (sys_nop w2).2).2) as H3.
  { eauto using keeps_old_trans, nop_keeps_old. }
  destruct (sys_nop (sys_nop w2).2) as [ok w3] eqn:E; cbn [snd] in H3.
  destruct ok; cbn [negb]; [|by eapply keeps_old_trans; [|apply remove_keeps_old]].
  assert (fs_files w3 !! tmp_of path = Some (Whole d)) as Ht3.
  { unfold sys_nop in E. by injection E as _ <-. }
  pose proof (rename_keeps_old_or_saves path d w3 Ht3) as H4.
  destruct (sys_rename (tmp_of path) path w3) as [[] w4], H4 as [H4 L4]; cbn [negb].
  - destruct H3 as [H3 L3]. rewrite L3 in H4. split; [|done].
    eapply extends_trans; [exact H3|]. eapply extends_trans; [exact H4|].
    apply extends_step. by right.
  - apply (keeps_old_trans path d _ w4); [|apply remove_keeps_old].
    by eapply (keeps_old_trans path d); [exact H3|split].
Qed.

End FS.
Arguments fs : clear implicits.
Arguments atomic_save {D} save path.

(** C28: crash consistency of every store. Whatever system call of a save
    fails, and at whatever point the process dies, the file at [path] is
    either the complete previous document or the complete new one, and the
    save reports success exactly when the new one is in place. *)
Theorem saves_are_atomic (D : Type) (path : string) :
  path <> "" ->
  atomic_save (D := D) saveJSON path /\ atomic_save (D := D) save_users path /\
  atomic_save (D := D) saveLocked path.
Proof. auto using saveJSON_atomic, save_users_atomic, saveLocked_atomic. Qed.

Lemma saves_are_atomic_witness :
  let w := MkFs {["a.json" := Whole 1]} [FailTorn] [] in
  fs_files (saveLocked "a.json" 2 w).2 !! "a.json" = Some (Whole 1).
Proof.
  intros w. destruct (saves_are_atomic Z "a.json" ltac:(discriminate)) as (_ & _ & H).
  specialize (H 2 w). destruct (saveLocked "a.json" 2 w) as [ok w'] eqn:E.
  assert (ok = false) as -> by (vm_compute in E; congruence). destruct H as [_ H]. simpl. rewrite H.
  reflexivity.
Defined.

(** ** The interface the stores are written against

    A store writes documents of type [D] into a world [W]; [save] reports
    success, and [stored] is what a restart would read back. *)
Class Persist (D W : Type) := {
  save : D -> W -> bool * W;
  stored : W -> option (content D);
  save_spec : forall d w, let '(ok, w') := save d w in
    stored w' = if ok then Some (Whole d) else stored w
}.
#[global] Hint Mode Persist - ! : typeclass_instances.

Definition fs_persist {D} (path : string) (save : string -> D -> fs D -> bool * fs D)
    (H : atomic_save save path) : Persist D (fs D).
Proof.
  refine {| save := save path; stored := fun w => fs_files w !! path |}.
  intros d w. specialize (H d w). destruct (save path d w). apply H.
Defined.

Section PersistFacts.
Context `{Persist D W}.

Lemma save_true (d : D) (w w' : W) : save d w = (true, w') -> stored w' = Some (Whole d).
Proof. intros E. pose proof (save_spec d w) as Hs. by rewrite E in Hs. Qed.

Lemma save_false (d : D) (w w' : W) : save d w = (false, w') -> stored w' = stored w.
Proof. intros E. pose proof (save_spec d w) as Hs. by rewrite E in Hs. Qed.
End PersistFacts.

(** ** A disk for examples: it holds one document, and accepts writes or does not *)

Module DemoDisk.
Record cell (D : Type) := MkCell { held : option (content D); accepts : bool }.
Arguments MkCell {D}. Arguments held {D}. Arguments accepts {D}.
Definition holding {D} (d : D) : cell D := MkCell (Some (Whole d)) true.
#[global] Instance cell_persist D : Persist D (cell D).
Proof.
  refine {| save := fun d w => if accepts w then (true, MkCell (Some (Whole d)) true) else (false, w);
            stored := held |}.
  intros d w. by destruct (accepts w).
Defined.
End DemoDisk.
