(* ===== verification/ClientIP.v ===== *)
(** * ClientIP: client-address resolution and trusted peers

    Models [logging/clientip.go] ([ResolveClientIP]) and the trust decision of
    [auth/ratelimit.go] ([parseTrustedCIDRs], [isTrustedPeer],
    [resolveClient]).  The settings store is the interface
    [TrustedCIDRProvider], a record of two functions read live. *)

From S2P Require Export GoNet.
Open Scope Z_scope.

(** The part of [*http.Request] these functions read. *)
Record Request := MkRequest {
  RemoteAddr : string;
  Header : string -> string;      (* [r.Header.Get] *)
  UrlPath : string
}.

Record TrustedCIDRProvider := {
  GetList : string -> list string;
  GetBool : string -> bool
}.

(** The walk of [ResolveClientIP] over the header entries, rightmost first. *)
Fixpoint walk_hops (peer : option ip) (isTrusted : option ip -> bool) (hops : list string)
    : option ip * bool :=
  match hops with
  | [] => (peer, false)
  | h :: hops =>
      match ParseIP (trim_space h) with
      | None => (peer, false)
      | Some c => if isTrusted (Some c) then walk_hops peer isTrusted hops else (Some c, true)
      end
  end.

Definition ResolveClientIP (peer : option ip) (xff : string) (trustProxy : bool)
    (isTrusted : option ip -> bool) : option ip * bool :=
  if negb trustProxy || String.eqb xff "" || negb (isTrusted peer) then (peer, false)
  else walk_hops peer isTrusted (rev (split_byte "," xff)).

Definition parseTrustedCIDRs (raw : string) : list ipnet :=
  let raw := trim_space raw in
  if String.eqb raw "" then []
  else omap (fun p => let p := trim_space p in
                      if String.eqb p "" then None else ParseCIDR p)
            (split_byte "," raw).

Definition peerIP (r : Request) : option ip :=
  ParseIP (match SplitHostPort (RemoteAddr r) with
           | Some (host, _) => host
           | None => RemoteAddr r
           end).

Definition isTrustedPeer (a : option ip) (trusted : list ipnet)
    (settings : option TrustedCIDRProvider) : bool :=
  match a with
  | None => false
  | Some a =>
      IsLoopback a
      || existsb (fun n => Contains n a) trusted
      || match settings with
         | None => false
         | Some s =>
             existsb (fun cidr => match ParseCIDR (trim_space cidr) with
                                  | Some n => Contains n a
                                  | None => false
                                  end) (GetList s "server.trusted_cidrs")
         end
  end.

Definition resolveClient (r : Request) (trusted : list ipnet)
    (settings : option TrustedCIDRProvider) : option ip * bool :=
  let trustProxy := match settings with
                    | Some s => GetBool s "server.trust_proxy"
                    | None => false
                    end in
  ResolveClientIP (peerIP r) (Header r "X-Forwarded-For") trustProxy
    (fun c => isTrustedPeer c trusted settings).

Definition clientIPOf (r : Request) (trusted : list ipnet)
    (settings : option TrustedCIDRProvider) : option ip :=
  (resolveClient r trusted settings).1.

(** ** The walk *)

Section Walk.
Context (peer : option ip) (isTrusted : option ip -> bool).

Lemma walk_hops_header hops a :
  walk_hops peer isTrusted hops = (a, true) ->
  exists c infra h rest,
    a = Some c /\ hops = infra ++ h :: rest /\
    ParseIP (trim_space h) = Some c /\ isTrusted (Some c) = false /\
    Forall (fun e => exists t, ParseIP (trim_space e) = Some t /\ isTrusted (Some t) = true) infra.
Proof.
  induction hops as [|h hops IH]; simpl; [done|].
  destruct (ParseIP (trim_space h)) as [c|] eqn:Hp; [|done].
  destruct (isTrusted (Some c)) eqn:Ht; intros Hw.
  - destruct (IH Hw) as (c' & infra & h' & rest & -> & -> & ? & ? & ?).
    exists c', (h :: infra), h', rest. split_and!; eauto.
  - simplify_eq. exists c, [], h, hops. split_and!; eauto.
Qed.

Lemma walk_hops_peer hops a : walk_hops peer isTrusted hops = (a, false) -> a = peer.
Proof.
  induction hops as [|h hops IH]; simpl; [congruence|].
  repeat case_match; intros; simplify_eq; eauto.
Qed.

(** Entries further left than the resolving hop never matter. *)
Lemma walk_hops_app hops extra a :
  walk_hops peer isTrusted hops = (a, true) ->
  walk_hops peer isTrusted (hops ++ extra) = (a, true).
Proof.
  induction hops as [|h hops IH]; simpl; [done|].
  repeat case_match; intros; simplify_eq; eauto.
Qed.
End Walk.

Lemma resolve_header_walk peer xff tp isTrusted a :
  ResolveClientIP peer xff tp isTrusted = (a, true) ->
  tp = true /\ xff <> "" /\ isTrusted peer = true /\
  walk_hops peer isTrusted (rev (split_byte "," xff)) = (a, true).
Proof.
  unfold ResolveClientIP. destruct (_ || _ || _) eqn:E; [done|].
  bool_norm. intros. by split_and!.
Qed.

(** An address taken from X-Forwarded-For is used only when proxy trust is
    on and the TCP peer is trusted; it is itself never a trusted address, it
    is the parse of a header entry, and every entry to its right is a trusted
    proxy.  In every other case the TCP peer is returned. *)
Theorem ResolveClientIP_sound peer xff tp isTrusted a fromHeader :
  ResolveClientIP peer xff tp isTrusted = (a, fromHeader) ->
  (fromHeader = false /\ a = peer) \/
  (fromHeader = true /\ tp = true /\ isTrusted peer = true /\ isTrusted a = false /\
   exists left h infra c,
     split_byte "," xff = left ++ h :: infra /\ a = Some c /\ ParseIP (trim_space h) = Some c /\
     Forall (fun e => exists t, ParseIP (trim_space e) = Some t /\ isTrusted (Some t) = true) infra).
Proof.
  destruct fromHeader; intros H; [right|left].
  - apply resolve_header_walk in H as (-> & _ & Hpeer & Hw).
    apply walk_hops_header in Hw as (c & infra & h & rest & -> & Hr & Hp & Ht & HF).
    split_and!; [done..|].
    exists (rev rest), h, (rev infra), c. split_and!; [|done..|].
    + rewrite <- (rev_involutive (split_byte "," xff)), Hr, rev_app_distr. simpl.
      by rewrite <- app_assoc.
    + by apply Forall_rev.
  - split; [done|]. unfold ResolveClientIP in H.
    destruct (_ || _ || _); [congruence|]. eauto using walk_hops_peer.
Qed.

Definition demo_trust (a : option ip) : bool :=
  isTrustedPeer a (parseTrustedCIDRs "10.0.0.0/8") None.

Lemma ResolveClientIP_sound_witness :
  exists a, ResolveClientIP (ParseIP "127.0.0.1") "6.6.6.6, 203.0.113.9, 10.0.0.2" true demo_trust
            = (a, true) /\ demo_trust a = false.
Proof.
  exists (ParseIP "203.0.113.9"). split; [vm_compute; reflexivity|].
  destruct (ResolveClientIP_sound (ParseIP "127.0.0.1") "6.6.6.6, 203.0.113.9, 10.0.0.2" true
              demo_trust (ParseIP "203.0.113.9") true) as [[? _]|(_ & _ & _ & ? & _)];
    [vm_compute; reflexivity|discriminate|assumption].
Defined.

(** A client cannot influence the resolved address by sending its own
    X-Forwarded-For: whatever text is prepended to the header the proxies
    wrote, the same address is resolved. *)
Theorem ResolveClientIP_unspoofable peer xff tp isTrusted a evil :
  ResolveClientIP peer xff tp isTrusted = (a, true) ->
  ResolveClientIP peer (evil +:+ String "," xff) tp isTrusted = (a, true).
Proof.
  intros H. apply resolve_header_walk in H as (-> & _ & Hpeer & Hw).
  unfold ResolveClientIP. rewrite Hpeer, split_byte_app, rev_app_distr.
  replace (String.eqb (evil +:+ String "," xff) "") with false by (by destruct evil).
  simpl. by apply walk_hops_app.
Qed.

Lemma ResolveClientIP_unspoofable_witness :
  ResolveClientIP (ParseIP "127.0.0.1") "203.0.113.9, 10.0.0.2" true demo_trust
    = (ParseIP "203.0.113.9", true) /\
  ResolveClientIP (ParseIP "127.0.0.1") ("127.0.0.1" +:+ String "," "203.0.113.9, 10.0.0.2")
    true demo_trust = (ParseIP "203.0.113.9", true).
Proof.
  split; [vm_compute; reflexivity|].
  apply (ResolveClientIP_unspoofable (ParseIP "127.0.0.1") "203.0.113.9, 10.0.0.2" true demo_trust
           (ParseIP "203.0.113.9") "127.0.0.1"); vm_compute; reflexivity.
Defined.
