(* ===== verification/LoginLimiter.v ===== *)
(** * LoginLimiter: brute-force lockout of the login endpoint

    Models [LoginRateLimiter] of [auth/ratelimit.go]: one bucket per
    (client IP, username) pair, [limit] failures within [window] lock the pair
    for [lockout].  The clock reading of each call is its argument [now]. *)

From S2P Require Export ClientIP.
Open Scope Z_scope.

Record rlBucket := RlBucket {
  rl_failures : Z;
  firstFail : Z;
  lockedTill : Z
}.

Record LoginRateLimiter := MkLimiter {
  failures : gmap string rlBucket;
  limit : Z;
  window : Z;
  lockout : Z;
  trusted : list ipnet;
  settings : option TrustedCIDRProvider
}.

Definition with_failures (l : LoginRateLimiter) (m : gmap string rlBucket) :=
  MkLimiter m (limit l) (window l) (lockout l) (trusted l) (settings l).

(** [NewLoginRateLimiterWithEnv] (with [getenv] the process environment) and
    [NewLoginRateLimiterWithSettings]. *)
Definition NewLoginRateLimiterWithEnv (getenv : string -> string) (envValue : string)
    : LoginRateLimiter :=
  let envValue := if String.eqb envValue "" then getenv "WEBKVM_TRUSTED_RATELIMIT_CIDRS"
                  else envValue in
  MkLimiter ∅ 5 (15 * minute) (15 * minute) (parseTrustedCIDRs envValue) None.

Definition NewLoginRateLimiterWithSettings (getenv : string -> string)
    (s : option TrustedCIDRProvider) : LoginRateLimiter :=
  let l := NewLoginRateLimiterWithEnv getenv "" in
  MkLimiter (failures l) (limit l) (window l) (lockout l) (trusted l) s.

Definition isTrusted (l : LoginRateLimiter) (r : Request) : bool :=
  let '(a, fromHeader) := resolveClient r (trusted l) (settings l) in
  match a with
  | None => false
  | Some _ => if fromHeader then false else isTrustedPeer a (trusted l) (settings l)
  end.

Definition keyFor (l : LoginRateLimiter) (r : Request) (username : string) : string :=
  (match clientIPOf r (trusted l) (settings l) with
   | Some a => ip_string a
   | None => "unknown"
   end) +:+ "|" +:+ username.

(** The critical sections of [Allow], [RecordFailure] and [RecordSuccess] for
    the bucket key [k] (run under [l.mu]). *)
Definition allow_key (l : LoginRateLimiter) (k : string) (now : Z)
    : (bool * Z) * LoginRateLimiter :=
  match failures l !! k with
  | None => ((true, 0), l)
  | Some b =>
      if negb (is_zero (lockedTill b)) && before now (lockedTill b)
      then ((false, time_sub (lockedTill b) now), l)
      else if window l <? time_sub now (firstFail b)
      then ((true, 0), with_failures l (delete k (failures l)))
      else ((true, 0), l)
  end.

Definition fail_bucket (limit window lockout : Z) (b : option rlBucket) (now : Z) : rlBucket :=
  match b with
  | None => RlBucket 1 now time_zero
  | Some b =>
      if window <? time_sub now (firstFail b) then RlBucket 1 now time_zero
      else let n := rl_failures b + 1 in
           RlBucket n (firstFail b)
             (if limit <=? n then time_add now lockout else lockedTill b)
  end.

Definition record_failure_key (l : LoginRateLimiter) (k : string) (now : Z) : LoginRateLimiter :=
  with_failures l
    (<[k := fail_bucket (limit l) (window l) (lockout l) (failures l !! k) now]> (failures l)).

Definition Allow (l : LoginRateLimiter) (r : Request) (username : string) (now : Z)
    : (bool * Z) * LoginRateLimiter :=
  if isTrusted l r then ((true, 0), l) else allow_key l (keyFor l r username) now.

Definition RecordFailure (l : LoginRateLimiter) (r : Request) (username : string) (now : Z)
    : LoginRateLimiter :=
  if isTrusted l r then l else record_failure_key l (keyFor l r username) now.

Definition RecordSuccess (l : LoginRateLimiter) (r : Request) (username : string)
    : LoginRateLimiter :=
  if isTrusted l r then l
  else with_failures l (delete (keyFor l r username) (failures l)).

(** [WriteRateLimited]: the Retry-After header value, in whole seconds. *)
Definition retry_after_seconds (retryAfter : Z) : Z := Z.quot retryAfter second.

(** One login attempt with wrong credentials, as the handlers run it: [Allow]
    first, and [RecordFailure] only when the attempt was let through.  The
    result says whether the password was looked at. *)
Definition failed_login (l : LoginRateLimiter) (k : string) (now : Z) : bool * LoginRateLimiter :=
  let '((ok, _), l) := allow_key l k now in
  if ok then (true, record_failure_key l k now) else (false, l).

Fixpoint failed_logins (l : LoginRateLimiter) (k : string) (times : list Z)
    : Z * LoginRateLimiter :=
  match times with
  | [] => (0, l)
  | t :: times =>
      let '(ok, l) := failed_login l k t in
      let '(n, l) := failed_logins l k times in
      ((if ok then 1 else 0) + n, l)
  end.

(** ** Buckets *)

Section Bucket.
Context (l : LoginRateLimiter) (k : string).

(** The durations of a limiter are positive and far from the [int64] edge. *)
Definition sane : Prop :=
  2 <= limit l /\ 0 < window l /\ 0 < lockout l /\ window l <= lockout l /\
  is_int64 (window l) /\ window l <> int64_max.

Lemma with_failures_id : with_failures l (failures l) = l.
Proof. by destruct l. Qed.

Lemma window_expired now b :
  sane -> (window l <? time_sub now (firstFail b)) = true <-> window l < now - firstFail b.
Proof.
  intros (_ & _ & _ & _ & H1 & H2). rewrite Z.ltb_lt. by apply time_sub_gt.
Qed.
End Bucket.

Lemma failed_login_other l k k' now :
  k <> k' -> failures (failed_login l k now).2 !! k' = failures l !! k'.
Proof.
  intros Hne. unfold failed_login, allow_key, record_failure_key.
  repeat case_match; simplify_eq/=; by rewrite ?lookup_insert_ne, ?lookup_delete_ne.
Qed.

(** A locked bucket refuses every attempt before its deadline and is left
    untouched by it. *)
Lemma failed_login_locked l k b now :
  failures l !! k = Some b -> is_zero (lockedTill b) = false -> now < lockedTill b ->
  failed_login l k now = (false, l).
Proof.
  intros Hb Hz Hlt. unfold failed_login, allow_key, before. rewrite Hb, Hz.
  rewrite (proj2 (Z.ltb_lt _ _) Hlt). done.
Qed.

Lemma failed_logins_locked l k b times :
  failures l !! k = Some b -> is_zero (lockedTill b) = false ->
  Forall (fun t => t < lockedTill b) times ->
  failed_logins l k times = (0, l).
Proof.
  intros Hb Hz HF. induction HF as [|t times Ht _ IH]; simpl; [done|].
  by rewrite (failed_login_locked _ _ _ _ Hb Hz Ht), IH.
Qed.

(** An unlocked bucket in its window lets the attempt through and counts it. *)
Lemma failed_login_unlocked l k b now :
  sane l -> failures l !! k = Some b -> lockedTill b = time_zero ->
  now - firstFail b <= window l ->
  failed_login l k now =
    (true, with_failures l (<[k := RlBucket (rl_failures b + 1) (firstFail b)
              (if limit l <=? rl_failures b + 1 then now + lockout l else time_zero)]> (failures l))).
Proof.
  intros Hs Hb Hz Hw. unfold failed_login, allow_key, record_failure_key, fail_bucket.
  assert ((window l <? time_sub now (firstFail b)) = false) as Hexp.
  { apply not_true_iff_false. rewrite window_expired by done. lia. }
  rewrite Hb, Hz. unfold is_zero at 1. rewrite Z.eqb_refl. simpl.
  by rewrite Hexp, Hb, Hexp, Hz.
Qed.

(** From a bucket holding [n < limit] failures, a burst of attempts inside the
    window is let through at most [limit - n] times. *)
Lemma failed_logins_bound l k b times :
  sane l -> failures l !! k = Some b -> lockedTill b = time_zero ->
  1 <= rl_failures b < limit l -> time_zero <= firstFail b ->
  Forall (fun t => firstFail b <= t < firstFail b + window l) times ->
  (failed_logins l k times).1 <= limit l - rl_failures b.
Proof.
  revert l b. induction times as [|t times IH]; intros l b Hs Hb Hz Hn Hff HF; simpl; [lia|].
  apply Forall_cons in HF as [Ht HF].
  rewrite (failed_login_unlocked l k b t) by (done || lia).
  destruct (failed_logins _ k times) as [n' l'] eqn:Hrec. simpl.
  destruct (Z.leb_spec (limit l) (rl_failures b + 1)) as [Hlim|Hlim].
  - enough (n' = 0) by lia.
    erewrite failed_logins_locked in Hrec; [by simplify_eq|apply lookup_insert_eq|..]; simpl.
    + unfold is_zero. apply Z.eqb_neq. destruct Hs as (_&_&?&_). lia.
    + eapply Forall_impl; [exact HF|]. simpl. destruct Hs as (_&_&?&?&_). lia.
  - enough (n' <= limit l - (rl_failures b + 1)) by lia.
    replace n' with (failed_logins (with_failures l
      (<[k := RlBucket (rl_failures b + 1) (firstFail b) time_zero]> (failures l))) k times).1
      by (by rewrite Hrec).
    refine (IH _ (RlBucket (rl_failures b + 1) (firstFail b) time_zero) _ _ _ _ _ _);
      simpl; try done; [apply lookup_insert_eq|lia].
Qed.


(** The production limiter: 5 failures, 15 minutes, 15 minutes. *)
Definition demo_limiter : LoginRateLimiter := NewLoginRateLimiterWithEnv (fun _ => "") "".

Lemma new_limiter_sane getenv env : sane (NewLoginRateLimiterWithEnv getenv env).
Proof. repeat split; vm_compute; congruence. Qed.


(** Labels of arbitrary interleaved calls on other pairs. *)
Inductive rl_call :=
| CAllow (k : string) (now : Z)
| CFail (k : string) (now : Z)
| CSuccess (k : string).

Definition call_key (c : rl_call) : string :=
  match c with CAllow k _ | CFail k _ | CSuccess k => k end.

Definition rl_step (c : rl_call) (l : LoginRateLimiter) : LoginRateLimiter :=
  match c with
  | CAllow k now => (allow_key l k now).2
  | CFail k now => record_failure_key l k now
  | CSuccess k => with_failures l (delete k (failures l))
  end.

Lemma rl_step_other c l k :
  call_key c <> k -> failures (rl_step c l) !! k = failures l !! k.
Proof.
  destruct c; simpl; intros Hne; unfold allow_key, record_failure_key;
    repeat case_match; simplify_eq/=; by rewrite ?lookup_insert_ne, ?lookup_delete_ne.
Qed.

(** Lockout. When the failure that reaches the limit is recorded at time
    [t], then, whatever other pairs do meanwhile, every [Allow] of the pair
    before [t + lockout] is refused with the exact remaining time, and the
    first one after both the lockout and the window have passed starts from a
    clean slate. *)
Theorem lockout_enforced l k b t calls t' :
  sane l -> failures l !! k = Some b -> limit l <= rl_failures b + 1 ->
  firstFail b <= t <= firstFail b + window l -> time_zero < t ->
  Forall (fun c => call_key c <> k) calls -> t <= t' ->
  let l' := run rl_step calls (record_failure_key l k t) in
  (t' < t + lockout l -> is_int64 (lockout l) -> (allow_key l' k t').1 = (false, t + lockout l - t')) /\
  (t + lockout l <= t' -> firstFail b + window l < t' ->
     (allow_key l' k t').1 = (true, 0) /\ failures (allow_key l' k t').2 !! k = None).
Proof.
  intros Hs Hb Hlim Ht Hz HF Htt' l'.
  set (b' := RlBucket (rl_failures b + 1) (firstFail b) (t + lockout l)).
  assert (window l' = window l /\ failures l' !! k = Some b') as [Hw Hb'].
  { unfold l'. apply (run_invariant_labels rl_step (fun c => call_key c <> k)
      (fun s => window s = window l /\ failures s !! k = Some b')); [|done|].
    - intros c s Hc [Hws Hks]. rewrite rl_step_other by done. split; [|done].
      by destruct c; simpl; unfold allow_key; repeat case_match.
    - simpl. rewrite lookup_insert_eq, Hb. unfold fail_bucket, time_add.
      replace (window l <? time_sub t (firstFail b)) with false;
        [by rewrite (proj2 (Z.leb_le _ _) Hlim)|].
      symmetry. apply not_true_iff_false. rewrite window_expired by done. lia. }
  destruct Hs as (_ & _ & Hlo & _ & Hwi & Hwm).
  unfold allow_key. rewrite Hb'. unfold b', is_zero, before; simpl.
  replace (t + lockout l =? time_zero) with false by (symmetry; apply Z.eqb_neq; lia). simpl.
  split.
  - intros Hlt Hi. rewrite (proj2 (Z.ltb_lt _ _) Hlt). simpl. f_equal.
    apply time_sub_exact. unfold is_int64, int64_min, int64_max in *. lia.
  - intros Hge Hexp. rewrite (proj2 (Z.ltb_ge _ _) Hge), Hw.
    replace (window l <? time_sub t' (firstFail b)) with true;
      [split; [done|apply lookup_delete_eq]|].
    symmetry. apply Z.ltb_lt, time_sub_gt; [done..|lia].
Qed.

Lemma lockout_enforced_witness :
  let l := (failed_logins demo_limiter "198.51.100.7|root" [0; second; 2 * second; 3 * second]).2 in
  (allow_key (record_failure_key l "198.51.100.7|root" (4 * second)) "198.51.100.7|root" (64 * second)).1
  = (false, 14 * minute).
Proof.
  intros l.
  destruct (lockout_enforced l "198.51.100.7|root" (RlBucket 4 0 time_zero) (4 * second) [] (64 * second))
    as [H _]; [|vm_compute; reflexivity|vm_compute; congruence| | |constructor| |].
  - repeat split; vm_compute; congruence.
  - vm_compute; split; congruence.
  - reflexivity.
  - vm_compute; congruence.
  - apply H; [vm_compute; reflexivity|vm_compute; split; congruence].
Defined.

(** The bucket's window and its lockout end at different times, and
    [RecordFailure] looks only at the window: a failure recorded without a
    preceding [Allow] (the passkey handler, or an attempt already in flight)
    after the window but before the end of the lockout replaces the locked
    bucket by a fresh one. *)
Example record_failure_drops_lock :
  let k := "198.51.100.7|root" in
  let l := (failed_logins demo_limiter k
              [0; 14 * minute; 14 * minute; 14 * minute; 14 * minute]).2 in
  let t := 16 * minute in
  (allow_key l k t).1 = (false, 13 * minute) /\
  (allow_key (record_failure_key l k t) k t).1 = (true, 0).
Proof. split; vm_compute; reflexivity. Qed.

(** A request whose address came from X-Forwarded-For is never exempt. *)
Lemma header_client_never_exempt l r a :
  resolveClient r (trusted l) (settings l) = (a, true) -> isTrusted l r = false.
Proof. intros H. unfold isTrusted. rewrite H. by destruct a. Qed.

(** Exempt requests touch no bucket. *)
Lemma trusted_untouched l r u now :
  isTrusted l r = true ->
  Allow l r u now = ((true, 0), l) /\ RecordFailure l r u now = l /\ RecordSuccess l r u = l.
Proof. intros H. unfold Allow, RecordFailure, RecordSuccess. by rewrite H. Qed.
