(* ===== verification/Blacklist.v ===== *)
(** * Blacklist: the denylist of revoked tokens

    Models [TokenBlacklist] of [auth/blacklist.go]: the in-memory entries, the
    [revoked.json] document and its loading, [Revoke], [IsRevoked], the GC
    tick and [Close].  Persistence goes through the [Persist] interface of
    AtomicFile; [hashToken] (SHA-256, hex) is a parameter. *)

From S2P Require Export AtomicFile.
Open Scope Z_scope.

Record revokedFile := RevokedFile {
  rf_Version : Z;
  rf_Entries : gmap string Z;
  rf_SavedAt : Z
}.

Definition revokedFileVersion : Z := 1.

Record TokenBlacklist := MkBlacklist {
  bl_path : string;
  entries : gmap string Z;       (* token key -> expiry *)
  dirty : bool;
  stopped : bool
}.

Definition bl_with (b : TokenBlacklist) (m : gmap string Z) (d : bool) : TokenBlacklist :=
  MkBlacklist (bl_path b) m d (stopped b).

Section Blacklist.
Context {W : Type} `{Persist revokedFile W} (hashToken : string -> string).

(** [loadLocked]: a missing, unreadable, corrupt or foreign-version file gives
    an empty denylist; expired entries are dropped. *)
Definition loadLocked (path : string) (w : W) (now : Z) : gmap string Z :=
  if String.eqb path "" then ∅ else
  match stored w with
  | Some (Whole rf) =>
      if rf_Version rf =? revokedFileVersion
      then map_delete_if (fun _ exp => negb (before now exp)) (rf_Entries rf)
      else ∅
  | _ => ∅
  end.

Definition NewTokenBlacklistWithPath (path : string) (w : W) (now : Z) : TokenBlacklist :=
  MkBlacklist path (loadLocked path w now) false false.

Definition bl_save (b : TokenBlacklist) (w : W) (now : Z) : bool * W :=
  if String.eqb (bl_path b) "" then (true, w)
  else save (RevokedFile revokedFileVersion (entries b) now) w.

Definition token_key (jti tokenStr : string) : string :=
  if String.eqb jti "" then hashToken tokenStr else jti.

Definition Revoke (b : TokenBlacklist) (w : W) (now : Z) (jti tokenStr : string) (expiresAt : Z)
    : TokenBlacklist * W :=
  let b := bl_with b (<[token_key jti tokenStr := expiresAt]> (entries b)) true in
  let '(ok, w) := bl_save b w now in
  (bl_with b (entries b) (negb ok), w).

Definition IsRevoked (b : TokenBlacklist) (jti tokenStr : string) (now : Z) : bool :=
  match entries b !! token_key jti tokenStr with
  | None => false
  | Some exp => before now exp
  end.

(** One tick of [gc]. *)
Definition gc_tick (b : TokenBlacklist) (w : W) (now : Z) : TokenBlacklist * W :=
  let m := map_delete_if (fun _ exp => negb (before now exp)) (entries b) in
  if negb (Nat.eqb (size m) (size (entries b))) || dirty b then
    let b := bl_with b m (dirty b) in
    let '(ok, w) := bl_save b w now in
    (bl_with b m (negb ok), w)
  else (bl_with b m (dirty b), w).

Definition Close (b : TokenBlacklist) (w : W) (now : Z) : TokenBlacklist * W :=
  let b := MkBlacklist (bl_path b) (entries b) (dirty b) true in
  if dirty b then
    let '(_, w) := bl_save b w now in (bl_with b (entries b) false, w)
  else (b, w).

(** The calls a running server makes. *)
Inductive bl_op :=
| OpRevoke (now : Z) (jti tok : string) (expiresAt : Z)
| OpGC (now : Z)
| OpClose (now : Z).

Definition bl_op_time (o : bl_op) : Z :=
  match o with OpRevoke now _ _ _ | OpGC now | OpClose now => now end.

Definition bl_step (o : bl_op) (s : TokenBlacklist * W) : TokenBlacklist * W :=
  match o with
  | OpRevoke now jti tok e => Revoke s.1 s.2 now jti tok e
  | OpGC now => gc_tick s.1 s.2 now
  | OpClose now => Close s.1 s.2 now
  end.

(** ** Facts about the single operations *)

Lemma lookup_gc (m : gmap string Z) (now : Z) (k : string) :
  map_delete_if (fun _ exp => negb (before now exp)) m !! k =
    match m !! k with Some e => if before now e then Some e else None | None => None end.
Proof. rewrite lookup_map_delete_if. destruct (m !! k) as [e|]; [|done]. by destruct (before now e). Qed.

(** The memory effect of every operation does not depend on the disk. *)
Lemma bl_step_entries o s :
  entries (bl_step o s).1 =
  match o with
  | OpRevoke _ jti tok e => <[token_key jti tok := e]> (entries s.1)
  | OpGC now => map_delete_if (fun _ exp => negb (before now exp)) (entries s.1)
  | OpClose _ => entries s.1
  end /\ bl_path (bl_step o s).1 = bl_path s.1.
Proof.
  destruct o; simpl; unfold Revoke, gc_tick, Close;
    repeat (case_match; simplify_eq/=); done.
Qed.

(** Memory and disk agree up to entries that have expired at [now]. *)
Definition synced (now : Z) (b : TokenBlacklist) (w : W) : Prop :=
  exists rf, stored w = Some (Whole rf) /\ rf_Version rf = revokedFileVersion /\
    forall k e, now < e -> (entries b !! k = Some e <-> rf_Entries rf !! k = Some e).

Lemma bl_save_synced b w t w' now :
  bl_path b <> "" -> bl_save b w t = (true, w') -> synced now b w'.
Proof.
  intros Hp. unfold bl_save. rewrite (proj2 (String.eqb_neq _ _) Hp). intros Hs.
  eexists. split_and!; [by eapply save_true|done|]. done.
Qed.

(** After every operation the state is synced or marked dirty, and never
    marked clean by a failed save. *)
Lemma bl_step_synced o s :
  (forall now, o <> OpClose now) ->
  bl_path s.1 <> "" ->
  (dirty s.1 = false -> synced (bl_op_time o) s.1 s.2) ->
  dirty (bl_step o s).1 = false -> synced (bl_op_time o) (bl_step o s).1 (bl_step o s).2.
Proof.
  intros Hnc Hp Hs. destruct o as [now jti tok e|now|now]; simpl in *; [| |by destruct (Hnc now)].
  - unfold Revoke. destruct (bl_save _ _ _) as [ok w'] eqn:E; simpl.
    intros ->%negb_false_iff. by eapply bl_save_synced in E.
  - unfold gc_tick. destruct (_ || _) eqn:Ho.
    + destruct (bl_save _ _ _) as [ok w'] eqn:E; simpl.
      intros ->%negb_false_iff. by eapply bl_save_synced in E.
    + simpl. intros Hd. apply orb_false_elim in Ho as [_ _].
      destruct (Hs Hd) as (rf & Hst & Hv & Hk). exists rf. split_and!; [done..|].
      intros k e He. rewrite <- Hk by done. simpl. rewrite lookup_gc.
      destruct (entries s.1 !! k) as [e'|]; [|done].
      destruct (before now e') eqn:Eb; [done|]. unfold before in Eb. bool_norm.
      split; [done|]. intros [= ->]. lia.
Qed.

(** Revocation is final until expiry. Once a token is revoked, it is
    reported revoked until its expiry through any sequence of later
    revocations of other tokens, GC ticks and shutdowns, and exactly until its
    expiry. *)
Theorem revoked_until_expiry s ops now0 jti tok e now jti' tok' :
  Forall (fun o => match o with
                   | OpRevoke _ j t _ => token_key j t <> token_key jti tok
                   | _ => True
                   end /\ bl_op_time o <= now) ops ->
  token_key jti' tok' = token_key jti tok ->
  let s' := run bl_step ops (bl_step (OpRevoke now0 jti tok e) s) in
  IsRevoked s'.1 jti' tok' now = (now <? e).
Proof.
  intros HF Hk s'. unfold IsRevoked. rewrite Hk.
  assert (entries s'.1 !! token_key jti tok = Some e \/
          (e <= now /\ entries s'.1 !! token_key jti tok = None)) as [->|[Hle ->]].
  - unfold s'. apply (run_invariant_labels bl_step _ (fun s =>
      entries s.1 !! token_key jti tok = Some e \/
      (e <= now /\ entries s.1 !! token_key jti tok = None)) _ _) with (2 := HF).
    + intros o x [Hne Hlt] Hx. rewrite (proj1 (bl_step_entries o x)).
      destruct o as [? ? ? ?|t|?]; [|rewrite lookup_gc|done].
      * by rewrite lookup_insert_ne.
      * destruct Hx as [->|[? ->]]; [|auto]. unfold before.
        destruct (Z.ltb_spec t e); [auto|]. simpl in Hlt. right. split; [lia|done].
    + left. rewrite (proj1 (bl_step_entries _ _)). apply lookup_insert_eq.
  - done.
  - symmetry. by apply Z.ltb_ge.
Qed.

(** Revocation survives a restart. If the last revocation was persisted,
    a server restarted at [now] from what is on disk, even after later GC
    ticks whose saves may fail, answers exactly as the running one. *)
Theorem restart_preserves_revocation b w now0 jti tok e gcs now jti' tok' :
  bl_path b <> "" ->
  let s0 := Revoke b w now0 jti tok e in
  dirty s0.1 = false ->
  Forall (fun t => t <= now) gcs ->
  let s := run (fun t => bl_step (OpGC t)) gcs s0 in
  IsRevoked (NewTokenBlacklistWithPath (bl_path b) s.2 now) jti' tok' now
  = IsRevoked s.1 jti' tok' now.
Proof.
  intros Hp s0 Hd HF s.
  assert (bl_path s.1 = bl_path b /\ synced now s.1 s.2) as [Hpath (rf & Hst & Hv & Hk)].
  { unfold s. apply (run_invariant_labels (fun t => bl_step (OpGC t)) (fun t => t <= now)
      (fun s => bl_path s.1 = bl_path b /\ synced now s.1 s.2)); [|done|].
    - intros t x Ht [Hpx (rf & Hst & Hv & Hk)]. split; [by rewrite (proj2 (bl_step_entries _ _))|].
      simpl. unfold gc_tick.
      assert (forall k e', now < e' ->
        (map_delete_if (fun _ exp => negb (before t exp)) (entries x.1) !! k = Some e' <->
         rf_Entries rf !! k = Some e')) as Hgc.
      { intros k e' He. rewrite <- Hk by done. rewrite lookup_gc.
        destruct (entries x.1 !! k) as [e''|]; [|done].
        unfold before. destruct (Z.ltb_spec t e''); [done|]. split; [done|]. intros [= ->]. lia. }
      destruct (_ || _); [|by exists rf].
      destruct (bl_save _ _ _) as [[] w'] eqn:E; simpl.
      + eapply bl_save_synced in E; [|by rewrite <- Hpx in Hp]. exact E.
      + exists rf. split_and!; [|done..]. rewrite <- Hst.
        unfold bl_save in E. simpl in E. case_match; [by simplify_eq|]. by eapply save_false.
    - unfold s0, Revoke in *. destruct (bl_save _ _ _) as [ok w'] eqn:E; simpl in *.
      apply negb_false_iff in Hd as ->. split; [done|]. by eapply bl_save_synced in E. }
  unfold IsRevoked, NewTokenBlacklistWithPath, loadLocked; simpl.
  rewrite (proj2 (String.eqb_neq _ _) Hp), Hst, Hv, Z.eqb_refl, lookup_gc.
  set (k := token_key jti' tok').
  destruct (rf_Entries rf !! k) as [e1|] eqn:E1, (entries s.1 !! k) as [e2|] eqn:E2; unfold before.
  - destruct (Z.ltb_spec now e1) as [L1|L1].
    + rewrite (proj2 (Hk k e1 L1) E1) in E2. by simplify_eq.
    + symmetry. apply Z.ltb_ge. destruct (Z.lt_ge_cases now e2) as [L2|L2]; [|done].
      rewrite (proj1 (Hk k e2 L2) E2) in E1. simplify_eq. lia.
  - destruct (Z.ltb_spec now e1) as [L1|L1]; [|done]. by rewrite (proj2 (Hk k e1 L1) E1) in E2.
  - symmetry. apply Z.ltb_ge. destruct (Z.lt_ge_cases now e2) as [L2|L2]; [|done].
    by rewrite (proj1 (Hk k e2 L2) E2) in E1.
  - done.
Qed.
End Blacklist.

(** ** Instances *)

Definition revoked_world (env : list outcome) : fs revokedFile := MkFs ∅ env [].

Definition revoked_persist : Persist revokedFile (fs revokedFile) :=
  fs_persist "/data/revoked.json" saveLocked
    (saveLocked_atomic "/data/revoked.json" ltac:(discriminate)).

Definition demo_blacklist : TokenBlacklist := MkBlacklist "/data/revoked.json" ∅ false false.

Lemma revoked_until_expiry_witness :
  let s := run (@bl_step _ revoked_persist id) [OpRevoke 2 "other" "" 50; OpGC 40; OpClose 60]
             (@bl_step _ revoked_persist id (OpRevoke 1 "" "tok" 100)
                (demo_blacklist, revoked_world [FailTorn])) in
  IsRevoked id s.1 "tok" "" 99 = true.
Proof.
  intros s. etrans; [refine (@revoked_until_expiry _ revoked_persist id (demo_blacklist, revoked_world [FailTorn])
    [OpRevoke 2 "other" "" 50; OpGC 40; OpClose 60] 1 "" "tok" 100 99 "tok" "" _ eq_refl)|reflexivity].
  repeat (apply Forall_cons; split; [split; [(discriminate || exact I)|vm_compute; discriminate]|]).
  apply Forall_nil. exact I.
Defined.

Lemma restart_preserves_revocation_witness :
  let s := run (fun t => @bl_step _ revoked_persist id (OpGC t)) [10; 20]
             (@Revoke _ revoked_persist id demo_blacklist (revoked_world []) 1 "jti-1" "" 100) in
  IsRevoked id (@NewTokenBlacklistWithPath _ revoked_persist "/data/revoked.json" s.2 30)
    "jti-1" "" 30 = true.
Proof.
  intros s. etrans; [apply (@restart_preserves_revocation _ revoked_persist id demo_blacklist (revoked_world []) 1
    "jti-1" "" 100 [10; 20] 30 "jti-1" "" ltac:(discriminate));
    [vm_compute; reflexivity|]|vm_compute; reflexivity].
  repeat (apply Forall_cons; split; [vm_compute; discriminate|]). apply Forall_nil. exact I.
Defined.
