(* ===== verification/Tickets.v ===== *)
(** * Tickets: console tickets and VNC tickets

    Models [auth/ticket.go] (single-use tickets of 30 seconds) and
    [auth/vnc_ticket.go] (reusable tickets scoped to one VM, one hour).  The
    random ticket string drawn by [crypto/rand] is the argument [tk]; a failed
    read of the random source is [None]. *)

From S2P Require Export GoStrings.
Open Scope Z_scope.

Definition TicketTTL : Z := 30 * second.
Definition VNCTicketTTL : Z := 1 * hour.

(** ** Single-use tickets *)

Record ticketEntry := TicketEntry {
  tk_user : string; tk_role : string; tk_epoch : Z; tk_expires : Z
}.

Abbreviation ticketStore := (gmap string ticketEntry).

(** [IssueTicket]: stale entries are dropped first. *)
Definition IssueTicket (s : ticketStore) (rnd : option string) (now : Z)
    (user role : string) (epoch : Z) : option string * ticketStore :=
  match rnd with
  | None => (None, s)
  | Some tk =>
      let s := map_delete_if (fun _ e => after now (tk_expires e)) s in
      (Some tk, <[tk := TicketEntry user role epoch (time_add now TicketTTL)]> s)
  end.

(** [ConsumeTicket]: burns the ticket whether or not it is valid. *)
Definition ConsumeTicket (s : ticketStore) (now : Z) (tk : string)
    : option (string * string * Z) * ticketStore :=
  let e := s !! tk in
  let s := delete tk s in
  match e with
  | Some e => if after now (tk_expires e) then (None, s)
              else (Some (tk_user e, tk_role e, tk_epoch e), s)
  | None => (None, s)
  end.

Inductive ticket_op :=
| TIssue (rnd : option string) (now : Z) (user role : string) (epoch : Z)
| TConsume (now : Z) (tk : string).

Definition ticket_step (o : ticket_op) (s : ticketStore) : ticketStore :=
  match o with
  | TIssue rnd now u r e => (IssueTicket s rnd now u r e).2
  | TConsume now tk => (ConsumeTicket s now tk).2
  end.

Definition reissues (tk : string) (o : ticket_op) : Prop :=
  match o with TIssue (Some t) _ _ _ _ => t = tk | _ => False end.

Lemma consumed_gone s now tk : (ConsumeTicket s now tk).2 !! tk = None.
Proof. unfold ConsumeTicket. repeat case_match; simpl; apply lookup_delete_eq. Qed.

Lemma ticket_step_none o s tk :
  ~ reissues tk o -> s !! tk = None -> ticket_step o s !! tk = None.
Proof.
  intros Hr Hs. destruct o as [[t|] now u r e|now t]; simpl in *; [|done|].
  - rewrite lookup_insert_ne by done. by rewrite lookup_map_delete_if, Hs.
  - unfold ConsumeTicket. repeat case_match; simpl;
      (destruct (decide (t = tk)) as [->|]; [apply lookup_delete_eq|by rewrite lookup_delete_ne]).
Qed.

(** Single use. Once a ticket string has been presented, valid or not, no
    later presentation of it is accepted, whatever tickets are issued or
    consumed in between, unless the random source issues the same string
    again. *)
Theorem ticket_single_use s now tk ops now' :
  Forall (fun o => ~ reissues tk o) ops ->
  (ConsumeTicket (run ticket_step ops (ConsumeTicket s now tk).2) now' tk).1 = None.
Proof.
  intros HF.
  assert (run ticket_step ops (ConsumeTicket s now tk).2 !! tk = None) as Hn.
  { apply (run_invariant_labels ticket_step _ (fun s => s !! tk = None) _ _) with (2 := HF);
      eauto using ticket_step_none, consumed_gone. }
  unfold ConsumeTicket at 1. by rewrite Hn.
Qed.

Lemma ticket_single_use_witness :
  (ConsumeTicket (run ticket_step [TIssue (Some "cd") 5 "eve" "viewer" 0; TConsume 6 "cd"]
     (ConsumeTicket (IssueTicket ∅ (Some "ab") 0 "root" "admin" 3).2 1 "ab").2) 7 "ab").1 = None.
Proof.
  apply (ticket_single_use _ 1 "ab" [TIssue (Some "cd") 5 "eve" "viewer" 0; TConsume 6 "cd"] 7).
  repeat (apply Forall_cons; split; [vm_compute; congruence|]). apply Forall_nil. exact I.
Defined.

(** A fresh ticket authenticates exactly the identity it was issued for,
    for 30 seconds, whatever else is issued or consumed meanwhile. *)
Theorem ticket_valid_until_ttl s now tk u r e ops now' :
  Forall (fun o => match o with
                   | TIssue rnd t _ _ _ => rnd <> Some tk /\ t <= now'
                   | TConsume _ t => t <> tk
                   end) ops ->
  (ConsumeTicket (run ticket_step ops (IssueTicket s (Some tk) now u r e).2) now' tk).1
  = if now + TicketTTL <? now' then None else Some (u, r, e).
Proof.
  intros HF. set (en := TicketEntry u r e (now + TicketTTL)).
  assert (run ticket_step ops (IssueTicket s (Some tk) now u r e).2 !! tk = Some en \/
          (now + TicketTTL < now' /\
           run ticket_step ops (IssueTicket s (Some tk) now u r e).2 !! tk = None)) as Hn.
  { apply (run_invariant_labels ticket_step _ (fun s => s !! tk = Some en \/
      (now + TicketTTL < now' /\ s !! tk = None)) _ _) with (2 := HF).
    - intros o x Ho Hx. destruct o as [[t|] nw u' r' e'|nw t]; simpl in *; [|done|].
      + destruct Ho as [Hne Hle]. rewrite lookup_insert_ne by congruence.
        rewrite lookup_map_delete_if. destruct Hx as [->|[? ->]]; [|by right].
        unfold after; simpl. destruct (Z.ltb_spec (now + TicketTTL) nw); [right|by left].
        split; [lia|done].
      + unfold ConsumeTicket. repeat case_match; simpl; by rewrite lookup_delete_ne.
    - left. simpl. apply lookup_insert_eq. }
  unfold ConsumeTicket, after. destruct Hn as [->|[Hlt ->]]; simpl.
  - by destruct (now + TicketTTL <? now').
  - by rewrite (proj2 (Z.ltb_lt _ _) Hlt).
Qed.

Lemma ticket_valid_until_ttl_witness :
  (ConsumeTicket (run ticket_step [TIssue (Some "cd") 5 "eve" "viewer" 0]
     (IssueTicket ∅ (Some "ab") 0 "root" "admin" 3).2) (30 * second) "ab").1
  = Some ("root", "admin", 3).
Proof.
  rewrite (ticket_valid_until_ttl ∅ 0 "ab" "root" "admin" 3 [TIssue (Some "cd") 5 "eve" "viewer" 0]
    (30 * second)); [reflexivity|].
  apply Forall_cons. split; [|apply Forall_nil; exact I].
  split; [congruence|vm_compute; congruence].
Defined.

(** ** VNC tickets *)

Record vncTicketEntry := VncTicketEntry {
  vt_user : string; vt_role : string; vt_vmID : string; vt_epoch : Z; vt_expires : Z
}.

Abbreviation vncTicketStore := (gmap string vncTicketEntry).

Definition IssueVNCTicket (s : vncTicketStore) (rnd : option string) (now : Z)
    (user role vmID : string) (epoch : Z) : option string * vncTicketStore :=
  match rnd with
  | None => (None, s)
  | Some tk =>
      let s := map_delete_if (fun _ e => after now (vt_expires e)) s in
      (Some tk, <[tk := VncTicketEntry user role vmID epoch (time_add now VNCTicketTTL)]> s)
  end.

(** [CheckVNCTicket] does not change the store. *)
Definition CheckVNCTicket (s : vncTicketStore) (now : Z) (tk vmID : string)
    : option (string * string * Z) :=
  match s !! tk with
  | Some e =>
      if after now (vt_expires e) || negb (String.eqb (vt_vmID e) vmID) then None
      else Some (vt_user e, vt_role e, vt_epoch e)
  | None => None
  end.

Definition vnc_step (o : option string * Z * string * string * string * Z) (s : vncTicketStore) :=
  let '(rnd, now, u, r, vm, e) := o in (IssueVNCTicket s rnd now u r vm e).2.

(** A VNC ticket opens only the VM it was issued for: within its hour it
    returns the issuing identity for that VM and is refused for every other,
    any number of times, whatever other tickets are issued meanwhile. *)
Theorem vnc_ticket_scope s now tk u r vm e ops now' vm' :
  Forall (fun o => let '(rnd, t, _, _, _, _) := o in rnd <> Some tk /\ t <= now') ops ->
  CheckVNCTicket (run vnc_step ops (IssueVNCTicket s (Some tk) now u r vm e).2) now' tk vm'
  = if (now' <=? now + VNCTicketTTL) && String.eqb vm vm' then Some (u, r, e) else None.
Proof.
  intros HF. set (en := VncTicketEntry u r vm e (now + VNCTicketTTL)).
  set (s' := run _ _ _).
  assert (s' !! tk = Some en \/ (now + VNCTicketTTL < now' /\ s' !! tk = None)) as Hn.
  { apply (run_invariant_labels vnc_step _ (fun s => s !! tk = Some en \/
      (now + VNCTicketTTL < now' /\ s !! tk = None)) _ _) with (2 := HF).
    - intros [[[[[[t|] nw] u'] r'] vm''] e'] x Ho Hx; simpl in *; [|done].
      destruct Ho as [Hne Hle]. rewrite lookup_insert_ne by congruence.
      rewrite lookup_map_delete_if. destruct Hx as [->|[? ->]]; [|by right].
      unfold after; simpl. destruct (Z.ltb_spec (now + VNCTicketTTL) nw); [right|by left].
      split; [lia|done].
    - left. simpl. apply lookup_insert_eq. }
  unfold CheckVNCTicket, after. destruct Hn as [->|[Hlt ->]]; simpl.
  - rewrite Z.leb_antisym. destruct (_ <? _), (String.eqb vm vm'); done.
  - by rewrite (proj2 (Z.leb_gt _ _) Hlt).
Qed.

Lemma vnc_ticket_scope_witness :
  let s := run vnc_step [(Some "cd", 5, "eve", "viewer", "vm-2", 0)]
             (IssueVNCTicket ∅ (Some "ab") 0 "root" "admin" "vm-1" 3).2 in
  CheckVNCTicket s (30 * minute) "ab" "vm-1" = Some ("root", "admin", 3) /\
  CheckVNCTicket s (30 * minute) "ab" "vm-2" = None.
Proof.
  intros s. unfold s.
  split; rewrite (vnc_ticket_scope ∅ 0 "ab" "root" "admin" "vm-1" 3); try reflexivity;
    (apply Forall_cons; split; [split; [congruence|vm_compute; congruence]|apply Forall_nil; exact I]).
Defined.
