(* ===== verification/Totp.v ===== *)
(** * Totp: time-based one-time passwords

    Models [auth/totp.go].  The standard library functions it calls
    ([base32.StdEncoding], HMAC-SHA1) are translated too, so that codes are
    computed; the RFC 6238 test vectors are checked at the end. *)

From Stdlib Require Import String.
From S2P Require Export GoStrings.
Open Scope Z_scope.

Fixpoint bytes_of_string (s : string) : list Z :=
  match s with EmptyString => [] | String c s => code c :: bytes_of_string s end.

(** ** SHA-1 and HMAC *)

Definition w32 (x : Z) : Z := Z.land x (Z.ones 32).
Definition rotl (n x : Z) : Z := Z.lor (w32 (Z.shiftl x n)) (Z.shiftr x (32 - n)).

Definition be32 (x : Z) : list Z :=
  map (fun k => Z.land (Z.shiftr x k) 255) [24; 16; 8; 0].
Definition be64 (x : Z) : list Z :=
  map (fun k => Z.land (Z.shiftr x k) 255) [56; 48; 40; 32; 24; 16; 8; 0].

Fixpoint words (n : nat) (l : list Z) : list Z :=
  match n, l with
  | S n, a :: b :: c :: d :: l =>
      Z.lor (Z.shiftl a 24) (Z.lor (Z.shiftl b 16) (Z.lor (Z.shiftl c 8) d)) :: words n l
  | _, _ => []
  end.

(** The message schedule, most recent word first. *)
Fixpoint sha1_schedule (n : nat) (w : list Z) : list Z :=
  match n with
  | O => w
  | S n =>
      let x := Z.lxor (Z.lxor (nth 2 w 0) (nth 7 w 0)) (Z.lxor (nth 13 w 0) (nth 15 w 0)) in
      sha1_schedule n (rotl 1 x :: w)
  end.

Definition sha1_round (t : Z) (st : Z * Z * Z * Z * Z) (w : Z) : Z * Z * Z * Z * Z :=
  let '(a, b, c, d, e) := st in
  let '(f, k) :=
    if t <? 20 then (Z.lor (Z.land b c) (Z.land (Z.lxor b (Z.ones 32)) d), 1518500249)
    else if t <? 40 then (Z.lxor b (Z.lxor c d), 1859775393)
    else if t <? 60 then (Z.lor (Z.land b c) (Z.lor (Z.land b d) (Z.land c d)), 2400959708)
    else (Z.lxor b (Z.lxor c d), 3395469782) in
  (w32 (rotl 5 a + f + e + k + w), a, rotl 30 b, c, d).

Fixpoint sha1_rounds (t : Z) (ws : list Z) (st : Z * Z * Z * Z * Z) :=
  match ws with [] => st | w :: ws => sha1_rounds (t + 1) ws (sha1_round t st w) end.

Definition sha1_block (h : Z * Z * Z * Z * Z) (blk : list Z) : Z * Z * Z * Z * Z :=
  let ws := rev (sha1_schedule 64 (rev (words 16 blk))) in
  let '(a, b, c, d, e) := sha1_rounds 0 ws h in
  let '(h0, h1, h2, h3, h4) := h in
  (w32 (h0 + a), w32 (h1 + b), w32 (h2 + c), w32 (h3 + d), w32 (h4 + e)).

Fixpoint sha1_blocks (n : nat) (h : Z * Z * Z * Z * Z) (msg : list Z) :=
  match n with
  | O => h
  | S n => sha1_blocks n (sha1_block h (firstn 64 msg)) (skipn 64 msg)
  end.

Definition sha1 (msg : list Z) : list Z :=
  let len := length msg in
  let padlen := ((119 - len mod 64) mod 64)%nat in
  let m := msg ++ 128 :: repeat 0 padlen ++ be64 (8 * Z.of_nat len) in
  let '(a, b, c, d, e) :=
    sha1_blocks (length m / 64)
      (1732584193, 4023233417, 2562383102, 271733878, 3285377520) m in
  be32 a ++ be32 b ++ be32 c ++ be32 d ++ be32 e.

Definition hmac_sha1 (key msg : list Z) : list Z :=
  let key := if Nat.ltb 64 (length key) then sha1 key else key in
  let key := key ++ repeat 0 (64 - length key) in
  sha1 (map (Z.lxor 92) key ++ sha1 (map (Z.lxor 54) key ++ msg)).

(** ** base32.StdEncoding *)

Definition base32_value (c : ascii) : option Z :=
  if is_upper c then Some (code c - 65)
  else if in_range "2" "7" c then Some (code c - 24)
  else None.

(** Up to 8 characters of one quantum: the 5-bit values, the rest of the
    input, and whether the input ended. *)
Fixpoint base32_quantum (pad : bool) (j : nat) (fuel : nat) (s : list ascii)
    : option (list Z * list ascii * bool) :=
  match fuel with
  | O => Some ([], s, false)
  | S fuel =>
      match s with
      | [] => if pad then None else Some ([], [], true)
      | c :: s =>
          if pad && Ascii.eqb c "=" && Nat.leb 2 j && Nat.ltb (length s) 8 then
            if Nat.ltb (length s + j) 7 then None
            else if negb (forallb (Ascii.eqb "=") (firstn (7 - j) s)) then None
            else if Nat.eqb j 3 || Nat.eqb j 6 then None
            else Some ([], s, true)
          else
            v ← base32_value c;
            '(vs, rest, fin) ← base32_quantum pad (S j) fuel s;
            Some (v :: vs, rest, fin)
      end
  end.

(** The whole bytes held by a quantum of 8, 7, 5, 4 or 2 values. *)
Definition base32_bytes (vs : list Z) : list Z :=
  let x := fold_left (fun a v => Z.lor (Z.shiftl a 5) v) (firstn 8 (vs ++ repeat 0 8)) 0 in
  let all := map (fun k => Z.land (Z.shiftr x k) 255) [32; 24; 16; 8; 0] in
  match length vs with
  | 8%nat => all
  | 7%nat => firstn 4 all
  | 5%nat => firstn 3 all
  | 4%nat => firstn 2 all
  | 2%nat => firstn 1 all
  | _ => []
  end.

Fixpoint base32_loop (pad : bool) (fuel : nat) (s : list ascii) : option (list Z) :=
  match fuel, s with
  | O, _ | _, [] => Some []
  | S fuel, _ =>
      '(vs, rest, fin) ← base32_quantum pad 0 8 s;
      if fin : bool then Some (base32_bytes vs)
      else tl ← base32_loop pad fuel rest; Some (base32_bytes vs ++ tl)
  end.

Definition base32_decode (pad : bool) (s : string) : option (list Z) :=
  let chars := List.filter (fun c => negb (Ascii.eqb c "013") && negb (Ascii.eqb c "010"))
                 (String.list_ascii_of_string s) in
  base32_loop pad (length chars) chars.

(** ** [auth/totp.go] *)

(** [fmt.Sprintf("%06d", n)] for [0 <= n]. *)
Definition fmt06d (n : Z) : string :=
  let s := pretty (Z.to_N n) in
  foldr (fun c s => String c s) s (repeat "0"%char (6 - slen s)).

Definition computeHOTP (key : list Z) (counter : Z) : string :=
  let buf := be64 (counter mod 2 ^ 64) in
  let h := hmac_sha1 key buf in
  let offset := Z.to_nat (Z.land (nth 19 h 0) 15) in
  let code :=
    Z.lor (Z.shiftl (Z.land (nth offset h 0) 127) 24)
    (Z.lor (Z.shiftl (Z.land (nth (offset + 1) h 0) 255) 16)
    (Z.lor (Z.shiftl (Z.land (nth (offset + 2) h 0) 255) 8)
           (Z.land (nth (offset + 3) h 0) 255))) in
  fmt06d (Z.rem code 1000000).

Definition CurrentTOTPStep (t : Z) : Z := Z.quot (time_unix t) 30.

(** The loop over the offsets -1, 0, 1 without early exit. *)
Definition totp_scan (hotp : list Z -> Z -> string) (key : list Z) (cur : Z) (cleanCode : string)
    : Z :=
  fold_left (fun matched offset =>
    if String.eqb (hotp key (cur + offset)) cleanCode then cur + offset else matched)
    [-1; 0; 1] (-1).

Definition decode_secret (secret : string) : option (list Z) :=
  let cleanSecret := to_upper (trim_space secret) in
  match base32_decode false cleanSecret with
  | Some key => Some key
  | None => base32_decode true cleanSecret
  end.

Definition MatchTOTP (secret code : string) (now : Z) : option Z :=
  let cleanCode := trim_space code in
  if negb (Nat.eqb (slen cleanCode) 6) then None else
  match decode_secret secret with
  | None => None
  | Some key =>
      let matched := totp_scan computeHOTP key (CurrentTOTPStep now) cleanCode in
      if matched <? 0 then None else Some matched
  end.

Definition ValidateTOTP (secret code : string) (now : Z) : bool :=
  match MatchTOTP secret code now with Some _ => true | None => false end.

Definition TOTPCodeAt (secret : string) (t : Z) : option string :=
  key ← base32_decode false (to_upper (trim_space secret));
  Some (computeHOTP key (CurrentTOTPStep t)).

Definition charset : string := "ABCDEFGHJKLMNPQRSTUVWXYZ23456789".

(** One backup code from eight random bytes. *)
Definition backup_code (b : list Z) : string :=
  let ch x := default "A"%char (String.get (Z.to_nat (x mod 32)) charset) in
  let code := map ch b in
  String.string_of_list_ascii (firstn 4 code) +:+ "-" +:+
  String.string_of_list_ascii (skipn 4 code).

Definition GenerateBackupCodes (n : Z) (rnd : nat -> list Z) : list string :=
  let n := if n <=? 0 then 8 else n in
  map (fun i => backup_code (rnd i)) (seq 0 (Z.to_nat n)).

(** ** Properties *)

Lemma totp_scan_sound hotp key cur c m :
  totp_scan hotp key cur c = m -> 0 <= m ->
  hotp key m = c /\ (m = cur - 1 \/ m = cur \/ m = cur + 1).
Proof.
  unfold totp_scan. cbn [fold_left]. intros <-.
  repeat match goal with |- context [String.eqb ?a ?b] => destruct (String.eqb_spec a b) end;
    intros; (split; [assumption || lia|lia]).
Qed.

Lemma totp_scan_complete hotp key cur c :
  1 <= cur -> (exists o, o ∈ [-1; 0; 1] /\ hotp key (cur + o) = c) -> 0 <= totp_scan hotp key cur c.
Proof.
  intros Hc (o & Ho & <-). unfold totp_scan. cbn [fold_left].
  repeat (rewrite elem_of_cons in Ho). rewrite elem_of_nil in Ho.
  repeat match goal with |- context [String.eqb ?a ?b] => destruct (String.eqb_spec a b) end;
    try lia; naive_solver.
Qed.

(** A code is accepted exactly when it is the 6-byte HOTP code of the
    secret for the previous, the current or the next 30-second step, and the
    step reported is one whose code it is. *)
Theorem MatchTOTP_window secret c now key :
  decode_secret secret = Some key -> 30 * second <= now ->
  let cur := CurrentTOTPStep now in
  let cl := trim_space c in
  (forall m, MatchTOTP secret c now = Some m ->
     slen cl = 6%nat /\ computeHOTP key m = cl /\ cur - 1 <= m <= cur + 1) /\
  (slen cl = 6%nat -> (exists m, cur - 1 <= m <= cur + 1 /\ computeHOTP key m = cl) ->
     exists m, MatchTOTP secret c now = Some m).
Proof.
  intros Hk Hnow cur cl.
  assert (1 <= cur) as Hcur.
  { unfold cur, CurrentTOTPStep, time_unix, second in *.
    assert (30 <= now / 1000000000) by (apply Z.div_le_lower_bound; lia).
    rewrite Z.quot_div_nonneg by lia. apply Z.div_le_lower_bound; lia. }
  unfold MatchTOTP. rewrite Hk. fold cl cur. split.
  - intros m. destruct (Nat.eqb_spec (slen cl) 6) as [Hl|]; simpl; [|done].
    destruct (_ <? 0) eqn:E; [done|]. intros [= Hm]. bool_norm.
    destruct (totp_scan_sound computeHOTP key cur cl m Hm) as [? ?]; [by rewrite <- Hm|].
    split_and!; [done..|lia|lia].
  - intros -> (m & Hr & Hm). simpl.
    pose proof (totp_scan_complete computeHOTP key cur cl Hcur) as Hsc.
    destruct (_ <? 0) eqn:E; [|by eexists]. bool_norm. exfalso.
    assert (0 <= totp_scan computeHOTP key cur cl); [|lia]. apply Hsc.
    exists (m - cur). split; [|by replace (cur + (m - cur)) with m by lia].
    rewrite !elem_of_cons. lia.
Qed.

(** The secret "12345678901234567890" of RFC 6238, appendix B. *)
Definition rfc_secret : string := "GEZDGNBVGY3TQOJQGEZDGNBVGY3TQOJQ".

Example rfc6238_59 : TOTPCodeAt rfc_secret (59 * second) = Some "287082".
Proof. vm_compute. reflexivity. Qed.
Example rfc6238_1111111109 : TOTPCodeAt rfc_secret (1111111109 * second) = Some "081804".
Proof. vm_compute. reflexivity. Qed.
Example rfc6238_20000000000 : TOTPCodeAt rfc_secret (20000000000 * second) = Some "353130".
Proof. vm_compute. reflexivity. Qed.
Example base32_padded : base32_decode true "MZXW6YQ=" = Some [102; 111; 111; 98].
Proof. vm_compute. reflexivity. Qed.

Lemma MatchTOTP_window_witness :
  MatchTOTP rfc_secret " 287082 " (65 * second) = Some 1 /\
  exists key, decode_secret rfc_secret = Some key /\ computeHOTP key 1 = "287082".
Proof.
  split; [vm_compute; reflexivity|].
  exists (bytes_of_string "12345678901234567890").
  destruct (MatchTOTP_window rfc_secret " 287082 " (65 * second)
              (bytes_of_string "12345678901234567890")) as [H _];
    [vm_compute; reflexivity|vm_compute; congruence|].
  split; [vm_compute; reflexivity|].
  destruct (H 1) as (_ & E & _); [vm_compute; reflexivity|exact E].
Defined.
