(* ===== verification/MediaRef.v ===== *)
(** * MediaRef: media references

    Models [models/mediaref.go]: the only strings accepted as avatars, covers
    and logos have the form /api/media/<id>/raw. *)

From S2P Require Export GoStrings.
Open Scope Z_scope.

Definition mediaRawPrefix : string := "/api/media/".
Definition mediaRawSuffix : string := "/raw".

Definition MediaRawURL (mediaID : string) : string :=
  mediaRawPrefix +:+ mediaID +:+ mediaRawSuffix.

Definition valid_media_id (id : string) : bool :=
  negb (String.eqb id "") &&
  all_bytes (fun c => negb (Ascii.eqb c "/" || Ascii.eqb c "?" || Ascii.eqb c "#" || Ascii.eqb c "\")) id &&
  (has_prefix "system:" id || has_prefix "custom:" id) &&
  let name := match index_byte ":" id with Some i => drop_str (S i) id | None => id end in
  negb (String.eqb name "" || String.eqb name "." || String.eqb name ".." || contains_str ".." name).

Definition MediaIDFromRawURL (raw : string) : option string :=
  if Nat.leb (slen raw) (slen mediaRawPrefix + slen mediaRawSuffix)
     || negb (has_prefix mediaRawPrefix raw) || negb (has_suffix mediaRawSuffix raw)
  then None
  else
    let id := drop_str (slen mediaRawPrefix) (take_str (slen raw - slen mediaRawSuffix) raw) in
    if valid_media_id id then Some id else None.

Definition IsMediaRawURL (raw : string) : bool :=
  match MediaIDFromRawURL raw with Some _ => true | None => false end.

(** A media reference is accepted exactly when it is the canonical URL of
    a well-formed id: no accepted string is anything but
    [/api/media/<id>/raw], and every such URL is accepted and yields its id
    back. *)
Theorem media_ref_canonical raw id :
  MediaIDFromRawURL raw = Some id <-> raw = MediaRawURL id /\ valid_media_id id = true.
Proof.
  unfold MediaIDFromRawURL, MediaRawURL. split.
  - destruct (_ || _ || _) eqn:E; [done|]. bool_norm. apply Nat.leb_gt in H.
    apply has_prefix_spec in H1 as [t ->]. apply has_suffix_spec in H0 as [t' Ht].
    destruct (app_str_split _ _ _ _ Ht) as (m & -> & ->).
    { apply (f_equal slen) in Ht. rewrite !slen_app in *. lia. }
    rewrite cut_middle. destruct (valid_media_id m) eqn:Hv; [|done]. by intros [= <-].
  - intros [-> Hv]. rewrite cut_middle, Hv.
    assert (slen id <> O) as Hne by (destruct id; done).
    rewrite (proj2 (has_prefix_spec _ _)) by eauto.
    rewrite (proj2 (has_suffix_spec _ (_ +:+ _))) by (rewrite <- app_str_assoc; eauto).
    rewrite (proj2 (Nat.leb_gt _ _)); [done|]. rewrite !slen_app. lia.
Qed.

Example media_ok : MediaIDFromRawURL "/api/media/custom:logo.png/raw" = Some "custom:logo.png".
Proof. reflexivity. Qed.
Example media_overlap : MediaIDFromRawURL "/api/media/raw" = None.
Proof. reflexivity. Qed.
Example media_xss : MediaIDFromRawURL "javascript:alert(1)//api/media/x/raw" = None.
Proof. reflexivity. Qed.
Example media_traversal : MediaIDFromRawURL "/api/media/system:../../etc/raw" = None.
Proof. reflexivity. Qed.
