(* ===== verification/UserModel.v ===== *)
(** * UserModel: the account record and its capabilities

    Models the user types of [models/types.go]: [User], [Quota],
    [UserPermissions] with the role-based default of every capability, the
    request types and the hash-free projection of the API.  Slices are lists
    (a nil slice and an empty one are not distinguished by the code). *)

From S2P Require Export GoStrings.
Open Scope Z_scope.

Definition RoleAdmin : string := "admin".
Definition RoleOperator : string := "operator".
Definition RoleViewer : string := "viewer".

Definition IsValidRole (r : string) : bool :=
  String.eqb r RoleAdmin || String.eqb r RoleOperator || String.eqb r RoleViewer.

Record Quota := MkQuota {
  MaxVMs : Z; MaxVCPUs : Z; MaxRAMMB : Z; MaxDiskGB : Z;
  PoolQuotas : gmap string Z
}.
#[export] Instance Quota_eq_dec : EqDecision Quota.
Proof. solve_decision. Defined.

Definition no_quota : Quota := MkQuota 0 0 0 0 ∅.

Definition Enabled (q : Quota) : bool :=
  if (0 <? MaxVMs q) || (0 <? MaxVCPUs q) || (0 <? MaxRAMMB q) || (0 <? MaxDiskGB q) then true
  else Nat.ltb 0 (size (PoolQuotas q)).

(** A [*bool] flag: [None] inherits the role default. *)
Record UserPermissions := MkPermissions {
  CanCreateVM : option bool;
  CanDeleteVM : option bool;
  CanControlPower : option bool;
  CanConsole : option bool;
  CanSnapshots : option bool;
  CanBackups : option bool;
  CanMedia : option bool;
  CanExport : option bool;
  CanNesting : option bool
}.
#[export] Instance UserPermissions_eq_dec : EqDecision UserPermissions.
Proof. solve_decision. Defined.

Definition Capabilities : list string :=
  ["create_vm"; "delete_vm"; "control_power"; "console"; "snapshots"; "backups"; "media"; "export"; "nesting"].

Definition IsCapability (perm : string) : bool := existsb (String.eqb perm) Capabilities.

Definition capabilityFlag (p : option UserPermissions) (perm : string) : option bool * bool :=
  match p with
  | None => (None, IsCapability perm)
  | Some p =>
      if String.eqb perm "create_vm" then (CanCreateVM p, true)
      else if String.eqb perm "delete_vm" then (CanDeleteVM p, true)
      else if String.eqb perm "control_power" then (CanControlPower p, true)
      else if String.eqb perm "console" then (CanConsole p, true)
      else if String.eqb perm "snapshots" then (CanSnapshots p, true)
      else if String.eqb perm "backups" then (CanBackups p, true)
      else if String.eqb perm "media" then (CanMedia p, true)
      else if String.eqb perm "export" then (CanExport p, true)
      else if String.eqb perm "nesting" then (CanNesting p, true)
      else (None, false)
  end.

Record WebAuthnCredential := MkCredential {
  cred_ID : string; cred_Name : string; AttestationType : string; AAGUID : string;
  SignCount : Z; cred_CreatedAt : Z; LastUsedAt : option Z;
  Transport : list string; RawJSON : string
}.
#[export] Instance WebAuthnCredential_eq_dec : EqDecision WebAuthnCredential.
Proof. solve_decision. Defined.

Record User := MkUser {
  Username : string;
  PasswordHash : string;
  Role : string;
  CreatedAt : string;
  Email : string;
  Active : bool;
  MustChangePassword : bool;
  LastLoginAt : string;
  Permissions : option UserPermissions;
  Avatar : string;
  User_Quota : Quota;
  AllowedPools : list string;
  AllowedNetworks : list string;
  AllowedTags : list string;
  AllowedGroups : list string;
  SessionEpoch : Z;
  TOTPSecret : string;
  TOTPEnabled : bool;
  TOTPBackupCodes : list string;
  TOTPLastStep : Z;
  WebAuthnCredentials : list WebAuthnCredential
}.
#[export] Instance User_eq_dec : EqDecision User.
Proof. solve_decision. Defined.

(** Field assignments [u.F = v]. *)
Definition set_PasswordHash (v : string) (u : User) : User :=
  MkUser (Username u) v (Role u) (CreatedAt u) (Email u) (Active u) (MustChangePassword u) (LastLoginAt u) (Permissions u) (Avatar u) (User_Quota u) (AllowedPools u) (AllowedNetworks u) (AllowedTags u) (AllowedGroups u) (SessionEpoch u) (TOTPSecret u) (TOTPEnabled u) (TOTPBackupCodes u) (TOTPLastStep u) (WebAuthnCredentials u).
Definition set_Role (v : string) (u : User) : User :=
  MkUser (Username u) (PasswordHash u) v (CreatedAt u) (Email u) (Active u) (MustChangePassword u) (LastLoginAt u) (Permissions u) (Avatar u) (User_Quota u) (AllowedPools u) (AllowedNetworks u) (AllowedTags u) (AllowedGroups u) (SessionEpoch u) (TOTPSecret u) (TOTPEnabled u) (TOTPBackupCodes u) (TOTPLastStep u) (WebAuthnCredentials u).
Definition set_CreatedAt (v : string) (u : User) : User :=
  MkUser (Username u) (PasswordHash u) (Role u) v (Email u) (Active u) (MustChangePassword u) (LastLoginAt u) (Permissions u) (Avatar u) (User_Quota u) (AllowedPools u) (AllowedNetworks u) (AllowedTags u) (AllowedGroups u) (SessionEpoch u) (TOTPSecret u) (TOTPEnabled u) (TOTPBackupCodes u) (TOTPLastStep u) (WebAuthnCredentials u).
Definition set_Email (v : string) (u : User) : User :=
  MkUser (Username u) (PasswordHash u) (Role u) (CreatedAt u) v (Active u) (MustChangePassword u) (LastLoginAt u) (Permissions u) (Avatar u) (User_Quota u) (AllowedPools u) (AllowedNetworks u) (AllowedTags u) (AllowedGroups u) (SessionEpoch u) (TOTPSecret u) (TOTPEnabled u) (TOTPBackupCodes u) (TOTPLastStep u) (WebAuthnCredentials u).
Definition set_Active (v : bool) (u : User) : User :=
  MkUser (Username u) (PasswordHash u) (Role u) (CreatedAt u) (Email u) v (MustChangePassword u) (LastLoginAt u) (Permissions u) (Avatar u) (User_Quota u) (AllowedPools u) (AllowedNetworks u) (AllowedTags u) (AllowedGroups u) (SessionEpoch u) (TOTPSecret u) (TOTPEnabled u) (TOTPBackupCodes u) (TOTPLastStep u) (WebAuthnCredentials u).
Definition set_MustChangePassword (v : bool) (u : User) : User :=
  MkUser (Username u) (PasswordHash u) (Role u) (CreatedAt u) (Email u) (Active u) v (LastLoginAt u) (Permissions u) (Avatar u) (User_Quota u) (AllowedPools u) (AllowedNetworks u) (AllowedTags u) (AllowedGroups u) (SessionEpoch u) (TOTPSecret u) (TOTPEnabled u) (TOTPBackupCodes u) (TOTPLastStep u) (WebAuthnCredentials u).
Definition set_LastLoginAt (v : string) (u : User) : User :=
  MkUser (Username u) (PasswordHash u) (Role u) (CreatedAt u) (Email u) (Active u) (MustChangePassword u) v (Permissions u) (Avatar u) (User_Quota u) (AllowedPools u) (AllowedNetworks u) (AllowedTags u) (AllowedGroups u) (SessionEpoch u) (TOTPSecret u) (TOTPEnabled u) (TOTPBackupCodes u) (TOTPLastStep u) (WebAuthnCredentials u).
Definition set_Permissions (v : option UserPermissions) (u : User) : User :=
  MkUser (Username u) (PasswordHash u) (Role u) (CreatedAt u) (Email u) (Active u) (MustChangePassword u) (LastLoginAt u) v (Avatar u) (User_Quota u) (AllowedPools u) (AllowedNetworks u) (AllowedTags u) (AllowedGroups u) (SessionEpoch u) (TOTPSecret u) (TOTPEnabled u) (TOTPBackupCodes u) (TOTPLastStep u) (WebAuthnCredentials u).
Definition set_Avatar (v : string) (u : User) : User :=
  MkUser (Username u) (PasswordHash u) (Role u) (CreatedAt u) (Email u) (Active u) (MustChangePassword u) (LastLoginAt u) (Permissions u) v (User_Quota u) (AllowedPools u) (AllowedNetworks u) (AllowedTags u) (AllowedGroups u) (SessionEpoch u) (TOTPSecret u) (TOTPEnabled u) (TOTPBackupCodes u) (TOTPLastStep u) (WebAuthnCredentials u).
Definition set_Quota (v : Quota) (u : User) : User :=
  MkUser (Username u) (PasswordHash u) (Role u) (CreatedAt u) (Email u) (Active u) (MustChangePassword u) (LastLoginAt u) (Permissions u) (Avatar u) v (AllowedPools u) (AllowedNetworks u) (AllowedTags u) (AllowedGroups u) (SessionEpoch u) (TOTPSecret u) (TOTPEnabled u) (TOTPBackupCodes u) (TOTPLastStep u) (WebAuthnCredentials u).
Definition set_AllowedPools (v : list string) (u : User) : User :=
  MkUser (Username u) (PasswordHash u) (Role u) (CreatedAt u) (Email u) (Active u) (MustChangePassword u) (LastLoginAt u) (Permissions u) (Avatar u) (User_Quota u) v (AllowedNetworks u) (AllowedTags u) (AllowedGroups u) (SessionEpoch u) (TOTPSecret u) (TOTPEnabled u) (TOTPBackupCodes u) (TOTPLastStep u) (WebAuthnCredentials u).
Definition set_AllowedNetworks (v : list string) (u : User) : User :=
  MkUser (Username u) (PasswordHash u) (Role u) (CreatedAt u) (Email u) (Active u) (MustChangePassword u) (LastLoginAt u) (Permissions u) (Avatar u) (User_Quota u) (AllowedPools u) v (AllowedTags u) (AllowedGroups u) (SessionEpoch u) (TOTPSecret u) (TOTPEnabled u) (TOTPBackupCodes u) (TOTPLastStep u) (WebAuthnCredentials u).
Definition set_AllowedTags (v : list string) (u : User) : User :=
  MkUser (Username u) (PasswordHash u) (Role u) (CreatedAt u) (Email u) (Active u) (MustChangePassword u) (LastLoginAt u) (Permissions u) (Avatar u) (User_Quota u) (AllowedPools u) (AllowedNetworks u) v (AllowedGroups u) (SessionEpoch u) (TOTPSecret u) (TOTPEnabled u) (TOTPBackupCodes u) (TOTPLastStep u) (WebAuthnCredentials u).
Definition set_AllowedGroups (v : list string) (u : User) : User :=
  MkUser (Username u) (PasswordHash u) (Role u) (CreatedAt u) (Email u) (Active u) (MustChangePassword u) (LastLoginAt u) (Permissions u) (Avatar u) (User_Quota u) (AllowedPools u) (AllowedNetworks u) (AllowedTags u) v (SessionEpoch u) (TOTPSecret u) (TOTPEnabled u) (TOTPBackupCodes u) (TOTPLastStep u) (WebAuthnCredentials u).
Definition set_SessionEpoch (v : Z) (u : User) : User :=
  MkUser (Username u) (PasswordHash u) (Role u) (CreatedAt u) (Email u) (Active u) (MustChangePassword u) (LastLoginAt u) (Permissions u) (Avatar u) (User_Quota u) (AllowedPools u) (AllowedNetworks u) (AllowedTags u) (AllowedGroups u) v (TOTPSecret u) (TOTPEnabled u) (TOTPBackupCodes u) (TOTPLastStep u) (WebAuthnCredentials u).
Definition set_TOTPSecret (v : string) (u : User) : User :=
  MkUser (Username u) (PasswordHash u) (Role u) (CreatedAt u) (Email u) (Active u) (MustChangePassword u) (LastLoginAt u) (Permissions u) (Avatar u) (User_Quota u) (AllowedPools u) (AllowedNetworks u) (AllowedTags u) (AllowedGroups u) (SessionEpoch u) v (TOTPEnabled u) (TOTPBackupCodes u) (TOTPLastStep u) (WebAuthnCredentials u).
Definition set_TOTPEnabled (v : bool) (u : User) : User :=
  MkUser (Username u) (PasswordHash u) (Role u) (CreatedAt u) (Email u) (Active u) (MustChangePassword u) (LastLoginAt u) (Permissions u) (Avatar u) (User_Quota u) (AllowedPools u) (AllowedNetworks u) (AllowedTags u) (AllowedGroups u) (SessionEpoch u) (TOTPSecret u) v (TOTPBackupCodes u) (TOTPLastStep u) (WebAuthnCredentials u).
Definition set_TOTPBackupCodes (v : list string) (u : User) : User :=
  MkUser (Username u) (PasswordHash u) (Role u) (CreatedAt u) (Email u) (Active u) (MustChangePassword u) (LastLoginAt u) (Permissions u) (Avatar u) (User_Quota u) (AllowedPools u) (AllowedNetworks u) (AllowedTags u) (AllowedGroups u) (SessionEpoch u) (TOTPSecret u) (TOTPEnabled u) v (TOTPLastStep u) (WebAuthnCredentials u).
Definition set_TOTPLastStep (v : Z) (u : User) : User :=
  MkUser (Username u) (PasswordHash u) (Role u) (CreatedAt u) (Email u) (Active u) (MustChangePassword u) (LastLoginAt u) (Permissions u) (Avatar u) (User_Quota u) (AllowedPools u) (AllowedNetworks u) (AllowedTags u) (AllowedGroups u) (SessionEpoch u) (TOTPSecret u) (TOTPEnabled u) (TOTPBackupCodes u) v (WebAuthnCredentials u).
Definition set_WebAuthnCredentials (v : list WebAuthnCredential) (u : User) : User :=
  MkUser (Username u) (PasswordHash u) (Role u) (CreatedAt u) (Email u) (Active u) (MustChangePassword u) (LastLoginAt u) (Permissions u) (Avatar u) (User_Quota u) (AllowedPools u) (AllowedNetworks u) (AllowedTags u) (AllowedGroups u) (SessionEpoch u) (TOTPSecret u) (TOTPEnabled u) (TOTPBackupCodes u) (TOTPLastStep u) v.

Definition HasPermission (u : User) (perm : string) : bool :=
  if String.eqb (Role u) RoleAdmin then true else
  let '(flag, known) := capabilityFlag (Permissions u) perm in
  if negb known then false else
  if String.eqb (Role u) RoleViewer then
    if String.eqb perm "console" then match flag with Some b => b | None => false end else false
  else if String.eqb perm "nesting" then match flag with Some b => b | None => false end
  else match flag with Some b => b | None => true end.

Record UserResponse := MkUserResponse {
  r_Username : string; r_Role : string; r_CreatedAt : string; r_Email : string;
  r_Active : bool; r_MustChangePassword : bool; r_LastLoginAt : string;
  r_Permissions : option UserPermissions; r_Avatar : string; r_Quota : Quota;
  r_AllowedPools : list string; r_AllowedNetworks : list string;
  r_AllowedTags : list string; r_AllowedGroups : list string;
  r_TOTPEnabled : bool; r_PasskeysCount : Z
}.

Definition ToResponse (u : User) : UserResponse :=
  MkUserResponse (Username u) (Role u) (CreatedAt u) (Email u) (Active u) (MustChangePassword u)
    (LastLoginAt u) (Permissions u) (Avatar u) (User_Quota u) (AllowedPools u)
    (AllowedNetworks u) (AllowedTags u) (AllowedGroups u) (TOTPEnabled u)
    (Z.of_nat (length (WebAuthnCredentials u))).

Record CreateUserRequest := MkCreateReq {
  c_Username : string; c_Password : string; c_Role : string; c_Email : string;
  c_Permissions : option UserPermissions; c_Quota : Quota;
  c_AllowedPools : list string; c_AllowedNetworks : list string;
  c_AllowedTags : list string; c_AllowedGroups : list string;
  c_MustChangePassword : bool
}.

(** A pointer field is [None] when absent from the request. *)
Record UpdateUserRequest := MkUpdateReq {
  q_Password : option string; q_Role : option string; q_Email : option string;
  q_Active : option bool; q_Permissions : option UserPermissions; q_Quota : option Quota;
  q_AllowedPools : option (list string); q_AllowedNetworks : option (list string);
  q_AllowedTags : option (list string); q_AllowedGroups : option (list string)
}.

Definition empty_update : UpdateUserRequest :=
  MkUpdateReq None None None None None None None None None None.

Lemma capabilityFlag_known p perm : (capabilityFlag p perm).2 = IsCapability perm.
Proof.
  destruct p as [p|]; [|done]. unfold capabilityFlag, IsCapability, Capabilities. simpl.
  repeat (destruct (String.eqb perm _); [done|]). done.
Qed.

(** Capabilities fail closed. A non-admin holds a permission only if it is
    one of the nine named capabilities; a viewer holds at most the console,
    and only by an explicit grant; nesting is never held without an explicit
    grant; for an operator every other capability holds unless it is
    explicitly denied. *)
Theorem HasPermission_policy u perm :
  HasPermission u perm = true <->
  Role u = RoleAdmin \/
  (Role u <> RoleAdmin /\ IsCapability perm = true /\
   let flag := (capabilityFlag (Permissions u) perm).1 in
   if decide (Role u = RoleViewer) then perm = "console" /\ flag = Some true
   else if decide (perm = "nesting") then flag = Some true
   else flag <> Some false).
Proof.
  unfold HasPermission. pose proof (capabilityFlag_known (Permissions u) perm) as Hk.
  destruct (capabilityFlag _ _) as [flag known]. simpl in *. subst known.
  destruct (String.eqb_spec (Role u) RoleAdmin); [tauto|].
  destruct (IsCapability perm); simpl; [|naive_solver].
  destruct (String.eqb_spec (Role u) RoleViewer), (decide (Role u = RoleViewer)); try done;
    destruct (String.eqb_spec perm "console"), (String.eqb_spec perm "nesting");
    subst; try done;
    repeat (destruct (decide _)); destruct flag as [[]|]; naive_solver.
Qed.
