(* ===== verification/UserPolicy.v ===== *)
(** * UserPolicy: the checks of the account store

    Models the validation helpers of [user/store.go]: account names, password
    strength with the embedded denylist, and the comparisons that decide
    whether an update changed a capability set or an allowlist.  The Unicode
    tables behind [strings.ToLower] and [unicode.Is*], and the text of the
    embedded [common_passwords.txt], are parameters. *)

From S2P Require Export UserModel.
Open Scope Z_scope.

(** ** Runes and Unicode tables *)

(** The runes of a string: [for _, r := range s]; an invalid byte is U+FFFD. *)
Fixpoint cont_bytes (n : nat) (acc : Z) (s : string) : option (Z * string) :=
  match n, s with
  | O, _ => Some (acc, s)
  | S n, String c s =>
      if (128 <=? code c) && (code c <? 192) then cont_bytes n (acc * 64 + (code c - 128)) s
      else None
  | S _, EmptyString => None
  end.

Definition rune_min (n : nat) : Z := match n with 1%nat => 128 | 2%nat => 2048 | _ => 65536 end.

Definition decode_rune (c : ascii) (s : string) : Z * string :=
  let b := code c in
  let multi n acc :=
    match cont_bytes n acc s with
    | Some (r, t) => if (rune_min n <=? r) && (r <=? 1114111) && negb ((55296 <=? r) && (r <=? 57343))
                     then (r, t) else (65533, s)
    | None => (65533, s)
    end in
  if b <? 128 then (b, s)
  else if b <? 194 then (65533, s)
  else if b <? 224 then multi 1%nat (b - 192)
  else if b <? 240 then multi 2%nat (b - 224)
  else if b <? 245 then multi 3%nat (b - 240)
  else (65533, s).

Fixpoint runes (fuel : nat) (s : string) : list Z :=
  match fuel, s with
  | S fuel, String c s => let '(r, t) := decode_rune c s in r :: runes fuel t
  | _, _ => []
  end.

(** Unicode tables of the Go runtime. *)
Record unicode_tables := MkUnicode {
  ToLower : string -> string;
  IsLower : Z -> bool; IsUpper : Z -> bool; IsDigit : Z -> bool; IsLetter : Z -> bool
}.

Definition ascii_tables : unicode_tables :=
  let cls p r := (r <? 128) && p (ascii_of_N (Z.to_N r)) in
  MkUnicode to_lower (cls is_lower) (cls is_upper) (cls is_digit) (cls is_alpha).

(** ** Validation *)

Definition is_alnum (c : ascii) : bool := is_alpha c || is_digit c.
Definition name_byte (c : ascii) : bool :=
  is_alnum c || Ascii.eqb c "." || Ascii.eqb c "_" || Ascii.eqb c "-".

Fixpoint last_byte (s : string) : option ascii :=
  match s with
  | EmptyString => None
  | String c EmptyString => Some c
  | String _ s => last_byte s
  end.

(** [usernamePattern]: an alphanumeric, then name bytes ending in an alphanumeric. *)
Definition usernamePattern (name : string) : bool :=
  match name with
  | EmptyString => false
  | String c rest =>
      is_alnum c &&
      match last_byte rest with
      | None => true
      | Some l => all_bytes name_byte rest && is_alnum l
      end
  end.

Definition validateUsername (name : string) : res string unit :=
  if String.eqb name "" then Err "username is required"
  else if Nat.ltb 64 (slen name) then Err "username must be at most 64 characters"
  else if negb (usernamePattern name) then Err "username may contain only letters, digits, dot, dash and underscore"
  else Ok tt.

Section Passwords.
Context (U : unicode_tables) (commonPasswordsRaw : string).

Definition buildDenylist : gset string :=
  foldl (fun set line =>
    let line := trim_space line in
    if String.eqb line "" || has_prefix "#" line then set
    else {[ToLower U line]} ∪ set) ∅ (split_byte "010" commonPasswordsRaw).

Definition decoration (c : ascii) : bool := is_digit c || contains_byte c "!@#$%^&*()".

Definition checkDenylist (pw : string) : res string unit :=
  let low := ToLower U pw in
  if bool_decide (low ∈ buildDenylist) then Err "password appears in the common-password list"
  else
    let trimmed := trim_right_set decoration low in
    if negb (String.eqb trimmed "") && negb (String.eqb trimmed low)
       && bool_decide (trimmed ∈ buildDenylist)
    then Err "password is a decorated version of a common password"
    else Ok tt.

Definition boolToInt (b : bool) : Z := if b then 1 else 0.

Definition password_classes (pw : string) : Z :=
  let rs := runes (slen pw) pw in
  boolToInt (existsb (IsLower U) rs) + boolToInt (existsb (IsUpper U) rs)
  + boolToInt (existsb (IsDigit U) rs)
  + boolToInt (existsb (fun r => negb (IsLetter U r) && negb (IsDigit U r)) rs).

Definition validatePasswordStrength (pw : string) : res string unit :=
  if Nat.ltb (slen pw) 8 then Err "password must be at least 8 characters"
  else if Nat.ltb 128 (slen pw) then Err "password must be at most 128 characters"
  else match checkDenylist pw with
  | Err e => Err e
  | Ok _ =>
      if Nat.ltb (slen pw) 16 && (password_classes pw <? 3)
      then Err "passwords under 16 characters need at least 3 of: lowercase, uppercase, digit, symbol"
      else Ok tt
  end.
End Passwords.

(** ** Comparisons of allowlists and capability sets *)

(** The [seen] counting map of [stringSlicesEqual]. *)
Definition count_strings (a : list string) : gmap string Z :=
  foldl (fun seen s => <[s := default 0 (seen !! s) + 1]> seen) ∅ a.

Fixpoint uncount (seen : gmap string Z) (b : list string) : bool :=
  match b with
  | [] => true
  | s :: b =>
      let n := default 0 (seen !! s) - 1 in
      if n <? 0 then false else uncount (<[s := n]> seen) b
  end.

Definition stringSlicesEqual (a b : list string) : bool :=
  if negb (Nat.eqb (length a) (length b)) then false else uncount (count_strings a) b.

Definition boolPtrEqual (a b : option bool) : bool :=
  match a, b with
  | Some a, Some b => Bool.eqb a b
  | None, None => true
  | _, _ => false
  end.

Definition permissionsEqual (a b : option UserPermissions) : bool :=
  match a, b with
  | Some a, Some b =>
      boolPtrEqual (CanCreateVM a) (CanCreateVM b) && boolPtrEqual (CanDeleteVM a) (CanDeleteVM b) &&
      boolPtrEqual (CanControlPower a) (CanControlPower b) && boolPtrEqual (CanConsole a) (CanConsole b) &&
      boolPtrEqual (CanSnapshots a) (CanSnapshots b) && boolPtrEqual (CanBackups a) (CanBackups b) &&
      boolPtrEqual (CanMedia a) (CanMedia b) && boolPtrEqual (CanExport a) (CanExport b) &&
      boolPtrEqual (CanNesting a) (CanNesting b)
  | None, None => true
  | _, _ => false
  end.

Lemma boolPtrEqual_spec a b : boolPtrEqual a b = true <-> a = b.
Proof. destruct a as [[]|], b as [[]|]; simpl; naive_solver. Qed.

Lemma permissionsEqual_spec a b : permissionsEqual a b = true <-> a = b.
Proof.
  destruct a as [[]|], b as [[]|]; simpl; try naive_solver.
  rewrite !andb_true_iff, !boolPtrEqual_spec. split; [intros (((((((( -> & ->) & ->) & ->) & ->) & ->) & ->) & ->) & ->); done|intros [= -> -> -> -> -> -> -> -> ->]; by repeat split].
Qed.

(** Occurrences as the counting map sees them. *)
Definition occ (x : string) (l : list string) : nat := length (filter (x =.) l).

Lemma occ_cons x y l : occ x (y :: l) = ((if decide (x = y) then 1 else 0) + occ x l)%nat.
Proof. unfold occ. rewrite filter_cons. by repeat case_decide; simplify_eq. Qed.

Lemma occ_app x l1 l2 : occ x (l1 ++ l2) = (occ x l1 + occ x l2)%nat.
Proof. unfold occ. by rewrite filter_app, length_app. Qed.

Lemma occ_elem x l : occ x l <> O -> x ∈ l.
Proof.
  induction l as [|y l IH]; [done|]. rewrite occ_cons, elem_of_cons.
  destruct (decide (x = y)); [by left|]. right. by apply IH.
Qed.

Lemma occ_submseteq b a : (forall x, (occ x b <= occ x a)%nat) -> b ⊆+ a.
Proof.
  revert a. induction b as [|y b IH]; intros a H; [apply submseteq_nil_l|].
  assert (y ∈ a) as (k1 & k2 & ->)%list_elem_of_split.
  { apply occ_elem. specialize (H y). rewrite occ_cons, decide_True in H by done. lia. }
  rewrite <- Permutation_middle. apply submseteq_skip, IH. intros x. specialize (H x).
  rewrite occ_cons, occ_app, occ_cons in H. rewrite occ_app. lia.
Qed.

Lemma count_strings_spec a (seen : gmap string Z) x :
  default 0 (foldl (fun seen s => <[s := default 0 (seen !! s) + 1]> seen) seen a !! x)
  = default 0 (seen !! x) + Z.of_nat (occ x a).
Proof.
  revert seen. induction a as [|y a IH]; intros seen; cbn [foldl]; [unfold occ; simpl; lia|].
  rewrite IH, occ_cons. destruct (decide (x = y)) as [->|Hne].
  - rewrite lookup_insert_eq. simpl. lia.
  - rewrite lookup_insert_ne by done. lia.
Qed.

Lemma uncount_spec (seen : gmap string Z) b :
  (forall x, 0 <= default 0 (seen !! x)) ->
  uncount seen b = true <-> forall x, Z.of_nat (occ x b) <= default 0 (seen !! x).
Proof.
  revert seen. induction b as [|y b IH]; intros seen Hpos; cbn [uncount].
  - unfold occ. simpl. split; [intros _ x; apply Hpos|done].
  - destruct (Z.ltb_spec (default 0 (seen !! y) - 1) 0) as [Hlt|Hge].
    + split; [done|]. intros H. specialize (H y). rewrite occ_cons, decide_True in H by done. lia.
    + rewrite IH.
      * apply forall_proper. intros x. rewrite occ_cons.
        destruct (decide (x = y)) as [->|]; [rewrite lookup_insert_eq|rewrite lookup_insert_ne by done];
          simpl; lia.
      * intros x. destruct (decide (x = y)) as [->|]; [rewrite lookup_insert_eq; simpl; lia|].
        by rewrite lookup_insert_ne by done.
Qed.

Lemma occ_total l l' : l ≡ₚ l' -> forall x, occ x l = occ x l'.
Proof. intros H x. unfold occ. by rewrite H. Qed.

(** Two allowlists compare equal exactly when one is a reordering of the
    other, repetitions counted. *)
Lemma stringSlicesEqual_Permutation a b : stringSlicesEqual a b = true <-> a ≡ₚ b.
Proof.
  unfold stringSlicesEqual, count_strings.
  pose proof (fun x => count_strings_spec a ∅ x) as Hc.
  destruct (Nat.eqb_spec (length a) (length b)) as [Hl|Hl]; simpl;
    [|split; [done|intros H; by apply Permutation_length in H]].
  rewrite uncount_spec by (intros x; rewrite Hc, lookup_empty; simpl; lia).
  split.
  - intros H. symmetry. apply submseteq_length_Permutation; [|lia].
    apply occ_submseteq. intros x. specialize (H x). rewrite Hc, lookup_empty in H. simpl in H. lia.
  - intros H x. rewrite Hc, lookup_empty, (occ_total _ _ H). simpl. lia.
Qed.

(** Every accepted account name is printable ASCII without white space. *)
Lemma validateUsername_bytes name :
  validateUsername name = Ok tt ->
  name <> "" /\ (slen name <= 64)%nat /\ all_bytes name_byte name = true.
Proof.
  unfold validateUsername. destruct (String.eqb_spec name ""); [done|].
  destruct (Nat.ltb_spec 64 (slen name)); [done|].
  destruct (usernamePattern name) eqn:E; [|done]. intros _. split_and!; [done|lia|].
  destruct name as [|c rest]; [done|]. simpl in *. apply andb_prop in E as [Hc E].
  unfold name_byte at 1. rewrite Hc. simpl. destruct rest as [|d rest]; [done|].
  destruct (last_byte (String d rest)) eqn:El; [by apply andb_prop in E as [? _]|].
  exfalso. clear -El. revert d El. induction rest as [|e rest IH]; intros d; [done|].
  apply IH.
Qed.
