(* ===== verification/Users.v ===== *)
(** * Users: the account store

    Models [user/store.go].  Every method is a function from its arguments and
    the store to its result and the new store; the methods mutate the shared
    [*models.User] before they save, so a mutation made before an error is in
    the returned state.  bcrypt is a parameter; each call that draws random
    bytes (salts included) or reads the clock takes them as arguments. *)

From S2P Require Export UserPolicy AtomicFile GoTime Totp MediaRef.
Open Scope Z_scope.

(** [GenerateFromPassword] with the salt it draws, [CompareHashAndPassword]. *)
Record bcrypt := MkBcrypt {
  generate : string -> string -> option string;
  compare_hash : string -> string -> bool
}.

(** The order of the account list. *)
Definition by_name (a b : User) : Prop := String.leb (Username a) (Username b) = true.
#[export] Instance by_name_dec : RelDecision by_name.
Proof. intros a b. unfold by_name. apply _. Defined.

(** What [users.json] holds. *)
Abbreviation users_doc := (list User).

Section Store.
Context (U : unicode_tables) (commonPasswordsRaw : string) (B : bcrypt).
Context {W : Type} `{Persist users_doc W}.

(** [Store]: the accounts, the data directory with the initial-password files
    in it, and the disk behind [filePath]. *)
Record Store := MkStore {
  users : gmap string User;
  dataDir : string;
  secret_files : gmap string string;
  disk : W
}.

Definition put_user (name : string) (u : User) (s : Store) : Store :=
  MkStore (<[name := u]> (users s)) (dataDir s) (secret_files s) (disk s).
Definition remove_user (name : string) (s : Store) : Store :=
  MkStore (delete name (users s)) (dataDir s) (secret_files s) (disk s).
Definition set_disk (w : W) (s : Store) : Store :=
  MkStore (users s) (dataDir s) (secret_files s) w.

(** [save]: all accounts, in map order. *)
Definition save_store (s : Store) : bool * Store :=
  let '(ok, w) := save (map snd (map_to_list (users s))) (disk s) in (ok, set_disk w s).

(** [return s.save()] after the mutation of account [name]. *)
Definition save_user {A} (name : string) (u : User) (v : A) (s : Store) : res string A * Store :=
  let '(ok, s) := save_store (put_user name u s) in (if ok then Ok v else Err "save", s).

(** ** Reads *)

Definition List (s : Store) : list UserResponse :=
  map ToResponse (merge_sort by_name (map snd (map_to_list (users s)))).

Definition Get (username : string) (s : Store) : res string User :=
  match users s !! username with Some u => Ok u | None => Err "user not found" end.

Definition MustChange (username : string) (s : Store) : res string bool :=
  match users s !! username with Some u => Ok (MustChangePassword u) | None => Err "user not found" end.

(** [SessionStatus]; the error wraps [ErrUserNotFound]. *)
Definition SessionStatus (username : string) (s : Store) : res string (bool * Z * bool) :=
  match users s !! username with
  | Some u => Ok (MustChangePassword u, SessionEpoch u, Active u)
  | None => Err "user not found"
  end.

Definition Validate (username password : string) (s : Store) : option User :=
  match users s !! username with
  | None => None
  | Some u => if negb (Active u) then None
              else if compare_hash B (PasswordHash u) password then Some u else None
  end.

(** ** Sessions *)

Definition bump_epoch (u : User) : User := set_SessionEpoch (wrap64 (SessionEpoch u + 1)) u.
Definition unbump_epoch (u : User) : User := set_SessionEpoch (wrap64 (SessionEpoch u - 1)) u.

Definition BumpSessionEpoch (username callerUsername : string) (s : Store) : res string Z * Store :=
  if String.eqb username callerUsername then (Err "cannot revoke your own sessions", s) else
  match users s !! username with
  | None => (Err "user not found", s)
  | Some u =>
      let u := bump_epoch u in
      let '(ok, s) := save_store (put_user username u s) in
      if ok then (Ok (SessionEpoch u), s)
      else (Err "save", put_user username (unbump_epoch u) s)
  end.

(** ** Accounts *)

Definition Create (req : CreateUserRequest) (salt : string) (now : Z) (s : Store)
    : res string User * Store :=
  let name := trim_space (c_Username req) in
  match validateUsername name with Err e => (Err e, s) | Ok _ =>
  if String.eqb (c_Password req) "" then (Err "password is required", s) else
  match validatePasswordStrength U commonPasswordsRaw (c_Password req) with Err e => (Err e, s) | Ok _ =>
  match users s !! name with Some _ => (Err "user already exists", s) | None =>
  let role := if String.eqb (c_Role req) "" then RoleOperator else c_Role req in
  if negb (IsValidRole role) then (Err "invalid role", s) else
  match generate B salt (c_Password req) with None => (Err "hash password", s) | Some hash =>
  let u := MkUser name hash role (format_rfc3339 now) (c_Email req) true (c_MustChangePassword req)
             "" (c_Permissions req) "" (c_Quota req) (c_AllowedPools req) (c_AllowedNetworks req)
             (c_AllowedTags req) (c_AllowedGroups req) 0 "" false [] 0 [] in
  save_user name u u s
  end end end end.

Definition assertAtLeastOneAdminLocked (m : gmap string User) (exclude role : string)
    : res string unit :=
  if negb (String.eqb role RoleAdmin) then Ok tt else
  let count := length (List.filter (fun nu : string * User =>
                  negb (String.eqb nu.1 exclude) && String.eqb (Role nu.2) RoleAdmin && Active nu.2)
                  (map_to_list m)) in
  if Nat.eqb count 0 then Err "cannot perform this action: at least one active admin must remain"
  else Ok tt.

(** [clearInitialAdminPasswordFilesLocked]; [rm_ok] tells which [os.Remove] succeed. *)
Definition clearInitialAdminPasswordFilesLocked (username : string) (rm_ok : string -> bool)
    (s : Store) : Store :=
  if negb (String.eqb username "admin") || String.eqb (dataDir s) "" then s else
  MkStore (users s) (dataDir s)
    (map_delete_if (fun fn _ => (String.eqb fn "admin-password.initial"
                                 || String.eqb fn "admin-password.reset") && rm_ok fn)
       (secret_files s)) (disk s).

(** The edits of [Update], in order, on the shared account record. *)
Section Edits.
Context (all : gmap string User) (username salt : string).

Abbreviation edit := (SE User string).

Definition edit_password (pw : option string) : edit bool :=
  match pw with
  | None => mret false
  | Some pw =>
      _ ← se_lift (validatePasswordStrength U commonPasswordsRaw pw);
      hash ← se_lift (match generate B salt pw with Some h => Ok h | None => Err "hash password" end);
      _ ← se_modify (set_PasswordHash hash);
      _ ← se_modify (set_MustChangePassword false);
      _ ← se_modify bump_epoch;
      mret (String.eqb username "admin")
  end.

Definition edit_role (role : option string) : edit unit :=
  match role with
  | None => mret tt
  | Some role =>
      _ ← se_guard (negb (IsValidRole role)) "invalid role";
      _ ← (if String.eqb username "admin" && negb (String.eqb role RoleAdmin)
           then se_lift (assertAtLeastOneAdminLocked all username RoleAdmin) else mret tt);
      u ← se_get;
      _ ← se_when (negb (String.eqb (Role u) role)) (se_modify bump_epoch);
      se_modify (set_Role role)
  end.

Definition edit_email (email : option string) : edit unit :=
  match email with None => mret tt | Some e => se_modify (set_Email e) end.

Definition edit_active (active : option bool) : edit unit :=
  match active with
  | None => mret tt
  | Some a =>
      _ ← se_guard (negb a && String.eqb username "admin") "cannot deactivate the admin user";
      u ← se_get;
      _ ← se_when (Active u && negb a) (se_modify bump_epoch);
      se_modify (set_Active a)
  end.

(** Negative caps are clamped to 0. *)
Definition clamp_quota (q : Quota) : Quota :=
  MkQuota (Z.max 0 (MaxVMs q)) (Z.max 0 (MaxVCPUs q)) (Z.max 0 (MaxRAMMB q))
    (Z.max 0 (MaxDiskGB q)) (PoolQuotas q).

Definition edit_quota (q : option Quota) : edit unit :=
  match q with None => mret tt | Some q => se_modify (set_Quota (clamp_quota q)) end.

Definition edit_permissions (p : option UserPermissions) : edit unit :=
  match p with
  | None => mret tt
  | Some p =>
      u ← se_get;
      _ ← se_when (negb (permissionsEqual (Permissions u) (Some p))) (se_modify bump_epoch);
      se_modify (set_Permissions (Some p))
  end.

(** One allowlist, read by [get] and assigned by [set]. *)
Definition edit_allowlist (get : User -> list string) (set : list string -> User -> User)
    (l : option (list string)) : edit unit :=
  match l with
  | None => mret tt
  | Some l =>
      u ← se_get;
      _ ← se_when (negb (stringSlicesEqual (get u) l)) (se_modify bump_epoch);
      se_modify (set l)
  end.

Definition edit_all (req : UpdateUserRequest) : edit bool :=
  changed ← edit_password (q_Password req);
  _ ← edit_role (q_Role req);
  _ ← edit_email (q_Email req);
  _ ← edit_active (q_Active req);
  _ ← edit_quota (q_Quota req);
  _ ← edit_permissions (q_Permissions req);
  _ ← edit_allowlist AllowedPools set_AllowedPools (q_AllowedPools req);
  _ ← edit_allowlist AllowedNetworks set_AllowedNetworks (q_AllowedNetworks req);
  _ ← edit_allowlist AllowedTags set_AllowedTags (q_AllowedTags req);
  _ ← edit_allowlist AllowedGroups set_AllowedGroups (q_AllowedGroups req);
  mret changed.
End Edits.

Definition Update (username : string) (req : UpdateUserRequest) (salt : string)
    (rm_ok : string -> bool) (s : Store) : res string User * Store :=
  match users s !! username with
  | None => (Err "user not found", s)
  | Some u =>
      match edit_all (users s) username salt req u with
      | (Err e, u) => (Err e, put_user username u s)
      | (Ok adminPasswordChanged, u) =>
          let '(ok, s) := save_store (put_user username u s) in
          if negb ok then (Err "save", s)
          else (Ok u, if adminPasswordChanged : bool
                      then clearInitialAdminPasswordFilesLocked username rm_ok s else s)
      end
  end.

Definition ChangePassword (username oldPassword newPassword salt : string)
    (rm_ok : string -> bool) (s : Store) : res string unit * Store :=
  match users s !! username with
  | None => (Err "user not found", s)
  | Some u =>
      if negb (compare_hash B (PasswordHash u) oldPassword)
      then (Err "current password is incorrect", s) else
      match validatePasswordStrength U commonPasswordsRaw newPassword with Err e => (Err e, s) | Ok _ =>
      match generate B salt newPassword with None => (Err "hash password", s) | Some hash =>
      let u := bump_epoch (set_MustChangePassword false (set_PasswordHash hash u)) in
      let '(ok, s) := save_store (put_user username u s) in
      if negb ok then (Err "save", put_user username (unbump_epoch u) s)
      else (Ok tt, clearInitialAdminPasswordFilesLocked username rm_ok s)
      end end
  end.

Definition MarkLogin (username : string) (now : Z) (s : Store) : Store :=
  match users s !! username with
  | None => s
  | Some u => (save_user username (set_LastLoginAt (format_rfc3339 now) u) tt s).2
  end.

Definition SetAvatar (username avatar : string) (s : Store) : res string User * Store :=
  if negb (String.eqb avatar "") && negb (IsMediaRawURL avatar)
  then (Err "avatar must be a media reference", s) else
  match users s !! username with
  | None => (Err "user not found", s)
  | Some u => let u := set_Avatar avatar u in save_user username u u s
  end.

Definition Delete (username callerUsername : string) (s : Store) : res string unit * Store :=
  if String.eqb username "admin" then (Err "cannot delete the admin user", s) else
  if String.eqb username callerUsername then (Err "cannot delete your own account", s) else
  match users s !! username with
  | None => (Err "user not found", s)
  | Some u =>
      match (if String.eqb (Role u) RoleAdmin
             then assertAtLeastOneAdminLocked (users s) username RoleAdmin else Ok tt) with
      | Err e => (Err e, s)
      | Ok _ => let '(ok, s) := save_store (remove_user username s) in
                (if ok then Ok tt else Err "save", s)
      end
  end.

(** ** Second factor *)

Definition EnableTOTP (username secret : string) (backupCodes : list string) (now : Z)
    (s : Store) : res string unit * Store :=
  match users s !! username with
  | None => (Err "user not found", s)
  | Some u =>
      let u := set_TOTPLastStep (CurrentTOTPStep now)
                 (set_TOTPBackupCodes backupCodes (set_TOTPEnabled true (set_TOTPSecret secret u))) in
      save_user username u tt s
  end.

Definition DisableTOTP (username : string) (s : Store) : res string unit * Store :=
  match users s !! username with
  | None => (Err "user not found", s)
  | Some u =>
      let u := set_TOTPLastStep 0
                 (set_TOTPBackupCodes [] (set_TOTPEnabled false (set_TOTPSecret "" u))) in
      save_user username u tt s
  end.

Definition ConsumeTOTP (username code : string) (now : Z) (s : Store) : res string bool * Store :=
  match users s !! username with
  | None => (Err "user not found", s)
  | Some u =>
      if negb (TOTPEnabled u) || String.eqb (TOTPSecret u) "" then (Ok false, s) else
      match MatchTOTP (TOTPSecret u) code now with
      | None => (Ok false, s)
      | Some step =>
          if step <=? TOTPLastStep u then (Ok false, s) else
          let prev := TOTPLastStep u in
          let u := set_TOTPLastStep step u in
          let '(ok, s) := save_store (put_user username u s) in
          if ok then (Ok true, s)
          else (Err "save", put_user username (set_TOTPLastStep prev u) s)
      end
  end.

(** The codes without the first one that matches, if one does. *)
Fixpoint take_code (code : string) (codes : list string) : option (list string) :=
  match codes with
  | [] => None
  | bc :: rest =>
      if String.eqb (ToLower U bc) code then Some rest
      else cons bc <$> take_code code rest
  end.

Definition ConsumeBackupCode (username code : string) (s : Store) : res string bool * Store :=
  match users s !! username with
  | None => (Err "user not found", s)
  | Some u =>
      match take_code (trim_space (ToLower U code)) (TOTPBackupCodes u) with
      | None => (Ok false, s)
      | Some rest =>
          (Ok true, (save_store (put_user username (set_TOTPBackupCodes rest u) s)).2)
      end
  end.

(** ** Passkeys *)

Definition cred_key (id : string) : string := trim_right_set (Ascii.eqb "=") id.

Definition AddWebAuthnCredential (username : string) (cred : WebAuthnCredential) (s : Store)
    : res string unit * Store :=
  match users s !! username with
  | None => (Err "user not found", s)
  | Some u =>
      if existsb (fun e => String.eqb (cred_key (cred_ID e)) (cred_key (cred_ID cred)))
           (WebAuthnCredentials u)
      then (Err "credential already registered", s)
      else save_user username (set_WebAuthnCredentials (WebAuthnCredentials u ++ [cred]) u) tt s
  end.

Definition GetWebAuthnCredentials (username : string) (s : Store)
    : res string (list WebAuthnCredential) :=
  match users s !! username with
  | None => Err "user not found"
  | Some u => Ok (WebAuthnCredentials u)
  end.

(** Rewrite the first credential with the given id. *)
Fixpoint update_cred (id : string) (f : WebAuthnCredential -> WebAuthnCredential)
    (l : list WebAuthnCredential) : option (list WebAuthnCredential) :=
  match l with
  | [] => None
  | c :: l => if String.eqb (cred_key (cred_ID c)) id then Some (f c :: l)
              else cons c <$> update_cred id f l
  end.

Definition rename_cred (name : string) (c : WebAuthnCredential) : WebAuthnCredential :=
  MkCredential (cred_ID c) name (AttestationType c) (AAGUID c) (SignCount c) (cred_CreatedAt c)
    (LastUsedAt c) (Transport c) (RawJSON c).

Definition touch_cred (now signCount : Z) (c : WebAuthnCredential) : WebAuthnCredential :=
  MkCredential (cred_ID c) (cred_Name c) (AttestationType c) (AAGUID c)
    (if SignCount c <? signCount then signCount else SignCount c) (cred_CreatedAt c)
    (Some now) (Transport c) (RawJSON c).

Definition UpdateWebAuthnCredentialName (username credID name : string) (s : Store)
    : res string unit * Store :=
  match users s !! username with
  | None => (Err "user not found", s)
  | Some u =>
      match update_cred (cred_key credID) (rename_cred name) (WebAuthnCredentials u) with
      | Some l => save_user username (set_WebAuthnCredentials l u) tt s
      | None => (Err "credential not found", s)
      end
  end.

Definition DeleteWebAuthnCredential (username credID : string) (s : Store)
    : res string unit * Store :=
  match users s !! username with
  | None => (Err "user not found", s)
  | Some u =>
      let target c := String.eqb (cred_key (cred_ID c)) (cred_key credID) in
      if negb (existsb target (WebAuthnCredentials u)) then (Err "credential not found", s)
      else save_user username
             (set_WebAuthnCredentials (List.filter (fun c => negb (target c)) (WebAuthnCredentials u)) u)
             tt s
  end.

(** The account and credential with the id; [order] is the iteration order of
    the map. *)
Definition FindUserByWebAuthnCredentialID (credID : string) (order : list string) (s : Store)
    : option (User * WebAuthnCredential) :=
  head (omap (fun name =>
    u ← users s !! name;
    c ← List.find (fun c => String.eqb (cred_key (cred_ID c)) (cred_key credID)) (WebAuthnCredentials u);
    Some (u, c)) order).

Definition RecordWebAuthnUsage (username credID : string) (signCount now : Z) (s : Store)
    : res string unit * Store :=
  match users s !! username with
  | None => (Err "user not found", s)
  | Some u =>
      match update_cred (cred_key credID) (touch_cred now signCount) (WebAuthnCredentials u) with
      | Some l => save_user username (set_WebAuthnCredentials l u) tt s
      | None => (Ok tt, s)
      end
  end.

(** ** Start-up *)

(** The loop of [load]: [rnd i] is the password drawn for the i-th record
    without a hash and [salt i] its salt. *)
Fixpoint load_records (rnd : nat -> option (string * string)) (write_ok : bool) (i : nat)
    (recs : list User) (s : Store) (needsMigration : bool) : res string bool * Store :=
  match recs with
  | [] => (Ok needsMigration, s)
  | u :: recs =>
      if negb (String.eqb (PasswordHash u) "") then
        load_records rnd write_ok i recs (put_user (Username u) u s) needsMigration
      else if negb (String.eqb (Username u) "admin") then
        load_records rnd write_ok i recs s needsMigration
      else
        match rnd i with None => (Err "rand", s) | Some (pw, salt) =>
        match generate B salt pw with None => (Err "hash", s) | Some hash =>
        if negb write_ok then (Err "write", s) else
        let s := MkStore (users s) (dataDir s)
                   (<["admin-password.reset" := pw]> (secret_files s)) (disk s) in
        let u := set_Active true (set_MustChangePassword true (set_PasswordHash hash u)) in
        load_records rnd write_ok (S i) recs (put_user (Username u) u s) true
        end end
  end.

Definition load (rnd : nat -> option (string * string)) (write_ok : bool) (s : Store)
    : res string unit * Store :=
  match stored (disk s) with
  | None => (Ok tt, s)
  | Some Torn => (Err "parse users.json", s)
  | Some (Whole recs) =>
      match load_records rnd write_ok 0 recs s false with
      | (Err e, s) => (Err e, s)
      | (Ok needsMigration, s) =>
          if needsMigration then
            let '(ok, s) := save_store s in (if ok then Ok tt else Err "save", s)
          else (Ok tt, s)
      end
  end.

(** [NewStore]: [env_pw] is WEBKVM_ADMIN_PASSWORD, [seed] the random admin
    password (if drawn) and the salt of its hash. *)
Definition NewStore (dir : string) (files : gmap string string) (w : W) (env_pw : string)
    (rnd : nat -> option (string * string)) (write_ok : bool) (seed : option string)
    (salt : string) (now : Z) : res string Store :=
  match load rnd write_ok (MkStore ∅ dir files w) with
  | (Err e, _) => Err e
  | (Ok _, s) =>
      if negb (Nat.eqb (size (users s)) 0) then Ok s else
      let pw := if String.eqb env_pw "" then
                  trim_space (default "" (secret_files s !! "admin-password.initial"))
                else env_pw in
      match (if String.eqb pw "" then
               match seed with
               | None => Err "generate admin password"
               | Some raw => if write_ok then Ok (raw, <["admin-password.initial" := raw]> (secret_files s))
                             else Err "persist admin password"
               end
             else Ok (pw, secret_files s)) with
      | Err e => Err e
      | Ok (pw, sf) =>
          match generate B salt pw with None => Err "hash default password" | Some hash =>
          let now := format_rfc3339 now in
          let u := MkUser "admin" hash RoleAdmin now "" true true now None "" no_quota [] [] [] []
                     0 "" false [] 0 [] in
          let '(ok, s) := save_store (put_user "admin" u (MkStore (users s) (dataDir s) sf (disk s))) in
          if ok then Ok s else Err "save"
          end
      end
  end.

End Store.
