(* ===== verification/Sessions.v ===== *)
(** * Sessions: the live-account gate of every authenticated request

    Models [SessionEnforcer] of [auth/must_change.go] and [RequireRole],
    [RequireAtLeast] of [auth/rbac.go].  A middleware is a verdict on the
    request: pass it on, or answer with a status code. *)

From S2P Require Export GoStrings.
Open Scope Z_scope.

(** Request headers: canonical name to first value, absent when [None]. *)
Abbreviation headers := (gmap string string).
Definition header_get (h : headers) (k : string) : string := default "" (h !! k).

Definition HeaderUser : string := "X-User".
Definition HeaderRole : string := "X-Role".
Definition HeaderTokenEpoch : string := "X-Token-Epoch".

Inductive verdict := Pass | Reject (status : Z).
#[export] Instance verdict_eq_dec : EqDecision verdict.
Proof. solve_decision. Defined.

(** ** Decimal integers: [strconv.Itoa], [strconv.Atoi] *)

Definition digit_char (d : Z) : ascii := ascii_of_N (Z.to_N (48 + d)).

Fixpoint udec (fuel : nat) (n : Z) : string :=
  match fuel with
  | O => ""
  | S fuel => if n <? 10 then String (digit_char n) "" 
              else udec fuel (n / 10) +:+ String (digit_char (n mod 10)) ""
  end.

(** An [int] has at most 20 digits. *)
Definition Itoa (n : Z) : string := if n <? 0 then "-" +:+ udec 20 (- n) else udec 20 n.

Fixpoint digits_value (acc : Z) (s : string) : option Z :=
  match s with
  | EmptyString => Some acc
  | String c s => if is_digit c then digits_value (acc * 10 + (code c - 48)) s else None
  end.

(** The value [strconv.Atoi] returns beside its error: 0 on a syntax error, the
    nearest bound on a range error. *)
Definition Atoi (s : string) : Z :=
  let parse neg t :=
    if String.eqb t "" then 0 else
    match digits_value 0 t with
    | None => 0
    | Some v => sat64 (if neg : bool then - v else v)
    end in
  match s with
  | String "-" t => parse true t
  | String "+" t => parse false t
  | _ => parse false s
  end.

Lemma code_digit_char d : 0 <= d < 10 -> code (digit_char d) = 48 + d /\ is_digit (digit_char d) = true.
Proof.
  intros H. assert (d = 0 \/ d = 1 \/ d = 2 \/ d = 3 \/ d = 4 \/ d = 5 \/ d = 6 \/ d = 7 \/ d = 8 \/ d = 9)
    as Hd by lia.
  repeat (destruct Hd as [->|Hd]; [by vm_compute|]). subst. by vm_compute.
Qed.

Lemma digits_value_app acc s c :
  is_digit c = true ->
  digits_value acc (s +:+ String c "") =
    match digits_value acc s with Some v => Some (v * 10 + (code c - 48)) | None => None end.
Proof.
  intros Hc. revert acc. induction s as [|d s IH]; intros acc; simpl; [by rewrite Hc|].
  by destruct (is_digit d).
Qed.

Lemma udec_value fuel n :
  0 <= n < 10 ^ Z.of_nat fuel -> digits_value 0 (udec fuel n) = Some n /\
  (fuel <> O -> exists c t, udec fuel n = String c t /\ is_digit c = true).
Proof.
  revert n. induction fuel as [|fuel IH]; intros n H; [assert (n = 0) as -> by (simpl in H; lia); done|].
  cbn [udec]. destruct (Z.ltb_spec n 10).
  - destruct (code_digit_char n ltac:(lia)) as [Hc Hd]. split; [|by eauto].
    cbn [digits_value]. rewrite Hd, Hc. f_equal. lia.
  - assert (fuel <> O) as Hf by (intros ->; simpl in H; lia).
    destruct (IH (n / 10)) as [Hv Hs].
    { rewrite Nat2Z.inj_succ, Z.pow_succ_r in H by lia. split; [apply Z.div_pos; lia|].
      apply Z.div_lt_upper_bound; lia. }
    destruct (code_digit_char (n mod 10)) as [Hc Hd]; [apply Z.mod_pos_bound; lia|].
    rewrite digits_value_app, Hv, Hc by done. split.
    + f_equal. pose proof (Z.div_mod n 10). lia.
    + intros _. destruct (Hs Hf) as (c & t & -> & Hct). simpl. eauto.
Qed.

Lemma Atoi_Itoa n : is_int64 n -> Atoi (Itoa n) = n.
Proof.
  unfold is_int64, int64_min, int64_max, Itoa. intros H.
  assert (forall m, 0 <= m <= 2 ^ 63 -> exists c t, udec 20 m = String c t /\ is_digit c = true /\
    digits_value 0 (String c t) = Some m) as Hd.
  { intros m Hm. destruct (udec_value 20 m) as [Hv Hs]; [simpl; lia|].
    destruct Hs as (c & t & E & Hc); [done|]. exists c, t. by rewrite <- E. }
  destruct (Z.ltb_spec n 0).
  - destruct (Hd (- n)) as (c & t & E & Hc & Hv); [lia|]. rewrite E.
    cbn [String.append Atoi String.eqb]. rewrite Hv. unfold sat64, int64_min, int64_max. lia.
  - destruct (Hd n) as (c & t & E & Hc & Hv); [lia|]. rewrite E.
    assert (c <> "-"%char /\ c <> "+"%char) as [H1 H2] by (split; intros ->; discriminate Hc).
    assert (Atoi (String c t) = match digits_value 0 (String c t) with None => 0 | Some v => sat64 v end) as ->.
    { destruct c as [[] [] [] [] [] [] [] []]; done. }
    rewrite Hv. unfold sat64, int64_min, int64_max. lia.
Qed.

(** ** The gate *)

(** [LookupUserSession]: must-change flag, session epoch, active; [None] is an
    [ErrUserNotFound], the only error of [SessionStatus]. *)
Abbreviation LookupUserSession := (string -> option (bool * Z * bool)).

Definition SessionEnforcer (lookup : LookupUserSession) (exceptPrefixes : list string)
    (path : string) (h : headers) : verdict :=
  let user := header_get h HeaderUser in
  if String.eqb user "" then Pass else
  let exempt := existsb (fun p => has_prefix p path) exceptPrefixes in
  match lookup user with
  | None => Reject 401
  | Some (must, epoch, active) =>
      if negb active then Reject 401 else
      let tokenEpoch := Atoi (header_get h HeaderTokenEpoch) in
      if negb (tokenEpoch =? epoch) then Reject 401
      else if must && negb exempt then Reject 403
      else Pass
  end.

Definition RequireRole (allowed : list string) (h : headers) : verdict :=
  let role := header_get h HeaderRole in
  if String.eqb role "" then Reject 401
  else if existsb (String.eqb role) allowed then Pass
  else Reject 403.

Definition RequireAtLeast (min : string) : headers -> verdict :=
  RequireRole
    (if String.eqb min "viewer" then ["viewer"; "operator"; "admin"]
     else if String.eqb min "operator" then ["operator"; "admin"]
     else if String.eqb min "admin" then ["admin"]
     else [min]).

(** Identity headers as the authentication middleware writes them. *)
Definition identity (h : headers) (user role : string) (epoch : Z) : headers :=
  <[HeaderTokenEpoch := Itoa epoch]> (<[HeaderRole := role]> (<[HeaderUser := user]> h)).

Lemma identity_user h user role epoch : header_get (identity h user role epoch) HeaderUser = user.
Proof. unfold header_get, identity. by do 2 (rewrite lookup_insert_ne by discriminate); rewrite lookup_insert_eq. Qed.
Lemma identity_role h user role epoch : header_get (identity h user role epoch) HeaderRole = role.
Proof. unfold header_get, identity. by rewrite lookup_insert_ne by discriminate; rewrite lookup_insert_eq. Qed.
Lemma identity_epoch h user role epoch :
  is_int64 epoch -> Atoi (header_get (identity h user role epoch) HeaderTokenEpoch) = epoch.
Proof. intros. unfold header_get, identity. rewrite lookup_insert_eq. by apply Atoi_Itoa. Qed.

(** A request with an identity passes exactly when the account exists, is
    active, is at the epoch of the credential, and has no pending password
    change outside the exempt paths. *)
Lemma SessionEnforcer_pass lookup except path h user role epoch :
  user <> "" -> is_int64 epoch ->
  SessionEnforcer lookup except path (identity h user role epoch) = Pass <->
  exists must, lookup user = Some (must, epoch, true) /\
    (must = true -> existsb (fun p => has_prefix p path) except = true).
Proof.
  intros Hu He. unfold SessionEnforcer. rewrite identity_user, identity_epoch by done.
  rewrite (proj2 (String.eqb_neq _ _) Hu).
  destruct (lookup user) as [[[must e] act]|]; [|naive_solver].
  destruct act; simpl; [|naive_solver]. destruct (Z.eqb_spec epoch e) as [<-|]; simpl; [|naive_solver].
  destruct must, (existsb _ _); simpl; naive_solver.
Qed.
