(* ===== verification/UserFacts.v ===== *)
(** * UserFacts: what the account store guarantees

    Theorems about [Users]: how an account evolves under every sequence of
    store operations (session epochs, privileges, second factor), the
    protection of the seed administrator, and the round trip through
    [users.json]. *)

From S2P Require Export Users Sessions.
Open Scope Z_scope.

(** ** How one account evolves *)

(** What a session token vouches for. *)
Record same_privileges (u u' : User) : Prop := {
  sp_role : Role u' = Role u;
  sp_active : Active u = true -> Active u' = true;
  sp_perms : Permissions u' = Permissions u;
  sp_pools : AllowedPools u ≡ₚ AllowedPools u';
  sp_networks : AllowedNetworks u ≡ₚ AllowedNetworks u';
  sp_tags : AllowedTags u ≡ₚ AllowedTags u';
  sp_groups : AllowedGroups u ≡ₚ AllowedGroups u'
}.

#[export] Instance same_privileges_preorder : PreOrder same_privileges.
Proof.
  split.
  - intros u. by constructor.
  - intros u v w [] []. constructor; try (by etrans); intros; try congruence; auto.
Qed.

(** The account [name] evolves from [u] to [u'] with at most [k] epoch bumps;
    [reset] tells whether the second factor may have been re-enrolled. *)
Record evolves (name : string) (reset : bool) (k : Z) (u u' : User) : Prop := {
  ev_name : Username u' = Username u;
  ev_hash : PasswordHash u <> "" -> PasswordHash u' <> "";
  ev_admin : name = "admin" -> Active u = true -> Active u' = true;
  ev_epoch : 0 <= SessionEpoch u -> SessionEpoch u + k <= int64_max ->
    SessionEpoch u <= SessionEpoch u' <= SessionEpoch u + k;
  ev_privileges : 0 <= SessionEpoch u -> SessionEpoch u + k <= int64_max ->
    SessionEpoch u' = SessionEpoch u -> same_privileges u u';
  ev_totp : reset = false ->
    TOTPLastStep u <= TOTPLastStep u' /\ TOTPSecret u' = TOTPSecret u /\
    TOTPBackupCodes u' `sublist_of` TOTPBackupCodes u
}.

Lemma evolves_refl name reset u : evolves name reset 0 u u.
Proof. constructor; intros; (done || lia || by split_and!). Qed.

Lemma evolves_trans name r1 r2 k1 k2 u v w :
  0 <= k1 -> 0 <= k2 ->
  evolves name r1 k1 u v -> evolves name r2 k2 v w -> evolves name (r1 || r2) (k1 + k2) u w.
Proof.
  intros Hk1 Hk2 [N1 H1 A1 E1 P1 T1] [N2 H2 A2 E2 P2 T2]. constructor; [congruence|auto|auto|..].
  - intros H0 Hm. specialize (E1 H0). specialize (P1 H0). lia.
  - intros H0 Hm Heq. assert (SessionEpoch v = SessionEpoch u) as Hv by lia.
    etrans; [apply P1|apply P2]; lia.
  - intros [-> ->]%orb_false_elim. destruct T1 as (? & ? & ?), T2 as (? & ? & ?); try done.
    split_and!; [lia|congruence|by etrans].
Qed.

Lemma evolves_weaken name r r' k k' u v :
  evolves name r k u v -> k <= k' -> (r' = false -> r = false) -> evolves name r' k' u v.
Proof.
  intros [N Hh A E P T] Hk Hr. constructor; auto.
  - intros. specialize (E ltac:(done) ltac:(lia)). lia.
  - intros. apply P; lia.
Qed.

Lemma evolves_bump name u : evolves name false 1 u (bump_epoch u).
Proof.
  unfold bump_epoch. constructor; simpl; intros; auto.
  - rewrite wrap64_id; int64_lia.
  - exfalso. rewrite wrap64_id in *; int64_lia.
  - by split_and!.
Qed.

(** A bump undone because the save failed. *)
Lemma evolves_rollback name u : evolves name false 0 u (unbump_epoch (bump_epoch u)).
Proof.
  constructor; simpl; auto.
  - intros Hp Hm. rewrite wrap64_pred_succ; int64_lia.
  - intros _ _ _. by constructor.
  - intros _. split_and!; auto; lia.
Qed.

(** An assignment that touches neither the epoch nor the credentials. *)
Record keeps (name : string) (u v : User) : Prop := {
  kp_epoch : SessionEpoch v = SessionEpoch u;
  kp_name : Username v = Username u;
  kp_hash : PasswordHash v = PasswordHash u;
  kp_step : TOTPLastStep v = TOTPLastStep u;
  kp_secret : TOTPSecret v = TOTPSecret u;
  kp_codes : TOTPBackupCodes v = TOTPBackupCodes u;
  kp_admin : name = "admin" -> Active u = true -> Active v = true
}.

Lemma keeps_evolves name u v : keeps name u v -> same_privileges u v -> evolves name false 0 u v.
Proof.
  intros [He HN HP HT HS HB HA] Hs.
  constructor; rewrite ?He, ?HP, ?HN, ?HT, ?HS, ?HB; auto; intros; lia || by split_and!.
Qed.

(** The assignment [f], preceded by a bump if [c]. *)
Lemma evolves_bump_when name (c : bool) (f : User -> User) u :
  (forall v, Active v = Active u -> keeps name v (f v)) -> (c = false -> same_privileges u (f u)) ->
  evolves name false 1 u (f (if c then bump_epoch u else u)).
Proof.
  intros Hf Hsame. destruct c.
  - destruct (Hf (bump_epoch u) eq_refl) as [He HN HP HT HS HB HA].
    destruct (evolves_bump name u) as [N Hh A E P T].
    constructor; rewrite ?He, ?HP, ?HN, ?HT, ?HS, ?HB; auto.
    intros H0 Hm Heq. exfalso. specialize (E H0 Hm). revert Heq. unfold bump_epoch. simpl.
    rewrite wrap64_id; int64_lia.
  - apply (evolves_weaken _ false _ 0); [apply keeps_evolves; auto|lia|done].
Qed.

(** ** The edits of Update *)

Section Edits.
Context (U : unicode_tables) (commonPasswordsRaw : string) (B : bcrypt).
Context (all : gmap string User) (name salt : string).
Hypothesis hash_nonempty : forall salt pw h, generate B salt pw = Some h -> h <> "".

Abbreviation within k m := (se_within (evolves name false k) m).

Lemma within_bind {A C} k1 k2 (m : SE User string A) (f : A -> SE User string C) :
  0 <= k1 -> 0 <= k2 -> within k1 m -> (forall a, within k2 (f a)) -> within (k1 + k2) (m ≫= f).
Proof.
  intros Hk1 Hk2. apply se_within_bind.
  - intros u v w. by apply (evolves_trans name false false).
  - intros u v H. apply (evolves_weaken _ _ _ _ _ _ _ H); [lia|done].
Qed.

Lemma stay k u : 0 <= k -> evolves name false k u u.
Proof. intros Hk. apply (evolves_weaken _ false _ 0); [apply evolves_refl|done|done]. Qed.

Lemma within_ret {A} (a : A) : within 0 (mret a : SE User string A).
Proof. intros u. by apply stay. Qed.
Lemma within_lift {A} (r : res string A) : within 0 (se_lift r : SE User string A).
Proof. intros u. by apply stay. Qed.
Lemma within_guard c e : within 0 (se_guard c e : SE User string unit).
Proof. intros u. by apply stay. Qed.

(** [if c(u) { u.SessionEpoch++ }; f(u)] *)
Lemma within_bump_modify (c : User -> bool) (f : User -> User) :
  (forall u v, Active v = Active u -> keeps name v (f v)) ->
  (forall u, c u = false -> same_privileges u (f u)) ->
  within 1 (u ← se_get; _ ← se_when (c u) (se_modify bump_epoch); (se_modify f : SE User string unit)).
Proof.
  intros Hf Hc u. unfold mbind, se_bind, se_get, se_when, se_modify, mret, se_ret.
  pose proof (evolves_bump_when name (c u) f u (Hf u) (Hc u)) as H. by destruct (c u).
Qed.

Lemma edit_password_within pw : within 1 (edit_password U commonPasswordsRaw B name salt pw).
Proof.
  destruct pw as [pw|]; [|intros u; by apply stay].
  apply (within_bind 0 1); [lia|lia|apply within_lift|]. intros _ u.
  unfold mbind, se_bind, se_lift, se_modify, mret, se_ret.
  destruct (generate B salt pw) as [h|] eqn:Eh; [|by apply stay].
  destruct (evolves_bump name u) as [N Hh A E P T]. constructor; auto.
  - intros _. simpl. eauto.
  - intros H0 Hm Heq. exfalso. revert Heq. simpl.
    rewrite wrap64_id; int64_lia.
Qed.

Lemma edit_role_within role : within 1 (edit_role all name role).
Proof.
  destruct role as [role|]; [|intros u; by apply stay].
  apply (within_bind 0 1); [lia|lia|apply within_guard|intros _].
  apply (within_bind 0 1); [lia|lia|destruct (_ && _); [apply within_lift|apply within_ret]|intros _].
  apply within_bump_modify; [by intros|]. intros u E%negb_false_iff%String.eqb_eq.
  constructor; by rewrite ?E.
Qed.

Lemma edit_email_within e : within 0 (edit_email e).
Proof. destruct e; intros u; [apply keeps_evolves; by constructor|by apply stay]. Qed.

Lemma edit_quota_within q : within 0 (edit_quota q).
Proof. destruct q; intros u; [apply keeps_evolves; by constructor|by apply stay]. Qed.

Lemma edit_active_within a : within 1 (edit_active name a).
Proof.
  destruct a as [a|]; [|intros u; by apply stay].
  intros u. unfold edit_active, mbind at 1, se_bind at 1, se_guard.
  destruct (negb a && String.eqb name "admin") eqn:E; [by apply stay|].
  apply (within_bump_modify (fun u => Active u && negb a)).
  - intros v w _. constructor; try done. simpl. intros -> Hw. by destruct a.
  - intros v Hv. constructor; try done. simpl. intros Ha. rewrite Ha in Hv. by destruct a.
Qed.

Lemma edit_permissions_within p : within 1 (edit_permissions p).
Proof.
  destruct p as [p|]; [|intros u; by apply stay].
  apply within_bump_modify; [by intros|]. intros u E%negb_false_iff%permissionsEqual_spec.
  by constructor.
Qed.

Lemma edit_allowlist_within get set l :
  (forall u v, keeps name u (set v u)) ->
  (forall u v, get u ≡ₚ v -> same_privileges u (set v u)) -> within 1 (edit_allowlist get set l).
Proof.
  intros Hk Hs. destruct l as [l|]; [|intros u; by apply stay].
  apply within_bump_modify; [auto|]. intros u E%negb_false_iff%stringSlicesEqual_Permutation. auto.
Qed.

Lemma edit_all_within req : within 8 (edit_all U commonPasswordsRaw B all name salt req).
Proof.
  apply (within_bind 1 7); [lia|lia|apply edit_password_within|intros chg].
  apply (within_bind 1 6); [lia|lia|apply edit_role_within|intros _].
  apply (within_bind 0 6); [lia|lia|apply edit_email_within|intros _].
  apply (within_bind 1 5); [lia|lia|apply edit_active_within|intros _].
  apply (within_bind 0 5); [lia|lia|apply edit_quota_within|intros _].
  apply (within_bind 1 4); [lia|lia|apply edit_permissions_within|intros _].
  apply (within_bind 1 3); [lia|lia|apply edit_allowlist_within; intros; constructor; done|intros _].
  apply (within_bind 1 2); [lia|lia|apply edit_allowlist_within; intros; constructor; done|intros _].
  apply (within_bind 1 1); [lia|lia|apply edit_allowlist_within; intros; constructor; done|intros _].
  apply (within_bind 1 0); [lia|lia|apply edit_allowlist_within; intros; constructor; done|intros _].
  apply within_ret.
Qed.
End Edits.

(** ** The operations as steps *)

Section Steps.
Context (U : unicode_tables) (commonPasswordsRaw : string) (B : bcrypt).
Context {W : Type} `{Persist users_doc W}.

(** One call of a method of the store, with what it draws and reads. *)
Inductive user_op :=
| OBump (username caller : string)
| OCreate (req : CreateUserRequest) (salt : string) (now : Z)
| OUpdate (username : string) (req : UpdateUserRequest) (salt : string) (rm_ok : string -> bool)
| OChangePassword (username old new salt : string) (rm_ok : string -> bool)
| OMarkLogin (username : string) (now : Z)
| OSetAvatar (username avatar : string)
| ODelete (username caller : string)
| OEnableTOTP (username secret : string) (codes : list string) (now : Z)
| ODisableTOTP (username : string)
| OConsumeTOTP (username code : string) (now : Z)
| OConsumeBackupCode (username code : string)
| OAddCredential (username : string) (cred : WebAuthnCredential)
| ORenameCredential (username credID name : string)
| ODeleteCredential (username credID : string)
| ORecordUsage (username credID : string) (signCount now : Z).

Definition user_step (o : user_op) (s : Store (W := W)) : Store :=
  match o with
  | OBump x c => (BumpSessionEpoch x c s).2
  | OCreate req salt now => (Create U commonPasswordsRaw B req salt now s).2
  | OUpdate x req salt rm => (Update U commonPasswordsRaw B x req salt rm s).2
  | OChangePassword x old new salt rm => (ChangePassword U commonPasswordsRaw B x old new salt rm s).2
  | OMarkLogin x now => MarkLogin x now s
  | OSetAvatar x a => (SetAvatar x a s).2
  | ODelete x c => (Users.Delete x c s).2
  | OEnableTOTP x sec codes now => (EnableTOTP x sec codes now s).2
  | ODisableTOTP x => (DisableTOTP x s).2
  | OConsumeTOTP x code now => (ConsumeTOTP x code now s).2
  | OConsumeBackupCode x code => (ConsumeBackupCode U x code s).2
  | OAddCredential x c => (AddWebAuthnCredential x c s).2
  | ORenameCredential x c n => (UpdateWebAuthnCredentialName x c n s).2
  | ODeleteCredential x c => (DeleteWebAuthnCredential x c s).2
  | ORecordUsage x c n now => (RecordWebAuthnUsage x c n now s).2
  end.

Definition deletes (x : string) (o : user_op) : bool :=
  match o with ODelete y _ => String.eqb y x | _ => false end.

(** Operations that re-enrol the second factor of [x]. *)
Definition resets_totp (x : string) (o : user_op) : bool :=
  match o with OEnableTOTP y _ _ _ | ODisableTOTP y => String.eqb y x | _ => false end.

(** The effect of a step on the accounts. *)
Inductive effect (o : user_op) (m : gmap string User) : gmap string User -> Prop :=
| eff_none : effect o m m
| eff_edit x u v : m !! x = Some u -> evolves x (resets_totp x o) 8 u v -> effect o m (<[x := v]> m)
| eff_create x v : m !! x = None -> validateUsername x = Ok tt -> Username v = x ->
    PasswordHash v <> "" -> Active v = true -> SessionEpoch v = 0 -> effect o m (<[x := v]> m)
| eff_delete x u : m !! x = Some u -> x <> "admin" -> deletes x o = true -> effect o m (delete x m).

Lemma save_store_users (s : Store (W := W)) : users (save_store s).2 = users s.
Proof. unfold save_store. by destruct (save _ _). Qed.

Lemma save_user_users {A} x u (v : A) (s : Store (W := W)) :
  users (save_user x u v s).2 = <[x := u]> (users s).
Proof.
  unfold save_user. pose proof (save_store_users (put_user x u s)) as Hs.
  destruct (save_store _). simpl in *. by rewrite Hs.
Qed.

Lemma clear_users x rm (s : Store (W := W)) :
  users (clearInitialAdminPasswordFilesLocked x rm s) = users s.
Proof. unfold clearInitialAdminPasswordFilesLocked. by destruct (_ || _). Qed.

Hypothesis hash_nonempty : forall salt pw h, generate B salt pw = Some h -> h <> "".

(** An edit followed by a save. *)
Lemma effect_save_user {A} o x u v (a : A) (s : Store (W := W)) :
  users s !! x = Some u -> evolves x (resets_totp x o) 8 u v ->
  effect o (users s) (users (save_user x v a s).2).
Proof. intros. rewrite save_user_users. by eapply eff_edit. Qed.

(** A harmless edit followed by a save. *)
Lemma effect_save_kept {A} o x u v (a : A) (s : Store (W := W)) :
  users s !! x = Some u -> keeps x u v -> same_privileges u v ->
  effect o (users s) (users (save_user x v a s).2).
Proof.
  intros Hu Hk Hp. eapply effect_save_user; [done|].
  eapply evolves_weaken; [by apply keeps_evolves|lia|done].
Qed.

Lemma take_code_sublist code codes rest : take_code U code codes = Some rest -> rest `sublist_of` codes.
Proof.
  revert rest. induction codes as [|bc codes IH]; intros rest; simpl; [done|].
  case_match; [intros [= ->]; by constructor|].
  destruct (take_code U code codes); simpl; [|done]. intros [= <-]. constructor. auto.
Qed.

Lemma Update_effect x req salt rm (s : Store (W := W)) :
  effect (OUpdate x req salt rm) (users s) (users (Update U commonPasswordsRaw B x req salt rm s).2).
Proof.
  unfold Update. destruct (users s !! x) as [u|] eqn:Hu; [|constructor].
  pose proof (edit_all_within U commonPasswordsRaw B (users s) x salt hash_nonempty req u) as Hw.
  destruct (edit_all _ _ _ _ _ _ req u) as [[adm|e] v]; simpl in Hw; [|by eapply eff_edit].
  pose proof (save_store_users (put_user x v s)) as Hs. destruct (save_store _) as [[] s']; simpl in *.
  - destruct adm; rewrite ?clear_users, Hs; by eapply eff_edit.
  - rewrite Hs. by eapply eff_edit.
Qed.

(** The two counters restored when the save fails. *)
Lemma effect_rollback o x u v v' (s : Store (W := W)) ok s' :
  users s !! x = Some u -> save_store (put_user x v s) = (ok, s') ->
  evolves x (resets_totp x o) 8 u (if ok then v else v') ->
  effect o (users s) (users (if ok then s' else put_user x v' s')).
Proof.
  intros Hu Hs Hv. pose proof (save_store_users (put_user x v s)) as Hs'. rewrite Hs in Hs'. simpl in Hs'.
  destruct ok; simpl; rewrite Hs'; [|rewrite insert_insert_eq]; by eapply eff_edit.
Qed.

Lemma Bump_effect x c (s : Store (W := W)) :
  effect (OBump x c) (users s) (users (BumpSessionEpoch x c s).2).
Proof.
  unfold BumpSessionEpoch. case_match; [constructor|].
  destruct (users s !! x) as [u|] eqn:Hu; [|constructor].
  destruct (save_store _) as [ok s'] eqn:Hs.
  pose proof (effect_rollback (OBump x c) x u (bump_epoch u) (unbump_epoch (bump_epoch u)) s ok s' Hu Hs)
    as Hr.
  destruct ok; simpl in *; apply Hr.
  - eapply evolves_weaken; [apply evolves_bump|lia|done].
  - eapply evolves_weaken; [apply evolves_rollback|lia|done].
Qed.

Lemma ChangePassword_effect x old new salt rm (s : Store (W := W)) :
  effect (OChangePassword x old new salt rm) (users s)
    (users (ChangePassword U commonPasswordsRaw B x old new salt rm s).2).
Proof.
  unfold ChangePassword. destruct (users s !! x) as [u|] eqn:Hu; [|constructor].
  case_match; [constructor|]. destruct (validatePasswordStrength _ _ new); [|constructor].
  destruct (generate B salt new) as [h|] eqn:Eh; [|constructor].
  set (u0 := set_MustChangePassword false (set_PasswordHash h u)).
  destruct (save_store _) as [ok s'] eqn:Hs.
  pose proof (effect_rollback (OChangePassword x old new salt rm) x u (bump_epoch u0)
    (unbump_epoch (bump_epoch u0)) s ok s' Hu Hs) as Hr.
  assert (evolves x false 0 u u0) as Hset.
  { constructor; simpl; intros; auto; [eauto|lia|by constructor|by split_and!]. }
  destruct ok; simpl in *; [rewrite clear_users|]; apply Hr.
  - apply (evolves_weaken _ false _ 1); [|lia|done].
    apply (evolves_trans _ false false 0 1 _ _ _ ltac:(lia) ltac:(lia) Hset (evolves_bump x u0)).
  - apply (evolves_weaken _ false _ 0); [|lia|done].
    apply (evolves_trans _ false false 0 0 _ _ _ ltac:(lia) ltac:(lia) Hset (evolves_rollback x u0)).
Qed.

Lemma Create_effect req salt now (s : Store (W := W)) :
  effect (OCreate req salt now) (users s) (users (Create U commonPasswordsRaw B req salt now s).2).
Proof.
  unfold Create. destruct (validateUsername _) as [[]|] eqn:Hv; [|constructor].
  case_match; [constructor|]. destruct (validatePasswordStrength _ _ _); [|constructor].
  destruct (users s !! _) as [u|] eqn:Hu; [constructor|].
  case_match; [constructor|]. destruct (generate B salt _) as [h|] eqn:Eh; [|constructor].
  rewrite save_user_users. apply eff_create; simpl; eauto.
Qed.

Lemma Delete_effect x c (s : Store (W := W)) :
  effect (ODelete x c) (users s) (users (Users.Delete x c s).2).
Proof.
  unfold Users.Delete. destruct (String.eqb_spec x "admin"); [constructor|].
  case_match; [constructor|]. destruct (users s !! x) as [u|] eqn:Hu; [|constructor].
  destruct (if String.eqb (Role u) RoleAdmin then _ else _); [|constructor].
  pose proof (save_store_users (remove_user x s)) as Hs. destruct (save_store _). simpl in *.
  rewrite Hs. eapply eff_delete; [done|done|]. apply String.eqb_refl.
Qed.

(** Enrolment, removal and use of the second factor. *)
Lemma evolves_reset name u v :
  SessionEpoch v = SessionEpoch u -> Username v = Username u -> PasswordHash v = PasswordHash u ->
  Active v = Active u -> same_privileges u v -> evolves name true 8 u v.
Proof. intros He HN HP HA Hs. constructor; rewrite ?He, ?HP, ?HN, ?HA; auto; intros; done || lia. Qed.

Lemma ConsumeTOTP_effect x code now (s : Store (W := W)) :
  effect (OConsumeTOTP x code now) (users s) (users (ConsumeTOTP x code now s).2).
Proof.
  unfold ConsumeTOTP. destruct (users s !! x) as [u|] eqn:Hu; [|constructor].
  case_match; [constructor|]. destruct (MatchTOTP _ _ _) as [step|]; [|constructor].
  destruct (Z.leb_spec step (TOTPLastStep u)); [constructor|].
  destruct (save_store _) as [ok s'] eqn:Hs.
  pose proof (effect_rollback (OConsumeTOTP x code now) x u (set_TOTPLastStep step u)
    (set_TOTPLastStep (TOTPLastStep u) (set_TOTPLastStep step u)) s ok s' Hu Hs) as Hr.
  destruct ok; simpl in *; apply Hr; constructor; simpl; intros; auto; try lia; try (by constructor);
    split_and!; auto; lia.
Qed.

Lemma ConsumeBackupCode_effect x code (s : Store (W := W)) :
  effect (OConsumeBackupCode x code) (users s) (users (ConsumeBackupCode U x code s).2).
Proof.
  unfold ConsumeBackupCode. destruct (users s !! x) as [u|] eqn:Hu; [|constructor].
  destruct (take_code _ _ _) as [rest|] eqn:Et; [|constructor]. simpl. rewrite save_store_users. simpl.
  eapply eff_edit; [done|]. apply take_code_sublist in Et.
  constructor; simpl; intros; auto; try lia; try (by constructor); split_and!; auto; lia.
Qed.

(** Every operation has one of the four effects. *)
Lemma user_step_effect o (s : Store (W := W)) : effect o (users s) (users (user_step o s)).
Proof.
  destruct o as [x c|req salt now|x req salt rm|x old new salt rm|x now|x a|x c|x sec codes now|x
    |x code now|x code|x c|x c n|x c|x c n now]; simpl;
    auto using Bump_effect, Create_effect, Update_effect, ChangePassword_effect, Delete_effect,
      ConsumeTOTP_effect, ConsumeBackupCode_effect.
  - unfold MarkLogin. destruct (users s !! x) eqn:Hu; [|constructor]. by apply (effect_save_kept _ _ u).
  - unfold SetAvatar. case_match; [constructor|]. destruct (users s !! x) as [u|] eqn:Hu; [|constructor].
    by apply (effect_save_kept _ _ u).
  - unfold EnableTOTP. destruct (users s !! x) as [u|] eqn:Hu; [|constructor].
    eapply effect_save_user; [done|]. simpl. rewrite String.eqb_refl. by apply evolves_reset.
  - unfold DisableTOTP. destruct (users s !! x) as [u|] eqn:Hu; [|constructor].
    eapply effect_save_user; [done|]. simpl. rewrite String.eqb_refl. by apply evolves_reset.
  - unfold AddWebAuthnCredential. destruct (users s !! x) as [u|] eqn:Hu; [|constructor].
    case_match; [constructor|]. by apply (effect_save_kept _ _ u).
  - unfold UpdateWebAuthnCredentialName. destruct (users s !! x) as [u|] eqn:Hu; [|constructor].
    destruct (update_cred _ _ _); [|constructor]. by apply (effect_save_kept _ _ u).
  - unfold DeleteWebAuthnCredential. destruct (users s !! x) as [u|] eqn:Hu; [|constructor].
    case_match; [constructor|]. by apply (effect_save_kept _ _ u).
  - unfold RecordWebAuthnUsage. destruct (users s !! x) as [u|] eqn:Hu; [|constructor].
    destruct (update_cred _ _ _); [|constructor]. by apply (effect_save_kept _ _ u).
Qed.

(** ** Sequences of operations *)

Lemma step_evolves o (s : Store (W := W)) x u :
  users s !! x = Some u -> deletes x o = false ->
  exists v, users (user_step o s) !! x = Some v /\ evolves x (resets_totp x o) 8 u v.
Proof.
  intros Hu Hd. pose proof (user_step_effect o s) as He.
  inversion He as [Hm|y w v Hw Hev Hm|y v Hn Hvu Hun Hh Ha Hz Hm|y w Hw Hna Hdel Hm].
  - exists u. split; [done|]. eapply evolves_weaken; [apply evolves_refl|lia|done].
  - destruct (decide (y = x)) as [->|].
    + exists v. rewrite lookup_insert_eq. split; [done|congruence].
    + exists u. rewrite lookup_insert_ne by done. split; [done|].
      eapply evolves_weaken; [apply evolves_refl|lia|done].
  - assert (y <> x) by congruence. exists u. rewrite lookup_insert_ne by done. split; [done|].
    eapply evolves_weaken; [apply evolves_refl|lia|done].
  - assert (y <> x) as Hne.
    { intros ->. congruence. }
    exists u. rewrite lookup_delete_ne by done. split; [done|].
    eapply evolves_weaken; [apply evolves_refl|lia|done].
Qed.

Lemma run_evolves ops (s : Store (W := W)) x u :
  users s !! x = Some u -> Forall (fun o => deletes x o = false) ops ->
  exists v, users (run user_step ops s) !! x = Some v /\
    evolves x (existsb (resets_totp x) ops) (8 * Z.of_nat (length ops)) u v.
Proof.
  intros Hu Hd. revert s u Hu. induction Hd as [|o ops Ho Hd IH]; intros s u Hu.
  - exists u. split; [done|apply evolves_refl].
  - destruct (step_evolves o s x u Hu Ho) as (v & Hv & He).
    destruct (IH _ _ Hv) as (w & Hw & He'). exists w. split; [done|].
    cbn [existsb length].
    replace (8 * Z.of_nat (S (length ops))) with (8 + 8 * Z.of_nat (length ops)) by lia.
    by eapply evolves_trans; [lia|lia|..].
Qed.

(** [us.SessionStatus], as wired into [SessionEnforcer]. *)
Definition session_lookup (s : Store (W := W)) : LookupUserSession := fun name =>
  match SessionStatus name s with Ok r => Some r | Err _ => None end.

Lemma session_lookup_spec (s : Store (W := W)) x :
  session_lookup s x =
    (fun u => (MustChangePassword u, SessionEpoch u, Active u)) <$> users s !! x.
Proof. unfold session_lookup, SessionStatus. by destruct (users s !! x). Qed.

Lemma gate_pass (s : Store (W := W)) except path h x role te :
  x <> "" -> is_int64 te ->
  SessionEnforcer (session_lookup s) except path (identity h x role te) = Pass ->
  exists u, users s !! x = Some u /\ Active u = true /\ SessionEpoch u = te.
Proof.
  intros Hx He (must & Hl & _)%SessionEnforcer_pass; [|done|done].
  rewrite session_lookup_spec in Hl. destruct (users s !! x) as [u|]; [|done].
  simpl in Hl. injection Hl as <- <- <-. eauto.
Qed.
End Steps.



(** The result of a step, as far as it is an error. *)
Definition logs_out U pws B {W} `{Persist users_doc W} (x : string) (o : user_op)
    (s : Store (W := W)) : Prop :=
  match o with
  | OBump y c => y = x /\ is_ok (BumpSessionEpoch y c s).1 = true
  | OChangePassword y old new salt rm =>
      y = x /\ is_ok (ChangePassword U pws B y old new salt rm s).1 = true
  | _ => False
  end.

(** A forced log-out and a password change move the epoch. *)
Lemma logs_out_bumps U pws B {W} `{Persist users_doc W} (s : Store (W := W)) x o u v :
  users s !! x = Some u -> users (user_step U pws B o s) !! x = Some v ->
  0 <= SessionEpoch u -> SessionEpoch u + 1 <= int64_max ->
  logs_out U pws B x o s -> SessionEpoch u < SessionEpoch v.
Proof.
  intros Hu Hv H0 Hm Ho.
  assert (forall w, SessionEpoch w = SessionEpoch u -> SessionEpoch u < SessionEpoch (bump_epoch w)) as Hb.
  { intros w Hw. unfold bump_epoch. simpl. rewrite Hw, wrap64_id; int64_lia. }
  destruct o; simpl in Ho; try done; destruct Ho as [-> Hok].
  - simpl in *. unfold BumpSessionEpoch in *. destruct (String.eqb x caller); [done|]. rewrite Hu in *.
    pose proof (save_store_users (put_user x (bump_epoch u) s)) as Hs.
    destruct (save_store _) as [[] s']; [|done]. simpl in *. rewrite Hs, lookup_insert_eq in Hv.
    apply (inj Some) in Hv as <-. by apply Hb.
  - simpl in *. unfold ChangePassword in *. rewrite Hu in *.
    destruct (negb _); [done|]. destruct (validatePasswordStrength _ _ new); [|done].
    destruct (generate B salt new) as [hsh|]; [|done].
    match type of Hv with context [save_store (put_user x ?w s)] =>
      pose proof (save_store_users (put_user x w s)) as Hs; destruct (save_store (put_user x w s)) as [[] s'] end;
      [|done].
    simpl in *. rewrite clear_users, Hs, lookup_insert_eq in Hv. apply (inj Some) in Hv as <-.
    by apply Hb.
Qed.


(** C40: a one-time password is accepted once. After a TOTP code is accepted,
    no code of the same or an earlier 30-second step is accepted again for
    that account, through any later operations that neither re-enrol the
    second factor nor delete the account. *)
Theorem totp_no_replay U pws B {W} `{Persist users_doc W}
    (s : Store (W := W)) x u code now step ops code' now' step' :
  (forall salt pw hash, generate B salt pw = Some hash -> hash <> "") ->
  users s !! x = Some u ->
  (ConsumeTOTP x code now s).1 = Ok true -> MatchTOTP (TOTPSecret u) code now = Some step ->
  Forall (fun o => deletes x o = false /\ resets_totp x o = false) ops ->
  MatchTOTP (TOTPSecret u) code' now' = Some step' -> step' <= step ->
  let s' := run (user_step U pws B) (OConsumeTOTP x code now :: ops) s in
  ConsumeTOTP x code' now' s' = (Ok false, s').
Proof.
  intros Hb Hu Hok Hstep Hops Hstep' Hle s'.
  assert (exists v, users (ConsumeTOTP x code now s).2 !! x = Some v /\
            TOTPLastStep v = step /\ TOTPSecret v = TOTPSecret u) as (v & Hv & Hvs & Hvt).
  { unfold ConsumeTOTP in *. rewrite Hu, Hstep in *. destruct (negb _ || _); [done|].
    destruct (step <=? _); [done|].
    pose proof (save_store_users (put_user x (set_TOTPLastStep step u) s)) as Hs.
    destruct (save_store _) as [[] s1]; [|done]. simpl in *. rewrite Hs, lookup_insert_eq. eauto. }
  assert (Forall (fun o => deletes x o = false) ops) as Hd by (eapply Forall_impl; [done|by intros ? []]).
  destruct (run_evolves U pws B Hb ops _ x v Hv Hd) as (w & Hw & He).
  destruct (ev_totp _ _ _ _ _ He) as (Hl & Hsec & _).
  { clear -Hops. induction Hops as [|o ops [_ Ho] _ IH]; simpl; [done|by rewrite Ho]. }
  assert (users s' !! x = Some w) as Hsw by done.
  unfold ConsumeTOTP. rewrite Hsw, Hsec, Hvt, Hstep'. destruct (_ || _); [done|].
  rewrite (proj2 (Z.leb_le _ _)); [done|lia].
Qed.

Lemma take_code_In U code codes rest :
  take_code U code codes = Some rest -> map (ToLower U) codes ≡ₚ code :: map (ToLower U) rest.
Proof.
  revert rest. induction codes as [|bc codes IH]; intros rest; simpl; [done|].
  destruct (String.eqb_spec (ToLower U bc) code) as [->|]; [by intros [= ->]|].
  destruct (take_code U code codes) as [r|]; simpl; [|done]. intros [= <-]. simpl.
  rewrite (IH r eq_refl). apply Permutation_swap.
Qed.

Lemma take_code_None U code codes :
  code ∉ map (ToLower U) codes -> take_code U code codes = None.
Proof.
  induction codes as [|bc codes IH]; simpl; [done|]. intros [Hne Hn]%not_elem_of_cons.
  rewrite (proj2 (String.eqb_neq _ _)) by done. by rewrite IH.
Qed.

(** A backup code is spent when it is used: with distinct codes enrolled,
    a code that was accepted is refused ever after, in any spelling, until
    the second factor is enrolled anew. *)
Theorem backup_code_single_use U pws B {W} `{Persist users_doc W}
    (s : Store (W := W)) x u code ops code' :
  (forall salt pw hash, generate B salt pw = Some hash -> hash <> "") ->
  users s !! x = Some u -> NoDup (map (ToLower U) (TOTPBackupCodes u)) ->
  (ConsumeBackupCode U x code s).1 = Ok true ->
  Forall (fun o => deletes x o = false /\ resets_totp x o = false) ops ->
  trim_space (ToLower U code') = trim_space (ToLower U code) ->
  let s' := run (user_step U pws B) (OConsumeBackupCode x code :: ops) s in
  ConsumeBackupCode U x code' s' = (Ok false, s').
Proof.
  intros Hb Hu Hnd Hok Hops Hcode s'.
  assert (exists v, users (ConsumeBackupCode U x code s).2 !! x = Some v /\
            trim_space (ToLower U code) ∉ map (ToLower U) (TOTPBackupCodes v)) as (v & Hv & Hnot).
  { unfold ConsumeBackupCode in *. rewrite Hu in *. destruct (take_code _ _ _) as [rest|] eqn:Et; [|done].
    simpl. rewrite save_store_users. simpl. rewrite lookup_insert_eq. eexists. split; [done|]. simpl.
    rewrite (take_code_In _ _ _ _ Et) in Hnd. by apply NoDup_cons in Hnd as [? _]. }
  assert (Forall (fun o => deletes x o = false) ops) as Hd by (eapply Forall_impl; [done|by intros ? []]).
  destruct (run_evolves U pws B Hb ops _ x v Hv Hd) as (w & Hw & He).
  destruct (ev_totp _ _ _ _ _ He) as (_ & _ & Hsub).
  { clear -Hops. induction Hops as [|o ops [_ Ho] _ IH]; simpl; [done|by rewrite Ho]. }
  assert (users s' !! x = Some w) as Hsw by done.
  unfold ConsumeBackupCode. rewrite Hsw, Hcode, take_code_None; [done|].
  intros Hin. apply Hnot. apply list_elem_of_fmap in Hin as (y & -> & Hy).
  apply list_elem_of_fmap_2. by eapply elem_of_sublist.
Qed.

(** ** The seed administrator *)

Definition admin_present {W} (s : Store (W := W)) : Prop :=
  exists u, users s !! "admin" = Some u /\ Active u = true.

(** The seed account cannot be lost: no sequence of operations deletes or
    deactivates "admin". *)
Theorem seed_admin_kept U pws B {W} `{Persist users_doc W} (s : Store (W := W)) ops :
  (forall salt pw hash, generate B salt pw = Some hash -> hash <> "") ->
  admin_present s -> admin_present (run (user_step U pws B) ops s).
Proof.
  intros Hb. apply run_invariant. intros o s' (u & Hu & Ha).
  pose proof (user_step_effect U pws B Hb o s') as He.
  destruct (deletes "admin" o) eqn:Hd.
  - inversion He as [Hm|y w v Hw Hev Hm|y v Hn Hvu Hun Hh Hact Hz Hm|y w Hw Hna Hdel Hm];
      try (eexists; split; [|done]; rewrite <- ?Hm; done).
    all: destruct o; try done; simpl in *.
    all: apply String.eqb_eq in Hd as ->; simpl; exists u; by split.
  - destruct (step_evolves U pws B Hb o s' "admin" u Hu Hd) as (v & Hv & Hev).
    exists v. split; [done|]. by apply (ev_admin _ _ _ _ _ Hev).
Qed.

(** ** Well-formed stores and the round trip through users.json *)

Definition wf_users (m : gmap string User) : Prop :=
  map_Forall (fun x u => Username u = x /\ PasswordHash u <> "") m.

Lemma effect_wf o (m m' : gmap string User) :
  effect o m m' -> wf_users m -> wf_users m'.
Proof.
  intros [|x u v Hu He|x v Hn Hv HN Hh Ha Hz|x u Hu Hne Hd] Hwf.
  - done.
  - destruct (Hwf _ _ Hu) as [HN Hh]. apply map_Forall_insert_2; [|done]. split.
    + rewrite (ev_name _ _ _ _ _ He). done.
    + by apply (ev_hash _ _ _ _ _ He).
  - apply map_Forall_insert_2; [|done]. by split.
  - by apply map_Forall_delete.
Qed.

(** Loading hashed records in any order rebuilds the map they came from. *)
Lemma load_records_all B rnd wok i recs {W} (s : Store (W := W)) nm :
  Forall (fun u => PasswordHash u <> "") recs ->
  load_records B rnd wok i recs s nm =
    (Ok nm, MkStore (foldl (fun m u => <[Username u := u]> m) (users s) recs)
              (dataDir s) (secret_files s) (disk s)).
Proof.
  intros Hr. revert s. induction Hr as [|u recs Hu _ IH]; intros s; simpl; [by destruct s|].
  rewrite (proj2 (String.eqb_neq _ _) Hu). simpl. by rewrite IH.
Qed.

Lemma fold_insert_to_list (m : gmap string User) (l : list (string * User)) (acc : gmap string User) :
  wf_users m -> (forall x u, (x, u) ∈ l -> m !! x = Some u) -> NoDup (l.*1) ->
  (forall x, x ∈ l.*1 -> acc !! x = None) ->
  forall x, foldl (fun a u => <[Username u := u]> a) acc (map snd l) !! x =
    match acc !! x with Some u => Some u | None => if decide (x ∈ l.*1) then m !! x else None end.
Proof.
  intros Hwf. revert acc. induction l as [|[y u] l IH]; intros acc Hl Hnd Hfresh x; simpl.
  - destruct (acc !! x); [done|]. repeat case_match; (done || set_solver).
  - assert (m !! y = Some u) as Hy by (apply Hl; left). destruct (Hwf _ _ Hy) as [HN _].
    apply NoDup_cons in Hnd as [Hny Hnd]. simpl in *. rewrite HN, IH; [|by intros; apply Hl; right|done|].
    + destruct (decide (x = y)) as [->|Hne].
      * rewrite lookup_insert_eq, (Hfresh y) by left. by rewrite decide_True by left.
      * rewrite lookup_insert_ne by done. destruct (acc !! x); [done|].
        destruct (decide (x ∈ l.*1)); [by rewrite decide_True by by right|].
        rewrite decide_False; [done|]. set_solver.
    + intros z Hz. rewrite lookup_insert_ne by (intros ->; done). apply Hfresh. by right.
Qed.

(** Accounts survive a restart. After any sequence of operations on a
    well-formed store, a successful save leaves a users.json from which a new
    process rebuilds exactly the same accounts, whatever its environment. *)
Theorem users_roundtrip U pws B {W} `{Persist users_doc W} (s s' : Store (W := W)) ops
    env_pw rnd wok seed salt now files :
  (forall salt pw hash, generate B salt pw = Some hash -> hash <> "") ->
  wf_users (users s) ->
  let s1 := run (user_step U pws B) ops s in
  save_store s1 = (true, s') -> users s1 <> ∅ ->
  exists r, NewStore B (dataDir s) files (disk s') env_pw rnd wok seed salt now = Ok r /\
    users r = users s1.
Proof.
  intros Hb Hwf s1 Hsave Hne1.
  assert (wf_users (users s1)) as Hwf1.
  { apply (run_invariant (user_step U pws B) (fun s => wf_users (users s))); [|done].
    intros o s0. eapply effect_wf. by apply user_step_effect. }
  unfold save_store in Hsave. destruct (save _ (disk s1)) as [ok w] eqn:Es.
  injection Hsave as -> <-. apply save_true in Es.
  unfold NewStore, load. simpl. rewrite Es.
  rewrite load_records_all; cycle 1.
  { apply Forall_forall. intros u Hu. apply list_elem_of_fmap in Hu as ([x v] & -> & Hx).
    apply elem_of_map_to_list in Hx. by apply Hwf1 in Hx as [_ ?]. }
  simpl. assert (foldl (fun m u => <[Username u := u]> m) ∅ (map snd (map_to_list (users s1))) = users s1)
    as ->.
  { apply map_eq. intros x.
    rewrite (fold_insert_to_list (users s1)); [|done|by intros ? ? ?%elem_of_map_to_list|
      apply NoDup_fst_map_to_list|by intros; apply lookup_empty].
    rewrite lookup_empty. destruct (decide _) as [|Hn]; [done|].
    destruct (users s1 !! x) as [u|] eqn:Eu; [|done]. exfalso. apply Hn.
    apply list_elem_of_fmap. exists (x, u). split; [done|by apply elem_of_map_to_list]. }
  destruct (Nat.eqb_spec (size (users s1)) 0) as [Hz|Hz].
  - by apply map_size_empty_iff in Hz.
  - simpl. eauto.
Qed.

(** A password change takes effect. When it reports success the old
    password was right, the new one meets the policy, the account logs in with
    the new one (unless it is inactive), every other account is untouched and
    users.json holds the new state. *)
Theorem ChangePassword_effective U pws B {W} `{Persist users_doc W}
    (s s' : Store (W := W)) x old new salt rm :
  (forall salt pw hash, generate B salt pw = Some hash -> compare_hash B hash pw = true) ->
  ChangePassword U pws B x old new salt rm s = (Ok tt, s') ->
  exists u v, users s !! x = Some u /\ compare_hash B (PasswordHash u) old = true /\
    validatePasswordStrength U pws new = Ok tt /\
    users s' = <[x := v]> (users s) /\ MustChangePassword v = false /\
    Validate B x new s' = (if Active u then Some v else None) /\
    stored (disk s') = Some (Whole (map snd (map_to_list (users s')))).
Proof.
  intros Hb. unfold ChangePassword. destruct (users s !! x) as [u|] eqn:Hu; [|done].
  destruct (compare_hash B (PasswordHash u) old) eqn:Ho; [|done]. simpl.
  destruct (validatePasswordStrength U pws new) as [[]|] eqn:Hp; [|done].
  destruct (generate B salt new) as [h|] eqn:Eh; [|done].
  set (v := bump_epoch (set_MustChangePassword false (set_PasswordHash h u))).
  unfold save_store. destruct (save _ _) as [[] w] eqn:Es; [|done]. simpl. intros [= <-].
  exists u, v. apply save_true in Es. unfold Validate.
  rewrite clear_users. simpl. rewrite lookup_insert_eq. split_and!; try done.
  - unfold v. simpl. destruct (Active u); [|done]. simpl. by rewrite (Hb _ _ _ Eh).
  - unfold clearInitialAdminPasswordFilesLocked. by case_match.
Qed.

(** ** Concrete runs *)

Module Demo.

(** A bcrypt that keeps the salt and the password in the clear. *)
Definition clear_bcrypt : bcrypt :=
  MkBcrypt (fun salt pw => Some ("$" +:+ pw)) (fun h pw => String.eqb h ("$" +:+ pw)).

#[global] Instance demo_persist : Persist users_doc (fs users_doc) :=
  fs_persist "/data/users.json" save_users (save_users_atomic _).

Definition account (name pw role : string) : User :=
  MkUser name ("$" +:+ pw) role "" "" true false "" None "" no_quota [] [] [] [] 3
    "GEZDGNBVGY3TQOJQGEZDGNBVGY3TQOJQ" true ["ABCD-2345"; "EFGH-6789"] 0 [].

Definition demo_store (env : list outcome) : Store (W := fs users_doc) :=
  MkStore {["admin" := account "admin" "Root-Pass-2024" "admin"; "bob" := account "bob" "Bob-Pass-2024" "admin"]}
    "/data" ∅ (MkFs ∅ env []).

Definition step := user_step ascii_tables "password" clear_bcrypt (W := fs users_doc).

Definition demote : UpdateUserRequest :=
  MkUpdateReq None (Some "viewer") None None None None None None None None.
Definition rename_mail : UpdateUserRequest :=
  MkUpdateReq None None (Some "bob@example.org") None None None None None None None.

Definition all_removed (fn : string) : bool := true.

Lemma clear_bcrypt_nonempty salt pw hash : generate clear_bcrypt salt pw = Some hash -> hash <> "".
Proof. by intros [= <-]. Qed.

Lemma clear_bcrypt_sound salt pw hash :
  generate clear_bcrypt salt pw = Some hash -> compare_hash clear_bcrypt hash pw = true.
Proof. intros [= <-]. apply String.eqb_refl. Qed.

Definition has_admin (s : Store (W := fs users_doc)) : bool :=
  existsb (fun nu => String.eqb (Role nu.2) "admin" && Active nu.2) (map_to_list (users s)).

(** The last-admin guard only covers the account named "admin": demoting it
    while another administrator exists, then demoting that one, is accepted
    twice and leaves no administrator. *)
Example last_admin_lost :
  let s0 := demo_store [] in
  let r1 := Update ascii_tables "password" clear_bcrypt "admin" demote "salt" all_removed s0 in
  let r2 := Update ascii_tables "password" clear_bcrypt "bob" demote "salt" all_removed r1.2 in
  has_admin s0 = true /\ is_ok r1.1 = true /\ is_ok r2.1 = true /\ has_admin r2.2 = false.
Proof. vm_compute. by split_and!. Qed.

(** An update refused for its role has already replaced the password in
    memory: the account logs in with it. *)
Example refused_update_changes_password :
  let req := MkUpdateReq (Some "Another-Pass-77") (Some "root") None None None None None None None None in
  let r := Update ascii_tables "password" clear_bcrypt "bob" req "salt" all_removed (demo_store []) in
  is_ok r.1 = false /\
  match Validate clear_bcrypt "bob" "Another-Pass-77" r.2 with Some _ => True | None => False end.
Proof. vm_compute. by split. Qed.
End Demo.



Lemma backup_code_single_use_witness :
  let s' := run Demo.step [OConsumeBackupCode "bob" " abcd-2345 "; OMarkLogin "bob" 0] (Demo.demo_store []) in
  ConsumeBackupCode ascii_tables "bob" "ABCD-2345" s' = (Ok false, s').
Proof.
  apply (backup_code_single_use ascii_tables "password" Demo.clear_bcrypt (Demo.demo_store []) "bob"
    (Demo.account "bob" "Bob-Pass-2024" "admin") " abcd-2345 " [OMarkLogin "bob" 0]).
  - apply Demo.clear_bcrypt_nonempty.
  - vm_compute. reflexivity.
  - apply (bool_decide_unpack _). vm_compute. exact I.
  - vm_compute. reflexivity.
  - by repeat constructor.
  - vm_compute. reflexivity.
Defined.

Lemma totp_no_replay_witness :
  let s' := run Demo.step [OConsumeTOTP "bob" "287082" (59 * second); OMarkLogin "bob" 0] (Demo.demo_store []) in
  ConsumeTOTP "bob" "287082" (70 * second) s' = (Ok false, s').
Proof.
  apply (totp_no_replay ascii_tables "password" Demo.clear_bcrypt (Demo.demo_store []) "bob"
    (Demo.account "bob" "Bob-Pass-2024" "admin") "287082" (59 * second) 1 [OMarkLogin "bob" 0] "287082" (70 * second) 1).
  - apply Demo.clear_bcrypt_nonempty.
  - vm_compute. reflexivity.
  - vm_compute. reflexivity.
  - vm_compute. reflexivity.
  - by repeat constructor.
  - vm_compute. reflexivity.
  - vm_compute. discriminate.
Defined.

Lemma seed_admin_kept_witness :
  admin_present (run Demo.step [ODelete "admin" "bob"; OUpdate "admin" Demo.demote "s" Demo.all_removed]
    (Demo.demo_store [FailTorn])).
Proof.
  apply (seed_admin_kept ascii_tables "password" Demo.clear_bcrypt).
  - apply Demo.clear_bcrypt_nonempty.
  - exists (Demo.account "admin" "Root-Pass-2024" "admin"). vm_compute. by split.
Defined.

Lemma users_roundtrip_witness :
  let s1 := run Demo.step [OUpdate "bob" Demo.demote "s" Demo.all_removed] (Demo.demo_store []) in
  exists r, NewStore Demo.clear_bcrypt "/data" ∅ (disk (save_store s1).2) "" (fun _ => None) true None "s" 0 = Ok r /\
    users r = users s1.
Proof.
  intros s1.
  apply (users_roundtrip ascii_tables "password" Demo.clear_bcrypt (Demo.demo_store []) _
    [OUpdate "bob" Demo.demote "s" Demo.all_removed]).
  - apply Demo.clear_bcrypt_nonempty.
  - apply (bool_decide_unpack _). vm_compute. exact I.
  - apply surjective_pairing.
  - intros Hm. apply (f_equal (lookup "bob")) in Hm. vm_compute in Hm. discriminate.
Defined.

Lemma ChangePassword_effective_witness :
  exists u v : User, Validate Demo.clear_bcrypt "bob" "Fresh-Pass-88"
    (ChangePassword ascii_tables "password" Demo.clear_bcrypt "bob" "Bob-Pass-2024" "Fresh-Pass-88" "s"
       Demo.all_removed (Demo.demo_store [])).2 = if Active u then Some v else None.
Proof.
  destruct (ChangePassword_effective ascii_tables "password" Demo.clear_bcrypt (Demo.demo_store [])
    (ChangePassword ascii_tables "password" Demo.clear_bcrypt "bob" "Bob-Pass-2024" "Fresh-Pass-88" "s"
       Demo.all_removed (Demo.demo_store [])).2 "bob" "Bob-Pass-2024" "Fresh-Pass-88" "s" Demo.all_removed)
    as (u & v & _ & _ & _ & _ & _ & Hv & _).
  - apply Demo.clear_bcrypt_sound.
  - vm_compute. reflexivity.
  - exists u, v. exact Hv.
Defined.
