(* ===== verification/Tokens.v ===== *)
(** * Tokens: long-lived API tokens

    Models [tokens/store.go].  A token is known by the SHA-256 of its text;
    the hash (hex) is a parameter, and the base64 text of the random bytes is
    an argument of [Create].  [sort.Slice] by creation time is unstable: the
    order of tokens created at the same instant is unspecified and nothing
    below depends on it. *)

From S2P Require Export GoStrings AtomicFile.
Open Scope Z_scope.

Record Token := MkToken {
  tok_ID : string; tok_Name : string; tok_Prefix : string; tok_Hash : string;
  tok_Username : string; tok_Role : string; tok_SessionEpoch : Z; tok_Scopes : list string;
  tok_CreatedAt : Z; tok_LastUsedAt : Z; tok_ExpiresAt : Z; tok_Revoked : bool
}.
#[export] Instance Token_eq_dec : EqDecision Token.
Proof. solve_decision. Defined.

Definition IsExpired (t : Token) (now : Z) : bool := after now (tok_ExpiresAt t).

Definition newest_first (a b : Token) : Prop := tok_CreatedAt b <= tok_CreatedAt a.
#[export] Instance newest_first_dec : RelDecision newest_first.
Proof. intros a b. unfold newest_first. apply _. Defined.

Definition touch (now : Z) (t : Token) : Token :=
  MkToken (tok_ID t) (tok_Name t) (tok_Prefix t) (tok_Hash t) (tok_Username t) (tok_Role t)
    (tok_SessionEpoch t) (tok_Scopes t) (tok_CreatedAt t) now (tok_ExpiresAt t) (tok_Revoked t).
Definition revoke (t : Token) : Token :=
  MkToken (tok_ID t) (tok_Name t) (tok_Prefix t) (tok_Hash t) (tok_Username t) (tok_Role t)
    (tok_SessionEpoch t) (tok_Scopes t) (tok_CreatedAt t) (tok_LastUsedAt t) (tok_ExpiresAt t) true.
Definition hide_hash (t : Token) : Token :=
  MkToken (tok_ID t) (tok_Name t) (tok_Prefix t) "" (tok_Username t) (tok_Role t)
    (tok_SessionEpoch t) (tok_Scopes t) (tok_CreatedAt t) (tok_LastUsedAt t) (tok_ExpiresAt t)
    (tok_Revoked t).

Section TokenStore.
Context (sha256hex : string -> string).
Context {W : Type} `{Persist (list Token) W}.

(** The tokens by id, and the disk behind [path]. *)
Record TokenStore := MkTokens { toks : gmap string Token; tok_disk : W }.

Definition save_toks (s : TokenStore) : bool * TokenStore :=
  let '(ok, w) := save (merge_sort newest_first (map snd (map_to_list (toks s)))) (tok_disk s) in
  (ok, MkTokens (toks s) w).

(** [New] on the disk [w]; [None] when the file cannot be read back. *)
Definition New (w : W) : option TokenStore :=
  match stored w with
  | None => let '(ok, s) := save_toks (MkTokens ∅ w) in if ok then Some s else None
  | Some Torn => None
  | Some (Whole l) => Some (MkTokens (foldl (fun m t => <[tok_ID t := t]> m) ∅ l) w)
  end.

Definition token_id (hash : string) : string := take_str 16 hash.

Definition Create (name username role : string) (scopes : list string) (ttl sessionEpoch : Z)
    (rnd : option string) (now : Z) (s : TokenStore) : res string (Token * string) * TokenStore :=
  if String.eqb name "" then (Err "name is required", s) else
  let ttl := if ttl <=? 0 then 30 * 24 * hour else ttl in
  match rnd with None => (Err "rand", s) | Some raw =>
  let full := "wvmb_" +:+ raw in
  let hash := sha256hex full in
  let t := MkToken (token_id hash) name (take_str 12 full) hash username role sessionEpoch scopes
             now time_zero (time_add now ttl) false in
  let '(ok, s) := save_toks (MkTokens (<[tok_ID t := t]> (toks s)) (tok_disk s)) in
  if ok then (Ok (t, full), s)
  else (Err "save", MkTokens (delete (tok_ID t) (toks s)) (tok_disk s))
  end.

Definition Validate (plain : string) (now : Z) (s : TokenStore) : res string Token * TokenStore :=
  if negb (has_prefix "wvmb_" plain) then (Err "invalid token", s) else
  let hash := sha256hex plain in
  match toks s !! token_id hash with
  | None => (Err "invalid token", s)
  | Some t =>
      if negb (String.eqb (tok_Hash t) hash) then (Err "invalid token", s)
      else if tok_Revoked t then (Err "token revoked", s)
      else if IsExpired t now then (Err "token expired", s)
      else let t := touch now t in
           (Ok t, (save_toks (MkTokens (<[token_id hash := t]> (toks s)) (tok_disk s))).2)
  end.

Definition List (username : string) (s : TokenStore) : list Token :=
  merge_sort newest_first
    (map hide_hash (List.filter (fun t => String.eqb username "" || String.eqb (tok_Username t) username)
       (map snd (map_to_list (toks s))))).

(** Who may revoke or delete a token. *)
Definition not_the_owner (isCallerAdmin : bool) (username : string) (t : Token) : bool :=
  negb isCallerAdmin && negb (String.eqb username "") && negb (String.eqb (tok_Username t) username).

Definition Revoke (id username : string) (isCallerAdmin : bool) (s : TokenStore)
    : res string unit * TokenStore :=
  match toks s !! id with
  | None => (Err "token not found", s)
  | Some t =>
      if not_the_owner isCallerAdmin username t then (Err "not the owner", s) else
      let '(ok, s) := save_toks (MkTokens (<[id := revoke t]> (toks s)) (tok_disk s)) in
      (if ok then Ok tt else Err "save", s)
  end.

Definition Delete (id username : string) (isCallerAdmin : bool) (s : TokenStore)
    : res string unit * TokenStore :=
  match toks s !! id with
  | None => (Ok tt, s)
  | Some t =>
      if not_the_owner isCallerAdmin username t then (Err "not the owner", s) else
      let '(ok, s) := save_toks (MkTokens (delete id (toks s)) (tok_disk s)) in
      (if ok then Ok tt else Err "save", s)
  end.

Definition PurgeExpired (now : Z) (s : TokenStore) : res string Z * TokenStore :=
  let live := map_delete_if (fun _ t => IsExpired t now) (toks s) in
  let n := Z.of_nat (size (toks s)) - Z.of_nat (size live) in
  if n =? 0 then (Ok 0, s) else
  let '(ok, s) := save_toks (MkTokens live (tok_disk s)) in
  (if ok then Ok n else Err "save", s).

(** ** Lifecycle *)

Inductive token_op :=
| TkCreate (name username role : string) (scopes : list string) (ttl epoch : Z) (rnd : option string) (now : Z)
| TkValidate (plain : string) (now : Z)
| TkRevoke (id username : string) (isCallerAdmin : bool)
| TkDelete (id username : string) (isCallerAdmin : bool)
| TkPurge (now : Z)
| TkRestart.

Definition token_step (o : token_op) (s : TokenStore) : TokenStore :=
  match o with
  | TkCreate n u r sc ttl e rnd now => (Create n u r sc ttl e rnd now s).2
  | TkValidate p now => (Validate p now s).2
  | TkRevoke id u a => (Revoke id u a s).2
  | TkDelete id u a => (Delete id u a s).2
  | TkPurge now => (PurgeExpired now s).2
  | TkRestart => default s (New (tok_disk s))
  end.

(** [o] issues a token with the id of another one: a collision on 64 bits of
    SHA-256. *)
Definition issues_id (id : string) (o : token_op) : Prop :=
  match o with
  | TkCreate _ _ _ _ _ _ (Some raw) _ => token_id (sha256hex ("wvmb_" +:+ raw)) = id
  | _ => False
  end.

(** The token [id] is dead in memory and on disk. *)
Definition dead (id : string) (s : TokenStore) : Prop :=
  (forall t, toks s !! id = Some t -> tok_Revoked t = true) /\
  (forall l, stored (tok_disk s) = Some (Whole l) ->
     Forall (fun t => tok_ID t = id -> tok_Revoked t = true) l).

(** Entries are filed under their own id. *)
Definition wf_toks (s : TokenStore) : Prop :=
  map_Forall (fun i t => tok_ID t = i) (toks s).

Lemma save_toks_mem s : toks (save_toks s).2 = toks s.
Proof. unfold save_toks. by destruct (save _ _). Qed.

Lemma save_toks_dead id s :
  wf_toks s -> (forall t, toks s !! id = Some t -> tok_Revoked t = true) ->
  (forall l, stored (tok_disk s) = Some (Whole l) -> Forall (fun t => tok_ID t = id -> tok_Revoked t = true) l) ->
  dead id (save_toks s).2.
Proof.
  intros Hwf Hm Hd. split; [by rewrite save_toks_mem|].
  unfold save_toks. destruct (save _ _) as [[] w] eqn:Es; simpl.
  - apply save_true in Es. rewrite Es. intros l [= <-]. apply Forall_forall.
    intros t Ht Hid. rewrite merge_sort_Permutation in Ht.
    apply list_elem_of_fmap in Ht as ([i t'] & -> & Hi%elem_of_map_to_list). simpl in *.
    apply (Hm t'). by rewrite <- Hid, (Hwf _ _ Hi).
  - apply save_false in Es. by rewrite Es.
Qed.

Lemma fold_toks_spec l (m : gmap string Token) i t :
  foldl (fun m t => <[tok_ID t := t]> m) m l !! i = Some t -> m !! i = Some t \/ (t ∈ l /\ tok_ID t = i).
Proof.
  revert m. induction l as [|u l IH]; intros m; simpl; [by left|].
  intros [Hm|[Hin Hid]]%IH; [|right; split; [by right|done]].
  destruct (decide (tok_ID u = i)) as [<-|Hne]; [rewrite lookup_insert_eq in Hm|rewrite lookup_insert_ne in Hm by done].
  - injection Hm as <-. right. split; [left|done].
  - by left.
Qed.

(** Saving a map that still has [id] dead. *)
Lemma save_map_dead id m s :
  dead id s -> map_Forall (fun i t => tok_ID t = i) m ->
  (forall t, m !! id = Some t -> tok_Revoked t = true) ->
  wf_toks (save_toks (MkTokens m (tok_disk s))).2 /\ dead id (save_toks (MkTokens m (tok_disk s))).2.
Proof.
  intros [_ Hd] Hwf Hm. split; [unfold wf_toks; by rewrite save_toks_mem|].
  by apply save_toks_dead.
Qed.

Lemma token_step_dead o id s :
  ~ issues_id id o -> wf_toks s -> dead id s -> wf_toks (token_step o s) /\ dead id (token_step o s).
Proof.
  intros Hni Hwf Hdead. pose proof Hdead as [Hm Hd].
  destruct o as [n u r sc ttl e [raw|] now|p now|i u a|i u a|now|]; simpl in *.
  - unfold Create. destruct (String.eqb n ""); [done|].
    match goal with |- context [save_toks ?x] => destruct (save_map_dead id (toks x) s) as [Hw Hx]; [done| | |] end.
    + by apply map_Forall_insert_2.
    + intros t. simpl. rewrite lookup_insert_ne by done. apply Hm.
    + simpl in *. destruct (save_toks _) as [[] s1]; simpl in *; [done|].
      destruct Hx as [Hx1 Hx2]. split; [by apply map_Forall_delete|]. split; [|done].
      intros t. simpl. destruct (decide (token_id (sha256hex ("wvmb_" +:+ raw)) = id)); [done|].
      rewrite lookup_delete_ne by done. apply Hx1.
  - unfold Create. by destruct (String.eqb n "").
  - unfold Validate. destruct (has_prefix _ _); [|done]. cbn [negb].
    destruct (toks s !! token_id _) as [t|] eqn:Et; [|done]. destruct (String.eqb _ _); [|done]. cbn [negb].
    destruct (tok_Revoked t) eqn:Er; [done|]. destruct (IsExpired t now); [done|].
    apply save_map_dead; [done| |].
    + apply map_Forall_insert_2; [apply (Hwf _ _ Et)|done].
    + intros t'. destruct (decide (token_id (sha256hex p) = id)) as [<-|].
      * rewrite (Hm t Et) in Er. done.
      * rewrite lookup_insert_ne by done. apply Hm.
  - unfold Revoke. destruct (toks s !! i) as [t|] eqn:Et; [|done]. case_match; [done|].
    assert (forall m, map_Forall (fun i t => tok_ID t = i) m -> (forall t, m !! id = Some t -> tok_Revoked t = true) ->
      wf_toks (save_toks (MkTokens m (tok_disk s))).2 /\ dead id (save_toks (MkTokens m (tok_disk s))).2)
      as Hs by (intros; by apply save_map_dead).
    specialize (Hs (<[i:=revoke t]> (toks s))). destruct (save_toks _). simpl in *. apply Hs.
    + apply map_Forall_insert_2; [apply (Hwf _ _ Et)|done].
    + intros t'. destruct (decide (i = id)) as [<-|]; [rewrite lookup_insert_eq; by intros [= <-]|].
      rewrite lookup_insert_ne by done. apply Hm.
  - unfold Delete. destruct (toks s !! i) as [t|] eqn:Et; [|done]. case_match; [done|].
    pose proof (save_map_dead id (delete i (toks s)) s) as Hs. destruct (save_toks _). simpl in *.
    apply Hs; [done|by apply map_Forall_delete|]. intros t' [_ Ht]%lookup_delete_Some. by apply Hm.
  - unfold PurgeExpired. destruct (_ =? 0); [done|].
    pose proof (save_map_dead id (map_delete_if (fun _ t => IsExpired t now) (toks s)) s) as Hs.
    destruct (save_toks _) as [ok s1]. simpl in *. apply Hs; [done| |].
    + intros i t Ht. apply (Hwf i). by apply (lookup_weaken _ _ _ _ Ht), map_delete_if_subseteq.
    + intros t Ht. apply Hm. by apply (lookup_weaken _ _ _ _ Ht), map_delete_if_subseteq.
  - unfold New. destruct (stored (tok_disk s)) as [[l|]|] eqn:Es; simpl; [|done|].
    + split.
      * intros i t [Ht|[_ Ht]]%fold_toks_spec; [done|done].
      * split; [|by simpl; rewrite Es]. intros t [Ht|[Hin Hid]]%fold_toks_spec; [done|].
        specialize (Hd l eq_refl). rewrite Forall_forall in Hd. by apply Hd.
    + pose proof (save_map_dead id ∅ s) as Hs. destruct (save_toks _) as [[] s1]; simpl in *; [|done].
      by apply Hs.
Qed.
End TokenStore.

(** Revoking an API token is final. Once [Revoke] has succeeded for a
    token, it never authenticates again: not after any sequence of later
    operations, failed writes and restarts from disk included, unless a new
    token is issued whose id (64 bits of its hash) collides. *)
Theorem revoked_token_dead sha256hex {W} `{Persist (list Token) W}
    (s : TokenStore (W := W)) id username admin ops plain now :
  wf_toks s -> (Revoke id username admin s).1 = Ok tt ->
  Forall (fun o => ~ issues_id sha256hex id o) ops ->
  token_id (sha256hex plain) = id ->
  let s' := run (token_step sha256hex) (TkRevoke id username admin :: ops) s in
  is_ok (Validate sha256hex plain now s').1 = false.
Proof.
  intros Hwf Hok Hops Hid s'.
  assert (wf_toks (Revoke id username admin s).2 /\ dead id (Revoke id username admin s).2) as Hr.
  { unfold Revoke in *. destruct (toks s !! id) as [t|] eqn:Et; [|done]. case_match; [done|].
    unfold save_toks in *. destruct (save _ _) as [[] w] eqn:Es; [|done]. simpl.
    assert (wf_toks (MkTokens (<[id:=revoke t]> (toks s)) w)) as Hw.
    { apply map_Forall_insert_2; [apply (Hwf _ _ Et)|done]. }
    split; [done|]. split; simpl.
    - intros t'. rewrite lookup_insert_eq. by intros [= <-].
    - apply save_true in Es. rewrite Es. intros l [= <-]. apply Forall_forall.
      intros t' Ht Hi. rewrite merge_sort_Permutation in Ht.
      apply list_elem_of_fmap in Ht as ([i t''] & -> & Hin%elem_of_map_to_list). simpl in *.
      pose proof (Hw _ _ Hin) as Hi'. simpl in Hi'. rewrite <- Hi', Hi, lookup_insert_eq in Hin.
      by injection Hin as <-. }
  assert (wf_toks s' /\ dead id s') as [_ [Hd _]].
  { change s' with (run (token_step sha256hex) ops (Revoke id username admin s).2).
    apply (run_invariant_labels (token_step sha256hex) (fun o => ~ issues_id sha256hex id o)
      (fun s => wf_toks s /\ dead id s)); [|done|done].
    intros o s0 Hn [? ?]. by apply token_step_dead. }
  unfold Validate. destruct (has_prefix _ _); [|done]. simpl. rewrite Hid.
  destruct (toks s' !! id) as [t|] eqn:Et; [|done]. rewrite (Hd t eq_refl). by destruct (String.eqb _ _).
Qed.

(** What an API token vouches for. A validation succeeds exactly for a
    stored token with the full hash of the presented text, neither revoked
    nor past its expiry, and returns that token's owner. *)
Theorem Validate_sound sha256hex {W} `{Persist (list Token) W} (s : TokenStore (W := W)) plain now t :
  (Validate sha256hex plain now s).1 = Ok t <->
  has_prefix "wvmb_" plain = true /\
  exists t0, toks s !! token_id (sha256hex plain) = Some t0 /\ t = touch now t0 /\
    tok_Hash t0 = sha256hex plain /\ tok_Revoked t0 = false /\ now <= tok_ExpiresAt t0.
Proof.
  unfold Validate. destruct (has_prefix _ _); simpl; [|naive_solver].
  destruct (toks s !! _) as [t0|]; [|naive_solver].
  destruct (String.eqb_spec (tok_Hash t0) (sha256hex plain)); simpl; [|naive_solver].
  destruct (tok_Revoked t0) eqn:Er; [naive_solver congruence|].
  unfold IsExpired, after. destruct (Z.ltb_spec (tok_ExpiresAt t0) now); simpl.
  - split; [done|]. intros (_ & t1 & [= <-] & _ & _ & _ & ?). lia.
  - split; [intros [= <-]; eauto 10|]. intros (_ & t1 & [= <-] & -> & _). done.
Qed.

Module TokenDemo.
#[global] Instance demo_persist : Persist (list Token) (fs (list Token)) :=
  fs_persist "/data/api-tokens.json" saveJSON (saveJSON_atomic _).

Definition tok : Token := MkToken "wvmb_0123456789a" "ci" "wvmb_0123456" "wvmb_0123456789abcdef" "bob" "operator" 0 [] 0
  time_zero (30 * 24 * hour) false.
Definition store (env : list outcome) : TokenStore (W := fs (list Token)) :=
  MkTokens {["wvmb_0123456789a" := tok]} (MkFs ∅ env []).
End TokenDemo.

Lemma revoked_token_dead_witness :
  let s := run (token_step id) [TkRevoke "wvmb_0123456789a" "bob" false; TkPurge 5; TkRestart] (TokenDemo.store []) in
  is_ok (Validate id "wvmb_0123456789abcdef" 10 s).1 = false.
Proof.
  apply (revoked_token_dead id (TokenDemo.store []) "wvmb_0123456789a" "bob" false [TkPurge 5; TkRestart]).
  - apply (bool_decide_unpack _). vm_compute. exact I.
  - vm_compute. reflexivity.
  - repeat (apply Forall_cons; split; [exact (fun H => H)|]). apply Forall_nil. exact I.
  - vm_compute. reflexivity.
Defined.
