(* ===== verification/Middleware.v ===== *)
(** * Middleware: who a request is

    Models [Manager.Middleware] of [auth/jwt.go] with the path predicates and
    the cookie and CSRF helpers of [auth/cookie.go], token minting, and the
    API-token validator wired in [cmd/server/main.go].  The JWT library is a
    parameter; the API-token store behind the fallback validator is a state
    of abstract type [T]. *)

From S2P Require Export GoStrings Sessions Tickets Blacklist.
Open Scope Z_scope.

(** ** Requests *)

Record HttpRequest := MkHttpRequest {
  method : string;
  path : string;
  hdrs : headers;
  query : string -> string;          (* [r.URL.Query().Get] *)
  cookies : string -> option string  (* [r.Cookie] *)
}.

Definition SessionCookieName : string := "webkvm_session".
Definition CSRFCookieName : string := "webkvm_csrf".

Definition SessionToken (r : HttpRequest) : string := default "" (cookies r SessionCookieName).
Definition CSRFValue (r : HttpRequest) : string := default "" (cookies r CSRFCookieName).

Definition CSRFValid (header cookie : string) : bool :=
  if String.eqb header "" || String.eqb cookie "" then false else String.eqb header cookie.

Definition IsUnsafeMethod (m : string) : bool :=
  String.eqb m "POST" || String.eqb m "PUT" || String.eqb m "PATCH" || String.eqb m "DELETE".

(** ** Paths *)

Fixpoint count_byte (c : ascii) (s : string) : nat :=
  match s with
  | EmptyString => O
  | String d s => ((if Ascii.eqb c d then 1 else 0) + count_byte c s)%nat
  end.

(** [strings.TrimPrefix] *)
Definition trim_prefix (p s : string) : string :=
  if has_prefix p s then drop_str (slen p) s else s.

(** [isVNCConsolePath], [isRDPConsolePath], [isSPICEConsolePath], [isClipboardPath]. *)
Definition vm_path (suffix path : string) : bool :=
  if negb (has_prefix "/api/vms/" path) then false else
  let rest := trim_prefix "/api/vms/" path in
  Nat.ltb 0 (slen rest) && Nat.eqb (count_byte "/" rest) 1 && has_suffix suffix rest.

Definition isVNCConsolePath : string -> bool := vm_path "/vnc".
Definition isRDPConsolePath : string -> bool := vm_path "/rdp".
Definition isSPICEConsolePath : string -> bool := vm_path "/spice".
Definition isClipboardPath : string -> bool := vm_path "/clipboard".

Definition ticketAllowedPath (path : string) : bool :=
  if String.eqb path "/api/host/terminal" then true
  else if String.eqb path "/api/events" then true
  else if has_prefix "/api/vms/" path then
    let rest := trim_prefix "/api/vms/" path in
    has_suffix "/serial" rest && Nat.eqb (count_byte "/" rest) 1
  else false.

(** The VM a VNC ticket is checked against; [None] when the path is not one a
    VNC ticket may open. *)
Definition vncTicketAllowedPath (path : string) : option string :=
  if has_prefix "/console/" path then
    let rest := trim_prefix "/console/" path in
    if negb (String.eqb rest "") && negb (contains_byte "/" rest) then Some rest else None
  else if negb (has_prefix "/api/vms/" path) then None
  else
    let rest := trim_prefix "/api/vms/" path in
    match List.find (fun suffix => has_suffix suffix rest && Nat.eqb (count_byte "/" rest) 1)
            ["/vnc"; "/spice-ws"; "/clipboard"] with
    | Some suffix => Some (trim_suffix suffix rest)
    | None => None
    end.

Definition public_path (path : string) : bool :=
  String.eqb path "/api/auth/login" || String.eqb path "/api/auth/login/2fa" ||
  String.eqb path "/api/auth/webauthn/login/begin" || String.eqb path "/api/auth/webauthn/login/finish" ||
  String.eqb path "/api/health" ||
  String.eqb path "/metrics" || String.eqb path "/api/metrics/prometheus" ||
  String.eqb path "/api/metrics/grafana-dashboard" || String.eqb path "/api/metrics/alert-rules" ||
  String.eqb path "/api/alerts/webhook" ||
  has_prefix "/static/" path || has_prefix "/api/covers/" path ||
  (has_prefix "/api/media/" path && has_suffix "/raw" path) ||
  String.eqb path "/api/branding" || String.eqb path "/api/system/cert".

Definition console_path (path : string) : bool :=
  has_prefix "/console/" path || isVNCConsolePath path || isRDPConsolePath path ||
  isSPICEConsolePath path || has_suffix "/serial" path || String.eqb path "/api/host/terminal".

(** The shell of the single-page application, served without credentials. *)
Definition spa_path (path : string) : bool := negb (console_path path) && negb (has_prefix "/api/" path).

(** ** Tokens *)

Record Claims := MkClaims {
  cl_Username : string; cl_Role : string; cl_MustChangePassword : bool; cl_JTI : string;
  cl_SessionEpoch : Z; cl_ExpiresAt : option Z; cl_IssuedAt : Z; cl_Issuer : string
}.

(** The JWT library: [SignedString] with HS256, and [ParseWithClaims] with the
    key function of the caller (from the token's [alg] to a key). *)
Record jwt_lib := MkJwt {
  SignHS256 : string -> Claims -> option string;
  ParseWithClaims : (string -> option string) -> string -> Z -> option Claims
}.

Record SettingsProvider := MkSettings {
  set_GetDuration : string -> Z;
  set_GetBool : string -> bool
}.

Record Manager := MkManager {
  secret : string;
  blacklist : TokenBlacklist;
  settings : option SettingsProvider
}.

Definition defaultTokenTTL : Z := 24 * hour.

Definition TokenTTL (m : Manager) : Z :=
  match settings m with
  | None => defaultTokenTTL
  | Some st => let d := set_GetDuration st "auth.token_ttl" in
               if 0 <? d then d else defaultTokenTTL
  end.

Definition AllowAPITokens (m : Manager) : bool :=
  match settings m with None => true | Some st => set_GetBool st "auth.allow_api_tokens" end.

(** [TokenValidator]: owner, role and epoch of an API token, with the state of
    the token store. *)
Abbreviation TokenValidator T := (string -> T -> option (string * string * Z) * T).

Section Jwt.
Context (J : jwt_lib) (hashToken : string -> string).

(** [GenerateTokenFull]: the signed token and its expiry in Unix seconds. *)
Definition GenerateTokenFull (m : Manager) (username role jti : string) (mustChange : bool)
    (epoch now : Z) : option (string * Z) :=
  let expiresAt := time_add now (TokenTTL m) in
  signed ← SignHS256 J (secret m)
    (MkClaims username role mustChange jti epoch (Some expiresAt) now "webkvm");
  Some (signed, time_unix expiresAt).

Definition GenerateMFAToken (m : Manager) (username jti : string) (now : Z) : option string :=
  SignHS256 J (secret m)
    (MkClaims username "mfa_pending" false jti 0 (Some (time_add now (5 * minute))) now "webkvm_mfa").

Definition is_hmac (alg : string) : bool :=
  String.eqb alg "HS256" || String.eqb alg "HS384" || String.eqb alg "HS512".

Definition parseAndCheck (m : Manager) (tokenStr : string) (now : Z) : option Claims :=
  ParseWithClaims J (fun alg => if is_hmac alg then Some (secret m) else None) tokenStr now.

Definition ValidateMFAToken (m : Manager) (tokenStr : string) (now : Z) : option string :=
  c ← parseAndCheck m tokenStr now;
  if negb (String.eqb (cl_Role c) "mfa_pending") || negb (String.eqb (cl_Issuer c) "webkvm_mfa")
  then None else Some (cl_Username c).

Definition ValidateToken (m : Manager) (tokenStr : string) (now : Z) : option Claims :=
  c ← parseAndCheck m tokenStr now;
  if IsRevoked hashToken (blacklist m) (cl_JTI c) tokenStr now then None else Some c.

(** [Manager.Revoke]. *)
Definition RevokeToken {W} `{Persist revokedFile W} (m : Manager) (w : W) (tokenStr : string) (now : Z)
    : TokenBlacklist * W :=
  let claims := default (MkClaims "" "" false "" 0 None 0 "") (parseAndCheck m tokenStr now) in
  let exp := match cl_ExpiresAt claims with Some e => e | None => time_add now (1 * hour) end in
  Revoke hashToken (blacklist m) w now (cl_JTI claims) tokenStr exp.

(** ** The middleware *)

Context {T : Type}.

(** The tickets and the state of the API-token store. *)
Record AuthState := MkAuthState {
  tickets : ticketStore;
  vnc_tickets : vncTicketStore;
  api_tokens : T
}.

(** Pass the request on with these headers, or answer with a status. *)
Inductive reply := Next (h : headers) | Stop (status : Z).

(** The token of a request and whether it came from the session cookie. *)
Definition request_token (r : HttpRequest) : string * bool :=
  let auth := header_get (hdrs r) "Authorization" in
  let bearer :=
    if String.eqb auth "" then "" else
    match index_byte " " auth with
    | Some i => if String.eqb (to_lower (take_str i auth)) "bearer" then drop_str (S i) auth else ""
    | None => ""
    end in
  let '(tok, viaCookie) :=
    if String.eqb bearer "" then
      (if negb (String.eqb (SessionToken r) "") then (SessionToken r, true) else ("", false))
    else (bearer, false) in
  (if String.eqb tok "" && console_path (path r) then query r "token" else tok, viaCookie).

Definition csrf_required (r : HttpRequest) (viaCookie : bool) : bool :=
  viaCookie && IsUnsafeMethod (method r) && has_prefix "/api/" (path r)
  && negb (String.eqb (path r) "/api/auth/login").

(** Identity headers the client sent are dropped. *)
Definition strip (h : headers) : headers :=
  delete HeaderTokenEpoch (delete HeaderRole (delete HeaderUser h)).

(** The API-token fallback, when the token is not a valid JWT. *)
Definition api_fallback (m : Manager) (validator : option (TokenValidator T)) (h : headers)
    (tokenStr : string) (st : AuthState) : reply * AuthState :=
  match (if AllowAPITokens m then validator else None) with
  | None => (Stop 401, st)
  | Some v =>
      let '(res, t) := v tokenStr (api_tokens st) in
      let st := MkAuthState (tickets st) (vnc_tickets st) t in
      match res with
      | Some (user, role, epoch) => (Next (identity h user role epoch), st)
      | None => (Stop 401, st)
      end
  end.

Definition Middleware (m : Manager) (validator : option (TokenValidator T)) (r : HttpRequest) (now : Z)
    (st : AuthState) : reply * AuthState :=
  let h := strip (hdrs r) in
  if public_path (path r) then (Next h, st) else
  if negb (String.eqb (query r "ticket") "") then
    if negb (ticketAllowedPath (path r)) then (Stop 403, st) else
    let '(res, tks) := ConsumeTicket (tickets st) now (query r "ticket") in
    let st := MkAuthState tks (vnc_tickets st) (api_tokens st) in
    match res with
    | None => (Stop 401, st)
    | Some (user, role, epoch) =>
        if String.eqb (path r) "/api/host/terminal" && negb (String.eqb role "admin")
        then (Stop 403, st) else (Next (identity h user role epoch), st)
    end
  else if negb (String.eqb (query r "vt") "") then
    match vncTicketAllowedPath (path r) with
    | None => (Stop 403, st)
    | Some vmID =>
        match CheckVNCTicket (vnc_tickets st) now (query r "vt") vmID with
        | None => (Stop 401, st)
        | Some (user, role, epoch) => (Next (identity h user role epoch), st)
        end
    end
  else if spa_path (path r) then (Next h, st)
  else
    let '(tokenStr, viaCookie) := request_token r in
    if String.eqb tokenStr "" then (Stop 401, st) else
    match ValidateToken m tokenStr now with
    | None => api_fallback m validator h tokenStr st
    | Some c =>
        if negb (String.eqb (cl_Issuer c) "webkvm") then (Stop 401, st)
        else if csrf_required r viaCookie
                && negb (CSRFValid (header_get (hdrs r) "X-CSRF-Token") (CSRFValue r))
        then (Stop 403, st)
        else (Next (identity h (cl_Username c) (cl_Role c) (cl_SessionEpoch c)), st)
    end.

(** ** What the middleware guarantees *)

(** The credentials that give a request the identity [(user, role, epoch)]. *)
Inductive credential (m : Manager) (validator : option (TokenValidator T)) (r : HttpRequest) (now : Z)
    (st : AuthState) : string -> string -> Z -> Prop :=
| by_ticket user role epoch :
    query r "ticket" <> "" -> ticketAllowedPath (path r) = true ->
    (ConsumeTicket (tickets st) now (query r "ticket")).1 = Some (user, role, epoch) ->
    (path r = "/api/host/terminal" -> role = "admin") ->
    credential m validator r now st user role epoch
| by_vnc_ticket vmID user role epoch :
    query r "vt" <> "" -> vncTicketAllowedPath (path r) = Some vmID ->
    CheckVNCTicket (vnc_tickets st) now (query r "vt") vmID = Some (user, role, epoch) ->
    credential m validator r now st user role epoch
| by_session c :
    parseAndCheck m (request_token r).1 now = Some c ->
    IsRevoked hashToken (blacklist m) (cl_JTI c) (request_token r).1 now = false ->
    cl_Issuer c = "webkvm" ->
    (csrf_required r (request_token r).2 = true ->
       header_get (hdrs r) "X-CSRF-Token" = CSRFValue r /\ CSRFValue r <> "") ->
    credential m validator r now st (cl_Username c) (cl_Role c) (cl_SessionEpoch c)
| by_api_token v user role epoch :
    validator = Some v -> AllowAPITokens m = true ->
    (v (request_token r).1 (api_tokens st)).1 = Some (user, role, epoch) ->
    credential m validator r now st user role epoch.

Lemma CSRFValid_spec a b : CSRFValid a b = true <-> a = b /\ b <> "".
Proof.
  unfold CSRFValid. destruct (String.eqb_spec a ""), (String.eqb_spec b ""); simpl; rewrite ?String.eqb_eq;
    naive_solver.
Qed.

Lemma api_fallback_identity m validator h tok st h' st' :
  api_fallback m validator h tok st = (Next h', st') ->
  exists v user role epoch, validator = Some v /\ AllowAPITokens m = true /\
    (v tok (api_tokens st)).1 = Some (user, role, epoch) /\ h' = identity h user role epoch.
Proof.
  unfold api_fallback. destruct (AllowAPITokens m); [|done]. destruct validator as [v|]; [|done].
  destruct (v tok (api_tokens st)) as [[[[u ro] ep]|] t] eqn:Ev; [|done].
  intros [= <- <-]. exists v, u, ro, ep. by rewrite Ev.
Qed.

(** What a request that is passed on carries. *)
Lemma Middleware_outcome m validator r now st h st' :
  Middleware m validator r now st = (Next h, st') ->
  (h = strip (hdrs r) /\ (public_path (path r) = true \/ spa_path (path r) = true)) \/
  (public_path (path r) = false /\ exists user role epoch,
     credential m validator r now st user role epoch /\
     h = identity (strip (hdrs r)) user role epoch).
Proof.
  unfold Middleware. destruct (public_path (path r)); [intros [= <- <-]; by left; auto|].
  destruct (String.eqb_spec (query r "ticket") "") as [|Htk]; cbn [negb].
  2:{ destruct (ticketAllowedPath (path r)) eqn:Ha; [|done]. cbn [negb].
      destruct (ConsumeTicket _ now _) as [[[[u ro] ep]|] tks] eqn:Ec; [|done].
      destruct (String.eqb (path r) "/api/host/terminal" && negb (String.eqb ro "admin")) eqn:Ht; [done|].
      intros [= <- <-]. right. split; [done|]. exists u, ro, ep. split; [|done].
      apply by_ticket; [done|done|by rewrite Ec|]. intros Hp. rewrite Hp in Ht. simpl in Ht.
      by apply negb_false_iff, String.eqb_eq in Ht. }
  destruct (String.eqb_spec (query r "vt") "") as [|Hvt]; cbn [negb].
  2:{ destruct (vncTicketAllowedPath (path r)) as [vmID|] eqn:Ha; [|done].
      destruct (CheckVNCTicket _ _ _ _) as [[[u ro] ep]|] eqn:Ec; [|done].
      intros [= <- <-]. right. split; [done|]. exists u, ro, ep. split; [|done].
      by eapply by_vnc_ticket. }
  destruct (spa_path (path r)); [intros [= <- <-]; by left; auto|].
  destruct (request_token r) as [tok via] eqn:Et. destruct (String.eqb tok ""); [done|].
  destruct (ValidateToken m tok now) as [c|] eqn:Ev.
  - unfold ValidateToken in Ev. destruct (parseAndCheck m tok now) as [c'|] eqn:Ep; [|done].
    simpl in Ev. destruct (IsRevoked _ _ _ _ _) eqn:Er; [done|]. injection Ev as ->.
    destruct (String.eqb_spec (cl_Issuer c) "webkvm"); [|done]. cbn [negb].
    destruct (csrf_required r via && negb _) eqn:Hc; [done|].
    intros [= <- <-]. right. split; [done|]. do 3 eexists. split; [|reflexivity].
    apply by_session; rewrite ?Et; [done|done|done|]. simpl. intros Hr. rewrite Hr in Hc. simpl in Hc.
    by apply negb_false_iff, CSRFValid_spec in Hc.
  - intros (v & u & ro & ep & -> & Ha & Hv & ->)%api_fallback_identity. right. split; [done|].
    exists u, ro, ep. split; [|done]. eapply by_api_token; rewrite ?Et; done.
Qed.
Lemma strip_user h : header_get (strip h) HeaderUser = "" /\ header_get (strip h) HeaderRole = "".
Proof.
  unfold header_get, strip. split.
  - do 2 (rewrite lookup_delete_ne by discriminate). by rewrite lookup_delete_eq.
  - rewrite lookup_delete_ne by discriminate. by rewrite lookup_delete_eq.
Qed.

(** C31: the identity of a request is never the client's word. A request the
    middleware passes on either carries no identity at all and is for a
    public path or the application shell, or carries exactly the identity of
    a credential that was checked: a ticket on an endpoint tickets may open,
    a VNC ticket for the VM in the path, an unrevoked session token, with the
    CSRF token echoed when it came in a cookie on a mutating call, or an
    accepted API token.  In particular [X-User] and [X-Role], as the handlers
    read them, are empty or come from that credential. *)
Theorem Middleware_identity m validator r now st h st' :
  Middleware m validator r now st = (Next h, st') ->
  (h = strip (hdrs r) /\ (public_path (path r) = true \/ spa_path (path r) = true) /\
   header_get h HeaderUser = "" /\ header_get h HeaderRole = "") \/
  (public_path (path r) = false /\ exists user role epoch,
     credential m validator r now st user role epoch /\
     h = identity (strip (hdrs r)) user role epoch /\
     header_get h HeaderUser = user /\ header_get h HeaderRole = role).
Proof.
  intros [[-> Hp]|[Hp (user & role & epoch & Hc & ->)]]%Middleware_outcome; [left|right].
  - destruct (strip_user (hdrs r)). done.
  - split; [done|]. exists user, role, epoch. rewrite identity_user, identity_role. done.
Qed.
End Jwt.
