(* ===== verification/Gate.v ===== *)
(** * Gate: the authentication chain as wired in the server

    Composes [Manager.Middleware], [SessionEnforcer] over the account store,
    and [RequireRole], in the order of [api/router.go], with the API-token
    validator of [cmd/server/main.go]. *)

From S2P Require Export Users Middleware Tokens Sessions.
Open Scope Z_scope.

Section Gate.
Context (J : jwt_lib) (hashToken sha256hex : string -> string).
Context {W : Type} {W' : Type} `{Persist (list Token) W'}.

(** The validator passed to [SetTokenValidator]: the role is the account's
    current one, the token's own only when the account is missing. *)
Definition server_validator (us : Store (W := W)) (now : Z) : TokenValidator (TokenStore (W := W')) :=
  fun plain ts =>
    match Tokens.Validate sha256hex plain now ts with
    | (Err _, ts) => (None, ts)
    | (Ok t, ts) =>
        let role := match Get (tok_Username t) us with Ok u => Role u | Err _ => tok_Role t end in
        (Some (tok_Username t, role, tok_SessionEpoch t), ts)
    end.

Definition sessionExcept : list string :=
  ["/api/auth/me"; "/api/auth/logout"; "/api/auth/refresh"; "/api/users/me/password";
   "/api/health"; "/api/system/cert"; "/api/alerts/webhook"].

Definition status_lookup (us : Store (W := W)) : LookupUserSession := fun name =>
  match SessionStatus name us with Ok x => Some x | Err _ => None end.

(** The chain up to a route guarded by [RequireRole allowed]: the headers the
    handler sees, or the refusal. *)
Definition serve (m : Manager) (us : Store (W := W)) (allowed : list string) (r : HttpRequest) (now : Z)
    (st : AuthState (T := TokenStore (W := W'))) : reply * AuthState :=
  match Middleware J hashToken m (Some (server_validator us now)) r now st with
  | (Stop c, st) => (Stop c, st)
  | (Next h, st) =>
      match SessionEnforcer (status_lookup us) sessionExcept (path r) h with
      | Reject c => (Stop c, st)
      | Pass =>
          match RequireRole allowed h with
          | Reject c => (Stop c, st)
          | Pass => (Next h, st)
          end
      end
  end.

(** C1: a handler behind a role check only ever runs for a live account. If a
    request reaches a route guarded by [RequireRole], it presented a checked
    credential, the role of that credential is an allowed one, and (when it
    names an account) that account exists, is active and is still at the
    credential's session epoch; for an API token the role is moreover the
    account's role at that moment. *)
Theorem guarded_route_live m us allowed r now st h st' :
  (forall user role epoch,
     credential J hashToken m (Some (server_validator us now)) r now st user role epoch -> is_int64 epoch) ->
  serve m us allowed r now st = (Next h, st') ->
  exists user role epoch,
    credential J hashToken m (Some (server_validator us now)) r now st user role epoch /\
    h = identity (strip (hdrs r)) user role epoch /\ In role allowed /\ role <> "" /\
    (user <> "" -> exists u, users us !! user = Some u /\ Active u = true /\ SessionEpoch u = epoch /\
       ((server_validator us now (request_token r).1 (api_tokens st)).1 = Some (user, role, epoch) ->
          role = Role u)).
Proof.
  intros Hint. unfold serve.
  destruct (Middleware _ _ _ _ _ _ _) as [[h1|c] st1] eqn:Em; [|done].
  destruct (SessionEnforcer _ _ _ _) eqn:Es; [|done].
  destruct (RequireRole allowed h1) eqn:Er; [|done]. intros [= <- <-].
  apply Middleware_outcome in Em as [[-> _]|[_ (user & role & epoch & Hc & ->)]].
  { unfold RequireRole in Er. by rewrite (proj2 (strip_user _)) in Er. }
  exists user, role, epoch. unfold RequireRole in Er. rewrite identity_role in Er.
  destruct (String.eqb_spec role "") as [|Hr]; [done|].
  destruct (existsb (String.eqb role) allowed) eqn:Ea; [|done].
  split_and!; [done|done| |done|].
  { apply existsb_exists in Ea as (a & Hin & ->%String.eqb_eq). done. }
  intros Hu. apply SessionEnforcer_pass in Es as (must & Hl & _); [|done|by eapply Hint].
  unfold status_lookup, SessionStatus in Hl. destruct (users us !! user) as [u|] eqn:Eu; [|done].
  injection Hl as <- <- Hact. exists u. split_and!; [done|done|done|].
  intros Hv. unfold server_validator in Hv. destruct (Tokens.Validate _ _ _ _) as [[t|] ts]; [|done].
  simpl in Hv. injection Hv as Hn Hrole He. rewrite <- Hrole. unfold Get. by rewrite Hn, Eu.
Qed.
End Gate.

(** ** A concrete chain *)

Module GateDemo.

(** A JWT library that knows one token, signed with the key "k". *)
Definition one_claim : Claims := MkClaims "bob" "admin" false "j1" 3 (Some 1000) 0 "webkvm".
Definition one_token : jwt_lib :=
  MkJwt (fun _ _ => Some "jwt")
    (fun key tok now => match key "HS256" with
       | Some k => if String.eqb k "k" && String.eqb tok "jwt" && (now <? 1000) then Some one_claim else None
       | None => None end).

Definition manager : Manager := MkManager "k" (MkBlacklist "" ∅ false false) None.

Definition post (csrf : string) : HttpRequest :=
  MkHttpRequest "POST" "/api/users" {["X-CSRF-Token" := csrf; "X-User" := "root"; "X-Role" := "admin"]}
    (fun _ => "")
    (fun c => if String.eqb c "webkvm_session" then Some "jwt"
              else if String.eqb c "webkvm_csrf" then Some "s3cret" else None).

Definition bob (role : string) : User :=
  MkUser "bob" "$h" role "" "" true false "" None "" no_quota [] [] [] [] 3 "" false [] 0 [].

#[global] Instance tokens_persist : Persist (list Token) (fs (list Token)) :=
  fs_persist "/data/api-tokens.json" saveJSON (saveJSON_atomic _).

Definition accounts : Store (W := unit) := MkStore {["bob" := bob "admin"]} "/data" ∅ tt.
Definition no_state : AuthState (T := TokenStore (W := fs (list Token))) :=
  MkAuthState ∅ ∅ (MkTokens ∅ (MkFs ∅ [] [])).

(** An API token presented in the session cookie is accepted, and without any
    CSRF token. *)
Example api_token_cookie_needs_no_csrf :
  let v : TokenValidator unit := fun tok t => (if String.eqb tok "wvmb_x" then Some ("bob", "admin", 3) else None, t) in
  let r := MkHttpRequest "POST" "/api/users" ∅ (fun _ => "")
             (fun c => if String.eqb c "webkvm_session" then Some "wvmb_x" else None) in
  (Middleware one_token id manager (Some v) r 5 (MkAuthState ∅ ∅ tt)).1
  = Next (identity (strip ∅) "bob" "admin" 3).
Proof. vm_compute. reflexivity. Qed.
End GateDemo.

Lemma guarded_route_live_witness :
  exists user role epoch,
    (serve GateDemo.one_token id id GateDemo.manager GateDemo.accounts ["admin"] (GateDemo.post "s3cret") 5 GateDemo.no_state).1
      = Next (identity (strip (hdrs (GateDemo.post "s3cret"))) user role epoch) /\ In role ["admin"].
Proof.
  destruct (guarded_route_live GateDemo.one_token id id GateDemo.manager GateDemo.accounts ["admin"]
    (GateDemo.post "s3cret") 5 GateDemo.no_state
    (identity (strip (hdrs (GateDemo.post "s3cret"))) "bob" "admin" 3) GateDemo.no_state)
    as (u & ro & ep & _ & Hh & Hin & _).
  - intros u ro ep Hc. destruct Hc as [? ? ? Hq|? ? ? ? Hq|c Hp|v ? ? ? Hv _ Hval].
    + by destruct Hq.
    + by destruct Hq.
    + vm_compute in Hp. injection Hp as <-. vm_compute. split; discriminate.
    + injection Hv as <-. vm_compute in Hval. discriminate.
  - vm_compute. reflexivity.
  - exists u, ro, ep. split; [|done]. rewrite <- Hh. vm_compute. reflexivity.
Defined.

Lemma Middleware_identity_witness :
  exists user role epoch,
    credential GateDemo.one_token id GateDemo.manager (None : option (TokenValidator unit))
      (GateDemo.post "s3cret") 5 (MkAuthState ∅ ∅ tt) user role epoch.
Proof.
  destruct (Middleware_identity GateDemo.one_token id GateDemo.manager (None : option (TokenValidator unit))
    (GateDemo.post "s3cret") 5 (MkAuthState ∅ ∅ tt)
    (identity (strip (hdrs (GateDemo.post "s3cret"))) "bob" "admin" 3) (MkAuthState ∅ ∅ tt))
    as [(_ & [Hp|Hp] & _)|[_ (u & ro & ep & Hc & _)]].
  - vm_compute. reflexivity.
  - vm_compute in Hp. discriminate.
  - vm_compute in Hp. discriminate.
  - exists u, ro, ep. exact Hc.
Defined.
