(* ===== verification/Acl.v ===== *)
(** * Acl: which machines, pools, networks and files a caller may use

    Models [api/authz.go], [api/tagpolicy.go], [api/networks_acl.go],
    [api/media_scope.go], the access part of [api/pools.go] and
    [ResolveRegular] of [fsutil].  A caller is the user and role the middleware
    put in the headers.  The account store is a lookup, absent when the handler
    has none; the connector is the record of the calls this code makes. *)

From S2P Require Export UserModel GoPath.
Open Scope Z_scope.

(** ** Data *)

Record VMMeta := MkMeta { mt_OwnerID : string; mt_Tags : list string; mt_Groups : list string }.
Record FleetVM := MkFleetVM { fv_ID : string; fv_OwnerID : string; fv_Tags : list string; fv_Groups : list string }.
Record StoragePool := MkPool { sp_Name : string; sp_Path : string; sp_Purpose : string }.
Record VolumeAttachment := MkAttachment { at_VMID : string; at_VMName : string; at_Target : string }.

(** The connector; [None] for an error. *)
Record Compute := MkCompute {
  GetVMMeta : string -> option VMMeta;
  ListStoragePools : option (list StoragePool);
  FindVolumeAttachments : string -> string -> option (list VolumeAttachment)
}.

Record MediaScope := MkScope { Admin : bool; sc_AllowedPools : option (gset string); sc_CanNesting : bool }.

Record Caller := MkCaller { cl_user : string; cl_role : string }.

Section Handler.
(** [h.userStore.Get] and [h.compute]; [None] when not wired. *)
Context (userStore : option (string -> option User)) (compute : option Compute).
(** The file system: symbolic links, and what [os.Lstat] says of a path. *)
Context (EvalSymlinks : string -> option string) (is_regular : string -> option bool).

(** ** Machines *)

Definition ownerOf (vmID : string) : string :=
  match compute with
  | None => ""
  | Some c => match GetVMMeta c vmID with Some m => mt_OwnerID m | None => "" end
  end.

Definition user_of (username : string) : option User :=
  match userStore with Some get => get username | None => None end.

Definition userAllowedTags (username : string) : gset string :=
  match user_of username with Some u => list_to_set (AllowedTags u) | None => ∅ end.
Definition userAllowedGroups (username : string) : gset string :=
  match user_of username with Some u => list_to_set (AllowedGroups u) | None => ∅ end.

Definition any_in (l : list string) (allowed : gset string) : bool :=
  existsb (fun t => bool_decide (t ∈ allowed)) l.

Definition vmHasAny (labels : VMMeta -> list string) (vmID : string) (allowed : gset string) : bool :=
  if Nat.eqb (size allowed) 0 then false else
  match compute with
  | None => false
  | Some c => match GetVMMeta c vmID with Some m => any_in (labels m) allowed | None => false end
  end.

Definition vmHasAnyTag : string -> gset string -> bool := vmHasAny mt_Tags.
Definition vmHasAnyGroup : string -> gset string -> bool := vmHasAny mt_Groups.

Definition userCanAccessTag (username vmID : string) : bool := vmHasAnyTag vmID (userAllowedTags username).
Definition userCanAccessGroup (username vmID : string) : bool := vmHasAnyGroup vmID (userAllowedGroups username).

(** [true]: no error. *)
Definition requireVMAccess (c : Caller) (vmID : string) : bool :=
  if String.eqb (cl_role c) RoleAdmin then true else
  let owner := ownerOf vmID in
  if negb (String.eqb owner "") && String.eqb owner (cl_user c) then true
  else if userCanAccessGroup (cl_user c) vmID then true
  else userCanAccessTag (cl_user c) vmID.

Definition requirePermission (c : Caller) (perm : string) : bool :=
  if String.eqb (cl_role c) RoleAdmin then true else
  match userStore with
  | None => false
  | Some get => match get (cl_user c) with None => false | Some u => HasPermission u perm end
  end.

Definition vm_visible (c : Caller) (groups tags : gset string) (vm : FleetVM) : bool :=
  let owner := if String.eqb (fv_OwnerID vm) "" then ownerOf (fv_ID vm) else fv_OwnerID vm in
  if negb (String.eqb owner "") && String.eqb owner (cl_user c) then true
  else if negb (Nat.eqb (size groups) 0) && any_in (fv_Groups vm) groups then true
  else negb (Nat.eqb (size tags) 0) && any_in (fv_Tags vm) tags.

Definition filterVMsByACL (c : Caller) (vms : list FleetVM) : list FleetVM :=
  if String.eqb (cl_role c) RoleAdmin then vms else
  List.filter (vm_visible c (userAllowedGroups (cl_user c)) (userAllowedTags (cl_user c))) vms.

(** ** Pools and networks *)

(** [None]: every one. *)
Definition allow_set (allowed : User -> list string) (u : option User) : option (gset string) :=
  match u with
  | None => None
  | Some u => if String.eqb (Role u) RoleAdmin || Nat.eqb (length (allowed u)) 0 then None
              else Some (list_to_set (allowed u))
  end.

Definition poolAllowSet : option User -> option (gset string) := allow_set AllowedPools.
Definition networkAllowSet : option User -> option (gset string) := allow_set AllowedNetworks.

Definition in_allow_set (s : option (gset string)) (name : string) : bool :=
  match s with None => true | Some s => bool_decide (name ∈ s) end.

Definition assertPoolAllowed (u : option User) (pool : string) : bool := in_allow_set (poolAllowSet u) pool.
Definition assertNetworkAllowed (u : option User) (net : string) : bool := in_allow_set (networkAllowSet u) net.

Definition poolVisibleTo (c : Caller) (pool : string) : bool :=
  if String.eqb (cl_role c) RoleAdmin || String.eqb (cl_user c) "" then true else
  match userStore with
  | None => true
  | Some get => match get (cl_user c) with None => false | Some u => assertPoolAllowed (Some u) pool end
  end.

Definition mediaScope (c : Caller) : MediaScope :=
  if String.eqb (cl_role c) RoleAdmin then MkScope true None false else
  if String.eqb (cl_user c) "" then MkScope false None false else
  match userStore with
  | None => MkScope false None false
  | Some get =>
      match get (cl_user c) with
      | None => MkScope false (Some ∅) false
      | Some u => MkScope false (poolAllowSet (Some u)) (HasPermission u "nesting")
      end
  end.

(** ** Pool purposes *)

Definition PoolPurposeDisk : string := "disk".
Definition PoolPurposeISO : string := "iso".
Definition PoolPurposeContainer : string := "container".

Definition canonical_purpose (p : string) : string := if String.eqb p "lxc" then PoolPurposeContainer else p.

Definition HasPurpose (purpose nature : string) : bool :=
  let nature := canonical_purpose nature in
  if String.eqb purpose "" then String.eqb nature PoolPurposeDisk
  else existsb (fun p => String.eqb (canonical_purpose (trim_space p)) nature) (split_byte "," purpose).

Definition pools : option (list StoragePool) :=
  match compute with None => None | Some c => ListStoragePools c end.

Definition lookupPoolPurpose (name : string) : option string :=
  match pools with
  | None => None
  | Some l => sp_Purpose <$> List.find (fun p => String.eqb (sp_Name p) name) l
  end.

Definition assertPoolPurpose (pool want : string) : bool :=
  if String.eqb pool "" then true else
  match lookupPoolPurpose pool with None => false | Some p => HasPurpose p want end.

Definition assertPoolPurposeAny (pool : string) (want : list string) : bool :=
  if String.eqb pool "" || Nat.eqb (length want) 0 then true else
  match lookupPoolPurpose pool with None => false | Some p => existsb (HasPurpose p) want end.

(** ** Paths in pools *)

(** [if real, err := EvalSymlinks(p); err == nil { p = real }], cleaned. *)
Definition real_or (p : string) : string := match EvalSymlinks p with Some r => Clean r | None => p end.

(** The directory of a pool as [validateDiskSourcePath] resolves it. *)
Definition pool_base (p : StoragePool) : string :=
  Clean (match EvalSymlinks (sp_Path p) with Some r => r | None => sp_Path p end).

(** [filepath.Abs]; the callers pass absolute paths, others depend on the
    working directory [cwd]. *)
Definition Abs (cwd p : string) : string := if IsAbs p then Clean p else Join [cwd; p].

(** Is [resolved] strictly below the directory of the pool? *)
Definition below (base resolved : string) : option string :=
  match Rel base resolved with
  | Some rel => if inside_rel rel then Some rel else None
  | None => None
  end.

Definition validateDiskSourcePath (path : string) : option string :=
  if String.eqb path "" then Some "" else
  match compute with None => None | Some _ =>
  let cleanPath := Clean path in
  if negb (IsAbs cleanPath) || contains_str ".." cleanPath || contains_str ".." path then None else
  let resolved := real_or cleanPath in
  match pools with
  | None => None
  | Some l =>
      (fix go l := match l with
       | [] => None
       | p :: l =>
           if String.eqb (sp_Path p) "" then go l else
           let base := pool_base p in
           if String.eqb resolved base then go l else
           match below base resolved with
           | Some rel => Some (Join [base; rel])
           | None => go l
           end
       end) l
  end end.

Definition poolNameOfPath (cwd path : string) : option string :=
  let resolved := match EvalSymlinks (Abs cwd path) with Some r => r | None => Abs cwd path end in
  match pools with
  | None => None
  | Some l =>
      sp_Name <$> List.find (fun p =>
        negb (String.eqb (sp_Path p) "") &&
        match below (real_or (Clean (sp_Path p))) resolved with Some _ => true | None => false end) l
  end.

(** [fsutil.ResolveRegular]. *)
Definition ResolveRegular (p : string) : option string :=
  let clean := Clean p in
  if negb (IsAbs clean) || contains_str ".." clean || contains_str ".." p then None else
  match EvalSymlinks clean with
  | None => None
  | Some real =>
      let cleanReal := Clean real in
      if negb (IsAbs cleanReal) || contains_str ".." cleanReal then None else
      match is_regular cleanReal with Some true => Some cleanReal | _ => None end
  end.

Definition validateDiskSourceForCaller (cwd : string) (c : Caller) (path : string) : bool :=
  if String.eqb path "" then true else
  match validateDiskSourcePath path with
  | None => false
  | Some safePath =>
      match ResolveRegular safePath with
      | None => false
      | Some _ =>
          if String.eqb (cl_role c) RoleAdmin then true else
          match poolNameOfPath cwd safePath with
          | None => false
          | Some pool => poolVisibleTo c pool
          end
      end
  end.

Definition resolveVolumeFromSource (cwd path : string) : option (string * string) :=
  if String.eqb path "" then None else
  let resolved := Clean (match EvalSymlinks (Abs cwd path) with Some r => r | None => Abs cwd path end) in
  match pools with
  | None => None
  | Some l =>
      (fix go l := match l with
       | [] => None
       | p :: l =>
           match Rel (real_or (Clean (sp_Path p))) resolved with
           | Some rel => if String.eqb rel ".." || has_prefix "../" rel || contains_byte "/" rel then go l
                         else Some (sp_Name p, rel)
           | None => go l
           end
       end) l
  end.

(** The machine a disk image is already attached to; [None] when it is free. *)
Definition checkSourceNotAttachedElsewhere (cwd vmID source : string) : option VolumeAttachment :=
  match resolveVolumeFromSource cwd source, compute with
  | Some (pool, vol), Some c =>
      match FindVolumeAttachments c pool vol with
      | None => None
      | Some atts => List.find (fun a => negb (String.eqb (at_VMID a) vmID)) atts
      end
  | _, _ => None
  end.

Definition sharedFolderDenylist : list string := ["/"; "/etc"; "/root"; "/boot"; "/sys"; "/proc"; "/dev"].

Definition validateSharedFolderPath (cwd path : string) : bool :=
  if String.eqb path "" then false else
  let resolved := Clean (match EvalSymlinks (Abs cwd path) with Some r => r | None => Abs cwd path end) in
  if existsb (String.eqb resolved) sharedFolderDenylist then false else
  match pools with
  | None => false
  | Some l =>
      existsb (fun p =>
        negb (String.eqb (sp_Path p) "") &&
        let base := pool_base p in
        negb (String.eqb resolved base) &&
        match Rel base resolved with
        | Some rel => negb (String.eqb rel "..") && negb (has_prefix "../" rel)
        | None => false
        end) l
  end.
End Handler.

(** ** The list and the item agree *)

Section AclFacts.
Context (userStore : option (string -> option User)) (compute : option Compute).

(** The fleet listing carries the metadata the connector reports. *)
Definition meta_agrees (vm : FleetVM) : Prop :=
  exists c m, compute = Some c /\ GetVMMeta c (fv_ID vm) = Some m /\
    mt_OwnerID m = fv_OwnerID vm /\ mt_Tags m = fv_Tags vm /\ mt_Groups m = fv_Groups vm.

Lemma any_in_nil (l : list string) : any_in l ∅ = false.
Proof. unfold any_in. induction l; simpl; [done|]. by rewrite bool_decide_eq_false_2. Qed.

Lemma any_in_sized l (s : gset string) : negb (Nat.eqb (size s) 0) && any_in l s = any_in l s.
Proof.
  destruct (Nat.eqb_spec (size s) 0) as [E|E]; [|done]. apply size_empty_inv in E.
  fold_leibniz. subst. by rewrite any_in_nil.
Qed.

Lemma vmHasAny_sized labels vm m (s : gset string) c :
  compute = Some c -> GetVMMeta c vm = Some m -> vmHasAny compute labels vm s = any_in (labels m) s.
Proof.
  intros Hc Hm. unfold vmHasAny. rewrite Hc, Hm. rewrite <- any_in_sized.
  by destruct (Nat.eqb (size s) 0).
Qed.

Lemma any_in_spec l (s : gset string) : any_in l s = true <-> exists t, t ∈ l /\ t ∈ s.
Proof.
  unfold any_in. rewrite existsb_exists. setoid_rewrite bool_decide_eq_true. by setoid_rewrite list_elem_of_In.
Qed.

(** C24: what a caller sees is what a caller may touch.  The fleet list shows a
    machine exactly when the gate of its own routes lets the caller in, for
    every caller and every role. *)
Theorem list_matches_access c vms :
  Forall meta_agrees vms ->
  filterVMsByACL userStore compute c vms
    = List.filter (fun vm => requireVMAccess userStore compute c (fv_ID vm)) vms.
Proof.
  intros Hvms. unfold filterVMsByACL, requireVMAccess.
  destruct (String.eqb (cl_role c) RoleAdmin).
  { clear. induction vms; simpl; congruence. }
  induction Hvms as [|vm vms (cm & m & Hc & Hm & Ho & Ht & Hg) Hvms IH]; [done|].
  simpl. rewrite IH. unfold vm_visible, userCanAccessGroup, userCanAccessTag, vmHasAnyGroup, vmHasAnyTag.
  rewrite !(vmHasAny_sized _ _ m _ cm), !any_in_sized, Ht, Hg by done.
  assert ((if String.eqb (fv_OwnerID vm) "" then ownerOf compute (fv_ID vm) else fv_OwnerID vm)
          = ownerOf compute (fv_ID vm)) as ->.
  { unfold ownerOf. rewrite Hc, Hm, Ho. destruct (String.eqb_spec (fv_OwnerID vm) "") as [->|]; done. }
  done.
Qed.

(** What the gate of one machine means. *)
Lemma requireVMAccess_spec c vmID cm m :
  compute = Some cm -> GetVMMeta cm vmID = Some m ->
  requireVMAccess userStore compute c vmID = true <->
  cl_role c = RoleAdmin \/ (mt_OwnerID m <> "" /\ mt_OwnerID m = cl_user c) \/
  (exists g, g ∈ mt_Groups m /\ g ∈ userAllowedGroups userStore (cl_user c)) \/
  (exists t, t ∈ mt_Tags m /\ t ∈ userAllowedTags userStore (cl_user c)).
Proof.
  intros Hc Hm. unfold requireVMAccess, userCanAccessGroup, userCanAccessTag, vmHasAnyGroup, vmHasAnyTag.
  rewrite !(vmHasAny_sized _ _ m _ cm) by done. unfold ownerOf. rewrite Hc, Hm.
  rewrite <- !any_in_spec.
  destruct (String.eqb_spec (cl_role c) RoleAdmin), (String.eqb_spec (mt_OwnerID m) ""),
    (String.eqb_spec (mt_OwnerID m) (cl_user c)), (any_in (mt_Groups m) _); simpl; naive_solver.
Qed.

(** ** Disk sources *)

Context (EvalSymlinks : string -> option string) (is_regular : string -> option bool).
(** [EvalSymlinks] of an absolute path is a cleaned absolute path. *)
Context (Heval : forall p q, IsAbs p = true -> EvalSymlinks p = Some q -> exists l, Forall comp l /\ q = abs_path l).

Lemma real_or_abs p : IsAbs p = true -> exists l, Forall comp l /\ real_or EvalSymlinks (Clean p) = abs_path l.
Proof.
  intros Hp. unfold real_or. destruct (Clean_is_abs p Hp) as (k & Hk & E).
  destruct (EvalSymlinks (Clean p)) as [q|] eqn:Eq; [|rewrite E; by exists k].
  destruct (Heval (Clean p) q) as (l & Hl & ->); [by rewrite IsAbs_Clean|done|].
  exists l. split; [done|]. by apply Clean_abs.
Qed.

Lemma validateDiskSourcePath_abs path safe :
  match pools compute with Some l => Forall (fun p => IsAbs (sp_Path p) = true) l | None => True end ->
  path <> "" -> validateDiskSourcePath compute EvalSymlinks path = Some safe -> IsAbs safe = true.
Proof.
  intros Hpools Hne. unfold validateDiskSourcePath. rewrite (proj2 (String.eqb_neq _ _) Hne).
  destruct compute; [|done]. destruct (_ || _); [done|]. destruct (pools _) as [l|]; [|done].
  induction Hpools as [|p l Hp Hl IH]; [done|].
  destruct (String.eqb (sp_Path p) ""); [done|].
  destruct (String.eqb _ (pool_base _ p)); [done|].
  destruct (below (pool_base _ p) _) as [rel|]; [|done]. intros [= <-]. apply IsAbs_Join. unfold pool_base.
  rewrite IsAbs_Clean. destruct (EvalSymlinks (sp_Path p)) as [q|] eqn:Eq; [|done].
  destruct (Heval _ _ Hp Eq) as (k & _ & ->). apply IsAbs_abs.
Qed.

(** A restricted user's disks stay in the user's pools.  When a caller who is
    not an administrator and has a pool allowlist gets a disk source accepted,
    the source resolves, symbolic links followed, to a regular file strictly
    inside the real directory of a pool of the allowlist. *)
Theorem disk_source_confined cwd c u path l :
  pools compute = Some l -> Forall (fun p => IsAbs (sp_Path p) = true) l ->
  cl_role c <> RoleAdmin -> cl_user c <> "" -> path <> "" ->
  user_of userStore (cl_user c) = Some u -> Role u <> RoleAdmin -> AllowedPools u <> [] ->
  validateDiskSourceForCaller userStore compute EvalSymlinks is_regular cwd c path = true ->
  exists safe file p base,
    validateDiskSourcePath compute EvalSymlinks path = Some safe /\
    EvalSymlinks (Clean safe) = Some (abs_path file) /\ is_regular (abs_path file) = Some true /\
    p ∈ l /\ sp_Name p ∈ AllowedPools u /\
    real_or EvalSymlinks (Clean (sp_Path p)) = abs_path base /\ base `prefix_of` file /\ base <> file.
Proof.
  intros Hl Habs Hrole Huser Hpath Hu Hur Hap. unfold validateDiskSourceForCaller.
  rewrite (proj2 (String.eqb_neq _ _) Hpath).
  destruct (validateDiskSourcePath _ _ path) as [safe|] eqn:Es; [|done].
  assert (IsAbs safe = true) as Hsafe.
  { eapply validateDiskSourcePath_abs; [|done|exact Es]. by rewrite Hl. }
  unfold ResolveRegular. rewrite IsAbs_Clean, Hsafe. cbn [negb orb].
  destruct (_ || _); [done|].
  destruct (EvalSymlinks (Clean safe)) as [real|] eqn:Er; [|done].
  destruct (Heval (Clean safe) real) as (file & Hfile & ->); [by rewrite IsAbs_Clean|done|].
  rewrite Clean_abs by done. destruct (_ || _); [done|].
  destruct (is_regular (abs_path file)) as [[]|] eqn:Ereg; [|done..].
  rewrite (proj2 (String.eqb_neq _ _) Hrole).
  unfold poolNameOfPath, Abs. rewrite Hsafe, Er, Hl.
  destruct (List.find _ l) as [p|] eqn:Ef; simpl; [|done]. intros Hv.
  apply find_some in Ef as [Hin Hb]. apply andb_prop in Hb as [_ Hb].
  apply list_elem_of_In in Hin. pose proof (proj1 (Forall_forall _ _) Habs p Hin) as Hp. simpl in Hp.
  destruct (real_or_abs (sp_Path p) Hp) as (base & Hbase & Eb). rewrite Eb in Hb.
  exists safe, file, p, base. split_and!; try done.
  - unfold poolVisibleTo in Hv. rewrite (proj2 (String.eqb_neq _ _) Hrole), (proj2 (String.eqb_neq _ _) Huser) in Hv.
    simpl in Hv. unfold user_of in Hu. destruct userStore as [get|]; [|done]. rewrite Hu in Hv.
    unfold assertPoolAllowed, poolAllowSet, allow_set in Hv. rewrite (proj2 (String.eqb_neq _ _) Hur) in Hv.
    destruct (AllowedPools u) as [|a ap] eqn:Ea; [done|]. simpl in Hv. apply bool_decide_eq_true in Hv. set_solver.
  - unfold below in Hb. destruct (Rel _ _) as [rel|] eqn:Erel; [|done].
    destruct (inside_rel rel) eqn:Ei; [|done]. by apply (Rel_inside base file rel Hbase Hfile Erel) in Ei as [? _].
  - unfold below in Hb. destruct (Rel _ _) as [rel|] eqn:Erel; [|done].
    destruct (inside_rel rel) eqn:Ei; [|done]. by apply (Rel_inside base file rel Hbase Hfile Erel) in Ei as [_ ?].
Qed.
End AclFacts.

(** ** Examples *)

Module AclDemo.
Definition bob : User :=
  MkUser "bob" "" RoleOperator "" "" true false "" None "" (MkQuota 0 0 0 0 ∅) ["fast"] [] ["prod"] [] 0 "" false [] 0 [].
Definition accounts : option (string -> option User) :=
  Some (fun n => if String.eqb n "bob" then Some bob else None).
Definition caller : Caller := MkCaller "bob" RoleOperator.
Definition meta (id : string) : option VMMeta :=
  if String.eqb id "v1" then Some (MkMeta "bob" [] [])
  else if String.eqb id "v2" then Some (MkMeta "" ["prod"] [])
  else if String.eqb id "v3" then Some (MkMeta "" ["test"] []) else None.
Definition fleet : list FleetVM :=
  [MkFleetVM "v1" "bob" [] []; MkFleetVM "v2" "" ["prod"] []; MkFleetVM "v3" "" ["test"] []].
Definition two_pools : list StoragePool :=
  [MkPool "fast" "/srv/pools" "disk"; MkPool "slow" "/srv/pools/slow" "disk"].
Definition backend : Compute := MkCompute meta (Some two_pools) (fun _ _ => Some []).
(** A file system without symbolic links. *)
Definition links (p : string) : option string := if IsAbs p then Some (Clean p) else None.
Definition regular (p : string) : option bool := Some true.

Example shown : map fv_ID (filterVMsByACL accounts (Some backend) caller fleet) = ["v1"; "v2"].
Proof. vm_compute. done. Qed.
Example outside : validateDiskSourceForCaller accounts (Some backend) links regular "/" caller "/etc/shadow" = false.
Proof. vm_compute. done. Qed.
(** The file of a pool nested in an allowed one counts as the outer pool's. *)
Example nested_pool :
  validateDiskSourceForCaller accounts (Some backend) links regular "/" caller "/srv/pools/slow/disk.qcow2" = true /\
  poolVisibleTo accounts caller "slow" = false.
Proof. vm_compute. done. Qed.
(** The zero scope, said to be the most restrictive one, allows every pool. *)
Example zero_scope : sc_AllowedPools (mediaScope None caller) = None /\ poolVisibleTo None caller "slow" = true.
Proof. vm_compute. done. Qed.
Example legacy_purpose : HasPurpose "iso, lxc" "container" = true /\ HasPurpose "" "iso" = false.
Proof. vm_compute. done. Qed.
End AclDemo.

Lemma list_matches_access_witness :
  filterVMsByACL AclDemo.accounts (Some AclDemo.backend) AclDemo.caller AclDemo.fleet
    = List.filter (fun vm => requireVMAccess AclDemo.accounts (Some AclDemo.backend) AclDemo.caller (fv_ID vm)) AclDemo.fleet.
Proof.
  apply (list_matches_access AclDemo.accounts (Some AclDemo.backend) AclDemo.caller AclDemo.fleet).
  repeat constructor; eexists; eexists; repeat split.
Defined.

Lemma disk_source_confined_witness :
  exists p base file, p ∈ AclDemo.two_pools /\ sp_Name p ∈ ["fast"] /\
    real_or AclDemo.links (Clean (sp_Path p)) = abs_path base /\ base `prefix_of` file.
Proof.
  destruct (disk_source_confined AclDemo.accounts (Some AclDemo.backend) AclDemo.links AclDemo.regular)
    with (cwd := "/") (c := AclDemo.caller) (u := AclDemo.bob) (path := "/srv/pools/a.qcow2") (l := AclDemo.two_pools)
    as (safe & file & p & base & _ & _ & _ & Hp & Hn & Hb & Hpre & _).
  - intros p q Hp. unfold AclDemo.links. rewrite Hp. intros [= <-]. exact (Clean_is_abs p Hp).
  - reflexivity.
  - repeat constructor.
  - discriminate.
  - discriminate.
  - discriminate.
  - reflexivity.
  - discriminate.
  - discriminate.
  - vm_compute. reflexivity.
  - exists p, base, file. exact (conj Hp (conj Hn (conj Hb Hpre))).
Defined.
