(* ===== verification/Router.v ===== *)
(** * Router: the route table and its guards

    Models the routes of [api/router.go]: the tree of chi routers as the source
    builds it, and the guards a request passes on its way to a handler.  The
    global middleware in front (authentication, rate limit, session gate) is
    modelled in Middleware, RateLimit and Gate; the static files and the browser
    client are left out. *)

From S2P Require Export Sessions Acl.
Open Scope Z_scope.

Inductive http_method := GET | POST | PUT | PATCH | DELETE.
#[export] Instance http_method_eq_dec : EqDecision http_method.
Proof. solve_decision. Defined.

Inductive guard :=
| Role (allowed : list string)
| AtLeast (min : string)
| Ownership
| Capability (perm : string).
#[export] Instance guard_eq_dec : EqDecision guard.
Proof. solve_decision. Defined.

(** The calls on a [chi.Router]: [Use] binds the later siblings, [Group] and
    [Route] open a scope. *)
Inductive entry :=
| Use (g : guard)
| Handle (m : http_method) (path handler : string)
| With (g : guard) (e : entry)
| Group (l : list entry)
| Route (prefix : string) (l : list entry).

(** ** The table *)

Definition routes_top : list entry := [
  Handle GET "/console/{id}" "ConsolePage";
  Group [
    Handle GET "/api/covers/{path}" "ServeCover";
    Handle GET "/api/media/{id}/raw" "GetMediaRaw";
    Handle GET "/api/branding" "GetBranding"];
  Handle GET "/api/health" "Health";
  Handle GET "/metrics" "PrometheusMetrics";
  Handle GET "/api/metrics/prometheus" "PrometheusMetrics";
  Handle GET "/api/metrics/grafana-dashboard" "GrafanaDashboard";
  Handle GET "/api/metrics/alert-rules" "AlertRules";
  Handle POST "/api/alerts/webhook" "AlertmanagerWebhook";
  Handle GET "/api/alerts/active" "ListActiveAlerts";
  Handle GET "/api/alerts/incidents" "ListIncidents";
  With (Role [RoleAdmin]) (Handle DELETE "/api/alerts/incidents/resolved" "ClearResolvedIncidents");
  Handle GET "/api/tags" "ListAllTags";
  Handle GET "/api/events" "EventsSSE";
  Handle POST "/api/events/ticket" "EventsTicket"].

Definition routes_auth : list entry := [
  Route "/api/auth" [
    Handle POST "/login" "Login";
    Handle POST "/login/2fa" "Login2FA";
    Handle POST "/webauthn/login/begin" "WebAuthnLoginBegin";
    Handle POST "/webauthn/login/finish" "WebAuthnLoginFinish";
    Handle POST "/logout" "Logout";
    Handle POST "/refresh" "Refresh";
    Handle GET "/me" "Me";
    Handle POST "/2fa/setup" "Setup2FA";
    Handle POST "/2fa/enable" "Enable2FA";
    Handle POST "/2fa/disable" "Disable2FA";
    Group [
      Use (AtLeast RoleViewer);
      Handle POST "/webauthn/register/begin" "WebAuthnRegisterBegin";
      Handle POST "/webauthn/register/finish" "WebAuthnRegisterFinish";
      Handle GET "/webauthn/credentials" "WebAuthnListCredentials";
      Handle PUT "/webauthn/credentials/{id}" "WebAuthnUpdateCredential";
      Handle DELETE "/webauthn/credentials/{id}" "WebAuthnDeleteCredential"]]].

Definition routes_jobs : list entry := [
  Route "/api/jobs" [
    Use (AtLeast RoleViewer);
    Handle GET "/" "ListJobs";
    Handle GET "/{id}" "GetDownloadJob"]].

Definition routes_users : list entry := [
  Route "/api/users" [
    Group [
      Use (Role [RoleAdmin]);
      Handle GET "/" "ListUsers";
      Handle POST "/" "CreateUser";
      Handle PUT "/{username}" "UpdateUser";
      Handle DELETE "/{username}" "DeleteUser";
      Handle POST "/{username}/revoke-sessions" "RevokeUserSessions";
      Handle GET "/{username}/usage" "GetUserQuotaUsage"];
    Handle PUT "/me/password" "ChangeMyPassword";
    Handle GET "/me/usage" "GetMyQuotaUsage"]].

Definition routes_vm_item : list entry := [
  Use (Ownership);
  Handle GET "/" "GetVM";
  Group [
    Use (AtLeast RoleOperator);
    Handle PATCH "/" "UpdateVM";
    Handle DELETE "/" "DeleteVM";
    Handle POST "/start" "StartVM";
    Handle POST "/shutdown" "ShutdownVM";
    Handle POST "/forceoff" "ForceOffVM";
    Handle POST "/reboot" "RebootVM";
    Handle POST "/suspend" "SuspendVM";
    Handle POST "/resume" "ResumeVM";
    Handle POST "/disks" "CreateDisk";
    Handle PUT "/disks/{dev}" "UpdateDisk";
    Handle DELETE "/disks/{dev}" "DeleteDisk";
    Handle POST "/disks/{dev}/resize" "ResizeDomainDisk";
    Handle POST "/disks/{dev}/bus" "ChangeDiskBus";
    Handle POST "/networks" "CreateNetIface";
    Handle PATCH "/networks/{mac}" "UpdateNetIface";
    Handle DELETE "/networks/{mac}" "DeleteNetIface";
    Handle PUT "/meta" "UpdateVMMeta";
    Handle POST "/cover" "UploadCover";
    Handle DELETE "/cover" "DeleteCover";
    Handle GET "/cloudinit" "GetCloudInitStatus";
    Handle POST "/cloudinit" "ReapplyCloudInit";
    Handle GET "/logs" "GetVMLogs";
    Handle POST "/clone" "CloneVM";
    Handle POST "/batch-clone" "BatchCloneVM";
    Handle POST "/move-storage" "MoveVMStorage";
    Handle POST "/boot" "SetBootDevice";
    Handle POST "/autostart" "SetAutostart";
    Handle POST "/snapshots" "CreateSnapshot";
    Handle DELETE "/snapshots/{sid}" "DeleteSnapshot";
    Handle POST "/snapshots/{sid}/revert" "RevertSnapshot";
    Group [
      Use (Capability "backups");
      Handle GET "/backup/targets" "ListVMBackupTargets";
      Handle POST "/backup" "BackupVMNow";
      Handle GET "/backup/jobs" "ListVMBackupJobs"];
    Handle PUT "/firewall" "SetVMFirewall";
    Handle POST "/make-template" "MakeVMTemplate";
    Handle POST "/unset-template" "UnsetVMTemplate";
    Handle GET "/schedule" "GetVMSchedule";
    Handle PUT "/schedule" "SetVMSchedule";
    With (Capability "control_power") (Handle POST "/power/{action}" "PowerVMNow");
    Handle POST "/reset-password" "ResetVMPassword";
    Handle POST "/guest/fstrim" "VMGuestFSTrim";
    Handle POST "/guest/exec" "VMGuestExec";
    Handle POST "/guest/freeze" "VMGuestFSFreeze";
    Handle GET "/guest/freeze-status" "VMGuestFSFreezeStatus";
    Handle POST "/guest/sync-time" "VMGuestSyncTime";
    With (Capability "export") (Handle GET "/export" "ExportVM")];
  Group [
    Use (Capability "console");
    Handle GET "/graphics" "GetGraphics";
    Handle GET "/vnc" "VNCProxy";
    Handle GET "/spice-ws" "SPICEProxy";
    Handle GET "/serial" "SerialProxy";
    Handle POST "/console-ticket" "VMConsoleTicket";
    Handle POST "/vnc-ticket" "VNCTicket";
    Handle GET "/rdp" "DownloadRDP";
    Handle GET "/spice" "DownloadSPICE";
    Handle POST "/clipboard" "SetClipboard"];
  Group [
    Use (Role [RoleAdmin]);
    Handle POST "/usb" "AttachUSBDevice";
    Handle DELETE "/usb/{vendorId}/{productId}" "DetachUSBDevice"];
  Group [
    Use (Role [RoleAdmin]);
    Handle POST "/pci" "AttachPCIDevice";
    Handle DELETE "/pci/{address}" "DetachPCIDevice"];
  Group [
    Use (Role [RoleAdmin]);
    Handle POST "/shared-folders" "AttachSharedFolder";
    Handle DELETE "/shared-folders/{tag}" "DetachSharedFolder"];
  Handle GET "/firewall" "GetVMFirewall";
  Handle GET "/disks" "ListDisks";
  Handle GET "/disks/{dev}/probe" "ProbeDisk";
  Handle GET "/networks" "ListNetIfaces";
  Handle GET "/vlan-support" "CheckVLANSupport";
  Handle GET "/meta" "GetVMMeta";
  Handle GET "/metrics" "GetVMMetrics";
  Handle GET "/metrics/history" "GetVMMetricsHistory";
  Handle GET "/guest-info" "GetGuestInfo";
  Handle GET "/alerts" "GetVMAlerterRules";
  Group [
    Use (Role [RoleAdmin]);
    Handle PUT "/alerts" "SetVMAlerterRules"];
  Handle GET "/boot" "GetBootDevice";
  Handle GET "/autostart" "GetAutostart";
  Handle GET "/snapshots" "ListSnapshots"].

Definition routes_vms : list entry := [
  Route "/api/vms" [
    Handle GET "/" "ListVMs";
    Handle GET "/snapshots" "ListAllSnapshots";
    Handle GET "/incus-profiles" "ListIncusProfiles";
    Handle GET "/incus-images" "ListIncusImages";
    Group [
      Use (AtLeast RoleOperator);
      Handle POST "/" "CreateVM"];
    Route "/{id}" routes_vm_item;
    Group [
      Use (AtLeast RoleOperator);
      Handle POST "/import" "ImportVM";
      Handle POST "/import-ova" "ImportOVA"]]].

Definition routes_top1 : list entry := [
  Group [
    Use (AtLeast RoleAdmin);
    Handle GET "/api/host/terminal" "HostTerminal";
    Handle POST "/api/host/terminal-ticket" "HostTerminalTicket"]].

Definition routes_templates : list entry := [
  Route "/api/templates" [
    Handle GET "/" "ListTemplates";
    Group [
      Use (AtLeast RoleOperator);
      Handle POST "/{id}/instantiate" "InstantiateTemplate"]]].

Definition routes_appliances : list entry := [
  Route "/api/appliances" [
    Handle GET "/" "ListAppliances";
    Group [
      Use (AtLeast RoleOperator);
      Handle POST "/{id}/deploy" "DeployAppliance";
      Handle GET "/{id}/provision" "GetApplianceProvision"];
    Group [
      Use (Role [RoleAdmin]);
      Handle POST "/" "CreateAppliance";
      Handle PUT "/{id}" "UpdateAppliance";
      Handle DELETE "/{id}" "DeleteAppliance"]]].

Definition routes_helper_scripts : list entry := [
  Route "/api/helper-scripts" [
    Use (Role [RoleAdmin]);
    Handle GET "/" "ListHelperScripts";
    Handle POST "/refresh" "RefreshHelperScripts";
    Handle GET "/{slug}/provision" "GetHelperScriptProvision"]].

Definition routes_images : list entry := [
  Route "/api/images" [
    Handle GET "/containers" "ListContainerImages";
    Handle GET "/cloud-base" "ListBaseCloudImages";
    Handle GET "/isos" "ListISOs";
    Handle GET "/incus-volume" "GetIncusImagesVolume";
    Group [
      Use (AtLeast RoleOperator);
      Handle POST "/containers/pull" "PullContainerImage";
      Handle POST "/cloud-base/pull" "PullBaseCloudImage";
      Handle POST "/isos/download" "DownloadISO"];
    Group [
      Use (Role [RoleAdmin]);
      Handle DELETE "/containers/{fingerprint}" "DeleteContainerImage";
      Handle DELETE "/cloud-base/{id}" "DeleteBaseCloudImage";
      Handle DELETE "/isos/{pool}/{name}" "DeleteISO";
      Handle PUT "/incus-volume" "SetIncusImagesVolume"]]].

Definition routes_media : list entry := [
  Route "/api/media" [
    Handle GET "/" "ListMedia";
    Handle GET "/{id}/raw" "GetMediaRaw";
    Group [
      Use (AtLeast RoleOperator);
      Handle POST "/upload" "UploadMedia";
      Handle DELETE "/{id}" "DeleteMedia";
      Handle POST "/apply-usage" "ApplyMediaUsage"]]].

Definition routes_storage : list entry := [
  Route "/api/storage" [
    Handle GET "/pools" "ListPools";
    Handle GET "/pools/breakdown" "GetStorageBreakdown";
    Handle GET "/volumes" "ListVolumes";
    Handle GET "/isos" "ListISOs";
    Handle GET "/jobs/{id}" "GetDownloadJob";
    Group [
      Use (AtLeast RoleOperator);
      Handle POST "/volumes" "CreateVolume";
      Handle PATCH "/volumes/{pool}/{name}" "ResizeVolume";
      Handle POST "/upload-iso" "UploadISO";
      Handle POST "/upload-iso/raw" "UploadISOByCURL";
      Handle POST "/upload-disk" "UploadDisk";
      Handle POST "/download-iso" "DownloadISO";
      Handle POST "/probe-disk" "ProbeStorageDisk";
      Handle POST "/volumes/{pool}/{name}/move" "MoveVolume"];
    Group [
      Use (Role [RoleAdmin]);
      Handle POST "/pools" "CreatePool";
      Handle PUT "/pools/{name}" "UpdatePool";
      Handle DELETE "/pools/{name}" "DeletePool";
      Handle POST "/browse-remote" "BrowseRemote";
      Handle POST "/browse-local" "BrowseLocal";
      Handle DELETE "/volumes/{pool}/{name}" "DeleteVolume";
      Handle DELETE "/isos/{pool}/{name}" "DeleteISO";
      Handle PATCH "/isos/{pool}/{name}" "RenameISO"]]].

Definition routes_networks : list entry := [
  Route "/api/networks" [
    Handle GET "/" "ListNetworks";
    Handle GET "/{id}/leases" "ListNetworkLeases";
    Group [
      Use (AtLeast RoleOperator);
      Handle POST "/{id}/start" "StartNetwork";
      Handle POST "/{id}/stop" "StopNetwork";
      Handle DELETE "/{id}/leases/{mac}" "ReleaseNetworkLease"];
    Group [
      Use (Role [RoleAdmin]);
      Handle POST "/" "CreateNetwork";
      Handle PUT "/{id}" "UpdateNetwork";
      Handle DELETE "/{id}" "DeleteNetwork"]]].

Definition routes_host : list entry := [
  Route "/api/host" [
    Handle GET "/" "GetHostInfo";
    Handle GET "/stats" "GetHostStats";
    Handle GET "/metrics" "GetHostMetrics";
    Handle GET "/interfaces" "ListHostInterfaces";
    Handle GET "/disks" "ListHostDisks";
    Handle GET "/disks/filesystems" "ListFilesystems";
    Handle GET "/disks/orphan-mounts" "ListOrphanMounts";
    Handle GET "/capabilities" "GetCapabilities";
    Group [
      Use (AtLeast RoleOperator);
      Handle GET "/usb-devices" "ListHostUSBDevices";
      Handle GET "/pci-devices" "ListHostPCIDevices";
      Handle GET "/pci-preflight" "GetHostPCIPreflight"];
    Group [
      Use (Role [RoleAdmin]);
      Handle GET "/zvols" "ListHostZVols";
      Handle POST "/zvols" "CreateHostZVol";
      Handle GET "/zpools" "ListHostZPools";
      Handle POST "/zpools" "CreateHostZPool";
      Handle DELETE "/zpools/{name}" "DestroyHostZPool";
      Handle GET "/raid" "ListHostRAID";
      Handle POST "/raid" "CreateHostRAID";
      Handle POST "/raid/{device}/sync" "SyncHostRAID";
      Handle DELETE "/raid/{device}" "StopHostRAID";
      Handle POST "/disks/wipe" "WipeHostDisk";
      Handle POST "/disks/unmount" "UnmountHostDisk";
      Handle POST "/disks/initialize-directory" "InitHostDiskDirectory";
      Handle GET "/disks/smart" "ProbeHostDiskSMART";
      Handle POST "/disks/selftest" "RunHostDiskSelfTest";
      Handle POST "/zpools/{name}/scrub" "ScrubHostZPool";
      Handle POST "/interfaces/{name}/configure" "ConfigureHostInterface";
      Handle POST "/bonds" "CreateHostBond";
      Handle DELETE "/bonds/{name}" "DeleteHostBond";
      Handle POST "/pci-devices/{address}/bind-vfio" "BindHostPCIDeviceVFIO";
      Handle POST "/pci-devices/{address}/unbind-vfio" "UnbindHostPCIDeviceVFIO";
      Handle GET "/updates" "GetHostUpdates";
      Handle POST "/updates/refresh" "RefreshHostUpdates";
      Handle POST "/updates/upgrade" "UpgradeHostUpdates"]]].

Definition routes_groups : list entry := [
  Route "/api/groups" [
    Handle GET "/" "ListGroups";
    Group [
      Use (Role [RoleAdmin]);
      Handle POST "/" "CreateGroup";
      Handle PUT "/{name}" "UpdateGroup";
      Handle DELETE "/{name}" "DeleteGroup"]]].

Definition routes_system : list entry := [
  Route "/api/system" [
    Handle GET "/cert" "SystemCert";
    Group [
      Use (Role [RoleAdmin]);
      Handle GET "/status" "SystemStatus";
      Handle GET "/logs" "SystemLogs";
      Handle POST "/restart" "SystemRestart";
      Handle POST "/apply-restart" "ApplyRestartSettings";
      Handle POST "/update" "SystemUpdate";
      Handle POST "/backup" "SystemBackup";
      Handle GET "/backups" "SystemListBackups"]]].

Definition routes_audit : list entry := [
  Route "/api/audit" [
    Use (Role [RoleAdmin]);
    Handle GET "/" "ListAudit";
    Handle GET "/export" "ExportAudit"]].

Definition routes_settings : list entry := [
  Route "/api/settings" [
    Use (Role [RoleAdmin]);
    Handle GET "/schema" "GetSettingsSchema";
    Handle GET "/" "GetSettings";
    Handle PUT "/" "SetSettings";
    Handle POST "/reset" "ResetSettings";
    Handle POST "/apply-live" "ApplyLiveSettings";
    Handle GET "/jail" "ListJailedIPs";
    Handle POST "/jail/ban" "ManualBanIP";
    Handle POST "/jail/unban" "UnbanJailedIP";
    Handle GET "/jail/whitelist" "GetJailWhitelist";
    Handle POST "/jail/whitelist" "AddJailWhitelist";
    Handle DELETE "/jail/whitelist" "RemoveJailWhitelist";
    Handle GET "/jail/config" "GetJailConfig";
    Handle PUT "/jail/config" "UpdateJailConfig";
    Handle POST "/jail/custom" "AddCustomJail";
    Handle DELETE "/jail/custom/{id}" "DeleteCustomJail"]].

Definition routes_notify : list entry := [
  Route "/api/notify" [
    Use (Role [RoleAdmin]);
    Handle GET "/config" "GetNotifyConfig";
    Handle GET "/events" "ListNotifyEvents";
    Group [
      Handle PUT "/config" "UpdateNotifyConfig";
      Handle POST "/test" "TestNotify"]]].

Definition routes_cloudinit : list entry := [
  Route "/api/cloudinit" [
    Use (AtLeast RoleViewer);
    Handle GET "/snippets" "ListCloudInitSnippets";
    Handle GET "/snippets/{id}" "GetCloudInitSnippet";
    Handle POST "/preview" "PreviewCloudInit";
    Group [
      Use (AtLeast RoleOperator);
      Handle POST "/snippets" "CreateCloudInitSnippet";
      Handle PUT "/snippets/{id}" "UpdateCloudInitSnippet";
      Handle DELETE "/snippets/{id}" "DeleteCloudInitSnippet"]]].

Definition routes_tokens : list entry := [
  Route "/api/tokens" [
    Handle GET "/" "ListTokens";
    Handle POST "/" "CreateToken";
    Handle DELETE "/{id}" "DeleteToken";
    Handle POST "/{id}/revoke" "RevokeToken"]].

Definition routes_nodes : list entry := [
  Route "/api/nodes" [
    Use (Role [RoleAdmin]);
    Handle GET "/" "ListNodes";
    Handle GET "/summary" "GetClusterSummary";
    Handle POST "/ping-all" "PingAllNodes";
    Handle GET "/{id}" "GetNode";
    Handle POST "/{id}/ping" "PingNode";
    Group [
      Handle POST "/" "CreateNode";
      Handle PUT "/{id}" "UpdateNode";
      Handle DELETE "/{id}" "DeleteNode"]]].

Definition routes_backup_targets : list entry := [
  Route "/api/backup/targets" [
    Use (Role [RoleAdmin]);
    Handle GET "/" "ListBackupTargets";
    Group [
      Handle POST "/" "CreateBackupTarget";
      Handle POST "/test" "TestBackupTarget";
      Handle PUT "/{id}" "UpdateBackupTarget";
      Handle DELETE "/{id}" "DeleteBackupTarget";
      Handle POST "/{id}/run" "BackupNow";
      Handle GET "/{id}/files" "ListBackupsOnTarget";
      Handle DELETE "/{id}/files/{filename}" "DeleteBackupFile";
      Handle DELETE "/{id}/config" "DeleteBackupConfig";
      Handle DELETE "/{id}/runs/{suffix}" "DeleteBackupRun";
      Handle POST "/{id}/restore" "RestoreBackup";
      Handle POST "/{id}/restore-as-vm" "RestoreAsVM";
      Handle GET "/{id}/verify" "VerifyBackup";
      Handle POST "/{id}/reconcile" "ReconcileBackupTarget";
      Handle POST "/{id}/prune" "PruneBackupTarget";
      Handle GET "/{id}/chains" "ListBackupChains";
      Handle DELETE "/{id}/chains/{vmid}" "DeleteBackupChain"];
    Group [
      Use (Role [RoleAdmin]);
      Handle GET "/checkpoints/{vmid}" "ListCheckpoints"]]].

Definition routes_backup_schedules : list entry := [
  Route "/api/backup/schedules" [
    Use (Role [RoleAdmin]);
    Handle GET "/" "ListBackupSchedules";
    Group [
      Handle POST "/" "CreateBackupSchedule";
      Handle PUT "/{id}" "UpdateBackupSchedule";
      Handle DELETE "/{id}" "DeleteBackupSchedule"]]].

Definition routes_top2 : list entry := [
  Group [
    Use (Role [RoleAdmin]);
    Handle GET "/api/backup/jobs" "ListBackupJobs"]].

Definition routes_firewall_host : list entry := [
  Route "/api/firewall/host" [
    Group [
      Use (Role [RoleAdmin]);
      Handle GET "/" "GetHostFirewall";
      Handle POST "/preview" "PreviewHostFirewall";
      Handle POST "/apply" "ApplyHostFirewall";
      Handle POST "/confirm" "ConfirmHostFirewall";
      Handle POST "/rollback" "RollbackHostFirewall";
      Handle GET "/export" "ExportHostFirewall";
      Handle POST "/import" "ImportHostFirewall"]]].

Definition router : list entry :=
  routes_top
  ++ routes_auth
  ++ routes_jobs
  ++ routes_users
  ++ routes_vms
  ++ routes_top1
  ++ routes_templates
  ++ routes_appliances
  ++ routes_helper_scripts
  ++ routes_images
  ++ routes_media
  ++ routes_storage
  ++ routes_networks
  ++ routes_host
  ++ routes_groups
  ++ routes_system
  ++ routes_audit
  ++ routes_settings
  ++ routes_notify
  ++ routes_cloudinit
  ++ routes_tokens
  ++ routes_nodes
  ++ routes_backup_targets
  ++ routes_backup_schedules
  ++ routes_top2
  ++ routes_firewall_host.

(** ** Requests *)

Record route := MkRoute { rt_method : http_method; rt_path : string; rt_handler : string; rt_guards : list guard }.
#[export] Instance route_eq_dec : EqDecision route.
Proof. solve_decision. Defined.

Fixpoint flatten (gs : list guard) (prefix : string) (e : entry) : list guard * list route :=
  let all := fix all gs prefix l :=
    match l with
    | [] => []
    | e :: l => let '(gs, rs) := flatten gs prefix e in rs ++ all gs prefix l
    end in
  match e with
  | Use g => (gs ++ [g], [])
  | Handle m p h => (gs, [MkRoute m (prefix +:+ p) h gs])
  | With g e => (gs, (flatten (gs ++ [g]) prefix e).2)
  | Group l => (gs, all gs prefix l)
  | Route p l => (gs, all gs (prefix +:+ p) l)
  end.

Definition routes : list route := (flatten [] "" (Group router)).2.

(** ** What the guards ask *)

Section Guards.
Context (userStore : option (string -> option User)) (compute : option Compute).

(** [audit.FromRequest]. *)
Definition FromRequest (h : headers) : Caller := MkCaller (header_get h HeaderUser) (header_get h HeaderRole).

Definition requireVMOwnership (h : headers) (id : string) : verdict :=
  if requireVMAccess userStore compute (FromRequest h) id then Pass else Reject 403.

Definition requireCapability (perm : string) (h : headers) : verdict :=
  if requirePermission userStore (FromRequest h) perm then Pass else Reject 403.

(** [id] is the URL parameter of that name. *)
Definition guard_verdict (g : guard) (h : headers) (id : string) : verdict :=
  match g with
  | Role allowed => RequireRole allowed h
  | AtLeast min => RequireAtLeast min h
  | Ownership => requireVMOwnership h id
  | Capability perm => requireCapability perm h
  end.

(** The first guard that rejects answers the request. *)
Fixpoint guards_verdict (gs : list guard) (h : headers) (id : string) : verdict :=
  match gs with
  | [] => Pass
  | g :: gs => match guard_verdict g h id with Pass => guards_verdict gs h id | v => v end
  end.

Definition route_verdict (r : route) : headers -> string -> verdict := guards_verdict (rt_guards r).
End Guards.

(** ** Reading the table *)

Definition role_guard (ok : list string) (g : guard) : bool :=
  match g with
  | Role allowed => forallb (fun x => existsb (String.eqb x) ok) allowed
  | AtLeast min => forallb (fun x => existsb (String.eqb x) ok)
      (if String.eqb min "viewer" then ["viewer"; "operator"; "admin"]
       else if String.eqb min "operator" then ["operator"; "admin"]
       else if String.eqb min "admin" then ["admin"] else [min])
  | _ => false
  end.

Definition only_roles (ok : list string) (r : route) : bool := existsb (role_guard ok) (rt_guards r).
Definition guarded_by (g : guard) (r : route) : bool := existsb (fun g' => bool_decide (g' = g)) (rt_guards r).

Lemma guards_pass us c gs h id g :
  guards_verdict us c gs h id = Pass -> g ∈ gs -> guard_verdict us c g h id = Pass.
Proof.
  induction gs as [|g' gs IH]; simpl; [set_solver|]. intros H [->|Hg]%elem_of_cons.
  - by destruct (guard_verdict us c g' h id).
  - apply IH; [|done]. by destruct (guard_verdict us c g' h id).
Qed.

Lemma RequireRole_pass allowed h : RequireRole allowed h = Pass -> header_get h HeaderRole ∈ allowed.
Proof.
  unfold RequireRole. destruct (String.eqb _ ""); [done|]. destruct (existsb _ _) eqn:E; [|done].
  apply existsb_exists in E as (x & Hx & ->%String.eqb_eq). intros _. by apply list_elem_of_In.
Qed.

Lemma subset_roles ok allowed x :
  forallb (fun x => existsb (String.eqb x) ok) allowed = true -> x ∈ allowed -> x ∈ ok.
Proof.
  intros H Hx. apply list_elem_of_In in Hx. rewrite forallb_forall in H.
  apply H, existsb_exists in Hx as (y & Hy & ->%String.eqb_eq). by apply list_elem_of_In.
Qed.

Lemma only_roles_pass us c ok r h id :
  only_roles ok r = true -> route_verdict us c r h id = Pass -> header_get h HeaderRole ∈ ok.
Proof.
  intros (g & Hin & Hg)%existsb_exists Hv. apply list_elem_of_In in Hin.
  pose proof (guards_pass _ _ _ _ _ _ Hv Hin) as Hp.
  destruct g as [allowed|min| |]; simpl in Hg, Hp; [..|done|done];
    eapply subset_roles; [exact Hg|by apply RequireRole_pass|exact Hg|].
  apply RequireRole_pass in Hp. exact Hp.
Qed.

Lemma guarded_pass us c g r h id :
  guarded_by g r = true -> route_verdict us c r h id = Pass -> guard_verdict us c g h id = Pass.
Proof.
  intros (g' & Hin & ->%bool_decide_eq_true)%existsb_exists Hv. apply list_elem_of_In in Hin.
  by eapply guards_pass.
Qed.

(** A checker that holds of the whole table holds of each route. *)
Lemma routes_all (f : route -> bool) : forallb f routes = true -> forall r, r ∈ routes -> f r = true.
Proof. rewrite forallb_forall. intros H r Hr. by apply H, list_elem_of_In. Qed.

(** The writing routes open to every role: signing in and out, the caller's own
    second factors, password and tokens, event tickets, the webhook, the preview
    of a cloud-init template and the console of one's own machine. *)
Definition open_writes : list (http_method * string) := [
  (POST, "/api/alerts/webhook"); (POST, "/api/events/ticket");
  (POST, "/api/auth/login"); (POST, "/api/auth/login/2fa");
  (POST, "/api/auth/webauthn/login/begin"); (POST, "/api/auth/webauthn/login/finish");
  (POST, "/api/auth/logout"); (POST, "/api/auth/refresh");
  (POST, "/api/auth/2fa/setup"); (POST, "/api/auth/2fa/enable"); (POST, "/api/auth/2fa/disable");
  (POST, "/api/auth/webauthn/register/begin"); (POST, "/api/auth/webauthn/register/finish");
  (PUT, "/api/auth/webauthn/credentials/{id}"); (DELETE, "/api/auth/webauthn/credentials/{id}");
  (PUT, "/api/users/me/password");
  (POST, "/api/vms/{id}/console-ticket"); (POST, "/api/vms/{id}/vnc-ticket"); (POST, "/api/vms/{id}/clipboard");
  (POST, "/api/cloudinit/preview");
  (POST, "/api/tokens/"); (DELETE, "/api/tokens/{id}"); (POST, "/api/tokens/{id}/revoke")].

Definition writes (r : route) : bool :=
  negb (bool_decide (rt_method r = GET)) && negb (bool_decide ((rt_method r, rt_path r) ∈ open_writes)).

(** The areas only an administrator reaches, reading included. *)
Definition admin_areas : list string := [
  "/api/settings"; "/api/audit"; "/api/nodes"; "/api/backup/"; "/api/firewall/"; "/api/notify";
  "/api/helper-scripts"; "/api/host/terminal"].

(** C25: a viewer changes nothing.  Whatever the account store and the connector
    hold, a request that passes the guards of a route with a method other than
    [GET], outside the listed self-service routes, is an operator's or an
    administrator's. *)
Theorem writes_need_operator us c r h id :
  r ∈ routes -> writes r = true -> route_verdict us c r h id = Pass ->
  header_get h HeaderRole ∈ [RoleOperator; RoleAdmin].
Proof.
  intros Hr Hw. apply only_roles_pass.
  pose proof (routes_all (fun r => implb (writes r) (only_roles [RoleOperator; RoleAdmin] r))
    ltac:(by vm_compute) r Hr) as H. simpl in H. by rewrite Hw in H.
Qed.

Definition demo_operator : headers := identity ∅ "olga" RoleOperator 1.
Definition demo_route (p : string) (m : http_method) : route :=
  default (MkRoute GET "" "" []) (List.find (fun r => String.eqb (rt_path r) p && bool_decide (rt_method r = m)) routes).

Lemma writes_need_operator_witness :
  header_get demo_operator HeaderRole ∈ [RoleOperator; RoleAdmin].
Proof.
  apply (writes_need_operator None None (demo_route "/api/storage/volumes" POST) demo_operator "").
  - apply (bool_decide_unpack _). vm_compute. exact I.
  - vm_compute. reflexivity.
  - vm_compute. reflexivity.
Defined.

(** C17: no route of a machine skips its ownership gate.  A request that passes the
    guards of any route below [/api/vms/{id}] comes from an administrator, the
    recorded owner, or a user one of whose groups or tags the machine carries. *)
Theorem vm_routes_owned us c cm m r h id :
  r ∈ routes -> has_prefix "/api/vms/{id}" (rt_path r) = true ->
  c = Some cm -> GetVMMeta cm id = Some m -> route_verdict us c r h id = Pass ->
  let user := header_get h HeaderUser in
  header_get h HeaderRole = RoleAdmin \/ (mt_OwnerID m <> "" /\ mt_OwnerID m = user) \/
  (exists g, g ∈ mt_Groups m /\ g ∈ userAllowedGroups us user) \/
  (exists t, t ∈ mt_Tags m /\ t ∈ userAllowedTags us user).
Proof.
  intros Hr Hp Hc Hm Hv user.
  assert (guarded_by Ownership r = true) as Hg.
  { pose proof (routes_all (fun r => implb (has_prefix "/api/vms/{id}" (rt_path r)) (guarded_by Ownership r))
      ltac:(by vm_compute) r Hr) as H. simpl in H. by rewrite Hp in H. }
  pose proof (guarded_pass _ _ _ _ _ _ Hg Hv) as H. simpl in H. unfold requireVMOwnership in H.
  destruct (requireVMAccess us c (FromRequest h) id) eqn:E; [|done].
  by apply (proj1 (requireVMAccess_spec _ _ (FromRequest h) id cm m Hc Hm)) in E.
Qed.

Definition demo_compute : Compute :=
  MkCompute (fun id => if String.eqb id "vm1" then Some (MkMeta "olga" [] []) else None) None (fun _ _ => None).

Lemma vm_routes_owned_witness :
  header_get demo_operator HeaderRole = RoleAdmin \/ ("olga" <> "" /\ "olga" = header_get demo_operator HeaderUser) \/
  (exists g, g ∈ ([] : list string) /\ g ∈ userAllowedGroups None (header_get demo_operator HeaderUser)) \/
  (exists t, t ∈ ([] : list string) /\ t ∈ userAllowedTags None (header_get demo_operator HeaderUser)).
Proof.
  apply (vm_routes_owned None (Some demo_compute) demo_compute (MkMeta "olga" [] [])
    (demo_route "/api/vms/{id}/start" POST) demo_operator "vm1").
  - apply (bool_decide_unpack _). vm_compute. exact I.
  - vm_compute. reflexivity.
  - reflexivity.
  - reflexivity.
  - vm_compute. reflexivity.
Defined.

(** Settings, audit log, cluster nodes, backup administration, host firewall,
    notifications, helper scripts and the host terminal answer administrators
    only, reads included. *)
Theorem admin_areas_closed us c r h id :
  r ∈ routes -> existsb (fun p => has_prefix p (rt_path r)) admin_areas = true ->
  route_verdict us c r h id = Pass -> header_get h HeaderRole = RoleAdmin.
Proof.
  intros Hr Ha Hv. apply list_elem_of_singleton. revert Hv. apply only_roles_pass.
  pose proof (routes_all (fun r => implb (existsb (fun p => has_prefix p (rt_path r)) admin_areas)
    (only_roles [RoleAdmin] r)) ltac:(by vm_compute) r Hr) as H. cbn beta in H. by rewrite Ha in H.
Qed.

Lemma admin_areas_closed_witness : header_get (identity ∅ "root" RoleAdmin 1) HeaderRole = RoleAdmin.
Proof.
  apply (admin_areas_closed None None (demo_route "/api/settings/" GET) (identity ∅ "root" RoleAdmin 1) "").
  - apply (bool_decide_unpack _). vm_compute. exact I.
  - vm_compute. reflexivity.
  - vm_compute. reflexivity.
Defined.

Module RouterDemo.
(** One method and path is registered twice, [GET /api/media/{id}/raw], by the
    group of public files and by the media routes; both name one handler. *)
Example routes_once :
  List.filter (fun x => Nat.ltb 1 (length (List.filter (fun y => bool_decide (rt_method x = rt_method y /\ rt_path x = rt_path y)) routes))) routes
    = [MkRoute GET "/api/media/{id}/raw" "GetMediaRaw" []; MkRoute GET "/api/media/{id}/raw" "GetMediaRaw" []].
Proof. by vm_compute. Qed.
Example routes_count : length routes = 297%nat. Proof. by vm_compute. Qed.
End RouterDemo.
