(* ===== verification/RateLimit.v ===== *)
(** * RateLimit: the global request limiter

    Models [auth/ratelimit_global.go].  The token bucket is the one of
    golang.org/x/time/rate, outside the repository: a type with the operations
    the code calls, about which only what is documented is assumed.  Rates are
    whole numbers, as the settings are. *)

From S2P Require Export ClientIP Sessions.
Open Scope Z_scope.

(** A bucket of the library; [reserve] answers whether the reservation is
    possible at all and the delay, [cancel] returns its token. *)
Record rate_lib := MkRate {
  limiter : Type;
  new_limiter : Z -> Z -> limiter;
  reserve : Z -> limiter -> bool * Z * limiter;
  cancel : Z -> limiter -> limiter
}.

Record RateLimitSettings := MkRateSettings {
  rs_bool : string -> bool; rs_int : string -> Z; rs_list : string -> list string
}.
Definition as_provider (s : RateLimitSettings) : TrustedCIDRProvider := {| GetList := rs_list s; GetBool := rs_bool s |}.

Definition DefaultRateLimitEnabled : bool := true.
Definition DefaultRateLimitRPS : Z := 50.
Definition DefaultRateLimitBurst : Z := 100.
Definition rateLimitTTL : Z := 15 * minute.

Section Limiter.
Context (L : rate_lib).

Record ipRateBucket := MkBucket { lim : limiter L; last : Z; rps : Z; burst : Z }.
Record GlobalRateLimiter := MkGlobal {
  buckets : gmap string ipRateBucket; trusted : list ipnet; settings : option RateLimitSettings; ttl : Z
}.
Definition set_buckets m (l : GlobalRateLimiter) := MkGlobal m (trusted l) (settings l) (ttl l).
Definition set_settings s (l : GlobalRateLimiter) := MkGlobal (buckets l) (trusted l) s (ttl l).

Definition NewGlobalRateLimiter (s : option RateLimitSettings) (env : string) : GlobalRateLimiter :=
  MkGlobal ∅ (parseTrustedCIDRs env) s rateLimitTTL.

Definition enabled (l : GlobalRateLimiter) : bool :=
  match settings l with Some s => rs_bool s "server.rate_limit_enabled" | None => DefaultRateLimitEnabled end.

Definition positive_or (v d : Z) : Z := if 0 <? v then v else d.
Definition params (l : GlobalRateLimiter) : Z * Z :=
  match settings l with
  | Some s => (positive_or (rs_int s "server.rate_limit_rps") DefaultRateLimitRPS,
               positive_or (rs_int s "server.rate_limit_burst") DefaultRateLimitBurst)
  | None => (DefaultRateLimitRPS, DefaultRateLimitBurst)
  end.

Definition exempt (r : Request) (l : GlobalRateLimiter) : bool :=
  if has_prefix "Bearer " (Header r "Authorization") && negb (String.eqb (Header r HeaderUser) "") then true else
  let '(a, fromHeader) := resolveClient r (trusted l) (as_provider <$> settings l) in
  if fromHeader then false else isTrustedPeer a (trusted l) (as_provider <$> settings l).

Definition bucket_key (a : option ip) : string := match a with Some a => ip_string a | None => "unknown" end.

(** The bucket of an address, rebuilt when the settings changed. *)
Definition limiterFor (a : option ip) (now : Z) (l : GlobalRateLimiter) : limiter L * GlobalRateLimiter :=
  let '(r, b) := params l in
  let fresh := MkBucket (new_limiter L r b) now r b in
  let bk := match buckets l !! bucket_key a with
            | None => fresh
            | Some bk => if negb (rps bk =? r) || negb (burst bk =? b) then fresh
                         else MkBucket (lim bk) now (rps bk) (burst bk)
            end in
  (lim bk, set_buckets (<[bucket_key a := bk]> (buckets l)) l).

(** The limiter is a pointer: what is done to it is seen in the map. *)
Definition store_limiter (a : option ip) (x : limiter L) (l : GlobalRateLimiter) : GlobalRateLimiter :=
  match buckets l !! bucket_key a with
  | Some bk => set_buckets (<[bucket_key a := MkBucket x (last bk) (rps bk) (burst bk)]> (buckets l)) l
  | None => l
  end.

Definition guarded_path (path : string) : bool := has_prefix "/api/" path && negb (String.eqb path "/api/health").

Definition client_of (r : Request) (l : GlobalRateLimiter) : option ip :=
  clientIPOf r (trusted l) (as_provider <$> settings l).

(** [None]: passed on; [Some s]: 429 with [Retry-After: s]. *)
Definition Middleware (r : Request) (now : Z) (l : GlobalRateLimiter) : option Z * GlobalRateLimiter :=
  if negb (enabled l) || negb (guarded_path (UrlPath r)) || exempt r l then (None, l) else
  let a := client_of r l in
  let '(x, l) := limiterFor a now l in
  let '(ok, delay, x) := reserve L now x in
  if negb ok then (None, store_limiter a x l)
  else if 0 <? delay then (Some (Z.quot delay second + 1), store_limiter a (cancel L now x) l)
  else (None, store_limiter a x l).

Definition sweepOnce (now : Z) (l : GlobalRateLimiter) : GlobalRateLimiter :=
  set_buckets (map_delete_if (fun _ bk => before (last bk) (now - ttl l)) (buckets l)) l.

(** ** Facts *)

Inductive rl_op := OpRequest (r : Request) (now : Z) | OpSweep (now : Z).
Definition do_rl (o : rl_op) (l : GlobalRateLimiter) : GlobalRateLimiter :=
  match o with OpRequest r now => (Middleware r now l).2 | OpSweep now => sweepOnce now l end.

Lemma limiterFor_eq a now l :
  exists bk, limiterFor a now l = (lim bk, set_buckets (<[bucket_key a := bk]> (buckets l)) l) /\
    last bk = now /\ (rps bk, burst bk) = params l.
Proof.
  unfold limiterFor. destruct (params l) as [r b] eqn:Ep. destruct (buckets l !! bucket_key a) as [bk|].
  - destruct (Z.eqb_spec (rps bk) r) as [Hr|], (Z.eqb_spec (burst bk) b) as [Hb|]; cbn [negb orb].
    + eexists. split; [reflexivity|]. simpl. by rewrite Hr, Hb.
    + eexists. by split.
    + eexists. by split.
    + eexists. by split.
  - eexists. by split.
Qed.

Lemma store_limiter_ne a x l k : k <> bucket_key a -> buckets (store_limiter a x l) !! k = buckets l !! k.
Proof.
  intros H. unfold store_limiter. destruct (buckets l !! bucket_key a); [|done]. simpl. by rewrite lookup_insert_ne.
Qed.

Lemma store_limiter_eq a x bk l :
  buckets l !! bucket_key a = Some bk ->
  buckets (store_limiter a x l) !! bucket_key a = Some (MkBucket x (last bk) (rps bk) (burst bk)).
Proof. intros H. unfold store_limiter. rewrite H. simpl. by rewrite lookup_insert_eq. Qed.

Lemma Middleware_other r now l k :
  k <> bucket_key (client_of r l) -> buckets (Middleware r now l).2 !! k = buckets l !! k.
Proof.
  intros Hk. unfold Middleware. destruct (_ || _); [done|].
  destruct (limiterFor_eq (client_of r l) now l) as (bk & -> & _).
  destruct (reserve L now (lim bk)) as [[ok delay] x].
  assert (buckets (set_buckets (<[bucket_key (client_of r l) := bk]> (buckets l)) l) !! k = buckets l !! k) as E.
  { simpl. by rewrite lookup_insert_ne. }
  destruct ok; [|by cbn [negb snd]; rewrite store_limiter_ne]. cbn [negb].
  destruct (0 <? delay); cbn [snd]; by rewrite store_limiter_ne.
Qed.

(** Two limiters that a client with bucket [k] cannot tell apart. *)
Definition agree (k : string) (l l' : GlobalRateLimiter) : Prop :=
  buckets l !! k = buckets l' !! k /\ trusted l = trusted l' /\ settings l = settings l' /\ ttl l = ttl l'.

Lemma Middleware_static r now l :
  trusted (Middleware r now l).2 = trusted l /\ settings (Middleware r now l).2 = settings l /\
  ttl (Middleware r now l).2 = ttl l.
Proof.
  unfold Middleware. destruct (_ || _); [done|]. destruct (limiterFor_eq (client_of r l) now l) as (bk & -> & _).
  destruct (reserve L now (lim bk)) as [[ok delay] x].
  assert (forall y m, trusted (store_limiter (client_of r l) y m) = trusted m /\
    settings (store_limiter (client_of r l) y m) = settings m /\ ttl (store_limiter (client_of r l) y m) = ttl m) as H.
  { intros y m. unfold store_limiter. by destruct (buckets m !! _). }
  destruct ok; cbn [negb]; [destruct (0 <? delay)|]; cbn [snd]; exact (H _ (set_buckets _ l)).
Qed.

Lemma params_agree k l l' : agree k l l' -> params l = params l'.
Proof. intros (_ & _ & E & _). unfold params. by rewrite E. Qed.
Lemma client_agree k r l l' : agree k l l' -> client_of r l = client_of r l'.
Proof. intros (_ & E & E' & _). unfold client_of. by rewrite E, E'. Qed.

(** A request of the client is answered alike, and leaves them alike. *)
Lemma Middleware_agree r now l l' :
  agree (bucket_key (client_of r l)) l l' ->
  (Middleware r now l).1 = (Middleware r now l').1 /\
  agree (bucket_key (client_of r l)) (Middleware r now l).2 (Middleware r now l').2.
Proof.
  intros H.
  pose proof (params_agree _ _ _ H) as Hp. pose proof (client_agree _ r _ _ H) as Hc. destruct H as (Hb & Ht & Hs & Hl).
  enough ((Middleware r now l).1 = (Middleware r now l').1 /\
    buckets (Middleware r now l).2 !! bucket_key (client_of r l) = buckets (Middleware r now l').2 !! bucket_key (client_of r l)) as [E1 E2].
  { split; [done|]. destruct (Middleware_static r now l) as (A1 & A2 & A3), (Middleware_static r now l') as (B1 & B2 & B3).
    split_and!; [exact E2|congruence..]. }
  unfold Middleware. rewrite <- Hc.
  assert (negb (enabled l') || negb (guarded_path (UrlPath r)) || exempt r l'
          = negb (enabled l) || negb (guarded_path (UrlPath r)) || exempt r l) as ->.
  { unfold enabled, exempt. by rewrite Ht, Hs. }
  destruct (negb (enabled l) || _ || _); [done|].
  assert ((limiterFor (client_of r l) now l').1 = (limiterFor (client_of r l) now l).1 /\
    buckets (limiterFor (client_of r l) now l').2 !! bucket_key (client_of r l)
      = buckets (limiterFor (client_of r l) now l).2 !! bucket_key (client_of r l)) as [Ex Eb].
  { unfold limiterFor. rewrite <- Hp, <- Hb. destruct (params l). simpl. by rewrite !lookup_insert_eq. }
  destruct (limiterFor_eq (client_of r l) now l) as (bk & E & _), (limiterFor_eq (client_of r l) now l') as (bk' & E' & _).
  rewrite E, E' in *. simpl in Ex, Eb. rewrite !lookup_insert_eq in Eb. injection Eb as ->.
  destruct (reserve L now (lim bk)) as [[ok delay] x].
  assert (forall y m, buckets (store_limiter (client_of r l) y (set_buckets (<[bucket_key (client_of r l) := bk]> (buckets m)) m))
    !! bucket_key (client_of r l) = Some (MkBucket y (last bk) (rps bk) (burst bk))) as Hst.
  { intros y m. apply store_limiter_eq. simpl. by rewrite lookup_insert_eq. }
  destruct ok; cbn [negb]; [destruct (0 <? delay)|]; cbn [fst snd]; by rewrite !Hst.
Qed.

(** Requests of the client, and sweeps. *)
Definition concerns (k : string) (l : GlobalRateLimiter) (o : rl_op) : bool :=
  match o with OpRequest r _ => String.eqb (bucket_key (client_of r l)) k | OpSweep _ => true end.

Lemma do_rl_static o l : trusted (do_rl o l) = trusted l /\ settings (do_rl o l) = settings l /\ ttl (do_rl o l) = ttl l.
Proof. destruct o; [apply Middleware_static|done]. Qed.

Lemma concerns_static k o o' l : concerns k (do_rl o l) o' = concerns k l o'.
Proof.
  destruct o'; [|done]. simpl. unfold client_of. destruct (do_rl_static o l) as (-> & -> & _). done.
Qed.

Lemma run_agree k os : forall l l', agree k l l' ->
  agree k (run do_rl os l) (run do_rl (List.filter (concerns k l) os) l').
Proof.
  induction os as [|o os IH]; intros l l' H; [done|]. cbn [List.filter].
  assert (List.filter (concerns k l) os = List.filter (concerns k (do_rl o l)) os) as ->.
  { apply List.filter_ext. intros o'. by rewrite concerns_static. }
  destruct (concerns k l o) eqn:Ec; cbn [run foldl]; apply IH.
  - destruct o as [r now|now]; simpl in *.
    + apply String.eqb_eq in Ec as <-. by apply Middleware_agree.
    + destruct H as (Hb & Ht & Hs & Hl). split_and!; try done. simpl. rewrite !lookup_map_delete_if. by rewrite Hb, Hl.
  - destruct o as [r now|now]; [|done]. simpl in *. apply String.eqb_neq in Ec. destruct H as (Hb & Ht & Hs & Hl).
    destruct (Middleware_static r now l) as (E1 & E2 & E3).
    split_and!; [by rewrite Middleware_other|congruence..].
Qed.

(** Clients do not use up each other's requests.  After any traffic and any
    sweeps, the answer to a request (passed on, or 429 and the time to wait) is
    the one it would get had the other clients sent nothing. *)
Theorem rate_limit_isolated os r now l :
  (Middleware r now (run do_rl os l)).1
    = (Middleware r now (run do_rl (List.filter (concerns (bucket_key (client_of r l)) l) os) l)).1.
Proof.
  set (k := bucket_key (client_of r l)).
  assert (agree k (run do_rl os l) (run do_rl (List.filter (concerns k l) os) l)) as H by (by apply run_agree).
  assert (client_of r (run do_rl os l) = client_of r l) as Hc.
  { clear. revert l. induction os as [|o os IH]; intros l; [done|]. cbn [run foldl]. etransitivity; [apply IH|].
    unfold client_of. by destruct (do_rl_static o l) as (-> & -> & _). }
  unfold k in H. rewrite <- Hc in H at 1. by destruct (Middleware_agree r now _ _ H) as [-> _].
Qed.

(** Every bucket belongs to a request of the traffic, made when it was last used. *)
Definition accounted (os : list rl_op) (l0 l : GlobalRateLimiter) : Prop :=
  forall k bk, buckets l !! k = Some bk ->
    exists r, OpRequest r (last bk) ∈ os /\ bucket_key (client_of r l0) = k.

Lemma run_accounted os l0 : buckets l0 = ∅ -> accounted os l0 (run do_rl os l0).
Proof.
  intros H0. assert (trusted (run do_rl os l0) = trusted l0 /\ settings (run do_rl os l0) = settings l0 /\ accounted os l0 (run do_rl os l0)) as (_ & _ & H); [|done].
  induction os as [|o os IH] using rev_ind; [split_and!; [done..|]; intros k bk; simpl; by rewrite H0|].
  rewrite run_app. cbn [run foldl]. fold (run do_rl os l0). destruct IH as (Ht & Hs & IH).
  set (l := run do_rl os l0) in *.
  destruct (do_rl_static o l) as (E1 & E2 & _). split_and!; [congruence..|].
  assert (accounted (os ++ [o]) l0 l) as Hold.
  { intros k bk Hk. destruct (IH k bk Hk) as (r & ? & ?). exists r. set_solver. }
  destruct o as [r now|now]; cbn [do_rl].
  - intros k bk. destruct (decide (k = bucket_key (client_of r l))) as [->|Hk]; [|rewrite Middleware_other by done; apply Hold].
    unfold Middleware. destruct (_ || _); [apply Hold|].
    destruct (limiterFor_eq (client_of r l) now l) as (b & -> & Hl & _).
    destruct (reserve L now (lim b)) as [[ok delay] x].
    assert (forall y, buckets (store_limiter (client_of r l) y (set_buckets (<[bucket_key (client_of r l) := b]> (buckets l)) l))
      !! bucket_key (client_of r l) = Some (MkBucket y (last b) (rps b) (burst b))) as Hst.
    { intros y. apply store_limiter_eq. simpl. by rewrite lookup_insert_eq. }
    intros Hbk. exists r. split; [|unfold client_of; by rewrite Ht, Hs].
    assert (last bk = now) as ->; [|set_solver].
    destruct ok; cbn [negb] in Hbk; [destruct (0 <? delay)|]; cbn [snd] in Hbk; rewrite Hst in Hbk; by injection Hbk as <-.
  - intros k bk. simpl. rewrite lookup_map_delete_if. destruct (buckets l !! k) as [b|] eqn:Eb; [|done].
    destruct (before _ _); [done|]. intros [= <-]. by apply Hold.
Qed.

(** The sweeper bounds the memory.  After a sweep the limiter holds buckets only
    for clients that sent a request within the last [ttl]; an address that
    scanned and left costs nothing. *)
Theorem sweep_bounds_memory s env os now k bk :
  let l0 := NewGlobalRateLimiter s env in
  buckets (run do_rl (os ++ [OpSweep now]) l0) !! k = Some bk ->
  exists r t, OpRequest r t ∈ os /\ bucket_key (client_of r l0) = k /\ now - rateLimitTTL <= t.
Proof.
  intros l0. rewrite run_app. cbn [run foldl do_rl]. fold (run do_rl os l0). simpl. rewrite lookup_map_delete_if.
  destruct (buckets (run do_rl os l0) !! k) as [b|] eqn:Eb; [|done].
  assert (ttl (run do_rl os l0) = rateLimitTTL) as ->.
  { clear. assert (ttl l0 = rateLimitTTL) as <- by done. generalize l0. induction os as [|o os IH]; intros l; [done|].
    cbn [run foldl]. etransitivity; [apply IH|]. by destruct (do_rl_static o l) as (_ & _ & ->). }
  unfold before. destruct (Z.ltb_spec (last b) (now - rateLimitTTL)); [done|]. intros [= <-].
  destruct (run_accounted os l0 eq_refl k b Eb) as (r & Hr & Hk). exists r, (last b). by split_and!.
Qed.
End Limiter.

(** ** Witness *)

Module RateDemo.
(** A bucket that counts its tokens down and never refills. *)
Definition countdown : rate_lib :=
  MkRate Z (fun _ burst => burst) (fun _ n => (true, (if 0 <? n then 0 else second), n - 1)) (fun _ n => n + 1).
Definition from (addr : string) : Request := MkRequest addr (fun _ => "") "/api/vms".
Definition flood : list rl_op := repeat (OpRequest (from "203.0.113.9:40000") 0) 101.
Definition l0 : GlobalRateLimiter countdown := NewGlobalRateLimiter countdown None "".

(** The flooding client is held back, another one is not. *)
Example flood_limited :
  (Middleware countdown (from "203.0.113.9:40001") 0 (run (do_rl countdown) flood l0)).1 = Some 2 /\
  (Middleware countdown (from "198.51.100.4:40001") 0 (run (do_rl countdown) flood l0)).1 = None.
Proof. vm_compute. by split. Qed.
End RateDemo.

Lemma sweep_bounds_memory_witness :
  exists r t, OpRequest r t ∈ [OpRequest (RateDemo.from "203.0.113.9:40000") 0] /\
    bucket_key (client_of RateDemo.countdown r RateDemo.l0) = "203.0.113.9" /\ 1 - rateLimitTTL <= t.
Proof.
  apply (sweep_bounds_memory RateDemo.countdown None "" [OpRequest (RateDemo.from "203.0.113.9:40000") 0] 1 "203.0.113.9"
    (MkBucket RateDemo.countdown 99 0 50 100)).
  vm_compute. reflexivity.
Defined.
