(* ===== verification/Jail.v ===== *)
(** * Jail: brute-force bans

    Models [netguard/jail.go]: failures per (jail, address) over a sliding
    window, bans, the whitelist of networks, the persisted configuration.
    The clock reading of a call is its argument [now]; the [nft] commands a
    call runs (best effort, result ignored) are a trace; log lines and alert
    callbacks are left out. *)

From S2P Require Export GoNet AtomicFile.
Open Scope Z_scope.

Record WhitelistEntry := MkWhitelist {
  CIDR : string; wl_Description : string; AddedAt : Z; System : bool
}.

Record JailDefinition := MkJailDef {
  jd_ID : string; jd_Name : string; jd_Enabled : bool; MaxAttempts : Z; WindowSec : Z;
  BanDuration : Z; jd_Port : Z; jd_Description : string; Custom : bool
}.

Record JailEntry := MkEntry {
  je_IP : string; Reason : string; je_Jail : string; FailCount : Z; BannedAt : Z; ExpiresAt : Z
}.

Record JailConfig := MkConfig {
  cfg_Enabled : bool; SSHJail : JailDefinition; WebKVMJail : JailDefinition;
  CustomJails : list JailDefinition; Whitelist : list WhitelistEntry
}.

Inductive nft_cmd := NftAdd (ip : Z) (secs : Z) | NftDelete (ip : Z).

Definition DefaultWhitelist : list WhitelistEntry :=
  [ MkWhitelist "127.0.0.0/8" "IPv4 Loopback" time_zero true;
    MkWhitelist "::1/128" "IPv6 Loopback" time_zero true;
    MkWhitelist "10.0.0.0/8" "Private Class A (LAN/VPN)" time_zero true;
    MkWhitelist "172.16.0.0/12" "Private Class B (LAN/Docker)" time_zero true;
    MkWhitelist "192.168.0.0/16" "Private Class C (Local Subnet)" time_zero true;
    MkWhitelist "100.64.0.0/10" "Carrier-grade NAT & Tailscale" time_zero true ].

Definition DefaultConfig : JailConfig :=
  MkConfig true
    (MkJailDef "ssh" "Host SSH Service" true 5 300 3600 22
       "Monitors host SSH authentication logs and blocks brute-force attackers" false)
    (MkJailDef "webkvm" "WebKVM Console & API" true 5 300 900 0
       "Protects WebKVM login and API against brute-force attacks" false)
    [] DefaultWhitelist.

(** Addresses as the methods normalise them: trimmed, port removed. *)
Definition clean_ip (s : string) : string :=
  let c := trim_space s in
  match SplitHostPort c with Some (host, _) => host | None => c end.

Definition with_mask (cidr : string) : string :=
  if contains_byte "/" cidr then cidr
  else if contains_byte ":" cidr then cidr +:+ "/128" else cidr +:+ "/32".

(** [compileAllowlist]: unparsable entries are skipped. *)
Definition compileAllowlist (wl : list WhitelistEntry) : list ipnet :=
  omap (fun e => ParseCIDR (with_mask (trim_space (CIDR e)))) wl.

Definition allowed_by (nets : list ipnet) (ipStr : string) : bool :=
  match ParseIP ipStr with
  | None => false
  | Some a => existsb (fun n => Contains n a) nets
  end.

Section Jail.
Context {W : Type} `{Persist JailConfig W}.

Record Jail := MkJail {
  configPath : string;
  cfg : JailConfig;
  compiledAllowlist : list ipnet;
  attempts : gmap string (list Z);
  banned : gmap string JailEntry;
  nft : list nft_cmd;             (* latest first *)
  jail_disk : W
}.

Definition with_cfg (c : JailConfig) (j : Jail) : Jail :=
  MkJail (configPath j) c (compileAllowlist (Whitelist c)) (attempts j) (banned j) (nft j) (jail_disk j).
(** A configuration change that does not recompile the allowlist. *)
Definition set_cfg (c : JailConfig) (j : Jail) : Jail :=
  MkJail (configPath j) c (compiledAllowlist j) (attempts j) (banned j) (nft j) (jail_disk j).
Definition with_state (a : gmap string (list Z)) (b : gmap string JailEntry) (n : list nft_cmd) (j : Jail) :=
  MkJail (configPath j) (cfg j) (compiledAllowlist j) a b n (jail_disk j).

Definition saveConfig (j : Jail) : bool * Jail :=
  if String.eqb (configPath j) "" then (true, j) else
  let '(ok, w) := save (cfg j) (jail_disk j) in
  (ok, MkJail (configPath j) (cfg j) (compiledAllowlist j) (attempts j) (banned j) (nft j) w).

(** [loadConfig]; a failure is only logged by its caller. *)
Definition loadConfig (j : Jail) : Jail :=
  if String.eqb (configPath j) "" then j else
  match stored (jail_disk j) with
  | None => (saveConfig j).2
  | Some Torn => j
  | Some (Whole c) =>
      set_cfg (MkConfig (cfg_Enabled c)
        (if String.eqb (jd_ID (SSHJail c)) "" then SSHJail DefaultConfig else SSHJail c)
        (if String.eqb (jd_ID (WebKVMJail c)) "" then WebKVMJail DefaultConfig else WebKVMJail c)
        (CustomJails c)
        (match Whitelist c with [] => DefaultWhitelist | wl => wl end)) j
  end.

(** [New]; [path] is empty when there is no data directory. *)
Definition New (path : string) (w : W) : Jail :=
  let j := loadConfig (MkJail path DefaultConfig [] ∅ ∅ [] w) in
  with_cfg (cfg j) j.

Definition isAllowed (j : Jail) (ipStr : string) : bool := allowed_by (compiledAllowlist j) ipStr.
Definition IsAllowedPublic (j : Jail) (ipStr : string) : bool := isAllowed j (clean_ip ipStr).

Definition findJail (j : Jail) (id : string) : option JailDefinition :=
  if String.eqb id "" || String.eqb id "webkvm" then Some (WebKVMJail (cfg j))
  else if String.eqb id "ssh" then Some (SSHJail (cfg j))
  else List.find (fun d => String.eqb (jd_ID d) id) (CustomJails (cfg j)).

(** [applyNftBan] and [removeNftBan]: IPv4 only. *)
Definition applyNftBan (ipStr : string) (duration : Z) : list nft_cmd :=
  match ParseIP ipStr with
  | None => []
  | Some a => match to4 a with
              | None => []
              | Some v4 => let secs := Z.quot duration second in
                           [NftAdd v4 (if secs <=? 0 then 900 else secs)]
              end
  end.

Definition removeNftBan (ipStr : string) : res string (list nft_cmd) :=
  match ParseIP ipStr with
  | None => Err "invalid or unsupported IP address (must be IPv4)"
  | Some a => match to4 a with
              | None => Err "invalid or unsupported IP address (must be IPv4)"
              | Some v4 => Ok [NftDelete v4]
              end
  end.

(** Positive values of the definition, defaults otherwise; the products wrap. *)
Definition max_attempts (d : JailDefinition) : Z := if MaxAttempts d <=? 0 then 5 else MaxAttempts d.
Definition window_of (d : JailDefinition) : Z :=
  let w := wrap64 (WindowSec d * second) in if w <=? 0 then 5 * minute else w.
Definition ban_of (d : JailDefinition) : Z :=
  let b := wrap64 (BanDuration d * second) in if b <=? 0 then 15 * minute else b.

Definition attempt_key (jailID ip : string) : string := jailID +:+ ":" +:+ ip.

Definition in_window (now window : Z) (ts : list Z) : list Z :=
  List.filter (fun t => after t (time_add now (- window))) ts.

(** Whether a ban is in force. *)
Definition active_ban (now : Z) (b : gmap string JailEntry) (ip : string) : bool :=
  match b !! ip with Some e => before now (ExpiresAt e) | None => false end.

Definition RecordFailureWithJail (jailID ipStr reason : string) (now : Z) (j : Jail) : bool * Jail :=
  let ip := clean_ip ipStr in
  match ParseIP ip with
  | None => (false, j)
  | Some _ =>
      if negb (cfg_Enabled (cfg j)) then (false, j) else
      if isAllowed j ip then (false, j) else
      match findJail j jailID with
      | None => (false, j)
      | Some d =>
          if negb (jd_Enabled d) then (false, j) else
          if active_ban now (banned j) ip then (true, j) else
          let key := attempt_key jailID ip in
          let valid := in_window now (window_of d) (default [] (attempts j !! key)) ++ [now] in
          let n := Z.of_nat (length valid) in
          if max_attempts d <=? n then
            let e := MkEntry ip reason jailID n now (time_add now (ban_of d)) in
            (true, with_state (delete key (attempts j)) (<[ip := e]> (banned j))
                     (applyNftBan ip (ban_of d) ++ nft j) j)
          else (false, with_state (<[key := valid]> (attempts j)) (banned j) (nft j) j)
      end
  end.

Definition RecordFailure := RecordFailureWithJail "webkvm".
Definition RecordSSHFailure := RecordFailureWithJail "ssh".

Definition ManualBan (ipStr reason jailID : string) (duration now : Z) (j : Jail)
    : res string unit * Jail :=
  let ip := clean_ip ipStr in
  match ParseIP ip with
  | None => (Err "invalid IP address format", j)
  | Some _ =>
      if isAllowed j ip then (Err "cannot ban IP: it is protected by whitelist", j) else
      let duration := if duration <=? 0 then 24 * hour else duration in
      let reason := if String.eqb reason "" then "Manual ban by administrator" else reason in
      let jailID := if String.eqb jailID "" then "manual" else jailID in
      let e := MkEntry ip reason jailID 1 now (time_add now duration) in
      (Ok tt, with_state (attempts j) (<[ip := e]> (banned j)) (applyNftBan ip duration ++ nft j) j)
  end.

Definition IsBanned (j : Jail) (ipStr : string) (now : Z) : bool :=
  active_ban now (banned j) (clean_ip ipStr).

Definition Unban (ipStr : string) (j : Jail) : res string unit * Jail :=
  let ip := clean_ip ipStr in
  match ParseIP ip with
  | None => (Err "invalid IP address", j)
  | Some _ =>
      let a := map_delete_if (fun k _ => has_suffix (":" +:+ ip) k) (attempts j) in
      match removeNftBan ip with
      | Ok cmds => (Ok tt, with_state a (delete ip (banned j)) (cmds ++ nft j) j)
      | Err e => (Err e, with_state a (delete ip (banned j)) (nft j) j)
      end
  end.

Definition ListBanned (j : Jail) (now : Z) : list JailEntry :=
  List.filter (fun e => before now (ExpiresAt e)) (map snd (map_to_list (banned j))).

Definition GetWhitelist (j : Jail) : list WhitelistEntry := Whitelist (cfg j).

Definition set_whitelist (wl : list WhitelistEntry) (c : JailConfig) : JailConfig :=
  MkConfig (cfg_Enabled c) (SSHJail c) (WebKVMJail c) (CustomJails c) wl.

Definition AddWhitelist (cidrStr desc : string) (now : Z) (j : Jail) : res string unit * Jail :=
  let clean := trim_space cidrStr in
  if String.eqb clean "" then (Err "CIDR or IP cannot be empty", j) else
  match ParseCIDR (with_mask clean) with
  | None => (Err "invalid CIDR network format", j)
  | Some n =>
      let canon := ipnet_string n in
      if existsb (fun w => String.eqb (CIDR w) canon) (Whitelist (cfg j))
      then (Err "network already exists in whitelist", j) else
      let wl := Whitelist (cfg j) ++ [MkWhitelist canon desc now false] in
      let j := with_cfg (set_whitelist wl (cfg j)) j in
      (* addresses that became allowed are released *)
      let toUnban := List.filter (fun x => isAllowed j x) (map fst (map_to_list (banned j))) in
      let j := with_state (attempts j) (map_delete_if (fun x _ => isAllowed j x) (banned j))
                 (concat (map (fun x => match removeNftBan x with Ok c => c | Err _ => [] end) toUnban)
                    ++ nft j) j in
      let '(ok, j) := saveConfig j in (if ok then Ok tt else Err "save", j)
  end.

Definition RemoveWhitelist (cidrStr : string) (j : Jail) : res string unit * Jail :=
  match ParseCIDR (with_mask (trim_space cidrStr)) with
  | None => (Err "invalid CIDR network format", j)
  | Some n =>
      let canon := ipnet_string n in
      if negb (existsb (fun w => String.eqb (CIDR w) canon) (Whitelist (cfg j)))
      then (Err "network not found in whitelist", j) else
      let wl := List.filter (fun w => negb (String.eqb (CIDR w) canon)) (Whitelist (cfg j)) in
      let '(ok, j) := saveConfig (with_cfg (set_whitelist wl (cfg j)) j) in
      (if ok then Ok tt else Err "save", j)
  end.

(** [UpdateConfig]; [custom] is [None] for a nil slice. *)
Definition UpdateConfig (enabled : bool) (web ssh : JailDefinition) (custom : option (list JailDefinition))
    (j : Jail) : res string unit * Jail :=
  let c := cfg j in
  let c := MkConfig enabled
    (if String.eqb (jd_Name ssh) "" then SSHJail c else ssh)
    (if String.eqb (jd_Name web) "" then WebKVMJail c else web)
    (match custom with Some l => l | None => CustomJails c end) (Whitelist c) in
  let '(ok, j) := saveConfig (set_cfg c j) in (if ok then Ok tt else Err "save", j).

Definition set_custom (l : list JailDefinition) (c : JailConfig) : JailConfig :=
  MkConfig (cfg_Enabled c) (SSHJail c) (WebKVMJail c) l (Whitelist c).

Definition AddCustomJail (jd : JailDefinition) (now : Z) (j : Jail) : res string unit * Jail :=
  let name := trim_space (jd_Name jd) in
  if String.eqb name "" then (Err "jail name cannot be empty", j) else
  let id := to_lower (trim_space (jd_ID jd)) in
  let id := if String.eqb id "" then "jail_" +:+ pretty (time_unix now) else id in
  if String.eqb id "ssh" || String.eqb id "webkvm" || String.eqb id "manual"
  then (Err "cannot use reserved jail ID", j) else
  if existsb (fun d => String.eqb (jd_ID d) id) (CustomJails (cfg j))
  then (Err "a jail with this ID already exists", j) else
  let pos v dflt := if v <=? 0 then dflt else v in
  let jd := MkJailDef id name (jd_Enabled jd) (pos (MaxAttempts jd) 5) (pos (WindowSec jd) 300)
              (pos (BanDuration jd) 1800) (jd_Port jd) (jd_Description jd) true in
  let '(ok, j) := saveConfig (set_cfg (set_custom (CustomJails (cfg j) ++ [jd]) (cfg j)) j) in
  (if ok then Ok tt else Err "save", j).

Definition DeleteCustomJail (id : string) (j : Jail) : res string unit * Jail :=
  if negb (existsb (fun d => String.eqb (jd_ID d) id) (CustomJails (cfg j)))
  then (Err "jail not found", j) else
  let l := List.filter (fun d => negb (String.eqb (jd_ID d) id)) (CustomJails (cfg j)) in
  let '(ok, j) := saveConfig (set_cfg (set_custom l (cfg j)) j) in
  (if ok then Ok tt else Err "save", j).

(** One tick of [Janitor]. *)
Definition janitor_tick (now : Z) (j : Jail) : Jail :=
  with_state (attempts j) (map_delete_if (fun _ e => after now (ExpiresAt e)) (banned j)) (nft j) j.

(** ** The whitelist invariant *)

Inductive jail_op :=
| JFailure (jailID ip reason : string) (now : Z)
| JManualBan (ip reason jailID : string) (duration now : Z)
| JUnban (ip : string)
| JAddWhitelist (cidr desc : string) (now : Z)
| JRemoveWhitelist (cidr : string)
| JUpdateConfig (enabled : bool) (web ssh : JailDefinition) (custom : option (list JailDefinition))
| JAddJail (jd : JailDefinition) (now : Z)
| JDeleteJail (id : string)
| JTick (now : Z).

Definition jail_step (o : jail_op) (j : Jail) : Jail :=
  match o with
  | JFailure jid x r now => (RecordFailureWithJail jid x r now j).2
  | JManualBan x r jid d now => (ManualBan x r jid d now j).2
  | JUnban x => (Unban x j).2
  | JAddWhitelist c d now => (AddWhitelist c d now j).2
  | JRemoveWhitelist c => (RemoveWhitelist c j).2
  | JUpdateConfig e w s c => (UpdateConfig e w s c j).2
  | JAddJail jd now => (AddCustomJail jd now j).2
  | JDeleteJail id => (DeleteCustomJail id j).2
  | JTick now => janitor_tick now j
  end.

(** The compiled list is the whitelist's, and no banned address is in it. *)
Definition jail_ok (j : Jail) : Prop :=
  compiledAllowlist j = compileAllowlist (Whitelist (cfg j)) /\
  map_Forall (fun x _ => isAllowed j x = false) (banned j).

(** Saving changes the disk only. *)
Lemma saveConfig_ok j : jail_ok j -> jail_ok (saveConfig j).2.
Proof. unfold saveConfig. destruct (String.eqb _ _); [done|]. by destruct (save _ _). Qed.

Lemma save_step_ok j (r : bool * Jail) : r = saveConfig j -> jail_ok j ->
  jail_ok (let '(ok, j) := r in (if ok then Ok tt else Err "save" : res string unit, j)).2.
Proof. intros ->. intros Hj%saveConfig_ok. by destruct (saveConfig j). Qed.

Lemma set_cfg_ok c j : jail_ok j -> Whitelist c = Whitelist (cfg j) -> jail_ok (set_cfg c j).
Proof. intros [H1 H2] Hc. split; [by simpl; rewrite Hc|done]. Qed.

Lemma with_state_ok a b n j :
  jail_ok j -> (forall x e, b !! x = Some e -> isAllowed j x = false) -> jail_ok (with_state a b n j).
Proof. intros [H1 _] Hb. split; [done|]. exact Hb. Qed.

(** Dropping entries can only shrink what the list allows. *)
Lemma allowed_by_filter p wl x :
  allowed_by (compileAllowlist (List.filter p wl)) x = true -> allowed_by (compileAllowlist wl) x = true.
Proof.
  unfold allowed_by. destruct (ParseIP x) as [a|]; [|done]. rewrite !existsb_exists.
  intros (n & Hn & Hc). exists n. split; [|done]. unfold compileAllowlist in *.
  rewrite <- list_elem_of_In, list_elem_of_omap in *.
  destruct Hn as (e & He & Hp). exists e. split; [|done].
  rewrite list_elem_of_In in *. by apply filter_In in He as [? _].
Qed.

Lemma jail_step_ok o j : jail_ok j -> jail_ok (jail_step o j).
Proof.
  intros Hj. pose proof Hj as [Hc Hb].
  destruct o as [jid x r now|x r jid d now|x|c d now|c|e web ssh cu|jd now|id|now]; simpl.
  - unfold RecordFailureWithJail. destruct (ParseIP _); [|done]. destruct (cfg_Enabled _); [|done].
    cbn [negb]. destruct (isAllowed j _) eqn:Ha; [done|]. destruct (findJail j jid) as [d|]; [|done].
    destruct (jd_Enabled d); [|done]. cbn [negb]. destruct (active_ban _ _ _); [done|].
    destruct (_ <=? _); apply with_state_ok; [done| |done|done].
    intros y e [[<- <-]|[_ He]]%lookup_insert_Some; [done|by apply Hb in He].
  - unfold ManualBan. destruct (ParseIP _); [|done]. destruct (isAllowed j _) eqn:Ha; [done|].
    apply with_state_ok; [done|].
    intros y e [[<- <-]|[_ He]]%lookup_insert_Some; [done|by apply Hb in He].
  - unfold Unban. destruct (ParseIP _); [|done].
    destruct (removeNftBan _); apply with_state_ok; try done; intros y en [_ He]%lookup_delete_Some; by apply Hb in He.
  - unfold AddWhitelist. destruct (String.eqb _ _); [done|]. destruct (ParseCIDR _) as [n|]; [|done].
    destruct (existsb _ _); [done|]. eapply save_step_ok; [done|]. split; [done|].
    intros y e. simpl. rewrite lookup_map_delete_if. destruct (banned j !! y) as [e'|]; [|done].
    unfold isAllowed. simpl. by destruct (allowed_by _ y).
  - unfold RemoveWhitelist. destruct (ParseCIDR _) as [n|]; [|done].
    destruct (existsb _ _); [|done]. cbn [negb]. eapply save_step_ok; [done|]. split; [done|].
    intros y e He%Hb. unfold isAllowed in *. rewrite Hc in He. simpl.
    destruct (allowed_by (compileAllowlist (List.filter _ _)) y) eqn:Ea; [|done].
    apply allowed_by_filter in Ea. congruence.
  - unfold UpdateConfig. eapply save_step_ok; [done|]. by apply set_cfg_ok.
  - unfold AddCustomJail. destruct (String.eqb (trim_space _) ""); [done|].
    destruct (_ || _ || _); [done|]. destruct (existsb _ _); [done|].
    eapply save_step_ok; [done|]. by apply set_cfg_ok.
  - unfold DeleteCustomJail. destruct (existsb _ _); [|done]. cbn [negb].
    eapply save_step_ok; [done|]. by apply set_cfg_ok.
  - unfold janitor_tick. apply with_state_ok; [done|]. intros y e He. eapply Hb.
    eapply lookup_weaken; [done|apply map_delete_if_subseteq].
Qed.

Lemma New_ok path w : jail_ok (New path w).
Proof.
  assert (banned (loadConfig (MkJail path DefaultConfig [] ∅ ∅ [] w)) = ∅) as Hb.
  { unfold loadConfig. destruct (String.eqb _ _); [done|]. destruct (stored _) as [[c|]|]; [done|done|].
    unfold saveConfig. simpl. destruct (String.eqb _ _); [done|]. by destruct (save _ _). }
  split; [done|]. simpl. rewrite Hb. apply map_Forall_empty.
Qed.

(** A whitelisted address is never banned. From start-up, through any
    sequence of failures, manual bans, whitelist and configuration changes,
    no address the whitelist covers is reported banned. *)
Theorem whitelisted_never_banned path w ops ipStr now :
  let j := run jail_step ops (New path w) in
  IsAllowedPublic j ipStr = true -> IsBanned j ipStr now = false.
Proof.
  intros j Ha. assert (jail_ok j) as [_ Hb].
  { apply run_invariant; [intros; by apply jail_step_ok|apply New_ok]. }
  unfold IsBanned, active_ban, IsAllowedPublic in *.
  destruct (banned j !! clean_ip ipStr) as [e|] eqn:E; [|done].
  apply Hb in E. congruence.
Qed.

(** ** The ban threshold *)

Definition failures_at (jailID ip reason : string) (ts : list Z) (j : Jail) : Jail :=
  foldl (fun j t => (RecordFailureWithJail jailID ip reason t j).2) j ts.

Lemma in_window_all now window ts :
  Forall (fun t => now - t < window) ts -> in_window now window ts = ts.
Proof.
  unfold in_window. induction 1 as [|t ts Ht _ IH]; simpl; [done|].
  unfold after, time_add in *. rewrite (proj2 (Z.ltb_lt _ _)) by lia. by rewrite IH.
Qed.

Section Threshold.
Context (jailID ip reason : string) (d : JailDefinition) (j : Jail).
Context (Hip : ParseIP (clean_ip ip) <> None) (Hon : cfg_Enabled (cfg j) = true).
Context (Hnot : isAllowed j (clean_ip ip) = false) (Hd : findJail j jailID = Some d).
Context (Hen : jd_Enabled d = true) (Hfree : banned j !! clean_ip ip = None).
Context (Hnew : attempts j !! attempt_key jailID (clean_ip ip) = None).

(** Attempts so close that they count together. *)
Definition close_attempts (ts : list Z) : Prop :=
  forall t t', t ∈ ts -> t' ∈ ts -> t - t' < window_of d.

Definition armed (j' : Jail) (ts : list Z) : Prop :=
  cfg j' = cfg j /\ compiledAllowlist j' = compiledAllowlist j /\ banned j' = banned j /\
  default [] (attempts j' !! attempt_key jailID (clean_ip ip)) = ts.

Lemma failure_armed j' ts t :
  armed j' ts -> close_attempts (ts ++ [t]) ->
  let '(b, j'') := RecordFailureWithJail jailID ip reason t j' in
  if max_attempts d <=? Z.of_nat (length (ts ++ [t])) then
    b = true /\ banned j'' !! clean_ip ip =
      Some (MkEntry (clean_ip ip) reason jailID (Z.of_nat (length (ts ++ [t]))) t (time_add t (ban_of d)))
  else b = false /\ armed j'' (ts ++ [t]).
Proof.
  intros (H1 & H2 & H3 & H4) Hclose. unfold RecordFailureWithJail.
  destruct (ParseIP (clean_ip ip)); [|done]. rewrite H1, Hon. cbn [negb].
  unfold isAllowed. rewrite H2. unfold isAllowed in Hnot. rewrite Hnot.
  unfold findJail. rewrite H1. unfold findJail in Hd. rewrite Hd, Hen. cbn [negb].
  unfold active_ban. rewrite H3, Hfree, H4.
  rewrite in_window_all.
  - destruct (max_attempts d <=? _) eqn:E; simpl; (split; [done|]).
    + by rewrite lookup_insert_eq.
    + unfold armed. simpl. rewrite lookup_insert_eq. by split_and!.
  - apply Forall_forall. intros t' Ht'. apply Hclose; set_solver.
Qed.

Lemma failures_armed ts :
  close_attempts ts -> Z.of_nat (length ts) < max_attempts d ->
  armed (failures_at jailID ip reason ts j) ts.
Proof.
  induction ts as [|t ts IH] using rev_ind; intros Hc Hlen.
  - unfold armed. simpl. rewrite Hnew. by split_and!.
  - unfold failures_at. rewrite foldl_app. simpl. fold (failures_at jailID ip reason ts j).
    pose proof (failure_armed (failures_at jailID ip reason ts j) ts t) as Hs.
    destruct (RecordFailureWithJail _ _ _ _ _) as [b j'']. simpl.
    rewrite (proj2 (Z.leb_gt _ _) Hlen) in Hs. apply Hs; [|done]. apply IH.
    + intros x y Hx Hy. apply Hc; set_solver.
    + rewrite length_app in Hlen. simpl in Hlen. lia.
Qed.
End Threshold.

(** The ban threshold is exact. For an enabled jail and an address with no
    history that is not whitelisted, failures within one window leave it
    unbanned until their number reaches the jail's limit; the one that reaches
    it bans the address from that moment for exactly the ban duration. *)
Theorem ban_at_threshold jailID ip reason d j ts t now :
  ParseIP (clean_ip ip) <> None -> cfg_Enabled (cfg j) = true ->
  isAllowed j (clean_ip ip) = false -> findJail j jailID = Some d -> jd_Enabled d = true ->
  banned j !! clean_ip ip = None -> attempts j !! attempt_key jailID (clean_ip ip) = None ->
  close_attempts d (ts ++ [t]) -> Z.of_nat (length ts) < max_attempts d ->
  IsBanned (failures_at jailID ip reason ts j) ip now = false /\
  IsBanned (failures_at jailID ip reason (ts ++ [t]) j) ip now =
    (max_attempts d <=? Z.of_nat (length ts) + 1) && (now <? t + ban_of d).
Proof.
  intros Hip Hon Hnot Hd Hen Hfree Hnew Hc Hlen.
  assert (armed jailID ip j (failures_at jailID ip reason ts j) ts) as Ha.
  { apply (failures_armed jailID ip reason d); try done. intros x y Hx Hy. apply Hc; set_solver. }
  split.
  - destruct Ha as (_ & _ & Hb & _). unfold IsBanned, active_ban. by rewrite Hb, Hfree.
  - unfold failures_at at 1. rewrite foldl_app. simpl. fold (failures_at jailID ip reason ts j).
    opose proof* (failure_armed jailID ip reason d j) as Hs; [done..|exact Ha|exact Hc|].
    destruct (RecordFailureWithJail _ _ _ _ _) as [b j'']. simpl.
    rewrite length_app in Hs. simpl in Hs. rewrite Nat2Z.inj_add in Hs. simpl in Hs.
    unfold IsBanned, active_ban, before, time_add in *. destruct (max_attempts d <=? _).
    + by destruct Hs as [_ ->].
    + destruct Hs as [_ (_ & _ & -> & _)]. by rewrite Hfree.
Qed.

End Jail.

Module JailDemo.
#[global] Instance jail_persist : Persist JailConfig (fs JailConfig) :=
  fs_persist "/data/jail.json" saveJSON (saveJSON_atomic _).
Definition jail : Jail (W := fs JailConfig) := New "/data/jail.json" (MkFs ∅ [] []).
End JailDemo.

Lemma whitelisted_never_banned_witness :
  let j := run jail_step [JManualBan "203.0.113.9" "" "" 0 5; JAddWhitelist "203.0.113.0/24" "office" 6;
                          JFailure "ssh" "203.0.113.9" "x" 7] JailDemo.jail in
  IsBanned j " 203.0.113.9:2222 " 8 = false.
Proof.
  apply (whitelisted_never_banned "/data/jail.json" (MkFs ∅ [] [])
    [JManualBan "203.0.113.9" "" "" 0 5; JAddWhitelist "203.0.113.0/24" "office" 6;
     JFailure "ssh" "203.0.113.9" "x" 7]).
  vm_compute. reflexivity.
Defined.

Lemma ban_at_threshold_witness :
  IsBanned (failures_at "ssh" "203.0.113.9" "x" [1; 2; 3; 4; 5] JailDemo.jail) "203.0.113.9" (hour + 4) = true.
Proof.
  destruct (ban_at_threshold "ssh" "203.0.113.9" "x" (SSHJail DefaultConfig) JailDemo.jail [1; 2; 3; 4] 5 (hour + 4))
    as [_ H].
  - vm_compute. discriminate.
  - vm_compute. reflexivity.
  - vm_compute. reflexivity.
  - vm_compute. reflexivity.
  - reflexivity.
  - vm_compute. reflexivity.
  - vm_compute. reflexivity.
  - intros t t' Ht Ht'. assert (window_of (SSHJail DefaultConfig) = 300000000000) as -> by reflexivity.
    set_unfold. lia.
  - vm_compute. reflexivity.
  - etrans; [exact H|vm_compute; reflexivity].
Defined.
