(* ===== verification/Netguard.v ===== *)
(** * Netguard: the connection guards of the public listener

    Models [netguard/cooldown.go] (addresses that fail TLS handshakes in a
    loop are refused for a while) and [netguard/limitlistener.go] (a cap on
    simultaneous connections per address).  Methods run under their mutex, so
    each is one step; the clock reading is the argument [now]. *)

From S2P Require Export GoNet.
Open Scope Z_scope.

(** ** Cooldown *)

Definition DefaultFailureThreshold : Z := 20.
Definition DefaultCooldown : Z := 10 * second.
Definition failureWindow : Z := 30 * second.

Record failState := MkFail {
  fl_failures : Z; windowEnd : Z; until : Z; tripped : bool
}.

Record Cooldown := MkCooldown {
  state : gmap string failState; threshold : Z; penalty : Z; cd_window : Z
}.

Definition NewCooldown (threshold penalty : Z) : Cooldown :=
  MkCooldown ∅ (if threshold <=? 0 then DefaultFailureThreshold else threshold)
    (if penalty <=? 0 then DefaultCooldown else penalty) failureWindow.

Definition with_fails (m : gmap string failState) (c : Cooldown) : Cooldown :=
  MkCooldown m (threshold c) (penalty c) (cd_window c).

(** The update of one address's record. *)
Definition fail_once (c : Cooldown) (now : Z) (st : option failState) : bool * failState :=
  let st := default (MkFail 0 (time_add now (cd_window c)) time_zero false) st in
  let st := if after now (windowEnd st)
            then MkFail 0 (time_add now (cd_window c)) (until st) false else st in
  let n := fl_failures st + 1 in
  if threshold c <=? n
  then (negb (tripped st), MkFail n (windowEnd st) (time_add now (penalty c)) true)
  else (false, MkFail n (windowEnd st) (until st) (tripped st)).

Definition RecordFailure (ip : string) (now : Z) (c : Cooldown) : bool * Cooldown :=
  if String.eqb ip "" then (false, c) else
  let '(trip, st) := fail_once c now (state c !! ip) in
  (trip, with_fails (<[ip := st]> (state c)) c).

Definition Blocked (c : Cooldown) (ip : string) (now : Z) : bool :=
  if String.eqb ip "" then false else
  match state c !! ip with
  | None => false
  | Some st => negb (is_zero (until st) || after now (until st))
  end.

Definition Sweep (now : Z) (c : Cooldown) : Cooldown :=
  with_fails (map_delete_if (fun _ st => after now (windowEnd st)
                                && (is_zero (until st) || after now (until st))) (state c)) c.

Definition Size (c : Cooldown) : nat := size (state c).

(** [handshakeErrIP]: the address in an [http: TLS handshake error from] line.
    The address is the longest run of address bytes that leaves [:digits:]
    after it. *)
Definition addr_byte (c : ascii) : bool :=
  is_digit c || in_range "a" "f" c || in_range "A" "F" c || Ascii.eqb c ":" || Ascii.eqb c ".".

Fixpoint span (p : ascii -> bool) (s : string) : nat :=
  match s with String c s => if p c then S (span p s) else O | EmptyString => O end.

(** [:\d+:] at the start of the string. *)
Definition port_tail (s : string) : bool :=
  match s with
  | String ":" t => let n := span is_digit t in
                    Nat.ltb 0 n && has_prefix ":" (drop_str n t)
  | _ => false
  end.

Fixpoint backtrack (k : nat) (s : string) : option string :=
  match k with
  | O => None
  | S k' =>
      let rest := drop_str k s in
      if has_prefix "]" rest && port_tail (drop_str 1 rest) then Some (take_str k s +:+ "]")
      else if port_tail rest then Some (take_str k s)
      else backtrack k' s
  end.

Definition handshakeErrIP (msg : string) : option string :=
  let prefix := "http: TLS handshake error from " in
  if negb (has_prefix prefix msg) then None else
  let s := drop_str (slen prefix) msg in
  if has_prefix "[" s
  then (fun a => "[" +:+ a) <$> backtrack (span addr_byte (drop_str 1 s)) (drop_str 1 s)
  else backtrack (span addr_byte s) s.

Definition Observe (msg : string) (now : Z) (c : Cooldown) : Cooldown :=
  match handshakeErrIP msg with
  | None => c
  | Some ip =>
      let ip := if Nat.ltb 1 (slen ip) && has_prefix "[" ip && has_suffix "]" ip
                then take_str (slen ip - 2) (drop_str 1 ip) else ip in
      (RecordFailure ip now c).2
  end.

Inductive cd_op := CdFail (ip : string) (now : Z) | CdSweep (now : Z).

Definition cd_step (o : cd_op) (c : Cooldown) : Cooldown :=
  match o with CdFail ip now => (RecordFailure ip now c).2 | CdSweep now => Sweep now c end.

Definition cd_time (o : cd_op) : Z := match o with CdFail _ t | CdSweep t => t end.

(** The instants of the failures recorded for [ip]. *)
Definition fails_of (ip : string) (ops : list cd_op) : list Z :=
  omap (fun o => match o with CdFail x t => if String.eqb x ip then Some t else None | _ => None end) ops.

(** ** LimitListener *)

Definition DefaultPerIPLimit : Z := 64.

(** Connections are numbered as the wrapped listener delivers them.  One that
    is handed to the server with a slot is tracked until its first [Close],
    which releases the slot. *)
Record LimitListener := MkListener {
  limit : Z;
  active : gmap string Z;
  delivered : nat;
  unreleased : gmap nat string
}.

Definition NewLimitListener (limit : Z) : LimitListener :=
  MkListener (if limit <=? 0 then DefaultPerIPLimit else limit) ∅ 0 ∅.

(** What happens to one incoming connection. *)
Inductive admission := Exempted | CooledDown | OverLimit (active : Z) | Accepted.

Section Listener.
(** [Exempt] and [Cooldown.Blocked] at the time of the call. *)
Context (exempt blocked : string -> bool).

Definition take_slot (ip : string) (l : LimitListener) : admission * LimitListener :=
  let conn := delivered l in
  let l := MkListener (limit l) (active l) (S conn) (unreleased l) in
  if exempt ip then (Exempted, l) else
  if blocked ip then (CooledDown, l) else
  let n := default 0 (active l !! ip) in
  if limit l <=? n then (OverLimit n, l)
  else (Accepted, MkListener (limit l) (<[ip := n + 1]> (active l)) (delivered l) (<[conn := ip]> (unreleased l))).

(** [Accept]: incoming connections (their addresses) are taken in turn until
    one is handed over; [None] is an error of the wrapped listener.  The
    result is the number of the connection handed over. *)
Fixpoint Accept (incoming : list (option string)) (l : LimitListener)
    : option nat * LimitListener :=
  match incoming with
  | [] | None :: _ => (None, l)
  | Some ip :: rest =>
      match take_slot ip l with
      | (Exempted, l') | (Accepted, l') => (Some (delivered l), l')
      | (_, l) => Accept rest l
      end
  end.
End Listener.

Definition release (ip : string) (l : LimitListener) : LimitListener :=
  let n := default 0 (active l !! ip) in
  MkListener (limit l) (if n <=? 1 then delete ip (active l) else <[ip := n - 1]> (active l))
    (delivered l) (unreleased l).

(** [trackedConn.Close]: the slot is released on the first call only. *)
Definition Close (conn : nat) (l : LimitListener) : LimitListener :=
  match unreleased l !! conn with
  | None => l
  | Some ip => release ip (MkListener (limit l) (active l) (delivered l) (delete conn (unreleased l)))
  end.

Definition ActiveFor (l : LimitListener) (ip : string) : Z := default 0 (active l !! ip).

Definition hostOf (addr : option string) : string :=
  match addr with
  | None => ""
  | Some a => match SplitHostPort a with Some (host, _) => host | None => a end
  end.

(** Accepts and closes in any order. *)
Inductive ll_op :=
| LAccept (exempt blocked : string -> bool) (incoming : list (option string))
| LClose (conn : nat).

Definition ll_step (o : ll_op) (l : LimitListener) : LimitListener :=
  match o with
  | LAccept e b inc => (Accept e b inc l).2
  | LClose c => Close c l
  end.

(** The tracked connections of an address. *)
Definition open_from (l : LimitListener) (ip : string) : nat :=
  size (filter (fun ci : nat * string => ci.2 = ip) (unreleased l)).

(** ** The cap *)

Lemma open_insert (m : gmap nat string) c x ip :
  m !! c = None ->
  size (filter (fun ci : nat * string => ci.2 = ip) (<[c := x]> m)) =
    ((if decide (x = ip) then 1 else 0) + size (filter (fun ci : nat * string => ci.2 = ip) m))%nat.
Proof.
  intros Hc. rewrite map_filter_insert. simpl. destruct (decide (x = ip)).
  - rewrite map_size_insert_None; [done|]. apply map_lookup_filter_None. by left.
  - by rewrite delete_id.
Qed.

Lemma open_delete (m : gmap nat string) c x ip :
  m !! c = Some x ->
  size (filter (fun ci : nat * string => ci.2 = ip) m) =
    ((if decide (x = ip) then 1 else 0) + size (filter (fun ci : nat * string => ci.2 = ip) (delete c m)))%nat.
Proof.
  intros Hc. rewrite <- (open_insert (delete c m) c x ip) by apply lookup_delete_eq. by rewrite insert_delete_id.
Qed.

(** The counters are the numbers of tracked connections, none above the cap. *)
Record ll_ok (l : LimitListener) : Prop := {
  ok_count : forall ip, active l !! ip =
    match open_from l ip with O => None | S n => Some (Z.of_nat (S n)) end;
  ok_cap : forall ip, Z.of_nat (open_from l ip) <= limit l;
  ok_fresh : forall c, (delivered l <= c)%nat -> unreleased l !! c = None
}.

Lemma ActiveFor_open l ip : ll_ok l -> ActiveFor l ip = Z.of_nat (open_from l ip).
Proof. intros [H _ _]. unfold ActiveFor. rewrite H. by destruct (open_from l ip). Qed.

Lemma admit_ok e b ip l : ll_ok l -> ll_ok (take_slot e b ip l).2 /\ limit (take_slot e b ip l).2 = limit l.
Proof.
  intros Hl. pose proof Hl as [Hc Hk Hf].
  assert (ll_ok (MkListener (limit l) (active l) (S (delivered l)) (unreleased l))) as Hl'.
  { split; [exact Hc|exact Hk|]. simpl. intros c Hle. apply Hf. lia. }
  unfold take_slot. simpl. destruct (e ip); [done|]. destruct (b ip); [done|].
  pose proof (ActiveFor_open l ip Hl) as Ha. unfold ActiveFor in Ha.
  destruct (Z.leb_spec (limit l) (default 0 (active l !! ip))) as [|Hlt]; [done|].
  split; [|done]. assert (forall x, open_from (MkListener (limit l) (<[ip := default 0 (active l !! ip) + 1]> (active l))
      (S (delivered l)) (<[delivered l := ip]> (unreleased l))) x
    = ((if decide (ip = x) then 1 else 0) + open_from l x)%nat) as Ho.
  { intros x. unfold open_from. simpl. apply open_insert, Hf. lia. }
  split; simpl.
  - intros x. rewrite Ho. destruct (decide (ip = x)) as [<-|].
    + rewrite lookup_insert_eq, Ha. simpl. f_equal. lia.
    + rewrite lookup_insert_ne by done. apply Hc.
  - intros x. rewrite Ho. specialize (Hk x). destruct (decide (ip = x)) as [<-|]; simpl; lia.
  - intros c Hle. rewrite lookup_insert_ne by lia. apply Hf. lia.
Qed.

Lemma Accept_ok e b inc l : ll_ok l -> ll_ok (Accept e b inc l).2 /\ limit (Accept e b inc l).2 = limit l.
Proof.
  revert l. induction inc as [|[ip|] inc IH]; intros l Hl; simpl; [done| |done].
  pose proof (admit_ok e b ip l Hl) as [Ha Hm].
  destruct (take_slot e b ip l) as [[| | |] l']; simpl in *; try done.
  all: destruct (IH l' Ha) as [H1 H2]; by rewrite H2.
Qed.

Lemma Close_ok c l : ll_ok l -> ll_ok (Close c l) /\ limit (Close c l) = limit l.
Proof.
  intros Hl. pose proof Hl as [Hc Hk Hf]. unfold Close.
  destruct (unreleased l !! c) as [ip|] eqn:Ec; [|done]. split; [|done].
  pose proof (fun x => open_delete (unreleased l) c ip x Ec) as Ho.
  assert (forall x, open_from (MkListener (limit l) (active l) (delivered l) (delete c (unreleased l))) x =
    size (filter (fun ci : nat * string => ci.2 = x) (delete c (unreleased l)))) as Hd by done.
  pose proof (ActiveFor_open l ip Hl) as Ha. unfold ActiveFor in Ha.
  unfold release. simpl. split; simpl.
  - intros x. specialize (Ho x). specialize (Hc x). unfold open_from in *. simpl in *.
    destruct (decide (ip = x)) as [<-|Hne].
    + rewrite Ho in Ha. rewrite Ha. clear Hd.
      destruct (size (filter _ (delete c _))) as [|n]; simpl.
      * by rewrite lookup_delete_eq.
      * destruct (Z.leb_spec (Z.of_nat (S (S n))) 1); [lia|]. rewrite lookup_insert_eq. f_equal. lia.
    + simpl in Ho. rewrite <- Ho, <- Hc. destruct (_ <=? 1); [by apply lookup_delete_ne|by apply lookup_insert_ne].
  - intros x. specialize (Ho x). specialize (Hk x). unfold open_from in *. simpl in *. lia.
  - intros y Hy. apply lookup_delete_None. right. by apply Hf.
Qed.

(** The per-address cap holds at every moment. Through any sequence of
    accepts, with any exemptions and cooldowns, and of closes, repeated ones
    included, the counter of an address is the number of its open tracked
    connections and never exceeds the limit; and the next connection from an
    address that is neither exempt nor cooling down is taken exactly when
    that number is below the limit. *)
Theorem per_ip_cap lim ops ip :
  let l := run ll_step ops (NewLimitListener lim) in
  ActiveFor l ip = Z.of_nat (open_from l ip) /\ Z.of_nat (open_from l ip) <= limit (NewLimitListener lim) /\
  (forall exempt blocked, exempt ip = false -> blocked ip = false ->
     ((take_slot exempt blocked ip l).1 = Accepted <-> Z.of_nat (open_from l ip) < limit (NewLimitListener lim))).
Proof.
  intros l. assert (ll_ok l /\ limit l = limit (NewLimitListener lim)) as [Hl Hm].
  { apply (run_invariant ll_step (fun l => ll_ok l /\ limit l = limit (NewLimitListener lim))).
    - intros [e b inc|c] l0 [H0 Hm]; simpl.
      + destruct (Accept_ok e b inc l0 H0) as [? H1]. by rewrite H1.
      + destruct (Close_ok c l0 H0) as [? H1]. by rewrite H1.
    - split; [|done]. split; simpl; [| |done]; cycle 1.
      { intros x. unfold open_from, DefaultPerIPLimit. simpl. rewrite map_filter_empty, map_size_empty.
        destruct (Z.leb_spec lim 0); lia. }
      intros x. unfold open_from. simpl. rewrite map_filter_empty. apply lookup_empty. }
  pose proof (ActiveFor_open l ip Hl) as Ha. destruct Hl as [Hc Hk Hf].
  rewrite <- Hm. split_and!; [done|done|].
  intros e b He Hb. unfold take_slot. simpl. rewrite He, Hb. unfold ActiveFor in Ha. rewrite Ha.
  destruct (Z.leb_spec (limit l) (Z.of_nat (open_from l ip))); simpl; split; (done || lia).
Qed.

(** ** The cooldown *)

(** The number of instants of [ts] in the closed interval from [a] to [b]. *)
Definition count_between (a b : Z) (ts : list Z) : Z :=
  Z.of_nat (length (List.filter (fun t => (a <=? t) && (t <=? b)) ts)).

Lemma count_between_app a b ts1 ts2 :
  count_between a b (ts1 ++ ts2) = count_between a b ts1 + count_between a b ts2.
Proof. unfold count_between. rewrite List.filter_app, length_app. lia. Qed.

Lemma count_between_nonneg a b ts : 0 <= count_between a b ts.
Proof. unfold count_between. lia. Qed.

Lemma count_between_one a b t : a <= t <= b -> count_between a b [t] = 1.
Proof. intros [? ?]. unfold count_between. simpl. by rewrite !(proj2 (Z.leb_le _ _)). Qed.

Section Quiet.
Context (c : Cooldown) (ip : string).

(** After failures [ts], the last at [last]: no penalty was set, the current
    window was opened before [last] and its counter counts failures in it. *)
Definition quiet (ts : list Z) (last : Z) (st : failState) : Prop :=
  until st = time_zero /\ windowEnd st - cd_window c <= last /\
  fl_failures st <= count_between (windowEnd st - cd_window c) (windowEnd st) ts.

Lemma fail_once_quiet ts last now st :
  0 <= cd_window c -> last <= now ->
  (forall a, count_between a (a + cd_window c) (ts ++ [now]) < threshold c) ->
  (forall s, st = Some s -> quiet ts last s) ->
  quiet (ts ++ [now]) now (fail_once c now st).2.
Proof.
  intros Hw Hn Hfew Hq. unfold fail_once.
  assert (forall s, until s = time_zero -> windowEnd s - cd_window c <= now <= windowEnd s ->
    fl_failures s <= count_between (windowEnd s - cd_window c) (windowEnd s) ts ->
    quiet (ts ++ [now]) now (if threshold c <=? fl_failures s + 1
      then (negb (tripped s), MkFail (fl_failures s + 1) (windowEnd s) (time_add now (penalty c)) true)
      else (false, MkFail (fl_failures s + 1) (windowEnd s) (until s) (tripped s))).2) as Hstep.
  { intros s Hu Hin Hle. specialize (Hfew (windowEnd s - cd_window c)).
    replace (windowEnd s - cd_window c + cd_window c) with (windowEnd s) in Hfew by lia.
    rewrite count_between_app, (count_between_one _ _ now) in Hfew by lia.
    destruct (Z.leb_spec (threshold c) (fl_failures s + 1)); [lia|]. unfold quiet. simpl.
    rewrite count_between_app, (count_between_one _ _ now) by lia. split_and!; [done|lia|lia]. }
  pose proof (count_between_nonneg (now + cd_window c - cd_window c) (now + cd_window c) ts).
  destruct st as [s|]; simpl.
  - destruct (Hq s eq_refl) as (Hu & Hl & Hf). unfold after.
    destruct (Z.ltb_spec (windowEnd s) now); apply Hstep; simpl; unfold time_add; (done || lia).
  - unfold after, time_add. destruct (Z.ltb_spec (now + cd_window c) now); apply Hstep; simpl;
      unfold time_add; (done || lia).
Qed.
End Quiet.

(** The clock does not run backwards over a sequence of operations. *)
Fixpoint clocked (t : Z) (ops : list cd_op) : Prop :=
  match ops with [] => True | o :: ops => t <= cd_time o /\ clocked (cd_time o) ops end.

Lemma run_quiet ip ops : forall c ts last,
  0 <= cd_window c -> clocked last ops ->
  (forall a, count_between a (a + cd_window c) (ts ++ fails_of ip ops) < threshold c) ->
  (forall s, state c !! ip = Some s -> quiet c ts last s) ->
  forall s, state (run cd_step ops c) !! ip = Some s -> until s = time_zero.
Proof.
  induction ops as [|o ops IH]; intros c ts last Hw Hclk Hfew Hq s Hs.
  - by destruct (Hq s Hs).
  - destruct Hclk as [Ht Hclk].
    assert (forall ts' last' s, quiet c ts' last' s -> last' <= cd_time o -> quiet c ts' (cd_time o) s) as Hmono.
    { intros ts' last' s' (? & ? & ?) ?. split_and!; (done || lia). }
    destruct o as [x now|now]; simpl in *.
    + unfold RecordFailure in Hs. destruct (String.eqb_spec x "") as [->|Hx].
      { destruct (String.eqb_spec "" ip) as [<-|].
        - assert (forall s, state c !! "" = Some s -> quiet c (ts ++ [now]) now s) as Hq'.
          { intros s' Hs'. destruct (Hmono _ _ _ (Hq s' Hs') Ht) as (? & ? & ?). split_and!; [done|done|].
            rewrite count_between_app. pose proof (count_between_nonneg (windowEnd s' - cd_window c) (windowEnd s') [now]). lia. }
          apply (IH c (ts ++ [now]) now Hw Hclk); [|done|done]. intros a. rewrite <- app_assoc. apply Hfew.
        - apply (IH c ts now Hw Hclk); [done| |done]. intros s' Hs'. eapply Hmono; eauto. }
      destruct (fail_once c now (state c !! x)) as [b st] eqn:Ef. cbn [snd] in Hs.
      destruct (String.eqb_spec x ip) as [->|Hne].
      * apply (IH (with_fails (<[ip := st]> (state c)) c) (ts ++ [now]) now Hw Hclk); [| |done].
        { intros a. simpl. rewrite <- app_assoc. apply Hfew. }
        simpl. intros s'. rewrite lookup_insert_eq. intros [= <-].
        pose proof (fail_once_quiet c ts last now (state c !! ip) Hw Ht) as Hf.
        rewrite Ef in Hf. apply Hf; [|done]. intros a. specialize (Hfew a).
        rewrite cons_middle, app_assoc, count_between_app in Hfew.
        pose proof (count_between_nonneg a (a + cd_window c) (fails_of ip ops)). lia.
      * apply (IH (with_fails (<[x := st]> (state c)) c) ts now Hw Hclk); [done| |done].
        simpl. intros s'. rewrite lookup_insert_ne by done. intros Hs'. eapply Hmono; eauto.
    + apply (IH (Sweep now c) ts now Hw Hclk); [done| |done]. simpl. intros s'.
      rewrite lookup_map_delete_if. destruct (state c !! ip) as [s0|]; [|done].
      destruct (_ && _); [done|]. intros [= <-]. eapply Hmono; eauto.
Qed.

(** No client is throttled below the threshold. An address that never has
    the threshold number of failed handshakes within any 30 seconds is never
    refused, whatever other addresses do and whenever entries are swept. *)
Theorem cooldown_no_false_positive thr pen ops ip start now :
  let c := NewCooldown thr pen in
  clocked start ops ->
  (forall a, count_between a (a + failureWindow) (fails_of ip ops) < threshold c) ->
  Blocked (run cd_step ops c) ip now = false.
Proof.
  intros c Hclk Hfew. unfold Blocked. destruct (String.eqb ip ""); [done|].
  destruct (state _ !! ip) as [s|] eqn:Es; [|done].
  assert (until s = time_zero) as ->; [|done].
  apply (run_quiet ip ops c [] start); [unfold failureWindow; done|done|done|done|done].
Qed.

Lemma count_between_le a b ts : count_between a b ts <= Z.of_nat (length ts).
Proof. unfold count_between. pose proof (List.filter_length_le (fun t => (a <=? t) && (t <=? b)) ts). lia. Qed.

Lemma cooldown_no_false_positive_witness :
  Blocked (run cd_step [CdFail "192.0.2.7" 1; CdSweep 2; CdFail "192.0.2.7" 3; CdFail "192.0.2.8" 3] (NewCooldown 3 0))
    "192.0.2.7" 4 = false.
Proof.
  apply (cooldown_no_false_positive 3 0
    [CdFail "192.0.2.7" 1; CdSweep 2; CdFail "192.0.2.7" 3; CdFail "192.0.2.8" 3] "192.0.2.7" 0 4).
  - simpl. lia.
  - intros a. eapply Z.le_lt_trans; [apply count_between_le|]. vm_compute. reflexivity.
Defined.

(** Three failures in a row do trip it, for the penalty after the last one. *)
Example cooldown_trips :
  let c := run cd_step [CdFail "a" 1; CdFail "a" 2; CdFail "a" 3] (NewCooldown 3 10) in
  Blocked c "a" 13 = true /\ Blocked c "a" 14 = false.
Proof. vm_compute. by split. Qed.

(** The port of a bracketed IPv6 peer is not part of its address. *)
Example observe_v6 :
  Size (Observe "http: TLS handshake error from [fe80::1]:34122: remote error: tls: bad certificate" 5 (NewCooldown 0 0)) = 1%nat /\
  Blocked (Observe "http: TLS handshake error from [fe80::1]:34122: EOF" 5 (NewCooldown 1 0)) "fe80::1" 6 = true.
Proof. vm_compute. by split. Qed.

Lemma per_ip_cap_witness :
  let l := run ll_step [LAccept (fun _ => false) (fun _ => false) [Some "a"]; LAccept (fun _ => false) (fun _ => false) [Some "a"; Some "b"];
                        LClose 0; LClose 0] (NewLimitListener 1) in
  ActiveFor l "a" = Z.of_nat (open_from l "a") /\ Z.of_nat (open_from l "a") <= 1.
Proof.
  intros l.
  destruct (per_ip_cap 1 [LAccept (fun _ => false) (fun _ => false) [Some "a"];
    LAccept (fun _ => false) (fun _ => false) [Some "a"; Some "b"]; LClose 0; LClose 0] "a") as (H1 & H2 & _).
  split; [exact H1|exact H2].
Defined.
