(* ===== verification/FwRules.v ===== *)
(** * FwRules: the firewall rules, their validation and the nftables ruleset

    Models [firewall/host.go], the data of [firewall/store.go], the rendering of
    [firewall/nft.go] and [validateVMForwards] of [api/firewall.go].  A ruleset
    is the list of its chains; [print_ruleset] is the text the code writes.  The
    last part gives the rules in use the meaning nftables documents for them (the
    first rule with a verdict that matches decides, then the policy [accept]) and
    shows what the rendered ruleset does to a packet. *)

From S2P Require Export GoNet Sessions.
Open Scope Z_scope.

(** ** Data *)

Record Rule := MkRule { rl_ID : string; rl_Proto : string; rl_Port : Z; rl_Action : string; rl_Disabled : bool }.
Record Forward := MkForward {
  fd_ID : string; fd_Proto : string; fd_HostPort : Z; fd_GuestPort : Z;
  fd_TargetIP : string; fd_Disabled : bool; fd_Applied : bool
}.
Record VMFirewall := MkVMFirewall { fw_VMID : string; fw_Rules : list Rule; fw_Forwards : list Forward }.

Record HostInputRule := MkHostInputRule {
  hi_ID : string; hi_Name : string; hi_Proto : string; hi_Port : Z; hi_Src : string; hi_Action : string;
  hi_Disabled : bool
}.
Record HostForwardRule := MkHostForwardRule {
  hf_ID : string; hf_Name : string; hf_Proto : string; hf_HostPort : Z; hf_GuestIP : string; hf_GuestPort : Z;
  hf_Disabled : bool
}.
Record HostFirewall := MkHostFirewall { Input : list HostInputRule; Forwards : list HostForwardRule }.

Definition set_Applied (b : bool) (f : Forward) : Forward :=
  MkForward (fd_ID f) (fd_Proto f) (fd_HostPort f) (fd_GuestPort f) (fd_TargetIP f) (fd_Disabled f) b.

Definition empty_list {A} (l : list A) : bool := match l with [] => true | _ => false end.

Definition IsEmpty (h : HostFirewall) : bool := empty_list (Input h) && empty_list (Forwards h).

Record NATBridge := MkNATBridge { nb_Name : string; nb_CIDR : string }.

(** ** Validation *)

Definition HostPorts (webPort : Z) : list Z := [22; webPort].
Definition ProtectedPorts (webPort : Z) : list Z := HostPorts webPort.

Definition port_ok (p : Z) : bool := negb ((p <? 1) || (65535 <? p)).
Definition is_protected (prot : list Z) (p : Z) : bool := existsb (Z.eqb p) prot.

Definition validProto (p : string) : bool := String.eqb p "tcp" || String.eqb p "udp" || String.eqb p "both".
Definition validAction (a : string) : bool := String.eqb a "allow" || String.eqb a "drop".

(** [netip.ParseAddr] succeeds with an IPv4 address. *)
Definition is4 (s : string) : bool :=
  match addr_family s, parse_ipv4 s with Some true, Some _ => true | _, _ => false end.

Inductive fw_err :=
| ErrAntiLockout (port : Z)
| ErrNoPendingApply
| ErrRule (id what : string)
| ErrText (what : string)
| ErrNft
| ErrSave.

Definition check_source (r : HostInputRule) : option fw_err :=
  if String.eqb (hi_Src r) "" then None else
  match ParseIP (hi_Src r), ParseCIDR (hi_Src r) with
  | None, None => Some (ErrRule (hi_ID r) "invalid source")
  | _, _ => if contains_byte ":" (hi_Src r) then Some (ErrRule (hi_ID r) "only IPv4 sources are supported") else None
  end.

Definition check_input (prot : list Z) (r : HostInputRule) : option fw_err :=
  if hi_Disabled r then None
  else if negb (validProto (hi_Proto r)) then Some (ErrRule (hi_ID r) "protocol must be tcp, udp or both")
  else if negb (port_ok (hi_Port r)) then Some (ErrRule (hi_ID r) "port must be 1-65535")
  else if negb (validAction (hi_Action r)) then Some (ErrRule (hi_ID r) "action must be allow or drop")
  else match check_source r with
       | Some e => Some e
       | None => if String.eqb (hi_Action r) "drop" && is_protected prot (hi_Port r)
                 then Some (ErrAntiLockout (hi_Port r)) else None
       end.

Definition check_forward (prot : list Z) (f : HostForwardRule) : option fw_err :=
  if hf_Disabled f then None
  else if negb (validProto (hf_Proto f)) then Some (ErrRule (hf_ID f) "protocol must be tcp, udp or both")
  else if negb (port_ok (hf_HostPort f) && port_ok (hf_GuestPort f))
  then Some (ErrRule (hf_ID f) "host and guest ports must be 1-65535")
  else if is_protected prot (hf_HostPort f) then Some (ErrAntiLockout (hf_HostPort f))
  else match ParseIP (hf_GuestIP f) with
       | None => Some (ErrRule (hf_ID f) "a valid IPv4 guest address is required")
       | Some _ => if contains_byte ":" (hf_GuestIP f)
                   then Some (ErrRule (hf_ID f) "a valid IPv4 guest address is required") else None
       end.

(** The first error of a loop that returns early. *)
Fixpoint first_err {A E} (f : A -> option E) (l : list A) : option E :=
  match l with
  | [] => None
  | a :: l => match f a with Some e => Some e | None => first_err f l end
  end.

Definition ValidateHostFirewall (fw : HostFirewall) (webPort : Z) : option fw_err :=
  let prot := ProtectedPorts webPort in
  match first_err (check_input prot) (Input fw) with
  | Some e => Some e
  | None => first_err (check_forward prot) (Forwards fw)
  end.

Definition check_vm_forward (isAdmin : bool) (vmIP : string) (protected : list Z) (f : Forward) : option fw_err :=
  if fd_Disabled f then None
  else if is_protected protected (fd_HostPort f) || ((5900 <=? fd_HostPort f) && (fd_HostPort f <=? 5999))
  then Some (ErrText "reserved port")
  else match
    (if String.eqb (fd_TargetIP f) "" then None
     else if negb (is4 (fd_TargetIP f)) then Some (ErrText "forward target_ip must be an IPv4 address")
     else if negb isAdmin && negb (String.eqb (fd_TargetIP f) vmIP)
     then Some (ErrText "forward target_ip must be the VM's own address") else None)
  with
  | Some e => Some e
  | None => if negb isAdmin && (fd_HostPort f <? 1024) then Some (ErrText "privileged port") else None
  end.

Definition validateVMForwards (fs : list Forward) (isAdmin : bool) (vmIP : string) (protected : list Z)
    : option fw_err :=
  first_err (check_vm_forward isAdmin vmIP protected) fs.

(** ** Rendering *)

Inductive nft_rule :=
| JailDrop
| PortRule (src proto : string) (port : Z) (verdict : string)
| Dnat (proto : string) (port : Z) (ip : string) (gport : Z)
| MasqTo (targets : list string)
| MasqFrom (cidr uplink : string)
| AcceptIif (name : string)
| AcceptOif (name : string).

Record chain := MkChain { ch_Name : string; ch_Type : string; ch_Rules : list nft_rule }.

Definition protoList (p : string) : list string :=
  if String.eqb p "tcp" then ["tcp"]
  else if String.eqb p "udp" then ["udp"]
  else if String.eqb p "both" then ["tcp"; "udp"] else [].

Definition nftVerdict (action : string) : string := if String.eqb action "allow" then "accept" else action.

Definition vm_rule_lines (r : Rule) : list nft_rule :=
  if rl_Disabled r || negb (validProto (rl_Proto r)) || negb (port_ok (rl_Port r)) || negb (validAction (rl_Action r))
  then [] else map (fun p => PortRule "" p (rl_Port r) (nftVerdict (rl_Action r))) (protoList (rl_Proto r)).

Definition host_rule_lines (r : HostInputRule) : list nft_rule :=
  if hi_Disabled r || negb (validProto (hi_Proto r)) || negb (port_ok (hi_Port r)) || negb (validAction (hi_Action r))
  then [] else map (fun p => PortRule (hi_Src r) p (hi_Port r) (nftVerdict (hi_Action r))) (protoList (hi_Proto r)).

Definition dnat_lines (proto : string) (port : Z) (ip : string) (gport : Z) : list nft_rule :=
  map (fun p => Dnat p port ip gport) (protoList proto).

(** One forward: the address it adds to the masquerade set and its rules. *)
Definition host_forward_lines (f : HostForwardRule) : list string * list nft_rule :=
  if hf_Disabled f || negb (validProto (hf_Proto f)) || negb (port_ok (hf_HostPort f)) || negb (port_ok (hf_GuestPort f))
  then ([], []) else
  match ParseIP (hf_GuestIP f) with
  | None => ([], [])
  | Some _ => ([hf_GuestIP f], dnat_lines (hf_Proto f) (hf_HostPort f) (hf_GuestIP f) (hf_GuestPort f))
  end.

Section Build.
(** [IPResolver], [NATProvider] (absent when not wired), the interface of the
    default route, and the port of the web interface. *)
Context (resolve : option (string -> string)) (natProvider : option (list NATBridge)) (uplink : string) (webPort : Z).

(** The address a forward of [vmID] leads to. *)
Definition forward_ip (vmID : string) (f : Forward) : string :=
  if String.eqb (fd_TargetIP f) "" then match resolve with Some r => r vmID | None => "" end else fd_TargetIP f.

Definition forward_live (vmID : string) (f : Forward) : bool :=
  negb (fd_Disabled f) && validProto (fd_Proto f) && port_ok (fd_HostPort f) && port_ok (fd_GuestPort f)
  && is4 (forward_ip vmID f).

(** [f.Applied] is written through the shared slice. *)
Definition mark_forward (vmID : string) (f : Forward) : Forward :=
  if fd_Disabled f then f else set_Applied (forward_live vmID f) f.

Definition vm_forward_lines (vmID : string) (f : Forward) : list string * list nft_rule :=
  if forward_live vmID f
  then ([forward_ip vmID f], dnat_lines (fd_Proto f) (fd_HostPort f) (forward_ip vmID f) (fd_GuestPort f))
  else ([], []).

Definition mark_vm (fw : VMFirewall) : VMFirewall :=
  MkVMFirewall (fw_VMID fw) (fw_Rules fw) (map (mark_forward (fw_VMID fw)) (fw_Forwards fw)).

Definition input_chain (host : HostFirewall) (all : list VMFirewall) : chain :=
  MkChain "input" "type filter hook input priority filter; policy accept;"
    (JailDrop :: map (fun p => PortRule "" "tcp" p "accept") (HostPorts webPort)
     ++ concat (map (fun fw => concat (map vm_rule_lines (fw_Rules fw))) all)
     ++ concat (map host_rule_lines (Input host))).

(** Every forward in rendering order. *)
Definition all_forwards (host : HostFirewall) (all : list VMFirewall) : list (list string * list nft_rule) :=
  map host_forward_lines (Forwards host)
  ++ concat (map (fun fw => map (vm_forward_lines (fw_VMID fw)) (fw_Forwards fw)) all).

Definition nat_chains (host : HostFirewall) (all : list VMFirewall) : list chain :=
  let fs := all_forwards host all in
  let lines := concat (map snd fs) in
  let targets := concat (map fst fs) in
  if empty_list lines then [] else
  MkChain "prerouting" "type nat hook prerouting priority dstnat; policy accept;" lines ::
  (if empty_list targets then [] else
   [MkChain "postrouting" "type nat hook postrouting priority srcnat; policy accept;" [MasqTo targets]]).

Definition nat_bridges : list NATBridge := default [] natProvider.

Definition bridge_chains : list chain :=
  if empty_list nat_bridges then [] else
  [MkChain "nat_bridges" "type nat hook postrouting priority srcnat + 10; policy accept;"
     (concat (map (fun nb => if String.eqb (nb_CIDR nb) "" then [] else [MasqFrom (nb_CIDR nb) uplink]) nat_bridges));
   MkChain "nat_bridges_forward" "type filter hook forward priority filter; policy accept;"
     (concat (map (fun nb => [AcceptIif (nb_Name nb); AcceptOif (nb_Name nb)]) nat_bridges))].

(** [None] for the empty ruleset; the second result is what the rendering leaves
    in the forwards it was given. *)
Definition buildRulesetWith (host : HostFirewall) (all : list VMFirewall) : option (list chain) * list VMFirewall :=
  if empty_list all && IsEmpty host && empty_list nat_bridges then (None, all)
  else (Some (input_chain host all :: nat_chains host all ++ bridge_chains), map mark_vm all).
End Build.

(** ** The text *)

Definition chr (n : N) : string := String (ascii_of_N n) "".
Definition tab : string := chr 9.
Definition nl : string := chr 10.

(** [strconv.Quote] of ASCII text; bytes from 128 on are passed through. *)
Definition quote_char (c : ascii) : string :=
  let n := code c in
  let bs := chr 92 in
  if n =? 34 then bs +:+ chr 34 else if n =? 92 then bs +:+ bs
  else if (32 <=? n) && negb (n =? 127) then String c ""
  else if n =? 7 then bs +:+ "a" else if n =? 8 then bs +:+ "b" else if n =? 12 then bs +:+ "f"
  else if n =? 10 then bs +:+ "n" else if n =? 13 then bs +:+ "r" else if n =? 9 then bs +:+ "t"
  else if n =? 11 then bs +:+ "v"
  else bs +:+ "x" +:+ String (hex_char (n / 16)) (String (hex_char (n mod 16)) "").

Fixpoint quote_body (s : string) : string :=
  match s with EmptyString => "" | String c s => quote_char c +:+ quote_body s end.
Definition Quote (s : string) : string := chr 34 +:+ quote_body s +:+ chr 34.

Definition print_rule (r : nft_rule) : string :=
  tab +:+ tab +:+ match r with
  | JailDrop => "ip saddr @jail_blacklist drop"
  | PortRule src proto port verdict =>
      (if String.eqb src "" then "" else "ip saddr " +:+ src +:+ " ")
      +:+ proto +:+ " dport " +:+ Itoa port +:+ " " +:+ verdict
  | Dnat proto port ip gport => proto +:+ " dport " +:+ Itoa port +:+ " dnat to " +:+ ip +:+ ":" +:+ Itoa gport
  | MasqTo targets => "ip daddr { " +:+ join_str ", " targets +:+ " } masquerade"
  | MasqFrom cidr uplink =>
      if String.eqb uplink "" then "ip saddr " +:+ cidr +:+ " masquerade"
      else "ip saddr " +:+ cidr +:+ " oifname " +:+ Quote uplink +:+ " masquerade"
  | AcceptIif name => "iifname " +:+ Quote name +:+ " accept"
  | AcceptOif name => "oifname " +:+ Quote name +:+ " accept"
  end +:+ nl.

Definition concat_str (l : list string) : string := fold_right String.append "" l.

Definition print_chain (c : chain) : string :=
  tab +:+ "chain " +:+ ch_Name c +:+ " {" +:+ nl +:+ tab +:+ tab +:+ ch_Type c +:+ nl
  +:+ concat_str (map print_rule (ch_Rules c)) +:+ tab +:+ "}" +:+ nl.

(** UTF-8 of the dash in the first comment. *)
Definition em_dash : string := chr 226 +:+ chr 128 +:+ chr 148.

Definition print_ruleset (cs : option (list chain)) : string :=
  match cs with
  | None => ""
  | Some cs =>
      "# Generated by webkvm " +:+ em_dash +:+ " do not edit manually" +:+ nl
      +:+ "table ip webkvm" +:+ nl +:+ "delete table ip webkvm" +:+ nl +:+ "table ip webkvm {" +:+ nl
      +:+ tab +:+ "set jail_blacklist {" +:+ nl +:+ tab +:+ tab +:+ "type ipv4_addr" +:+ nl
      +:+ tab +:+ tab +:+ "flags timeout" +:+ nl +:+ tab +:+ "}" +:+ nl
      +:+ concat_str (map print_chain cs) +:+ "}" +:+ nl
  end.

Example print_demo :
  print_ruleset (buildRulesetWith None None "" 8080 (MkHostFirewall [] [])
    [MkVMFirewall "vm1" [MkRule "r" "both" 53 "drop" false] []]).1
  = concat_str (map (fun l => l +:+ nl) [
      "# Generated by webkvm " +:+ em_dash +:+ " do not edit manually"; "table ip webkvm"; "delete table ip webkvm";
      "table ip webkvm {"; tab +:+ "set jail_blacklist {"; tab +:+ tab +:+ "type ipv4_addr";
      tab +:+ tab +:+ "flags timeout"; tab +:+ "}"; tab +:+ "chain input {";
      tab +:+ tab +:+ "type filter hook input priority filter; policy accept;";
      tab +:+ tab +:+ "ip saddr @jail_blacklist drop";
      tab +:+ tab +:+ "tcp dport 22 accept"; tab +:+ tab +:+ "tcp dport 8080 accept";
      tab +:+ tab +:+ "tcp dport 53 drop"; tab +:+ tab +:+ "udp dport 53 drop"; tab +:+ "}"; "}"]).
Proof. vm_compute. reflexivity. Qed.

(** ** What a ruleset does to a packet *)

Record packet := MkPacket { pk_src : Z; pk_proto : string; pk_dport : Z }.

(** A source filter: an address or a network. *)
Definition src_matches (src : string) (a : Z) : bool :=
  if String.eqb src "" then true else
  match parse_ipv4 src with
  | Some x => x =? a
  | None => match ParseCIDR src with Some n => Contains n (of4 a) | None => false end
  end.

(** [Some true]: accept; [Some false]: drop; [None]: no verdict. *)
Definition rule_verdict (jail : gset Z) (pk : packet) (r : nft_rule) : option bool :=
  match r with
  | JailDrop => if bool_decide (pk_src pk ∈ jail) then Some false else None
  | PortRule src proto port verdict =>
      if src_matches src (pk_src pk) && String.eqb proto (pk_proto pk) && (port =? pk_dport pk)
      then Some (String.eqb verdict "accept") else None
  | _ => None
  end.

Definition rule_dnat (pk : packet) (r : nft_rule) : option (string * Z) :=
  match r with
  | Dnat proto port ip gport =>
      if String.eqb proto (pk_proto pk) && (port =? pk_dport pk) then Some (ip, gport) else None
  | _ => None
  end.

(** The first rule with an answer. *)
Fixpoint first_some {A B} (f : A -> option B) (l : list A) : option B :=
  match l with [] => None | a :: l => match f a with Some b => Some b | None => first_some f l end end.

Definition chain_rules (name : string) (cs : list chain) : list nft_rule :=
  match List.find (fun c => String.eqb (ch_Name c) name) cs with Some c => ch_Rules c | None => [] end.

(** The table decides: input verdict with the policy [accept], and the address a
    packet is redirected to before the input chain sees it. *)
Definition input_accepts (cs : list chain) (jail : gset Z) (pk : packet) : bool :=
  default true (first_some (rule_verdict jail pk) (chain_rules "input" cs)).
Definition redirected (cs : list chain) (pk : packet) : option (string * Z) :=
  first_some (rule_dnat pk) (chain_rules "prerouting" cs).

Lemma first_some_app {A B} (f : A -> option B) l1 l2 :
  first_some f (l1 ++ l2) = match first_some f l1 with Some b => Some b | None => first_some f l2 end.
Proof. induction l1 as [|a l1 IH]; simpl; [done|]. by destruct (f a). Qed.

Lemma first_some_concat {A B C} (f : B -> option C) (g : A -> list B) l :
  first_some f (concat (map g l)) = first_some (fun a => first_some f (g a)) l.
Proof. induction l as [|a l IH]; simpl; [done|]. by rewrite first_some_app, IH. Qed.

Lemma first_some_ext {A B} (f g : A -> option B) l :
  (forall a, a ∈ l -> f a = g a) -> first_some f l = first_some g l.
Proof.
  induction l as [|a l IH]; intros H; simpl; [done|]. rewrite (H a) by set_solver.
  rewrite IH; [done|]. intros b Hb. apply H. set_solver.
Qed.

Lemma first_some_map {A B C} (f : B -> option C) (g : A -> B) l :
  first_some f (map g l) = first_some (fun a => f (g a)) l.
Proof. induction l as [|a l IH]; simpl; [done|]. by rewrite IH. Qed.

Lemma first_some_None {A B} (f : A -> option B) l : first_some f l = None <-> forall a, a ∈ l -> f a = None.
Proof.
  induction l as [|a l IH]; simpl; [split; [set_solver|done]|].
  destruct (f a) eqn:E; split.
  - done.
  - intros H. specialize (H a). rewrite E in H. set_solver.
  - intros H b [->|Hb]%elem_of_cons; [done|]. by apply IH.
  - intros H. apply IH. set_solver.
Qed.

Lemma first_err_None {A E} (f : A -> option E) l : first_err f l = None <-> forall a, a ∈ l -> f a = None.
Proof. apply (first_some_None f l). Qed.

(** *** The reference: rules as the operator wrote them *)

Definition proto_hits (proto : string) (pk : packet) : bool :=
  if String.eqb proto "both" then String.eqb (pk_proto pk) "tcp" || String.eqb (pk_proto pk) "udp"
  else String.eqb (pk_proto pk) proto.

Definition vm_rule_says (pk : packet) (r : Rule) : option bool :=
  if negb (rl_Disabled r) && validProto (rl_Proto r) && port_ok (rl_Port r) && validAction (rl_Action r)
     && proto_hits (rl_Proto r) pk && (rl_Port r =? pk_dport pk)
  then Some (String.eqb (rl_Action r) "allow") else None.

Definition host_rule_says (pk : packet) (r : HostInputRule) : option bool :=
  if negb (hi_Disabled r) && validProto (hi_Proto r) && port_ok (hi_Port r) && validAction (hi_Action r)
     && proto_hits (hi_Proto r) pk && (hi_Port r =? pk_dport pk) && src_matches (hi_Src r) (pk_src pk)
  then Some (String.eqb (hi_Action r) "allow") else None.

Definition host_forward_says (pk : packet) (f : HostForwardRule) : option (string * Z) :=
  if negb (hf_Disabled f) && validProto (hf_Proto f) && port_ok (hf_HostPort f) && port_ok (hf_GuestPort f)
     && (match ParseIP (hf_GuestIP f) with Some _ => true | None => false end)
     && proto_hits (hf_Proto f) pk && (hf_HostPort f =? pk_dport pk)
  then Some (hf_GuestIP f, hf_GuestPort f) else None.

Definition vm_forward_says resolve (vmID : string) (pk : packet) (f : Forward) : option (string * Z) :=
  if forward_live resolve vmID f && proto_hits (fd_Proto f) pk && (fd_HostPort f =? pk_dport pk)
  then Some (forward_ip resolve vmID f, fd_GuestPort f) else None.

(** The first rule of the machines in order, then of the host. *)
Definition operator_says (host : HostFirewall) (all : list VMFirewall) (pk : packet) : option bool :=
  match first_some (fun fw => first_some (vm_rule_says pk) (fw_Rules fw)) all with
  | Some b => Some b
  | None => first_some (host_rule_says pk) (Input host)
  end.

(** The first forward of the host, then of the machines in order. *)
Definition operator_forwards resolve (host : HostFirewall) (all : list VMFirewall) (pk : packet)
    : option (string * Z) :=
  match first_some (host_forward_says pk) (Forwards host) with
  | Some t => Some t
  | None => first_some (fun fw => first_some (vm_forward_says resolve (fw_VMID fw) pk) (fw_Forwards fw)) all
  end.

Definition management (webPort : Z) (pk : packet) : bool :=
  String.eqb (pk_proto pk) "tcp" && ((22 =? pk_dport pk) || (webPort =? pk_dport pk)).

(** *** One rule *)

Lemma validProto_cases p : validProto p = true -> p = "tcp" \/ p = "udp" \/ p = "both".
Proof.
  unfold validProto. destruct (String.eqb_spec p "tcp"), (String.eqb_spec p "udp"), (String.eqb_spec p "both"); simpl; auto; discriminate.
Qed.

Lemma validAction_cases a : validAction a = true -> a = "allow" \/ a = "drop".
Proof. unfold validAction. destruct (String.eqb_spec a "allow"), (String.eqb_spec a "drop"); simpl; auto; discriminate. Qed.

Lemma proto_lines {B} (f : string -> option B) (b : B) proto pk (c : bool) :
  validProto proto = true ->
  (forall p, f p = if String.eqb p (pk_proto pk) && c then Some b else None) ->
  first_some f (protoList proto) = if proto_hits proto pk && c then Some b else None.
Proof.
  intros Hp Hf. unfold proto_hits.
  assert (forall q, first_some f [q] = if String.eqb (pk_proto pk) q && c then Some b else None) as H1.
  { intros q. simpl. rewrite Hf, String.eqb_sym. by destruct (_ && _). }
  destruct (validProto_cases _ Hp) as [->|[->| ->]].
  - apply (H1 "tcp").
  - apply (H1 "udp").
  - change (protoList "both") with (["tcp"] ++ ["udp"]). rewrite first_some_app, !H1.
    change (String.eqb "both" "both") with true.
    destruct (String.eqb _ "tcp"), (String.eqb _ "udp"), c; reflexivity.
Qed.

Lemma nftVerdict_accept a : validAction a = true -> String.eqb (nftVerdict a) "accept" = String.eqb a "allow".
Proof. by intros [-> | ->]%validAction_cases. Qed.

Lemma vm_rule_verdict jail pk r : first_some (rule_verdict jail pk) (vm_rule_lines r) = vm_rule_says pk r.
Proof.
  unfold vm_rule_lines, vm_rule_says.
  destruct (rl_Disabled r), (validProto (rl_Proto r)) eqn:Hp, (port_ok (rl_Port r)), (validAction (rl_Action r)) eqn:Ha;
    try reflexivity; cbn [negb orb andb].
  rewrite first_some_map, <- (nftVerdict_accept _ Ha).
  apply (proto_lines _ _ _ _ _ Hp). reflexivity.
Qed.

Lemma host_rule_verdict jail pk r : first_some (rule_verdict jail pk) (host_rule_lines r) = host_rule_says pk r.
Proof.
  unfold host_rule_lines, host_rule_says.
  destruct (hi_Disabled r), (validProto (hi_Proto r)) eqn:Hp, (port_ok (hi_Port r)), (validAction (hi_Action r)) eqn:Ha;
    try reflexivity; cbn [negb orb andb].
  rewrite first_some_map, <- (nftVerdict_accept _ Ha), <- andb_assoc.
  apply (proto_lines _ _ _ _ _ Hp). intros p. cbn.
  destruct (src_matches _ _), (String.eqb p _), (hi_Port r =? pk_dport pk); reflexivity.
Qed.

Lemma dnat_lines_verdict pk proto port ip gport :
  validProto proto = true ->
  first_some (rule_dnat pk) (dnat_lines proto port ip gport)
    = if proto_hits proto pk && (port =? pk_dport pk) then Some (ip, gport) else None.
Proof. intros Hp. unfold dnat_lines. rewrite first_some_map. by apply proto_lines. Qed.

Lemma host_forward_verdict pk f : first_some (rule_dnat pk) (host_forward_lines f).2 = host_forward_says pk f.
Proof.
  unfold host_forward_lines, host_forward_says.
  destruct (hf_Disabled f), (validProto (hf_Proto f)) eqn:Hp, (port_ok (hf_HostPort f)), (port_ok (hf_GuestPort f));
    try reflexivity; cbn [negb orb andb].
  destruct (ParseIP (hf_GuestIP f)); [|reflexivity]. by apply dnat_lines_verdict.
Qed.

Lemma vm_forward_verdict resolve vmID pk f :
  first_some (rule_dnat pk) (vm_forward_lines resolve vmID f).2 = vm_forward_says resolve vmID pk f.
Proof.
  unfold vm_forward_lines, vm_forward_says. destruct (forward_live resolve vmID f) eqn:E; [|done].
  apply dnat_lines_verdict. unfold forward_live in E. by bool_norm.
Qed.

(** *** The whole ruleset *)

Section Exact.
Context (resolve : option (string -> string)) (natProvider : option (list NATBridge)) (uplink : string) (webPort : Z).
Abbreviation build := (buildRulesetWith resolve natProvider uplink webPort).

Lemma build_chains host all cs :
  (build host all).1 = Some cs ->
  cs = input_chain webPort host all :: nat_chains resolve host all ++ bridge_chains natProvider uplink.
Proof. unfold buildRulesetWith. destruct (_ && _); [done|]. by intros [= <-]. Qed.

Lemma input_rules host all cs : (build host all).1 = Some cs ->
  chain_rules "input" cs = ch_Rules (input_chain webPort host all).
Proof. by intros ->%build_chains. Qed.

Lemma bridge_no_prerouting : List.find (fun c => String.eqb (ch_Name c) "prerouting") (bridge_chains natProvider uplink) = None.
Proof. unfold bridge_chains. by destruct (empty_list _). Qed.

Lemma prerouting_rules host all cs : (build host all).1 = Some cs ->
  chain_rules "prerouting" cs = concat (map snd (all_forwards resolve host all)).
Proof.
  intros ->%build_chains. unfold chain_rules. cbn [List.find ch_Name input_chain].
  change (String.eqb "input" "prerouting") with false. cbv iota. unfold nat_chains.
  destruct (concat (map snd (all_forwards resolve host all))) as [|r l]; simpl empty_list; cbv iota.
  - rewrite app_nil_l, bridge_no_prerouting. reflexivity.
  - reflexivity.
Qed.

Lemma input_exact host all cs jail pk :
  (build host all).1 = Some cs ->
  input_accepts cs jail pk
    = negb (bool_decide (pk_src pk ∈ jail))
      && (management webPort pk || default true (operator_says host all pk)).
Proof.
  intros Hcs. unfold input_accepts. rewrite (input_rules host all cs Hcs).
  cbn [ch_Rules input_chain first_some rule_verdict]. destruct (bool_decide _); [done|]. cbn [negb andb].
  rewrite !first_some_app. unfold management.
  assert (first_some (rule_verdict jail pk) (map (fun p => PortRule "" "tcp" p "accept") (HostPorts webPort))
          = if String.eqb (pk_proto pk) "tcp" && ((22 =? pk_dport pk) || (webPort =? pk_dport pk))
            then Some true else None) as ->.
  { cbn -[String.eqb Z.eqb]. rewrite !(String.eqb_sym "tcp").
    change (src_matches "" (pk_src pk)) with true.
    destruct (String.eqb _ _), (22 =? _), (webPort =? _); reflexivity. }
  destruct (_ && _); [done|]. cbn [orb]. f_equal. unfold operator_says.
  rewrite !first_some_concat.
  rewrite (first_some_ext _ (fun fw => first_some (vm_rule_says pk) (fw_Rules fw)) all).
  2:{ intros fw _. rewrite first_some_concat. apply first_some_ext. intros r _. apply vm_rule_verdict. }
  destruct (first_some _ all); [done|].
  apply first_some_ext. intros r _. apply host_rule_verdict.
Qed.

Lemma redirected_exact host all cs pk :
  (build host all).1 = Some cs -> redirected cs pk = operator_forwards resolve host all pk.
Proof.
  intros Hcs. unfold redirected. rewrite (prerouting_rules host all cs Hcs).
  unfold all_forwards, operator_forwards.
  rewrite map_app, concat_app, first_some_app, map_map, first_some_concat.
  rewrite (first_some_ext _ (host_forward_says pk)) by (intros f _; apply host_forward_verdict).
  destruct (first_some _ (Forwards host)); [done|].
  rewrite first_some_concat, <- flat_map_concat_map.
  clear Hcs. induction all as [|fw all IH]; [done|]. cbn [flat_map first_some]. rewrite first_some_app, IH.
  rewrite first_some_map. rewrite (first_some_ext _ (vm_forward_says resolve (fw_VMID fw) pk)).
  2:{ intros f _. apply vm_forward_verdict. }
  done.
Qed.

(** C9: the rendered ruleset means what the rules say.  An inbound packet is
    accepted exactly when its source is not jailed and it goes to a management
    port, or the first enabled, valid rule that covers it (machines first, then
    host) allows it, or no rule covers it; and it is redirected exactly by the
    first enabled, resolvable forward that covers it (host first). *)
Theorem ruleset_exact host all cs jail pk :
  (build host all).1 = Some cs ->
  input_accepts cs jail pk
    = negb (bool_decide (pk_src pk ∈ jail))
      && (management webPort pk || default true (operator_says host all pk)) /\
  redirected cs pk = operator_forwards resolve host all pk.
Proof. intros Hcs. split; [by apply input_exact|by apply redirected_exact]. Qed.

(** Nobody is locked out.  When the host rules passed [ValidateHostFirewall]
    and every machine's forwards passed [validateVMForwards] (for some caller),
    a TCP packet to SSH or to the web interface from an address that is not
    jailed is neither redirected to a guest nor dropped. *)
Theorem management_reachable host all cs jail pk :
  (build host all).1 = Some cs -> ValidateHostFirewall host webPort = None ->
  (forall fw, fw ∈ all -> exists isAdmin vmIP,
     validateVMForwards (fw_Forwards fw) isAdmin vmIP (ProtectedPorts webPort) = None) ->
  management webPort pk = true -> pk_src pk ∉ jail ->
  redirected cs pk = None /\ input_accepts cs jail pk = true.
Proof.
  intros Hcs Hhost Hvms Hm Hj. split; [|rewrite (input_exact host all cs) by done].
  2:{ by rewrite Hm, bool_decide_eq_false_2. }
  assert (is_protected (ProtectedPorts webPort) (pk_dport pk) = true) as Hprot.
  { unfold management in Hm. apply andb_prop in Hm as [_ Hm]. cbn. rewrite orb_false_r.
    by rewrite (Z.eqb_sym _ 22), (Z.eqb_sym _ webPort). }
  rewrite (redirected_exact host all cs) by done. unfold operator_forwards.
  unfold ValidateHostFirewall in Hhost. destruct (first_err (check_input _) _); [done|].
  rewrite first_err_None in Hhost. rewrite (proj2 (first_some_None _ _)).
  - apply first_some_None. intros fw Hfw. apply first_some_None. intros f Hf.
    destruct (Hvms fw Hfw) as (isAdmin & vmIP & Hv). unfold validateVMForwards in Hv.
    rewrite first_err_None in Hv. specialize (Hv f Hf). unfold check_vm_forward in Hv.
    unfold vm_forward_says, forward_live. destruct (fd_Disabled f); [done|]. cbn [negb andb].
    destruct (Z.eqb_spec (fd_HostPort f) (pk_dport pk)) as [E|]; [|by rewrite andb_false_r].
    by rewrite E, Hprot in Hv.
  - intros f Hf. specialize (Hhost f Hf). unfold check_forward in Hhost. unfold host_forward_says.
    destruct (hf_Disabled f); [done|]. destruct (validProto (hf_Proto f)); [|done].
    destruct (port_ok (hf_HostPort f)); [|done]. destruct (port_ok (hf_GuestPort f)); [|done].
    cbn [negb andb] in Hhost |- *.
    destruct (Z.eqb_spec (hf_HostPort f) (pk_dport pk)) as [E|]; [|by rewrite andb_false_r].
    by rewrite E, Hprot in Hhost.
Qed.
End Exact.

(** *** Nothing the operator types reaches nft unchecked *)

Definition addr_char (c : ascii) : bool := is_digit c || Ascii.eqb c "." || Ascii.eqb c "/".
Definition one_of (l : list string) (s : string) : bool := existsb (String.eqb s) l.

(** The tokens of a rule that come from a request. *)
Definition clean_rule (r : nft_rule) : bool :=
  match r with
  | PortRule src proto port verdict =>
      all_bytes addr_char src && one_of ["tcp"; "udp"] proto && one_of ["accept"; "drop"] verdict
  | Dnat proto port ip gport => all_bytes addr_char ip && one_of ["tcp"; "udp"] proto && port_ok port && port_ok gport
  | MasqTo targets => forallb (all_bytes addr_char) targets
  | JailDrop | MasqFrom _ _ | AcceptIif _ | AcceptOif _ => true
  end.

Lemma digit_addr c : is_digit c = true -> addr_char c = true.
Proof. unfold addr_char. by intros ->. Qed.

Lemma octet_addr w v : parse_octet w = Some v -> all_bytes addr_char w = true.
Proof.
  intros H. assert (exists u, GoNet.digits_value 0 w = Some u) as [u Hu].
  { unfold parse_octet in H. destruct w as [|[[] [] [] [] [] [] [] []] [|]]; try discriminate H;
      destruct (GoNet.digits_value 0 _) as [u|] eqn:E; try discriminate H; by exists u. }
  apply (all_bytes_impl is_digit); [apply digit_addr|]. by eapply digits_value_digits.
Qed.

Lemma ipv4_addr s a : parse_ipv4 s = Some a -> all_bytes addr_char s = true.
Proof.
  unfold parse_ipv4. intros H. apply (split_all_bytes _ "."); [done|].
  destruct (split_byte "." s) as [|w1 [|w2 [|w3 [|w4 [|]]]]]; try discriminate H.
  destruct (parse_octet w1) eqn:E1; [|done]. destruct (parse_octet w2) eqn:E2; [|done].
  destruct (parse_octet w3) eqn:E3; [|done]. destruct (parse_octet w4) eqn:E4; [|done].
  repeat constructor; by eapply octet_addr.
Qed.

Lemma addr_family_v6 s : addr_family s = Some false -> contains_byte ":" s = true.
Proof.
  induction s as [|c s IH]; [done|]. unfold contains_byte in *.
  destruct c as [[] [] [] [] [] [] [] []]; simpl; intros H; try discriminate H; try reflexivity;
    specialize (IH H); by destruct (index_byte ":" s).
Qed.

Lemma ParseIP_addr s i : ParseIP s = Some i -> contains_byte ":" s = false -> all_bytes addr_char s = true.
Proof.
  unfold ParseIP. destruct (addr_family s) as [[]|] eqn:E; [| |done].
  - destruct (parse_ipv4 s) eqn:E4; [|done]. intros _ _. by eapply ipv4_addr.
  - intros _ H. apply addr_family_v6 in E. congruence.
Qed.

Lemma is4_chars s : is4 s = true -> all_bytes addr_char s = true.
Proof.
  unfold is4. destruct (addr_family s) as [[]|]; try done. destruct (parse_ipv4 s) eqn:E; [|done].
  intros _. by eapply ipv4_addr.
Qed.

Lemma ParseCIDR_addr s n : ParseCIDR s = Some n -> contains_byte ":" s = false -> all_bytes addr_char s = true.
Proof.
  unfold ParseCIDR. destruct (index_byte "/" s) as [i|] eqn:Ei; [|done]. cbn [mbind option_bind].
  pose proof (index_byte_split _ _ _ Ei) as Hs. intros H Hc.
  destruct (addr_family _); [|done]. cbn [mbind option_bind] in H.
  destruct (ParseIP (take_str i s)) eqn:Eip; [|done]. cbn [mbind option_bind] in H.
  rewrite Hs in Hc |- *. rewrite contains_byte_app in Hc. apply orb_false_elim in Hc as [Hc _].
  rewrite all_bytes_app, (ParseIP_addr _ _ Eip Hc). cbn [andb all_bytes].
  destruct (drop_str (S i) s) as [|d t]; [done|].
  destruct (GoNet.digits_value 0 (String d t)) eqn:Ed; [|done].
  apply (all_bytes_impl is_digit); [apply digit_addr|]. by eapply digits_value_digits.
Qed.

Lemma check_source_chars r : check_source r = None -> all_bytes addr_char (hi_Src r) = true.
Proof.
  unfold check_source. destruct (String.eqb_spec (hi_Src r) "") as [->|]; [done|].
  destruct (ParseIP _) eqn:E1; [|destruct (ParseCIDR _) eqn:E2; [|done]];
    destruct (contains_byte ":" _) eqn:Ec; try done; intros _; [by eapply ParseIP_addr..|by eapply ParseCIDR_addr].
Qed.

Lemma port_lines_clean src proto port action :
  all_bytes addr_char src = true -> validProto proto = true -> validAction action = true ->
  forallb clean_rule (map (fun p => PortRule src p port (nftVerdict action)) (protoList proto)) = true.
Proof.
  intros Hs Hp Ha. destruct (validProto_cases _ Hp) as [->|[->| ->]], (validAction_cases _ Ha) as [-> | ->];
    simpl; by rewrite Hs.
Qed.

Lemma dnat_lines_clean proto port ip gport :
  all_bytes addr_char ip = true -> validProto proto = true -> port_ok port = true -> port_ok gport = true ->
  forallb clean_rule (dnat_lines proto port ip gport) = true.
Proof.
  intros Hs Hp H1 H2. destruct (validProto_cases _ Hp) as [->|[->| ->]]; simpl; by rewrite Hs, H1, H2.
Qed.

Lemma forallb_concat_map {A B} (p : B -> bool) (g : A -> list B) l :
  (forall a, a ∈ l -> forallb p (g a) = true) -> forallb p (concat (map g l)) = true.
Proof.
  induction l as [|a l IH]; intros H; simpl; [done|].
  rewrite forallb_app, H, IH; [done| |]; [intros b Hb; apply H|]; set_solver.
Qed.

Lemma vm_rule_lines_clean r : forallb clean_rule (vm_rule_lines r) = true.
Proof.
  unfold vm_rule_lines. destruct (rl_Disabled r); [done|]. destruct (validProto _) eqn:?; [|done].
  destruct (port_ok _); [|done]. destruct (validAction _) eqn:?; [|done]. by apply port_lines_clean.
Qed.

Lemma host_rule_lines_clean prot r : check_input prot r = None -> forallb clean_rule (host_rule_lines r) = true.
Proof.
  unfold check_input, host_rule_lines. destruct (hi_Disabled r); [done|].
  destruct (validProto _) eqn:?; [|done]. destruct (port_ok _); [|done].
  destruct (validAction _) eqn:?; [|done]. destruct (check_source r) eqn:Es; [done|]. intros _.
  apply port_lines_clean; [by apply check_source_chars|done..].
Qed.

Definition clean_forward (x : list string * list nft_rule) : bool :=
  forallb (all_bytes addr_char) x.1 && forallb clean_rule x.2.

Lemma host_forward_clean prot f : check_forward prot f = None -> clean_forward (host_forward_lines f) = true.
Proof.
  unfold check_forward, host_forward_lines. destruct (hf_Disabled f); [done|].
  destruct (validProto _) eqn:?; [|done]. destruct (port_ok (hf_HostPort f)) eqn:?; [|done].
  destruct (port_ok (hf_GuestPort f)) eqn:?; [|done]. cbn [negb andb orb].
  destruct (is_protected _ _); [done|]. destruct (ParseIP (hf_GuestIP f)) eqn:Ei; [|done].
  destruct (contains_byte ":" (hf_GuestIP f)) eqn:Ec; [done|]. intros _.
  assert (all_bytes addr_char (hf_GuestIP f) = true) as Hs by (by eapply ParseIP_addr).
  unfold clean_forward. cbn [fst snd forallb]. rewrite Hs. by apply dnat_lines_clean.
Qed.

Lemma vm_forward_clean resolve vmID f : clean_forward (vm_forward_lines resolve vmID f) = true.
Proof.
  unfold vm_forward_lines. destruct (forward_live resolve vmID f) eqn:E; [|done].
  unfold forward_live in E. bool_norm. unfold clean_forward. cbn [fst snd forallb].
  rewrite is4_chars by done. apply dnat_lines_clean; [by apply is4_chars|done..].
Qed.

Lemma all_forwards_clean resolve prot host all :
  (forall f, f ∈ Forwards host -> check_forward prot f = None) ->
  forallb clean_forward (all_forwards resolve host all) = true.
Proof.
  intros H. unfold all_forwards. rewrite forallb_app. apply andb_true_intro. split.
  - apply forallb_forall. intros x (f & <- & Hf)%in_map_iff. eapply host_forward_clean, H, list_elem_of_In, Hf.
  - apply forallb_concat_map. intros fw _. apply forallb_forall. intros x (f & <- & _)%in_map_iff.
    apply vm_forward_clean.
Qed.

Lemma clean_forwards_parts l :
  forallb clean_forward l = true ->
  forallb (all_bytes addr_char) (concat (map fst l)) = true /\ forallb clean_rule (concat (map snd l)) = true.
Proof.
  induction l as [|x l IH]; simpl; [done|]. intros [[H1 H2]%andb_prop Hl]%andb_prop.
  destruct (IH Hl). rewrite !forallb_app. split; by apply andb_true_intro.
Qed.

(** Nothing typed by an operator reaches nft unchecked.  Once the host rules
    are validated, in every rule of the ruleset the source, guest and target
    addresses consist of digits, dots and slashes, the protocol is [tcp] or
    [udp], the verdict [accept] or [drop] and the forwarded ports are in range,
    whatever the machines' stored rules hold and the resolver answers. *)
Theorem ruleset_tokens_clean resolve natProvider uplink webPort host all cs c r :
  ValidateHostFirewall host webPort = None ->
  (buildRulesetWith resolve natProvider uplink webPort host all).1 = Some cs ->
  c ∈ cs -> r ∈ ch_Rules c -> clean_rule r = true.
Proof.
  intros Hv ->%build_chains Hc Hr. unfold ValidateHostFirewall in Hv.
  destruct (first_err (check_input _) _) eqn:Hin; [done|]. rewrite first_err_None in Hin. rewrite first_err_None in Hv.
  apply (all_forwards_clean resolve _ _ all), clean_forwards_parts in Hv as [Ht Hl].
  enough (forallb clean_rule (ch_Rules c) = true) as H.
  { rewrite forallb_forall in H. by apply H, list_elem_of_In. }
  clear Hr. apply elem_of_cons in Hc as [->|[Hc|Hc]%elem_of_app].
  - unfold input_chain, ch_Rules. rewrite app_comm_cons, !forallb_app.
    apply andb_true_intro. split; [reflexivity|]. apply andb_true_intro. split.
    + apply forallb_concat_map. intros fw _. apply forallb_concat_map. intros rl _. apply vm_rule_lines_clean.
    + apply forallb_concat_map. intros hr Hhr. by eapply host_rule_lines_clean, Hin.
  - unfold nat_chains in Hc. destruct (empty_list (concat (map snd _))); [by apply elem_of_nil in Hc|].
    apply elem_of_cons in Hc as [->|Hc]; [done|].
    destruct (empty_list _); [by apply elem_of_nil in Hc|]. apply list_elem_of_singleton in Hc as ->.
    cbn. by rewrite Ht.
  - unfold bridge_chains in Hc. destruct (empty_list _); [by apply elem_of_nil in Hc|].
    apply elem_of_cons in Hc as [->|Hc%list_elem_of_singleton]; [|subst c]; cbn [ch_Rules]; apply forallb_concat_map; intros nb _; [|done].
    by destruct (String.eqb (nb_CIDR nb) "").
Qed.

(** ** Witnesses and examples *)

Module FwDemo.
Definition host : HostFirewall := MkHostFirewall
  [MkHostInputRule "i1" "" "both" 53 "10.0.0.0/8" "allow" false; MkHostInputRule "i2" "" "udp" 53 "" "drop" false]
  [MkHostForwardRule "f1" "" "tcp" 8443 "10.0.0.9" 443 false].
Definition vms : list VMFirewall :=
  [MkVMFirewall "vm1" [MkRule "r1" "tcp" 25 "drop" false]
     [MkForward "p1" "tcp" 2222 22 "" false false; MkForward "p2" "udp" 5000 5000 "" true false]].
Definition resolver : option (string -> string) := Some (fun id => if String.eqb id "vm1" then "10.0.0.7" else "").
Definition bridges : option (list NATBridge) := Some [MkNATBridge "vmbr1" "10.0.0.0/24"].
Definition chains : list chain := default [] (buildRulesetWith resolver bridges "eth0" 8080 host vms).1.
End FwDemo.

Lemma ruleset_exact_witness :
  input_accepts FwDemo.chains ∅ (MkPacket 1 "udp" 53) = false /\
  redirected FwDemo.chains (MkPacket 1 "tcp" 2222) = Some ("10.0.0.7", 22).
Proof.
  destruct (ruleset_exact FwDemo.resolver FwDemo.bridges "eth0" 8080 FwDemo.host FwDemo.vms FwDemo.chains ∅
    (MkPacket 1 "udp" 53)) as [H _]; [vm_compute; reflexivity|].
  destruct (ruleset_exact FwDemo.resolver FwDemo.bridges "eth0" 8080 FwDemo.host FwDemo.vms FwDemo.chains ∅
    (MkPacket 1 "tcp" 2222)) as [_ H']; [vm_compute; reflexivity|].
  split; [rewrite H|rewrite H']; vm_compute; reflexivity.
Defined.

Lemma ruleset_tokens_clean_witness : clean_rule (PortRule "10.0.0.0/8" "tcp" 53 "accept") = true.
Proof.
  apply (ruleset_tokens_clean FwDemo.resolver FwDemo.bridges "eth0" 8080 FwDemo.host FwDemo.vms FwDemo.chains
    (input_chain 8080 FwDemo.host FwDemo.vms)).
  - vm_compute. reflexivity.
  - vm_compute. reflexivity.
  - apply elem_of_cons. left. vm_compute. reflexivity.
  - vm_compute. do 4 right. left.
Defined.
