(* ===== verification/Firewall.v ===== *)
(** * Firewall: the rule stores, the manager and the Safe-Apply protocol

    Models [firewall/store.go], the [HostStore] of [firewall/host.go], the
    [Manager] of [firewall/nft.go] and [SetVMFirewall] of [api/firewall.go] over
    the rules and the rendering of FwRules.  The kernel holds the chains of the
    table last installed and the addresses of its [jail_blacklist] set; every
    [nft] call is given its outcome.  Operations under [applyMu] are one step;
    [Apply], which renders before it installs and holds another lock, is also
    given as two steps, and a timer that fired is a callback still to run. *)

From S2P Require Export FwRules AtomicFile.
Open Scope Z_scope.

Record pendingApply := MkPending { pa_prev : HostFirewall; pa_next : HostFirewall; pa_deadline : Z; pa_armed : bool }.

Definition no_rules : HostFirewall := MkHostFirewall [] [].

Section Manager.
Context (resolve : option (string -> string)) (natProvider : option (list NATBridge)) (uplink : string) (webPort : Z).
(** The order in which Go walks a map with these keys. *)
Context (walk : gset string -> list string).
(** [windowProvider] (its current answer, absent when not wired) and [rollbackAfter]. *)
Context (windowProvider : option Z) (rollbackAfter : Z).
Context {WV WH : Type} `{!Persist (gmap string VMFirewall) WV} `{!Persist HostFirewall WH}.

Record State := MkState {
  byVM : gmap string VMFirewall; vm_disk : WV;
  hostfw : option HostFirewall; host_disk : WH;     (* [m.host]: the confirmed rules, [None] when not attached *)
  pending : option pendingApply;
  fired : nat;                                      (* rollback callbacks waiting for the lock *)
  applying : option (option (list chain));          (* what an [Apply] has rendered and not yet installed *)
  kernel : option (list chain * gset Z)
}.

Definition set_byVM m (s : State) := MkState m (vm_disk s) (hostfw s) (host_disk s) (pending s) (fired s) (applying s) (kernel s).
Definition set_pending p (s : State) := MkState (byVM s) (vm_disk s) (hostfw s) (host_disk s) p (fired s) (applying s) (kernel s).
Definition set_fired n (s : State) := MkState (byVM s) (vm_disk s) (hostfw s) (host_disk s) (pending s) n (applying s) (kernel s).
Definition set_applying a (s : State) := MkState (byVM s) (vm_disk s) (hostfw s) (host_disk s) (pending s) (fired s) a (kernel s).
Definition set_kernel k (s : State) := MkState (byVM s) (vm_disk s) (hostfw s) (host_disk s) (pending s) (fired s) (applying s) k.

Abbreviation build := (buildRulesetWith resolve natProvider uplink webPort).

(** ** The stores *)

Definition Get (s : State) (vmID : string) : VMFirewall := default (MkVMFirewall vmID [] []) (byVM s !! vmID).

Definition All_of (m : gmap string VMFirewall) : list VMFirewall := omap (m !!.) (walk (dom m)).
Definition All (s : State) : list VMFirewall := All_of (byVM s).

Definition Save (s : State) : bool * State :=
  let '(ok, w) := save (byVM s) (vm_disk s) in
  (ok, MkState (byVM s) w (hostfw s) (host_disk s) (pending s) (fired s) (applying s) (kernel s)).

Definition Set_ (fw : VMFirewall) (s : State) : bool * State :=
  Save (set_byVM (if empty_list (fw_Rules fw) && empty_list (fw_Forwards fw)
                  then delete (fw_VMID fw) (byVM s) else <[fw_VMID fw := fw]> (byVM s)) s).

Definition SetApplied (vmID : string) (applied : list string) (s : State) : State :=
  match byVM s !! vmID with
  | None => s
  | Some v => set_byVM (<[vmID := MkVMFirewall (fw_VMID v) (fw_Rules v)
      (map (fun f => set_Applied (existsb (String.eqb (fd_ID f)) applied) f) (fw_Forwards v))]> (byVM s)) s
  end.

(** [HostStore.Set]: the memory first, then the file. *)
Definition host_Set (fw : HostFirewall) (s : State) : bool * State :=
  let '(ok, w) := save fw (host_disk s) in
  (ok, MkState (byVM s) (vm_disk s) (Some fw) w (pending s) (fired s) (applying s) (kernel s)).

(** [Load] of a store: a missing file is fine, a broken one leaves it empty. *)
Definition load {D W} `{Persist D W} (empty : D) (w : W) : D :=
  match stored w with Some (Whole d) => d | _ => empty end.

(** ** nft *)

(** [applyRuleset] and [flushTable]; the installed table starts with an empty jail set. *)
Definition install (r : option (list chain)) (nft : bool) (s : State) : bool * State :=
  if nft then (true, set_kernel ((fun cs => (cs, ∅)) <$> r) s) else (false, s).

(** [applyNftBan], [removeNftBan]: ignored when the table is absent. *)
Definition nft_ban (a : Z) (s : State) : State :=
  set_kernel ((fun '(cs, j) => (cs, {[a]} ∪ j)) <$> kernel s) s.
Definition nft_unban (a : Z) (s : State) : State :=
  set_kernel ((fun '(cs, j) => (cs, j ∖ {[a]})) <$> kernel s) s.

(** ** The manager *)

(** The rendering writes [Applied] into the forwards the store shares with it. *)
Definition mark_all (s : State) : State := set_byVM (mark_vm resolve <$> byVM s) s.

Definition render (host : HostFirewall) (s : State) : option (list chain) := (build host (All s)).1.

(** The host rules [BuildRuleset] renders: the staged ones while an apply is pending. *)
Definition effective (s : State) : HostFirewall :=
  match pending s with Some p => pa_next p | None => default no_rules (hostfw s) end.

Definition BuildRuleset (s : State) : option (list chain) := render (effective s) s.

Definition pending_counts (all : list VMFirewall) : gmap string nat :=
  foldl (fun m fw =>
    let pend := length (List.filter (fun f => negb (fd_Applied f)) (fw_Forwards fw)) in
    if Nat.eqb pend 0 then m else <[fw_VMID fw := pend]> m) ∅ all.

Definition Apply (nft : bool) (s : State) : res fw_err (gmap string nat) * State :=
  let ruleset := BuildRuleset s in
  let '(ok, s) := install ruleset nft (mark_all s) in
  if negb ok then (Err ErrNft, s)
  else match ruleset with
       | None => (Ok ∅, s)
       | Some _ => (Ok (pending_counts (All s)), s)
       end.

(** [Apply] as it interleaves with the operations that hold [applyMu]. *)
Definition apply_begin (s : State) : State :=
  match applying s with
  | Some _ => s                                   (* [rulesMu] is taken *)
  | None => set_applying (Some (BuildRuleset s)) (mark_all s)
  end.
Definition apply_end (nft : bool) (s : State) : State :=
  match applying s with
  | Some r => set_applying None (install r nft s).2
  | None => s
  end.

Definition confirmWindow : Z :=
  match windowProvider with
  | Some d => if (10 * second <=? d) && (d <=? 300 * second) then d else rollbackAfter
  | None => rollbackAfter
  end.

(** The deadline on success. *)
Definition StageHostApply (next : HostFirewall) (now : Z) (nft : bool) (s : State) : res fw_err Z * State :=
  match ValidateHostFirewall next webPort with
  | Some e => (Err e, s)
  | None =>
      match hostfw s with
      | None => (Err (ErrText "host firewall store not attached"), s)
      | Some prev =>
          match pending s with
          | Some _ => (Err (ErrText "a firewall apply is already pending confirmation"), s)
          | None =>
              let '(ok, s) := install (render next s) nft (mark_all s) in
              if negb ok then (Err ErrNft, s)
              else (Ok (now + confirmWindow),
                    set_pending (Some (MkPending prev next (now + confirmWindow) true)) s)
          end
      end
  end.

Definition ConfirmHostApply (s : State) : res fw_err unit * State :=
  match pending s with
  | None => (Err ErrNoPendingApply, s)
  | Some p =>
      let '(ok, s) := host_Set (pa_next p) (set_pending None s) in
      if ok then (Ok tt, s) else (Err ErrSave, s)
  end.

(** Whether there was anything to roll back. *)
Definition RollbackHostApply (nft : bool) (s : State) : res fw_err bool * State :=
  match pending s with
  | None => (Ok false, s)
  | Some p =>
      let s := set_pending None s in
      let '(ok, s) := install (render (pa_prev p) s) nft (mark_all s) in
      if ok then (Ok true, s) else (Err ErrNft, s)
  end.

(** [time.AfterFunc] runs its function in a goroutine of its own; [Timer.Stop]
    does not recall one that has started. *)
Definition fire (now : Z) (s : State) : State :=
  match pending s with
  | Some p => if pa_armed p && (pa_deadline p <=? now)
              then set_fired (S (fired s)) (set_pending (Some (MkPending (pa_prev p) (pa_next p) (pa_deadline p) false)) s)
              else s
  | None => s
  end.
Definition run_fired (nft : bool) (s : State) : res fw_err bool * State :=
  match fired s with
  | O => (Ok false, s)
  | S n => RollbackHostApply nft (set_fired n s)
  end.

Definition PendingApply (s : State) : option (HostFirewall * Z) := (fun p => (pa_next p, pa_deadline p)) <$> pending s.
Definition HostRules (s : State) : option HostFirewall := hostfw s.

Definition RenderRuleset (host : HostFirewall) (s : State) : res fw_err string * State :=
  match ValidateHostFirewall host webPort with
  | Some e => (Err e, s)
  | None => (Ok (print_ruleset (render host s)), mark_all s)
  end.

(** ** The handler of a machine's rules *)

Definition check_vm_rule (r : Rule) : option fw_err :=
  if rl_Disabled r then None
  else if negb (validProto (rl_Proto r)) then Some (ErrText "invalid rule protocol")
  else if negb (port_ok (rl_Port r)) then Some (ErrText "rule port must be 1-65535")
  else if negb (validAction (rl_Action r)) then Some (ErrText "rule action must be allow or drop") else None.

Definition check_forward_ports (f : Forward) : option fw_err :=
  if fd_Disabled f then None
  else if negb (validProto (fd_Proto f)) then Some (ErrText "invalid forward protocol")
  else if negb (port_ok (fd_HostPort f) && port_ok (fd_GuestPort f)) then Some (ErrText "forward ports must be 1-65535")
  else None.

Definition SetVMFirewall (id : string) (rules : list Rule) (forwards : list Forward) (isAdmin : bool) (vmIP : string)
    (nft : bool) (s : State) : res fw_err (VMFirewall * gmap string nat) * State :=
  match first_err check_vm_rule rules with Some e => (Err e, s) | None =>
  match first_err check_forward_ports forwards with Some e => (Err e, s) | None =>
  match validateVMForwards forwards isAdmin vmIP (ProtectedPorts webPort) with Some e => (Err e, s) | None =>
  let '(ok, s) := Set_ (MkVMFirewall id rules forwards) s in
  if negb ok then (Err ErrSave, s) else
  match Apply nft s with
  | (Ok counts, s) => (Ok (Get s id, counts), s)
  | (Err e, s) => (Err e, s)
  end end end end.

(** ** Start-up: both stores are read, and the rules applied *)

Definition start (wv : WV) (wh : WH) (k : option (list chain * gset Z)) (nft : bool) : State :=
  (Apply nft (MkState (load ∅ wv) wv (Some (load no_rules wh)) wh None 0 None k)).2.

Definition restart (nft : bool) (s : State) : State := start (vm_disk s) (host_disk s) (kernel s) nft.

(** ** Runs *)

Inductive label :=
| LStage (next : HostFirewall) (now : Z) (nft : bool)
| LConfirm
| LRollback (nft : bool)
| LFire (now : Z)
| LRunFired (nft : bool)
| LSetVM (id : string) (rules : list Rule) (forwards : list Forward) (isAdmin : bool) (vmIP : string) (nft : bool)
| LPreview (host : HostFirewall)
| LApply (nft : bool)
| LApplyBegin
| LApplyEnd (nft : bool)
| LBan (a : Z)
| LUnban (a : Z).

Definition step (l : label) (s : State) : State :=
  match l with
  | LStage next now nft => (StageHostApply next now nft s).2
  | LConfirm => (ConfirmHostApply s).2
  | LRollback nft => (RollbackHostApply nft s).2
  | LFire now => fire now s
  | LRunFired nft => (run_fired nft s).2
  | LSetVM id rules fs isAdmin vmIP nft => (SetVMFirewall id rules fs isAdmin vmIP nft s).2
  | LPreview host => (RenderRuleset host s).2
  | LApply nft => (Apply nft s).2
  | LApplyBegin => apply_begin s
  | LApplyEnd nft => apply_end nft s
  | LBan a => nft_ban a s
  | LUnban a => nft_unban a s
  end.

(** No [nft] call and no write of a store failed, and [Apply] ran undisturbed. *)
Definition is_failure (e : fw_err) : bool := match e with ErrNft | ErrSave => true | _ => false end.
Definition no_failure {A} (r : res fw_err A) : bool := match r with Err e => negb (is_failure e) | Ok _ => true end.
Definition quiet (l : label) (s : State) : bool :=
  match l with
  | LStage next now nft => no_failure (StageHostApply next now nft s).1
  | LConfirm => no_failure (ConfirmHostApply s).1
  | LRollback nft => no_failure (RollbackHostApply nft s).1
  | LRunFired nft => no_failure (run_fired nft s).1
  | LSetVM id rules fs isAdmin vmIP nft => no_failure (SetVMFirewall id rules fs isAdmin vmIP nft s).1
  | LApply nft => no_failure (Apply nft s).1
  | LApplyBegin | LApplyEnd _ => false
  | LFire _ | LPreview _ | LBan _ | LUnban _ => true
  end.

Fixpoint quiet_run (ls : list label) (s : State) : bool :=
  match ls with [] => true | l :: ls => quiet l s && quiet_run ls (step l s) end.
End Manager.
