(* ===== verification/FirewallFacts.v ===== *)
(** * FirewallFacts: what the Safe-Apply protocol guarantees

    The invariants of the manager of Firewall over every sequence of its
    operations, with the races and divergences found in it as examples. *)

From S2P Require Export Firewall.
Open Scope Z_scope.

Section Facts.
Context (resolve : option (string -> string)) (natProvider : option (list NATBridge)) (uplink : string) (webPort : Z).
Context (walk : gset string -> list string) (windowProvider : option Z) (rollbackAfter : Z).
Context {WV WH : Type} `{!Persist (gmap string VMFirewall) WV} `{!Persist HostFirewall WH}.

Abbreviation state := (State (WV := WV) (WH := WH)).
Abbreviation mark := (mark_vm resolve).
Abbreviation build := (buildRulesetWith resolve natProvider uplink webPort).
Abbreviation Build := (BuildRuleset resolve natProvider uplink webPort walk).
Abbreviation rend := (render resolve natProvider uplink webPort walk).
Abbreviation do_step := (step resolve natProvider uplink webPort walk windowProvider rollbackAfter).
Abbreviation do_run := (run do_step).
Abbreviation start_up := (start resolve natProvider uplink webPort walk).
Abbreviation is_quiet := (quiet resolve natProvider uplink webPort walk windowProvider rollbackAfter).
Abbreviation quiet_steps := (quiet_run resolve natProvider uplink webPort walk windowProvider rollbackAfter).

(** ** Rendering does not depend on the [Applied] marks *)

Lemma mark_forward_live vmID f : forward_live resolve vmID (mark_forward resolve vmID f) = forward_live resolve vmID f.
Proof. unfold mark_forward. by destruct (fd_Disabled f) eqn:E. Qed.

Lemma mark_forward_lines vmID f : vm_forward_lines resolve vmID (mark_forward resolve vmID f) = vm_forward_lines resolve vmID f.
Proof.
  unfold vm_forward_lines. rewrite mark_forward_live. unfold mark_forward. by destruct (fd_Disabled f).
Qed.

Lemma mark_forward_idemp vmID f : mark_forward resolve vmID (mark_forward resolve vmID f) = mark_forward resolve vmID f.
Proof.
  unfold mark_forward at 1. rewrite mark_forward_live. unfold mark_forward. destruct (fd_Disabled f) eqn:E; by rewrite ?E; cbn; rewrite ?E.
Qed.

Lemma mark_idemp fw : mark (mark fw) = mark fw.
Proof. unfold mark_vm. simpl. f_equal. rewrite map_map. apply map_ext. intros f. apply mark_forward_idemp. Qed.

Lemma mark_map_idemp (m : gmap string VMFirewall) : mark <$> (mark <$> m) = mark <$> m.
Proof. rewrite <- map_fmap_compose. apply map_fmap_ext. intros; apply mark_idemp. Qed.

Lemma build_mark host all : (build host (map mark all)).1 = (build host all).1.
Proof.
  unfold buildRulesetWith. assert (empty_list (map mark all) = empty_list all) as -> by by destruct all.
  destruct (_ && _); [done|]. cbn [fst]. f_equal. f_equal.
  - unfold input_chain. by rewrite map_map.
  - f_equal. unfold nat_chains. assert (all_forwards resolve host (map mark all) = all_forwards resolve host all) as ->; [|done].
    unfold all_forwards. f_equal. rewrite map_map. f_equal. apply map_ext. intros fw. cbn.
    rewrite map_map. apply map_ext. intros f. apply mark_forward_lines.
Qed.

Lemma All_mark (m : gmap string VMFirewall) : All_of walk (mark <$> m) = map mark (All_of walk m).
Proof.
  unfold All_of. rewrite dom_fmap_L. generalize (walk (dom m)). intros l. induction l as [|k l IH]; [done|].
  cbn. rewrite lookup_fmap. destruct (m !! k); cbn; [by f_equal|done].
Qed.

(** Two states with the same rules, up to the marks. *)
Lemma render_same host (s s' : state) : mark <$> byVM s = mark <$> byVM s' -> rend host s = rend host s'.
Proof.
  intros E. unfold render, All. rewrite <- (build_mark host (All_of walk (byVM s))), <- (build_mark host (All_of walk (byVM s'))).
  by rewrite <- !All_mark, E.
Qed.

Lemma render_mark host (s : state) : rend host (mark_all resolve s) = rend host s.
Proof. apply render_same. simpl. apply mark_map_idemp. Qed.

(** ** The kernel runs what the manager says *)

Record coherent (s : state) : Prop := {
  co_kernel : fst <$> kernel s = Build s;
  co_prev : forall p, pending s = Some p -> hostfw s = Some (pa_prev p);
  co_vm : mark <$> load ∅ (vm_disk s) = mark <$> byVM s;
  co_host : load no_rules (host_disk s) = default no_rules (hostfw s)
}.

(** The part that does not speak of the kernel. *)
Definition settled (s : state) : Prop :=
  (forall p, pending s = Some p -> hostfw s = Some (pa_prev p)) /\
  mark <$> load ∅ (vm_disk s) = mark <$> byVM s /\ load no_rules (host_disk s) = default no_rules (hostfw s).

Lemma coherent_settled (s : state) : coherent s <-> fst <$> kernel s = Build s /\ settled s.
Proof. split; [intros []; by split_and!|intros (? & ? & ? & ?); by constructor]. Qed.

Lemma settled_mark (s : state) : settled s -> settled (mark_all resolve s).
Proof. intros (? & Hv & ?). split_and!; [done| |done]. simpl. by rewrite mark_map_idemp. Qed.

Lemma fst_installed (r : option (list chain)) : fst <$> ((fun cs => (cs, ∅ : gset Z)) <$> r) = r.
Proof. by destruct r. Qed.

(** Installing what the new state would render makes it coherent. *)
Lemma coherent_installed host (s : state) :
  settled s -> host = effective s ->
  coherent (set_kernel ((fun cs => (cs, ∅)) <$> rend host s) s).
Proof.
  intros Hs ->. apply coherent_settled. split; [|done]. cbn [kernel set_kernel]. rewrite fst_installed. done.
Qed.

Lemma load_stored {D W} `{Persist D W} (e d : D) (w w' : W) : save d w = (true, w') -> load e w' = d.
Proof. intros E. unfold load. by rewrite (save_true _ _ _ E). Qed.

Lemma Apply_coherent (s : state) : settled s -> coherent (Apply resolve natProvider uplink webPort walk true s).2.
Proof.
  intros Hs. unfold Apply. cbn [install negb].
  assert (coherent (set_kernel ((fun cs => (cs, ∅)) <$> Build s) (mark_all resolve s))) as H.
  { unfold BuildRuleset. rewrite <- render_mark. apply coherent_installed; [by apply settled_mark|done]. }
  by destruct (Build s).
Qed.

Lemma Apply_quiet nft (s : state) :
  settled s -> no_failure (Apply resolve natProvider uplink webPort walk nft s).1 = true ->
  coherent (Apply resolve natProvider uplink webPort walk nft s).2.
Proof. intros Hs Hq. destruct nft; [by apply Apply_coherent|done]. Qed.

Lemma start_coherent wv wh k : coherent (start_up wv wh k true).
Proof. apply Apply_coherent. split_and!; done. Qed.

Lemma rollback_coherent (s : state) nft :
  coherent s -> no_failure (RollbackHostApply resolve natProvider uplink webPort walk nft s).1 = true ->
  coherent (RollbackHostApply resolve natProvider uplink webPort walk nft s).2.
Proof.
  intros H. unfold RollbackHostApply. destruct (pending s) as [p|] eqn:Ep; [|done].
  unfold install. destruct nft; [|done]. intros _. cbn [snd].
  apply coherent_settled in H as [_ Hs]. rewrite <- render_mark. apply coherent_installed.
  - apply settled_mark. destruct Hs as (Hp & Hv & Hh). by split_and!.
  - unfold effective. cbn. destruct Hs as (Hp & _). by rewrite (Hp p Ep).
Qed.

Lemma quiet_step l (s : state) : coherent s -> is_quiet l s = true -> coherent (do_step l s).
Proof.
  intros H Hq. pose proof (proj1 (coherent_settled s) H) as [Hk Hs]. destruct l; simpl in Hq |- *.
  - (* stage *) unfold StageHostApply in *. destruct (ValidateHostFirewall _ _); [done|].
    destruct (hostfw s) as [prev|] eqn:Eh; [|done]. destruct (pending s) eqn:Ep; [done|].
    unfold install in *. destruct nft; [|done]. cbn [negb snd]. rewrite <- render_mark.
    apply coherent_settled. split; [cbn [kernel set_pending set_kernel]; by rewrite fst_installed|].
    destruct (settled_mark s Hs) as (_ & Hv & Hh). split_and!; [|done..]. intros p [= <-]. done.
  - (* confirm *) unfold ConfirmHostApply, host_Set in *. destruct (pending s) as [p|] eqn:Ep; [|done].
    cbn in *. destruct (save (pa_next p) (host_disk s)) as [ok w] eqn:Es. destruct ok; [|done].
    apply coherent_settled. destruct Hs as (_ & Hv & _). split; [|split_and!; try done].
    + cbn. rewrite Hk. unfold BuildRuleset, effective. by rewrite Ep.
    + simpl. by apply (load_stored _ _ _ _ Es).
  - by apply rollback_coherent.
  - (* fire *) unfold fire. destruct (pending s) as [p|] eqn:Ep; [|done]. destruct (_ && _); [|done].
    apply coherent_settled. destruct Hs as (Hp & Hv & Hh). split; [|split_and!; try done].
    + cbn. rewrite Hk. unfold BuildRuleset, effective. by rewrite Ep.
    + intros p' [= <-]. simpl. by apply Hp.
  - (* run_fired *) unfold run_fired in *. destruct (fired s); [done|]. apply rollback_coherent; [|done].
    by apply coherent_settled.
  - (* set rules *) unfold SetVMFirewall in *. destruct (first_err check_vm_rule rules); [done|].
    destruct (first_err check_forward_ports forwards); [done|]. destruct (validateVMForwards _ _ _ _); [done|].
    unfold Set_, Save in *. destruct (save _ _) as [ok w] eqn:Es. destruct ok; [|done]. cbn [negb] in *.
    destruct (Apply _ _ _ _ _ nft _) as [r s'] eqn:Ea.
    match type of Ea with Apply _ _ _ _ _ _ ?x = _ => pose proof (Apply_quiet nft x) as Ha end.
    rewrite Ea in Ha. destruct Hs as (Hp & _ & Hh).
    destruct r; apply Ha; try done; (split_and!; [done| |done]; cbn; f_equal; apply (load_stored _ _ _ _ Es)).
  - (* preview *) unfold RenderRuleset. destruct (ValidateHostFirewall _ _); [done|]. cbn [snd].
    apply coherent_settled. split; [|by apply settled_mark].
    change (fst <$> kernel s = Build (mark_all resolve s)). rewrite Hk. symmetry. apply (render_mark (effective s)).
  - by apply Apply_quiet.
  - done.
  - done.
  - apply coherent_settled. split; [|done].
    etransitivity; [|exact Hk]. cbn. by destruct (kernel s) as [[]|].
  - apply coherent_settled. split; [|done].
    etransitivity; [|exact Hk]. cbn. by destruct (kernel s) as [[]|].
Qed.

Lemma quiet_run_coherent ls : forall s : state, coherent s -> quiet_steps ls s = true -> coherent (do_run ls s).
Proof.
  induction ls as [|l ls IH]; intros s Hs; [done|]. intros [Hq Hr]%andb_prop. cbn. apply IH; [|done].
  by apply quiet_step.
Qed.

(** ** The confirmed rules change by confirmation only *)

Lemma install_frame r nft (s : state) :
  hostfw (install r nft s).2 = hostfw s /\ host_disk (install r nft s).2 = host_disk s.
Proof. by destruct nft. Qed.

Lemma rollback_frame nft (s : state) :
  hostfw (RollbackHostApply resolve natProvider uplink webPort walk nft s).2 = hostfw s /\
  host_disk (RollbackHostApply resolve natProvider uplink webPort walk nft s).2 = host_disk s.
Proof. unfold RollbackHostApply. destruct (pending s); [|done]. by destruct nft. Qed.

Lemma Apply_frame nft (s : state) :
  hostfw (Apply resolve natProvider uplink webPort walk nft s).2 = hostfw s /\
  host_disk (Apply resolve natProvider uplink webPort walk nft s).2 = host_disk s.
Proof. unfold Apply. destruct nft; [|done]. cbn [install negb]. by destruct (Build s). Qed.

Lemma Apply_vms nft (s : state) :
  byVM (Apply resolve natProvider uplink webPort walk nft s).2 = mark <$> byVM s /\
  pending (Apply resolve natProvider uplink webPort walk nft s).2 = pending s.
Proof. unfold Apply. destruct nft; [|done]. cbn [install negb]. by destruct (Build s). Qed.

Lemma step_frame l (s : state) :
  l <> LConfirm -> hostfw (do_step l s) = hostfw s /\ host_disk (do_step l s) = host_disk s.
Proof.
  intros Hl. destruct l; cbn [step]; try done.
  - unfold StageHostApply. destruct (ValidateHostFirewall _ _); [done|]. destruct (hostfw s) eqn:E; [|done].
    destruct (pending s); [done|]. by destruct nft.
  - apply rollback_frame.
  - unfold fire. destruct (pending s); [|done]. by destruct (_ && _).
  - unfold run_fired. destruct (fired s) as [|n]; [done|]. apply (rollback_frame nft (set_fired n s)).
  - unfold SetVMFirewall. destruct (first_err check_vm_rule rules); [done|].
    destruct (first_err check_forward_ports forwards); [done|]. destruct (validateVMForwards _ _ _ _); [done|].
    unfold Set_, Save. destruct (save _ _) as [ok w]. destruct ok; [|done]. cbn [negb].
    match goal with |- context [Apply _ _ _ _ _ nft ?x] => pose proof (Apply_frame nft x) as Ha;
      destruct (Apply resolve natProvider uplink webPort walk nft x) as [r s'] end.
    by destruct r.
  - unfold RenderRuleset. by destruct (ValidateHostFirewall _ _).
  - apply Apply_frame.
  - unfold apply_begin. by destruct (applying s).
  - unfold apply_end. destruct (applying s); [|done]. by destruct nft.
Qed.

Lemma run_frame ls : forall s : state, Forall (fun l => l <> LConfirm) ls ->
  hostfw (do_run ls s) = hostfw s /\ host_disk (do_run ls s) = host_disk s.
Proof.
  induction ls as [|l ls IH]; intros s H; [done|]. inversion H as [|?? Hl Hls]; subst.
  destruct (IH (do_step l s) Hls) as [E1 E2]. destruct (step_frame l s Hl) as [E3 E4].
  split; [by etransitivity; [exact E1|]|by etransitivity; [exact E2|]].
Qed.


(** A restart brings the confirmed firewall back.  After any run in which
    nothing failed, restarting the service from its two files makes the kernel
    run exactly the rules it would run now without the staged change: the
    machines' current rules and the confirmed host rules. *)
Theorem restart_restores_firewall wv wh k ls :
  let s0 : state := start_up wv wh k true in
  quiet_steps ls s0 = true ->
  let s := do_run ls s0 in let s' := restart resolve natProvider uplink webPort walk true s in
  pending s' = None /\ fst <$> kernel s' = rend (default no_rules (hostfw s)) s.
Proof.
  intros s0 Hq s s'. assert (coherent s) as [_ _ Hv Hh] by (apply quiet_run_coherent; [apply start_coherent|done]).
  pose proof (start_coherent (vm_disk s) (host_disk s) (kernel s)) as [Hk _ _ _].
  assert (pending s' = None /\ hostfw s' = Some (load no_rules (host_disk s)) /\
          mark <$> byVM s' = mark <$> load ∅ (vm_disk s)) as (Hp & Hhost & Hvm).
  { unfold s', restart, start.
    match goal with |- context [Apply _ _ _ _ _ _ ?x] => destruct (Apply_frame true x) as [E1 _];
      destruct (Apply_vms true x) as [E2 E3] end.
    rewrite E1, E2, E3. split_and!; [done..|]. apply mark_map_idemp. }
  split; [done|]. unfold s', restart in *. rewrite Hk. unfold BuildRuleset, effective. rewrite Hp, Hhost. cbn [default].
  rewrite <- Hh. apply render_same. by rewrite Hvm.
Qed.

(** ** Nobody is locked out, in any state *)

Definition open_table (cs : list chain) : Prop :=
  forall jail pk, management webPort pk = true -> pk_src pk ∉ jail ->
    redirected cs pk = None /\ input_accepts cs jail pk = true.

Definition safe_forwards (fw : VMFirewall) : Prop :=
  exists isAdmin vmIP, validateVMForwards (fw_Forwards fw) isAdmin vmIP (ProtectedPorts webPort) = None.
Definition safe_host (h : HostFirewall) : Prop := ValidateHostFirewall h webPort = None.

Record guarded (s : state) : Prop := {
  gd_vm : map_Forall (fun _ => safe_forwards) (byVM s);
  gd_host : safe_host (default no_rules (hostfw s));
  gd_pending : forall p, pending s = Some p -> safe_host (pa_prev p) /\ safe_host (pa_next p);
  gd_applying : forall cs, applying s = Some (Some cs) -> open_table cs;
  gd_kernel : forall cs j, kernel s = Some (cs, j) -> open_table cs
}.

Lemma render_open host (s : state) cs :
  map_Forall (fun _ => safe_forwards) (byVM s) -> safe_host host -> rend host s = Some cs -> open_table cs.
Proof.
  intros Hv Hh Hr jail pk Hm Hj. eapply management_reachable; try done.
  intros fw Hfw. unfold All, All_of in Hfw. apply list_elem_of_omap in Hfw as (id & _ & Hid). by apply (Hv id).
Qed.

Lemma safe_forwards_mark fw : safe_forwards fw -> safe_forwards (mark fw).
Proof.
  intros (isAdmin & vmIP & H). exists isAdmin, vmIP. unfold validateVMForwards in *. rewrite first_err_None in *.
  intros f (f' & -> & Hf')%list_elem_of_fmap. specialize (H f' Hf'). rewrite <- H. unfold mark_forward.
  destruct (fd_Disabled f') eqn:E; [done|]. unfold check_vm_forward. cbn. by rewrite E.
Qed.

Lemma guarded_mark (s : state) : guarded s -> guarded (mark_all resolve s).
Proof.
  intros []. split; try done. cbn. intros id fw. rewrite lookup_fmap_Some. intros (fw' & <- & H).
  by apply safe_forwards_mark, (gd_vm0 id).
Qed.

Lemma guarded_effective (s : state) : guarded s -> safe_host (effective s).
Proof. intros []. unfold effective. destruct (pending s) as [p|]; [by apply gd_pending0|done]. Qed.

Lemma guarded_install r nft (s : state) :
  guarded s -> (forall cs, r = Some cs -> open_table cs) -> guarded (install r nft s).2.
Proof.
  intros Hs Hr. unfold install. destruct nft; [|done]. destruct Hs. split; try done.
  cbn. intros cs j. destruct r; [|done]. intros [= <- _]. by apply Hr.
Qed.

Lemma guarded_render host nft (s : state) :
  guarded s -> safe_host host -> guarded (install (rend host s) nft (mark_all resolve s)).2.
Proof.
  intros Hs Hh. apply guarded_install; [by apply guarded_mark|].
  intros cs. apply render_open; [apply Hs|done].
Qed.

Lemma guarded_rollback nft (s : state) :
  guarded s -> guarded (RollbackHostApply resolve natProvider uplink webPort walk nft s).2.
Proof.
  intros Hs. unfold RollbackHostApply. destruct (pending s) as [p|] eqn:Ep; [|done].
  assert (guarded (set_pending None s)) as Hs' by (destruct Hs; by split).
  pose proof (guarded_render (pa_prev p) nft _ Hs' (proj1 (gd_pending _ Hs p Ep))) as H.
  destruct (install _ nft _) as [[] s'] eqn:E; exact H.
Qed.

Lemma guarded_Apply nft (s : state) : guarded s -> guarded (Apply resolve natProvider uplink webPort walk nft s).2.
Proof.
  intros Hs. pose proof (guarded_render _ nft _ Hs (guarded_effective s Hs)) as H. unfold Apply, BuildRuleset.
  destruct (install _ nft _) as [[] s'] eqn:E; [|exact H]. cbn [negb]. by destruct (rend _ s).
Qed.

Lemma guarded_step l (s : state) : guarded s -> guarded (do_step l s).
Proof.
  intros Hs. destruct l; cbn [step].
  - unfold StageHostApply. destruct (ValidateHostFirewall next webPort) eqn:Ev; [done|].
    destruct (hostfw s) as [prev|] eqn:Eh; [|done]. destruct (pending s); [done|].
    pose proof (guarded_render next nft s Hs Ev) as H.
    destruct (install _ nft _) as [[] s'] eqn:E; [|exact H]. cbn [negb snd] in *. destruct H. split; try done.
    intros p [= <-]. split; [|done]. cbn. pose proof (gd_host _ Hs) as Hp. by rewrite Eh in Hp.
  - unfold ConfirmHostApply, host_Set. destruct (pending s) as [p|] eqn:Ep; [|done].
    pose proof (gd_pending _ Hs p Ep) as [_ Hn]. cbn. destruct (save _ _) as [[] w]; destruct Hs; by split.
  - by apply guarded_rollback.
  - unfold fire. destruct (pending s) as [p|] eqn:Ep; [|done]. destruct (_ && _); [|done].
    pose proof (gd_pending _ Hs p Ep). destruct Hs. split; try done. by intros p' [= <-].
  - unfold run_fired. destruct (fired s); [done|]. apply guarded_rollback. destruct Hs. by split.
  - unfold SetVMFirewall. destruct (first_err check_vm_rule rules); [done|].
    destruct (first_err check_forward_ports forwards); [done|]. destruct (validateVMForwards _ _ _ _) eqn:Ev; [done|].
    unfold Set_, Save. destruct (save _ _) as [ok w].
    match goal with |- context [Apply _ _ _ _ _ nft ?x] => assert (guarded x) as Hx;
      [|pose proof (guarded_Apply nft x Hx) as Ha;
        destruct (Apply resolve natProvider uplink webPort walk nft x) as [r s']] end.
    { destruct Hs. split; try done. cbn. destruct (_ && _); [by apply map_Forall_delete|].
      apply map_Forall_insert_2; [by exists isAdmin, vmIP|done]. }
    destruct ok; [by destruct r|exact Hx].
  - unfold RenderRuleset. destruct (ValidateHostFirewall _ _); [done|]. by apply guarded_mark.
  - by apply guarded_Apply.
  - unfold apply_begin. destruct (applying s); [done|]. pose proof (guarded_mark s Hs) as H. destruct H. split; try done.
    intros cs [= H]. revert H. apply render_open; [apply Hs|by apply guarded_effective].
  - unfold apply_end. destruct (applying s) as [r|] eqn:Ea; [|done].
    assert (guarded (install r nft s).2) as H.
    { apply guarded_install; [done|]. intros cs ->. by apply (gd_applying _ Hs). }
    destruct H. by split.
  - destruct Hs. split; try done. cbn. intros cs j. destruct (kernel s) as [[cs' j']|]; [|done].
    intros [= <- _]. by eapply gd_kernel0.
  - destruct Hs. split; try done. cbn. intros cs j. destruct (kernel s) as [[cs' j']|]; [|done].
    intros [= <- _]. by eapply gd_kernel0.
Qed.

(** C2: the administrator is never locked out.  From start-up on any files whose
    rules were validated, after any operations, failed [nft] calls, failed
    writes, expired timers and interleaved applies included, the installed table
    neither redirects nor drops a TCP packet to SSH or to the web interface
    whose source is not in the kernel's jail set. *)
Theorem management_always_reachable wv wh k nft ls cs jail pk :
  (forall cs j, k = Some (cs, j) -> open_table cs) ->
  map_Forall (fun _ => safe_forwards) (load ∅ wv : gmap string VMFirewall) -> safe_host (load no_rules wh) ->
  kernel (do_run ls (start_up wv wh k nft) : state) = Some (cs, jail) ->
  management webPort pk = true -> pk_src pk ∉ jail ->
  redirected cs pk = None /\ input_accepts cs jail pk = true.
Proof.
  intros Hk Hv Hh Hrun Hm Hj.
  assert (guarded (do_run ls (start_up wv wh k nft))) as Hg.
  { apply run_invariant; [intros l s; apply guarded_step|]. apply guarded_Apply. by split. }
  by apply (gd_kernel _ Hg cs jail).
Qed.
End Facts.

(** ** Witnesses, races and divergences *)

Module FirewallDemo.
Abbreviation vmfs := (fs (gmap string VMFirewall)).
Abbreviation hostfs := (fs HostFirewall).
#[global] Instance vm_rules_disk : Persist (gmap string VMFirewall) vmfs :=
  fs_persist "/data/firewall.json" saveJSON (saveJSON_atomic _).
#[global] Instance host_rules_disk : Persist HostFirewall hostfs :=
  fs_persist "/data/firewall-host.json" saveJSON (saveJSON_atomic _).

Definition walk (ks : gset string) : list string := elements ks.
Definition fw_step : label -> State (WV := vmfs) (WH := hostfs) -> State :=
  step FwDemo.resolver FwDemo.bridges "eth0" 8080 walk None (30 * second).
Definition fw_start : State (WV := vmfs) (WH := hostfs) :=
  start FwDemo.resolver FwDemo.bridges "eth0" 8080 walk (MkFs ∅ [] []) (MkFs ∅ [] []) None true.
Definition fw_run (ls : list label) : State (WV := vmfs) (WH := hostfs) := run fw_step ls fw_start.
Definition table (s : State (WV := vmfs) (WH := hostfs)) : list chain := match kernel s with Some (cs, _) => cs | None => [] end.
Definition jail (s : State (WV := vmfs) (WH := hostfs)) : gset Z := match kernel s with Some (_, j) => j | None => ∅ end.

Definition block_dns : HostFirewall := MkHostFirewall [MkHostInputRule "i1" "" "udp" 53 "" "drop" false] [].
Definition block_ntp : HostFirewall := MkHostFirewall [MkHostInputRule "i2" "" "udp" 123 "" "drop" false] [].
Definition dns : packet := MkPacket 5 "udp" 53.
Definition ntp : packet := MkPacket 5 "udp" 123.

(** The jail set is redefined empty by every installed ruleset: editing any
    machine's rules lets a banned address in again. *)
Example apply_clears_jail :
  let banned := fw_run [LBan 7] in
  let edited := fw_run [LBan 7; LSetVM "vm1" [] [] true "" true] in
  input_accepts (table banned) (jail banned) (MkPacket 7 "tcp" 22) = false /\
  input_accepts (table edited) (jail edited) (MkPacket 7 "tcp" 22) = true.
Proof. vm_compute. by split. Qed.

(** [Apply] renders under one lock and installs under another: an apply that
    rendered the staged rules puts them back after they were rolled back. *)
Example apply_resurrects_rolled_back :
  let s := fw_run [LStage block_dns 0 true; LApplyBegin; LRollback true; LApplyEnd true] in
  pending s = None /\ HostRules s = Some no_rules /\ input_accepts (table s) ∅ dns = false.
Proof. vm_compute. by split_and!. Qed.

(** ... and one that rendered before the stage undoes the staged rules, which are
    then confirmed though the kernel does not run them. *)
Example apply_undoes_stage :
  let s := fw_run [LApplyBegin; LStage block_dns 0 true; LApplyEnd true; LConfirm] in
  HostRules s = Some block_dns /\ input_accepts (table s) ∅ dns = true.
Proof. vm_compute. by split. Qed.

(** A rollback callback that started before a confirmation rolls back whatever
    is staged when it gets the lock, long before the deadline of that change. *)
Example stale_timer_rolls_back :
  let s := fw_run [LStage block_dns 0 true; LFire (30 * second); LConfirm; LStage block_ntp (30 * second) true] in
  PendingApply s = Some (block_ntp, 60 * second) /\
  let s := fw_step (LRunFired true) s in
  PendingApply s = None /\ input_accepts (table s) ∅ ntp = true.
Proof. vm_compute. by split_and!. Qed.

(** A rollback whose [nft] fails forgets the pending change: the kernel keeps the
    unconfirmed rules and nothing tries again. *)
Example failed_rollback_is_final :
  let s := fw_run [LStage block_dns 0 true; LFire (30 * second); LRunFired false; LRollback true] in
  PendingApply s = None /\ HostRules s = Some no_rules /\ input_accepts (table s) ∅ dns = false.
Proof. vm_compute. by split_and!. Qed.

(** A ruleset that [nft] refuses leaves its forwards marked as applied. *)
Example refused_but_applied :
  let s := fw_run [LSetVM "vm1" [] [MkForward "p1" "tcp" 2222 22 "" false false] true "" false] in
  map fd_Applied (fw_Forwards (Get s "vm1")) = [true] /\ redirected (table s) (MkPacket 5 "tcp" 2222) = None.
Proof. vm_compute. by split. Qed.

(** A disabled forward counts as pending. *)
Example disabled_counts_as_pending :
  (SetVMFirewall FwDemo.resolver FwDemo.bridges "eth0" 8080 walk "vm1" []
     [MkForward "p1" "tcp" 2222 22 "" true false] true "" true fw_start).1
  = Ok (MkVMFirewall "vm1" [] [MkForward "p1" "tcp" 2222 22 "" true false], {[ "vm1" := 1%nat ]}).
Proof. vm_compute. reflexivity. Qed.

(** The forwards are not checked again when the port of the web interface
    changes: a stored forward then takes the traffic of the new port. *)
Example port_change_hijacks :
  ValidateHostFirewall FwDemo.host 8080 = None /\
  redirected (default [] (buildRulesetWith None None "" 8443 FwDemo.host []).1) (MkPacket 5 "tcp" 8443)
    = Some ("10.0.0.9", 443).
Proof. vm_compute. by split. Qed.

Definition busy : list label :=
  [LSetVM "vm1" [MkRule "r" "tcp" 25 "drop" false] [] true "" true; LStage block_dns 0 true; LBan 7; LApply true].
End FirewallDemo.


Lemma restart_restores_firewall_witness :
  let s := FirewallDemo.fw_run (FirewallDemo.busy ++ [LConfirm]) in
  let s' := restart FwDemo.resolver FwDemo.bridges "eth0" 8080 FirewallDemo.walk true s in
  hostfw s = Some FirewallDemo.block_dns /\ pending s' = None /\
  fst <$> kernel s' = render FwDemo.resolver FwDemo.bridges "eth0" 8080 FirewallDemo.walk (default no_rules (hostfw s)) s.
Proof.
  split; [vm_compute; reflexivity|].
  apply (restart_restores_firewall FwDemo.resolver FwDemo.bridges "eth0" 8080 FirewallDemo.walk None (30 * second)
    (MkFs ∅ [] []) (MkFs ∅ [] []) None (FirewallDemo.busy ++ [LConfirm])).
  vm_compute. reflexivity.
Defined.

Lemma management_always_reachable_witness :
  let s := FirewallDemo.fw_run (FirewallDemo.busy ++ [LApplyBegin; LRollback true; LApplyEnd true]) in
  redirected (FirewallDemo.table s) (MkPacket 5 "tcp" 22) = None /\
  input_accepts (FirewallDemo.table s) ∅ (MkPacket 5 "tcp" 22) = true.
Proof.
  apply (management_always_reachable FwDemo.resolver FwDemo.bridges "eth0" 8080 FirewallDemo.walk None (30 * second)
    (MkFs ∅ [] [] : FirewallDemo.vmfs) (MkFs ∅ [] [] : FirewallDemo.hostfs) None true
    (FirewallDemo.busy ++ [LApplyBegin; LRollback true; LApplyEnd true])).
  - discriminate.
  - change (load ∅ (MkFs ∅ [] [] : FirewallDemo.vmfs)) with (∅ : gmap string VMFirewall). apply map_Forall_empty.
  - vm_compute. reflexivity.
  - vm_compute. reflexivity.
  - vm_compute. reflexivity.
  - set_solver.
Defined.
