(* ===== verification/Snapshots.v ===== *)
(** * Snapshots: a machine's snapshot tree and its deletion

    Models the snapshot operations of [libvirt/domain_snapshots.go] on the tree
    libvirt keeps: a snapshot is a child of the one that was current when it was
    taken, a revert moves the current one, and deleting one snapshot alone
    re-attaches its children to its parent.  A deletion that libvirt refuses is
    an input.  [deleteSnapshotRecursive] is translated with fuel: the tree is
    finite and the fuel [S (length snaps)] is shown to be enough. *)

From S2P Require Export GoStrings.

Record Snapshot := MkSnap { sn_Name : string; sn_Parent : string; sn_CreationTime : Z }.
Record Domain := MkDomain { snaps : list Snapshot; current : string }.

Definition names (d : Domain) : list string := map sn_Name (snaps d).
Definition find_snap (n : string) (d : Domain) : option Snapshot :=
  List.find (fun s => String.eqb (sn_Name s) n) (snaps d).

(** ** libvirt *)

Definition CreateSnapshot (name : string) (now : Z) (d : Domain) : option Domain :=
  if String.eqb name "" then None else
  match find_snap name d with
  | Some _ => None
  | None => Some (MkDomain (snaps d ++ [MkSnap name (current d) now]) name)
  end.

Definition RevertSnapshot (name : string) (d : Domain) : option Domain :=
  match find_snap name d with Some _ => Some (MkDomain (snaps d) name) | None => None end.

Definition children (n : string) (d : Domain) : list Snapshot :=
  List.filter (fun s => String.eqb (sn_Parent s) n) (snaps d).

Section Delete.
(** Whether libvirt deletes this snapshot. *)
Context (deletable : string -> bool).

(** [snap.Delete(0)]. *)
Definition delete_one (n : string) (d : Domain) : bool * Domain :=
  match find_snap n d with
  | None => (false, d)
  | Some s =>
      if deletable n then
        let up := sn_Parent s in
        (true, MkDomain
          (map (fun t => if String.eqb (sn_Parent t) n then MkSnap (sn_Name t) up (sn_CreationTime t) else t)
             (List.filter (fun t => negb (String.eqb (sn_Name t) n)) (snaps d)))
          (if String.eqb (current d) n then up else current d))
      else (false, d)
  end.

Fixpoint deleteSnapshotRecursive (fuel : nat) (n : string) (d : Domain) : bool * Domain :=
  match fuel with
  | O => (false, d)
  | S fuel =>
      (fix go (cs : list Snapshot) (d : Domain) : bool * Domain :=
         match cs with
         | [] => delete_one n d
         | c :: cs => let '(ok, d) := deleteSnapshotRecursive fuel (sn_Name c) d in
                      if ok then go cs d else (false, d)
         end) (children n d) d
  end.

Definition DeleteSnapshot (n : string) (d : Domain) : bool * Domain :=
  match find_snap n d with
  | None => (false, d)
  | Some _ => deleteSnapshotRecursive (S (length (snaps d))) n d
  end.
End Delete.

(** ** A well-formed tree *)

(** Snapshots in the order they were taken: names are new and the parent exists. *)
Inductive grown : list Snapshot -> Prop :=
| grown_nil : grown []
| grown_snoc l s :
    grown l -> sn_Name s <> "" -> sn_Name s ∉ map sn_Name l ->
    (sn_Parent s = "" \/ sn_Parent s ∈ map sn_Name l) -> grown (l ++ [s]).

Definition tree (d : Domain) : Prop :=
  grown (snaps d) /\ (current d = "" \/ current d ∈ names d).

Lemma map_snoc {A B} (f : A -> B) l x : map f (l ++ [x]) = map f l ++ [f x].
Proof. apply map_app. Qed.

Lemma elem_of_names s l : s ∈ l -> sn_Name s ∈ map sn_Name l.
Proof. intros. apply list_elem_of_In, in_map, list_elem_of_In. done. Qed.

Lemma names_elem n l : n ∈ map sn_Name l -> exists s, s ∈ l /\ sn_Name s = n.
Proof. intros (s & <- & Hs)%list_elem_of_In%in_map_iff. exists s. split; [by apply list_elem_of_In|done]. Qed.

Lemma grown_NoDup l : grown l -> NoDup (map sn_Name l).
Proof.
  induction 1 as [|l s Hl IH Hn Hs Hp]; [constructor|]. rewrite map_snoc. apply NoDup_app. split_and!; [done| |apply NoDup_singleton].
  intros x Hx ->%list_elem_of_singleton. done.
Qed.

Lemma grown_inj l s t : grown l -> s ∈ l -> t ∈ l -> sn_Name s = sn_Name t -> s = t.
Proof.
  induction 1 as [|l x Hl IH Hn Hx Hp]; [set_solver|].
  intros [Hs| ->%list_elem_of_singleton]%elem_of_app [Ht| ->%list_elem_of_singleton]%elem_of_app E; auto.
  - apply elem_of_names in Hs. congruence.
  - apply elem_of_names in Ht. congruence.
Qed.

Lemma grown_parent l s : grown l -> s ∈ l -> sn_Parent s = "" \/ sn_Parent s ∈ map sn_Name l.
Proof.
  induction 1 as [|l x Hl IH Hn Hx Hp]; [set_solver|]. rewrite map_snoc.
  intros [Hs| ->%list_elem_of_singleton]%elem_of_app; [destruct (IH Hs)|destruct Hp]; set_solver.
Qed.

Lemma grown_root l s : grown l -> s ∈ l -> sn_Name s <> "".
Proof.
  induction 1 as [|l x Hl IH Hn Hx Hp]; [set_solver|].
  intros [Hs| ->%list_elem_of_singleton]%elem_of_app; auto.
Qed.

(** A rank that grows away from the root, at most the number of snapshots. *)
Definition ranked (rank : string -> nat) (N : nat) (l : list Snapshot) : Prop :=
  forall s, s ∈ l -> (rank (sn_Parent s) < rank (sn_Name s) <= N)%nat.

Lemma grown_ranked l : grown l -> exists rank, ranked rank (length l) l.
Proof.
  induction 1 as [|l x Hl (rank & IH) Hn Hx Hp]; [exists (fun _ => O); intros ? ?%elem_of_nil; done|].
  exists (fun n => if decide (n = sn_Name x) then S (length l) else if decide (n ∈ map sn_Name l) then rank n else O).
  rewrite length_app. simpl. intros s Hs. assert (forall t, t ∈ l -> sn_Name t <> sn_Name x) as Hne.
  { intros t Ht E. apply Hx. rewrite <- E. by apply elem_of_names. }
  assert (sn_Parent s = "" \/ sn_Parent s ∈ map sn_Name l) as Hps.
  { apply elem_of_app in Hs as [Hs| ->%list_elem_of_singleton]; [by apply grown_parent|done]. }
  assert (sn_Parent s <> sn_Name x) as Hpx by (intros E; destruct Hps; congruence).
  rewrite (decide_False (P := sn_Parent s = sn_Name x)) by done.
  apply elem_of_app in Hs as [Hs| ->%list_elem_of_singleton].
  - pose proof (IH s Hs). rewrite (decide_False (P := sn_Name s = sn_Name x)) by auto. rewrite (decide_True (P := sn_Name s ∈ _)) by (by apply elem_of_names).
    destruct (decide _); lia.
  - rewrite (decide_True (P := sn_Name x = sn_Name x)) by done. destruct (decide _) as [Hin|]; [|lia].
    apply names_elem in Hin as (t & Ht & <-). pose proof (IH t Ht). lia.
Qed.

(** [m] is [n] or below it. *)
Definition up (l : list Snapshot) (m p : string) : Prop := exists s, s ∈ l /\ sn_Name s = m /\ sn_Parent s = p.
Definition Below (l : list Snapshot) (n m : string) : Prop := rtc (up l) m n.

Lemma up_fun l m p q : grown l -> up l m p -> up l m q -> p = q.
Proof. intros Hl (s & Hs & <- & <-) (t & Ht & E & <-). by rewrite (grown_inj l s t). Qed.

Lemma Below_mono l l' n m : (forall s, s ∈ l -> s ∈ l') -> Below l n m -> Below l' n m.
Proof. intros H. apply rtc_subrel. intros x y (s & Hs & E). exists s. auto. Qed.

Lemma Below_rank rank N l n m : ranked rank N l -> Below l n m -> (rank n <= rank m)%nat.
Proof. intros Hr. induction 1 as [|x y z (s & Hs & <- & <-) _ IH]; [lia|]. pose proof (Hr s Hs). lia. Qed.

(** The ancestors of a snapshot form a chain. *)
Lemma Below_linear l m a b : grown l -> Below l a m -> Below l b m -> Below l a b \/ Below l b a.
Proof.
  intros Hl Ha. revert b. induction Ha as [m|m p a Hmp Hpa IH]; intros b Hb.
  - by right.
  - destruct Hb as [m|m q b Hmq Hqb]; [left; by eapply rtc_l|].
    rewrite (up_fun l m p q Hl Hmp Hmq) in IH. rewrite (up_fun l m p q Hl Hmp Hmq) in Hpa. by apply IH.
Qed.

(** Different children have nothing in common below them, and are not above
    their parent. *)
Lemma siblings_disjoint rank N l n c c' m :
  grown l -> ranked rank N l -> c ∈ l -> c' ∈ l -> sn_Parent c = n -> sn_Parent c' = n ->
  sn_Name c <> sn_Name c' -> Below l (sn_Name c) m -> Below l (sn_Name c') m -> False.
Proof.
  intros Hl Hr Hc Hc' Ep Ep' Hne Hm Hm'.
  assert (forall x y, x ∈ l -> y ∈ l -> sn_Parent x = n -> sn_Parent y = n -> sn_Name x <> sn_Name y ->
          Below l (sn_Name x) (sn_Name y) -> False) as H.
  { intros x y Hx Hy Ex Ey Hxy Hb. inversion Hb as [|? q ? (t & Ht & Et & <-) Hq]; subst; [done|].
    rewrite (grown_inj l t y) in Hq by done. apply (Below_rank rank N) in Hq; [|done].
    pose proof (Hr x Hx). rewrite Ex, <- Ey in *. lia. }
  destruct (Below_linear l m _ _ Hl Hm Hm'); [by apply (H c c')|by apply (H c' c)].
Qed.

Lemma not_above_parent rank N l n c :
  ranked rank N l -> c ∈ l -> sn_Parent c = n -> Below l (sn_Name c) n -> False.
Proof. intros Hr Hc <- Hb. apply (Below_rank rank N) in Hb; [|done]. pose proof (Hr c Hc). lia. Qed.

Lemma Below_cases l n m : Below l n m <-> m = n \/ exists c, c ∈ l /\ sn_Parent c = n /\ Below l (sn_Name c) m.
Proof.
  split.
  - intros H. apply rtc_inv_r in H as [->|(q & Hq & (c & Hc & <- & <-))]; [by left|]. right. by exists c.
  - intros [->|(c & Hc & <- & H)]; [apply rtc_refl|]. eapply rtc_r; [exact H|]. by exists c.
Qed.

(** ** The operations keep the tree well formed *)

Lemma find_snap_Some n d s : find_snap n d = Some s -> s ∈ snaps d /\ sn_Name s = n.
Proof. intros [H ->%String.eqb_eq]%find_some. split; [by apply list_elem_of_In|done]. Qed.

Lemma find_snap_None n d : find_snap n d = None <-> n ∉ names d.
Proof.
  unfold find_snap, names. split.
  - intros H (s & Hs & <-)%names_elem. apply list_elem_of_In in Hs.
    pose proof (find_none _ _ H _ Hs) as E. simpl in E. by rewrite String.eqb_refl in E.
  - intros H. destruct (List.find _ _) as [s|] eqn:E; [|done]. apply find_some in E as [Hs <-%String.eqb_eq].
    exfalso. apply H, elem_of_names. by apply list_elem_of_In.
Qed.

Definition cut (n p : string) (l : list Snapshot) : list Snapshot :=
  map (fun t => if String.eqb (sn_Parent t) n then MkSnap (sn_Name t) p (sn_CreationTime t) else t)
    (List.filter (fun t => negb (String.eqb (sn_Name t) n)) l).

Lemma cut_snoc n p l s : cut n p (l ++ [s]) = cut n p l ++ cut n p [s].
Proof. unfold cut. by rewrite List.filter_app, map_app. Qed.

Lemma cut_one n p s :
  sn_Name s <> n ->
  cut n p [s] = [if String.eqb (sn_Parent s) n then MkSnap (sn_Name s) p (sn_CreationTime s) else s].
Proof. intros H%String.eqb_neq. unfold cut. simpl List.filter. by rewrite H. Qed.

Lemma cut_id n p l : n ∉ map sn_Name l -> (forall s, s ∈ l -> sn_Parent s <> n) -> cut n p l = l.
Proof.
  intros Hn Hp. unfold cut. rewrite (List.forallb_filter_id _ l).
  - rewrite <- (map_id l) at 2. apply map_ext_in. intros s Hs%list_elem_of_In.
    by rewrite (proj2 (String.eqb_neq _ _) (Hp s Hs)).
  - apply forallb_forall. intros s Hs%list_elem_of_In. apply negb_true_iff, String.eqb_neq. intros <-.
    by apply Hn, elem_of_names.
Qed.

Lemma cut_names n p l m : m ∈ map sn_Name (cut n p l) <-> m ∈ map sn_Name l /\ m <> n.
Proof.
  induction l as [|s l IH]; [set_solver|]. change (s :: l) with ([s] ++ l). unfold cut in *.
  rewrite List.filter_app, map_app, !map_app, !elem_of_app, IH. simpl.
  destruct (String.eqb_spec (sn_Name s) n); simpl; [set_solver|]. destruct (String.eqb (sn_Parent s) n); simpl; set_solver.
Qed.

Lemma grown_cut n l s0 : grown l -> s0 ∈ l -> sn_Name s0 = n -> grown (cut n (sn_Parent s0) l).
Proof.
  intros Hl Hs0 Hn. induction Hl as [|l s Hl IH Hs1 Hs2 Hs3]; [by apply elem_of_nil in Hs0|].
  rewrite cut_snoc. apply elem_of_app in Hs0 as [Hs0| ->%list_elem_of_singleton].
  - specialize (IH Hs0). assert (sn_Name s <> n) as Hne.
    { intros E. apply Hs2. rewrite E, <- Hn. by apply elem_of_names. }
    assert (sn_Parent s0 = "" \/ sn_Parent s0 ∈ map sn_Name (cut n (sn_Parent s0) l)) as Hup.
    { destruct (grown_parent l s0 Hl Hs0) as [?|Hin]; [by left|]. right. apply cut_names. split; [done|].
      destruct (grown_ranked l Hl) as [rank Hr]. pose proof (Hr s0 Hs0). intros E. rewrite E, Hn in *. lia. }
    rewrite cut_one by done.
    destruct (String.eqb_spec (sn_Parent s) n) as [E|E]; apply grown_snoc; try done; rewrite cut_names; tauto.
  - subst n. rewrite cut_id; [|done|].
    + unfold cut. cbn [List.filter]. rewrite String.eqb_refl. simpl. by rewrite app_nil_r.
    + intros t Ht E. apply Hs2. rewrite <- E. destruct (grown_parent l t Hl Ht) as [E'|]; [|done]. congruence.
Qed.

Lemma tree_delete_one can n d : tree d -> tree (delete_one can n d).2.
Proof.
  intros [Hl Hc]. unfold delete_one. destruct (find_snap n d) as [s|] eqn:Ef; [|done]. destruct (can n); [|done].
  apply find_snap_Some in Ef as [Hs Hn]. pose proof (grown_cut n _ s Hl Hs Hn) as Hg. split; [exact Hg|].
  unfold names. simpl. change (map sn_Name (map _ (List.filter _ _))) with (map sn_Name (cut n (sn_Parent s) (snaps d))).
  destruct (String.eqb_spec (current d) n) as [E|E].
  - destruct (grown_parent _ s Hl Hs) as [?|Hin]; [by left|]. right. apply cut_names. split; [done|].
    destruct (grown_ranked _ Hl) as [rank Hr]. pose proof (Hr s Hs). intros E'. rewrite E', Hn in *. lia.
  - destruct Hc as [?|Hin]; [by left|]. right. by apply cut_names.
Qed.

Lemma tree_CreateSnapshot name now d d' : tree d -> CreateSnapshot name now d = Some d' -> tree d'.
Proof.
  intros [Hl Hc]. unfold CreateSnapshot. destruct (String.eqb_spec name ""); [done|].
  destruct (find_snap name d) eqn:Ef; [done|]. intros [= <-]. apply find_snap_None in Ef. split; simpl.
  - by apply grown_snoc.
  - right. unfold names. simpl. rewrite map_app. set_solver.
Qed.

Lemma tree_RevertSnapshot name d d' : tree d -> RevertSnapshot name d = Some d' -> tree d'.
Proof.
  intros [Hl Hc]. unfold RevertSnapshot. destruct (find_snap name d) eqn:Ef; [|done]. intros [= <-].
  apply find_snap_Some in Ef as [Hs <-]. split; [done|]. right. by apply elem_of_names.
Qed.

Lemma tree_deleteRecursive can fuel : forall n d, tree d -> tree (deleteSnapshotRecursive can fuel n d).2.
Proof.
  induction fuel as [|fuel IH]; intros n d Hd; [done|]. cbn [deleteSnapshotRecursive].
  generalize (children n d). intros cs. revert d Hd. induction cs as [|c cs IHcs]; intros d Hd; [by apply tree_delete_one|].
  specialize (IH (sn_Name c) d Hd). destruct (deleteSnapshotRecursive can fuel (sn_Name c) d) as [[] d']; [by apply IHcs|done].
Qed.

(** ** Deletion takes the whole subtree *)

Section Exact.
Context (can : string -> bool) (rank : string -> nat) (N : nat).

(** Everything below [n] goes, nothing else does. *)
Definition removes (n : string) (d d' : Domain) : Prop :=
  forall s, s ∈ snaps d' <-> s ∈ snaps d /\ ~ Below (snaps d) n (sn_Name s).

Lemma delete_leaf n d :
  grown (snaps d) -> n ∈ names d -> can n = true -> (forall s, s ∈ snaps d -> sn_Parent s <> n) ->
  exists d', delete_one can n d = (true, d') /\ grown (snaps d') /\
    forall s, s ∈ snaps d' <-> s ∈ snaps d /\ sn_Name s <> n.
Proof.
  intros Hl Hn Hcan Hleaf. unfold delete_one. destruct (find_snap n d) as [s|] eqn:Ef; [|by apply find_snap_None in Ef].
  rewrite Hcan. apply find_snap_Some in Ef as [Hs Hsn]. pose proof (grown_cut n _ s Hl Hs Hsn) as Hg.
  eexists. split; [reflexivity|]. split; [exact Hg|]. intros t. simpl.
  rewrite (map_ext_in _ id), map_id.
  - rewrite list_elem_of_In, filter_In, <- list_elem_of_In, negb_true_iff, String.eqb_neq. done.
  - intros u Hu%filter_In. destruct Hu as [Hu%list_elem_of_In _].
    by rewrite (proj2 (String.eqb_neq _ _) (Hleaf u Hu)).
Qed.

Lemma elem_of_children n d c : c ∈ children n d <-> c ∈ snaps d /\ sn_Parent c = n.
Proof. unfold children. by rewrite list_elem_of_In, filter_In, <- list_elem_of_In, String.eqb_eq. Qed.

Lemma children_NoDup n d : grown (snaps d) -> NoDup (map sn_Name (children n d)).
Proof.
  intros H%grown_NoDup. unfold children. induction (snaps d) as [|s l IH]; [constructor|].
  simpl in H. apply NoDup_cons in H as [Hs Hl]. simpl. destruct (String.eqb _ n); [|auto].
  simpl. apply NoDup_cons. split; [|auto]. intros (t & Ht & E)%names_elem. apply Hs. rewrite <- E. apply elem_of_names.
  apply list_elem_of_In, filter_In in Ht as [Ht _]. by apply list_elem_of_In.
Qed.

(** A step of the loop keeps what lies below the other children. *)
Lemma Below_after n c c' d d1 m :
  grown (snaps d) -> ranked rank N (snaps d) -> c ∈ snaps d -> c' ∈ snaps d ->
  sn_Parent c = n -> sn_Parent c' = n -> sn_Name c <> sn_Name c' -> removes (sn_Name c) d d1 ->
  Below (snaps d1) (sn_Name c') m <-> Below (snaps d) (sn_Name c') m.
Proof.
  intros Hl Hr Hc Hc' Ep Ep' Hne H1. split.
  - apply Below_mono. intros s Hs. by apply H1.
  - intros Hb. unfold Below in *. remember (sn_Name c') as z eqn:Ez.
    induction Hb as [z|x y z (s & Hs & Ex & Ey) Hb IH]; [apply rtc_refl|].
    eapply rtc_l; [|by apply IH]. exists s. split_and!; [|done..]. apply H1. split; [done|]. intros Hbad.
    apply (siblings_disjoint rank N (snaps d) n c c' (sn_Name s)); try done; [congruence|]. unfold Below.
    rewrite <- Ez. eapply rtc_l; [|exact Hb]. by exists s.
Qed.

Lemma deleteRecursive_exact fuel : forall n d,
  grown (snaps d) -> ranked rank N (snaps d) -> n ∈ names d -> (N < fuel + rank n)%nat ->
  (forall m, Below (snaps d) n m -> can m = true) ->
  exists d', deleteSnapshotRecursive can fuel n d = (true, d') /\ grown (snaps d') /\ removes n d d'.
Proof.
  induction fuel as [|fuel IH]; intros n d Hl Hr Hn Hf Hcan.
  { apply names_elem in Hn as (s & Hs & <-). pose proof (Hr s Hs). lia. }
  cbn [deleteSnapshotRecursive].
  pose proof (children_NoDup n d Hl) as Hnd.
  assert (forall c, c ∈ children n d <-> c ∈ snaps d /\ sn_Parent c = n) as Hcs by apply elem_of_children.
  enough (forall cs d, grown (snaps d) -> ranked rank N (snaps d) -> n ∈ names d ->
    (forall m, Below (snaps d) n m -> can m = true) -> NoDup (map sn_Name cs) ->
    (forall c, c ∈ cs <-> c ∈ snaps d /\ sn_Parent c = n) ->
    exists d', (fix go (cs : list Snapshot) (d : Domain) : bool * Domain :=
         match cs with
         | [] => delete_one can n d
         | c :: cs => let '(ok, d) := deleteSnapshotRecursive can fuel (sn_Name c) d in
                      if ok then go cs d else (false, d)
         end) cs d = (true, d') /\ grown (snaps d') /\ removes n d d') as H by (by apply H).
  clear d Hl Hr Hn Hcan Hnd Hcs. induction cs as [|c cs IHcs]; intros d Hl Hr Hn Hcan Hnd Hcs.
  - destruct (delete_leaf n d Hl Hn) as (d' & -> & Hg & Hd'); [by apply Hcan, rtc_refl|..].
    { intros s Hs E. assert (s ∈ []) as Hin by (by apply Hcs). by apply elem_of_nil in Hin. }
    exists d'. split_and!; [done..|]. intros s. rewrite Hd'. rewrite Below_cases.
    assert (forall c, c ∈ snaps d -> sn_Parent c = n -> False) as Hno.
    { intros c Hc E. assert (c ∈ []) as Hin by (by apply Hcs). by apply elem_of_nil in Hin. }
    naive_solver.
  - assert (c ∈ snaps d /\ sn_Parent c = n) as [Hc Ec] by (apply Hcs; set_solver).
    apply NoDup_cons in Hnd as [Hcn Hnd].
    destruct (IH (sn_Name c) d Hl Hr) as (d1 & -> & Hg1 & H1).
    { by apply elem_of_names. }
    { pose proof (Hr c Hc). rewrite Ec in *. lia. }
    { intros m Hm. apply Hcan. apply Below_cases. right. by exists c. }
    assert (forall c', c' ∈ cs -> c' ∈ snaps d /\ sn_Parent c' = n /\ sn_Name c <> sn_Name c') as Hcs'.
    { intros c' Hc'. assert (c' ∈ snaps d /\ sn_Parent c' = n) as [? ?] by (apply Hcs; set_solver).
      split_and!; [done..|]. intros E. apply Hcn. rewrite E. by apply elem_of_names. }
    assert (forall c' m, c' ∈ cs -> Below (snaps d1) (sn_Name c') m <-> Below (snaps d) (sn_Name c') m) as Hb.
    { intros c' m Hc'. destruct (Hcs' c' Hc') as (? & ? & ?). by apply (Below_after n c c' d d1). }
    assert (forall s, s ∈ snaps d1 -> s ∈ snaps d) as Hsub by (intros s Hs; by apply H1).
    destruct (IHcs d1) as (d' & -> & Hg' & H'); try done.
    + intros s Hs. by apply Hr, Hsub.
    + apply names_elem in Hn as (s & Hs & <-). apply elem_of_names. apply H1. split; [done|].
      intros Hbad. by apply (not_above_parent rank N (snaps d) (sn_Name s) c).
    + intros m Hm. apply Hcan. by eapply Below_mono.
    + intros c'. rewrite (H1 c'). split.
      * intros Hc'. destruct (Hcs' c' Hc') as (? & ? & ?). split_and!; [done| |done]. intros Hbad.
        apply (siblings_disjoint rank N (snaps d) n c c' (sn_Name c')); try done. apply rtc_refl.
      * intros [[Hs Hnb] Ep]. assert (c' ∈ c :: cs) as [->|]%elem_of_cons by (by apply Hcs); [|done].
        destruct Hnb. apply rtc_refl.
    + exists d'. split_and!; [done..|]. intros s. rewrite (H' s), (H1 s).
      rewrite (Below_cases (snaps d1) n), (Below_cases (snaps d) n). split.
      * intros [[Hs Hnc] Hno]. split; [done|]. intros [E|(c' & Hc' & Ep & Hb')]; [by apply Hno; left|].
        assert (c' ∈ c :: cs) as [->|Hin]%elem_of_cons by (by apply Hcs); [done|].
        apply Hno. right. exists c'. split_and!; [|done|by apply Hb]. apply H1.
        split; [done|]. intros Hbad. destruct (Hcs' c' Hin) as (? & ? & ?).
        apply (siblings_disjoint rank N (snaps d) n c c' (sn_Name c')); try done. apply rtc_refl.
      * intros [Hs Hno]. split; [split; [done|]|].
        -- intros Hbad. apply Hno. right. by exists c.
        -- intros [E|(c' & Hc' & Ep & Hb')]; [by apply Hno; left|]. apply Hno. right. exists c'.
           split_and!; [by apply Hsub|done|]. eapply Below_mono; [exact Hsub|done].
Qed.
End Exact.

Lemma DeleteSnapshot_subtree can n d :
  tree d -> n ∈ names d -> (forall m, Below (snaps d) n m -> can m = true) ->
  exists d', DeleteSnapshot can n d = (true, d') /\ tree d' /\ removes n d d'.
Proof.
  intros Hd Hn Hcan. unfold DeleteSnapshot. destruct (find_snap n d) eqn:Ef; [|by apply find_snap_None in Ef].
  destruct (grown_ranked (snaps d) (proj1 Hd)) as [rank Hr].
  destruct (deleteRecursive_exact can rank (length (snaps d)) (S (length (snaps d))) n d) as (d' & E & Hg & H); try done.
  - apply Hd.
  - lia.
  - exists d'. split_and!; [done| |done].
    pose proof (tree_deleteRecursive can (S (length (snaps d))) n d Hd) as Ht. by rewrite E in Ht.
Qed.

(** Deleting a snapshot takes its subtree.  On a well-formed tree, when libvirt
    deletes what it is asked to, [DeleteSnapshot] ends, succeeds, and removes
    exactly the snapshot and every snapshot below it, whoever took them; the
    tree stays well formed. *)
Theorem DeleteSnapshot_exact can n d :
  tree d -> n ∈ names d -> (forall m, Below (snaps d) n m -> can m = true) ->
  exists d', DeleteSnapshot can n d = (true, d') /\ tree d' /\
    forall s, s ∈ snaps d' <-> s ∈ snaps d /\ ~ Below (snaps d) n (sn_Name s).
Proof. apply DeleteSnapshot_subtree. Qed.

Module SnapDemo.
(** base, then before-upgrade and after-upgrade below it, and a branch from base. *)
Definition branched : Domain := MkDomain
  [MkSnap "base" "" 1; MkSnap "before" "base" 2; MkSnap "after" "before" 3; MkSnap "trial" "base" 4] "trial".

Lemma branched_tree : tree branched.
Proof.
  split; [|by right; apply (bool_decide_unpack _); vm_compute].
  change (grown (((([] ++ [MkSnap "base" "" 1]) ++ [MkSnap "before" "base" 2]) ++ [MkSnap "after" "before" 3])
    ++ [MkSnap "trial" "base" 4])).
  repeat apply grown_snoc; try (discriminate || constructor || apply (bool_decide_unpack _); vm_compute; exact I);
    cbn; set_solver.
Qed.
End SnapDemo.

Lemma DeleteSnapshot_exact_witness :
  exists d', DeleteSnapshot (fun _ => true) "before" SnapDemo.branched = (true, d') /\ tree d' /\
    forall s, s ∈ snaps d' <-> s ∈ snaps SnapDemo.branched /\ ~ Below (snaps SnapDemo.branched) "before" (sn_Name s).
Proof.
  apply (DeleteSnapshot_exact (fun _ => true) "before" SnapDemo.branched SnapDemo.branched_tree).
  - apply (bool_decide_unpack _). vm_compute. exact I.
  - reflexivity.
Defined.
