(* ===== verification/VMSched.v ===== *)
(** * VMSched: power and snapshot schedules

    Models [vmsched/vmsched.go] (store and scheduler), [SetVMSchedule] of
    [api/vmsched.go], the clean-up of a deleted machine in [api/vms.go] and the
    snapshot callback of [cmd/server/main.go].  The cron library is outside: an
    entry is a registration, and firing it is an operation of its own; whether
    an expression parses is a predicate. *)

From S2P Require Export Acl AtomicFile Snapshots.
Open Scope Z_scope.

(** ** Data *)

Record Schedule := MkSchedule { StartCron : string; StopCron : string; SnapshotCron : string; SnapshotMax : Z }.
#[export] Instance Schedule_eq_dec : EqDecision Schedule.
Proof. solve_decision. Defined.

Definition no_schedule : Schedule := MkSchedule "" "" "" 0.
Definition set_cron (s : string) : bool := negb (String.eqb s "").
Definition Enabled (s : Schedule) : bool := set_cron (StartCron s) || set_cron (StopCron s) || set_cron (SnapshotCron s).

Inductive action := StartVM | StopVM | SnapshotVM (maxKeep : Z).
Record entry := MkEntry { en_vm : string; en_action : action; en_expr : string }.
#[export] Instance action_eq_dec : EqDecision action.
Proof. solve_decision. Defined.
#[export] Instance entry_eq_dec : EqDecision entry.
Proof. solve_decision. Defined.

Inductive sched_err := ErrForbidden | ErrCron (expr : string) | ErrEmpty | ErrPersist.

Section Sched.
(** The five-field parser of [Validate], the standard parser of [AddFunc], the
    account store, and the order in which Go walks a map with these keys. *)
Context (cron_ok std_ok : string -> bool) (userStore : option (string -> option User)) (walk : gset string -> list string).
Context {W : Type} `{!Persist (gmap string Schedule) W}.

Definition Validate (sch : Schedule) : option sched_err :=
  match List.find (fun e => set_cron e && negb (cron_ok e)) [StartCron sch; StopCron sch; SnapshotCron sch] with
  | Some e => Some (ErrCron e)
  | None => if Enabled sch then None else Some ErrEmpty
  end.

(** The store and the scheduler's cron. *)
Record State := MkState { byVM : gmap string Schedule; disk : W; entries : list entry }.

Definition Get (s : State) (vmID : string) : Schedule := default no_schedule (byVM s !! vmID).

Definition Load (w : W) : gmap string Schedule := match stored w with Some (Whole m) => m | _ => ∅ end.

Definition Save (s : State) : bool * State :=
  let '(ok, w) := save (byVM s) (disk s) in (ok, MkState (byVM s) w (entries s)).

Definition Set_ (vmID : string) (sch : Schedule) (s : State) : option sched_err * State :=
  match (if Enabled sch then Validate sch else None) with
  | Some e => (Some e, s)
  | None =>
      let m := if Enabled sch then <[vmID := sch]> (byVM s) else delete vmID (byVM s) in
      let '(ok, s) := Save (MkState m (disk s) (entries s)) in
      (if ok then None else Some ErrPersist, s)
  end.

(** ** The scheduler *)

Definition add_one (vmID expr : string) (a : action) : list entry :=
  if set_cron expr && std_ok expr then [MkEntry vmID a expr] else [].

Definition addLocked (vmID : string) (sch : Schedule) : list entry :=
  add_one vmID (StartCron sch) StartVM ++ add_one vmID (StopCron sch) StopVM
  ++ add_one vmID (SnapshotCron sch) (SnapshotVM (if SnapshotMax sch <=? 0 then 3 else SnapshotMax sch)).

Definition entries_of (m : gmap string Schedule) : list entry :=
  concat (map (fun id => match m !! id with Some sch => addLocked id sch | None => [] end) (walk (dom m))).

Definition Rebuild (s : State) : State := MkState (byVM s) (disk s) (entries_of (byVM s)).

(** What an entry does when its time comes: the call it makes, if any. *)
Definition fire (e : entry) (s : State) : option action :=
  let cur := Get s (en_vm e) in
  match en_action e with
  | SnapshotVM k => if negb (Enabled cur) || negb (set_cron (SnapshotCron cur)) then None else Some (SnapshotVM k)
  | a => if negb (Enabled cur) then None else Some a
  end.

(** ** The handlers *)

Definition SetVMSchedule (c : Caller) (id : string) (req : Schedule) (s : State) : res sched_err Schedule * State :=
  let existing := Get s id in
  if (negb (String.eqb (StartCron req) (StartCron existing)) || negb (String.eqb (StopCron req) (StopCron existing)))
     && negb (requirePermission userStore c "control_power")
  then (Err ErrForbidden, s)
  else if (negb (String.eqb (SnapshotCron req) (SnapshotCron existing)) || negb (SnapshotMax req =? SnapshotMax existing))
          && negb (requirePermission userStore c "snapshots")
  then (Err ErrForbidden, s)
  else match Set_ id req s with
       | (Some e, s) => (Err e, s)
       | (None, s) => let s := Rebuild s in (Ok (Get s id), s)
       end.

(** The end of [DeleteVM]. *)
Definition forget_vm (id : string) (s : State) : State :=
  match Set_ id no_schedule s with
  | (Some _, s) => s
  | (None, s) => Rebuild s
  end.

Definition start (w : W) : State := Rebuild (MkState (Load w) w []).

Inductive sched_op := OpSet (c : Caller) (id : string) (req : Schedule) | OpForget (id : string).

Definition do_op (o : sched_op) (s : State) : State :=
  match o with
  | OpSet c id req => (SetVMSchedule c id req s).2
  | OpForget id => forget_vm id s
  end.

(** The write of the file, when there is one, succeeds. *)
Definition saved (o : sched_op) (s : State) : bool :=
  match o with
  | OpSet c id req => match (SetVMSchedule c id req s).1 with Err ErrPersist => false | _ => true end
  | OpForget id => match (Set_ id no_schedule s).1 with Some ErrPersist => false | _ => true end
  end.

Fixpoint all_saved (os : list sched_op) (s : State) : bool :=
  match os with [] => true | o :: os => saved o s && all_saved os (do_op o s) end.
End Sched.

(** ** The snapshot callback *)

Section Auto.
(** [sort.Slice] by a key; what libvirt deletes. *)
Context (sort_by : (Snapshot -> Z) -> list Snapshot -> list Snapshot) (deletable : string -> bool).

Definition is_auto (s : Snapshot) : bool := has_prefix "auto-" (sn_Name s).

(** [stamp] is the time in the name. *)
Definition auto_snapshot (stamp : string) (now maxKeep : Z) (d : Domain) : bool * Domain :=
  match CreateSnapshot ("auto-" +:+ stamp) now d with
  | None => (false, d)
  | Some d =>
      if 0 <? maxKeep then
        let autoSnaps := sort_by sn_CreationTime (List.filter is_auto (snaps d)) in
        let toDelete := (length autoSnaps - Z.to_nat maxKeep)%nat in
        (true, foldl (fun d s => (DeleteSnapshot deletable (sn_Name s) d).2) d (take toDelete autoSnaps))
      else (true, d)
  end.
End Auto.

(** ** Facts *)

Section SchedFacts.
Context (cron_ok std_ok : string -> bool) (userStore : option (string -> option User)) (walk : gset string -> list string).
Context {W : Type} `{!Persist (gmap string Schedule) W}.
Abbreviation state := (State (W := W)).
Abbreviation do1 := (do_op cron_ok std_ok userStore walk).

(** Cron, store and file agree, and every stored schedule was validated. *)
Record in_sync (s : state) : Prop := {
  sy_entries : entries s = entries_of std_ok walk (byVM s);
  sy_disk : Load (disk s) = byVM s
}.

Lemma Set_saved vmID sch (s s' : state) :
  Set_ cron_ok vmID sch s = (None, s') -> Load (disk s') = byVM s'.
Proof.
  unfold Set_. destruct (if Enabled sch then _ else _); [done|]. unfold Save. cbn.
  destruct (save _ _) as [ok w] eqn:E. destruct ok; [|done]. intros [= <-]. unfold Load. cbn.
  by rewrite (save_true _ _ _ E).
Qed.

Lemma do_op_sync o (s : state) :
  in_sync s -> saved cron_ok std_ok userStore walk o s = true -> in_sync (do1 o s).
Proof.
  intros Hs Hq. destruct o as [c id req|id]; simpl in *.
  - unfold SetVMSchedule in *. destruct (_ && _); [done|]. destruct (_ && _); [done|].
    destruct (Set_ cron_ok id req s) as [[e|] s'] eqn:E; simpl in *.
    + unfold Set_ in E. destruct (if Enabled req then _ else _) as [e'|] eqn:Ev; [by injection E as <- <-|].
      destruct (Save _) as [ok s1]. destruct ok; [done|]. by injection E as <- _.
    + split; [done|]. by apply (Set_saved _ _ _ _ E).
  - unfold forget_vm. destruct (Set_ cron_ok id no_schedule s) as [[e|] s'] eqn:E; simpl in *.
    + unfold Set_ in E. cbn in E. destruct (Save _) as [ok s1]. destruct ok; [done|]. by injection E as <- _.
    + split; [done|]. by apply (Set_saved _ _ _ _ E).
Qed.

Lemma run_sync os : forall s : state, in_sync s -> all_saved cron_ok std_ok userStore walk os s = true ->
  in_sync (run do1 os s).
Proof.
  induction os as [|o os IH]; intros s Hs; [done|]. intros [Hq Hr]%andb_prop. apply IH; [|done]. by apply do_op_sync.
Qed.

(** What is registered is what is stored.  From start-up on any file, after any
    edits and deletions of machines whose writes succeeded, the cron entries are
    exactly those of the stored schedules, the file holds the schedules, and a
    restart registers the same entries. *)
Theorem schedules_in_sync (w : W) os :
  let s0 : state := start std_ok walk w in
  all_saved cron_ok std_ok userStore walk os s0 = true ->
  let s := run do1 os s0 in
  entries s = entries_of std_ok walk (byVM s) /\ Load (disk s) = byVM s /\
  entries (start std_ok walk (disk s)) = entries s.
Proof.
  intros s0 Hq s. assert (in_sync s) as [He Hd] by (by apply run_sync).
  split_and!; [done..|]. unfold start, Rebuild. cbn. by rewrite Hd, He.
Qed.

Lemma Set_get vmID sch (s : state) id :
  Get (Set_ cron_ok vmID sch s).2 id = Get s id \/
  (id = vmID /\ Get (Set_ cron_ok vmID sch s).2 id = if Enabled sch then sch else no_schedule).
Proof.
  unfold Set_. destruct (if Enabled sch then _ else _); [by left|]. unfold Save. cbn.
  destruct (save _ _) as [ok w]. unfold Get. cbn. destruct (decide (id = vmID)) as [->|Hne].
  - right. split; [done|]. destruct (Enabled sch); [by rewrite lookup_insert_eq|by rewrite lookup_delete_eq].
  - left. destruct (Enabled sch); [by rewrite lookup_insert_ne|by rewrite lookup_delete_ne].
Qed.

(** Power schedules need the power capability.  Whatever a caller without the
    [control_power] capability sends, and whether or not the write succeeds, the
    start and stop times of every machine stay what they were; without the
    [snapshots] capability so do the snapshot times. *)
Theorem schedule_needs_capability c id req (s : state) vm :
  let s' := (SetVMSchedule cron_ok std_ok userStore walk c id req s).2 in
  (requirePermission userStore c "control_power" = false ->
     StartCron (Get s' vm) = StartCron (Get s vm) /\ StopCron (Get s' vm) = StopCron (Get s vm)) /\
  (requirePermission userStore c "snapshots" = false -> SnapshotCron (Get s' vm) = SnapshotCron (Get s vm)).
Proof.
  intros s'. unfold s', SetVMSchedule.
  destruct (String.eqb_spec (StartCron req) (StartCron (Get s id))) as [E1|], (String.eqb_spec (StopCron req) (StopCron (Get s id))) as [E2|];
    destruct (requirePermission userStore c "control_power");
    destruct (String.eqb_spec (SnapshotCron req) (SnapshotCron (Get s id))) as [E3|];
    destruct (SnapshotMax req =? SnapshotMax (Get s id));
    destruct (requirePermission userStore c "snapshots"); simpl; try (split; [done|]; done);
    (destruct (Set_get id req s vm) as [E|[-> E]];
     destruct (Set_ cron_ok id req s) as [[e|] s1]; simpl in E |- *; unfold Get in *; simpl;
     rewrite ?E; (split; intros; try done);
     destruct (Enabled req) eqn:En; try done;
     unfold Enabled, set_cron in En; repeat (apply orb_false_elim in En as [En ?]);
     bool_norm; simpl; split_and?; congruence).
Qed.
End SchedFacts.

(** ** How many automatic snapshots stay *)

Section AutoFacts.
Context (sort_by : (Snapshot -> Z) -> list Snapshot -> list Snapshot) (deletable : string -> bool).
Context (Hsort : forall key l, sort_by key l ≡ₚ l) (Hdel : forall n, deletable n = true).

Lemma delete_named n d :
  tree d -> tree (DeleteSnapshot deletable n d).2 /\
  (forall s, s ∈ snaps (DeleteSnapshot deletable n d).2 -> s ∈ snaps d /\ sn_Name s <> n).
Proof.
  intros Hd. destruct (decide (n ∈ names d)) as [Hn|Hn].
  - destruct (DeleteSnapshot_subtree deletable n d Hd Hn) as (d' & -> & Ht & H); [done|]. split; [done|].
    intros s Hs. simpl in Hs. apply H in Hs as [Hs Hb]. split; [done|]. intros <-. apply Hb. apply rtc_refl.
  - unfold DeleteSnapshot. rewrite (proj2 (find_snap_None n d) Hn). split; [done|]. intros s Hs. split; [done|].
    intros <-. by apply Hn, elem_of_names.
Qed.

Lemma delete_all ts : forall d, tree d ->
  tree (foldl (fun d s => (DeleteSnapshot deletable (sn_Name s) d).2) d ts) /\
  (forall s, s ∈ snaps (foldl (fun d s => (DeleteSnapshot deletable (sn_Name s) d).2) d ts) -> s ∈ snaps d /\ s ∉ ts).
Proof.
  induction ts as [|t ts IH]; intros d Hd; [split; [done|]; set_solver|].
  destruct (delete_named (sn_Name t) d Hd) as [Hd1 H1]. destruct (IH _ Hd1) as [Hd2 H2]. split; [exact Hd2|].
  intros s Hs. apply H2 in Hs as [Hs Hts]. apply H1 in Hs as [Hs Hne]. split; [done|].
  intros [->|?]%elem_of_cons; done.
Qed.

Lemma tree_NoDup d : tree d -> NoDup (snaps d).
Proof. intros [H _]. apply grown_NoDup in H. by apply (NoDup_fmap_1 sn_Name). Qed.

(** Automatic snapshots are bounded.  When libvirt deletes what it is asked to,
    a successful run of the snapshot callback with a positive limit leaves a
    well-formed tree with at most that many automatic snapshots, and adds
    nothing but the snapshot it takes. *)
Theorem auto_snapshots_bounded stamp now maxKeep d d' :
  tree d -> 0 < maxKeep -> auto_snapshot sort_by deletable stamp now maxKeep d = (true, d') ->
  tree d' /\ Z.of_nat (length (List.filter is_auto (snaps d'))) <= maxKeep /\
  (forall s, s ∈ snaps d' -> s ∈ snaps d \/ s = MkSnap ("auto-" +:+ stamp) (current d) now).
Proof.
  intros Hd Hk. unfold auto_snapshot. destruct (CreateSnapshot _ now d) as [d1|] eqn:Ec; [|done].
  pose proof (tree_CreateSnapshot _ _ _ _ Hd Ec) as Hd1. rewrite (proj2 (Z.ltb_lt _ _) Hk). intros [= <-].
  set (autos := sort_by sn_CreationTime (List.filter is_auto (snaps d1))).
  set (k := (length autos - Z.to_nat maxKeep)%nat).
  destruct (delete_all (take k autos) d1 Hd1) as [Ht H]. split_and!; [exact Ht| |].
  - assert (length (List.filter is_auto (snaps (foldl (fun d s => (DeleteSnapshot deletable (sn_Name s) d).2) d1 (take k autos))))
            <= length (drop k autos))%nat as Hlen.
    { apply NoDup_incl_length; [apply List.NoDup_filter, NoDup_ListNoDup, tree_NoDup, Ht|].
      intros s [Hs Ha]%filter_In. apply list_elem_of_In in Hs. apply H in Hs as [Hs Hnt]. apply list_elem_of_In.
      assert (s ∈ autos) as Hin.
      { unfold autos. rewrite Hsort. apply list_elem_of_In, filter_In. split; [by apply list_elem_of_In|done]. }
      rewrite <- (take_drop k autos) in Hin. apply elem_of_app in Hin as [?|?]; done. }
    rewrite length_drop in Hlen. unfold k in *. lia.
  - intros s Hs. apply H in Hs as [Hs _]. revert Ec Hs. unfold CreateSnapshot.
    destruct (String.eqb _ ""); [done|]. destruct (find_snap _ d); [done|]. intros [= <-]. simpl.
    intros [?| ->%list_elem_of_singleton]%elem_of_app; [by left|by right].
Qed.
End AutoFacts.

(** ** Witnesses, and what went wrong *)

Module SchedDemo.
Abbreviation schedfs := (fs (gmap string Schedule)).
#[global] Instance sched_disk : Persist (gmap string Schedule) schedfs :=
  fs_persist "/data/vm-schedules.json" saveJSON (saveJSON_atomic _).

Definition cron_any (e : string) : bool := negb (String.eqb e "bad").
Definition walk (ks : gset string) : list string := elements ks.
Definition root : Caller := MkCaller "root" RoleAdmin.
Definition night : Schedule := MkSchedule "0 7 * * *" "0 22 * * *" "" 0.
Definition only_stop : Schedule := MkSchedule "" "0 22 * * *" "" 0.
Definition empty_disk : schedfs := MkFs ∅ [] [].
(** A disk that is full for the second write. *)
Definition full_disk : schedfs := MkFs ∅ [Succeed; Succeed; Fail] [].
Definition sched_run (w : schedfs) (os : list sched_op) : State (W := schedfs) :=
  run (do_op cron_any cron_any None walk) os (start cron_any walk w).

(** An edit whose write fails is refused, yet the store keeps it in memory and
    the cron keeps the old entries: the start entry that the stored schedule no
    longer has still fires, since only [Enabled] is looked at. *)
Example refused_edit_stays :
  let s := sched_run full_disk [OpSet root "vm1" night] in
  let r := SetVMSchedule cron_any cron_any None walk root "vm1" only_stop s in
  r.1 = Err ErrPersist /\ Get r.2 "vm1" = only_stop /\
  existsb (fun e => bool_decide (e = MkEntry "vm1" StartVM "0 7 * * *")) (entries r.2) = true /\
  fire (MkEntry "vm1" StartVM "0 7 * * *") r.2 = Some StartVM.
Proof. vm_compute. by split_and!. Qed.

(** ... and the refused edit takes effect with the next edit of any machine. *)
Example refused_edit_takes_effect :
  let s := sched_run full_disk [OpSet root "vm1" night; OpSet root "vm1" only_stop; OpForget "vm2"] in
  existsb (fun e => bool_decide (en_action e = StartVM)) (entries s) = false /\ Get s "vm1" = only_stop.
Proof. vm_compute. by split. Qed.

(** Insertion sort by a key. *)
Fixpoint insert_by (key : Snapshot -> Z) (s : Snapshot) (l : list Snapshot) : list Snapshot :=
  match l with [] => [s] | t :: l => if key s <=? key t then s :: t :: l else t :: insert_by key s l end.
Definition sort_by (key : Snapshot -> Z) (l : list Snapshot) : list Snapshot := fold_right (insert_by key) [] l.

Lemma insert_by_perm key s l : insert_by key s l ≡ₚ s :: l.
Proof.
  induction l as [|t l IH]; simpl; [done|]. destruct (key s <=? key t); [done|].
  rewrite IH. constructor.
Qed.
Lemma sort_by_perm key l : sort_by key l ≡ₚ l.
Proof. induction l as [|s l IH]; simpl; [done|]. by rewrite insert_by_perm, IH. Qed.

(** Daily snapshots with a limit of three, and one the operator took by hand. *)
Definition week : Domain := MkDomain
  [MkSnap "auto-1" "" 1; MkSnap "auto-2" "auto-1" 2; MkSnap "before-upgrade" "auto-2" 3; MkSnap "auto-3" "before-upgrade" 4]
  "auto-3".

(** The fourth day exceeds the limit by one: the oldest is deleted with its
    subtree, that is with every snapshot taken since, the one of today and the
    operator's included. *)
Example rotation_deletes_everything :
  snaps (auto_snapshot sort_by (fun _ => true) "4" 5 3 week).2 = [].
Proof. vm_compute. reflexivity. Qed.

Lemma week_tree : tree week.
Proof.
  split; [|by right; apply (bool_decide_unpack _); vm_compute].
  change (grown (((([] ++ [MkSnap "auto-1" "" 1]) ++ [MkSnap "auto-2" "auto-1" 2])
    ++ [MkSnap "before-upgrade" "auto-2" 3]) ++ [MkSnap "auto-3" "before-upgrade" 4])).
  repeat apply grown_snoc; try (discriminate || constructor || apply (bool_decide_unpack _); vm_compute; exact I);
    cbn; set_solver.
Qed.
End SchedDemo.

Lemma schedules_in_sync_witness :
  let s := SchedDemo.sched_run SchedDemo.empty_disk [OpSet SchedDemo.root "vm1" SchedDemo.night; OpForget "vm2"] in
  entries s = [MkEntry "vm1" StartVM "0 7 * * *"; MkEntry "vm1" StopVM "0 22 * * *"] /\
  entries (start SchedDemo.cron_any SchedDemo.walk (disk s)) = entries s.
Proof.
  split; [vm_compute; reflexivity|].
  apply (schedules_in_sync SchedDemo.cron_any SchedDemo.cron_any None SchedDemo.walk SchedDemo.empty_disk
    [OpSet SchedDemo.root "vm1" SchedDemo.night; OpForget "vm2"]).
  vm_compute. reflexivity.
Defined.

Lemma schedule_needs_capability_witness :
  let s := SchedDemo.sched_run SchedDemo.empty_disk [OpSet SchedDemo.root "vm1" SchedDemo.night] in
  StartCron (Get (SetVMSchedule SchedDemo.cron_any SchedDemo.cron_any None SchedDemo.walk (MkCaller "olga" RoleOperator)
    "vm1" no_schedule s).2 "vm1") = "0 7 * * *".
Proof.
  destruct (schedule_needs_capability SchedDemo.cron_any SchedDemo.cron_any None SchedDemo.walk (MkCaller "olga" RoleOperator)
    "vm1" no_schedule (SchedDemo.sched_run SchedDemo.empty_disk [OpSet SchedDemo.root "vm1" SchedDemo.night]) "vm1") as [H _].
  destruct H as [H _]; [vm_compute; reflexivity|]. etransitivity; [exact H|]. vm_compute. reflexivity.
Defined.

Lemma auto_snapshots_bounded_witness :
  tree (auto_snapshot SchedDemo.sort_by (fun _ => true) "4" 5 3 SchedDemo.week).2.
Proof.
  destruct (auto_snapshots_bounded SchedDemo.sort_by (fun _ => true) SchedDemo.sort_by_perm (fun _ => eq_refl) "4" 5 3
    SchedDemo.week (auto_snapshot SchedDemo.sort_by (fun _ => true) "4" 5 3 SchedDemo.week).2 SchedDemo.week_tree) as [H _].
  - reflexivity.
  - vm_compute. reflexivity.
  - exact H.
Defined.
