(* ===== verification/Regex.v ===== *)
(** * Regex: the fully anchored regular expressions of the program

    Matching by derivatives for the patterns of the form [^...$] that the
    code compiles with [regexp.MustCompile].  A character class is a
    predicate on bytes; all the classes used are ASCII. *)

From S2P Require Export GoStrings.
Open Scope Z_scope.

Inductive re :=
| Empty                         (* matches nothing *)
| Eps
| Class (p : ascii -> bool)
| Seq (r1 r2 : re)
| Alt (r1 r2 : re)
| Star (r : re).

Fixpoint nullable (r : re) : bool :=
  match r with
  | Empty | Class _ => false
  | Eps | Star _ => true
  | Seq r1 r2 => nullable r1 && nullable r2
  | Alt r1 r2 => nullable r1 || nullable r2
  end.

(** Smart constructors keep derivatives small. *)
Definition seq (r1 r2 : re) : re :=
  match r1, r2 with
  | Empty, _ | _, Empty => Empty
  | Eps, _ => r2
  | _, _ => Seq r1 r2
  end.

Definition alt (r1 r2 : re) : re :=
  match r1, r2 with
  | Empty, _ => r2
  | _, Empty => r1
  | _, _ => Alt r1 r2
  end.

Fixpoint deriv (c : ascii) (r : re) : re :=
  match r with
  | Empty | Eps => Empty
  | Class p => if p c then Eps else Empty
  | Seq r1 r2 => if nullable r1 then alt (seq (deriv c r1) r2) (deriv c r2) else seq (deriv c r1) r2
  | Alt r1 r2 => alt (deriv c r1) (deriv c r2)
  | Star r => seq (deriv c r) (Star r)
  end.

Fixpoint re_match (r : re) (s : string) : bool :=
  match s with
  | EmptyString => nullable r
  | String c s => re_match (deriv c r) s
  end.

(** ** Building patterns *)

Fixpoint lit (s : string) : re :=
  match s with EmptyString => Eps | String c s => Seq (Class (Ascii.eqb c)) (lit s) end.
Definition plus (r : re) : re := Seq r (Star r).
Definition opt (r : re) : re := Alt Eps r.
Fixpoint times (n : nat) (r : re) : re := match n with O => Eps | S n => Seq r (times n r) end.
(** [r{m,m+n}] *)
Fixpoint upto (n : nat) (r : re) : re := match n with O => Eps | S n => opt (Seq r (upto n r)) end.
Definition between (m n : nat) (r : re) : re := Seq (times m r) (upto (n - m) r).
Definition seqs (l : list re) : re := foldr Seq Eps l.
Definition alts (l : list re) : re := foldr Alt Empty l.

(** ** Meaning *)

Inductive matches : re -> string -> Prop :=
| m_eps : matches Eps ""
| m_class (p : ascii -> bool) c : p c = true -> matches (Class p) (String c "")
| m_seq r1 r2 s1 s2 : matches r1 s1 -> matches r2 s2 -> matches (Seq r1 r2) (s1 +:+ s2)
| m_left r1 r2 s : matches r1 s -> matches (Alt r1 r2) s
| m_right r1 r2 s : matches r2 s -> matches (Alt r1 r2) s
| m_nil r : matches (Star r) ""
| m_cons r s1 s2 : matches r s1 -> matches (Star r) s2 -> matches (Star r) (s1 +:+ s2).

Lemma nullable_spec r : nullable r = true -> matches r "".
Proof.
  induction r; simpl; try done; try (by constructor).
  - intros [H1 H2]%andb_prop. apply (m_seq r1 r2 "" ""); auto.
  - intros [H|H]%orb_prop; [apply m_left|apply m_right]; auto.
Qed.

Lemma seq_matches r1 r2 s : matches (seq r1 r2) s -> matches (Seq r1 r2) s.
Proof.
  assert (matches r2 s -> matches (Seq Eps r2) s) as He.
  { intros H. apply (m_seq Eps r2 "" s); [constructor|done]. }
  destruct r1, r2; simpl; intros H; auto; inversion H.
Qed.

Lemma alt_matches r1 r2 s : matches (alt r1 r2) s -> matches (Alt r1 r2) s.
Proof.
  destruct r1, r2; simpl; intros H; try done; try (by apply m_right); try (by apply m_left).
Qed.

Lemma deriv_matches c r s : matches (deriv c r) s -> matches r (String c s).
Proof.
  revert s. induction r as [| |p|r1 IH1 r2 IH2|r1 IH1 r2 IH2|r IH]; intros s; simpl.
  - inversion 1.
  - inversion 1.
  - destruct (p c) eqn:E; inversion 1. by constructor.
  - assert (matches (seq (deriv c r1) r2) s -> matches (Seq r1 r2) (String c s)) as Hs.
    { intros H%seq_matches. inversion H as [| |? ? s1 s2 H1 H2| | | |]; subst.
      apply (m_seq r1 r2 (String c s1) s2); auto. }
    destruct (nullable r1) eqn:E; [|done]. intros H%alt_matches.
    inversion H; subst; [by apply Hs|].
    apply (m_seq r1 r2 "" (String c s)); [by apply nullable_spec|auto].
  - intros H%alt_matches. inversion H; subst; [apply m_left|apply m_right]; auto.
  - intros H%seq_matches. inversion H as [| |? ? s1 s2 H1 H2| | | |]; subst.
    apply (m_cons r (String c s1) s2); auto.
Qed.

(** An accepted string is in the language of the pattern. *)
Lemma re_match_sound r s : re_match r s = true -> matches r s.
Proof.
  revert r. induction s as [|c s IH]; intros r; simpl; [apply nullable_spec|].
  intros H. by apply deriv_matches, IH.
Qed.

(** The bytes a pattern can produce. *)
Fixpoint bytes_in (P : ascii -> Prop) (r : re) : Prop :=
  match r with
  | Empty | Eps => True
  | Class p => forall c, p c = true -> P c
  | Seq r1 r2 | Alt r1 r2 => bytes_in P r1 /\ bytes_in P r2
  | Star r => bytes_in P r
  end.

Lemma matches_bytes p r s : bytes_in (fun c => p c = true) r -> matches r s -> all_bytes p s = true.
Proof.
  intros Hb Hm. induction Hm; simpl in *; try done.
  - by rewrite Hb.
  - destruct Hb. by rewrite all_bytes_app, IHHm1, IHHm2.
  - destruct Hb. auto.
  - destruct Hb. auto.
  - by rewrite all_bytes_app, IHHm1, IHHm2.
Qed.

(** [bytes_in] is decidable: a class is checked on the 256 bytes. *)
Definition all_ascii : list ascii := map ascii_of_nat (List.seq 0%nat 256%nat).

Fixpoint bytes_check (q : ascii -> bool) (r : re) : bool :=
  match r with
  | Empty | Eps => true
  | Class p => forallb (fun c => implb (p c) (q c)) all_ascii
  | Seq r1 r2 | Alt r1 r2 => bytes_check q r1 && bytes_check q r2
  | Star r => bytes_check q r
  end.

Lemma in_all_ascii c : In c all_ascii.
Proof.
  unfold all_ascii. apply in_map_iff. exists (nat_of_ascii c).
  split; [apply ascii_nat_embedding|]. apply in_seq. pose proof (nat_ascii_bounded c). lia.
Qed.

Lemma bytes_check_sound q r : bytes_check q r = true -> bytes_in (fun c => q c = true) r.
Proof.
  induction r as [| |p|r1 IH1 r2 IH2|r1 IH1 r2 IH2|r IH]; cbn [bytes_check bytes_in]; auto.
  - intros H c Hc. rewrite forallb_forall in H. specialize (H c (in_all_ascii c)).
    by rewrite Hc in H.
  - intros [? ?]%andb_prop. auto.
  - intros [? ?]%andb_prop. auto.
Qed.

Lemma matches_lit s t : matches (lit s) t -> t = s.
Proof.
  revert t. induction s as [|c s IH]; simpl; intros t H; inversion H; subst; [done|].
  match goal with Hc : matches (Class _) _ |- _ => inversion Hc; subst end.
  match goal with Hc : Ascii.eqb _ _ = true |- _ => apply Ascii.eqb_eq in Hc as -> end.
  simpl. f_equal. auto.
Qed.

Lemma matches_prefix s r t : matches (Seq (lit s) r) t -> has_prefix s t = true.
Proof.
  intros H. inversion H; subst.
  match goal with Hm : matches (lit _) _ |- _ => apply matches_lit in Hm as -> end.
  apply has_prefix_spec. eauto.
Qed.

Lemma all_bytes_excludes p c s : all_bytes p s = true -> p c = false -> contains_byte c s = false.
Proof.
  intros Hs Hc. unfold contains_byte. induction s as [|d s IH]; simpl in *; [done|].
  apply andb_prop in Hs as [Hd Hs]. destruct (Ascii.eqb_spec c d) as [->|]; [congruence|].
  specialize (IH Hs). by destruct (index_byte c s).
Qed.

Lemma regex_bytes r p s : re_match r s = true -> bytes_check p r = true -> all_bytes p s = true.
Proof. intros H Hp. by apply (matches_bytes p r), re_match_sound, H; apply bytes_check_sound. Qed.

(** Every string of the language is accepted. *)
Lemma nullable_complete r s : matches r s -> s = "" -> nullable r = true.
Proof.
  induction 1; intros E; simpl; try done.
  - destruct s1, s2; try discriminate. by rewrite IHmatches1, IHmatches2.
  - by rewrite IHmatches.
  - rewrite IHmatches by done. apply orb_true_r.
Qed.

Lemma seq_complete r1 r2 s1 s2 : matches r1 s1 -> matches r2 s2 -> matches (seq r1 r2) (s1 +:+ s2).
Proof.
  intros H1 H2. destruct r1; try (destruct r2; try (by apply m_seq); by inversion H2); [inversion H1|].
  inversion H1; subst. destruct r2; try done; inversion H2.
Qed.

Lemma alt_complete r1 r2 s : matches r1 s \/ matches r2 s -> matches (alt r1 r2) s.
Proof.
  intros [H|H]; destruct r1, r2; simpl; try done; try (inversion H; fail); try (by apply m_left); by apply m_right.
Qed.

Lemma deriv_complete r t : matches r t -> forall c s, t = String c s -> matches (deriv c r) s.
Proof.
  induction 1 as [|p d Hp|r1 r2 s1 s2 H1 IH1 H2 IH2|r1 r2 s H IH|r1 r2 s H IH|r|r s1 s2 H1 IH1 H2 IH2]; intros c s' E; simpl.
  - done.
  - injection E as <- <-. rewrite Hp. constructor.
  - destruct s1 as [|d s1]; simpl in E.
    + rewrite (nullable_complete _ _ H1 eq_refl). apply alt_complete. right. by apply IH2.
    + injection E as -> <-. destruct (nullable r1); [apply alt_complete; left|]; apply seq_complete; auto.
  - apply alt_complete. left. by apply IH.
  - apply alt_complete. right. by apply IH.
  - done.
  - destruct s1 as [|d s1]; simpl in E; [by apply IH2|]. injection E as -> <-. apply seq_complete; auto.
Qed.

Lemma re_match_complete r s : matches r s -> re_match r s = true.
Proof.
  revert r. induction s as [|c s IH]; intros r H; simpl; [by apply (nullable_complete _ _ H)|].
  apply IH. by apply (deriv_complete _ _ H).
Qed.

Lemma lit_matches s : matches (lit s) s.
Proof.
  induction s as [|c s IH]; simpl; [constructor|]. apply (m_seq _ _ (String c "") s); [|done]. constructor. apply Ascii.eqb_refl.
Qed.
