(* ===== verification/ConfigStore.v ===== *)
(** * ConfigStore: the settings store

    Models [configstore/store.go], [validate.go] and the schema of
    [defaults.go].  A setting's value is the [interface{}] the store keeps: what
    the JSON decoder yields (a finite binary64 number, a string, a list, an
    object) or what [coerce] and the schema put there (a Go [int], a
    [[]string]).  A number is [m * 2 ^ e]; the bounds of the schema are whole
    numbers.  The document on disk is the map of values, [None] when the file has
    no [values] (reading it back turns every [int] into a number and every
    [[]string] into a list, see [reload]); the labels and descriptions of the
    fields, read by the editor only, are left out. *)

From S2P Require Export GoNet GoTime AtomicFile Regex MediaRef.
Open Scope Z_scope.

(** ** Numbers *)

Record f64 := F64 { f_man : Z; f_exp : Z }.
#[export] Instance f64_eq_dec : EqDecision f64.
Proof. solve_decision. Defined.

Definition f_trunc (x : f64) : Z :=
  if 0 <=? f_exp x then f_man x * 2 ^ f_exp x else Z.quot (f_man x) (2 ^ (- f_exp x)).

(** Comparison with a whole number. *)
Definition f_lt (x : f64) (b : Z) : bool :=
  if 0 <=? f_exp x then f_man x * 2 ^ f_exp x <? b else f_man x <? b * 2 ^ (- f_exp x).
Definition f_gt (x : f64) (b : Z) : bool :=
  if 0 <=? f_exp x then b <? f_man x * 2 ^ f_exp x else b * 2 ^ (- f_exp x) <? f_man x.

Definition in_int64 (z : Z) : bool := (int64_min <=? z) && (z <=? int64_max).

(** [int(x)]; out of range the language leaves the result to the implementation,
    and the amd64 one yields the least integer. *)
Definition int_of (x : f64) : Z := if in_int64 (f_trunc x) then f_trunc x else int64_min.

(** [float64] of the decimal text of an integer: the nearest number with 53
    significant bits, ties to even. *)
Definition float_of (z : Z) : f64 :=
  if Z.abs z <=? 2 ^ 53 then F64 z 0 else
  let k := Z.log2 (Z.abs z) - 52 in
  let q := Z.abs z / 2 ^ k in
  let r := Z.abs z mod 2 ^ k in
  let q := if (2 ^ (k - 1) <? r) || ((2 ^ (k - 1) =? r) && Z.odd q) then q + 1 else q in
  F64 (Z.sgn z * q) k.

(** ** Values and fields *)

Inductive value :=
| VNil
| VBool (b : bool)
| VString (s : string)
| VInt (n : Z)
| VFloat (x : f64)
| VStrings (l : list string)
| VArr (l : list value)
| VObj (l : list (string * value)).

Inductive FieldType :=
| FieldBool | FieldInt | FieldString | FieldDuration | FieldEnum | FieldList | FieldSecret | FieldJSON.
#[export] Instance FieldType_eq_dec : EqDecision FieldType.
Proof. solve_decision. Defined.

Record Field := MkField {
  Key : string; Section_ : string; Type_ : FieldType; Default : value; Enum : list string; HotReload : bool;
  Min : option Z; Max : option Z
}.

Definition ByKey (schema : list Field) (key : string) : option Field :=
  List.find (fun f => String.eqb (Key f) key) schema.

Definition Keys (schema : list Field) : list string := sort_strings (map Key schema).

(** [json.Marshal] followed by [json.Unmarshal] into an [interface{}]. *)
Fixpoint reload (v : value) : value :=
  match v with
  | VInt n => VFloat (float_of n)
  | VStrings l => VArr (map VString l)
  | VArr l => VArr (map reload l)
  | VObj l => VObj (map (fun kv => (kv.1, reload kv.2)) l)
  | v => v
  end.

(** The strings of a list, anything else dropped. *)
Definition strings_of (l : list value) : list string :=
  omap (fun v => match v with VString s => Some s | _ => None end) l.
Definition toStringSlice (v : value) : list string :=
  match v with VStrings l => l | VArr l => strings_of l | _ => [] end.

(** ** Validation *)

Definition validateMediaRef (v : value) : string :=
  match v with
  | VString s =>
      let s := trim_space s in
      if String.eqb s "" || IsMediaRawURL s then "" else "must be an image from Multimedia (/api/media/<id>/raw)"
  | _ => ""
  end.

Definition is_alnum (c : ascii) : bool := is_alpha c || is_digit c.
Definition alnum : re := Class is_alnum.
Definition label : re := Seq alnum (opt (Seq (upto 61 (Class (fun c => is_alnum c || Ascii.eqb c "-"))) alnum)).
Definition hostnameRE : re := Seq label (Star (Seq (lit ".") label)).

Definition validHostname (s : string) : bool := if Nat.ltb 253 (slen s) then false else re_match hostnameRE s.

Definition validateHostOrIP (v : value) : string :=
  match v with
  | VString s =>
      let s := trim_space s in
      if String.eqb s "" then ""
      else match ParseIP s with
           | Some _ => ""
           | None => if validHostname s then "" else "must be an IP address or a hostname"
           end
  | _ => ""
  end.

Definition validateHostname (v : value) : string :=
  match v with
  | VString s =>
      let s := trim_space s in
      if String.eqb s "" then ""
      else match ParseIP s with
           | Some _ => "must be a hostname, not an IP address"
           | None => if validHostname s then "" else "must be a valid hostname (e.g. webkvm.example.com)"
           end
  | _ => ""
  end.

Definition cidr_or_ip (entry : string) : bool :=
  match ParseCIDR entry, ParseIP entry with None, None => false | _, _ => true end.

Fixpoint validate_entries (l : list string) : string :=
  match l with
  | [] => ""
  | raw :: l =>
      let entry := trim_space raw in
      if String.eqb entry "" then "contains an empty entry"
      else if cidr_or_ip entry then validate_entries l
      else "is not a valid CIDR or IP"
  end.
Definition validateCIDRList (v : value) : string := validate_entries (toStringSlice v).

Definition fieldValidators (key : string) : option (value -> string) :=
  if String.eqb key "server.bind_addr" then Some validateHostOrIP
  else if String.eqb key "server.public_host" then Some validateHostOrIP
  else if String.eqb key "server.tls_domain" then Some validateHostname
  else if String.eqb key "server.trusted_cidrs" then Some validateCIDRList
  else if String.eqb key "branding.logo" then Some validateMediaRef
  else if String.eqb key "branding.favicon" then Some validateMediaRef
  else None.

Definition check_bounds (f : Field) (too_small too_big : Z -> bool) : string :=
  if match Min f with Some b => too_small b | None => false end then "must be >="
  else if match Max f with Some b => too_big b | None => false end then "must be <=" else "".

(** The switch over the type. *)
Definition check_type (f : Field) (v : value) : string :=
  match Type_ f with
  | FieldBool => match v with VBool _ => "" | _ => "expected bool" end
  | FieldInt =>
      match v with
      | VFloat x => check_bounds f (f_lt x) (f_gt x)
      | VInt n => let x := float_of n in check_bounds f (f_lt x) (f_gt x)
      | _ => "expected int"
      end
  | FieldString | FieldSecret => match v with VString _ => "" | _ => "expected string" end
  | FieldDuration =>
      match v with
      | VString s => match ParseDuration s with Some _ => "" | None => "invalid duration (e.g. 5m, 1h30m)" end
      | _ => "expected string"
      end
  | FieldEnum =>
      match v with
      | VString s => if existsb (String.eqb s) (Enum f) then "" else "value not in enum: " +:+ s
      | _ => "expected string"
      end
  | FieldList => match v with VArr _ | VStrings _ => "" | _ => "expected list of strings" end
  | FieldJSON => ""
  end.

(** [""]: accepted. *)
Definition validateValue (f : Field) (v : value) : string :=
  match v with
  | VNil => ""
  | _ =>
      let e := check_type f v in
      if negb (String.eqb e "") then e
      else match fieldValidators (Key f) with Some fn => fn v | None => "" end
  end.

Definition coerce (f : Field) (v : value) : value :=
  match Type_ f, v with
  | FieldInt, VFloat x => VInt (int_of x)
  | FieldList, VArr l => VStrings (strings_of l)
  | _, v => v
  end.

(** ** The store *)

Abbreviation Set_ := (gmap string value).
Abbreviation document := (option Set_).

Inductive cfg_err := ErrParse | ErrSave | PanicNilMap.

Section Store.
(** The order in which Go walks a map. *)
Context (walk : Set_ -> list (string * value)).
Context {W : Type} `{!Persist document W}.

Record Store := MkStore { schema : list Field; values : Set_; pendingBefore : gset string; disk : W }.

Definition set_values (m : Set_) (s : Store) : Store := MkStore (schema s) m (pendingBefore s) (disk s).
Definition set_pending (p : gset string) (s : Store) : Store := MkStore (schema s) (values s) p (disk s).

Definition saveLocked (s : Store) : bool * Store :=
  let '(ok, w) := save (Some (values s)) (disk s) in
  (ok, MkStore (schema s) (values s) (pendingBefore s) w).

Definition defaults (fields : list Field) : Set_ :=
  foldl (fun m f => <[Key f := Default f]> m) ∅ fields.

Definition fillDefaults (fields : list Field) (m : Set_) : Set_ :=
  foldl (fun m f => match m !! Key f with Some _ => m | None => <[Key f := Default f]> m end) m fields.

(** Writing to the nil map of a file without [values] panics. *)
Definition load (s : Store) : res cfg_err unit * Store :=
  match stored (disk s) with
  | None => let '(ok, s) := saveLocked (set_values (defaults (schema s)) s) in
            (if ok then Ok tt else Err ErrSave, s)
  | Some Torn => (Err ErrParse, s)
  | Some (Whole None) =>
      match schema s with
      | [] => (Ok tt, set_values ∅ s)
      | _ => (Err PanicNilMap, s)
      end
  | Some (Whole (Some m)) => (Ok tt, set_values (fillDefaults (schema s) (reload <$> m)) s)
  end.

Definition New (fields : list Field) (w : W) : res cfg_err unit * Store :=
  load (MkStore fields ∅ ∅ w).

(** [None]: unknown. *)
Definition Get (key : string) (s : Store) : option value :=
  match ByKey (schema s) key with
  | None => None
  | Some f => Some (default (Default f) (values s !! key))
  end.

Definition GetString (key : string) (s : Store) : string :=
  match Get key s with Some (VString v) => v | _ => "" end.
Definition GetInt (key : string) (s : Store) : Z :=
  match Get key s with Some (VFloat x) => int_of x | Some (VInt n) => n | _ => 0 end.
Definition GetBool (key : string) (s : Store) : bool :=
  match Get key s with Some (VBool b) => b | _ => false end.
Definition GetDuration (key : string) (s : Store) : Z :=
  match Get key s with
  | Some (VFloat x) => int_of x
  | Some (VString v) => default 0 (ParseDuration v)
  | _ => 0
  end.
Definition GetList (key : string) (s : Store) : list string :=
  match Get key s with Some v => toStringSlice v | None => [] end.

Definition mask (f : Field) (v : value) : value :=
  if bool_decide (Type_ f = FieldSecret)
  then VString (match v with VString t => if String.eqb t "" then "" else "********" | _ => "" end)
  else v.
Definition Snapshot (s : Store) : Set_ :=
  foldl (fun m f => <[Key f := mask f (default (Default f) (values s !! Key f))]> m) ∅ (schema s).

Definition PendingRestart (s : Store) : list string := sort_strings (elements (pendingBefore s)).

(** One round of the loop over the request: the values written so far, the keys
    applied and those refused. *)
Definition set_one (fields : list Field) (acc : Set_ * list string * gmap string string) (kv : string * value)
    : Set_ * list string * gmap string string :=
  let '(m, applied, failed) := acc in
  let '(k, v) := kv in
  match ByKey fields k with
  | None => (m, applied, <[k := "unknown setting"]> failed)
  | Some f =>
      let e := validateValue f v in
      if negb (String.eqb e "") then (m, applied, <[k := e]> failed)
      else (<[k := coerce f v]> m, applied ++ [k], failed)
  end.

Definition validateCrossField (m : Set_) : gmap string string := ∅.

Definition restart_key (fields : list Field) (k : string) : bool :=
  match ByKey fields k with Some f => negb (HotReload f) | None => false end.

Definition SetMany (req : Set_) (s : Store) : (list string * gmap string string * bool) * Store :=
  let backup := values s in
  let '(m, applied, failed) := foldl (set_one (schema s)) (values s, [], ∅) (walk req) in
  let failed := if bool_decide (failed = ∅) then validateCrossField req else failed in
  if negb (bool_decide (failed = ∅)) then ([], failed, false, set_values backup s)
  else
    let '(ok, s) := saveLocked (set_values m s) in
    if negb ok then ([], {["_" := "save"]}, true, set_values backup s)
    else (sort_strings applied, ∅, false,
          set_pending (list_to_set (List.filter (restart_key (schema s)) applied) ∪ pendingBefore s) s).

Definition ClearPending (s : Store) : Store := set_pending ∅ s.

Definition Reset (s : Store) : bool * Store :=
  saveLocked (set_pending ∅ (set_values (defaults (schema s)) s)).

Definition restart (s : Store) : res cfg_err unit * Store := New (schema s) (disk s).
End Store.

(** ** The schema *)

Definition DefaultSchema : list Field := [
  MkField "server.bind_addr" "Server" FieldString (VString "127.0.0.1") [] false None None;
  MkField "server.port" "Server" FieldInt (VInt 8080) [] false (Some 1) (Some 65535);
  MkField "server.public_host" "Server" FieldString (VString "") [] false None None;
  MkField "server.libvirt_start_delay_sec" "Server" FieldInt (VInt 0) [] false (Some 0) None;
  MkField "server.trust_proxy" "Server" FieldBool (VBool false) [] true None None;
  MkField "server.trusted_cidrs" "Server" FieldList (VStrings []) [] true None None;
  MkField "server.rate_limit_enabled" "Server" FieldBool (VBool true) [] true None None;
  MkField "server.rate_limit_rps" "Server" FieldInt (VInt 50) [] true (Some 1) None;
  MkField "server.rate_limit_burst" "Server" FieldInt (VInt 100) [] true (Some 1) None;
  MkField "server.tls_cert" "Server" FieldString (VString "") [] false None None;
  MkField "server.tls_key" "Server" FieldString (VString "") [] false None None;
  MkField "server.tls_domain" "Server" FieldString (VString "") [] false None None;
  MkField "server.incus_enabled" "Server" FieldBool (VBool false) [] false None None;
  MkField "auth.token_ttl" "Auth" FieldDuration (VString "24h") [] true None None;
  MkField "auth.allow_api_tokens" "Auth" FieldBool (VBool true) [] true None None;
  MkField "logging.level" "Logging" FieldEnum (VString "info") ["debug"; "info"; "warn"; "error"] true None None;
  MkField "logging.format" "Logging" FieldEnum (VString "json") ["json"; "text"] false None None;
  MkField "network.vlan_aware_default" "Network" FieldBool (VBool false) [] true None None;
  MkField "backup.max_file_size_mb" "Backup" FieldInt (VInt 0) [] true (Some 0) None;
  MkField "backup.verify_on_write" "Backup" FieldBool (VBool false) [] true None None;
  MkField "firewall.confirm_window_secs" "Firewall" FieldInt (VInt 30) [] true (Some 10) (Some 300);
  MkField "terminal.idle_timeout_min" "Terminal" FieldInt (VInt 0) [] true (Some 0) None;
  MkField "branding.logo" "Branding" FieldString (VString "") [] true None None;
  MkField "branding.favicon" "Branding" FieldString (VString "") [] true None None;
  MkField "metrics.prometheus_enabled" "Metrics" FieldBool (VBool true) [] true None None;
  MkField "metrics.allow_unauthenticated" "Metrics" FieldBool (VBool false) [] true None None;
  MkField "incus.allowed_profiles" "Containers" FieldList (VStrings ["default"]) [] true None None;
  MkField "alerts.webhook_secret" "Metrics" FieldString (VString "") [] true None None
].
