(* ===== verification/ConfigFacts.v ===== *)
(** * ConfigFacts: what the settings store promises

    A batch of changes is all or nothing, whatever order Go walks it in; stored
    values are of their field's type and within its bounds; and a restart gives
    back the same settings although the file turns integers into floating-point
    numbers and lists into other lists. *)

From S2P Require Export ConfigStore.
Open Scope Z_scope.

(** ** Numbers *)

Definition is_f64 (x : f64) : Prop := Z.abs (f_man x) < 2 ^ 53.

Lemma f_lt_trunc x b : f_lt x b = false -> b <= f_trunc x.
Proof.
  unfold f_lt, f_trunc. destruct (Z.leb_spec 0 (f_exp x)) as [He|He]; [lia|]. intros H%Z.ltb_ge.
  assert (0 < 2 ^ (- f_exp x)) as Hp by (apply Z.pow_pos_nonneg; lia).
  rewrite <- (Z.quot_mul b (2 ^ (- f_exp x))) by lia. apply Z.quot_le_mono; lia.
Qed.

Lemma f_gt_trunc x b : f_gt x b = false -> f_trunc x <= b.
Proof.
  unfold f_gt, f_trunc. destruct (Z.leb_spec 0 (f_exp x)) as [He|He]; [lia|]. intros H%Z.ltb_ge.
  assert (0 < 2 ^ (- f_exp x)) as Hp by (apply Z.pow_pos_nonneg; lia).
  rewrite <- (Z.quot_mul b (2 ^ (- f_exp x))) at 1 by lia. apply Z.quot_le_mono; lia.
Qed.

Lemma in_int64_iff z : in_int64 z = true <-> is_int64 z.
Proof. unfold in_int64, is_int64. rewrite andb_true_iff, !Z.leb_le. done. Qed.

Lemma int_of_int64 x : is_int64 (int_of x).
Proof. unfold int_of. destruct (in_int64 _) eqn:E; [by apply in_int64_iff|]. unfold is_int64, int64_min, int64_max. lia. Qed.

(** An integer with [53 + j] bits of which the last [j] are zero is exact. *)
Lemma float_of_exact a j : 0 <= j -> Z.abs a < 2 ^ 53 -> f_trunc (float_of (a * 2 ^ j)) = a * 2 ^ j.
Proof.
  intros Hj Ha. unfold float_of. destruct (Z.leb_spec (Z.abs (a * 2 ^ j)) (2 ^ 53)) as [|Hz].
  { unfold f_trunc. simpl. lia. }
  set (z := a * 2 ^ j) in *. set (n := Z.abs z) in *.
  assert (0 < 2 ^ j) as Hp by (apply Z.pow_pos_nonneg; lia).
  assert (n = Z.abs a * 2 ^ j) as Hn by (unfold n, z; rewrite Z.abs_mul, (Z.abs_eq (2 ^ j)); lia).
  assert (53 <= Z.log2 n) as Hl1 by (apply Z.log2_le_pow2; lia).
  assert (Z.log2 n < 53 + j) as Hl2.
  { apply Z.log2_lt_pow2; [lia|]. rewrite Z.pow_add_r by lia. nia. }
  set (k := Z.log2 n - 52) in *. assert (1 <= k <= j) as Hk by (unfold k; lia).
  assert (n = Z.abs a * 2 ^ (j - k) * 2 ^ k) as Hd
    by (rewrite Hn, <- Z.mul_assoc, <- Z.pow_add_r by lia; do 2 f_equal; lia).
  assert (0 < 2 ^ k) as Hpk by (apply Z.pow_pos_nonneg; lia).
  assert (0 < 2 ^ (k - 1)) as Hpk1 by (apply Z.pow_pos_nonneg; lia).
  assert (n mod 2 ^ k = 0) as -> by (rewrite Hd; apply Z_mod_mult).
  assert (n / 2 ^ k = Z.abs a * 2 ^ (j - k)) as -> by (rewrite Hd; apply Z_div_mult; lia).
  destruct (Z.ltb_spec (2 ^ (k - 1)) 0); [lia|]. destruct (Z.eqb_spec (2 ^ (k - 1)) 0); [lia|]. simpl.
  unfold f_trunc. simpl. destruct (Z.leb_spec 0 k); [|lia].
  rewrite <- Z.mul_assoc, <- Hd. unfold n. by rewrite Z.mul_comm, Z.abs_sgn.
Qed.

Lemma float_of_trunc x : is_f64 x -> f_trunc (float_of (f_trunc x)) = f_trunc x.
Proof.
  unfold is_f64. intros Hx. unfold f_trunc at 2 3. destruct (Z.leb_spec 0 (f_exp x)) as [He|He].
  - by apply float_of_exact.
  - rewrite <- (Z.mul_1_r (Z.quot _ _)). change 1 with (2 ^ 0). apply float_of_exact; [done|].
    assert (0 < 2 ^ (- f_exp x)) as Hp by (apply Z.pow_pos_nonneg; lia).
    rewrite <- Z.quot_abs by lia. rewrite (Z.abs_eq (2 ^ _)) by lia.
    assert (Z.quot (Z.abs (f_man x)) (2 ^ (- f_exp x)) <= Z.abs (f_man x)); [|lia].
    apply Z.quot_le_upper_bound; nia.
Qed.

(** An integer that the file gives back. *)
Definition exact_int (n : Z) : Prop := int_of (float_of n) = n.

Lemma exact_int_of x : is_f64 x -> exact_int (int_of x).
Proof.
  intros Hx. unfold exact_int, int_of at 2 3. destruct (in_int64 (f_trunc x)) eqn:E; [|by vm_compute].
  unfold int_of. by rewrite float_of_trunc, E.
Qed.
Lemma exact_int_small n : Z.abs n <= 2 ^ 53 -> exact_int n.
Proof.
  intros Hn. unfold exact_int, float_of. destruct (Z.leb_spec (Z.abs n) (2 ^ 53)); [|lia].
  unfold int_of, f_trunc. simpl. rewrite Z.mul_1_r.
  rewrite (proj2 (in_int64_iff n)); [done|]. unfold is_int64, int64_min, int64_max. lia.
Qed.

(** ** Values of a field *)

Definition number (v : value) : option Z :=
  match v with VInt n => Some n | VFloat x => Some (int_of x) | _ => None end.

Definition within (f : Field) (n : Z) : Prop :=
  (forall b, Max f = Some b -> n <= b) /\
  (forall b, Min f = Some b -> b <= n \/ (Max f = None /\ n = int64_min)).

Definition all_strings (v : value) : Prop :=
  match v with VStrings _ => True | VArr l => Forall (fun v => exists s, v = VString s) l | _ => False end.

Definition typed (f : Field) (v : value) : Prop :=
  match Type_ f with
  | FieldBool => exists b, v = VBool b
  | FieldInt => exists n, number v = Some n /\ within f n
  | FieldString | FieldSecret => exists s, v = VString s
  | FieldDuration => exists s d, v = VString s /\ ParseDuration s = Some d
  | FieldEnum => exists s, v = VString s /\ s ∈ Enum f
  | FieldList => all_strings v
  | FieldJSON => True
  end.

Definition meaningful (f : Field) (v : value) : Prop :=
  match fieldValidators (Key f) with Some fn => fn v = "" | None => True end.

Definition settled (v : value) : Prop := match v with VInt n => exact_int n | _ => True end.

Definition ok_value (f : Field) (v : value) : Prop :=
  settled v /\ (v = VNil \/ (typed f v /\ meaningful f v)).

(** What a request may carry: numbers as the decoder makes them. *)
Definition decoded (v : value) : Prop :=
  match v with VFloat x => is_f64 x | VInt n => exact_int n | _ => True end.

Lemma strings_of_map l : strings_of (map VString l) = l.
Proof. induction l as [|s l IH]; simpl; [done|]. by rewrite IH. Qed.

Lemma strings_of_reload l : strings_of (map reload l) = strings_of l.
Proof. induction l as [|v l IH]; simpl; [done|]. destruct v; simpl; by rewrite IH. Qed.

Lemma toStringSlice_reload v : toStringSlice (reload v) = toStringSlice v.
Proof. destruct v; simpl; try done; [apply strings_of_map|apply strings_of_reload]. Qed.

(** The validators read the strings of a value only. *)
Definition same_strings (v w : value) : Prop :=
  toStringSlice v = toStringSlice w /\
  match v, w with VString s, VString t => s = t | VString _, _ | _, VString _ => False | _, _ => True end.

Lemma fieldValidators_cases k fn :
  fieldValidators k = Some fn -> fn ∈ [validateHostOrIP; validateHostname; validateCIDRList; validateMediaRef].
Proof. unfold fieldValidators. repeat case_match; intros [= <-] || done; set_solver. Qed.

Lemma validator_same fn v w :
  fn ∈ [validateHostOrIP; validateHostname; validateCIDRList; validateMediaRef] -> same_strings v w -> fn v = fn w.
Proof.
  intros Hfn [Hs Hv]. rewrite !elem_of_cons, elem_of_nil in Hfn.
  destruct Hfn as [->|[->|[->|[->|[]]]]]; [..|by unfold validateCIDRList; rewrite Hs|];
    destruct v, w; try done; by subst.
Qed.

Lemma meaningful_same f v w : same_strings v w -> meaningful f v -> meaningful f w.
Proof.
  unfold meaningful. intros H. destruct (fieldValidators (Key f)) as [fn|] eqn:E; [|done].
  by rewrite (validator_same fn v w (fieldValidators_cases _ _ E) H).
Qed.

Lemma reload_same v : same_strings v (reload v).
Proof. split; [by rewrite toStringSlice_reload|]. by destruct v. Qed.

Lemma coerce_same f v : same_strings v (coerce f v).
Proof. unfold coerce, same_strings. destruct (Type_ f), v; done. Qed.

Lemma typed_coerce f v : typed f v -> typed f (coerce f v).
Proof.
  unfold typed, coerce. destruct (Type_ f); try done; destruct v; simpl; naive_solver.
Qed.

Lemma settled_coerce f v : decoded v -> settled (coerce f v).
Proof. unfold coerce. destruct (Type_ f), v; simpl; try done. intros H. by apply exact_int_of. Qed.

Lemma coerce_nil f : coerce f VNil = VNil.
Proof. unfold coerce. by destruct (Type_ f). Qed.

Lemma ok_reload f v : ok_value f v -> ok_value f (reload v).
Proof.
  intros [Hs Hv]. split; [by destruct v|]. destruct Hv as [->|[Ht Hm]]; [by left|]. right.
  split; [|by eapply meaningful_same; [apply reload_same|]].
  revert Hs Ht. unfold typed, settled. destruct (Type_ f); try done; destruct v; simpl; try naive_solver.
  - unfold exact_int. intros -> (m & [= <-] & H). eauto.
  - intros _ _. apply Forall_map, Forall_true. simpl. eauto.
  - intros _. clear Hm. induction 1 as [|w l [s ->] _ IH]; simpl; [done|]. constructor; eauto.
Qed.

(** ** Validation *)

Lemma check_bounds_within f x (lo hi : Z -> bool) n :
  check_bounds f lo hi = "" ->
  (forall b, lo b = false -> b <= x) -> (forall b, hi b = false -> x <= b) ->
  n = x \/ (in_int64 x = false /\ n = int64_min) ->
  (forall b, Max f = Some b -> b <= int64_max) -> (forall b, Min f = Some b -> int64_min <= b) ->
  (forall b, Max f = Some b -> exists c, Min f = Some c) ->
  within f n.
Proof.
  unfold check_bounds, within. intros Hc Hlo Hhi Hn HM Hm HMm.
  destruct (Min f) as [lo_b|] eqn:El.
  - destruct (lo lo_b) eqn:Hl; [done|]. destruct (Max f) as [hi_b|] eqn:Eh.
    + destruct (hi hi_b) eqn:Hh; [done|]. specialize (Hlo _ Hl). specialize (Hhi _ Hh).
      specialize (HM _ eq_refl). specialize (Hm _ eq_refl).
      destruct Hn as [->|[Hi _]].
      * split; intros b [= <-]; [done|by left].
      * exfalso. apply not_true_iff_false in Hi. apply Hi, in_int64_iff. unfold is_int64. lia.
    + split; [done|]. intros b [= <-]. specialize (Hlo _ Hl).
      destruct Hn as [->|[_ ->]]; [by left|by right].
  - destruct (Max f) as [hi_b|] eqn:Eh; [|done]. by destruct (HMm _ eq_refl).
Qed.

(** The bounds of a schema fit an [int64], and a field with an upper bound has a
    lower one. *)
Definition schema_bounds (f : Field) : Prop :=
  (forall b, Max f = Some b -> b <= int64_max) /\ (forall b, Min f = Some b -> int64_min <= b) /\
  (forall b, Max f = Some b -> exists c, Min f = Some c).

Lemma check_type_typed f v :
  schema_bounds f -> decoded v -> check_type f v = "" -> typed f (coerce f v).
Proof.
  intros (H1 & H2 & H3) Hd. unfold check_type, typed, coerce.
  destruct (Type_ f); destruct v; try done; try (by eauto).
  - intros Hc. exists n. split; [done|]. simpl in Hd.
    apply (check_bounds_within f (f_trunc (float_of n)) _ _ n Hc); eauto using f_lt_trunc, f_gt_trunc.
    unfold exact_int, int_of in Hd. destruct (in_int64 (f_trunc (float_of n))) eqn:E; [by left|right]. by split.
  - intros Hc. exists (int_of x). split; [done|].
    apply (check_bounds_within f (f_trunc x) _ _ _ Hc); eauto using f_lt_trunc, f_gt_trunc.
    unfold int_of. destruct (in_int64 (f_trunc x)) eqn:E; [by left|right; by split].
  - destruct (ParseDuration s) as [d|] eqn:E; [eauto|done].
  - destruct (existsb _ _) eqn:E; [|done]. intros _. exists s. split; [done|].
    apply existsb_exists in E as (t & Ht & ->%String.eqb_eq). by apply list_elem_of_In.
Qed.

Lemma validateValue_ok f v :
  schema_bounds f -> decoded v -> validateValue f v = "" -> ok_value f (coerce f v).
Proof.
  intros Hf Hd Hv. split; [by apply settled_coerce|].
  assert (v = VNil \/ v <> VNil) as [->|Hn] by (destruct v; auto); [left; apply coerce_nil|right].
  assert (check_type f v = "" /\ meaningful f v) as [Ht Hm].
  { assert (validateValue f v = let e := check_type f v in if negb (String.eqb e "") then e else
      match fieldValidators (Key f) with Some fn => fn v | None => "" end) as E by (by destruct v).
    rewrite E in Hv. cbv zeta in Hv. destruct (String.eqb_spec (check_type f v) "") as [Ec|Ec]; cbn [negb] in Hv; [|done].
    split; [done|]. unfold meaningful. by destruct (fieldValidators _). }
  split; [by apply check_type_typed|]. by eapply meaningful_same; [apply coerce_same|].
Qed.

(** ** Values of a schema *)

(** A schema whose fields have distinct keys, sensible bounds and acceptable
    defaults. *)
Record schema_ok (fields : list Field) : Prop := {
  sc_keys : NoDup (map Key fields);
  sc_fields : Forall (fun f => schema_bounds f /\ ok_value f (Default f)) fields
}.

Definition values_ok (fields : list Field) (m : Set_) : Prop :=
  (forall f, f ∈ fields -> is_Some (m !! Key f)) /\
  (forall k v, m !! k = Some v -> exists f, ByKey fields k = Some f /\ ok_value f v).

Lemma ByKey_in fields f : NoDup (map Key fields) -> f ∈ fields -> ByKey fields (Key f) = Some f.
Proof.
  induction fields as [|g fields IH]; [by intros _ ?%elem_of_nil|]. intros [Hk Hn]%NoDup_cons Hf. unfold ByKey. simpl.
  destruct (String.eqb_spec (Key g) (Key f)) as [E|E].
  - apply elem_of_cons in Hf as [->|Hf]; [done|]. destruct Hk. rewrite E. by apply list_elem_of_fmap_2.
  - apply elem_of_cons in Hf as [->|Hf]; [done|]. by apply IH.
Qed.

Lemma ByKey_Some fields k f : ByKey fields k = Some f -> f ∈ fields /\ Key f = k.
Proof. intros [Hin ->%String.eqb_eq]%find_some. split; [by apply list_elem_of_In|done]. Qed.

Lemma schema_default fields f : schema_ok fields -> f ∈ fields -> ok_value f (Default f) /\ schema_bounds f.
Proof. intros [_ Hf] Hin. rewrite Forall_forall in Hf. by destruct (Hf f Hin). Qed.

Lemma fold_fill fields0 fields (m : Set_) (keep : bool) :
  schema_ok fields0 -> (forall f, f ∈ fields -> f ∈ fields0) ->
  (forall k v, m !! k = Some v -> exists f, ByKey fields0 k = Some f /\ ok_value f v) ->
  let m' : Set_ := foldl (fun (m : Set_) f => match (if keep then m !! Key f else None) with
                              | Some _ => m | None => <[Key f := Default f]> m end) m fields in
  (forall k, is_Some (m !! k) -> is_Some (m' !! k)) /\ (forall f, f ∈ fields -> is_Some (m' !! Key f)) /\
  (forall k v, m' !! k = Some v -> exists f, ByKey fields0 k = Some f /\ ok_value f v).
Proof.
  intros Hs. revert m. induction fields as [|f fields IH]; intros m Hsub Hm; cbn [foldl].
  { split_and!; [done|by intros ? ?%elem_of_nil|done]. }
  set (m1 := match _ with Some _ => m | None => _ end).
  assert (Hf : f ∈ fields0) by (apply Hsub; set_solver).
  assert (H1 : forall k, is_Some (m !! k) -> is_Some (m1 !! k)).
  { intros k Hk. unfold m1. destruct (if keep then m !! Key f else None); [done|].
    destruct (decide (k = Key f)) as [->|]; [by rewrite lookup_insert_eq|by rewrite lookup_insert_ne]. }
  assert (H2 : is_Some (m1 !! Key f)).
  { unfold m1. destruct keep; [destruct (m !! Key f) eqn:E; [by rewrite E|]|]; by rewrite lookup_insert_eq. }
  assert (H3 : forall k v, m1 !! k = Some v -> exists f, ByKey fields0 k = Some f /\ ok_value f v).
  { intros k v. unfold m1. destruct (if keep then _ else _); [apply Hm|].
    destruct (decide (k = Key f)) as [->|]; [rewrite lookup_insert_eq|rewrite lookup_insert_ne by done; apply Hm].
    intros [= <-]. exists f. destruct (schema_default fields0 f Hs Hf). split; [|done]. apply ByKey_in; [apply Hs|done]. }
  destruct (IH m1) as (G1 & G2 & G3); [set_solver|exact H3|]. split_and!; [by eauto|..|exact G3].
  intros g [->|Hg]%elem_of_cons; [by apply G1|by apply G2].
Qed.

Lemma defaults_ok fields : schema_ok fields -> values_ok fields (defaults fields).
Proof.
  intros Hs. destruct (fold_fill fields fields ∅ false Hs) as (_ & H2 & H3); [done|by intros k v ?|]. by split.
Qed.

Lemma fillDefaults_ok fields m :
  schema_ok fields -> (forall k v, m !! k = Some v -> exists f, ByKey fields k = Some f /\ ok_value f v) ->
  values_ok fields (fillDefaults fields m).
Proof. intros Hs Hm. destruct (fold_fill fields fields m true Hs) as (_ & H2 & H3); [done|exact Hm|]. by split. Qed.

Lemma fillDefaults_full fields m : (forall f, f ∈ fields -> is_Some (m !! Key f)) -> fillDefaults fields m = m.
Proof.
  unfold fillDefaults. induction fields as [|f fields IH]; intros Hm; cbn [foldl]; [done|].
  destruct (Hm f) as [v ->]; [set_solver|]. apply IH. set_solver.
Qed.

Lemma reload_ok fields m : values_ok fields m -> values_ok fields (reload <$> m).
Proof.
  intros [H1 H2]. split.
  - intros f Hf. rewrite lookup_fmap. destruct (H1 f Hf) as [v ->]. by eexists.
  - intros k v. rewrite lookup_fmap. intros (w & Hw & ->)%fmap_Some. destruct (H2 _ _ Hw) as (f & Hf & Hv).
    exists f. split; [done|]. by apply ok_reload.
Qed.

(** ** The store *)

Section StoreFacts.
Context (walk : Set_ -> list (string * value)) (Hwalk : forall m, walk m ≡ₚ map_to_list m).
Context {W : Type} `{!Persist document W}.
Abbreviation store := (Store (W := W)).

(** Why a request's value is refused; [""]: it is not. *)
Definition refusal (fields : list Field) (k : string) (v : value) : string :=
  match ByKey fields k with Some f => validateValue f v | None => "unknown setting" end.
Definition coerced (fields : list Field) (k : string) (v : value) : value :=
  match ByKey fields k with Some f => coerce f v | None => v end.

Definition accepted (fields : list Field) (kv : string * value) : bool := String.eqb (refusal fields kv.1 kv.2) "".

Lemma set_one_eq fields m l e k v :
  set_one fields (m, l, e) (k, v) =
  if accepted fields (k, v) then (<[k := coerced fields k v]> m, l ++ [k], e)
  else (m, l, <[k := refusal fields k v]> e).
Proof.
  unfold set_one, accepted, refusal, coerced. simpl. destruct (ByKey fields k) as [f|]; [|done].
  by destruct (String.eqb (validateValue f v) "").
Qed.

(** The loop over a walk without repeated keys. *)
Lemma set_loop fields l m0 l0 e0 :
  NoDup (map fst l) ->
  foldl (set_one fields) (m0, l0, e0) l =
  (list_to_map (map (fun kv => (kv.1, coerced fields kv.1 kv.2)) (List.filter (accepted fields) l)) ∪ m0,
   l0 ++ map fst (List.filter (accepted fields) l),
   list_to_map (map (fun kv => (kv.1, refusal fields kv.1 kv.2)) (List.filter (fun kv => negb (accepted fields kv)) l)) ∪ e0).
Proof.
  revert m0 l0 e0. induction l as [|[k v] l IH]; intros m0 l0 e0 Hn; cbn [foldl List.filter map].
  { simpl. by rewrite app_nil_r, !(left_id_L ∅ (∪)). }
  apply NoDup_cons in Hn as [Hk Hn]. rewrite set_one_eq.
  assert (forall (g : string * value -> bool) {B} (h : string -> value -> B),
    (list_to_map (map (fun kv => (kv.1, h kv.1 kv.2)) (List.filter g l)) : gmap string B) !! k = None) as Hfresh.
  { intros g B h. apply not_elem_of_list_to_map_1. intros Hin. apply Hk.
    apply list_elem_of_fmap in Hin as ([k' b] & -> & Hin). apply list_elem_of_In, in_map_iff in Hin as ([k1 v1] & [= <- <-] & Hin).
    apply filter_In in Hin as [Hin _]. apply list_elem_of_In, in_map_iff. by exists (k1, v1). }
  destruct (accepted fields (k, v)); cbn [negb map]; rewrite IH by done; simpl.
  - rewrite <- app_assoc. simpl. do 2 f_equal.
    by rewrite <- insert_union_r, insert_union_l by apply Hfresh.
  - f_equal. by rewrite <- insert_union_r, insert_union_l by apply Hfresh.
Qed.

Lemma walk_fst_NoDup m : NoDup (map fst (walk m)).
Proof. rewrite (Permutation_map fst (Hwalk m)). apply NoDup_fst_map_to_list. Qed.

Lemma elem_of_walk m k v : In (k, v) (walk m) <-> m !! k = Some v.
Proof. rewrite <- list_elem_of_In, (Hwalk m). apply elem_of_map_to_list. Qed.

(** Part of a walk as a map. *)
Lemma walk_part {B} (g : string * value -> bool) (h : string -> value -> B) m k b :
  (list_to_map (map (fun kv => (kv.1, h kv.1 kv.2)) (List.filter g (walk m))) : gmap string B) !! k = Some b <->
  exists v, m !! k = Some v /\ g (k, v) = true /\ b = h k v.
Proof.
  set (l := List.filter g (walk m)).
  assert (NoDup (map fst l)) as Hn.
  { pose proof (walk_fst_NoDup m) as H. unfold l. induction (walk m) as [|[k' v'] w IH]; simpl in *; [constructor|].
    apply NoDup_cons in H as [Hk H]. specialize (IH H). destruct (g (k', v')); [|done]. simpl. constructor; [|done].
    intros Hin. apply Hk. apply list_elem_of_In, in_map_iff in Hin as ([k1 v1] & <- & Hin).
    apply filter_In in Hin as [Hin _]. apply list_elem_of_In, in_map_iff. by exists (k1, v1). }
  rewrite <- elem_of_list_to_map by (rewrite map_map; exact Hn).
  rewrite list_elem_of_In, in_map_iff. unfold l. split.
  - intros ([k' v] & [= -> <-] & Hin). apply filter_In in Hin as [Hin Hg]. apply elem_of_walk in Hin. eauto.
  - intros (v & Hv & Hg & ->). exists (k, v). split; [done|]. apply filter_In. by rewrite elem_of_walk.
Qed.

Definition all_accepted (fields : list Field) (req : Set_) : Prop :=
  forall k v, req !! k = Some v -> refusal fields k v = "".

(** What the loop makes of a request. *)
Lemma set_request fields req m0 :
  exists m l e, foldl (set_one fields) (m0, [], ∅) (walk req) = (m, l, e) /\
    (forall k r, e !! k = Some r <-> exists v, req !! k = Some v /\ r <> "" /\ r = refusal fields k v) /\
    (e = ∅ <-> all_accepted fields req) /\
    (e = ∅ -> l ≡ₚ map fst (map_to_list req) /\
       forall k, m !! k = match req !! k with Some v => Some (coerced fields k v) | None => m0 !! k end).
Proof.
  rewrite set_loop by apply walk_fst_NoDup. do 3 eexists. split; [reflexivity|].
  rewrite (right_id_L ∅ (∪)). set (e := list_to_map _).
  assert (forall k r, e !! k = Some r <-> exists v, req !! k = Some v /\ r <> "" /\ r = refusal fields k v) as He.
  { intros k r. unfold e. rewrite walk_part. unfold accepted. simpl. split; intros (v & H1 & H2 & ->); exists v; split_and!; try done.
    - by destruct (String.eqb_spec (refusal fields k v) "").
    - by destruct (String.eqb_spec (refusal fields k v) ""). }
  split; [exact He|]. split.
  - split.
    + intros Hn k v Hk. destruct (String.eqb_spec (refusal fields k v) "") as [|Hne]; [done|].
      assert (e !! k = Some (refusal fields k v)) as H by (apply He; eauto). by rewrite Hn in H.
    + intros Ha. apply map_empty. intros k. destruct (e !! k) as [r|] eqn:Er; [|done].
      apply He in Er as (v & Hv & Hr & ->). by destruct Hr; apply Ha.
  - intros Hn. assert (forall kv, In kv (walk req) -> accepted fields kv = true) as Ha.
    { intros [k v] Hin%elem_of_walk. unfold accepted. simpl.
      destruct (String.eqb_spec (refusal fields k v) "") as [|Hne]; [done|].
      assert (e !! k = Some (refusal fields k v)) as H by (apply He; eauto). by rewrite Hn in H. }
    split.
    + simpl. rewrite (forallb_filter_id (accepted fields) (walk req)) by (by apply forallb_forall). by rewrite (Hwalk req).
    + intros k. set (c := list_to_map _).
      assert (forall b, c !! k = Some b <-> exists v, req !! k = Some v /\ accepted fields (k, v) = true /\ b = coerced fields k v) as Hc
        by (intros b; apply walk_part).
      destruct (req !! k) as [v|] eqn:Er.
      * rewrite (lookup_union_Some_l c m0 k (coerced fields k v)); [done|]. apply Hc. exists v. split_and!; try done.
        by apply Ha, elem_of_walk.
      * apply lookup_union_r. destruct (c !! k) as [b|] eqn:Ec; [|done]. by destruct (proj1 (Hc b) eq_refl) as (v & [=] & _).
Qed.

(** C35: a batch of settings is all or nothing.  Whatever order Go walks the
    request in: it succeeds exactly when every key is known, every value valid
    and the file is written, and then every requested setting has its coerced
    value, every other its old one, the file holds the new values, and the keys
    that need a restart are pending; otherwise values, file and pending keys are
    as before, and the reasons given are those of the refused values. *)
Theorem SetMany_all_or_nothing req (s : store) :
  let '(applied, failed, err, s') := SetMany walk req s in
  (failed = ∅ ->
     err = false /\ all_accepted (schema s) req /\ applied ≡ₚ map fst (map_to_list req) /\
     (forall k, values s' !! k =
        match req !! k with Some v => Some (coerced (schema s) k v) | None => values s !! k end) /\
     stored (disk s') = Some (Whole (Some (values s'))) /\
     (forall k, k ∈ pendingBefore s' <-> k ∈ pendingBefore s \/ (is_Some (req !! k) /\ restart_key (schema s) k = true))) /\
  (failed <> ∅ ->
     values s' = values s /\ stored (disk s') = stored (disk s) /\ pendingBefore s' = pendingBefore s /\ applied = [] /\
     (err = false -> forall k r, failed !! k = Some r <->
        exists v, req !! k = Some v /\ r <> "" /\ r = refusal (schema s) k v)).
Proof.
  unfold SetMany. destruct (set_request (schema s) req (values s)) as (m & l & e & -> & He & Hall & Hm).
  unfold validateCrossField. destruct (decide (e = ∅)) as [Hn|Hn].
  - rewrite (bool_decide_eq_true_2 (e = ∅)) by done. cbn [negb]. rewrite bool_decide_eq_true_2 by done. cbn [negb].
    destruct (Hm Hn) as [Hl Hv]. unfold saveLocked. cbn.
    destruct (save _ _) as [[] w] eqn:Es; cbn [negb].
    + split; [|done]. intros _. split_and!; try done.
      * by apply Hall.
      * rewrite <- Hl. apply sort_strings_Permutation.
      * cbn. by apply save_true in Es.
      * intros k. cbn. rewrite elem_of_union, elem_of_list_to_set, list_elem_of_In, filter_In, <- list_elem_of_In, Hl.
        assert (k ∈ map fst (map_to_list req) <-> is_Some (req !! k)) as ->; [|tauto].
        rewrite list_elem_of_In, in_map_iff. split.
        -- intros ([k' v] & <- & Hin). apply list_elem_of_In, elem_of_map_to_list in Hin. by exists v.
        -- intros [v Hv']. exists (k, v). split; [done|]. by apply list_elem_of_In, elem_of_map_to_list.
    + split; [intros H; by apply (f_equal (fun m => m !! "_")) in H|]. intros _.
      split_and!; try done. cbn. by apply save_false in Es.
  - rewrite !(bool_decide_eq_false_2 (e = ∅)) by done. cbn [negb].
    split; [done|]. intros _. by split_and!.
Qed.

(** ** Runs *)

Inductive cfg_op := CSet (req : Set_) | CReset | CClear | CRestart.

Definition do_cfg (o : cfg_op) (s : store) : store :=
  match o with
  | CSet req => (SetMany walk req s).2
  | CReset => (Reset s).2
  | CClear => ClearPending s
  | CRestart => (restart s).2
  end.

Definition decoded_op (o : cfg_op) : Prop :=
  match o with CSet req => forall k v, req !! k = Some v -> decoded v | _ => True end.

(** The store and its file hold acceptable values. *)
Record store_ok (s : store) : Prop := {
  so_schema : schema_ok (schema s);
  so_values : values_ok (schema s) (values s);
  so_disk : exists m, stored (disk s) = Some (Whole (Some m)) /\ values_ok (schema s) m
}.

Lemma restart_eq (s : store) m :
  stored (disk s) = Some (Whole (Some m)) -> (forall f, f ∈ schema s -> is_Some (m !! Key f)) ->
  restart s = (Ok tt, MkStore (schema s) (reload <$> m) ∅ (disk s)).
Proof.
  intros Hd Hm. unfold restart, New, load. cbn [disk schema]. rewrite Hd, fillDefaults_full; [done|]. intros f Hf. rewrite lookup_fmap. destruct (Hm f Hf) as [v ->]. by eexists.
Qed.

Lemma SetMany_schema req (s : store) : schema (SetMany walk req s).2 = schema s.
Proof.
  unfold SetMany. destruct (foldl _ _ _) as [[m l] e]. destruct (negb _); [done|].
  unfold saveLocked. cbn. by destruct (save _ _) as [[] w].
Qed.

Lemma SetMany_cases req (s : store) :
  let s' := (SetMany walk req s).2 in
  (values s' = values s /\ stored (disk s') = stored (disk s)) \/
  (all_accepted (schema s) req /\ stored (disk s') = Some (Whole (Some (values s'))) /\
   forall k, values s' !! k = match req !! k with Some v => Some (coerced (schema s) k v) | None => values s !! k end).
Proof.
  cbv zeta. unfold SetMany. destruct (set_request (schema s) req (values s)) as (m & l & e & -> & _ & Hall & Hm).
  unfold validateCrossField. destruct (decide (e = ∅)) as [Hn|Hn].
  - rewrite (bool_decide_eq_true_2 (e = ∅)) by done. cbn [negb]. rewrite bool_decide_eq_true_2 by done. cbn [negb].
    unfold saveLocked. cbn. destruct (save _ _) as [[] w] eqn:Es; cbn [negb].
    + right. split_and!; [by apply Hall|by apply save_true in Es|by apply (Hm Hn)].
    + left. split; [done|]. by apply save_false in Es.
  - rewrite !(bool_decide_eq_false_2 (e = ∅)) by done. by left.
Qed.

Lemma accepted_ok fields req m m' :
  schema_ok fields -> values_ok fields m -> all_accepted fields req -> (forall k v, req !! k = Some v -> decoded v) ->
  (forall k, m' !! k = match req !! k with Some v => Some (coerced fields k v) | None => m !! k end) ->
  values_ok fields m'.
Proof.
  intros Hs Hv Ha Hd E. split.
  - intros f Hin. rewrite E. destruct (req !! Key f); [by eexists|by apply Hv].
  - intros k v. rewrite E. destruct (req !! k) as [w|] eqn:Ew; [|by apply Hv]. intros [= <-].
    specialize (Ha _ _ Ew). unfold refusal in Ha. unfold coerced. destruct (ByKey fields k) as [f|] eqn:Ef; [|done].
    exists f. split; [done|]. apply validateValue_ok; [|by eapply Hd|done].
    apply ByKey_Some in Ef as [Hin _]. by apply (schema_default fields).
Qed.

Lemma SetMany_ok req (s : store) :
  (forall k v, req !! k = Some v -> decoded v) -> store_ok s -> store_ok (SetMany walk req s).2.
Proof.
  intros Hd [Hs Hv Hf]. pose proof (SetMany_schema req s) as Es.
  destruct (SetMany_cases req s) as [[E1 E2]|(Ha & E1 & E2)].
  - split; rewrite ?Es, ?E1, ?E2; done.
  - assert (values_ok (schema s) (values (SetMany walk req s).2)) as H by (by eapply accepted_ok).
    split; rewrite ?Es; eauto.
Qed.

Lemma Reset_ok (s : store) : store_ok s -> store_ok (Reset s).2.
Proof.
  intros [Hs Hv Hf]. unfold Reset, saveLocked. cbn. destruct (save _ _) as [[] w] eqn:Es; split; cbn; try done.
  - by apply defaults_ok.
  - apply save_true in Es. eexists. split; [exact Es|]. by apply defaults_ok.
  - by apply defaults_ok.
  - apply save_false in Es. rewrite Es. exact Hf.
Qed.

Lemma do_cfg_ok o (s : store) : decoded_op o -> store_ok s -> store_ok (do_cfg o s).
Proof.
  intros Hd Hs. destruct o; cbn.
  - by apply SetMany_ok.
  - by apply Reset_ok.
  - by destruct Hs.
  - destruct Hs as [Hs Hv (m & Hm & Hok)]. rewrite (restart_eq s m Hm) by apply Hok. split; cbn; [done|by apply reload_ok|eauto].
Qed.

Lemma New_config_ok fields (w : W) s0 :
  schema_ok fields -> stored w = None -> New fields w = (Ok tt, s0) ->
  store_ok s0 /\ schema s0 = fields /\ stored (disk s0) = Some (Whole (Some (values s0))).
Proof.
  intros Hs Hw. unfold New, load. cbn. rewrite Hw. unfold saveLocked. cbn.
  destruct (save _ _) as [[] w'] eqn:Es; [|done]. intros [= <-]. apply save_true in Es.
  pose proof (defaults_ok fields Hs). split_and!; [split; cbn; eauto|done|done].
Qed.

Lemma run_ok fields (w : W) s0 ops :
  schema_ok fields -> stored w = None -> New fields w = (Ok tt, s0) -> Forall decoded_op ops ->
  store_ok (run do_cfg ops s0) /\ schema (run do_cfg ops s0) = fields.
Proof.
  intros Hs Hw H0 Ho. destruct (New_config_ok _ _ _ Hs Hw H0) as (Hok & <- & _).
  apply (run_invariant_labels do_cfg decoded_op (fun s => store_ok s /\ schema s = schema s0)); [|done|by split].
  intros o s Hd [Hk Hsc]. split; [by apply do_cfg_ok|]. rewrite <- Hsc. destruct o; cbn.
  - apply SetMany_schema.
  - unfold Reset, saveLocked. cbn. by destruct (save _ _).
  - done.
  - destruct Hk as [_ _ (m & Hm & Hmok)]. by rewrite (restart_eq s m Hm) by apply Hmok.
Qed.

Lemma store_ok_get (s : store) f :
  store_ok s -> f ∈ schema s -> exists v, Get (Key f) s = Some v /\ (v = VNil \/ (typed f v /\ meaningful f v)).
Proof.
  intros [Hs Hv _] Hf. unfold Get. rewrite (ByKey_in _ _ (sc_keys _ Hs) Hf).
  destruct (proj1 Hv _ Hf) as [v Ev]. exists v. rewrite Ev. split; [done|].
  destruct (proj2 Hv _ _ Ev) as (g & Hg & _ & H). rewrite (ByKey_in _ _ (sc_keys _ Hs) Hf) in Hg. by injection Hg as <-.
Qed.

(** Settings are sound.  From first start on an empty directory, after any
    requests (refused and unsaved ones included), resets and restarts, every
    setting of the schema has a value, and it is null or of the type of its
    field, inside its bounds, one of its enum, a parsable duration, and passes
    the check of its key; the one exception is a number too large for an [int]
    in a field without an upper bound, which is stored as the least one. *)
Theorem settings_sound fields (w : W) s0 ops f :
  schema_ok fields -> stored w = None -> New fields w = (Ok tt, s0) -> Forall decoded_op ops -> f ∈ fields ->
  exists v, Get (Key f) (run do_cfg ops s0) = Some v /\ (v = VNil \/ (typed f v /\ meaningful f v)).
Proof.
  intros Hs Hw H0 Ho Hf. destruct (run_ok fields w s0 ops Hs Hw H0 Ho) as [Hok Es].
  apply store_ok_get; [done|]. by rewrite Es.
Qed.

(** ** Restarts *)

Definition saved_op (o : cfg_op) (s : store) : bool := match o with CReset => (Reset s).1 | _ => true end.
Fixpoint resets_saved (ops : list cfg_op) (s : store) : bool :=
  match ops with [] => true | o :: ops => saved_op o s && resets_saved ops (do_cfg o s) end.

(** The file holds the values, or what they were before they were read back. *)
Definition synced (s : store) : Prop :=
  exists m, stored (disk s) = Some (Whole (Some m)) /\ values_ok (schema s) m /\
    (values s = m \/ values s = reload <$> m).

Lemma do_cfg_synced o (s : store) :
  decoded_op o -> saved_op o s = true -> store_ok s -> synced s -> synced (do_cfg o s).
Proof.
  intros Hd Hsv Hs (m & Hm & Hok & Hv). destruct o; cbn in *.
  - pose proof (SetMany_ok req s Hd Hs) as [_ Hok' _]. pose proof (SetMany_schema req s) as Es.
    destruct (SetMany_cases req s) as [[E1 E2]|(_ & E1 & _)]; unfold synced; rewrite ?Es.
    + exists m. rewrite E1, E2. done.
    + exists (values (SetMany walk req s).2). rewrite Es in Hok'. auto.
  - revert Hsv. unfold Reset, saveLocked, synced. cbn. destruct (save _ _) as [[] w] eqn:Es; [|done]. intros _. cbn.
    apply save_true in Es. eexists. split; [exact Es|]. split; [|by left]. apply defaults_ok, Hs.
  - by exists m.
  - rewrite (restart_eq s m Hm) by apply Hok. exists m. cbn. auto.
Qed.

Lemma run_synced ops (s : store) :
  Forall decoded_op ops -> resets_saved ops s = true -> store_ok s -> synced s -> synced (run do_cfg ops s).
Proof.
  revert s. induction ops as [|o ops IH]; intros s Hd Hsv Hs Hsy; [done|]. cbn in *.
  apply Forall_cons in Hd as [Hd1 Hd2]. apply andb_prop in Hsv as [H1 H2].
  apply IH; [done|done|by apply do_cfg_ok|by apply do_cfg_synced].
Qed.

(** What the getters read of a value does not change. *)
Lemma reload_reads f v :
  ok_value f v ->
  match v with VString t => reload v = VString t | VBool b => reload v = VBool b | _ => True end /\
  number (reload v) = number v /\ toStringSlice (reload v) = toStringSlice v.
Proof.
  intros [Hs _]. split_and!; [by destruct v| |apply toStringSlice_reload].
  destruct v; try done. simpl in *. by rewrite Hs.
Qed.

(** Settings survive a restart.  After any requests and restarts, and resets
    whose write succeeded, starting again from the file succeeds, leaves nothing
    pending, and every integer, boolean, string, list and duration setting reads
    as before, although integers and lists change their representation. *)
Theorem settings_survive_restart fields (w : W) s0 ops k :
  schema_ok fields -> stored w = None -> New fields w = (Ok tt, s0) -> Forall decoded_op ops ->
  resets_saved ops s0 = true ->
  let s := run do_cfg ops s0 in let '(r, s') := restart s in
  r = Ok tt /\ pendingBefore s' = ∅ /\
  GetInt k s' = GetInt k s /\ GetBool k s' = GetBool k s /\ GetString k s' = GetString k s /\
  GetList k s' = GetList k s /\
  (forall f, ByKey fields k = Some f -> Type_ f = FieldDuration -> GetDuration k s' = GetDuration k s).
Proof.
  intros Hs Hw H0 Ho Hr. destruct (New_config_ok _ _ _ Hs Hw H0) as (Hok0 & E0 & Hd0).
  destruct (run_ok fields w s0 ops Hs Hw H0 Ho) as [Hok Es].
  assert (synced (run do_cfg ops s0)) as (m & Hm & Hmok & Hv).
  { apply run_synced; try done. exists (values s0). split_and!; [done|apply Hok0|by left]. }
  cbv zeta. rewrite (restart_eq _ m Hm) by apply Hmok. split; [done|]. split; [done|].
  set (s := run do_cfg ops s0) in *. set (s' := MkStore _ _ _ _).
  destruct (ByKey fields k) as [f|] eqn:Ef; cycle 1.
  { unfold GetInt, GetBool, GetString, GetList, Get. cbn [schema s']. by rewrite Es, Ef. }
  pose proof (ByKey_Some _ _ _ Ef) as [Hin Ek]. rewrite Es in Hmok.
  destruct (proj1 Hmok _ Hin) as [v Ev]. rewrite Ek in Ev. destruct (proj2 Hmok _ _ Ev) as (g & Hg & Hvok).
  assert (g = f) as -> by congruence.
  assert (Get k s' = Some (reload v)) as E'.
  { unfold Get. cbn [schema values s']. by rewrite Es, Ef, lookup_fmap, Ev. }
  assert (Get k s = Some v \/ Get k s = Some (reload v)) as E.
  { unfold Get. rewrite Es, Ef. destruct Hv as [->| ->]; [rewrite Ev; by left|rewrite lookup_fmap, Ev; by right]. }
  unfold GetInt, GetBool, GetString, GetList, GetDuration. rewrite E'.
  destruct E as [->| ->]; [|done].
  destruct (reload_reads f v Hvok) as (_ & Hn & Hl). split_and!; [|by destruct v|by destruct v|exact Hl|].
  - destruct v; try done. simpl in *. by injection Hn.
  - intros g [= <-] Ht. destruct Hvok as [_ [->|[Hty _]]]; [done|]. unfold typed in Hty. rewrite Ht in Hty.
    by destruct Hty as (t & d & -> & _).
Qed.
End StoreFacts.

(** ** The schema of the program *)

(** What a decidable check of the schema amounts to. *)
Definition schema_field_ok (f : Field) : bool :=
  match Min f, Max f with None, Some _ => false | _, _ => true end &&
  match Max f with Some b => Z.leb b int64_max | None => true end &&
  match Min f with Some b => Z.leb int64_min b | None => true end &&
  match Default f with
  | VInt n => Z.eqb (int_of (float_of n)) n
  | VFloat _ | VArr _ => false
  | _ => true
  end && String.eqb (validateValue f (Default f)) "".

Lemma schema_field_ok_sound f : schema_field_ok f = true -> schema_bounds f /\ ok_value f (Default f).
Proof.
  unfold schema_field_ok. rewrite !andb_true_iff. intros [[[[H1 H2] H3] H4] H5%String.eqb_eq].
  assert (schema_bounds f) as Hb.
  { split_and!; intros b E; rewrite E in *; [lia|lia|]. destruct (Min f); [eauto|done]. }
  split; [done|]. assert (decoded (Default f)) as Hd.
  { destruct (Default f); simpl in *; try done. by apply Z.eqb_eq. }
  assert (coerce f (Default f) = Default f) as E by (unfold coerce; destruct (Type_ f), (Default f); done).
  rewrite <- E. by apply validateValue_ok.
Qed.

Lemma DefaultSchema_ok : schema_ok DefaultSchema.
Proof.
  split; [apply (bool_decide_eq_true_1 _); by vm_compute|].
  apply (Forall_impl (fun f => schema_field_ok f = true)); [|apply schema_field_ok_sound].
  apply Forall_forall. intros f Hf%list_elem_of_In. revert f Hf. apply forallb_forall. by vm_compute.
Qed.

(** ** Witnesses *)

Module ConfigDemo.
Export DemoDisk.
Definition walk (m : Set_) : list (string * value) := map_to_list m.
Definition blank : cell document := MkCell None true.
(** Two of the fields, so that the examples stay small. *)
Definition two_fields : list Field := List.filter (fun f => existsb (String.eqb (Key f)) ["server.port"; "auth.token_ttl"]) DefaultSchema.
Definition s0 : Store := (New DefaultSchema blank).2.
Definition change : Set_ := <["server.port" := VFloat (F64 9090 0)]> {["auth.token_ttl" := VString "90m"]}.

Example change_works :
  let r := SetMany walk change (New two_fields blank).2 in
  r.1 = (["auth.token_ttl"; "server.port"], ∅, false) /\
  GetInt "server.port" r.2 = 9090 /\ GetDuration "auth.token_ttl" r.2 = 90 * minute /\
  PendingRestart r.2 = ["server.port"].
Proof. vm_compute. done. Qed.

Lemma change_decoded : Forall decoded_op [CSet change; CRestart].
Proof.
  repeat constructor; try done. intros k v. unfold change.
  destruct (decide (k = "server.port")) as [->|]; [rewrite lookup_insert_eq; intros [= <-]; unfold decoded, is_f64; simpl; lia|].
  rewrite lookup_insert_ne by done. intros [_ <-]%lookup_singleton_Some. done.
Qed.
End ConfigDemo.

Lemma SetMany_all_or_nothing_witness :
  let '(_, failed, _, s') := SetMany ConfigDemo.walk ConfigDemo.change ConfigDemo.s0 in
  failed <> ∅ \/ values s' !! "server.port" = Some (VInt 9090).
Proof.
  pose proof (SetMany_all_or_nothing ConfigDemo.walk (fun m => reflexivity _) ConfigDemo.change ConfigDemo.s0) as H.
  destruct (SetMany ConfigDemo.walk ConfigDemo.change ConfigDemo.s0) as [[[applied failed] err] s'].
  destruct H as [H _]. destruct (decide (failed = ∅)) as [Hf|Hf]; [right|by left].
  destruct (H Hf) as (_ & _ & _ & Hv & _). rewrite Hv. unfold ConfigDemo.change. rewrite lookup_insert_eq. reflexivity.
Defined.

Lemma settings_sound_witness :
  exists v, Get "server.port" (run (do_cfg ConfigDemo.walk) [CSet ConfigDemo.change; CRestart] ConfigDemo.s0) = Some v /\
    (v = VNil \/
     (typed (MkField "server.port" "Server" FieldInt (VInt 8080) [] false (Some 1) (Some 65535)) v /\
      meaningful (MkField "server.port" "Server" FieldInt (VInt 8080) [] false (Some 1) (Some 65535)) v)).
Proof.
  apply (settings_sound ConfigDemo.walk (fun m => reflexivity _) DefaultSchema ConfigDemo.blank ConfigDemo.s0
    [CSet ConfigDemo.change; CRestart] (MkField "server.port" "Server" FieldInt (VInt 8080) [] false (Some 1) (Some 65535))).
  - exact DefaultSchema_ok.
  - reflexivity.
  - reflexivity.
  - exact ConfigDemo.change_decoded.
  - unfold DefaultSchema. set_solver.
Defined.

Lemma settings_survive_restart_witness :
  let s := run (do_cfg ConfigDemo.walk) [CSet ConfigDemo.change; CRestart] ConfigDemo.s0 in
  GetInt "server.port" (restart s).2 = GetInt "server.port" s.
Proof.
  pose proof (settings_survive_restart ConfigDemo.walk (fun m => reflexivity _) DefaultSchema ConfigDemo.blank ConfigDemo.s0
    [CSet ConfigDemo.change; CRestart] "server.port" DefaultSchema_ok eq_refl eq_refl ConfigDemo.change_decoded eq_refl) as H.
  cbv zeta in *. destruct (restart _) as [r s']. by destruct H as (_ & _ & Hi & _).
Defined.
