(* ===== verification/Settings.v ===== *)
(** * Settings: what the settings store is wired to

    Models the parts of [cmd/server/main.go] and [cmd/server/tls.go] that read
    the settings, the interfaces under which the limiters, the sessions and the
    firewall see the store, and the handlers of [api/settings.go].  X.509 key
    pairs, the ACME client and the JSON decoder are outside the repository:
    parameters. *)

From S2P Require Import TrimSpace RateLimit Middleware Netguard Firewall.
From S2P Require Export ConfigFacts.
Open Scope Z_scope.

(** ** Start-up ([main]) *)

Definition incus_default (incusEnabled : bool) (f : Field) : Field :=
  if String.eqb (Key f) "server.incus_enabled"
  then MkField (Key f) (Section_ f) (Type_ f) (VBool incusEnabled) (Enum f) (HotReload f) (Min f) (Max f) else f.
Definition main_schema (incusEnabled : bool) : list Field := map (incus_default incusEnabled) DefaultSchema.

Record Config := MkConfig {
  BindAddr : string; Port : Z; PublicHost : string; IncusEnabled : bool; LibvirtStartDelaySec : Z; LogFile : string
}.

Section Wiring.
Context (walk : Set_ -> list (string * value)).
Context {W : Type} `{!Persist document W}.
Abbreviation store := (Store (W := W)).

Definition apply_settings (cfg : Config) (s : store) : Config :=
  let addr := GetString "server.bind_addr" s in
  let port := GetInt "server.port" s in
  let public := GetString "server.public_host" s in
  MkConfig (if negb (String.eqb addr "") then addr else BindAddr cfg) (if 0 <? port then port else Port cfg)
    (if negb (String.eqb public "") then public else PublicHost cfg) (GetBool "server.incus_enabled" s)
    (LibvirtStartDelaySec cfg) (LogFile cfg).

(** The level and the format given to the logger, when any. *)
Definition log_level (s : store) : option string :=
  let v := GetString "logging.level" s in if negb (String.eqb v "") then Some v else None.
Definition log_format (cfg : Config) (s : store) : option string :=
  let v := GetString "logging.format" s in
  if negb (String.eqb v "") && String.eqb (LogFile cfg) "" then Some v else None.

Definition libvirt_start_delay (cfg : Config) (s : store) : Z :=
  let v := GetInt "server.libvirt_start_delay_sec" s in if 0 <? v then v else LibvirtStartDelaySec cfg.

Record BackupConfig := MkBackupConfig { MaxFileSizeMB : Z; VerifyOnWrite : bool }.
Definition backup_config (s : store) : BackupConfig :=
  MkBackupConfig (GetInt "backup.max_file_size_mb" s) (GetBool "backup.verify_on_write" s).

Definition confirm_window (s : store) : Z :=
  let secs := GetInt "firewall.confirm_window_secs" s in
  (if (secs <? 10) || (300 <? secs) then 30 else secs) * second.

(** ** The interfaces the store is passed as *)

Definition rate_settings (s : store) : RateLimitSettings :=
  MkRateSettings (fun k => GetBool k s) (fun k => GetInt k s) (fun k => GetList k s).
Definition cidr_settings (s : store) : ClientIP.TrustedCIDRProvider :=
  {| ClientIP.GetList := fun k => GetList k s; ClientIP.GetBool := fun k => GetBool k s |}.
Definition session_settings (s : store) : SettingsProvider :=
  MkSettings (fun k => GetDuration k s) (fun k => GetBool k s).

(** ** The connection cap ([perIPLimitExempt]) *)

Definition parseCIDRList (items : list string) : list ipnet := omap (fun c => ParseCIDR (trim_space c)) items.

Definition perIPLimitExempt (env : string) (settings : option store) (host : string) : bool :=
  match ParseIP host with
  | None => false
  | Some a =>
      IsLoopback a
      || existsb (fun n => Contains n a) (parseCIDRList (split_byte "," env))
      || match settings with
         | None => false
         | Some s => existsb (fun n => Contains n a) (parseCIDRList (GetList "server.trusted_cidrs" s))
         end
  end.

(** ** TLS *)

Definition trim_brackets (s : string) : string :=
  let brackets c := Ascii.eqb c "[" || Ascii.eqb c "]" in
  let fix left s := match s with String c t => if brackets c then left t else s | EmptyString => "" end in
  trim_right_set brackets (left s).

Definition isLoopbackBind (host : string) : bool :=
  if String.eqb host "localhost" then true
  else match ParseIP (trim_brackets host) with Some a => IsLoopback a | None => false end.

Inductive TLSMode := tlsModeOff | tlsModeSelfSigned | tlsModeLetsEncrypt.
#[export] Instance TLSMode_eq_dec : EqDecision TLSMode.
Proof. solve_decision. Defined.

Definition cookiesSecure (configured : bool) (mode : TLSMode) (envSet : bool) : bool :=
  if bool_decide (mode = tlsModeOff) && negb envSet then false else configured.

Context {cert hello : Type}.
(** [tls.LoadX509KeyPair] of a certificate and a key file, and the ACME client
    for one domain. *)
Context (LoadX509KeyPair : string -> string -> option cert) (acme : string -> hello -> option cert).

Record TLSConfig := MkTLS {
  NextProtos : list string;
  GetCertificate : option (hello -> option cert);
  Certificates : list cert
}.

Definition configureTLS (s : store) : option TLSConfig * TLSMode :=
  let tlsCert := GetString "server.tls_cert" s in
  let tlsKey := GetString "server.tls_key" s in
  let tlsDomain := GetString "server.tls_domain" s in
  if String.eqb tlsDomain "" && (String.eqb tlsCert "" || String.eqb tlsKey "") then (None, tlsModeOff) else
  let fallback := if negb (String.eqb tlsCert "") && negb (String.eqb tlsKey "")
                  then LoadX509KeyPair tlsCert tlsKey else None in
  if negb (String.eqb tlsDomain "")
  then (Some (MkTLS ["h2"; "http/1.1"; "acme-tls/1"]
          (Some (fun h => match acme tlsDomain h with Some c => Some c | None => fallback end)) []), tlsModeLetsEncrypt)
  else match fallback with
       | None => (None, tlsModeOff)
       | Some c => (Some (MkTLS [] None [c]), tlsModeSelfSigned)
       end.

(** The certificate a handshake gets: [GetCertificate] first, as in crypto/tls. *)
Definition served (conf : TLSConfig) (h : hello) : option cert :=
  match GetCertificate conf with Some f => f h | None => head (Certificates conf) end.

(** [insecure_listener] is logged. *)
Definition insecure_listener (cfg : Config) (s : store) : bool :=
  match (configureTLS s).1 with None => negb (isLoopbackBind (BindAddr cfg)) | Some _ => false end.

(** ** Handlers *)

Inductive answer :=
| Unavailable | BadRequest | ServerError
| OkSchema (fields : list Field)
| OkValues (values : Set_) (pending : list string)
| OkFailed (failed : gmap string string)
| OkApplied (applied : list string) (pending : list string)
| OkReset (pending : list string).

Definition GetSettingsSchema (settings : option store) : answer :=
  match settings with None => Unavailable | Some s => OkSchema (schema s) end.
Definition GetSettings (settings : option store) : answer :=
  match settings with None => Unavailable | Some s => OkValues (Snapshot s) (PendingRestart s) end.

(** [body]: what the decoder makes of the request, when it can; the audit
    record's keys, when one is written. *)
Definition SetSettings (body : option Set_) (settings : option store) : answer * option (list string) * option store :=
  match settings with
  | None => (Unavailable, None, None)
  | Some s =>
      match body with
      | None => (BadRequest, None, Some s)
      | Some req =>
          let '(applied, failed, err, s) := SetMany walk req s in
          if err : bool then (ServerError, None, Some s)
          else if negb (bool_decide (failed = ∅)) then (OkFailed failed, None, Some s)
          else (OkApplied applied (PendingRestart s), Some applied, Some s)
      end
  end.

Definition ResetSettings (settings : option store) : answer * bool * option store :=
  match settings with
  | None => (Unavailable, false, None)
  | Some s => let '(ok, s) := Reset s in
              if negb ok then (ServerError, false, Some s) else (OkReset (PendingRestart s), true, Some s)
  end.
End Wiring.

(** ** What the components get *)

Lemma main_schema_ok b : schema_ok (main_schema b).
Proof.
  split; [destruct b; apply (bool_decide_eq_true_1 _); by vm_compute|].
  apply (Forall_impl (fun f => schema_field_ok f = true)); [|apply schema_field_ok_sound].
  apply Forall_forall. intros f Hf%list_elem_of_In. revert f Hf. apply forallb_forall. destruct b; by vm_compute.
Qed.

Section WiringFacts.
Context (walk : Set_ -> list (string * value)) (Hwalk : forall m, walk m ≡ₚ map_to_list m).
Context {W : Type} `{!Persist document W}.
Abbreviation store := (Store (W := W)).

(** What the settings of the program can be: first start on an empty directory,
    then requests, resets and restarts. *)
Definition reachable_settings (b : bool) (s : store) : Prop :=
  exists (w : W) s0 ops, stored w = None /\ New (main_schema b) w = (Ok tt, s0) /\
    Forall decoded_op ops /\ s = run (do_cfg walk) ops s0.

Lemma reachable_ok b s : reachable_settings b s -> store_ok s /\ schema s = main_schema b.
Proof. intros (w & s0 & ops & Hw & H0 & Ho & ->). apply (run_ok walk Hwalk _ w); try done. apply main_schema_ok. Qed.

Lemma reachable_field b s k f :
  reachable_settings b s -> ByKey (main_schema b) k = Some f ->
  exists v, Get k s = Some v /\ (v = VNil \/ (typed f v /\ meaningful f v)).
Proof.
  intros [Hok Es]%reachable_ok Hf. apply ByKey_Some in Hf as [Hin <-]. apply store_ok_get; [done|]. by rewrite Es.
Qed.

Definition is_null (k : string) (s : store) : bool := match Get k s with Some VNil => true | _ => false end.

(** An integer setting: null reads as 0. *)
Lemma reachable_int b s k f :
  reachable_settings b s -> ByKey (main_schema b) k = Some f -> Type_ f = FieldInt ->
  (is_null k s = true /\ GetInt k s = 0) \/ (is_null k s = false /\ within f (GetInt k s)).
Proof.
  intros Hs Hf Ht. destruct (reachable_field b s k f Hs Hf) as (v & Ev & [->|[Hty _]]).
  - left. unfold is_null, GetInt. by rewrite Ev.
  - right. unfold typed in Hty. rewrite Ht in Hty. destruct Hty as (n & Hn & Hw).
    assert (GetInt k s = n) as -> by (unfold GetInt; rewrite Ev; destruct v; simpl in Hn; congruence).
    split; [|done]. unfold is_null. rewrite Ev. by destruct v.
Qed.

(** The components get settings they can work with.  Whatever was stored,
    the confirmation window the firewall manager uses is the stored number of
    seconds, between 10 and 300, or 30 seconds for a null; the request limiter
    runs with a positive rate and burst; and the server listens on a port from 1
    to 65535 as long as the one it was started with is.  The fallback the
    firewall keeps for an odd window is never used. *)
Theorem settings_reach_components b s L env cfg rollbackAfter :
  reachable_settings b s -> 1 <= Port cfg <= 65535 ->
  let secs := GetInt "firewall.confirm_window_secs" s in
  let '(r, bu) := params L (NewGlobalRateLimiter L (Some (rate_settings s)) env) in
  confirmWindow (Some (confirm_window s)) rollbackAfter
    = (if is_null "firewall.confirm_window_secs" s then 30 else secs) * second /\
  10 * second <= confirmWindow (Some (confirm_window s)) rollbackAfter <= 300 * second /\
  0 < r /\ 0 < bu /\
  1 <= Port (apply_settings cfg s) <= 65535.
Proof.
  intros Hs Hp. cbv zeta. unfold params. cbn [settings NewGlobalRateLimiter rs_int rate_settings].
  assert (forall v d, 0 < d -> 0 < positive_or v d) as Hpos.
  { intros v d Hd. unfold positive_or. destruct (Z.ltb_spec 0 v); lia. }
  assert (0 < second) as Hsec by done.
  assert (confirm_window s = (if is_null "firewall.confirm_window_secs" s then 30
      else GetInt "firewall.confirm_window_secs" s) * second /\ 10 * second <= confirm_window s <= 300 * second) as [Ew Hw].
  { unfold confirm_window. set (secs := GetInt _ s).
    destruct (reachable_int b s "firewall.confirm_window_secs" (MkField "firewall.confirm_window_secs" "Firewall" FieldInt (VInt 30) [] true (Some 10) (Some 300)) Hs)
      as [[E E0]|[E Hin]]; [by destruct b|done| |].
    - rewrite E. unfold secs. rewrite E0. simpl. lia.
    - rewrite E. fold secs in Hin. destruct Hin as [H1 H2].
      specialize (H1 _ eq_refl). destruct (H2 _ eq_refl) as [H3|[? _]]; [|done].
      destruct (Z.ltb_spec secs 10); [lia|]. destruct (Z.ltb_spec 300 secs); [lia|]. simpl. nia. }
  assert (confirmWindow (Some (confirm_window s)) rollbackAfter = confirm_window s) as ->.
  { unfold confirmWindow. destruct (Z.leb_spec (10 * second) (confirm_window s)); [|lia].
    destruct (Z.leb_spec (confirm_window s) (300 * second)); [done|lia]. }
  split_and!; try done; try apply Hpos; try done; try apply Hw.
  all: cbn [Port apply_settings]; destruct (reachable_int b s "server.port"
    (MkField "server.port" "Server" FieldInt (VInt 8080) [] false (Some 1) (Some 65535)) Hs)
      as [[E E0]|[E [H1 H2]]]; try done; try (by destruct b).
  1,3: rewrite E0; simpl; lia.
  all: specialize (H1 _ eq_refl); destruct (H2 _ eq_refl) as [H3|[? _]]; [|done];
    destruct (Z.ltb_spec 0 (GetInt "server.port" s)); simpl; lia.
Qed.

(** A change that went through is what the getters read. *)
Lemma SetMany_success req (s s' : store) applied :
  SetMany walk req s = (applied, ∅, false, s') ->
  schema s' = schema s /\ all_accepted (schema s) req /\
  forall k, values s' !! k = match req !! k with Some v => Some (coerced (schema s) k v) | None => values s !! k end.
Proof.
  unfold SetMany. destruct (set_request walk Hwalk (schema s) req (values s)) as (m & l & e & -> & _ & Hall & Hm).
  unfold validateCrossField. destruct (decide (e = ∅)) as [Hn|Hn].
  - rewrite (bool_decide_eq_true_2 (e = ∅)) by done. cbn [negb]. rewrite bool_decide_eq_true_2 by done. cbn [negb].
    unfold saveLocked. cbn. destruct (save _ _) as [[] w]; cbn [negb].
    + intros [= _ <-]. cbn. split; [done|]. split; [by apply Hall|apply (Hm Hn)].
    + done.
  - rewrite !(bool_decide_eq_false_2 (e = ∅)) by done. by intros [= _ -> _].
Qed.

Lemma changed_int b req (s s' : store) applied k f x :
  schema s = main_schema b -> SetMany walk req s = (applied, ∅, false, s') ->
  ByKey (main_schema b) k = Some f -> Type_ f = FieldInt -> Min f = Some 1 -> fieldValidators (Key f) = None ->
  req !! k = Some (VFloat x) -> in_int64 (f_trunc x) = true ->
  GetInt k s' = f_trunc x /\ 1 <= f_trunc x.
Proof.
  intros Hsc Hset Hf Ht Hmin Hv Hk Hx. destruct (SetMany_success _ _ _ _ Hset) as (Es & Ha & Hval).
  specialize (Ha _ _ Hk). unfold refusal in Ha. rewrite Hsc, Hf in Ha. unfold validateValue, check_type in Ha.
  rewrite Ht, Hv in Ha. split.
  - unfold GetInt, Get. rewrite Es, Hsc, Hf, Hval, Hk. unfold coerced, coerce. rewrite Hsc, Hf, Ht. simpl.
    unfold int_of. by rewrite Hx.
  - apply f_lt_trunc. unfold check_bounds in Ha. rewrite Hmin in Ha. by destruct (f_lt x 1).
Qed.

(** A new rate limit is in force at once.  When a request that sets rate and
    burst is accepted, the next request of any client is judged by a bucket of
    that rate and burst, also a client whose bucket was made under the old
    settings; no restart and no sweep is needed. *)
Theorem rate_change_is_live b req (s s' : store) applied x y L (l : GlobalRateLimiter L) a now :
  schema s = main_schema b -> SetMany walk req s = (applied, ∅, false, s') ->
  req !! "server.rate_limit_rps" = Some (VFloat x) -> req !! "server.rate_limit_burst" = Some (VFloat y) ->
  in_int64 (f_trunc x) = true -> in_int64 (f_trunc y) = true ->
  RateLimit.settings L l = Some (rate_settings s') ->
  let '(_, l') := limiterFor L a now l in
  exists bk, buckets L l' !! bucket_key a = Some bk /\ rps L bk = f_trunc x /\ burst L bk = f_trunc y /\
    (forall old, buckets L l !! bucket_key a = Some old -> (rps L old, burst L old) <> (f_trunc x, f_trunc y) ->
       lim L bk = new_limiter L (f_trunc x) (f_trunc y)).
Proof.
  intros Hsc Hset Hx Hy Ix Iy Hl.
  destruct (changed_int b req s s' applied "server.rate_limit_rps" (MkField "server.rate_limit_rps" "Server" FieldInt (VInt 50) [] true (Some 1) None) x)
    as [Ex Gx]; try done.
  destruct (changed_int b req s s' applied "server.rate_limit_burst" (MkField "server.rate_limit_burst" "Server" FieldInt (VInt 100) [] true (Some 1) None) y)
    as [Ey Gy]; try done.
  assert (params L l = (f_trunc x, f_trunc y)) as Ep.
  { unfold params. rewrite Hl. cbn [rs_int rate_settings]. rewrite Ex, Ey. unfold positive_or.
    destruct (Z.ltb_spec 0 (f_trunc x)); [|lia]. by destruct (Z.ltb_spec 0 (f_trunc y)); [|lia]. }
  unfold limiterFor. rewrite Ep. cbn [buckets set_buckets]. eexists. split; [by rewrite lookup_insert_eq|].
  destruct (buckets L l !! bucket_key a) as [old|]; [|done].
  destruct (Z.eqb_spec (rps L old) (f_trunc x)) as [E1|E1], (Z.eqb_spec (burst L old) (f_trunc y)) as [E2|E2]; cbn [negb orb rps burst lim];
    (split; [done|]); (split; [done|]); intros o [= <-] Hne; try done.
  destruct Hne. by rewrite E1, E2.
Qed.

(** ** Trust *)

Lemma parse_trusted_same env : parseTrustedCIDRs env = parseCIDRList (split_byte "," env).
Proof.
  unfold parseCIDRList. assert (forall l, omap (fun c => ParseCIDR (trim_space c)) l = omap ParseCIDR (map trim_space l)) as E.
  { induction l as [|c l IH]; [done|]. unfold omap in *. simpl. by rewrite IH. }
  rewrite E, <- trim_items_trim by (by vm_compute). rewrite <- E. unfold parseTrustedCIDRs.
  destruct (String.eqb_spec (trim_space env) "") as [->|_]; [done|].
  apply list_omap_ext, Forall2_same_length_lookup_2; [done|]. intros i x y Hx Hy. rewrite Hx in Hy. injection Hy as <-.
  by destruct (String.eqb_spec (trim_space x) "") as [->|].
Qed.

(** The connection cap and the request limiters trust the same peers.  The
    exemption of the listener, which reads the environment and the settings on
    its own, answers for a host text exactly what [isTrustedPeer] of the login
    and request limiters answers for the address it denotes, for any white space
    in the list, any item that is no network, and with or without settings. *)
Theorem exempt_equals_trusted env (settings : option store) host :
  perIPLimitExempt env settings host =
  isTrustedPeer (ParseIP host) (parseTrustedCIDRs env) (cidr_settings <$> settings).
Proof.
  unfold perIPLimitExempt, isTrustedPeer. rewrite parse_trusted_same. destruct (ParseIP host) as [a|]; [|done].
  f_equal. destruct settings as [s|]; [|done]. simpl. unfold parseCIDRList, omap.
  induction (GetList "server.trusted_cidrs" s) as [|c l IH]; [done|]. simpl.
  destruct (ParseCIDR (trim_space c)) as [n|]; simpl; [by rewrite IH|exact IH].
Qed.
End WiringFacts.

(** ** Witnesses *)

Module SettingsDemo.
Export ConfigDemo.
(** A store with the fields of some keys only, so that the examples stay small. *)
Definition with_keys (l : list string) : Store :=
  (New (List.filter (fun f => existsb (String.eqb (Key f)) l) DefaultSchema) blank).2.
Definition s0 : Store := (New (main_schema false) blank).2.
Definition rates : Set_ :=
  <["server.rate_limit_rps" := VFloat (F64 5 0)]> {["server.rate_limit_burst" := VFloat (F64 7 0)]}.
(** A store of the program's schema of which nothing was stored yet. *)
Definition empty : Store := MkStore (main_schema false) ∅ ∅ blank.
Definition s1 : Store := (SetMany walk rates empty).2.
Example rates_accepted :
  SetMany walk rates empty = (["server.rate_limit_burst"; "server.rate_limit_rps"], ∅, false, s1).
Proof.
  assert ((SetMany walk rates empty).1 = (["server.rate_limit_burst"; "server.rate_limit_rps"], ∅, false)) as H by (by vm_compute).
  unfold s1. destruct (SetMany walk rates empty) as [r s']. cbn [fst snd] in *. by rewrite H.
Qed.
Definition old : GlobalRateLimiter RateDemo.countdown :=
  MkGlobal RateDemo.countdown {["203.0.113.9" := MkBucket RateDemo.countdown 40 0 50 100]} [] (Some (rate_settings s1)) rateLimitTTL.
Definition cfg : Config := MkConfig "" 8080 "" false 0 "".

(** A key and a certificate in the settings, and no domain: served as they are. *)
Example self_signed :
  let s := (SetMany walk (<["server.tls_cert" := VString "c.pem"]> {["server.tls_key" := VString "k.pem"]})
    (with_keys ["server.tls_cert"; "server.tls_key"])).2 in
  (configureTLS (hello := unit) (fun c k => Some (c, k)) (fun _ _ => None) s).2 = tlsModeSelfSigned /\
  (configureTLS (hello := unit) (fun c k => None (A := unit)) (fun _ _ => None) s).2 = tlsModeOff.
Proof. vm_compute. done. Qed.

(** An address without a mask is accepted as a trusted proxy and trusted by
    neither reader. *)
Example bare_address_ignored :
  let r := SetMany walk {["server.trusted_cidrs" := VArr [VString "192.0.2.7"]]} (with_keys ["server.trusted_cidrs"]) in
  r.1.1.2 = ∅ /\ GetList "server.trusted_cidrs" r.2 = ["192.0.2.7"] /\
  perIPLimitExempt "" (Some r.2) "192.0.2.7" = false /\
  isTrustedPeer (ParseIP "192.0.2.7") [] (Some (cidr_settings r.2)) = false.
Proof. vm_compute. done. Qed.

(** A number beyond an [int64] passes the lower bound and is stored as the least integer. *)
Example huge_number :
  let r := SetMany walk {["server.rate_limit_rps" := VFloat (F64 1 70)]} (with_keys ["server.rate_limit_rps"]) in
  r.1.1.2 = ∅ /\ GetInt "server.rate_limit_rps" r.2 = int64_min.
Proof. vm_compute. done. Qed.

(** Null is accepted for every setting, and turns the request limiter off. *)
Example null_disables_limiter :
  let r := SetMany walk {["server.rate_limit_enabled" := VNil]} (with_keys ["server.rate_limit_enabled"]) in
  r.1.1.2 = ∅ /\ rs_bool (rate_settings r.2) "server.rate_limit_enabled" = false.
Proof. vm_compute. done. Qed.

(** A negative lifetime is a duration: it is stored, and sessions keep the default. *)
Example negative_ttl_ignored :
  let r := SetMany walk {["auth.token_ttl" := VString "-5m"]} (with_keys ["auth.token_ttl"]) in
  r.1.1.2 = ∅ /\ GetString "auth.token_ttl" r.2 = "-5m" /\ set_GetDuration (session_settings r.2) "auth.token_ttl" < 0.
Proof. vm_compute. done. Qed.
End SettingsDemo.

Lemma settings_reach_components_witness :
  10 * second <= confirmWindow (Some (confirm_window (SetMany ConfigDemo.walk SettingsDemo.rates SettingsDemo.s0).2)) 0 <= 300 * second.
Proof.
  assert (reachable_settings ConfigDemo.walk false (SetMany ConfigDemo.walk SettingsDemo.rates SettingsDemo.s0).2) as Hr.
  { exists ConfigDemo.blank, SettingsDemo.s0, [CSet SettingsDemo.rates].
    split; [reflexivity|]. split; [reflexivity|]. split; [|reflexivity].
    constructor; [|constructor]. intros k v. unfold SettingsDemo.rates.
    destruct (decide (k = "server.rate_limit_rps")) as [->|]; [rewrite lookup_insert_eq; intros [= <-]; unfold decoded, is_f64; simpl; lia|].
    rewrite lookup_insert_ne by done. intros [_ <-]%lookup_singleton_Some. unfold decoded, is_f64. simpl. lia. }
  pose proof (settings_reach_components ConfigDemo.walk (fun m => reflexivity _) false _ RateDemo.countdown ""
    SettingsDemo.cfg 0 Hr ltac:(simpl; lia)) as H. cbv zeta in H.
  destruct (params _ _). destruct H as (_ & H & _). exact H.
Defined.

Lemma rate_change_is_live_witness :
  let '(_, l') := limiterFor RateDemo.countdown (ParseIP "203.0.113.9") 1 SettingsDemo.old in
  exists bk, buckets RateDemo.countdown l' !! bucket_key (ParseIP "203.0.113.9") = Some bk /\ rps RateDemo.countdown bk = 5.
Proof.
  pose proof (rate_change_is_live ConfigDemo.walk (fun m => reflexivity _) false SettingsDemo.rates SettingsDemo.empty SettingsDemo.s1
    ["server.rate_limit_burst"; "server.rate_limit_rps"] (F64 5 0) (F64 7 0) RateDemo.countdown SettingsDemo.old (ParseIP "203.0.113.9") 1
    eq_refl SettingsDemo.rates_accepted eq_refl eq_refl eq_refl eq_refl eq_refl) as H.
  destruct (limiterFor _ _ _ _) as [x l']. destruct H as (bk & Hb & Hr & _). exists bk. split; [exact Hb|exact Hr].
Defined.
