(* ===== verification/Chain.v ===== *)
(** * Chain: incremental backup chains

    Models [backupstore/chain.go].  A chain store is one JSON file per target;
    every method loads it, edits the list and saves it.  The walk from a
    checkpoint to its base follows [Parent] names: it is a loop that a cyclic
    lineage keeps running, so it takes fuel here. *)

From S2P Require Export GoStrings AtomicFile.
Open Scope Z_scope.

Record CheckpointEntry := MkEntry {
  ce_Name : string; JobID : string; BackupFile : string; DiskFiles : gmap string string;
  Parent : string; ce_Mode : string; SizeBytes : Z; ce_CreatedAt : Z
}.

Record Chain := MkChain {
  VMID : string; VMName : string; ch_TargetID : string; BaseFile : string;
  Checkpoint : string; Entries : list CheckpointEntry; ch_CreatedAt : Z; UpdatedAt : Z
}.

Section ChainStore.
Context {W : Type} `{Persist (list Chain) W}.

Definition Load (w : W) : res string (list Chain) :=
  match stored w with
  | None => Ok []
  | Some Torn => Err "parse"
  | Some (Whole l) => Ok l
  end.

Definition Save (l : list Chain) (w : W) : bool * W := save l w.

(** Add an entry to a chain. *)
Definition extend_chain (now : Z) (e : CheckpointEntry) (c : Chain) : Chain :=
  MkChain (VMID c) (VMName c) (ch_TargetID c)
    (if String.eqb (BaseFile c) "" then BackupFile e else BaseFile c)
    (ce_Name e) (Entries c ++ [e]) (ch_CreatedAt c) now.

(** The first chain of [vmID], if any, replaced by [f] of it. *)
Fixpoint update_chain (vmID : string) (f : Chain -> Chain) (l : list Chain) : option (Chain * list Chain) :=
  match l with
  | [] => None
  | c :: l =>
      if String.eqb (VMID c) vmID then Some (f c, f c :: l)
      else '(c', l') ← update_chain vmID f l; Some (c', c :: l')
  end.

Definition AppendEntry (vmID targetID vmName : string) (e : CheckpointEntry) (now : Z) (w : W)
    : res string Chain * W :=
  match Load w with
  | Err err => (Err err, w)
  | Ok chains =>
      let '(c, chains) :=
        match update_chain vmID (extend_chain now e) chains with
        | Some r => r
        | None => let c := extend_chain now e (MkChain vmID vmName targetID "" "" [] now time_zero) in
                  (c, chains ++ [c])
        end in
      let '(ok, w) := Save chains w in
      (if ok then Ok c else Err "save", w)
  end.

Definition GetChain (vmID : string) (w : W) : res string (option Chain) :=
  match Load w with
  | Err err => Err err
  | Ok chains => Ok (List.find (fun c => String.eqb (VMID c) vmID) chains)
  end.

Definition LatestCheckpoint (vmID : string) (w : W) : res string string :=
  match GetChain vmID w with
  | Err err => Err err
  | Ok (Some c) => match Entries c with [] => Ok "" | _ => Ok (Checkpoint c) end
  | Ok None => Ok ""
  end.

Definition DeleteChain (vmID : string) (w : W) : res string bool * W :=
  match Load w with
  | Err err => (Err err, w)
  | Ok chains =>
      if existsb (fun c => String.eqb (VMID c) vmID) chains then
        let '(ok, w) := Save (List.filter (fun c => negb (String.eqb (VMID c) vmID)) chains) w in
        (if ok then Ok true else Err "save", w)
      else (Ok false, w)
  end.
End ChainStore.

(** [byName]: the last entry of a name wins. *)
Definition by_name (l : list CheckpointEntry) : gmap string CheckpointEntry :=
  foldl (fun m e => <[ce_Name e := e]> m) ∅ l.

(** The walk backwards from [current]; [None] when the fuel runs out. *)
Fixpoint lineage (fuel : nat) (m : gmap string CheckpointEntry) (current : string)
    : option (list CheckpointEntry) :=
  match fuel with
  | O => None
  | S fuel =>
      if String.eqb current "" then Some [] else
      match m !! current with
      | None => Some []
      | Some e => cons e <$> lineage fuel m (Parent e)
      end
  end.

(** [OrderedEntries]: base first. *)
Definition OrderedEntries (fuel : nat) (c : Chain) (checkpoint : string) : option (list CheckpointEntry) :=
  match Entries c with
  | [] => Some []
  | _ => let target := if String.eqb checkpoint "" then Checkpoint c else checkpoint in
         @rev _ <$> lineage fuel (by_name (Entries c)) target
  end.

Definition FlattenOrder (fuel : nat) (c : Chain) (checkpoint : string) : option (list string) :=
  map BackupFile <$> OrderedEntries fuel c checkpoint.

(** [AllFiles]; [order] lists the disk files of an entry in map order. *)
Definition add_file (f : string) (s : list string * gset string) : list string * gset string :=
  if String.eqb f "" || bool_decide (f ∈ s.2) then s else (s.1 ++ [f], {[f]} ∪ s.2).

Definition AllFiles (order : gmap string string -> list string) (c : Chain) : list string :=
  (foldl (fun s e => foldl (fun s f => add_file f s) (add_file (BackupFile e) s) (order (DiskFiles e)))
     ([], ∅) (Entries c)).1.

(** [TotalSize]: the sum wraps like the code's [int64]. *)
Definition TotalSize (c : Chain) : Z :=
  foldl (fun total e => wrap64 (total + SizeBytes e)) 0 (Entries c).

(** ** Lineages of well-formed chains *)

(** A chain grows at its end: each entry names the one before it, names are
    distinct and not empty.  This is how the runner calls [AppendEntry], the
    parent being the chain's latest checkpoint. *)
Fixpoint linked (parent : string) (l : list CheckpointEntry) : Prop :=
  match l with
  | [] => True
  | e :: l => Parent e = parent /\ ce_Name e <> "" /\ linked (ce_Name e) l
  end.

Definition last_name (parent : string) (l : list CheckpointEntry) : string :=
  match last l with Some e => ce_Name e | None => parent end.

Record wf_chain (c : Chain) : Prop := {
  wf_linked : linked "" (Entries c);
  wf_names : NoDup (map ce_Name (Entries c));
  wf_checkpoint : Checkpoint c = last_name "" (Entries c)
}.

Lemma linked_app p l1 l2 : linked p (l1 ++ l2) <-> linked p l1 /\ linked (last_name p l1) l2.
Proof.
  revert p. induction l1 as [|e l1 IH]; intros p; simpl; [unfold last_name; simpl; tauto|].
  rewrite IH. unfold last_name. rewrite last_cons. destruct (last l1); tauto.
Qed.

Lemma last_name_snoc p l e : last_name p (l ++ [e]) = ce_Name e.
Proof. unfold last_name. by rewrite last_snoc. Qed.

(** Appending with the latest checkpoint as parent keeps a chain well formed. *)
Lemma extend_chain_wf now e c :
  wf_chain c -> Parent e = Checkpoint c -> ce_Name e <> "" -> ce_Name e ∉ map ce_Name (Entries c) ->
  wf_chain (extend_chain now e c).
Proof.
  intros [Hl Hn Hc] Hp Hne Hfresh. split; simpl.
  - apply linked_app. split; [done|]. simpl. by rewrite Hp, Hc.
  - rewrite map_app. apply NoDup_app. split_and!; [done|set_solver|apply NoDup_singleton].
  - by rewrite last_name_snoc.
Qed.

Lemma by_name_lookup l (m : gmap string CheckpointEntry) e :
  NoDup (map ce_Name l) -> e ∈ l ->
  foldl (fun m e => <[ce_Name e := e]> m) m l !! ce_Name e = Some e.
Proof.
  revert m. induction l as [|x l IH]; intros m Hn He; [by apply not_elem_of_nil in He|].
  simpl in *. apply NoDup_cons in Hn as [Hx Hn]. apply elem_of_cons in He as [->|He]; [|by apply IH].
  clear IH. assert (forall m' : gmap string CheckpointEntry, m' !! ce_Name x = Some x ->
    foldl (fun m e => <[ce_Name e := e]> m) m' l !! ce_Name x = Some x) as H; [|apply H, lookup_insert_eq].
  induction l as [|y l IH]; intros m' Hm'; [done|]. simpl in *.
  apply NoDup_cons in Hn as [? Hn]. apply IH; [set_solver|done|].
  rewrite lookup_insert_ne; [done|set_solver].
Qed.

(** Walking back from the last entry of a prefix lists the prefix. *)
Lemma lineage_prefix l m fuel :
  linked "" l -> (forall e, e ∈ l -> m !! ce_Name e = Some e) -> (length l < fuel)%nat ->
  lineage fuel m (last_name "" l) = Some (rev l).
Proof.
  revert fuel. induction l as [|e l IH] using rev_ind; intros fuel Hl Hm Hf.
  - destruct fuel; [lia|]. done.
  - destruct fuel as [|fuel]; [lia|]. rewrite last_name_snoc. simpl.
    apply linked_app in Hl as [Hl (Hp & Hne & _)].
    rewrite (proj2 (String.eqb_neq _ _) Hne), Hm by set_solver. simpl. rewrite Hp, IH.
    + simpl. by rewrite rev_app_distr.
    + done.
    + intros x Hx. apply Hm. set_solver.
    + rewrite length_app in Hf. simpl in Hf. lia.
Qed.

(** A restore point is complete. On a chain grown by the runner, the walk
    for any checkpoint of the chain terminates (fuel one above the chain's
    length is enough) and lists exactly the entries from the base up to that
    checkpoint, base first; with no checkpoint named it lists the whole
    chain. *)
Theorem OrderedEntries_complete c pre e post fuel :
  wf_chain c -> Entries c = pre ++ e :: post -> (length (Entries c) < fuel)%nat ->
  OrderedEntries fuel c (ce_Name e) = Some (pre ++ [e]) /\
  OrderedEntries fuel c "" = Some (Entries c).
Proof.
  intros [Hl Hn Hc] He Hf. unfold OrderedEntries, by_name.
  assert (forall l1 l2, Entries c = l1 ++ l2 -> l1 <> [] ->
    @rev _ <$> lineage fuel (foldl (fun m e => <[ce_Name e := e]> m) ∅ (Entries c)) (last_name "" l1) = Some l1) as Hw.
  { intros l1 l2 E _. rewrite (lineage_prefix l1).
    - simpl. by rewrite rev_involutive.
    - rewrite E in Hl. by apply linked_app in Hl as [? _].
    - intros x Hx. apply by_name_lookup; [done|]. rewrite E. set_solver.
    - rewrite E, length_app in Hf. lia. }
  assert (Entries c <> []) as Hne by (rewrite He; by destruct pre).
  assert (ce_Name e <> "") as Hname.
  { rewrite He in Hl. apply linked_app in Hl as [_ (_ & Hx & _)]. done. }
  split.
  - destruct (Entries c) eqn:E; [done|]. rewrite <- E in *.
    rewrite (proj2 (String.eqb_neq _ _) Hname).
    rewrite <- (last_name_snoc "" pre e). apply (Hw _ post); [|by destruct pre].
    rewrite <- app_assoc. simpl. done.
  - destruct (Entries c) eqn:E; [done|]. rewrite <- E in *. simpl. rewrite Hc.
    apply (Hw _ []); [by rewrite app_nil_r|done].
Qed.

(** ** Growing a chain on disk *)

Lemma update_chain_spec vmID f l :
  (forall c, VMID (f c) = VMID c) ->
  match List.find (fun c => String.eqb (VMID c) vmID) l with
  | None => update_chain vmID f l = None
  | Some c => exists l', update_chain vmID f l = Some (f c, l') /\
      List.find (fun c => String.eqb (VMID c) vmID) l' = Some (f c) /\
      (forall x, x <> vmID -> List.find (fun c => String.eqb (VMID c) x) l'
                              = List.find (fun c => String.eqb (VMID c) x) l)
  end.
Proof.
  intros Hf. induction l as [|c l IH]; simpl; [done|].
  destruct (String.eqb_spec (VMID c) vmID) as [<-|Hne].
  - exists (f c :: l). simpl. rewrite Hf, String.eqb_refl. split_and!; [done|done|].
    intros x Hx. rewrite (proj2 (String.eqb_neq _ _)) by congruence. done.
  - destruct (List.find _ l) as [d|]; [|by rewrite IH].
    destruct IH as (l' & -> & Hfind & Hother). exists (c :: l'). simpl.
    rewrite (proj2 (String.eqb_neq _ _) Hne). split_and!; [done|done|].
    intros x Hx. destruct (String.eqb (VMID c) x); [done|]. by apply Hother.
Qed.

Lemma find_snoc (p : Chain -> bool) l c :
  List.find p (l ++ [c]) = match List.find p l with Some d => Some d | None => if p c then Some c else None end.
Proof. induction l as [|d l IH]; simpl; [done|]. by destruct (p d). Qed.

(** Recording a backup extends the restore history and nothing else. When
    the runner appends an entry whose parent is the chain's latest checkpoint,
    the stored chain of that VM becomes its previous entries followed by the
    new one, well formed if it was, and the chains of other VMs are
    unchanged. *)
Theorem AppendEntry_extends {W} `{Persist (list Chain) W} (w w' : W) vmID targetID vmName e now c' :
  match GetChain vmID w with
  | Ok (Some c) => wf_chain c /\ Parent e = Checkpoint c /\ ce_Name e ∉ map ce_Name (Entries c)
  | _ => Parent e = ""
  end ->
  ce_Name e <> "" ->
  AppendEntry vmID targetID vmName e now w = (Ok c', w') ->
  wf_chain c' /\ GetChain vmID w' = Ok (Some c') /\
  Entries c' = match GetChain vmID w with Ok (Some c) => Entries c | _ => [] end ++ [e] /\
  (forall x, x <> vmID -> GetChain x w' = GetChain x w).
Proof.
  intros Hwf Hne. unfold AppendEntry, GetChain, Save, Load in *.
  destruct (stored w) as [[l|]|] eqn:Es; [|done|].
  2:{ simpl. destruct (save _ w) as [[] w1] eqn:E; [|done]. intros [= <- <-].
      apply save_true in E. rewrite E. simpl. rewrite String.eqb_refl. split_and!; [|done|done|].
      - split; simpl; [by split_and!|by apply NoDup_singleton|done].
      - intros x Hx. by rewrite (proj2 (String.eqb_neq _ _)) by congruence. }
  pose proof (update_chain_spec vmID (extend_chain now e) l ltac:(done)) as Hu.
  destruct (List.find _ l) as [c|] eqn:Ef.
  - destruct Hu as (l' & -> & Hfind & Hother). destruct Hwf as (Hc & Hp & Hfresh).
    destruct (save l' w) as [[] w1] eqn:E; [|done]. intros [= <- <-]. apply save_true in E. rewrite E.
    split_and!; [by apply extend_chain_wf|by rewrite Hfind|done|]. intros x Hx. by rewrite Hother.
  - rewrite Hu. destruct (save _ w) as [[] w1] eqn:E; [|done]. intros [= <- <-].
    apply save_true in E. rewrite E. rewrite find_snoc, Ef. simpl. rewrite String.eqb_refl.
    split_and!; [|done|done|].
    + split; simpl; [by split_and!|by apply NoDup_singleton|done].
    + intros x Hx. rewrite find_snoc. simpl. rewrite (proj2 (String.eqb_neq _ _)) by congruence.
      f_equal. by destruct (List.find (fun c => String.eqb (VMID c) x) l).
Qed.

Module ChainDemo.
Definition entry (name parent : string) : CheckpointEntry :=
  MkEntry name "job" (name +:+ ".qcow2") ∅ parent "incremental" 10 0.
Definition chain : Chain :=
  MkChain "vm" "vm" "t" "a.qcow2" "c" [entry "a" ""; entry "b" "a"; entry "c" "b"] 0 0.

(** A cyclic lineage keeps the walk going for ever: any fuel runs out. *)
Example cyclic_lineage :
  let c := MkChain "vm" "vm" "t" "a.qcow2" "b" [entry "a" "b"; entry "b" "a"] 0 0 in
  OrderedEntries 1000 c "" = None.
Proof. vm_compute. reflexivity. Qed.
End ChainDemo.

Lemma OrderedEntries_complete_witness :
  OrderedEntries 4 ChainDemo.chain "b" = Some [ChainDemo.entry "a" ""; ChainDemo.entry "b" "a"] /\
  FlattenOrder 4 ChainDemo.chain "" = Some ["a.qcow2"; "b.qcow2"; "c.qcow2"].
Proof.
  destruct (OrderedEntries_complete ChainDemo.chain [ChainDemo.entry "a" ""] (ChainDemo.entry "b" "a")
    [ChainDemo.entry "c" "b"] 4) as [H1 H2].
  - split; [by repeat split|apply (bool_decide_unpack _); vm_compute; exact I|reflexivity].
  - reflexivity.
  - simpl. lia.
  - split; [exact H1|]. unfold FlattenOrder. rewrite H2. reflexivity.
Defined.

Lemma AppendEntry_extends_witness :
  let P : Persist (list Chain) (fs (list Chain)) := fs_persist "/data/backup/chains-t.json" saveJSON (saveJSON_atomic _) in
  let w := MkFs {["/data/backup/chains-t.json" := Whole [ChainDemo.chain]]} [] [] in
  let r := AppendEntry "vm" "t" "vm" (ChainDemo.entry "d" "c") 5 w in
  GetChain "vm" r.2 = Ok (Some (extend_chain 5 (ChainDemo.entry "d" "c") ChainDemo.chain)).
Proof.
  intros P w r.
  destruct (AppendEntry_extends w r.2 "vm" "t" "vm" (ChainDemo.entry "d" "c") 5
    (extend_chain 5 (ChainDemo.entry "d" "c") ChainDemo.chain)) as (_ & Hg & _).
  - assert (GetChain "vm" w = Ok (Some ChainDemo.chain)) as -> by (vm_compute; reflexivity).
    split; [split; [by repeat split|apply (bool_decide_unpack _); vm_compute; exact I|reflexivity]|].
    split; [reflexivity|]. apply (bool_decide_unpack _). vm_compute. exact I.
  - discriminate.
  - vm_compute. reflexivity.
  - exact Hg.
Defined.
