(* ===== verification/BackupNames.v ===== *)
(** * BackupNames: the names of backup archives

    Models the filename grammar of [backupstore/store.go] and the run suffix
    extraction of [backupstore/runner.go]. *)

From S2P Require Export Regex.
Open Scope Z_scope.

Definition dig : re := Class is_digit.
Definition is_hex (c : ascii) : bool := is_digit c || in_range "a" "f" c.
Definition hex : re := Class is_hex.
(** [[A-Za-z0-9._-]] *)
Definition safe_byte (c : ascii) : bool :=
  is_alpha c || is_digit c || Ascii.eqb c "." || Ascii.eqb c "_" || Ascii.eqb c "-".
Definition safe : re := plus (Class safe_byte).

(** [\d{8}T\d{6}\.\d{9}Z] and [\d{8}T\d{6}Z]. *)
Definition ts26 : re := seqs [times 8 dig; lit "T"; times 6 dig; lit "."; times 9 dig; lit "Z"].
Definition ts16 : re := seqs [times 8 dig; lit "T"; times 6 dig; lit "Z"].

Definition validFilenameRegexes : list re :=
  [ lit "webkvm-config-latest.tar.zst";
    seqs [lit "webkvm-"; safe; lit "-"; ts26; lit "-"; between 6 12 hex; lit "-"; safe; lit ".tar.";
          alts [lit "zst"; lit "gz"]];
    seqs [lit "webkvm-"; safe; lit "-"; ts26; lit "-"; between 6 12 hex; lit ".tar.gz"];
    seqs [lit "webkvm-"; safe; lit "-"; ts16; lit ".tar.gz"];
    seqs [lit "webkvm-"; safe; lit "-"; ts26; lit "-"; between 6 12 hex; lit "-"; safe; lit "-"; safe; lit ".qcow2"];
    seqs [lit "webkvm-restore-"; times 8 dig; lit "T"; times 6 dig; opt (Seq (lit ".") (times 9 dig)); lit "Z-";
          between 4 12 hex; opt (Seq (lit "-") safe); lit ".qcow2"] ].

Definition ValidBackupFilename (name : string) : bool :=
  existsb (fun r => re_match r name) validFilenameRegexes.

Definition isSafeName (s : string) : bool :=
  if String.eqb s "" || contains_str ".." s then false else all_bytes safe_byte s.

Definition isRandomSuffix (s : string) : bool :=
  if negb (Nat.eqb (slen s) 6) && negb (Nat.eqb (slen s) 12) then false else all_bytes is_hex s.

(** The byte loop of [isNanoTimestamp] and [isLegacyTimestamp]: fixed bytes at
    some positions, digits elsewhere. *)
Fixpoint stamp_bytes (fixed : nat -> option ascii) (i : nat) (s : string) : bool :=
  match s with
  | EmptyString => true
  | String c s => (match fixed i with Some f => Ascii.eqb c f | None => is_digit c end)
                  && stamp_bytes fixed (S i) s
  end.

Definition isNanoTimestamp (s : string) : bool :=
  if negb (Nat.eqb (slen s) 26) || negb (contains_str "T" s) || negb (contains_str "." s) then false
  else stamp_bytes (fun i => match i with 8 => Some "T"%char | 15 => Some "."%char | 25 => Some "Z"%char | _ => None end%nat) 0 s.

Definition isLegacyTimestamp (s : string) : bool :=
  if negb (Nat.eqb (slen s) 16) || negb (contains_str "T" s) then false
  else stamp_bytes (fun i => match i with 8 => Some "T"%char | 15 => Some "Z"%char | _ => None end%nat) 0 s.

Definition isRunSuffix (s : string) : bool :=
  if negb (Nat.eqb (slen s) 33) && negb (Nat.eqb (slen s) 39) then false
  else if negb (isNanoTimestamp (take_str 26 s)) then false
  else match drop_str 26 s with
       | String "-" rest => isRandomSuffix rest
       | _ => false
       end.

(** Length of the run of hexadecimal bytes at the start. *)
Fixpoint hex_run (s : string) : nat :=
  match s with String c s => if is_hex c then S (hex_run s) else O | EmptyString => O end.

(** [runSuffixRegex] anchored at the start: [-<ts26>-<hex 6..12>] and then a
    dash or a dot.  The class of the delimiter excludes hexadecimal bytes, so
    the greedy repetition takes the whole run of them. *)
Definition suffix_here (s : string) : option string :=
  match s with
  | String "-" t =>
      let ts := take_str 26 t in
      if Nat.eqb (slen ts) 26 && re_match ts26 ts then
        match drop_str 26 t with
        | String "-" u =>
            let n := hex_run u in
            let ok := match drop_str n u with String c _ => Ascii.eqb c "-" || Ascii.eqb c "." | EmptyString => false end in
            if Nat.leb 6 n && Nat.leb n 12 && ok then Some (ts +:+ "-" +:+ take_str n u) else None
        | _ => None
        end
      else None
  | _ => None
  end.

(** The leftmost match. *)
Fixpoint find_suffix (s : string) : option string :=
  match suffix_here s with
  | Some r => Some r
  | None => match s with EmptyString => None | String _ s => find_suffix s end
  end.

(** [runSuffixFromFilename]: "" when there is none. *)
Definition runSuffixFromFilename (name : string) : string :=
  if negb (ValidBackupFilename name) then "" else default "" (find_suffix name).

(** One archive of a run. *)
Record JobFile := MkJobFile { jf_Filename : string; jf_Size : Z; Kind : string; jf_VMID : string }.

(** [primaryOf]: the last configuration archive, else the first file. *)
Definition primaryOf (files : list JobFile) : string :=
  match List.find (fun f => String.eqb (Kind f) "config") (rev files) with
  | Some f => jf_Filename f
  | None => match files with f :: _ => jf_Filename f | [] => "" end
  end.

(** [restoreSubdirFor]: directory, kind and VM of an archive being restored. *)
Definition byte_is (c : ascii) (i : nat) (s : string) : bool :=
  match drop_str i s with String x _ => Ascii.eqb x c | EmptyString => false end.

Definition phase2_subdir (base : string) : option string :=
  let n := slen base in
  let start := (n - 7)%nat in
  if Nat.leb 7 n && byte_is "-" start base && isRandomSuffix (drop_str (n - 6) base)
     && Nat.leb 27 start && byte_is "-" (start - 27) base
     && isNanoTimestamp (take_str 26 (drop_str (start - 26) base))
  then Some (drop_str (S start) base) else None.

Definition restoreSubdirFor (name : string) : string * string * string :=
  let legacy := let d := trim_suffix ".tar.gz" name in
                if String.eqb d name then trim_suffix ".tar.zst" name else d in
  if has_suffix ".tar.zst" name then
    match phase2_subdir (trim_suffix ".tar.zst" name) with
    | Some d => if String.eqb d "config" then (d, "config", "") else (d, "vm", d)
    | None => (legacy, "", "")
    end
  else (legacy, "", "").

Example vm_archive :
  runSuffixFromFilename "webkvm-host1-20240131T101112.123456789Z-0a1b2c-ubuntu-22-04.tar.zst"
  = "20240131T101112.123456789Z-0a1b2c".
Proof. vm_compute. reflexivity. Qed.
Example traversal : ValidBackupFilename "../../etc/passwd" = false.
Proof. vm_compute. reflexivity. Qed.
(** Run names with 7 to 11 random characters are accepted as archives and
    grouped into runs, but are no valid run to delete. *)
Example odd_run :
  let s := runSuffixFromFilename "webkvm-h-20240131T101112.123456789Z-0a1b2c3d-vm.tar.zst" in
  s = "20240131T101112.123456789Z-0a1b2c3d" /\ isRunSuffix s = false.
Proof. vm_compute. by split. Qed.

(** The archive of the configuration is restored under its full name, not under
    "config": the pattern looks for the random part at the end of the name. *)
Example config_subdir :
  restoreSubdirFor "webkvm-h-20240131T101112.123456789Z-0a1b2c-config.tar.zst"
  = ("webkvm-h-20240131T101112.123456789Z-0a1b2c-config", "", "").
Proof. vm_compute. reflexivity. Qed.

Lemma filename_bytes : forallb (bytes_check safe_byte) validFilenameRegexes = true.
Proof. vm_compute. reflexivity. Qed.

(** An accepted archive name is a single, harmless path component: only
    letters, digits, dots, dashes and underscores, starting with "webkvm-",
    so no separator and neither "." nor "..". *)
Theorem ValidBackupFilename_safe name :
  ValidBackupFilename name = true ->
  all_bytes safe_byte name = true /\ contains_byte "/" name = false /\
  has_prefix "webkvm-" name = true.
Proof.
  intros (r & Hr & Hm%re_match_sound)%existsb_exists.
  assert (all_bytes safe_byte name = true) as Hs.
  { eapply matches_bytes; [|done]. apply bytes_check_sound.
    pose proof filename_bytes as Hb. rewrite forallb_forall in Hb. by apply Hb. }
  split_and!; [done|by apply (all_bytes_excludes safe_byte)|].
  unfold validFilenameRegexes, seqs in Hr. cbn [In foldr] in Hr. destruct Hr as [<-|[<-|[<-|[<-|[<-|[<-|[]]]]]]].
  - apply matches_lit in Hm as ->. reflexivity.
  - by apply matches_prefix in Hm.
  - by apply matches_prefix in Hm.
  - by apply matches_prefix in Hm.
  - by apply matches_prefix in Hm.
  - apply matches_prefix, has_prefix_spec in Hm as [t ->]. reflexivity.
Qed.

Lemma ValidBackupFilename_safe_witness :
  contains_byte "/" "webkvm-host1-20240131T101112.123456789Z-0a1b2c-config.tar.zst" = false.
Proof.
  apply (ValidBackupFilename_safe "webkvm-host1-20240131T101112.123456789Z-0a1b2c-config.tar.zst").
  vm_compute. reflexivity.
Defined.
