(* ===== verification/PathSafety.v ===== *)
(** * PathSafety: which directories a backup target may use

    Models [backupstore/path_safety.go].  [filepath.EvalSymlinks] reads the
    file system: it is the parameter [EvalSymlinks], [None] for an error. *)

From S2P Require Export GoPath.
Open Scope Z_scope.

Definition deniedTargetPaths : list string :=
  ["/etc"; "/usr"; "/boot"; "/proc"; "/sys"; "/bin"; "/sbin"; "/lib"; "/lib64";
   "/var/lib/dpkg"; "/var/lib/rpm"; "/var/lib/libvirt"].

(** The errors wrapping ErrTargetPathUnwritable, with what their text names. *)
Inductive path_err := PathEmpty | PathNotAbsolute | PathUnderDenied (root : string).

#[global] Instance path_err_eq_dec : EqDecision path_err.
Proof. solve_decision. Defined.

Definition isUnder (child parent : string) : bool :=
  if String.eqb child parent then true else has_prefix (parent +:+ "/") child.

Section Resolve.
Context (EvalSymlinks : string -> option string).

(** The walk up the parents; [None] when the fuel is used up. *)
Fixpoint resolve_walk (fuel : nat) (p cur tail : string) : option string :=
  match fuel with
  | O => None
  | S fuel =>
      let curBase := Base cur in
      let parent := Dir cur in
      if String.eqb parent cur then Some (Clean p)
      else match EvalSymlinks parent with
           | Some real => Some (Join [real; curBase; tail])
           | None => resolve_walk fuel p parent (Join [curBase; tail])
           end
  end.

Definition resolveForCheck (p : string) : string :=
  match EvalSymlinks p with
  | Some real => real
  | None => default (Clean p) (resolve_walk (S (slen p)) p p "")
  end.

Definition ValidateTargetPath (p appDataDir : string) : option path_err :=
  if String.eqb (trim_space p) "" then Some PathEmpty
  else
    let cleaned := Clean p in
    if negb (IsAbs cleaned) then Some PathNotAbsolute
    else
      let resolved := resolveForCheck cleaned in
      if isUnder resolved appDataDir then None
      else
        PathUnderDenied <$>
          List.find (fun d => String.eqb resolved d || isUnder resolved d
                              || String.eqb cleaned d || isUnder cleaned d) deniedTargetPaths.
End Resolve.

(** ** Confinement in terms of path components *)

Lemma isUnder_refl p : isUnder p p = true.
Proof. unfold isUnder. by rewrite String.eqb_refl. Qed.

(** Below a root that is not [/], "under" is the prefix order on components:
    [/etcetera] is not under [/etc]. *)
Lemma isUnder_abs l d :
  Forall comp l -> Forall comp d -> d <> [] ->
  isUnder (abs_path l) (abs_path d) = true <-> d `prefix_of` l.
Proof.
  intros Hl Hd Hne. unfold isUnder. destruct (String.eqb_spec (abs_path l) (abs_path d)) as [E|E].
  - apply abs_path_inj in E as ->; [|done..]. split; done.
  - rewrite has_prefix_spec. split.
    + intros [t Ht]. assert (split_byte "/" (abs_path l) = split_byte "/" (abs_path d) ++ split_byte "/" t) as Hs.
      { rewrite Ht, <- split_byte_app. f_equal. by rewrite app_str_assoc. }
      rewrite !split_abs in Hs by done. destruct d as [|c d]; [done|]. destruct l as [|e l].
      { injection Hs as Hs. inversion Hd as [|?? [? _]]; subst. done. }
      injection Hs as -> ->. by exists (split_byte "/" t).
    + intros [k ->]. destruct k as [|c k].
      { by rewrite app_nil_r in E. }
      rewrite abs_path_app by done. exists (join_str "/" (c :: k)). by rewrite app_str_assoc.
Qed.

(** Every denied root is a cleaned absolute path. *)
Definition denied_comps : list (list string) :=
  [["etc"]; ["usr"]; ["boot"]; ["proc"]; ["sys"]; ["bin"]; ["sbin"]; ["lib"]; ["lib64"];
   ["var"; "lib"; "dpkg"]; ["var"; "lib"; "rpm"]; ["var"; "lib"; "libvirt"]].

Lemma denied_abs : deniedTargetPaths = map abs_path denied_comps.
Proof. reflexivity. Qed.

Lemma denied_comps_ok : Forall (fun d => Forall comp d /\ d <> []) denied_comps.
Proof. apply (bool_decide_unpack _). vm_compute. exact I. Qed.

Lemma find_None_map {A B} (f : A -> bool) (g : B -> A) (l : list B) :
  List.find f (map g l) = None <-> Forall (fun b => f (g b) = false) l.
Proof.
  induction l as [|b l IH]; simpl; [done|].
  rewrite Forall_cons, <- IH. destruct (f (g b)); [split; [done|by intros [? ?]]|tauto].
Qed.

Section ResolveFacts.
Context (EvalSymlinks : string -> option string).
(** [EvalSymlinks] of an absolute path is a cleaned absolute path. *)
Context (Heval : forall l r, EvalSymlinks (abs_path l) = Some r ->
                   exists k, Forall comp k /\ r = abs_path k).

(** The walk from [abs_path l] with the components [t] already in the tail: it
    ends within [length l] steps at the deepest ancestor that resolves. *)
Lemma resolve_walk_spec (l t : list string) (fuel : nat) (p : string) :
  Forall comp l -> Forall comp t -> (length l < fuel)%nat ->
  (exists n k, (n < length l)%nat /\ EvalSymlinks (abs_path (take n l)) = Some (abs_path k) /\
     Forall comp k /\
     (forall m, n < m < length l -> EvalSymlinks (abs_path (take m l)) = None)%nat /\
     resolve_walk EvalSymlinks fuel p (abs_path l) (join_str "/" t)
       = Some (abs_path (k ++ drop n l ++ t))) \/
  ((forall m, m < length l -> EvalSymlinks (abs_path (take m l)) = None)%nat /\
   resolve_walk EvalSymlinks fuel p (abs_path l) (join_str "/" t) = Some (Clean p)).
Proof.
  revert t fuel. induction l as [|c l IH] using rev_ind; intros t fuel Hl Ht Hf.
  - destruct fuel as [|fuel]; [simpl in Hf; lia|]. right. split; [simpl; lia|done].
  - apply Forall_app in Hl as [Hl Hc]. inversion Hc as [|?? Hc1 _]; subst; clear Hc; rename Hc1 into Hc.
    destruct fuel as [|fuel]; [lia|]. rewrite length_app in Hf |- *. simpl in Hf.
    cbn [resolve_walk length]. rewrite Dir_abs, Base_abs by done.
    destruct (String.eqb_spec (abs_path l) (abs_path (l ++ [c]))) as [E|_].
    { apply abs_path_inj in E; [|done|by apply Forall_app; auto].
      apply (f_equal length) in E. rewrite length_app in E. simpl in E. lia. }
    destruct (EvalSymlinks (abs_path l)) as [r|] eqn:Er.
    + destruct (Heval l r Er) as (k & Hk & ->). left. exists (length l), k.
      rewrite take_app_length, drop_app_length. split_and!; [lia|done|done|intros; lia|].
      by rewrite Join_abs.
    + rewrite Join_rel by done. destruct (IH (c :: t) fuel) as [(n & k & Hn & E & Hk & Hm & Hw)|[Hm Hw]].
      * done.
      * by constructor.
      * lia.
      * left. exists n, k. rewrite Hw, take_app_le, drop_app_le by lia.
        split_and!; [lia|done|done| |by rewrite <- app_assoc].
        intros m Hm'. destruct (decide (m = length l)) as [->|].
        { by rewrite take_app_length. }
        rewrite take_app_le by lia. apply Hm. lia.
      * right. split; [|done]. intros m Hm'. destruct (decide (m = length l)) as [->|].
        { by rewrite take_app_length. }
        rewrite take_app_le by lia. apply Hm. lia.
Qed.

(** A component has at least one byte, so the fuel [S (slen p)] is enough. *)
Lemma abs_path_length l : Forall comp l -> (length l <= slen (abs_path l))%nat.
Proof.
  intros Hl. unfold abs_path. rewrite slen_app. simpl slen at 1. destruct l as [|c l]; [simpl; lia|].
  enough (length (c :: l) <= S (slen (join_str "/" (c :: l))))%nat by lia.
  revert c Hl. induction l as [|d l IH]; intros c Hl; [simpl; lia|].
  inversion Hl as [|?? Hc Hl']; subst. specialize (IH d Hl').
  rewrite join_str_cons, !slen_app by done. simpl slen at 2. simpl in *. lia.
Qed.

(** The reference: the deepest ancestor-or-self that resolves, followed by the
    components below it. *)
Definition deepest (l : list string) (n : nat) (k : list string) : Prop :=
  (n <= length l)%nat /\ EvalSymlinks (abs_path (take n l)) = Some (abs_path k) /\ Forall comp k /\
  (forall m, n < m <= length l -> EvalSymlinks (abs_path (take m l)) = None)%nat.

Lemma resolveForCheck_cases l :
  Forall comp l ->
  (exists n k, deepest l n k /\
     resolveForCheck EvalSymlinks (abs_path l) = abs_path (k ++ drop n l)) \/
  ((forall m, m <= length l -> EvalSymlinks (abs_path (take m l)) = None)%nat /\
   resolveForCheck EvalSymlinks (abs_path l) = abs_path l).
Proof.
  intros Hl. unfold resolveForCheck.
  destruct (EvalSymlinks (abs_path l)) as [r|] eqn:Er.
  - destruct (Heval l r Er) as (k & Hk & ->). left. exists (length l), k. unfold deepest.
    rewrite take_ge, drop_ge, app_nil_r by lia. split_and!; [lia|done|done|intros; lia|done].
  - pose proof (abs_path_length l Hl) as Hlen.
    destruct (resolve_walk_spec l [] (S (slen (abs_path l))) (abs_path l) Hl)
      as [(n & k & Hn & E & Hk & Hm & Hw)|[Hm Hw]]; [constructor|lia| |].
    + left. exists n, k. rewrite app_nil_r in Hw. change (join_str "/" []) with "" in Hw.
      rewrite Hw. simpl. split; [|done]. split_and!; [lia|done|done|].
      intros m Hm'. destruct (decide (m = length l)) as [->|]; [by rewrite take_ge|]. apply Hm. lia.
    + right. rewrite Clean_abs in Hw by done. change (join_str "/" []) with "" in Hw.
      rewrite Hw. split; [|done].
      intros m Hm'. destruct (decide (m = length l)) as [->|]; [by rewrite take_ge|]. apply Hm. lia.
Qed.

(** The result is a cleaned absolute path. *)
Lemma resolveForCheck_abs l :
  Forall comp l -> exists k, Forall comp k /\ resolveForCheck EvalSymlinks (abs_path l) = abs_path k.
Proof.
  intros Hl. destruct (resolveForCheck_cases l Hl) as [(n & k & (_ & _ & Hk & _) & E)|[_ E]];
    rewrite E; eexists; (split; [|done]); [|done]. apply Forall_app; auto using Forall_drop.
Qed.

(** What one deny-list test means. *)
Lemma denied_test l k d :
  Forall comp l -> Forall comp k -> Forall comp d -> d <> [] ->
  String.eqb (abs_path k) (abs_path d) || isUnder (abs_path k) (abs_path d)
    || String.eqb (abs_path l) (abs_path d) || isUnder (abs_path l) (abs_path d) = false
  <-> ~ d `prefix_of` k /\ ~ d `prefix_of` l.
Proof.
  intros Hl Hk Hd Hne.
  assert (forall m, Forall comp m ->
    String.eqb (abs_path m) (abs_path d) || isUnder (abs_path m) (abs_path d) = false
    <-> ~ d `prefix_of` m) as H.
  { intros m Hm. rewrite <- (isUnder_abs m d) by done.
    destruct (String.eqb_spec (abs_path m) (abs_path d)) as [->|]; simpl.
    - rewrite isUnder_refl. split; [done|intros []; done].
    - destruct (isUnder _ _); split; [done|intros []; done|done|done]. }
  rewrite <- (H k), <- (H l) by done. rewrite <- orb_assoc, orb_false_iff. tauto.
Qed.

(** The walk terminates and is equivalent to the declarative reference: a
    cleaned absolute path resolves to the real path of its deepest existing
    ancestor followed by the rest, or to itself when no ancestor resolves. *)
Theorem resolveForCheck_equiv l :
  Forall comp l ->
  resolve_walk EvalSymlinks (S (slen (abs_path l))) (abs_path l) (abs_path l) "" <> None /\
  (forall n k, deepest l n k ->
     resolveForCheck EvalSymlinks (abs_path l) = abs_path (k ++ drop n l)) /\
  ((forall m, m <= length l -> EvalSymlinks (abs_path (take m l)) = None)%nat ->
     resolveForCheck EvalSymlinks (abs_path l) = abs_path l).
Proof.
  intros Hl. pose proof (abs_path_length l Hl) as Hlen. split_and!.
  - destruct (resolve_walk_spec l [] (S (slen (abs_path l))) (abs_path l) Hl)
      as [(n & k & _ & _ & _ & _ & Hw)|[_ Hw]]; [constructor|lia| |];
      change (join_str "/" []) with "" in Hw; by rewrite Hw.
  - intros n k (Hn & E & Hk & Hm).
    destruct (resolveForCheck_cases l Hl) as [(n' & k' & (Hn' & E' & Hk' & Hm') & ->)|[Hno _]].
    + destruct (Nat.lt_trichotomy n n') as [?|[->|?]].
      * by rewrite Hm in E' by lia.
      * rewrite E in E'. apply (inj Some) in E'.
        by apply (abs_path_inj _ _ Hk Hk') in E' as ->.
      * by rewrite Hm' in E by lia.
    + by rewrite Hno in E by done.
  - intros Hno. destruct (resolveForCheck_cases l Hl) as [(n' & k' & (Hn' & E' & _) & _)|[_ E]]; [|done].
    by rewrite Hno in E' by lia.
Qed.

(** The target-path gate is exact.  A path is accepted iff it is absolute
    and either its resolved location lies in the data directory, or no denied
    root is an ancestor of it, neither lexically nor after symlink resolution. *)
Theorem ValidateTargetPath_exact p dd :
  Forall comp dd -> dd <> [] ->
  ValidateTargetPath EvalSymlinks p (abs_path dd) = None <->
  trim_space p <> "" /\ IsAbs p = true /\
  exists l k, Forall comp l /\ Forall comp k /\ Clean p = abs_path l /\
    resolveForCheck EvalSymlinks (abs_path l) = abs_path k /\
    (dd `prefix_of` k \/
     forall d, d ∈ denied_comps -> ~ d `prefix_of` k /\ ~ d `prefix_of` l).
Proof.
  intros Hdd Hne. unfold ValidateTargetPath.
  destruct (String.eqb_spec (trim_space p) "") as [?|Htrim]; [split; [done|by intros [? _]]|].
  destruct (IsAbs p) eqn:Habs; [|rewrite IsAbs_Clean, Habs; split; [done|by intros (_ & ? & _)]].
  destruct (Clean_is_abs p Habs) as (l & Hl & Ec). rewrite Ec, IsAbs_abs. simpl negb. cbv iota.
  destruct (resolveForCheck_abs l Hl) as (k & Hk & Er). rewrite Er.
  pose proof (isUnder_abs k dd Hk Hdd Hne) as Hu.
  assert ((if isUnder (abs_path k) (abs_path dd) then None
           else PathUnderDenied <$> List.find (fun d =>
             String.eqb (abs_path k) d || isUnder (abs_path k) d
             || String.eqb (abs_path l) d || isUnder (abs_path l) d) deniedTargetPaths) = None
          <-> dd `prefix_of` k \/ forall d, d ∈ denied_comps -> ~ d `prefix_of` k /\ ~ d `prefix_of` l) as H.
  { destruct (isUnder (abs_path k) (abs_path dd)); [tauto|].
    assert (~ dd `prefix_of` k) as Hno by (intros Hp; apply Hu in Hp; done).
    rewrite fmap_None, denied_abs, find_None_map, Forall_forall.
    split; [intros H; right|intros [?|H]; [done|]]; intros d Hd;
      pose proof (proj1 (Forall_forall _ _) denied_comps_ok d Hd) as [Hd1 Hd2];
      by apply (denied_test l k d), H. }
  rewrite H. split.
  - intros Hok. split_and!; [done|done|]. by exists l, k.
  - intros (_ & _ & l' & k' & Hl' & Hk' & El & Ek & Hok).
    apply abs_path_inj in El as <-; [|done..]. rewrite Er in Ek.
    by apply abs_path_inj in Ek as <-.
Qed.
End ResolveFacts.

(** ** Examples: a file system where /srv/link points to /etc/webkvm *)

Definition demo_links (p : string) : option string :=
  if String.eqb p "/srv/link" then Some "/etc/webkvm"
  else if String.eqb p "/" then Some "/"
  else if String.eqb p "/srv" then Some "/srv"
  else if String.eqb p "/proc/1/root" then Some "/" else None.

Example path_symlink : ValidateTargetPath demo_links "/srv/link/new" "/opt/webkvm" = Some (PathUnderDenied "/etc").
Proof. reflexivity. Qed.
Example path_lexical : ValidateTargetPath demo_links "/proc/1/root/../root" "/opt/webkvm" = Some (PathUnderDenied "/proc").
Proof. reflexivity. Qed.
Example path_sibling : ValidateTargetPath demo_links "/etcetera/x" "/opt/webkvm" = None.
Proof. reflexivity. Qed.
Example path_relative : ValidateTargetPath demo_links "backups" "/opt/webkvm" = Some PathNotAbsolute.
Proof. reflexivity. Qed.

Lemma demo_links_abs l r : demo_links (abs_path l) = Some r -> exists k, Forall comp k /\ r = abs_path k.
Proof.
  unfold demo_links. repeat destruct (String.eqb _ _); intros [= <-].
  - exists ["etc"; "webkvm"]. split; [|reflexivity]. apply (bool_decide_unpack _). vm_compute. exact I.
  - by exists [].
  - exists ["srv"]. split; [|reflexivity]. apply (bool_decide_unpack _). vm_compute. exact I.
  - by exists [].
Qed.

Lemma ValidateTargetPath_exact_witness :
  ValidateTargetPath demo_links "/srv/link" (abs_path ["opt"; "webkvm"]) = None <->
  trim_space "/srv/link" <> "" /\ IsAbs "/srv/link" = true /\
  exists l k, Forall comp l /\ Forall comp k /\ Clean "/srv/link" = abs_path l /\
    resolveForCheck demo_links (abs_path l) = abs_path k /\
    (["opt"; "webkvm"] `prefix_of` k \/
     forall d, d ∈ denied_comps -> ~ d `prefix_of` k /\ ~ d `prefix_of` l).
Proof.
  apply (ValidateTargetPath_exact demo_links demo_links_abs "/srv/link" ["opt"; "webkvm"]).
  - apply (bool_decide_unpack _). vm_compute. exact I.
  - discriminate.
Defined.
