(* ===== verification/NetMount.v ===== *)
(** * NetMount: NFS and SMB shares the server mounts for backup targets

    Models [backupstore/net_mount.go].  A mount is a systemd unit file plus, for
    SMB with a user, a root-only credentials file.  The machine is a record: the
    files under /etc the code writes, the directories it makes, the units that
    are enabled, and the outcomes of the calls to come.  [systemd-escape] is the
    parameter [escape]. *)

From S2P Require Export GoPath.
Open Scope Z_scope.

(** How one system call or external command ends; a failing write may leave
    the first bytes of the content behind. *)
Inductive outcome := Works | Fails | FailsAfter (bytes : nat).

Record Host := MkHost {
  etc_files : gmap string string;
  made_dirs : gset string;
  enabled_units : gset string;
  outcomes : list outcome
}.

Definition next (h : Host) : outcome := match outcomes h with o :: _ => o | [] => Works end.
Definition tick (h : Host) : Host :=
  MkHost (etc_files h) (made_dirs h) (enabled_units h) (tail (outcomes h)).
Definition set_files (f : gmap string string) (h : Host) : Host :=
  MkHost f (made_dirs h) (enabled_units h) (outcomes h).
Definition set_dirs (d : gset string) (h : Host) : Host :=
  MkHost (etc_files h) d (enabled_units h) (outcomes h).
Definition set_units (u : gset string) (h : Host) : Host :=
  MkHost (etc_files h) (made_dirs h) u (outcomes h).

(** ** System calls *)

Definition WriteFile (path content : string) (h : Host) : bool * Host :=
  match next h with
  | Works => (true, set_files (<[path := content]> (etc_files h)) (tick h))
  | Fails => (false, tick h)
  | FailsAfter n => (false, set_files (<[path := take_str n content]> (etc_files h)) (tick h))
  end.

Definition MkdirAll (path : string) (h : Host) : bool * Host :=
  match next h with
  | Works => (true, set_dirs ({[path]} ∪ made_dirs h) (tick h))
  | _ => (false, tick h)
  end.

(** [os.Remove] with its error ignored. *)
Definition Remove (path : string) (h : Host) : Host :=
  match next h with
  | Works => set_files (delete path (etc_files h)) (tick h)
  | _ => tick h
  end.

Definition daemon_reload (h : Host) : bool * Host :=
  (match next h with Works => true | _ => false end, tick h).

Definition systemctl_enable (unit : string) (h : Host) : bool * Host :=
  match next h with
  | Works => (true, set_units ({[unit]} ∪ enabled_units h) (tick h))
  | _ => (false, tick h)
  end.

Definition systemctl_disable (unit : string) (h : Host) : Host :=
  match next h with
  | Works => set_units (enabled_units h ∖ {[unit]}) (tick h)
  | _ => tick h
  end.

(** ** The code *)

Definition backupCredentialsDir : string := "/etc/webkvm".

Definition backupCredentialsPath (targetID : string) : string :=
  if String.eqb targetID "" || contains_byte "/" targetID || contains_byte "\" targetID
     || contains_str ".." targetID then ""
  else Join [backupCredentialsDir; "backup-smb-creds-" +:+ targetID].

Definition unit_path (unitName : string) : string := Join ["/etc/systemd/system"; unitName].

Definition writeMountUnit (unitName unitContent : string) (h : Host) : option string * Host :=
  let unitPath := unit_path unitName in
  let '(ok, h) := WriteFile unitPath unitContent h in
  if negb ok then (Some "write mount unit", h) else
  let '(ok, h) := daemon_reload h in
  if negb ok then (Some "daemon-reload", Remove unitPath h) else
  let '(ok, h) := systemctl_enable unitName h in
  if negb ok then
    let h := systemctl_disable unitName h in
    let h := Remove unitPath h in
    (Some "mount failed", (daemon_reload h).2)
  else (None, h).

Definition is_control (c : ascii) : bool :=
  (code c =? 13) || (code c =? 10) || (code c =? 0).

Definition validateNoControlChars (values : list string) : bool :=
  forallb (fun v => all_bytes (fun c => negb (is_control c)) v) values.

Definition nl : string := String "010" "".

(** The unit files, line by line. *)
Definition nfs_unit (host remoteDir mountpoint : string) : list string :=
  ["[Unit]"; "Description=WebKVM NFS backup target mount"; ""; "[Mount]";
   "What=" +:+ host +:+ ":" +:+ remoteDir; "Where=" +:+ mountpoint; "Type=nfs"; "";
   "[Install]"; "WantedBy=multi-user.target"; ""].

Definition smb_unit (host share mountpoint options : string) : list string :=
  ["[Unit]"; "Description=WebKVM SMB backup target mount"; ""; "[Mount]";
   "What=//" +:+ host +:+ "/" +:+ share; "Where=" +:+ mountpoint; "Type=cifs";
   "Options=" +:+ options; ""; "[Install]"; "WantedBy=multi-user.target"; ""].

Definition cred_content (user pass : string) : list string :=
  ["username=" +:+ user; "password=" +:+ pass; ""].

Definition trim_prefix (p s : string) : string :=
  if has_prefix p s then drop_str (slen p) s else s.

Section Mount.
Context (escape : string -> option string).

(** [mountUnitName]: what systemd-escape prints, trimmed. *)
Definition mountUnitName (mountpoint : string) : option string := trim_space <$> escape mountpoint.

Definition mountNFSTarget (host remoteDir mountpoint : string) (h : Host) : option string * Host :=
  if contains_str ".." mountpoint then (Some "invalid mountpoint: traversal not allowed", h) else
  if negb (validateNoControlChars [host; remoteDir; mountpoint]) then
    (Some "value contains invalid control characters or newlines", h) else
  let '(ok, h) := MkdirAll mountpoint h in
  if negb ok then (Some "create mountpoint", h) else
  match mountUnitName mountpoint with
  | None => (Some "systemd-escape", h)
  | Some unitName => writeMountUnit unitName (join_str nl (nfs_unit host remoteDir mountpoint)) h
  end.

Definition mount_options : string := "uid=0,gid=0,file_mode=0600,dir_mode=0700,vers=3.0".

Definition smb_options (targetID user : string) : string :=
  if String.eqb user "" then "guest," +:+ mount_options
  else "credentials=" +:+ backupCredentialsPath targetID +:+ "," +:+ mount_options.

(** The cleanup [if user != "" { os.Remove(cred) }]. *)
Definition drop_creds (targetID user : string) (h : Host) : Host :=
  if String.eqb user "" then h else Remove (backupCredentialsPath targetID) h.

(** The credentials file, for a mount with a user. *)
Definition write_creds (targetID user pass : string) (h : Host) : option string * Host :=
  if String.eqb user "" then (None, h) else
  let '(ok, h) := MkdirAll backupCredentialsDir h in
  if negb ok then (Some "create credentials dir", h) else
  let '(ok, h) := WriteFile (backupCredentialsPath targetID) (join_str nl (cred_content user pass)) h in
  (if ok then None else Some "write credentials", h).

Definition mountSMBTarget (targetID host share mountpoint user pass : string) (h : Host)
    : option string * Host :=
  if contains_str ".." mountpoint then (Some "invalid mountpoint: traversal not allowed", h) else
  if negb (validateNoControlChars [targetID; host; share; mountpoint; user; pass]) then
    (Some "value contains invalid control characters or newlines", h) else
  let '(ok, h) := MkdirAll mountpoint h in
  if negb ok then (Some "create mountpoint", h) else
  let share := trim_prefix "/" share in
  let '(err, h) := write_creds targetID user pass h in
  match err with Some e => (Some e, h) | None =>
  match mountUnitName mountpoint with
  | None => (Some "systemd-escape", drop_creds targetID user h)
  | Some unitName =>
      let '(err, h) := writeMountUnit unitName
        (join_str nl (smb_unit host share mountpoint (smb_options targetID user))) h in
      match err with
      | Some e => (Some e, drop_creds targetID user h)
      | None => (None, h)
      end
  end end.

Definition automount_of (unitName : string) : string := trim_suffix ".mount" unitName +:+ ".automount".

Definition unmountTarget (targetID mountpoint : string) (h : Host) : option string * Host :=
  match mountUnitName mountpoint with
  | None => (Some "systemd-escape", h)
  | Some unitName =>
      match etc_files h !! unit_path unitName with
      | None => (None, h)
      | Some _ =>
          let h := systemctl_disable (automount_of unitName) h in
          let h := systemctl_disable unitName h in
          let h := Remove (unit_path (automount_of unitName)) h in
          let h := Remove (unit_path unitName) h in
          let h := if String.eqb (backupCredentialsPath targetID) "" then h
                   else Remove (backupCredentialsPath targetID) h in
          (None, (daemon_reload h).2)
      end
  end.

Definition isSelfManagedMount (mountpoint : string) (h : Host) : bool :=
  match mountUnitName mountpoint with
  | None => false
  | Some unitName =>
      bool_decide (is_Some (etc_files h !! unit_path unitName))
      || bool_decide (is_Some (etc_files h !! unit_path (automount_of unitName)))
  end.
End Mount.

#[global] Arguments backupCredentialsPath _ : simpl never.
#[global] Arguments unit_path _ : simpl never.
#[global] Arguments automount_of _ : simpl never.

(** ** No injected directives *)

Lemma no_control_line v : validateNoControlChars [v] = true -> contains_byte "010" v = false.
Proof.
  simpl. rewrite andb_true_r. intros H. by apply (all_bytes_no_byte _ "010" v H).
Qed.

Lemma no_control_cons v vs :
  validateNoControlChars (v :: vs) = true ->
  contains_byte "010" v = false /\ validateNoControlChars vs = true.
Proof.
  intros H. apply andb_prop in H as [H1 H2]. split; [|done].
  apply no_control_line. simpl. by rewrite H1.
Qed.

(** Splits the acceptance of a list of values into one fact per value. *)
Ltac no_control H :=
  repeat (apply no_control_cons in H as [? H]); clear H.

Lemma lines_of l :
  l <> [] -> Forall (fun c => contains_byte "010" c = false) l -> split_byte "010" (join_str nl l) = l.
Proof. apply (split_join "010"). Qed.

Lemma no_line_app v w :
  contains_byte "010" v = false -> contains_byte "010" w = false -> contains_byte "010" (v +:+ w) = false.
Proof. intros H1 H2. by rewrite contains_byte_app, H1, H2. Qed.

Create HintDb lines discriminated.
#[export] Hint Resolve no_line_app contains_byte_drop : lines.
#[export] Hint Extern 1 (contains_byte _ _ = false) => reflexivity : lines.

Ltac solve_lines := apply lines_of; [done|]; repeat constructor; auto with lines.

Lemma trim_prefix_line p v : contains_byte "010" v = false -> contains_byte "010" (trim_prefix p v) = false.
Proof. unfold trim_prefix. destruct (has_prefix p v); auto with lines. Qed.

Lemma creds_path_line id : contains_byte "010" id = false -> contains_byte "010" (backupCredentialsPath id) = false.
Proof.
  intros Hid. unfold backupCredentialsPath. destruct (_ || _) eqn:E; [done|]. bool_norm.
  assert (comp ("backup-smb-creds-" +:+ id)) as Hc.
  { split_and!; [done..|]. by rewrite contains_byte_app. }
  assert (Forall comp ["etc"; "webkvm"]) as Hd by (apply (bool_decide_unpack _); exact I).
  rewrite (Join_file ["etc"; "webkvm"]) by done.
  change (contains_byte "010" ("/etc/webkvm/backup-smb-creds-" +:+ id) = false). auto with lines.
Qed.
#[export] Hint Resolve trim_prefix_line creds_path_line : lines.

Lemma smb_options_line id user :
  contains_byte "010" id = false -> contains_byte "010" (smb_options id user) = false.
Proof. intros. unfold smb_options. destruct (String.eqb user ""); auto with lines. Qed.
#[export] Hint Resolve smb_options_line : lines.

Lemma smb_unit_lines host share mp opts :
  contains_byte "010" host = false -> contains_byte "010" share = false ->
  contains_byte "010" mp = false -> contains_byte "010" opts = false ->
  split_byte "010" (join_str nl (smb_unit host share mp opts)) = smb_unit host share mp opts.
Proof. intros. unfold smb_unit. solve_lines. Qed.

Lemma nfs_unit_lines host dir mp :
  contains_byte "010" host = false -> contains_byte "010" dir = false -> contains_byte "010" mp = false ->
  split_byte "010" (join_str nl (nfs_unit host dir mp)) = nfs_unit host dir mp.
Proof. intros. unfold nfs_unit. solve_lines. Qed.

Lemma cred_lines user pass :
  contains_byte "010" user = false -> contains_byte "010" pass = false ->
  split_byte "010" (join_str nl (cred_content user pass)) = cred_content user pass.
Proof. intros. unfold cred_content. solve_lines. Qed.

(** A successful [writeMountUnit] leaves the unit's text at its path. *)
Lemma writeMountUnit_ok unitName content h h' :
  writeMountUnit unitName content h = (None, h') ->
  etc_files h' = <[unit_path unitName := content]> (etc_files h) /\ unitName ∈ enabled_units h'.
Proof.
  unfold writeMountUnit, WriteFile, daemon_reload, systemctl_enable, next.
  destruct (outcomes h) as [|[] [|[] [|[] ?]]] eqn:E; simpl; rewrite ?E; simpl; try done;
    intros [= <-]; simpl; (split; [done|set_solver]).
Qed.

Lemma MkdirAll_ok p h h' b : MkdirAll p h = (b, h') -> etc_files h' = etc_files h.
Proof. unfold MkdirAll. destruct (next h); by intros [= <- <-]. Qed.

Lemma write_creds_ok id user pass h h' :
  write_creds id user pass h = (None, h') -> user <> "" ->
  etc_files h' = <[backupCredentialsPath id := join_str nl (cred_content user pass)]> (etc_files h).
Proof.
  unfold write_creds. intros E Hu. rewrite (proj2 (String.eqb_neq _ _) Hu) in E.
  destruct (MkdirAll _ h) as [[] h1] eqn:E1; [|done]. apply MkdirAll_ok in E1 as <-.
  unfold WriteFile in E. destruct (next h1); try done. by injection E as <-.
Qed.

Section MountFacts.
Context (escape : string -> option string).
(** systemd-escape prints one file name. *)
Context (Hescape : forall mp u, escape mp = Some u -> comp (trim_space u)).

Lemma unit_ne_creds u id : comp u -> unit_path u <> backupCredentialsPath id.
Proof.
  intros Hu. unfold unit_path.
  assert (Forall comp ["etc"; "systemd"; "system"]) as Hd by (apply (bool_decide_unpack _); exact I).
  rewrite (Join_file ["etc"; "systemd"; "system"]) by done.
  unfold backupCredentialsPath. destruct (_ || _) eqn:E; [done|]. bool_norm.
  assert (comp ("backup-smb-creds-" +:+ id)) as Hc.
  { split_and!; [done..|]. by rewrite contains_byte_app. }
  assert (Forall comp ["etc"; "webkvm"]) as Hd2 by (apply (bool_decide_unpack _); exact I).
  rewrite (Join_file ["etc"; "webkvm"]) by done. done.
Qed.

(** No directive can be injected through a share's settings: after a
    successful SMB mount the unit file consists, line by line, of the fixed
    template with the share, mount point and options in their own lines, and
    the credentials file of the user's name and password alone; the password
    is in no other file. *)
Theorem smb_mount_exact id host share mp user pass h h' :
  mountSMBTarget escape id host share mp user pass h = (None, h') ->
  exists u, mountUnitName escape mp = Some u /\ u ∈ enabled_units h' /\
    split_byte "010" <$> (etc_files h' !! unit_path u)
      = Some (smb_unit host (trim_prefix "/" share) mp (smb_options id user)) /\
    (user <> "" ->
       split_byte "010" <$> (etc_files h' !! backupCredentialsPath id) = Some (cred_content user pass)) /\
    (forall p, p <> unit_path u -> p <> backupCredentialsPath id -> etc_files h' !! p = etc_files h !! p).
Proof.
  unfold mountSMBTarget. destruct (contains_str _ _); [done|].
  destruct (validateNoControlChars _) eqn:Hv; [cbn [negb]|done]. no_control Hv.
  destruct (MkdirAll mp h) as [[] h1] eqn:E1; [cbn [negb]|done].
  apply MkdirAll_ok in E1 as F1.
  destruct (write_creds id user pass h1) as [[e|] h2] eqn:E2; [done|].
  destruct (mountUnitName escape mp) as [u|] eqn:Eu; [|done].
  destruct (writeMountUnit _ _ h2) as [[e|] h3] eqn:E3; [done|]. intros [= <-].
  apply writeMountUnit_ok in E3 as [F3 Hen]. exists u.
  assert (comp u) as Hu.
  { unfold mountUnitName in Eu. destruct (escape mp) eqn:Ee; simplify_eq/=. eauto. }
  pose proof (unit_ne_creds u id Hu) as Hne.
  rewrite F3, lookup_insert_eq. split_and!; [done|done| | |].
  - apply (f_equal Some), smb_unit_lines; auto with lines.
  - intros Hne'. rewrite lookup_insert_ne, (write_creds_ok _ _ _ _ _ E2 Hne'), lookup_insert_eq by done.
    by apply (f_equal Some), cred_lines.
  - intros p Hp1 Hp2. rewrite lookup_insert_ne by done.
    destruct (decide (user = "")) as [->|Hne'].
    + unfold write_creds in E2. simpl in E2. injection E2 as <-. by rewrite F1.
    + rewrite (write_creds_ok _ _ _ _ _ E2 Hne'), lookup_insert_ne by done. by rewrite F1.
Qed.

(** The same for NFS, which has no credentials. *)
Theorem nfs_mount_exact host dir mp h h' :
  mountNFSTarget escape host dir mp h = (None, h') ->
  exists u, mountUnitName escape mp = Some u /\ u ∈ enabled_units h' /\
    split_byte "010" <$> (etc_files h' !! unit_path u) = Some (nfs_unit host dir mp) /\
    (forall p, p <> unit_path u -> etc_files h' !! p = etc_files h !! p).
Proof.
  unfold mountNFSTarget. destruct (contains_str _ _); [done|].
  destruct (validateNoControlChars _) eqn:Hv; [cbn [negb]|done]. no_control Hv.
  destruct (MkdirAll mp h) as [[] h1] eqn:E1; [cbn [negb]|done].
  apply MkdirAll_ok in E1 as F1.
  destruct (mountUnitName escape mp) as [u|] eqn:Eu; [|done].
  intros E3. apply writeMountUnit_ok in E3 as [F3 Hen]. exists u.
  rewrite F3, lookup_insert_eq. split_and!; [done|done| |].
  - by apply (f_equal Some), nfs_unit_lines.
  - intros p Hp. by rewrite lookup_insert_ne, F1 by done.
Qed.

(** ** Failures leave nothing behind *)

(** One call goes wrong, without writing anything. *)
Definition one_failure (h : Host) : Prop := exists n, outcomes h = replicate n Works ++ [Fails].

Lemma delete_fresh_sub (m : gmap string string) k v : delete k (<[k := v]> m) ⊆ m.
Proof. rewrite delete_insert_eq. apply delete_subseteq. Qed.

Lemma writeMountUnit_err u content h e h' :
  one_failure h -> writeMountUnit u content h = (Some e, h') ->
  etc_files h' ⊆ etc_files h /\ outcomes h' = [].
Proof.
  intros [n Hn]. destruct h as [f d un os]. simpl in Hn. subst os.
  destruct n as [|[|[|n]]]; cbn; intros [= _ <-]; cbn; auto using delete_fresh_sub.
Qed.

Lemma writeMountUnit_step u content h h' :
  one_failure h -> writeMountUnit u content h = (None, h') -> one_failure h'.
Proof.
  intros [n Hn]. destruct h as [f d un os]. simpl in Hn. subst os.
  destruct n as [|[|[|n]]]; cbn; intros [= <-]. by exists n.
Qed.

(** A single call of a mount goes wrong: systemd-escape, or one of the others. *)
Definition single_fault (mp : string) (h : Host) : Prop :=
  match mountUnitName escape mp with Some _ => one_failure h | None => outcomes h = [] end.

(** A failed mount leaves no file behind.  Whichever single call fails,
    every file under /etc afterwards was there before, with the same content:
    no unit and no credentials stay (the state before a failing
    [mountSMBTarget] is restored, up to files of the same names). *)
Theorem failed_mount_leaves_no_file id host share mp user pass h e h' :
  single_fault mp h -> mountSMBTarget escape id host share mp user pass h = (Some e, h') ->
  etc_files h' ⊆ etc_files h.
Proof.
  unfold single_fault, mountSMBTarget. destruct (contains_str _ _); [by intros _ [= _ <-]|].
  destruct (validateNoControlChars _); cbn [negb]; [|by intros _ [= _ <-]].
  destruct h as [f d un os]. destruct (mountUnitName escape mp) as [u|]; cycle 1.
  { cbn. intros ->. unfold write_creds, drop_creds. destruct (String.eqb user "");
      intros [= _ <-]; cbn; [done|apply delete_fresh_sub]. }
  intros [n Hn]. simpl in Hn. subst os. destruct n as [|n]; [by intros [= _ <-]|].
  cbn [MkdirAll next tick outcomes replicate app tail set_dirs negb].
  unfold write_creds, drop_creds. destruct (String.eqb user "").
  - destruct (writeMountUnit _ _ _) as [[e'|] h3] eqn:E3; [|done]. intros [= _ <-].
    by apply writeMountUnit_err in E3 as [H _]; [|exists n].
  - destruct n as [|[|n]]; [by intros [= _ <-]|by intros [= _ <-]|].
    cbn [MkdirAll WriteFile next tick outcomes replicate app tail set_dirs set_files negb
         etc_files made_dirs enabled_units].
    destruct (writeMountUnit _ _ _) as [[e'|] h3] eqn:E3; [|done]. intros [= _ <-].
    apply writeMountUnit_err in E3 as [H Ho]; [|by exists n].
    unfold Remove, next. rewrite Ho. cbn. cbn in H.
    etrans; [apply delete_mono, H|apply delete_fresh_sub].
Qed.

(** Unmounting removes the unit and the credentials again. *)
Theorem unmount_undoes_mount id host share mp user pass h h' :
  outcomes h = [] ->
  (forall u, mountUnitName escape mp = Some u ->
     etc_files h !! unit_path u = None /\ etc_files h !! unit_path (automount_of u) = None) ->
  etc_files h !! backupCredentialsPath id = None -> backupCredentialsPath id <> "" ->
  mountSMBTarget escape id host share mp user pass h = (None, h') ->
  etc_files (unmountTarget escape id mp h').2 = etc_files h.
Proof.
  intros Ho Hu Hc Hcne Hm. unfold mountSMBTarget in Hm.
  destruct (contains_str _ _); [done|]. destruct (validateNoControlChars _); [cbn [negb] in Hm|done].
  destruct h as [f d un os]. cbn in Ho, Hu, Hc. subst os. cbn in Hm.
  destruct (write_creds id user pass _) as [[e|] h2] eqn:E2; [done|].
  assert (outcomes h2 = [] /\ delete (backupCredentialsPath id) (etc_files h2) = f) as [Ho2 F2].
  { unfold write_creds in E2. destruct (String.eqb user ""); cbn in E2; injection E2 as <-; cbn;
      (split; [done|]); [|rewrite delete_insert_eq]; by rewrite delete_id. }
  destruct (mountUnitName escape mp) as [u|] eqn:Eu; [|done]. destruct (Hu u eq_refl) as [Hu1 Hu2].
  destruct h2 as [f2 d2 un2 os2]. cbn in Ho2, F2. subst os2. cbn in Hm. injection Hm as <-.
  unfold unmountTarget. rewrite Eu. cbn. rewrite lookup_insert_eq.
  rewrite (proj2 (String.eqb_neq _ _) Hcne). cbn. rewrite <- F2 in *.
  apply map_eq. intros p. rewrite !lookup_delete.
  repeat (case_decide; subst; rewrite ?lookup_delete_eq; try done).
  - by rewrite lookup_delete_ne in Hu1 by done.
  - by rewrite lookup_delete_ne in Hu2 by done.
  - by rewrite lookup_insert_ne by done.
Qed.
End MountFacts.

(** ** Examples *)

Module MountDemo.
Definition escape (mp : string) : option string :=
  if String.eqb mp "/mnt/nas" then Some ("mnt-nas.mount" +:+ nl) else None.
Definition clean : Host := MkHost ∅ ∅ ∅ [].
Definition good : option string * Host :=
  mountSMBTarget escape "t_01" "nas" "/backups" "/mnt/nas" "bob" "secret" clean.
Example mounted :
  good.1 = None /\
  split_byte "010" <$> (etc_files good.2 !! "/etc/webkvm/backup-smb-creds-t_01")
    = Some ["username=bob"; "password=secret"; ""] /\
  etc_files (unmountTarget escape "t_01" "/mnt/nas" good.2).2 = ∅.
Proof. vm_compute. done. Qed.
(** A newline in a share's name would start a new directive: refused. *)
Example injection :
  (mountSMBTarget escape "t_01" "nas" ("x" +:+ nl +:+ "ExecStart=/bin/sh") "/mnt/nas" "" "" clean).1
    = Some "value contains invalid control characters or newlines".
Proof. vm_compute. done. Qed.
(** A write of the credentials that fails half-way leaves its bytes behind. *)
Example torn_credentials :
  let h := (mountSMBTarget escape "t_01" "nas" "s" "/mnt/nas" "bob" "secret"
              (MkHost ∅ ∅ ∅ [Works; Works; FailsAfter 30])).2 in
  split_byte "010" <$> (etc_files h !! "/etc/webkvm/backup-smb-creds-t_01") = Some ["username=bob"; "password=secret"; ""].
Proof. vm_compute. done. Qed.
End MountDemo.

Lemma smb_mount_exact_witness :
  exists u, mountUnitName MountDemo.escape "/mnt/nas" = Some u /\
    split_byte "010" <$> (etc_files MountDemo.good.2 !! unit_path u)
      = Some (smb_unit "nas" "backups" "/mnt/nas" (smb_options "t_01" "bob")).
Proof.
  destruct (smb_mount_exact MountDemo.escape) with (id := "t_01") (host := "nas") (share := "/backups")
    (mp := "/mnt/nas") (user := "bob") (pass := "secret") (h := MountDemo.clean) (h' := MountDemo.good.2)
    as (u & Hu & _ & Hx & _).
  - intros mp u. unfold MountDemo.escape. destruct (String.eqb mp "/mnt/nas"); [|discriminate].
    intros [= <-]. apply (bool_decide_unpack _). vm_compute. exact I.
  - vm_compute. reflexivity.
  - exists u. exact (conj Hu Hx).
Defined.

Lemma failed_mount_leaves_no_file_witness :
  let h := MkHost ∅ ∅ ∅ (replicate 5 Works ++ [Fails]) in
  etc_files (mountSMBTarget MountDemo.escape "t_01" "nas" "s" "/mnt/nas" "bob" "secret" h).2 ⊆ ∅.
Proof.
  intros h. apply (failed_mount_leaves_no_file MountDemo.escape "t_01" "nas" "s" "/mnt/nas" "bob" "secret" h
    "mount failed").
  - exists 5%nat. reflexivity.
  - vm_compute. reflexivity.
Defined.
