(* ===== verification/Retention.v ===== *)
(** * Retention: which backups are deleted unattended

    Models [backupstore/retention.go]: the pure decision [decideRetention] and
    the pass [ApplyRetention] with its grouping by scope and its protection of
    incremental chains.  [sort.Slice] is unstable, so the sorting function is
    an argument and the theorems hold for every one that returns a newest-first
    reordering; maps are iterated in the order of their keys, which the
    results do not depend on. *)

From stdpp Require Import sorting.
From S2P Require Export BackupNames Chain GoTime.
Open Scope Z_scope.

Record RetentionPolicy := MkPolicy {
  KeepLast : Z; KeepDays : Z; KeepDaily : Z; KeepWeekly : Z; KeepMonthly : Z
}.

Definition Enabled (p : RetentionPolicy) : bool :=
  (0 <? KeepLast p) || (0 <? KeepDays p) || (0 <? KeepDaily p) || (0 <? KeepWeekly p) || (0 <? KeepMonthly p).

Record retentionRun := MkRun { Suffix : string; NewestTime : Z }.
#[export] Instance retentionRun_eq_dec : EqDecision retentionRun.
Proof. solve_decision. Defined.

Inductive period := Daily | Weekly | Monthly.

Definition retentionBucket (t : Z) (p : period) : string :=
  match p with
  | Daily => format_day t
  | Weekly => let '(y, w) := ISOWeek t in pad_left 4 y +:+ "-W" +:+ pad_left 2 w
  | Monthly => format_month t
  end.

Definition suffixes (l : list retentionRun) : gset string := list_to_set (map Suffix l).

(** [perBucket], newest first within a bucket. *)
Definition per_bucket (p : period) (l : list retentionRun) : gmap string (list retentionRun) :=
  foldl (fun m rr => let k := retentionBucket (NewestTime rr) p in
                     <[k := default [] (m !! k) ++ [rr]]> m) ∅ l.

Definition tier_keep (n : Z) (p : period) (l : list retentionRun) : gset string :=
  if n <=? 0 then ∅ else
  foldl (fun keep kb => keep ∪ suffixes (take (Z.to_nat n) kb.2)) ∅ (map_to_list (per_bucket p l)).

(** The rules that look at a run by itself and at its rank [i]. *)
Definition rank_keep (p : RetentionPolicy) (now : Z) (i : nat) (rr : retentionRun) : bool :=
  is_zero (NewestTime rr)
  || ((0 <? KeepLast p) && (Z.of_nat i <? KeepLast p))
  || ((0 <? KeepDays p) && (time_sub now (NewestTime rr) <=? wrap64 (wrap64 (KeepDays p * 24) * hour))).

Fixpoint ranked_keep (p : RetentionPolicy) (now : Z) (i : nat) (l : list retentionRun) : gset string :=
  match l with
  | [] => ∅
  | rr :: l => (if rank_keep p now i rr then {[Suffix rr]} else ∅) ∪ ranked_keep p now (S i) l
  end.

Section Decide.
(** [sort.Slice], newest first. *)
Context (sort_runs : list retentionRun -> list retentionRun).

Definition decideRetention (p : RetentionPolicy) (now : Z) (runs : list retentionRun) : gset string :=
  if negb (Enabled p) then ∅ else
  let sorted := sort_runs runs in
  ranked_keep p now 0 sorted
  ∪ tier_keep (KeepDaily p) Daily sorted
  ∪ tier_keep (KeepWeekly p) Weekly sorted
  ∪ tier_keep (KeepMonthly p) Monthly sorted.

(** ** The pass over a target *)

(** The part of a [BackupFile] of the listing the pass reads. *)
Record ListedFile := MkFile { bf_Filename : string; Modified : Z }.

(** The part of a job record retention reads. *)
Record JobRef := MkJobRef {
  jr_ID : string; jr_TargetID : string; jr_Filename : string; jr_Filenames : list string;
  ScopeVMID : string
}.

(** [byRun]: the newest modification time of each run. *)
Definition group_runs (files : list ListedFile) : gmap string retentionRun :=
  foldl (fun m f =>
    let suf := runSuffixFromFilename (bf_Filename f) in
    if String.eqb suf "" then m else
    let t := match m !! suf with Some rr => NewestTime rr | None => time_zero end in
    <[suf := MkRun suf (if after (Modified f) t then Modified f else t)]> m) ∅ files.

(** [runScopes]: suffix to VM of the ad-hoc single-VM runs. *)
Definition runScopes (jobs : list JobRef) (targetID : string) : gmap string string :=
  foldl (fun m j =>
    if negb (String.eqb (jr_TargetID j) targetID) || String.eqb (ScopeVMID j) "" then m else
    foldl (fun m fn => let suf := runSuffixFromFilename fn in
                       if String.eqb suf "" then m else <[suf := ScopeVMID j]> m)
      m (jr_Filename j :: jr_Filenames j)) ∅ jobs.

Definition scope_of (scopes : gmap string string) (suf : string) : string := default "" (scopes !! suf).

(** The kept suffixes, the policy being applied to each scope on its own. *)
Definition kept_suffixes (p : RetentionPolicy) (now : Z) (scopes : gmap string string)
    (runs : list retentionRun) : gset string :=
  let groups := remove_dups (map (fun rr => scope_of scopes (Suffix rr)) runs) in
  foldl (fun keep g => keep ∪ decideRetention p now
           (List.filter (fun rr => String.eqb (scope_of scopes (Suffix rr)) g) runs)) ∅ groups.

(** The runs of a chain entry: from its file names, else from its job. *)
Definition entry_suffixes (get_job : string -> option JobRef) (e : CheckpointEntry) : list string :=
  let of_names l := List.filter (fun s => negb (String.eqb s "")) (map runSuffixFromFilename l) in
  let cand := List.filter (fun f => negb (String.eqb f "")) (BackupFile e :: map snd (map_to_list (DiskFiles e))) in
  match of_names cand with
  | [] => if String.eqb (JobID e) "" then [] else
          match get_job (JobID e) with
          | Some j => of_names (jr_Filename j :: jr_Filenames j)
          | None => []
          end
  | l => l
  end.

(** [chainRuns]: the last chain that names a run owns it. *)
Definition chain_runs (get_job : string -> option JobRef) (chains : list Chain) : gmap string string :=
  foldl (fun m c =>
    foldl (fun m e => foldl (fun m s => <[s := VMID c]> m) m (entry_suffixes get_job e)) m (Entries c))
    ∅ chains.

(** [chainAllDelete] after the refinement: chains none of whose runs is kept. *)
Definition chains_to_delete (keep : gset string) (cr : gmap string string) : gset string :=
  let '(all_delete, has_keep) :=
    foldl (fun (st : gset string * gset string) (sv : string * string) =>
      let '(del, kp) := st in
      if bool_decide (sv.1 ∈ keep) then (del, {[sv.2]} ∪ kp)
      else if bool_decide (sv.2 ∈ del) || bool_decide (sv.2 ∈ kp) then st
      else ({[sv.2]} ∪ del, kp)) (∅, ∅) (map_to_list cr) in
  all_delete ∖ has_keep.

(** [Store.GetJob]. *)
Definition find_job (jobs : list JobRef) (id : string) : option JobRef :=
  List.find (fun j => String.eqb (jr_ID j) id) jobs.

(** The runs the pass deletes, in order, and the chains whose record goes. *)
Definition retention_plan (p : RetentionPolicy) (now : Z) (targetID : string) (files : list ListedFile)
    (jobs : list JobRef) (chains : list Chain) : list string * gset string :=
  let runs := map snd (map_to_list (group_runs files)) in
  let keep := kept_suffixes p now (runScopes jobs targetID) runs in
  let cr := chain_runs (find_job jobs) chains in
  let del := chains_to_delete keep cr in
  (map Suffix (List.filter (fun rr =>
     negb (bool_decide (Suffix rr ∈ keep)) &&
     match cr !! Suffix rr with Some vm => bool_decide (vm ∈ del) | None => true end) runs), del).

(** [ApplyRetention]: the listing may fail; [delete_run] is [DeleteBackupRun].
    The result is the number of runs removed, or the first error. *)
Definition ApplyRetention {W} `{Persist (list Chain) W} (p : RetentionPolicy) (now : Z) (targetID : string)
    (listing : res string (list ListedFile)) (jobs : list JobRef) (delete_run : string -> res string Z)
    (w : W) : (Z * option string) * list string * W :=
  if negb (Enabled p) then ((0, None), [], w) else
  match listing with
  | Err e => ((0, Some e), [], w)
  | Ok files =>
      if Nat.eqb (size (group_runs files)) 0 then ((0, None), [], w) else
      let chains := match Load w with Ok l => l | Err _ => [] end in
      let '(doomed, del) := retention_plan p now targetID files jobs chains in
      let removed := Z.of_nat (length (List.filter (fun s => is_ok (delete_run s)) doomed)) in
      let err := head (omap (fun s => match delete_run s with Err e => Some e | Ok _ => None end) doomed) in
      ((removed, err), doomed,
       foldl (fun w vm => (DeleteChain vm w).2) w (elements del))
  end.

(** ** What is kept *)

Hypothesis sort_perm : forall l, sort_runs l ≡ₚ l.
Hypothesis sort_newest : forall l, StronglySorted (fun a b => NewestTime b <= NewestTime a) (sort_runs l).

Lemma ranked_keep_spec p now i l s :
  s ∈ ranked_keep p now i l <->
  exists j rr, l !! j = Some rr /\ Suffix rr = s /\ rank_keep p now (i + j) rr = true.
Proof.
  revert i. induction l as [|r l IH]; intros i; simpl.
  - split; [set_solver|]. intros (j & rr & Hj & _). done.
  - rewrite elem_of_union, IH. split.
    + intros [H|(j & rr & Hj & Hs & Hk)].
      * destruct (rank_keep p now i r) eqn:E; [|set_solver]. apply elem_of_singleton in H as ->.
        exists O, r. by rewrite Nat.add_0_r.
      * exists (S j), rr. split_and!; [done|done|]. by replace (i + S j)%nat with (S i + j)%nat by lia.
    + intros ([|j] & rr & Hj & Hs & Hk); simpl in *.
      * injection Hj as ->. rewrite Nat.add_0_r in Hk. rewrite Hk. left. set_solver.
      * right. exists j, rr. split_and!; [done|done|]. by rewrite Nat.add_succ_r in Hk.
Qed.

Definition in_bucket (p : period) (k : string) (rr : retentionRun) : bool :=
  String.eqb (retentionBucket (NewestTime rr) p) k.

Lemma per_bucket_spec p l m k :
  foldl (fun m rr => let k := retentionBucket (NewestTime rr) p in
           <[k := default [] (m !! k) ++ [rr]]> m) m l !! k
  = match List.filter (in_bucket p k) l with
    | [] => m !! k
    | b => Some (default [] ((m : gmap string (list retentionRun)) !! k) ++ b)
    end.
Proof.
  revert m. induction l as [|r l IH]; intros m; cbn [foldl List.filter]; [done|].
  rewrite IH. unfold in_bucket at 2. destruct (String.eqb_spec (retentionBucket (NewestTime r) p) k) as [<-|Hne].
  - rewrite lookup_insert_eq. destruct (List.filter _ l) as [|x b]; simpl; [done|].
    by rewrite <- app_assoc.
  - rewrite lookup_insert_ne by done. done.
Qed.

Lemma union_fold_spec {A} (f : A -> gset string) l acc s :
  s ∈ foldl (fun keep x => keep ∪ f x) acc l <-> s ∈ acc \/ exists x, x ∈ l /\ s ∈ f x.
Proof.
  revert acc. induction l as [|x l IH]; intros acc; simpl; [set_solver|].
  rewrite IH. set_solver.
Qed.

Lemma tier_keep_spec n p l s :
  s ∈ tier_keep n p l <->
  0 < n /\ exists k j rr, List.filter (in_bucket p k) l !! j = Some rr /\ Z.of_nat j < n /\ Suffix rr = s.
Proof.
  unfold tier_keep. destruct (Z.leb_spec n 0).
  { split; [intros Hs; by apply not_elem_of_empty in Hs | intros [? _]; lia]. }
  rewrite union_fold_spec. split.
  - intros [?|([k b] & Hin%elem_of_map_to_list & Hs)]; [set_solver|]. split; [lia|].
    unfold per_bucket in Hin. rewrite per_bucket_spec, lookup_empty in Hin.
    destruct (List.filter (in_bucket p k) l) as [|x y] eqn:Ef; [done|]. injection Hin as <-. simpl in Hs.
    unfold suffixes in Hs. rewrite elem_of_list_to_set in Hs.
    apply list_elem_of_fmap in Hs as (rr & -> & Hrr).
    apply list_elem_of_lookup in Hrr as (j & Hj). apply lookup_take_Some in Hj as [Hj Hlt].
    exists k, j, rr. rewrite Ef. split_and!; [done|lia|done].
  - intros (_ & k & j & rr & Hj & Hlt & <-). right. exists (k, List.filter (in_bucket p k) l).
    split.
    + apply elem_of_map_to_list. unfold per_bucket. rewrite per_bucket_spec, lookup_empty.
      destruct (List.filter (in_bucket p k) l); [done|]. done.
    + unfold suffixes. rewrite elem_of_list_to_set. apply list_elem_of_fmap. exists rr. split; [done|].
      apply list_elem_of_lookup. exists j. apply lookup_take_Some. split; [done|]. simpl. lia.
Qed.

(** The rank of a run among those of its bucket. *)
Definition bucket_rank (p : period) (l : list retentionRun) (i : nat) (rr : retentionRun) : nat :=
  length (List.filter (in_bucket p (retentionBucket (NewestTime rr) p)) (take i l)).

Lemma NoDup_suffix_inj (l : list retentionRun) i j a b :
  NoDup (map Suffix l) -> l !! i = Some a -> l !! j = Some b -> Suffix a = Suffix b -> i = j.
Proof.
  intros Hnd Ha Hb E. apply (NoDup_lookup _ i j (Suffix a) Hnd).
  - change (map Suffix l) with (Suffix <$> l). by rewrite list_lookup_fmap, Ha.
  - change (map Suffix l) with (Suffix <$> l). by rewrite list_lookup_fmap, Hb, E.
Qed.

Lemma sorted_NoDup runs : NoDup (map Suffix runs) -> NoDup (map Suffix (sort_runs runs)).
Proof. intros H. by rewrite (Permutation_map Suffix (sort_perm runs)). Qed.

Lemma NoDup_map_filter (f : retentionRun -> bool) l :
  NoDup (map Suffix l) -> NoDup (map Suffix (List.filter f l)).
Proof.
  induction l as [|r l IH]; simpl; [done|]. rewrite NoDup_cons. intros [Hn Hd].
  destruct (f r); simpl; [|auto]. apply NoDup_cons. split; [|auto].
  intros Hin. apply Hn. apply list_elem_of_In, in_map_iff in Hin as (x & Hx & Hf).
  apply filter_In in Hf as [Hf _]. apply list_elem_of_In, in_map_iff. eauto.
Qed.

(** The position of a run in its bucket is the number of newer runs in it. *)
Lemma bucket_lookup p l i r :
  l !! i = Some r ->
  List.filter (in_bucket p (retentionBucket (NewestTime r) p)) l !! bucket_rank p l i r = Some r.
Proof.
  intros Hi. unfold bucket_rank. set (f := in_bucket p _).
  assert (Hf : f r = true) by (unfold f, in_bucket; apply String.eqb_refl).
  pose proof (List.filter_app f (take i l) (r :: drop (S i) l)) as E.
  rewrite (take_drop_middle l i r Hi) in E. cbn [List.filter] in E. rewrite Hf in E.
  rewrite E. by apply list_lookup_middle.
Qed.

Definition tiers (p : RetentionPolicy) : list (Z * period) :=
  [(KeepDaily p, Daily); (KeepWeekly p, Weekly); (KeepMonthly p, Monthly)].

Lemma tier_keep_rank n t l i r :
  NoDup (map Suffix l) -> l !! i = Some r ->
  (Suffix r ∈ tier_keep n t l <-> Z.of_nat (bucket_rank t l i r) < n).
Proof.
  intros Hnd Hi. rewrite tier_keep_spec. split.
  - intros (_ & k & j & rr & Hj & Hlt & Hs).
    assert (Hrr : rr ∈ l /\ in_bucket t k rr = true).
    { apply list_elem_of_lookup_2, list_elem_of_In, filter_In in Hj as [H1 H2].
      split; [by apply list_elem_of_In|done]. }
    destruct Hrr as [(i' & Hi')%list_elem_of_lookup Hk].
    assert (i' = i) as -> by exact (NoDup_suffix_inj l _ _ _ _ Hnd Hi' Hi Hs).
    rewrite Hi in Hi'. apply (inj Some) in Hi' as <-.
    unfold in_bucket in Hk. apply String.eqb_eq in Hk as <-.
    pose proof (bucket_lookup t l i r Hi) as Hb.
    assert (bucket_rank t l i r = j) as ->; [|done].
    apply (NoDup_suffix_inj _ _ _ _ _ (NoDup_map_filter _ l Hnd) Hb Hj). done.
  - intros Hlt. split; [lia|]. exists (retentionBucket (NewestTime r) t), (bucket_rank t l i r), r.
    split_and!; [by apply bucket_lookup|done|done].
Qed.

(** The decision keeps exactly the runs some rule keeps: with the runs
    sorted newest first, run number [i] is kept when its time is unknown, when
    [i < KeepLast], when it is younger than [KeepDays] days, or when fewer than
    the tier's bound of runs of its own UTC day, week or month are newer;
    nothing else is kept. *)
Theorem decideRetention_exact p now runs i r :
  Enabled p = true -> NoDup (map Suffix runs) -> sort_runs runs !! i = Some r ->
  (Suffix r ∈ decideRetention p now runs <->
   rank_keep p now i r = true
   \/ exists n t, (n, t) ∈ tiers p /\ Z.of_nat (bucket_rank t (sort_runs runs) i r) < n).
Proof.
  intros He Hnd%sorted_NoDup Hi. unfold decideRetention. rewrite He. cbn [negb].
  rewrite !elem_of_union, !(tier_keep_rank _ _ _ i r Hnd Hi), ranked_keep_spec. split.
  - intros [[[(j & rr & Hj & Hs & Hk)|H]|H]|H].
    + left. assert (j = i) as -> by exact (NoDup_suffix_inj _ _ _ _ _ Hnd Hj Hi Hs).
      rewrite Hi in Hj. by apply (inj Some) in Hj as <-.
    + right. exists (KeepDaily p), Daily. split; [|done]. by left.
    + right. exists (KeepWeekly p), Weekly. split; [|done]. by right; left.
    + right. exists (KeepMonthly p), Monthly. split; [|done]. by right; right; left.
  - intros [Hk|(n & t & Hin & Hlt)].
    + left. left. left. by exists i, r.
    + unfold tiers in Hin. rewrite !elem_of_cons, elem_of_nil in Hin.
      destruct Hin as [[= -> ->]|[[= -> ->]|[[= -> ->]|[]]]]; tauto.
Qed.

(** ** Chains stand or fall together *)

Definition chain_suffixes (get_job : string -> option JobRef) (c : Chain) : list string :=
  concat (map (entry_suffixes get_job) (Entries c)).

Lemma insert_all_lookup (vm : string) l (m : gmap string string) s :
  foldl (fun m s => <[s := vm]> m) m l !! s = if bool_decide (s ∈ l) then Some vm else m !! s.
Proof.
  revert m. induction l as [|x l IH]; intros m; simpl; [done|].
  rewrite IH. destruct (decide (s ∈ l)) as [H|H].
  - by rewrite !bool_decide_true by set_solver.
  - rewrite (bool_decide_false (s ∈ l)) by done. destruct (decide (s = x)) as [->|Hne].
    + rewrite lookup_insert_eq. by rewrite bool_decide_true by set_solver.
    + rewrite lookup_insert_ne by done. by rewrite bool_decide_false by set_solver.
Qed.

Lemma chain_insert_lookup get_job vm es (m : gmap string string) s :
  foldl (fun m e => foldl (fun m s => <[s := vm]> m) m (entry_suffixes get_job e)) m es !! s
  = if bool_decide (s ∈ concat (map (entry_suffixes get_job) es)) then Some vm else m !! s.
Proof.
  revert m. induction es as [|e es IH]; intros m; simpl; [done|].
  rewrite IH, insert_all_lookup. destruct (decide (s ∈ concat (map (entry_suffixes get_job) es))) as [H|H].
  - by rewrite !bool_decide_true by set_solver.
  - rewrite (bool_decide_false (s ∈ concat _)) by done.
    rewrite (bool_decide_ext (s ∈ entry_suffixes get_job e ++ _) (s ∈ entry_suffixes get_job e)); [done|].
    set_solver.
Qed.

(** A run belongs to the last chain of the file that names it. *)
Lemma chain_runs_lookup get_job chains s :
  chain_runs get_job chains !! s
  = VMID <$> last (List.filter (fun c => bool_decide (s ∈ chain_suffixes get_job c)) chains).
Proof.
  unfold chain_runs. induction chains as [|c chains IH] using rev_ind; [done|].
  rewrite foldl_app. cbn [foldl]. rewrite chain_insert_lookup, IH, List.filter_app. cbn [List.filter].
  fold (chain_suffixes get_job c). destruct (bool_decide (s ∈ chain_suffixes get_job c)).
  - by rewrite last_snoc.
  - by rewrite app_nil_r.
Qed.

Lemma mark_fold_spec (keep : gset string) l :
  let st := foldl (fun (st : gset string * gset string) (sv : string * string) =>
      let '(del, kp) := st in
      if bool_decide (sv.1 ∈ keep) then (del, {[sv.2]} ∪ kp)
      else if bool_decide (sv.2 ∈ del) || bool_decide (sv.2 ∈ kp) then st
      else ({[sv.2]} ∪ del, kp)) (∅, ∅) l in
  (forall v, v ∈ st.2 <-> exists s, (s, v) ∈ l /\ s ∈ keep) /\
  (forall v, v ∈ st.1 -> exists s, (s, v) ∈ l /\ s ∉ keep) /\
  (forall v s, (s, v) ∈ l -> s ∉ keep -> v ∈ st.1 \/ v ∈ st.2).
Proof.
  induction l as [|[s v] l IH] using rev_ind; [set_solver|].
  rewrite foldl_app. cbn [foldl]. destruct (foldl _ _ l) as [del kp]. destruct IH as (H1 & H2 & H3).
  simpl in *. destruct (bool_decide_reflect (s ∈ keep)) as [Hs|Hs]; simpl.
  - split_and!; set_solver.
  - destruct (bool_decide_reflect (v ∈ del)) as [Hd|Hd], (bool_decide_reflect (v ∈ kp)) as [Hk|Hk]; simpl;
      split_and!; set_solver.
Qed.

Lemma chains_to_delete_spec keep cr v :
  v ∈ chains_to_delete keep cr <->
  (exists s, cr !! s = Some v) /\ forall s, cr !! s = Some v -> s ∉ keep.
Proof.
  unfold chains_to_delete. pose proof (mark_fold_spec keep (map_to_list cr)) as H.
  destruct (foldl _ _ _) as [del kp]. destruct H as (H1 & H2 & H3). simpl in *.
  setoid_rewrite elem_of_map_to_list in H1. setoid_rewrite elem_of_map_to_list in H2.
  setoid_rewrite elem_of_map_to_list in H3. rewrite elem_of_difference. split.
  - intros [Hd Hk]. split; [destruct (H2 _ Hd) as (s & ? & _); eauto|]. intros s Hs Hin.
    apply Hk, H1. eauto.
  - intros [[s Hs] Hall]. split.
    + destruct (H3 v s Hs (Hall s Hs)) as [?|Hk]; [done|]. apply H1 in Hk as (s' & ? & ?).
      by destruct (Hall s').
    + intros (s' & ? & ?)%H1. by destruct (Hall s').
Qed.

Lemma insert_run_suffix files (m : gmap string retentionRun) :
  map_Forall (fun s rr => Suffix rr = s) m ->
  map_Forall (fun s rr => Suffix rr = s)
    (foldl (fun m f =>
      let suf := runSuffixFromFilename (bf_Filename f) in
      if String.eqb suf "" then m else
      let t := match m !! suf with Some rr => NewestTime rr | None => time_zero end in
      <[suf := MkRun suf (if after (Modified f) t then Modified f else t)]> m) m files).
Proof.
  revert m. induction files as [|f files IH]; intros m Hm; [done|]. cbn [foldl]. apply IH. cbv zeta.
  destruct (String.eqb _ ""); [done|]. apply map_Forall_insert_2; done.
Qed.

Lemma group_runs_suffix files s rr : group_runs files !! s = Some rr -> Suffix rr = s.
Proof. intros H. by apply (insert_run_suffix files ∅ (map_Forall_empty _) s). Qed.

Lemma listed_runs files rr :
  rr ∈ map snd (map_to_list (group_runs files)) <-> group_runs files !! Suffix rr = Some rr.
Proof.
  rewrite list_elem_of_In, in_map_iff. split.
  - intros ([s r] & <- & Hin). apply list_elem_of_In, elem_of_map_to_list in Hin. simpl.
    by rewrite (group_runs_suffix _ _ _ Hin).
  - intros H. exists (Suffix rr, rr). split; [done|]. by apply list_elem_of_In, elem_of_map_to_list.
Qed.

Lemma listed_runs_NoDup files : NoDup (map Suffix (map snd (map_to_list (group_runs files)))).
Proof.
  rewrite map_map. pose proof (NoDup_fst_map_to_list (group_runs files)) as H.
  replace (map (fun x => Suffix x.2) (map_to_list (group_runs files)))
    with ((map_to_list (group_runs files)).*1); [done|].
  apply map_ext_in. intros [s r] Hin%list_elem_of_In%elem_of_map_to_list. simpl.
  by rewrite (group_runs_suffix _ _ _ Hin).
Qed.

Definition kept_of p now targetID files jobs : gset string :=
  kept_suffixes p now (runScopes jobs targetID) (map snd (map_to_list (group_runs files))).

Lemma doomed_spec p now targetID files jobs chains s :
  s ∈ (retention_plan p now targetID files jobs chains).1 <->
  is_Some (group_runs files !! s) /\ (s ∉ kept_of p now targetID files jobs) /\
  forall vm, chain_runs (find_job jobs) chains !! s = Some vm ->
             vm ∈ (retention_plan p now targetID files jobs chains).2.
Proof.
  unfold retention_plan, kept_of. cbn [fst snd].
  rewrite list_elem_of_In, in_map_iff. setoid_rewrite filter_In. split.
  - intros (rr & <- & Hin & [Hk Hc]%andb_prop). apply list_elem_of_In, listed_runs in Hin. split; [eauto|].
    rewrite negb_true_iff, bool_decide_eq_false in Hk. split; [done|]. intros vm Hvm. rewrite Hvm in Hc.
    by apply bool_decide_eq_true in Hc.
  - intros ([rr Hrr] & Hk & Hc). pose proof (group_runs_suffix _ _ _ Hrr) as <-. exists rr. split; [done|].
    split; [by apply list_elem_of_In, listed_runs|]. rewrite bool_decide_false by done. simpl.
    destruct (chain_runs _ _ !! _) as [vm|] eqn:E; [|done]. apply bool_decide_eq_true. auto.
Qed.

(** No run belongs to the chains of two VMs. *)
Definition exclusive (get_job : string -> option JobRef) (chains : list Chain) : Prop :=
  forall c c' s, c ∈ chains -> c' ∈ chains -> s ∈ chain_suffixes get_job c -> s ∈ chain_suffixes get_job c' ->
                 VMID c = VMID c'.

Lemma exclusive_owner get_job chains c s :
  exclusive get_job chains -> c ∈ chains -> s ∈ chain_suffixes get_job c ->
  chain_runs get_job chains !! s = Some (VMID c).
Proof.
  intros Hex Hc Hs. rewrite chain_runs_lookup.
  destruct (last _) as [c'|] eqn:E.
  - simpl. f_equal. apply last_Some_elem_of, list_elem_of_In, filter_In in E as [Hin Hs'].
    apply bool_decide_eq_true in Hs'. eapply Hex; [by apply list_elem_of_In|done|done|done].
  - apply last_None in E. exfalso. assert (In c []); [|done].
    rewrite <- E. apply filter_In. split; [by apply list_elem_of_In|]. by apply bool_decide_eq_true.
Qed.


(** The listed runs of the scope of a run. *)
Definition scope_runs targetID files jobs (s : string) : list retentionRun :=
  List.filter (fun rr => String.eqb (scope_of (runScopes jobs targetID) (Suffix rr))
                                    (scope_of (runScopes jobs targetID) s))
    (map snd (map_to_list (group_runs files))).

Lemma kept_of_scope p now targetID files jobs rr :
  group_runs files !! Suffix rr = Some rr ->
  Suffix rr ∈ decideRetention p now (scope_runs targetID files jobs (Suffix rr)) ->
  Suffix rr ∈ kept_of p now targetID files jobs.
Proof.
  intros Hrr Hin. unfold kept_of, kept_suffixes. apply union_fold_spec. right.
  exists (scope_of (runScopes jobs targetID) (Suffix rr)). split; [|done].
  apply elem_of_remove_dups, list_elem_of_In, in_map_iff. exists rr. split; [done|].
  by apply list_elem_of_In, listed_runs.
Qed.

(** The rank of a run is at most the number of runs at least as new. *)
Lemma newest_rank l i r :
  StronglySorted (fun a b => NewestTime b <= NewestTime a) l -> NoDup (map Suffix l) -> l !! i = Some r ->
  (i <= length (List.filter (fun rr => negb (String.eqb (Suffix rr) (Suffix r)) &&
                                       (NewestTime r <=? NewestTime rr)%Z) l))%nat.
Proof.
  revert i. induction l as [|x l IH]; intros [|i] Hs Hnd Hi; cbn [List.filter]; try (simpl; lia); [done|].
  apply StronglySorted_inv in Hs as [Hs Hall]. cbn [map] in Hnd. apply NoDup_cons in Hnd as [Hn Hnd].
  cbn [lookup list_lookup] in Hi. specialize (IH i Hs Hnd Hi).
  assert (Hx : Suffix x <> Suffix r).
  { intros E. apply Hn. rewrite E. apply list_elem_of_In, in_map. by eapply list_elem_of_In, list_elem_of_lookup_2. }
  assert (Hle : (NewestTime r <=? NewestTime x)%Z = true).
  { apply Z.leb_le. rewrite List.Forall_forall in Hall. apply Hall. by eapply list_elem_of_In, list_elem_of_lookup_2. }
  rewrite Hle. destruct (String.eqb_spec (Suffix x) (Suffix r)); [done|]. simpl. lia.
Qed.

Lemma Permutation_filter_length (f : retentionRun -> bool) l l' :
  l ≡ₚ l' -> length (List.filter f l) = length (List.filter f l').
Proof.
  induction 1; simpl; repeat destruct (f _); simpl; congruence.
Qed.

(** What a pass spares: a listed run with no known time is never deleted,
    and neither is a run of which fewer than [KeepLast] other runs of its own
    scope (the fleet, or the VM of an ad-hoc backup) are as new or newer. *)
Theorem retention_spares p now targetID files jobs chains rr :
  Enabled p = true -> group_runs files !! Suffix rr = Some rr ->
  is_zero (NewestTime rr) = true
  \/ Z.of_nat (length (List.filter (fun x => negb (String.eqb (Suffix x) (Suffix rr)) &&
                                            (NewestTime rr <=? NewestTime x))
                        (scope_runs targetID files jobs (Suffix rr)))) < KeepLast p ->
  Suffix rr ∉ (retention_plan p now targetID files jobs chains).1.
Proof.
  intros He Hrr Hcase. rewrite doomed_spec. intros (_ & Hk & _). apply Hk. apply kept_of_scope; [done|].
  set (runs := scope_runs targetID files jobs (Suffix rr)) in *.
  assert (Hnd : NoDup (map Suffix runs)) by apply NoDup_map_filter, listed_runs_NoDup.
  assert (Hin : rr ∈ sort_runs runs).
  { rewrite sort_perm. apply list_elem_of_In, filter_In. rewrite String.eqb_refl. split; [|done].
    by apply list_elem_of_In, listed_runs. }
  apply list_elem_of_lookup in Hin as [i Hi]. unfold decideRetention. rewrite He. cbn [negb].
  rewrite !elem_of_union. left. left. left. apply ranked_keep_spec. exists i, rr. split_and!; [done|done|].
  simpl. unfold rank_keep. destruct Hcase as [->|Hlt]; [done|].
  pose proof (newest_rank _ _ _ (sort_newest runs) (sorted_NoDup _ Hnd) Hi) as Hle.
  rewrite (Permutation_filter_length _ _ _ (sort_perm runs)) in Hle.
  assert (Z.of_nat i < KeepLast p) by lia.
  rewrite (proj2 (Z.ltb_lt 0 _)), (proj2 (Z.ltb_lt (Z.of_nat i) _)) by lia. by rewrite orb_true_r.
Qed.

End Decide.

(** ** A concrete sort, and runs at work *)
Definition newer (a b : retentionRun) : Prop := NewestTime b <= NewestTime a.
#[export] Instance newer_dec : RelDecision newer.
Proof. intros a b. unfold newer. apply _. Defined.
#[export] Instance newer_total : Total newer.
Proof. intros a b. unfold newer. lia. Qed.
#[export] Instance newer_trans : Transitive newer.
Proof. intros a b c. unfold newer. lia. Qed.

Definition newest_first (l : list retentionRun) : list retentionRun := merge_sort newer l.

Lemma newest_first_perm l : newest_first l ≡ₚ l.
Proof. apply merge_sort_Permutation. Qed.
Lemma newest_first_sorted l : StronglySorted newer (newest_first l).
Proof. apply StronglySorted_merge_sort; apply _. Qed.

Module RetentionDemo.
Definition at_ (d h : Z) : Z := days_from_civil 2024 1 d * day + h * hour.
Definition r1 := "20240101T010000.000000000Z-aaaaaa".
Definition r2 := "20240102T010000.000000000Z-bbbbbb".
Definition r3 := "20240103T010000.000000000Z-cccccc".
Definition file (run vm : string) : string := "webkvm-h-" +:+ run +:+ "-" +:+ vm +:+ "-vda.qcow2".
Definition entry (run vm parent : string) : CheckpointEntry :=
  MkEntry (vm +:+ run) "" (file run vm) ∅ parent "incremental" 1 0.
Definition chain (vm : string) (es : list CheckpointEntry) : Chain :=
  MkChain vm vm "t" "" (last_name "" es) es 0 0.

Definition files : list ListedFile :=
  [MkFile (file r1 "A") (at_ 1 1); MkFile (file r2 "A") (at_ 2 1); MkFile (file r3 "A") (at_ 3 1)].
Definition chainA : Chain := chain "A" [entry r1 "A" ""; entry r2 "A" ("A" +:+ r1); entry r3 "A" ("A" +:+ r2)].
Definition last2 := MkPolicy 2 0 0 0 0.
Definition runs := [MkRun r1 (at_ 1 1); MkRun r3 (at_ 3 1); MkRun r2 (at_ 2 1)].

(** The base [r1] is outside the policy, but its chain has kept runs. *)
Example base_protected :
  retention_plan newest_first last2 (at_ 9 0) "t" files [] [chainA] = ([], ∅).
Proof. vm_compute. reflexivity. Qed.

(** The fleet case.  Runs [r2] and [r3] back up the VMs A and B, [r1] only A.
    The shared runs count for B's chain, the last one of the file, so A's chain
    looks as if it had no kept run: its base is deleted and its record dropped,
    while its two increments stay. *)
Example shared_run_prunes_base :
  let chainB := chain "B" [entry r2 "B" ""; entry r3 "B" ("B" +:+ r2)] in
  retention_plan newest_first last2 (at_ 9 0) "t"
    (files ++ [MkFile (file r2 "B") (at_ 2 1); MkFile (file r3 "B") (at_ 3 1)]) [] [chainA; chainB]
  = ([r1], {["A"]}).
Proof. vm_compute. reflexivity. Qed.

(** Weekly retention: two runs of one ISO week, one of the next. *)
Example weekly :
  decideRetention newest_first (MkPolicy 0 0 0 1 0) (at_ 9 0)
    [MkRun "a" (at_ 6 1); MkRun "b" (at_ 7 1); MkRun "c" (at_ 8 1)] = {["b"; "c"]}.
Proof. apply (bool_decide_unpack _). vm_compute. exact I. Qed.
End RetentionDemo.

Lemma decideRetention_exact_witness :
  RetentionDemo.r1 ∉ decideRetention newest_first RetentionDemo.last2 (RetentionDemo.at_ 9 0) RetentionDemo.runs.
Proof.
  intros H. apply (decideRetention_exact newest_first newest_first_perm newest_first_sorted RetentionDemo.last2
    (RetentionDemo.at_ 9 0) RetentionDemo.runs 2 (MkRun RetentionDemo.r1 (RetentionDemo.at_ 1 1))) in H.
  - destruct H as [H|(n & t & Hin & Hlt)].
    + vm_compute in H. discriminate.
    + unfold tiers in Hin. rewrite !elem_of_cons, elem_of_nil in Hin.
      destruct Hin as [[= -> ->]|[[= -> ->]|[[= -> ->]|[]]]]; vm_compute in Hlt; discriminate.
  - reflexivity.
  - apply (bool_decide_unpack _). vm_compute. exact I.
  - vm_compute. reflexivity.
Defined.


Lemma retention_spares_witness :
  RetentionDemo.r2 ∉ (retention_plan newest_first RetentionDemo.last2 (RetentionDemo.at_ 9 0) "t"
                        RetentionDemo.files [] []).1.
Proof.
  apply (retention_spares newest_first newest_first_perm newest_first_sorted RetentionDemo.last2
    (RetentionDemo.at_ 9 0) "t" RetentionDemo.files [] [] (MkRun RetentionDemo.r2 (RetentionDemo.at_ 2 1))).
  - reflexivity.
  - vm_compute. reflexivity.
  - right. vm_compute. reflexivity.
Defined.
