(* ===== verification/BackupStore.v ===== *)
(** * BackupStore: the registry of backup targets, schedules and jobs

    Models [backupstore/store.go].  The store keeps five documents on disk
    (targets, schedules, jobs, secrets, verification records), each written
    through [Persist]; the machine it mounts shares on is the [Host] of
    NetMount.  A method that edits the shared record before it returns an error
    leaves the edits in the returned store, as the code does.  [StageVars], a
    job's interpolation values for the user interface, is left out. *)

From S2P Require Export AtomicFile Retention PathSafety NetMount.
Open Scope Z_scope.

(** ** Data *)

Definition TargetLocal : string := "local".
Definition TargetNFS : string := "nfs".
Definition TargetSMB : string := "smb".
Definition TargetSFTP : string := "sftp".
Definition TargetS3 : string := "s3".

Record TargetSecret := MkSecret { Password : string; SSHKeyPath : string; AccessKey : string; SecretKey : string }.
#[export] Instance TargetSecret_eq_dec : EqDecision TargetSecret.
Proof. solve_decision. Defined.
Definition no_secret : TargetSecret := MkSecret "" "" "" "".

Record Target := MkTarget {
  tg_ID : string; tg_Name : string; tg_Type : string; tg_Path : string; tg_Host : string;
  tg_Port : Z; tg_Username : string; tg_SourceDir : string; tg_Bucket : string; tg_Region :
  string; tg_Endpoint : string; tg_Secret : TargetSecret; tg_KnownHosts : list string;
  tg_VerifyOnWrite : bool; tg_VMFilter : string; tg_VMIDs : list string; tg_VMTags : list
  string; tg_Enabled : bool; tg_Retention : RetentionPolicy; tg_Compression : string;
  tg_ZstdLevel : Z; tg_CreatedAt : Z; tg_UpdatedAt : Z
}.

Record Schedule := MkSchedule {
  sc_ID : string; sc_Name : string; sc_Cron : string; sc_TargetID : string; sc_Mode :
  string; sc_Enabled : bool; sc_LastRunAt : Z; sc_LastStatus : string; sc_LastError :
  string; sc_NextRunAt : Z; sc_CreatedAt : Z; sc_UpdatedAt : Z
}.

Record Job := MkJob {
  jb_ID : string; jb_ScheduleID : string; jb_TargetID : string; jb_Mode : string;
  jb_CheckpointID : string; jb_StartedAt : Z; jb_EndedAt : Z; jb_Filename : string; jb_Size
  : Z; jb_Filenames : list string; jb_Files : list JobFile; jb_Status : string; jb_Error :
  string; jb_Progress : Z; jb_Message : string; jb_Stage : string; jb_VMID : string;
  jb_VMName : string; jb_Destination : string; jb_ScopeVMID : string
}.

(** Field updates. *)
Definition set_tg_Name (v : string) (t : Target) : Target := MkTarget (tg_ID t) v (tg_Type t)
  (tg_Path t) (tg_Host t) (tg_Port t) (tg_Username t) (tg_SourceDir t) (tg_Bucket t) (tg_Region
  t) (tg_Endpoint t) (tg_Secret t) (tg_KnownHosts t) (tg_VerifyOnWrite t) (tg_VMFilter t)
  (tg_VMIDs t) (tg_VMTags t) (tg_Enabled t) (tg_Retention t) (tg_Compression t) (tg_ZstdLevel t)
  (tg_CreatedAt t) (tg_UpdatedAt t).
Definition set_tg_Type (v : string) (t : Target) : Target := MkTarget (tg_ID t) (tg_Name t) v
  (tg_Path t) (tg_Host t) (tg_Port t) (tg_Username t) (tg_SourceDir t) (tg_Bucket t) (tg_Region
  t) (tg_Endpoint t) (tg_Secret t) (tg_KnownHosts t) (tg_VerifyOnWrite t) (tg_VMFilter t)
  (tg_VMIDs t) (tg_VMTags t) (tg_Enabled t) (tg_Retention t) (tg_Compression t) (tg_ZstdLevel t)
  (tg_CreatedAt t) (tg_UpdatedAt t).
Definition set_tg_Path (v : string) (t : Target) : Target := MkTarget (tg_ID t) (tg_Name t)
  (tg_Type t) v (tg_Host t) (tg_Port t) (tg_Username t) (tg_SourceDir t) (tg_Bucket t)
  (tg_Region t) (tg_Endpoint t) (tg_Secret t) (tg_KnownHosts t) (tg_VerifyOnWrite t)
  (tg_VMFilter t) (tg_VMIDs t) (tg_VMTags t) (tg_Enabled t) (tg_Retention t) (tg_Compression t)
  (tg_ZstdLevel t) (tg_CreatedAt t) (tg_UpdatedAt t).
Definition set_tg_Host (v : string) (t : Target) : Target := MkTarget (tg_ID t) (tg_Name t)
  (tg_Type t) (tg_Path t) v (tg_Port t) (tg_Username t) (tg_SourceDir t) (tg_Bucket t)
  (tg_Region t) (tg_Endpoint t) (tg_Secret t) (tg_KnownHosts t) (tg_VerifyOnWrite t)
  (tg_VMFilter t) (tg_VMIDs t) (tg_VMTags t) (tg_Enabled t) (tg_Retention t) (tg_Compression t)
  (tg_ZstdLevel t) (tg_CreatedAt t) (tg_UpdatedAt t).
Definition set_tg_Port (v : Z) (t : Target) : Target := MkTarget (tg_ID t) (tg_Name t) (tg_Type
  t) (tg_Path t) (tg_Host t) v (tg_Username t) (tg_SourceDir t) (tg_Bucket t) (tg_Region t)
  (tg_Endpoint t) (tg_Secret t) (tg_KnownHosts t) (tg_VerifyOnWrite t) (tg_VMFilter t) (tg_VMIDs
  t) (tg_VMTags t) (tg_Enabled t) (tg_Retention t) (tg_Compression t) (tg_ZstdLevel t)
  (tg_CreatedAt t) (tg_UpdatedAt t).
Definition set_tg_Username (v : string) (t : Target) : Target := MkTarget (tg_ID t) (tg_Name t)
  (tg_Type t) (tg_Path t) (tg_Host t) (tg_Port t) v (tg_SourceDir t) (tg_Bucket t) (tg_Region t)
  (tg_Endpoint t) (tg_Secret t) (tg_KnownHosts t) (tg_VerifyOnWrite t) (tg_VMFilter t) (tg_VMIDs
  t) (tg_VMTags t) (tg_Enabled t) (tg_Retention t) (tg_Compression t) (tg_ZstdLevel t)
  (tg_CreatedAt t) (tg_UpdatedAt t).
Definition set_tg_Bucket (v : string) (t : Target) : Target := MkTarget (tg_ID t) (tg_Name t)
  (tg_Type t) (tg_Path t) (tg_Host t) (tg_Port t) (tg_Username t) (tg_SourceDir t) v (tg_Region
  t) (tg_Endpoint t) (tg_Secret t) (tg_KnownHosts t) (tg_VerifyOnWrite t) (tg_VMFilter t)
  (tg_VMIDs t) (tg_VMTags t) (tg_Enabled t) (tg_Retention t) (tg_Compression t) (tg_ZstdLevel t)
  (tg_CreatedAt t) (tg_UpdatedAt t).
Definition set_tg_Region (v : string) (t : Target) : Target := MkTarget (tg_ID t) (tg_Name t)
  (tg_Type t) (tg_Path t) (tg_Host t) (tg_Port t) (tg_Username t) (tg_SourceDir t) (tg_Bucket t)
  v (tg_Endpoint t) (tg_Secret t) (tg_KnownHosts t) (tg_VerifyOnWrite t) (tg_VMFilter t)
  (tg_VMIDs t) (tg_VMTags t) (tg_Enabled t) (tg_Retention t) (tg_Compression t) (tg_ZstdLevel t)
  (tg_CreatedAt t) (tg_UpdatedAt t).
Definition set_tg_Endpoint (v : string) (t : Target) : Target := MkTarget (tg_ID t) (tg_Name t)
  (tg_Type t) (tg_Path t) (tg_Host t) (tg_Port t) (tg_Username t) (tg_SourceDir t) (tg_Bucket t)
  (tg_Region t) v (tg_Secret t) (tg_KnownHosts t) (tg_VerifyOnWrite t) (tg_VMFilter t) (tg_VMIDs
  t) (tg_VMTags t) (tg_Enabled t) (tg_Retention t) (tg_Compression t) (tg_ZstdLevel t)
  (tg_CreatedAt t) (tg_UpdatedAt t).
Definition set_tg_Secret (v : TargetSecret) (t : Target) : Target := MkTarget (tg_ID t) (tg_Name
  t) (tg_Type t) (tg_Path t) (tg_Host t) (tg_Port t) (tg_Username t) (tg_SourceDir t) (tg_Bucket
  t) (tg_Region t) (tg_Endpoint t) v (tg_KnownHosts t) (tg_VerifyOnWrite t) (tg_VMFilter t)
  (tg_VMIDs t) (tg_VMTags t) (tg_Enabled t) (tg_Retention t) (tg_Compression t) (tg_ZstdLevel t)
  (tg_CreatedAt t) (tg_UpdatedAt t).
Definition set_tg_KnownHosts (v : list string) (t : Target) : Target := MkTarget (tg_ID t)
  (tg_Name t) (tg_Type t) (tg_Path t) (tg_Host t) (tg_Port t) (tg_Username t) (tg_SourceDir t)
  (tg_Bucket t) (tg_Region t) (tg_Endpoint t) (tg_Secret t) v (tg_VerifyOnWrite t) (tg_VMFilter
  t) (tg_VMIDs t) (tg_VMTags t) (tg_Enabled t) (tg_Retention t) (tg_Compression t) (tg_ZstdLevel
  t) (tg_CreatedAt t) (tg_UpdatedAt t).
Definition set_tg_VerifyOnWrite (v : bool) (t : Target) : Target := MkTarget (tg_ID t) (tg_Name
  t) (tg_Type t) (tg_Path t) (tg_Host t) (tg_Port t) (tg_Username t) (tg_SourceDir t) (tg_Bucket
  t) (tg_Region t) (tg_Endpoint t) (tg_Secret t) (tg_KnownHosts t) v (tg_VMFilter t) (tg_VMIDs
  t) (tg_VMTags t) (tg_Enabled t) (tg_Retention t) (tg_Compression t) (tg_ZstdLevel t)
  (tg_CreatedAt t) (tg_UpdatedAt t).
Definition set_tg_VMFilter (v : string) (t : Target) : Target := MkTarget (tg_ID t) (tg_Name t)
  (tg_Type t) (tg_Path t) (tg_Host t) (tg_Port t) (tg_Username t) (tg_SourceDir t) (tg_Bucket t)
  (tg_Region t) (tg_Endpoint t) (tg_Secret t) (tg_KnownHosts t) (tg_VerifyOnWrite t) v (tg_VMIDs
  t) (tg_VMTags t) (tg_Enabled t) (tg_Retention t) (tg_Compression t) (tg_ZstdLevel t)
  (tg_CreatedAt t) (tg_UpdatedAt t).
Definition set_tg_VMIDs (v : list string) (t : Target) : Target := MkTarget (tg_ID t) (tg_Name
  t) (tg_Type t) (tg_Path t) (tg_Host t) (tg_Port t) (tg_Username t) (tg_SourceDir t) (tg_Bucket
  t) (tg_Region t) (tg_Endpoint t) (tg_Secret t) (tg_KnownHosts t) (tg_VerifyOnWrite t)
  (tg_VMFilter t) v (tg_VMTags t) (tg_Enabled t) (tg_Retention t) (tg_Compression t)
  (tg_ZstdLevel t) (tg_CreatedAt t) (tg_UpdatedAt t).
Definition set_tg_VMTags (v : list string) (t : Target) : Target := MkTarget (tg_ID t) (tg_Name
  t) (tg_Type t) (tg_Path t) (tg_Host t) (tg_Port t) (tg_Username t) (tg_SourceDir t) (tg_Bucket
  t) (tg_Region t) (tg_Endpoint t) (tg_Secret t) (tg_KnownHosts t) (tg_VerifyOnWrite t)
  (tg_VMFilter t) (tg_VMIDs t) v (tg_Enabled t) (tg_Retention t) (tg_Compression t)
  (tg_ZstdLevel t) (tg_CreatedAt t) (tg_UpdatedAt t).
Definition set_tg_Enabled (v : bool) (t : Target) : Target := MkTarget (tg_ID t) (tg_Name t)
  (tg_Type t) (tg_Path t) (tg_Host t) (tg_Port t) (tg_Username t) (tg_SourceDir t) (tg_Bucket t)
  (tg_Region t) (tg_Endpoint t) (tg_Secret t) (tg_KnownHosts t) (tg_VerifyOnWrite t)
  (tg_VMFilter t) (tg_VMIDs t) (tg_VMTags t) v (tg_Retention t) (tg_Compression t) (tg_ZstdLevel
  t) (tg_CreatedAt t) (tg_UpdatedAt t).
Definition set_tg_Retention (v : RetentionPolicy) (t : Target) : Target := MkTarget (tg_ID t)
  (tg_Name t) (tg_Type t) (tg_Path t) (tg_Host t) (tg_Port t) (tg_Username t) (tg_SourceDir t)
  (tg_Bucket t) (tg_Region t) (tg_Endpoint t) (tg_Secret t) (tg_KnownHosts t) (tg_VerifyOnWrite
  t) (tg_VMFilter t) (tg_VMIDs t) (tg_VMTags t) (tg_Enabled t) v (tg_Compression t)
  (tg_ZstdLevel t) (tg_CreatedAt t) (tg_UpdatedAt t).
Definition set_tg_Compression (v : string) (t : Target) : Target := MkTarget (tg_ID t) (tg_Name
  t) (tg_Type t) (tg_Path t) (tg_Host t) (tg_Port t) (tg_Username t) (tg_SourceDir t) (tg_Bucket
  t) (tg_Region t) (tg_Endpoint t) (tg_Secret t) (tg_KnownHosts t) (tg_VerifyOnWrite t)
  (tg_VMFilter t) (tg_VMIDs t) (tg_VMTags t) (tg_Enabled t) (tg_Retention t) v (tg_ZstdLevel t)
  (tg_CreatedAt t) (tg_UpdatedAt t).
Definition set_tg_ZstdLevel (v : Z) (t : Target) : Target := MkTarget (tg_ID t) (tg_Name t)
  (tg_Type t) (tg_Path t) (tg_Host t) (tg_Port t) (tg_Username t) (tg_SourceDir t) (tg_Bucket t)
  (tg_Region t) (tg_Endpoint t) (tg_Secret t) (tg_KnownHosts t) (tg_VerifyOnWrite t)
  (tg_VMFilter t) (tg_VMIDs t) (tg_VMTags t) (tg_Enabled t) (tg_Retention t) (tg_Compression t)
  v (tg_CreatedAt t) (tg_UpdatedAt t).
Definition set_tg_UpdatedAt (v : Z) (t : Target) : Target := MkTarget (tg_ID t) (tg_Name t)
  (tg_Type t) (tg_Path t) (tg_Host t) (tg_Port t) (tg_Username t) (tg_SourceDir t) (tg_Bucket t)
  (tg_Region t) (tg_Endpoint t) (tg_Secret t) (tg_KnownHosts t) (tg_VerifyOnWrite t)
  (tg_VMFilter t) (tg_VMIDs t) (tg_VMTags t) (tg_Enabled t) (tg_Retention t) (tg_Compression t)
  (tg_ZstdLevel t) (tg_CreatedAt t) v.
Definition set_sc_Name (v : string) (s : Schedule) : Schedule := MkSchedule (sc_ID s) v (sc_Cron
  s) (sc_TargetID s) (sc_Mode s) (sc_Enabled s) (sc_LastRunAt s) (sc_LastStatus s) (sc_LastError
  s) (sc_NextRunAt s) (sc_CreatedAt s) (sc_UpdatedAt s).
Definition set_sc_Cron (v : string) (s : Schedule) : Schedule := MkSchedule (sc_ID s) (sc_Name
  s) v (sc_TargetID s) (sc_Mode s) (sc_Enabled s) (sc_LastRunAt s) (sc_LastStatus s)
  (sc_LastError s) (sc_NextRunAt s) (sc_CreatedAt s) (sc_UpdatedAt s).
Definition set_sc_TargetID (v : string) (s : Schedule) : Schedule := MkSchedule (sc_ID s)
  (sc_Name s) (sc_Cron s) v (sc_Mode s) (sc_Enabled s) (sc_LastRunAt s) (sc_LastStatus s)
  (sc_LastError s) (sc_NextRunAt s) (sc_CreatedAt s) (sc_UpdatedAt s).
Definition set_sc_Mode (v : string) (s : Schedule) : Schedule := MkSchedule (sc_ID s) (sc_Name
  s) (sc_Cron s) (sc_TargetID s) v (sc_Enabled s) (sc_LastRunAt s) (sc_LastStatus s)
  (sc_LastError s) (sc_NextRunAt s) (sc_CreatedAt s) (sc_UpdatedAt s).
Definition set_sc_Enabled (v : bool) (s : Schedule) : Schedule := MkSchedule (sc_ID s) (sc_Name
  s) (sc_Cron s) (sc_TargetID s) (sc_Mode s) v (sc_LastRunAt s) (sc_LastStatus s) (sc_LastError
  s) (sc_NextRunAt s) (sc_CreatedAt s) (sc_UpdatedAt s).
Definition set_sc_LastRunAt (v : Z) (s : Schedule) : Schedule := MkSchedule (sc_ID s) (sc_Name
  s) (sc_Cron s) (sc_TargetID s) (sc_Mode s) (sc_Enabled s) v (sc_LastStatus s) (sc_LastError s)
  (sc_NextRunAt s) (sc_CreatedAt s) (sc_UpdatedAt s).
Definition set_sc_LastStatus (v : string) (s : Schedule) : Schedule := MkSchedule (sc_ID s)
  (sc_Name s) (sc_Cron s) (sc_TargetID s) (sc_Mode s) (sc_Enabled s) (sc_LastRunAt s) v
  (sc_LastError s) (sc_NextRunAt s) (sc_CreatedAt s) (sc_UpdatedAt s).
Definition set_sc_LastError (v : string) (s : Schedule) : Schedule := MkSchedule (sc_ID s)
  (sc_Name s) (sc_Cron s) (sc_TargetID s) (sc_Mode s) (sc_Enabled s) (sc_LastRunAt s)
  (sc_LastStatus s) v (sc_NextRunAt s) (sc_CreatedAt s) (sc_UpdatedAt s).
Definition set_sc_NextRunAt (v : Z) (s : Schedule) : Schedule := MkSchedule (sc_ID s) (sc_Name
  s) (sc_Cron s) (sc_TargetID s) (sc_Mode s) (sc_Enabled s) (sc_LastRunAt s) (sc_LastStatus s)
  (sc_LastError s) v (sc_CreatedAt s) (sc_UpdatedAt s).
Definition set_sc_UpdatedAt (v : Z) (s : Schedule) : Schedule := MkSchedule (sc_ID s) (sc_Name
  s) (sc_Cron s) (sc_TargetID s) (sc_Mode s) (sc_Enabled s) (sc_LastRunAt s) (sc_LastStatus s)
  (sc_LastError s) (sc_NextRunAt s) (sc_CreatedAt s) v.
Definition set_jb_ID (v : string) (j : Job) : Job := MkJob v (jb_ScheduleID j) (jb_TargetID j)
  (jb_Mode j) (jb_CheckpointID j) (jb_StartedAt j) (jb_EndedAt j) (jb_Filename j) (jb_Size j)
  (jb_Filenames j) (jb_Files j) (jb_Status j) (jb_Error j) (jb_Progress j) (jb_Message j)
  (jb_Stage j) (jb_VMID j) (jb_VMName j) (jb_Destination j) (jb_ScopeVMID j).
Definition set_jb_StartedAt (v : Z) (j : Job) : Job := MkJob (jb_ID j) (jb_ScheduleID j)
  (jb_TargetID j) (jb_Mode j) (jb_CheckpointID j) v (jb_EndedAt j) (jb_Filename j) (jb_Size j)
  (jb_Filenames j) (jb_Files j) (jb_Status j) (jb_Error j) (jb_Progress j) (jb_Message j)
  (jb_Stage j) (jb_VMID j) (jb_VMName j) (jb_Destination j) (jb_ScopeVMID j).
Definition set_jb_EndedAt (v : Z) (j : Job) : Job := MkJob (jb_ID j) (jb_ScheduleID j)
  (jb_TargetID j) (jb_Mode j) (jb_CheckpointID j) (jb_StartedAt j) v (jb_Filename j) (jb_Size j)
  (jb_Filenames j) (jb_Files j) (jb_Status j) (jb_Error j) (jb_Progress j) (jb_Message j)
  (jb_Stage j) (jb_VMID j) (jb_VMName j) (jb_Destination j) (jb_ScopeVMID j).
Definition set_jb_Size (v : Z) (j : Job) : Job := MkJob (jb_ID j) (jb_ScheduleID j) (jb_TargetID
  j) (jb_Mode j) (jb_CheckpointID j) (jb_StartedAt j) (jb_EndedAt j) (jb_Filename j) v
  (jb_Filenames j) (jb_Files j) (jb_Status j) (jb_Error j) (jb_Progress j) (jb_Message j)
  (jb_Stage j) (jb_VMID j) (jb_VMName j) (jb_Destination j) (jb_ScopeVMID j).
Definition set_jb_Filenames (v : list string) (j : Job) : Job := MkJob (jb_ID j) (jb_ScheduleID
  j) (jb_TargetID j) (jb_Mode j) (jb_CheckpointID j) (jb_StartedAt j) (jb_EndedAt j)
  (jb_Filename j) (jb_Size j) v (jb_Files j) (jb_Status j) (jb_Error j) (jb_Progress j)
  (jb_Message j) (jb_Stage j) (jb_VMID j) (jb_VMName j) (jb_Destination j) (jb_ScopeVMID j).
Definition set_jb_Files (v : list JobFile) (j : Job) : Job := MkJob (jb_ID j) (jb_ScheduleID j)
  (jb_TargetID j) (jb_Mode j) (jb_CheckpointID j) (jb_StartedAt j) (jb_EndedAt j) (jb_Filename
  j) (jb_Size j) (jb_Filenames j) v (jb_Status j) (jb_Error j) (jb_Progress j) (jb_Message j)
  (jb_Stage j) (jb_VMID j) (jb_VMName j) (jb_Destination j) (jb_ScopeVMID j).
Definition set_jb_Status (v : string) (j : Job) : Job := MkJob (jb_ID j) (jb_ScheduleID j)
  (jb_TargetID j) (jb_Mode j) (jb_CheckpointID j) (jb_StartedAt j) (jb_EndedAt j) (jb_Filename
  j) (jb_Size j) (jb_Filenames j) (jb_Files j) v (jb_Error j) (jb_Progress j) (jb_Message j)
  (jb_Stage j) (jb_VMID j) (jb_VMName j) (jb_Destination j) (jb_ScopeVMID j).
Definition set_jb_Error (v : string) (j : Job) : Job := MkJob (jb_ID j) (jb_ScheduleID j)
  (jb_TargetID j) (jb_Mode j) (jb_CheckpointID j) (jb_StartedAt j) (jb_EndedAt j) (jb_Filename
  j) (jb_Size j) (jb_Filenames j) (jb_Files j) (jb_Status j) v (jb_Progress j) (jb_Message j)
  (jb_Stage j) (jb_VMID j) (jb_VMName j) (jb_Destination j) (jb_ScopeVMID j).

Record verifiedInfo := MkVerified { vi_At : Z; vi_Sha256 : string; vi_Ok : bool; vi_Error : string }.

Record BackupFile := MkBackupFile {
  bk_TargetID : string; bk_Filename : string; bk_Size : Z; bk_Modified : Z;
  bk_Sha256 : string; bk_LastVerified : Z; bk_LastVerifyError : string
}.

(** The connection options of a request; [None] is a nil pointer or slice. *)
Record TargetOptions := MkOptions {
  o_Host : string; o_Port : Z; o_Username : string; o_Password : string; o_SSHKeyPath : string;
  o_ClearSecret : bool; o_SourceDir : string; o_Bucket : string; o_Region : string;
  o_Endpoint : string; o_AccessKey : string; o_SecretKey : string;
  o_KnownHosts : option (list string); o_VMTags : option (list string);
  o_VerifyOnWrite : option bool; o_Retention : RetentionPolicy;
  o_Compression : string; o_ZstdLevel : Z
}.

Definition no_retention : RetentionPolicy := MkPolicy 0 0 0 0 0.
Definition no_options : TargetOptions :=
  MkOptions "" 0 "" "" "" false "" "" "" "" "" "" None None None no_retention "" 0.

(** The sentinel errors, and the others with their text. *)
Inductive store_err :=
| ErrTargetNotFound | ErrScheduleNotFound | ErrInvalidCron
| ErrTargetPathUnwritable (why : path_err)
| ErrMsg (text : string).
#[export] Instance store_err_eq_dec : EqDecision store_err.
Proof. solve_decision. Defined.

(** ** Normalisation *)

Definition CompressionZstd : string := "zstd".
Definition CompressionGzip : string := "gzip".

Definition normalizeCompression (c : string) : string :=
  if String.eqb (to_lower (trim_space c)) CompressionGzip then CompressionGzip else CompressionZstd.

Definition normalizeZstdLevel (n : Z) : Z := if n <? 0 then 0 else if 22 <? n then 22 else n.

Definition archiveExt (compression : string) : string :=
  if String.eqb (normalizeCompression compression) CompressionGzip then ".tar.gz" else ".tar.zst".

Definition known_filters : list string := [""; "all"; "include"; "exclude"; "tags"; "groups"].

(** The filter is compared trimmed and returned as it came. *)
Definition normalizeVMFilter (f : string) : res store_err string :=
  if existsb (String.eqb (trim_space f)) known_filters then Ok f
  else Err (ErrMsg "vm_filter must be one of all|include|exclude|groups|tags").

Definition firstNonEmpty (a b : string) : string := if String.eqb a "" then b else a.

Definition verifiedKey (targetID filename : string) : string := targetID +:+ "/" +:+ filename.

Definition opt_list (l : option (list string)) : list string := default [] l.

(** ** The store *)

Class Disks (WT WS WJ WC WV : Type) := {
  disk_targets :: Persist (list Target) WT;
  disk_schedules :: Persist (list Schedule) WS;
  disk_jobs :: Persist (list Job) WJ;
  disk_secrets :: Persist (gmap string TargetSecret) WC;
  disk_verified :: Persist (gmap string verifiedInfo) WV
}.

Section Store.
(** Outside the repository: symbolic links, [cron.ParseStandard] (whether it
    parses) and systemd-escape; [sort.Slice] by a key. *)
Context (EvalSymlinks : string -> option string) (cron_ok : string -> bool)
        (escape : string -> option string).
Context (sort_by : forall A, (A -> Z) -> list A -> list A).
Context {WT WS WJ WC WV : Type} `{!Disks WT WS WJ WC WV}.

Record Store := MkStore {
  dataDir : string;
  targets : gmap string Target;
  schedules : gmap string Schedule;
  jobs : gmap string Job;
  secrets : gmap string TargetSecret;
  verified : gmap string verifiedInfo;
  host : Host;
  d_targets : WT; d_schedules : WS; d_jobs : WJ; d_secrets : WC; d_verified : WV
}.

Definition set_targets (m : gmap string Target) (s : Store) : Store :=
  MkStore (dataDir s) m (schedules s) (jobs s) (secrets s) (verified s) (host s)
    (d_targets s) (d_schedules s) (d_jobs s) (d_secrets s) (d_verified s).
Definition set_schedules (m : gmap string Schedule) (s : Store) : Store :=
  MkStore (dataDir s) (targets s) m (jobs s) (secrets s) (verified s) (host s)
    (d_targets s) (d_schedules s) (d_jobs s) (d_secrets s) (d_verified s).
Definition set_jobs (m : gmap string Job) (s : Store) : Store :=
  MkStore (dataDir s) (targets s) (schedules s) m (secrets s) (verified s) (host s)
    (d_targets s) (d_schedules s) (d_jobs s) (d_secrets s) (d_verified s).
Definition set_secrets (m : gmap string TargetSecret) (s : Store) : Store :=
  MkStore (dataDir s) (targets s) (schedules s) (jobs s) m (verified s) (host s)
    (d_targets s) (d_schedules s) (d_jobs s) (d_secrets s) (d_verified s).
Definition set_verified (m : gmap string verifiedInfo) (s : Store) : Store :=
  MkStore (dataDir s) (targets s) (schedules s) (jobs s) (secrets s) m (host s)
    (d_targets s) (d_schedules s) (d_jobs s) (d_secrets s) (d_verified s).
Definition set_host (h : Host) (s : Store) : Store :=
  MkStore (dataDir s) (targets s) (schedules s) (jobs s) (secrets s) (verified s) h
    (d_targets s) (d_schedules s) (d_jobs s) (d_secrets s) (d_verified s).

Definition values {A} (m : gmap string A) : list A := map snd (map_to_list m).

(** What encoding/json writes of a target: [Secret] is tagged "-". *)
Definition target_json (t : Target) : Target := set_tg_Secret no_secret t.

Definition saveTargets (s : Store) : bool * Store :=
  let '(ok, w) := save (map target_json (sort_by _ tg_CreatedAt (values (targets s)))) (d_targets s) in
  (ok, MkStore (dataDir s) (targets s) (schedules s) (jobs s) (secrets s) (verified s) (host s)
         w (d_schedules s) (d_jobs s) (d_secrets s) (d_verified s)).

Definition saveSchedules (s : Store) : bool * Store :=
  let '(ok, w) := save (sort_by _ sc_CreatedAt (values (schedules s))) (d_schedules s) in
  (ok, MkStore (dataDir s) (targets s) (schedules s) (jobs s) (secrets s) (verified s) (host s)
         (d_targets s) w (d_jobs s) (d_secrets s) (d_verified s)).

(** The newest 200 jobs. *)
Definition saveJobs (s : Store) : bool * Store :=
  let '(ok, w) := save (take 200 (sort_by _ (fun j => - jb_StartedAt j) (values (jobs s)))) (d_jobs s) in
  (ok, MkStore (dataDir s) (targets s) (schedules s) (jobs s) (secrets s) (verified s) (host s)
         (d_targets s) (d_schedules s) w (d_secrets s) (d_verified s)).

Definition saveSecrets (s : Store) : bool * Store :=
  let '(ok, w) := save (secrets s) (d_secrets s) in
  (ok, MkStore (dataDir s) (targets s) (schedules s) (jobs s) (secrets s) (verified s) (host s)
         (d_targets s) (d_schedules s) (d_jobs s) w (d_verified s)).

Definition saveVerified (s : Store) : bool * Store :=
  let '(ok, w) := save (verified s) (d_verified s) in
  (ok, MkStore (dataDir s) (targets s) (schedules s) (jobs s) (secrets s) (verified s) (host s)
         (d_targets s) (d_schedules s) (d_jobs s) (d_secrets s) w).

(** ** Opening the store *)

Abbreviation op := (SE Store store_err).
Definition persist (sv : Store -> bool * Store) : op unit := fun s =>
  let '(ok, s) := sv s in (if ok then Ok tt else Err (ErrMsg "save"), s).
Definition mkdir (path : string) (e : store_err) : op unit := fun s =>
  let '(ok, h) := MkdirAll path (host s) in (if ok then Ok tt else Err e, set_host h s).
(** A failing [m] is followed by [cleanup]. *)
Definition on_error {A} (cleanup : Store -> Store) (m : op A) : op A := fun s =>
  match m s with (Err e, s) => (Err e, cleanup s) | r => r end.

Definition index_by {A} (id : A -> string) (l : list A) : gmap string A :=
  foldl (fun m a => <[id a := a]> m) ∅ l.

Definition read_doc {D} (c : option (content D)) (e : store_err) : op (option D) :=
  match c with
  | None => mret None
  | Some Torn => se_fail e
  | Some (Whole d) => mret (Some d)
  end.

Definition load : op unit :=
  s ← se_get;
  ts ← read_doc (stored (d_targets s)) (ErrMsg "parse targets.json");
  ss ← read_doc (stored (d_schedules s)) (ErrMsg "parse schedules.json");
  js ← read_doc (stored (d_jobs s)) (ErrMsg "parse jobs.json");
  se_modify (fun s => set_targets (index_by tg_ID (default [] ts))
    (set_schedules (index_by sc_ID (default [] ss)) (set_jobs (index_by jb_ID (default [] js)) s))).

Definition is_running (j : Job) : bool := String.eqb (jb_Status j) "running".

Definition sweep_job (now : Z) (j : Job) : Job :=
  if negb (is_running j) then j else
  let j := set_jb_Status "error" j in
  let j := if is_zero (jb_EndedAt j) then set_jb_EndedAt now j else j in
  if String.eqb (jb_Error j) ""
  then set_jb_Error "aborted_by_restart: job was running when the backend stopped" j else j.

(** A failing save is only logged. *)
Definition sweepStuckJobs (now : Z) (s : Store) : Store :=
  let s' := set_jobs (sweep_job now <$> jobs s) s in
  if existsb is_running (values (jobs s)) then (saveJobs s').2 else s'.

Definition default_target (path : string) (now : Z) : Target :=
  MkTarget "default" "default" TargetLocal path "" 0 "" "" "" "" "" no_secret [] false "" [] [] true
    no_retention "" 0 now now.

Definition ensureDefault (now : Z) (s : Store) : Store :=
  if existsb (fun t => String.eqb (tg_Name t) "default") (values (targets s)) then s else
  let defaultPath := GoPath.Join [dataDir s; "default"] in
  let s := set_host (MkdirAll defaultPath (host s)).2 s in
  set_targets (<["default" := default_target defaultPath now]> (targets s)) s.

Definition loadSecrets : op unit :=
  s ← se_get;
  m ← read_doc (stored (d_secrets s)) (ErrMsg "parse sftp-secrets.json");
  se_modify (fun s => set_secrets (default ∅ m ∪ secrets s) s).

Definition loadVerified : op unit :=
  s ← se_get;
  m ← read_doc (stored (d_verified s)) (ErrMsg "parse verified.json");
  se_modify (fun s => set_verified (default ∅ m ∪ verified s) s).

(** [New] over the given disks and machine. *)
Definition open_store (now : Z) : op unit :=
  s ← se_get;
  _ ← mkdir (dataDir s) (ErrMsg "mkdir");
  _ ← load;
  _ ← se_modify (sweepStuckJobs now);
  _ ← se_modify (ensureDefault now);
  _ ← loadSecrets;
  _ ← loadVerified;
  _ ← persist saveTargets;
  persist saveSchedules.

Definition New (dir : string) (h : Host) (wt : WT) (ws : WS) (wj : WJ) (wc : WC) (wv : WV) (now : Z)
    : res store_err unit * Store :=
  open_store now (MkStore (GoPath.Join [dir; "backup"]) ∅ ∅ ∅ ∅ ∅ h wt ws wj wc wv).

(** ** Secrets and verification records *)

Definition SetTargetSecret (id : string) (sec : TargetSecret) : op unit :=
  _ ← se_modify (fun s => set_secrets
        (if negb (nonempty (Password sec)) && negb (nonempty (SSHKeyPath sec))
         then delete id (secrets s) else <[id := sec]> (secrets s)) s);
  persist saveSecrets.

Definition getSecret (id : string) (s : Store) : option TargetSecret := secrets s !! id.

Definition RecordVerification (targetID filename sha : string) (ok : bool) (errMsg : string) (now : Z)
    : op unit :=
  _ ← se_modify (fun s => set_verified
        (<[verifiedKey targetID filename := MkVerified now sha ok errMsg]> (verified s)) s);
  persist saveVerified.

Definition attach_one (s : Store) (f : BackupFile) : BackupFile :=
  match verified s !! verifiedKey (bk_TargetID f) (bk_Filename f) with
  | None => f
  | Some info =>
      if vi_Ok info
      then MkBackupFile (bk_TargetID f) (bk_Filename f) (bk_Size f) (bk_Modified f)
             (vi_Sha256 info) (vi_At info) (bk_LastVerifyError f)
      else MkBackupFile (bk_TargetID f) (bk_Filename f) (bk_Size f) (bk_Modified f)
             "" (vi_At info) (vi_Error info)
  end.

Definition AttachVerified (files : list BackupFile) (s : Store) : list BackupFile :=
  map (attach_one s) files.

(** ** Targets *)

(** A copy of a target with its stored credentials. *)
Definition with_secret (s : Store) (id : string) (t : Target) : Target :=
  match secrets s !! id with Some sec => set_tg_Secret sec t | None => t end.

Definition ListTargets (s : Store) : list Target :=
  sort_by _ tg_CreatedAt (map (fun t => with_secret s (tg_ID t) t) (values (targets s))).

Definition GetTarget (id : string) (s : Store) : option Target :=
  with_secret s id <$> targets s !! id.

Definition check_path (dir path : string) : res store_err unit :=
  match ValidateTargetPath EvalSymlinks path dir with
  | Some e => Err (ErrTargetPathUnwritable e)
  | None => Ok tt
  end.

(** The switch over the type; the type it settles on. *)
Definition check_type (dir path ttype : string) (o : TargetOptions) : res store_err string :=
  if String.eqb ttype TargetSFTP then
    if negb (nonempty (o_Host o)) then Err (ErrMsg "host is required for sftp targets")
    else if negb (nonempty (o_Username o)) then Err (ErrMsg "username is required for sftp targets")
    else if negb (nonempty (o_Password o)) && negb (nonempty (o_SSHKeyPath o))
    then Err (ErrMsg "a password or ssh key path is required for sftp targets")
    else Ok ttype
  else if String.eqb ttype TargetS3 then
    if negb (nonempty (o_Bucket o)) then Err (ErrMsg "bucket is required for s3 targets")
    else if negb (nonempty (o_Endpoint o)) && negb (nonempty (o_Region o))
    then Err (ErrMsg "region is required for s3 targets without a custom endpoint")
    else if negb (nonempty (o_AccessKey o)) || negb (nonempty (o_SecretKey o))
    then Err (ErrMsg "access key and secret key are required for s3 targets")
    else Ok ttype
  else if String.eqb ttype TargetLocal then _ ← check_path dir path; Ok ttype
  else if String.eqb ttype TargetNFS || String.eqb ttype TargetSMB then
    _ ← check_path dir path;
    if nonempty (o_Host o) then
      if negb (nonempty (o_SourceDir o))
      then Err (ErrMsg "targets require a source directory/share when host is set")
      else if String.eqb ttype TargetSMB
              && negb (Bool.eqb (nonempty (o_Username o)) (nonempty (o_Password o)))
      then Err (ErrMsg "smb auth requires both username and password")
      else Ok ttype
    else Ok ttype
  else if String.eqb ttype "" then _ ← check_path dir path; Ok TargetLocal
  else Err (ErrMsg "unsupported target type").

(** The mount made before the lock is taken; whether there is one. *)
Definition self_mount (id path ttype : string) (o : TargetOptions) : op bool := fun s =>
  if (String.eqb ttype TargetNFS || String.eqb ttype TargetSMB) && nonempty (o_Host o) then
    let '(err, h) :=
      if String.eqb ttype TargetNFS then mountNFSTarget escape (o_Host o) (o_SourceDir o) path (host s)
      else mountSMBTarget escape id (o_Host o) (o_SourceDir o) path (o_Username o) (o_Password o) (host s) in
    (match err with Some e => Err (ErrMsg e) | None => Ok true end, set_host h s)
  else (Ok false, s).

Definition unmount (id path : string) (s : Store) : Store :=
  set_host (unmountTarget escape id path (host s)).2 s.

Definition unwindMount (self : bool) (id path : string) (s : Store) : Store :=
  if self then unmount id path s else s.

Definition new_target (id name path ttype filter : string) (vmIDs : list string) (o : TargetOptions)
    (now : Z) : Target :=
  MkTarget id name ttype path (o_Host o) (if o_Port o =? 0 then 22 else o_Port o) (o_Username o)
    (o_SourceDir o) (o_Bucket o) (o_Region o) (o_Endpoint o) no_secret (opt_list (o_KnownHosts o))
    (default false (o_VerifyOnWrite o)) filter vmIDs (opt_list (o_VMTags o)) true (o_Retention o)
    (normalizeCompression (o_Compression o)) (normalizeZstdLevel (o_ZstdLevel o)) now now.

Definition put_secret (id : string) (sec : TargetSecret) : op unit :=
  _ ← se_modify (fun s => set_secrets (<[id := sec]> (secrets s)) s);
  persist saveSecrets.

Definition make_dir (path : string) : op unit :=
  _ ← se_guard (contains_str ".." path) (ErrMsg "invalid path: traversal not allowed");
  mkdir path (ErrMsg "create path").

(** The credentials, the directory and the file of a new target. *)
Definition settle_target (id path ttype : string) (o : TargetOptions) : op unit :=
  _ ← (if String.eqb ttype TargetSFTP then
         se_when (nonempty (o_Password o) || nonempty (o_SSHKeyPath o))
           (put_secret id (MkSecret (o_Password o) (o_SSHKeyPath o) "" ""))
       else if String.eqb ttype TargetS3 then
         put_secret id (MkSecret "" "" (o_AccessKey o) (o_SecretKey o))
       else if String.eqb ttype TargetSMB then
         _ ← se_when (nonempty (o_Username o)) (put_secret id (MkSecret (o_Password o) "" "" ""));
         make_dir path
       else make_dir path);
  persist saveTargets.

Definition CreateTargetOpts (name path ttype vmFilter : string) (vmIDs : list string)
    (o : TargetOptions) (id : string) (now : Z) : op Target :=
  let name := trim_space name in
  _ ← se_guard (negb (nonempty name)) (ErrMsg "name is required");
  _ ← se_guard (negb (nonempty path) && negb (String.eqb ttype TargetS3)) (ErrMsg "path is required");
  s ← se_get;
  ttype ← se_lift (check_type (dataDir s) path ttype o);
  filter ← se_lift (normalizeVMFilter vmFilter);
  _ ← se_guard (String.eqb filter "include" && bool_decide (vmIDs = []))
        (ErrMsg "vm_filter=include requires at least one vm_id");
  _ ← se_guard (String.eqb filter "tags" && bool_decide (opt_list (o_VMTags o) = []))
        (ErrMsg "vm_filter=tags requires at least one vm_tag");
  self ← self_mount id path ttype o;
  s ← se_get;
  _ ← on_error (unwindMount self id path)
        (se_guard (existsb (fun t => String.eqb (tg_Name t) name) (values (targets s)))
           (ErrMsg "target already exists"));
  let t := new_target id name path ttype filter vmIDs o now in
  _ ← se_modify (fun s => set_targets (<[id := t]> (targets s)) s);
  _ ← on_error (fun s => unwindMount self id path (set_targets (delete id (targets s)) s))
        (settle_target id path ttype o);
  mret t.

Definition CreateTarget (name path ttype vmFilter : string) (vmIDs : list string) (id : string) (now : Z)
    : op Target := CreateTargetOpts name path ttype vmFilter vmIDs no_options id now.

(** The target being updated, and an edit of the shared record. *)
Definition current (id : string) : op Target := fun s =>
  match targets s !! id with Some t => (Ok t, s) | None => (Err ErrTargetNotFound, s) end.
Definition edit (id : string) (f : Target -> Target) : op unit :=
  se_modify (fun s => set_targets (alter f id (targets s)) s).
Definition edit_opt {A} (id : string) (v : option A) (f : A -> Target -> Target) : op unit :=
  match v with Some v => edit id (f v) | None => mret tt end.

Definition set_if (c : bool) (f : Target -> Target) (t : Target) : Target := if c then f t else t.

(** The connection fields of a request, blank ones kept. *)
Definition connection_edits (o : TargetOptions) (t : Target) : Target :=
  set_if (nonempty (o_Endpoint o)) (set_tg_Endpoint (o_Endpoint o))
  (set_if (nonempty (o_Region o)) (set_tg_Region (o_Region o))
  (set_if (nonempty (o_Bucket o)) (set_tg_Bucket (o_Bucket o))
  (set_if (negb (o_ZstdLevel o =? 0)) (set_tg_ZstdLevel (normalizeZstdLevel (o_ZstdLevel o)))
  (set_if (nonempty (o_Compression o)) (set_tg_Compression (normalizeCompression (o_Compression o)))
  (set_if (nonempty (o_Username o)) (set_tg_Username (o_Username o))
  (set_if (negb (o_Port o =? 0)) (set_tg_Port (o_Port o))
  (set_if (nonempty (o_Host o)) (set_tg_Host (o_Host o)) t))))))).

(** The stored credentials with the request's non-blank ones over them. *)
Definition merged_secret (ttype : string) (o : TargetOptions) (existing : TargetSecret) : TargetSecret :=
  if String.eqb ttype TargetSFTP then
    MkSecret (firstNonEmpty (o_Password o) (Password existing))
             (firstNonEmpty (o_SSHKeyPath o) (SSHKeyPath existing)) "" ""
  else if String.eqb ttype TargetS3 then
    MkSecret "" "" (firstNonEmpty (o_AccessKey o) (AccessKey existing))
                   (firstNonEmpty (o_SecretKey o) (SecretKey existing))
  else no_secret.

Definition update_options (id : string) (o : TargetOptions) : op unit :=
  _ ← edit id (connection_edits o);
  t ← current id;
  s ← se_get;
  let secret := merged_secret (tg_Type t) o (default no_secret (secrets s !! id)) in
  _ ← (if o_ClearSecret o then
         _ ← se_modify (fun s => set_secrets (delete id (secrets s)) s); persist saveSecrets
       else se_when (bool_decide (secret <> no_secret)) (put_secret id secret));
  _ ← edit_opt id (o_KnownHosts o) set_tg_KnownHosts;
  _ ← edit_opt id (o_VerifyOnWrite o) set_tg_VerifyOnWrite;
  edit id (set_tg_Retention (o_Retention o)).

Definition is_remote (ttype : string) : bool := String.eqb ttype TargetSFTP || String.eqb ttype TargetS3.

Definition update_path (id path : string) : op unit :=
  t ← current id;
  s ← se_get;
  _ ← (if is_remote (tg_Type t) then mret tt else se_lift (check_path (dataDir s) path));
  edit id (set_tg_Path path).

Definition update_filter (id vmFilter : string) (vmIDs : option (list string)) : op unit :=
  filter ← se_lift (normalizeVMFilter vmFilter);
  t ← current id;
  _ ← se_guard (String.eqb filter "include" && bool_decide (opt_list vmIDs = []))
        (ErrMsg "vm_filter=include requires at least one vm_id");
  _ ← se_guard (String.eqb filter "tags" && bool_decide (tg_VMTags t = []))
        (ErrMsg "vm_filter=tags requires at least one vm_tag");
  edit id (set_tg_VMFilter filter).

Definition for_opt {A} (v : option A) (f : A -> op unit) : op unit :=
  match v with Some v => f v | None => mret tt end.

Definition UpdateTarget (id : string) (name path ttype vmFilter : option string)
    (vmIDs : option (list string)) (enabled : option bool) (opts : option TargetOptions) (now : Z)
    : op Target :=
  t ← current id;
  _ ← se_guard (String.eqb id "default" && match path with Some p => negb (String.eqb p (tg_Path t)) | None => false end)
        (ErrMsg "cannot change the path of the default target");
  _ ← edit_opt id name (fun n => set_tg_Name (trim_space n));
  _ ← for_opt path (update_path id);
  _ ← edit_opt id ttype set_tg_Type;
  _ ← for_opt opts (update_options id);
  _ ← for_opt vmFilter (fun f => update_filter id f vmIDs);
  _ ← edit_opt id vmIDs set_tg_VMIDs;
  _ ← for_opt opts (fun o => edit_opt id (o_VMTags o) set_tg_VMTags);
  _ ← edit_opt id enabled set_tg_Enabled;
  _ ← edit id (set_tg_UpdatedAt now);
  _ ← persist saveTargets;
  current id.

Definition DeleteTarget (id : string) : op unit :=
  _ ← se_guard (String.eqb id "default") (ErrMsg "cannot delete the default target");
  s ← se_get;
  match targets s !! id with
  | None => mret tt
  | Some t =>
      _ ← se_when ((String.eqb (tg_Type t) TargetNFS || String.eqb (tg_Type t) TargetSMB)
                   && isSelfManagedMount escape (tg_Path t) (host s))
            (se_modify (unmount id (tg_Path t)));
      _ ← se_modify (fun s => set_secrets (delete id (secrets s)) (set_targets (delete id (targets s)) s));
      _ ← persist saveTargets;
      persist saveSecrets
  end.

(** ** Schedules *)

Definition validateCron (expr : string) : res store_err unit :=
  if cron_ok expr then Ok tt else Err ErrInvalidCron.

Definition ListSchedules (s : Store) : list Schedule := sort_by _ sc_CreatedAt (values (schedules s)).
Definition GetSchedule (id : string) (s : Store) : option Schedule := schedules s !! id.

Definition schedule_mode (m : string) : string :=
  if String.eqb m "incremental" then "incremental" else "full".

Definition CreateSchedule (name cronExpr targetID : string) (mode : list string) (id : string) (now : Z)
    : op Schedule :=
  let name := trim_space name in
  _ ← se_guard (negb (nonempty name)) (ErrMsg "name is required");
  _ ← se_guard (negb (nonempty cronExpr)) (ErrMsg "cron is required");
  _ ← se_lift (validateCron cronExpr);
  let schedMode := match mode with m :: _ => schedule_mode m | [] => "full" end in
  s ← se_get;
  _ ← se_guard (negb (bool_decide (is_Some (targets s !! targetID)))) ErrTargetNotFound;
  _ ← se_guard (existsb (fun sc => String.eqb (sc_Name sc) name) (values (schedules s)))
        (ErrMsg "schedule already exists");
  let sc := MkSchedule id name cronExpr targetID schedMode true time_zero "" "" time_zero now now in
  _ ← se_modify (fun s => set_schedules (<[id := sc]> (schedules s)) s);
  _ ← on_error (fun s => set_schedules (delete id (schedules s)) s) (persist saveSchedules);
  mret sc.

Definition schedule (id : string) : op Schedule := fun s =>
  match schedules s !! id with Some sc => (Ok sc, s) | None => (Err ErrScheduleNotFound, s) end.
Definition edit_schedule (id : string) (f : Schedule -> Schedule) : op unit :=
  se_modify (fun s => set_schedules (alter f id (schedules s)) s).

Definition UpdateSchedule (id : string) (name cronExpr targetID : option string) (enabled : option bool)
    (mode : list (option string)) (now : Z) : op Schedule :=
  _ ← schedule id;
  _ ← for_opt name (fun n => edit_schedule id (set_sc_Name (trim_space n)));
  _ ← for_opt cronExpr (fun c =>
        _ ← se_lift (validateCron c); edit_schedule id (set_sc_Cron c));
  _ ← (match mode with
       | Some m :: _ => edit_schedule id (set_sc_Mode (schedule_mode m))
       | _ => mret tt
       end);
  _ ← for_opt targetID (fun t =>
        s ← se_get;
        _ ← se_guard (negb (bool_decide (is_Some (targets s !! t)))) ErrTargetNotFound;
        edit_schedule id (set_sc_TargetID t));
  _ ← for_opt enabled (fun e => edit_schedule id (set_sc_Enabled e));
  _ ← edit_schedule id (set_sc_UpdatedAt now);
  _ ← persist saveSchedules;
  schedule id.

Definition DeleteSchedule (id : string) : op unit :=
  _ ← se_modify (fun s => set_schedules (delete id (schedules s)) s);
  persist saveSchedules.

Definition SetScheduleLastRun (id status errMsg : string) (nextRun now : Z) : op unit :=
  _ ← schedule id;
  _ ← edit_schedule id (fun sc => set_sc_NextRunAt nextRun (set_sc_LastError errMsg
        (set_sc_LastStatus status (set_sc_LastRunAt now sc))));
  persist saveSchedules.

(** ** Jobs *)

Definition newest_jobs (l : list Job) : list Job := sort_by _ (fun j => - jb_StartedAt j) l.

(** A limit of 0 or less lists every job. *)
Definition ListJobs (limit : Z) (s : Store) : list Job :=
  let all := newest_jobs (values (jobs s)) in
  if (0 <? limit) && (limit <? Z.of_nat (length all)) then take (Z.to_nat limit) all else all.

Definition GetJob (id : string) (s : Store) : option Job := jobs s !! id.

Definition RecordJob (j : Job) (newid : string) (now : Z) : op Job :=
  let j := if nonempty (jb_ID j) then j else set_jb_ID newid j in
  let j := if is_zero (jb_StartedAt j) then set_jb_StartedAt now j else j in
  _ ← se_modify (fun s => set_jobs (<[jb_ID j := j]> (jobs s)) s);
  _ ← persist saveJobs;
  mret j.

Definition UpdateJob (j : Job) : op unit :=
  s ← se_get;
  _ ← se_guard (negb (bool_decide (is_Some (jobs s !! jb_ID j)))) (ErrMsg "job not found");
  _ ← se_modify (fun s => set_jobs (<[jb_ID j := j]> (jobs s)) s);
  persist saveJobs.

(** ** Deleting archives *)

(** What a deletion does once its checks pass: [os.Remove] of a path, or a
    call of the remote transport. *)
Inductive removal := RemoveLocal (path : string) | RemoveSFTP (name : string) | RemoveS3 (name : string).

(** [is_link p]: [os.Lstat] succeeds on [p] and reports a symbolic link. *)
Definition DeleteBackupFile (is_link : string -> bool) (tgt : Target) (filename : string)
    : res string removal :=
  if negb (ValidBackupFilename filename) then Err "invalid filename"
  else if String.eqb (tg_Type tgt) TargetSFTP then Ok (RemoveSFTP filename)
  else if String.eqb (tg_Type tgt) TargetS3 then Ok (RemoveS3 filename)
  else
    let path := GoPath.Join [tg_Path tgt; filename] in
    match EvalSymlinks path with
    | None => Err "file does not exist"
    | Some real =>
        match EvalSymlinks (tg_Path tgt) with
        | None => Err "not exist"
        | Some realTgt =>
            if negb (has_prefix (realTgt +:+ "/") real) && negb (String.eqb real realTgt)
            then Err "file escapes target path"
            else if is_link real then Err "refusing to remove symlink"
            else Ok (RemoveLocal real)
        end
    end.

(** The entries of a run in the directory of a target, name and whether it is a
    directory: those with the suffix in their name and an accepted name. *)
Definition run_members (runSuffix : string) (entries : list (string * bool)) : list string :=
  map fst (List.filter (fun e => negb e.2 && contains_str runSuffix e.1 && ValidBackupFilename e.1) entries).

Inductive dir_listing := DirMissing | DirError | DirEntries (l : list (string * bool)).
Inductive run_removal := LocalRun (removed : list removal) | SFTPRun (suffix : string) | S3Run (suffix : string).

(** [rm_ok]: what [os.Remove] says; the files whose removal succeeds count. *)
Definition DeleteBackupRun (is_link : string -> bool) (rm_ok : removal -> bool) (tgt : Target)
    (runSuffix : string) (dir : dir_listing) : res string run_removal :=
  if negb (isRunSuffix runSuffix) then Err "invalid run suffix"
  else if String.eqb (tg_Type tgt) TargetSFTP then Ok (SFTPRun runSuffix)
  else if String.eqb (tg_Type tgt) TargetS3 then Ok (S3Run runSuffix)
  else match dir with
  | DirMissing => Ok (LocalRun [])
  | DirError => Err "read dir"
  | DirEntries entries =>
      Ok (LocalRun (List.filter rm_ok
        (omap (fun n => match DeleteBackupFile is_link tgt n with Ok r => Some r | Err _ => None end)
           (run_members runSuffix entries))))
  end.
End Store.
