(* ===== verification/BackupStoreFacts.v ===== *)
(** * BackupStoreFacts: what the backup registry promises

    The type invariant of the store and its documents over every sequence of
    calls, what a failed and a successful creation leave behind, restarts, and
    the confinement of deletions. *)

From S2P Require Export BackupStore.
Open Scope Z_scope.

(** ** Well-formed documents *)

Definition target_ok (t : Target) : Prop :=
  trim_space (tg_VMFilter t) ∈ known_filters /\
  tg_Compression t ∈ [""; CompressionGzip; CompressionZstd] /\
  0 <= tg_ZstdLevel t <= 22 /\
  tg_Secret t = no_secret.

Definition schedule_ok (cron_ok : string -> bool) (sc : Schedule) : Prop :=
  cron_ok (sc_Cron sc) = true /\ (sc_Mode sc = "full" \/ sc_Mode sc = "incremental").

#[export] Instance target_ok_dec t : Decision (target_ok t).
Proof. unfold target_ok. apply _. Defined.
#[export] Instance schedule_ok_dec cron_ok sc : Decision (schedule_ok cron_ok sc).
Proof. unfold schedule_ok. apply _. Defined.

(** The entries of a map are stored under their own id. *)
Definition keyed {A} (id : A -> string) (m : gmap string A) : Prop := map_Forall (fun k a => id a = k) m.

#[export] Instance keyed_dec {A} (id : A -> string) (m : gmap string A) : Decision (keyed id m).
Proof. unfold keyed. apply _. Defined.

Lemma normalizeVMFilter_ok f g : normalizeVMFilter f = Ok g -> g = f /\ trim_space g ∈ known_filters.
Proof.
  unfold normalizeVMFilter. destruct (existsb _ _) eqn:E; [|done]. intros [= <-].
  split; [done|]. apply existsb_exists in E as (x & Hx & ->%String.eqb_eq). by apply list_elem_of_In.
Qed.

Lemma normalizeZstdLevel_range n : 0 <= normalizeZstdLevel n <= 22.
Proof. unfold normalizeZstdLevel. repeat case_match; bool_norm; lia. Qed.

Lemma normalizeCompression_ok c : normalizeCompression c ∈ [""; CompressionGzip; CompressionZstd].
Proof. unfold normalizeCompression. case_match; set_solver. Qed.

Lemma schedule_mode_ok m : schedule_mode m = "full" \/ schedule_mode m = "incremental".
Proof. unfold schedule_mode. case_match; auto. Qed.

#[export] Hint Resolve normalizeZstdLevel_range normalizeCompression_ok schedule_mode_ok : go.

Lemma keyed_insert {A} (id : A -> string) (m : gmap string A) (k : string) a :
  keyed id m -> id a = k -> keyed id (<[k := a]> m).
Proof. intros Hm Ha. by apply map_Forall_insert_2. Qed.

Lemma keyed_delete {A} (id : A -> string) (m : gmap string A) (k : string) :
  keyed id m -> keyed id (delete k m).
Proof. apply map_Forall_delete. Qed.

Lemma map_Forall_alter {A} (P : string -> A -> Prop) (m : gmap string A) k f :
  map_Forall P m -> (forall a, P k a -> P k (f a)) -> map_Forall P (alter f k m).
Proof.
  intros Hm Hf i a. destruct (decide (i = k)) as [->|].
  - rewrite lookup_alter_eq, fmap_Some. intros (b & Hb & ->). auto.
  - rewrite lookup_alter_ne by done. apply Hm.
Qed.

Lemma map_Forall_values {A} (P : A -> Prop) (m : gmap string A) :
  map_Forall (fun _ => P) m <-> Forall P (values m).
Proof.
  unfold values. rewrite map_Forall_to_list, !Forall_forall. split.
  - intros H a Ha. apply list_elem_of_In, in_map_iff in Ha as ([k b] & <- & Hb).
    by apply (H (k, b)), list_elem_of_In.
  - intros H [k a] Ha. apply H. apply list_elem_of_In, in_map_iff. exists (k, a). split; [done|].
    by apply list_elem_of_In.
Qed.

Lemma index_by_Forall {A} (id : A -> string) (P : A -> Prop) (l : list A) :
  Forall P l -> map_Forall (fun _ => P) (index_by id l) /\ keyed id (index_by id l).
Proof.
  unfold index_by. intros Hl.
  enough (forall m : gmap string A, map_Forall (fun _ => P) m -> keyed id m ->
    map_Forall (fun _ => P) (foldl (fun m a => <[id a := a]> m) m l) /\
    keyed id (foldl (fun m a => <[id a := a]> m) m l)) as H.
  { apply H; apply map_Forall_empty. }
  induction Hl as [|a l Ha Hl IH]; intros m Hm Hk; [done|]. simpl.
  apply IH; [by apply map_Forall_insert_2|by apply keyed_insert].
Qed.

(** A list of a table's entries, read back, is the table. *)
Lemma index_by_list {A} (id : A -> string) (l : list A) :
  NoDup (map id l) -> index_by id l = list_to_map (map (fun a => (id a, a)) l).
Proof.
  unfold index_by. induction l as [|a l IH] using rev_ind; [done|]. intros Hn.
  rewrite map_app in Hn. apply NoDup_app in Hn as (Hn & Hd & _). rewrite foldl_app, map_app. simpl.
  rewrite IH by done. symmetry. apply list_to_map_snoc. rewrite <- list_fmap_compose.
  intros Hin. apply (Hd (id a)); [done|set_solver].
Qed.

Lemma values_pairs {A} (id : A -> string) (m : gmap string A) :
  keyed id m -> map (fun a => (id a, a)) (values m) = map_to_list m.
Proof.
  intros Hk. unfold values. rewrite map_map. rewrite <- (map_id (map_to_list m)) at 2.
  apply map_ext_in. intros [k a] Hin. simpl. f_equal. apply (Hk k a).
  by apply elem_of_map_to_list, list_elem_of_In.
Qed.

Lemma values_ids {A} (id : A -> string) (m : gmap string A) :
  keyed id m -> NoDup (map id (values m)).
Proof.
  intros Hk. replace (map id (values m)) with ((map (fun a => (id a, a)) (values m)).*1)
    by (by rewrite <- list_fmap_compose).
  rewrite values_pairs by done. apply NoDup_fst_map_to_list.
Qed.

Lemma index_by_values {A} (id : A -> string) (m : gmap string A) l :
  keyed id m -> l ≡ₚ values m -> index_by id l = m.
Proof.
  intros Hk Hl. assert (NoDup (map id l)) as Hn by (rewrite Hl; by apply values_ids).
  rewrite index_by_list by done. rewrite <- (list_to_map_to_list m).
  apply list_to_map_proper.
  - by rewrite <- list_fmap_compose.
  - rewrite <- (values_pairs id m) by done. by rewrite Hl.
Qed.

Section Facts.
Context (EvalSymlinks : string -> option string) (cron_ok : string -> bool)
        (escape : string -> option string).
Context (sort_by : forall A, (A -> Z) -> list A -> list A).
(** [sort.Slice] permutes the slice into ascending order. *)
Context (Hperm : forall A (f : A -> Z) l, sort_by A f l ≡ₚ l).
Context {WT WS WJ WC WV : Type} `{!Disks WT WS WJ WC WV}.

Abbreviation Store := (@Store WT WS WJ WC WV).
Abbreviation op := (SE Store store_err).

(** What [P] says of a document on disk: every readable one satisfies it. *)
Definition on_disk {D} (P : D -> Prop) (c : option (content D)) : Prop :=
  match c with Some (Whole d) => P d | _ => True end.

#[export] Instance on_disk_dec {D} (P : D -> Prop) `{!forall d, Decision (P d)} c : Decision (on_disk P c).
Proof. destruct c as [[d|]|]; simpl; apply _. Defined.

Record store_ok (s : Store) : Prop := {
  ok_targets : map_Forall (fun _ => target_ok) (targets s);
  ok_target_ids : keyed tg_ID (targets s);
  ok_schedules : map_Forall (fun _ => schedule_ok cron_ok) (schedules s);
  ok_schedule_ids : keyed sc_ID (schedules s);
  ok_job_ids : keyed jb_ID (jobs s);
  ok_disk_targets : on_disk (Forall target_ok) (stored (d_targets s));
  ok_disk_schedules : on_disk (Forall (schedule_ok cron_ok)) (stored (d_schedules s));
  ok_disk_jobs : on_disk (fun l : list Job => (length l <= 200)%nat) (stored (d_jobs s))
}.

(** ** Saves *)

Lemma on_disk_save {D W} `{Persist D W} (P : D -> Prop) (d : D) (w : W) :
  P d -> on_disk P (stored w) -> on_disk P (stored (save d w).2).
Proof.
  intros Hd Hw. pose proof (save_spec d w) as E. destruct (save d w) as [[] w']; simpl in *; by rewrite E.
Qed.

Lemma saveTargets_ok s : store_ok s -> store_ok (saveTargets sort_by s).2.
Proof.
  intros [H1 H2 H3 H4 H5 H6 H7 H8]. unfold saveTargets. destruct (save _ _) as [ok w] eqn:E.
  split; simpl; try done. change w with (ok, w).2. rewrite <- E. apply on_disk_save; [|done].
  apply map_Forall_values in H1. rewrite Forall_fmap. rewrite Hperm. eapply Forall_impl; [exact H1|].
  intros t (? & ? & ? & ?). split_and!; simpl; try done; lia.
Qed.

Lemma saveSchedules_ok s : store_ok s -> store_ok (saveSchedules sort_by s).2.
Proof.
  intros [H1 H2 H3 H4 H5 H6 H7 H8]. unfold saveSchedules. destruct (save _ _) as [ok w] eqn:E.
  split; simpl; try done. change w with (ok, w).2. rewrite <- E. apply on_disk_save; [|done].
  rewrite Hperm. by apply map_Forall_values.
Qed.

Lemma saveJobs_ok s : store_ok s -> store_ok (saveJobs sort_by s).2.
Proof.
  intros [H1 H2 H3 H4 H5 H6 H7 H8]. unfold saveJobs. destruct (save _ _) as [ok w] eqn:E.
  split; simpl; try done. change w with (ok, w).2. rewrite <- E. apply on_disk_save; [|done].
  rewrite length_take. lia.
Qed.

Lemma saveSecrets_ok s : store_ok s -> store_ok (saveSecrets s).2.
Proof. intros []. unfold saveSecrets. by destruct (save _ _). Qed.

Lemma saveVerified_ok s : store_ok s -> store_ok (saveVerified s).2.
Proof. intros []. unfold saveVerified. by destruct (save _ _). Qed.

Lemma persist_snd sv (s : Store) : (persist sv s).2 = (sv s).2.
Proof. unfold persist. by destruct (sv s). Qed.

Lemma pres_persist sv : (forall s, store_ok s -> store_ok (sv s).2) -> preserves store_ok (persist sv).
Proof. intros H s Hs. rewrite persist_snd. auto. Qed.
Hint Resolve saveTargets_ok saveSchedules_ok saveJobs_ok saveSecrets_ok saveVerified_ok pres_persist : pres.

(** ** Edits *)

Lemma set_host_ok h s : store_ok s -> store_ok (set_host h s).
Proof. by intros []. Qed.

Lemma set_secrets_ok m s : store_ok s -> store_ok (set_secrets m s).
Proof. by intros []. Qed.

Lemma set_verified_ok m s : store_ok s -> store_ok (set_verified m s).
Proof. by intros []. Qed.

Lemma set_targets_ok (m : gmap string Target) s :
  map_Forall (fun _ => target_ok) m -> keyed tg_ID m -> store_ok s -> store_ok (set_targets m s).
Proof. by intros ?? []. Qed.

Lemma set_schedules_ok (m : gmap string Schedule) s :
  map_Forall (fun _ => schedule_ok cron_ok) m -> keyed sc_ID m -> store_ok s -> store_ok (set_schedules m s).
Proof. by intros ?? []. Qed.

Lemma set_jobs_ok (m : gmap string Job) s : keyed jb_ID m -> store_ok s -> store_ok (set_jobs m s).
Proof. by intros ? []. Qed.

Lemma delete_target_ok id s : store_ok s -> store_ok (set_targets (delete id (targets s)) s).
Proof.
  intros Hs. apply set_targets_ok; [apply map_Forall_delete|apply keyed_delete|done]; apply Hs.
Qed.

Lemma pres_edit id f :
  (forall t, target_ok t -> target_ok (f t) /\ tg_ID (f t) = tg_ID t) -> preserves store_ok (edit id f).
Proof.
  intros Hf. apply pres_modify. intros s Hs. apply set_targets_ok; [| |done].
  - apply map_Forall_alter; [apply Hs|]. intros t Ht. by apply Hf.
  - intros k t. destruct (decide (k = id)) as [->|].
    + rewrite lookup_alter_eq, fmap_Some. intros (t0 & Ht0 & ->).
      rewrite (proj2 (Hf t0 (ok_targets _ Hs _ _ Ht0))). by apply (ok_target_ids _ Hs).
    + rewrite lookup_alter_ne by done. apply (ok_target_ids _ Hs).
Qed.

Lemma pres_edit_opt {A} id (v : option A) f :
  (forall a t, target_ok t -> target_ok (f a t) /\ tg_ID (f a t) = tg_ID t) ->
  preserves store_ok (edit_opt id v f).
Proof. intros Hf. destruct v; [apply pres_edit; auto|apply pres_ret]. Qed.

Lemma pres_edit_schedule id f :
  (forall sc, schedule_ok cron_ok sc -> schedule_ok cron_ok (f sc) /\ sc_ID (f sc) = sc_ID sc) ->
  preserves store_ok (edit_schedule id f).
Proof.
  intros Hf. apply pres_modify. intros s Hs. apply set_schedules_ok; [| |done].
  - apply map_Forall_alter; [apply Hs|]. intros t Ht. by apply Hf.
  - intros k t. destruct (decide (k = id)) as [->|].
    + rewrite lookup_alter_eq, fmap_Some. intros (t0 & Ht0 & ->).
      rewrite (proj2 (Hf t0 (ok_schedules _ Hs _ _ Ht0))). by apply (ok_schedule_ids _ Hs).
    + rewrite lookup_alter_ne by done. apply (ok_schedule_ids _ Hs).
Qed.

Lemma pres_current id : preserves store_ok (current id).
Proof. intros s Hs. unfold current. by destruct (targets s !! id). Qed.

Lemma pres_schedule id : preserves store_ok (schedule id).
Proof. intros s Hs. unfold schedule. by destruct (schedules s !! id). Qed.

Lemma pres_mkdir p e : preserves store_ok (mkdir p e).
Proof. intros s Hs. unfold mkdir. destruct (MkdirAll _ _). by apply set_host_ok. Qed.

Lemma pres_on_error {A} c (m : op A) :
  (forall s, store_ok s -> store_ok (c s)) -> preserves store_ok m -> preserves store_ok (on_error c m).
Proof.
  intros Hc Hm s Hs. specialize (Hm s Hs). unfold on_error. destruct (m s) as [[a|e] s']; [done|].
  by apply Hc.
Qed.

Lemma pres_for_opt {A} (v : option A) f :
  (forall a, v = Some a -> preserves store_ok (f a)) -> preserves store_ok (for_opt v f).
Proof. intros H. destruct v; [by apply H|apply pres_ret]. Qed.

Lemma unwindMount_ok b id p s : store_ok s -> store_ok (unwindMount escape b id p s).
Proof. destruct b; [|done]. apply set_host_ok. Qed.

Lemma pres_put_secret id sec : preserves store_ok (put_secret id sec).
Proof.
  apply pres_bind; [apply pres_modify; intros; by apply set_secrets_ok|auto with pres].
Qed.
Hint Resolve pres_current pres_schedule pres_mkdir pres_put_secret : pres.

(** One step of the structure of a method. *)
Ltac pres_step :=
  match goal with
  | |- preserves _ (se_lift _ ≫= _) => apply pres_bind_lift; intros
  | |- preserves _ (_ ≫= _) => apply pres_bind; [|intros]
  | |- preserves _ (if ?b then _ else _) => destruct b
  | |- preserves _ (se_when _ _) => apply pres_when; intros
  | |- preserves _ (for_opt _ _) => apply pres_for_opt; intros
  | |- preserves _ (persist _) => apply pres_persist
  | |- preserves _ (match ?x with _ => _ end) => destruct x
  end.
Ltac filter_known :=
  match goal with H : normalizeVMFilter ?f = Ok ?g |- _ => apply normalizeVMFilter_ok in H as [-> H] end.
Ltac pres := repeat (pres_step; auto with pres).

(** ** Every operation keeps the invariant *)

Lemma pres_self_mount id path ttype o : preserves store_ok (self_mount escape id path ttype o).
Proof.
  intros s Hs. unfold self_mount. destruct (_ && _); [|done].
  destruct (if String.eqb ttype TargetNFS then _ else _) as [e h]. by apply set_host_ok.
Qed.

Lemma pres_settle id path ttype o : preserves store_ok (settle_target sort_by id path ttype o).
Proof. unfold settle_target, make_dir. pres. Qed.
Hint Resolve pres_self_mount pres_settle : pres.

Lemma new_target_ok id name path ttype f vmIDs o now :
  trim_space f ∈ known_filters -> target_ok (new_target id name path ttype f vmIDs o now).
Proof. intros Hf. split; [|split; [|split]]; simpl; auto with go. Qed.

Lemma pres_CreateTargetOpts name path ttype f vmIDs o id now :
  preserves store_ok (CreateTargetOpts EvalSymlinks escape sort_by name path ttype f vmIDs o id now).
Proof.
  unfold CreateTargetOpts. pres.
  - apply pres_on_error; [|apply pres_guard]. intros. by apply unwindMount_ok.
  - apply pres_modify. intros s Hs. filter_known.
    apply set_targets_ok; [| |done].
    + apply map_Forall_insert_2; [by apply new_target_ok|apply Hs].
    + apply keyed_insert; [apply Hs|done].
  - apply pres_on_error; [|auto with pres]. intros. by apply unwindMount_ok, delete_target_ok.
Qed.

Lemma set_if_keep (P : Target -> Prop) c f t :
  (forall t, P t -> P (f t)) -> P t -> P (set_if c f t).
Proof. intros Hf Ht. destruct c; [by apply Hf|done]. Qed.

Lemma connection_edits_ok o t :
  target_ok t -> target_ok (connection_edits o t) /\ tg_ID (connection_edits o t) = tg_ID t.
Proof.
  intros Ht. unfold connection_edits.
  repeat (apply (set_if_keep (fun t' => target_ok t' /\ tg_ID t' = tg_ID t));
          [intros t' [(? & ? & ? & ?) ?]; split; [split; [|split; [|split]]|]; simpl; auto with go|]).
  done.
Qed.

Lemma pres_update_options id o : preserves store_ok (update_options id o).
Proof.
  unfold update_options. pres.
  - apply pres_edit. intros. by apply connection_edits_ok.
  - apply pres_modify. intros. by apply set_secrets_ok.
  - by apply pres_edit_opt.
  - by apply pres_edit_opt.
  - by apply pres_edit.
Qed.

Lemma pres_UpdateTarget id name path ttype f vmIDs enabled opts now :
  preserves store_ok (UpdateTarget EvalSymlinks sort_by id name path ttype f vmIDs enabled opts now).
Proof.
  unfold UpdateTarget. pres; try (by apply pres_edit_opt); try (by apply pres_edit).
  - unfold update_path. pres. by apply pres_edit.
  - apply pres_update_options.
  - unfold update_filter. pres. apply pres_edit. intros t (H1 & H2 & H3 & H4).
    filter_known. by split_and!.
Qed.

Lemma pres_DeleteTarget id : preserves store_ok (DeleteTarget escape sort_by id).
Proof.
  unfold DeleteTarget. pres; apply pres_modify; intros s Hs; [by apply set_host_ok|].
  by apply set_secrets_ok, delete_target_ok.
Qed.

Lemma pres_insert_schedule id sc :
  schedule_ok cron_ok sc -> sc_ID sc = id ->
  preserves (E := store_err) store_ok (se_modify (fun s => set_schedules (<[id := sc]> (schedules s)) s)).
Proof.
  intros Hsc Hid. apply pres_modify. intros s Hs. apply set_schedules_ok; [| |done].
  - apply map_Forall_insert_2; [done|apply Hs].
  - apply keyed_insert; [apply Hs|done].
Qed.

Lemma delete_schedule_ok id s : store_ok s -> store_ok (set_schedules (delete id (schedules s)) s).
Proof.
  intros Hs. apply set_schedules_ok; [apply map_Forall_delete|apply keyed_delete|done]; apply Hs.
Qed.

Lemma validateCron_ok c u : validateCron cron_ok c = Ok u -> cron_ok c = true.
Proof. unfold validateCron. by destruct (cron_ok c). Qed.

Lemma pres_CreateSchedule name c tid mode id now :
  preserves store_ok (CreateSchedule cron_ok sort_by name c tid mode id now).
Proof.
  unfold CreateSchedule. pres.
  - apply pres_insert_schedule; [|done]. split; [by eapply validateCron_ok|].
    simpl. destruct mode; [by left|apply schedule_mode_ok].
  - apply pres_on_error; [|pres]. intros. by apply delete_schedule_ok.
Qed.

Lemma pres_UpdateSchedule id name c tid en mode now :
  preserves store_ok (UpdateSchedule cron_ok sort_by id name c tid en mode now).
Proof.
  unfold UpdateSchedule. pres; apply pres_edit_schedule; intros sc [H1 H2]; (split; [|done]).
  all: try (split; [done|simpl; by auto with go]).
  split; [by eapply validateCron_ok|done].
Qed.

Lemma pres_DeleteSchedule id : preserves store_ok (DeleteSchedule sort_by id).
Proof. unfold DeleteSchedule. pres. apply pres_modify. intros. by apply delete_schedule_ok. Qed.

Lemma pres_SetScheduleLastRun id st e n now :
  preserves store_ok (SetScheduleLastRun sort_by id st e n now).
Proof. unfold SetScheduleLastRun. pres. apply pres_edit_schedule. intros sc [??]. by split. Qed.

Lemma pres_insert_job (j : Job) :
  preserves (E := store_err) store_ok (se_modify (fun s => set_jobs (<[jb_ID j := j]> (jobs s)) s)).
Proof.
  apply pres_modify. intros s Hs. apply set_jobs_ok; [|done]. apply keyed_insert; [apply Hs|done].
Qed.
Hint Resolve pres_insert_job : pres.

Lemma pres_RecordJob j id now : preserves store_ok (RecordJob sort_by j id now).
Proof. unfold RecordJob. cbv zeta. pres. Qed.

Lemma pres_UpdateJob j : preserves store_ok (UpdateJob sort_by j).
Proof. unfold UpdateJob. pres. Qed.

Lemma pres_SetTargetSecret id sec : preserves store_ok (SetTargetSecret id sec).
Proof. unfold SetTargetSecret. pres; apply pres_modify; intros; by apply set_secrets_ok. Qed.

Lemma pres_RecordVerification id f sha ok e now : preserves store_ok (RecordVerification id f sha ok e now).
Proof. unfold RecordVerification. pres. apply pres_modify. intros. by apply set_verified_ok. Qed.

(** ** Opening *)

Lemma pres_read {D} c e : preserves store_ok (read_doc (D := D) c e).
Proof. unfold read_doc. repeat case_match; auto with pres. Qed.
Hint Resolve pres_read : pres.

(** The documents read are the ones on disk. *)
Lemma read_doc_bind {D B} (c : option (content D)) e (f : option D -> op B) P s :
  on_disk P c ->
  (forall d, match d with Some d => P d | None => True end -> store_ok s -> store_ok (f d s).2) ->
  store_ok s -> store_ok ((d ← read_doc c e; f d) s).2.
Proof. intros Hc Hf Hs. destruct c as [[d|]|]; simpl; [by apply Hf|done|by apply Hf]. Qed.

Lemma load_ok : preserves store_ok load.
Proof.
  intros s Hs. unfold load. unfold se_get at 1. unfold mbind at 1, se_bind at 1. cbv beta iota.
  apply read_doc_bind with (P := Forall target_ok); [apply Hs| |done]. intros ts Hts _.
  apply read_doc_bind with (P := Forall (schedule_ok cron_ok)); [apply Hs| |done]. intros ss Hss _.
  apply read_doc_bind with (P := fun l : list Job => (length l <= 200)%nat); [apply Hs| |done]. intros js _ _.
  apply set_targets_ok.
  - apply index_by_Forall. by destruct ts.
  - apply (index_by_Forall tg_ID target_ok). by destruct ts.
  - apply set_schedules_ok.
    + apply index_by_Forall. by destruct ss.
    + apply (index_by_Forall sc_ID (schedule_ok cron_ok)). by destruct ss.
    + apply set_jobs_ok; [|done].
      apply (index_by_Forall jb_ID (fun _ => True)). by apply Forall_true.
Qed.

Lemma sweep_job_id now j : jb_ID (sweep_job now j) = jb_ID j.
Proof. unfold sweep_job. by repeat case_match. Qed.

Lemma sweepStuckJobs_ok now s : store_ok s -> store_ok (sweepStuckJobs sort_by now s).
Proof.
  intros Hs. unfold sweepStuckJobs.
  assert (store_ok (set_jobs (sweep_job now <$> jobs s) s)) as H.
  { apply set_jobs_ok; [|done]. apply map_Forall_fmap. intros k j Hj. simpl.
    rewrite sweep_job_id. by apply (ok_job_ids _ Hs). }
  case_match; [by apply saveJobs_ok|done].
Qed.

Lemma ensureDefault_ok now s : store_ok s -> store_ok (ensureDefault now s).
Proof.
  intros Hs. unfold ensureDefault. case_match; [done|]. apply set_targets_ok; simpl.
  - apply map_Forall_insert_2; [|apply Hs]. split_and!; simpl; [set_solver|set_solver|lia..|done].
  - apply keyed_insert; [apply Hs|done].
  - by apply set_host_ok.
Qed.

Lemma pres_open now : preserves store_ok (open_store sort_by now).
Proof.
  unfold open_store, loadSecrets, loadVerified. pres; try (apply pres_modify; intros).
  - apply load_ok.
  - by apply sweepStuckJobs_ok.
  - by apply ensureDefault_ok.
  - by apply set_secrets_ok.
  - by apply set_verified_ok.
Qed.

(** ** Any sequence of calls and restarts *)

Inductive call :=
| CallCreate (name path ttype vmFilter : string) (vmIDs : list string) (o : TargetOptions) (id : string) (now : Z)
| CallUpdate (id : string) (name path ttype vmFilter : option string) (vmIDs : option (list string))
    (enabled : option bool) (o : option TargetOptions) (now : Z)
| CallDelete (id : string)
| CallSetSecret (id : string) (sec : TargetSecret)
| CallVerified (targetID filename sha : string) (ok : bool) (e : string) (now : Z)
| CallCreateSchedule (name cron targetID : string) (mode : list string) (id : string) (now : Z)
| CallUpdateSchedule (id : string) (name cron targetID : option string) (enabled : option bool)
    (mode : list (option string)) (now : Z)
| CallDeleteSchedule (id : string)
| CallLastRun (id status e : string) (nextRun now : Z)
| CallRecordJob (j : Job) (newid : string) (now : Z)
| CallUpdateJob (j : Job)
| CallRestart (now : Z).

(** A restart opens the store over the disks as they are. *)
Definition fresh (s : Store) : Store :=
  MkStore (dataDir s) ∅ ∅ ∅ ∅ ∅ (host s) (d_targets s) (d_schedules s) (d_jobs s) (d_secrets s) (d_verified s).

Definition exec (c : call) (s : Store) : Store :=
  match c with
  | CallCreate n p t f v o id now => (CreateTargetOpts EvalSymlinks escape sort_by n p t f v o id now s).2
  | CallUpdate id n p t f v en o now => (UpdateTarget EvalSymlinks sort_by id n p t f v en o now s).2
  | CallDelete id => (DeleteTarget escape sort_by id s).2
  | CallSetSecret id sec => (SetTargetSecret id sec s).2
  | CallVerified t f sha ok e now => (RecordVerification t f sha ok e now s).2
  | CallCreateSchedule n c t m id now => (CreateSchedule cron_ok sort_by n c t m id now s).2
  | CallUpdateSchedule id n c t en m now => (UpdateSchedule cron_ok sort_by id n c t en m now s).2
  | CallDeleteSchedule id => (DeleteSchedule sort_by id s).2
  | CallLastRun id st e nx now => (SetScheduleLastRun sort_by id st e nx now s).2
  | CallRecordJob j id now => (RecordJob sort_by j id now s).2
  | CallUpdateJob j => (UpdateJob sort_by j s).2
  | CallRestart now => (open_store sort_by now (fresh s)).2
  end.

Lemma fresh_ok s : store_ok s -> store_ok (fresh s).
Proof. intros []. split; simpl; try done; apply map_Forall_empty. Qed.


(** ** Creation is all or nothing *)

(** [m] touches neither the tables nor targets.json, nor another target's secret. *)
Definition frame (id : string) (s s' : Store) : Prop :=
  targets s' = targets s /\ schedules s' = schedules s /\ jobs s' = jobs s /\
  d_targets s' = d_targets s /\ dataDir s' = dataDir s /\
  forall k, k <> id -> secrets s' !! k = secrets s !! k.

Lemma frame_refl id s : frame id s s.
Proof. by split_and!. Qed.

Lemma frame_trans id s1 s2 s3 : frame id s1 s2 -> frame id s2 s3 -> frame id s1 s3.
Proof.
  intros (?&?&?&?&?&Ha) (?&?&?&?&?&Hb). split_and!; try congruence.
  intros k Hk. by rewrite Hb, Ha.
Qed.

Lemma frame_bind {A B} id (m : op A) (f : A -> op B) :
  se_within (frame id) m -> (forall a, se_within (frame id) (f a)) -> se_within (frame id) (m ≫= f).
Proof. apply se_within_bind; [apply frame_trans|done]. Qed.

Lemma frame_self_mount id path ttype o : se_within (frame id) (self_mount escape id path ttype o).
Proof.
  intros s. unfold self_mount. destruct (_ && _); [|apply frame_refl].
  by destruct (if String.eqb ttype TargetNFS then _ else _) as [e h].
Qed.

Arguments unwindMount : simpl never.

Lemma frame_unwind b id p s : frame id s (unwindMount escape b id p s).
Proof. by destruct b. Qed.

Lemma frame_when {id} c (m : op unit) : se_within (frame id) m -> se_within (frame id) (se_when c m).
Proof. destruct c; [done|intros _ s; apply frame_refl]. Qed.

Lemma frame_put_secret id sec : se_within (frame id) (put_secret id sec).
Proof.
  apply frame_bind.
  - intros s. split_and!; try done. intros k Hk. simpl. by rewrite lookup_insert_ne.
  - intros _ s. unfold persist, saveSecrets. destruct (save _ _). by split_and!.
Qed.

Lemma frame_make_dir id path : se_within (frame id) (make_dir path).
Proof.
  unfold make_dir. apply frame_bind; [by intros s|]. intros _ s. unfold mkdir. by destruct (MkdirAll _ _).
Qed.

Definition settle_first (id path ttype : string) (o : TargetOptions) : op unit :=
  if String.eqb ttype TargetSFTP then
    se_when (nonempty (o_Password o) || nonempty (o_SSHKeyPath o))
      (put_secret id (MkSecret (o_Password o) (o_SSHKeyPath o) "" ""))
  else if String.eqb ttype TargetS3 then
    put_secret id (MkSecret "" "" (o_AccessKey o) (o_SecretKey o))
  else if String.eqb ttype TargetSMB then
    _ ← se_when (nonempty (o_Username o)) (put_secret id (MkSecret (o_Password o) "" "" ""));
    make_dir path
  else make_dir path.

Lemma frame_settle_first id path ttype o : se_within (frame id) (settle_first id path ttype o).
Proof.
  unfold settle_first. repeat case_match.
  - by apply frame_when, frame_put_secret.
  - apply frame_put_secret.
  - apply frame_bind; [by apply frame_when, frame_put_secret|]. intros _. apply frame_make_dir.
  - apply frame_make_dir.
Qed.

(** What targets.json holds for the store's targets. *)
Definition targets_doc (s : Store) : list Target :=
  map target_json (sort_by _ tg_CreatedAt (values (targets s))).

(** [saveTargets] changes the disk only, and reports what it did. *)
Lemma saveTargets_spec s :
  let '(ok, s') := saveTargets sort_by s in
  targets s' = targets s /\ schedules s' = schedules s /\ jobs s' = jobs s /\ secrets s' = secrets s /\
  stored (d_targets s') = if ok then Some (Whole (targets_doc s)) else stored (d_targets s).
Proof.
  unfold saveTargets, targets_doc. pose proof (save_spec (map target_json (sort_by _ tg_CreatedAt (values (targets s)))) (d_targets s)) as H.
  destruct (save _ _) as [ok w]. by split_and!.
Qed.

Lemma settle_spec id path ttype o s :
  let '(r, s') := settle_target sort_by id path ttype o s in
  targets s' = targets s /\ schedules s' = schedules s /\ jobs s' = jobs s /\
  (forall k, k <> id -> secrets s' !! k = secrets s !! k) /\
  stored (d_targets s') = if is_ok r then Some (Whole (targets_doc s)) else stored (d_targets s).
Proof.
  change (settle_target sort_by id path ttype o)
    with (settle_first id path ttype o ≫= fun _ => persist (saveTargets sort_by)).
  rewrite run_bind. pose proof (frame_settle_first id path ttype o s) as H1.
  destruct (settle_first id path ttype o s) as [[[]|e] s1]; destruct H1 as (Ht & Hs & Hj & Hd & _ & Hk); simpl in *;
    [|split_and!; try done; congruence].
  unfold persist. pose proof (saveTargets_spec s1) as H. destruct (saveTargets sort_by s1) as [ok s2].
  destruct H as (H1 & H2 & H3 & H4 & H5). rewrite H1, H2, H3, H4, H5, Ht, Hs, Hj.
  split_and!; try done. unfold targets_doc. rewrite Hd, Ht. by destruct ok.
Qed.

(** C14: creating a target is all or nothing.  A refused creation, whatever the
    reason (a bad argument, a name in use, a failed mount, directory or save),
    leaves the targets, schedules and jobs in memory and targets.json on disk
    as they were; a successful one adds exactly the requested target, under an
    unused name, and targets.json holds the new list. *)
Theorem CreateTargetOpts_all_or_nothing name path ttype f vmIDs o id now s :
  targets s !! id = None ->
  match CreateTargetOpts EvalSymlinks escape sort_by name path ttype f vmIDs o id now s with
  | (Err _, s') =>
      targets s' = targets s /\ schedules s' = schedules s /\ jobs s' = jobs s /\
      (forall k, k <> id -> secrets s' !! k = secrets s !! k) /\
      stored (d_targets s') = stored (d_targets s)
  | (Ok t, s') =>
      (exists ttype', check_type EvalSymlinks (dataDir s) path ttype o = Ok ttype' /\
         t = new_target id (trim_space name) path ttype' f vmIDs o now) /\
      (forall k t', targets s !! k = Some t' -> tg_Name t' <> tg_Name t) /\
      targets s' = <[id := t]> (targets s) /\
      stored (d_targets s') = Some (Whole (targets_doc s'))
  end.
Proof.
  intros Hfresh. unfold CreateTargetOpts. rewrite !run_guard, run_get.
  destruct (negb (nonempty _)); [by split_and!|]. destruct (_ && _); [by split_and!|].
  rewrite run_lift. destruct (check_type _ _ _ _ _) as [ttype'|e] eqn:Et; [|by split_and!].
  rewrite run_lift. destruct (normalizeVMFilter f) as [g|e] eqn:Ef; [|by split_and!].
  apply normalizeVMFilter_ok in Ef as [-> _]. rewrite !run_guard.
  destruct (_ && _); [by split_and!|]. destruct (_ && _); [by split_and!|].
  rewrite run_bind. pose proof (frame_self_mount id path ttype' o s) as H1.
  destruct (self_mount escape id path ttype' o s) as [[self|e] s1]; simpl in H1;
    destruct H1 as (Ht & Hs & Hj & Hd & _ & Hk); [|by rewrite Hd].
  rewrite run_get, run_bind. unfold on_error at 1. unfold se_guard.
  rewrite Ht. destruct (existsb _ (values (targets s))) eqn:Edup.
  { destruct (frame_unwind self id path s1) as (?&?&?&Hd'&_&Hk'). rewrite Hd', Hd.
    split_and!; try congruence. intros k Hne. by rewrite Hk', Hk. }
  rewrite run_modify, run_bind.
  set (t := new_target _ _ _ _ _ _ _ _). set (s2 := set_targets _ s1).
  unfold on_error. pose proof (settle_spec id path ttype' o s2) as H2.
  destruct (settle_target sort_by id path ttype' o s2) as [[[]|e] s3]; destruct H2 as (Ht3 & Hs3 & Hj3 & Hk3 & Hd3);
    simpl in Ht3, Hs3, Hj3, Hk3, Hd3.
  - split_and!; [by exists ttype'| |simpl; congruence|].
    + intros k t' Hk' Heq. assert (existsb (fun t0 => String.eqb (tg_Name t0) (trim_space name)) (values (targets s)) = true) as Hx.
      { apply existsb_exists. exists t'. split; [|by apply String.eqb_eq].
        apply list_elem_of_In. unfold values. apply list_elem_of_In, in_map_iff. exists (k, t').
        split; [done|]. by apply list_elem_of_In, elem_of_map_to_list. }
      rewrite Edup in Hx. done.
    + rewrite Hd3. unfold targets_doc. by rewrite Ht3.
  - destruct (frame_unwind self id path (set_targets (delete id (targets s3)) s3)) as (Hu1&Hu2&Hu3&Hu4&_&Hu5).
    simpl in *. rewrite Hu4, Hd3, Hd. split_and!; try congruence.
    + rewrite Hu1, Ht3, Ht, delete_insert_eq. by apply delete_id.
    + intros k Hne. by rewrite Hu5, Hk3, Hk.
Qed.

(** ** Restarts *)

(** Every document on disk is the one of the tables in memory. *)
Record saved (s : Store) : Prop := {
  sv_targets : stored (d_targets s) = Some (Whole (targets_doc s));
  sv_schedules : stored (d_schedules s) = Some (Whole (sort_by _ sc_CreatedAt (values (schedules s))));
  sv_jobs : stored (d_jobs s) = Some (Whole (take 200 (newest_jobs sort_by (values (jobs s)))));
  sv_secrets : stored (d_secrets s) = Some (Whole (secrets s))
}.

Lemma target_json_id t : target_ok t -> target_json t = t.
Proof. intros (_ & _ & _ & H). unfold target_json. destruct t. simpl in *. by subst. Qed.

Lemma targets_doc_index s : store_ok s -> index_by tg_ID (targets_doc s) = targets s.
Proof.
  intros Hs. apply index_by_values; [apply Hs|]. unfold targets_doc.
  rewrite Hperm. rewrite (map_ext_in _ (fun t => t)); [by rewrite map_id|]. intros t Ht. apply target_json_id.
  pose proof (proj1 (map_Forall_values _ _) (ok_targets _ Hs)) as HF. rewrite Forall_forall in HF.
  by apply HF, list_elem_of_In.
Qed.

(** The tables after a load of saved documents. *)
Lemma load_saved s :
  store_ok s -> saved s ->
  load (fresh s) = (Ok tt, set_targets (targets s) (set_schedules (schedules s)
     (set_jobs (index_by jb_ID (take 200 (newest_jobs sort_by (values (jobs s))))) (fresh s)))).
Proof.
  intros Hs [H1 H2 H3 _]. unfold load. rewrite run_get. simpl. rewrite H1, H2, H3. simpl.
  unfold mbind, se_bind, mret, se_ret, se_modify. simpl. rewrite targets_doc_index by done.
  rewrite (index_by_values sc_ID (schedules s)); [done|apply Hs|by rewrite Hperm].
Qed.

(** [m] keeps the tables. *)
Definition same_tables (s s' : Store) : Prop :=
  targets s' = targets s /\ schedules s' = schedules s /\ jobs s' = jobs s /\ secrets s' = secrets s.

Lemma same_trans s1 s2 s3 : same_tables s1 s2 -> same_tables s2 s3 -> same_tables s1 s3.
Proof. intros (?&?&?&?) (?&?&?&?). split_and!; congruence. Qed.

Lemma same_bind {A B} (m : op A) (f : A -> op B) :
  se_within same_tables m -> (forall a, se_within same_tables (f a)) -> se_within same_tables (m ≫= f).
Proof. apply se_within_bind; [apply same_trans|done]. Qed.

Lemma same_persist sv :
  (forall s, same_tables s (sv s).2) -> se_within same_tables (persist sv).
Proof. intros H s. rewrite persist_snd. apply H. Qed.

(** After the sweep, [New] only adds the default target and reads the secrets. *)
Lemma open_rest_same s r s' :
  (_ ← loadVerified; _ ← persist (saveTargets sort_by); persist (saveSchedules sort_by)) s = (r, s') ->
  same_tables s s'.
Proof.
  intros E. change s' with (r, s').2. rewrite <- E.
  apply (same_bind loadVerified (fun _ => _ ← persist (saveTargets sort_by); persist (saveSchedules sort_by))).
  - unfold loadVerified. intros s1. rewrite run_get. destruct (stored (d_verified s1)) as [[]|]; by split_and!.
  - intros _. apply same_bind; [|intros _]; apply same_persist; intros s1.
    + unfold saveTargets. destruct (save _ _). by split_and!.
    + unfold saveSchedules. destruct (save _ _). by split_and!.
Qed.

Lemma sweep_tables now s :
  targets (sweepStuckJobs sort_by now s) = targets s /\
  schedules (sweepStuckJobs sort_by now s) = schedules s /\
  jobs (sweepStuckJobs sort_by now s) = sweep_job now <$> jobs s /\
  d_secrets (sweepStuckJobs sort_by now s) = d_secrets s /\
  secrets (sweepStuckJobs sort_by now s) = secrets s.
Proof.
  unfold sweepStuckJobs. destruct (existsb _ _); [|done]. unfold saveJobs. by destruct (save _ _).
Qed.

(** The last part of [New], from loaded tables on. *)
Lemma open_store_split now s s' :
  open_store sort_by now s = (Ok tt, s') ->
  exists h s1, load (set_host h s) = (Ok tt, s1) /\
    let s2 := ensureDefault now (sweepStuckJobs sort_by now s1) in
    exists m, stored (d_secrets s2) = m /\ m <> Some Torn /\
      same_tables (set_secrets (match m with Some (Whole m) => m | _ => ∅ end ∪ secrets s2) s2) s'.
Proof.
  unfold open_store. rewrite run_get, run_bind. unfold mkdir.
  destruct (MkdirAll _ _) as [[] h]; [|done]. rewrite run_bind.
  destruct (load (set_host h s)) as [[[]|e] s1] eqn:El; [|done]. rewrite !run_modify, run_bind.
  intros E. exists h, s1. split; [done|]. set (s2 := ensureDefault _ _) in *.
  exists (stored (d_secrets s2)). split; [done|].
  unfold loadSecrets at 1 in E. rewrite run_get in E.
  destruct (stored (d_secrets s2)) as [[m|]|] eqn:Es; unfold read_doc in E; [|done|];
    (split; [done|]); by apply open_rest_same in E.
Qed.

(** A restart loses nothing.  When the process stops with its documents
    saved and starts again, the targets, schedules and credentials are the ones
    it had, and the jobs are the 200 newest ones, those that were running ended
    as errors. *)
Theorem restart_keeps_registry now s s' :
  store_ok s -> saved s -> (exists k t, targets s !! k = Some t /\ tg_Name t = "default") ->
  open_store sort_by now (fresh s) = (Ok tt, s') ->
  targets s' = targets s /\ schedules s' = schedules s /\ secrets s' = secrets s /\
  jobs s' = sweep_job now <$> index_by jb_ID (take 200 (newest_jobs sort_by (values (jobs s)))).
Proof.
  intros Hs Hv (k & t & Hk & Hn) E.
  apply open_store_split in E as (h & s1 & El & m & Em & Hm & Hsame).
  change (set_host h (fresh s)) with (fresh (set_host h s)) in El.
  rewrite load_saved in El; [|by apply set_host_ok|by destruct Hv]. injection El as <-.
  destruct (sweep_tables now (set_targets (targets (set_host h s)) (set_schedules (schedules (set_host h s))
     (set_jobs (index_by jb_ID (take 200 (newest_jobs sort_by (values (jobs (set_host h s)))))) (fresh (set_host h s))))))
    as (Ht & Hsc & Hj & Hd & Hse).
  set (s2 := sweepStuckJobs _ _ _) in *. simpl in Ht, Hsc, Hj, Hd, Hse.
  assert (ensureDefault now s2 = s2) as He.
  { unfold ensureDefault. rewrite (proj2 (existsb_exists _ _)); [done|].
    exists t. split; [|by rewrite Hn]. apply list_elem_of_In. rewrite Ht. unfold values.
    apply list_elem_of_In, in_map_iff. exists (k, t). split; [done|].
    by apply list_elem_of_In, elem_of_map_to_list. }
  rewrite He in *. destruct Hsame as (H1 & H2 & H3 & H4). simpl in H1, H2, H3, H4.
  rewrite H1, H2, H3, H4, Ht, Hsc, Hj, Hse.
  rewrite Hd in Em. rewrite (sv_secrets _ Hv) in Em. subst m.
  split_and!; try done. apply map_union_empty.
Qed.

Lemma load_jobs s s1 :
  load s = (Ok tt, s1) ->
  jobs s1 = index_by jb_ID (match stored (d_jobs s) with Some (Whole l) => l | _ => [] end).
Proof.
  unfold load. rewrite run_get. unfold read_doc, mbind, se_bind.
  destruct (stored (d_targets s)) as [[]|], (stored (d_schedules s)) as [[]|],
    (stored (d_jobs s)) as [[]|]; cbn; try done; by intros [= <-].
Qed.

Lemma open_jobs now s s' :
  open_store sort_by now s = (Ok tt, s') ->
  jobs s' = sweep_job now <$>
    index_by jb_ID (match stored (d_jobs s) with Some (Whole l) => l | _ => [] end).
Proof.
  intros (h & s1 & El & m & _ & _ & (_ & _ & Hj & _))%open_store_split. rewrite Hj.
  apply load_jobs in El. simpl in El |- *. rewrite <- El.
  transitivity (jobs (sweepStuckJobs sort_by now s1)); [|apply sweep_tables].
  unfold ensureDefault. by destruct (existsb _ _).
Qed.

Lemma sweep_job_ends now j :
  jb_Status (sweep_job now j) <> "running" /\
  (is_zero now = false -> jb_Status j = "running" ->
     jb_Status (sweep_job now j) = "error" /\ is_zero (jb_EndedAt (sweep_job now j)) = false /\
     jb_Error (sweep_job now j) <> "").
Proof.
  unfold sweep_job, is_running. destruct (String.eqb_spec (jb_Status j) "running") as [E|E]; simpl; [|by split].
  destruct (is_zero (jb_EndedAt j)) eqn:Ez; simpl; destruct (String.eqb_spec (jb_Error j) ""); simpl;
    (split; [done|intros; by split_and!]).
Qed.

(** No job is left running by a crash.  Once the store is open again, every
    job in it has ended; and each job that jobs.json records as running is
    there with status "error", an end time and a reason. *)
Theorem restart_ends_jobs now s s' l :
  is_zero now = false -> stored (d_jobs s) = Some (Whole l) -> NoDup (map jb_ID l) ->
  open_store sort_by now s = (Ok tt, s') ->
  (forall id j, jobs s' !! id = Some j -> jb_Status j <> "running") /\
  (forall j0, j0 ∈ l -> jb_Status j0 = "running" ->
     exists j, jobs s' !! jb_ID j0 = Some j /\
       jb_Status j = "error" /\ is_zero (jb_EndedAt j) = false /\ jb_Error j <> "").
Proof.
  intros Hz Hd Hn E%open_jobs. rewrite Hd in E. rewrite E. split.
  - intros id j. rewrite lookup_fmap, fmap_Some. intros (j0 & _ & ->). apply sweep_job_ends.
  - intros j0 Hj0 Hr. exists (sweep_job now j0). rewrite lookup_fmap. split; [|by apply sweep_job_ends].
    rewrite index_by_list by done. rewrite (elem_of_list_to_map_1 _ (jb_ID j0) j0); [done| |].
    + by rewrite <- list_fmap_compose.
    + apply list_elem_of_In, in_map_iff. exists j0. split; [done|]. by apply list_elem_of_In.
Qed.

(** ** Deletions stay in the target *)

(** Deleting an archive touches only the target's directory.  Whatever name
    the caller passes, a local deletion removes one path, the resolved target
    directory or something inside it (component-wise, no [..] left), which is
    not a symbolic link, and a remote one names an accepted archive. *)
Theorem DeleteBackupFile_confined is_link tgt filename r :
  (forall p q, IsAbs p = true -> EvalSymlinks p = Some q -> exists l, Forall comp l /\ q = abs_path l) ->
  (is_remote (tg_Type tgt) = false -> IsAbs (tg_Path tgt) = true) ->
  DeleteBackupFile EvalSymlinks is_link tgt filename = Ok r ->
  ValidBackupFilename filename = true /\
  match r with
  | RemoveLocal p =>
      is_link p = false /\ is_remote (tg_Type tgt) = false /\
      exists lt l, EvalSymlinks (tg_Path tgt) = Some (abs_path lt) /\ p = abs_path l /\
        Forall comp l /\ lt `prefix_of` l
  | RemoveSFTP f | RemoveS3 f => f = filename
  end.
Proof.
  intros Heval Habs. unfold DeleteBackupFile, is_remote in *.
  destruct (ValidBackupFilename filename); [|done]. cbn [negb].
  destruct (String.eqb (tg_Type tgt) TargetSFTP); [by intros [= <-]|].
  destruct (String.eqb (tg_Type tgt) TargetS3); [by intros [= <-]|].
  specialize (Habs eq_refl). pose proof (IsAbs_Join _ filename Habs) as Habs'.
  destruct (EvalSymlinks (GoPath.Join _)) as [real|] eqn:E1; [|done].
  destruct (EvalSymlinks (tg_Path tgt)) as [realTgt|] eqn:E2; [|done].
  destruct (Heval _ _ Habs' E1) as (l & Hl & ->). destruct (Heval _ _ Habs E2) as (lt & Hlt & ->).
  destruct (_ && _) eqn:Eu; [done|]. destruct (is_link _) eqn:Eli; [done|]. intros [= <-].
  split; [done|]. split_and!; [done..|]. exists lt, l. split_and!; [done..|].
  destruct lt as [|c lt]; [by exists l|]. apply isUnder_abs; [done..|]. unfold isUnder.
  apply andb_false_iff in Eu. destruct (String.eqb (abs_path l) (abs_path (c :: lt))); [done|].
  destruct Eu as [Eu|Eu]; [by apply negb_false_iff in Eu|done].
Qed.
End Facts.

(** ** Examples *)

Module StoreDemo.
Export DemoDisk.
#[global] Instance demo_disks :
  Disks (cell (list Target)) (cell (list Schedule)) (cell (list Job)) (cell (gmap string TargetSecret))
        (cell (gmap string verifiedInfo)) := {}.

#[local] Instance key_le_dec {A} (f : A -> Z) : RelDecision (fun a b => f a <= f b) := fun a b => Z_le_dec (f a) (f b).
Definition sort_key (A : Type) (f : A -> Z) (l : list A) : list A := merge_sort (fun a b => f a <= f b) l.
Lemma sort_key_perm A f l : sort_key A f l ≡ₚ l.
Proof. apply merge_sort_Permutation. Qed.

Definition links (p : string) : option string := Some p.
Definition no_cron (c : string) : bool := String.eqb c "0 3 * * *".
Definition machine : Host := MkHost ∅ ∅ ∅ [].
Abbreviation ok := holding.
Definition now0 : Z := 1704110400 * second.
Definition opened := New sort_key "/opt/webkvm" machine (ok []) (ok []) (ok []) (ok ∅) (ok ∅) now0.
Definition s0 := opened.2.

Definition create name path ttype f vms o id := CreateTargetOpts links MountDemo.escape sort_key name path ttype f vms o id now0.
Definition update id name path ttype f vms := UpdateTarget links sort_key id name path ttype f vms None None now0.
Definition sftp : TargetOptions :=
  MkOptions "nas" 22 "bob" "pw" "" false "" "" "" "" "" "" None None None no_retention "" 0.

Example opens : opened.1 = Ok tt /\ map tg_Name (ListTargets sort_key s0) = ["default"].
Proof. vm_compute. done. Qed.

Definition s1 := (create "b" "/srv/b" "local" "" [] no_options "t_1" s0).2.

(** A refused update is partly applied: the name changes although the path is
    refused, in memory and, with the next successful save, on disk. *)
Example refused_update_renames :
  let r := update "t_1" (Some "renamed") (Some "/etc") None None None s1 in
  r.1 = Err (ErrTargetPathUnwritable (PathUnderDenied "/etc")) /\
  tg_Name <$> (targets r.2 !! "t_1") = Some "renamed".
Proof. vm_compute. done. Qed.

(** The path of an SFTP target is not checked, and its type can be changed: a
    local target under /etc. *)
Example type_change_escapes :
  let s2 := (create "c" "/etc" "sftp" "" [] sftp "t_2" s1).2 in
  let r := update "t_2" None None (Some "local") None None s2 in
  is_ok r.1 = true /\
  (fun t => (tg_Type t, tg_Path t)) <$> (targets r.2 !! "t_2") = Some ("local", "/etc").
Proof. vm_compute. done. Qed.

(** A filter with white space passes for the filter it is not compared with:
    "include" without machines is refused, " include" is not. *)
Example padded_filter :
  (create "d" "/srv/d" "local" "include" [] no_options "t_3" s1).1
    = Err (ErrMsg "vm_filter=include requires at least one vm_id") /\
  is_ok (create "d" "/srv/d" "local" " include" [] no_options "t_3" s1).1 = true.
Proof. vm_compute. done. Qed.

(** An update can empty the list of an "include" target. *)
Example include_emptied :
  let s2 := (create "d" "/srv/d" "local" "include" ["vm1"] no_options "t_3" s1).2 in
  (fun t => (tg_VMFilter t, tg_VMIDs t)) <$> (targets (update "t_3" None None None None (Some []) s2).2 !! "t_3")
    = Some ("include", []).
Proof. vm_compute. done. Qed.

(** [SetTargetSecret] takes S3 keys for an empty secret. *)
Example s3_secret_dropped :
  secrets (SetTargetSecret "t_9" (MkSecret "" "" "AK" "SK") s1).2 !! "t_9" = None.
Proof. vm_compute. done. Qed.

(** A creation whose targets.json cannot be written leaves its credentials. *)
Example orphan_secret :
  let s := MkStore (dataDir s1) (targets s1) (schedules s1) (jobs s1) (secrets s1) (verified s1) (host s1)
             (MkCell None false) (d_schedules s1) (d_jobs s1) (d_secrets s1) (d_verified s1) in
  let r := create "c" "/backups" "sftp" "" [] sftp "t_2" s in
  is_ok r.1 = false /\ targets r.2 !! "t_2" = None /\ is_Some (secrets r.2 !! "t_2").
Proof. vm_compute. split_and!; try done; by eexists. Qed.

Definition file : string := "webkvm-h-20240101T010000.000000000Z-aaaaaa-vm1.tar.zst".
Example traversal_refused :
  DeleteBackupFile links (fun _ => false) (default_target "/srv/b" 0) "../../etc/passwd" = Err "invalid filename".
Proof. vm_compute. done. Qed.

Definition running_job : Job :=
  MkJob "j_1" "" "default" "full" "" now0 time_zero "" 0 [] [] "running" "" 10 "" "" "" "" "" "".
Definition crashed : Store :=
  MkStore (dataDir s0) ∅ ∅ ∅ ∅ ∅ machine (d_targets s0) (d_schedules s0) (ok [running_job])
    (d_secrets s0) (d_verified s0).

Lemma s0_ok : store_ok no_cron s0.
Proof. split; apply (bool_decide_unpack _); vm_compute; exact I. Qed.
End StoreDemo.


Lemma CreateTargetOpts_all_or_nothing_witness :
  targets (StoreDemo.create "b" "/etc" "local" "" [] no_options "t_1" StoreDemo.s0).2 = targets StoreDemo.s0.
Proof.
  assert (targets StoreDemo.s0 !! "t_1" = None) as Hf by (vm_compute; reflexivity).
  pose proof (CreateTargetOpts_all_or_nothing StoreDemo.links MountDemo.escape StoreDemo.sort_key
    "b" "/etc" "local" "" [] no_options "t_1" StoreDemo.now0 StoreDemo.s0 Hf) as H.
  unfold StoreDemo.create. revert H.
  destruct (CreateTargetOpts _ _ _ _ _ _ _ _ _ _ _ _) as [[t|e] s'] eqn:E; [|intros H; exact (proj1 H)].
  apply (f_equal (fun r => is_ok r.1)) in E. vm_compute in E. discriminate.
Defined.

Lemma restart_keeps_registry_witness :
  let s := StoreDemo.s0 in
  targets (open_store StoreDemo.sort_key 9 (fresh s)).2 = targets s.
Proof.
  intros s. destruct (restart_keeps_registry StoreDemo.no_cron StoreDemo.sort_key StoreDemo.sort_key_perm
    9 s (open_store StoreDemo.sort_key 9 (fresh s)).2) as [H _].
  - apply StoreDemo.s0_ok.
  - split; vm_compute; reflexivity.
  - exists "default". eexists. split; vm_compute; reflexivity.
  - vm_compute. reflexivity.
  - exact H.
Defined.

Lemma restart_ends_jobs_witness :
  exists j, jobs (open_store StoreDemo.sort_key 9 StoreDemo.crashed).2 !! "j_1" = Some j /\ jb_Status j = "error".
Proof.
  destruct (restart_ends_jobs StoreDemo.sort_key 9 StoreDemo.crashed
    (open_store StoreDemo.sort_key 9 StoreDemo.crashed).2 [StoreDemo.running_job]) as [_ H].
  - reflexivity.
  - reflexivity.
  - apply (bool_decide_unpack _). vm_compute. exact I.
  - vm_compute. reflexivity.
  - destruct (H StoreDemo.running_job) as (j & Hj & Hs & _).
    + left.
    + reflexivity.
    + exists j. exact (conj Hj Hs).
Defined.

Lemma DeleteBackupFile_confined_witness :
  exists lt l, Some "/srv/b" = Some (abs_path lt) /\ "/srv/b/" +:+ StoreDemo.file = abs_path l /\ lt `prefix_of` l.
Proof.
  set (ev := fun p => if IsAbs p then Some (Clean p) else None).
  destruct (DeleteBackupFile_confined ev (fun _ => false) (default_target "/srv/b" 0) StoreDemo.file
    (RemoveLocal ("/srv/b/" +:+ StoreDemo.file))) as (_ & _ & _ & lt & l & H1 & H2 & _ & H3).
  - intros p q Hp. unfold ev. rewrite Hp. intros [= <-]. exact (Clean_is_abs p Hp).
  - reflexivity.
  - vm_compute. reflexivity.
  - exists lt, l. split; [|split]; [|exact H2|exact H3]. rewrite <- H1. vm_compute. reflexivity.
Defined.
