(* ===== verification/Reconcile.v ===== *)
(** * Reconcile: storage against the job index

    Models [backupstore/reconcile.go] over the store of BackupStore.  The listing
    of the target ([ListBackupsOnTarget]: a directory, SFTP or S3) is an
    argument; Go's map iterations run in the order of [map_to_list]. *)

From S2P Require Export BackupStoreFacts.
Open Scope Z_scope.

Record Discrepancy := MkDiscrepancy { dc_Filename : string; Expected : Z; Actual : Z }.

Record ReconcileReport := MkReport {
  rp_TargetID : string; rp_TargetName : string; ScannedFiles : Z;
  OrphanFiles : list BackupFile; GhostFiles : list string; Discrepancies : list Discrepancy;
  AdoptedJobs : Z; CleanedGhosts : Z
}.

(** The last but one, and the last, of a list of pieces. *)
Definition piece_from_end (n : nat) (parts : list string) : string := default "" (rev parts !! n).

Definition parseJobFileKind (filename : string) : string * string :=
  if has_suffix ".qcow2" filename then
    let name := trim_suffix ".qcow2" filename in
    if has_prefix "webkvm-restore-" name then ("vm", "") else
    let parts := split_byte "-" name in
    if Nat.leb 5 (length parts) then ("vm", piece_from_end 1 parts) else ("vm", "")
  else
    let name := trim_suffix ".tar.gz" (trim_suffix ".tar.zst" filename) in
    if has_suffix "-config" name then ("config", "") else
    let parts := split_byte "-" name in
    if Nat.leb 4 (length parts) then ("vm", piece_from_end 0 parts) else ("vm", "").

(** [Format("20060102T150405.000000000Z")] *)
Definition format_nano (t : Z) : string :=
  let '(y, m, d) := civil (unix_day t) in
  let s := second_of_day t in
  pad_left 4 y +:+ pad_left 2 m +:+ pad_left 2 d +:+ "T" +:+ pad_left 2 (s / 3600) +:+
  pad_left 2 (s / 60 mod 60) +:+ pad_left 2 (s mod 60) +:+ "." +:+ pad_left 9 (t mod second) +:+ "Z".

(** [indexedFiles]: the sizes of the files the target's jobs name. *)
Definition index_job (tid : string) (m : gmap string Z) (j : Job) : gmap string Z :=
  if negb (String.eqb (jb_TargetID j) tid) then m else
  let m := foldl (fun m f => <[jf_Filename f := jf_Size f]> m) m (jb_Files j) in
  if bool_decide (jb_Files j = []) && nonempty (jb_Filename j) then <[jb_Filename j := jb_Size j]> m else m.

Definition indexed_files (tid : string) (js : list Job) : gmap string Z := foldl (index_job tid) ∅ js.

Definition orphans_of (idx : gmap string Z) (storage : list BackupFile) : list BackupFile :=
  List.filter (fun f => match idx !! bk_Filename f with
                        | None => ValidBackupFilename (bk_Filename f)
                        | Some _ => false
                        end) storage.

Definition discrepancies_of (idx : gmap string Z) (storage : list BackupFile) : list Discrepancy :=
  omap (fun f => match idx !! bk_Filename f with
                 | Some n => if (0 <? n) && negb (n =? bk_Size f)
                             then Some (MkDiscrepancy (bk_Filename f) n (bk_Size f)) else None
                 | None => None
                 end) storage.

(** [storageMap] decides which indexed names exist; sorted. *)
Definition ghosts_of (idx : gmap string Z) (storage : list BackupFile) : list string :=
  sort_strings (List.filter (fun n => negb (bool_decide (n ∈ map bk_Filename storage)))
                       (map fst (map_to_list idx))).

Definition group_key (f : BackupFile) : string :=
  let suffix := runSuffixFromFilename (bk_Filename f) in
  if nonempty suffix then suffix else format_nano (bk_Modified f) +:+ "-recon".

Definition orphan_groups (orphans : list BackupFile) : gmap string (list BackupFile) :=
  foldl (fun m f => <[group_key f := default [] (m !! group_key f) ++ [f]]> m) ∅ orphans.

Definition adopted_file (f : BackupFile) : JobFile :=
  let '(kind, vm) := parseJobFileKind (bk_Filename f) in
  MkJobFile (bk_Filename f) (bk_Size f) kind vm.

Definition newest_mod (g : list BackupFile) : Z :=
  match g with
  | [] => time_zero
  | f :: _ => foldl (fun t f => if after (bk_Modified f) t then bk_Modified f else t) (bk_Modified f) g
  end.

(** The job made up for the files of one run. *)
Definition syntheticJob (tid suffix : string) (g : list BackupFile) : Job :=
  let files := map adopted_file g in
  MkJob "" "" tid "full" "" (newest_mod g) (newest_mod g) (primaryOf files)
    (foldl (fun n f => wrap64 (n + bk_Size f)) 0 g) (map bk_Filename g) files "success" "" 0
    ("Reconciled from storage (" +:+ suffix +:+ ")") "" "" "" "" "".

(** The files of a job that are not ghosts. *)
Definition live_files (ghosts : list string) (j : Job) : list JobFile :=
  List.filter (fun f => negb (bool_decide (jf_Filename f ∈ ghosts))) (jb_Files j).

Definition clean_job (tid : string) (ghosts : list string) (j : Job) : Job :=
  if negb (String.eqb (jb_TargetID j) tid) then j else
  let newFiles := live_files ghosts j in
  if Nat.eqb (length newFiles) (length (jb_Files j)) then j else
  let j := set_jb_Size (foldl (fun n f => wrap64 (n + jf_Size f)) 0 newFiles)
             (set_jb_Filenames (map jf_Filename newFiles) (set_jb_Files newFiles j)) in
  match newFiles with
  | [] => set_jb_Error "All backup files missing on storage" (set_jb_Status "error" j)
  | _ => j
  end.

Definition cleaned_in (tid : string) (ghosts : list string) (j : Job) : Z :=
  if negb (String.eqb (jb_TargetID j) tid) then 0
  else Z.of_nat (length (jb_Files j) - length (live_files ghosts j)).

Section Reconcile.
Context (sort_by : forall A, (A -> Z) -> list A -> list A).
Context {WT WS WJ WC WV : Type} `{!Disks WT WS WJ WC WV}.
Abbreviation Store := (@Store WT WS WJ WC WV).

(** The adoption loop: a failed save leaves the job in memory and is not counted. *)
Fixpoint adopt (tid : string) (newid : string -> string) (now : Z) (groups : list (string * list BackupFile))
    (s : Store) : Z * Store :=
  match groups with
  | [] => (0, s)
  | (suffix, g) :: groups =>
      let '(r, s) := RecordJob sort_by (syntheticJob tid suffix g) (newid suffix) now s in
      let '(n, s) := adopt tid newid now groups s in
      ((if is_ok r then 1 else 0) + n, s)
  end.

Definition clean_ghosts (tid : string) (ghosts : list string) (s : Store) : Z * Store :=
  match ghosts with
  | [] => (0, s)
  | _ =>
      let n := foldl Z.add 0 (map (cleaned_in tid ghosts) (values (jobs s))) in
      let s' := set_jobs (clean_job tid ghosts <$> jobs s) s in
      (n, if n =? 0 then s else (saveJobs sort_by s').2)
  end.

Definition dry_run (tgt : Target) (storage : list BackupFile) (s : Store) : ReconcileReport :=
  let idx := indexed_files (tg_ID tgt) (values (jobs s)) in
  MkReport (tg_ID tgt) (tg_Name tgt) (Z.of_nat (length storage)) (orphans_of idx storage)
    (ghosts_of idx storage) (discrepancies_of idx storage) 0 0.

(** [listing] is what [ListBackupsOnTarget] returns; [newid] and [now] feed [RecordJob]. *)
Definition Reconcile (tgt : Target) (apply : bool) (listing : res string (list BackupFile))
    (newid : string -> string) (now : Z) (s : Store) : res string ReconcileReport * Store :=
  match listing with
  | Err e => (Err "list target backups", s)
  | Ok storage =>
      let r := dry_run tgt storage s in
      if negb apply then (Ok r, s) else
      let '(adopted, s) := adopt (tg_ID tgt) newid now (map_to_list (orphan_groups (OrphanFiles r))) s in
      let '(cleaned, s) := clean_ghosts (tg_ID tgt) (GhostFiles r) s in
      (Ok (MkReport (rp_TargetID r) (rp_TargetName r) (ScannedFiles r) (OrphanFiles r) (GhostFiles r)
             (Discrepancies r) adopted cleaned), s)
  end.
End Reconcile.

(** ** What the report says *)

(** A job of the target names the file: among its files, or, for a record
    without a file list, as its primary archive. *)
Definition refers (tid : string) (j : Job) (n : string) : Prop :=
  jb_TargetID j = tid /\
  ((exists f, f ∈ jb_Files j /\ jf_Filename f = n) \/ (jb_Files j = [] /\ jb_Filename j = n /\ n <> "")).

Lemma insert_is_some {A} (m : gmap string A) k v n :
  is_Some (<[k := v]> m !! n) <-> k = n \/ is_Some (m !! n).
Proof. lookup_cases n k; [split; eauto|]. split; [by right|]. by intros [->|?]. Qed.

Lemma insert_files_dom (l : list JobFile) (m : gmap string Z) n :
  is_Some (foldl (fun m f => <[jf_Filename f := jf_Size f]> m) m l !! n) <->
  is_Some (m !! n) \/ exists f, f ∈ l /\ jf_Filename f = n.
Proof.
  revert m. induction l as [|f l IH]; intros m; simpl.
  - split; [by left|]. intros [?|(f & Hf & _)]; [done|by apply elem_of_nil in Hf].
  - rewrite IH, insert_is_some. setoid_rewrite elem_of_cons. split.
    + intros [[?|?]|(g & ? & ?)]; [right; by exists f; eauto|by left|right; exists g; eauto].
    + intros [?|(g & [->|?] & ?)]; eauto.
Qed.

Lemma index_job_dom tid m j n :
  is_Some (index_job tid m j !! n) <-> is_Some (m !! n) \/ refers tid j n.
Proof.
  unfold index_job, refers. destruct (String.eqb_spec (jb_TargetID j) tid) as [E|E]; cbn [negb]; [|tauto].
  destruct (bool_decide_reflect (jb_Files j = [])) as [Ef|Ef]; cbn [andb].
  - rewrite Ef. simpl. unfold nonempty. destruct (String.eqb_spec (jb_Filename j) "") as [En|En]; cbn [negb].
    + split; [by left|]. intros [?|(_ & [(f & Hf & _)|(_ & <- & ?)])]; [done|by apply elem_of_nil in Hf|done].
    + rewrite insert_is_some. split.
      * intros [<-|?]; [|by left]. right. split; [done|]. by right.
      * intros [?|(_ & [(f & Hf & _)|(_ & ? & _)])]; [by right|by apply elem_of_nil in Hf|by left].
  - rewrite insert_files_dom. naive_solver.
Qed.

Lemma indexed_dom tid js n :
  is_Some (indexed_files tid js !! n) <-> exists j, j ∈ js /\ refers tid j n.
Proof.
  unfold indexed_files.
  enough (forall m, is_Some (foldl (index_job tid) m js !! n) <->
    is_Some (m !! n) \/ exists j, j ∈ js /\ refers tid j n) as H.
  { rewrite H, lookup_empty. split; [intros [[? ?]|?]; done|by right]. }
  induction js as [|j js IH]; intros m; simpl.
  - split; [by left|]. intros [?|(j & Hj & _)]; [done|by apply elem_of_nil in Hj].
  - rewrite IH, index_job_dom. setoid_rewrite elem_of_cons. naive_solver.
Qed.

Lemma elem_of_filter_bool {A} (p : A -> bool) l x : x ∈ List.filter p l <-> x ∈ l /\ p x = true.
Proof. rewrite !list_elem_of_In. apply filter_In. Qed.

Lemma elem_of_values {A} (m : gmap string A) a : a ∈ values m <-> exists k, m !! k = Some a.
Proof.
  unfold values. rewrite list_elem_of_In, in_map_iff. split.
  - intros ([k b] & <- & Hb). exists k. by apply elem_of_map_to_list, list_elem_of_In.
  - intros [k Hk]. exists (k, a). split; [done|]. by apply list_elem_of_In, elem_of_map_to_list.
Qed.

Lemma orphans_spec tid js storage f :
  f ∈ orphans_of (indexed_files tid js) storage <->
  f ∈ storage /\ ValidBackupFilename (bk_Filename f) = true /\ ~ exists j, j ∈ js /\ refers tid j (bk_Filename f).
Proof.
  unfold orphans_of. rewrite elem_of_filter_bool, <- indexed_dom, <- eq_None_not_Some.
  destruct (indexed_files tid js !! bk_Filename f); naive_solver.
Qed.

Lemma ghosts_spec tid js storage n :
  n ∈ ghosts_of (indexed_files tid js) storage <->
  (exists j, j ∈ js /\ refers tid j n) /\ n ∉ map bk_Filename storage.
Proof.
  unfold ghosts_of. rewrite sort_strings_Permutation, elem_of_filter_bool, <- indexed_dom.
  rewrite negb_true_iff, bool_decide_eq_false. f_equiv.
  rewrite list_elem_of_In, in_map_iff. split.
  - intros ([k v] & <- & Hk). exists v. by apply elem_of_map_to_list, list_elem_of_In.
  - intros [v Hv]. exists (n, v). split; [done|]. by apply list_elem_of_In, elem_of_map_to_list.
Qed.

(** ** Applying the report *)

Lemma filter_true_id {A} (p : A -> bool) l : length (List.filter p l) = length l -> List.filter p l = l.
Proof.
  induction l as [|x l IH]; simpl; [done|]. destruct (p x); simpl.
  - intros [=]. f_equal. auto.
  - intros E. pose proof (filter_length_le p l). lia.
Qed.

Lemma clean_job_files tid gh j :
  jb_Files (clean_job tid gh j) = (if String.eqb (jb_TargetID j) tid then live_files gh j else jb_Files j).
Proof.
  unfold clean_job. destruct (String.eqb _ tid); [cbn [negb]|done].
  destruct (Nat.eqb_spec (length (live_files gh j)) (length (jb_Files j))) as [E|E].
  - symmetry. by apply filter_true_id.
  - by destruct (live_files gh j).
Qed.

Lemma clean_job_target tid gh j : jb_TargetID (clean_job tid gh j) = jb_TargetID j.
Proof. unfold clean_job. repeat case_match; done. Qed.

Lemma clean_job_filename tid gh j : jb_Filename (clean_job tid gh j) = jb_Filename j.
Proof. unfold clean_job. repeat case_match; done. Qed.

Section ReconcileFacts.
Context (sort_by : forall A, (A -> Z) -> list A -> list A).
Context {WT WS WJ WC WV : Type} `{!Disks WT WS WJ WC WV}.
Abbreviation Store := (@Store WT WS WJ WC WV).

Lemma saveJobs_jobs (s : Store) : jobs (saveJobs sort_by s).2 = jobs s.
Proof. unfold saveJobs. by destruct (save _ _). Qed.

Lemma clean_job_same tid gh j : cleaned_in tid gh j = 0 -> clean_job tid gh j = j.
Proof.
  unfold cleaned_in, clean_job. destruct (String.eqb _ tid); [cbn [negb]|done]. intros E.
  pose proof (filter_length_le (fun f => negb (bool_decide (jf_Filename f ∈ gh))) (jb_Files j)) as Hle.
  unfold live_files in *. rewrite (proj2 (Nat.eqb_eq _ _)); [done|]. lia.
Qed.

Lemma cleaned_nonneg tid gh j : 0 <= cleaned_in tid gh j.
Proof. unfold cleaned_in. case_match; lia. Qed.

Lemma sum_zero {A} (f : A -> Z) l n :
  (forall x, 0 <= f x) -> 0 <= n -> foldl Z.add n (map f l) = 0 -> n = 0 /\ Forall (fun x => f x = 0) l.
Proof.
  intros Hf. revert n. induction l as [|x l IH]; intros n Hn E; simpl in E; [done|].
  pose proof (Hf x). destruct (IH (n + f x)) as [E1 HF]; [lia|done|]. split; [lia|].
  constructor; [lia|done].
Qed.

Lemma clean_ghosts_jobs tid gh (s : Store) :
  jobs (clean_ghosts sort_by tid gh s).2 = clean_job tid gh <$> jobs s.
Proof.
  unfold clean_ghosts. destruct gh as [|g gh].
  - simpl. symmetry. rewrite <- (map_fmap_id (jobs s)) at 2. apply map_fmap_ext. intros k j _.
    apply clean_job_same. unfold cleaned_in. case_match; [done|]. unfold live_files.
    rewrite (filter_ext _ (fun _ => true)) by (intros; apply negb_true_iff, bool_decide_eq_false; set_solver).
    rewrite filter_true. lia.
  - simpl snd. destruct (_ =? 0) eqn:E; [|by rewrite saveJobs_jobs]. apply Z.eqb_eq in E.
    apply sum_zero in E as [_ HF]; [|intros; apply cleaned_nonneg|lia].
    symmetry. rewrite <- (map_fmap_id (jobs s)) at 2. apply map_fmap_ext. intros k j Hj.
    apply clean_job_same. rewrite Forall_forall in HF. apply HF. apply elem_of_values. by exists k.
Qed.

Lemma RecordJob_jobs j id now (s : Store) :
  jb_ID j = "" -> id <> "" ->
  exists j', jobs (RecordJob sort_by j id now s).2 = <[id := j']> (jobs s) /\
    jb_TargetID j' = jb_TargetID j /\ jb_Files j' = jb_Files j.
Proof.
  intros Hj Hid. unfold RecordJob, nonempty. rewrite Hj. cbn [negb String.eqb].
  set (j1 := if is_zero _ then _ else _).
  exists j1. rewrite run_modify, run_bind. unfold persist.
  assert (jb_ID j1 = id) as E by (unfold j1; by destruct (is_zero _)).
  destruct (saveJobs sort_by _) as [ok s2] eqn:Es.
  assert (jobs s2 = <[id := j1]> (jobs s)) as Ej.
  { change s2 with (ok, s2).2. rewrite <- Es, saveJobs_jobs. simpl. by rewrite E. }
  split; [by destruct ok|]. unfold j1. by destruct (is_zero _).
Qed.

Lemma adopt_jobs tid newid now groups (s : Store) :
  Inj (=) (=) newid -> (forall k, newid k <> "") -> NoDup (map fst groups) ->
  (forall k, k ∈ map fst groups -> jobs s !! newid k = None) ->
  let s1 := (adopt sort_by tid newid now groups s).2 in
  (forall k j, jobs s !! k = Some j -> jobs s1 !! k = Some j) /\
  (forall suf g, (suf, g) ∈ groups -> exists k j, jobs s1 !! k = Some j /\
     jb_TargetID j = tid /\ jb_Files j = map adopted_file g) /\
  (forall k j, jobs s1 !! k = Some j -> jobs s !! k = Some j \/
     exists suf g, (suf, g) ∈ groups /\ jb_TargetID j = tid /\ jb_Files j = map adopted_file g).
Proof.
  intros Hinj Hne. revert s. induction groups as [|[suf g] groups IH]; intros s Hn Hfresh; simpl in *.
  - split_and!; [done|intros ?? H; by apply elem_of_nil in H|by left].
  - apply NoDup_cons in Hn as [Hnew Hn].
    destruct (RecordJob_jobs (syntheticJob tid suf g) (newid suf) now s eq_refl (Hne suf)) as (j0 & Ej & Et & Ef).
    destruct (RecordJob sort_by _ _ _ s) as [r s2]. simpl in Ej.
    destruct (IH s2 Hn) as (H1 & H2 & H3).
    { intros k Hk. rewrite Ej, lookup_insert_ne; [apply Hfresh; set_solver|].
      intros E%(inj newid). subst k. done. }
    destruct (adopt sort_by tid newid now groups s2) as [n s1]. simpl in *. split_and!.
    + intros k j Hk. apply H1. rewrite Ej, lookup_insert_ne; [done|].
      intros <-. rewrite Hfresh in Hk by set_solver. done.
    + intros suf' g' [E|Hg]%elem_of_cons; [|by eapply H2]. injection E as -> ->.
      exists (newid suf), j0. split; [apply H1; by rewrite Ej, lookup_insert_eq|]. by rewrite Et, Ef.
    + intros k j Hk. destruct (H3 k j Hk) as [Hs|(suf' & g' & Hg & ?)].
      * rewrite Ej in Hs. apply lookup_insert_Some in Hs as [[<- <-]|[_ Hs]]; [|by left].
        right. exists suf, g. split; [left|]. by rewrite Et, Ef.
      * right. exists suf', g'. split; [by right|done].
Qed.

(** Every orphan is in a group, and the groups hold orphans only. *)
Lemma orphan_groups_spec l :
  (forall f, f ∈ l -> exists g, orphan_groups l !! group_key f = Some g /\ f ∈ g) /\
  (forall k g f, orphan_groups l !! k = Some g -> f ∈ g -> f ∈ l).
Proof.
  unfold orphan_groups. induction l as [|x l [IH1 IH2]] using rev_ind.
  - split; [by intros f ?%elem_of_nil|done].
  - rewrite foldl_app. simpl. set (m := foldl _ _ _) in *. split.
    + intros f [Hf| ->%list_elem_of_singleton]%elem_of_app.
      * destruct (IH1 f Hf) as (g & Hg & Hin). destruct (decide (group_key f = group_key x)) as [E|?].
        -- rewrite E in Hg |- *. rewrite lookup_insert_eq, Hg. eexists. split; [done|]. simpl. set_solver.
        -- rewrite lookup_insert_ne by done. by exists g.
      * rewrite lookup_insert_eq. eexists. split; [done|]. set_solver.
    + intros k g f Hg Hf. apply lookup_insert_Some in Hg as [[<- <-]|[_ Hg]]; [|set_solver].
      apply elem_of_app in Hf as [Hf|Hf]; [|set_solver].
      destruct (m !! group_key x) as [g0|] eqn:E; [|by apply elem_of_nil in Hf]. set_solver.
Qed.

(** A job that names a stored file still does after the ghosts are cleaned. *)
Lemma refers_clean tid gh j n : n ∉ gh -> refers tid j n -> refers tid (clean_job tid gh j) n.
Proof.
  intros Hn (Ht & H). split; [by rewrite clean_job_target|].
  rewrite clean_job_files, clean_job_filename, Ht, String.eqb_refl. destruct H as [(f & Hf & <-)|(E & ? & ?)].
  - left. exists f. split; [|done]. unfold live_files. apply elem_of_filter_bool. split; [done|].
    by apply negb_true_iff, bool_decide_eq_false.
  - right. split; [|done]. unfold live_files. by rewrite E.
Qed.

(** A name a cleaned job still lists was listed before and is no ghost. *)
Lemma clean_lists tid gh j f :
  jb_TargetID j = tid -> f ∈ jb_Files (clean_job tid gh j) -> f ∈ jb_Files j /\ jf_Filename f ∉ gh.
Proof.
  intros Ht. rewrite clean_job_files, Ht, String.eqb_refl. unfold live_files.
  rewrite elem_of_filter_bool, negb_true_iff, bool_decide_eq_false. done.
Qed.

Lemma adopted_file_name f : jf_Filename (adopted_file f) = bk_Filename f.
Proof. unfold adopted_file. by destruct (parseJobFileKind _). Qed.

Lemma dry_run_exact tgt storage (s : Store) :
  (forall f, f ∈ OrphanFiles (dry_run tgt storage s) <->
     f ∈ storage /\ ValidBackupFilename (bk_Filename f) = true /\
     ~ exists k j, jobs s !! k = Some j /\ refers (tg_ID tgt) j (bk_Filename f)) /\
  (forall n, n ∈ GhostFiles (dry_run tgt storage s) <->
     (exists k j, jobs s !! k = Some j /\ refers (tg_ID tgt) j n) /\ n ∉ map bk_Filename storage).
Proof.
  split; intros x; unfold dry_run; simpl;
    [rewrite orphans_spec|rewrite ghosts_spec]; setoid_rewrite elem_of_values; naive_solver.
Qed.

(** The report is exact and applying it converges.  The orphans are the
    accepted archives no job of the target names, the ghosts the names that are
    not in the storage.  After the report is applied every archive is named by
    a job, so a second run over the same storage finds no orphan; the only
    ghosts left are primary names of jobs without a file list. *)
Theorem Reconcile_converges tgt storage newid now (s s' : Store) r :
  Inj (=) (=) newid -> (forall k, newid k <> "" /\ jobs s !! newid k = None) ->
  Reconcile sort_by tgt true (Ok storage) newid now s = (Ok r, s') ->
  (forall f, f ∈ OrphanFiles r <->
     f ∈ storage /\ ValidBackupFilename (bk_Filename f) = true /\
     ~ exists k j, jobs s !! k = Some j /\ refers (tg_ID tgt) j (bk_Filename f)) /\
  (forall n, n ∈ GhostFiles r <->
     (exists k j, jobs s !! k = Some j /\ refers (tg_ID tgt) j n) /\ n ∉ map bk_Filename storage) /\
  OrphanFiles (dry_run tgt storage s') = [] /\
  (forall n, n ∈ GhostFiles (dry_run tgt storage s') ->
     exists k j, jobs s' !! k = Some j /\ jb_Files j = [] /\ jb_Filename j = n).
Proof.
  intros Hinj Hnew. unfold Reconcile. cbn [negb].
  set (r0 := dry_run tgt storage s). set (tid := tg_ID tgt).
  destruct (dry_run_exact tgt storage s) as [HO HG]. fold r0 tid in HO, HG.
  pose proof (adopt_jobs tid newid now (map_to_list (orphan_groups (OrphanFiles r0))) s Hinj
    (fun k => proj1 (Hnew k)) (NoDup_fst_map_to_list _) (fun k _ => proj2 (Hnew k))) as (Ha1 & Ha2 & Ha3).
  destruct (adopt sort_by tid newid now _ s) as [na s1]. cbn [snd] in *.
  pose proof (clean_ghosts_jobs tid (GhostFiles r0) s1) as Hc.
  destruct (clean_ghosts sort_by tid (GhostFiles r0) s1) as [nc s2]. cbn [snd] in Hc. intros [= <- <-].
  destruct (orphan_groups_spec (OrphanFiles r0)) as [Hg1 Hg2].
  split_and!; [exact HO|exact HG| |].
  - destruct (OrphanFiles (dry_run tgt storage s2)) as [|f l] eqn:E; [done|exfalso].
    assert (f ∈ OrphanFiles (dry_run tgt storage s2)) as Hf by (rewrite E; left).
    apply orphans_spec in Hf as (Hf & Hv & Hno). apply Hno.
    assert (bk_Filename f ∉ GhostFiles r0) as Hng.
    { intros [_ H]%HG. apply H. apply list_elem_of_In, in_map. by apply list_elem_of_In. }
    assert (exists k j, jobs s1 !! k = Some j /\ refers tid j (bk_Filename f)) as (k & j & Hk & Hr).
    { destruct (indexed_files tid (values (jobs s)) !! bk_Filename f) eqn:Ei.
      - destruct (proj1 (indexed_dom tid (values (jobs s)) (bk_Filename f))) as (j & Hj & Hr); [by eexists|].
        apply elem_of_values in Hj as [k Hk]. exists k, j. eauto.
      - assert (f ∈ OrphanFiles r0) as Ho.
        { apply orphans_spec. split_and!; [done..|]. by rewrite <- indexed_dom, <- eq_None_not_Some. }
        destruct (Hg1 f Ho) as (g & Hg & Hin).
        destruct (Ha2 (group_key f) g) as (k & j & Hk & Ht & Hfi); [by apply elem_of_map_to_list|].
        exists k, j. split; [done|]. split; [done|]. left. exists (adopted_file f). rewrite Hfi.
        split; [by apply list_elem_of_In, in_map, list_elem_of_In|apply adopted_file_name]. }
    exists (clean_job tid (GhostFiles r0) j). split; [|by apply refers_clean].
    apply elem_of_values. exists k. by rewrite Hc, lookup_fmap, Hk.
  - intros n Hn. apply ghosts_spec in Hn as [(j' & Hj' & Ht' & Hr) Hns].
    apply elem_of_values in Hj' as [k Hk]. destruct Hr as [(f & Hf & <-)|(Hf & Hn & _)]; [exfalso|by eauto].
    rewrite Hc, lookup_fmap in Hk. apply fmap_Some in Hk as (j & Hk & ->).
    rewrite clean_job_target in Ht'. apply clean_lists in Hf as [Hf Hng]; [|done].
    destruct (Ha3 k j Hk) as [Hs|(suf & g & Hg & _ & Hfi)].
    + apply Hng, HG. split; [|done]. exists k, j. split; [done|]. split; [done|]. left. by exists f.
    + rewrite Hfi in Hf. apply list_elem_of_In, in_map_iff in Hf as (b & <- & Hb).
      rewrite adopted_file_name in Hns. apply Hns. apply list_elem_of_In, in_map, list_elem_of_In.
      apply elem_of_map_to_list in Hg. apply (proj1 (proj1 (HO b) (Hg2 _ _ _ Hg (proj2 (list_elem_of_In _ _) Hb)))).
Qed.
End ReconcileFacts.

(** ** Examples *)

Module ReconcileDemo.
Import StoreDemo.
Definition cfg : string := "webkvm-h-20240101T010000.000000000Z-aaaaaa-config.tar.zst".
Definition vm1 : string := "webkvm-h-20240101T010000.000000000Z-aaaaaa-web.tar.zst".
Definition gone : string := "webkvm-h-20240102T010000.000000000Z-bbbbbb-web.tar.zst".
Definition stored_files : list BackupFile :=
  [MkBackupFile "default" cfg 10 now0 "" time_zero ""; MkBackupFile "default" vm1 20 now0 "" time_zero ""].
Definition lost_job : Job :=
  MkJob "j_1" "" "default" "full" "" now0 now0 gone 30 [gone] [MkJobFile gone 30 "vm" "web"] "success" "" 100
    "" "" "" "" "" "".
Definition before := set_jobs {["j_1" := lost_job]} s0.
Definition tgt : Target := default_target "/opt/webkvm/backup/default" now0.
Definition ids (suffix : string) : string := "r_" +:+ suffix.
Definition applied := Reconcile sort_key tgt true (Ok stored_files) ids now0 before.

(** Both files of the run become one job; the lost archive is cleaned. *)
Example adopted :
  (fun r => (AdoptedJobs r, CleanedGhosts r)) <$> applied.1 = Ok (1, 1) /\
  (fun j => (jb_Filename j, jb_Size j)) <$> (jobs applied.2 !! "r_20240101T010000.000000000Z-aaaaaa")
    = Some (cfg, 30).
Proof. vm_compute. done. Qed.

(** The job that lost all its files keeps its primary name, so every later run
    reports the same ghost again, and no run cleans it. *)
Example ghost_returns :
  GhostFiles (dry_run tgt stored_files applied.2) = [gone] /\
  (fun r => CleanedGhosts r) <$> (Reconcile sort_key tgt true (Ok stored_files) ids now0 applied.2).1 = Ok 0.
Proof. vm_compute. done. Qed.
End ReconcileDemo.

Lemma Reconcile_converges_witness :
  OrphanFiles (dry_run ReconcileDemo.tgt ReconcileDemo.stored_files ReconcileDemo.applied.2) = [].
Proof.
  destruct (Reconcile_converges StoreDemo.sort_key ReconcileDemo.tgt ReconcileDemo.stored_files ReconcileDemo.ids
    StoreDemo.now0 ReconcileDemo.before ReconcileDemo.applied.2
    (match ReconcileDemo.applied.1 with Ok r => r | Err _ => dry_run ReconcileDemo.tgt [] ReconcileDemo.before end))
    as (_ & _ & H & _).
  - intros a b. apply (inj (String.append "r_")).
  - intros k. split; [discriminate|]. unfold ReconcileDemo.before. simpl.
    apply lookup_singleton_ne. discriminate.
  - vm_compute. reflexivity.
  - exact H.
Defined.
