(* ===== verification/Quota.v ===== *)
(** * Quota: resource limits per owner

    Models [api/quota.go]: the accounting of an owner's machines, the pure
    checks [enforceDiskQuota] and [enforceStartQuota], and the guards the
    handlers call before creating or starting a machine.  The hypervisor is a
    [Backend], the part of the [compute] connector these functions use; the
    accounts are the store of [Users].  Quantities are [int64] and wrap. *)

From S2P Require Export Users.
Open Scope Z_scope.

Record DiskInfo := MkDisk {
  Device : string; Disk_BlockDev : string; Disk_ZVol : string; Disk_Pool : string;
  SizeGB : Z; ReadOnly : bool; Disk_Type : string
}.

Inductive VMState := Running | Shutoff | Paused | Crashed | Unknown.
#[export] Instance VMState_eq_dec : EqDecision VMState.
Proof. solve_decision. Defined.

Record VM := MkVM {
  VM_ID : string; OwnerID : string; VCPUs : Z; RAMMB : Z; DiskGB : Z;
  Disks : list DiskInfo; State : VMState; Template : bool
}.

Record StorageVolume := MkVolume { Allocated : Z; Capacity : Z }.

(** The connector. *)
Record Backend := MkBackend {
  ListDomains : res string (list VM);
  GetDomain : string -> res string VM;
  GetStorageVolume : string -> string -> res string StorageVolume
}.

Record quotaUsage := MkUsage { VMs : Z; u_VCPUs : Z; u_RAMMB : Z; Disk : Z }.
Definition no_usage : quotaUsage := MkUsage 0 0 0 0.

(** ** Accounting *)

Definition countsAgainstQuota (d : DiskInfo) : bool :=
  negb (String.eqb (Device d) "cdrom") && negb (ReadOnly d) && negb (String.eqb (Disk_Type d) "block")
  && String.eqb (Disk_BlockDev d) "" && String.eqb (Disk_ZVol d) "".

Definition vmTotalDiskGB (vm : VM) : Z :=
  let total := foldl (fun t d => if countsAgainstQuota d then wrap64 (t + SizeGB d) else t) 0 (Disks vm) in
  if total =? 0 then DiskGB vm else total.

(** [m\[k\] += v] *)
Definition add_to (k : string) (v : Z) (m : gmap string Z) : gmap string Z :=
  <[k := wrap64 (default 0 (m !! k) + v)]> m.

Definition vmTotalDiskByPool (vm : VM) : gmap string Z :=
  let counted := List.filter countsAgainstQuota (Disks vm) in
  match counted with
  | [] => {["" := DiskGB vm]}
  | _ => foldl (fun m d => add_to (Disk_Pool d) (SizeGB d) m) ∅ counted
  end.

Definition add_vm (u : quotaUsage) (vm : VM) : quotaUsage :=
  MkUsage (wrap64 (VMs u + 1)) (wrap64 (u_VCPUs u + VCPUs vm)) (wrap64 (u_RAMMB u + RAMMB vm))
          (wrap64 (Disk u + vmTotalDiskGB vm)).

Definition owned (username : string) (vms : list VM) : list VM :=
  List.filter (fun vm => String.eqb (OwnerID vm) username) vms.

Definition usageOf (b : option Backend) (username : string) : res string quotaUsage :=
  match b with
  | None => Ok no_usage
  | Some b => (fun vms => foldl add_vm no_usage (owned username vms)) <$> ListDomains b
  end.

Definition add_pools (out : gmap string Z) (vm : VM) : gmap string Z :=
  foldl (fun m kv => add_to kv.1 kv.2 m) out (map_to_list (vmTotalDiskByPool vm)).

Definition diskUsageByPool (b : option Backend) (username : string) : res string (gmap string Z) :=
  match b with
  | None => Ok ∅
  | Some b => (fun vms => foldl add_pools ∅ (owned username vms)) <$> ListDomains b
  end.

Definition is_active (s : VMState) : bool :=
  match s with Running | Paused | Crashed => true | _ => false end.

Definition add_running (u : quotaUsage) (vm : VM) : quotaUsage :=
  if is_active (State vm)
  then MkUsage (VMs u) (wrap64 (u_VCPUs u + VCPUs vm)) (wrap64 (u_RAMMB u + RAMMB vm)) (Disk u)
  else u.

Definition runningUsageOf (b : option Backend) (username excludeID : string) : res string quotaUsage :=
  match b with
  | None => Ok no_usage
  | Some b => (fun vms => foldl add_running no_usage
      (owned username (List.filter (fun vm => negb (String.eqb (VM_ID vm) excludeID)) vms))) <$> ListDomains b
  end.

(** ** The pure checks *)

Definition sum_values (m : gmap string Z) : Z :=
  foldl (fun t v => wrap64 (t + v)) 0 (map snd (map_to_list m)).

Definition at_pool (m : gmap string Z) (p : string) : Z := default 0 (m !! p).

Definition pool_exceeded (cur add : gmap string Z) (pl : string * Z) : bool :=
  negb (pl.2 <=? 0) && (pl.2 <? wrap64 (at_pool cur pl.1 + at_pool add pl.1)).

(** [true] when the quota is not exceeded (the code's nil error). *)
Definition enforceDiskQuota (q : Quota) (cur add : gmap string Z) : bool :=
  if (0 <? MaxDiskGB q) && (MaxDiskGB q <? wrap64 (sum_values cur + sum_values add)) then false
  else negb (existsb (pool_exceeded cur add) (map_to_list (PoolQuotas q))).

Definition enforceStartQuota (q : Quota) (curRunVCPUs curRunRAMMB vmVCPUs vmRAMMB : Z) : bool :=
  if (0 <? MaxVCPUs q) && (MaxVCPUs q <? wrap64 (curRunVCPUs + vmVCPUs)) then false
  else negb ((0 <? MaxRAMMB q) && (MaxRAMMB q <? wrap64 (curRunRAMMB + vmRAMMB))).

Definition bytesToGB (n : Z) : Z := if n <=? 0 then 0 else wrap64 (Z.quot n (2 ^ 30) + 1).

(** ** The guards *)

Definition exceeded : string := "quota exceeded".
Definition check (ok : bool) : res string unit := if ok then Ok tt else Err exceeded.

Section Guards.
Context {W : Type}.
Implicit Types (store : option (@Store W)) (b : option Backend).

(** The account whose quota applies: [None] when there is nothing to check. *)
Definition quota_of store (username : string) : res string (option Quota) :=
  match store with
  | None => Ok None
  | Some s =>
      if String.eqb username "" then Ok None else
      match Get username s with
      | Err _ => Err "cannot verify quota"
      | Ok u => if String.eqb (Role u) RoleAdmin then Ok None
                else if Enabled (User_Quota u) then Ok (Some (User_Quota u)) else Ok None
      end
  end.

Definition effectiveQuota store (username : string) : res string Quota :=
  match store with
  | None => Ok no_quota
  | Some s => match Get username s with
              | Err _ => Err "not found"
              | Ok u => Ok (if String.eqb (Role u) RoleAdmin then no_quota else User_Quota u)
              end
  end.

Definition checkDiskQuota store b (username : string)
    (addByPool : gmap string Z) : res string unit :=
  q ← quota_of store username;
  match q with
  | None => Ok tt
  | Some q => cur ← diskUsageByPool b username; check (enforceDiskQuota q cur addByPool)
  end.

Definition realVolumeDiskGB (b : option Backend) (pool vol : string) : res string Z :=
  match b with
  | None => Err "libvirt not connected"
  | Some b => sv ← GetStorageVolume b pool vol;
              Ok (bytesToGB (if Allocated sv <=? 0 then Capacity sv else Allocated sv))
  end.

Definition recheckDiskQuota store b (owner pool vol : string) : res string unit :=
  q ← quota_of store owner;
  match q with
  | None => Ok tt
  | Some q => real ← realVolumeDiskGB b pool vol;
              cur ← diskUsageByPool b owner;
              check (enforceDiskQuota q cur {[pool := real]})
  end.

Definition checkStartQuota store b (id : string) : res string unit :=
  match b with
  | None => Ok tt
  | Some b' =>
      match GetDomain b' id with
      | Err _ => Ok tt
      | Ok vm =>
          if Template vm then Err "template" else
          q ← quota_of store (OwnerID vm);
          match q with
          | None => Ok tt
          | Some q =>
              curRun ← runningUsageOf b (OwnerID vm) id;
              _ ← check (enforceStartQuota q (u_VCPUs curRun) (u_RAMMB curRun) (VCPUs vm) (RAMMB vm));
              checkDiskQuota store b (OwnerID vm) ∅
          end
      end
  end.

Definition over (limit n : Z) : bool := (0 <? limit) && (limit <? n).

Definition checkQuota store b (username : string)
    (addVMs addVCPUs addRAMMB addDiskGB : Z) : res string unit :=
  q ← quota_of store username;
  match q with
  | None => Ok tt
  | Some q =>
      cur ← usageOf b username;
      check (negb (over (MaxVMs q) (wrap64 (VMs cur + addVMs)) || over (MaxVCPUs q) (wrap64 (u_VCPUs cur + addVCPUs))
                   || over (MaxRAMMB q) (wrap64 (u_RAMMB cur + addRAMMB)) || over (MaxDiskGB q) (wrap64 (Disk cur + addDiskGB))))
  end.

(** ** What the guards promise *)

Definition fits (q : Quota) (u : quotaUsage) : Prop :=
  (0 < MaxVMs q -> VMs u <= MaxVMs q) /\ (0 < MaxVCPUs q -> u_VCPUs u <= MaxVCPUs q) /\
  (0 < MaxRAMMB q -> u_RAMMB u <= MaxRAMMB q) /\ (0 < MaxDiskGB q -> Disk u <= MaxDiskGB q).

Lemma over_false limit n : over limit n = false <-> (0 < limit -> n <= limit).
Proof. unfold over. destruct (Z.ltb_spec 0 limit), (Z.ltb_spec limit n); simpl; split; try done; try lia. Qed.

Lemma check_ok c : check c = Ok tt <-> c = true.
Proof. by destruct c. Qed.

Lemma owned_app username l1 l2 : owned username (l1 ++ l2) = owned username l1 ++ owned username l2.
Proof. apply List.filter_app. Qed.

Lemma owned_one vm : owned (OwnerID vm) [vm] = [vm].
Proof. unfold owned. simpl. by rewrite String.eqb_refl. Qed.

(** Admission is exact: for an account with a quota, [checkQuota] lets a
    machine through exactly when the owner's usage, as the next listing with
    that machine in it will account it, is within every limit. *)
Theorem checkQuota_exact store bk vms vm q :
  quota_of store (OwnerID vm) = Ok (Some q) -> ListDomains bk = Ok vms ->
  (checkQuota store (Some bk) (OwnerID vm) 1 (VCPUs vm) (RAMMB vm) (vmTotalDiskGB vm) = Ok tt <->
   fits q (foldl add_vm no_usage (owned (OwnerID vm) (vms ++ [vm])))).
Proof.
  intros Hq Hl. unfold checkQuota. rewrite Hq. cbn [mbind res_bind]. unfold usageOf. rewrite Hl.
  cbn [fmap res_fmap mbind res_bind]. rewrite check_ok, negb_true_iff, owned_app, owned_one, foldl_app.
  cbn [foldl]. unfold add_vm at 5. unfold fits. cbn [VMs u_VCPUs u_RAMMB Disk].
  rewrite !orb_false_iff, !over_false. tauto.
Qed.

Definition disk_fits (q : Quota) (cur add : gmap string Z) : Prop :=
  (0 < MaxDiskGB q -> wrap64 (sum_values cur + sum_values add) <= MaxDiskGB q) /\
  forall p l, PoolQuotas q !! p = Some l -> 0 < l -> wrap64 (at_pool cur p + at_pool add p) <= l.

Lemma enforceDiskQuota_spec q cur add : enforceDiskQuota q cur add = true <-> disk_fits q cur add.
Proof.
  unfold enforceDiskQuota, disk_fits. fold (over (MaxDiskGB q) (wrap64 (sum_values cur + sum_values add))).
  rewrite <- over_false. destruct (over _ _); [split; [done|by intros [? _]]|].
  rewrite negb_true_iff, <- not_true_iff_false, existsb_exists. split.
  - intros Hn. split; [done|]. intros p l Hp Hl. apply Z.nlt_ge. intros Hlt. apply Hn. exists (p, l).
    split; [by apply list_elem_of_In, elem_of_map_to_list|]. unfold pool_exceeded. simpl.
    destruct (Z.leb_spec l 0); [lia|]. simpl. by apply Z.ltb_lt.
  - intros [_ Hall] ([p l] & Hin & Hex). apply list_elem_of_In, elem_of_map_to_list in Hin.
    unfold pool_exceeded in Hex. simpl in Hex. bool_norm. specialize (Hall p l Hin). lia.
Qed.

Definition started (vm : VM) : VM :=
  MkVM (VM_ID vm) (OwnerID vm) (VCPUs vm) (RAMMB vm) (DiskGB vm) (Disks vm) Running (Template vm).

(** Starting a machine of an account with a quota succeeds exactly when the
    machine is no template, the owner's running machines together with it are
    within the processor and memory limits, and the owner's disks are within
    the global and every per-pool limit. *)
Theorem checkStartQuota_exact store bk id vms vm q :
  GetDomain bk id = Ok vm -> quota_of store (OwnerID vm) = Ok (Some q) -> ListDomains bk = Ok vms ->
  let others := List.filter (fun v => negb (String.eqb (VM_ID v) id)) vms in
  let run := foldl add_running no_usage (owned (OwnerID vm) (others ++ [started vm])) in
  (checkStartQuota store (Some bk) id = Ok tt <->
   Template vm = false /\ (0 < MaxVCPUs q -> u_VCPUs run <= MaxVCPUs q) /\
   (0 < MaxRAMMB q -> u_RAMMB run <= MaxRAMMB q) /\
   disk_fits q (foldl add_pools ∅ (owned (OwnerID vm) vms)) ∅).
Proof.
  intros Hg Hq Hl others run. unfold checkStartQuota. rewrite Hg. destruct (Template vm) eqn:Et.
  { split; [done|]. by intros [? _]. }
  rewrite Hq. cbn [mbind res_bind]. unfold runningUsageOf. rewrite Hl. cbn [fmap res_fmap mbind res_bind].
  fold others. set (cur := foldl add_running no_usage (owned (OwnerID vm) others)).
  assert (run = MkUsage (VMs cur) (wrap64 (u_VCPUs cur + VCPUs vm)) (wrap64 (u_RAMMB cur + RAMMB vm)) (Disk cur)) as ->.
  { unfold run. rewrite owned_app. change (OwnerID vm) with (OwnerID (started vm)) at 2.
    rewrite owned_one, foldl_app. reflexivity. }
  cbn [u_VCPUs u_RAMMB]. unfold checkDiskQuota. rewrite Hq. cbn [mbind res_bind].
  unfold diskUsageByPool. rewrite Hl. cbn [fmap res_fmap mbind res_bind].
  unfold enforceStartQuota. fold (over (MaxVCPUs q) (wrap64 (u_VCPUs cur + VCPUs vm))).
  fold (over (MaxRAMMB q) (wrap64 (u_RAMMB cur + RAMMB vm))). rewrite <- !over_false.
  destruct (over (MaxVCPUs q) _); [split; [done|by intros (_ & ? & _)]|].
  destruct (over (MaxRAMMB q) _); [split; [done|by intros (_ & _ & ? & _)]|].
  cbn [negb]. change (check true) with (@Ok string unit tt). cbn [mbind res_bind]. rewrite check_ok, enforceDiskQuota_spec. tauto.
Qed.
End Guards.

(** The volume size used for accounting is the number of gigabytes rounded
    up, except that an exact multiple of a gigabyte counts one too many. *)
Theorem bytesToGB_rounding n :
  0 < n <= int64_max ->
  bytesToGB n = (n + 2 ^ 30 - 1) / 2 ^ 30 + (if n mod 2 ^ 30 =? 0 then 1 else 0).
Proof.
  intros Hn. unfold bytesToGB. rewrite (proj2 (Z.leb_gt n 0)) by lia. unfold int64_max in Hn.
  rewrite Z.quot_div_nonneg by lia.
  assert (0 <= n / 2 ^ 30 < 2 ^ 33) by (split; [apply Z.div_pos; lia|apply Z.div_lt_upper_bound; lia]).
  rewrite wrap64_id by (int64_lia).
  pose proof (Z.div_mod n (2 ^ 30) ltac:(lia)) as Hd.
  pose proof (Z.mod_pos_bound n (2 ^ 30) ltac:(lia)) as Hm. destruct (Z.eqb_spec (n mod 2 ^ 30) 0) as [E|E].
  - rewrite (Z.div_unique (n + 2 ^ 30 - 1) (2 ^ 30) (n / 2 ^ 30) (2 ^ 30 - 1)); lia.
  - rewrite (Z.div_unique (n + 2 ^ 30 - 1) (2 ^ 30) (n / 2 ^ 30 + 1) (n mod 2 ^ 30 - 1)); lia.
Qed.

Module QuotaDemo.
Definition limits : Quota := MkQuota 2 4 4096 100 {["fast" := 40]}.
Definition bob : User :=
  MkUser "bob" "" RoleOperator "" "" true false "" None "" limits [] [] [] [] 0 "" false [] 0 [].
Definition store : option (Store (W := unit)) := Some (MkStore {["bob" := bob]} "/data" ∅ tt).
Definition disk (pool : string) (gb : Z) : DiskInfo := MkDisk "disk" "" "" pool gb false "file".
Definition iso : DiskInfo := MkDisk "cdrom" "" "" "isos" 6 true "file".
Definition vm1 : VM := MkVM "1" "bob" 2 2048 20 [disk "fast" 20; iso] Running false.
Definition vm2 : VM := MkVM "2" "bob" 2 2048 20 [disk "fast" 20] Shutoff false.
Definition vm3 : VM := MkVM "3" "bob" 1 512 30 [disk "slow" 30] Shutoff false.
Definition bk (vms : list VM) : Backend :=
  MkBackend (Ok vms)
    (fun id => match List.find (fun v => String.eqb (VM_ID v) id) vms with Some v => Ok v | None => Err "?" end)
    (fun _ _ => Ok (MkVolume 0 (10 * 2 ^ 30))).

(** An attached installation image costs nothing. *)
Example iso_free : vmTotalDiskGB vm1 = 20.
Proof. vm_compute. reflexivity. Qed.
Example third_refused : checkQuota store (Some (bk [vm1; vm2])) "bob" 1 1 512 30 = Err exceeded.
Proof. vm_compute. reflexivity. Qed.
(** A request that shrinks a disk is refused while the result is still above
    the limit, although the comment says a negative delta is always allowed. *)
Example shrink_refused : enforceDiskQuota limits {["slow" := 150]} {["slow" := -20]} = false.
Proof. vm_compute. reflexivity. Qed.
(** Ten gigabytes exactly are counted as eleven, so a disk that just fits its
    limit is refused by the check after its creation. *)
Example ten_is_eleven : bytesToGB (10 * 2 ^ 30) = 11.
Proof. vm_compute. reflexivity. Qed.
End QuotaDemo.

Lemma checkQuota_exact_witness :
  fits QuotaDemo.limits (foldl add_vm no_usage (owned "bob" ([QuotaDemo.vm1] ++ [QuotaDemo.vm2]))).
Proof.
  apply (proj1 (checkQuota_exact QuotaDemo.store (QuotaDemo.bk [QuotaDemo.vm1]) [QuotaDemo.vm1]
    QuotaDemo.vm2 QuotaDemo.limits ltac:(vm_compute; reflexivity) ltac:(reflexivity))).
  vm_compute. reflexivity.
Defined.

Lemma checkStartQuota_exact_witness :
  checkStartQuota QuotaDemo.store (Some (QuotaDemo.bk [QuotaDemo.vm1; QuotaDemo.vm2])) "2" = Ok tt.
Proof.
  apply (proj2 (checkStartQuota_exact QuotaDemo.store (QuotaDemo.bk [QuotaDemo.vm1; QuotaDemo.vm2]) "2"
    [QuotaDemo.vm1; QuotaDemo.vm2] QuotaDemo.vm2 QuotaDemo.limits
    ltac:(vm_compute; reflexivity) ltac:(vm_compute; reflexivity) ltac:(reflexivity))).
  split; [reflexivity|]. split; [vm_compute; discriminate|]. split; [vm_compute; discriminate|].
  apply enforceDiskQuota_spec. vm_compute. reflexivity.
Defined.

Lemma bytesToGB_rounding_witness : bytesToGB 5000000000 = 5.
Proof. rewrite (bytesToGB_rounding 5000000000); [reflexivity|unfold int64_max; lia]. Defined.
