(* ===== verification/EventHub.v ===== *)
(** * EventHub: fan-out of state changes to subscribers

    Models [events/hub.go] with its concurrency.  The hub's methods are split
    where other goroutines can interleave: an atomic access of [closed] or
    [nextID] is one step, a section under [h.mu] is one step, and what a
    goroutine still has to do is a pending entry.  Sending on a closed channel,
    and closing one twice, panics: those outcomes are [None]. *)

From S2P Require Export Prelude.
Open Scope Z_scope.

Record Event (A : Type) := MkEvent {
  ev_Type : string; ev_VmID : string; ev_State : string; ev_Name : string; ev_Timestamp : Z; ev_Data : option A
}.
Arguments MkEvent {A}.

Section Hub.
Context {A : Type}.
Abbreviation event := (Event A).

Definition capacity : nat := 16.

Record channel := MkChan { buf : list event; shut : bool }.

(** [ch <- e] in a [select] with a [default]. *)
Definition try_send (e : event) (c : channel) : option channel :=
  if shut c then None else
  Some (if Nat.ltb (length (buf c)) capacity then MkChan (buf c ++ [e]) false else c).

Definition close_chan (c : channel) : option channel :=
  if shut c then None else Some (MkChan (buf c) true).

(** What a goroutine has still to do under the lock. *)
Inductive pending :=
| PSubscribe (id : Z)
| PBroadcast (e : event)
| PClose.

(** [chans] holds every channel made, by subscription; [clients] are the
    registered ones.  [log] (broadcasts in lock order) and [got] (what each
    consumer has taken) are ghost state. *)
Record Hub := MkHub {
  clients : gset Z;
  nextID : Z;
  hub_closed : bool;
  chans : gmap Z channel;
  pend : list pending;
  log : list event;
  got : gmap Z (list event)
}.

Definition NewHub : Hub := MkHub ∅ 0 false ∅ [] [] ∅.

(** Apply a channel operation to the clients, in some order. *)
Fixpoint for_clients (f : channel -> option channel) (ids : list Z) (m : gmap Z channel)
    : option (gmap Z channel) :=
  match ids with
  | [] => Some m
  | i :: ids => c ← m !! i; c' ← f c; for_clients f ids (<[i := c']> m)
  end.

(** [Subscribe]: the atomic increment and the new channel. *)
Definition subscribe_begin (h : Hub) : Hub :=
  let id := nextID h + 1 in
  MkHub (clients h) id (hub_closed h) (<[id := MkChan [] false]> (chans h)) (pend h ++ [PSubscribe id]) (log h) (got h).

(** ... and its critical section. *)
Definition subscribe_locked (id : Z) (h : Hub) : option Hub :=
  if hub_closed h then
    c ← chans h !! id; c' ← close_chan c;
    Some (MkHub (clients h) (nextID h) (hub_closed h) (<[id := c']> (chans h)) (pend h) (log h) (got h))
  else Some (MkHub ({[id]} ∪ clients h) (nextID h) (hub_closed h) (chans h) (pend h) (log h) (got h)).

(** The returned [cancel]. *)
Definition cancel (id : Z) (h : Hub) : option Hub :=
  if bool_decide (id ∈ clients h) then
    c ← chans h !! id; c' ← close_chan c;
    Some (MkHub (clients h ∖ {[id]}) (nextID h) (hub_closed h) (<[id := c']> (chans h)) (pend h) (log h) (got h))
  else Some h.

Definition broadcast_begin (e : event) (h : Hub) : Hub :=
  if hub_closed h then h
  else MkHub (clients h) (nextID h) (hub_closed h) (chans h) (pend h ++ [PBroadcast e]) (log h) (got h).

Definition broadcast_locked (e : event) (h : Hub) : option Hub :=
  m ← for_clients (try_send e) (elements (clients h)) (chans h);
  Some (MkHub (clients h) (nextID h) (hub_closed h) m (pend h) (log h ++ [e]) (got h)).

Definition ClientCount (h : Hub) : nat := size (clients h).

(** [closed.Swap(true)]. *)
Definition close_begin (h : Hub) : Hub :=
  if hub_closed h then h
  else MkHub (clients h) (nextID h) true (chans h) (pend h ++ [PClose]) (log h) (got h).

Definition close_locked (h : Hub) : option Hub :=
  m ← for_clients close_chan (elements (clients h)) (chans h);
  Some (MkHub ∅ (nextID h) (hub_closed h) m (pend h) (log h) (got h)).

(** A consumer takes an event from its channel. *)
Definition receive (id : Z) (h : Hub) : Hub :=
  match chans h !! id with
  | Some (MkChan (e :: l) s) =>
      MkHub (clients h) (nextID h) (hub_closed h) (<[id := MkChan l s]> (chans h)) (pend h) (log h)
            (<[id := default [] (got h !! id) ++ [e]]> (got h))
  | _ => h
  end.

Definition locked (p : pending) (h : Hub) : option Hub :=
  match p with
  | PSubscribe id => subscribe_locked id h
  | PBroadcast e => broadcast_locked e h
  | PClose => close_locked h
  end.

Definition drop_pending (l : list pending) (h : Hub) : Hub :=
  MkHub (clients h) (nextID h) (hub_closed h) (chans h) l (log h) (got h).

(** One step of one goroutine; the result [None] is a panic. *)
Inductive hub_step : Hub -> option Hub -> Prop :=
| StepSubscribe h : hub_step h (Some (subscribe_begin h))
| StepBroadcast e h : hub_step h (Some (broadcast_begin e h))
| StepClose h : hub_step h (Some (close_begin h))
| StepCancel id h : hub_step h (cancel id h)
| StepReceive id h : hub_step h (Some (receive id h))
| StepLocked l1 p l2 h : pend h = l1 ++ p :: l2 -> hub_step h (locked p (drop_pending (l1 ++ l2) h)).

Inductive hub_reach : Hub -> Prop :=
| ReachNew : hub_reach NewHub
| ReachStep h h' : hub_reach h -> hub_step h (Some h') -> hub_reach h'.

(** ** The invariant *)

Definition received (h : Hub) (id : Z) (c : channel) : list event := default [] (got h !! id) ++ buf c.

Definition waiting (l : list pending) : list Z :=
  omap (fun p => match p with PSubscribe id => Some id | _ => None end) l.

Record hub_inv (h : Hub) : Prop := {
  inv_open : forall id, id ∈ clients h -> exists c, chans h !! id = Some c /\ shut c = false;
  inv_pending : forall id, PSubscribe id ∈ pend h ->
      (id ∉ clients h) /\ exists c, chans h !! id = Some c /\ shut c = false;
  inv_once : NoDup (waiting (pend h));
  inv_fresh : forall id c, chans h !! id = Some c -> id <= nextID h;
  inv_room : forall id c, chans h !! id = Some c -> (length (buf c) <= capacity)%nat;
  inv_order : forall id c, chans h !! id = Some c -> sublist (received h id c) (log h);
  inv_closed : hub_closed h = true -> PClose ∈ pend h \/ clients h = ∅;
  inv_got : forall id, chans h !! id = None -> got h !! id = None
}.

Lemma for_clients_spec f ids (m : gmap Z channel) :
  NoDup ids -> (forall i, i ∈ ids -> exists c c', m !! i = Some c /\ f c = Some c') ->
  exists m', for_clients f ids m = Some m' /\
    forall i, m' !! i = if decide (i ∈ ids) then m !! i ≫= f else m !! i.
Proof.
  revert m. induction ids as [|i ids IH]; intros m Hnd Hall.
  - exists m. split; [done|]. intros i. destruct (decide _) as [H|]; [by apply not_elem_of_nil in H|done].
  - apply NoDup_cons in Hnd as [Hi Hnd]. destruct (Hall i) as (c & c' & Hc & Hf); [by left|].
    destruct (IH (<[i := c']> m)) as (m' & Hm' & Hl); [done| |].
    { intros j Hj. rewrite lookup_insert_ne by set_solver. apply Hall. by right. }
    exists m'. split; [simpl; by rewrite Hc; simpl; rewrite Hf|]. intros j. rewrite Hl.
    destruct (decide (j = i)) as [->|Hne].
    + rewrite decide_False by done. rewrite decide_True by (by left). by rewrite lookup_insert_eq, Hc.
    + rewrite lookup_insert_ne by done.
      destruct (decide (j ∈ ids)); [rewrite decide_True by (by right)|rewrite decide_False by set_solver]; done.
Qed.

Lemma waiting_spec l id : id ∈ waiting l <-> PSubscribe id ∈ l.
Proof.
  unfold waiting. rewrite list_elem_of_omap. split.
  - intros ([] & Hin & Heq); try done. by injection Heq as ->.
  - intros H. by exists (PSubscribe id).
Qed.

Lemma inv_new : hub_inv NewHub.
Proof. split; simpl; try set_solver. apply NoDup_nil_2. Qed.

Lemma inv_subscribe_begin h : hub_inv h -> hub_inv (subscribe_begin h).
Proof.
  intros [H1 H2 H3 H4 H5 H6 H7 H8].
  assert (Hfresh : chans h !! (nextID h + 1) = None).
  { destruct (chans h !! (nextID h + 1)) as [c|] eqn:E; [|done]. apply H4 in E. lia. }
  assert (Hold : forall id c, chans h !! id = Some c -> id <> nextID h + 1) by congruence.
  unfold subscribe_begin. split; simpl.
  - intros id (c & Hc & Hs)%H1. exists c. rewrite lookup_insert_ne by (apply not_eq_sym; eauto). done.
  - intros id [Hin|Heq%list_elem_of_singleton]%elem_of_app.
    + destruct (H2 id Hin) as (Hn & c & Hc & Hs). split; [done|]. exists c.
      rewrite lookup_insert_ne by (apply not_eq_sym; eauto). done.
    + injection Heq as ->. split; [|exists (MkChan [] false); by rewrite lookup_insert_eq].
      intros (c & Hc & _)%H1. congruence.
  - unfold waiting. rewrite omap_app. apply NoDup_app. split_and!; [done| |apply NoDup_singleton].
    intros id (_ & c & Hc & _)%waiting_spec%H2 ->%list_elem_of_singleton. congruence.
  - intros id c. lookup_cases id (nextID h + 1); [lia|]. intros ?%H4. lia.
  - intros id c. lookup_cases id (nextID h + 1); [intros [= <-]; simpl; lia|apply H5].
  - intros id c. lookup_cases id (nextID h + 1); [|apply H6].
    intros [= <-]. unfold received. simpl. rewrite H8 by done. apply sublist_nil_l.
  - intros [?|?]%H7; set_solver.
  - intros id. lookup_cases id (nextID h + 1); [done|apply H8].
Qed.

(** Adding a pending entry that is no subscription. *)
Lemma inv_add_pending p c h :
  hub_inv h -> (forall id, p <> PSubscribe id) -> (c = true -> hub_closed h = true \/ p = PClose) ->
  hub_inv (MkHub (clients h) (nextID h) c (chans h) (pend h ++ [p]) (log h) (got h)).
Proof.
  intros [H1 H2 H3 H4 H5 H6 H7 H8] Hp Hc. split; simpl; try done.
  - intros id [Hin|Heq%list_elem_of_singleton]%elem_of_app; [by apply H2|]. by destruct (Hp id).
  - unfold waiting. rewrite omap_app. destruct p as [id| |]; [by destruct (Hp id)|..]; simpl; by rewrite app_nil_r.
  - intros [Hcl| ->]%Hc; [|left; set_solver]. apply H7 in Hcl as [?|?]; set_solver.
Qed.

(** Marking one registered or waiting channel closed and forgetting it. *)
Lemma inv_close_one id b l h :
  hub_inv h -> chans h !! id = Some (MkChan b false) ->
  (forall p, p ∈ l -> p ∈ pend h) -> NoDup (waiting l) -> PSubscribe id ∉ l ->
  (hub_closed h = true -> PClose ∈ l \/ clients h ∖ {[id]} = ∅) ->
  hub_inv (MkHub (clients h ∖ {[id]}) (nextID h) (hub_closed h) (<[id := MkChan b true]> (chans h)) l (log h) (got h)).
Proof.
  intros [H1 H2 H3 H4 H5 H6 H7 H8] Hb Hl Hnd Hn Hcl. split; simpl; try done.
  - intros i [Hi Hne]%elem_of_difference. rewrite lookup_insert_ne by set_solver. by apply H1.
  - intros i Hi. destruct (H2 i (Hl _ Hi)) as (Hni & c & Hc & Hs). split; [set_solver|]. exists c.
    rewrite lookup_insert_ne; [done|]. intros ->. done.
  - intros i c. lookup_cases i id; [intros _; eauto|apply H4].
  - intros i c. lookup_cases i id; [intros [= <-]; by apply (H5 id _ Hb)|apply H5].
  - intros i c. lookup_cases i id; [intros [= <-]; by apply (H6 id _ Hb)|apply H6].
  - intros i. lookup_cases i id; [done|apply H8].
Qed.

Lemma inv_cancel id h : hub_inv h -> exists h', cancel id h = Some h' /\ hub_inv h'.
Proof.
  intros Hi. unfold cancel. destruct (bool_decide_reflect (id ∈ clients h)) as [Hin|]; [|by exists h].
  destruct (inv_open _ Hi _ Hin) as ([b s] & Hc & Hs). simpl in Hs. subst s. rewrite Hc. simpl.
  eexists. split; [done|]. apply inv_close_one; try done.
  - apply (inv_once _ Hi).
  - intros Hp. by destruct (inv_pending _ Hi _ Hp).
  - intros [?|He]%(inv_closed _ Hi); [by left|]. right. set_solver.
Qed.

(** Taking a pending entry out. *)
Lemma inv_drop h l1 p l2 :
  hub_inv h -> pend h = l1 ++ p :: l2 ->
  (forall q, q ∈ l1 ++ l2 -> q ∈ pend h) /\ NoDup (waiting (l1 ++ l2)) /\
  (forall id, p = PSubscribe id -> PSubscribe id ∉ l1 ++ l2) /\
  (hub_closed h = true -> p = PClose \/ PClose ∈ l1 ++ l2 \/ clients h = ∅).
Proof.
  intros [H1 H2 H3 H4 H5 H6 H7 H8] Hp. rewrite Hp in *. unfold waiting in *.
  rewrite omap_app in H3. split_and!.
  - set_solver.
  - rewrite omap_app. destruct p; simpl in H3; try done. apply NoDup_app in H3 as (Ha & Hb & Hc).
    apply NoDup_cons in Hc as [? Hc]. apply NoDup_app. split_and!; [done|set_solver|done].
  - intros id -> Hin. apply NoDup_app in H3 as (Ha & Hb & Hc). simpl in *. apply NoDup_cons in Hc as [Hc _].
    apply elem_of_app in Hin as [Hin|Hin]; apply waiting_spec in Hin; [|done]. apply (Hb id); [done|by left].
  - intros [Hin|?]%H7; [|by right; right]. apply elem_of_app in Hin as [?|[<-|?]%elem_of_cons]; set_solver.
Qed.

Lemma inv_drop_pending h l1 p l2 :
  hub_inv h -> pend h = l1 ++ p :: l2 -> p <> PClose -> hub_inv (drop_pending (l1 ++ l2) h).
Proof.
  intros Hi Hp Hne. destruct (inv_drop h l1 p l2 Hi Hp) as (Ha & Hb & _ & Hd).
  destruct Hi as [H1 H2 H3 H4 H5 H6 H7 H8]. split; simpl; try done.
  - intros id Hin. by apply H2, Ha.
  - intros Hc. destruct (Hd Hc) as [?|?]; done.
Qed.

Lemma inv_subscribe_locked h l1 id l2 :
  hub_inv h -> pend h = l1 ++ PSubscribe id :: l2 ->
  exists h', subscribe_locked id (drop_pending (l1 ++ l2) h) = Some h' /\ hub_inv h'.
Proof.
  intros Hi Hp. destruct (inv_drop h l1 _ l2 Hi Hp) as (Ha & Hb & Hc & Hd).
  pose proof (inv_drop_pending h l1 _ l2 Hi Hp ltac:(done)) as Hdrop.
  destruct (inv_pending _ Hi id) as (Hn & [b s] & Hch & Hs); [rewrite Hp; set_solver|]. simpl in Hs. subst s.
  unfold subscribe_locked, drop_pending. cbn [hub_closed chans clients nextID pend log got].
  destruct (hub_closed h) eqn:Ecl.
  - rewrite Hch. simpl. eexists. split; [done|].
    assert (clients h ∖ {[id]} = clients h) as Hdiff by set_solver.
    rewrite <- Hdiff. pose proof (inv_close_one id b (l1 ++ l2) h Hi Hch Ha Hb (Hc _ eq_refl)) as Hone.
    rewrite Ecl in Hone. apply Hone.
    intros _. destruct (Hd eq_refl) as [?|[?|He]]; [done|by left|right; set_solver].
  - eexists. split; [done|]. destruct Hdrop as [H1 H2 H3 H4 H5 H6 H7 H8]. simpl in *. split; simpl; try done.
    + intros i [->%elem_of_singleton|Hin]%elem_of_union; [by exists (MkChan b false)|by apply H1].
    + intros i Hin. destruct (H2 i Hin) as [Hni ?]. split; [|done].
      intros [->%elem_of_singleton|?]%elem_of_union; [|done]. by apply (Hc id).
Qed.

Lemma send_open e c : shut c = false -> exists c', try_send e c = Some c' /\ shut c' = false /\
  ((length (buf c) <= capacity)%nat -> (length (buf c') <= capacity)%nat) /\
  (buf c' = buf c \/ buf c' = buf c ++ [e]).
Proof.
  intros Hs. unfold try_send. rewrite Hs. eexists. split; [done|].
  destruct (Nat.ltb_spec (length (buf c)) capacity) as [Hl|Hl]; [|by auto].
  cbn [buf shut]. split_and!; [done| |by right]. intros _. rewrite length_app. simpl. unfold capacity in *. lia.
Qed.

Lemma inv_broadcast_locked h e : hub_inv h -> exists h', broadcast_locked e h = Some h' /\ hub_inv h'.
Proof.
  intros [H1 H2 H3 H4 H5 H6 H7 H8]. unfold broadcast_locked.
  destruct (for_clients_spec (try_send e) (elements (clients h)) (chans h)) as (m & -> & Hm).
  { apply NoDup_elements. }
  { intros i (c & Hc & Hs)%elem_of_elements%H1. destruct (send_open e c Hs) as (c' & ? & _). eauto. }
  assert (Hnew : forall i c', m !! i = Some c' -> exists c, chans h !! i = Some c /\
    ((length (buf c) <= capacity)%nat -> (length (buf c') <= capacity)%nat) /\
    (buf c' = buf c \/ buf c' = buf c ++ [e])).
  { intros i c'. rewrite Hm. destruct (decide _) as [(c & Hc & Hs)%elem_of_elements%H1|]; [|by eauto 6].
    rewrite Hc. simpl. destruct (send_open e c Hs) as (c'' & -> & _ & ? & ?). intros [= <-]. eauto. }
  eexists. split; [done|]. split; simpl; try done.
  - intros i Hi. destruct (H1 i Hi) as (c & Hc & Hs). destruct (send_open e c Hs) as (c' & Ht & Hs' & _).
    exists c'. rewrite Hm, decide_True by (by apply elem_of_elements). by rewrite Hc.
  - intros i Hi. destruct (H2 i Hi) as (Hn & c & Hc & Hs). split; [done|]. exists c.
    by rewrite Hm, decide_False by (by rewrite elem_of_elements).
  - intros i c' (c & Hc & _)%Hnew. by apply (H4 i c).
  - intros i c' (c & Hc & Hl & _)%Hnew. apply Hl. by apply (H5 i c).
  - intros i c' (c & Hc & _ & Hb)%Hnew. specialize (H6 i c Hc). unfold received in *. simpl.
    destruct Hb as [-> | ->]; [by apply sublist_inserts_r|]. rewrite app_assoc. by apply sublist_app.
  - intros i Hi. apply H8. destruct (chans h !! i) as [c|] eqn:Hc; [|done]. rewrite Hm in Hi.
    destruct (decide _) as [(c0 & Hc0 & Hs)%elem_of_elements%H1|]; [|congruence].
    destruct (send_open e c0 Hs) as (c' & Ht & _). rewrite Hc0 in Hi. simpl in Hi. congruence.
Qed.

Lemma inv_close_locked h l1 l2 :
  hub_inv h -> pend h = l1 ++ PClose :: l2 ->
  exists h', close_locked (drop_pending (l1 ++ l2) h) = Some h' /\ hub_inv h'.
Proof.
  intros Hi Hp. destruct (inv_drop h l1 _ l2 Hi Hp) as (Ha & Hb & _ & _).
  destruct Hi as [H1 H2 H3 H4 H5 H6 H7 H8]. unfold close_locked. simpl.
  destruct (for_clients_spec close_chan (elements (clients h)) (chans h)) as (m & -> & Hm).
  { apply NoDup_elements. }
  { intros i (c & Hc & Hs)%elem_of_elements%H1. exists c. unfold close_chan. rewrite Hs. eauto. }
  assert (Hnew : forall i c', m !! i = Some c' -> exists c, chans h !! i = Some c /\ buf c' = buf c).
  { intros i c'. rewrite Hm. destruct (decide _) as [(c & Hc & Hs)%elem_of_elements%H1|]; [|by eauto].
    rewrite Hc. unfold close_chan. simpl. rewrite Hs. intros [= <-]. eauto. }
  eexists. split; [done|]. split; simpl; try done.
  - intros i Hin. destruct (H2 i (Ha _ Hin)) as (Hn & c & Hc & Hs). split; [set_solver|]. exists c.
    by rewrite Hm, decide_False by (by rewrite elem_of_elements).
  - intros i c' (c & Hc & _)%Hnew. by apply (H4 i c).
  - intros i c' (c & Hc & Hl)%Hnew. rewrite Hl. by apply (H5 i c).
  - intros i c' (c & Hc & Hl)%Hnew. unfold received. simpl. rewrite Hl. by apply (H6 i c).
  - intros _. by right.
  - intros i Hin. apply H8. destruct (chans h !! i) as [c|] eqn:Hc; [|done]. rewrite Hm in Hin.
    destruct (decide _) as [(c0 & Hc0 & Hs)%elem_of_elements%H1|]; [|congruence].
    rewrite Hc0 in Hin. unfold close_chan in Hin. simpl in Hin. by rewrite Hs in Hin.
Qed.

Lemma inv_receive id h : hub_inv h -> hub_inv (receive id h).
Proof.
  intros Hi. unfold receive. destruct (chans h !! id) as [[[|e l] s]|] eqn:E; [done| |done].
  destruct Hi as [H1 H2 H3 H4 H5 H6 H7 H8].
  assert (Hkeep : forall i (P : channel -> Prop), (exists c, chans h !! i = Some c /\ P c) ->
     (forall c, P c -> P (MkChan l (shut c))) ->
     exists c, <[id := MkChan l s]> (chans h) !! i = Some c /\ P c).
  { intros i P (c & Hc & HP) Hinh. destruct (decide (i = id)) as [->|Hne].
    - exists (MkChan l s). rewrite lookup_insert_eq. split; [done|]. rewrite E in Hc. injection Hc as <-.
      apply (Hinh _ HP).
    - exists c. by rewrite lookup_insert_ne. }
  split; simpl; try done.
  - intros i Hin. apply (Hkeep i (fun c => shut c = false)); [by apply H1|done].
  - intros i Hin. destruct (H2 i Hin) as [Hn Hc]. split; [done|].
    by apply (Hkeep i (fun c => shut c = false)).
  - intros i c. lookup_cases i id; [intros _; by apply (H4 id _ E)|apply H4].
  - intros i c. lookup_cases i id; [|apply H5].
    intros [= <-]. specialize (H5 id _ E). simpl in *. lia.
  - intros i c. unfold received. simpl. lookup_cases i id; [|apply H6].
    intros [= <-]. specialize (H6 id _ E). unfold received in H6. simpl in *. by rewrite <- app_assoc.
  - intros i. lookup_cases i id; [done|apply H8].
Qed.

#[local] Hint Resolve inv_subscribe_begin inv_receive inv_cancel inv_subscribe_locked inv_close_locked : go.

Lemma hub_step_inv h r : hub_inv h -> hub_step h r -> exists h', r = Some h' /\ hub_inv h'.
Proof.
  intros Hi Hs. destruct Hs as [h|e h|h|id h|id h|l1 p l2 h Hp].
  - eauto with go.
  - eexists. split; [done|]. unfold broadcast_begin. destruct (hub_closed h) eqn:E; [done|]. rewrite <- E.
    apply inv_add_pending; [done|done|]. by left.
  - eexists. split; [done|]. unfold close_begin. destruct (hub_closed h) eqn:E; [done|].
    apply inv_add_pending; [done|done|]. by right.
  - eauto with go.
  - eauto with go.
  - destruct p as [id|e|]; simpl; [eauto with go| |eauto with go].
    apply inv_broadcast_locked. by eapply inv_drop_pending.
Qed.

Lemma hub_reach_inv h : hub_reach h -> hub_inv h.
Proof.
  induction 1 as [|h h' _ IH Hs]; [apply inv_new|].
  by destruct (hub_step_inv h (Some h') IH Hs) as (h'' & [= <-] & ?).
Qed.

(** C34: the hub under concurrency.  However the steps of subscribers,
    broadcasters, cancellations and shutdown interleave, no step sends on or
    closes a closed channel; every buffer holds at most 16 events; what a
    subscriber has received and buffered is, in order and without
    duplication, a selection of the broadcast events; and once a shutdown has
    finished no subscriber stays registered. *)
Theorem hub_safe h :
  hub_reach h ->
  ~ hub_step h None /\
  (forall id c, chans h !! id = Some c ->
     (length (buf c) <= capacity)%nat /\ sublist (received h id c) (log h)) /\
  (hub_closed h = true -> PClose ∉ pend h -> clients h = ∅).
Proof.
  intros Hi%hub_reach_inv. split_and!.
  - intros Hs. by destruct (hub_step_inv h None Hi Hs) as (h' & ? & _).
  - intros id c Hc. split; [by apply (inv_room _ Hi id)|by apply (inv_order _ Hi id)].
  - intros Hc Hp. by destruct (inv_closed _ Hi Hc).
Qed.

End Hub.

Module HubDemo.
Definition e : Event unit := MkEvent "vm.state" "7" "running" "web" 0 None.
Definition h1 : Hub (A := unit) := subscribe_begin NewHub.
Definition h2 : Hub := default h1 (subscribe_locked 1 (drop_pending [] h1)).
Definition h3 : Hub := broadcast_begin e h2.
(** A shutdown overtakes the broadcast that is waiting for the lock. *)
Definition h4 : Hub := close_begin h3.
Definition h5 : Hub := default h4 (close_locked (drop_pending [PBroadcast e] h4)).
Definition h6 : Hub := default h5 (broadcast_locked e (drop_pending [] h5)).

Lemma h6_reach : hub_reach h6.
Proof.
  assert (hub_reach h2) as H2.
  { apply (ReachStep h1); [apply (ReachStep NewHub); constructor|]. apply (StepLocked [] (PSubscribe 1) [] h1). reflexivity. }
  assert (hub_reach h4) as H4.
  { apply (ReachStep h3); [|apply StepClose]. apply (ReachStep h2); [done|]. apply StepBroadcast. }
  apply (ReachStep h5).
  - apply (ReachStep h4); [done|]. apply (StepLocked [PBroadcast e] PClose [] h4). reflexivity.
  - apply (StepLocked [] (PBroadcast e) [] h5). reflexivity.
Qed.

(** A subscriber that falls behind loses the events after the sixteenth. *)
Example slow_consumer :
  let send h := default h (broadcast_locked e h) in
  (fun c => length (buf c)) <$> chans (Nat.iter 20 send h2) !! 1 = Some 16%nat.
Proof. vm_compute. reflexivity. Qed.
End HubDemo.

Lemma hub_safe_witness : ~ hub_step HubDemo.h6 None /\ clients HubDemo.h6 = ∅.
Proof.
  destruct (hub_safe HubDemo.h6 HubDemo.h6_reach) as (H & _ & Hc).
  split; [exact H|]. apply Hc; [vm_compute; reflexivity|].
  assert (pend HubDemo.h6 = []) as -> by (vm_compute; reflexivity). apply not_elem_of_nil.
Defined.
