(* ===== verification/Alerts.v ===== *)
(** * Alerts: metric rules, their state machine, and incidents

    Models the engine of [metrics/alerts.go].  A sample is a binary64 number
    ([spec_float], compared as Go compares [float64]).  The engine reports each
    alert to the notifier and the event hub; here it returns the list of them.
    The two files, rules and incidents, are the disks [W] and [WI]. *)

From Stdlib Require Export SpecFloat.
From S2P Require Export AtomicFile.
Open Scope Z_scope.

Definition float := spec_float.

Definition DefaultAlertDuration : Z := 5 * minute.
Definition DefaultAlertCooldown : Z := hour.

Record AlertRule := MkRule {
  ID : string; rule_VMID : string; rule_Name : string; Metric : string; Threshold : float;
  Above : bool; Duration : Z; Cooldown : Z; rule_Enabled : bool
}.

Definition duration (r : AlertRule) : Z :=
  if 0 <? Duration r then wrap64 (Duration r * second) else DefaultAlertDuration.
Definition cooldown (r : AlertRule) : Z :=
  if 0 <? Cooldown r then wrap64 (Cooldown r * second) else DefaultAlertCooldown.

Definition metric_kinds : list string := ["cpu"; "ram"; "disk_r"; "disk_w"; "net_rx"; "net_tx"].

Definition Validate (r : AlertRule) : res string unit :=
  if negb (existsb (String.eqb (Metric r)) metric_kinds) then Err "invalid alert metric"
  else if SFltb (Threshold r) (S754_zero false) then Err "alert threshold cannot be negative"
  else Ok tt.

Inductive alert_state := Idle | Pending | Firing.
#[export] Instance alert_state_eq_dec : EqDecision alert_state.
Proof. solve_decision. Defined.

Record ruleState := MkRuleState {
  state : alert_state; pendingSince : Z; lastFired : Z; lastValue : float
}.
Definition new_state : ruleState := MkRuleState Idle time_zero time_zero (S754_zero false).

(** The points of each series. *)
Record VMMetrics := MkMetrics {
  CPU : list float; RAM : list float; DiskRead : list float; DiskWrite : list float;
  NetRx : list float; NetTx : list float
}.

Definition metricValue (m : VMMetrics) (kind : string) : option float :=
  if String.eqb kind "cpu" then last (CPU m)
  else if String.eqb kind "ram" then last (RAM m)
  else if String.eqb kind "disk_r" then last (DiskRead m)
  else if String.eqb kind "disk_w" then last (DiskWrite m)
  else if String.eqb kind "net_rx" then last (NetRx m)
  else if String.eqb kind "net_tx" then last (NetTx m)
  else None.

Definition ruleKey (ruleID vmID : string) : string := ruleID +:+ "/" +:+ vmID.

Definition splitRuleKey (key : string) : option (string * string) :=
  match last_index_byte "/" key with
  | None => None
  | Some i => Some (take_str i key, drop_str (S i) key)
  end.

(** ** One rule on one machine *)

Definition crossed (r : AlertRule) (v : float) : bool :=
  if Above r then SFltb (Threshold r) v else SFltb v (Threshold r).

(** A sample at [at_]; the flag tells whether the alert fires. *)
Definition rule_step (r : AlertRule) (at_ : Z) (v : float) (st : ruleState) : ruleState * bool :=
  let st := MkRuleState (state st) (pendingSince st) (lastFired st) v in
  let c := crossed r v in
  match state st with
  | Idle => if c then (MkRuleState Pending at_ (lastFired st) v, false) else (st, false)
  | Pending =>
      if negb c then (MkRuleState Idle (pendingSince st) (lastFired st) v, false)
      else if (duration r <=? time_sub at_ (pendingSince st)) && (cooldown r <=? time_sub at_ (lastFired st))
      then (MkRuleState Firing (pendingSince st) at_ v, true)
      else (st, false)
  | Firing =>
      if negb c then (MkRuleState Idle (pendingSince st) (lastFired st) v, false)
      else if cooldown r <=? time_sub at_ (lastFired st)
      then (MkRuleState Pending at_ (lastFired st) v, false)
      else (st, false)
  end.

Record alert := MkAlert { al_Rule : string; al_VM : string; al_At : Z; al_Value : float }.

Definition applies (r : AlertRule) (vmID : string) : bool :=
  String.eqb (rule_VMID r) "" || String.eqb (rule_VMID r) vmID.

Definition eval_rule (vmID : string) (at_ : Z) (m : VMMetrics) (r : AlertRule)
    (acc : gmap string ruleState * list alert) : gmap string ruleState * list alert :=
  if negb (applies r vmID) then acc else
  if negb (rule_Enabled r) then acc else
  match metricValue m (Metric r) with
  | None => acc
  | Some v =>
      let key := ruleKey (ID r) vmID in
      let '(st, fired) := rule_step r at_ v (default new_state (acc.1 !! key)) in
      (<[key := st]> acc.1, if fired then acc.2 ++ [MkAlert (ID r) vmID at_ v] else acc.2)
  end.

(** ** Incidents *)

Record AlertmanagerAlert := MkAMAlert {
  am_Status : string; am_Labels : gmap string string; am_Annotations : gmap string string;
  am_StartsAt : Z; am_Fingerprint : string
}.
Record AlertmanagerPayload := MkPayload { pl_Status : string; pl_Alerts : list AlertmanagerAlert }.

Record Incident := MkIncident {
  inc_ID : string; Fingerprint : string; Alertname : string; Severity : string; Status : string;
  Summary : string; Description : string; inc_Instance : string; inc_VMID : string;
  Labels : gmap string string; Annotations : gmap string string;
  StartsAt : Z; EndsAt : option Z; UpdatedAt : Z; Source : string
}.

Definition maxTrackedIncidents : nat := 500.

(** The fingerprint of the oldest incident satisfying [p], "" when none. *)
Definition older (p : Incident -> bool) (best : string * Z) (e : string * Incident) : string * Z :=
  if p e.2 && (String.eqb best.1 "" || before (UpdatedAt e.2) best.2) then (e.1, UpdatedAt e.2) else best.

Definition oldest (p : Incident -> bool) (m : gmap string Incident) : string :=
  (foldl (older p) ("", time_zero) (map_to_list m)).1.

Fixpoint evict (fuel : nat) (p : Incident -> bool) (m : gmap string Incident) : gmap string Incident :=
  match fuel with
  | O => m
  | S fuel =>
      if Nat.leb (size m) maxTrackedIncidents then m else
      let fp := oldest p m in
      if String.eqb fp "" then m else evict fuel p (delete fp m)
  end.

Definition is_resolved (i : Incident) : bool := String.eqb (Status i) "resolved".

Definition enforceCapacityLocked (m : gmap string Incident) : gmap string Incident :=
  if Nat.leb (size m) maxTrackedIncidents then m else
  let m := evict (size m) is_resolved m in
  evict (size m) (fun _ => true) m.

(** [first_of [a; b; c]]: the first that is not empty. *)
Definition first_of (l : list string) : string :=
  default "" (List.find (fun s => negb (String.eqb s "")) l).
Definition label (m : gmap string string) (k : string) : string := default "" (m !! k).

Section Engine.
(** Hex digits of SHA-256; the order of [sort.Slice]. *)
Context (sha256_hex : string -> string) (sort_incidents : list Incident -> list Incident).
Context {W WI : Type} `{Persist (list AlertRule) W} `{Persist (list Incident) WI}.

Record AlertEngine := MkEngine {
  rules : list AlertRule;
  states : gmap string ruleState;
  incidents : gmap string Incident;
  rules_disk : W;
  incidents_disk : WI
}.

Definition NewAlertEngine (w : W) (wi : WI) : AlertEngine := MkEngine [] ∅ ∅ w wi.

Definition Load (e : AlertEngine) : AlertEngine :=
  MkEngine (match stored (rules_disk e) with Some (Whole l) => l | _ => rules e end) (states e)
    (match stored (incidents_disk e) with
     | Some (Whole l) => foldl (fun m i => <[Fingerprint i := i]> m) (incidents e) l
     | _ => incidents e
     end) (rules_disk e) (incidents_disk e).

Definition saveRules (e : AlertEngine) : bool * AlertEngine :=
  let '(ok, w) := save (rules e) (rules_disk e) in
  (ok, MkEngine (rules e) (states e) (incidents e) w (incidents_disk e)).

Definition saveIncidentsLocked (e : AlertEngine) : bool * AlertEngine :=
  let '(ok, wi) := save (sort_incidents (map snd (map_to_list (incidents e)))) (incidents_disk e) in
  (ok, MkEngine (rules e) (states e) (incidents e) (rules_disk e) wi).

Definition Save (e : AlertEngine) : bool * AlertEngine :=
  let '(ok, e) := saveRules e in if ok then saveIncidentsLocked e else (false, e).

Definition pair_le (a b : string * string) : Prop := String.leb a.1 b.1 = true.
#[export] Instance pair_le_dec : RelDecision pair_le.
Proof. intros a b. unfold pair_le. apply _. Defined.

Definition fingerprint (a : AlertmanagerAlert) : string :=
  if String.eqb (am_Fingerprint a) "" then
    take_str 16 (sha256_hex (foldl (fun s kv => s +:+ kv.1 +:+ "=" +:+ kv.2 +:+ ";") ""
      (merge_sort pair_le (map_to_list (am_Labels a)))))
  else am_Fingerprint a.

Definition ingest_one (now : Z) (payload_status : string) (m : gmap string Incident) (a : AlertmanagerAlert)
    : Incident :=
  let fp := fingerprint a in
  let alertname := first_of [label (am_Labels a) "alertname"; "External Alert"] in
  let status := first_of [am_Status a; payload_status; "firing"] in
  let ann := label (am_Annotations a) in
  let '(id, starts, source) :=
    match m !! fp with
    | Some i => (inc_ID i, StartsAt i, Source i)
    | None => (fp, if is_zero (am_StartsAt a) then now else am_StartsAt a, "alertmanager")
    end in
  MkIncident id (match m !! fp with Some i => Fingerprint i | None => fp end) alertname
    (first_of [label (am_Labels a) "severity"; "warning"]) status
    (first_of [ann "summary"; ann "description"; alertname])
    (first_of [ann "description"; ann "message"])
    (label (am_Labels a) "instance") (first_of [label (am_Labels a) "vm_id"; label (am_Labels a) "vmid"])
    (am_Labels a) (am_Annotations a) starts
    (if String.eqb status "resolved" then Some now else None) now source.

Fixpoint ingest (now : Z) (payload_status : string) (l : list AlertmanagerAlert) (m : gmap string Incident)
    : list Incident * gmap string Incident :=
  match l with
  | [] => ([], m)
  | a :: l =>
      let i := ingest_one now payload_status m a in
      let '(processed, m) := ingest now payload_status l (<[fingerprint a := i]> m) in
      (i :: processed, m)
  end.

(** [IngestAlertmanager]: the processed incidents are also broadcast. *)
Definition IngestAlertmanager (p : AlertmanagerPayload) (now : Z) (e : AlertEngine) : list Incident * AlertEngine :=
  let '(processed, m) := ingest now (pl_Status p) (pl_Alerts p) (incidents e) in
  (processed, (saveIncidentsLocked
    (MkEngine (rules e) (states e) (enforceCapacityLocked m) (rules_disk e) (incidents_disk e))).2).

Definition Incidents (e : AlertEngine) : list Incident :=
  sort_incidents (map snd (map_to_list (incidents e))).

Definition ClearResolvedIncidents (e : AlertEngine) : AlertEngine :=
  (saveIncidentsLocked (MkEngine (rules e) (states e)
     (map_delete_if (fun _ i => is_resolved i) (incidents e)) (rules_disk e) (incidents_disk e))).2.

(** ** Rules *)

Definition live_rule (l : list AlertRule) (id : string) : bool :=
  existsb (fun r => rule_Enabled r && String.eqb (ID r) id) l.

Definition pruneStatesLocked (l : list AlertRule) (m : gmap string ruleState) : gmap string ruleState :=
  map_delete_if (fun key _ => match splitRuleKey key with
                              | None => true
                              | Some (id, _) => negb (live_rule l id)
                              end) m.

Definition SetRules (vmID : string) (l : list AlertRule) (e : AlertEngine) : res string unit * AlertEngine :=
  match head (omap (fun r => match Validate r with Err x => Some x | Ok _ => None end) l) with
  | Some x => (Err x, e)
  | None =>
      let kept := List.filter (fun r => negb (String.eqb (rule_VMID r) vmID)) (rules e) ++ l in
      let '(ok, e) := saveRules (MkEngine kept (pruneStatesLocked kept (states e)) (incidents e)
                                          (rules_disk e) (incidents_disk e)) in
      (if ok then Ok tt else Err "save", e)
  end.

Definition RulesFor (vmID : string) (e : AlertEngine) : list AlertRule :=
  List.filter (fun r => applies r vmID) (rules e).

(** [Active]: the firing rules, and the engine without stale firing states. *)
Definition stale (l : list AlertRule) (key : string) (st : ruleState) : bool :=
  bool_decide (state st = Firing) &&
  match splitRuleKey key with
  | None => false
  | Some (id, _) => match List.find (fun r => String.eqb (ID r) id) l with
                    | Some r => negb (rule_Enabled r)
                    | None => true
                    end
  end.

Definition Active (e : AlertEngine) : list (AlertRule * string * float * Z) * AlertEngine :=
  (omap (fun ks : string * ruleState =>
     if bool_decide (state ks.2 = Firing) then
       '(id, vm) ← splitRuleKey ks.1;
       r ← List.find (fun r => String.eqb (ID r) id) (rules e);
       if rule_Enabled r then Some (r, vm, lastValue ks.2, time_unix (lastFired ks.2)) else None
     else None) (map_to_list (states e)),
   MkEngine (rules e) (map_delete_if (stale (rules e)) (states e)) (incidents e) (rules_disk e) (incidents_disk e)).

(** [Evaluate]: the alerts fired by one sample set. *)
Definition Evaluate (vmID : string) (at_ : Z) (m : VMMetrics) (e : AlertEngine) : AlertEngine * list alert :=
  let '(st, fired) := foldl (fun acc r => eval_rule vmID at_ m r acc) (states e, []) (rules e) in
  (MkEngine (rules e) st (incidents e) (rules_disk e) (incidents_disk e), fired).

End Engine.

(** ** A rule watched on one machine *)

Definition feed (r : AlertRule) (acc : ruleState * list Z) (s : Z * float) : ruleState * list Z :=
  let '(st, fired) := rule_step r s.1 s.2 acc.1 in (st, if fired then acc.2 ++ [s.1] else acc.2).

(** The state and the times of the alerts after a series of samples. *)
Definition rule_run (r : AlertRule) (l : list (Z * float)) : ruleState * list Z :=
  foldl (feed r) (new_state, []) l.

(** At [t] the threshold had been crossed by every sample of a window at least
    [duration] long. *)
Definition sustained (r : AlertRule) (l : list (Z * float)) (t : Z) : Prop :=
  exists a s v0 b c, l = a ++ ((s, v0) :: b) ++ c /\
    Forall (fun x => crossed r x.2 = true) ((s, v0) :: b) /\
    fst <$> last ((s, v0) :: b) = Some t /\ duration r <= time_sub t s.

Definition spaced (r : AlertRule) (ts : list Z) : Prop :=
  forall i t1 t2, ts !! i = Some t1 -> ts !! S i = Some t2 -> cooldown r <= time_sub t2 t1.

Definition pending_since (r : AlertRule) (l : list (Z * float)) (s : Z) : Prop :=
  exists a v0 b, l = a ++ (s, v0) :: b /\ Forall (fun x => crossed r x.2 = true) ((s, v0) :: b).

Record run_inv (r : AlertRule) (l : list (Z * float)) (st : ruleState) (ts : list Z) : Prop := {
  ri_last : lastFired st = default time_zero (last ts);
  ri_pending : state st = Pending -> pending_since r l (pendingSince st);
  ri_spaced : spaced r ts;
  ri_sustained : Forall (sustained r l) ts
}.

Lemma sustained_app r l l' t : sustained r l t -> sustained r (l ++ l') t.
Proof.
  intros (a & s & v0 & b & c & -> & H). exists a, s, v0, b, (c ++ l'). split; [|done].
  by rewrite <- !app_assoc.
Qed.

Lemma spaced_snoc r ts t :
  spaced r ts -> (ts = [] \/ cooldown r <= time_sub t (default time_zero (last ts))) -> spaced r (ts ++ [t]).
Proof.
  intros Hs Ht i t1 t2 H1 H2. apply lookup_app_Some in H2 as [H2|[Hlen H2]].
  - apply (Hs i); [|done]. rewrite lookup_app_l in H1; [done|]. apply lookup_lt_Some in H2. lia.
  - assert (S i - length ts = 0)%nat as E by (apply list_lookup_singleton_Some in H2; lia).
    rewrite E in H2. injection H2 as <-. rewrite lookup_app_l in H1 by lia.
    destruct Ht as [->|Ht]; [done|].
    rewrite last_lookup in Ht. replace (pred (length ts)) with i in Ht by lia. by rewrite H1 in Ht.
Qed.

Lemma pending_snoc r l s x : pending_since r l s -> crossed r x.2 = true -> pending_since r (l ++ [x]) s.
Proof.
  intros (a & v0 & b & -> & Hall) Hc. exists a, v0, (b ++ [x]). split; [by rewrite <- app_assoc|].
  rewrite app_comm_cons. apply Forall_app. by split; [|constructor].
Qed.

Lemma pending_new r l (at_ : Z) v : crossed r v = true -> pending_since r (l ++ [(at_, v)]) at_.
Proof. intros Hc. exists l, v, []. split; [done|]. by constructor. Qed.

Lemma feed_inv r l st ts x :
  run_inv r l st ts -> let '(st', ts') := feed r (st, ts) x in run_inv r (l ++ [x]) st' ts'.
Proof.
  intros [H1 H2 H3 H4]. destruct x as [at_ v]. unfold feed, rule_step. simpl.
  assert (Hold : Forall (sustained r (l ++ [(at_, v)])) ts)
    by (eapply Forall_impl; [exact H4|]; intros t; apply sustained_app).
  destruct (state st) eqn:Est; simpl.
  - destruct (crossed r v) eqn:Ec; split; simpl; try done. intros _. by apply pending_new.
  - destruct (crossed r v) eqn:Ec; simpl; [|by split].
    destruct (Z.leb_spec (duration r) (time_sub at_ (pendingSince st))) as [Hd|]; simpl.
    2:{ split; simpl; try done. intros _. apply pending_snoc; [by apply H2|done]. }
    destruct (Z.leb_spec (cooldown r) (time_sub at_ (lastFired st))) as [Hcd|]; simpl.
    2:{ split; simpl; try done. intros _. apply pending_snoc; [by apply H2|done]. }
    split; simpl; [by rewrite last_snoc|done| |].
    + apply spaced_snoc; [done|]. right. by rewrite <- H1.
    + apply Forall_app. split; [done|]. constructor; [|done].
      destruct (H2 eq_refl) as (a & v0 & b & -> & Hall). exists a, (pendingSince st), v0, (b ++ [(at_, v)]), [].
      split_and!; [by rewrite app_nil_r, <- app_assoc|..].
      * rewrite app_comm_cons. apply Forall_app. split; [done|by constructor].
      * by rewrite app_comm_cons, last_snoc.
      * done.
  - destruct (crossed r v) eqn:Ec; simpl; [|by split].
    destruct (Z.leb_spec (cooldown r) (time_sub at_ (lastFired st))) as [Hcd|]; simpl; split; simpl; try done.
    intros _. by apply pending_new.
Qed.

Lemma rule_run_inv r l : run_inv r l (rule_run r l).1 (rule_run r l).2.
Proof.
  induction l as [|x l IH] using rev_ind; [by split|].
  unfold rule_run in *. rewrite foldl_app. cbn [foldl]. destruct (foldl _ _ l) as [st ts].
  pose proof (feed_inv r l st ts x IH). by destruct (feed r (st, ts) x).
Qed.

(** ** The engine runs every rule on every machine independently *)

Lemma splitRuleKey_ruleKey id vm :
  contains_byte "/" vm = false -> splitRuleKey (ruleKey id vm) = Some (id, vm).
Proof.
  intros Hvm. unfold splitRuleKey, ruleKey. change ("/" +:+ vm) with (String "/" vm).
  rewrite last_index_byte_app by done. rewrite take_str_app_length. f_equal. f_equal.
  replace (S (slen id)) with (slen (id +:+ "/")) by (rewrite slen_app; simpl; lia).
  change (String "/" vm) with ("/" +:+ vm). by rewrite <- app_str_assoc, drop_str_app_length.
Qed.

Lemma ruleKey_inj id vm id' vm' :
  contains_byte "/" vm = false -> contains_byte "/" vm' = false ->
  ruleKey id vm = ruleKey id' vm' -> id = id' /\ vm = vm'.
Proof.
  intros H1 H2 E. pose proof (splitRuleKey_ruleKey id vm H1) as S1. rewrite E, splitRuleKey_ruleKey in S1 by done.
  by injection S1 as -> ->.
Qed.

(** What the engine knows about rule [id] on machine [vm]. *)
Definition is_alert (id vm : string) (a : alert) : bool := String.eqb (al_Rule a) id && String.eqb (al_VM a) vm.
Definition fire_times (id vm : string) (l : list alert) : list Z := map al_At (List.filter (is_alert id vm) l).
Definition view (id vm : string) (acc : gmap string ruleState * list alert) : ruleState * list Z :=
  (default new_state (acc.1 !! ruleKey id vm), fire_times id vm acc.2).

Lemma fire_times_app id vm l1 l2 : fire_times id vm (l1 ++ l2) = fire_times id vm l1 ++ fire_times id vm l2.
Proof. unfold fire_times. by rewrite List.filter_app, map_app. Qed.

Lemma view_other r id vm vm' at_ m acc :
  contains_byte "/" vm = false -> contains_byte "/" vm' = false -> ID r <> id \/ vm' <> vm ->
  view id vm (eval_rule vm' at_ m r acc) = view id vm acc.
Proof.
  intros Hv Hv' Hne. unfold eval_rule. destruct (negb (applies r vm')); [done|].
  destruct (negb (rule_Enabled r)); [done|]. destruct (metricValue m (Metric r)) as [v|]; [|done].
  destruct (rule_step r at_ v _) as [st fired]. unfold view. simpl.
  assert (Hkey : ruleKey (ID r) vm' <> ruleKey id vm).
  { intros E. destruct (ruleKey_inj _ _ _ _ Hv' Hv E). tauto. }
  rewrite lookup_insert_ne by done. f_equal. destruct fired; [|done]. rewrite fire_times_app.
  unfold fire_times at 2, is_alert. simpl.
  destruct (String.eqb_spec (ID r) id), (String.eqb_spec vm' vm); simpl; try by rewrite app_nil_r. tauto.
Qed.

Lemma view_self r vm at_ m acc :
  rule_Enabled r = true -> applies r vm = true ->
  view (ID r) vm (eval_rule vm at_ m r acc)
  = match metricValue m (Metric r) with None => view (ID r) vm acc | Some v => feed r (view (ID r) vm acc) (at_, v) end.
Proof.
  intros He Ha. unfold eval_rule. rewrite He, Ha. cbn [negb]. destruct (metricValue m (Metric r)) as [v|]; [|done].
  unfold feed, view. simpl. destruct (rule_step r at_ v _) as [st fired]. simpl. rewrite lookup_insert_eq. simpl.
  destruct fired; [|done]. rewrite fire_times_app. unfold fire_times at 2, is_alert. simpl.
  by rewrite !String.eqb_refl.
Qed.

Lemma view_others l id vm vm' at_ m acc :
  contains_byte "/" vm = false -> contains_byte "/" vm' = false ->
  vm' <> vm \/ id ∉ map ID l ->
  view id vm (foldl (fun acc r => eval_rule vm' at_ m r acc) acc l) = view id vm acc.
Proof.
  intros Hv Hv'. revert acc. induction l as [|r l IH]; intros acc Hne; [done|]. cbn [foldl].
  rewrite IH by (destruct Hne; [by left|right; set_solver]). apply view_other; [done|done|].
  destruct Hne as [?|Hn]; [by right|left]. intros E. apply Hn. rewrite <- E. by left.
Qed.

Record sample := MkSample { s_VM : string; s_At : Z; s_Metrics : VMMetrics }.

(** The samples a rule sees on a machine. *)
Definition seen (r : AlertRule) (vm : string) (l : list sample) : list (Z * float) :=
  omap (fun s => if String.eqb (s_VM s) vm then pair (s_At s) <$> metricValue (s_Metrics s) (Metric r) else None) l.

Lemma view_sample l r vm s acc :
  NoDup (map ID l) -> r ∈ l -> rule_Enabled r = true -> applies r vm = true ->
  contains_byte "/" vm = false -> contains_byte "/" (s_VM s) = false ->
  view (ID r) vm (foldl (fun acc r => eval_rule (s_VM s) (s_At s) (s_Metrics s) r acc) acc l)
  = foldl (feed r) (view (ID r) vm acc) (seen r vm [s]).
Proof.
  intros Hnd Hr He Ha Hv Hs. unfold seen. simpl. destruct (String.eqb_spec (s_VM s) vm) as [E|Hne].
  2:{ simpl. by apply view_others; [..|left]. }
  rewrite E in *. apply list_elem_of_split in Hr as (l1 & l2 & ->).
  rewrite map_app in Hnd. simpl in Hnd. apply NoDup_app in Hnd as (_ & H1 & H2).
  apply NoDup_cons in H2 as [H2 _]. rewrite foldl_app. cbn [foldl].
  rewrite view_others; [|done|done|by right]. rewrite view_self by done.
  rewrite view_others; [|done|done|right; intros Hin; apply (H1 _ Hin); by left].
  by destruct (metricValue (s_Metrics s) (Metric r)).
Qed.

Section Discipline.
Context {W WI : Type} `{Persist (list AlertRule) W} `{Persist (list Incident) WI}.
Implicit Types e : AlertEngine (W := W) (WI := WI).

(** A run of the collector: every sample is evaluated. *)
Definition evaluate_all (l : list sample) e : AlertEngine * list alert :=
  foldl (fun ef s => let '(e, f) := Evaluate (s_VM s) (s_At s) (s_Metrics s) ef.1 in (e, ef.2 ++ f)) (e, []) l.

Lemma eval_fold_acc vm at_ m l st (base f : list alert) :
  foldl (fun acc r => eval_rule vm at_ m r acc) (st, base ++ f) l
  = let acc := foldl (fun acc r => eval_rule vm at_ m r acc) (st, f) l in (acc.1, base ++ acc.2).
Proof.
  revert st f. induction l as [|r l IH]; intros st f; [done|]. cbn [foldl].
  assert (eval_rule vm at_ m r (st, base ++ f)
          = let acc := eval_rule vm at_ m r (st, f) in (acc.1, base ++ acc.2)) as ->.
  { unfold eval_rule. destruct (negb (applies r vm)); [done|]. destruct (negb (rule_Enabled r)); [done|].
    destruct (metricValue m (Metric r)); [|done]. simpl. destruct (rule_step _ _ _ _) as [st' []]; simpl; [|done].
    by rewrite app_assoc. }
  cbv zeta. rewrite IH. by destruct (eval_rule vm at_ m r (st, f)).
Qed.

Lemma evaluate_all_view l e r vm :
  NoDup (map ID (rules e)) -> states e = ∅ -> r ∈ rules e -> rule_Enabled r = true -> applies r vm = true ->
  contains_byte "/" vm = false -> Forall (fun s => contains_byte "/" (s_VM s) = false) l ->
  rules (evaluate_all l e).1 = rules e /\
  view (ID r) vm (states (evaluate_all l e).1, (evaluate_all l e).2) = rule_run r (seen r vm l).
Proof.
  intros Hnd Hst Hr He Ha Hv. induction l as [|s l IH] using rev_ind; intros Hall.
  { unfold evaluate_all, view. simpl. by rewrite Hst, lookup_empty. }
  apply Forall_app in Hall as [Hall Hs]. apply Forall_cons in Hs as [Hs _]. destruct (IH Hall) as [IHr IHv].
  unfold evaluate_all in *. rewrite foldl_app. cbn [foldl]. set (ef := foldl _ _ l) in *.
  unfold Evaluate. rewrite IHr.
  pose proof (eval_fold_acc (s_VM s) (s_At s) (s_Metrics s) (rules e) (states ef.1) ef.2 []) as Hacc.
  pose proof (view_sample (rules e) r vm s (states ef.1, ef.2) Hnd Hr He Ha Hv Hs) as Hview.
  rewrite app_nil_r in Hacc. rewrite Hacc in Hview. cbv zeta in Hview.
  destruct (foldl _ (states ef.1, []) _) as [st f]. simpl in *. split; [done|]. rewrite Hview, IHv.
  unfold rule_run, seen. rewrite omap_app, foldl_app. done.
Qed.

End Discipline.

(** ** The incident table is bounded *)

Lemma older_fold p l best :
  (forall fp i, (fp, i) ∈ l -> fp <> "") ->
  let r := foldl (older p) best l in
  (r.1 = "" -> best.1 = "" /\ forall e, e ∈ l -> p e.2 = false) /\
  (r.1 <> "" -> r.1 = best.1 \/ exists i, (r.1, i) ∈ l /\ p i = true).
Proof.
  revert best. induction l as [|[fp i] l IH]; intros best Hne; simpl.
  - split; [|by left]. intros ->. split; [done|]. by intros e ?%not_elem_of_nil.
  - assert (Hfp : fp <> "") by (apply (Hne fp i); by left).
    destruct (IH (older p best (fp, i)) ltac:(intros; eapply Hne; by right)) as [H1 H2]. split.
    + intros (Hb & Hall)%H1. unfold older in Hb. simpl in Hb. destruct (p i) eqn:Ep; simpl in Hb.
      * destruct (String.eqb_spec best.1 ""); simpl in Hb; [done|]. by destruct (before _ _).
      * split; [done|]. intros e [->|He]%elem_of_cons; [done|by apply Hall].
    + intros [Hr|(j & Hj & Hp)]%H2; [|right; exists j; split; [by right|done]].
      rewrite Hr. unfold older. simpl. destruct (p i && _) eqn:E; [|by left].
      right. exists i. split; [by left|]. by apply andb_prop in E as [? _].
Qed.

Lemma oldest_spec p (m : gmap string Incident) :
  m !! "" = None ->
  (oldest p m = "" -> forall fp i, m !! fp = Some i -> p i = false) /\
  (oldest p m <> "" -> exists i, m !! oldest p m = Some i /\ p i = true).
Proof.
  intros Hm. unfold oldest.
  destruct (older_fold p (map_to_list m) ("", time_zero)) as [H1 H2].
  { intros fp i ?%elem_of_map_to_list ->. congruence. }
  split.
  - intros (_ & Hall)%H1 fp i Hi. by apply (Hall (fp, i)), elem_of_map_to_list.
  - intros Hne. destruct (H2 Hne) as [?|(i & Hi & Hp)]; [done|]. exists i.
    by apply elem_of_map_to_list in Hi.
Qed.

Lemma size_delete_lt (m : gmap string Incident) fp i : m !! fp = Some i -> size m = S (size (delete fp m)).
Proof. intros Hi. by rewrite <- (insert_delete_id m fp i Hi) at 1; rewrite map_size_insert_None by apply lookup_delete_eq. Qed.

Lemma evict_spec p fuel (m : gmap string Incident) :
  m !! "" = None -> (size m <= fuel)%nat ->
  let m' := evict fuel p m in
  m' ⊆ m /\
  (forall fp i, m !! fp = Some i -> m' !! fp = None -> p i = true) /\
  ((size m' <= maxTrackedIncidents)%nat \/ forall fp i, m' !! fp = Some i -> p i = false).
Proof.
  revert m. induction fuel as [|fuel IH]; intros m Hm Hs; cbn [evict].
  - split_and!; [done|congruence|]. left. unfold maxTrackedIncidents. lia.
  - destruct (Nat.leb_spec (size m) maxTrackedIncidents) as [Hle|Hgt]; [split_and!; [done|congruence|by left]|].
    destruct (oldest_spec p m Hm) as [H1 H2]. destruct (String.eqb_spec (oldest p m) "") as [E|E].
    + split_and!; [done|congruence|]. right. by apply H1.
    + destruct (H2 E) as (i & Hi & Hp). pose proof (size_delete_lt m _ i Hi) as Hsz.
      destruct (IH (delete (oldest p m) m)) as (Ha & Hb & Hc); [by rewrite lookup_delete_ne|lia|].
      split_and!; [by etrans; [|apply delete_subseteq]| |done].
      intros fp j Hj Hn. destruct (decide (fp = oldest p m)) as [->|Hne]; [congruence|].
      apply (Hb fp j); [|done]. by rewrite lookup_delete_ne.
Qed.

Lemma evict_no_empty p fuel (m : gmap string Incident) :
  m !! "" = None -> (size m <= fuel)%nat -> evict fuel p m !! "" = None.
Proof.
  intros Hm Hs. destruct (evict_spec p fuel m Hm Hs) as (Ha & _). by apply (lookup_weaken_None _ m).
Qed.

(** Capacity, what is evicted, and in which order. *)
Lemma enforceCapacity_spec (m : gmap string Incident) :
  m !! "" = None ->
  let m' := enforceCapacityLocked m in
  (size m' <= maxTrackedIncidents)%nat /\ m' ⊆ m /\
  (forall fp i, m !! fp = Some i -> m' !! fp = None -> is_resolved i = false ->
     forall fp' i', m' !! fp' = Some i' -> is_resolved i' = false).
Proof.
  intros Hm. unfold enforceCapacityLocked.
  destruct (Nat.leb_spec (size m) maxTrackedIncidents) as [Hle|Hgt]; [split_and!; [done|done|congruence]|].
  destruct (evict_spec is_resolved (size m) m Hm (le_n _)) as (Ha & Hb & Hc).
  pose proof (evict_no_empty is_resolved (size m) m Hm (le_n _)) as Hm1.
  set (m1 := evict (size m) is_resolved m) in *.
  destruct (evict_spec (fun _ => true) (size m1) m1 Hm1 (le_n _)) as (Ha2 & Hb2 & Hc2).
  set (m2 := evict (size m1) (fun _ => true) m1) in *. split_and!.
  - destruct Hc2 as [?|Hall]; [done|]. destruct (decide (m2 = ∅)) as [->|Hne].
    + rewrite map_size_empty. unfold maxTrackedIncidents. lia.
    + apply map_choose in Hne as (fp & i & Hi). by apply Hall in Hi.
  - by etrans.
  - intros fp i Hi Hn Hr fp' i' Hi'.
    destruct (m1 !! fp) as [j|] eqn:E.
    + assert (j = i) as -> by (eapply lookup_weaken in E; [|exact Ha]; congruence).
      destruct Hc as [Hle|Hall]; [|by eapply Hall, (lookup_weaken m2 m1)].
      exfalso. assert (m2 = m1) as Heq; [|congruence]. unfold m2. destruct (size m1) as [|n] eqn:Es; [done|].
      cbn [evict]. rewrite Es. by rewrite (proj2 (Nat.leb_le _ _) Hle).
    + specialize (Hb fp i Hi E). congruence.
Qed.

Section Incidents.
Context (sha256_hex : string -> string) (sort_incidents : list Incident -> list Incident).
Context {W WI : Type} `{Persist (list AlertRule) W} `{Persist (list Incident) WI}.
(** A digest has digits. *)
Hypothesis sha256_digits : forall s, sha256_hex s <> "".

Lemma fingerprint_ne a : fingerprint sha256_hex a <> "".
Proof.
  unfold fingerprint. destruct (String.eqb_spec (am_Fingerprint a) ""); [|done].
  pose proof (sha256_digits (foldl (fun s kv => s +:+ kv.1 +:+ "=" +:+ kv.2 +:+ ";") ""
    (merge_sort pair_le (map_to_list (am_Labels a))))) as Hd.
  by destruct (sha256_hex _).
Qed.

Lemma ingest_no_empty now ps l (m : gmap string Incident) :
  m !! "" = None -> (ingest sha256_hex now ps l m).2 !! "" = None.
Proof.
  revert m. induction l as [|a l IH]; intros m Hm; simpl; [done|].
  specialize (IH (<[fingerprint sha256_hex a := ingest_one sha256_hex now ps m a]> m)).
  destruct (ingest _ _ _ l _). simpl in *. apply IH. rewrite lookup_insert_ne; [done|apply fingerprint_ne].
Qed.

(** The incident table stays bounded whatever a webhook sends: after every
    payload at most 500 incidents are tracked, and an incident that is not
    resolved is evicted only when no resolved one is left. *)
Theorem incidents_bounded p now (e : AlertEngine (W := W) (WI := WI)) :
  incidents e !! "" = None ->
  let m := (ingest sha256_hex now (pl_Status p) (pl_Alerts p) (incidents e)).2 in
  let m' := incidents (IngestAlertmanager sha256_hex sort_incidents p now e).2 in
  (size m' <= maxTrackedIncidents)%nat /\ m' ⊆ m /\ m' !! "" = None /\
  (forall fp i, m !! fp = Some i -> m' !! fp = None -> is_resolved i = false ->
     forall fp' i', m' !! fp' = Some i' -> is_resolved i' = false).
Proof.
  intros He m m'. pose proof (ingest_no_empty now (pl_Status p) (pl_Alerts p) (incidents e) He) as Hm.
  assert (m' = enforceCapacityLocked m) as ->.
  { unfold m', m, IngestAlertmanager. destruct (ingest _ _ _ _ _) as [pr mm]. simpl.
    unfold saveIncidentsLocked. simpl. by destruct (save _ _). }
  destruct (enforceCapacity_spec m Hm) as (H1 & H2 & H3). split_and!; [done|done| |done].
  by apply (lookup_weaken_None _ m).
Qed.
End Incidents.

Module AlertDemo.
Definition num (n : positive) : float := S754_finite false n 0.
Definition cpu_rule : AlertRule := MkRule "r1" "" "" "cpu" (num 90) true 60 600 true.
Definition cpu (v : positive) : VMMetrics := MkMetrics [num v] [] [] [] [] [].
#[global] Instance unit_rules : Persist (list AlertRule) unit.
Proof. refine {| save := fun _ _ => (false, tt); stored := fun _ => None |}. done. Defined.
#[global] Instance unit_incidents : Persist (list Incident) unit.
Proof. refine {| save := fun _ _ => (false, tt); stored := fun _ => None |}. done. Defined.
Definition engine : AlertEngine (W := unit) (WI := unit) := MkEngine [cpu_rule] ∅ ∅ tt tt.
(** A sample of machine "a" every 30 s from noon of 1 January 2024 on, with a
    one-sample spike of machine "b" in between. *)
Definition t0 : Z := 1704110400 * second.
Definition samples : list sample :=
  MkSample "b" t0 (cpu 99) :: MkSample "b" (t0 + 30 * second) (cpu 10)
  :: map (fun i => MkSample "a" (t0 + i * 30 * second) (cpu 95)) [0; 1; 2; 3; 4].

Example one_alert : fire_times "r1" "a" (evaluate_all samples engine).2 = [t0 + 60 * second]
                    /\ fire_times "r1" "b" (evaluate_all samples engine).2 = [].
Proof. vm_compute. by split. Qed.
End AlertDemo.


Lemma incidents_bounded_witness :
  let p := MkPayload "firing" (replicate 3 (MkAMAlert "" ∅ ∅ time_zero "")) in
  (size (incidents (IngestAlertmanager (fun _ => "0") id p 0 AlertDemo.engine).2) <= maxTrackedIncidents)%nat.
Proof.
  intros p. apply (incidents_bounded (fun _ => "0") id) with (e := AlertDemo.engine).
  - intros s. discriminate.
  - reflexivity.
Defined.
