(* ===== verification/History.v ===== *)
(** * History: metric time series, minute and hour buckets

    Models [metrics/history.go].  Sums and averages are binary64
    ([spec_float], rounded to nearest even).  A JSONL file is a list of tokens:
    the objects the encoder writes and the newlines between them; a line is
    what lies between two newlines, and parses when it is exactly one object.
    A failed append is taken to write nothing, and [Flush] runs as one step. *)

From S2P Require Export Alerts GoPath.
Open Scope Z_scope.

Definition fzero : float := S754_zero false.
Definition fadd (x y : float) : float := SFadd 53 1024 x y.
Definition fdiv (x y : float) : float := SFdiv 53 1024 x y.
(** [float64(n)] *)
Definition of_int (n : Z) : float := binary_normalize 53 1024 n 0 false.
Definition finite (x : float) : bool :=
  match x with S754_zero _ | S754_finite _ _ _ => true | _ => false end.

(** ** Buckets *)

Record agg := MkAgg { Sum : float; Count : Z; Max : float }.
Definition agg0 : agg := MkAgg fzero 0 fzero.

Definition avg (a : agg) : float := if Count a =? 0 then fzero else fdiv (Sum a) (of_int (Count a)).

Definition agg_add (v : float) (a : agg) : agg :=
  MkAgg (fadd (Sum a) v) (wrap64 (Count a + 1)) (if SFltb (Max a) v then v else Max a).

Record bucket := MkBucket {
  b_CPU : agg; b_RAM : agg; b_DiskR : agg; b_DiskW : agg; b_NetRx : agg; b_NetTx : agg
}.
Definition bucket0 : bucket := MkBucket agg0 agg0 agg0 agg0 agg0 agg0.

Definition aggFor (kind : string) (b : bucket) : option agg :=
  if String.eqb kind "cpu" then Some (b_CPU b)
  else if String.eqb kind "ram" then Some (b_RAM b)
  else if String.eqb kind "disk_r" then Some (b_DiskR b)
  else if String.eqb kind "disk_w" then Some (b_DiskW b)
  else if String.eqb kind "net_rx" then Some (b_NetRx b)
  else if String.eqb kind "net_tx" then Some (b_NetTx b)
  else None.

Definition add (kind : string) (v : float) (b : bucket) : bucket :=
  let '(MkBucket c r dr dw rx tx) := b in
  if String.eqb kind "cpu" then MkBucket (agg_add v c) r dr dw rx tx
  else if String.eqb kind "ram" then MkBucket c (agg_add v r) dr dw rx tx
  else if String.eqb kind "disk_r" then MkBucket c r (agg_add v dr) dw rx tx
  else if String.eqb kind "disk_w" then MkBucket c r dr (agg_add v dw) rx tx
  else if String.eqb kind "net_rx" then MkBucket c r dr dw (agg_add v rx) tx
  else if String.eqb kind "net_tx" then MkBucket c r dr dw rx (agg_add v tx)
  else b.

Definition pointsFor (kind : string) (b : bucket) : option float :=
  match aggFor kind b with
  | None => None
  | Some a => if Count a =? 0 then None else Some (avg a)
  end.

Definition MinuteRetention : Z := 24 * hour.
Definition HourRetention : Z := 30 * 24 * hour.
Definition MaxMinuteBuckets : Z := 1440 + 4.
Definition MaxHourBuckets : Z := 30 * 24 + 4.

Abbreviation buckets := (gmap Z bucket).
Abbreviation series := (gmap string buckets).

(** The loop for the oldest key. *)
Definition oldest_key (m : buckets) : option Z :=
  foldl (fun o k => match o with None => Some k | Some x => Some (if k <? x then k else x) end)
    None (map fst (map_to_list m)).

(** [bucketAt]: the series with room for [key] and its bucket in it. *)
Definition bucketAt (key maxBuckets : Z) (byKey : buckets) : buckets :=
  match byKey !! key with
  | Some _ => byKey
  | None =>
      let byKey :=
        if maxBuckets <=? Z.of_nat (size byKey) then
          match oldest_key byKey with Some k => delete k byKey | None => delete 0 byKey end
        else byKey in
      <[key := bucket0]> byKey
  end.

(** One sample of every metric the machine reports. *)
Definition add_sample (m : VMMetrics) (b : bucket) : bucket :=
  foldl (fun b kind => match metricValue m kind with Some v => add kind v b | None => b end) b metric_kinds.

Definition record_at (key maxBuckets : Z) (vmID : string) (m : VMMetrics) (s : series) : series :=
  let byKey := bucketAt key maxBuckets (default ∅ (s !! vmID)) in
  <[vmID := alter (add_sample m) key byKey]> s.

(** ** Files *)

Inductive token := Obj (t : Z) (b : bucket) | NL.
Abbreviation content := (list token).

(** The text of an aggregate; a value that is not finite cannot be encoded. *)
Definition agg_ok (a : agg) : bool := finite (Sum a) && finite (Max a).
Definition encodable (b : bucket) : bool :=
  agg_ok (b_CPU b) && agg_ok (b_RAM b) && agg_ok (b_DiskR b) && agg_ok (b_DiskW b)
  && agg_ok (b_NetRx b) && agg_ok (b_NetTx b).

(** [encodeBucket] drops the error: the line is then empty. *)
Definition encodeBucket (key : Z) (b : bucket) : content := if encodable b then [Obj key b] else [].

Fixpoint lines_of (c : content) : list content :=
  match c with
  | [] => [[]]
  | NL :: c => [] :: lines_of c
  | Obj t b :: c => match lines_of c with l :: ls => (Obj t b :: l) :: ls | [] => [[Obj t b]] end
  end.

(** [json.Unmarshal] of a line into a [bucketLine]. *)
Definition parse_line (l : content) : option (Z * bucket) :=
  match l with [Obj t b] => Some (t, b) | _ => None end.

Definition lineTime (l : content) : Z := match parse_line l with Some (t, _) => t | None => 0 end.

Fixpoint join_lines (ls : list content) : content :=
  match ls with
  | [] => []
  | [l] => l
  | l :: ls => l ++ NL :: join_lines ls
  end.

(** What a scanner yields, blank lines skipped. *)
Definition scan (c : content) : list content := List.filter (fun l => negb (Nat.eqb (length l) 0)) (lines_of c).

(** [trimLines]; no rewrite when no line is dropped. *)
Definition trimLines (cut : Z) (c : content) : content :=
  let ls := scan c in
  if forallb (fun l => cut <=? lineTime l) ls then c
  else concat (map (fun l => l ++ [NL]) (List.filter (fun l => cut <=? lineTime l) ls)).

Definition metricsFileName (vmID : string) : option string :=
  if String.eqb vmID "" || negb (String.eqb vmID (Base vmID)) || String.eqb vmID "." || String.eqb vmID ".."
     || negb (all_bytes (fun c => negb (Ascii.eqb c "/" || Ascii.eqb c "\" || (code c =? 10) || (code c =? 13)
                                        || (code c =? 0))) vmID)
  then None else Some (vmID +:+ ".jsonl").

(** ** The store *)

Record TimeSeriesStore := MkStore {
  minutes : series;
  hours : series;
  lastFlushedMin : gmap string Z;
  lastFlushedHour : gmap string Z;
  history_dir : gmap string content;
  rollup_dir : gmap string content
}.

Definition NewTimeSeriesStore : TimeSeriesStore := MkStore ∅ ∅ ∅ ∅ ∅ ∅.

Definition Record_ (vmID : string) (at_ : Z) (m : VMMetrics) (s : TimeSeriesStore) : TimeSeriesStore :=
  let min := time_unix (truncate at_ minute) in
  let hr := time_unix (truncate at_ hour) in
  MkStore (record_at min MaxMinuteBuckets vmID m (minutes s)) (record_at hr MaxHourBuckets vmID m (hours s))
    (lastFlushedMin s) (lastFlushedHour s) (history_dir s) (rollup_dir s).

Record pendingFlush := MkPending { pf_vmID : string; body : content; maxKey : Z }.

Section Flush.
(** [sort.Slice] of lines by time. *)
Context (sort_lines : list content -> list content).

(** The completed buckets of one machine that are not on disk yet. *)
Definition unflushed (last lastCompleted : Z) (byKey : buckets) : list (Z * bucket) :=
  List.filter (fun kb => (kb.1 <=? lastCompleted) && (last <? kb.1)) (map_to_list byKey).

Definition pending (flushed : gmap string Z) (lastCompleted : Z) (s : series) : list pendingFlush :=
  omap (fun vb : string * buckets =>
    let last := default 0 (flushed !! vb.1) in
    match unflushed last lastCompleted vb.2 with
    | [] => None
    | new => Some (MkPending vb.1
               (join_lines (sort_lines (map (fun kb => encodeBucket kb.1 kb.2) new)))
               (foldl (fun m kb => if m <? kb.1 then kb.1 else m) last new))
    end) (map_to_list s).

(** The retention window in memory. *)
Definition prune (cut : Z) (s : series) : series :=
  map_delete_if (fun _ byKey => bool_decide (byKey = ∅)) (map_delete_if (fun k _ => k <? cut) <$> s).

Definition mark (vmID : string) (k : Z) (flushed : gmap string Z) : gmap string Z :=
  if default 0 (flushed !! vmID) <? k then <[vmID := k]> flushed else flushed.

(** [flushChunks]: the files, the watermarks and the first error; [ok] tells
    which appends succeed. *)
Definition flush_chunk (ok : string -> bool) (st : gmap string content * gmap string Z * option string)
    (c : pendingFlush) : gmap string content * gmap string Z * option string :=
  let '(dir, flushed, err) := st in
  let first e := match err with None => Some e | Some _ => err end in
  match metricsFileName (pf_vmID c) with
  | None => (dir, flushed, first "metrics: unsafe vm id")
  | Some name =>
      if ok name then (<[name := default [] (dir !! name) ++ body c]> dir, mark (pf_vmID c) (maxKey c) flushed, err)
      else (dir, flushed, first "append")
  end.

Definition flushChunks (ok : string -> bool) (chunks : list pendingFlush)
    (dir : gmap string content) (flushed : gmap string Z) : gmap string content * gmap string Z * option string :=
  foldl (flush_chunk ok) (dir, flushed, None) chunks.

(** [trimFile]: the files in name order, up to the first that cannot be
    rewritten. *)
Fixpoint trim_files (ok : string -> bool) (cut : Z) (names : list string) (dir : gmap string content)
    : gmap string content * option string :=
  match names with
  | [] => (dir, None)
  | n :: names =>
      if negb (has_suffix ".jsonl" n) then trim_files ok cut names dir
      else if ok n then trim_files ok cut names (alter (trimLines cut) n dir)
      else (dir, Some "trim")
  end.

Definition trimFile (ok : string -> bool) (cut : Z) (dir : gmap string content) : gmap string content * option string :=
  trim_files ok cut (sort_strings (map fst (map_to_list dir))) dir.

(** Which system calls of a flush succeed. *)
Record flush_io := MkIO {
  mkdir_ok : bool; append_min_ok : string -> bool; append_hour_ok : string -> bool;
  trim_min_ok : string -> bool; trim_hour_ok : string -> bool
}.

Definition Flush (now : Z) (io : flush_io) (s : TimeSeriesStore) : option string * TimeSeriesStore :=
  let lastCompletedMin := time_unix (truncate (now - minute) minute) in
  let lastCompletedHour := time_unix (truncate (now - hour) hour) in
  if negb (mkdir_ok io) then (Some "mkdir", s) else
  let minFlush := pending (lastFlushedMin s) lastCompletedMin (minutes s) in
  let hourFlush := pending (lastFlushedHour s) lastCompletedHour (hours s) in
  let mins := prune (time_unix (now - MinuteRetention)) (minutes s) in
  let hrs := prune (time_unix (now - HourRetention)) (hours s) in
  let '(hd, fm, e1) := flushChunks (append_min_ok io) minFlush (history_dir s) (lastFlushedMin s) in
  let '(rd, fh, e2) := flushChunks (append_hour_ok io) hourFlush (rollup_dir s) (lastFlushedHour s) in
  match (match e1 with Some e => Some e | None => e2 end) with
  | Some e => (Some e, MkStore mins hrs fm fh hd rd)
  | None =>
      let '(hd, e3) := trimFile (trim_min_ok io) (time_unix (now - MinuteRetention - hour)) hd in
      match e3 with
      | Some e => (Some e, MkStore mins hrs fm fh hd rd)
      | None =>
          let '(rd, e4) := trimFile (trim_hour_ok io) (time_unix (now - HourRetention - 24 * hour)) rd in
          (e4, MkStore mins hrs fm fh hd rd)
      end
  end.
End Flush.

(** ** Loading *)

Definition load_line (minT : Z) (st : buckets * Z) (l : content) : buckets * Z :=
  match parse_line l with
  | None => st
  | Some (t, b) => if t <? minT then st else (<[t := b]> st.1, if st.2 <? t then t else st.2)
  end.

Definition load_file (minT : Z) (vmID : string) (c : content) (st : series * gmap string Z)
    : series * gmap string Z :=
  let '(m, k) := foldl (load_line minT) (default ∅ (st.1 !! vmID), 0) (scan c) in
  (if bool_decide (m = ∅) then st.1 else <[vmID := m]> st.1, <[vmID := k]> st.2).

Definition loadDir (minT : Z) (dir : gmap string content) (st : series * gmap string Z)
    : series * gmap string Z :=
  foldl (fun st nc => if has_suffix ".jsonl" nc.1 then load_file minT (trim_suffix ".jsonl" nc.1) nc.2 st else st)
    st (map_to_list dir).

Definition Load (now : Z) (s : TimeSeriesStore) : TimeSeriesStore :=
  let '(mins, fm) := loadDir (time_unix (now - MinuteRetention)) (history_dir s) (minutes s, lastFlushedMin s) in
  let '(hrs, fh) := loadDir (time_unix (now - HourRetention)) (rollup_dir s) (hours s, lastFlushedHour s) in
  MkStore mins hrs fm fh (history_dir s) (rollup_dir s).

(** ** Queries *)

Record MetricsSeries := MkSeries { ms_Kind : string; ms_Unit : string; ms_Window : Z; Points : list (Z * float) }.

Definition units : list (string * string) :=
  [("cpu", "%"); ("ram", "%"); ("disk_r", "B/s"); ("disk_w", "B/s"); ("net_rx", "B/s"); ("net_tx", "B/s")].

Definition points (kind : string) (byKey : buckets) (keys : list Z) : list (Z * float) :=
  omap (fun k => b ← byKey !! k; v ← pointsFor kind b; Some (k, v)) keys.

Definition window_keys (cut : Z) (byKey : buckets) : list Z :=
  merge_sort Z.le (List.filter (fun k => cut <=? k) (map fst (map_to_list byKey))).

(** [History]: the six series of a machine over a window ending now. *)
Definition History (vmID : string) (window now : Z) (s : TimeSeriesStore) : list MetricsSeries :=
  let cut := time_unix (now - window) in
  let src := if window <=? MinuteRetention then minutes s else hours s in
  let byKey := default ∅ (src !! vmID) in
  map (fun ku => MkSeries ku.1 ku.2 (Z.quot window second) (points ku.1 byKey (window_keys cut byKey))) units.

(** ** Bounds *)

Lemma oldest_key_spec (m : buckets) k :
  oldest_key m = Some k -> is_Some (m !! k) /\ forall k', is_Some (m !! k') -> k <= k'.
Proof.
  assert (forall l o, foldl (fun o k => match o with None => Some k | Some x => Some (if k <? x then k else x) end) o l = Some k ->
    (o = Some k \/ k ∈ l) /\ (forall k', o = Some k' \/ k' ∈ l -> k <= k')) as H.
  { induction l as [|x l IH]; intros o E; simpl in E.
    - split; [by left|]. intros k' [E'|E'%elem_of_nil]; [|done]. rewrite E in E'. by injection E' as <-.
    - apply IH in E as [E1 E2]. destruct o as [y|]; split.
      + destruct E1 as [[= <-]|?]; [|right; by right]. destruct (x <? y); [right; by left|by left].
      + intros k' [[= <-]|[->|?]%elem_of_cons]; [| |by apply E2; right].
        * etrans; [apply E2; by left|]. destruct (x <? y) eqn:?; bool_norm; lia.
        * etrans; [apply E2; by left|]. destruct (x <? y) eqn:?; bool_norm; lia.
      + destruct E1 as [[= <-]|?]; right; [by left|by right].
      + intros k' [?|[->|?]%elem_of_cons]; [done|by apply E2; left|by apply E2; right]. }
  unfold oldest_key. intros E. apply H in E as [[?|E1] E2]; [done|]. split.
  - apply list_elem_of_In, in_map_iff in E1 as ([k0 b] & <- & Hb). exists b.
    by apply elem_of_map_to_list, list_elem_of_In.
  - intros k' [b Hb]. apply E2. right. apply list_elem_of_In, in_map_iff. exists (k', b). split; [done|].
    by apply list_elem_of_In, elem_of_map_to_list.
Qed.

Lemma oldest_key_some (m : buckets) : m <> ∅ -> is_Some (oldest_key m).
Proof.
  intros Hm. unfold oldest_key. destruct (map_to_list m) as [|[k b] l] eqn:E.
  - by apply map_to_list_empty_iff in E.
  - simpl. clear. generalize (map fst l) as ks. intros ks. revert k. induction ks; intros k; simpl; eauto.
Qed.

(** A bucket that is there stays; a new one evicts the oldest of a full series. *)
Lemma bucketAt_spec key maxB (m : buckets) :
  0 < maxB -> Z.of_nat (size m) <= maxB ->
  Z.of_nat (size (bucketAt key maxB m)) <= maxB /\
  bucketAt key maxB m !! key = Some (default bucket0 (m !! key)) /\
  (forall k b, k <> key -> bucketAt key maxB m !! k = Some b -> m !! k = Some b) /\
  (forall k b, m !! k = Some b -> bucketAt key maxB m !! k = None ->
     m !! key = None /\ forall k', is_Some (m !! k') -> k <= k').
Proof.
  intros Hpos Hsz. unfold bucketAt. destruct (m !! key) as [b0|] eqn:Ek; simpl.
  { split_and!; [done|done|done|]. intros k b Hk Hn. congruence. }
  destruct (Z.leb_spec maxB (Z.of_nat (size m))) as [Hfull|Hroom].
  - destruct (oldest_key_some m) as [o Ho]; [intros ->; rewrite map_size_empty in Hfull; lia|]. rewrite Ho.
    apply oldest_key_spec in Ho as [[bo Hbo] Hmin].
    assert (delete o m !! key = None) as Hd by (apply lookup_delete_None; by right).
    split_and!.
    + rewrite map_size_insert_None by done. rewrite map_size_delete_Some by (by eexists).
      assert (size m <> 0%nat) by (intros E; apply map_size_empty_inv in E; by subst). lia.
    + by rewrite lookup_insert_eq.
    + intros k b Hne. rewrite lookup_insert_ne by done. intros H. by apply lookup_delete_Some in H as [_ ?].
    + intros k b Hk. assert (k <> key) by congruence. rewrite lookup_insert_ne by done.
      intros [->|?]%lookup_delete_None; [done|congruence].
  - split_and!.
    + rewrite map_size_insert_None by done. lia.
    + by rewrite lookup_insert_eq.
    + intros k b Hne. by rewrite lookup_insert_ne.
    + intros k b Hk. assert (k <> key) by congruence. rewrite lookup_insert_ne by done. congruence.
Qed.

Lemma size_alter (f : bucket -> bucket) k (m : buckets) : size (alter f k m) = size m.
Proof. by rewrite <- !size_dom, dom_alter_L. Qed.

Definition bounded (maxB : Z) (s : series) : Prop :=
  map_Forall (fun _ byKey => Z.of_nat (size byKey) <= maxB) s.

Lemma record_at_bounded key maxB vm m s : 0 < maxB -> bounded maxB s -> bounded maxB (record_at key maxB vm m s).
Proof.
  intros Hpos Hs. unfold record_at. apply map_Forall_insert_2; [|done].
  rewrite size_alter. apply bucketAt_spec; [done|].
  destruct (s !! vm) as [byKey|] eqn:E; [exact (Hs vm byKey E)|]. simpl. rewrite map_size_empty. lia.
Qed.

Lemma prune_bounded cut maxB s : bounded maxB s -> bounded maxB (prune cut s).
Proof.
  intros Hs vm byKey. unfold prune. rewrite lookup_map_delete_if, lookup_fmap.
  destruct (s !! vm) as [m0|] eqn:E; simpl; [|done]. case_match; [done|]. intros [= <-].
  pose proof (Hs vm m0 E) as Hb. simpl in Hb.
  assert (size (map_delete_if (fun k (_ : bucket) => (k <? cut)%Z) m0) <= size m0)%nat; [|lia].
  apply map_subseteq_size, map_delete_if_subseteq.
Qed.

Inductive hist_step := StepRecord (vm : string) (at_ : Z) (m : VMMetrics) | StepFlush (now : Z) (io : flush_io).

Section HistFacts.
Context (sort_lines : list content -> list content).

Definition hist_exec (st : hist_step) (s : TimeSeriesStore) : TimeSeriesStore :=
  match st with
  | StepRecord vm at_ m => Record_ vm at_ m s
  | StepFlush now io => (Flush sort_lines now io s).2
  end.

(** What a flush does to the memory. *)
Lemma Flush_memory now io s :
  let s' := (Flush sort_lines now io s).2 in
  (minutes s' = minutes s /\ hours s' = hours s) \/
  (minutes s' = prune (time_unix (now - MinuteRetention)) (minutes s) /\
   hours s' = prune (time_unix (now - HourRetention)) (hours s)).
Proof.
  unfold Flush. destruct (mkdir_ok io); cbn [negb]; [right|by left].
  destruct (flushChunks _ _ _ _) as [[hd fm] e1]. destruct (flushChunks _ _ _ _) as [[rd fh] e2].
  destruct (match e1 with Some e => Some e | None => e2 end); [done|].
  destruct (trimFile _ _ _) as [hd' [e3|]]; [done|]. by destruct (trimFile _ _ _).
Qed.

(** Memory stays bounded.  Whatever is recorded, at whatever instants, and
    however often flushes run or fail, a machine never has more than 1444
    minute buckets and 724 hour buckets. *)
Theorem history_bounded steps s :
  bounded MaxMinuteBuckets (minutes s) /\ bounded MaxHourBuckets (hours s) ->
  let s' := run hist_exec steps s in
  bounded MaxMinuteBuckets (minutes s') /\ bounded MaxHourBuckets (hours s').
Proof.
  apply (run_invariant hist_exec (fun s =>
    bounded MaxMinuteBuckets (minutes s) /\ bounded MaxHourBuckets (hours s))).
  intros [vm at_ m|now io] s0 [Hm Hh]; simpl.
  - split; by apply record_at_bounded.
  - destruct (Flush_memory now io s0) as [[-> ->]|[-> ->]]; split; auto using prune_bounded.
Qed.
End HistFacts.

(** ** Buckets aggregate exactly the samples of their interval *)

Definition at_key (unit : Z) (vm : string) (k : Z) (x : sample) : bool :=
  String.eqb (s_VM x) vm && (time_unix (truncate (s_At x) unit) =? k).

(** The samples of one machine in one interval, folded. *)
Definition expected_bucket (unit : Z) (vm : string) (k : Z) (l : list sample) : bucket :=
  foldl (fun b x => add_sample (s_Metrics x) b) bucket0 (List.filter (at_key unit vm k) l).

Definition record_all (unit maxB : Z) (l : list sample) (s : series) : series :=
  foldl (fun s x => record_at (time_unix (truncate (s_At x) unit)) maxB (s_VM x) (s_Metrics x) s) s l.

Lemma at_key_self unit x : at_key unit (s_VM x) (time_unix (truncate (s_At x) unit)) x = true.
Proof. unfold at_key. by rewrite String.eqb_refl, Z.eqb_refl. Qed.

(** The state after a prefix of the samples: every bucket there is exact, and
    the latest interval of each machine is there. *)
Definition exact (unit : Z) (l : list sample) (s : series) : Prop :=
  forall vm,
    (forall k b, default ∅ (s !! vm) !! k = Some b -> b = expected_bucket unit vm k l) /\
    (forall k, is_Some (default ∅ (s !! vm) !! k) -> exists x, x ∈ l /\ at_key unit vm k x = true) /\
    (forall x k, x ∈ l -> at_key unit vm k x = true ->
       exists k', k <= k' /\ is_Some (default ∅ (s !! vm) !! k')).

Lemma expected_snoc unit vm k l x :
  expected_bucket unit vm k (l ++ [x]) =
    if at_key unit vm k x then add_sample (s_Metrics x) (expected_bucket unit vm k l)
    else expected_bucket unit vm k l.
Proof.
  unfold expected_bucket. rewrite List.filter_app, foldl_app. simpl. by destruct (at_key unit vm k x).
Qed.

Lemma truncate_mono d t u : 0 < d -> t <= u -> time_unix (truncate t d) <= time_unix (truncate u d).
Proof.
  intros Hd Htu. unfold time_unix. apply Z.div_le_mono; [reflexivity|]. unfold truncate.
  rewrite (proj2 (Z.leb_gt d 0)) by lia.
  pose proof (Z.div_mod (t - time_zero) d) as E1. pose proof (Z.div_mod (u - time_zero) d) as E2.
  assert ((t - time_zero) / d <= (u - time_zero) / d) by (apply Z.div_le_mono; lia).
  assert (d * ((t - time_zero) / d) <= d * ((u - time_zero) / d)) by (apply Z.mul_le_mono_nonneg_l; lia).
  lia.
Qed.

Lemma at_key_inv unit vm k x : at_key unit vm k x = true -> s_VM x = vm /\ time_unix (truncate (s_At x) unit) = k.
Proof. unfold at_key. intros H. apply andb_prop in H as [H1 H2]. by apply String.eqb_eq in H1; apply Z.eqb_eq in H2. Qed.

Lemma filter_none {A} (p : A -> bool) l : (forall x, x ∈ l -> p x = false) -> List.filter p l = [].
Proof.
  intros H. induction l as [|x l IH]; [done|]. simpl. rewrite H by left. apply IH. intros y Hy. apply H. by right.
Qed.

Lemma record_exact unit maxB l x s :
  0 < unit -> 1 < maxB -> bounded maxB s -> (forall y, y ∈ l -> s_At y <= s_At x) ->
  exact unit l s ->
  exact unit (l ++ [x]) (record_at (time_unix (truncate (s_At x) unit)) maxB (s_VM x) (s_Metrics x) s).
Proof.
  intros Hu Hmax Hb Hle Hex vm. set (K := time_unix (truncate (s_At x) unit)). unfold record_at.
  destruct (decide (vm = s_VM x)) as [->|Hvm]; cycle 1.
  { rewrite lookup_insert_ne by done. destruct (Hex vm) as (H1 & H2 & H3).
    assert (forall k, at_key unit vm k x = false) as Hx.
    { intros k. destruct (at_key unit vm k x) eqn:E; [|done]. apply at_key_inv in E as [E _]. congruence. }
    split_and!.
    - intros k b Hk. rewrite expected_snoc, Hx. by apply H1.
    - intros k Hk. destruct (H2 k Hk) as (y & Hy & ?). exists y. split; [set_solver|done].
    - intros y k [Hy| ->%list_elem_of_singleton]%elem_of_app Hk; [by eapply H3|]. by rewrite Hx in Hk. }
  destruct (Hex (s_VM x)) as (H1 & H2 & H3). set (m := default ∅ (s !! s_VM x)) in *.
  assert (Z.of_nat (size m) <= maxB) as Hsz.
  { unfold m. destruct (s !! s_VM x) as [m0|] eqn:E; [exact (Hb _ _ E)|]. simpl. rewrite map_size_empty. lia. }
  rewrite lookup_insert_eq. simpl.
  destruct (bucketAt_spec K maxB m) as (_ & HK & Hold & Hev); [lia|done|].
  set (m1 := bucketAt K maxB m) in *. pose proof (at_key_self unit x) as Hself. fold K in Hself.
  assert (forall y k, y ∈ l -> at_key unit (s_VM x) k y = true -> k <= K) as Hmono.
  { intros y k Hy Hk. apply at_key_inv in Hk as [_ <-]. apply truncate_mono; [done|]. by apply Hle. }
  assert (m !! K = None -> expected_bucket unit (s_VM x) K l = bucket0) as Hnew.
  { intros Hn. unfold expected_bucket. rewrite filter_none; [done|]. intros y Hy.
    destruct (at_key unit (s_VM x) K y) eqn:E; [exfalso|done].
    destruct (H3 y K Hy E) as (k' & Hk' & Hs). destruct (H2 k' Hs) as (z & Hz & Ez).
    pose proof (Hmono z k' Hz Ez). assert (k' = K) as -> by lia. rewrite Hn in Hs. by destruct Hs. }
  split_and!.
  - intros k b. destruct (decide (k = K)) as [->|Hne].
    + rewrite lookup_alter_eq, HK. simpl. intros [= <-]. rewrite expected_snoc, Hself.
      f_equal. destruct (m !! K) as [b0|] eqn:E; [by apply H1|]. simpl. by rewrite Hnew.
    + rewrite lookup_alter_ne by done. intros Hk. rewrite expected_snoc.
      destruct (at_key unit (s_VM x) k x) eqn:E; [by apply at_key_inv in E as [_ <-]|]. by apply H1, Hold.
  - intros k [b Hk]. destruct (decide (k = K)) as [->|Hne].
    + exists x. split; [set_solver|exact Hself].
    + rewrite lookup_alter_ne in Hk by done. destruct (H2 k) as (y & Hy & ?); [eauto|]. exists y. set_solver.
  - intros y k Hy Hk. exists K. split; [|by rewrite lookup_alter_eq, HK; eexists].
    apply elem_of_app in Hy as [Hy| ->%list_elem_of_singleton]; [by eapply Hmono|].
    apply at_key_inv in Hk as [_ <-]. done.
Qed.

Lemma record_all_exact unit maxB l :
  0 < unit -> 1 < maxB -> StronglySorted (fun x y => s_At x <= s_At y) l ->
  exact unit l (record_all unit maxB l ∅) /\ bounded maxB (record_all unit maxB l ∅).
Proof.
  intros Hu Hmax. induction l as [|x l IH] using rev_ind; intros Hs.
  - split; [|apply map_Forall_empty]. intros vm. simpl. rewrite lookup_empty. simpl.
    split_and!; [by intros k b ?|by intros k [b ?]|by intros x k ?%elem_of_nil].
  - apply StronglySorted_app in Hs as (Hcross & Hl & _). destruct (IH Hl) as [He Hb].
    unfold record_all. rewrite foldl_app. simpl. split; [|apply record_at_bounded; [lia|done]].
    apply record_exact; try done. intros y Hy. apply Hcross; [done|set_solver].
Qed.

(** The buckets are exact.  When a machine's samples arrive in order of
    time, each minute bucket and each hour bucket in memory holds the sum, the
    count and the maximum of exactly the samples of its machine and interval,
    in their order, whatever has been evicted in between. *)
Theorem buckets_exact l vm k b :
  StronglySorted (fun x y => s_At x <= s_At y) l ->
  let s := foldl (fun s x => Record_ (s_VM x) (s_At x) (s_Metrics x) s) NewTimeSeriesStore l in
  (default ∅ (minutes s !! vm) !! k = Some b -> b = expected_bucket minute vm k l) /\
  (default ∅ (hours s !! vm) !! k = Some b -> b = expected_bucket hour vm k l).
Proof.
  intros Hs s.
  assert (minutes s = record_all minute MaxMinuteBuckets l ∅ /\ hours s = record_all hour MaxHourBuckets l ∅) as [-> ->].
  { unfold s, record_all. clear.
    change (∅ : series) with (minutes NewTimeSeriesStore) at 1.
    enough (forall s0, minutes (foldl (fun s x => Record_ (s_VM x) (s_At x) (s_Metrics x) s) s0 l)
        = record_all minute MaxMinuteBuckets l (minutes s0) /\
      hours (foldl (fun s x => Record_ (s_VM x) (s_At x) (s_Metrics x) s) s0 l)
        = record_all hour MaxHourBuckets l (hours s0)) as H by apply H.
    induction l as [|x l IH]; intros s0; [done|]. simpl. apply IH. }
  split; intros Hk.
  - destruct (record_all_exact minute MaxMinuteBuckets l) as [He _]; [done..|]. by apply (He vm).
  - destruct (record_all_exact hour MaxHourBuckets l) as [He _]; [done..|]. by apply (He vm).
Qed.

(** ** Queries *)

Lemma window_keys_spec cut (m : buckets) :
  StronglySorted Z.lt (window_keys cut m) /\
  forall k, k ∈ window_keys cut m <-> cut <= k /\ is_Some (m !! k).
Proof.
  unfold window_keys. set (ks := List.filter _ _).
  assert (forall k, k ∈ ks <-> cut <= k /\ is_Some (m !! k)) as Hks.
  { intros k. unfold ks. rewrite !list_elem_of_In, filter_In, Z.leb_le, in_map_iff. split.
    - intros [([k0 b] & <- & Hb) ?]. split; [done|]. exists b. by apply elem_of_map_to_list, list_elem_of_In.
    - intros [? [b Hb]]. split; [|done]. exists (k, b). split; [done|].
      by apply list_elem_of_In, elem_of_map_to_list. }
  split; [|intros k; by rewrite merge_sort_Permutation].
  assert (NoDup (merge_sort Z.le ks)) as Hn.
  { rewrite merge_sort_Permutation. unfold ks. apply NoDup_ListNoDup, List.NoDup_filter, NoDup_ListNoDup.
    apply NoDup_fst_map_to_list. }
  pose proof (StronglySorted_merge_sort Z.le ks) as Hs.
  induction Hs as [|k l Hl IH Hk]; [constructor|]. apply NoDup_cons in Hn as [Hn1 Hn2].
  constructor; [by apply IH|]. rewrite Forall_forall in Hk |- *. intros k' Hk'.
  specialize (Hk k' Hk'). assert (k <> k') by (intros ->; done). lia.
Qed.

(** A query answers from the buckets of its window.  Every series is in
    strictly increasing time order and inside the window, and a point is there
    exactly for the buckets of the machine with samples of that metric, its
    value their average. *)
Theorem History_exact vmID window now s kind unit_ win pts :
  MkSeries kind unit_ win pts ∈ History vmID window now s ->
  let byKey := default ∅ ((if window <=? MinuteRetention then minutes s else hours s) !! vmID) in
  StronglySorted (fun p q => p.1 < q.1) pts /\
  forall k v, (k, v) ∈ pts <->
    time_unix (now - window) <= k /\ exists b, byKey !! k = Some b /\ pointsFor kind b = Some v.
Proof.
  unfold History. set (byKey := default ∅ _). set (cut := time_unix (now - window)).
  rewrite list_elem_of_In, in_map_iff. intros ([kd un] & [= <- _ _ <-] & _). simpl.
  destruct (window_keys_spec cut byKey) as [Hs Hin]. unfold points. split.
  - clear Hin. induction Hs as [|k l Hl IH Hk]; simpl; [constructor|].
    destruct (byKey !! k) as [b|]; simpl; [|done]. destruct (pointsFor kd b) as [v|]; simpl; [|done].
    constructor; [done|]. apply Forall_forall. rewrite Forall_forall in Hk. intros [k' v'] Hp. simpl.
    apply list_elem_of_omap in Hp as (k'' & Hk'' & E). apply Hk.
    destruct (byKey !! k'') as [b''|]; simpl in E; [|done].
    destruct (pointsFor kd b''); simpl in E; [|done]. by injection E as <- _.
  - intros k v. rewrite list_elem_of_omap. split.
    + intros (k' & Hk' & E). apply Hin in Hk' as [Hc _]. destruct (byKey !! k') as [b|] eqn:Eb; simpl in E; [|done].
      destruct (pointsFor kd b) as [v'|] eqn:Ev; simpl in E; [|done]. injection E as <- <-. eauto.
    + intros (Hc & b & Hb & Hv). exists k. split; [apply Hin; eauto|]. rewrite Hb. simpl. by rewrite Hv.
Qed.

(** ** File names *)

(** An accepted machine id names one file of the directory. *)
Lemma metricsFileName_comp vmID name : metricsFileName vmID = Some name -> comp name.
Proof.
  unfold metricsFileName. destruct (_ || _) eqn:E; [done|]. intros [= <-]. bool_norm.
  assert (contains_byte "/" vmID = false) as Hs by (by apply (all_bytes_no_byte _ "/" vmID H0)).
  assert (slen (vmID +:+ ".jsonl") > 2)%nat as Hl by (rewrite slen_app; simpl; lia).
  split_and!; [intros E'; rewrite E' in Hl; simpl in Hl; lia..|]. by rewrite contains_byte_app, Hs.
Qed.

(** ** Examples *)

Module HistoryDemo.
Definition num (n : positive) : float := S754_finite false n 0.
Definition cpu (n : positive) : VMMetrics := MkMetrics [num n] [] [] [] [] [].
Definition t0 : Z := 1704110400 * second.
Definition all_ok : flush_io := MkIO true (fun _ => true) (fun _ => true) (fun _ => true) (fun _ => true).
#[local] Instance by_time_dec : RelDecision (fun a b : list token => lineTime a <= lineTime b) :=
  fun a b => Z_le_dec (lineTime a) (lineTime b).
Definition sort_lines (ls : list (list token)) : list (list token) :=
  merge_sort (fun a b => lineTime a <= lineTime b) ls.
Definition step := hist_exec sort_lines.
Definition keys_on_disk (s : TimeSeriesStore) : list Z :=
  omap (fun l => fst <$> parse_line l) (scan (default [] (history_dir s !! "vm1.jsonl"))).
Definition minute_cycle (i : Z) : list hist_step :=
  [StepRecord "vm1" (t0 + i * minute) (cpu 50); StepFlush (t0 + i * minute + 70 * second) all_ok].

(** The averages of a query. *)
Definition two : list sample := [MkSample "vm1" t0 (cpu 40); MkSample "vm1" (t0 + 5 * second) (cpu 60)].
Example average :
  map Points (take 1 (History "vm1" hour (t0 + minute)
    (foldl (fun s x => Record_ (s_VM x) (s_At x) (s_Metrics x) s) NewTimeSeriesStore two)))
  = [[(time_unix t0, fdiv (fadd (fadd fzero (num 40)) (num 60)) (of_int 2))]].
Proof. vm_compute. done. Qed.

(** The body of an append has no newline at its end: the object of the second
    flush continues the line of the first, the line no longer parses, and the
    trim of the same flush drops it.  After one cycle the file holds the
    minute, after two nothing. *)
Example first_flush_on_disk :
  keys_on_disk (run step (minute_cycle 0) NewTimeSeriesStore) = [time_unix t0].
Proof. vm_compute. done. Qed.
Example second_flush_erases :
  history_dir (run step (minute_cycle 0 ++ minute_cycle 1) NewTimeSeriesStore) !! "vm1.jsonl" = Some [].
Proof. vm_compute. done. Qed.
(** So a restart after ten minutes of history starts from nothing. *)
Example restart_loses_history :
  let s := run step (mjoin (map minute_cycle [0; 1; 2; 3; 4; 5; 6; 7; 8; 9])) NewTimeSeriesStore in
  size (default ∅ (minutes s !! "vm1")) = 10%nat /\
  minutes (Load (t0 + 11 * minute) (MkStore ∅ ∅ ∅ ∅ (history_dir s) (rollup_dir s))) = ∅.
Proof. vm_compute. done. Qed.
End HistoryDemo.

Lemma buckets_exact_witness :
  let s := foldl (fun s x => Record_ (s_VM x) (s_At x) (s_Metrics x) s) NewTimeSeriesStore HistoryDemo.two in
  default ∅ (minutes s !! "vm1") !! time_unix HistoryDemo.t0
    = Some (expected_bucket minute "vm1" (time_unix HistoryDemo.t0) HistoryDemo.two).
Proof.
  intros s. destruct (default ∅ (minutes s !! "vm1") !! time_unix HistoryDemo.t0) as [b|] eqn:E.
  - f_equal. apply (buckets_exact HistoryDemo.two "vm1" (time_unix HistoryDemo.t0) b); [|exact E].
    repeat constructor; vm_compute; discriminate.
  - vm_compute in E. discriminate.
Defined.

Lemma history_bounded_witness :
  let s := run (hist_exec HistoryDemo.sort_lines) (HistoryDemo.minute_cycle 0) NewTimeSeriesStore in
  bounded MaxMinuteBuckets (minutes s) /\ bounded MaxHourBuckets (hours s).
Proof.
  apply (history_bounded HistoryDemo.sort_lines). split; apply map_Forall_empty.
Defined.

Lemma History_exact_witness :
  let s := foldl (fun s x => Record_ (s_VM x) (s_At x) (s_Metrics x) s) NewTimeSeriesStore HistoryDemo.two in
  forall kind unit_ win pts,
    MkSeries kind unit_ win pts = hd (MkSeries "" "" 0 []) (History "vm1" hour (HistoryDemo.t0 + minute) s) ->
    StronglySorted (fun p q : Z * float => p.1 < q.1) pts.
Proof.
  intros s kind unit_ win pts E.
  apply (History_exact "vm1" hour (HistoryDemo.t0 + minute) s kind unit_ win pts).
  rewrite E. vm_compute. left.
Defined.
