(* ===== verification/Notify.v ===== *)
(** * Notify: alert channels, their configuration and the alert engine

    Models [notify/notify.go], [notify/engine.go] and the address filter of
    [notify/dial.go].  What a channel sends is a value of [delivery], one per
    [go n.send...] call, kept in the order of the calls; the HTTP and SMTP
    exchanges themselves are left out.  Text is UTF-8: its non-ASCII bytes pass
    the control-character filters as part of their character. *)

From S2P Require Export GoNet Sessions AtomicFile.
Open Scope Z_scope.

(** ** Data *)

Record Config := MkConfig {
  cf_Enabled : bool;
  WebhookEnabled : bool; WebhookURL : string;
  DiscordEnabled : bool; DiscordWebhookURL : string;
  TelegramEnabled : bool; TelegramChatID : string;
  SlackEnabled : bool; SlackWebhookURL : string;
  NtfyEnabled : bool; NtfyServerURL : string; NtfyTopic : string;
  GotifyEnabled : bool; GotifyServerURL : string;
  SMTPEnabled : bool; SMTPHost : string; SMTPPort : Z; SMTPFrom : string; SMTPTo : string;
  SMTPTLS : bool; SMTPInsecure : bool;
  DiskFreePercent : Z; CheckIntervalSec : Z
}.

Record secrets := MkSecrets {
  WebhookSecret : string; TelegramBotToken : string; SMTPUser : string; SMTPPassword : string;
  NtfyToken : string; GotifyToken : string
}.
Definition no_secrets : secrets := MkSecrets "" "" "" "" "" "".

Record AlertEvent := MkEvent { ev_Time : Z; ev_Level : string; ev_Subject : string; ev_Message : string }.

Inductive delivery :=
| ToWebhook (url secret level subject message : string)
| ToDiscord (url level subject message : string)
| ToTelegram (token chat level subject message : string)
| ToSlack (url level subject message : string)
| ToNtfy (server topic token level subject message : string)
| ToGotify (server token level subject message : string)
| ToEmail (cfg : Config) (sec : secrets) (subject message : string).

Definition set_s (s : string) : bool := negb (String.eqb s "").

(** ** Validation *)

Definition https (u : string) : bool := has_prefix "https://" u.
Definition http_or_https (u : string) : bool := has_prefix "http://" u || https u.

Definition check (bad : bool) (msg : string) (k : option string) : option string := if bad then Some msg else k.

Definition validateConfig (cfg : Config) (newTelegramToken existingTelegramToken newGotifyToken existingGotifyToken : string)
    : option string :=
  check (WebhookEnabled cfg && set_s (WebhookURL cfg) && negb (https (WebhookURL cfg))) "webhook URL must use https://" (
  check (DiscordEnabled cfg && set_s (DiscordWebhookURL cfg) && negb (https (DiscordWebhookURL cfg)))
    "discord webhook URL must use https://" (
  check (SlackEnabled cfg && set_s (SlackWebhookURL cfg) && negb (https (SlackWebhookURL cfg)))
    "slack webhook URL must use https://" (
  check (NtfyEnabled cfg && negb (set_s (NtfyTopic cfg))) "ntfy topic is required" (
  check (NtfyEnabled cfg && set_s (NtfyServerURL cfg) && negb (http_or_https (NtfyServerURL cfg)))
    "ntfy server URL must begin with http:// or https://" (
  check (GotifyEnabled cfg && negb (set_s (GotifyServerURL cfg))) "gotify server URL is required" (
  check (GotifyEnabled cfg && negb (http_or_https (GotifyServerURL cfg)))
    "gotify server URL must begin with http:// or https://" (
  check (GotifyEnabled cfg && negb (set_s newGotifyToken) && negb (set_s existingGotifyToken))
    "gotify application token is required" (
  check (TelegramEnabled cfg && negb (set_s (TelegramChatID cfg))) "telegram chat ID is required" (
  check (TelegramEnabled cfg && negb (set_s newTelegramToken) && negb (set_s existingTelegramToken))
    "telegram bot token is required" (
  check (SMTPEnabled cfg && (negb (set_s (SMTPHost cfg)) || (SMTPPort cfg <=? 0) || (65535 <? SMTPPort cfg)))
    "smtp host and a valid port are required" (
  check (SMTPEnabled cfg && (negb (set_s (SMTPFrom cfg)) || negb (set_s (SMTPTo cfg))))
    "smtp from and to addresses are required" (
  check (SMTPEnabled cfg && negb (SMTPTLS cfg) && negb (SMTPInsecure cfg)) "smtp requires TLS" None)))))))))))).

(** ** The notifier *)

Section Notifier.
Context {W : Type} `{!Persist secrets W}.

Record Notifier := MkNotifier {
  nt_cfg : Config; nt_sec : secrets; nt_disk : W;
  events : list AlertEvent;          (* oldest first *)
  outbox : list delivery             (* every send started, oldest first *)
}.

Definition eventMax : nat := 200.

(** [None]: the secrets file does not parse. *)
Definition New (cfg : Config) (w : W) : option Notifier :=
  match stored w with
  | Some Torn => None
  | Some (Whole sec) => Some (MkNotifier cfg sec w [] [])
  | None => Some (MkNotifier cfg no_secrets w [] [])
  end.

Definition saveSecrets (n : Notifier) : bool * Notifier :=
  let '(ok, w) := save (nt_sec n) (nt_disk n) in (ok, MkNotifier (nt_cfg n) (nt_sec n) w (events n) (outbox n)).

Record Status_ := MkStatus {
  st_Config : Config; HasWebhookSecret : bool; HasTelegramToken : bool; HasSMTPUser : bool; HasSMTPPassword : bool;
  HasNtfyToken : bool; HasGotifyToken : bool
}.
Definition Status (n : Notifier) : Status_ :=
  let s := nt_sec n in
  MkStatus (nt_cfg n) (set_s (WebhookSecret s)) (set_s (TelegramBotToken s)) (set_s (SMTPUser s))
    (set_s (SMTPPassword s)) (set_s (NtfyToken s)) (set_s (GotifyToken s)).

(** Empty means "keep". *)
Definition keep (new old : string) : string := if set_s new then new else old.
Definition merge_secrets (new old : secrets) : secrets :=
  MkSecrets (keep (WebhookSecret new) (WebhookSecret old)) (keep (TelegramBotToken new) (TelegramBotToken old))
    (keep (SMTPUser new) (SMTPUser old)) (keep (SMTPPassword new) (SMTPPassword old))
    (keep (NtfyToken new) (NtfyToken old)) (keep (GotifyToken new) (GotifyToken old)).

Inductive update_err := ErrConfig (msg : string) | ErrPersist.

Definition Update (cfg : Config) (new : secrets) (clearSecret : bool) (n : Notifier) : option update_err * Notifier :=
  match validateConfig cfg (TelegramBotToken new) (TelegramBotToken (nt_sec n)) (GotifyToken new) (GotifyToken (nt_sec n)) with
  | Some e => (Some (ErrConfig e), n)
  | None =>
      let sec := if clearSecret then no_secrets else merge_secrets new (nt_sec n) in
      let '(ok, n) := saveSecrets (MkNotifier cfg sec (nt_disk n) (events n) (outbox n)) in
      (if ok then None else Some ErrPersist, n)
  end.

Definition opt_send (b : bool) (d : delivery) : list delivery := if b then [d] else [].

Definition deliver (cfg : Config) (sec : secrets) (level subject message : string) : list delivery :=
  opt_send (WebhookEnabled cfg && set_s (WebhookURL cfg))
    (ToWebhook (WebhookURL cfg) (WebhookSecret sec) level subject message)
  ++ opt_send (DiscordEnabled cfg && set_s (DiscordWebhookURL cfg)) (ToDiscord (DiscordWebhookURL cfg) level subject message)
  ++ opt_send (TelegramEnabled cfg && set_s (TelegramChatID cfg) && set_s (TelegramBotToken sec))
       (ToTelegram (TelegramBotToken sec) (TelegramChatID cfg) level subject message)
  ++ opt_send (SlackEnabled cfg && set_s (SlackWebhookURL cfg)) (ToSlack (SlackWebhookURL cfg) level subject message)
  ++ opt_send (NtfyEnabled cfg && set_s (NtfyTopic cfg))
       (ToNtfy (if set_s (NtfyServerURL cfg) then NtfyServerURL cfg else "https://ntfy.sh") (NtfyTopic cfg)
          (NtfyToken sec) level subject message)
  ++ opt_send (GotifyEnabled cfg && set_s (GotifyServerURL cfg) && set_s (GotifyToken sec))
       (ToGotify (GotifyServerURL cfg) (GotifyToken sec) level subject message)
  ++ opt_send (SMTPEnabled cfg && set_s (SMTPHost cfg) && set_s (SMTPPassword sec)) (ToEmail cfg sec subject message).

(** [e] is returned too. *)
Definition Record_ (now : Z) (level subject message : string) (n : Notifier) : Notifier :=
  let l := events n ++ [MkEvent now level subject message] in
  let l := if Nat.ltb eventMax (length l) then drop (length l - eventMax) l else l in
  MkNotifier (nt_cfg n) (nt_sec n) (nt_disk n) l
    (if cf_Enabled (nt_cfg n) then outbox n ++ deliver (nt_cfg n) (nt_sec n) level subject message else outbox n).

Definition Events (n : Notifier) : list AlertEvent := rev (events n).

Definition any_channel (c : Config) : bool :=
  WebhookEnabled c || DiscordEnabled c || TelegramEnabled c || SlackEnabled c || NtfyEnabled c || GotifyEnabled c
  || SMTPEnabled c.

(** [true]: no error. *)
Definition SendTest (now : Z) (n : Notifier) : bool * Notifier :=
  if negb (any_channel (nt_cfg n)) then (false, n)
  else (true, Record_ now "info" "WebKVM test notification"
          "This is a test alert from WebKVM. If you received it, your notification channels are working." n).
End Notifier.

(** ** Presentation of a level *)

Definition is_critical (level : string) : bool := String.eqb level "critical" || String.eqb level "error".
Definition discord_color (level : string) : Z :=
  if String.eqb level "warning" then 16096779 else if is_critical level then 15680580 else 2278750.
Definition telegram_icon (level : string) : string :=
  if String.eqb level "warning" then "[WARN]" else if is_critical level then "[ALERT]" else "[INFO]".
Definition slack_color (level : string) : string :=
  if String.eqb level "warning" then "#f59e0b" else if is_critical level then "#ef4444" else "#22c55e".
Definition ntfy_priority (level : string) : string :=
  if is_critical level then "5" else if String.eqb level "warning" then "4" else "3".
Definition gotify_priority (level : string) : Z :=
  if is_critical level then 8 else if String.eqb level "warning" then 6 else 5.
Definition title (level subject : string) : string := "[" +:+ to_upper level +:+ "] " +:+ subject.

(** ** Mail text *)

Definition is_byte (n : Z) (c : ascii) : bool := code c =? n.

Fixpoint filter_str (p : ascii -> bool) (s : string) : string :=
  match s with
  | EmptyString => EmptyString
  | String c s => if p c then String c (filter_str p s) else filter_str p s
  end.

(** Not a control character of ASCII. *)
Definition printable (c : ascii) : bool := (32 <=? code c) && negb (code c =? 127).

Definition sanitizeHeader (s : string) : string :=
  trim_space (filter_str printable (filter_str (fun c => negb (is_byte 13 c) && negb (is_byte 10 c)) s)).

(** CR LF and a lone CR become LF. *)
Fixpoint unix_lines (s : string) : string :=
  match s with
  | EmptyString => EmptyString
  | String c s' =>
      if is_byte 13 c then
        match s' with
        | String d s'' => if is_byte 10 d then String d (unix_lines s'') else String (ascii_of_N 10) (unix_lines s')
        | EmptyString => String (ascii_of_N 10) EmptyString
        end
      else String c (unix_lines s')
  end.

Definition crlf : string := String (ascii_of_N 13) (String (ascii_of_N 10) "").

Definition sanitize_line (line : string) : string :=
  let cleaned := filter_str (fun c => printable c || is_byte 9 c) line in
  if has_prefix "." cleaned then "." +:+ cleaned else cleaned.

Definition sanitizeEmailBody (s : string) : string :=
  join_str crlf (map sanitize_line (split_byte (ascii_of_N 10) (unix_lines s))).

(** ** The address filter *)

Definition neverDialNets : list ipnet := omap ParseCIDR [
  "0.0.0.0/8"; "198.18.0.0/15"; "240.0.0.0/4"; "64:ff9b::/96"; "64:ff9b:1::/48"; "::/128"; "100::/64";
  "2001:db8::/32"; "fec0::/10"].

Definition blockedDestination (a : option ip) : bool :=
  match a with
  | None => true
  | Some a => existsb (fun n => Contains n a) neverDialNets
  end.

(** The address dialled for a host: the first of its addresses that is not
    blocked and answers. *)
Definition dial (resolve : string -> option (list ip)) (answers : ip -> bool) (host : string) : option ip :=
  match (match ParseIP host with Some a => Some [a] | None => resolve host end) with
  | None => None
  | Some l => List.find (fun a => negb (blockedDestination (Some a)) && answers a) l
  end.

(** ** The alert engine *)

Record StorageAlert := MkStorageAlert { sa_Level : string; sa_Subject : string; sa_Message : string }.

(** What the sources answer at an evaluation; [None] when not wired or failing,
    the maps in the order Go walks them. *)
Record Sources := MkSources {
  VMState : option (list (string * bool));
  so_DiskFreePercent : option Z;
  LastBackupResult : list (string * string);
  StorageHealth : list StorageAlert
}.

Record AlertEngine := MkEngine { lastSeen : gmap string Z; quiet : Z }.

Definition NewEngine (quiet : Z) : AlertEngine := MkEngine ∅ (if quiet <=? 0 then hour else quiet).

(** [itoa] of the package: decimal digits by repeated division. *)
Fixpoint itoa_loop (fuel : nat) (n : Z) (acc : string) : string :=
  match fuel with
  | O => acc
  | S fuel => if 0 <? n then itoa_loop fuel (n / 10) (String (digit_char (n mod 10)) acc) else acc
  end.
Definition itoa (n : Z) : string :=
  if n =? 0 then "0" else
  if n <? 0 then "-" +:+ itoa_loop 20 (wrap64 (- n)) "" else itoa_loop 20 n "".

Definition fmtDiskAlert (threshold pct : Z) : string :=
  "Free disk space on the host is below the configured threshold (threshold " +:+ itoa threshold +:+ "%, current "
  +:+ itoa pct +:+ "%).".

(** The alerts of one pass, in order. *)
Definition conditions (diskThreshold : Z) (s : Sources) : list StorageAlert :=
  concat (map (fun '(name, running) =>
    if running : bool then [] else
    [MkStorageAlert "warning" ("VM " +:+ name +:+ " is not running") "A VM configured to autostart is currently down."])
    (default [] (VMState s)))
  ++ (match so_DiskFreePercent s with
      | Some pct => if (0 <? diskThreshold) && (pct <? diskThreshold)
                    then [MkStorageAlert "critical" "Low disk space" (fmtDiskAlert diskThreshold pct)] else []
      | None => []
      end)
  ++ concat (map (fun '(target, status) =>
       if String.eqb status "error"
       then [MkStorageAlert "warning" ("Backup failed: " +:+ target) ("A backup run for target " +:+ target +:+ " failed.")]
       else []) (LastBackupResult s))
  ++ StorageHealth s.

Definition alert_key (level subject : string) : string := level +:+ "|" +:+ subject.

(** Whether the alert is passed on. *)
Definition admits (key : string) (now : Z) (e : AlertEngine) : bool * AlertEngine :=
  match lastSeen e !! key with
  | Some last => if time_sub now last <? quiet e then (false, e)
                 else (true, MkEngine (<[key := now]> (lastSeen e)) (quiet e))
  | None => (true, MkEngine (<[key := now]> (lastSeen e)) (quiet e))
  end.

Definition emit {W} `{!Persist secrets W} (now : Z) (a : StorageAlert) (st : AlertEngine * Notifier (W := W))
    : AlertEngine * Notifier (W := W) :=
  let '(e, n) := st in
  let '(ok, e) := admits (alert_key (sa_Level a) (sa_Subject a)) now e in
  (e, if ok then Record_ now (sa_Level a) (sa_Subject a) (sa_Message a) n else n).

Definition evaluate {W} `{!Persist secrets W} (now : Z) (s : Sources) (st : AlertEngine * Notifier (W := W))
    : AlertEngine * Notifier (W := W) :=
  foldl (fun st a => emit now a st) st (conditions (DiskFreePercent (nt_cfg st.2)) s).

(** ** Facts: the notifier *)

Lemma check_None b m k : check b m k = None <-> b = false /\ k = None.
Proof. destruct b; simpl; naive_solver. Qed.

(** What may be sent where. *)
Definition safe_delivery (d : delivery) : bool :=
  match d with
  | ToWebhook u _ _ _ _ | ToDiscord u _ _ _ | ToSlack u _ _ _ => https u
  | ToNtfy u _ _ _ _ _ | ToGotify u _ _ _ _ => http_or_https u
  | ToTelegram token _ _ _ _ => set_s token
  | ToEmail cfg _ _ _ => SMTPTLS cfg || SMTPInsecure cfg
  end.

(** The checks of [validateConfig] that do not ask for a stored token. *)
Definition cfg_ok (cfg : Config) : Prop := validateConfig cfg "t" "t" "t" "t" = None.

Lemma validate_cfg_ok cfg a b c d : validateConfig cfg a b c d = None -> cfg_ok cfg.
Proof.
  unfold cfg_ok, validateConfig. rewrite !check_None. intros H. decompose [and] H. split_and!; try done.
  - by rewrite andb_false_r.
  - by rewrite andb_false_r.
Qed.

Lemma opt_send_safe b d : (b = true -> safe_delivery d = true) -> forallb safe_delivery (opt_send b d) = true.
Proof. destruct b; simpl; [|done]. intros H. by rewrite H. Qed.

Lemma deliver_safe cfg sec level subject message :
  cfg_ok cfg -> forallb safe_delivery (deliver cfg sec level subject message) = true.
Proof.
  unfold cfg_ok, validateConfig. rewrite !check_None. intros H. decompose [and] H. clear H.
  unfold deliver. rewrite !forallb_app. repeat (apply andb_true_intro; split);
    apply opt_send_safe; intros E; cbn [safe_delivery]; bool_norm.
  - by destruct (WebhookEnabled cfg), (set_s (WebhookURL cfg)), (https (WebhookURL cfg)).
  - by destruct (DiscordEnabled cfg), (set_s (DiscordWebhookURL cfg)), (https (DiscordWebhookURL cfg)).
  - done.
  - by destruct (SlackEnabled cfg), (set_s (SlackWebhookURL cfg)), (https (SlackWebhookURL cfg)).
  - destruct (NtfyEnabled cfg), (set_s (NtfyServerURL cfg)), (http_or_https (NtfyServerURL cfg)) eqn:?; done.
  - by destruct (GotifyEnabled cfg), (http_or_https (GotifyServerURL cfg)).
  - by destruct (SMTPEnabled cfg), (SMTPTLS cfg), (SMTPInsecure cfg).
Qed.

Section NotifierFacts.
Context {W : Type} `{!Persist secrets W}.
Abbreviation notifier := (Notifier (W := W)).

Inductive notify_op :=
| OpUpdate (cfg : Config) (new : secrets) (clearSecret : bool)
| OpRecord (now : Z) (level subject message : string)
| OpTest (now : Z)
| OpEvaluate (now : Z) (s : Sources).

Definition do_notify (o : notify_op) (st : AlertEngine * notifier) : AlertEngine * notifier :=
  match o with
  | OpUpdate cfg new clear => (st.1, (Update cfg new clear st.2).2)
  | OpRecord now l s m => (st.1, Record_ now l s m st.2)
  | OpTest now => (st.1, (SendTest now st.2).2)
  | OpEvaluate now s => evaluate now s st
  end.

Record notifier_ok (n : notifier) : Prop := {
  no_cfg : cfg_ok (nt_cfg n);
  no_ring : (length (events n) <= eventMax)%nat;
  no_outbox : forallb safe_delivery (outbox n) = true
}.

Lemma Record_ok now l s m (n : notifier) : notifier_ok n -> notifier_ok (Record_ now l s m n).
Proof.
  intros [Hc Hr Ho]. split; cbn [Record_ nt_cfg events outbox].
  - done.
  - destruct (Nat.ltb_spec eventMax (length (events n ++ [MkEvent now l s m]))); [rewrite length_drop|]; lia.
  - destruct (cf_Enabled _); [|done]. rewrite forallb_app, Ho. by apply deliver_safe.
Qed.

Lemma Update_ok cfg new clear (n : notifier) : notifier_ok n -> notifier_ok (Update cfg new clear n).2.
Proof.
  intros [Hc Hr Ho]. unfold Update. destruct (validateConfig _ _ _ _ _) eqn:E; [done|].
  unfold saveSecrets. destruct (save _ _) as [ok w]. split; try done. by eapply validate_cfg_ok.
Qed.

Lemma evaluate_ok now s (st : AlertEngine * notifier) : notifier_ok st.2 -> notifier_ok (evaluate now s st).2.
Proof.
  intros H. unfold evaluate. generalize (conditions (DiskFreePercent (nt_cfg st.2)) s). intros l. revert st H.
  induction l as [|a l IH]; intros st H; [done|]. cbn [foldl]. apply IH. destruct st as [e n]. unfold emit.
  destruct (admits _ _ _) as [[] e']; [by apply Record_ok|done].
Qed.

(** The alert channels are used as configured and the history is bounded.  From
    a valid configuration, after any updates (refused or not saved ones
    included), alerts, tests and evaluations, the configuration is valid, at most
    200 alerts are kept, and everything ever sent to a webhook, Discord or Slack
    went to an [https://] address, a Telegram message carried a token, and mail
    went out only with TLS or the explicit override. *)
Theorem notifier_safe ops (st : AlertEngine * notifier) :
  cfg_ok (nt_cfg st.2) -> events st.2 = [] -> outbox st.2 = [] ->
  let n := (run do_notify ops st).2 in
  cfg_ok (nt_cfg n) /\ (length (Events n) <= 200)%nat /\ forallb safe_delivery (outbox n) = true.
Proof.
  intros Hc He Ho n. assert (notifier_ok n) as [Hc' Hr Ho'].
  { apply (run_invariant do_notify (fun st => notifier_ok st.2)); [|split; rewrite ?He, ?Ho; simpl; done || lia].
    intros o s Hs. destruct o; cbn [do_notify snd]; [by apply Update_ok|by apply Record_ok| |by apply evaluate_ok].
    unfold SendTest. destruct (negb _); [done|by apply Record_ok]. }
  split_and!; [done| |done]. unfold Events. by rewrite length_rev.
Qed.
End NotifierFacts.

(** ** Facts: one alert per quiet window *)

(** The decisions of the engine on a sequence of alerts. *)
Fixpoint decide_all (l : list (Z * string)) (e : AlertEngine) : list (Z * string * bool) :=
  match l with
  | [] => []
  | (now, key) :: l => let '(ok, e) := admits key now e in (now, key, ok) :: decide_all l e
  end.

Definition recent (q now : Z) (key : string) (past : list (Z * string * bool)) : bool :=
  existsb (fun '(t, k, sent) => sent && String.eqb k key && (now - t <? q)) past.

Definition last_sent (key : string) (past : list (Z * string * bool)) : option Z :=
  foldl (fun acc '(t, k, sent) => if (sent && String.eqb k key) : bool then Some t else acc) None past.

Lemma last_sent_snoc key past t k sent :
  last_sent key (past ++ [(t, k, sent)]) = if sent && String.eqb k key then Some t else last_sent key past.
Proof. unfold last_sent. by rewrite foldl_app. Qed.

Lemma last_sent_in key past t : last_sent key past = Some t -> exists y, y ∈ past /\ y.1.1 = t.
Proof.
  induction past as [|[[t' k'] s'] past IH] using rev_ind; [done|]. rewrite last_sent_snoc.
  destruct (s' && String.eqb k' key); [intros [= <-]; exists (t', k', s'); set_solver|].
  intros H. destruct (IH H) as (y & ? & ?). exists y. set_solver.
Qed.

(** Times do not decrease. *)
Definition ascending (past : list (Z * string * bool)) : Prop :=
  forall l1 x l2, past = l1 ++ x :: l2 -> forall y, y ∈ l1 -> y.1.1 <= x.1.1.

Lemma recent_last q now key past :
  ascending past ->
  recent q now key past = match last_sent key past with Some t => now - t <? q | None => false end.
Proof.
  induction past as [|[[t k] sent] past IH] using rev_ind; intros Hasc; [done|].
  rewrite last_sent_snoc. unfold recent in *. rewrite existsb_app. simpl. rewrite orb_false_r.
  assert (ascending past) as Hp.
  { intros l1 x l2 E y Hy. apply (Hasc l1 x (l2 ++ [(t, k, sent)])); [|done]. by rewrite E, <- app_assoc. }
  rewrite IH by done. destruct (sent && String.eqb k key); simpl; [|by rewrite orb_false_r].
  destruct (last_sent key past) as [t0|] eqn:El; [|done].
  assert (t0 <= t) as Ht.
  { destruct (last_sent_in _ _ _ El) as (y & Hy & <-).
    apply (Hasc past (t, k, sent) []); done. }
  destruct (Z.ltb_spec (now - t0) q), (Z.ltb_spec (now - t) q); simpl; try done. lia.
Qed.

Lemma decide_all_exact l : forall past e,
  0 < quiet e <= int64_max ->
  ascending past -> (forall key, lastSeen e !! key = last_sent key past) ->
  (forall x, x ∈ past -> 0 <= x.1.1 <= int64_max) -> Forall (fun x => 0 <= x.1 <= int64_max) l ->
  (forall x y, x ∈ past -> y ∈ l -> x.1.1 <= y.1) -> StronglySorted Z.le (map fst l) ->
  forall l1 t k b l2, decide_all l e = l1 ++ (t, k, b) :: l2 -> b = negb (recent (quiet e) t k (past ++ l1)).
Proof.
  induction l as [|[now key] l IH]; intros past e Hq Hasc Hseen Hpast Hl Hpl Hs l1 t k b l2; [by destruct l1|].
  cbn [decide_all]. destruct (admits key now e) as [ok e'] eqn:Ea.
  inversion Hl as [|?? Hnow Hl']; subst. simpl in Hnow. cbn [map fst] in Hs.
  inversion Hs as [|?? Hs' Hle]; subst. rewrite Forall_forall in Hle.
  assert (ok = negb (recent (quiet e) now key past) /\ quiet e' = quiet e /\
    (forall k', lastSeen e' !! k' = last_sent k' (past ++ [(now, key, ok)]))) as (Hok & Hq' & Hseen').
  { rewrite recent_last by done. unfold admits in Ea. rewrite Hseen in Ea.
    assert (forall k', (<[key := now]> (lastSeen e)) !! k' = if String.eqb key k' then Some now else last_sent k' past) as Hins.
    { intros k'. destruct (String.eqb_spec key k') as [<-|]; [by rewrite lookup_insert_eq|by rewrite lookup_insert_ne]. }
    destruct (last_sent key past) as [t0|] eqn:El.
    - assert ((time_sub now t0 <? quiet e) = (now - t0 <? quiet e)) as Ets.
      { destruct (last_sent_in _ _ _ El) as (y & Hy & <-).
        pose proof (Hpast y Hy). rewrite time_sub_exact by int64_lia. done. }
      rewrite Ets in Ea. destruct (now - t0 <? quiet e); injection Ea as <- <-; split_and!; try done; intros k'.
      + rewrite last_sent_snoc. simpl. apply Hseen.
      + rewrite last_sent_snoc. simpl. apply Hins.
    - injection Ea as <- <-. split_and!; try done. intros k'. rewrite last_sent_snoc. apply Hins. }
  destruct l1 as [|x l1].
  - intros [= <- <- <- <-]. by rewrite app_nil_r.
  - intros [= <- E]. rewrite <- Hq'. change (past ++ (now, key, ok) :: l1) with (past ++ ([(now, key, ok)] ++ l1)).
    rewrite app_assoc. eapply (IH _ e'); [by rewrite Hq'| |done| |done| |done|exact E].
    + intros m1 x m2 Ex y Hy. destruct m2 as [|z m2 _] using rev_ind.
      * apply app_inj_tail in Ex as [<- <-]. apply (Hpl y (now, key)); [done|set_solver].
      * rewrite app_comm_cons, app_assoc in Ex. apply app_inj_tail in Ex as [-> _]. by apply (Hasc m1 x m2).
    + intros x [?| ->%list_elem_of_singleton]%elem_of_app; [by apply Hpast|done].
    + intros x y [Hx| ->%list_elem_of_singleton]%elem_of_app Hy.
      * apply Hpl; [done|set_solver].
      * simpl. apply Hle. by apply (list_elem_of_fmap_2 fst).
Qed.

(** An alert is sent once per quiet window.  On a clock that does not run
    backwards, an alert with a given level and subject is passed on exactly when
    none with the same level and subject was passed on less than the quiet time
    before: repeats are held back, and none is held back longer. *)
Theorem alerts_sent_exact q l l1 t k b l2 :
  q <= int64_max -> Forall (fun x => 0 <= x.1 <= int64_max) l -> StronglySorted Z.le (map fst l) ->
  decide_all l (NewEngine q) = l1 ++ (t, k, b) :: l2 ->
  b = negb (recent (quiet (NewEngine q)) t k l1).
Proof.
  intros Hq Hl Hs. apply (decide_all_exact l []); try done.
  - unfold NewEngine. simpl. destruct (Z.leb_spec q 0); [by vm_compute|lia].
  - intros m1 x m2 E. by destruct m1.
  - set_solver.
  - set_solver.
Qed.

(** ** Facts: numbers, addresses and mail text *)

Lemma itoa_loop_udec fuel : forall n acc, 0 < n < 10 ^ Z.of_nat fuel -> itoa_loop fuel n acc = udec fuel n +:+ acc.
Proof.
  induction fuel as [|fuel IH]; intros n acc H; [simpl in H; lia|]. cbn [itoa_loop udec].
  rewrite (proj2 (Z.ltb_lt 0 n)) by lia. destruct (Z.ltb_spec n 10).
  - rewrite Z.div_small, Z.mod_small by lia. by destruct fuel.
  - assert (0 < n / 10) by (apply Z.div_str_pos; lia).
    assert (n / 10 < 10 ^ Z.of_nat fuel).
    { rewrite Nat2Z.inj_succ, Z.pow_succ_r in H by lia. apply Z.div_lt_upper_bound; lia. }
    rewrite IH by lia. by rewrite app_str_assoc.
Qed.

(** The digits of the package are those of [strconv.Itoa], and read back as the
    number, except for the smallest integer. *)
Lemma itoa_Itoa n : is_int64 n -> n <> int64_min -> itoa n = Itoa n /\ Atoi (itoa n) = n.
Proof.
  intros H Hn. assert (itoa n = Itoa n) as E.
  { unfold itoa, Itoa. destruct (Z.eqb_spec n 0) as [->|]; [done|].
    assert (forall m, 0 < m <= int64_max -> itoa_loop 20 m "" = udec 20 m) as Hl.
    { intros m Hm. rewrite itoa_loop_udec; [apply app_str_nil_r|]. change (10 ^ Z.of_nat 20) with 100000000000000000000.
      int64_lia. }
    destruct (Z.ltb_spec n 0).
    - rewrite wrap64_id by int64_lia. rewrite Hl by int64_lia. done.
    - apply Hl. int64_lia. }
  split; [done|]. rewrite E. by apply Atoi_Itoa.
Qed.

Lemma to4_of4 a : 0 <= a < 2 ^ 32 -> to4 (of4 a) = Some a.
Proof.
  intros H. unfold to4, of4, v4_in_v6_prefix. rewrite Z.shiftr_lor, Z.shiftr_shiftl_l by lia.
  rewrite (Z.shiftr_div_pow2 a) by lia. rewrite Z.div_small by lia. rewrite Z.lor_0_r. simpl (32 - 32). rewrite Z.shiftl_0_r.
  simpl (65535 =? 65535). cbv iota. f_equal. rewrite Z.land_lor_distr_l, !Z.land_ones by lia.
  rewrite Z.shiftl_mul_pow2, Z.mod_mul by lia. rewrite Z.mod_small by lia. by rewrite Z.lor_0_l.
Qed.

Lemma neverDialNets_eq : neverDialNets = [
  IPNet true 0 8; IPNet true 3323068416 15; IPNet true 4026531840 4;
  IPNet false (Z.shiftl 6619035 96) 96; IPNet false (Z.shiftl 433785077761 80) 48; IPNet false 0 128;
  IPNet false (Z.shiftl 256 112) 64; IPNet false (Z.shiftl 536939960 96) 32; IPNet false (Z.shiftl 65216 112) 10].
Proof. vm_compute. reflexivity. Qed.

Lemma Contains_v4 b l a : 0 <= a < 2 ^ 32 ->
  Contains (IPNet true b l) (of4 a) = (Z.shiftr a (32 - l) =? Z.shiftr b (32 - l)).
Proof. intros Ha. unfold Contains. simpl net_v4. cbv iota. simpl net_addr. simpl net_plen. by rewrite to4_of4. Qed.

Lemma Contains_v6 b l a : 0 <= a < 2 ^ 32 -> to4 b = None -> Contains (IPNet false b l) (of4 a) = false.
Proof.
  intros Ha Hb. unfold Contains. simpl net_v4. cbv iota. simpl net_addr. simpl net_plen. by rewrite Hb, to4_of4.
Qed.

(** Notifications never leave for reserved space.  Of the IPv4 addresses,
    exactly [0.0.0.0/8], [198.18.0.0/15] and [240.0.0.0/4] are refused, bounds
    included; what is dialled is an address of the host that is not refused. *)
Theorem dial_filter_exact a resolve answers host d :
  0 <= a < 2 ^ 32 ->
  (blockedDestination (Some (of4 a))
     = (a <? 2 ^ 24) || ((3323068416 <=? a) && (a <? 3323068416 + 2 ^ 17)) || (4026531840 <=? a)) /\
  (dial resolve answers host = Some d -> blockedDestination (Some d) = false).
Proof.
  intros Ha. split.
  - unfold blockedDestination. rewrite neverDialNets_eq. cbn [existsb].
    rewrite !Contains_v4, !Contains_v6 by (done || vm_compute; reflexivity). rewrite !orb_false_r.
    change (Z.shiftr 0 (32 - 8)) with 0. change (Z.shiftr 3323068416 (32 - 15)) with 25353. change (Z.shiftr 4026531840 (32 - 4)) with 15.
    change (32 - 8) with 24. change (32 - 15) with 17. change (32 - 4) with 28. rewrite !shiftr_eq by lia.
    apply eq_true_iff_eq. rewrite !orb_true_iff, !andb_true_iff, !Z.leb_le, !Z.ltb_lt. lia.
  - unfold dial. destruct (match ParseIP host with Some _ => _ | None => _ end); [|done].
    intros [_ H]%find_some. apply andb_prop in H as [H _]. by apply negb_true_iff in H.
Qed.

Lemma filter_str_all p s : all_bytes p (filter_str p s) = true.
Proof. induction s as [|c s IH]; simpl; [done|]. destruct (p c) eqn:E; simpl; [by rewrite E|done]. Qed.

Lemma all_bytes_take p n : forall s, all_bytes p s = true -> all_bytes p (take_str n s) = true.
Proof. induction n as [|n IH]; intros [|c s]; simpl; try done. intros [-> H]%andb_prop. by apply IH. Qed.
Lemma all_bytes_drop p n : forall s, all_bytes p s = true -> all_bytes p (drop_str n s) = true.
Proof. induction n as [|n IH]; intros [|c s]; simpl; try done. intros [_ H]%andb_prop. by apply IH. Qed.

Lemma iter_strip_all p f fuel :
  (forall s t, f s = Some t -> all_bytes p s = true -> all_bytes p t = true) ->
  forall s, all_bytes p s = true -> all_bytes p (iter_strip f fuel s) = true.
Proof.
  intros Hf. induction fuel as [|fuel IH]; intros s Hs; simpl; [done|]. destruct (f s) eqn:E; [|done].
  apply IH. by eapply Hf.
Qed.

Lemma all_bytes_trim p s : all_bytes p s = true -> all_bytes p (trim_space s) = true.
Proof.
  intros Hs. unfold trim_space. apply iter_strip_all; [|apply iter_strip_all; [|done]]; intros u t.
  - unfold strip_space_right. destruct (List.find _ _); [|done]. intros [= <-]. apply all_bytes_take.
  - unfold strip_space_left. destruct (List.find _ _); [|done]. intros [= <-]. apply all_bytes_drop.
Qed.

(** A header is one line of printable bytes. *)
Lemma sanitizeHeader_clean s : all_bytes printable (sanitizeHeader s) = true.
Proof. apply all_bytes_trim, filter_str_all. Qed.

Lemma sanitize_line_clean l :
  all_bytes (fun c => printable c || is_byte 9 c) (sanitize_line l) = true /\ sanitize_line l <> ".".
Proof.
  unfold sanitize_line. pose proof (filter_str_all (fun c => printable c || is_byte 9 c) l) as H.
  set (t := filter_str _ l) in *. clearbody t. destruct (has_prefix "." t) eqn:E.
  - split; [done|]. apply has_prefix_spec in E as [u ->]. done.
  - split; [done|]. intros ->. done.
Qed.

(** A mail cannot be steered by its text.  Whatever the subject and the message
    hold, the sanitized header has no line break or control character, and the
    body is CR LF separated lines of printable bytes and tabs, none of which is
    the lone dot that ends a message. *)
Theorem mail_text_clean subject message :
  all_bytes printable (sanitizeHeader subject) = true /\
  exists lines, sanitizeEmailBody message = join_str crlf lines /\
    Forall (fun l => all_bytes (fun c => printable c || is_byte 9 c) l = true /\ l <> ".") lines.
Proof.
  split; [apply sanitizeHeader_clean|]. eexists. split; [reflexivity|].
  apply Forall_map, Forall_forall. intros l _. apply sanitize_line_clean.
Qed.

(** ** Witnesses and divergences *)

Module NotifyDemo.
Abbreviation secretfs := (fs secrets).
#[global] Instance secret_disk : Persist secrets secretfs :=
  fs_persist "/data/notify-secrets.json" saveJSON (saveJSON_atomic _).

(** The configuration [main] starts with. *)
Definition initial : Config :=
  MkConfig false false "" false "" false "" false "" false "" "" false "" false "" 0 "" "" false false 0 60.
Definition telegram : Config :=
  MkConfig true false "" false "" true "42" false "" false "" "" false "" false "" 0 "" "" false false 10 60.
Definition disabled_ntfy : Config :=
  MkConfig false false "" false "" false "" false "" true "" "alerts" false "" false "" 0 "" "" false false 0 60.
Definition token : secrets := MkSecrets "" "123:abc" "" "" "" "".
Definition empty_disk : secretfs := MkFs ∅ [] [].
Definition fresh : Notifier (W := secretfs) := MkNotifier initial no_secrets empty_disk [] [].

(** The channels are never written to disk: a restart reads the secrets back and
    starts from the disabled configuration. *)
Example restart_forgets_channels :
  let n := (Update telegram token false fresh).2 in
  cf_Enabled (nt_cfg n) = true /\
  (fun n' => (nt_cfg n', nt_sec n')) <$> New initial (nt_disk n) = Some (initial, token).
Proof. vm_compute. by split. Qed.

(** Clearing the secrets is accepted for a channel that needs one, which is
    silent from then on. *)
Example cleared_channel_is_silent :
  let n := (Update telegram token false fresh).2 in
  let r := Update telegram no_secrets true n in
  r.1 = None /\ outbox (Record_ 0 "critical" "x" "y" r.2) = [].
Proof. vm_compute. by split. Qed.

(** The test reports success and sends nothing while alerts are disabled. *)
Example test_of_disabled_succeeds :
  let n := (Update disabled_ntfy no_secrets false fresh).2 in
  (SendTest 0 n).1 = true /\ outbox (SendTest 0 n).2 = [].
Proof. vm_compute. by split. Qed.

(** An update whose secrets cannot be written is reported as failed and in force. *)
Example refused_update_in_force :
  let n := MkNotifier initial no_secrets (MkFs ∅ [Fail] [] : secretfs) [] [] in
  (Update telegram token false n).1 = Some ErrPersist /\ nt_cfg (Update telegram token false n).2 = telegram.
Proof. vm_compute. by split. Qed.

(** [smtp.Client.Data] doubles a leading dot itself and the receiver undoes it
    once, so the dot added here stays in the mail. *)
Definition dot_stuff (l : string) : string := if has_prefix "." l then "." +:+ l else l.
Definition dot_unstuff (l : string) : string := if has_prefix "." l then drop_str 1 l else l.
Example leading_dot_doubled :
  dot_unstuff (dot_stuff (sanitize_line ".profile is missing")) = "..profile is missing".
Proof. reflexivity. Qed.

(** The C1 control U+0085 (next line) is not removed. *)
Example c1_control_kept :
  let nel := String (ascii_of_N 194) (String (ascii_of_N 133) "") in
  sanitizeHeader ("a" +:+ nel +:+ "b") = "a" +:+ nel +:+ "b".
Proof. vm_compute. reflexivity. Qed.

Definition alerts : list (Z * string) := [(0, "a"); (10, "a"); (10, "b"); (hour, "a")].
End NotifyDemo.

Lemma notifier_safe_witness :
  let n := (run do_notify [OpUpdate NotifyDemo.telegram NotifyDemo.token false; OpRecord 1 "critical" "down" "x"; OpTest 2]
    (NewEngine 0, NotifyDemo.fresh)).2 in
  length (outbox n) = 2%nat /\ cfg_ok (nt_cfg n) /\ (length (Events n) <= 200)%nat /\
  forallb safe_delivery (outbox n) = true.
Proof.
  split; [vm_compute; reflexivity|].
  apply (notifier_safe [OpUpdate NotifyDemo.telegram NotifyDemo.token false; OpRecord 1 "critical" "down" "x"; OpTest 2]
    (NewEngine 0, NotifyDemo.fresh)); vm_compute; reflexivity.
Defined.

Lemma alerts_sent_exact_witness :
  decide_all NotifyDemo.alerts (NewEngine 0) = [(0, "a", true); (10, "a", false); (10, "b", true); (hour, "a", true)] /\
  true = negb (recent (quiet (NewEngine 0)) hour "a" [(0, "a", true); (10, "a", false); (10, "b", true)]).
Proof.
  split; [vm_compute; reflexivity|].
  apply (alerts_sent_exact 0 NotifyDemo.alerts [(0, "a", true); (10, "a", false); (10, "b", true)] hour "a" true []).
  - vm_compute. discriminate.
  - repeat constructor; vm_compute; discriminate.
  - repeat constructor; vm_compute; discriminate.
  - vm_compute. reflexivity.
Defined.

Lemma dial_filter_exact_witness : blockedDestination (Some (of4 2130706433)) = false.
Proof.
  destruct (dial_filter_exact 2130706433 (fun _ => None) (fun _ => true) "127.0.0.1" 0) as [H _];
    [split; [vm_compute; discriminate|reflexivity]|].
  rewrite H. vm_compute. reflexivity.
Defined.
