(* ===== verification/Yaml.v ===== *)
(** * Yaml: the block style of the documents the program writes

    Not a component: a reader for the part of YAML that cloud-init seeds use
    (mappings, sequences and literal blocks by indentation, scalars kept as
    they are written), the printer that the documents turn out to be made of,
    and the theorem that reading undoes printing.  A scalar in single quotes
    stands for the text between them, a doubled quote for one. *)

From S2P Require Export GoStrings.

Definition nl : ascii := "010".
Definition dq : string := String "034" "".
Definition sq : ascii := "'".

(** ** Lines *)

(** Indentation and the text after it. *)
Definition line : Type := nat * string.

Fixpoint pad (n : nat) (s : string) : string := match n with O => s | S n => String " " (pad n s) end.

Definition render_line (l : line) : string := pad l.1 l.2 +:+ String nl "".
Fixpoint render (ls : list line) : string :=
  match ls with [] => "" | l :: ls => render_line l +:+ render ls end.

Fixpoint measure_line (s : string) : line :=
  match s with String " " s' => let '(n, t) := measure_line s' in (S n, t) | _ => (O, s) end.

(** The lines of a text, without the empty piece after the last line break. *)
Definition lines_of (s : string) : list line :=
  let ps := split_byte nl s in map measure_line (match last ps with Some "" => removelast ps | _ => ps end).

(** ** Documents *)

Inductive yaml :=
| YNull
| YScalar (raw : string)
| YBlock (header : string) (text : list string)
| YMap (entries : list (string * yaml))
| YSeq (items : list yaml).

Fixpoint split_key (t : string) : option (string * string) :=
  match t with
  | "" => None
  | String c t' =>
      let next := '(k, r) ← split_key t'; Some (String c k, r) in
      if Ascii.eqb c ":" then
        match t' with
        | "" => Some ("", "")
        | String " " r => Some ("", r)
        | _ => next
        end
      else next
  end.

(** The characters no plain scalar starts with: quotes, flow collections,
    anchors, aliases, tags, block headers, directives, comments. *)
Definition indicators : list ascii :=
  [sq; "034"; "["; "]"; "{"; "}"; ","; "*"; "&"; "!"; "|"; ">"; "%"; "@"; "`"; "#"]%char.

(** A text that starts with one is no key of the documents read here. *)
Definition key_of (t : string) : option (string * string) :=
  match t with
  | String c _ => if existsb (Ascii.eqb c) indicators then None else split_key t
  | "" => None
  end.

Definition is_header (r : string) : bool := String.eqb r "|" || String.eqb r "!!binary |".

Fixpoint print (n : nat) (y : yaml) : list line :=
  match y with
  | YMap kvs =>
      flat_map (fun '(k, v) =>
        match v with
        | YNull => [(n, k +:+ ":")]
        | YScalar r => [(n, k +:+ ": " +:+ r)]
        | YBlock h ls => (n, k +:+ ": " +:+ h) :: map (fun l => let '(m, t) := measure_line l in ((n + 2 + m)%nat, t)) ls
        | YMap _ | YSeq _ => (n, k +:+ ":") :: print (n + 2) v
        end) kvs
  | YSeq l =>
      flat_map (fun v =>
        match v with
        | YScalar r => [(n, "- " +:+ r)]
        | YMap _ => match print (n + 2) v with (_, t) :: ls => (n, "- " +:+ t) :: ls | [] => [] end
        | _ => []
        end) l
  | _ => []
  end.

(** ** Reading *)

Definition deeper (n : nat) (l : line) : bool := Nat.ltb n l.1.

(** The lines of a literal block below a key at column [n]: the first one that
    is not blank sets the column. *)
Fixpoint block_column (n : nat) (ls : list line) : option nat :=
  match ls with
  | [] => None
  | (m, "") :: ls => block_column n ls
  | (m, _) :: _ => if Nat.ltb n m then Some m else None
  end.
Fixpoint take_block (c : nat) (ls : list line) : list string * list line :=
  match ls with
  | (m, t) :: ls' =>
      if String.eqb t "" || Nat.leb c m
      then let '(b, rest) := take_block c ls' in (pad (m - c) t :: b, rest) else ([], ls)
  | [] => ([], [])
  end.
Definition read_block (n : nat) (ls : list line) : list string * list line :=
  match block_column n ls with Some c => take_block c ls | None => ([], ls) end.

(** Blank lines and comments between entries. *)
Definition is_comment (t : string) : bool := match t with "" => true | String c _ => Ascii.eqb c "#" end.

Fixpoint read_map (fuel : nat) (n : nat) (ls : list line) : option (list (string * yaml) * list line) :=
  match fuel with
  | O => None
  | S fuel =>
      match ls with
      | (m, t) :: ls' =>
          if is_comment t then read_map fuel n ls'
          else if negb (Nat.eqb m n) then Some ([], ls) else
          match key_of t with
          | None => Some ([], ls)
          | Some (k, r) =>
              '(v, rest) ←
                (if String.eqb r "" then
                   match ls' with
                   | l :: _ => if deeper n l then read_node fuel l.1 ls' else Some (YNull, ls')
                   | [] => Some (YNull, ls')
                   end
                 else if is_header r then let '(b, rest) := read_block n ls' in Some (YBlock r b, rest)
                 else Some (YScalar r, ls'));
              '(kvs, rest) ← read_map fuel n rest;
              Some ((k, v) :: kvs, rest)
          end
      | [] => Some ([], [])
      end
  end
with read_seq (fuel : nat) (n : nat) (ls : list line) : option (list yaml * list line) :=
  match fuel with
  | O => None
  | S fuel =>
      match ls with
      | (m, t) :: ls' =>
          if is_comment t then read_seq fuel n ls'
          else if negb (Nat.eqb m n) || negb (has_prefix "- " t) then Some ([], ls) else
          let r := drop_str 2 t in
          '(v, rest) ←
            (match key_of r with
             | Some _ => '(kvs, rest) ← read_map fuel (n + 2) (((n + 2)%nat, r) :: ls'); Some (YMap kvs, rest)
             | None => Some (YScalar r, ls')
             end);
          '(vs, rest) ← read_seq fuel n rest;
          Some (v :: vs, rest)
      | [] => Some ([], [])
      end
  end
with read_node (fuel : nat) (n : nat) (ls : list line) : option (yaml * list line) :=
  match fuel with
  | O => None
  | S fuel =>
      match ls with
      | (_, t) :: _ =>
          if has_prefix "- " t then '(vs, rest) ← read_seq fuel n ls; Some (YSeq vs, rest)
          else '(kvs, rest) ← read_map fuel n ls; Some (YMap kvs, rest)
      | [] => None
      end
  end.

(** Two turns for each line, and some. *)
Definition read_yaml (s : string) : option yaml :=
  let ls := lines_of s in
  match read_node (3 * length ls + 3) 0 ls with Some (y, []) => Some y | _ => None end.

(** The text of a scalar in single quotes. *)
Fixpoint unquote_body (s : string) : option string :=
  match s with
  | "" => None
  | String c s' =>
      if Ascii.eqb c sq then
        match s' with
        | "" => Some ""
        | String d s'' => if Ascii.eqb d sq then String sq <$> unquote_body s'' else None
        end
      else String c <$> unquote_body s'
  end.
Definition unquote (raw : string) : option string :=
  match raw with String c s => if Ascii.eqb c sq then unquote_body s else None | "" => None end.

(** ** Well-formed documents *)

Definition no_nl (s : string) : bool := negb (contains_byte nl s).
Definition starts_flush (s : string) : bool := match s with String c _ => negb (Ascii.eqb c " ") | "" => false end.

Definition key_ok (k : string) : bool :=
  starts_flush k && no_nl k && negb (contains_byte ":" k) && negb (has_prefix "- " k) &&
  match k with String c _ => negb (existsb (Ascii.eqb c) indicators) | "" => false end.
Definition block_ok (ls : list string) : bool :=
  match ls with l :: _ => starts_flush l | [] => false end && forallb no_nl ls.

Fixpoint wf (y : yaml) : bool :=
  match y with
  | YNull => true
  | YScalar r => negb (String.eqb r "") && negb (is_header r) && no_nl r
  | YBlock h ls => is_header h && block_ok ls
  | YMap kvs => negb (Nat.eqb (length kvs) 0) && forallb (fun kv => key_ok kv.1 && wf kv.2) kvs
  | YSeq l => negb (Nat.eqb (length l) 0) &&
      forallb (fun v => match v with YScalar r => negb (bool_decide (is_Some (key_of r))) && no_nl r | YMap _ => wf v | _ => false end) l
  end.

(** ** Reading undoes printing *)

Section YamlInd.
Context (P : yaml -> Prop) (Hnull : P YNull) (Hscalar : forall r, P (YScalar r)) (Hblock : forall h ls, P (YBlock h ls))
  (Hmap : forall kvs, Forall (fun kv => P kv.2) kvs -> P (YMap kvs)) (Hseq : forall l, Forall P l -> P (YSeq l)).
Fixpoint yaml_nested_ind (y : yaml) : P y :=
  match y with
  | YNull => Hnull
  | YScalar r => Hscalar r
  | YBlock h ls => Hblock h ls
  | YMap kvs => Hmap kvs ((fix go l : Forall (fun kv => P kv.2) l :=
      match l with [] => Forall_nil_2 _ | kv :: l => Forall_cons_2 _ kv l (yaml_nested_ind kv.2) (go l) end) kvs)
  | YSeq l => Hseq l ((fix go l : Forall P l :=
      match l with [] => Forall_nil_2 _ | v :: l => Forall_cons_2 _ v l (yaml_nested_ind v) (go l) end) l)
  end.
End YamlInd.

Lemma split_key_colon k r :
  contains_byte ":" k = false -> r = "" \/ (exists r', r = String " " r') ->
  split_key (k +:+ String ":" r) = Some (k, match r with String _ r' => r' | "" => "" end).
Proof.
  intros Hk Hr. induction k as [|c k IH]; simpl.
  - destruct Hr as [->|[r' ->]]; done.
  - change (String c k) with (String c "" +:+ k) in Hk. rewrite contains_byte_app in Hk. apply orb_false_elim in Hk as [Hc Hk].
    rewrite (IH Hk). destruct (Ascii.eqb_spec c ":") as [->|]; done.
Qed.

Lemma key_of_entry k r :
  key_ok k = true -> r = "" \/ (exists r', r = String " " r') ->
  key_of (k +:+ String ":" r) = Some (k, match r with String _ r' => r' | "" => "" end).
Proof.
  unfold key_ok. rewrite !andb_true_iff, !negb_true_iff. intros [[[[_ _] Hk] _] Hc] Hr.
  destruct k as [|c k]; [done|]. apply negb_true_iff in Hc. cbn [String.append]. unfold key_of. rewrite Hc.
  exact (split_key_colon (String c k) r Hk Hr).
Qed.

Definition key_flush k : key_ok k = true -> exists c k', k = String c k' /\ c <> " "%char /\ has_prefix "- " k = false.
Proof.
  unfold key_ok. rewrite !andb_true_iff, !negb_true_iff. intros [[[[Hs _] _] Hd] _]. destruct k as [|c k]; [done|].
  exists c, k. split_and!; [done| |done]. simpl in Hs. by destruct (Ascii.eqb_spec c " ").
Qed.

Lemma key_no_dash k t : key_ok k = true -> has_prefix "- " (k +:+ String ":" t) = false.
Proof.
  intros Hk. destruct (key_flush k Hk) as (c & k' & -> & Hc & Hd). unfold has_prefix in *. cbn [String.append String.prefix] in *.
  destruct (ascii_dec "-" c) as [<-|]; [|done]. destruct k' as [|d k']; [by simpl|]. cbn [String.append String.prefix] in *.
  destruct (ascii_dec " " d); [by destruct k'|done].
Qed.

Lemma pad_measure s : let '(m, t) := measure_line s in pad m t = s.
Proof.
  induction s as [|c s IH]; [done|].
  destruct c as [[] [] [] [] [] [] [] []]; try done. simpl. destruct (measure_line s) as [m t]. simpl. by rewrite IH.
Qed.

(** What may follow a node at column [n]. *)
Definition rest_ok (n : nat) (rest : list line) : Prop :=
  match rest with [] => True | (m, t) :: _ => (m < n)%nat /\ is_comment t = false end.

Lemma rest_ok_mono n n' rest : (n <= n')%nat -> rest_ok n rest -> rest_ok n' rest.
Proof. destruct rest as [|[m t] rest]; simpl; [done|]. intros ? [? ?]. split; [lia|done]. Qed.

Lemma take_block_text c ls rest :
  match rest with [] => True | (m, t) :: _ => (m < c)%nat /\ t <> "" end ->
  take_block c (map (fun l => let '(m, t) := measure_line l in ((c + m)%nat, t)) ls ++ rest) = (ls, rest).
Proof.
  intros Hr. induction ls as [|l ls IH]; simpl.
  - destruct rest as [|[m t] rest]; [done|]. simpl. destruct Hr as [Hm Ht].
    destruct (String.eqb_spec t "") as [|_]; [done|]. destruct (Nat.leb_spec c m); [lia|done].
  - pose proof (pad_measure l) as Hl. destruct (measure_line l) as [m t]. simpl.
    destruct (Nat.leb_spec c (c + m)); [|lia]. rewrite orb_true_r, IH.
    by replace (c + m - c)%nat with m by lia; rewrite Hl.
Qed.

Lemma measure_flush s : starts_flush s = true -> measure_line s = (O, s).
Proof. destruct s as [|[[] [] [] [] [] [] [] []] s]; done. Qed.

Lemma read_block_text n ls rest :
  block_ok ls = true -> rest_ok (n + 1) rest ->
  read_block n (map (fun l => let '(m, t) := measure_line l in ((n + 2 + m)%nat, t)) ls ++ rest) = (ls, rest).
Proof.
  unfold block_ok. intros [Hf Hn]%andb_prop Hr. destruct ls as [|l ls]; [done|]. unfold read_block.
  assert (block_column n (map (fun l => let '(m, t) := measure_line l in ((n + 2 + m)%nat, t)) (l :: ls) ++ rest) = Some (n + 2)%nat) as ->.
  { simpl. rewrite (measure_flush l Hf). simpl. destruct l; [done|]. destruct (Nat.ltb_spec n (n + 2 + 0)); [|lia].
    f_equal. lia. }
  apply take_block_text. destruct rest as [|[m t] rest]; [done|]. destruct Hr. split; [lia|by destruct t].
Qed.

(** The lines of an entry, and their number. *)
Definition entry (n : nat) (k : string) (v : yaml) : list line := print n (YMap [(k, v)]).
Lemma print_map_cons n k v kvs : print n (YMap ((k, v) :: kvs)) = entry n k v ++ print n (YMap kvs).
Proof. unfold entry. simpl. by rewrite app_nil_r. Qed.

Lemma entry_text n k v : exists t ls, entry n k v = (n, k +:+ String ":" t) :: ls.
Proof.
  unfold entry. simpl. destruct v; simpl; rewrite ?app_nil_r; eauto.
Qed.

Lemma key_no_comment k t : key_ok k = true -> is_comment (k +:+ t) = false.
Proof.
  intros Hk. unfold key_ok in Hk. rewrite !andb_true_iff in Hk. destruct Hk as [_ Hc]. destruct k as [|c k]; [done|].
  apply negb_true_iff in Hc. cbn [String.append is_comment]. destruct (Ascii.eqb_spec c "#") as [->|]; done.
Qed.

Lemma print_map_head n kvs rest :
  forallb (fun kv => key_ok kv.1 && wf kv.2) kvs = true -> rest_ok n rest -> rest_ok (n + 1) (print n (YMap kvs) ++ rest).
Proof.
  destruct kvs as [|[k v] kvs]; intros Hk Hr; [apply (rest_ok_mono n); [lia|done]|].
  rewrite print_map_cons. destruct (entry_text n k v) as (t & ls & ->). cbn [app rest_ok].
  split; [lia|]. cbn [forallb] in Hk. apply andb_prop in Hk as [[Hk _]%andb_prop _]. by apply key_no_comment.
Qed.

Definition is_coll (y : yaml) : bool := match y with YMap _ | YSeq _ => true | _ => false end.

(** What the readers make of a printed node, with the fuel they need. *)
Record reads_back (y : yaml) : Prop := {
  rb_node : forall n rest fuel, rest_ok n rest -> is_coll y = true -> (3 * length (print n y) + 3 <= fuel)%nat ->
    read_node fuel n (print n y ++ rest) = Some (y, rest);
  rb_map : forall kvs n rest fuel, y = YMap kvs -> rest_ok n rest -> (3 * length (print n y) + 1 <= fuel)%nat ->
    read_map fuel n (print n y ++ rest) = Some (kvs, rest)
}.

Lemma read_map_end fuel n rest : rest_ok n rest -> (1 <= fuel)%nat -> read_map fuel n rest = Some ([], rest).
Proof.
  intros Hr Hf. destruct fuel; [lia|]. destruct rest as [|[m t] rest]; [done|]. simpl. destruct Hr as [Hm ->].
  destruct (Nat.eqb_spec m n); [lia|done].
Qed.
Lemma read_seq_end fuel n rest : rest_ok n rest -> (1 <= fuel)%nat -> read_seq fuel n rest = Some ([], rest).
Proof.
  intros Hr Hf. destruct fuel; [lia|]. destruct rest as [|[m t] rest]; [done|]. simpl. destruct Hr as [Hm ->].
  destruct (Nat.eqb_spec m n); [lia|done].
Qed.

(** One entry. *)
Lemma read_entry fuel n k v rest :
  key_ok k = true -> wf v = true -> reads_back v -> rest_ok (n + 1) rest -> (3 * length (entry n k v) <= fuel)%nat ->
  read_map (S fuel) n (entry n k v ++ rest) =
    '(kvs, rest) ← read_map fuel n rest; Some ((k, v) :: kvs, rest).
Proof.
  intros Hk Hv Hrb Hr Hf. unfold entry in *. cbn [print flat_map] in *. rewrite app_nil_r in *.
  destruct v as [|r|h ls|kvs|l]; cbn [app read_map] in *; rewrite key_no_comment by done; rewrite Nat.eqb_refl; cbn [negb].
  - change (k +:+ ":") with (k +:+ String ":" ""). rewrite (key_of_entry k "") by (done || by left).
    cbn [String.eqb]. destruct rest as [|[m t] rest]; [done|]. unfold deeper. cbn [fst]. destruct Hr as [Hm _].
    destruct (Nat.ltb_spec n m); [lia|done].
  - change (k +:+ ": " +:+ r) with (k +:+ String ":" (String " " r)). rewrite (key_of_entry k) by (eauto || done).
    simpl in Hv. rewrite !andb_true_iff, !negb_true_iff in Hv. destruct Hv as [[-> ->] _]. done.
  - change (k +:+ ": " +:+ h) with (k +:+ String ":" (String " " h)). rewrite (key_of_entry k) by (eauto || done).
    simpl in Hv. apply andb_prop in Hv as [Hh Hb]. rewrite Hh, read_block_text by done.
    unfold is_header in Hh. destruct (String.eqb_spec h "") as [->|_]; done.
  - change (k +:+ ":") with (k +:+ String ":" ""). rewrite (key_of_entry k "") by (done || by left).
    cbn [String.eqb]. set (ls := print (n + 2) (YMap kvs)) in *.
    assert (exists t ls', ls = ((n + 2)%nat, t) :: ls') as (t & ls' & E).
    { simpl in Hv. apply andb_prop in Hv as [Hl _]. destruct kvs as [|[k' v'] kvs]; [done|].
      unfold ls. rewrite print_map_cons. destruct (entry_text (n + 2) k' v') as (t & ls' & ->). simpl. eauto. }
    assert (read_node fuel (n + 2) (ls ++ rest) = Some (YMap kvs, rest)) as Hn.
    { apply (rb_node _ Hrb); [apply (rest_ok_mono (n + 1)); [lia|done]|done|]. fold ls. simpl in Hf. lia. }
    rewrite E in *. cbn [app] in *. unfold deeper. cbn [fst]. destruct (Nat.ltb_spec n (n + 2)); [|lia]. by rewrite Hn.
  - change (k +:+ ":") with (k +:+ String ":" ""). rewrite (key_of_entry k "") by (done || by left).
    cbn [String.eqb]. set (ls := print (n + 2) (YSeq l)) in *.
    assert (exists t ls', ls = ((n + 2)%nat, t) :: ls') as (t & ls' & E).
    { simpl in Hv. apply andb_prop in Hv as [Hl Hv]. destruct l as [|v l]; [done|]. apply andb_prop in Hv as [Hv _].
      unfold ls. cbn [print flat_map]. destruct v as [| | |kvs|]; try done; [eauto|].
      simpl in Hv. apply andb_prop in Hv as [Hl' _]. destruct kvs as [|[k' v'] kvs]; [done|].
      change (n + 2 + 2)%nat with ((n + 2) + 2)%nat. cbn [app]. rewrite print_map_cons.
      destruct (entry_text (n + 2 + 2) k' v') as (t & ls' & ->). simpl. eauto. }
    assert (read_node fuel (n + 2) (ls ++ rest) = Some (YSeq l, rest)) as Hn.
    { apply (rb_node _ Hrb); [apply (rest_ok_mono (n + 1)); [lia|done]|done|]. fold ls. simpl in Hf. lia. }
    rewrite E in *. cbn [app] in *. unfold deeper. cbn [fst]. destruct (Nat.ltb_spec n (n + 2)); [|lia]. by rewrite Hn.
Qed.

Lemma entry_length n k v : (1 <= length (entry n k v))%nat.
Proof. destruct (entry_text n k v) as (t & ls & ->). simpl. lia. Qed.

Lemma read_entries kvs n rest fuel :
  Forall (fun kv => wf kv.2 = true -> reads_back kv.2) kvs ->
  forallb (fun kv => key_ok kv.1 && wf kv.2) kvs = true -> rest_ok n rest ->
  (3 * length (print n (YMap kvs)) + 1 <= fuel)%nat ->
  read_map fuel n (print n (YMap kvs) ++ rest) = Some (kvs, rest).
Proof.
  intros HF. revert fuel. induction HF as [|[k v] kvs Hv HF IH]; intros fuel Hk Hr Hf.
  { apply read_map_end; [done|]. simpl in Hf. lia. }
  rewrite print_map_cons in *. rewrite <- app_assoc. cbn [forallb] in Hk. apply andb_prop in Hk as [[Hk Hw]%andb_prop Hks].
  cbn [fst snd] in *. rewrite length_app in Hf. pose proof (entry_length n k v).
  destruct fuel as [|fuel]; [lia|]. rewrite read_entry; [|done|done|by apply Hv|by apply print_map_head|lia].
  rewrite IH by (done || lia). done.
Qed.

(** The lines of an item. *)
Definition item (n : nat) (v : yaml) : list line := print n (YSeq [v]).
Lemma print_seq_cons n v l : print n (YSeq (v :: l)) = item n v ++ print n (YSeq l).
Proof. unfold item. simpl. by rewrite app_nil_r. Qed.

Definition item_ok (v : yaml) : bool :=
  match v with YScalar r => negb (bool_decide (is_Some (key_of r))) && no_nl r | YMap _ => wf v | _ => false end.

Lemma item_text n v : item_ok v = true -> exists t ls, item n v = (n, "- " +:+ t) :: ls /\
  match v with YMap _ => print (n + 2) v = ((n + 2)%nat, t) :: ls | _ => v = YScalar t /\ ls = [] end.
Proof.
  intros Hv. unfold item. cbn [print flat_map]. rewrite app_nil_r. destruct v as [|r| |kvs|]; try done; [eauto|].
  simpl in Hv. apply andb_prop in Hv as [Hl _]. destruct kvs as [|[k v] kvs]; [done|].
  rewrite print_map_cons. destruct (entry_text (n + 2) k v) as (t & ls & ->). simpl. eauto.
Qed.

Lemma drop_dash t : drop_str 2 ("- " +:+ t) = t.
Proof. by destruct t. Qed.
Lemma dash_prefix t : has_prefix "- " ("- " +:+ t) = true.
Proof. apply has_prefix_spec. eauto. Qed.

Lemma read_item fuel n v rest :
  item_ok v = true -> reads_back v -> rest_ok (n + 1) rest -> (3 * length (item n v) + 1 <= fuel)%nat ->
  read_seq (S fuel) n (item n v ++ rest) = '(vs, rest) ← read_seq fuel n rest; Some (v :: vs, rest).
Proof.
  intros Hv Hrb Hr Hf. destruct (item_text n v Hv) as (t & ls & E & Ev). rewrite E in *. cbn [app read_seq].
  change (is_comment ("- " +:+ t)) with false. cbn [andb]. rewrite Nat.eqb_refl, dash_prefix, drop_dash. cbn [negb orb].
  destruct v as [|r| |kvs|]; try done.
  - destruct Ev as [[= <-] ->]. simpl in Hv. apply andb_prop in Hv as [Hk _]. apply negb_true_iff, bool_decide_eq_false in Hk.
    destruct (key_of r) eqn:Ek; [destruct Hk; eauto|]. done.
  - assert (exists k v, key_of t = Some (k, v)) as (k & v & Hk).
    { simpl in Hv. apply andb_prop in Hv as [Hl Hv]. destruct kvs as [|[k v] kvs]; [done|]. cbn [forallb] in Hv.
      apply andb_prop in Hv as [[Hk Hw]%andb_prop _]. rewrite print_map_cons in Ev.
      unfold entry in Ev. cbn [print flat_map] in Ev. rewrite app_nil_r in Ev. cbn [fst snd] in *.
      destruct v as [|r|h ls'|kvs'|l]; cbn [app] in Ev; injection Ev as <- _.
      - exists k, "". apply (key_of_entry k ""); [done|by left].
      - exists k, r. apply (key_of_entry k (String " " r)); [done|eauto].
      - exists k, h. apply (key_of_entry k (String " " h)); [done|eauto].
      - exists k, "". apply (key_of_entry k ""); [done|by left].
      - exists k, "". apply (key_of_entry k ""); [done|by left]. }
    rewrite Hk. assert (read_map fuel (n + 2) (print (n + 2) (YMap kvs) ++ rest) = Some (kvs, rest)) as Hm.
    { apply (rb_map _ Hrb); [done|apply (rest_ok_mono (n + 1)); [lia|done]|]. rewrite Ev. simpl in *. lia. }
    rewrite Ev in Hm. cbn [app] in Hm. unfold line in *. by rewrite Hm.
Qed.

Lemma print_seq_head n l rest :
  forallb item_ok l = true -> rest_ok n rest -> rest_ok (n + 1) (print n (YSeq l) ++ rest).
Proof.
  destruct l as [|v l]; intros Hk Hr; [apply (rest_ok_mono n); [lia|done]|]. cbn [forallb] in Hk. apply andb_prop in Hk as [Hk _].
  rewrite print_seq_cons. destruct (item_text n v Hk) as (t & ls & -> & _). cbn [app rest_ok]. split; [lia|done].
Qed.

Lemma read_items l n rest fuel :
  Forall (fun v => item_ok v = true -> reads_back v) l -> forallb item_ok l = true -> rest_ok n rest ->
  (3 * length (print n (YSeq l)) + 2 <= fuel)%nat ->
  read_seq fuel n (print n (YSeq l) ++ rest) = Some (l, rest).
Proof.
  intros HF. revert fuel. induction HF as [|v l Hv HF IH]; intros fuel Hk Hr Hf.
  { apply read_seq_end; [done|]. simpl in Hf. lia. }
  rewrite print_seq_cons in *. rewrite <- app_assoc. cbn [forallb] in Hk. apply andb_prop in Hk as [Hk Hks].
  rewrite length_app in Hf. assert (1 <= length (item n v))%nat by (destruct (item_text n v Hk) as (t & ls & -> & _); simpl; lia).
  destruct fuel as [|fuel]; [lia|]. rewrite read_item; [|done|by apply Hv|by apply print_seq_head|lia].
  rewrite IH by (done || lia). done.
Qed.

Lemma wf_reads_back y : wf y = true -> reads_back y.
Proof.
  induction y as [|r|h ls|kvs IH|l IH] using yaml_nested_ind; intros Hw; try (split; done).
  - simpl in Hw. apply andb_prop in Hw as [Hl Hw].
    assert (forall n rest fuel, rest_ok n rest -> (3 * length (print n (YMap kvs)) + 1 <= fuel)%nat ->
      read_map fuel n (print n (YMap kvs) ++ rest) = Some (kvs, rest)) as Hm.
    { intros n rest fuel Hr Hf. apply read_entries; done. }
    split; [|by intros kvs' n rest fuel [= <-]; apply Hm].
    intros n rest fuel Hr _ Hf. destruct fuel as [|fuel]; [lia|]. cbn [read_node].
    rewrite Hm by (done || lia). destruct kvs as [|[k v] kvs]; [done|]. cbn [forallb] in Hw. apply andb_prop in Hw as [[Hk _]%andb_prop _].
    rewrite print_map_cons. destruct (entry_text n k v) as (t & ls & ->). cbn [app].
    rewrite key_no_dash by done. done.
  - simpl in Hw. apply andb_prop in Hw as [Hl Hw]. split; [|done].
    intros n rest fuel Hr _ Hf. destruct fuel as [|fuel]; [lia|]. cbn [read_node].
    assert (read_seq fuel n (print n (YSeq l) ++ rest) = Some (l, rest)) as Hs.
    { apply read_items; [|done|done|lia]. eapply Forall_impl; [exact IH|]. intros v Hv Hi.
      destruct v; try (split; done). by apply Hv. }
    rewrite Hs. destruct l as [|v l]; [done|]. cbn [forallb] in Hw. apply andb_prop in Hw as [Hv _].
    rewrite print_seq_cons. destruct (item_text n v Hv) as (t & ls & -> & _). cbn [app]. by rewrite dash_prefix.
Qed.

(** ** Texts *)

Definition line_ok (l : line) : bool := no_nl l.2 && match l.2 with String c _ => negb (Ascii.eqb c " ") | "" => true end.

Lemma measure_pad n t : match t with String c _ => negb (Ascii.eqb c " ") | "" => true end = true -> measure_line (pad n t) = (n, t).
Proof.
  intros Ht. induction n as [|n IH]; simpl; [|by rewrite IH].
  destruct t as [|[[] [] [] [] [] [] [] []] t]; done.
Qed.

Lemma pad_no_nl n t : no_nl t = true -> contains_byte nl (pad n t) = false.
Proof.
  unfold no_nl. rewrite negb_true_iff. intros H. induction n as [|n IH]; [done|]. unfold contains_byte in *. simpl.
  by destruct (index_byte nl (pad n t)).
Qed.

Lemma split_no_byte c s : contains_byte c s = false -> split_byte c s = [s].
Proof.
  intros H. pose proof (take_drop_str 0 s) as _. induction s as [|d s IH]; [done|]. simpl.
  change (String d s) with (String d "" +:+ s) in H. rewrite contains_byte_app in H. apply orb_false_elim in H as [Hd H].
  destruct (Ascii.eqb_spec d c) as [->|]; [|by rewrite IH].
  unfold contains_byte in Hd. simpl in Hd. by rewrite Ascii.eqb_refl in Hd.
Qed.

Lemma split_render ls : forallb line_ok ls = true -> split_byte nl (render ls) = map (fun l => pad l.1 l.2) ls ++ [""].
Proof.
  induction ls as [|l ls IH]; [done|]. cbn [forallb render]. intros [Hl Hls]%andb_prop. unfold render_line.
  rewrite app_str_assoc. cbn [String.append]. rewrite split_byte_app, (IH Hls). cbn [map app]. f_equal.
  rewrite split_no_byte; [done|]. apply pad_no_nl. by apply andb_prop in Hl as [Hl _].
Qed.

Lemma lines_of_render ls : forallb line_ok ls = true -> lines_of (render ls) = ls.
Proof.
  intros Hl. unfold lines_of. rewrite split_render by done. rewrite last_snoc, removelast_last, map_map.
  induction ls as [|[n t] ls IH]; [done|]. cbn [forallb map] in *. apply andb_prop in Hl as [H1 H2]. rewrite IH by done. f_equal.
  cbn [fst snd]. apply measure_pad. by apply andb_prop in H1 as [_ H1].
Qed.

Lemma render_app a b : render (a ++ b) = render a +:+ render b.
Proof. induction a as [|l a IH]; [done|]. simpl. by rewrite IH, app_str_assoc. Qed.

Lemma no_nl_app a b : no_nl (a +:+ b) = no_nl a && no_nl b.
Proof. unfold no_nl. by rewrite contains_byte_app, negb_orb. Qed.

Lemma measure_ok s : no_nl s = true -> line_ok (measure_line s) = true.
Proof.
  intros Hs. induction s as [|c s IH]; [done|].
  change (String c s) with (String c "" +:+ s) in Hs. rewrite no_nl_app in Hs. apply andb_prop in Hs as [Hc Hs].
  specialize (IH Hs). simpl. unfold line_ok in *.
  destruct c as [[] [] [] [] [] [] [] []]; try done; simpl; try (unfold no_nl in *; simpl in *;
    unfold contains_byte in *; simpl in *; by destruct (index_byte nl s)).
  by destruct (measure_line s).
Qed.

Lemma line_ok_shift n m t : line_ok (n, t) = line_ok (m, t).
Proof. done. Qed.

Lemma key_line_ok n k r : key_ok k = true -> no_nl r = true -> line_ok (n, k +:+ String ":" r) = true.
Proof.
  intros Hk Hr. destruct (key_flush k Hk) as (c & k' & E & Hc & _). unfold line_ok. cbn [snd].
  unfold key_ok in Hk. rewrite !andb_true_iff in Hk. destruct Hk as [[[[Hs Hn] _] _] _].
  change (String ":" r) with (":" +:+ r). rewrite !no_nl_app, Hn, Hr. rewrite E in *. simpl in *. done.
Qed.

Lemma print_lines_ok y n : wf y = true -> forallb line_ok (print n y) = true.
Proof.
  revert n. induction y as [|r|h ls|kvs IH|l IH] using yaml_nested_ind; intros n Hw; try done.
  - simpl in Hw. apply andb_prop in Hw as [_ Hw]. induction IH as [|[k v] kvs Hv IH IHk]; [done|].
    rewrite print_map_cons. rewrite forallb_app. cbn [forallb fst snd] in *. apply andb_prop in Hw as [[Hk Hw]%andb_prop Hks].
    rewrite IHk, andb_true_r by done. unfold entry. cbn [print flat_map]. rewrite app_nil_r.
    destruct v as [|r|h ls|kvs'|l]; cbn [forallb].
    + rewrite andb_true_r. by apply (key_line_ok n k "").
    + rewrite andb_true_r. apply (key_line_ok n k (String " " r)); [done|]. simpl in Hw. rewrite !andb_true_iff in Hw.
      change (String " " r) with (" " +:+ r). by rewrite no_nl_app, (proj2 Hw).
    + simpl in Hw. apply andb_prop in Hw as [Hh [_ Hb]%andb_prop]. apply andb_true_iff. split.
      * apply (key_line_ok n k (String " " h)); [done|]. unfold is_header in Hh.
        destruct (String.eqb_spec h "|") as [->|]; [done|]. by destruct (String.eqb_spec h "!!binary |") as [->|].
      * apply forallb_forall. intros x (s & <- & Hs)%in_map_iff. apply (proj1 (forallb_forall _ _) Hb) in Hs.
        pose proof (measure_ok s Hs). destruct (measure_line s) as [m t]. by rewrite (line_ok_shift _ m).
    + rewrite (Hv (n + 2)%nat Hw), andb_true_r. by apply (key_line_ok n k "").
    + rewrite (Hv (n + 2)%nat Hw), andb_true_r. by apply (key_line_ok n k "").
  - simpl in Hw. apply andb_prop in Hw as [_ Hw]. induction IH as [|v l Hv IH IHl]; [done|].
    rewrite print_seq_cons, forallb_app. cbn [forallb] in Hw. apply andb_prop in Hw as [Hi Hl].
    rewrite IHl, andb_true_r by done. destruct (item_text n v Hi) as (t & ls & E & Ev). rewrite E. cbn [forallb].
    assert (forall m s, line_ok (m, s) = true -> line_ok (n, "- " +:+ s) = true) as Hd.
    { intros m s Hs. unfold line_ok in *. cbn [snd] in *. apply andb_prop in Hs as [Hs _]. rewrite no_nl_app, Hs. done. }
    destruct v as [|r| |kvs|]; try done.
    + destruct Ev as [[= <-] ->]. cbn [forallb]. rewrite andb_true_r. simpl in Hi. apply andb_prop in Hi as [_ Hr].
      unfold line_ok. cbn [snd]. by rewrite no_nl_app, Hr.
    + specialize (Hv (n + 2)%nat Hi). rewrite Ev in Hv. cbn [forallb] in Hv. apply andb_prop in Hv as [H1 H2].
      by rewrite H2, (Hd _ _ H1).
Qed.

(** A well-formed document reads back as itself. *)
Lemma read_print y : wf y = true -> is_coll y = true -> read_yaml (render (print 0 y)) = Some y.
Proof.
  intros Hw Hc. unfold read_yaml. rewrite lines_of_render by (by apply print_lines_ok).
  rewrite <- (app_nil_r (print 0 y)) at 2. by rewrite (rb_node _ (wf_reads_back y Hw)).
Qed.

(** ** Quoting *)

(** Doubling the quotes. *)
Fixpoint double_quotes (s : string) : string :=
  match s with
  | "" => ""
  | String c s => if Ascii.eqb c sq then String sq (String sq (double_quotes s)) else String c (double_quotes s)
  end.

Lemma unquote_quoted s : unquote (String sq (double_quotes s +:+ String sq "")) = Some s.
Proof.
  unfold unquote. rewrite Ascii.eqb_refl. induction s as [|c s IH]; [done|]. cbn [double_quotes].
  destruct (Ascii.eqb_spec c sq) as [->|Hc]; cbn [String.append unquote_body].
  - rewrite !Ascii.eqb_refl, IH. done.
  - destruct (Ascii.eqb_spec c sq); [done|]. by rewrite IH.
Qed.

Lemma no_nl_cons c s : no_nl (String c s) = no_nl (String c "") && no_nl s.
Proof. exact (no_nl_app (String c "") s). Qed.

Lemma double_quotes_no_nl s : no_nl (double_quotes s) = no_nl s.
Proof.
  induction s as [|c s IH]; [done|]. cbn [double_quotes]. rewrite (no_nl_cons c s), <- IH.
  destruct (Ascii.eqb_spec c sq) as [->|Hc]; [|apply no_nl_cons].
  by rewrite no_nl_cons, (no_nl_cons sq (double_quotes s)).
Qed.

(** A document after a comment line. *)
Lemma read_print_header h kvs :
  is_comment h = true -> line_ok (O, h) = true -> wf (YMap kvs) = true ->
  read_yaml (render ((O, h) :: print 0 (YMap kvs))) = Some (YMap kvs).
Proof.
  intros Hc Hl Hw. unfold read_yaml. rewrite lines_of_render by (cbn [forallb]; by rewrite Hl, print_lines_ok).
  assert (has_prefix "- " h = false) as Hd by (destruct h as [|c h]; [done|]; simpl in Hc; by apply Ascii.eqb_eq in Hc as ->).
  set (L := length (_ :: _)). replace (3 * L + 3)%nat with (S (S (3 * L + 1)))%nat by lia.
  cbn [read_node]. rewrite Hd. cbn [read_map]. rewrite Hc.
  rewrite <- (app_nil_r (print 0 (YMap kvs))).
  rewrite (rb_map _ (wf_reads_back _ Hw) kvs); [done|done|done|]. unfold L. simpl. lia.
Qed.

(** ** Values *)

Definition scalar_text (raw : string) : string := default raw (unquote raw).
Fixpoint plain (y : yaml) : yaml :=
  match y with
  | YScalar r => YScalar (scalar_text r)
  | YMap kvs => YMap (map (fun kv => (kv.1, plain kv.2)) kvs)
  | YSeq l => YSeq (map plain l)
  | y => y
  end.

Lemma print_map_app n a b : print n (YMap (a ++ b)) = print n (YMap a) ++ print n (YMap b).
Proof. simpl. by rewrite flat_map_app. Qed.
Lemma print_seq_app n a b : print n (YSeq (a ++ b)) = print n (YSeq a) ++ print n (YSeq b).
Proof. simpl. by rewrite flat_map_app. Qed.

Lemma print_sub n k v : is_coll v = true -> print n (YMap [(k, v)]) = (n, k +:+ ":") :: print (n + 2) v.
Proof. destruct v; try done; intros _; cbn [print flat_map]; by rewrite app_nil_r. Qed.
