(* ===== verification/Base64.v ===== *)
(** * Base64: [base64.StdEncoding]

    The encoder of Go's [encoding/base64] with padding, a decoder, and that
    decoding undoes encoding. *)

From S2P Require Export GoStrings.
Open Scope Z_scope.

Definition b64_alphabet : string := "ABCDEFGHIJKLMNOPQRSTUVWXYZabcdefghijklmnopqrstuvwxyz0123456789+/".
Definition b64_char (v : Z) : ascii := default "="%char (String.get (Z.to_nat v) b64_alphabet).
Definition byte_of (v : Z) : ascii := ascii_of_N (Z.to_N v).

Fixpoint base64 (s : string) : string :=
  match s with
  | "" => ""
  | String a "" =>
      String (b64_char (code a / 4)) (String (b64_char (code a mod 4 * 16)) "==")
  | String a (String b "") =>
      String (b64_char (code a / 4)) (String (b64_char (code a mod 4 * 16 + code b / 16))
        (String (b64_char (code b mod 16 * 4)) "="))
  | String a (String b (String c s)) =>
      String (b64_char (code a / 4)) (String (b64_char (code a mod 4 * 16 + code b / 16))
        (String (b64_char (code b mod 16 * 4 + code c / 64)) (String (b64_char (code c mod 64)) (base64 s))))
  end.

Definition b64_value (c : ascii) : option Z :=
  if is_upper c then Some (code c - 65)
  else if is_lower c then Some (code c - 71)
  else if is_digit c then Some (code c + 4)
  else if Ascii.eqb c "+" then Some 62
  else if Ascii.eqb c "/" then Some 63 else None.

Fixpoint unbase64 (s : string) : option string :=
  match s with
  | "" => Some ""
  | String a (String b (String c (String d s))) =>
      x ← b64_value a; y ← b64_value b;
      if Ascii.eqb c "=" then
        if Ascii.eqb d "=" && String.eqb s "" then Some (String (byte_of (x * 4 + y / 16)) "") else None
      else
        z ← b64_value c;
        if Ascii.eqb d "=" then
          if String.eqb s "" then Some (String (byte_of (x * 4 + y / 16)) (String (byte_of (y mod 16 * 16 + z / 4)) "")) else None
        else
          w ← b64_value d; t ← unbase64 s;
          Some (String (byte_of (x * 4 + y / 16)) (String (byte_of (y mod 16 * 16 + z / 4)) (String (byte_of (z mod 4 * 64 + w)) t)))
  | _ => None
  end.

Lemma code_range c : 0 <= code c < 256.
Proof. unfold code. pose proof (N_ascii_bounded c). lia. Qed.
Lemma byte_of_code c : byte_of (code c) = c.
Proof. unfold byte_of, code. rewrite N2Z.id. apply ascii_N_embedding. Qed.

Lemma byte_eq v c : v = code c -> byte_of v = c.
Proof. intros ->. apply byte_of_code. Qed.

Lemma b64_values_ok : forallb (fun n => let c := b64_char (Z.of_nat n) in
  bool_decide (b64_value c = Some (Z.of_nat n)) && negb (Ascii.eqb c "=") && negb (Ascii.eqb c "010")) (seq 0 64) = true.
Proof. by vm_compute. Qed.

Lemma b64_char_value v :
  0 <= v < 64 -> b64_value (b64_char v) = Some v /\ Ascii.eqb (b64_char v) "=" = false /\ Ascii.eqb (b64_char v) "010" = false.
Proof.
  intros Hv. pose proof (proj1 (forallb_forall _ _) b64_values_ok (Z.to_nat v)) as H. cbn beta zeta in H.
  rewrite Z2Nat.id in H by lia. rewrite !andb_true_iff, !negb_true_iff in H. destruct H as [[H ?] ?]; [apply in_seq; lia|].
  by apply bool_decide_eq_true in H.
Qed.

Lemma string_ind3 (P : string -> Prop) :
  P "" -> (forall a, P (String a "")) -> (forall a b, P (String a (String b ""))) ->
  (forall a b c s, P s -> P (String a (String b (String c s)))) -> forall s, P s.
Proof.
  intros H0 H1 H2 H3. fix IH 1. intros [|a [|b [|c s]]]; [exact H0|exact (H1 a)|exact (H2 a b)|exact (H3 a b c s (IH s))].
Qed.

Ltac zlia := Z.to_euclidean_division_equations; lia.

Lemma unbase64_base64 s : unbase64 (base64 s) = Some s.
Proof.
  induction s as [|a|a b|a b c s IH] using string_ind3; [done|..]; cbn [base64 unbase64].
  - pose proof (code_range a). destruct (b64_char_value (code a / 4)) as (-> & _); [zlia|].
    destruct (b64_char_value (code a mod 4 * 16)) as (-> & _); [zlia|]. cbn [mbind option_bind].
    cbn. do 2 f_equal. apply byte_eq. zlia.
  - pose proof (code_range a). pose proof (code_range b). destruct (b64_char_value (code a / 4)) as (-> & _); [zlia|].
    destruct (b64_char_value (code a mod 4 * 16 + code b / 16)) as (-> & _); [zlia|].
    destruct (b64_char_value (code b mod 16 * 4)) as (-> & -> & _); [zlia|]. cbn [mbind option_bind].
    cbn. do 2 f_equal; [apply byte_eq; zlia|]. f_equal. apply byte_eq. zlia.
  - pose proof (code_range a). pose proof (code_range b). pose proof (code_range c).
    destruct (b64_char_value (code a / 4)) as (-> & _); [zlia|].
    destruct (b64_char_value (code a mod 4 * 16 + code b / 16)) as (-> & _); [zlia|].
    destruct (b64_char_value (code b mod 16 * 4 + code c / 64)) as (-> & -> & _); [zlia|].
    destruct (b64_char_value (code c mod 64)) as (-> & -> & _); [zlia|].
    cbn [mbind option_bind]. rewrite IH. cbn [mbind option_bind].
    do 2 f_equal; [apply byte_eq; zlia|]. f_equal; [apply byte_eq; zlia|]. f_equal. apply byte_eq. zlia.
Qed.

Lemma b64_char_line v : Ascii.eqb (b64_char v) "010" = false.
Proof.
  destruct (decide (0 <= v < 64)); [by apply b64_char_value|]. unfold b64_char.
  destruct (decide (v < 0)); [by replace (Z.to_nat v) with 0%nat by lia|].
  replace (Z.to_nat v) with (64 + Z.to_nat (v - 64))%nat by lia. reflexivity.
Qed.

Lemma contains_cons c d t : Ascii.eqb d c = false -> contains_byte c t = false -> contains_byte c (String d t) = false.
Proof. intros H1 H2. unfold contains_byte in *. cbn [index_byte]. rewrite Ascii.eqb_sym, H1. by destruct (index_byte c t). Qed.

Lemma base64_one_line s : contains_byte "010" (base64 s) = false.
Proof.
  induction s as [|a|a b|a b c s IH] using string_ind3; [done|..]; cbn [base64];
    repeat (apply contains_cons; [apply b64_char_line|]); done.
Qed.
