(* ===== verification/CloudInit.v ===== *)
(** * CloudInit: cloud-init seeds

    Models [cloudinit/cloudinit.go]: the checks of a provisioning request, the
    user-data, meta-data and network-config documents it becomes, the image
    that carries them, and generated passwords.  [sha512_crypt] is a third
    party's: the hash of the password is a parameter. *)

From S2P Require Import TrimSpace GoNet GoPath.
From S2P Require Export Yaml Base64 Regex.
Open Scope Z_scope.

Record NetworkConfig := MkNetworkConfig {
  Interface : string; IPv4 : string; Gateway4 : string; IPv6 : string; Gateway6 : string;
  DNS : list string; Search : list string
}.

Record Config := MkConfig {
  User : string; Password : string; SSHKey : string; Hostname : string; Networks : list NetworkConfig;
  CustomUserData : string; SnippetID : string; SnippetIDs : list string; ProvisionScript : string;
  SkipGuestAgent : bool; InstanceIDSuffix : string
}.

(** ** Validation *)

Definition lower_digit (c : ascii) : bool := is_lower c || is_digit c.
Definition alnum_char (c : ascii) : bool := is_alpha c || is_digit c.
Definition one_of (l : list ascii) (c : ascii) : bool := existsb (Ascii.eqb c) l.

Definition userRe : re :=
  Seq (Class (fun c => is_lower c || Ascii.eqb c "_")) (upto 31 (Class (fun c => lower_digit c || one_of ["_"; "-"]%char c))).
Definition hostnameRe : re :=
  Seq (Class alnum_char) (upto 62 (Class (fun c => alnum_char c || one_of ["."; "-"]%char c))).
Definition iface_char (c : ascii) : bool := alnum_char c || one_of ["_"; "-"; "*"]%char c.
Definition ifaceNameRe : re := Regex.between 1 16 (Class iface_char).
Definition sshKeyRe : re :=
  seqs [alts (map lit ["ssh-rsa"; "ssh-ed25519"; "ecdsa-sha2-nistp256"; "ecdsa-sha2-nistp384"; "ecdsa-sha2-nistp521";
                       "sk-ssh-ed25519"; "sk-ecdsa-sha2-nistp256"]);
        lit " "; plus (Class (fun c => alnum_char c || one_of ["+"; "/"; "="]%char c));
        plus (Class (one_of [" "; "009"]%char)); plus (Class (fun c => negb (Ascii.eqb c nl)))].
Definition system_groups : list string :=
  ["root"; "daemon"; "bin"; "sys"; "sync"; "games"; "man"; "lp"; "mail"; "news"; "uucp"; "proxy"; "www-data"; "backup";
   "list"; "irc"; "_apt"; "nobody"; "systemd-network"; "systemd-timesync"; "dhcpcd"; "messagebus"; "syslog";
   "systemd-resolve"; "uuidd"; "tss"; "sshd"; "pollinate"; "tcpdump"; "landscape"; "fwupd-refresh"; "polkitd"; "sudo";
   "adm"; "admin"].
Definition systemGroupRe (s : string) : bool := existsb (String.eqb (to_lower s)) system_groups.

Inductive cfg_error :=
| NothingToProvision | BadUser | SystemGroup | PasswordRequired | PasswordShort | PasswordLong | BadHostname | BadSSHKey
| BadNetwork (i : nat) (field : string).

Definition is_v4 (a : ip) : bool := match to4 a with Some _ => true | None => false end.
(** The address part of [net.ParseCIDR]. *)
Definition cidr_address (s : string) : option ip :=
  match ParseCIDR s, index_byte "/" s with Some _, Some i => ParseIP (take_str i s) | _, _ => None end.

Definition validate_network (i : nat) (n : NetworkConfig) : option cfg_error :=
  let bad f := Some (BadNetwork i f) in
  let given s := negb (String.eqb s "") in
  if given (Interface n) && negb (re_match ifaceNameRe (Interface n)) then bad "interface"
  else if given (IPv4 n) && negb (match cidr_address (IPv4 n) with Some a => is_v4 a | None => false end) then bad "ipv4"
  else if given (Gateway4 n) && negb (match ParseIP (Gateway4 n) with Some a => is_v4 a | None => false end) then bad "gateway4"
  else if given (IPv6 n) && negb (match cidr_address (IPv6 n) with Some a => negb (is_v4 a) | None => false end) then bad "ipv6"
  else if given (Gateway6 n) && negb (match ParseIP (Gateway6 n) with Some a => negb (is_v4 a) | None => false end) then bad "gateway6"
  else if existsb (fun d => let d := trim_space d in given d && match ParseIP d with None => true | Some _ => false end) (DNS n)
  then bad "dns"
  else None.

Fixpoint validate_networks (i : nat) (l : list NetworkConfig) : option cfg_error :=
  match l with
  | [] => None
  | n :: l => match validate_network i n with Some e => Some e | None => validate_networks (S i) l end
  end.

Definition empty (s : string) : bool := String.eqb s "".

(** [None]: accepted. *)
Definition Validate (c : Config) : option cfg_error :=
  if empty (User c) && empty (SSHKey c) && empty (Hostname c) && empty (Password c) && empty (CustomUserData c) &&
     empty (SnippetID c) && Nat.eqb (length (SnippetIDs c)) 0 && Nat.eqb (length (Networks c)) 0
  then Some NothingToProvision
  else if negb (empty (User c)) && negb (re_match userRe (User c)) then Some BadUser
  else if negb (empty (User c)) && systemGroupRe (User c) then Some SystemGroup
  else if negb (empty (User c)) && empty (Password c) then Some PasswordRequired
  else if negb (empty (Password c)) && Nat.ltb (slen (Password c)) 6 then Some PasswordShort
  else if negb (empty (Password c)) && Nat.ltb 12 (slen (Password c)) then Some PasswordLong
  else if negb (empty (Hostname c)) && negb (re_match hostnameRe (Hostname c)) then Some BadHostname
  else if negb (empty (SSHKey c)) && negb (re_match sshKeyRe (SSHKey c)) then Some BadSSHKey
  else validate_networks 0 (Networks c).

(** ** Documents *)

Definition yamlSingleQuote (s : string) : string := String sq (double_quotes s +:+ String sq "").

(** Lines, each with its line break. *)
Definition ln (s : string) : string := s +:+ String nl "".
Definition lns (l : list string) : string := foldr (fun s acc => ln s +:+ acc) "" l.
Definition cat (l : list string) : string := foldr String.append "" l.

Definition default_network : string :=
  lns ["version: 2"; "ethernets:";
       "  all-en:"; "    match:"; "      name: 'en*'"; "    dhcp4: true"; "    dhcp6: true"; "    optional: true";
       "  all-eth:"; "    match:"; "      name: 'eth*'"; "    dhcp4: true"; "    dhcp6: true"; "    optional: true";
       "  all-vi:"; "    match:"; "      name: 'vi*'"; "    dhcp4: true"; "    dhcp6: true"; "    optional: true"].

Definition iface_name (i : nat) (n : NetworkConfig) : string :=
  if empty (Interface n) then "eth" +:+ show_nat (Z.of_nat i) else Interface n.

(** The items of a list of names, blank ones left out. *)
Definition name_items (l : list string) : string :=
  cat (map (fun s => let s := trim_space s in if empty s then "" else ln ("        - " +:+ yamlSingleQuote s)) l).

Definition when (b : bool) (s : string) : string := if b then s else "".

Definition network_stanza (i : nat) (n : NetworkConfig) : string :=
  let iface := iface_name i n in
  cat [ln ("  " +:+ iface +:+ ":");
       ln "    match:"; ln ("      name: " +:+ yamlSingleQuote iface);
       if empty (IPv4 n) && empty (IPv6 n) then lns ["    dhcp4: true"; "    dhcp6: true"]
       else cat [lns ["    dhcp4: false"; "    dhcp6: false"; "    addresses:"];
                 when (negb (empty (IPv4 n))) (ln ("      - " +:+ yamlSingleQuote (IPv4 n)));
                 when (negb (empty (IPv6 n))) (ln ("      - " +:+ yamlSingleQuote (IPv6 n)));
                 when (negb (empty (Gateway4 n))) (ln ("    gateway4: " +:+ yamlSingleQuote (Gateway4 n)));
                 when (negb (empty (Gateway6 n))) (ln ("    gateway6: " +:+ yamlSingleQuote (Gateway6 n)))];
       when (negb (Nat.eqb (length (DNS n)) 0) || negb (Nat.eqb (length (Search n)) 0))
         (cat [ln "    nameservers:";
               when (negb (Nat.eqb (length (DNS n)) 0)) (ln "      addresses:" +:+ name_items (DNS n));
               when (negb (Nat.eqb (length (Search n)) 0)) (ln "      search:" +:+ name_items (Search n))]);
       ln "    optional: true"].

Definition buildNetworkConfig (cfg : Config) : string :=
  match Networks cfg with
  | [] => default_network
  | l => lns ["version: 2"; "ethernets:"] +:+ cat (imap network_stanza l)
  end.

(** *** The parts of a user-data document that are always the same *)

Definition networkdConfig : list string := [
  "[Match]";
  "Name=en* eth* vi*";
  "";
  "[Network]";
  "DHCP=yes"].
Definition termHook : list string := [
  "#!/bin/sh";
  "# Added by WebKVM: usable serial console (btop/htop/mc)";
  "if [ -t 0 ]; then";
  join_str dq ["  case "; "$TERM"; " in "; ""; "|linux|vt100) TERM=xterm-256color; export TERM ;; esac"];
  "  stty rows 24 cols 80 2>/dev/null || true";
  "fi"].
Definition gaInstaller : list string := [
  "#!/bin/sh";
  "if ! command -v qemu-ga >/dev/null 2>&1; then";
  "  if command -v pacman >/dev/null 2>&1; then";
  "    pacman -Sy --noconfirm qemu-guest-agent 2>/dev/null || true";
  "  elif command -v apt-get >/dev/null 2>&1; then";
  "    apt-get update -y && apt-get install -y qemu-guest-agent 2>/dev/null || true";
  "  elif command -v dnf >/dev/null 2>&1; then";
  "    dnf install -y qemu-guest-agent 2>/dev/null || true";
  "  elif command -v yum >/dev/null 2>&1; then";
  "    yum install -y qemu-guest-agent 2>/dev/null || true";
  "  elif command -v zypper >/dev/null 2>&1; then";
  "    zypper --non-interactive install qemu-guest-agent 2>/dev/null || true";
  "  elif command -v apk >/dev/null 2>&1; then";
  "    apk add qemu-guest-agent 2>/dev/null || true";
  "  fi";
  "fi";
  "if command -v systemctl >/dev/null 2>&1; then";
  "  systemctl enable --now qemu-guest-agent 2>/dev/null || systemctl start qemu-guest-agent 2>/dev/null || true";
  "elif command -v rc-service >/dev/null 2>&1; then";
  "  rc-update add qemu-guest-agent default 2>/dev/null || true";
  "  rc-service qemu-guest-agent start 2>/dev/null || true";
  "fi"].
Definition boot_dhcp : string :=
  join_str dq [
    "[sh, -c, 'if command -v systemctl >/dev/null 2>&1; then mkdir -p /etc/systemd/network 2>/dev/null; " +:+
    "printf ";
    "%s\n";
    " ";
    "[Match]";
    " ";
    "Name=en* eth* vi*";
    " ";
    "";
    " ";
    "[Network]";
    " ";
    "DHCP=yes";
    " > /etc/systemd/network/20-webkvm-dhcp.network 2>/dev/null; systemctl enable --now systemd-networkd " +:+
    "2>/dev/null || true; systemctl restart systemd-networkd 2>/dev/null || true; systemctl enable --now " +:+
    "systemd-resolved 2>/dev/null || true; systemctl enable --now NetworkManager 2>/dev/null || true; " +:+
    "fi']"].
Definition run_network : string :=
  join_str dq [
    "[sh, -c, ";
    "if command -v systemctl >/dev/null 2>&1; then systemctl enable --now systemd-networkd 2>/dev/null " +:+
    "|| true; systemctl try-restart systemd-networkd 2>/dev/null || true; systemctl enable --now " +:+
    "systemd-resolved 2>/dev/null || true; systemctl enable --now NetworkManager 2>/dev/null || true; fi";
    "]"].
Definition run_term : string :=
  join_str dq [
    "[sh, -c, ";
    "grep -q zz-webkvm-term /root/.bashrc || printf '%s\n' '. /etc/profile.d/zz-webkvm-term.sh' >> " +:+
    "/root/.bashrc";
    "]"].
Definition provision_runner : list string := [
  "#!/bin/bash";
  "echo running > /run/webkvm-provision.status";
  "bash /usr/local/bin/webkvm-provision.sh " +:+ String "092" "";
  "  >/var/log/webkvm-provision.log 2>&1";
  "rc=$?";
  join_str dq ["if [ "; "$rc"; " -eq 0 ]; then"];
  "  echo ok > /run/webkvm-provision.status";
  "else";
  join_str dq ["  echo "; "failed:$rc"; " > /run/webkvm-provision.status"];
  "fi";
  "exit 0"].

(** *** The document *)

Section UserData.
(** [cryptSHA512] with a fresh salt; [""]: no hash. *)
Context (crypt : string -> string).

(** [strings.ReplaceAll s sep by] for a one-byte [sep]. *)
Definition replace_byte (sep : ascii) (by_ : string) (s : string) : string := join_str by_ (split_byte sep s).

Definition custom_only (cfg : Config) : bool :=
  negb (empty (CustomUserData cfg)) && empty (User cfg) && empty (Password cfg) && empty (SSHKey cfg) && empty (ProvisionScript cfg).

Definition custom_document (s : string) : string :=
  if has_prefix "#cloud-config" (trim_space s) then ln (trim_space s)
  else lns ["#cloud-config"; "runcmd:"; "  - |"] +:+ ln ("    " +:+ replace_byte nl (String nl "    ") s).

Definition password_lines (cfg : Config) : string :=
  let hash := crypt (Password cfg) in
  when (negb (empty hash)) (lns ["    passwd: " +:+ hash; "    lock_passwd: false"]).

Definition key_lines (cfg : Config) : string :=
  when (negb (empty (SSHKey cfg))) (lns ["    ssh_authorized_keys:"; "      - " +:+ yamlSingleQuote (SSHKey cfg)]).

Definition account_lines (cfg : Config) : string :=
  if negb (empty (User cfg)) then
    cat [lns ["users:"; "  - name: " +:+ User cfg];
         when (negb (empty (Password cfg))) (password_lines cfg); key_lines cfg;
         lns ["    sudo: ALL=(ALL) NOPASSWD:ALL"; "    groups: sudo,adm,wheel"; "    shell: /bin/bash"]]
  else if negb (empty (Password cfg)) then
    cat [lns ["users:"; "  - name: root"]; password_lines cfg; key_lines cfg]
  else when (negb (empty (SSHKey cfg))) (lns ["ssh_authorized_keys:"; "  - " +:+ yamlSingleQuote (SSHKey cfg)]).

(** A file of the [write_files] list. *)
Definition file_lines (path : string) (content : list string) (mode : string) : string :=
  lns (["  - path: " +:+ path; "    content: |"] ++ map (String.append "      ") content ++ ["    permissions: '" +:+ mode +:+ "'"]).

Definition provision_files (cfg : Config) : string :=
  when (negb (empty (ProvisionScript cfg)))
    (lns ["  - path: /usr/local/bin/webkvm-provision.sh"; "    content: !!binary |";
          "      " +:+ base64 (ProvisionScript cfg); "    permissions: '0755'"] +:+
     file_lines "/usr/local/bin/webkvm-run-provision" provision_runner "0755").

Definition write_files (cfg : Config) : string :=
  cat [ln "write_files:"; provision_files cfg;
       file_lines "/etc/systemd/network/20-webkvm-dhcp.network" networkdConfig "0644";
       file_lines "/etc/profile.d/zz-webkvm-term.sh" termHook "0644";
       when (negb (SkipGuestAgent cfg)) (file_lines "/usr/local/bin/webkvm-qga-installer.sh" gaInstaller "0755")].

Definition run_lines (cfg : Config) : string :=
  cat [lns ["runcmd:"; "  - " +:+ run_network];
       when (negb (SkipGuestAgent cfg)) (ln "  - [sh, /usr/local/bin/webkvm-qga-installer.sh]");
       ln ("  - " +:+ run_term);
       when (negb (empty (ProvisionScript cfg))) (ln "  - [/usr/local/bin/webkvm-run-provision]");
       ln "package_update: true";
       when (negb (empty (ProvisionScript cfg)))
         (ln (join_str dq ["final_message: "; "WEBKVM provisioning finished after $UPTIME seconds"; ""]))].

(** [strings.TrimPrefix] *)
Definition cut_prefix (p s : string) : string := if has_prefix p s then drop_str (slen p) s else s.

Definition custom_tail (cfg : Config) : string :=
  when (negb (empty (CustomUserData cfg)))
    (cat [lns [""; "# --- Custom Snippet / User Data ---"]; ln (cut_prefix "#cloud-config" (trim_space (CustomUserData cfg)))]).

(** Everything between the first line and the custom part. *)
Definition generated_lines (cfg : Config) : string :=
  cat [account_lines cfg;
       when (negb (SkipGuestAgent cfg)) (lns ["packages:"; "  - qemu-guest-agent"]);
       lns ["bootcmd:"; "  - " +:+ boot_dhcp];
       write_files cfg; run_lines cfg].

Definition buildUserData (cfg : Config) : string :=
  if custom_only cfg then custom_document (CustomUserData cfg)
  else cat [ln "#cloud-config"; generated_lines cfg; custom_tail cfg].

(** ** The image *)

Definition replaceSpace (s : string) : string := map_str (fun c => if Ascii.eqb c " " || Ascii.eqb c "." then "-"%char else c) s.

Definition instance_id (cfg : Config) : string :=
  "webkvm-" +:+ to_lower (replaceSpace (Hostname cfg)) +:+
  when (negb (empty (InstanceIDSuffix cfg))) ("-" +:+ InstanceIDSuffix cfg).
Definition meta_data (cfg : Config) : string :=
  ln ("instance-id: " +:+ instance_id cfg) +:+
  when (negb (empty (Hostname cfg))) (ln ("local-hostname: " +:+ Hostname cfg)).

Definition seed_files (cfg : Config) : gmap string string :=
  {["user-data" := buildUserData cfg; "meta-data" := meta_data cfg; "network-config" := buildNetworkConfig cfg]}.

(** The outcome of the system calls and of xorriso; [xorriso] is the size of
    the image it leaves, if any, and whether it succeeds. *)
Record outcomes := MkOutcomes {
  mkdir_ok : bool; write_ok : string -> bool; has_xorriso : bool; xorriso_ok : bool; image_size : option Z
}.

(** The working directory and the image. *)
Record disk := MkDisk { work : option (gmap string string); iso : option (gmap string string * Z) }.

Inductive iso_error := InvalidConfig (e : cfg_error) | MkdirFailed | WriteFailed | NoXorriso | XorrisoFailed | NoImage.

(** The files are written in any order [walk] of the map. *)
Fixpoint write_all (ok : string -> bool) (l : list (string * string)) (dir : gmap string string) : bool * gmap string string :=
  match l with
  | [] => (true, dir)
  | (name, content) :: l => if ok name then write_all ok l (<[name := content]> dir) else (false, dir)
  end.

Definition BuildNoCloudISO (walk : gmap string string -> list (string * string)) (o : outcomes) (cfg : Config) (d : disk)
    : option iso_error * disk :=
  match Validate cfg with
  | Some e => (Some (InvalidConfig e), d)
  | None =>
      if negb (mkdir_ok o) then (Some MkdirFailed, d) else
      let done_ r i := (r, MkDisk None i) in   (* [defer os.RemoveAll(work)] *)
      let '(ok, dir) := write_all (write_ok o) (walk (seed_files cfg)) (default ∅ (work d)) in
      if negb ok then done_ (Some WriteFailed) (iso d)
      else if negb (has_xorriso o) then done_ (Some NoXorriso) (iso d)
      else
        let made := (fun n => (dir, n)) <$> image_size o in
        if negb (xorriso_ok o) then done_ (Some XorrisoFailed) None
        else match made with
             | Some (f, n) => if n =? 0 then done_ (Some NoImage) None else done_ None (Some (f, n))
             | None => done_ (Some NoImage) None
             end
  end.
End UserData.

(** ** Generated passwords *)

Definition charset : string := "abcdefghijklmnopqrstuvwxyzABCDEFGHIJKLMNOPQRSTUVWXYZ0123456789".
(** [charset[i]], which panics out of range: [None]. *)
Definition pick (i : Z) : option ascii := if 0 <=? i then String.get (Z.to_nat i) charset else None.

(** Without random bytes: a linear congruential generator from the clock. *)
Fixpoint lcg_password (n : nat) (seed : Z) : option string :=
  match n with
  | O => Some ""
  | S n =>
      let seed := wrap64 (wrap64 (seed * 6364136223846793005) + 1442695040888963407) in
      let idx := Z.rem (Z.shiftr seed 32) 62 in
      c ← pick (if idx <? 0 then - idx else idx);
      s ← lcg_password n seed;
      Some (String c s)
  end.

Fixpoint random_password (bytes : list Z) : option string :=
  match bytes with
  | [] => Some ""
  | b :: l => c ← pick (b mod 62); s ← random_password l; Some (String c s)
  end.

(** [random]: what [crypto/rand] delivers, if it does; [None]: a panic. *)
Definition GeneratePassword (length : nat) (random : option (list Z)) (now : Z) : option string :=
  match random with Some bytes => random_password bytes | None => lcg_password length now end.
