(* ===== verification/CloudInitFacts.v ===== *)
(** * CloudInitFacts: a seed says what was asked for, and nothing else

    The documents of a valid request are read back by the reader of [Yaml] as
    the tree the request describes: no value breaks out of its place. *)

From S2P Require Import TrimSpace GoNet.
From S2P Require Export CloudInit.
Open Scope Z_scope.

(** ** Values in quotes *)

Lemma quote_text s : scalar_text (yamlSingleQuote s) = s.
Proof. unfold scalar_text, yamlSingleQuote. by rewrite unquote_quoted. Qed.

Lemma quote_no_nl s : no_nl s = true -> no_nl (yamlSingleQuote s) = true.
Proof.
  intros H. unfold yamlSingleQuote. rewrite no_nl_cons, no_nl_app, double_quotes_no_nl, H. done.
Qed.

Lemma quote_value s : no_nl s = true -> wf (YScalar (yamlSingleQuote s)) = true.
Proof. intros H. cbn [wf]. rewrite quote_no_nl by done. done. Qed.
Lemma quote_item s : no_nl s = true -> item_ok (YScalar (yamlSingleQuote s)) = true.
Proof. intros H. cbn [item_ok]. by rewrite quote_no_nl. Qed.

Lemma all_bytes_no_nl p s : all_bytes p s = true -> p nl = false -> no_nl s = true.
Proof. intros H Hp. unfold no_nl. by rewrite (all_bytes_no_byte p nl s H Hp). Qed.

(** ** Pieces of text as lines *)

Lemma ln_render n t s : s = pad n t -> ln s = render [(n, t)].
Proof. intros ->. simpl. unfold ln, render_line. simpl. by rewrite app_str_nil_r. Qed.

Lemma cat_cons s l : cat (s :: l) = s +:+ cat l.
Proof. done. Qed.
Lemma lns_cons s l : lns (s :: l) = ln s +:+ lns l.
Proof. done. Qed.
Lemma lns_app a b : lns (a ++ b) = lns a +:+ lns b.
Proof. induction a as [|s a IH]; [done|]. cbn [app]. by rewrite !lns_cons, IH, app_str_assoc. Qed.
Lemma lns_render ls ss : Forall2 (fun s l => s = pad l.1 l.2) ss ls -> lns ss = render ls.
Proof.
  induction 1 as [|s [n t] ss ls -> _ IH]; [done|]. rewrite lns_cons, IH. cbn [render].
  unfold ln, render_line. done.
Qed.

(** ** Network configuration *)

Section Tree.
(** How scalars that are written in quotes are written. *)
Context (q : string -> string).

Definition on (k : string) (b : bool) : string * yaml := (k, YScalar (if b then "true" else "false")).

Definition names_tree (l : list string) : yaml :=
  match List.filter (fun s => negb (empty s)) (map trim_space l) with
  | [] => YNull
  | l => YSeq (map (fun s => YScalar (q s)) l)
  end.

Definition given (b : bool) {A} (l : list A) : list A := if b then l else [].

Definition network_tree (iface : string) (n : NetworkConfig) : yaml :=
  YMap ([("match", YMap [("name", YScalar (q iface))])] ++
        (if empty (IPv4 n) && empty (IPv6 n) then [on "dhcp4" true; on "dhcp6" true]
         else [on "dhcp4" false; on "dhcp6" false;
               ("addresses", YSeq (given (negb (empty (IPv4 n))) [YScalar (q (IPv4 n))] ++
                                   given (negb (empty (IPv6 n))) [YScalar (q (IPv6 n))]))] ++
              given (negb (empty (Gateway4 n))) [("gateway4", YScalar (q (Gateway4 n)))] ++
              given (negb (empty (Gateway6 n))) [("gateway6", YScalar (q (Gateway6 n)))]) ++
        given (negb (Nat.eqb (length (DNS n)) 0) || negb (Nat.eqb (length (Search n)) 0))
          [("nameservers", YMap (given (negb (Nat.eqb (length (DNS n)) 0)) [("addresses", names_tree (DNS n))] ++
                                 given (negb (Nat.eqb (length (Search n)) 0)) [("search", names_tree (Search n))]))] ++
        [on "optional" true]).

Definition family_tree (glob : string) : yaml :=
  YMap [("match", YMap [("name", YScalar (q glob))]); on "dhcp4" true; on "dhcp6" true; on "optional" true].

Definition ethernets (cfg : Config) : list (string * yaml) :=
  match Networks cfg with
  | [] => [("all-en", family_tree "en*"); ("all-eth", family_tree "eth*"); ("all-vi", family_tree "vi*")]
  | l => imap (fun i n => (iface_name i n, network_tree (iface_name i n) n)) l
  end.
Definition network_document (cfg : Config) : yaml :=
  YMap [("version", YScalar "2"); ("ethernets", YMap (ethernets cfg))].
End Tree.

(** What the document is to say: the values themselves. *)
Definition network_spec : Config -> yaml := network_document id.

Definition kept (l : list string) : list string := List.filter (fun s => negb (empty s)) (map trim_space l).

Lemma names_lines l : name_items l = render (print 8 (YSeq (map (fun s => YScalar (yamlSingleQuote s)) (kept l)))).
Proof.
  unfold name_items, kept. induction l as [|s l IH]; [done|]. cbn [map]. rewrite cat_cons, IH. cbn [List.filter].
  destruct (empty (trim_space s)); cbn [negb]; [done|]. cbn [map]. rewrite print_seq_cons, render_app. f_equal.
  apply ln_render. done.
Qed.

Lemma names_text k l :
  ln ("      " +:+ k +:+ ":") +:+ name_items l = render (print 6 (YMap [(k, names_tree yamlSingleQuote l)])).
Proof.
  rewrite names_lines. unfold names_tree. fold (kept l). destruct (kept l) as [|s l'].
  - cbn [print flat_map map app render]. rewrite !app_str_nil_r. done.
  - cbn [map]. set (v := YSeq _). cbn [print flat_map]. rewrite app_nil_r. unfold v at 1. cbn [render].
    f_equal.
Qed.

Lemma addresses_text n :
  (if empty (IPv4 n) && empty (IPv6 n) then lns ["    dhcp4: true"; "    dhcp6: true"]
   else cat [lns ["    dhcp4: false"; "    dhcp6: false"; "    addresses:"];
             when (negb (empty (IPv4 n))) (ln ("      - " +:+ yamlSingleQuote (IPv4 n)));
             when (negb (empty (IPv6 n))) (ln ("      - " +:+ yamlSingleQuote (IPv6 n)));
             when (negb (empty (Gateway4 n))) (ln ("    gateway4: " +:+ yamlSingleQuote (Gateway4 n)));
             when (negb (empty (Gateway6 n))) (ln ("    gateway6: " +:+ yamlSingleQuote (Gateway6 n)))]) =
  render (print 4 (YMap
    (if empty (IPv4 n) && empty (IPv6 n) then [on "dhcp4" true; on "dhcp6" true]
     else [on "dhcp4" false; on "dhcp6" false;
           ("addresses", YSeq (given (negb (empty (IPv4 n))) [YScalar (yamlSingleQuote (IPv4 n))] ++
                               given (negb (empty (IPv6 n))) [YScalar (yamlSingleQuote (IPv6 n))]))] ++
          given (negb (empty (Gateway4 n))) [("gateway4", YScalar (yamlSingleQuote (Gateway4 n)))] ++
          given (negb (empty (Gateway6 n))) [("gateway6", YScalar (yamlSingleQuote (Gateway6 n)))]))).
Proof.
  destruct (empty (IPv4 n)), (empty (IPv6 n)); cbn [andb negb given when]; [done|..];
    destruct (empty (Gateway4 n)), (empty (Gateway6 n)); cbn; rewrite ?app_str_nil_r, ?app_str_assoc; done.
Qed.

Lemma nameservers_text n :
  when (negb (Nat.eqb (length (DNS n)) 0) || negb (Nat.eqb (length (Search n)) 0))
    (cat [ln "    nameservers:";
          when (negb (Nat.eqb (length (DNS n)) 0)) (ln "      addresses:" +:+ name_items (DNS n));
          when (negb (Nat.eqb (length (Search n)) 0)) (ln "      search:" +:+ name_items (Search n))]) =
  render (print 4 (YMap (given (negb (Nat.eqb (length (DNS n)) 0) || negb (Nat.eqb (length (Search n)) 0))
    [("nameservers", YMap (given (negb (Nat.eqb (length (DNS n)) 0)) [("addresses", names_tree yamlSingleQuote (DNS n))] ++
                           given (negb (Nat.eqb (length (Search n)) 0)) [("search", names_tree yamlSingleQuote (Search n))]))]))).
Proof.
  pose proof (names_text "addresses" (DNS n)) as H1. pose proof (names_text "search" (Search n)) as H2.
  change (ln ("      " +:+ "addresses" +:+ ":")) with (ln "      addresses:") in H1.
  change (ln ("      " +:+ "search" +:+ ":")) with (ln "      search:") in H2. rewrite H1, H2.
  destruct (Nat.eqb (length (DNS n)) 0), (Nat.eqb (length (Search n)) 0); cbn [negb orb given when]; [done|..];
    (rewrite (print_sub 4 "nameservers"); [|reflexivity]); cbn [render]; rewrite !cat_cons; change (4 + 2)%nat with 6%nat; f_equal;
    rewrite ?print_map_app, ?render_app; cbn [cat foldr app print flat_map render String.append]; by rewrite ?app_str_nil_r.
Qed.

Lemma stanza_text i n :
  network_stanza i n = render (print 2 (YMap [(iface_name i n, network_tree yamlSingleQuote (iface_name i n) n)])).
Proof.
  unfold network_stanza, network_tree. set (f := iface_name i n).
  rewrite print_sub by done. cbn [render]. change (2 + 2)%nat with 4%nat. rewrite !print_map_app, !render_app.
  rewrite !cat_cons, addresses_text, nameservers_text. f_equal.
  rewrite <- (app_str_assoc (ln "    match:")). f_equal. cbn. by rewrite !app_str_nil_r.
Qed.

Lemma imap_text i l :
  cat (imap (fun j n => network_stanza (i + j) n) l) =
  render (print 2 (YMap (imap (fun j n => (iface_name (i + j) n, network_tree yamlSingleQuote (iface_name (i + j) n) n)) l))).
Proof.
  revert i. induction l as [|n l IH]; intros i; [done|]. cbn [imap]. rewrite cat_cons, stanza_text.
  rewrite (print_map_cons 2 _ _ (imap _ l)), render_app. unfold entry. rewrite Nat.add_0_r. f_equal.
  assert (forall {A} (g : nat -> NetworkConfig -> A), imap ((fun j n => g (i + j)%nat n) ∘ S) l = imap (fun j n => g (S i + j)%nat n) l) as E.
  { intros A g. apply imap_ext. intros j x _. cbn. f_equal. lia. }
  rewrite (E _ network_stanza), IH, <- (E _ (fun j n => (iface_name j n, network_tree yamlSingleQuote (iface_name j n) n))). done.
Qed.

Lemma network_text cfg : buildNetworkConfig cfg = render (print 0 (network_document yamlSingleQuote cfg)).
Proof.
  unfold buildNetworkConfig, network_document, ethernets. destruct (Networks cfg) as [|n l]; [by vm_compute|].
  rewrite print_map_cons, render_app, (print_sub 0 "ethernets") by done. cbn [render].
  rewrite <- (imap_text 0). done.
Qed.

(** ** What a valid request may contain *)

Definition plain_interface (n : NetworkConfig) : Prop := has_prefix "*" (Interface n) = false.
Definition plain_search (n : NetworkConfig) : Prop := Forall (fun s => no_nl (trim_space s) = true) (Search n).

Lemma empty_true s : empty s = true -> s = "".
Proof. apply String.eqb_eq. Qed.

Lemma regex_nonempty r s : re_match r s = true -> nullable r = false -> s <> "".
Proof. intros H Hn ->. simpl in H. congruence. Qed.

Lemma key_ok_bytes p k :
  all_bytes p k = true -> k <> "" -> forallb (fun c => negb (p c)) [nl; ":"; " "]%char = true ->
  match k with String c _ => existsb (Ascii.eqb c) indicators = false | "" => True end -> key_ok k = true.
Proof.
  intros Hk Hne Hp Hc. cbn [forallb] in Hp. rewrite !andb_true_iff, !negb_true_iff in Hp. destruct Hp as (H1 & H2 & H3 & _).
  unfold key_ok. rewrite (all_bytes_no_nl p k Hk H1), (all_bytes_no_byte p ":" k Hk H2).
  destruct k as [|c k]; [done|]. rewrite Hc. simpl in Hk. apply andb_prop in Hk as [Hpc Hk].
  assert (starts_flush (String c k) = true) as ->.
  { simpl. destruct (Ascii.eqb_spec c " ") as [->|]; [congruence|done]. }
  assert (has_prefix "- " (String c k) = false) as ->; [|done].
  apply not_true_iff_false. intros [t Ht]%has_prefix_spec. injection Ht as -> ->. simpl in Hk.
  rewrite H3 in Hk. done.
Qed.

Lemma pretty_char_digit n : is_digit (pretty_N_char (n mod 10)) = true.
Proof.
  assert (n mod 10 < 10)%N as H by (by apply N.mod_lt).
  destruct (n mod 10)%N as [|p]; [done|]. by do 4 (destruct p as [p|p|]; try done); exfalso; lia.
Qed.
Lemma pretty_go_digits n s : all_bytes is_digit s = true -> all_bytes is_digit (pretty_N_go n s) = true.
Proof.
  revert s. induction (N.lt_wf_0 n) as [n _ IH]. intros s Hs. destruct (decide (n = 0)%N) as [->|]; [by rewrite pretty_N_go_0|].
  rewrite pretty_N_go_step by lia. apply IH; [by apply N.div_lt; lia|]. simpl. by rewrite pretty_char_digit.
Qed.
Lemma show_nat_digits z : all_bytes is_digit (show_nat z) = true.
Proof. unfold show_nat, pretty, pretty_N. destruct (decide _); [done|]. by apply pretty_go_digits. Qed.

Lemma ascii_check (P : ascii -> bool) c : forallb P all_ascii = true -> P c = true.
Proof. intros H. apply (proj1 (forallb_forall _ _) H), in_all_ascii. Qed.

Lemma iface_char_key c : iface_char c = true -> Ascii.eqb c "*" = false -> existsb (Ascii.eqb c) indicators = false.
Proof.
  intros H1 H2. pose proof (ascii_check (fun c => implb (iface_char c && negb (Ascii.eqb c "*")) (negb (existsb (Ascii.eqb c) indicators))) c
    ltac:(by vm_compute)) as H. cbn beta in H. rewrite H1, H2 in H. by apply negb_true_iff.
Qed.

Lemma iface_key i n e :
  (empty (Interface n) = true \/ re_match ifaceNameRe (Interface n) = true) -> e = iface_name i n -> plain_interface n ->
  key_ok e = true.
Proof.
  intros Hi -> Hp. unfold iface_name. destruct (empty (Interface n)) eqn:E.
  - apply (key_ok_bytes alnum_char); [|done|done|done]. cbn.
    apply (all_bytes_impl is_digit); [|apply show_nat_digits]. intros c Hc. unfold alnum_char. by rewrite Hc, orb_true_r.
  - destruct Hi as [|Hi]; [done|]. apply (key_ok_bytes iface_char).
    + by apply (regex_bytes ifaceNameRe).
    + by apply (regex_nonempty ifaceNameRe).
    + done.
    + pose proof (regex_bytes ifaceNameRe iface_char _ Hi eq_refl) as Hb. unfold plain_interface in Hp.
      destruct (Interface n) as [|c s]; [done|]. simpl in Hb. apply andb_prop in Hb as [Hc _].
      apply iface_char_key; [done|]. destruct (Ascii.eqb_spec c "*") as [->|]; [by destruct s|done].
Qed.

Lemma given_no_nl s (ok : bool) (p : ascii -> bool) :
  negb (empty s) && negb ok = false -> (ok = true -> all_bytes p s = true) -> p nl = false -> no_nl s = true.
Proof.
  intros H Ho Hp. destruct (empty s) eqn:E; [by apply empty_true in E as ->|]. destruct ok; [|done].
  by apply (all_bytes_no_nl p), Hp; apply Ho.
Qed.

Lemma cidr_address_chars s a : cidr_address s = Some a -> all_bytes cidr_char s = true.
Proof. unfold cidr_address. destruct (ParseCIDR s) eqn:E; [|done]. intros _. by eapply ParseCIDR_chars. Qed.

(** The fields of a network that passed the checks hold no line break. *)
Record network_lines (n : NetworkConfig) : Prop := {
  nl_v4 : no_nl (IPv4 n) = true; nl_g4 : no_nl (Gateway4 n) = true;
  nl_v6 : no_nl (IPv6 n) = true; nl_g6 : no_nl (Gateway6 n) = true;
  nl_dns : Forall (fun s => no_nl s = true) (kept (DNS n));
  nl_iface : empty (Interface n) = true \/ re_match ifaceNameRe (Interface n) = true
}.

Lemma validate_network_lines i n : validate_network i n = None -> network_lines n.
Proof.
  unfold validate_network. cbv beta zeta.
  destruct (negb (String.eqb (Interface n) "") && _) eqn:Hi; [done|].
  destruct (negb (String.eqb (IPv4 n) "") && _) eqn:H4; [done|].
  destruct (negb (String.eqb (Gateway4 n) "") && _) eqn:Hg4; [done|].
  destruct (negb (String.eqb (IPv6 n) "") && _) eqn:H6; [done|].
  destruct (negb (String.eqb (Gateway6 n) "") && _) eqn:Hg6; [done|].
  destruct (existsb _ (DNS n)) eqn:Hd; [done|]. intros _. split.
  - apply (given_no_nl _ _ cidr_char H4); [|done]. destruct (cidr_address (IPv4 n)) eqn:E; [|done]. intros _. by eapply cidr_address_chars.
  - apply (given_no_nl _ _ ip_char Hg4); [|done]. destruct (ParseIP (Gateway4 n)) eqn:E; [|done]. intros _. by eapply ParseIP_chars.
  - apply (given_no_nl _ _ cidr_char H6); [|done]. destruct (cidr_address (IPv6 n)) eqn:E; [|done]. intros _. by eapply cidr_address_chars.
  - apply (given_no_nl _ _ ip_char Hg6); [|done]. destruct (ParseIP (Gateway6 n)) eqn:E; [|done]. intros _. by eapply ParseIP_chars.
  - unfold kept. apply Forall_forall. intros s Hs%list_elem_of_In. apply filter_In in Hs as [(d & <- & Hin)%in_map_iff Hne].
    destruct (ParseIP (trim_space d)) as [a|] eqn:E.
    + apply (all_bytes_no_nl ip_char); [|done]. by eapply ParseIP_chars.
    + apply not_true_iff_false in Hd. destruct Hd. apply existsb_exists. exists d. split; [done|]. unfold empty in Hne. by rewrite E, Hne.
  - unfold empty. destruct (String.eqb (Interface n) ""); [by left|]. right. by destruct (re_match _ _).
Qed.

Lemma validate_networks_lines i l : validate_networks i l = None -> Forall network_lines l.
Proof.
  revert i. induction l as [|n l IH]; intros i; simpl; [constructor|].
  destruct (validate_network i n) eqn:E; [done|]. intros H. constructor; [by eapply validate_network_lines|by eapply IH].
Qed.

Lemma Validate_networks cfg : Validate cfg = None -> Forall network_lines (Networks cfg).
Proof.
  unfold Validate. repeat match goal with |- (if ?b then _ else _) = _ -> _ => destruct b; [done|] end.
  apply validate_networks_lines.
Qed.

Lemma names_wf l : Forall (fun s => no_nl s = true) (kept l) -> wf (names_tree yamlSingleQuote l) = true.
Proof.
  unfold names_tree. fold (kept l). intros H. destruct (kept l) as [|s k]; [done|]. cbn [wf]. apply andb_true_iff. split; [done|].
  apply forallb_forall. intros v (t & <- & Ht)%in_map_iff. apply (quote_item t).
  rewrite Forall_forall in H. by apply H, list_elem_of_In.
Qed.

Lemma wf_map_app a b :
  forallb (fun kv => key_ok kv.1 && wf kv.2) a = true -> forallb (fun kv => key_ok kv.1 && wf kv.2) b = true ->
  forallb (fun kv => key_ok kv.1 && wf kv.2) (a ++ b) = true.
Proof. intros Ha Hb. by rewrite forallb_app, Ha, Hb. Qed.

Lemma wf_entry k v : key_ok k = true -> wf v = true -> forallb (fun kv => key_ok kv.1 && wf kv.2) [(k, v)] = true.
Proof. intros Hk Hv. cbn [forallb fst snd]. by rewrite Hk, Hv. Qed.
Lemma wf_given (b : bool) k v :
  key_ok k = true -> (b = true -> wf v = true) -> forallb (fun kv => key_ok kv.1 && wf kv.2) (given b [(k, v)]) = true.
Proof. intros Hk Hv. destruct b; [|done]. apply wf_entry; auto. Qed.

Lemma wf_map_cons kvs : kvs <> [] -> forallb (fun kv => key_ok kv.1 && wf kv.2) kvs = true -> wf (YMap kvs) = true.
Proof. intros Hn Hk. cbn [wf]. rewrite Hk. by destruct kvs. Qed.

Lemma network_tree_wf iface n :
  network_lines n -> plain_search n -> no_nl iface = true -> wf (network_tree yamlSingleQuote iface n) = true.
Proof.
  intros H Hs Hi. unfold network_tree. apply wf_map_cons; [done|].
  apply wf_map_app; [|apply wf_map_app; [|apply wf_map_app; [|done]]].
  - cbn [forallb fst snd]. rewrite andb_true_r. cbn [wf forallb fst snd length negb Nat.eqb andb].
    by rewrite (quote_no_nl iface Hi).
  - destruct (empty (IPv4 n) && empty (IPv6 n)) eqn:E; [done|].
    repeat apply wf_map_app; try (apply wf_given; [done|]; intros _; apply quote_value; apply H).
    cbn [forallb fst snd]. rewrite andb_true_r. change (key_ok "addresses") with true.
    destruct (empty (IPv4 n)), (empty (IPv6 n)); try done; cbn [given negb app wf length Nat.eqb forallb];
      pose proof (quote_item _ (nl_v4 n H)) as E4; pose proof (quote_item _ (nl_v6 n H)) as E6; unfold item_ok in E4, E6;
      rewrite ?E4, ?E6; done.
  - apply wf_given; [done|]. intros Hd. apply wf_map_cons.
    + destruct (Nat.eqb (length (DNS n)) 0), (Nat.eqb (length (Search n)) 0); done.
    + apply wf_map_app; apply wf_given; try done; intros _; apply names_wf; [apply H|].
      unfold kept. apply Forall_forall. intros s Hin%list_elem_of_In. apply filter_In in Hin as [(d & <- & Hin)%in_map_iff _].
      unfold plain_search in Hs. rewrite Forall_forall in Hs. by apply Hs, list_elem_of_In.
Qed.

Lemma names_plain l : plain (names_tree yamlSingleQuote l) = names_tree id l.
Proof.
  unfold names_tree. destruct (List.filter _ _) as [|s k]; [done|]. cbn [plain]. rewrite map_map. f_equal.
  apply map_ext. intros t. cbn [plain]. by rewrite quote_text.
Qed.

Lemma network_tree_plain iface n : plain (network_tree yamlSingleQuote iface n) = network_tree id iface n.
Proof.
  unfold network_tree. cbn [plain]. rewrite !map_app. f_equal. f_equal; [|f_equal; [|f_equal]].
  - cbn [plain map fst snd]. by rewrite quote_text.
  - destruct (empty (IPv4 n)), (empty (IPv6 n)), (empty (Gateway4 n)), (empty (Gateway6 n));
      cbn [andb negb given app on plain map fst snd]; rewrite ?quote_text; done.
  - destruct (Nat.eqb (length (DNS n)) 0), (Nat.eqb (length (Search n)) 0); cbn [negb orb given app map fst snd plain];
      rewrite ?names_plain; done.
Qed.

(** A static network configuration arrives as it was asked for.  The
    network-config of a valid request, whose interface names start with no
    asterisk and whose search domains hold no line break, reads back as exactly
    the tree of the request: version 2, one stanza per network in order, each
    with its interface, addresses, gateways, name servers and search domains,
    and DHCP where there is no address.  Quotes in a value stay in the value. *)
Theorem network_config_reads_back cfg :
  Validate cfg = None -> Forall plain_interface (Networks cfg) -> Forall plain_search (Networks cfg) ->
  plain <$> read_yaml (buildNetworkConfig cfg) = Some (network_spec cfg).
Proof.
  intros Hv Hp Hs. apply Validate_networks in Hv. rewrite network_text.
  assert (forallb (fun kv => key_ok kv.1 && wf kv.2) (ethernets yamlSingleQuote cfg) = true /\ ethernets yamlSingleQuote cfg <> []) as [Hw Hne].
  { unfold ethernets. destruct (Networks cfg) as [|n0 l0]; [by split; [vm_compute|]|]. split; [|done].
    apply forallb_forall. intros kv Hin. apply list_elem_of_In in Hin. apply elem_of_lookup_imap in Hin as (i & n & -> & Hn).
    apply list_elem_of_lookup_2 in Hn. rewrite !Forall_forall in *. specialize (Hv _ Hn). cbn [fst snd].
    pose proof (iface_key i n _ (nl_iface n Hv) eq_refl (Hp _ Hn)) as Hk. rewrite Hk. cbn [andb].
    apply network_tree_wf; [done|by apply Hs|]. unfold key_ok in Hk. rewrite !andb_true_iff in Hk. apply Hk. }
  assert (wf (network_document yamlSingleQuote cfg) = true) as Hwf.
  { unfold network_document. apply wf_map_cons; [done|]. apply (wf_map_app [_] [_]); [done|]. apply wf_entry; [done|]. by apply wf_map_cons. }
  rewrite read_print by done. cbn [fmap option_fmap option_map]. f_equal. unfold network_spec, network_document. cbn [plain map fst snd].
  do 6 f_equal. unfold ethernets. destruct (Networks cfg) as [|n l]; [by vm_compute|].
  set (h := fun kv : string * yaml => (kv.1, plain kv.2)). change (map h ?L) with (h <$> L). rewrite fmap_imap.
  apply imap_ext. intros i x _. unfold h. cbn [compose fst snd]. by rewrite network_tree_plain.
Qed.

(** ** User data *)

Section UserData.
Context (crypt : string -> string).

(** The alphabet of [crypt(3)] hashes. *)
Definition crypt_char (c : ascii) : bool := alnum_char c || one_of ["."; "/"; "$"; "="]%char c.
Context (Hcrypt : forall p, all_bytes crypt_char (crypt p) = true).

Section UserTree.
Context (q : string -> string).

Definition key_tree (cfg : Config) : list (string * yaml) :=
  given (negb (empty (SSHKey cfg))) [("ssh_authorized_keys", YSeq [YScalar (q (SSHKey cfg))])].
Definition password_tree (cfg : Config) : list (string * yaml) :=
  given (negb (empty (crypt (Password cfg)))) [("passwd", YScalar (crypt (Password cfg))); on "lock_passwd" false].

Definition account_tree (cfg : Config) : list (string * yaml) :=
  if negb (empty (User cfg)) then
    [("users", YSeq [YMap ([("name", YScalar (User cfg))] ++
       given (negb (empty (Password cfg))) (password_tree cfg) ++ key_tree cfg ++
       [("sudo", YScalar "ALL=(ALL) NOPASSWD:ALL"); ("groups", YScalar "sudo,adm,wheel"); ("shell", YScalar "/bin/bash")])])]
  else if negb (empty (Password cfg)) then
    [("users", YSeq [YMap ([("name", YScalar "root")] ++ password_tree cfg ++ key_tree cfg)])]
  else key_tree cfg.

Definition file_tree (path : string) (content : list string) (mode : string) : yaml :=
  YMap [("path", YScalar path); ("content", YBlock "|" content); ("permissions", YScalar (q mode))].

Definition provision_trees (cfg : Config) : list yaml :=
  given (negb (empty (ProvisionScript cfg)))
    [YMap [("path", YScalar "/usr/local/bin/webkvm-provision.sh"); ("content", YBlock "!!binary |" [base64 (ProvisionScript cfg)]);
           ("permissions", YScalar (q "0755"))];
     file_tree "/usr/local/bin/webkvm-run-provision" provision_runner "0755"].

Definition files_tree (cfg : Config) : list yaml :=
  provision_trees cfg ++
  [file_tree "/etc/systemd/network/20-webkvm-dhcp.network" networkdConfig "0644";
   file_tree "/etc/profile.d/zz-webkvm-term.sh" termHook "0644"] ++
  given (negb (SkipGuestAgent cfg)) [file_tree "/usr/local/bin/webkvm-qga-installer.sh" gaInstaller "0755"].

Definition run_tree (cfg : Config) : list yaml :=
  [YScalar run_network] ++ given (negb (SkipGuestAgent cfg)) [YScalar "[sh, /usr/local/bin/webkvm-qga-installer.sh]"] ++
  [YScalar run_term] ++ given (negb (empty (ProvisionScript cfg))) [YScalar "[/usr/local/bin/webkvm-run-provision]"].

Definition user_entries (cfg : Config) : list (string * yaml) :=
  account_tree cfg ++
  given (negb (SkipGuestAgent cfg)) [("packages", YSeq [YScalar "qemu-guest-agent"])] ++
  [("bootcmd", YSeq [YScalar boot_dhcp])] ++ [("write_files", YSeq (files_tree cfg))] ++ [("runcmd", YSeq (run_tree cfg))] ++
  [on "package_update" true] ++
  given (negb (empty (ProvisionScript cfg)))
    [("final_message", YScalar (join_str dq [""; "WEBKVM provisioning finished after $UPTIME seconds"; ""]))].
End UserTree.

(** The document that is asked for. *)
Definition user_spec (cfg : Config) : yaml := YMap (user_entries id cfg).

Lemma account_text cfg : account_lines crypt cfg = render (print 0 (YMap (account_tree yamlSingleQuote cfg))).
Proof.
  unfold account_lines, account_tree, password_lines, key_lines, password_tree, key_tree.
  destruct (empty (User cfg)), (empty (Password cfg)), (empty (SSHKey cfg)), (empty (crypt (Password cfg)));
    cbn; unfold ln; cbn; rewrite ?app_str_nil_r, ?app_str_assoc; done.
Qed.

Lemma base64_flush s : s <> "" -> starts_flush (base64 s) = true.
Proof.
  assert (forall v t, starts_flush (String (b64_char v) t) = true) as H.
  { intros v t. cbn [starts_flush]. destruct (decide (0 <= v < 64)) as [Hv|Hv].
    - destruct (b64_char_value v Hv) as (E & _). destruct (Ascii.eqb_spec (b64_char v) " ") as [E'|]; [|done]. by rewrite E' in E.
    - unfold b64_char. destruct (decide (v < 0)); [by replace (Z.to_nat v) with 0%nat by lia|].
      by replace (Z.to_nat v) with (64 + Z.to_nat (v - 64))%nat by lia. }
  destruct s as [|a [|b [|c s]]]; [done|..]; intros _; apply H.
Qed.

Lemma provision_text cfg : provision_files cfg = render (print 2 (YSeq (provision_trees yamlSingleQuote cfg))).
Proof.
  unfold provision_files, provision_trees. destruct (empty (ProvisionScript cfg)) eqn:E; [done|]. cbn [negb when given].
  rewrite print_seq_cons, render_app. apply (f_equal2 String.append); [|by vm_compute].
  unfold item. cbn [print flat_map map app]. rewrite measure_flush by (apply base64_flush; intros H; by rewrite H in E).
  cbn [Nat.add app render]. unfold render_line. cbn [fst snd pad]. cbn [lns foldr]. unfold ln.
  rewrite ?app_str_nil_r, ?app_str_assoc. done.
Qed.

Lemma files_text cfg : write_files cfg = render (print 0 (YMap [("write_files", YSeq (files_tree yamlSingleQuote cfg))])).
Proof.
  rewrite print_sub by done. unfold write_files, files_tree. cbn [render]. rewrite !cat_cons, provision_text.
  change (0 + 2)%nat with 2%nat. rewrite !print_seq_app, !render_app. f_equal. f_equal. rewrite <- app_str_assoc.
  apply (f_equal2 String.append); [by vm_compute|]. by destruct (SkipGuestAgent cfg); vm_compute.
Qed.

Lemma run_text cfg :
  run_lines cfg = render (print 0 (YMap ([("runcmd", YSeq (run_tree cfg))] ++ [on "package_update" true] ++
    given (negb (empty (ProvisionScript cfg)))
      [("final_message", YScalar (join_str dq [""; "WEBKVM provisioning finished after $UPTIME seconds"; ""]))]))).
Proof. unfold run_lines, run_tree. by destruct (SkipGuestAgent cfg), (empty (ProvisionScript cfg)); vm_compute. Qed.

Lemma generated_text cfg : generated_lines crypt cfg = render (print 0 (YMap (user_entries yamlSingleQuote cfg))).
Proof.
  unfold generated_lines, user_entries. rewrite !cat_cons, account_text, files_text, run_text.
  rewrite (print_map_app 0 (account_tree _ _)), render_app. f_equal.
  rewrite (print_map_app 0 (given _ _)), render_app. apply (f_equal2 String.append); [by destruct (SkipGuestAgent cfg); vm_compute|].
  rewrite (print_map_app 0 [("bootcmd", YSeq [YScalar boot_dhcp])]), render_app.
  apply (f_equal2 String.append); [by vm_compute|].
  rewrite (print_map_app 0 [("write_files", YSeq (files_tree yamlSingleQuote cfg))]), render_app.
  apply (f_equal2 String.append); [done|]. cbn [cat foldr]. by rewrite app_str_nil_r.
Qed.

(** Scalars that are written as they are. *)
Lemma bytes_scalar p s :
  all_bytes p s = true -> s <> "" -> forallb (fun c => negb (p c)) [nl; sq; "|"]%char = true ->
  wf (YScalar s) = true /\ scalar_text s = s.
Proof.
  intros Hs Hne Hp. cbn [forallb] in Hp. rewrite !andb_true_iff, !negb_true_iff in Hp. destruct Hp as (H1 & H2 & H3 & _).
  split.
  - cbn [wf]. rewrite (all_bytes_no_nl p s Hs H1). destruct (String.eqb_spec s "") as [|_]; [done|].
    unfold is_header. destruct (String.eqb_spec s "|") as [->|_]; [simpl in Hs; by rewrite H3 in Hs|].
    destruct (String.eqb_spec s "!!binary |") as [->|_]; [|done]. exfalso.
    pose proof (all_bytes_no_byte p "|" _ Hs H3) as H. by vm_compute in H.
  - unfold scalar_text, unquote. destruct s as [|c s]; [done|]. simpl in Hs. apply andb_prop in Hs as [Hc _].
    destruct (Ascii.eqb_spec c sq) as [->|]; [congruence|done].
Qed.

Lemma Validate_user cfg : Validate cfg = None -> empty (User cfg) = true \/ re_match userRe (User cfg) = true.
Proof.
  unfold Validate. destruct (_ && Nat.eqb (length (Networks cfg)) 0); [done|].
  destruct (empty (User cfg)); [by left|]. cbn [negb andb]. destruct (re_match userRe (User cfg)); [by right|done].
Qed.
Lemma Validate_key cfg : Validate cfg = None -> empty (SSHKey cfg) = true \/ re_match sshKeyRe (SSHKey cfg) = true.
Proof.
  unfold Validate. do 7 (match goal with |- (if ?b then _ else _) = _ -> _ => destruct b; [done|] end).
  destruct (empty (SSHKey cfg)); [by left|]. cbn [negb andb]. destruct (re_match sshKeyRe (SSHKey cfg)); [by right|done].
Qed.

Definition not_nl (c : ascii) : bool := negb (Ascii.eqb c nl).
Lemma key_no_nl cfg : Validate cfg = None -> no_nl (SSHKey cfg) = true.
Proof.
  intros [E|H]%Validate_key; [by apply empty_true in E as ->|]. apply (all_bytes_no_nl not_nl); [|done].
  apply (regex_bytes sshKeyRe); [done|by vm_compute].
Qed.

Definition user_char (c : ascii) : bool := lower_digit c || one_of ["_"; "-"]%char c.
Lemma user_scalar cfg : Validate cfg = None -> empty (User cfg) = false -> wf (YScalar (User cfg)) = true /\ scalar_text (User cfg) = User cfg.
Proof.
  intros [E|H]%Validate_user He; [congruence|]. apply (bytes_scalar user_char); [|by apply (regex_nonempty userRe)|done].
  apply (regex_bytes userRe); [done|by vm_compute].
Qed.
Lemma hash_scalar p : empty (crypt p) = false -> wf (YScalar (crypt p)) = true /\ scalar_text (crypt p) = crypt p.
Proof. intros He. apply (bytes_scalar crypt_char); [apply Hcrypt| |done]. intros E. by rewrite E in He. Qed.

Lemma key_tree_wf cfg : Validate cfg = None ->
  forallb (fun kv => key_ok kv.1 && wf kv.2) (key_tree yamlSingleQuote cfg) = true.
Proof.
  intros Hv. apply wf_given; [done|]. intros _. cbn [wf length Nat.eqb negb forallb].
  pose proof (quote_item _ (key_no_nl cfg Hv)) as H. unfold item_ok in H. by rewrite H.
Qed.
Lemma password_tree_wf cfg : forallb (fun kv => key_ok kv.1 && wf kv.2) (password_tree cfg) = true.
Proof.
  unfold password_tree. destruct (empty (crypt (Password cfg))) eqn:E; [done|]. cbn [negb given forallb fst snd].
  by rewrite (proj1 (hash_scalar _ E)).
Qed.

Lemma seq_of_map kvs : wf (YMap kvs) = true -> wf (YSeq [YMap kvs]) = true.
Proof. intros H. cbn [wf length Nat.eqb negb forallb andb] in *. by rewrite H. Qed.

Lemma account_tree_wf cfg : Validate cfg = None ->
  forallb (fun kv => key_ok kv.1 && wf kv.2) (account_tree yamlSingleQuote cfg) = true.
Proof.
  intros Hv. unfold account_tree. destruct (empty (User cfg)) eqn:E; cbn [negb]; [destruct (empty (Password cfg)); cbn [negb]|].
  - by apply key_tree_wf.
  - apply wf_entry; [done|]. apply seq_of_map, wf_map_cons; [done|].
    apply wf_map_app; [done|]. apply wf_map_app; [apply password_tree_wf|by apply key_tree_wf].
  - apply wf_entry; [done|]. apply seq_of_map, wf_map_cons; [done|]. apply wf_map_app.
    + apply wf_entry; [done|]. by apply user_scalar.
    + apply wf_map_app; [destruct (empty (Password cfg)); [done|apply password_tree_wf]|].
      apply wf_map_app; [by apply key_tree_wf|done].
Qed.

Lemma provision_wf cfg : forallb item_ok (provision_trees yamlSingleQuote cfg) = true.
Proof.
  unfold provision_trees. destruct (empty (ProvisionScript cfg)) eqn:E; [done|]. cbn [negb given forallb].
  apply andb_true_iff. split; [|by vm_compute].
  cbn [item_ok]. apply wf_map_cons; [done|]. cbn [forallb fst snd].
  assert (wf (YBlock "!!binary |" [base64 (ProvisionScript cfg)]) = true) as ->; [|by vm_compute].
  cbn [wf]. unfold block_ok. rewrite base64_flush by (intros H; by rewrite H in E). cbn [forallb].
  unfold no_nl. change nl with "010"%char. by rewrite base64_one_line.
Qed.

Lemma user_entries_wf cfg : Validate cfg = None -> wf (YMap (user_entries yamlSingleQuote cfg)) = true.
Proof.
  intros Hv. apply wf_map_cons.
  { unfold user_entries. intros H. apply app_eq_nil in H as [_ H]. apply app_eq_nil in H as [_ H]. done. }
  unfold user_entries. apply wf_map_app; [by apply account_tree_wf|].
  apply wf_map_app; [by destruct (SkipGuestAgent cfg); vm_compute|].
  apply wf_map_app; [by vm_compute|]. apply wf_map_app; [|unfold run_tree; by destruct (SkipGuestAgent cfg), (empty (ProvisionScript cfg)); vm_compute].
  apply wf_entry; [done|]. cbn [wf]. apply andb_true_iff. split; [unfold files_tree; by destruct (provision_trees _ _)|].
  unfold files_tree. rewrite !forallb_app. apply andb_true_iff. split; [apply provision_wf|].
  by destruct (SkipGuestAgent cfg); vm_compute.
Qed.

Lemma key_tree_plain cfg : map (fun kv => (kv.1, plain kv.2)) (key_tree yamlSingleQuote cfg) = key_tree id cfg.
Proof. unfold key_tree. destruct (empty (SSHKey cfg)); [done|]. cbn [negb given map fst snd plain]. by rewrite quote_text. Qed.
Lemma password_tree_plain cfg : map (fun kv => (kv.1, plain kv.2)) (password_tree cfg) = password_tree cfg.
Proof.
  unfold password_tree. destruct (empty (crypt (Password cfg))) eqn:E; [done|]. cbn [negb given map fst snd plain on].
  by rewrite (proj2 (hash_scalar _ E)).
Qed.

Lemma user_entries_plain cfg : Validate cfg = None ->
  plain (YMap (user_entries yamlSingleQuote cfg)) = user_spec cfg.
Proof.
  intros Hv. unfold user_spec, user_entries. cbn [plain]. rewrite !map_app. f_equal. apply (f_equal2 app).
  { unfold account_tree. destruct (empty (User cfg)) eqn:E; cbn [negb]; [destruct (empty (Password cfg)); cbn [negb]|].
    - apply key_tree_plain.
    - cbn [map fst snd plain]. rewrite !map_app, password_tree_plain, key_tree_plain. done.
    - cbn [map fst snd plain]. rewrite !map_app, key_tree_plain. cbn [map fst snd plain]. rewrite (proj2 (user_scalar cfg Hv E)).
      by destruct (empty (Password cfg)); cbn [negb given map app]; rewrite ?password_tree_plain. }
  apply (f_equal2 app); [by destruct (SkipGuestAgent cfg); vm_compute|]. apply (f_equal2 app); [by vm_compute|].
  apply (f_equal2 app); [|unfold run_tree; by destruct (SkipGuestAgent cfg), (empty (ProvisionScript cfg)); vm_compute].
  cbn [map fst snd plain]. do 3 f_equal. unfold files_tree. rewrite !map_app. apply (f_equal2 app); [|by destruct (SkipGuestAgent cfg); vm_compute].
  unfold provision_trees. destruct (empty (ProvisionScript cfg)); [done|]. cbn [negb given map fst snd plain]. by vm_compute.
Qed.

End UserData.

(** ** The image *)

Section Image.
Context (crypt : string -> string) (walk : gmap string string -> list (string * string)).
Context (Hwalk : forall m, walk m ≡ₚ map_to_list m).

Lemma write_all_ok ok l dir :
  let '(r, dir') := write_all ok l dir in
  (r = true <-> Forall (fun kv => ok kv.1 = true) l) /\
  (r = true -> dir' = foldl (fun m kv => <[kv.1 := kv.2]> m) dir l).
Proof.
  revert dir. induction l as [|[k v] l IH]; intros dir; simpl; [by repeat split|].
  destruct (ok k) eqn:E.
  - specialize (IH (<[k := v]> dir)). destruct (write_all ok l _) as [r dir']. destruct IH as [H1 H2].
    split; [|done]. rewrite H1, Forall_cons. naive_solver.
  - split; [|done]. rewrite Forall_cons. simpl. split; [done|]. intros [? _]. congruence.
Qed.

Lemma fold_inserts (l : list (string * string)) (dir : gmap string string) k v :
  NoDup (map fst l) -> In (k, v) l -> foldl (fun m kv => <[kv.1 := kv.2]> m) dir l !! k = Some v.
Proof.
  revert dir. induction l as [|[k' v'] l IH]; intros dir; [done|]. intros [Hk Hn]%NoDup_cons [[= -> ->]|Hin]; simpl.
  - assert (forall l (m : gmap string string), k ∉ map fst l -> foldl (fun m kv => <[kv.1 := kv.2]> m) m l !! k = m !! k) as E.
    { clear. induction l as [|[k' v'] l IH]; intros m; [done|]. simpl. intros [H1 H2]%not_elem_of_cons.
      rewrite IH by done. by apply lookup_insert_ne. }
    rewrite E by done. apply lookup_insert_eq.
  - by apply IH.
Qed.

(** Building a seed succeeds exactly when the request is valid, the directory and
    the three documents are written, xorriso is there and works, and the image is
    not empty; then the image holds the three documents, and otherwise there is no
    image, or the one there was before.  The working directory, with the
    password's hash in it, is gone either way. *)
Lemma BuildNoCloudISO_spec o cfg d :
  let '(e, d') := BuildNoCloudISO crypt walk o cfg d in
  (e = None <-> Validate cfg = None /\ mkdir_ok o = true /\
     Forall (fun name => write_ok o name = true) ["user-data"; "meta-data"; "network-config"] /\
     has_xorriso o = true /\ xorriso_ok o = true /\ exists n, image_size o = Some n /\ n <> 0) /\
  (e = None -> exists files n, iso d' = Some (files, n) /\ n <> 0 /\
     files !! "user-data" = Some (buildUserData crypt cfg) /\ files !! "meta-data" = Some (meta_data cfg) /\
     files !! "network-config" = Some (buildNetworkConfig cfg)) /\
  (e <> None -> iso d' = None \/ iso d' = iso d) /\
  (Validate cfg = None -> mkdir_ok o = true -> work d' = None).
Proof.
  unfold BuildNoCloudISO. destruct (Validate cfg) as [err|] eqn:Ev; [naive_solver|].
  destruct (mkdir_ok o) eqn:Em; cbn [negb]; [|naive_solver].
  pose proof (write_all_ok (write_ok o) (walk (seed_files crypt cfg)) (default ∅ (work d))) as Hw.
  destruct (write_all _ _ _) as [ok dir]. destruct Hw as [Hok Hdir].
  assert (ok = true <-> Forall (fun name => write_ok o name = true) ["user-data"; "meta-data"; "network-config"]) as Hok'.
  { rewrite Hok, (Hwalk (seed_files crypt cfg)). unfold seed_files. rewrite !map_to_list_insert, map_to_list_singleton by done.
    rewrite !Forall_cons. simpl. naive_solver. }
  assert (ok = true -> forall k v, seed_files crypt cfg !! k = Some v -> dir !! k = Some v) as Hfiles.
  { intros H k v Hk. rewrite (Hdir H). apply fold_inserts.
    - rewrite (Permutation_map fst (Hwalk _)). apply NoDup_fst_map_to_list.
    - apply list_elem_of_In. rewrite (Hwalk _). by apply elem_of_map_to_list. }
  destruct ok; cbn [negb].
  2:{ split_and!; try naive_solver. }
  destruct (has_xorriso o) eqn:Ex; cbn [negb]; [|naive_solver].
  destruct (xorriso_ok o) eqn:Eo; cbn [negb]; [|naive_solver].
  destruct (image_size o) as [n|] eqn:Es; cbn [fmap option_fmap option_map]; [|naive_solver].
  destruct (Z.eqb_spec n 0) as [->|Hn]; [naive_solver|].
  split_and!; naive_solver.
Qed.
End Image.

(** ** Passwords *)

Lemma charset_picks : forallb (fun n => match pick (Z.of_nat n) with Some c => alnum_char c | None => false end) (List.seq 0 62) = true.
Proof. by vm_compute. Qed.
Lemma pick_ok i : 0 <= i < 62 -> exists c, pick i = Some c /\ alnum_char c = true.
Proof.
  intros Hi. pose proof (proj1 (forallb_forall _ _) charset_picks (Z.to_nat i)) as H. cbn beta in H.
  rewrite Z2Nat.id in H by lia. destruct (pick i) as [c|]; [|discriminate (H ltac:(apply List.in_seq; lia))].
  exists c. split; [done|]. apply H, List.in_seq. lia.
Qed.

(** A generated password is always produced, has the length asked for and
    is made of letters and digits, whether random bytes are available or the
    clock has to do; no index leaves the alphabet, also when the generator's
    state is negative or wraps around. *)
Theorem GeneratePassword_total n random now :
  (forall bytes, random = Some bytes -> length bytes = n /\ Forall (fun b => 0 <= b < 256) bytes) ->
  exists s, GeneratePassword n random now = Some s /\ slen s = n /\ all_bytes alnum_char s = true.
Proof.
  unfold GeneratePassword. destruct random as [bytes|]; intros H.
  - destruct (H bytes eq_refl) as [<- Hb]. clear H. induction Hb as [|b l Hb _ (s & E & Hl & Hs)]; [by exists ""|].
    destruct (pick_ok (b mod 62)) as (c & Ec & Hc); [apply Z.mod_pos_bound; lia|].
    exists (String c s). cbn [random_password]. rewrite Ec. cbn [mbind option_bind]. rewrite E. cbn [mbind option_bind slen String.length all_bytes].
    split; [done|]. rewrite Hc, Hs. unfold slen in Hl. by rewrite Hl.
  - clear H. revert now. induction n as [|n IH]; intros seed; [by exists ""|]. cbn [lcg_password].
    set (seed' := wrap64 _). set (idx := Z.rem (Z.shiftr seed' 32) 62).
    assert (-62 < idx < 62) as Hi by (pose proof (Z.rem_bound_abs (Z.shiftr seed' 32) 62 ltac:(lia)); lia).
    destruct (pick_ok (if idx <? 0 then - idx else idx)) as (c & Ec & Hc); [destruct (Z.ltb_spec idx 0); lia|].
    destruct (IH seed') as (s & E & Hl & Hs). exists (String c s). cbv zeta. rewrite Ec. cbn [mbind option_bind]. rewrite E.
    cbn [mbind option_bind slen String.length all_bytes]. split; [done|]. rewrite Hc, Hs. unfold slen in Hl. by rewrite Hl.
Qed.

(** ** Examples *)

Module SeedDemo.
Definition crypt (p : string) : string := "$6$rounds=4096$salt$" +:+ p.
Definition no_net : NetworkConfig := MkNetworkConfig "" "" "" "" "" [] [].
Definition base : Config := MkConfig "alice" "secret" "" "web" [] "" "" [] "" false "".
Definition static (iface : string) : NetworkConfig := MkNetworkConfig iface "192.0.2.5/24" "192.0.2.1" "" "" ["192.0.2.53"; " "] ["it's"].
Definition with_net (l : list NetworkConfig) : Config := MkConfig "" "" "" "web" l "" "" [] "" true "".

(** A quote in a value stays in it. *)
Example quote_kept :
  plain <$> read_yaml (buildNetworkConfig (with_net [static "eth0"])) = Some (network_spec (with_net [static "eth0"])).
Proof. vm_compute. done. Qed.

(** The pattern of interface names allows an asterisk, for globs; at the start of
    a key YAML takes it for an alias, and the document cannot be read. *)
Example glob_interface :
  Validate (with_net [static "*"]) = None /\ read_yaml (buildNetworkConfig (with_net [static "*"])) = None.
Proof. vm_compute. done. Qed.

(** The default name of one network can be the name of another: one of two equal
    keys is lost. *)
Example duplicate_interface :
  let cfg := with_net [static "eth1"; no_net] in
  Validate cfg = None /\ map fst (ethernets id cfg) = ["eth1"; "eth1"].
Proof. vm_compute. done. Qed.

Definition with_custom (s : string) : Config := MkConfig "alice" "secret" "" "web" [] s "" [] "" false "".

(** A snippet's list replaces the generated one of the same name: here the guest
    agent's package and the network commands. *)
Example snippet_shadows :
  (fun y => match y with YMap l => map fst l | _ => [] end) <$>
    read_yaml (buildUserData crypt (with_custom (lns ["#cloud-config"; "packages:"; "  - nginx"; "runcmd:"; "  - [ls]"])))
  = Some ["users"; "packages"; "bootcmd"; "write_files"; "runcmd"; "package_update"; "packages"; "runcmd"].
Proof. vm_compute. done. Qed.

(** A shell script is accepted as custom data; with a user it is appended to the
    document, which no longer reads. *)
Example script_breaks_document :
  Validate (with_custom (lns ["#!/bin/sh"; "echo hello"])) = None /\
  read_yaml (buildUserData crypt (with_custom (lns ["#!/bin/sh"; "echo hello"]))) = None.
Proof. vm_compute. done. Qed.

(** A search domain is not checked at all. *)
Example search_unchecked :
  Validate (with_net [MkNetworkConfig "eth0" "" "" "" "" [] ["lan" +:+ String nl "x: y"]]) = None.
Proof. vm_compute. done. Qed.

(** The first eight letters of the alphabet are more likely than the others. *)
Example biased_letters : random_password [0; 62; 124; 186; 248] = Some "aaaaa" /\ random_password [61; 123; 185; 247] = Some "9999".
Proof. vm_compute. done. Qed.

End SeedDemo.

Lemma network_config_reads_back_witness :
  plain <$> read_yaml (buildNetworkConfig (SeedDemo.with_net [SeedDemo.static "eth0"]))
  = Some (network_spec (SeedDemo.with_net [SeedDemo.static "eth0"])).
Proof.
  apply (network_config_reads_back (SeedDemo.with_net [SeedDemo.static "eth0"])).
  - vm_compute. reflexivity.
  - constructor; [reflexivity|constructor].
  - constructor; [constructor; [vm_compute; reflexivity|constructor]|constructor].
Defined.


Lemma GeneratePassword_total_witness :
  exists s, GeneratePassword 3 (Some [0; 100; 255]) 0 = Some s /\ slen s = 3%nat /\ all_bytes alnum_char s = true.
Proof. apply (GeneratePassword_total 3 (Some [0; 100; 255]) 0). intros b [= <-]. split; [reflexivity|]. repeat constructor; lia. Defined.
