(* ===== verification/Snippets.v ===== *)
(** * Snippets: reusable cloud-init documents

    Models [cloudinit/snippets.go] (the store and its presets) and
    [api/cloudinit.go]: who may read, write and use a snippet, the user data a
    request resolves to, and the seed image of a machine.  [text/template] is a
    parameter: what a text parses to and what a template makes of the variables. *)

From S2P Require Import TrimSpace GoPath Sessions.
From S2P Require Export Acl AtomicFile ConfigStore CloudInit.
Open Scope Z_scope.

(** ** Data *)

Record Snippet := MkSnippet {
  snip_ID : string; Name : string; Description : string; Category : string; snip_Type : string; Content : string;
  IsPreset : bool; Owner : string; CreatedAt : Z; UpdatedAt : Z
}.
#[export] Instance Snippet_eq_dec : EqDecision Snippet.
Proof. solve_decision. Defined.

Record TemplateVars := MkVars {
  vm_Name : string; vm_Hostname : string; vm_User : string; vm_IP : string; vm_Gateway : string; vm_SSHKey : string;
  host_Hostname : string; host_DNS : string; Extra : list (string * value)
}.

(** A preset is dated when the store starts. *)
Definition preset_time : Z := 1726000000.
Definition preset (id name description category : string) (content : list string) : Snippet :=
  MkSnippet id name description category "user-data" (lns content) true "" preset_time preset_time.

Definition preset_docker : Snippet := preset "preset-docker" "Docker CE & Compose Ready"
  "Installs Docker Engine, Docker Compose plugin, and configures the daemon on first boot." "containers" [
  "#cloud-config";
  "# Docker CE & Compose Deployment";
  "package_update: true";
  "packages:";
  "  - apt-transport-https";
  "  - ca-certificates";
  "  - curl";
  "  - gnupg";
  "  - lsb-release";
  "";
  "runcmd:";
  "  - install -m 0755 -d /etc/apt/keyrings";
  "  - curl -fsSL https://download.docker.com/linux/ubuntu/gpg -o /etc/apt/keyrings/docker.asc";
  "  - chmod a+r /etc/apt/keyrings/docker.asc";
  join_str dq ["  - echo "; "deb [arch=$(dpkg --print-architecture) signed-by=/etc/apt/keyrings/docker.asc] https://download.docker.com/linux/ubuntu $(. /etc/os-release && echo "; "$VERSION_CODENAME"; ") stable"; " > /etc/apt/sources.list.d/docker.list"];
  "  - apt-get update";
  "  - apt-get install -y docker-ce docker-ce-cli containerd.io docker-buildx-plugin docker-compose-plugin";
  "  - systemctl enable --now docker";
  "  - usermod -aG docker {{ .VM.User }}"].

Definition preset_k3s : Snippet := preset "preset-k3s" "K3s Lightweight Kubernetes"
  "Installs single-node K3s cluster runtime with embedded containerd and kubeconfig export." "kubernetes" [
  "#cloud-config";
  "# K3s Lightweight Kubernetes Cluster";
  "package_update: true";
  "packages:";
  "  - curl";
  "  - ca-certificates";
  "";
  "runcmd:";
  "  - curl -sfL https://get.k3s.io | sh -s - --disable traefik --write-kubeconfig-mode 644";
  "  - mkdir -p /home/{{ .VM.User }}/.kube";
  "  - cp /etc/rancher/k3s/k3s.yaml /home/{{ .VM.User }}/.kube/config";
  "  - chown -R {{ .VM.User }}:{{ .VM.User }} /home/{{ .VM.User }}/.kube"].

Definition preset_k8s : Snippet := preset "preset-k8s" "Kubernetes Node (Containerd)"
  "Configures kernel modules, sysctl for bridging, and installs containerd runtime." "kubernetes" [
  "#cloud-config";
  "# Kubernetes Node Prerequisites";
  "bootcmd:";
  "  - swapoff -a";
  "  - sed -i '/ swap / s/^\(.*\)$/#\1/g' /etc/fstab";
  "";
  "write_files:";
  "  - path: /etc/modules-load.d/k8s.conf";
  "    content: |";
  "      overlay";
  "      br_netfilter";
  "  - path: /etc/sysctl.d/k8s.conf";
  "    content: |";
  "      net.bridge.bridge-nf-call-iptables  = 1";
  "      net.bridge.bridge-nf-call-ip6tables = 1";
  "      net.ipv4.ip_forward                 = 1";
  "";
  "package_update: true";
  "packages:";
  "  - containerd";
  "  - apt-transport-https";
  "  - curl";
  "";
  "runcmd:";
  "  - modprobe overlay";
  "  - modprobe br_netfilter";
  "  - sysctl --system";
  "  - mkdir -p /etc/containerd && containerd config default > /etc/containerd/config.toml";
  "  - sed -i 's/SystemdCgroup = false/SystemdCgroup = true/' /etc/containerd/config.toml";
  "  - systemctl restart containerd"].

Definition preset_hardened : Snippet := preset "preset-hardened" "Linux Security Hardened"
  "Disables SSH password auth, sets up UFW and installs Fail2ban." "security" [
  "#cloud-config";
  "# Linux Hardening Policy";
  "package_update: true";
  "packages:";
  "  - fail2ban";
  "  - ufw";
  "";
  "write_files:";
  "  - path: /etc/ssh/sshd_config.d/99-hardened.conf";
  "    content: |";
  "      PasswordAuthentication no";
  "      PermitRootLogin no";
  "      X11Forwarding no";
  "      MaxAuthTries 3";
  "";
  "runcmd:";
  "  - systemctl restart ssh || systemctl restart sshd";
  "  - ufw default deny incoming";
  "  - ufw default allow outgoing";
  "  - ufw allow 22/tcp";
  "  - ufw --force enable";
  "  - systemctl enable --now fail2ban"].

Definition preset_tailscale : Snippet := preset "preset-tailscale" "Tailscale Mesh VPN Node"
  "Installs Tailscale client and enables IPv4/IPv6 packet forwarding for exit nodes." "networking" [
  "#cloud-config";
  "# Tailscale Mesh VPN Node";
  "write_files:";
  "  - path: /etc/sysctl.d/99-tailscale.conf";
  "    content: |";
  "      net.ipv4.ip_forward = 1";
  "      net.ipv6.conf.all.forwarding = 1";
  "";
  "package_update: true";
  "packages:";
  "  - curl";
  "  - iptables";
  "";
  "runcmd:";
  "  - sysctl --system";
  "  - curl -fsSL https://tailscale.com/install.sh | sh";
  "  - systemctl enable --now tailscaled"].

Definition preset_wireguard : Snippet := preset "preset-wireguard" "WireGuard VPN Tools"
  "Installs WireGuard kernel tools and enables IP forwarding." "networking" [
  "#cloud-config";
  "# WireGuard VPN Core";
  "write_files:";
  "  - path: /etc/sysctl.d/99-wireguard.conf";
  "    content: |";
  "      net.ipv4.ip_forward=1";
  "      net.ipv6.conf.all.forwarding=1";
  "";
  "package_update: true";
  "packages:";
  "  - wireguard";
  "  - wireguard-tools";
  "  - resolvconf";
  "";
  "runcmd:";
  "  - sysctl --system"].

Definition preset_qemu_agent : Snippet := preset "preset-qemu-agent" "QEMU Guest Agent & Auto-Grow"
  "Ensures QEMU guest agent is running and disk partitions auto-expand to fill disk." "devops" [
  "#cloud-config";
  "# QEMU Guest Agent & Partition Growth";
  "package_update: true";
  "packages:";
  "  - qemu-guest-agent";
  "  - cloud-guest-utils";
  "  - cloud-initramfs-growpart";
  "";
  "growpart:";
  "  mode: auto";
  "  devices: ['/']";
  "  ignore_growroot_disabled: false";
  "";
  "runcmd:";
  "  - systemctl enable --now qemu-guest-agent"].

Definition preset_node_exporter : Snippet := preset "preset-node-exporter" "Prometheus Node Exporter"
  "Installs and enables Prometheus node_exporter metrics daemon on port 9100." "monitoring" [
  "#cloud-config";
  "# Prometheus Node Exporter Daemon";
  "package_update: true";
  "packages:";
  "  - prometheus-node-exporter";
  "";
  "runcmd:";
  "  - systemctl enable --now prometheus-node-exporter"].

Definition preset_beszel_agent : Snippet := preset "preset-beszel-agent" "Beszel Monitoring Agent"
  "Installs Beszel Agent for lightweight system resource metrics." "monitoring" [
  "#cloud-config";
  "# Beszel Monitoring Agent";
  "package_update: true";
  "packages:";
  "  - curl";
  "  - tar";
  "";
  "runcmd:";
  "  - curl -fsSL https://raw.githubusercontent.com/henrygd/beszel/main/supplemental/scripts/install-agent.sh | bash"].

Definition preset_cockpit : Snippet := preset "preset-cockpit" "Cockpit Linux Web Admin"
  "Installs Cockpit web-based graphical management console on port 9090." "web" [
  "#cloud-config";
  "# Cockpit Web Console";
  "package_update: true";
  "packages:";
  "  - cockpit";
  "  - cockpit-system";
  "";
  "runcmd:";
  "  - systemctl enable --now cockpit.socket"].

Definition preset_nginx : Snippet := preset "preset-nginx" "Nginx Web Server"
  "Installs Nginx HTTP/HTTPS server and enables default systemd service." "web" [
  "#cloud-config";
  "# Nginx Web Server Deployment";
  "package_update: true";
  "packages:";
  "  - nginx";
  "  - curl";
  "";
  "write_files:";
  "  - path: /var/www/html/index.html";
  "    content: |";
  "      <!DOCTYPE html>";
  "      <html>";
  "      <head><title>WebKVM Node {{ .VM.Hostname }}</title></head>";
  join_str dq ["      <body style="; "font-family:sans-serif;text-align:center;padding:50px;"; ">"];
  "        <h1>Welcome to {{ .VM.Hostname }}</h1>";
  "        <p>Provisioned automatically by WebKVM Cloud-Init Studio.</p>";
  "      </body>";
  "      </html>";
  "    permissions: '0644'";
  "";
  "runcmd:";
  "  - systemctl enable --now nginx"].

Definition preset_dev_tools : Snippet := preset "preset-dev-tools" "Developer Essentials"
  "Git, Build-essential, Htop, Tmux, Curl, Jq, and useful CLI utilities." "devops" [
  "#cloud-config";
  "# Developer Tools Essentials";
  "package_update: true";
  "packages:";
  "  - build-essential";
  "  - git";
  "  - curl";
  "  - wget";
  "  - htop";
  "  - tmux";
  "  - jq";
  "  - tree";
  "  - zsh"].

Definition preset_ansible : Snippet := preset "preset-ansible" "Ansible Automation Bootstrap"
  "Configures Python 3 environment and passwordless sudo for automation." "devops" [
  "#cloud-config";
  "# Ansible Bootstrap";
  "package_update: true";
  "packages:";
  "  - python3";
  "  - python3-pip";
  "  - python3-apt";
  "  - sudo";
  "";
  "write_files:";
  "  - path: /etc/sudoers.d/automation";
  join_str dq ["    content: "; "{{ .VM.User }} ALL=(ALL) NOPASSWD:ALL\n"; ""];
  join_str dq ["    permissions: "; "0440"; ""]].

Definition builtInPresets : list Snippet :=
  [preset_docker; preset_k3s; preset_k8s; preset_hardened; preset_tailscale; preset_wireguard; preset_qemu_agent; preset_node_exporter; preset_beszel_agent; preset_cockpit; preset_nginx; preset_dev_tools; preset_ansible].

(** ** The store *)

Inductive snip_error :=
| NameRequired | ContentRequired | IDExists (id : string) | NotFound | EditPreset | DeletePreset | SaveFailed.

Section Store.
Context {W : Type} `{!Persist (list Snippet) W}.
(** The order in which Go walks the map. *)
Context (walk : gmap string Snippet -> list Snippet).

Record Store := MkStore { snippets : gmap string Snippet; file : W }.

Definition put (m : gmap string Snippet) (sn : Snippet) : gmap string Snippet := <[snip_ID sn := sn]> m.

Definition load (w : W) (m : gmap string Snippet) : option (gmap string Snippet) :=
  match stored w with
  | None => Some m
  | Some Torn => None
  | Some (Whole custom) => Some (foldl (fun m sn => if IsPreset sn then m else put m sn) m custom)
  end.

(** [None]: the error, which leaves the server without a store. *)
Definition NewSnippetStore (w : W) : option Store :=
  m ← load w (foldl put ∅ builtInPresets); Some (MkStore m w).

Definition save (s : Store) : bool * Store :=
  let '(ok, w) := AtomicFile.save (List.filter (fun sn => negb (IsPreset sn)) (walk (snippets s))) (file s) in
  (ok, MkStore (snippets s) w).

Definition List_ (s : Store) : list Snippet := walk (snippets s).
Definition Get (id : string) (s : Store) : option Snippet := snippets s !! id.

Definition or_else (a b : string) : string := if empty a then b else a.

(** [now]: the clock, in nanoseconds. *)
Definition Create (now : Z) (sn : Snippet) (s : Store) : res snip_error Snippet * Store :=
  if empty (Name sn) then (Err NameRequired, s)
  else if empty (Content sn) then (Err ContentRequired, s)
  else
    let ty := or_else (snip_Type sn) "user-data" in
    let id := or_else (snip_ID sn) ("snip-" +:+ Itoa now) in
    match snippets s !! id with
    | Some _ => (Err (IDExists id), s)
    | None =>
        let sn := MkSnippet id (Name sn) (Description sn) (Category sn) ty (Content sn) false (Owner sn) now now in
        let '(ok, s) := save (MkStore (put (snippets s) sn) (file s)) in
        if ok then (Ok sn, s) else (Err SaveFailed, MkStore (delete id (snippets s)) (file s))
    end.

Definition Update (now : Z) (sn : Snippet) (s : Store) : res snip_error Snippet * Store :=
  match snippets s !! snip_ID sn with
  | None => (Err NotFound, s)
  | Some existing =>
      if IsPreset existing then (Err EditPreset, s) else
      let existing := MkSnippet (snip_ID existing) (or_else (Name sn) (Name existing))
        (or_else (Description sn) (Description existing)) (Category existing) (or_else (snip_Type sn) (snip_Type existing))
        (or_else (Content sn) (Content existing)) (IsPreset existing)
        (if empty (Owner existing) && negb (empty (Owner sn)) then Owner sn else Owner existing) (CreatedAt existing) now in
      let '(ok, s) := save (MkStore (<[snip_ID sn := existing]> (snippets s)) (file s)) in
      (if ok then Ok existing else Err SaveFailed, s)
  end.

Definition Delete (id : string) (s : Store) : option snip_error * Store :=
  match snippets s !! id with
  | None => (Some NotFound, s)
  | Some existing =>
      if IsPreset existing then (Some DeletePreset, s) else
      let '(ok, s) := save (MkStore (delete id (snippets s)) (file s)) in
      (if ok then None else Some SaveFailed, s)
  end.

(** ** The handlers *)

Inductive body := BSnippets (l : list Snippet) | BSnippet (sn : Snippet) | BDeleted | BPreview (user_data expanded : string)
| BError (msg : string) | BStoreError (e : snip_error).
Record reply := MkReply { status : Z; reply_body : body }.

Definition not_found : reply := MkReply 404 (BError "snippet not found").

Definition snippetReadable (sn : Snippet) (c : Caller) : bool :=
  IsPreset sn || empty (Owner sn) || String.eqb (cl_role c) RoleAdmin
  || (negb (empty (cl_user c)) && String.eqb (Owner sn) (cl_user c)).

Definition isSnippetOwnerOrAdmin (c : Caller) (owner : string) : bool :=
  if String.eqb (cl_role c) RoleAdmin then true else negb (empty (cl_user c)) && String.eqb (cl_user c) owner.

(** The handlers get [None] when there is no store, and the body of the request
    or its decoding error. *)
Definition ListCloudInitSnippets (c : Caller) (h : option Store) : reply :=
  match h with
  | None => MkReply 200 (BSnippets [])
  | Some s =>
      MkReply 200 (BSnippets (if String.eqb (cl_role c) RoleAdmin then List_ s
                              else List.filter (fun sn => snippetReadable sn c) (List_ s)))
  end.

Definition GetCloudInitSnippet (c : Caller) (id : string) (h : option Store) : reply :=
  match h with
  | None => MkReply 404 (BError "snippet store not initialized")
  | Some s =>
      match Get id s with
      | None => not_found
      | Some sn => if snippetReadable sn c then MkReply 200 (BSnippet sn) else not_found
      end
  end.

Definition no_store : reply := MkReply 500 (BError "snippet store not initialized").

Definition with_owner (sn : Snippet) (owner : string) : Snippet :=
  MkSnippet (snip_ID sn) (Name sn) (Description sn) (Category sn) (snip_Type sn) (Content sn) (IsPreset sn) owner
    (CreatedAt sn) (UpdatedAt sn).
Definition with_id (sn : Snippet) (id : string) : Snippet :=
  MkSnippet id (Name sn) (Description sn) (Category sn) (snip_Type sn) (Content sn) (IsPreset sn) (Owner sn)
    (CreatedAt sn) (UpdatedAt sn).

Definition CreateCloudInitSnippet (c : Caller) (now : Z) (req : res string Snippet) (h : option Store) : reply * option Store :=
  match h with
  | None => (no_store, h)
  | Some s =>
      match req with
      | Err e => (MkReply 400 (BError e), h)
      | Ok sn =>
          match Create now (with_owner sn (cl_user c)) s with
          | (Ok created, s) => (MkReply 201 (BSnippet created), Some s)
          | (Err e, s) => (MkReply 400 (BStoreError e), Some s)
          end
      end
  end.

Definition forbidden : reply := MkReply 403 (BError "forbidden: you do not own this snippet").
Definition not_owner (c : Caller) (sn : Snippet) : bool := negb (empty (Owner sn)) && negb (isSnippetOwnerOrAdmin c (Owner sn)).

Definition UpdateCloudInitSnippet (c : Caller) (now : Z) (id : string) (req : res string Snippet) (h : option Store)
    : reply * option Store :=
  match h with
  | None => (no_store, h)
  | Some s =>
      match Get id s with
      | None => (not_found, h)
      | Some existing =>
          if not_owner c existing then (forbidden, h) else
          match req with
          | Err e => (MkReply 400 (BError e), h)
          | Ok sn =>
              match Update now (with_owner (with_id sn id) (cl_user c)) s with
              | (Ok updated, s) => (MkReply 200 (BSnippet updated), Some s)
              | (Err e, s) => (MkReply 400 (BStoreError e), Some s)
              end
          end
      end
  end.

Definition DeleteCloudInitSnippet (c : Caller) (id : string) (h : option Store) : reply * option Store :=
  match h with
  | None => (no_store, h)
  | Some s =>
      match Get id s with
      | None => (not_found, h)
      | Some existing =>
          if not_owner c existing then (forbidden, h) else
          match Delete id s with
          | (None, s) => (MkReply 200 BDeleted, Some s)
          | (Some e, s) => (MkReply 400 (BStoreError e), Some s)
          end
      end
  end.

(** ** What a request resolves to *)

Record CloudInitRequest := MkRequest {
  rq_User : string; rq_Password : string; rq_SSHKey : string; rq_Hostname : string; rq_Networks : list NetworkConfig;
  rq_CustomUserData : string; rq_SnippetID : string; rq_SnippetIDs : list string; rq_ProvisionScript : string
}.

(** A reference to a snippet the caller may not read is dropped. *)
Definition readable (c : Caller) (s : Store) (id : string) : bool :=
  match Get id s with Some sn => snippetReadable sn c | None => false end.

Definition scrubSnippetRefs (c : Caller) (h : option Store) (id : string) (ids : list string) : string * list string :=
  match h with
  | None => (id, ids)
  | Some s => (if negb (empty id) && negb (readable c s id) then "" else id, List.filter (readable c s) ids)
  end.

Definition scrubCloudInitSnippets (c : Caller) (h : option Store) (req : CloudInitRequest) : CloudInitRequest :=
  let '(id, ids) := scrubSnippetRefs c h (rq_SnippetID req) (rq_SnippetIDs req) in
  MkRequest (rq_User req) (rq_Password req) (rq_SSHKey req) (rq_Hostname req) (rq_Networks req) (rq_CustomUserData req)
    id ids (rq_ProvisionScript req).

Definition contents (s : Store) (ids : list string) : list string :=
  omap (fun id => sn ← Get id s; if empty (Content sn) then None else Some (Content sn)) ids.

Section Template.
Context {T : Type} (Parse : string -> option T) (Execute : T -> TemplateVars -> option string).

Definition ExpandTemplate (content : string) (vars : TemplateVars) : res string string :=
  if empty content then Ok "" else
  match Parse content with
  | None => Err "template parse error"
  | Some t => match Execute t vars with Some s => Ok s | None => Err "template execution error" end
  end.

Definition guest_vars (user hostname ip : string) (extra : list (string * value)) : TemplateVars :=
  MkVars "" hostname user ip "" "" "" "" extra.

(** The custom user data of [applyCloudInit] and [buildCloudInitSeed]. *)
Definition custom_user_data (h : option Store) (req : CloudInitRequest) : string :=
  match h with
  | Some s =>
      if negb (empty (rq_CustomUserData req)) then rq_CustomUserData req else
      let parts := match rq_SnippetIDs req with
                   | [] => if empty (rq_SnippetID req) then [] else contents s [rq_SnippetID req]
                   | ids => contents s ids
                   end in
      match parts with
      | [] => rq_CustomUserData req
      | _ => let raw := join_str (String nl "") parts in
             match ExpandTemplate raw (guest_vars (trim_space (rq_User req)) (trim_space (rq_Hostname req)) "" []) with
             | Ok expanded => expanded
             | Err _ => raw
             end
      end
  | None => rq_CustomUserData req
  end.

Definition seed_config (h : option Store) (req : CloudInitRequest) (script suffix : string) : Config :=
  MkConfig (trim_space (rq_User req)) (rq_Password req) (trim_space (rq_SSHKey req)) (trim_space (rq_Hostname req))
    (rq_Networks req) (custom_user_data h req) (rq_SnippetID req) [] script false suffix.

(** The check that [CreateVM] and the template handler make before they create
    the machine. *)
Definition precheck (req : CloudInitRequest) : option cfg_error :=
  Validate (MkConfig (rq_User req) (rq_Password req) (rq_SSHKey req) (rq_Hostname req) [] (rq_CustomUserData req)
              (rq_SnippetID req) [] "" false "").

Record PreviewCloudInitRequest := MkPreview {
  pv_SnippetID : string; pv_SnippetIDs : list string; pv_CustomUserData : string; pv_User : string; pv_Password : string;
  pv_SSHKey : string; pv_Hostname : string; pv_IP : string; pv_Extra : list (string * value)
}.

Definition preview_content (h : option Store) (custom id : string) (ids : list string) : string :=
  match h with
  | Some s =>
      if negb (empty custom) then custom else
      match ids with
      | [] => if empty id then custom else match Get id s with Some sn => Content sn | None => custom end
      | ids => join_str (String nl "") (contents s ids)
      end
  | None => custom
  end.

Definition PreviewCloudInit (crypt : string -> string) (c : Caller) (body : res string PreviewCloudInitRequest)
    (h : option Store) : reply :=
  match body with
  | Err e => MkReply 400 (BError e)
  | Ok req =>
      let '(id, ids) := scrubSnippetRefs c h (pv_SnippetID req) (pv_SnippetIDs req) in
      match ExpandTemplate (preview_content h (pv_CustomUserData req) id ids)
              (guest_vars (pv_User req) (pv_Hostname req) (pv_IP req) (pv_Extra req)) with
      | Err e => MkReply 400 (BError ("template expansion error: " +:+ e))
      | Ok expanded =>
          MkReply 200 (BPreview
            (buildUserData crypt (MkConfig (pv_User req) (pv_Password req) (pv_SSHKey req) (pv_Hostname req) [] expanded
                                    "" [] "" false "")) expanded)
      end
  end.
End Template.
End Store.

(** ** The seed of a machine *)

Definition filename_char (c : ascii) : bool := is_alpha c || is_digit c || one_of ["-"; "_"; "."]%char c.
Definition sanitizeFilename (s : string) : string :=
  if empty s then "vm" else map_str (fun c => if filename_char c then c else "-"%char) s.
Definition cloudInitSeedName (vmName : string) : string := "seed-" +:+ sanitizeFilename vmName +:+ ".iso".
Definition cloudinitDir (dataDir : string) : string := GoPath.Join [dataDir; "cloudinit"].
Definition seed_path (dataDir vmName : string) : string := GoPath.Join [cloudinitDir dataDir; cloudInitSeedName vmName].

Record DiskInfo := MkDiskInfo { Device : string; Source : string; Target : string }.
#[export] Instance DiskInfo_eq_dec : EqDecision DiskInfo.
Proof. solve_decision. Defined.

Definition is_seed (vmName : string) (d : DiskInfo) : bool :=
  String.eqb (Device d) "cdrom" && String.eqb (Base (Source d)) (cloudInitSeedName vmName).
Definition findCloudInitCdrom (disks : list DiskInfo) (vmName : string) : option DiskInfo :=
  List.find (is_seed vmName) disks.

(** The images in the directory of seeds, by path, and the disks of the machine. *)
Record host := MkHost { seeds : gmap string (gmap string string * Z); vm_disks : list DiskInfo }.

Inductive seed_error := SeedBuild (e : iso_error) | SeedDir | AttachFailed.

(** What the system answers: the calls that build the image, the creation of the
    directory of seeds, the device a disk is attached at (none: an error), the
    swap of a source, and the command in the guest. *)
Record environment := MkEnv {
  building : outcomes; dir_ok : bool; attached_at : option string; swap_ok : bool; guest_ok : bool
}.

Section Seeds.
Context (crypt : string -> string) (walk_files : gmap string string -> list (string * string)) (dataDir : string).

(** The checks, the directory and the image. *)
Definition build_seed (env : environment) (path : string) (cfg : Config) (h : host) : option seed_error * host :=
  match Validate cfg with
  | Some e => (Some (SeedBuild (InvalidConfig e)), h)
  | None =>
      if negb (dir_ok env) then (Some SeedDir, h) else
      let '(e, d) := BuildNoCloudISO crypt walk_files (building env) cfg (MkDisk None (seeds h !! path)) in
      (SeedBuild <$> e, MkHost (partial_alter (fun _ => iso d) path (seeds h)) (vm_disks h))
  end.

Definition AttachDisk (env : environment) (path : string) (h : host) : bool * host :=
  match attached_at env with
  | Some target => (true, MkHost (seeds h) (vm_disks h ++ [MkDiskInfo "cdrom" path target]))
  | None => (false, h)
  end.

Definition remove_seed (path : string) (h : host) : host := MkHost (delete path (seeds h)) (vm_disks h).

Definition applyCloudInit (env : environment) (vmName : string) (cfg : option Config) (h : host) : option seed_error * host :=
  match cfg with
  | None => (None, h)
  | Some cfg =>
      let path := seed_path dataDir vmName in
      match build_seed env path cfg h with
      | (Some e, h) => (Some e, h)
      | (None, h) => let '(ok, h) := AttachDisk env path h in
                     if ok then (None, h) else (Some AttachFailed, remove_seed path h)
      end
  end.

(** [UpdateDiskSource] of the disk at [target]. *)
Definition swap_source (target path : string) (disks : list DiskInfo) : list DiskInfo :=
  map (fun d => if String.eqb (Target d) target then MkDiskInfo (Device d) path (Target d) else d) disks.
Definition UpdateDiskSource (env : environment) (target path : string) (h : host) : bool * host :=
  if swap_ok env then (true, MkHost (seeds h) (swap_source target path (vm_disks h))) else (false, h).

Inductive reapply_result := ReapplyError (code : Z) (e : seed_error) | NotImplemented | Reapplied (reprovisioned : bool).

Record VM := MkVM { vmName : string; incus : bool; running : bool }.

(** [cfg] has the time as its suffix. *)
Definition ReapplyCloudInit (env : environment) (vm : VM) (cfg : Config) (h : host) : reapply_result * host :=
  if incus vm then (NotImplemented, h) else
  let path := seed_path dataDir (vmName vm) in
  match build_seed env path cfg h with
  | (Some e, h) => (ReapplyError 400 e, h)
  | (None, h) =>
      let '(ok, h) := match findCloudInitCdrom (vm_disks h) (vmName vm) with
                      | Some existing => UpdateDiskSource env (Target existing) path h
                      | None => AttachDisk env path h
                      end in
      if ok then (Reapplied (running vm && guest_ok env), h) else (ReapplyError 500 AttachFailed, remove_seed path h)
  end.
End Seeds.

Record CloudInitStatusResponse := MkStatus { HasSeedISO : bool; CdromDev : string; ci_User : string; Supported : bool }.
(** [meta]: the user name in the machine's metadata, if they can be read. *)
Definition GetCloudInitStatus (vm : VM) (disks : list DiskInfo) (meta : option string) : CloudInitStatusResponse :=
  if incus vm then MkStatus false "" "" false else
  let cd := findCloudInitCdrom disks (vmName vm) in
  MkStatus (match cd with Some _ => true | None => false end) (match cd with Some d => Target d | None => "" end)
    (default "" meta) true.
