(* ===== verification/SnippetFacts.v ===== *)
(** * SnippetFacts: what the snippets of others are safe from *)

From S2P Require Export Snippets CloudInitFacts.
Open Scope Z_scope.

(** ** The store *)

Section StoreFacts.
Context {W : Type} `{!Persist (list Snippet) W} (walk : gmap string Snippet -> list Snippet).
Context (Hwalk : forall m, walk m ≡ₚ map snd (map_to_list m)).
Abbreviation store := (Store (W := W)).

Definition presets : gmap string Snippet := foldl put ∅ builtInPresets.

(** The map is keyed by identifier, and its presets are the built-in ones. *)
Record sound (m : gmap string Snippet) : Prop := {
  so_key : forall k sn, m !! k = Some sn -> snip_ID sn = k;
  so_presets : forall k sn, presets !! k = Some sn -> m !! k = Some sn;
  so_custom : forall k sn, m !! k = Some sn -> IsPreset sn = true -> presets !! k = Some sn
}.

Lemma presets_list : Forall (fun sn => IsPreset sn = true) builtInPresets.
Proof. repeat constructor. Qed.

Lemma foldl_put_in l : forall m k sn, foldl put m l !! k = Some sn -> m !! k = Some sn \/ (sn ∈ l /\ snip_ID sn = k).
Proof.
  induction l as [|a l IH]; intros m k sn H; simpl in *; [by left|].
  apply IH in H as [H|[H E]]; [|right; split; [by right|done]].
  unfold put in H. apply lookup_insert_Some in H as [[<- <-]|[_ H]]; [right; split; [by left|done]|by left].
Qed.

Lemma presets_preset k sn : presets !! k = Some sn -> IsPreset sn = true /\ snip_ID sn = k.
Proof.
  intros H. apply foldl_put_in in H as [H|[H E]]; [by rewrite lookup_empty in H|]. split; [|done].
  by apply (proj1 (Forall_forall _ _) presets_list).
Qed.

Lemma foldl_put_other l : forall m k, k ∉ map snip_ID l -> foldl put m l !! k = m !! k.
Proof.
  induction l as [|a l IH]; intros m k H; simpl in *; [done|]. apply not_elem_of_cons in H as [H1 H2].
  rewrite IH by done. by apply lookup_insert_ne.
Qed.

Lemma foldl_put_of l : forall m sn, NoDup (map snip_ID l) -> sn ∈ l -> foldl put m l !! snip_ID sn = Some sn.
Proof.
  induction l as [|a l IH]; intros m sn Hn Hin; simpl in *; [by apply elem_of_nil in Hin|].
  apply NoDup_cons in Hn as [Ha Hn]. apply elem_of_cons in Hin as [->|Hin]; [|by apply IH].
  rewrite foldl_put_other by done. apply lookup_insert_eq.
Qed.

Definition customs (m : gmap string Snippet) : list Snippet := List.filter (fun sn => negb (IsPreset sn)) (walk m).

Lemma elem_of_snippets m sn : sound m -> sn ∈ walk m <-> m !! snip_ID sn = Some sn.
Proof.
  intros Hm. rewrite (Hwalk m), list_elem_of_fmap. split.
  - intros ([k v] & -> & H). apply elem_of_map_to_list in H. simpl. by rewrite (so_key m Hm k v H).
  - intros H. exists (snip_ID sn, sn). split; [done|]. by apply elem_of_map_to_list.
Qed.

Lemma elem_of_customs m sn : sound m -> sn ∈ customs m <-> m !! snip_ID sn = Some sn /\ IsPreset sn = false.
Proof.
  intros Hm. unfold customs. rewrite list_elem_of_In, filter_In, <- list_elem_of_In, elem_of_snippets by done.
  by rewrite negb_true_iff.
Qed.

Lemma customs_ids m : sound m -> NoDup (map snip_ID (customs m)).
Proof.
  intros Hm. assert (NoDup (map snip_ID (walk m))) as H.
  { rewrite (Permutation_map snip_ID (Hwalk m)), map_map.
    replace (map _ (map_to_list m)) with (map fst (map_to_list m)); [apply NoDup_fst_map_to_list|].
    apply map_ext_in. intros [k v] Hin. apply list_elem_of_In, elem_of_map_to_list in Hin. simpl. symmetry. by apply (so_key m Hm). }
  unfold customs. induction (walk m) as [|a l IH]; simpl; [constructor|].
  simpl in H. apply NoDup_cons in H as [Ha H]. destruct (IsPreset a); simpl; [by apply IH|].
  apply NoDup_cons. split; [|by apply IH]. intros Hin. apply Ha.
  apply list_elem_of_fmap in Hin as (y & E & Hy). rewrite E. apply list_elem_of_fmap_2.
  rewrite list_elem_of_In, filter_In, <- list_elem_of_In in Hy. apply Hy.
Qed.

Lemma load_fold l : forall m, foldl (fun m sn => if IsPreset sn then m else put m sn) m l
  = foldl put m (List.filter (fun sn => negb (IsPreset sn)) l).
Proof. induction l as [|a l IH]; intros m; simpl; [done|]. rewrite IH. by destruct (IsPreset a). Qed.

Lemma customs_custom m : List.filter (fun sn => negb (IsPreset sn)) (customs m) = customs m.
Proof.
  unfold customs. induction (walk m) as [|a l IH]; simpl; [done|].
  destruct (IsPreset a) eqn:E; simpl; [done|]. by rewrite E, IH.
Qed.

(** What a save writes is what a start reads. *)
Lemma load_customs (w : W) m : sound m -> stored w = Some (Whole (customs m)) -> load w presets = Some m.
Proof.
  intros Hm Hw. unfold load. rewrite Hw, load_fold, customs_custom. f_equal. apply map_eq. intros k.
  destruct (m !! k) as [sn|] eqn:E.
  - pose proof (so_key m Hm k sn E) as <-. destruct (IsPreset sn) eqn:Ep.
    + rewrite foldl_put_other; [by apply (so_custom m Hm)|]. intros H.
      apply list_elem_of_fmap in H as (y & Ek & Hy). apply elem_of_customs in Hy as [Hy Hc]; [|done].
      rewrite <- Ek in Hy. congruence.
    + apply foldl_put_of; [by apply customs_ids|]. by apply elem_of_customs.
  - rewrite foldl_put_other.
    + destruct (presets !! k) as [p|] eqn:Ep; [|done]. apply (so_presets m Hm) in Ep. congruence.
    + intros H. apply list_elem_of_fmap in H as (y & -> & Hy). apply elem_of_customs in Hy as [Hy _]; [congruence|done].
Qed.

Lemma sound_insert m sn : sound m -> presets !! snip_ID sn = None -> IsPreset sn = false -> sound (<[snip_ID sn := sn]> m).
Proof.
  intros Hm Hp Hs. split.
  - intros k v H. apply lookup_insert_Some in H as [[<- <-]|[_ H]]; [done|by apply (so_key m Hm)].
  - intros k v H. rewrite lookup_insert_ne by congruence. by apply (so_presets m Hm).
  - intros k v H Hv. apply lookup_insert_Some in H as [[<- <-]|[_ H]]; [congruence|by apply (so_custom m Hm)].
Qed.

Lemma sound_delete m k : sound m -> presets !! k = None -> sound (delete k m).
Proof.
  intros Hm Hp. split.
  - intros i v H. apply lookup_delete_Some in H as [_ H]. by apply (so_key m Hm).
  - intros i v H. rewrite lookup_delete_ne by congruence. by apply (so_presets m Hm).
  - intros i v H Hv. apply lookup_delete_Some in H as [_ H]. by apply (so_custom m Hm).
Qed.

Lemma not_preset m k sn : sound m -> m !! k = Some sn -> IsPreset sn = false -> presets !! k = None.
Proof.
  intros Hm H Hs. destruct (presets !! k) as [p|] eqn:E; [|done]. pose proof (so_presets m Hm k p E).
  apply presets_preset in E as [E _]. congruence.
Qed.

Lemma not_preset_or_new m k : sound m ->
  (m !! k = None \/ exists old, m !! k = Some old /\ IsPreset old = false) -> presets !! k = None.
Proof.
  intros Hm [H|(old & H & Ho)]; [|by eapply not_preset]. destruct (presets !! k) eqn:E; [|done].
  apply (so_presets m Hm) in E. congruence.
Qed.

(** Memory and file agree. *)
Definition settled (s : store) : Prop := sound (snippets s) /\ load (file s) presets = Some (snippets s).

Lemma save_settled m w ok (s : store) :
  sound m -> save walk (MkStore m w) = (ok, s) -> snippets s = m /\ (ok = true -> settled s).
Proof.
  intros Hm H. unfold save in H. destruct (AtomicFile.save _ _) as [ok' w'] eqn:E. injection H as <- <-. split; [done|].
  intros ->. split; [done|]. cbn in *. apply load_customs; [done|]. exact (save_true _ _ _ E).
Qed.

(** ** Requests *)

Inductive request :=
| RCreate (c : Caller) (now : Z) (body : res string Snippet)
| RUpdate (c : Caller) (now : Z) (id : string) (body : res string Snippet)
| RDelete (c : Caller) (id : string).

Definition caller (r : request) : Caller := match r with RCreate c _ _ | RUpdate c _ _ _ | RDelete c _ => c end.

Definition answer (r : request) (h : option store) : reply * option store :=
  match r with
  | RCreate c now body => CreateCloudInitSnippet walk c now body h
  | RUpdate c now id body => UpdateCloudInitSnippet walk c now id body h
  | RDelete c id => DeleteCloudInitSnippet walk c id h
  end.

Definition write_failed (r : reply) : bool := match reply_body r with BStoreError SaveFailed => true | _ => false end.

Fixpoint all_saved (rs : list request) (h : option store) : bool :=
  match rs with [] => true | r :: rs => negb (write_failed (answer r h).1) && all_saved rs (answer r h).2 end.

Definition after (rs : list request) (h : option store) : option store := foldl (fun h r => (answer r h).2) h rs.

(** How a store operation ends: nothing happened; or one entry changed, and the
    map was written. *)
Inductive effect (s : store) : bool -> store -> Prop :=
| eff_none ok : effect s ok s
| eff_undone (s' : store) : snippets s' = snippets s -> effect s false s'
| eff_put sn ok (s' : store) :
    (snippets s !! snip_ID sn = None \/ exists old, snippets s !! snip_ID sn = Some old /\ IsPreset old = false) ->
    IsPreset sn = false -> save walk (MkStore (<[snip_ID sn := sn]> (snippets s)) (file s)) = (ok, s') -> effect s ok s'
| eff_delete id old ok (s' : store) :
    snippets s !! id = Some old -> IsPreset old = false ->
    save walk (MkStore (delete id (snippets s)) (file s)) = (ok, s') -> effect s ok s'.

Lemma Create_snippet_effect now sn (s : store) :
  let '(r, s') := Create walk now sn s in effect s (match r with Err SaveFailed => false | _ => true end) s' /\
    forall id x, snippets s !! id = Some x -> snippets s' !! id = Some x.
Proof.
  unfold Create. destruct (empty _); [by split; [apply eff_none|]|]. destruct (empty _); [by split; [apply eff_none|]|].
  destruct (snippets s !! _) eqn:E; [by split; [apply eff_none|]|]. unfold put. cbn [snip_ID].
  set (new := MkSnippet _ _ _ _ _ _ _ _ _ _). destruct (save _ _) as [ok s'] eqn:Es.
  assert (forall id x, snippets s !! id = Some x -> id <> snip_ID new) as Hne by (intros id x H ->; change (snippets s !! snip_ID new = None) in E; by rewrite H in E).
  assert (snippets s' = <[snip_ID new := new]> (snippets s)) as Em.
  { unfold save in Es. destruct (AtomicFile.save _ _). by injection Es as _ <-. }
  destruct ok.
  - split; [eapply (eff_put s new); [by left|done|exact Es]|]. intros id x H. rewrite Em, lookup_insert_ne; [done|].
    by apply not_eq_sym, (Hne id x).
  - cbn [snippets]. rewrite Em. unfold new at 1 3. cbn [snip_ID]. rewrite delete_insert_id by done.
    split; [by apply eff_undone|done].
Qed.

Lemma Update_snippet_effect now sn (s : store) : sound (snippets s) ->
  let '(r, s') := Update walk now sn s in effect s (match r with Err SaveFailed => false | _ => true end) s' /\
    forall id x, snippets s !! id = Some x -> id <> snip_ID sn \/ IsPreset x = true -> snippets s' !! id = Some x.
Proof.
  intros Hs. unfold Update. destruct (snippets s !! snip_ID sn) as [old|] eqn:E; [|by split; [apply eff_none|]].
  destruct (IsPreset old) eqn:Ep; [by split; [apply eff_none|]|]. pose proof (so_key _ Hs _ _ E) as Hk.
  set (new := MkSnippet _ _ _ _ _ _ _ _ _ _). assert (snip_ID sn = snip_ID new) as Hn by done. rewrite Hn.
  destruct (save _ _) as [ok s'] eqn:Es.
  assert (snippets s' = <[snip_ID new := new]> (snippets s)) as Em.
  { unfold save in Es. destruct (AtomicFile.save _ _). by injection Es as _ <-. }
  split.
  - replace (match (if ok then _ else _) with Ok _ => true | Err e => _ end) with ok by by destruct ok.
    apply (eff_put s new); [right; exists old; split; [by rewrite <- Hn|done]|done|done].
  - intros id x H Hx. rewrite Em, lookup_insert_ne; [done|]. intros <-. rewrite <- Hn in H, Hx. destruct Hx as [?|?]; [done|congruence].
Qed.

Lemma Delete_snippet_effect id (s : store) :
  let '(r, s') := Snippets.Delete walk id s in effect s (match r with Some SaveFailed => false | _ => true end) s' /\
    forall k x, snippets s !! k = Some x -> k <> id \/ IsPreset x = true -> snippets s' !! k = Some x.
Proof.
  unfold Snippets.Delete. destruct (snippets s !! id) as [old|] eqn:E; [|by split; [apply eff_none|]].
  destruct (IsPreset old) eqn:Ep; [by split; [apply eff_none|]|]. destruct (save _ _) as [ok s'] eqn:Es.
  assert (snippets s' = delete id (snippets s)) as Em.
  { unfold save in Es. destruct (AtomicFile.save _ _). by injection Es as _ <-. }
  split.
  - replace (match (if ok then _ else _) with Some _ => _ | None => true end) with ok by by destruct ok.
    by apply (eff_delete s id old).
  - intros k x H Hx. rewrite Em, lookup_delete_ne; [done|]. intros <-. destruct Hx; congruence.
Qed.

Lemma effect_sound (s s' : store) ok : sound (snippets s) -> effect s ok s' -> sound (snippets s').
Proof.
  intros Hs [?|s1 E|new ok1 s1 Hold Hc Es|id old ok1 s1 Hid Hc Es]; [done|by rewrite E|..].
  - apply save_settled in Es as [-> _]; apply sound_insert; eauto using not_preset_or_new.
  - apply save_settled in Es as [-> _]; apply sound_delete; eauto using not_preset.
Qed.

Lemma effect_settled (s s' : store) : settled s -> effect s true s' -> settled s'.
Proof.
  intros [Hs Hf] He. pose proof (effect_sound s s' true Hs He) as Hs'. inversion He as [?|?|sn ok s'' Hold Hc Es|id old ok s'' Hid Hc Es]; subst.
  - by split.
  - pose proof Es as Es'. unfold save in Es'. destruct (AtomicFile.save _ _) as [ok w]. injection Es' as -> <-. cbn in *.
    by apply (save_settled _ _ _ _ Hs' Es).
  - pose proof Es as Es'. unfold save in Es'. destruct (AtomicFile.save _ _) as [ok w]. injection Es' as -> <-. cbn in *.
    by apply (save_settled _ _ _ _ Hs' Es).
Qed.

(** A snippet that no request of this caller may change. *)
Definition protected (c : Caller) (sn : Snippet) : bool := IsPreset sn || not_owner c sn.

Lemma answer_effect r (s : store) : sound (snippets s) ->
  exists rep s', answer r (Some s) = (rep, Some s') /\ effect s (negb (write_failed rep)) s' /\
    forall id sn, snippets s !! id = Some sn -> protected (caller r) sn = true -> snippets s' !! id = Some sn.
Proof.
  intros Hs. destruct r as [c now b|c now id b|c id]; simpl.
  - destruct b as [sn|e]; [|by eexists _, s; split_and!; [done|apply eff_none|]].
    pose proof (Create_snippet_effect now (with_owner sn (cl_user c)) s) as H. destruct (Create _ _ _ _) as [[x|e] s'], H as [He Hk];
      (eexists _, s'; split_and!; [done| |by eauto]); [done|by destruct e].
  - unfold Get. destruct (snippets s !! id) as [old|] eqn:E; [|by eexists _, s; split_and!; [done|apply eff_none|]].
    destruct (not_owner c old) eqn:En; [by eexists _, s; split_and!; [done|apply eff_none|]|].
    destruct b as [sn|e]; [|by eexists _, s; split_and!; [done|apply eff_none|]].
    pose proof (Update_snippet_effect now (with_owner (with_id sn id) (cl_user c)) s Hs) as H.
    assert (forall k x, snippets s !! k = Some x -> protected c x = true -> k <> id \/ IsPreset x = true) as Hp.
    { intros k x Hx Hpx. destruct (decide (k = id)) as [->|]; [right|by left]. rewrite E in Hx. injection Hx as <-.
      unfold protected in Hpx. rewrite En, orb_false_r in Hpx. done. }
    destruct (Update _ _ _ _) as [[x|e] s'], H as [He Hk];
      (eexists _, s'; split_and!; [done| |by eauto]); [done|by destruct e].
  - unfold Get. destruct (snippets s !! id) as [old|] eqn:E; [|by eexists _, s; split_and!; [done|apply eff_none|]].
    destruct (not_owner c old) eqn:En; [by eexists _, s; split_and!; [done|apply eff_none|]|].
    pose proof (Delete_snippet_effect id s) as H.
    assert (forall k x, snippets s !! k = Some x -> protected c x = true -> k <> id \/ IsPreset x = true) as Hp.
    { intros k x Hx Hpx. destruct (decide (k = id)) as [->|]; [right|by left]. rewrite E in Hx. injection Hx as <-.
      unfold protected in Hpx. rewrite En, orb_false_r in Hpx. done. }
    destruct (Snippets.Delete _ _ _) as [[e|] s'], H as [He Hk];
      (eexists _, s'; split_and!; [done| |by eauto]); [by destruct e|done].
Qed.

(** The file names no preset's identifier for a snippet of its own. *)
Definition no_shadow (w : W) : Prop :=
  match stored w with
  | Some (Whole l) => Forall (fun sn => IsPreset sn = true \/ presets !! snip_ID sn = None) l
  | _ => True
  end.

Lemma presets_sound : sound presets.
Proof. split; [|done..]. intros k sn H. by apply presets_preset in H as [_ H]. Qed.

Lemma start_settled (w : W) (s : store) : no_shadow w -> NewSnippetStore w = Some s -> settled s.
Proof.
  intros Hw H. unfold NewSnippetStore in H. fold presets in H.
  destruct (load w presets) as [m|] eqn:E; [|done]. injection H as <-. split; [|done]. cbn.
  unfold load, no_shadow in *. destruct (stored w) as [[l|]|]; [|done|injection E as <-; apply presets_sound].
  injection E as <-. pose proof presets_sound as H. revert H.
  generalize presets at 1 2. induction Hw as [|a l Ha Hl IH]; intros m Hm; simpl; [done|].
  apply IH. destruct (IsPreset a) eqn:Ea; [done|]. destruct Ha as [Ha|Ha]; [congruence|]. by apply sound_insert.
Qed.

Lemma after_settled rs : forall s : store, settled s -> all_saved rs (Some s) = true ->
  exists s', after rs (Some s) = Some s' /\ settled s'.
Proof.
  induction rs as [|r rs IH]; intros s Hs; [by exists s|]. simpl.
  destruct (answer_effect r s (proj1 Hs)) as (rep & s' & -> & He & _). simpl. intros [Hq Ha]%andb_prop. apply IH; [|done].
  rewrite Hq in He. by apply (effect_settled s).
Qed.

(** No snippet is lost or brought back by a restart.  From a start on any
    file that does not redefine a preset, after any requests by anyone whose
    writes succeeded, a restart finds exactly the snippets that were in memory,
    and every preset is there as the program defines it. *)
Theorem snippets_survive_restart (w : W) (s0 : store) rs :
  no_shadow w -> NewSnippetStore w = Some s0 -> all_saved rs (Some s0) = true ->
  exists s, after rs (Some s0) = Some s /\ snippets <$> NewSnippetStore (file s) = Some (snippets s) /\
    forall p, p ∈ builtInPresets -> Get (snip_ID p) s = Some p.
Proof.
  intros Hw H0 Ha. destruct (after_settled rs s0 (start_settled w s0 Hw H0) Ha) as (s & -> & Hs & Hf).
  exists s. split_and!; [done| |].
  - unfold NewSnippetStore. fold presets. by rewrite Hf.
  - intros p Hp. apply (so_presets _ Hs). apply foldl_put_of; [|done].
    vm_compute. repeat (constructor; [intros H; repeat (apply elem_of_cons in H as [H|H]; [discriminate|]); by apply elem_of_nil in H|]).
    constructor.
Qed.

(** What a caller may not write stays as it is.  A preset, and a snippet with
    an owner, is the same after any requests by callers that are neither its
    owner nor an administrator, whether or not their writes succeed. *)
Theorem snippets_protected (s : store) id sn rs :
  sound (snippets s) -> Get id s = Some sn -> Forall (fun r => protected (caller r) sn = true) rs ->
  exists s', after rs (Some s) = Some s' /\ Get id s' = Some sn.
Proof.
  intros Hs Hg Hr. revert s Hs Hg. induction Hr as [|r rs Hr _ IH]; intros s Hs Hg; [by exists s|]. simpl.
  destruct (answer_effect r s Hs) as (rep & s' & -> & He & Hk). apply IH; [by apply (effect_sound s s' _ Hs He)|].
  by apply Hk.
Qed.

(** ** What a caller can learn *)

Definition visible (c : Caller) (s : store) : gmap string Snippet := filter (fun kv => snippetReadable kv.2 c = true) (snippets s).

Lemma visible_Get c (s : store) id sn : visible c s !! id = Some sn <-> Get id s = Some sn /\ snippetReadable sn c = true.
Proof. unfold visible. by rewrite map_lookup_filter_Some. Qed.

Lemma readable_visible c (s : store) id : readable c s id = true <-> is_Some (visible c s !! id).
Proof.
  unfold readable, is_Some. setoid_rewrite visible_Get. destruct (Get id s) as [sn|]; split; [eauto| |done|]; intros (x & [= <-] & ?) || (intros (x & ? & ?)); done.
Qed.

Lemma filter_perm {A} (f : A -> bool) l1 l2 : l1 ≡ₚ l2 -> List.filter f l1 ≡ₚ List.filter f l2.
Proof.
  induction 1 as [|a l l' _ IH|a b l|l l' l'' _ IH1 _ IH2]; simpl; [done|by destruct (f a); rewrite ?IH| |by rewrite IH1].
  destruct (f a), (f b); try done. apply perm_swap.
Qed.

Lemma readable_list c (s : store) :
  List.filter (fun sn => snippetReadable sn c) (List_ walk s) ≡ₚ map snd (map_to_list (visible c s)).
Proof.
  unfold List_, visible. rewrite (filter_perm _ _ _ (Hwalk (snippets s))), map_filter_alt, map_to_list_to_map.
  - match goal with |- ?a ≡ₚ ?b => replace b with a; [done|] end. induction (map_to_list (snippets s)) as [|[k v] l IH]; [done|]. cbn [map List.filter snd].
    destruct (snippetReadable v c) eqn:E; [rewrite filter_cons_True by done|rewrite filter_cons_False by (simpl; congruence)];
      by rewrite IH.
  - eapply sublist_NoDup; [apply (NoDup_fst_map_to_list (snippets s))|]. apply fmap_sublist, sublist_filter.
Qed.
Context {T : Type} (Parse : string -> option T) (Execute : T -> TemplateVars -> option string) (crypt : string -> string).

Section SameView.
Context (c : Caller) (s1 s2 : store) (Hview : visible c s1 = visible c s2).

Lemma readable_same id : readable c s1 id = readable c s2 id.
Proof. apply eq_true_iff_eq. by rewrite !readable_visible, Hview. Qed.

Lemma scrub_same id ids : scrubSnippetRefs c (Some s1) id ids = scrubSnippetRefs c (Some s2) id ids.
Proof. simpl. rewrite readable_same. f_equal. apply filter_ext. apply readable_same. Qed.

Lemma Get_same id : readable c s1 id = true -> Get id s1 = Get id s2.
Proof.
  intros [sn Hsn]%readable_visible. pose proof Hsn as H. rewrite Hview in H.
  apply visible_Get in Hsn as [-> _], H as [-> _]. done.
Qed.

Lemma contents_same ids : contents s1 (List.filter (readable c s1) ids) = contents s2 (List.filter (readable c s1) ids).
Proof.
  apply list_omap_ext, Forall_Forall2_diag, Forall_forall. intros id.
  rewrite list_elem_of_In, filter_In. intros [_ H]. by rewrite Get_same.
Qed.

Lemma scrub_readable id ids id' ids' : scrubSnippetRefs c (Some s1) id ids = (id', ids') ->
  (empty id' = true \/ readable c s1 id' = true) /\ ids' = List.filter (readable c s1) ids.
Proof.
  unfold scrubSnippetRefs. intros [= <- <-]. split; [|done].
  destruct (empty id) eqn:E; [by left|]. destruct (readable c s1 id) eqn:Er; simpl; [by right|by left].
Qed.

Lemma contents_one id : readable c s1 id = true -> contents s1 [id] = contents s2 [id].
Proof. intros H. unfold contents. simpl. by rewrite Get_same. Qed.

Lemma preview_same custom id ids id' ids' : scrubSnippetRefs c (Some s1) id ids = (id', ids') ->
  preview_content (Some s1) custom id' ids' = preview_content (Some s2) custom id' ids'.
Proof.
  intros [Hid ->]%scrub_readable. unfold preview_content. rewrite contents_same. destruct (empty id') eqn:E; [done|].
  destruct Hid as [|Hid]; [congruence|]. by rewrite Get_same.
Qed.
End SameView.

(** C15: The snippets of others stay secret.  Two stores that agree on what a
    caller may read, and differ in anything else, answer every listing (up to the
    order of a map), every lookup and every preview alike, and turn every request
    into the same user data. *)
Theorem snippets_confidential c (s1 s2 : store) :
  visible c s1 = visible c s2 ->
  (exists l1 l2, ListCloudInitSnippets walk c (Some s1) = MkReply 200 (BSnippets l1) /\
     ListCloudInitSnippets walk c (Some s2) = MkReply 200 (BSnippets l2) /\ l1 ≡ₚ l2) /\
  (forall id, GetCloudInitSnippet c id (Some s1) = GetCloudInitSnippet c id (Some s2)) /\
  (forall body, PreviewCloudInit Parse Execute crypt c body (Some s1) = PreviewCloudInit Parse Execute crypt c body (Some s2)) /\
  (forall req, custom_user_data Parse Execute (Some s1) (scrubCloudInitSnippets c (Some s1) req) =
               custom_user_data Parse Execute (Some s2) (scrubCloudInitSnippets c (Some s2) req)).
Proof.
  intros Hview. split_and!.
  - unfold ListCloudInitSnippets. destruct (String.eqb (cl_role c) RoleAdmin) eqn:Ea; (eexists _, _; split_and!; [done..|]).
    + assert (forall s : store, List_ walk s ≡ₚ map snd (map_to_list (visible c s))) as H by (intros s; rewrite <- readable_list;
        replace (List.filter _ _) with (List_ walk s); [done|]; induction (List_ walk s) as [|a l IH]; [done|]; simpl;
        unfold snippetReadable at 1; rewrite Ea, !orb_true_r; simpl; by f_equal).
      by rewrite !H, Hview.
    + by rewrite !readable_list, Hview.
  - intros id. unfold GetCloudInitSnippet. pose proof (visible_Get c s1 id) as H1. pose proof (visible_Get c s2 id) as H2.
    rewrite Hview in H1. destruct (Get id s1) as [x1|], (Get id s2) as [x2|]; try destruct (snippetReadable x1 c) eqn:E1;
      try destruct (snippetReadable x2 c) eqn:E2; try done.
    all: try (pose proof (proj2 (H1 x1) (conj eq_refl E1)) as H; apply H2 in H as [[= <-] ?]; congruence).
    all: try (pose proof (proj2 (H2 x2) (conj eq_refl E2)) as H; apply H1 in H as [[= <-] ?]; congruence).
  - intros [req|e]; [|done]. unfold PreviewCloudInit. rewrite <- (scrub_same c s1 s2 Hview).
    destruct (scrubSnippetRefs _ _ _ _) as [id ids] eqn:E. by rewrite (preview_same c s1 s2 Hview _ _ _ _ _ E).
  - intros req. unfold scrubCloudInitSnippets. rewrite <- (scrub_same c s1 s2 Hview).
    destruct (scrubSnippetRefs _ _ _ _) as [id ids] eqn:E. apply (scrub_readable c s1) in E as [Hid Hids].
    assert (contents s1 ids = contents s2 ids) as Hc by (rewrite Hids; by apply contents_same).
    unfold custom_user_data. cbn [rq_User rq_Hostname rq_CustomUserData rq_SnippetID rq_SnippetIDs].
    destruct ids as [|i ids]; [|by rewrite Hc].
    destruct (empty id); [done|]. destruct Hid as [|Hid]; [done|]. by rewrite (contents_one c s1 s2 Hview id Hid).
Qed.
End StoreFacts.

(** ** Seeds *)

Lemma empty_eq s : empty s = true <-> s = "".
Proof. apply String.eqb_eq. Qed.

Lemma all_bytes_map p f s : (forall c, p (f c) = true) -> all_bytes p (map_str f s) = true.
Proof. intros H. induction s as [|c s IH]; simpl; [done|]. by rewrite H, IH. Qed.

Lemma sanitizeFilename_chars s : all_bytes filename_char (sanitizeFilename s) = true.
Proof.
  unfold sanitizeFilename. destruct (empty s); [done|]. apply all_bytes_map. intros c. by destruct (filename_char c) eqn:E.
Qed.

Lemma seed_name_comp vm : comp (cloudInitSeedName vm).
Proof.
  unfold cloudInitSeedName. split_and!; [done..|]. rewrite !contains_byte_app.
  by rewrite (all_bytes_no_byte _ "/" _ (sanitizeFilename_chars vm)).
Qed.

Section Seeds.
Context (crypt : string -> string) (walk_files : gmap string string -> list (string * string)).
Context (Hfiles : forall m, walk_files m ≡ₚ map_to_list m).
(** The directory of data, an absolute path. *)
Context (dir : list string) (Hdir : Forall comp dir) (Hne : dir <> []).

Lemma seed_path_abs vm : seed_path (abs_path dir) vm = abs_path (dir ++ ["cloudinit"; cloudInitSeedName vm]).
Proof.
  unfold seed_path, cloudinitDir. rewrite Join_file by (done || by split_and!).
  rewrite Join_file; [by rewrite <- app_assoc| |by destruct dir|apply seed_name_comp].
  apply Forall_app. split; [done|]. constructor; [by split_and!|constructor].
Qed.

Lemma seed_path_base vm : Base (seed_path (abs_path dir) vm) = cloudInitSeedName vm.
Proof.
  rewrite seed_path_abs. change ["cloudinit"; cloudInitSeedName vm] with (["cloudinit"] ++ [cloudInitSeedName vm]).
  rewrite app_assoc. apply Base_abs, seed_name_comp.
Qed.

(** The image at a path is the one asked for. *)
Definition holds_seed (cfg : Config) (path : string) (h : host) : Prop :=
  exists files n, seeds h !! path = Some (files, n) /\ n <> 0 /\
    files !! "user-data" = Some (buildUserData crypt cfg) /\ files !! "meta-data" = Some (meta_data cfg) /\
    files !! "network-config" = Some (buildNetworkConfig cfg).

(** What building leaves behind. *)
Lemma build_seed_spec env path cfg h :
  let '(e, h') := build_seed crypt walk_files env path cfg h in
  vm_disks h' = vm_disks h /\ (forall p, p <> path -> seeds h' !! p = seeds h !! p) /\
  (e = None -> holds_seed cfg path h') /\ (e <> None -> seeds h' !! path = None \/ seeds h' !! path = seeds h !! path).
Proof.
  unfold build_seed. destruct (Validate cfg); [by split_and!; auto|]. destruct (dir_ok env); cbn [negb]; [|by split_and!; auto].
  pose proof (BuildNoCloudISO_spec crypt walk_files Hfiles (building env) cfg (MkDisk None (seeds h !! path))) as H.
  destruct (BuildNoCloudISO _ _ _ _ _) as [e d]. destruct H as (_ & Hok & Hbad & _). cbn in *. split_and!; [done| | |].
  - intros p Hp. by rewrite lookup_partial_alter_ne by done.
  - destruct e; [done|]. intros _. destruct (Hok eq_refl) as (files & n & E & H). exists files, n.
    cbn. by rewrite lookup_partial_alter_eq.
  - destruct e; [|done]. intros _. cbn. rewrite lookup_partial_alter_eq. by apply Hbad.
Qed.

Lemma is_seed_new vm target : is_seed vm (MkDiskInfo "cdrom" (seed_path (abs_path dir) vm) target) = true.
Proof. unfold is_seed. cbn. by rewrite seed_path_base, String.eqb_refl. Qed.

(** A machine gets the seed it was given, or nothing.  When the seed of a new
    machine is applied without error, the machine has one more disk, a CD-ROM
    whose image, directly inside the directory of seeds, holds the three documents
    of the request; after an error the machine's disks are what they were, and
    the image is gone or untouched.  Nothing else in the directory changes, whatever
    the machine's name. *)
Theorem applyCloudInit_exact env vm cfg h :
  let path := seed_path (abs_path dir) vm in
  let '(e, h') := applyCloudInit crypt walk_files (abs_path dir) env vm (Some cfg) h in
  path = abs_path (dir ++ ["cloudinit"; cloudInitSeedName vm]) /\
  (forall p, p <> path -> seeds h' !! p = seeds h !! p) /\
  (e = None -> holds_seed cfg path h' /\ exists target, vm_disks h' = vm_disks h ++ [MkDiskInfo "cdrom" path target]) /\
  (e <> None -> vm_disks h' = vm_disks h /\ (seeds h' !! path = None \/ seeds h' !! path = seeds h !! path)).
Proof.
  cbv zeta. unfold applyCloudInit. pose proof (build_seed_spec env (seed_path (abs_path dir) vm) cfg h) as H.
  destruct (build_seed _ _ _ _ _ _) as [[e|] h1]; destruct H as (Hd & Ho & Hok & Hbad).
  - split_and!; [apply seed_path_abs|done..|]. intros He. split; [done|by apply Hbad].
  - unfold AttachDisk. destruct (attached_at env) as [target|]; cbn; (split_and!; [apply seed_path_abs| | |]); try done.
    + intros _. split; [|exists target; by rewrite Hd]. destruct (Hok eq_refl) as (files & n & H). by exists files, n.
    + intros p Hp. by rewrite lookup_delete_ne, Ho.
    + intros _. split; [done|]. left. apply lookup_delete_eq.
Qed.

Lemma swap_same target path l : target ∉ map Target l -> swap_source target path l = l.
Proof.
  induction l as [|d l IH]; simpl; [done|]. intros [H1 H2]%not_elem_of_cons. rewrite IH by done.
  by rewrite (proj2 (String.eqb_neq _ _) (not_eq_sym H1)).
Qed.

Lemma swap_seed vm l d : NoDup (map Target l) -> findCloudInitCdrom l vm = Some d ->
  let l' := swap_source (Target d) (seed_path (abs_path dir) vm) l in
  findCloudInitCdrom l' vm = Some (MkDiskInfo "cdrom" (seed_path (abs_path dir) vm) (Target d)) /\
  length (List.filter (is_seed vm) l') = length (List.filter (is_seed vm) l) /\
  map Target l' = map Target l.
Proof.
  intros Hn Hf. induction l as [|x l IH]; [done|]. cbn [map] in Hn. apply NoDup_cons in Hn as [Hx Hn].
  unfold findCloudInitCdrom in *. cbn [List.find] in Hf. destruct (is_seed vm x) eqn:E.
  - injection Hf as ->. cbv zeta. cbn [swap_source map]. rewrite String.eqb_refl.
    fold (swap_source (Target d) (seed_path (abs_path dir) vm) l). rewrite swap_same by done.
    assert (Device d = "cdrom") as -> by (unfold is_seed in E; apply andb_prop in E as [E _]; by apply String.eqb_eq).
    cbn [List.find List.filter]. rewrite is_seed_new, E. done.
  - destruct (IH Hn Hf) as (H1 & H2 & H3). cbv zeta. cbn [swap_source map].
    assert (Target x <> Target d) as Hxd.
    { intros Ex. apply Hx. rewrite Ex. apply list_elem_of_fmap_2. apply find_some in Hf as [Hf _]. by apply list_elem_of_In. }
    rewrite (proj2 (String.eqb_neq _ _) Hxd). fold (swap_source (Target d) (seed_path (abs_path dir) vm) l).
    cbn [List.find List.filter]. rewrite E. split_and!; [done..|by f_equal].
Qed.

(** Reapplying cloud-init replaces the seed and adds no second one.  When it
    succeeds, the image holds the documents of the new request, the machine's seed
    CD-ROM points to it, and the machine has as many seed CD-ROMs as before, or one
    if it had none; otherwise the machine's disks are what they were. *)
Theorem ReapplyCloudInit_exact env vm cfg h :
  NoDup (map Target (vm_disks h)) ->
  let path := seed_path (abs_path dir) (vmName vm) in
  let count h : nat := length (List.filter (is_seed (vmName vm)) (vm_disks h)) in
  let '(r, h') := ReapplyCloudInit crypt walk_files (abs_path dir) env vm cfg h in
  match r with
  | Reapplied _ => holds_seed cfg path h' /\ count h' = Nat.max 1 (count h) /\
      exists d, findCloudInitCdrom (vm_disks h') (vmName vm) = Some d /\ Source d = path
  | _ => vm_disks h' = vm_disks h
  end /\ (forall p, p <> path -> seeds h' !! p = seeds h !! p).
Proof.
  intros Hn. cbv zeta. unfold ReapplyCloudInit. destruct (incus vm); [done|].
  pose proof (build_seed_spec env (seed_path (abs_path dir) (vmName vm)) cfg h) as H.
  destruct (build_seed _ _ _ _ _ _) as [[e|] h1]; destruct H as (Hd & Ho & Hok & _); [done|]. specialize (Hok eq_refl).
  rewrite <- Hd in *. destruct (findCloudInitCdrom (vm_disks h1) (vmName vm)) as [d|] eqn:Ef.
  - unfold UpdateDiskSource, remove_seed. destruct (swap_ok env); cbn [vm_disks seeds].
    + destruct (swap_seed (vmName vm) _ d Hn Ef) as (H1 & H2 & _). split; [|done]. split_and!; [done| |by eexists].
      rewrite H2. enough (length (List.filter (is_seed (vmName vm)) (vm_disks h1)) <> O) by lia.
      intros H0%nil_length_inv. apply find_some in Ef. rewrite <- filter_In, H0 in Ef. done.
    + split; [done|]. intros p Hp. by rewrite lookup_delete_ne, Ho.
  - unfold AttachDisk, remove_seed. destruct (attached_at env) as [target|]; cbn [vm_disks seeds].
    + assert (List.filter (is_seed (vmName vm)) (vm_disks h1) = []) as E0.
      { destruct (List.filter _ _) as [|x l] eqn:E; [done|]. assert (In x (x :: l)) as Hx by by left.
        rewrite <- E in Hx. apply filter_In in Hx as [Hx Hs]. pose proof (find_none _ _ Ef x Hx). congruence. }
      split; [|done]. split_and!; [done| |].
      * rewrite List.filter_app, E0. cbn [List.filter]. by rewrite is_seed_new.
      * exists (MkDiskInfo "cdrom" (seed_path (abs_path dir) (vmName vm)) target). split; [|done]. unfold findCloudInitCdrom in *. rewrite find_app, Ef.
        cbn [List.find]. by rewrite is_seed_new.
    + split; [done|]. intros p Hp. by rewrite lookup_delete_ne, Ho.
Qed.
End Seeds.

(** ** Examples *)

Module SnippetDemo.
Import DemoDisk.
Definition walk (m : gmap string Snippet) : list Snippet := map snd (map_to_list m).
Definition alice : Caller := MkCaller "alice" "operator".
Definition bob : Caller := MkCaller "bob" "operator".
Definition snip (id owner content : string) : Snippet := MkSnippet id "n" "" "web" "user-data" content false owner 1 1.
Abbreviation disk := (cell (list Snippet)).
Definition store_of (l : list Snippet) (ok : bool) : Store (W := disk) := MkStore (foldl put presets l) (MkCell (Some (Whole l)) ok).
Definition theirs : Store (W := disk) := store_of [snip "s" "bob" "secret"] true.

(** Asking for another's snippet is answered as if it did not exist, changing it
    is not: the two answers tell which identifiers are taken. *)
Example existence_oracle :
  GetCloudInitSnippet alice "s" (Some theirs) = not_found /\
  (DeleteCloudInitSnippet walk alice "s" (Some theirs)).1 = forbidden /\
  (DeleteCloudInitSnippet walk alice "t" (Some theirs)).1 = not_found.
Proof. done. Qed.

(** The category of an update is ignored. *)
Example category_ignored :
  match (Update walk 5 (MkSnippet "s" "m" "" "security" "" "" false "" 0 0) theirs).1 with
  | Ok sn => Name sn = "m" /\ Category sn = "web"
  | Err _ => False
  end.
Proof. by vm_compute. Qed.

Definition stuck : Store (W := disk) := store_of [snip "s" "" "old"] false.

(** An update that cannot be saved is reported as failed and is in force until the
    restart; so is a deletion. *)
Example failed_update_in_force :
  let '(r, s) := Update walk 5 (snip "s" "alice" "new") stuck in
  r = Err SaveFailed /\ Content <$> Get "s" s = Some "new" /\ stored (file s) = Some (Whole [snip "s" "" "old"]).
Proof. by vm_compute. Qed.
Example failed_delete_in_force :
  let '(e, s) := Snippets.Delete walk "s" stuck in e = Some SaveFailed /\ Get "s" s = None.
Proof. by vm_compute. Qed.

(** Whoever first edits a snippet without an owner owns it. *)
Example unowned_is_claimed :
  Owner <$> Get "s" (Update walk 5 (snip "s" "alice" "new") (store_of [snip "s" "" "old"] true)).2 = Some "alice".
Proof. by vm_compute. Qed.

Definition request_of (key : string) (nets : list NetworkConfig) (ids : list string) : CloudInitRequest :=
  MkRequest "" "" key "" nets "" "" ids "".
Definition key : string := "ssh-ed25519 AAAA me".
Definition engine (s : string) : option string := Some s.

(** A pasted key with a line break at its end is trimmed when the seed is built,
    and refused by the check before it; a request for networks alone, or for
    snippets alone, is refused too. *)
Example precheck_refuses_pasted_key :
  let req := request_of (key +:+ String nl "") [] [] in
  precheck req = Some BadSSHKey /\
  Validate (seed_config (W := disk) engine (fun t _ => Some t) None req "" "") = None.
Proof. by vm_compute. Qed.
Example precheck_refuses_networks :
  let req := request_of "" [MkNetworkConfig "eth0" "192.0.2.5/24" "" "" "" [] []] [] in
  precheck req = Some NothingToProvision /\
  Validate (seed_config (W := disk) engine (fun t _ => Some t) None req "" "") = None.
Proof. by vm_compute. Qed.
Example precheck_refuses_snippets :
  let req := request_of "" [] ["s"] in
  precheck req = Some NothingToProvision /\
  Validate (seed_config engine (fun t _ => Some t) (Some theirs) req "" "") = None.
Proof. by vm_compute. Qed.

Definition works : environment := MkEnv (MkOutcomes true (fun _ => true) true true (Some 4096)) true (Some "sdb") true true.
Definition no_swap : environment := MkEnv (MkOutcomes true (fun _ => true) true true (Some 4096)) true (Some "sdb") false true.
Definition cfg : Config := MkConfig "" "" key "" [] "" "" [] "" false "".
Definition hash (p : string) : string := p.
Definition machine : VM := MkVM "web" false false.
Definition fresh : host := MkHost ∅ [].
Definition provisioned : host := (applyCloudInit hash map_to_list "/d" works "web" (Some cfg) fresh).2.

(** When the source of the CD-ROM cannot be swapped, the image the machine still
    has in its drive is deleted. *)
Example failed_reapply_deletes_image_in_use :
  let '(r, h) := ReapplyCloudInit hash map_to_list "/d" no_swap machine cfg provisioned in
  r = ReapplyError 500 AttachFailed /\ vm_disks h = [MkDiskInfo "cdrom" "/d/cloudinit/seed-web.iso" "sdb"] /\ dom (seeds h) = ∅.
Proof. by vm_compute. Qed.

(** Two machines whose names differ in a replaced character share their image. *)
Example names_collide : seed_path "/d" "my vm" = seed_path "/d" "my:vm".
Proof. done. Qed.
End SnippetDemo.

Lemma snippets_survive_restart_witness :
  exists s, after SnippetDemo.walk [RCreate SnippetDemo.alice 7 (Ok (SnippetDemo.snip "a" "" "x"))]
      (NewSnippetStore (DemoDisk.holding [SnippetDemo.snip "s" "bob" "secret"])) = Some s /\ Get "preset-docker" s = Some preset_docker.
Proof.
  assert (all_saved SnippetDemo.walk [RCreate SnippetDemo.alice 7 (Ok (SnippetDemo.snip "a" "" "x"))]
    (NewSnippetStore (DemoDisk.holding [SnippetDemo.snip "s" "bob" "secret"])) = true) as Ha by (vm_compute; reflexivity).
  assert (is_Some (NewSnippetStore (DemoDisk.holding [SnippetDemo.snip "s" "bob" "secret"]))) as [s0 E] by (eexists; reflexivity).
  rewrite E in Ha |- *.
  destruct (snippets_survive_restart SnippetDemo.walk (fun m => reflexivity _) (DemoDisk.holding [SnippetDemo.snip "s" "bob" "secret"]) s0
    [RCreate SnippetDemo.alice 7 (Ok (SnippetDemo.snip "a" "" "x"))]) as (s & H & _ & Hp); [|exact E|exact Ha|].
  - constructor; [right; vm_compute; reflexivity|constructor].
  - exists s. split; [exact H|]. apply (Hp preset_docker). left.
Defined.

Lemma snippets_protected_witness :
  exists s, after SnippetDemo.walk [RDelete SnippetDemo.alice "s"] (Some SnippetDemo.theirs) = Some s /\
    Get "s" s = Some (SnippetDemo.snip "s" "bob" "secret").
Proof.
  apply (snippets_protected SnippetDemo.walk (fun m => reflexivity _) SnippetDemo.theirs).
  - apply (sound_insert presets (SnippetDemo.snip "s" "bob" "secret") presets_sound); vm_compute; reflexivity.
  - vm_compute. reflexivity.
  - constructor; [reflexivity|constructor].
Defined.

Lemma snippets_confidential_witness :
  let few l : Store (W := SnippetDemo.disk) := MkStore (foldl put ∅ l) (DemoDisk.holding l) in
  GetCloudInitSnippet SnippetDemo.alice "s" (Some (few [SnippetDemo.snip "s" "bob" "secret"])) =
  GetCloudInitSnippet SnippetDemo.alice "s" (Some (few [])).
Proof.
  intros few. apply (snippets_confidential SnippetDemo.walk (fun m => reflexivity _) SnippetDemo.engine (fun t _ => Some t)
    SnippetDemo.hash SnippetDemo.alice (few [SnippetDemo.snip "s" "bob" "secret"]) (few [])).
  vm_compute. reflexivity.
Defined.

Lemma applyCloudInit_exact_witness :
  exists target, vm_disks SnippetDemo.provisioned = [MkDiskInfo "cdrom" (seed_path "/d" "web") target].
Proof.
  pose proof (applyCloudInit_exact SnippetDemo.hash map_to_list (fun m => reflexivity _) ["d"]
    ltac:(repeat constructor; discriminate) ltac:(discriminate) SnippetDemo.works "web" SnippetDemo.cfg SnippetDemo.fresh) as H.
  cbv zeta in H. change (abs_path ["d"]) with "/d" in H. unfold SnippetDemo.provisioned.
  destruct (applyCloudInit _ _ _ _ _ _ _) as [e h] eqn:E. destruct H as (_ & _ & Hok & _).
  assert (e = None) as He by (vm_compute in E; congruence). destruct (Hok He) as [_ [target Ht]]. exists target. exact Ht.
Defined.

Lemma ReapplyCloudInit_exact_witness :
  let '(r, h) := ReapplyCloudInit SnippetDemo.hash map_to_list "/d" SnippetDemo.works SnippetDemo.machine SnippetDemo.cfg SnippetDemo.provisioned in
  r = Reapplied false /\ length (List.filter (is_seed "web") (vm_disks h)) = 1%nat.
Proof.
  pose proof (ReapplyCloudInit_exact SnippetDemo.hash map_to_list (fun m => reflexivity _) ["d"]
    ltac:(repeat constructor; discriminate) ltac:(discriminate) SnippetDemo.works SnippetDemo.machine SnippetDemo.cfg
    SnippetDemo.provisioned ltac:(vm_compute; repeat constructor; discriminate || (intros H; by apply elem_of_nil in H))) as H.
  cbv zeta in H. change (abs_path ["d"]) with "/d" in H.
  destruct (ReapplyCloudInit _ _ _ _ _ _ _) as [r h] eqn:E. assert (r = Reapplied false) as -> by (vm_compute in E; congruence).
  destruct H as [(_ & Hc & _) _]. split; [reflexivity|]. change (vmName SnippetDemo.machine) with "web" in Hc. rewrite Hc. vm_compute. reflexivity.
Defined.
