(* ===== verification/Dict.v ===== *)
(** * Dict: the [map[string]any] of decoded documents

    A decoded JSON or YAML object is a list of entries with distinct keys; the
    values are those of the settings store. *)

From S2P Require Export ConfigStore.
Open Scope Z_scope.

Abbreviation dict := (list (string * value)).

Fixpoint dget (k : string) (m : dict) : option value :=
  match m with [] => None | (k', v) :: m => if String.eqb k' k then Some v else dget k m end.
Fixpoint dset (k : string) (v : value) (m : dict) : dict :=
  match m with
  | [] => [(k, v)]
  | (k', v') :: m => if String.eqb k' k then (k, v) :: m else (k', v') :: dset k v m
  end.
Definition ddel (k : string) (m : dict) : dict := List.filter (fun kv => negb (String.eqb kv.1 k)) m.

(** The map at a key, if there is one. *)
Definition dmap (k : string) (m : dict) : option dict := match dget k m with Some (VObj d) => Some d | _ => None end.

Lemma dget_dset k k' v m : dget k' (dset k v m) = if String.eqb k k' then Some v else dget k' m.
Proof.
  induction m as [|[a x] m IH]; simpl; [done|]. destruct (String.eqb_spec a k) as [->|Ha]; simpl.
  - by destruct (String.eqb k k').
  - rewrite IH. destruct (String.eqb_spec a k') as [->|]; [|done]. destruct (String.eqb_spec k k') as [->|]; done.
Qed.

Lemma dget_ddel k k' m : dget k' (ddel k m) = if String.eqb k k' then None else dget k' m.
Proof.
  induction m as [|[a x] m IH]; simpl; [by destruct (String.eqb k k')|]. destruct (String.eqb_spec a k) as [->|Ha]; simpl.
  - rewrite IH. by destruct (String.eqb k k').
  - rewrite IH. destruct (String.eqb_spec a k') as [->|]; [|done]. by destruct (String.eqb_spec k k') as [->|].
Qed.

Lemma dmap_dset k k' v m : dmap k' (dset k v m) = if String.eqb k k' then match v with VObj d => Some d | _ => None end else dmap k' m.
Proof. unfold dmap. rewrite dget_dset. by destruct (String.eqb k k'). Qed.
