(* ===== verification/Netplan.v ===== *)
(** * Netplan: bonds that survive a reboot

    Models [api/host_netplan.go]: the file of a bridge that netplan reads at
    boot, how a bond is written into it and taken out again, and what is left
    when a step fails.  The YAML library is a third party's: parsing and printing
    are parameters.  A document is the [map[string]any] of the code, a [value] of
    the settings store; a map is a list of entries with distinct keys. *)

From S2P Require Import GoPath Yaml.
From S2P Require Export Dict.
Open Scope Z_scope.

(** ** The path *)

Definition bridge_char (c : ascii) : bool := is_alpha c || is_digit c || existsb (Ascii.eqb c) ["_"; "."; "-"]%char.
Definition netplanBridgeRE : re :=
  Seq (Class (fun c => is_alpha c || is_digit c || Ascii.eqb c "_")) (upto 14 (Class bridge_char)).

Definition cleanNetplanPath (baseDir bridge : string) : option string :=
  if negb (re_match netplanBridgeRE bridge) || negb (String.eqb (Base bridge) bridge) || contains_str ".." bridge then None
  else
    let cleanBase := Clean baseDir in
    let cleanPath := Clean (GoPath.Join [cleanBase; "zz-webkvm-" +:+ bridge +:+ ".yaml"]) in
    if has_prefix (cleanBase +:+ "/") cleanPath then Some cleanPath else None.

(** ** The document *)

Definition bond_doc (mode : string) (slaves : list string) : value :=
  VObj [("interfaces", VStrings slaves); ("parameters", VObj [("mode", VString mode); ("mii-monitor-interval", VInt 100)])].
Definition no_dhcp : value := VObj [("dhcp4", VBool false); ("dhcp6", VBool false)].

Definition fresh_network : dict := [("version", VInt 2)].

(** The bridge's interfaces, when the file describes the bridge. *)
Definition enslave (bridge port : string) (brs : dict) : dict :=
  match dmap bridge brs with
  | Some spec => dset bridge (VObj (dset "interfaces" (VStrings [port]) spec)) brs
  | None => brs
  end.

Definition add_bond (bridge bond mode : string) (slaves : list string) (root : dict) : dict :=
  let net := default fresh_network (dmap "network" root) in
  let eths := foldl (fun m s => dset s no_dhcp m) (default [] (dmap "ethernets" net)) slaves in
  let net := dset "ethernets" (VObj eths) net in
  let net := dset "bonds" (VObj (dset bond (bond_doc mode slaves) (default [] (dmap "bonds" net)))) net in
  let net := if String.eqb bridge "" then net
             else dset "bridges" (VObj (enslave bridge bond (default [] (dmap "bridges" net)))) net in
  dset "network" (VObj net) root.

(** [None]: nothing to take out, the file is left alone. *)
Definition remove_bond (bridge bond restoreSlave : string) (root : dict) : option dict :=
  net ← dmap "network" root;
  let net := match dmap "bonds" net with
             | Some bonds => match ddel bond bonds with [] => ddel "bonds" net | bonds => dset "bonds" (VObj bonds) net end
             | None => net
             end in
  let net := if String.eqb bridge "" || String.eqb restoreSlave "" then net
             else match dmap "bridges" net with
                  | Some brs => dset "bridges" (VObj (enslave bridge restoreSlave brs)) net
                  | None => net
                  end in
  Some (dset "network" (VObj net) root).

(** ** The files and the commands *)

(** The file and its backup, and the configuration netplan applied last. *)
Record world := MkWorld { conf : option string; bak : option string; live : option string }.

Inductive np_error := BadBridge | ParseError | MarshalError | WriteError | GenerateFailed | ApplyFailed.
Inductive np_result := Done | Failed (e : np_error) | Panic.

Inductive write_outcome := Written | NotWritten | Truncated.

Section Netplan.
(** [Unmarshal]: an error, or the map, which is nil ([Some None]) for a document
    without one.  [accepts]: what [netplan generate] accepts. *)
Context (Unmarshal : string -> option (option dict)) (Marshal : dict -> option string).
Context (baseDir : string) (accepts : string -> bool).

Record np_env := MkNpEnv {
  has_netplan : bool; can_read : bool; can_rename : bool; written : write_outcome; can_apply : bool; can_restore : bool;
  can_remove : bool
}.

Definition header : string := "# Managed by webkvm" +:+ String nl "".

(** Renaming the backup over the file, if there is a backup. *)
Definition restore (env : np_env) (w : world) : world :=
  match bak w with
  | Some b => if can_restore env then MkWorld (Some b) None (live w) else w
  | None => w
  end.

Definition put_file (env : np_env) (text : string) (w : world) : bool * world :=
  match written env with
  | Written => (true, MkWorld (Some text) (bak w) (live w))
  | NotWritten => (false, w)
  | Truncated => (false, MkWorld (Some "") (bak w) (live w))
  end.

(** [netplan generate]; [netplan apply], which makes the file the configuration
    of the host. *)
Definition generate (w : world) : bool := match conf w with Some t => accepts t | None => true end.
Definition apply (env : np_env) (w : world) : bool * world :=
  if can_apply env && generate w then (true, MkWorld (conf w) (bak w) (conf w)) else (false, w).

(** The document to change; a file that cannot be read counts as none. *)
Definition read_root (env : np_env) (w : world) : res np_result dict :=
  match (if can_read env then conf w else None) with
  | None => Ok []
  | Some data =>
      match Unmarshal data with
      | None => Err (Failed ParseError)
      | Some None => Err Panic            (* assignment to an entry of a nil map *)
      | Some (Some root) => Ok root
      end
  end.

Definition persistNetplanBond (env : np_env) (bridge bond mode : string) (slaves : list string) (w : world) : np_result * world :=
  if negb (has_netplan env) then (Done, w) else
  match cleanNetplanPath baseDir bridge with
  | None => (Failed BadBridge, w)
  | Some _ =>
      match read_root env w with
      | Err e => (e, w)
      | Ok root =>
          let w := match conf w with
                   | Some c => if can_rename env then MkWorld None (Some c) (live w) else w
                   | None => w
                   end in
          match Marshal (add_bond bridge bond mode slaves root) with
          | None => (Failed MarshalError, restore env w)
          | Some out =>
              let '(ok, w) := put_file env (header +:+ out) w in
              if negb ok then (Failed WriteError, restore env w)
              else if negb (generate w) then (Failed GenerateFailed, restore env w)
              else
                let '(ok, w) := apply env w in
                if negb ok then (Failed ApplyFailed, restore env w)
                else (Done, if can_remove env then MkWorld (conf w) None (live w) else w)
          end
      end
  end.

Definition revertNetplanBond (env : np_env) (bridge bond restoreSlave : string) (w : world) : np_result * world :=
  if negb (has_netplan env) then (Done, w) else
  match cleanNetplanPath baseDir bridge with
  | None => (Failed BadBridge, w)
  | Some _ =>
      match (if can_read env then conf w else None) with
      | None => (Done, w)
      | Some data =>
          match Unmarshal data with
          | None => (Failed ParseError, w)
          | Some root =>
              match remove_bond bridge bond restoreSlave (default [] root) with
              | None => (Done, w)
              | Some root =>
                  match Marshal root with
                  | None => (Failed MarshalError, w)
                  | Some out =>
                      let '(ok, w) := put_file env (header +:+ out) w in
                      if negb ok then (Failed WriteError, w) else (Done, (apply env w).2)
                  end
              end
          end
      end
  end.
End Netplan.

(** ** Facts *)

Lemma dget_slaves slaves : forall m s, dget s (foldl (fun m s => dset s no_dhcp m) m slaves) =
  if existsb (String.eqb s) slaves then Some no_dhcp else dget s m.
Proof.
  induction slaves as [|x l IH]; intros m s; simpl; [done|]. rewrite IH, dget_dset, (String.eqb_sym x s).
  destruct (String.eqb s x), (existsb _ l); done.
Qed.

(** The entry of a network document at [section.name]. *)
Definition entry (root : dict) (section name : string) : option value :=
  net ← dmap "network" root; d ← dmap section net; dget name d.

Lemma entry_set net root section name :
  entry (dset "network" (VObj net) root) section name = (d ← dmap section net; dget name d).
Proof. unfold entry. by rewrite dmap_dset. Qed.

Lemma entry_net root section name :
  (d ← dmap section (default fresh_network (dmap "network" root)); dget name d) = entry root section name.
Proof.
  unfold entry. destruct (dmap "network" root); [done|]. unfold dmap, fresh_network. cbn [default dget].
  by destruct (String.eqb "version" section).
Qed.

Lemma enslave_get bridge port brs name :
  dget name (enslave bridge port brs) =
  if String.eqb bridge name then
    match dget name brs with Some (VObj spec) => Some (VObj (dset "interfaces" (VStrings [port]) spec)) | v => v end
  else dget name brs.
Proof.
  unfold enslave, dmap. destruct (String.eqb_spec bridge name) as [<-|Hn].
  - destruct (dget bridge brs) as [v|] eqn:E; [|done]. destruct v; try done. by rewrite dget_dset, String.eqb_refl.
  - destruct (dget bridge brs) as [[]|]; try done. rewrite dget_dset. by rewrite (proj2 (String.eqb_neq _ _) Hn).
Qed.

Definition default_get (name : string) (d : option dict) : option value := dget name (default [] d).
Lemma default_dget name (d : option dict) : dget name (default [] d) = (d ≫= dget name).
Proof. by destruct d. Qed.

(** What a bond's entry, its slaves' and its bridge's become. *)
Definition with_bond (bridge bond mode : string) (slaves : list string) (section name : string) (old : option value) : option value :=
  if String.eqb section "bonds" && String.eqb bond name then Some (bond_doc mode slaves)
  else if String.eqb section "ethernets" && existsb (String.eqb name) slaves then Some no_dhcp
  else if String.eqb section "bridges" && String.eqb bridge name then
    match old with Some (VObj spec) => Some (VObj (dset "interfaces" (VStrings [bond]) spec)) | v => v end
  else old.

Lemma add_bond_entry bridge bond mode slaves root section name : bridge <> "" ->
  entry (add_bond bridge bond mode slaves root) section name =
  with_bond bridge bond mode slaves section name (entry root section name).
Proof.
  intros Hb. unfold add_bond. rewrite (proj2 (String.eqb_neq _ _) Hb), entry_set, <- entry_net.
  set (net := default fresh_network (dmap "network" root)). unfold with_bond.
  rewrite !dmap_dset, (String.eqb_sym section "bonds"), (String.eqb_sym section "ethernets"), (String.eqb_sym section "bridges").
  destruct (String.eqb_spec "bridges" section) as [<-|]; [|destruct (String.eqb_spec "bonds" section) as [<-|];
    [|destruct (String.eqb_spec "ethernets" section) as [<-|]; [|done]]]; cbn.
  - rewrite enslave_get, default_dget. change (fun d => dget name d) with (dget name).
    destruct (String.eqb bridge name); [|done]. by destruct (dmap "bridges" net ≫= dget name) as [[]|].
  - rewrite dget_dset, default_dget. by destruct (String.eqb bond name).
  - rewrite dget_slaves, default_dget. by destruct (existsb _ slaves).
Qed.

(** Taking it out again. *)
Definition without_bond (bridge bond restoreSlave section name : string) (old : option value) : option value :=
  if String.eqb section "bonds" && String.eqb bond name then None
  else if String.eqb section "bridges" && String.eqb bridge name && negb (String.eqb restoreSlave "") then
    match old with Some (VObj spec) => Some (VObj (dset "interfaces" (VStrings [restoreSlave]) spec)) | v => v end
  else old.

Lemma remove_bond_entry bridge bond slave root root' section name : bridge <> "" ->
  remove_bond bridge bond slave root = Some root' ->
  entry root' section name = without_bond bridge bond slave section name (entry root section name).
Proof.
  intros Hb. unfold remove_bond. destruct (dmap "network" root) as [net|] eqn:En; [|done]. cbn [mbind option_bind].
  set (net1 := match dmap "bonds" net with Some _ => _ | None => net end). intros [= <-]. rewrite entry_set.
  unfold entry. rewrite En. cbn [mbind option_bind].
  assert (forall s n, (d ← dmap s net1; dget n d) = if String.eqb s "bonds" && String.eqb bond n then None else d ← dmap s net; dget n d) as H1.
  { intros s n. unfold net1. destruct (dmap "bonds" net) as [bonds|] eqn:Eb.
    - destruct (ddel bond bonds) as [|kv rest] eqn:Ed.
      + assert (forall k, dget k bonds = if String.eqb bond k then dget k bonds else None) as Hk.
        { intros k. pose proof (dget_ddel bond k bonds) as H. rewrite Ed in H. cbn in H. by destruct (String.eqb bond k). }
        unfold dmap at 1. rewrite dget_ddel, (String.eqb_sym s "bonds"). destruct (String.eqb_spec "bonds" s) as [<-|]; [|done].
        rewrite Eb. cbn. rewrite Hk. by destruct (String.eqb bond n).
      + rewrite dmap_dset, (String.eqb_sym s "bonds"). destruct (String.eqb_spec "bonds" s) as [<-|]; [|done].
        rewrite Eb, <- Ed. cbn. by rewrite dget_ddel.
    - destruct (String.eqb_spec s "bonds") as [->|]; [|done]. rewrite Eb. by destruct (String.eqb bond n). }
  rewrite (proj2 (String.eqb_neq _ _) Hb). unfold without_bond. cbn [orb].
  assert (dmap "bridges" net1 = dmap "bridges" net) as H2.
  { unfold net1. destruct (dmap "bonds" net); [|done]. destruct (ddel _ _); [|by rewrite dmap_dset].
    unfold dmap. by rewrite dget_ddel. }
  destruct (String.eqb slave "") eqn:Es; [by rewrite H1, andb_false_r|].
  destruct (dmap "bridges" net1) as [brs|] eqn:Er; try rewrite Er in H2.
  - rewrite dmap_dset, (String.eqb_sym section "bridges"). destruct (String.eqb_spec "bridges" section) as [<-|]; cbn.
    + rewrite enslave_get, <- H2. cbn. destruct (String.eqb bridge name); [|done]. by destruct (dget name brs) as [[]|].
    + apply H1.
  - rewrite H1. destruct (String.eqb_spec section "bridges") as [->|]; cbn.
    + rewrite <- H2. cbn. by destruct (String.eqb bridge name).
    + by destruct (_ && _).
Qed.

Section NetplanFacts.
Context (Unmarshal : string -> option (option dict)) (Marshal : dict -> option string) (baseDir : string) (accepts : string -> bool).
Abbreviation persist := (persistNetplanBond Unmarshal Marshal baseDir accepts).

Lemma restore_backup env w c : bak w = Some c -> can_restore env = true -> restore env w = MkWorld (Some c) None (live w).
Proof. unfold restore. by intros -> ->. Qed.


(** Writing down a bond is all or nothing.  Where the host has a file for the
    bridge, and files can be renamed, a failure at any step, from the checks to
    [netplan apply], leaves the file and the host's network as they were, without a
    backup beside it; success means that netplan accepted and applied the file
    that is now in place, which is the one asked for, and no backup stays. *)
Theorem persistNetplanBond_all_or_nothing env bridge bond mode slaves w c :
  conf w = Some c -> bak w = None -> can_read env = true -> can_rename env = true -> can_restore env = true -> can_remove env = true ->
  let '(r, w') := persist env bridge bond mode slaves w in
  bak w' = None /\
  (r = Done /\ has_netplan env = true ->
     exists root out, Unmarshal c = Some (Some root) /\ Marshal (add_bond bridge bond mode slaves root) = Some out /\
       conf w' = Some (header +:+ out) /\ accepts (header +:+ out) = true /\ live w' = conf w') /\
  (r <> Done -> w' = w).
Proof.
  intros Hc Hb Hr Hn Hs Hm. unfold persistNetplanBond. destruct (has_netplan env); cbn [negb]; [|by split_and!; [|intros [_ ?]|]].
  destruct (cleanNetplanPath baseDir bridge); [|by split_and!; [|intros [? _]|]]. unfold read_root. rewrite Hr, Hc.
  destruct (Unmarshal c) as [[root|]|] eqn:Eu; [|by split_and!; [|intros [? _]|]..]. rewrite Hn.
  assert (forall x, restore env (MkWorld x (Some c) (live w)) = w) as Hw.
  { intros x. rewrite (restore_backup _ _ c) by done. destruct w; cbn in *; by subst. }
  destruct (Marshal _) as [out|] eqn:Em; [|rewrite Hw; by split_and!; [|intros [? _]|]].
  unfold put_file. cbn [conf bak live]. destruct (written env); cbn [negb]; [|rewrite Hw; by split_and!; [|intros [? _]|]..].
  unfold generate, apply. cbn [conf bak live]. destruct (accepts (header +:+ out)) eqn:Ea; cbn [negb];
    [|rewrite Hw; by split_and!; [|intros [? _]|]].
  unfold generate. cbn [conf]. rewrite Ea. destruct (can_apply env); cbn [andb negb]; [|rewrite Hw; by split_and!; [|intros [? _]|]].
  rewrite Hm. split_and!; [done| |done]. intros _. by exists root, out.
Qed.

(** A bond and only the bond.  Writing it down sets its entry, the entry of
    each of its ports and the ports of its bridge, if the file describes the bridge,
    and leaves every other entry of the network as it is, whatever the document
    held; taking it out again removes its entry, gives the bridge the port it is
    told and touches nothing else. *)
Theorem bond_entries_exact bridge bond mode slaves restoreSlave root section name :
  bridge <> "" ->
  entry (add_bond bridge bond mode slaves root) section name =
    with_bond bridge bond mode slaves section name (entry root section name) /\
  exists root', remove_bond bridge bond restoreSlave (add_bond bridge bond mode slaves root) = Some root' /\
    entry root' section name =
      without_bond bridge bond restoreSlave section name (with_bond bridge bond mode slaves section name (entry root section name)).
Proof.
  intros Hb. split; [by apply add_bond_entry|].
  destruct (remove_bond bridge bond restoreSlave (add_bond bridge bond mode slaves root)) as [root'|] eqn:E.
  - exists root'. split; [done|]. by rewrite (remove_bond_entry _ _ _ _ _ _ _ Hb E), add_bond_entry.
  - exfalso. unfold remove_bond in E.
    assert (is_Some (dmap "network" (add_bond bridge bond mode slaves root))) as [net En] by (unfold add_bond; rewrite dmap_dset; by eexists).
    by rewrite En in E.
Qed.

Lemma bridge_regex_comp bridge : re_match netplanBridgeRE bridge = true -> contains_byte "/" bridge = false.
Proof. intros H. by apply (all_bytes_no_byte bridge_char "/" bridge (regex_bytes _ bridge_char _ H ltac:(by vm_compute))). Qed.

(** The file of a bridge is directly in netplan's directory. *)
Lemma cleanNetplanPath_child l bridge p : Forall comp l -> l <> [] ->
  cleanNetplanPath (abs_path l) bridge = Some p -> p = abs_path (l ++ ["zz-webkvm-" +:+ bridge +:+ ".yaml"]).
Proof.
  intros Hl Hne. unfold cleanNetplanPath. destruct (re_match netplanBridgeRE bridge) eqn:Hr; [|done].
  apply bridge_regex_comp in Hr. destruct (_ || _); [done|]. rewrite Clean_abs by done.
  assert (comp ("zz-webkvm-" +:+ bridge +:+ ".yaml")) as Hc by (split_and!; [done..|by rewrite !contains_byte_app, Hr]).
  rewrite Join_file by done. rewrite Clean_abs by (apply Forall_app; auto). destruct (has_prefix _ _); [|done]. by intros [= <-].
Qed.
End NetplanFacts.

(** ** Examples *)

Module NetplanDemo.
Definition parse (s : string) : option (option dict) :=
  if String.eqb s "" then Some None else if String.eqb s "old" then Some (Some [("network", VObj [("bridges", VObj [("br0", VObj [])])])]) else Some (Some []).
Definition print (d : dict) : option string := Some "new".
Definition ok : np_env := MkNpEnv true true true Written true true true.
Definition persist accepts env c := persistNetplanBond parse print "/etc/netplan" accepts env "br0" "bond0" "802.3ad" ["eth0"] (MkWorld c None c).

(** Without a file before it, a file netplan refuses stays for the next boot. *)
Example refused_file_stays :
  persist (fun _ => false) ok None = (Failed GenerateFailed, MkWorld (Some (header +:+ "new")) None None).
Proof. by vm_compute. Qed.

(** An empty file crashes the request. *)
Example empty_file_panics : (persist (fun _ => true) ok (Some "")).1 = Panic.
Proof. by vm_compute. Qed.

(** A file that exists and cannot be read is replaced, and its backup removed. *)
Example unreadable_file_lost :
  persist (fun _ => true) (MkNpEnv true false true Written true true true) (Some "old")
  = (Done, MkWorld (Some (header +:+ "new")) None (Some (header +:+ "new"))).
Proof. by vm_compute. Qed.

(** Taking a bond out reports success with a file that netplan refuses. *)
Example revert_ignores_refusal :
  revertNetplanBond parse print "/etc/netplan" (fun _ => false) ok "br0" "bond0" "eth0" (MkWorld (Some "old") None (Some "old"))
  = (Done, MkWorld (Some (header +:+ "new")) None (Some "old")).
Proof. by vm_compute. Qed.

(** The ports of the bond keep the entries that turn DHCP off. *)
Example ports_stay_without_dhcp :
  match remove_bond "br0" "bond0" "eth0" (add_bond "br0" "bond0" "802.3ad" ["eth0"; "eth1"] []) with
  | Some d => entry d "ethernets" "eth1" = Some no_dhcp
  | None => False
  end.
Proof. by vm_compute. Qed.
End NetplanDemo.

Lemma persistNetplanBond_all_or_nothing_witness :
  NetplanDemo.persist (fun _ => false) NetplanDemo.ok (Some "old") = (Failed GenerateFailed, MkWorld (Some "old") None (Some "old")).
Proof.
  pose proof (persistNetplanBond_all_or_nothing NetplanDemo.parse NetplanDemo.print "/etc/netplan" (fun _ => false) NetplanDemo.ok
    "br0" "bond0" "802.3ad" ["eth0"] (MkWorld (Some "old") None (Some "old")) "old" eq_refl eq_refl eq_refl eq_refl eq_refl eq_refl) as H.
  unfold NetplanDemo.persist. destruct (persistNetplanBond _ _ _ _ _ _ _ _ _ _) as [r w'] eqn:E. destruct H as (_ & _ & H).
  assert (r = Failed GenerateFailed) as -> by (vm_compute in E; congruence). rewrite H by discriminate. reflexivity.
Defined.

Lemma bond_entries_exact_witness :
  entry (add_bond "br0" "bond0" "802.3ad" ["eth0"] []) "bonds" "bond0" = Some (bond_doc "802.3ad" ["eth0"]).
Proof. apply (bond_entries_exact "br0" "bond0" "802.3ad" ["eth0"] "" [] "bonds" "bond0"). discriminate. Defined.
