(* ===== verification/Combined.v ===== *)
(** * Combined: two hypervisors behind one interface

    Models [compute/combined.go]: libvirt as the primary backend and Incus as an
    optional secondary one, which of them an operation reaches, how their answers
    are merged, and the guards on storage moves and imports.  A backend is what
    the Go interface is: a state with methods that may change it. *)

From S2P Require Export GoStrings.
Open Scope Z_scope.

(** ** The interface *)

(** An error: a sentinel of the package, or a text. *)
Inductive error :=
| ErrNotImplemented | ErrForbidden (msg : string) | ErrCrossBackendMove (msg : string) | ErrText (msg : string).
Definition Error (e : error) : string :=
  match e with
  | ErrNotImplemented => "this operation is not supported by the current hypervisor backend"
  | ErrForbidden m => "forbidden: " +:+ m
  | ErrCrossBackendMove m => "cannot move between a VM pool and a container pool; export and re-import instead: " +:+ m
  | ErrText m => m
  end.

Class Named (A : Type) := name_of : A -> string.

(** The operations on one instance, which [Combined] routes and does nothing
    else with. *)
Inductive instance_op :=
| DomainExists | UpdateDomain | DeleteDomain | CloneDomain | StartDomain | ShutdownDomain | ForceOffDomain | RebootDomain
| SuspendDomain | ResumeDomain | SetDomainAutostart | GetDomainAutostart | SetBootDevice | GetBootDevice
| ValidateDomainDisks | GetDomainLog | AttachDisk | DetachDisk | ChangeDiskBus | UpdateDiskSource | ResizeDomainDisk
| RunCloudInitReprovision | AttachNetworkIface | DetachNetworkIface | UpdateNetworkIface | AttachUSBDevice
| DetachUSBDevice | AttachPCIDevice | DetachPCIDevice | AttachSharedFolder | DetachSharedFolder | ListSnapshots
| CreateSnapshot | DeleteSnapshot | RevertSnapshot | ExportSnapshots | GetVMMeta | SetVMMeta | UpdateVMMeta | GetVNCInfo
| GetSPICEInfo | GetDomainIP | GetDomainXML | GuestGetClipboard | GetGuestInfo | FSTrim | GuestExec | FSFreeze
| FSFreezeStatus | GuestSyncTime | GuestSetClipboard | OpenSerialConsole | SetUserPassword | ExportDomain
| ExportDomainOVA | EstimateExportSize | EstimateOVASize | DeleteVMDiskFiles.

Record CreateVMRequest := MkCreate { Image : string; cr_Type : string }.
Record CreatePoolRequest := MkPoolReq { Purpose : string; pr_Type : string }.
Record ImportOpts := MkImportOpts { Admin : bool; GeneratedConfig : bool }.

Class Backend (B VM Net Pool Vol Lease Img Arg Ans : Type) := {
  be_ListDomains : B -> res error (list VM) * B;
  be_GetDomain : string -> B -> res error VM * B;
  be_CreateDomain : CreateVMRequest -> B -> res error VM * B;
  be_instance : instance_op -> string -> Arg -> B -> Ans * B;
  be_ListIncusProfiles : B -> res error (list string) * B;
  be_ListIncusImages : B -> res error (list Img) * B;
  be_PullIncusImage : string -> B -> option error * B;
  be_DeleteIncusImage : string -> B -> option error * B;
  be_GetIncusImagesVolume : B -> res error string * B;
  be_SetIncusImagesVolume : string -> string -> B -> option error * B;
  be_ListNetworks : B -> res error (list Net) * B;
  be_NetworkLeases : string -> B -> res error (list Lease) * B;
  be_ListStoragePools : B -> res error (list Pool) * B;
  be_ListStorageVolumes : string -> B -> res error (list Vol) * B;
  be_DeleteStorageVolume : string -> string -> B -> option error * B;
  be_CreateStoragePool : CreatePoolRequest -> B -> res error Pool * B;
  be_DeletePool : string -> B -> option error * B;
  be_GetPoolPath : string -> B -> res error string * B;
  be_MoveDomainStorage : string -> string -> B -> option error * B;
  be_MoveVolume : string -> string -> string -> B -> option error * B;
  be_ImportDomain : string -> string -> string -> ImportOpts -> B -> res error (string * string * list string) * B
}.

Inductive side := Primary | Secondary.
#[export] Instance side_eq_dec : EqDecision side.
Proof. solve_decision. Defined.

Section Combined.
Context {B VM Net Pool Vol Lease Img Arg Ans : Type} `{!Backend B VM Net Pool Vol Lease Img Arg Ans}.
Context `{!Named VM, !Named Net, !Named Pool}.   (* an instance is named by its ID *)

Record Combined := MkCombined { primary : B; secondary : option B; owners : gmap string side }.

Definition NewCombined (primary : B) (secondary : option B) : Combined := MkCombined primary secondary ∅.

Definition remember (id : string) (s : side) (c : Combined) : Combined :=
  MkCombined (primary c) (secondary c) (<[id := s]> (owners c)).
Definition remember_all (l : list VM) (s : side) (c : Combined) : Combined :=
  foldl (fun c vm => remember (name_of vm) s c) c l.

(** Running a method of a backend.  The secondary is never an owner when there is
    none. *)
Definition on_primary {A} (f : B -> A * B) (c : Combined) : A * Combined :=
  let '(a, b) := f (primary c) in (a, MkCombined b (secondary c) (owners c)).
Definition on_secondary {A} (f : B -> A * B) (b : B) (c : Combined) : A * Combined :=
  let '(a, b) := f b in (a, MkCombined (primary c) (Some b) (owners c)).
Definition on {A} (s : side) (f : B -> A * B) (c : Combined) : A * Combined :=
  match s, secondary c with Secondary, Some b => on_secondary f b c | _, _ => on_primary f c end.

Definition route (id : string) (c : Combined) : side * Combined :=
  match owners c !! id with
  | Some s => (s, c)
  | None =>
      match secondary c with
      | Some b =>
          match on_secondary (be_GetDomain id) b c with
          | (Ok _, c) => (Secondary, remember id Secondary c)
          | (Err _, c) => (Primary, c)
          end
      | None => (Primary, c)
      end
  end.

Definition ListDomains (c : Combined) : res error (list VM) * Combined :=
  match on_primary be_ListDomains c with
  | (Err e, c) => (Err e, c)
  | (Ok prim, c) =>
      let c := remember_all prim Primary c in
      match secondary c with
      | None => (Ok prim, c)
      | Some b =>
          match on_secondary be_ListDomains b c with
          | (Err _, c) => (Ok prim, c)
          | (Ok extra, c) => (Ok (prim ++ extra), remember_all extra Secondary c)
          end
      end
  end.

Definition GetDomain (id : string) (c : Combined) : res error VM * Combined :=
  match on_primary (be_GetDomain id) c with
  | (Ok vm, c) => (Ok vm, remember id Primary c)
  | (Err e, c) =>
      match secondary c with
      | None => (Err e, c)
      | Some b =>
          match on_secondary (be_GetDomain id) b c with
          | (Ok vm, c) => (Ok vm, remember id Secondary c)
          | (Err _, c) => (Err e, c)
          end
      end
  end.

Definition CreateDomain (req : CreateVMRequest) (c : Combined) : res error VM * Combined :=
  if negb (String.eqb (Image req) "") || String.eqb (cr_Type req) "container" then
    match secondary c with
    | None => (Err ErrNotImplemented, c)
    | Some b =>
        match on_secondary (be_CreateDomain req) b c with
        | (Ok vm, c) => (Ok vm, remember (name_of vm) Secondary c)
        | (Err e, c) => (Err e, c)
        end
    end
  else on_primary (be_CreateDomain req) c.

(** Every instance-scoped method. *)
Definition routed (op : instance_op) (id : string) (a : Arg) (c : Combined) : Ans * Combined :=
  let '(s, c) := route id c in on s (be_instance op id a) c.

(** ** Incus images *)

Definition ListIncusProfiles (c : Combined) : res error (list string) * Combined :=
  match secondary c with Some b => on_secondary be_ListIncusProfiles b c | None => (Ok [], c) end.
Definition ListIncusImages (c : Combined) : res error (list Img) * Combined :=
  match secondary c with Some b => on_secondary be_ListIncusImages b c | None => (Ok [], c) end.
Definition PullIncusImage (ref : string) (c : Combined) : option error * Combined :=
  match secondary c with Some b => on_secondary (be_PullIncusImage ref) b c | None => (Some ErrNotImplemented, c) end.
Definition DeleteIncusImage (fingerprint : string) (c : Combined) : option error * Combined :=
  match secondary c with Some b => on_secondary (be_DeleteIncusImage fingerprint) b c | None => (Some ErrNotImplemented, c) end.
Definition GetIncusImagesVolume (c : Combined) : res error string * Combined :=
  match secondary c with Some b => on_secondary be_GetIncusImagesVolume b c | None => (Err ErrNotImplemented, c) end.
Definition SetIncusImagesVolume (pool volume : string) (c : Combined) : option error * Combined :=
  match secondary c with Some b => on_secondary (be_SetIncusImagesVolume pool volume) b c | None => (Some ErrNotImplemented, c) end.

(** ** Merged lists *)

(** The first of every name. *)
Fixpoint dedupe {A} `{Named A} (seen : list string) (l : list A) : list A :=
  match l with
  | [] => []
  | a :: l => if bool_decide (name_of a ∈ seen) then dedupe seen l else a :: dedupe (name_of a :: seen) l
  end.

Definition merged {A} `{Named A} (f : B -> res error (list A) * B) (c : Combined) : res error (list A) * Combined :=
  match on_primary f c with
  | (Err e, c) => (Err e, c)
  | (Ok prim, c) =>
      match secondary c with
      | None => (Ok (dedupe [] prim), c)
      | Some b =>
          match on_secondary f b c with
          | (Ok sec, c) => (Ok (dedupe [] (prim ++ sec)), c)
          | (Err _, c) => (Ok (dedupe [] prim), c)
          end
      end
  end.

Definition ListNetworks : Combined -> res error (list Net) * Combined := merged be_ListNetworks.
Definition ListStoragePools : Combined -> res error (list Pool) * Combined := merged be_ListStoragePools.

Definition NetworkLeases (name : string) (c : Combined) : res error (list Lease) * Combined :=
  match on_primary (be_NetworkLeases name) c with
  | (Ok (l :: ls), c) => (Ok (l :: ls), c)
  | (r, c) =>
      match secondary c with
      | None => (r, c)
      | Some b =>
          match on_secondary (be_NetworkLeases name) b c with
          | (Ok (l :: ls), c) => (Ok (l :: ls), c)
          | (_, c) => (r, c)
          end
      end
  end.

(** ** Storage *)

Definition ListStorageVolumes (pool : string) (c : Combined) : res error (list Vol) * Combined :=
  match on_primary (be_ListStorageVolumes pool) c with
  | (Ok l, c) => (Ok l, c)
  | (Err e, c) =>
      match secondary c with
      | None => (Err e, c)
      | Some b => match on_secondary (be_ListStorageVolumes pool) b c with (Ok l, c) => (Ok l, c) | (Err _, c) => (Err e, c) end
      end
  end.

Definition DeleteStorageVolume (pool vol : string) (c : Combined) : option error * Combined :=
  match on_primary (be_DeleteStorageVolume pool vol) c with
  | (None, c) => (None, c)
  | (Some e, c) =>
      match secondary c with
      | None => (Some e, c)
      | Some b => match on_secondary (be_DeleteStorageVolume pool vol) b c with (None, c) => (None, c) | (Some _, c) => (Some e, c) end
      end
  end.

Definition CreateStoragePool (req : CreatePoolRequest) (c : Combined) : res error Pool * Combined :=
  if String.eqb (Purpose req) "container" || String.eqb (Purpose req) "lxc" || has_prefix "incus-" (pr_Type req)
     || String.eqb (pr_Type req) "container" then
    match secondary c with
    | Some b => on_secondary (be_CreateStoragePool req) b c
    | None => (Err ErrNotImplemented, c)
    end
  else on_primary (be_CreateStoragePool req) c.

(** Whether a backend has the pool; the probe may answer that a pool has no
    path, which means that it exists. *)
Definition lives (r : res error string) : bool :=
  match r with Ok _ => true | Err e => contains_str "no filesystem path" (Error e) end.
Definition poolLivesIn (s : side) (name : string) (c : Combined) : bool * Combined :=
  let '(r, c) := on s (be_GetPoolPath name) c in (lives r, c).

(** The sides there are, primary first. *)
Definition backends (c : Combined) : list side :=
  match secondary c with Some _ => [Primary; Secondary] | None => [Primary] end.

(** What the attempts on the sides came to. *)
Record attempts := MkAttempts { firstErr : option error; deleted : bool; probed : bool }.
Definition attempt (name : string) (s : side) (a : attempts * Combined) : attempts * Combined :=
  let '(a, c) := a in
  let '(here, c) := poolLivesIn s name c in
  if negb here then (a, c) else
  match on s (be_DeletePool name) c with
  | (Some e, c) => (MkAttempts (match firstErr a with None => Some e | e => e end) (deleted a) true, c)
  | (None, c) => (MkAttempts (firstErr a) true true, c)
  end.

Definition blind_delete (name : string) (c : Combined) : option error * Combined :=
  match on_primary (be_DeletePool name) c with
  | (None, c) => (None, c)
  | (Some e, c) =>
      match secondary c with
      | None => (Some e, c)
      | Some b => match on_secondary (be_DeletePool name) b c with (None, c) => (None, c) | (Some _, c) => (Some e, c) end
      end
  end.

Definition DeletePool (name : string) (c : Combined) : option error * Combined :=
  let '(a, c) := foldl (fun a s => attempt name s a) (MkAttempts None false false, c) (backends c) in
  if deleted a then (firstErr a, c)
  else match firstErr a with
       | Some e => (Some e, c)
       | None => if probed a then (None, c) else blind_delete name c
       end.

Definition quoted (s : string) : string := String "034" (s +:+ String "034" "").

Definition MoveDomainStorage (id destPool : string) (c : Combined) : option error * Combined :=
  let '(owner, c) := route id c in
  let '(here, c) := poolLivesIn owner destPool c in
  if negb here then (Some (ErrCrossBackendMove ("pool " +:+ quoted destPool +:+ " belongs to a different hypervisor")), c)
  else on owner (be_MoveDomainStorage id destPool) c.

Fixpoint move_volume (srcPool volName destPool : string) (l : list side) (c : Combined) : option error * Combined :=
  match l with
  | [] => (Some (ErrText ("storage pool " +:+ quoted srcPool +:+ " not found")), c)
  | s :: l =>
      let '(here, c) := poolLivesIn s srcPool c in
      if negb here then move_volume srcPool volName destPool l c else
      let '(there, c) := poolLivesIn s destPool c in
      if negb there
      then (Some (ErrCrossBackendMove (quoted srcPool +:+ " and " +:+ quoted destPool +:+ " are served by different hypervisors")), c)
      else on s (be_MoveVolume srcPool volName destPool) c
  end.
Definition MoveVolume (srcPool volName destPool : string) (c : Combined) : option error * Combined :=
  move_volume srcPool volName destPool (backends c) c.

Definition GetPoolPath (name : string) (c : Combined) : res error string * Combined :=
  match secondary c with
  | None => on_primary (be_GetPoolPath name) c
  | Some b => match on_secondary (be_GetPoolPath name) b c with
              | (Ok p, c) => (Ok p, c)
              | (Err _, c) => on_primary (be_GetPoolPath name) c
              end
  end.

(** ** Imports *)

(** The names of the entries of an archive, as far as they can be read; [None]
    when the file cannot be opened or decompressed. *)
Fixpoint native_backup (fuel : nat) (names : list string) : bool :=
  match fuel, names with
  | S fuel, name :: names =>
      if has_prefix "backup/" name || String.eqb name "backup/index.yaml" || has_prefix "backup/container" name then true
      else if String.eqb name "backup.yaml" || String.eqb name "index.yaml" then true
      else if String.eqb name "domain.xml" then false
      else native_backup fuel names
  | _, _ => false
  end.
Definition isIncusBackupArchive (names : option (list string)) : bool :=
  match names with Some l => native_backup 20 l | None => false end.

Definition ImportDomain (names : option (list string)) (tarPath newName pool : string) (opts : ImportOpts) (c : Combined)
    : res error (string * string * list string) * Combined :=
  match isIncusBackupArchive names, secondary c with
  | true, Some b =>
      if negb (Admin opts) && negb (GeneratedConfig opts)
      then (Err (ErrForbidden "importing a native container backup requires an administrator"), c)
      else on_secondary (be_ImportDomain tarPath newName pool opts) b c
  | _, _ => on_primary (be_ImportDomain tarPath newName pool opts) c
  end.

(** ** Facts *)

Section Dedupe.
Context {A : Type} `{!Named A}.

Lemma dedupe_seen l : forall seen a, a ∈ dedupe seen l -> a ∈ l /\ name_of a ∉ seen.
Proof.
  induction l as [|x l IH]; intros seen a H; simpl in H; [by apply elem_of_nil in H|].
  case_bool_decide as Hx.
  - apply IH in H as [? ?]. split; [by right|done].
  - apply elem_of_cons in H as [->|H]; [split; [by left|done]|]. apply IH in H as [? Hn]. split; [by right|].
    intros Ha. apply Hn. by right.
Qed.

Lemma dedupe_NoDup l : forall seen, NoDup (map name_of (dedupe seen l)).
Proof.
  induction l as [|x l IH]; intros seen; simpl; [constructor|]. case_bool_decide; [done|]. simpl. constructor; [|done].
  intros (y & E & Hy)%list_elem_of_fmap. apply dedupe_seen in Hy as [_ Hy]. apply Hy. rewrite <- E. by left.
Qed.

(** The first of a name stays. *)
Lemma dedupe_first l : forall seen l1 a l2, l = l1 ++ a :: l2 -> name_of a ∉ seen -> name_of a ∉ map name_of l1 -> a ∈ dedupe seen l.
Proof.
  induction l as [|x l IH]; intros seen l1 a l2 E Hs Hn; [by destruct l1|].
  destruct l1 as [|y l1]; simpl in *; injection E as -> ->.
  - rewrite bool_decide_eq_false_2 by done. by left.
  - apply not_elem_of_cons in Hn as [Hy Hn]. case_bool_decide; [by eapply IH|]. right. eapply IH; [done| |done].
    by apply not_elem_of_cons.
Qed.

Lemma dedupe_names l : forall seen n, n ∈ map name_of l -> n ∉ seen -> n ∈ map name_of (dedupe seen l).
Proof.
  induction l as [|x l IH]; intros seen n H Hs; simpl in *; [done|]. case_bool_decide as Hx.
  - apply IH; [|done]. apply elem_of_cons in H as [->|H]; done.
  - simpl. destruct (decide (n = name_of x)) as [->|Hn]; [by left|]. right.
    apply elem_of_cons in H as [?|H]; [done|]. apply IH; [done|]. by apply not_elem_of_cons.
Qed.
End Dedupe.

Lemma on_primary_run {A} (f : B -> A * B) c :
  on_primary f c = ((f (primary c)).1, MkCombined (f (primary c)).2 (secondary c) (owners c)).
Proof. unfold on_primary. by destruct (f _). Qed.

Lemma on_secondary_run {A} (f : B -> A * B) b c :
  on_secondary f b c = ((f b).1, MkCombined (primary c) (Some (f b).2) (owners c)).
Proof. unfold on_secondary. by destruct (f _). Qed.

(** A broken container daemon hides no virtual machine, network or pool, and
    duplicates never reach the interface.  When the primary fails so does the
    list; otherwise every entry of the primary with a name of its own is listed,
    whether the secondary answers or not, every name either of them knows is
    listed, and no name twice. *)
Theorem merged_lists_exact {A} `{!Named A} (f : B -> res error (list A) * B) c :
  match (f (primary c)).1 with
  | Err e => (merged f c).1 = Err e
  | Ok prim => exists out, (merged f c).1 = Ok out /\ NoDup (map name_of out) /\
      (forall l1 a l2, prim = l1 ++ a :: l2 -> name_of a ∉ map name_of l1 -> a ∈ out) /\
      match secondary c with
      | Some b =>
          match (f b).1 with
          | Ok sec => forall n, n ∈ map name_of out <-> n ∈ map name_of prim \/ n ∈ map name_of sec
          | Err _ => forall n, n ∈ map name_of out <-> n ∈ map name_of prim
          end
      | None => forall n, n ∈ map name_of out <-> n ∈ map name_of prim
      end
  end.
Proof.
  assert (forall l : list A, NoDup (map name_of (dedupe [] l)) /\ (forall n, n ∈ map name_of (dedupe [] l) <-> n ∈ map name_of l)) as Hd.
  { intros l. split; [apply dedupe_NoDup|]. intros n. split; [|intros; apply dedupe_names; [done|apply not_elem_of_nil]].
    intros (a & -> & [Ha _]%dedupe_seen)%list_elem_of_fmap. by apply list_elem_of_fmap_2. }
  unfold merged. rewrite on_primary_run. destruct (f (primary c)) as [[prim|e] p]; cbn [fst snd secondary]; [|done].
  assert (forall sec l1 a l2, prim = l1 ++ a :: l2 -> name_of a ∉ map name_of l1 -> a ∈ dedupe [] (prim ++ sec)) as Hf.
  { intros sec l1 a l2 -> Hn. eapply dedupe_first; [by rewrite <- app_assoc|by apply not_elem_of_nil|done]. }
  pose proof (Hf []) as Hf0. rewrite app_nil_r in Hf0.
  destruct (secondary c) as [b|]; [|exists (dedupe [] prim); destruct (Hd prim); by split_and!].
  rewrite on_secondary_run. destruct (f b) as [[sec|e] b']; cbn [fst].
  - exists (dedupe [] (prim ++ sec)). destruct (Hd (prim ++ sec)) as [H1 H2]. split_and!; [done|done|apply Hf|].
    intros n. by rewrite H2, map_app, elem_of_app.
  - exists (dedupe [] prim). destruct (Hd prim). by split_and!.
Qed.

(** ** Who acts *)

(** The states of both sides. *)
Definition sides (c : Combined) : B * option B := (primary c, secondary c).

Lemma on_keeps_primary {A} s (f : B -> A * B) c b : secondary c = Some b -> s = Secondary -> primary (on s f c).2 = primary c.
Proof. intros Hb ->. unfold on. by rewrite Hb, on_secondary_run. Qed.

Lemma on_keeps_secondary {A} (f : B -> A * B) c : secondary (on Primary f c).2 = secondary c.
Proof. unfold on. destruct (secondary c) eqn:E; by rewrite on_primary_run. Qed.

Section Probes.
(** Asking where an instance or a pool is changes nothing. *)
Context (Hpath : forall name b, (be_GetPoolPath name b).2 = b) (Hget : forall id b, (be_GetDomain id b).2 = b).

Definition here (s : side) (name : string) (c : Combined) : bool :=
  match s, secondary c with Secondary, Some b => lives (be_GetPoolPath name b).1 | _, _ => lives (be_GetPoolPath name (primary c)).1 end.

Lemma probe s name c : poolLivesIn s name c = (here s name c, c).
Proof.
  unfold poolLivesIn, on, here. destruct s, (secondary c) as [b|] eqn:E; rewrite ?on_primary_run, ?on_secondary_run, Hpath;
    destruct c; cbn in *; by subst.
Qed.

(** Where an instance is looked for. *)
Definition owner (id : string) (c : Combined) : side :=
  match owners c !! id with
  | Some s => s
  | None => match secondary c with Some b => if is_ok (be_GetDomain id b).1 then Secondary else Primary | None => Primary end
  end.

Lemma route_spec id c : (route id c).1 = owner id c /\ sides (route id c).2 = sides c.
Proof.
  unfold route, owner, sides. destruct (owners c !! id); [done|]. destruct (secondary c) as [b|] eqn:E; [|cbn; by rewrite E].
  rewrite on_secondary_run, Hget. destruct (be_GetDomain id b) as [[vm|e] b']; cbn; by rewrite ?E.
Qed.

(** Only the side [s] was changed. *)
Definition only (s : side) (c c' : Combined) : Prop :=
  match s with Primary => secondary c' = secondary c | Secondary => is_Some (secondary c) -> primary c' = primary c end.

Lemma on_only {A} s (f : B -> A * B) c : only s c (on s f c).2.
Proof.
  destruct s; cbn; [apply on_keeps_secondary|]. intros [b Hb]. exact (on_keeps_primary Secondary f c b Hb eq_refl).
Qed.

(** Storage never crosses the hypervisors.  A move of an instance's storage,
    or of a volume, either reaches one backend that knows the destination, and
    then leaves the other alone, or is refused and changes neither; and an
    operation on an instance changes only the backend the instance is routed to. *)
Theorem moves_stay_on_one_side c id src vol dest op (a : Arg) :
  (let '(e, c') := MoveDomainStorage id dest c in
     if here (owner id c) dest c then only (owner id c) c c'
     else sides c' = sides c /\ exists m, e = Some (ErrCrossBackendMove m)) /\
  (let '(e, c') := MoveVolume src vol dest c in
     match List.find (fun s => here s src c) (backends c) with
     | Some s => if here s dest c then only s c c' else c' = c /\ exists m, e = Some (ErrCrossBackendMove m)
     | None => c' = c /\ exists m, e = Some (ErrText m)
     end) /\
  only (owner id c) c (routed op id a c).2.
Proof.
  pose proof (route_spec id c) as [Ho Hs]. split_and!.
  - unfold MoveDomainStorage. destruct (route id c) as [s c1]. cbn in Ho, Hs. subst s. rewrite probe.
    assert (here (owner id c) dest c1 = here (owner id c) dest c) as ->.
    { unfold here. injection Hs as -> ->. done. }
    destruct (here _ _ _); cbn [negb]; [|split; [done|by eexists]].
    pose proof (on_only (owner id c) (be_MoveDomainStorage id dest) c1) as H. destruct (on _ _ _) as [e c']. cbn in H.
    unfold only in *. injection Hs as Hp Hs. by rewrite Hp, Hs in H.
  - unfold MoveVolume. induction (backends c) as [|s l IH]; cbn; [by split; [|eexists]|]. rewrite probe.
    destruct (here s src c) eqn:E; cbn [negb]; [|apply IH]. rewrite probe. destruct (here s dest c); cbn [negb]; [|by split; [|eexists]].
    pose proof (on_only s (be_MoveVolume src vol dest) c) as H. by destruct (on _ _ _).
  - unfold routed. destruct (route id c) as [s c1]. cbn in Ho, Hs. subst s.
    pose proof (on_only (owner id c) (be_instance op id a) c1) as H. unfold only in *. injection Hs as Hp Hs.
    by rewrite Hp, Hs in H.
Qed.
End Probes.

(** No user but an administrator hands an archive to the container daemon.
    Whatever the archive, the secondary backend is unchanged unless the request
    is an administrator's or the archive's configuration is the server's own;
    a native backup is then refused, and anything else goes to the primary. *)
Theorem import_needs_admin names tarPath newName pool opts c :
  Admin opts = false -> GeneratedConfig opts = false ->
  let '(r, c') := ImportDomain names tarPath newName pool opts c in
  secondary c' = secondary c /\
  (isIncusBackupArchive names = true -> is_Some (secondary c) -> (exists m, r = Err (ErrForbidden m)) /\ primary c' = primary c).
Proof.
  intros Ha Hg. unfold ImportDomain. rewrite Ha, Hg. cbn [negb andb].
  destruct (isIncusBackupArchive names), (secondary c) as [b|] eqn:E; rewrite ?on_primary_run; cbn; rewrite ?E;
    (split; [done|]); intros Hn [x Hx]; try done; split; [by eexists|done].
Qed.
End Combined.
Arguments Combined : clear implicits.

(** ** Examples *)

Module CombinedDemo.
(** A libvirt looks an instance up by its UUID, else by its name; an Incus
    instance's ID is its name.  An operation answers with the ID it acted on. *)
Record fake := MkFake { is_incus : bool; instances : list (string * string); pools : list string }.
Definition find_instance (id : string) (b : fake) : option (string * string) :=
  match List.find (fun i => String.eqb i.1 id) (instances b) with
  | Some i => Some i
  | None => if is_incus b then None else List.find (fun i => String.eqb i.2 id) (instances b)
  end.
#[global] Instance named_pair : Named (string * string) := fst.
#[global] Instance named_string : Named string := fun s => s.
Definition no_pool : res error string := Err (ErrText "storage pool not found").
#[global] Instance fake_backend : Backend fake (string * string) string string string string string unit string := {|
  be_ListDomains b := (Ok (instances b), b);
  be_GetDomain id b := (match find_instance id b with Some i => Ok i | None => Err (ErrText "domain not found") end, b);
  be_CreateDomain _ b := (Err ErrNotImplemented, b);
  be_instance op id _ b :=
    match find_instance id b, op with
    | Some i, DeleteDomain => (i.1, MkFake (is_incus b) (List.filter (fun j => negb (String.eqb j.1 i.1)) (instances b)) (pools b))
    | Some i, _ => (i.1, b)
    | None, _ => ("", b)
    end;
  be_ListIncusProfiles b := (Ok [], b);
  be_ListIncusImages b := (Ok [], b);
  be_PullIncusImage _ b := (None, b);
  be_DeleteIncusImage _ b := (None, b);
  be_GetIncusImagesVolume b := (Ok "", b);
  be_SetIncusImagesVolume _ _ b := (None, b);
  be_ListNetworks b := (Ok [], b);
  be_NetworkLeases _ b := (Ok [], b);
  be_ListStoragePools b := (Ok (pools b), b);
  be_ListStorageVolumes _ b := (Ok [], b);
  be_DeleteStorageVolume _ _ b := (None, b);
  be_CreateStoragePool _ b := (Err ErrNotImplemented, b);
  be_DeletePool n b := (None, MkFake (is_incus b) (instances b) (List.filter (fun p => negb (String.eqb p n)) (pools b)));
  be_GetPoolPath n b := (if existsb (String.eqb n) (pools b) then Ok n else no_pool, b);
  be_MoveDomainStorage _ _ b := (None, b);
  be_MoveVolume _ _ _ b := (None, b);
  be_ImportDomain _ n _ _ b := (Ok (n, n, []), b)
|}.

Definition kvm : fake := MkFake false [("uuid-1", "web")] ["vms"].
Definition incus : fake := MkFake true [("web", "web")] ["containers"].
Definition both : Combined fake := NewCombined kvm (Some incus).

(** A container and a virtual machine of the same name.  Deleting the container
    deletes it, unless somebody has looked at it before: the lookup finds the
    machine, and the deletion follows. *)
Example name_decides_by_history :
  (routed DeleteDomain "web" tt both).1 = "web" /\
  (routed DeleteDomain "web" tt (GetDomain "web" both).2).1 = "uuid-1".
Proof. done. Qed.

(** An owner is remembered for ever: when the container is gone, a question about
    the name is still the daemon's, which does not know the machine. *)
Example owner_outlives_instance :
  let c := (routed DeleteDomain "web" tt both).2 in
  (routed DomainExists "web" tt c).1 = "" /\ (routed DomainExists "web" tt (NewCombined (primary c) (secondary c))).1 = "uuid-1".
Proof. done. Qed.

(** Twenty entries before the tell-tale one hide a native backup. *)
Example padding_hides_backup :
  isIncusBackupArchive (Some (repeat "x" 19 ++ ["backup/index.yaml"])) = true /\
  isIncusBackupArchive (Some (repeat "x" 20 ++ ["backup/index.yaml"])) = false.
Proof. done. Qed.
End CombinedDemo.

Lemma moves_stay_on_one_side_witness :
  let c := CombinedDemo.both in
  let '(e, c') := MoveVolume "vms" "v" "containers" c in c' = c /\ exists m, e = Some (ErrCrossBackendMove m).
Proof.
  intros c. destruct (moves_stay_on_one_side (Backend0 := CombinedDemo.fake_backend) (fun _ _ => eq_refl) (fun _ _ => eq_refl) c "web" "vms" "v" "containers" StartDomain tt)
    as (_ & H & _).
  change (let '(e, c') := MoveVolume "vms" "v" "containers" c in c' = c /\ exists m, e = Some (ErrCrossBackendMove m)) in H. exact H.
Defined.

Lemma import_needs_admin_witness :
  let '(r, c') := ImportDomain (Some ["backup.yaml"]) "/t" "n" "p" (MkImportOpts false false) CombinedDemo.both in
  secondary c' = Some CombinedDemo.incus /\ exists m, r = Err (ErrForbidden m).
Proof.
  pose proof (import_needs_admin (Some ["backup.yaml"]) "/t" "n" "p" (MkImportOpts false false) CombinedDemo.both eq_refl eq_refl) as H.
  destruct (ImportDomain _ _ _ _ _ _) as [r c']. destruct H as [H1 H2]. split; [exact H1|].
  apply H2; [reflexivity|]. exists CombinedDemo.incus. reflexivity.
Defined.
