(* ===== verification/ImgSafe.v ===== *)
(** * ImgSafe: disk images from strangers

    Models [imgsafe/imgsafe.go] and the confinement of [fsutil]: what is refused
    before [qemu-img] or a hypervisor opens an uploaded or restored image.
    [qemu-img] is a third party's: what it says of a file, opened as a given
    format or as the one it guesses, is a parameter, and so is the file system. *)

From S2P Require Export Acl Dict.
Open Scope Z_scope.

Definition okFormats : list string := ["raw"; "qcow2"; "vmdk"; "vpc"; "vhdx"; "vdi"; "qed"].
Definition ok_format (f : string) : bool := existsb (String.eqb f) okFormats.

Definition FormatFromExt (name : string) : string :=
  let ext := to_lower (Ext name) in
  if String.eqb ext ".qcow2" then "qcow2"
  else if String.eqb ext ".img" || String.eqb ext ".raw" then "raw"
  else if String.eqb ext ".vmdk" then "vmdk"
  else if String.eqb ext ".vdi" then "vdi"
  else if String.eqb ext ".vhdx" then "vhdx"
  else if String.eqb ext ".vhd" then "vpc"
  else if String.eqb ext ".qed" then "qed"
  else "".

(** [Data]: the format-specific part, empty when it is not an object. *)
Record Info := MkInfo {
  Format : string; VirtualSize : Z; Backing : string; FullBacking : string; BackingFmt : string; Data : dict
}.

Inductive img_error :=
| UnsupportedFormat | BadPath | QemuFailed | FormatMismatch | HasBacking | DataFile | ExtentOutside (filename : string)
| ChainLeaves (file : string) | ChainTooLong | BadName | FileExists | ConvertFailed.

Definition str_at (k : string) (d : dict) : string := match dget k d with Some (VString s) => s | _ => "" end.

Section ImgSafe.
Context (EvalSymlinks : string -> option string) (is_regular : string -> option bool).
(** [os.SameFile] of two paths that can be examined. *)
Context (sameFile : string -> string -> bool).
(** [qemu-img info] of a file as a format; [""]: the format is guessed. *)
Context (qemu_info : string -> string -> option Info).

Abbreviation Resolve := (ResolveRegular EvalSymlinks is_regular).

(** ** [fsutil] *)

Definition strip_slashes : string -> string := trim_right_set (fun c => Ascii.eqb c "/").
Definition InRoots (real : string) (roots : list string) : bool :=
  existsb (fun r => if String.eqb r "" then false else
    match EvalSymlinks r with Some rr => has_prefix (strip_slashes rr +:+ "/") real | None => false end) roots.

Definition ResolveInRoots (p : string) (roots : list string) : option string :=
  real ← Resolve p; if InRoots real roots then Some real else None.

Definition exclusive_name (name : string) : bool :=
  negb (String.eqb name "" || negb (String.eqb name (Base name)) || String.eqb name "." || String.eqb name "..").

(** ** One image *)

Definition extent_ok (real : string) (e : value) : bool :=
  let fn := str_at "filename" (match e with VObj m => m | _ => [] end) in
  negb (String.eqb fn "" || (negb (String.eqb (Clean fn) (Clean real)) && negb (sameFile fn real))).

Definition check (out : option Info) (real declared : string) : res img_error Info :=
  match out with
  | None => Err QemuFailed
  | Some i =>
      if negb (String.eqb (Format i) declared) then Err FormatMismatch
      else if negb (String.eqb (Backing i) "") || negb (String.eqb (FullBacking i) "") then Err HasBacking
      else if negb (String.eqb (str_at "data-file" (Data i)) "") then Err DataFile
      else if String.eqb (Format i) "vmdk" then
        match List.find (fun e => negb (extent_ok real e)) (match dget "extents" (Data i) with Some (VArr l) => l | _ => [] end) with
        | Some e => Err (ExtentOutside (str_at "filename" (match e with VObj m => m | _ => [] end)))
        | None => Ok i
        end
      else Ok i
  end.

Definition Inspect (path declared : string) : res img_error Info :=
  if negb (ok_format declared) then Err UnsupportedFormat else
  match Resolve path with
  | None => Err BadPath
  | Some real => check (qemu_info declared real) real declared
  end.

(** ** Conversion *)

Section Convert.
(** What a conversion makes of a source, if it succeeds, and whether the
    directory can be written. *)
Context (qemu_convert : string -> string -> option string) (dir_ok : bool).

Definition Convert (src dst declared : string) (files : gmap string string) : option img_error * gmap string string :=
  match Inspect src declared with
  | Err e => (Some e, files)
  | Ok _ =>
      let path := GoPath.Join [Dir dst; Base dst] in
      if negb (exclusive_name (Base dst)) || negb dir_ok then (Some BadName, files) else
      match files !! path with
      | Some _ => (Some FileExists, files)
      | None =>
          match qemu_convert declared src with
          | Some out => (None, <[dst := out]> (<[path := ""]> files))
          | None => (Some ConvertFailed, delete dst (<[path := ""]> files))
          end
      end
  end.
End Convert.

(** ** Chains of backing files *)

Definition next_file (i : Info) (real : string) : string :=
  let next := if String.eqb (FullBacking i) "" then Backing i else FullBacking i in
  if IsAbs next then next else GoPath.Join [Dir real; next].

(** One round of the loop: the file is refused, is the last one, or names the
    next file and its format. *)
Definition visit (rr cur declared : string) (first : bool) : res img_error (string * option (string * string)) :=
  if negb first && negb (has_prefix (strip_slashes rr +:+ "/") (Clean cur)) then Err (ChainLeaves cur) else
  match Resolve cur with
  | None => Err BadPath
  | Some real =>
      if negb (InRoots real [rr]) then Err (ChainLeaves real) else
      match qemu_info declared real with
      | None => Err QemuFailed
      | Some i =>
          if negb (String.eqb declared "") && negb (String.eqb (Format i) declared) then Err FormatMismatch
          else if negb (String.eqb (str_at "data-file" (Data i)) "") then Err DataFile
          else if String.eqb (Backing i) "" then Ok (real, None)
          else Ok (real, Some (next_file i real, if ok_format (BackingFmt i) then BackingFmt i else ""))
      end
  end.

Fixpoint follow (fuel : nat) (rr cur declared : string) (first : bool) : option img_error :=
  match fuel with
  | O => Some ChainTooLong
  | S fuel =>
      match visit rr cur declared first with
      | Err e => Some e
      | Ok (_, None) => None
      | Ok (_, Some (next, fmt)) => follow fuel rr next fmt false
      end
  end.

(** [None]: accepted. *)
Definition CheckChainInside (path declared root : string) : option img_error :=
  match EvalSymlinks root with Some rr => follow 64 rr path declared true | None => Some BadPath end.

(** ** Facts *)

Definition under (rr real : string) : Prop := has_prefix (strip_slashes rr +:+ "/") real = true.

(** A canonical path to a regular file. *)
Definition plain_file (p : string) : Prop :=
  IsAbs p = true /\ contains_str ".." p = false /\ Clean p = p /\ is_regular p = Some true.

Lemma Clean_Clean p : IsAbs p = true -> Clean (Clean p) = Clean p.
Proof. intros H. destruct (Clean_is_abs p H) as (l & Hl & ->). by apply Clean_abs. Qed.

Lemma Resolve_plain p real : Resolve p = Some real -> plain_file real.
Proof.
  unfold ResolveRegular. destruct (_ || _); [done|]. destruct (EvalSymlinks (Clean p)) as [q|]; [|done]. cbv zeta.
  destruct (IsAbs (Clean q)) eqn:Ea; [|done]. destruct (contains_str ".." (Clean q)) eqn:Ed; [done|]. cbn [negb orb].
  destruct (is_regular (Clean q)) as [[]|] eqn:Er; [|done..]. intros [= <-]. split_and!; [done..| |done].
  apply Clean_Clean. by rewrite <- IsAbs_Clean.
Qed.

Lemma InRoots_one real rr : InRoots real [rr] = true -> EvalSymlinks rr = Some rr -> under rr real.
Proof. unfold InRoots, under. cbn. intros H E. rewrite E, orb_false_r in H. by destruct (String.eqb rr ""). Qed.

(** What an accepted image is. *)
Record harmless (real declared : string) (i : Info) : Prop := {
  hl_file : plain_file real;
  hl_info : qemu_info declared real = Some i;
  hl_format : Format i = declared /\ declared ∈ okFormats;
  hl_backing : Backing i = "" /\ FullBacking i = "";
  hl_data : str_at "data-file" (Data i) = "";
  hl_extents : declared = "vmdk" -> forall l e, dget "extents" (Data i) = Some (VArr l) -> In e l ->
    exists fn, fn = str_at "filename" (match e with VObj m => m | _ => [] end) /\ fn <> "" /\
      (Clean fn = real \/ sameFile fn real = true)
}.

Lemma eqb_empty s : negb (String.eqb s "") = false <-> s = "".
Proof. rewrite negb_false_iff. apply String.eqb_eq. Qed.

Lemma check_harmless i0 real declared i : plain_file real -> ok_format declared = true -> i0 = qemu_info declared real ->
  check i0 real declared = Ok i <-> harmless real declared i.
Proof.
  intros Hf Hok ->. assert (declared ∈ okFormats) as Hin.
  { unfold ok_format in Hok. apply existsb_exists in Hok as (x & Hx & ->%String.eqb_eq). by apply list_elem_of_In. }
  unfold check. split.
  - destruct (qemu_info declared real) as [j|] eqn:Ei; [|done].
    destruct (String.eqb_spec (Format j) declared) as [Ef|]; [|done]. cbn [negb].
    destruct (negb (String.eqb (Backing j) "") || _) eqn:Eb; [done|]. apply orb_false_elim in Eb as [Eb1%eqb_empty Eb2%eqb_empty].
    destruct (negb (String.eqb (str_at _ _) "")) eqn:Ed; [done|]. apply eqb_empty in Ed. rewrite Ef.
    assert (forall e, extent_ok real e = true -> exists fn, fn = str_at "filename" (match e with VObj m => m | _ => [] end) /\
      fn <> "" /\ (Clean fn = real \/ sameFile fn real = true)) as He.
    { intros e H. unfold extent_ok in H. eexists. split; [reflexivity|]. apply negb_true_iff, orb_false_elim in H as [H1 H2].
      split; [by apply String.eqb_neq|]. apply andb_false_elim in H2 as [H2|H2]; apply negb_false_iff in H2; [|by right].
      left. apply String.eqb_eq in H2. rewrite H2. apply Hf. }
    destruct (String.eqb_spec declared "vmdk") as [->|Hn].
    + destruct (List.find _ _) eqn:Es; [done|]. intros [= <-]. split; try done. intros _ l e El Hl. apply He.
      rewrite El in Es. pose proof (find_none _ _ Es e Hl) as H. by apply negb_false_iff in H.
    + intros [= <-]. by split.
  - intros H. rewrite (hl_info _ _ _ H). destruct (hl_format _ _ _ H) as [-> _]. rewrite String.eqb_refl. cbn [negb].
    destruct (hl_backing _ _ _ H) as [-> ->]. cbn [String.eqb negb orb]. rewrite (hl_data _ _ _ H). cbn [String.eqb negb].
    destruct (String.eqb_spec declared "vmdk") as [Hv|]; [|done]. destruct (List.find _ _) as [e|] eqn:Es; [|done]. exfalso.
    destruct (dget "extents" (Data i)) as [[]|] eqn:El; try done. apply find_some in Es as [Hl Hb].
    destruct (hl_extents _ _ _ H Hv l e El Hl) as (fn & Efn & Hne & Hsame). apply negb_true_iff in Hb. unfold extent_ok in Hb.
    rewrite <- Efn in Hb. apply negb_false_iff, orb_true_iff in Hb as [Hb|Hb]; [by apply String.eqb_eq in Hb|].
    apply andb_prop in Hb as [H1 H2]. apply negb_true_iff in H1, H2. destruct Hsame as [Hs|Hs]; [|congruence].
    apply String.eqb_neq in H1. apply H1. rewrite Hs. symmetry. apply Hf.
Qed.

(** Nothing but the image.  An uploaded image is accepted exactly when its
    declared format is a known one, its path leads to a regular file, and
    [qemu-img], told to read it as that format, finds that format, no backing file,
    no external data file and, for a VMDK, no extent that is not the image itself. *)
Theorem Inspect_exact path declared i :
  Inspect path declared = Ok i <-> exists real, Resolve path = Some real /\ harmless real declared i.
Proof.
  unfold Inspect. split.
  - destruct (ok_format declared) eqn:Eo; [|done]. cbn [negb]. destruct (Resolve path) as [real|] eqn:Er; [|done].
    intros H. exists real. split; [done|]. by eapply check_harmless; [eapply Resolve_plain| | |].
  - intros (real & Er & H). assert (ok_format declared = true) as Eo.
    { destruct (hl_format _ _ _ H) as [_ Hin]. apply existsb_exists. exists declared. split; [by apply list_elem_of_In|apply String.eqb_refl]. }
    rewrite Eo, Er. cbn [negb]. by apply check_harmless; [eapply Resolve_plain| | |].
Qed.

(** A file that may be part of a chain, and what is known of it. *)
Record member (rr : string) (first : bool) (cur declared real : string) (i : Info) : Prop := {
  mb_lexical : first = true \/ under rr (Clean cur);
  mb_file : Resolve cur = Some real;
  mb_root : InRoots real [rr] = true;
  mb_info : qemu_info declared real = Some i;
  mb_format : declared = "" \/ Format i = declared;
  mb_data : str_at "data-file" (Data i) = ""
}.

Definition next_format (i : Info) : string := if ok_format (BackingFmt i) then BackingFmt i else "".

(** The files an image needs, in order. *)
Inductive backing_chain (rr : string) : bool -> string -> string -> list string -> Prop :=
| bc_last first cur declared real i :
    member rr first cur declared real i -> Backing i = "" -> backing_chain rr first cur declared [real]
| bc_more first cur declared real i l :
    member rr first cur declared real i -> Backing i <> "" -> backing_chain rr false (next_file i real) (next_format i) l ->
    backing_chain rr first cur declared (real :: l).

Lemma visit_member rr cur declared first real nxt :
  visit rr cur declared first = Ok (real, nxt) <-> exists i, member rr first cur declared real i /\
    nxt = if String.eqb (Backing i) "" then None else Some (next_file i real, next_format i).
Proof.
  unfold visit. split.
  - destruct (negb first && _) eqn:El; [done|]. destruct (Resolve cur) as [r|] eqn:Er; [|done].
    destruct (InRoots r [rr]) eqn:Ei; [|done]. cbn [negb]. destruct (qemu_info declared r) as [i|] eqn:Eq; [|done].
    destruct (negb (String.eqb declared "") && _) eqn:Ef; [done|]. destruct (negb (String.eqb (str_at _ _) "")) eqn:Ed; [done|].
    apply eqb_empty in Ed. intros H. exists i.
    assert (r = real /\ nxt = if String.eqb (Backing i) "" then None else Some (next_file i r, next_format i)) as [<- Hn]
      by (destruct (String.eqb (Backing i) ""); injection H as <- <-; done).
    split; [|done]. split; [|done..| |done].
    + apply andb_false_elim in El as [H1|H1]; apply negb_false_iff in H1; [by left|by right].
    + apply andb_false_elim in Ef as [H1|H1]; apply negb_false_iff, String.eqb_eq in H1; auto.
  - intros (i & [Hl -> -> -> Hf ->] & ->). cbn [negb String.eqb].
    replace (negb first && _) with false by (unfold under in Hl; destruct Hl as [->| ->]; [done|]; by rewrite andb_false_r).
    replace (negb (String.eqb declared "") && _) with false; [by destruct (String.eqb (Backing i) "")|].
    destruct Hf as [->|Hf]; [done|]. by rewrite Hf, String.eqb_refl, andb_false_r.
Qed.

Lemma follow_chain rr fuel : forall cur declared first,
  follow fuel rr cur declared first = None <-> exists l, backing_chain rr first cur declared l /\ (length l <= fuel)%nat.
Proof.
  induction fuel as [|fuel IH]; intros cur declared first; cbn [follow].
  { split; [done|]. intros (l & H & Hl). inversion H; subst; cbn in Hl; lia. }
  split.
  - destruct (visit rr cur declared first) as [[real nxt]|e] eqn:Ev; [|done]. apply visit_member in Ev as (i & Hm & ->).
    destruct (String.eqb_spec (Backing i) "") as [Eb|Eb]; [intros _; exists [real]; split; [by eapply bc_last|cbn; lia]|].
    intros (l & H & Hl)%IH. exists (real :: l). split; [by eapply bc_more|cbn; lia].
  - intros (l & H & Hl). inversion H as [? ? ? real i Hm Hb|? ? ? real i l' Hm Hb Hc]; subst.
    + rewrite (proj2 (visit_member rr cur declared first real None)); [done|]. exists i. by rewrite Hb.
    + rewrite (proj2 (visit_member rr cur declared first real (Some (next_file i real, next_format i)))).
      * apply IH. exists l'. split; [done|]. cbn in Hl. lia.
      * exists i. by rewrite (proj2 (String.eqb_neq _ _) Hb).
Qed.

(** An upload replaces nothing.  Converting an image, however it ends, leaves
    every file that was there as it was; it succeeds only for an accepted image
    and a free name, and a failure leaves no new file. *)
Theorem Convert_never_overwrites qemu_convert dir_ok src l c declared files :
  Forall comp l -> l <> [] -> comp c ->
  let dst := abs_path (l ++ [c]) in
  let '(e, files') := Convert qemu_convert dir_ok src dst declared files in
  (forall p x, files !! p = Some x -> files' !! p = Some x) /\
  (e <> None -> files' = files) /\
  (e = None -> files !! dst = None /\ (exists i, Inspect src declared = Ok i) /\
     exists out, qemu_convert declared src = Some out /\ files' = <[dst := out]> files).
Proof.
  intros Hl Hne Hc. cbv zeta. unfold Convert. destruct (Inspect src declared) as [i|e] eqn:Ei; [|done].
  rewrite Dir_abs, Base_abs, Join_file by done. destruct (_ || _); [done|].
  destruct (files !! _) as [x|] eqn:Ef; [done|].
  destruct (qemu_convert declared src) as [out|] eqn:Eq.
  - rewrite insert_insert_eq. split_and!; [|done|].
    + intros p x Hp. rewrite lookup_insert_ne; [done|]. intros <-. congruence.
    + intros _. split_and!; [done|by exists i|by exists out].
  - rewrite delete_insert_id by done. by split_and!.
Qed.

Context (Heval : forall p q, EvalSymlinks p = Some q -> EvalSymlinks q = Some q).

Lemma chain_under rr first cur declared l : EvalSymlinks rr = Some rr ->
  backing_chain rr first cur declared l -> Forall (fun f => plain_file f /\ under rr f) l.
Proof.
  intros Hr. induction 1 as [? ? ? real i Hm Hb|? ? ? real i l Hm Hb _ IH]; constructor; try done;
    (split; [eapply Resolve_plain, mb_file, Hm|apply InRoots_one; [eapply mb_root, Hm|done]]).
Qed.

(** C30: A restored disk stays in its pool.  A disk from an archive is accepted
    exactly when the files it is layered on, as [qemu-img] names them, are at most
    64 and all of the kind allowed; every one of them is then a regular file below
    the pool's real directory.  The walk ends for every image, also for files that
    name each other in a circle. *)
Theorem CheckChainInside_exact path declared root :
  (CheckChainInside path declared root = None <->
   exists rr l, EvalSymlinks root = Some rr /\ backing_chain rr true path declared l /\ (length l <= 64)%nat) /\
  (forall rr l, EvalSymlinks root = Some rr -> backing_chain rr true path declared l -> Forall (fun f => plain_file f /\ under rr f) l).
Proof.
  split.
  - unfold CheckChainInside. destruct (EvalSymlinks root) as [rr|] eqn:E.
    + rewrite follow_chain. split; [intros (l & H); by exists rr, l|]. intros (rr' & l & [= <-] & H). by exists l.
    + split; [done|]. by intros (? & ? & ? & _).
  - intros rr l E H. by apply (chain_under rr true path declared l (Heval _ _ E)).
Qed.
End ImgSafe.

(** ** Examples *)

Module ImgDemo.
Definition links (p : string) : option string := Some p.
Definition regular (p : string) : option bool := Some true.
Definition same (a b : string) : bool := String.eqb a b.
Definition img (fmt backing : string) (data : dict) : Info := MkInfo fmt 1024 backing backing "qcow2" data.
Definition host_disk : dict := [("extents", VArr [VObj [("filename", VString "/dev/sda")]])].

(** An overlay in the pool, its base outside it. *)
Definition escaping (declared p : string) : option Info :=
  if String.eqb p "/pool/a.qcow2" then Some (img "qcow2" "../secret/b.qcow2" []) else Some (img "qcow2" "" []).
Example escape_refused : CheckChainInside links regular escaping "/pool/a.qcow2" "qcow2" "/pool" = Some (ChainLeaves "/secret/b.qcow2").
Proof. by vm_compute. Qed.

(** Two overlays that name each other. *)
Definition circle (declared p : string) : option Info :=
  Some (img "qcow2" (if String.eqb p "/pool/a" then "/pool/b" else "/pool/a") []).
Example circle_refused : CheckChainInside links regular circle "/pool/a" "" "/pool" = Some ChainTooLong.
Proof. by vm_compute. Qed.

(** An image that is a VMDK whose data is a disk of the host is refused as an
    upload; as the base of a restored overlay it is accepted, since the chain is
    followed through backing files only. *)
Definition vmdk_base (declared p : string) : option Info :=
  if String.eqb p "/pool/a.qcow2" then Some (MkInfo "qcow2" 1024 "b.vmdk" "/pool/b.vmdk" "vmdk" [])
  else Some (img "vmdk" "" host_disk).
Example vmdk_upload_refused : Inspect links regular same vmdk_base "/pool/b.vmdk" "vmdk" = Err (ExtentOutside "/dev/sda").
Proof. by vm_compute. Qed.
Example vmdk_base_accepted : CheckChainInside links regular vmdk_base "/pool/a.qcow2" "qcow2" "/pool" = None.
Proof. by vm_compute. Qed.
End ImgDemo.

Lemma CheckChainInside_exact_witness :
  exists l, backing_chain ImgDemo.links ImgDemo.regular ImgDemo.vmdk_base "/pool" true "/pool/a.qcow2" "qcow2" l /\
    Forall (fun f => plain_file ImgDemo.regular f /\ under "/pool" f) l.
Proof.
  destruct (CheckChainInside_exact ImgDemo.links ImgDemo.regular ImgDemo.vmdk_base ltac:(intros p q [= <-]; reflexivity)
    "/pool/a.qcow2" "qcow2" "/pool") as [H1 H2].
  destruct (proj1 H1 ltac:(vm_compute; reflexivity)) as (rr & l & [= <-] & Hl & _). exists l. split; [exact Hl|].
  exact (H2 "/pool" l eq_refl Hl).
Defined.

Lemma Convert_never_overwrites_witness :
  let '(e, files) := Convert ImgDemo.links ImgDemo.regular ImgDemo.same ImgDemo.circle (fun _ _ => Some "new") true
    "/tmp/up.qcow2" "/pool/a" "qcow2" {["/pool/a" := "old"]} in files !! "/pool/a" = Some "old".
Proof.
  pose proof (Convert_never_overwrites ImgDemo.links ImgDemo.regular ImgDemo.same ImgDemo.circle (fun _ _ => Some "new") true
    "/tmp/up.qcow2" ["pool"] "a" "qcow2" {["/pool/a" := "old"]}
    ltac:(repeat constructor; discriminate) ltac:(discriminate) ltac:(repeat split; discriminate)) as H.
  cbv zeta in H. change (abs_path (["pool"] ++ ["a"])) with "/pool/a" in H.
  destruct (Convert _ _ _ _ _ _ _ _ _ _) as [e files]. apply (proj1 H). reflexivity.
Defined.
