(* ===== verification/DiskNames.v ===== *)
(** * DiskNames: the file names of a machine's disks

    Models [libvirt/disknaming.go], the free name a new disk gets, and the
    matcher of [libvirt/storage.go] that finds a deleted machine's disks by
    name. *)

From S2P Require Import Sessions.
From S2P Require Export Regex GoPath.
Open Scope Z_scope.

Definition digits : re := Regex.plus (Class is_digit).

(** [<name>[-<N>]?<ext>] *)
Definition disk_re (name ext : string) : re := Seq (lit name) (Seq (opt (Seq (lit "-") digits)) (lit ext)).

(** What [os.ReadDir] finds: no directory, an error, or the entries, with
    whether each is a directory. *)
Inductive dir_state := DirMissing | DirError | DirEntries (l : list (string * bool)).

(** The number in a matching name: 1 for the bare name, none if it does not fit
    an [int]. *)
Definition disk_number (name ext entry : string) : option Z :=
  let base := take_str (slen entry - slen ext) entry in
  if String.eqb base name then Some 1
  else match digits_value 0 (drop_str (slen name + 1) base) with
       | Some n => if n <=? int64_max then Some n else None
       | None => None
       end.

(** One round of the loop over the entries. *)
Definition scan (name ext : string) (acc : bool * Z) (e : string * bool) : bool * Z :=
  if e.2 || negb (re_match (disk_re name ext) e.1) then acc else
  (true, match disk_number name ext e.1 with Some n => Z.max n acc.2 | None => acc.2 end).

Definition numbered (name : string) (n : Z) (ext : string) : string := name +:+ "-" +:+ Itoa n +:+ ext.

Definition VMDiskPath (dir : dir_state) (poolPath newName ext : string) : option string :=
  if String.eqb newName "" || String.eqb ext "" || negb (has_prefix "." ext) then None else
  match dir with
  | DirMissing => Some (Join [poolPath; newName +:+ ext])
  | DirError => None
  | DirEntries l =>
      let '(seen, maxN) := foldl (scan newName ext) (false, 0) l in
      if negb seen then Some (Join [poolPath; newName +:+ ext])
      else Some (Join [poolPath; numbered newName (wrap64 (maxN + 1)) ext])
  end.

(** ** Sweeping *)

Definition isBaseImageCacheName (name : string) : bool := has_prefix "base-" name && has_suffix ".qcow2" name.
Definition mainRe (vm : string) : re :=
  Seq (lit vm) (Seq (opt (Seq (lit "-") digits)) (Seq (lit ".") (Alt (lit "qcow2") (lit "img")))).
Definition devRe (vm : string) : re :=
  Seq (lit vm) (Seq (lit "-") (Seq (Regex.between 2 4 (Class is_lower)) (Seq (Star (Class is_digit)) (lit ".qcow2")))).
Definition vmDiskSweepMatcher (vmName : string) (exact : list string) (name : string) : bool :=
  let named := existsb (String.eqb name) exact in
  if String.eqb vmName "" then named
  else if named then true
  else if isBaseImageCacheName name then false
  else re_match (mainRe vmName) name || re_match (devRe vmName) name.

(** ** Facts *)

Definition file_names (l : list (string * bool)) : list string := map fst (List.filter (fun e => negb e.2) l).

Lemma matches_bare name ext : re_match (disk_re name ext) (name +:+ ext) = true.
Proof.
  apply re_match_complete. apply m_seq; [apply lit_matches|]. apply (m_seq _ _ "" ext); [apply m_left; constructor|apply lit_matches].
Qed.

Lemma matches_digits s : s <> "" -> all_bytes is_digit s = true -> matches digits s.
Proof.
  destruct s as [|c s]; [done|]. intros _. cbn. intros [Hc Hs]%andb_prop. apply (m_seq _ _ (String c "") s); [by constructor|].
  clear c Hc. induction s as [|c s IH]; [constructor|]. cbn in Hs. apply andb_prop in Hs as [Hc Hs].
  apply (m_cons _ (String c "") s); [by constructor|auto].
Qed.

Lemma udec_digits fuel : forall n, 0 <= n -> all_bytes is_digit (udec fuel n) = true.
Proof.
  induction fuel as [|fuel IH]; intros n Hn; cbn [udec]; [done|]. destruct (Z.ltb_spec n 10).
  - cbn. by destruct (code_digit_char n ltac:(lia)) as [_ ->].
  - rewrite all_bytes_app, IH by (apply Z.div_pos; lia). cbn.
    by destruct (code_digit_char (n mod 10)) as [_ ->]; [apply Z.mod_pos_bound; lia|].
Qed.

Lemma Itoa_digits n : 0 <= n <= int64_max ->
  Itoa n <> "" /\ all_bytes is_digit (Itoa n) = true /\ digits_value 0 (Itoa n) = Some n.
Proof.
  unfold int64_max, Itoa. intros H. rewrite (proj2 (Z.ltb_ge n 0)) by lia.
  destruct (udec_value 20 n) as [Hv Hs]; [simpl; lia|]. destruct Hs as (c & t & E & _); [done|].
  split_and!; [by rewrite E|apply udec_digits; lia|done].
Qed.

Lemma numbered_spec name ext n : 0 <= n <= int64_max ->
  re_match (disk_re name ext) (numbered name n ext) = true /\ disk_number name ext (numbered name n ext) = Some n.
Proof.
  intros Hn. destruct (Itoa_digits n Hn) as (H1 & H2 & H3). unfold numbered. split.
  - apply re_match_complete. apply m_seq; [apply lit_matches|]. rewrite <- app_str_assoc. apply m_seq; [|apply lit_matches].
    apply m_right, m_seq; [apply lit_matches|by apply matches_digits].
  - unfold disk_number. replace (slen _ - slen ext)%nat with (slen (name +:+ "-" +:+ Itoa n)) by (rewrite !slen_app; lia).
    replace (name +:+ "-" +:+ Itoa n +:+ ext) with ((name +:+ "-" +:+ Itoa n) +:+ ext) by (by rewrite !app_str_assoc).
    rewrite take_str_app_length. destruct (String.eqb_spec (name +:+ "-" +:+ Itoa n) name) as [E|_].
    { apply (f_equal slen) in E. rewrite !slen_app in E. simpl in E. lia. }
    replace (name +:+ "-" +:+ Itoa n) with ((name +:+ "-") +:+ Itoa n) by (by rewrite app_str_assoc).
    replace (slen name + 1)%nat with (slen (name +:+ "-")) by (by rewrite slen_app).
    rewrite drop_str_app_length, H3. by rewrite (proj2 (Z.leb_le _ _)) by lia.
Qed.

Lemma digits_value_nonneg s : forall acc n, 0 <= acc -> digits_value acc s = Some n -> 0 <= n.
Proof.
  induction s as [|c s IH]; intros acc n Ha H; simpl in H; [by injection H as <-|].
  destruct (is_digit c) eqn:E; [|done]. apply IH in H; [done|].
  unfold is_digit, in_range in E. apply andb_prop in E as [E _]. apply Z.leb_le in E. change (code "0"%char) with 48 in E. lia.
Qed.

Lemma disk_number_range name ext e n : disk_number name ext e = Some n -> 0 <= n <= int64_max.
Proof.
  unfold disk_number. destruct (String.eqb _ _); [intros [= <-]; unfold int64_max; lia|].
  destruct (digits_value _ _) as [v|] eqn:E; [|done]. destruct (Z.leb_spec v int64_max); [|done]. intros [= <-].
  apply digits_value_nonneg in E; lia.
Qed.

Lemma scan_spec name ext l : forall acc, 0 <= acc.2 <= int64_max ->
  let r := foldl (scan name ext) acc l in
  acc.2 <= r.2 <= int64_max /\ (acc.1 = true -> r.1 = true) /\
  forall e, e ∈ file_names l -> re_match (disk_re name ext) e = true ->
    r.1 = true /\ forall n, disk_number name ext e = Some n -> n <= r.2.
Proof.
  induction l as [|[e isDir] l IH]; intros acc Ha; cbn [foldl]; cbv zeta.
  { split_and!; [lia..|done|]. intros e He. by apply elem_of_nil in He. }
  assert (0 <= (scan name ext acc (e, isDir)).2 <= int64_max /\ acc.2 <= (scan name ext acc (e, isDir)).2 /\
    (acc.1 = true -> (scan name ext acc (e, isDir)).1 = true)) as (H1 & H2 & H3).
  { unfold scan. destruct (_ || _); [by split_and!; [lia..|]|]. cbn [fst snd].
    destruct (disk_number _ _ _) as [n|] eqn:E; [apply disk_number_range in E|]; split_and!; auto; lia. }
  destruct (IH _ H1) as (G1 & G2 & G3). split_and!; [lia..|auto|].
  intros x Hx Hm. unfold file_names in Hx. cbn in Hx. destruct isDir; cbn in Hx; [by apply G3|].
  apply elem_of_cons in Hx as [->|Hx]; [|by apply G3].
  assert ((scan name ext acc (e, false)).1 = true /\ forall n, disk_number name ext e = Some n -> n <= (scan name ext acc (e, false)).2)
    as [K1 K2] by (unfold scan; cbn; rewrite Hm; cbn; split; [done|]; intros n ->; lia).
  split; [by apply G2|]. intros n Hn. specialize (K2 n Hn). lia.
Qed.

Lemma scan_max name ext l : forall acc, let r := foldl (scan name ext) acc l in
  r.2 = acc.2 \/ exists e, e ∈ file_names l /\ disk_number name ext e = Some r.2.
Proof.
  induction l as [|[e isDir] l IH]; intros acc; cbn [foldl]; cbv zeta; [by left|].
  destruct (IH (scan name ext acc (e, isDir))) as [H|(x & Hx & Hn)].
  - rewrite H. unfold scan. cbn [fst snd]. destruct isDir; [by left|]. destruct (re_match _ e); [|by left]. cbn [orb negb fst snd].
    destruct (disk_number name ext e) as [n|] eqn:E; [|by left]. destruct (Z.max_spec n acc.2) as [[_ ->]|[_ ->]]; [by left|].
    right. exists e. split; [by left|done].
  - right. exists x. split; [|done]. unfold file_names in *. cbn. destruct isDir; cbn; [done|by right].
Qed.

(** A new disk never takes the place of another.  The path chosen for a disk
    is in the pool, is named after the machine, and no file of the pool has its
    name, whatever the files are called, as long as no number in them is the
    largest there is. *)
Theorem VMDiskPath_fresh l poolPath name ext path :
  VMDiskPath (DirEntries l) poolPath name ext = Some path ->
  (forall e, e ∈ file_names l -> disk_number name ext e <> Some int64_max) ->
  exists file, path = Join [poolPath; file] /\ re_match (disk_re name ext) file = true /\ file ∉ file_names l.
Proof.
  unfold VMDiskPath. destruct (_ || _); [done|]. intros H Hmax.
  pose proof (scan_spec name ext l (false, 0) ltac:(cbn; unfold int64_max; lia)) as (H1 & _ & H3).
  pose proof (scan_max name ext l (false, 0)) as H4. cbv zeta in *. destruct (foldl _ _ _) as [seen maxN]. cbn in *.
  destruct seen; cbn in H; injection H as <-.
  - assert (maxN + 1 <= int64_max) as Hb by (destruct H4 as [->|(e & He & Hn)]; [unfold int64_max; lia|];
      pose proof (Hmax e He) as Hne; rewrite Hn in Hne; assert (maxN <> int64_max) by congruence; lia).
    rewrite wrap64_id by (unfold is_int64, int64_min, int64_max in *; lia).
    destruct (numbered_spec name ext (maxN + 1) ltac:(lia)) as [Hm Hn].
    exists (numbered name (maxN + 1) ext). split_and!; [done..|]. intros He. destruct (H3 _ He Hm) as [_ Hle].
    specialize (Hle _ Hn). lia.
  - exists (name +:+ ext). split_and!; [done|apply matches_bare|]. intros He. by destruct (H3 _ He (matches_bare _ _)).
Qed.

(** ** Examples *)

Module NamesDemo.
Definition pool (l : list string) : dir_state := DirEntries (map (fun n => (n, false)) l).

Example next_number : VMDiskPath (pool ["web.qcow2"; "web-7.qcow2"; "web.bak"]) "/p" "web" ".qcow2" = Some "/p/web-8.qcow2".
Proof. by vm_compute. Qed.

(** A directory of the name is not seen. *)
Example directory_collides : VMDiskPath (DirEntries [("web.qcow2", true)]) "/p" "web" ".qcow2" = Some "/p/web.qcow2".
Proof. by vm_compute. Qed.

(** After the largest number the count wraps around. *)
Example number_wraps : VMDiskPath (pool ["web-9223372036854775807.qcow2"]) "/p" "web" ".qcow2" = Some "/p/web--9223372036854775808.qcow2".
Proof. by vm_compute. Qed.

(** A deleted machine's sweep takes the disks of a machine that is called like it
    with a number or a short word after it, once nothing is attached to them. *)
Example sweep_takes_neighbours :
  vmDiskSweepMatcher "web" ["disk.qcow2"] "disk.qcow2" = true /\ vmDiskSweepMatcher "web" [] "web-2.qcow2" = true /\
  vmDiskSweepMatcher "web" [] "web-data.qcow2" = true /\ vmDiskSweepMatcher "web" [] "web-staging.qcow2" = false.
Proof. by vm_compute. Qed.
End NamesDemo.

Lemma VMDiskPath_fresh_witness :
  exists file, Some (Join ["/p"; file]) = VMDiskPath (NamesDemo.pool ["web.qcow2"]) "/p" "web" ".qcow2" /\ file ∉ ["web.qcow2"].
Proof.
  destruct (VMDiskPath_fresh [("web.qcow2", false)] "/p" "web" ".qcow2" "/p/web-2.qcow2") as (file & E & _ & H).
  - vm_compute. reflexivity.
  - intros e He. assert (e = "web.qcow2") as -> by (by apply list_elem_of_singleton in He). vm_compute. discriminate.
  - exists file. split; [rewrite <- E; vm_compute; reflexivity|exact H].
Defined.
