(* ===== verification/BackingGuard.v ===== *)
(** * BackingGuard: images other images are built on

    Models [libvirt/backing_guard.go], the guard of [api/backing_guard.go], the
    deletion of a volume in [api/storage_volumes.go] and the sweep of a deleted
    machine's disks in [libvirt/storage.go].  What [qemu-img] says of an image is
    a parameter, and so are the directories and the first bytes of the files. *)

From S2P Require Import GoPath.
From S2P Require Export Acl DiskNames.
Open Scope Z_scope.

Section Guard.
Context (qemu_img : bool)                                       (* it is installed *)
  (readdir : string -> option (list (string * bool)))           (* the entries, with whether each is a directory *)
  (magic : string -> option string)                             (* the first four bytes *)
  (info : string -> option (string * string))                   (* backing file and full backing file, if it answers *)
  (cwd : string).

Definition qcow2_magic : string := "QFI" +:+ String "251" "".
Definition isQcow2 (path : string) : bool := match magic path with Some m => String.eqb m qcow2_magic | None => false end.

Definition backingFileOf (path : string) : string :=
  match info path with
  | None => ""
  | Some (backing, full) =>
      let b := if String.eqb full "" then backing else full in
      if String.eqb b "" then "" else Abs cwd (if IsAbs b then b else GoPath.Join [Dir path; b])
  end.

(** The images of a directory, added to those found before. *)
Definition consider (target dir : string) (cands : list string) (e : string * bool) : list string :=
  if e.2 then cands else
  let cand := GoPath.Join [dir; e.1] in
  if String.eqb cand target || existsb (String.eqb cand) cands then cands
  else if isQcow2 cand then cands ++ [cand] else cands.
Definition gather (target : string) (cands : list string) (dir : string) : list string :=
  match readdir dir with Some es => foldl (consider target dir) cands es | None => cands end.

(** [None]: the question could not be asked. *)
Definition backingDependents (target : string) (dirs : list string) : option (list string) :=
  if negb qemu_img then None else
  let targetAbs := Abs cwd target in
  Some (sort_strings (map Base (List.filter (fun c => String.eqb (backingFileOf c) targetAbs) (foldl (gather targetAbs) [] dirs)))).

(** ** The pools *)

(** [pools]: the names, and [path_of] their directories, as far as they can be
    told. *)
Definition allPoolDirs (pools : option (list string)) (path_of : string -> option string) : list string :=
  match pools with
  | None => []
  | Some ps => omap (fun p => dir ← path_of p; if String.eqb dir "" then None else Some dir) ps
  end.

Definition BackingDependentsOfPath (pools : option (list string)) (path_of : string -> option string) (path : string)
    : option (list string) :=
  if String.eqb path "" then Some [] else backingDependents path (allPoolDirs pools path_of).

(** [vol_path]: the path of the volume, if it is found. *)
Definition BackingDependents (pools : option (list string)) (path_of : string -> option string) (vol_path : option string)
    : option (list string) :=
  path ← vol_path; BackingDependentsOfPath pools path_of path.

(** ** The guard of the handlers *)

Definition refuseForDependents (deps : list string) : option Z := match deps with [] => None | _ => Some 409 end.
(** The status of the refusal; [None]: not refused. *)
Definition assertNoBackingDependents (deps : option (list string)) : option Z :=
  match deps with None => Some 500 | Some deps => refuseForDependents deps end.

Inductive delete_result := DeleteRefused (code : Z) | DeleteCalled.

(** [attached]: what [FindVolumeAttachments] finds, [None] for an error. *)
Definition DeleteVolume (userStore : option (string -> option User)) (c : Caller) (pool name : string)
    (attached : option nat) (deps : option (list string)) : delete_result :=
  if contains_str ".." name || contains_byte "/" name || contains_byte "\" name then DeleteRefused 400
  else if negb (poolVisibleTo userStore c pool) then DeleteRefused 403
  else match attached with
       | Some (S _) => DeleteRefused 409
       | _ => match assertNoBackingDependents deps with Some code => DeleteRefused code | None => DeleteCalled end
       end.

(** ** The sweep *)

Record Volume := MkVolume { v_Name : string; v_Path : string; v_Pool : string; v_IsSnapshot : bool }.

Section Sweep.
Context (attachments : string -> string -> option nat) (delete_ok : string -> string -> bool) (poolDirs : list string).

Record swept := MkSwept { deleted : list (string * string); skipped : list string }.

Definition sweep_volume (vmName : string) (exact : list string) (pool : string) (r : swept) (v : Volume) : swept :=
  let skip := MkSwept (deleted r) (skipped r ++ [v_Name v]) in
  if v_IsSnapshot v || String.eqb (v_Name v) vmName then r
  else if negb (vmDiskSweepMatcher vmName exact (v_Name v)) then r
  else match attachments pool (v_Name v) with
       | Some O =>
           let blocked := if String.eqb (v_Path v) "" then false
                          else match backingDependents (v_Path v) poolDirs with Some [] => false | _ => true end in
           if blocked then skip
           else if delete_ok pool (v_Name v) then MkSwept (deleted r ++ [(pool, v_Name v)]) (skipped r)
           else skip
       | _ => skip
       end.

(** [None]: the pools cannot be listed; a pool whose volumes cannot be is passed
    over. *)
Definition DeleteVMDiskFiles (vmName : string) (exact : list string) (pools : option (list (string * option (list Volume))))
    : option swept :=
  match vmName, exact with
  | "", [] => Some (MkSwept [] [])
  | _, _ =>
      ps ← pools;
      Some (foldl (fun r p => match p.2 with Some vols => foldl (sweep_volume vmName exact p.1) r vols | None => r end)
              (MkSwept [] []) ps)
  end.
End Sweep.

(** ** Facts *)

(** An image in one of the directories. *)
Definition image_in (target : string) (dirs : list string) (cand : string) : Prop :=
  exists dir es name, dir ∈ dirs /\ readdir dir = Some es /\ (name, false) ∈ es /\ cand = GoPath.Join [dir; name] /\
    cand <> target /\ isQcow2 cand = true.

Lemma consider_in target dir es : forall cands x,
  x ∈ foldl (consider target dir) cands es <->
  x ∈ cands \/ exists name, (name, false) ∈ es /\ x = GoPath.Join [dir; name] /\ x <> target /\ isQcow2 x = true.
Proof.
  induction es as [|[name isDir] es IH]; intros cands x; cbn [foldl].
  { split; [by left|]. intros [?|(? & H & _)]; [done|by apply elem_of_nil in H]. }
  rewrite IH. unfold consider. cbn [fst snd].
  assert (forall P, (exists n, (n, false) ∈ (name, isDir) :: es /\ P n) <-> (isDir = false /\ P name) \/ exists n, (n, false) ∈ es /\ P n) as Hc.
  { intros P. split.
    - intros (n & [[= -> <-]|H]%elem_of_cons & Hp); [by left|right; by exists n].
    - intros [[-> Hp]|(n & H & Hp)]; [exists name; split; [by left|done]|exists n; split; [by right|done]]. }
  rewrite Hc. destruct isDir; [split; [intros [?|?]; auto|intros [?|[[? _]|?]]; [auto|done|auto]]|].
  destruct (String.eqb_spec (GoPath.Join [dir; name]) target) as [E|E]; cbn [orb].
  { split; [intros [?|?]; auto|]. intros [?|[(_ & -> & ? & _)|?]]; [auto|done|auto]. }
  destruct (existsb _ cands) eqn:Ex.
  - apply existsb_exists in Ex as (y & Hy%list_elem_of_In & <-%String.eqb_eq).
    split; [intros [?|?]; auto|]. intros [?|[(_ & -> & _)|?]]; auto.
  - destruct (isQcow2 _) eqn:Eq.
    + rewrite elem_of_app, list_elem_of_singleton. split; [intros [[?| ->]|?]; [by left|right; left; by split_and!|by right; right]|]. intros [?|[(_ & -> & _)|?]]; auto.
    + split; [intros [?|?]; auto|]. intros [?|[(_ & -> & _ & ?)|?]]; [auto|congruence|auto].
Qed.

Lemma gather_in target dirs : forall cands x,
  x ∈ foldl (gather target) cands dirs <-> x ∈ cands \/ image_in target dirs x.
Proof.
  unfold image_in. induction dirs as [|dir dirs IH]; intros cands x; cbn [foldl].
  { split; [by left|]. intros [?|(? & ? & ? & H & _)]; [done|by apply elem_of_nil in H]. }
  rewrite IH. unfold gather. setoid_rewrite elem_of_cons. destruct (readdir dir) as [es|] eqn:E; [rewrite consider_in|]; naive_solver.
Qed.

Lemma dependents_in target dirs out x : backingDependents target dirs = Some out ->
  x ∈ out <-> exists cand, image_in (Abs cwd target) dirs cand /\ backingFileOf cand = Abs cwd target /\ x = Base cand.
Proof.
  unfold backingDependents. destruct qemu_img; [|done]. intros [= <-]. rewrite sort_strings_Permutation, list_elem_of_fmap.
  setoid_rewrite list_elem_of_In. setoid_rewrite filter_In. setoid_rewrite String.eqb_eq. setoid_rewrite <- list_elem_of_In.
  setoid_rewrite gather_in. split; intros (c & H); exists c; [|naive_solver].
  destruct H as (-> & [H|H] & ?); [by apply elem_of_nil in H|done].
Qed.

(** What the sweep deletes. *)
Lemma sweep_deleted attachments delete_ok dirs vmName exact pools r pool name :
  DeleteVMDiskFiles attachments delete_ok dirs vmName exact pools = Some r -> (pool, name) ∈ deleted r ->
  attachments pool name = Some O /\ vmDiskSweepMatcher vmName exact name = true /\
  exists ps vols v, pools = Some ps /\ (pool, Some vols) ∈ ps /\ v ∈ vols /\ v_Name v = name /\ v_IsSnapshot v = false /\
    (v_Path v = "" \/ backingDependents (v_Path v) dirs = Some []).
Proof.
  set (P := fun (ps : list (string * option (list Volume))) (r : swept) => (pool, name) ∈ deleted r -> attachments pool name = Some O /\
    vmDiskSweepMatcher vmName exact name = true /\ exists (vols : list Volume) v, (pool, Some vols) ∈ ps /\ v ∈ vols /\ v_Name v = name /\
    v_IsSnapshot v = false /\ (v_Path v = "" \/ backingDependents (v_Path v) dirs = Some [])).
  assert (forall ps vs p vols r0, P ps r0 -> (p, Some vols) ∈ ps -> (forall v, v ∈ vs -> v ∈ vols) ->
    P ps (foldl (sweep_volume attachments delete_ok dirs vmName exact p) r0 vs)) as Hv.
  { intros ps vs. induction vs as [|v vs IH]; intros p vols r0 H0 Hp Hs; [done|]. cbn [foldl]. apply (IH p vols); [|done|].
    2:{ intros x Hx. apply Hs. by right. }
    unfold sweep_volume. destruct (v_IsSnapshot v) eqn:Ei; [done|]. destruct (String.eqb (v_Name v) vmName); [done|]. cbn [orb].
    destruct (vmDiskSweepMatcher vmName exact (v_Name v)) eqn:Em; [|exact H0]. cbn [negb]. destruct (attachments p (v_Name v)) as [[]|] eqn:Ea; [|exact H0..].
    destruct (if String.eqb (v_Path v) "" then false else _) eqn:Eb; [exact H0|]. destruct (delete_ok _ _); [|exact H0].
    intros [Hd|[= -> ->]%list_elem_of_singleton]%elem_of_app; [by apply H0|]. split_and!; [done..|].
    exists vols, v. split_and!; [done|apply Hs; by left|done..|].
    destruct (String.eqb_spec (v_Path v) ""); [by left|right]. by destruct (backingDependents (v_Path v) dirs) as [[]|]. }
  assert (forall ps ps0 r0, P ps0 r0 -> (forall p, p ∈ ps -> p ∈ ps0) ->
    P ps0 (foldl (fun r p => match p.2 with Some vols => foldl (sweep_volume attachments delete_ok dirs vmName exact p.1) r vols | None => r end) r0 ps)) as Hps.
  { intros ps. induction ps as [|[p [vols|]] ps IH]; intros ps0 r0 H0 Hs; [done|..]; cbn [foldl fst snd]; apply IH; try done;
      try (intros x Hx; apply Hs; by right). apply (Hv ps0 vols p vols); [done| |done]. apply Hs. by left. }
  intros Hr Hd. assert (exists ps, P ps r /\ (pools = Some ps \/ deleted r = [])) as (ps & Hp & Hq).
  { unfold DeleteVMDiskFiles in Hr. destruct vmName; [destruct exact|]; [|destruct pools as [ps|]; [|done]..].
    - injection Hr as <-. exists []. split; [intros H; by apply elem_of_nil in H|by right].
    - injection Hr as <-. exists ps. split; [|by left]. apply Hps; [|done]. intros H. by apply elem_of_nil in H.
    - injection Hr as <-. exists ps. split; [|by left]. apply Hps; [|done]. intros H. by apply elem_of_nil in H. }
  destruct (Hp Hd) as (H1 & H2 & vols & v & H3). destruct Hq as [->|Hq]; [|rewrite Hq in Hd; by apply elem_of_nil in Hd].
  split_and!; [done..|]. by exists ps, vols, v.
Qed.

End Guard.

(** ** Examples *)

Module GuardDemo.
Definition readdir (d : string) : option (list (string * bool)) :=
  if String.eqb d "/pool" then Some [("base.qcow2", false); ("clone.qcow2", false)] else None.
Definition magic (p : string) : option string := Some qcow2_magic.
Definition info (p : string) : option (string * string) :=
  if String.eqb p "/pool/clone.qcow2" then Some ("base.qcow2", "/pool/base.qcow2") else Some ("", "").

Example base_has_a_clone : backingDependents true readdir magic info "/" "/pool/base.qcow2" ["/pool"] = Some ["clone.qcow2"].
Proof. by vm_compute. Qed.

(** When the pools cannot be listed there is nowhere to look, and the base counts
    as free; so it does when [qemu-img] does not answer in time, and when the clone
    names its base by another path. *)
Example unlistable_pools_free_the_base :
  BackingDependentsOfPath true readdir magic info "/" None (fun _ => Some "/pool") "/pool/base.qcow2" = Some [].
Proof. by vm_compute. Qed.
Example slow_image_frees_the_base : backingDependents true readdir magic (fun _ => None) "/" "/pool/base.qcow2" ["/pool"] = Some [].
Proof. by vm_compute. Qed.
Example other_path_frees_the_base : backingDependents true readdir magic info "/" "/link/base.qcow2" ["/pool"] = Some [].
Proof. by vm_compute. Qed.

(** A volume whose attachments cannot be told is deleted on request. *)
Example unknown_attachments_allow : DeleteVolume None (MkCaller "a" "operator") "p" "v" None (Some []) = DeleteCalled.
Proof. done. Qed.
End GuardDemo.

