(* ===== verification/StorageMove.v ===== *)
(** * StorageMove: relocating disks

    Models [libvirt/storage_move.go]: the move of a stopped machine's disks to
    another pool, with its roll-back, and the move or copy of one volume.  A file
    is its content; a machine is the disks of its definition.  Every change of the
    files or of the definition is a state of its own, in the order the code makes
    them, so that a crash can stop the server at any of them. *)

From S2P Require Import GoPath.
From S2P Require Export AtomicFile BackingGuard.
Open Scope Z_scope.

Record movableDisk := MkDisk { md_target : string; md_path : string; md_format : string }.
#[export] Instance movableDisk_eq_dec : EqDecision movableDisk.
Proof. solve_decision. Defined.
Record movedDisk := MkMoved { mv_from : string; mv_to : string; mv_target : string }.

Abbreviation files := (gmap string string).
(** The files of the host and the disks of the machine that moves. *)
Record state := MkState { st_files : files; st_disks : list movableDisk }.

Inductive move_error :=
| MustBeStopped | NoDestination | NoDisk | SamePool | BackingUnknown | HasDependents | AttachmentsUnknown | InUse
| NoSpace | NoName | CopyFailed | RepointFailed | BadVolumeName | NoSource | NameTaken | RenameFailed.

(** Another machine, as a scan finds it. *)
Record other_vm := MkOther { ov_UUID : string; ov_Name : string; ov_readable : bool; ov_Sources : list string }.

(** What the host answers.  A copy and a change of the definition are numbered
    by the disk. *)
Record environment := MkEnv {
  stopped : bool; dest_path : option string; list_domains : option (list other_vm); available : option Z;
  copy_out : nat -> outcome; repoint_ok : nat -> bool; back_ok : nat -> bool; remove_ok : string -> bool
}.

Definition size (content : string) : Z := Z.of_nat (slen content).

(** The scan for machines that use a path. *)
Definition findPathAttachments (doms : option (list other_vm)) (path : string) : option (list other_vm) :=
  List.filter (fun vm => ov_readable vm && existsb (fun s => negb (String.eqb s "") && String.eqb s path) (ov_Sources vm)) <$> doms.
Definition otherDomainAttachments (atts : list other_vm) (selfUUID selfName : string) : list other_vm :=
  List.filter (fun a => negb ((negb (String.eqb selfUUID "") && String.eqb (ov_UUID a) selfUUID)
    || (negb (String.eqb selfName "") && (String.eqb (ov_UUID a) selfName || String.eqb (ov_Name a) selfName)))) atts.

(** The regular files of a directory. *)
Definition entries (m : files) (dir : string) : dir_state :=
  DirEntries (omap (fun p => if String.eqb (Dir p) (Clean dir) then Some (Base p, false) else None) (map fst (map_to_list m))).

Definition set_path (target path : string) (disks : list movableDisk) : list movableDisk :=
  map (fun d => if String.eqb (md_target d) target then MkDisk (md_target d) path (md_format d) else d) disks.

(** ** Steps *)

Definition copyFile (o : outcome) (src dst : string) (m : files) : bool * files :=
  match o, m !! src with
  | Succeed, Some c => (true, <[dst := c]> m)
  | FailTorn, _ => (false, <[dst := ""]> m)
  | _, _ => (false, m)
  end.
Definition remove (ok : bool) (p : string) (m : files) : files := if ok then delete p m else m.

(** The name a disk gets in the destination. *)
Definition new_path (dest : string) (m : files) (d : movableDisk) : option string :=
  let base := trim_suffix (Ext (md_path d)) (Base (md_path d)) in
  let ext := if String.eqb (Ext (md_path d)) "" then "." +:+ md_format d else Ext (md_path d) in
  VMDiskPath (entries m dest) dest base ext.

(** Pointing the machine back and deleting the copies; the numbers are those of
    the disks, the states come latest first. *)
Fixpoint rollback (env : environment) (i : nat) (done : list movedDisk) (s : state) (trace : list state) : list state * state :=
  match done with
  | [] => (trace, s)
  | m :: done =>
      let s1 := if back_ok env i then MkState (st_files s) (set_path (mv_target m) (mv_from m) (st_disks s)) else s in
      let s2 := MkState (remove (remove_ok env (mv_to m)) (mv_to m) (st_files s1)) (st_disks s1) in
      rollback env (S i) done s2 (s2 :: s1 :: trace)
  end.

Record run := MkRun { r_error : option move_error; r_state : state; r_trace : list state }.

Fixpoint move_all (env : environment) (dest : string) (i : nat) (todo : list movableDisk) (done : list movedDisk) (s : state)
    (trace : list state) : run * list movedDisk :=
  match todo with
  | [] => (MkRun None s trace, done)
  | d :: todo =>
      let back_out e s trace :=
        let '(trace, s) := rollback env 0 done s trace in (MkRun (Some e) s trace, done) in
      match new_path dest (st_files s) d with
      | None => back_out NoName s trace
      | Some newPath =>
          let '(ok, m) := copyFile (copy_out env i) (md_path d) newPath (st_files s) in
          let s1 := MkState m (st_disks s) in
          let s2 := MkState (remove (remove_ok env newPath) newPath m) (st_disks s) in
          if negb ok then back_out CopyFailed s2 (s2 :: s1 :: trace)
          else if negb (repoint_ok env i) then back_out RepointFailed s2 (s2 :: s1 :: trace)
          else
            let s3 := MkState m (set_path (md_target d) newPath (st_disks s)) in
            move_all env dest (S i) todo (done ++ [MkMoved (md_path d) newPath (md_target d)]) s3 (s3 :: s1 :: trace)
      end
  end.

(** Removing the originals. *)
Fixpoint cleanup (env : environment) (done : list movedDisk) (s : state) (trace : list state) : list state * state :=
  match done with
  | [] => (trace, s)
  | m :: done =>
      let s := MkState (remove (remove_ok env (mv_from m)) (mv_from m) (st_files s)) (st_disks s) in
      cleanup env done s (s :: trace)
  end.

Section Move.
Context (dependents : string -> option (list string)) (selfUUID selfName : string).

Definition todo_of (dest : string) (disks : list movableDisk) : list movableDisk :=
  List.filter (fun d => negb (String.eqb (Dir (md_path d)) (Clean dest))) disks.
Definition total_size (m : files) (todo : list movableDisk) : Z :=
  foldr (fun d acc => match m !! md_path d with Some c => size c + acc | None => acc end) 0 todo.

(** The first disk that must not move, and why. *)
Fixpoint check_dependents (todo : list movableDisk) : option move_error :=
  match todo with
  | [] => None
  | d :: todo => match dependents (md_path d) with None => Some BackingUnknown | Some (_ :: _) => Some HasDependents | Some [] => check_dependents todo end
  end.
Fixpoint check_attachments (doms : option (list other_vm)) (todo : list movableDisk) : option move_error :=
  match todo with
  | [] => None
  | d :: todo =>
      match findPathAttachments doms (md_path d) with
      | None => Some AttachmentsUnknown
      | Some atts => match otherDomainAttachments atts selfUUID selfName with _ :: _ => Some InUse | [] => check_attachments doms todo end
      end
  end.

Definition MoveDomainStorage (env : environment) (s : state) : run :=
  let stop e := MkRun (Some e) s [] in
  if negb (stopped env) then stop MustBeStopped else
  match dest_path env with
  | None => stop NoDestination
  | Some dest =>
      match st_disks s with
      | [] => stop NoDisk
      | disks =>
          match todo_of dest disks with
          | [] => stop SamePool
          | todo =>
              match check_dependents todo with
              | Some e => stop e
              | None =>
                  match check_attachments (list_domains env) todo with
                  | Some e => stop e
                  | None =>
                      let total := total_size (st_files s) todo in
                      if match available env with Some a => (0 <? total) && (a <? total) | None => false end then stop NoSpace else
                      let '(r, done) := move_all env dest 0 todo [] s [] in
                      match r_error r with
                      | Some _ => r
                      | None => let '(trace, s) := cleanup env done (r_state r) (r_trace r) in MkRun None s trace
                      end
                  end
              end
          end
      end
  end.
End Move.

(** ** One volume *)

Record MoveVolumeOpts := MkOpts { NewName : string; KeepSource : bool }.

(** [same_fs]: both directories are on one file system; [rename_ok]: the rename
    there succeeds. *)
Record volume_env := MkVolEnv {
  src_dir : option string; dest_dir : option string; ve_domains : option (list other_vm); ve_available : option Z;
  same_fs : bool; rename_ok : bool; ve_copy : outcome; ve_remove : string -> bool
}.

Definition bad_name (n : string) : bool := contains_byte "/" n || contains_byte "\" n || contains_str ".." n.

Definition MoveVolume (dependents : string -> option (list string)) (env : volume_env) (srcPool volName destPool : string)
    (opts : MoveVolumeOpts) (m : files) : option move_error * files :=
  if String.eqb srcPool destPool then (Some SamePool, m) else
  match src_dir env, dest_dir env with
  | Some srcDir, Some destDir =>
      if bad_name volName || String.eqb volName "." then (Some BadVolumeName, m) else
      let newName := if String.eqb (NewName opts) "" then volName else NewName opts in
      if bad_name newName then (Some BadVolumeName, m) else
      let srcPath := GoPath.Join [srcDir; volName] in
      let destPath := GoPath.Join [destDir; newName] in
      let escapes dir p := match Rel dir p with Some rel => has_prefix ".." rel | None => true end in
      if escapes srcDir srcPath || escapes destDir destPath then (Some BadVolumeName, m) else
      match m !! srcPath, m !! destPath with
      | None, _ => (Some NoSource, m)
      | Some _, Some _ => (Some NameTaken, m)
      | Some c, None =>
          let blocked :=
            if KeepSource opts then None else
            match findPathAttachments (ve_domains env) srcPath with
            | Some (_ :: _) => Some InUse
            | _ => match dependents srcPath with None => Some BackingUnknown | Some (_ :: _) => Some HasDependents | Some [] => None end
            end in
          match blocked with
          | Some e => (Some e, m)
          | None =>
              if match ve_available env with Some a => a <? size c | None => false end then (Some NoSpace, m)
              else if negb (KeepSource opts) && same_fs env then
                if rename_ok env then (None, <[destPath := c]> (delete srcPath m)) else (Some RenameFailed, m)
              else
                let '(ok, m) := copyFile (ve_copy env) srcPath destPath m in
                if negb ok then (Some CopyFailed, remove (ve_remove env destPath) destPath m)
                else (None, if KeepSource opts then m else remove (ve_remove env srcPath) srcPath m)
          end
      end
  | _, _ => (Some NoDestination, m)
  end.
