(* ===== verification/StorageMoveFacts.v ===== *)
(** * StorageMoveFacts: no machine loses a disk *)

From S2P Require Export StorageMove.
Open Scope Z_scope.

(** ** Definitions *)

Definition redirect (done : list movedDisk) (d : movableDisk) : movableDisk :=
  match List.find (fun m => String.eqb (mv_target m) (md_target d)) done with
  | Some m => MkDisk (md_target d) (mv_to m) (md_format d)
  | None => d
  end.

Lemma redirect_target done d : md_target (redirect done d) = md_target d.
Proof. unfold redirect. by destruct (List.find _ _). Qed.

Lemma redirect_nil l : map (redirect []) l = l.
Proof. by rewrite map_id. Qed.

Lemma find_none_target done t : t ∉ map mv_target done -> List.find (fun m => String.eqb (mv_target m) t) done = None.
Proof.
  induction done as [|m done IH]; [done|]. cbn. intros [H1 H2]%not_elem_of_cons.
  rewrite (proj2 (String.eqb_neq _ _) (not_eq_sym H1)). auto.
Qed.

Section Facts.
Context (env : environment) (s0 : state).
Abbreviation D0 := (st_disks s0).
Abbreviation F0 := (st_files s0).
Context (Hnd : NoDup (map md_target D0)) (Hback : forall i, back_ok env i = true).

Lemma same_disk d d' : d ∈ D0 -> d' ∈ D0 -> md_target d = md_target d' -> d = d'.
Proof.
  intros H H' E. apply list_elem_of_lookup in H as [i Hi], H' as [j Hj].
  assert (i = j) as ->; [|congruence].
  apply (NoDup_lookup (map md_target D0) i j (md_target d)); [done| |].
  - by rewrite list_lookup_fmap, Hi.
  - by rewrite list_lookup_fmap, Hj, E.
Qed.

(** A state of the move in which the disks [done] have moved. *)
Record moving (done : list movedDisk) (s : state) : Prop := {
  mo_disks : st_disks s = map (redirect done) D0;
  mo_old : forall p c, F0 !! p = Some c -> st_files s !! p = Some c;
  mo_new : Forall (fun m => F0 !! mv_to m = None /\ exists c, F0 !! mv_from m = Some c /\ st_files s !! mv_to m = Some c) done;
  mo_targets : NoDup (map mv_target done);
  mo_tos : NoDup (map mv_to done);
  mo_from : Forall (fun m => exists d, d ∈ D0 /\ md_target d = mv_target m /\ md_path d = mv_from m) done;
  mo_clean : (forall p, remove_ok env p = true) -> forall p c, st_files s !! p = Some c -> F0 !! p = Some c \/ p ∈ map mv_to done
}.

(** Every disk the machine had is one it has, with the content it had. *)
Definition intact (s : state) : Prop :=
  forall d c, d ∈ D0 -> F0 !! md_path d = Some c ->
    exists d', d' ∈ st_disks s /\ md_target d' = md_target d /\ st_files s !! md_path d' = Some c.
(** The files of others are as they were. *)
Definition kept (moved : list string) (s : state) : Prop := forall p c, F0 !! p = Some c -> p ∉ moved -> st_files s !! p = Some c.

Lemma moving_intact done s : moving done s -> intact s.
Proof.
  intros H d c Hd Hc. exists (redirect done d). rewrite (mo_disks _ _ H), redirect_target.
  split_and!; [by apply list_elem_of_fmap_2|done|]. unfold redirect. destruct (List.find _ _) as [m|] eqn:E; [|by apply (mo_old _ _ H)].
  apply find_some in E as [Hm%list_elem_of_In Ht%String.eqb_eq].
  destruct (proj1 (Forall_forall _ _) (mo_new _ _ H) m Hm) as (_ & c' & Hf & Hto).
  destruct (proj1 (Forall_forall _ _) (mo_from _ _ H) m Hm) as (d' & Hd' & Ht' & Hp).
  assert (d' = d) as -> by (apply same_disk; [done..|congruence]). cbn. rewrite Hto. congruence.
Qed.

Lemma moving_kept moved done s : moving done s -> kept moved s.
Proof. intros H p c Hp _. by apply (mo_old _ _ H). Qed.

Lemma moving_start : moving [] s0.
Proof. split; [by rewrite redirect_nil|done|apply Forall_nil_2|apply NoDup_nil_2|apply NoDup_nil_2|apply Forall_nil_2|by left]. Qed.

(** A state that differs in files that were not there before. *)
Lemma moving_files done s m : moving done s ->
  (forall p c, F0 !! p = Some c -> m !! p = Some c) -> (forall x, x ∈ done -> m !! mv_to x = st_files s !! mv_to x) ->
  ((forall p, remove_ok env p = true) -> forall p c, m !! p = Some c -> F0 !! p = Some c \/ p ∈ map mv_to done) ->
  moving done (MkState m (st_disks s)).
Proof.
  intros H Ho Hn Hc. split; try apply H; [done| |done]. apply Forall_forall. intros x Hx.
  destruct (proj1 (Forall_forall _ _) (mo_new _ _ H) x Hx) as (H1 & c & H2 & H3). split; [done|]. exists c. split; [done|]. cbn. by rewrite Hn.
Qed.

Lemma set_path_redirect done m : mv_target m ∉ map mv_target done -> 
  set_path (mv_target m) (mv_to m) (map (redirect done) D0) = map (redirect (done ++ [m])) D0.
Proof.
  intros Hm. unfold set_path. rewrite map_map. apply map_ext. intros d. rewrite redirect_target. unfold redirect.
  rewrite find_app. destruct (String.eqb_spec (md_target d) (mv_target m)) as [E|E].
  - rewrite E, find_none_target by done. cbn. rewrite String.eqb_refl. by destruct d; cbn in *; subst.
  - destruct (List.find _ done); [done|]. cbn. by rewrite (proj2 (String.eqb_neq _ _) (not_eq_sym E)).
Qed.

(** ** Rolling back *)

Lemma set_path_back m done : NoDup (map mv_target (m :: done)) ->
  (exists d, d ∈ D0 /\ md_target d = mv_target m /\ md_path d = mv_from m) ->
  set_path (mv_target m) (mv_from m) (map (redirect (m :: done)) D0) = map (redirect done) D0.
Proof.
  intros Hm (dm & Hd & Ht & Hp). cbn in Hm. apply NoDup_cons in Hm as [Hm _].
  unfold set_path. rewrite map_map. apply map_ext_in. intros d Hin%list_elem_of_In. rewrite redirect_target. unfold redirect. cbn [List.find].
  destruct (String.eqb_spec (md_target d) (mv_target m)) as [E|E].
  - rewrite <- E in Hm. rewrite find_none_target by done. assert (dm = d) as -> by (apply same_disk; [done..|congruence]).
    rewrite <- Hp. rewrite E, String.eqb_refl. cbn. destruct d; cbn in *. by rewrite E.
  - by rewrite (proj2 (String.eqb_neq _ _) (not_eq_sym E)).
Qed.

Definition fine (moved : list string) (s : state) : Prop := intact s /\ kept moved s.
Lemma moving_fine moved done s : moving done s -> fine moved s.
Proof. intros H. split; [by eapply moving_intact|by eapply moving_kept]. Qed.

Lemma undo_one m done s i : moving (m :: done) s ->
  let s1 := if back_ok env i then MkState (st_files s) (set_path (mv_target m) (mv_from m) (st_disks s)) else s in
  let s2 := MkState (remove (remove_ok env (mv_to m)) (mv_to m) (st_files s1)) (st_disks s1) in
  (forall moved, fine moved s1) /\ moving done s2.
Proof.
  intros H. rewrite Hback. cbv zeta. cbn [st_files st_disks].
  pose proof (mo_new _ _ H) as Hnew. apply Forall_cons in Hnew as [(Hm0 & c & Hmf & Hmt) Hnew].
  pose proof (mo_from _ _ H) as Hfrom. apply Forall_cons in Hfrom as [Hdm Hfrom].
  pose proof (mo_targets _ _ H) as Ht. pose proof (mo_tos _ _ H) as Hto. cbn in Hto. apply NoDup_cons in Hto as [Hmto Hto].
  assert (set_path (mv_target m) (mv_from m) (st_disks s) = map (redirect done) D0) as Es by (rewrite (mo_disks _ _ H); by apply set_path_back).
  rewrite Es. cbn in Ht. apply NoDup_cons in Ht as [_ Ht]. split.
  - intros moved. split.
    + intros d c' Hd Hc'. exists (redirect done d). rewrite redirect_target. cbn [st_disks st_files]. split_and!; [by apply list_elem_of_fmap_2|done|].
      unfold redirect. destruct (List.find _ _) as [x|] eqn:E; [|by apply (mo_old _ _ H)].
      apply find_some in E as [Hx%list_elem_of_In Htx%String.eqb_eq].
      destruct (proj1 (Forall_forall _ _) Hnew x Hx) as (_ & cx & Hfx & Htox).
      destruct (proj1 (Forall_forall _ _) Hfrom x Hx) as (d' & Hd' & Ht' & Hp).
      assert (d' = d) as -> by (apply same_disk; [done..|congruence]). cbn. rewrite Htox. congruence.
    + intros p c' Hp _. by apply (mo_old _ _ H).
  - split; cbn [st_files st_disks]; try done.
    + intros p c' Hp. unfold remove. destruct (remove_ok env _); [|by apply (mo_old _ _ H)].
      rewrite lookup_delete_ne by congruence. by apply (mo_old _ _ H).
    + apply Forall_forall. intros x Hx. destruct (proj1 (Forall_forall _ _) Hnew x Hx) as (H1 & cx & H2 & H3). split; [done|].
      exists cx. split; [done|]. unfold remove. destruct (remove_ok env _); [|done]. rewrite lookup_delete_ne; [done|].
      intros E. apply Hmto. rewrite E. by apply list_elem_of_fmap_2.
    + intros Hr p c' Hp. unfold remove in Hp. rewrite Hr in Hp. apply lookup_delete_Some in Hp as [Hne Hp].
      destruct (mo_clean _ _ H Hr p c' Hp) as [?|Hin]; [by left|right]. cbn in Hin. by apply elem_of_cons in Hin as [->|?].
Qed.

Lemma rollback_moving moved done : forall i s trace, moving done s -> Forall (fine moved) trace ->
  let '(trace', s') := rollback env i done s trace in Forall (fine moved) trace' /\ moving [] s'.
Proof.
  induction done as [|m done IH]; intros i s trace H Ht; [done|]. cbn [rollback].
  destruct (undo_one m done s i H) as [H1 H2]. apply IH; [done|]. constructor; [by eapply moving_fine|]. by constructor.
Qed.

(** ** Copying *)

(** In none of these states is the name chosen for one of these disks taken. *)
Definition names_free (dest : string) (todo : list movableDisk) (visited : list state) : Prop :=
  Forall (fun s => Forall (fun d => forall p, new_path dest (st_files s) d = Some p -> st_files s !! p = None) todo) visited.

Lemma rollback_trace done : forall i s trace, trace `suffix_of` (rollback env i done s trace).1.
Proof.
  induction done as [|m done IH]; intros i s trace; [done|]. cbn [rollback].
  etrans; [|apply IH]. by do 2 apply suffix_cons_r.
Qed.

Lemma move_all_trace dest todo : forall i done s trace, trace `suffix_of` r_trace (move_all env dest i todo done s trace).1.
Proof.
  assert (forall e done s trace, trace `suffix_of`
    r_trace (let '(trace, s) := rollback env 0 done s trace in (MkRun (Some e) s trace, done)).1) as Hg.
  { intros e done s trace. pose proof (rollback_trace done 0 s trace) as H. by destruct (rollback _ _ _ _ _). }
  induction todo as [|d todo IH]; intros i moved_so_far s trace; [done|]. cbn [move_all].
  destruct (new_path _ _ _) as [p|]; [|apply Hg]. destruct (copyFile _ _ _ _) as [[] m]; cbn [negb].
  - destruct (repoint_ok env i); cbn [negb]; (etrans; [|first [apply IH|apply Hg]]); by do 2 apply suffix_cons_r.
  - etrans; [|apply Hg]. by do 2 apply suffix_cons_r.
Qed.

Lemma copy_spec o src dst m : m !! dst = None ->
  let '(ok, m') := copyFile o src dst m in
  (forall p, p <> dst -> m' !! p = m !! p) /\ (ok = true -> exists c, m !! src = Some c /\ m' !! dst = Some c).
Proof.
  intros Hd. unfold copyFile. destruct o, (m !! src) as [c|]; (split; [intros p Hp; rewrite ?lookup_insert_ne; done|]); try done.
  intros _. exists c. split; [done|]. apply lookup_insert_eq.
Qed.

Section Loop.
Context (dest : string) (moved : list string) (Hex : forall d, d ∈ D0 -> is_Some (F0 !! md_path d)).

(** A new file that was not there, on top of a state of the move. *)
Lemma moving_extra done s p m : moving done s -> st_files s !! p = None -> (forall q, q <> p -> m !! q = st_files s !! q) ->
  fine moved (MkState m (st_disks s)).
Proof.
  intros H Hp Hm. assert (forall q c, st_files s !! q = Some c -> m !! q = Some c) as Hsub by (intros q c Hq; rewrite Hm; congruence).
  split.
  - intros d c Hd Hc. destruct (moving_intact _ _ H d c Hd Hc) as (d' & H1 & H2 & H3). exists d'. split_and!; auto.
  - intros q c Hq _. apply Hsub. by apply (mo_old _ _ H).
Qed.

Lemma moving_removed done s p m : moving done s -> st_files s !! p = None -> (forall q, q <> p -> m !! q = st_files s !! q) ->
  moving done (MkState (remove (remove_ok env p) p m) (st_disks s)).
Proof.
  intros H Hp Hm.
  assert (forall q, q <> p -> remove (remove_ok env p) p m !! q = st_files s !! q) as Hq.
  { intros q Hne. unfold remove. destruct (remove_ok env p); rewrite ?lookup_delete_ne by done; by apply Hm. }
  apply moving_files; [done|..].
  - intros q c Hc. apply (mo_old _ _ H) in Hc. rewrite Hq; congruence.
  - intros x Hx. destruct (proj1 (Forall_forall _ _) (mo_new _ _ H) x Hx) as (_ & c & _ & Hto). apply Hq. congruence.
  - intros Hr q c Hc. apply (mo_clean _ _ H Hr q c). destruct (decide (q = p)) as [->|Hne]; [|by rewrite <- Hq].
    unfold remove in Hc. rewrite Hr, lookup_delete_eq in Hc. done.
Qed.

Lemma moving_next done s d p m : moving done s -> d ∈ D0 -> md_target d ∉ map mv_target done -> st_files s !! p = None ->
  (forall q, q <> p -> m !! q = st_files s !! q) -> (exists c, st_files s !! md_path d = Some c /\ m !! p = Some c) ->
  is_Some (F0 !! md_path d) ->
  moving (done ++ [MkMoved (md_path d) p (md_target d)]) (MkState m (set_path (md_target d) p (st_disks s))).
Proof.
  intros H Hd Ht Hp Hm (c & Hc & Hmp) [c0 Hc0]. assert (c0 = c) as -> by (apply (mo_old _ _ H) in Hc0; congruence).
  assert (forall q c, st_files s !! q = Some c -> m !! q = Some c) as Hsub by (intros q c' Hq; rewrite Hm; congruence).
  split; cbn [st_files st_disks].
  - rewrite (mo_disks _ _ H). by apply (set_path_redirect done (MkMoved (md_path d) p (md_target d))).
  - intros q c' Hq. apply Hsub. by apply (mo_old _ _ H).
  - apply Forall_app. split.
    + eapply Forall_impl; [apply (mo_new _ _ H)|]. intros x (H1 & c' & H2 & H3). split; [done|]. exists c'. auto.
    + constructor; [|constructor]. cbn. split; [|by exists c]. destruct (F0 !! p) eqn:E; [|done]. apply (mo_old _ _ H) in E. congruence.
  - rewrite map_app. apply NoDup_app. split_and!; [apply H| |apply NoDup_singleton]. intros x Hx Hin%list_elem_of_singleton. by subst.
  - rewrite map_app. apply NoDup_app. split_and!; [apply H| |apply NoDup_singleton]. intros x Hx Hin%list_elem_of_singleton. cbn in Hin. subst x.
    apply list_elem_of_fmap in Hx as (y & Ey & Hy). destruct (proj1 (Forall_forall _ _) (mo_new _ _ H) y Hy) as (_ & c' & _ & Hto). congruence.
  - apply Forall_app. split; [apply H|]. constructor; [by exists d|constructor].
  - intros Hr q c' Hq. rewrite map_app. destruct (decide (q = p)) as [->|Hne]; [right; apply elem_of_app; right; by left|].
    rewrite Hm in Hq by done. destruct (mo_clean _ _ H Hr q c' Hq); [by left|right]. apply elem_of_app. by left.
Qed.

(** How the loop ends. *)
Definition ended (todo : list movableDisk) (done : list movedDisk) (rd : run * list movedDisk) : Prop :=
  Forall (fine moved) (r_trace rd.1) /\
  match r_error rd.1 with
  | None => moving rd.2 (r_state rd.1) /\ map mv_target rd.2 = map mv_target done ++ map md_target todo
  | Some _ => moving [] (r_state rd.1)
  end.

Lemma back_out_ended todo done0 e done s trace : moving done s -> Forall (fine moved) trace ->
  ended todo done0 (let '(trace, s) := rollback env 0 done s trace in (MkRun (Some e) s trace, done)).
Proof.
  intros H Ht. pose proof (rollback_moving moved done 0 s trace H Ht) as Hr. destruct (rollback _ _ _ _ _) as [t' s']. done.
Qed.

Lemma move_all_ended todo : forall i done s trace,
  moving done s -> Forall (fine moved) trace -> (forall d, d ∈ todo -> d ∈ D0) ->
  NoDup (map mv_target done ++ map md_target todo) ->
  names_free dest todo (s :: r_trace (move_all env dest i todo done s trace).1) ->
  ended todo done (move_all env dest i todo done s trace).
Proof.
  induction todo as [|d todo IH]; intros i done s trace H Ht Hin Hnd' Hfree.
  { split; [done|]. cbn. split; [done|]. by rewrite app_nil_r. }
  pose proof (Forall_inv Hfree) as Hs. apply Forall_cons in Hs as [Hd _].
  cbn [move_all] in Hfree |- *. destruct (new_path dest (st_files s) d) as [p|]; [|by apply back_out_ended].
  specialize (Hd p eq_refl). pose proof (copy_spec (copy_out env i) (md_path d) p (st_files s) Hd) as Hc.
  destruct (copyFile _ _ _ _) as [ok m]. destruct Hc as [Hm Hok].
  pose proof (moving_extra done s p m H Hd Hm) as Hx. pose proof (moving_removed done s p m H Hd Hm) as Hrm.
  assert (Forall (fine moved) (MkState (remove (remove_ok env p) p m) (st_disks s) :: MkState m (st_disks s) :: trace)) as Ht2
    by (constructor; [by eapply moving_fine|by constructor]).
  destruct ok; cbn [negb] in Hfree |- *; [|by apply back_out_ended].
  destruct (repoint_ok env i); cbn [negb] in Hfree |- *; [|by apply back_out_ended].
  destruct (Hok eq_refl) as (c & Hc & Hmc). assert (d ∈ D0) as HdD by (apply Hin; by left).
  cbn [map] in Hnd'.
  assert (md_target d ∉ map mv_target done) as Htd by (intros Hx'; apply NoDup_app in Hnd' as (_ & Hdis & _); by apply (Hdis _ Hx'); left).
  assert (moving (done ++ [MkMoved (md_path d) p (md_target d)]) (MkState m (set_path (md_target d) p (st_disks s)))) as H3
    by (apply moving_next; eauto).
  destruct (IH (S i) _ _ (MkState m (set_path (md_target d) p (st_disks s)) :: MkState m (st_disks s) :: trace) H3) as [G1 G2].
  - constructor; [by eapply moving_fine|]. by constructor.
  - intros d' Hd'. apply Hin. by right.
  - rewrite map_app, <- app_assoc. exact Hnd'.
  - apply Forall_cons in Hfree as [_ Hfree]. constructor.
    + pose proof (move_all_trace dest todo (S i) (done ++ [MkMoved (md_path d) p (md_target d)])
        (MkState m (set_path (md_target d) p (st_disks s)))
        (MkState m (set_path (md_target d) p (st_disks s)) :: MkState m (st_disks s) :: trace)) as [l El].
      assert (MkState m (set_path (md_target d) p (st_disks s)) ∈ r_trace (move_all env dest (S i) todo
        (done ++ [MkMoved (md_path d) p (md_target d)]) (MkState m (set_path (md_target d) p (st_disks s)))
        (MkState m (set_path (md_target d) p (st_disks s)) :: MkState m (st_disks s) :: trace)).1) as Hel
        by (rewrite El; apply elem_of_app; right; by left).
      pose proof (proj1 (Forall_forall _ _) Hfree _ Hel) as Hst. by apply Forall_cons in Hst as [_ Hst].
    + apply (Forall_impl _ _ _ Hfree). intros st Hst. by apply Forall_cons in Hst as [_ Hst].
  - split; [done|]. destruct (r_error _); [done|]. destruct G2 as [G2 G3]. split; [done|].
    rewrite G3, map_app, <- app_assoc. done.
Qed.
End Loop.

(** ** Removing the originals *)

(** A state of the clean-up after all of [all] have moved. *)
Record cleaning (all : list movedDisk) (s : state) : Prop := {
  cl_disks : st_disks s = map (redirect all) D0;
  cl_old : forall p c, F0 !! p = Some c -> p ∉ map mv_from all -> st_files s !! p = Some c;
  cl_new : forall m, m ∈ all -> exists c, F0 !! mv_from m = Some c /\ F0 !! mv_to m = None /\ st_files s !! mv_to m = Some c
}.

Section Cleanup.
Context (all : list movedDisk) (Hstay : forall d, d ∈ D0 -> md_target d ∉ map mv_target all -> md_path d ∉ map mv_from all).
Context (Hfrom : Forall (fun m => exists d, d ∈ D0 /\ md_target d = mv_target m /\ md_path d = mv_from m) all).

Lemma cleaning_disk s d c : cleaning all s -> d ∈ D0 -> F0 !! md_path d = Some c ->
  redirect all d ∈ st_disks s /\ st_files s !! md_path (redirect all d) = Some c.
Proof.
  intros H Hd Hc. rewrite (cl_disks _ _ H). split; [by apply list_elem_of_fmap_2|]. unfold redirect.
  destruct (List.find _ _) as [m|] eqn:E.
  - apply find_some in E as [Hm%list_elem_of_In Ht%String.eqb_eq]. destruct (cl_new _ _ H m Hm) as (c' & H1 & _ & H2). cbn.
    destruct (proj1 (Forall_forall _ _) Hfrom m Hm) as (d' & Hd' & Ht' & Hp).
    assert (d' = d) as -> by (apply same_disk; [done..|congruence]). congruence.
  - apply (cl_old _ _ H); [done|]. apply Hstay; [done|]. intros (m & Em & Hm)%list_elem_of_fmap.
    pose proof (find_none _ _ E m ltac:(by apply list_elem_of_In)) as Hn. cbn in Hn. apply String.eqb_neq in Hn. congruence.
Qed.

Lemma cleaning_fine s : cleaning all s -> fine (map mv_from all) s.
Proof.
  intros H. split; [|intros p c Hp Hn; by apply (cl_old _ _ H)].
  intros d c Hd Hc. destruct (cleaning_disk s d c H Hd Hc). exists (redirect all d). by rewrite redirect_target.
Qed.

Lemma cleanup_spec rest : forall s trace, (forall m, m ∈ rest -> m ∈ all) -> cleaning all s -> Forall (fine (map mv_from all)) trace ->
  let '(trace', s') := cleanup env rest s trace in
  Forall (fine (map mv_from all)) trace' /\ cleaning all s' /\
  (forall p, st_files s !! p = None -> st_files s' !! p = None) /\
  (forall m, m ∈ rest -> remove_ok env (mv_from m) = true -> st_files s' !! mv_from m = None).
Proof.
  induction rest as [|x rest IH]; intros s trace Hr Hs Ht.
  { split_and!; [done..|]. intros m Hm. by apply elem_of_nil in Hm. }
  cbn [cleanup]. set (s1 := MkState _ _).
  assert (cleaning all s1) as H1.
  { destruct (cl_new _ _ Hs x (Hr x ltac:(by left))) as (cx & Hfx & _). split; [apply Hs| |].
    - intros p c Hp Hn. cbn. unfold remove. destruct (remove_ok env _); [|by apply (cl_old _ _ Hs)].
      rewrite lookup_delete_ne; [by apply (cl_old _ _ Hs)|]. intros <-. apply Hn. apply list_elem_of_fmap_2, Hr. by left.
    - intros m Hm. destruct (cl_new _ _ Hs m Hm) as (c & G1 & G2 & G3). exists c. split_and!; [done..|]. cbn. unfold remove.
      destruct (remove_ok env _); [|done]. rewrite lookup_delete_ne by congruence. done. }
  specialize (IH s1 (s1 :: trace) ltac:(intros m Hm; apply Hr; by right) H1 ltac:(constructor; [by apply cleaning_fine|done])).
  destruct (cleanup env rest s1 (s1 :: trace)) as [t' s']. destruct IH as (G1 & G2 & G3 & G4). split_and!; [done..| |].
  - intros p Hp. apply G3. cbn. unfold remove. destruct (remove_ok env _); [|done]. by apply lookup_delete_None; right.
  - intros m [->|Hm]%elem_of_cons Hok; [|by apply G4]. apply G3. cbn. unfold remove. rewrite Hok. apply lookup_delete_eq.
Qed.
End Cleanup.

Lemma moving_cleaning done s : moving done s -> cleaning done s.
Proof.
  intros H. split; [apply H|intros p c Hp _; by apply (mo_old _ _ H)|]. intros m Hm.
  destruct (proj1 (Forall_forall _ _) (mo_new _ _ H) m Hm) as (H1 & c & H2 & H3). by exists c.
Qed.
End Facts.

(** ** The move *)

(** A readable definition of another machine has the file. *)
Definition others_use (env : environment) (selfUUID selfName p : string) : Prop :=
  exists l vm, list_domains env = Some l /\ vm ∈ l /\ ov_readable vm = true /\ p ∈ ov_Sources vm /\ p <> "" /\
    ov_UUID vm <> selfUUID /\ ov_UUID vm <> selfName /\ ov_Name vm <> selfName.

Lemma check_attachments_none env u n todo p : check_attachments u n (list_domains env) todo = None ->
  p ∈ map md_path todo -> ~ others_use env u n p.
Proof.
  intros H Hp (l & vm & El & Hvm & Hr & Hs & Hne & H1 & H2 & H3). rewrite El in H. induction todo as [|d todo IH]; [by apply elem_of_nil in Hp|].
  cbn in H. destruct (otherDomainAttachments _ _ _) as [|x atts] eqn:E; [|done]. cbn in Hp. apply elem_of_cons in Hp as [->|Hp]; [|by apply IH].
  assert (In vm []) as []. rewrite <- E. apply filter_In. split.
  - apply filter_In. split; [by apply list_elem_of_In|]. rewrite Hr. cbn. apply existsb_exists. exists (md_path d).
    split; [by apply list_elem_of_In|]. by rewrite (proj2 (String.eqb_neq _ _) Hne), String.eqb_refl.
  - rewrite (proj2 (String.eqb_neq _ _) H1), (proj2 (String.eqb_neq _ _) H2), (proj2 (String.eqb_neq _ _) H3).
    by rewrite !andb_false_r.
Qed.

Lemma check_dependents_none dependents todo p : check_dependents dependents todo = None -> p ∈ map md_path todo -> dependents p = Some [].
Proof.
  intros H Hp. induction todo as [|d todo IH]; [by apply elem_of_nil in Hp|]. cbn in H.
  destruct (dependents (md_path d)) as [[]|] eqn:E; [|done..]. cbn in Hp. apply elem_of_cons in Hp as [->|Hp]; [done|by apply IH].
Qed.

Lemma todo_spec dest l d : d ∈ todo_of dest l <-> d ∈ l /\ Dir (md_path d) <> Clean dest.
Proof.
  unfold todo_of. rewrite !list_elem_of_In, filter_In. split; intros [H1 H2]; (split; [done|]).
  - by apply String.eqb_neq, negb_true_iff.
  - by apply negb_true_iff, String.eqb_neq.
Qed.

Lemma todo_nodup dest l : NoDup (map md_target l) -> NoDup (map md_target (todo_of dest l)).
Proof.
  unfold todo_of. induction l as [|d l IH]; [done|]. cbn. intros [H1 H2]%NoDup_cons. destruct (negb _); [|auto].
  cbn. apply NoDup_cons. split; [|auto]. intros (x & Ex & Hx)%list_elem_of_fmap. apply H1. rewrite Ex. apply list_elem_of_fmap_2.
  apply list_elem_of_In, filter_In in Hx as [Hx _]. by apply list_elem_of_In.
Qed.

Lemma cleanup_trace env done : forall s trace, trace `suffix_of` (cleanup env done s trace).1.
Proof.
  induction done as [|m done IH]; intros s trace; [done|]. cbn [cleanup]. etrans; [|apply IH]. by apply suffix_cons_r.
Qed.

(** What the move promises of one run. *)
Section Outcome.
Context (dependents : string -> option (list string)) (selfUUID selfName : string) (env : environment) (s0 : state) (dest : string).
Definition held (p : string) : Prop := others_use env selfUUID selfName p \/ dependents p <> Some [].
Definition safe_state (s : state) : Prop :=
  intact s0 s /\ forall p c, st_files s0 !! p = Some c -> held p -> st_files s !! p = Some c.
Definition undone (s : state) : Prop :=
  st_disks s = st_disks s0 /\
  (forall p c, st_files s0 !! p = Some c -> st_files s !! p = Some c) /\
  ((forall p, remove_ok env p = true) -> st_files s = st_files s0).
Definition relocated (s : state) : Prop :=
  forall d c, d ∈ st_disks s0 -> st_files s0 !! md_path d = Some c ->
    exists d', d' ∈ st_disks s /\ md_target d' = md_target d /\ st_files s !! md_path d' = Some c /\
      if String.eqb (Dir (md_path d)) (Clean dest) then d' = d
      else st_files s0 !! md_path d' = None /\ (remove_ok env (md_path d) = true -> st_files s !! md_path d = None).

Context (Hnd : NoDup (map md_target (st_disks s0))).

Lemma moving_undone s : moving env s0 [] s -> undone s.
Proof.
  intros H. split_and!; [by rewrite (mo_disks _ _ _ _ H), redirect_nil|apply H|]. intros Hr. apply map_eq. intros p.
  destruct (st_files s !! p) as [c|] eqn:E.
  - destruct (mo_clean _ _ _ _ H Hr p c E) as [?|?%elem_of_nil]; done.
  - destruct (st_files s0 !! p) as [c|] eqn:E0; [|done]. apply (mo_old _ _ _ _ H) in E0. congruence.
Qed.

Lemma fine_safe moved s : (forall p, p ∈ moved -> ~ held p) -> fine s0 moved s -> safe_state s.
Proof. intros Hm [H1 H2]. split; [done|]. intros p c Hp Hh. apply H2; [done|]. intros Hin. by apply (Hm p). Qed.

Lemma stop_safe e : Forall safe_state [s0] /\ undone (r_state (MkRun (Some e) s0 [])).
Proof.
  split; [|by apply moving_undone, moving_start]. constructor; [|constructor].
  apply (fine_safe []); [by intros p ?%elem_of_nil|]. apply (moving_fine env _ Hnd _ []), moving_start.
Qed.

Context (done : list movedDisk) (s : state).
Context (Hmv : moving env s0 done s) (Ht : map mv_target done = map md_target (todo_of dest (st_disks s0))).

(** What has moved is what was to move. *)
Lemma done_todo m : m ∈ done -> exists d, d ∈ todo_of dest (st_disks s0) /\ md_target d = mv_target m /\ md_path d = mv_from m.
Proof.
  intros Hm. destruct (proj1 (Forall_forall _ _) (mo_from _ _ _ _ Hmv) m Hm) as (d & Hd & H1 & H2).
  assert (mv_target m ∈ map md_target (todo_of dest (st_disks s0))) as (d' & E & Hd')%list_elem_of_fmap
    by (rewrite <- Ht; by apply list_elem_of_fmap_2).
  exists d. split; [|done]. replace d with d'; [done|]. apply (same_disk s0 Hnd); [|done|congruence]. by apply todo_spec in Hd' as [? _].
Qed.

Lemma moved_path p : p ∈ map mv_from done -> p ∈ map md_path (todo_of dest (st_disks s0)).
Proof. intros (m & -> & Hm)%list_elem_of_fmap. destruct (done_todo m Hm) as (d & Hd & _ & <-). by apply list_elem_of_fmap_2. Qed.

Lemma stays d : d ∈ st_disks s0 -> md_target d ∉ map mv_target done -> md_path d ∉ map mv_from done.
Proof.
  rewrite Ht. intros Hd Hn (d' & E & Hd')%moved_path%list_elem_of_fmap. apply Hn, list_elem_of_fmap_2, todo_spec.
  apply todo_spec in Hd' as [_ H]. split; [done|]. by rewrite E.
Qed.

Lemma cleaned_relocated s' : cleaning s0 done s' ->
  (forall m, m ∈ done -> remove_ok env (mv_from m) = true -> st_files s' !! mv_from m = None) -> relocated s'.
Proof.
  intros Hc Hgone d c Hd Hdc. exists (redirect done d).
  destruct (cleaning_disk s0 Hnd done stays (mo_from _ _ _ _ Hmv) s' d c Hc Hd Hdc) as [H1 H2].
  rewrite redirect_target. split_and!; [done..|]. unfold redirect. destruct (List.find _ done) as [m|] eqn:E.
  - apply find_some in E as [Hm%list_elem_of_In Hmt%String.eqb_eq]. destruct (done_todo m Hm) as (d' & Hd' & H3 & H4).
    apply todo_spec in Hd' as [Hd' Hdir]. assert (d' = d) as -> by (apply (same_disk s0 Hnd); [done..|congruence]).
    rewrite (proj2 (String.eqb_neq _ _) Hdir). cbn. split; [|rewrite H4; by apply Hgone].
    by destruct (cl_new _ _ _ Hc m Hm) as (? & _ & ? & _).
  - destruct (String.eqb_spec (Dir (md_path d)) (Clean dest)) as [|Hdir]; [done|]. exfalso.
    assert (md_target d ∈ map mv_target done) as (m & Em & Hm)%list_elem_of_fmap by (rewrite Ht; by apply list_elem_of_fmap_2, todo_spec).
    pose proof (find_none _ _ E m ltac:(by apply list_elem_of_In)) as Hne. cbn in Hne. apply String.eqb_neq in Hne. congruence.
Qed.
End Outcome.


Definition names_freeb (dest : string) (todo : list movableDisk) (visited : list state) : bool :=
  forallb (fun s => forallb (fun d =>
    match new_path dest (st_files s) d with Some p => match st_files s !! p with Some _ => false | None => true end | None => true end) todo) visited.
Lemma names_freeb_ok dest todo visited : names_freeb dest todo visited = true -> names_free dest todo visited.
Proof.
  intros H. apply Forall_forall. intros s Hs. apply Forall_forall. intros d Hd p Hp.
  apply (proj1 (forallb_forall _ _)) with (x := s) in H; [|by apply list_elem_of_In].
  apply (proj1 (forallb_forall _ _)) with (x := d) in H; [|by apply list_elem_of_In].
  rewrite Hp in H. by destruct (st_files s !! p).
Qed.

(** ** Examples *)

Module MoveDemo.
Definition disks : list movableDisk := [MkDisk "vda" "/a/web.qcow2" "qcow2"; MkDisk "vdb" "/a/web-data.qcow2" "qcow2"; MkDisk "vdc" "/b/web.qcow2" "qcow2"].
Definition start : state := MkState {["/a/web.qcow2" := "root"; "/a/web-data.qcow2" := "data"; "/b/web.qcow2" := "old"]} disks.
Definition env (fails : nat -> bool) (back : bool) : environment :=
  MkEnv true (Some "/b") (Some []) None (fun _ => Succeed) (fun i => negb (fails i)) (fun _ => back) (fun _ => true).
Definition no_clones (_ : string) : option (list string) := Some [].
Definition move (e : environment) : run := MoveDomainStorage no_clones "uuid" "web" e start.

Example moves : let r := move (env (fun _ => false) true) in
  r_error r = None /\ map md_path (st_disks (r_state r)) = ["/b/web-2.qcow2"; "/b/web-data.qcow2"; "/b/web.qcow2"] /\
  st_files (r_state r) = {["/b/web-2.qcow2" := "root"; "/b/web-data.qcow2" := "data"; "/b/web.qcow2" := "old"]}.
Proof. by vm_compute. Qed.

Example rolls_back : let r := move (env (Nat.eqb 1) true) in
  r_error r = Some RepointFailed /\ r_state r = start /\ length (r_trace r) = 6%nat.
Proof. by vm_compute. Qed.

(** When the definition cannot be changed back, the copy that the machine then
    points at is deleted all the same. *)
Example rollback_leaves_the_machine_at_nothing : let r := move (env (Nat.eqb 1) false) in
  r_error r = Some RepointFailed /\ map md_path (st_disks (r_state r)) = ["/b/web-2.qcow2"; "/a/web-data.qcow2"; "/b/web.qcow2"] /\
  st_files (r_state r) !! "/b/web-2.qcow2" = None.
Proof. by vm_compute. Qed.

Definition volumes (doms : option (list other_vm)) : volume_env := MkVolEnv (Some "/a") (Some "/b") doms None true true Succeed (fun _ => true).
Definition user_vm : other_vm := MkOther "u2" "db" true ["/a/web.qcow2"].

(** A volume in use does not move, but it does when the machines cannot be
    listed: the machine's move refuses that. *)
Example unknown_attachments_move :
  (MoveVolume no_clones (volumes (Some [user_vm])) "a" "web.qcow2" "b" (MkOpts "x.qcow2" false) (st_files start)).1 = Some InUse /\
  (MoveVolume no_clones (volumes None) "a" "web.qcow2" "b" (MkOpts "x.qcow2" false) (st_files start)).1 = None /\
  r_error (MoveDomainStorage no_clones "uuid" "web"
    (MkEnv true (Some "/b") None None (fun _ => Succeed) (fun _ => true) (fun _ => true) (fun _ => true)) start) = Some AttachmentsUnknown.
Proof. by vm_compute. Qed.
End MoveDemo.

