(* ===== verification/Producer.v ===== *)
(** * Producer: what goes into an archive

    Models [backupstore/producer.go], the archive of one machine, and the
    configuration archive of [backupstore/runner.go]: which files become members,
    under which names, and what the caller learns of it.  An archive is the list of
    its members in order, and whether the compressor could be closed; the framing
    of tar and the compression are the standard library's. *)

From S2P Require Import Sessions BackupStore.
From S2P Require Export GoPath.
Open Scope Z_scope.

Definition member : Type := string * string.
Definition nl : string := String "010" "".

(** A path on the host, and whether reading it to its end succeeds. *)
Inductive source := Missing | Unstatable | Directory | File (data : string) (readable : bool).

Record DiskInfo := MkDisk { dk_Device : string; dk_Source : string; dk_Target : string; dk_Pool : string }.
Record SnapshotBackup := MkSnap { sn_Name : string; DomainSnapshotXML : string; VolumePath : string }.
Record VMBackup := MkBackup { vb_ID : string; DomainXML : string; vb_Disks : list DiskInfo; Snapshots : list SnapshotBackup }.
Record ProducerOpts := MkOpts { po_Compression : string; RepackDisks : bool; DiskSizeLimit : Z }.
Record ProducerResult := MkResult { DisksIncluded : Z; DisksSkipped : Z; TotalBytes : Z }.

Definition size (data : string) : Z := Z.of_nat (slen data).

Section Producer.
(** The files of the host, [qemu-img convert -c] of a path, whether the [n]-th
    member can be written, whether the context is over before the [i]-th disk, and
    the bytes of a tar stream. *)
Context (look : string -> source) (repack : string -> option string) (write_ok : nat -> bool) (cancelled : nat -> bool)
        (tar_size : list member -> Z).

Record state := MkState { out : list member; manifest : string; included : Z; skipped : Z }.
Abbreviation op := (SE state string).

Definition emit (name data : string) : op unit := fun s =>
  if write_ok (length (out s)) then (Ok tt, MkState (out s ++ [(name, data)]) (manifest s) (included s) (skipped s))
  else (Err "write", s).
Definition writeTarEntry (name data : string) : op unit :=
  _ ← se_guard (contains_str ".." name) "invalid tar entry name"; emit name data.
Definition writeDiskToTar (src arcName : string) : op unit :=
  match look src with File data true => emit arcName data | _ => se_fail "read" end.
Definition streamRepackedDisk (src arcName : string) : op unit :=
  match repack src with Some data => emit arcName data | None => se_fail "repack" end.

Definition note (line : string) : op unit := se_modify (fun s => MkState (out s) (manifest s +:+ line +:+ nl) (included s) (skipped s)).
Definition count_in : op unit := se_modify (fun s => MkState (out s) (manifest s) (included s + 1) (skipped s)).
Definition count_out : op unit := se_modify (fun s => MkState (out s) (manifest s) (included s) (skipped s + 1)).

Definition snap_xml (name : string) : string := "snapshots/" +:+ name +:+ ".xml".
Definition snap_volume (name path : string) : string := "snapshots/" +:+ name +:+ "/" +:+ Base path.
Definition disk_arc (path : string) : string := "disks/" +:+ Base path.

Definition write_snapshot (sn : SnapshotBackup) : op unit :=
  if String.eqb (sn_Name sn) "" then mret tt else
  _ ← se_when (negb (String.eqb (sn_Name sn) "_base") && nonempty (DomainSnapshotXML sn))
        (_ ← writeTarEntry (snap_xml (sn_Name sn)) (DomainSnapshotXML sn); note ("snapshot=" +:+ sn_Name sn));
  se_when (nonempty (VolumePath sn) && match look (VolumePath sn) with File _ _ => true | _ => false end)
    (_ ← writeDiskToTar (VolumePath sn) (snap_volume (sn_Name sn) (VolumePath sn)); count_in).

Definition oversize (limit : Z) (data : string) : bool := (0 <? limit) && (limit <? size data).

Definition write_disk (opts : ProducerOpts) (i : nat) (d : DiskInfo) : op unit :=
  _ ← se_guard (cancelled i) "context";
  if String.eqb (dk_Source d) "" then mret tt else
  let line := "disk" +:+ Itoa (Z.of_nat i) +:+ "=" +:+ dk_Source d in
  match look (dk_Source d) with
  | Missing => count_out
  | Unstatable => se_fail "stat"
  | Directory => count_out
  | File data _ =>
      if oversize (DiskSizeLimit opts) data then
        _ ← note (line +:+ "  SKIPPED (oversize: " +:+ Itoa (size data) +:+ " > " +:+ Itoa (DiskSizeLimit opts) +:+ ")");
        count_out
      else
        _ ← note line;
        _ ← (if RepackDisks opts then streamRepackedDisk (dk_Source d) (disk_arc (dk_Source d))
             else writeDiskToTar (dk_Source d) (disk_arc (dk_Source d)));
        count_in
  end.

Fixpoint each {A} (f : nat -> A -> op unit) (i : nat) (l : list A) : op unit :=
  match l with [] => mret tt | a :: l => _ ← f i a; each f (S i) l end.

Definition known_codec (kind : string) : bool :=
  existsb (String.eqb (to_lower (trim_space kind))) [""; "zstd"; "gzip"].

(** The members, and the result. What closing the archive says is not looked
    at. *)
Definition ProduceVMArchive (vm : VMBackup) (opts : ProducerOpts) : res string ProducerResult * list member :=
  if negb (known_codec (po_Compression opts)) then (Err "unsupported compression", []) else
  let '(r, s) :=
    (_ ← writeTarEntry "domain.xml" (DomainXML vm);
     _ ← note ("name=" +:+ vb_ID vm);
     _ ← each (fun _ => write_snapshot) 0 (Snapshots vm);
     _ ← each (write_disk opts) 0 (vb_Disks vm);
     s ← se_get;
     _ ← writeTarEntry "manifest.txt" (manifest s);
     s ← se_get;
     mret (MkResult (included s) (skipped s) (tar_size (out s)))) (MkState [] "" 0 0) in
  (r, out s).
End Producer.

(** ** The configuration archive *)

Definition configAllowList : list string :=
  ["appliances.json"; "groups.json"; "pool-purposes.json"; "networks.json"; "firewall.json"; "firewall-host.json";
   "vm-schedules.json"; "helper-scripts.json"; "alerts.json"; "incidents.json"; "verified.json"; "audit.log"].

Definition isExcludedConfigFile (name : string) : bool :=
  if negb (existsb (String.eqb name) configAllowList) then true else
  let lower := to_lower name in
  if has_suffix ".tmp" lower || has_suffix ".key" lower || contains_str "secret" lower || contains_str "password" lower
     || contains_str "token" lower then true
  else existsb (String.eqb lower) ["jwt.key"; "users.json"; "revoked.json"; "jail.json"; "config.json"; "nodes.json"; "targets.json"].

(** Names in the archive and paths; [None]: the data directory cannot be read. *)
Definition collectConfigEntries (dataDir : string) (entries : option (list (string * bool))) : option (list (string * string)) :=
  match entries with
  | None => None
  | Some l =>
      Some (map (fun n => (n, GoPath.Join [dataDir; n]))
              (map fst (List.filter (fun e => negb (e.2 || isExcludedConfigFile e.1)) l))
            ++ [("backup/schedules.json", GoPath.Join [dataDir; "backup"; "schedules.json"])])
  end.

Section Config.
Context (look : string -> source) (write_ok : nat -> bool) (cancelled : nat -> bool).

Definition audit_cap : Z := 10 * 1024 * 1024.

Definition config_entry (i : nat) (p : string * string) : SE state string unit :=
  _ ← se_guard (cancelled i) "context";
  match look p.2 with
  | Missing | Unstatable => mret tt
  | Directory => note (p.1 +:+ "  FAILED (is a directory)")
  | File data readable =>
      if String.eqb p.1 "audit.log" && (audit_cap <? size data) then
        note (p.1 +:+ "  SKIPPED (audit.log > 10MB; re-export from the Audit page)")
      else fun s =>
        match (if readable then emit write_ok p.1 data else se_fail "read") s with
        | (Ok _, s) => note (p.1 +:+ "  " +:+ Itoa (size data)) s
        | (Err e, s) => note (p.1 +:+ "  FAILED (" +:+ e +:+ ")") s
        end
  end.

(** [None]: the archive is not there.  [created]: the time stamp. *)
Definition writeConfigArchive (create_ok close_ok : bool) (created targetID dataDir : string)
    (entries : option (list (string * bool))) : option (list member) :=
  if negb create_ok then None else
  match collectConfigEntries dataDir entries with
  | None => None
  | Some picks =>
      let '(r, s) :=
        (_ ← each config_entry 0 picks;
         s ← se_get;
         writeTarEntry write_ok "manifest.txt"
           ("kind=config" +:+ nl +:+ "host=" +:+ targetID +:+ nl +:+ "created=" +:+ created +:+ nl +:+ manifest s)) (MkState [] "" 0 0) in
      match r with Ok _ => if close_ok then Some (out s) else None | Err _ => None end
  end.
End Config.

(** ** Reading an archive *)

(** The tree that extracting the members in order leaves: a later member of a
    name replaces an earlier one. *)
Definition extract (l : list member) : gmap string string := foldl (fun m e => <[e.1 := e.2]> m) ∅ l.

Definition validateTarMemberName (name : string) : bool :=
  if String.eqb name "" then true
  else if has_prefix "/" name || has_prefix "\" name then false
  else let c := Clean name in negb (String.eqb c ".." || has_prefix "../" c).

(** ** Facts *)

(** When [m] succeeds, it has added these members, and counted so many disks as
    included and as skipped. *)
Definition gives (m : SE state string unit) (ms : list member) (inc skip : Z) : Prop :=
  forall s s', m s = (Ok tt, s') -> out s' = out s ++ ms /\ included s' = included s + inc /\ skipped s' = skipped s + skip.

Ltac finish := cbn; rewrite ?app_nil_r, ?app_assoc; split_and!; [done|lia..].

Lemma gives_ret : gives (mret tt) [] 0 0.
Proof. intros s s' [= <-]. finish. Qed.
Lemma gives_fail e ms i k : gives (se_fail e) ms i k.
Proof. by intros s s'. Qed.
Lemma gives_bind m f ms1 ms2 i1 i2 k1 k2 : gives m ms1 i1 k1 -> gives f ms2 i2 k2 -> gives (m ≫= fun _ => f) (ms1 ++ ms2) (i1 + i2) (k1 + k2).
Proof.
  intros Hm Hf s s'. rewrite run_bind. destruct (m s) as [[[]|] s1] eqn:E; [|done]. intros H.
  apply Hm in E as (E1 & E2 & E3). apply Hf in H as (-> & -> & ->). rewrite E1, E2, E3. finish.
Qed.
Lemma gives_guard c e f ms i k : (c = false -> gives f ms i k) -> gives (se_guard c e ≫= fun _ => f) ms i k.
Proof. intros H s s'. rewrite run_guard. destruct c; [done|by apply H]. Qed.
Lemma gives_when c m ms i k : gives m ms i k -> gives (se_when c m) (if c then ms else []) (if c then i else 0) (if c then k else 0).
Proof. destruct c; [done|]. intros _. apply gives_ret. Qed.
Lemma gives_note l : gives (note l) [] 0 0.
Proof. intros s s' [= <-]. finish. Qed.
Lemma gives_in : gives count_in [] 1 0.
Proof. intros s s' [= <-]. finish. Qed.
Lemma gives_out : gives count_out [] 0 1.
Proof. intros s s' [= <-]. finish. Qed.
Lemma gives_eq m ms i k ms' i' k' : gives m ms i k -> ms = ms' -> i = i' -> k = k' -> gives m ms' i' k'.
Proof. by intros H <- <- <-. Qed.

Lemma gives_counted l m x : gives m [x] 0 0 -> gives (_ ← note l; _ ← m; count_in) [x] 1 0.
Proof.
  intros H. eapply gives_eq; [apply gives_bind; [apply gives_note|apply gives_bind; [exact H|apply gives_in]]|..]; done.
Qed.

Section Layout.
Context (look : string -> source) (repack : string -> option string) (write_ok : nat -> bool) (cancelled : nat -> bool)
        (tar_size : list member -> Z).

Lemma gives_emit n d : gives (emit write_ok n d) [(n, d)] 0 0.
Proof. intros s s'. unfold emit. destruct (write_ok _); [|done]. intros [= <-]. finish. Qed.
Lemma gives_entry n d : gives (writeTarEntry write_ok n d) [(n, d)] 0 0.
Proof. apply gives_guard. intros _. apply gives_emit. Qed.

Definition file_at (p : string) : option string := match look p with File d _ => Some d | _ => None end.

Definition snap_members (sn : SnapshotBackup) : list member :=
  if String.eqb (sn_Name sn) "" then [] else
  (if negb (String.eqb (sn_Name sn) "_base") && nonempty (DomainSnapshotXML sn) then [(snap_xml (sn_Name sn), DomainSnapshotXML sn)] else []) ++
  match file_at (VolumePath sn) with
  | Some d => if nonempty (VolumePath sn) then [(snap_volume (sn_Name sn) (VolumePath sn), d)] else []
  | None => []
  end.

(** What a disk becomes: the content of its file, or of the repacked image. *)
Definition disk_data (opts : ProducerOpts) (d : DiskInfo) : option string :=
  if String.eqb (dk_Source d) "" then None else
  data ← file_at (dk_Source d);
  if oversize (DiskSizeLimit opts) data then None
  else if RepackDisks opts then Some (default "" (repack (dk_Source d))) else Some data.
Definition disk_members (opts : ProducerOpts) (d : DiskInfo) : list member :=
  match disk_data opts d with Some data => [(disk_arc (dk_Source d), data)] | None => [] end.
Definition left_out (opts : ProducerOpts) (d : DiskInfo) : Z :=
  if String.eqb (dk_Source d) "" then 0 else match disk_data opts d with Some _ => 0 | None => 1 end.

Lemma gives_copy src arc d : file_at src = Some d -> gives (writeDiskToTar look write_ok src arc) [(arc, d)] 0 0.
Proof.
  unfold file_at, writeDiskToTar. destruct (look src) as [| | |data r]; [done..|]. intros [= <-].
  destruct r; [apply gives_emit|apply gives_fail].
Qed.

Lemma snapshot_gives sn : gives (write_snapshot look write_ok sn) (snap_members sn)
  (if String.eqb (sn_Name sn) "" then 0 else if nonempty (VolumePath sn) && bool_decide (is_Some (file_at (VolumePath sn))) then 1 else 0) 0.
Proof.
  unfold write_snapshot, snap_members. destruct (String.eqb (sn_Name sn) ""); [apply gives_ret|].
  set (c := match look (VolumePath sn) with File _ _ => true | _ => false end).
  eapply gives_eq; [apply gives_bind|..].
  - apply gives_when. eapply gives_bind; [apply gives_entry|apply gives_note].
  - assert (gives (_ ← writeDiskToTar look write_ok (VolumePath sn) (snap_volume (sn_Name sn) (VolumePath sn)); count_in)
      (match file_at (VolumePath sn) with Some d => [(snap_volume (sn_Name sn) (VolumePath sn), d)] | None => [] end) 1 0) as H.
    { destruct (file_at (VolumePath sn)) as [d|] eqn:E.
      - eapply gives_eq; [eapply gives_bind; [by apply gives_copy|apply gives_in]|..]; done.
      - intros s s'. rewrite run_bind. unfold writeDiskToTar, file_at in *. by destruct (look (VolumePath sn)). }
    apply gives_when. exact H.
  - apply (f_equal2 app); [by destruct (_ && _)|]. unfold c, file_at. destruct (look (VolumePath sn)) as [| | |d r]; cbn; rewrite ?andb_false_r; try done.
    rewrite andb_true_r. by destruct (nonempty _).
  - unfold c, file_at. by destruct (look (VolumePath sn)), (nonempty (VolumePath sn)),
      (negb (String.eqb (sn_Name sn) "_base") && nonempty (DomainSnapshotXML sn)).
  - unfold c. by destruct (look (VolumePath sn)), (nonempty (VolumePath sn)),
      (negb (String.eqb (sn_Name sn) "_base") && nonempty (DomainSnapshotXML sn)).
Qed.

Lemma disk_gives opts i d : gives (write_disk look repack write_ok cancelled opts i d) (disk_members opts d)
  (Z.of_nat (length (disk_members opts d))) (left_out opts d).
Proof.
  unfold write_disk, disk_members, left_out, disk_data. apply gives_guard. intros _.
  destruct (String.eqb (dk_Source d) ""); [apply gives_ret|]. unfold file_at.
  destruct (look (dk_Source d)) as [| | |data r] eqn:E; cbn [mbind option_bind].
  - apply gives_out.
  - apply gives_fail.
  - apply gives_out.
  - destruct (oversize _ _).
    { eapply gives_eq; [eapply gives_bind; [apply gives_note|apply gives_out]|..]; done. }
    destruct (RepackDisks opts).
    + apply gives_counted. unfold streamRepackedDisk. destruct (repack _); [apply gives_emit|apply gives_fail].
    + apply gives_counted, gives_copy. unfold file_at. by rewrite E.
Qed.

Lemma each_gives {A} (f : nat -> A -> SE state string unit) (ms : A -> list member) (inc skip : A -> Z) l :
  (forall i a, gives (f i a) (ms a) (inc a) (skip a)) -> forall i,
  gives (each f i l) (concat (map ms l)) (foldr (fun a n => inc a + n) 0 l) (foldr (fun a n => skip a + n) 0 l).
Proof.
  intros H. induction l as [|a l IH]; intros i; [apply gives_ret|]. eapply gives_bind; [apply H|apply IH].
Qed.
End Layout.

Lemma extract_lookup l n d : (n, d) ∈ l -> (forall d', (n, d') ∈ l -> d' = d) -> extract l !! n = Some d.
Proof.
  unfold extract. induction l as [|[n' d'] l IH] using rev_ind; [by intros ?%elem_of_nil|]. intros Hin Hu.
  rewrite foldl_app. cbn. destruct (decide (n' = n)) as [->|Hne].
  - rewrite lookup_insert_eq. f_equal. apply Hu, elem_of_app. right. by left.
  - rewrite lookup_insert_ne by done. apply IH; [|intros d0 H0; apply Hu, elem_of_app; by left].
    apply elem_of_app in Hin as [?|H]; [done|]. apply list_elem_of_singleton in H. congruence.
Qed.

Lemma prefix_clash p q a b : has_prefix p (q +:+ a) = false -> p +:+ b <> q +:+ a.
Proof. intros H E. rewrite <- E in H. assert (has_prefix p (p +:+ b) = true) as H' by (apply has_prefix_spec; by eexists). congruence. Qed.

Section Archive.
Context (look : string -> source) (repack : string -> option string) (write_ok : nat -> bool) (cancelled : nat -> bool)
        (tar_size : list member -> Z).

Lemma snap_member_name sn n d : (n, d) ∈ snap_members look sn -> exists a, n = "snapshots/" +:+ a.
Proof.
  unfold snap_members. destruct (String.eqb _ _); [by intros ?%elem_of_nil|]. intros [H|H]%elem_of_app.
  - destruct (_ && _); [|by apply elem_of_nil in H]. apply list_elem_of_singleton in H as [= -> _]. by eexists.
  - destruct (file_at look _); [|by apply elem_of_nil in H]. destruct (nonempty _); [|by apply elem_of_nil in H].
    apply list_elem_of_singleton in H as [= -> _]. by eexists.
Qed.

Lemma ProduceVMArchive_layout vm opts r ms :
  ProduceVMArchive look repack write_ok cancelled tar_size vm opts = (Ok r, ms) ->
  (exists mf, ms = ("domain.xml", DomainXML vm) :: concat (map (snap_members look) (Snapshots vm)) ++
    concat (map (disk_members look repack opts) (vb_Disks vm)) ++ [("manifest.txt", mf)]) /\
  DisksSkipped r = foldr (fun d n => left_out look repack opts d + n) 0 (vb_Disks vm).
Proof.
  unfold ProduceVMArchive. destruct (known_codec _); [|done]. cbn [negb]. rewrite run_bind.
  destruct (writeTarEntry _ _ _ _) as [[[]|] s1] eqn:E1; [|done]. rewrite run_bind.
  destruct (note _ s1) as [[[]|] s2] eqn:E2; [|done]. rewrite run_bind.
  destruct (each _ 0 (Snapshots vm) s2) as [[[]|] s3] eqn:E3; [|done]. rewrite run_bind.
  destruct (each _ 0 (vb_Disks vm) s3) as [[[]|] s4] eqn:E4; [|done]. rewrite run_get, run_bind.
  destruct (writeTarEntry _ _ (manifest s4) s4) as [[[]|] s5] eqn:E5; [|done]. rewrite run_get. intros [= <- <-].
  destruct (gives_entry _ _ _ _ _ E1) as (O1 & _ & K1). destruct (gives_note _ _ _ E2) as (O2 & _ & K2).
  destruct (each_gives _ _ _ (fun _ => 0) _ (fun _ sn => snapshot_gives look write_ok sn) _ _ _ E3) as (O3 & _ & K3).
  destruct (each_gives _ _ _ _ _ (fun i d => disk_gives look repack write_ok cancelled opts i d) _ _ _ E4) as (O4 & _ & K4).
  destruct (gives_entry _ _ _ _ _ E5) as (O5 & _ & K5). split.
  - exists (manifest s4). rewrite O5, O4, O3, O2, O1. cbn [out app]. rewrite <- !app_assoc. cbn [app]. reflexivity.
  - cbn. rewrite K5, K4, K3, K2, K1. replace (foldr (fun (_ : SnapshotBackup) n => 0 + n) 0 (Snapshots vm)) with 0; [cbn; lia|].
    clear. induction (Snapshots vm) as [|a l IH]; [done|]. cbn [foldr]. lia.
Qed.

End Archive.

(** ** Names of members *)

Lemma dotdot_stays cs : forall s, head (clean_comps false (s ++ [".."]) cs) = Some "..".
Proof.
  induction cs as [|c cs IH]; intros s; cbn [clean_comps].
  { by rewrite rev_app_distr. }
  destruct (_ || _); [done|]. destruct (String.eqb_spec c "..") as [->|]; [|apply (IH (c :: s))].
  destruct s as [|d s]; cbn [app]; [apply (IH [".."])|].
  destruct (String.eqb d ".."); [apply (IH (".." :: d :: s))|apply IH].
Qed.

Lemma clean_below cs : forall s l, Forall (fun c => c <> "..") s -> head (clean_comps false s cs) <> Some ".." ->
  clean_comps true (s ++ rev l) cs = l ++ clean_comps false s cs.
Proof.
  induction cs as [|c cs IH]; intros s l Hs Hh; cbn [clean_comps] in *.
  { by rewrite rev_app_distr, rev_involutive. }
  destruct (_ || _); [by apply IH|]. destruct (String.eqb_spec c "..") as [->|Hc].
  - destruct s as [|d s].
    { exfalso. apply Hh. apply (dotdot_stays cs []). }
    apply Forall_cons in Hs as [Hd Hs]. cbn [app]. rewrite (proj2 (String.eqb_neq _ _) Hd) in *. by apply IH.
  - apply (IH (c :: s)); [by constructor|done].
Qed.

(** An accepted name stays below the directory it is extracted into. *)
Lemma validateTarMemberName_confined l name : Forall comp l -> name <> "" -> validateTarMemberName name = true ->
  exists k, Forall comp k /\ GoPath.Join [abs_path l; name] = abs_path (l ++ k).
Proof.
  intros Hl Hne. unfold validateTarMemberName. rewrite (proj2 (String.eqb_neq _ _) Hne).
  destruct (has_prefix "/" name) eqn:Habs; [done|]. destruct (has_prefix "\" name); [done|]. cbn [orb]. intros H%negb_true_iff.
  apply orb_false_elim in H as [H1 H2]. set (cs := split_byte "/" name).
  assert (head (clean_comps false [] cs) <> Some "..") as Hh.
  { unfold Clean, IsAbs in H1, H2. rewrite Habs in H1, H2. fold cs in H1, H2. destruct (clean_comps false [] cs) as [|x r]; [done|].
    cbn. intros [= ->]. destruct r; [done|]. by rewrite has_prefix_up in H2. }
  assert (clean_comps true (rev l) cs = l ++ clean_comps false [] cs) as E by (apply (clean_below cs []); [constructor|done]).
  assert (Forall comp (clean_comps true (rev l) cs)) as Hc.
  { apply clean_comps_valid; [by apply Forall_rev|apply split_byte_pieces]. }
  exists (clean_comps false [] cs). rewrite <- E. split; [rewrite E in Hc; by apply Forall_app in Hc as [_ Hc]|].
  change (GoPath.Join [abs_path l; name]) with (Clean (abs_path l +:+ String "/" name)).
  unfold Clean, IsAbs. rewrite (proj2 (has_prefix_spec _ _)) by (by eexists). f_equal.
  rewrite split_byte_app, split_abs by done. fold cs. destruct l as [|d l]; [done|].
  change (clean_comps true [] ((d :: l) ++ cs) = clean_comps true (rev (d :: l)) cs).
  by rewrite clean_comps_app, app_nil_r.
Qed.

(** ** The configuration archive *)

Lemma isExcludedConfigFile_exact name : isExcludedConfigFile name = negb (existsb (String.eqb name) configAllowList).
Proof.
  unfold isExcludedConfigFile. destruct (existsb (String.eqb name) configAllowList) eqn:E; [|done]. cbn [negb].
  apply existsb_exists in E as (x & Hx & ->%String.eqb_eq).
  assert (forallb (fun n => negb (isExcludedConfigFile n)) configAllowList = true) as H by (vm_compute; reflexivity).
  apply (proj1 (forallb_forall _ _) H) in Hx. apply negb_true_iff in Hx. unfold isExcludedConfigFile in Hx.
  destruct (negb _); [done|]. exact Hx.
Qed.

Section ConfigFacts.
Context (look : string -> source) (write_ok : nat -> bool) (cancelled : nat -> bool).

(** Every member written so far is one of [picks], with its content. *)
Definition from_picks (picks : list (string * string)) (ms : list member) : Prop :=
  Forall (fun m => exists p, p ∈ picks /\ m.1 = p.1 /\ look p.2 = File m.2 true) ms.

Lemma config_entry_out picks p i s : p ∈ picks -> from_picks picks (out s) ->
  from_picks picks (out (config_entry look write_ok cancelled i p s).2).
Proof.
  intros Hp Hs. unfold config_entry. rewrite run_guard. destruct (cancelled i); [done|].
  destruct (look p.2) as [| | |data r] eqn:E; try done. destruct (_ && _); [done|].
  destruct r; [|done]. unfold emit. destruct (write_ok _); [|done]. cbn.
  apply Forall_app. split; [done|]. constructor; [by exists p|constructor].
Qed.

Lemma config_each_out picks l : forall i s, (forall p, p ∈ l -> p ∈ picks) -> from_picks picks (out s) ->
  from_picks picks (out (each (config_entry look write_ok cancelled) i l s).2).
Proof.
  induction l as [|p l IH]; intros i s Hl Hs; [done|]. cbn [each]. rewrite run_bind.
  pose proof (config_entry_out picks p i s (Hl p ltac:(by left)) Hs) as H.
  destruct (config_entry _ _ _ _ _ _) as [[[]|] s1]; [|done]. apply IH; [|done]. intros q Hq. apply Hl. by right.
Qed.

End ConfigFacts.

(** ** Concrete archives *)
Module ProducerDemo.

(** Two disks whose files have the same last name, in two pools. *)
Definition look (p : string) : source :=
  if String.eqb p "/var/a/disk.qcow2" then File "first" true
  else if String.eqb p "/mnt/b/disk.qcow2" then File "second" true
  else if String.eqb p "/d/alerts.json" then File "[]" true
  else if String.eqb p "/d/jwt.key" then File "key" true
  else if String.eqb p "/d/backup/schedules.json" then File "{}" true
  else Missing.
Definition disk (p t : string) : DiskInfo := MkDisk "disk" p t "default".
Definition web : VMBackup := MkBackup "web" "<domain/>" [disk "/var/a/disk.qcow2" "vda"; disk "/var/a/gone.qcow2" "vdb"] [].
Definition twins : VMBackup := MkBackup "twins" "<domain/>" [disk "/var/a/disk.qcow2" "vda"; disk "/mnt/b/disk.qcow2" "vdb"] [].
Definition opts : ProducerOpts := MkOpts "" false 0.
Definition yes (_ : nat) : bool := true.
Definition no (_ : nat) : bool := false.
Definition tar_size (l : list member) : Z := Z.of_nat (length l).
Definition produce (vm : VMBackup) := ProduceVMArchive look (fun _ => None) yes no tar_size vm opts.

(** Both are reported as included, and the second replaces the first when the
    archive is extracted. *)
Example same_name_lost :
  (produce twins).1 = Ok (MkResult 2 0 4) /\ extract (produce twins).2 !! "disks/disk.qcow2" = Some "second".
Proof. by vm_compute. Qed.

(** A disk whose file is gone leaves no line in the manifest, unlike one that is
    too large. *)
Example missing_not_listed :
  extract (produce web).2 !! "manifest.txt" = Some ("name=web" +:+ nl +:+ "disk0=/var/a/disk.qcow2" +:+ nl).
Proof. by vm_compute. Qed.

(** The line "host=" of the configuration archive holds the target. *)
Definition config_dir : list (string * bool) := [("alerts.json", false); ("jwt.key", false); ("certs", true)].
Definition config_archive : option (list member) :=
  writeConfigArchive look yes no true true "2026-01-01T00:00:00Z" "tgt-1" "/d" (Some config_dir).
Example config_members : option_map (map fst) config_archive = Some ["alerts.json"; "backup/schedules.json"; "manifest.txt"].
Proof. by vm_compute. Qed.
End ProducerDemo.


