(* ===== verification/Remote.v ===== *)
(** * Remote: the SFTP and S3 transports of a backup target

    Models [backupstore/sftp.go] and [backupstore/s3.go]: whom the client trusts,
    the name an archive has on the other side, and how a run is uploaded, listed,
    read back and removed.  A remote side is its files; the SSH handshake, whether
    each call of the client succeeds and what a download reads are the
    environment's.  Lists are sorted by time in the code and not here. *)

From S2P Require Import Sessions BackupStore.
From S2P Require Export Producer.
Open Scope Z_scope.

(** What a file of a backup holds: nothing, a compressed tar, the export of a
    container, or a disk image. *)
Inductive blob := NoData | Tar (ms : list member) | Export (data : string) | Volume (data : string).

#[export] Instance blob_eq_dec : EqDecision blob.
Proof. solve_decision. Defined.

Abbreviation tree := (gmap string blob).

(** ** Whom the client trusts *)

(** [strings.Fields]. *)
Fixpoint fields_from (fuel : nat) (cur s : string) : list string :=
  let word := if String.eqb cur "" then [] else [cur] in
  match fuel, s with
  | S fuel, String c t =>
      match strip_space_left s with
      | Some rest => word ++ fields_from fuel "" rest
      | None => fields_from fuel (cur +:+ String c "") t
      end
  | _, _ => word
  end.
Definition Fields (s : string) : list string := fields_from (S (slen s)) "" s.

Definition configuredFingerprints (known : list string) : list string :=
  List.filter (has_prefix "SHA256:") (map trim_space (concat (map Fields known))).

Inductive key_err := NotPinned (presented : string) | Mismatch (presented : string).

(** A presented key: its type and its fingerprint. *)
Definition hostKeyFingerprint (key : string * string) : string := key.1 +:+ " " +:+ key.2.

Definition hostKeyCallbackFor (tgt : Target) (key : string * string) : option key_err :=
  if String.eqb (tg_ID tgt) "" then None
  else match tg_KnownHosts tgt with
  | [] => Some (NotPinned (hostKeyFingerprint key))
  | _ => if existsb (String.eqb key.2) (configuredFingerprints (tg_KnownHosts tgt)) then None
         else Some (Mismatch (hostKeyFingerprint key))
  end.

(** ** Names on the other side *)

Definition remoteJoin (tgt : Target) (name : string) : string := trim_suffix "/" (tg_Path tgt) +:+ "/" +:+ name.
Definition configGlobalRel : string := "config/webkvm-config-latest.tar.zst".

Fixpoint trim_left_byte (c : ascii) (s : string) : string :=
  match s with String a t => if Ascii.eqb a c then trim_left_byte c t else s | EmptyString => "" end.
(** [strings.Trim(s, "/")] *)
Definition trim_slashes (s : string) : string := trim_right_set (Ascii.eqb "/") (trim_left_byte "/" s).

Definition s3ObjectKey (tgt : Target) (filename : string) : string :=
  let prefix := trim_slashes (tg_Path tgt) in
  let key := if String.eqb prefix "" then filename else prefix +:+ "/" +:+ filename in
  join_str "/" (List.filter (fun p => negb (String.eqb p "" || String.eqb p "." || String.eqb p "..")) (split_byte "/" key)).

(** The prefix under which objects are listed. *)
Definition s3Prefix (tgt : Target) : string :=
  let prefix := trim_slashes (tg_Path tgt) in if String.eqb prefix "" then "" else prefix +:+ "/".

(** A file that is shown as a backup. *)
Definition listed (name : string) : bool :=
  negb (has_prefix "." name) && (has_suffix ".tar.gz" name || has_suffix ".tar.zst" name || has_suffix ".qcow2" name).

(** ** The transports *)

Section Transport.
(** Whether a private key can be read and parsed, the key a host presents (if it
    answers), whether it then accepts the credentials, whether the [n]-th call of a
    client succeeds, whether minio accepts an endpoint, the bytes of a file, and what
    a download reads of it. *)
Context (key_ok : string -> bool) (presents : string -> option (string * string)) (accepts : Target -> bool)
        (net : nat -> bool) (minio_ok : string -> bool) (bsize : blob -> Z) (observe : string -> blob -> option blob).

Record remote := MkRemote { rm_files : tree; rm_calls : nat }.
Abbreviation op := (SE remote string).

Definition call (e : string) : op unit := fun s =>
  (if net (rm_calls s) then Ok tt else Err e, MkRemote (rm_files s) (S (rm_calls s))).
Definition put (path : string) (b : blob) : op unit := se_modify (fun s => MkRemote (<[path := b]> (rm_files s)) (rm_calls s)).
Definition drop (path : string) : op unit := se_modify (fun s => MkRemote (delete path (rm_files s)) (rm_calls s)).

Definition sftpAuthMethods (sec : TargetSecret) : res string unit :=
  if nonempty (Password sec) then Ok tt
  else if nonempty (SSHKeyPath sec) then
    let p := Clean (SSHKeyPath sec) in
    if negb (IsAbs p) || contains_str ".." p then Err "invalid ssh key path"
    else if key_ok p then Ok tt else Err "ssh key"
  else Err "sftp target has no password or ssh key configured".

Definition dial_addr (tgt : Target) : string :=
  tg_Host tgt +:+ ":" +:+ Itoa (if tg_Port tgt =? 0 then 22 else tg_Port tgt).

Definition dialSFTP (tgt : Target) : res string unit :=
  if negb (String.eqb (tg_Type tgt) TargetSFTP) then Err "not an sftp target"
  else if String.eqb (tg_Host tgt) "" || String.eqb (tg_Username tgt) "" then Err "sftp target is missing host or username"
  else
    _ ← sftpAuthMethods (tg_Secret tgt);
    match presents (dial_addr tgt) with
    | None => Err "ssh"
    | Some key => match hostKeyCallbackFor tgt key with
                  | Some _ => Err "host key"
                  | None => if accepts tgt then Ok tt else Err "ssh"
                  end
    end.

Definition s3_endpoint (endpoint : string) : string :=
  let strip p s := if has_prefix p s then drop_str (slen p) s else s in
  let e := if String.eqb endpoint "" then "s3.amazonaws.com" else endpoint in
  let e := strip "http://" e in
  trim_suffix "/" (strip "http://" (strip "https://" e)).

Definition s3ClientFor (tgt : Target) : res string unit :=
  if negb (String.eqb (tg_Type tgt) TargetS3) then Err "target is not an s3 target"
  else if String.eqb (tg_Bucket tgt) "" then Err "s3 target is missing bucket"
  else if String.eqb (AccessKey (tg_Secret tgt)) "" || String.eqb (SecretKey (tg_Secret tgt)) ""
  then Err "s3 target is missing credentials"
  else if minio_ok (s3_endpoint (tg_Endpoint tgt)) then Ok tt else Err "s3 client".

(** [exists]: whether the bucket is there. *)
Definition s3EnsureBucket (there : bool) (tgt : Target) : op unit :=
  _ ← se_lift (s3ClientFor tgt);
  _ ← call "s3 bucket exists";
  se_when (negb there) (call "s3 make bucket").

(** Create the remote file, open the local one, copy, close. *)
Definition sftp_send (path : string) (src : option blob) : op Z :=
  _ ← call "create remote";
  _ ← put path NoData;
  match src with
  | None => se_fail "open"
  | Some b => _ ← call "upload"; _ ← put path b; _ ← call "upload"; mret (bsize b)
  end.

Fixpoint sftp_send_all (tgt : Target) (local : tree) (localDir : string) (files : list JobFile) (total : Z) : op Z :=
  match files with
  | [] => mret total
  | f :: files =>
      n ← sftp_send (remoteJoin tgt (jf_Filename f)) (local !! GoPath.Join [localDir; jf_Filename f]);
      sftp_send_all tgt local localDir files (wrap64 (total + n))
  end.

Definition uploadSFTPRun (tgt : Target) (local : tree) (localDir : string) (files : list JobFile) : op Z :=
  _ ← se_lift (dialSFTP tgt);
  _ ← call "mkdir remote";
  total ← sftp_send_all tgt local localDir files 0;
  match local !! GoPath.Join [localDir; configGlobalRel] with
  | None => mret total
  | Some b =>
      _ ← call "mkdir remote";
      _ ← sftp_send (remoteJoin tgt configGlobalRel) (Some b);
      mret total
  end.

Fixpoint s3_put_all (tgt : Target) (local : tree) (localDir : string) (files : list JobFile) (total : Z) : op Z :=
  match files with
  | [] => mret total
  | f :: files =>
      match local !! GoPath.Join [localDir; jf_Filename f] with
      | None => se_fail "open for s3 upload"
      | Some b =>
          _ ← call "s3 put";
          _ ← put (s3ObjectKey tgt (jf_Filename f)) b;
          s3_put_all tgt local localDir files (wrap64 (total + jf_Size f))
      end
  end.

Definition s3UploadRun (tgt : Target) (local : tree) (localDir : string) (files : list JobFile) : op Z :=
  _ ← se_lift (s3ClientFor tgt); s3_put_all tgt local localDir files 0.

(** The name of a remote file below the target's directory, where it is one. *)
Definition below (prefix path : string) : option string :=
  if has_prefix prefix path then
    let name := drop_str (slen prefix) path in
    if contains_byte "/" name then None else Some name
  else None.
Definition sftp_names (tgt : Target) (t : tree) : list string :=
  omap (fun e => below (trim_suffix "/" (tg_Path tgt) +:+ "/") e.1) (map_to_list t).
(** Every object under the prefix, minio's listing not descending. *)
Definition s3_names (tgt : Target) (t : tree) : list string :=
  List.filter (fun n => negb (String.eqb n "")) (omap (fun e => below (s3Prefix tgt) e.1) (map_to_list t)).

Definition sftpList (tgt : Target) : op (list string) :=
  _ ← se_lift (dialSFTP tgt);
  _ ← call "readdir";
  s ← se_get; mret (List.filter listed (sftp_names tgt (rm_files s))).

Definition s3List (tgt : Target) : op (list string) :=
  _ ← se_lift (s3ClientFor tgt);
  _ ← call "s3 list";
  s ← se_get; mret (List.filter listed (s3_names tgt (rm_files s))).

(** What reading the remote file gives. *)
Definition download (path : string) : op blob :=
  _ ← call "open";
  s ← se_get;
  match rm_files s !! path with
  | None => se_fail "not found"
  | Some b => match observe path b with Some b => mret b | None => se_fail "read" end
  end.
Definition sftpVerify (tgt : Target) (filename : string) : op blob :=
  _ ← se_lift (dialSFTP tgt); download (remoteJoin tgt filename).
Definition s3Verify (tgt : Target) (filename : string) : op blob :=
  _ ← se_lift (s3ClientFor tgt); download (s3ObjectKey tgt filename).

(** SFTP says when there is no such file; S3 does not. *)
Definition sftpDelete (tgt : Target) (filename : string) : op unit :=
  _ ← se_guard (negb (ValidBackupFilename filename)) "invalid filename";
  _ ← se_lift (dialSFTP tgt);
  _ ← call "remove";
  s ← se_get;
  _ ← se_guard (negb (bool_decide (is_Some (rm_files s !! remoteJoin tgt filename)))) "file does not exist";
  drop (remoteJoin tgt filename).
Definition s3Delete (tgt : Target) (filename : string) : op unit :=
  _ ← se_guard (negb (ValidBackupFilename filename)) "invalid filename";
  _ ← se_lift (s3ClientFor tgt);
  _ ← call "s3 delete";
  drop (s3ObjectKey tgt filename).

(** A removal that fails is not counted and does not stop the others. *)
Fixpoint remove_all (path : string -> string) (names : list string) (removed : Z) : op Z :=
  match names with
  | [] => mret removed
  | n :: names => fun s =>
      match (_ ← call "remove"; drop (path n)) s with
      | (Ok _, s) => remove_all path names (removed + 1) s
      | (Err _, s) => remove_all path names removed s
      end
  end.
Definition of_run (runSuffix name : string) : bool := contains_str runSuffix name && ValidBackupFilename name.

Definition sftpDeleteRun (tgt : Target) (runSuffix : string) : op Z :=
  _ ← se_guard (negb (isRunSuffix runSuffix)) "invalid run suffix";
  _ ← se_lift (dialSFTP tgt);
  _ ← call "readdir";
  s ← se_get;
  remove_all (remoteJoin tgt) (List.filter (of_run runSuffix) (sftp_names tgt (rm_files s))) 0.
Definition s3DeleteRun (tgt : Target) (runSuffix : string) : op Z :=
  _ ← se_guard (negb (isRunSuffix runSuffix)) "invalid run suffix";
  _ ← se_lift (s3ClientFor tgt);
  _ ← call "s3 list";
  s ← se_get;
  remove_all (fun n => s3Prefix tgt +:+ n) (List.filter (of_run runSuffix) (s3_names tgt (rm_files s))) 0.
End Transport.

(** ** Facts: whom the client trusts *)

Lemma configuredFingerprints_in known k :
  k ∈ configuredFingerprints known <-> has_prefix "SHA256:" k = true /\ exists e tok, e ∈ known /\ tok ∈ Fields e /\ trim_space tok = k.
Proof.
  unfold configuredFingerprints. rewrite list_elem_of_In, filter_In, in_map_iff. split.
  - intros [(tok & <- & H) Hp]. split; [done|]. apply in_concat in H as (l & Hl & Ht). apply in_map_iff in Hl as (e & <- & He).
    exists e, tok. rewrite !list_elem_of_In. done.
  - intros (Hp & e & tok & He & Ht & <-). split; [|done]. exists tok. split; [done|]. apply in_concat.
    exists (Fields e). split; [by apply in_map, list_elem_of_In|by apply list_elem_of_In].
Qed.

Lemma hostKeyCallbackFor_pins tgt key : tg_ID tgt <> "" ->
  hostKeyCallbackFor tgt key = None <-> key.2 ∈ configuredFingerprints (tg_KnownHosts tgt).
Proof.
  intros Hid. unfold hostKeyCallbackFor. rewrite (proj2 (String.eqb_neq _ _) Hid).
  destruct (tg_KnownHosts tgt) as [|k l].
  { split; [done|]. intros H%list_elem_of_In. destruct H. }
  destruct (existsb _ _) eqn:E.
  - split; [intros _|done]. apply existsb_exists in E as (x & Hx & ->%String.eqb_eq). by apply list_elem_of_In.
  - split; [done|]. intros H%list_elem_of_In. assert (existsb (String.eqb key.2) (configuredFingerprints (k :: l)) = true); [|congruence].
    apply existsb_exists. exists key.2. by rewrite String.eqb_refl.
Qed.

(** ** Facts: names *)

Lemma remoteJoin_inj tgt n m : remoteJoin tgt n = remoteJoin tgt m -> n = m.
Proof. unfold remoteJoin. by intros H%app_str_inj%app_str_inj. Qed.

(** The key of an object is a relative path that never leaves the bucket's root:
    none of its components is empty, "." or "..". *)
Lemma s3ObjectKey_comps tgt name : exists l, Forall comp l /\ s3ObjectKey tgt name = join_str "/" l.
Proof.
  unfold s3ObjectKey. set (key := if String.eqb _ "" then _ else _). set (f := fun p : string => negb _).
  exists (List.filter f (split_byte "/" key)). split; [|done]. apply Forall_forall. intros p [Hp Hf]%list_elem_of_In%filter_In.
  unfold f in Hf. apply negb_true_iff in Hf. apply orb_false_elim in Hf as [[H1 H2]%orb_false_elim H3].
  apply String.eqb_neq in H1, H2, H3. pose proof (split_byte_pieces "/" key) as Hs. rewrite Forall_forall in Hs.
  apply list_elem_of_In in Hp. by specialize (Hs _ Hp).
Qed.

Section TransportFacts.
Context (key_ok : string -> bool) (presents : string -> option (string * string)) (accepts : Target -> bool)
        (net : nat -> bool) (minio_ok : string -> bool) (bsize : blob -> Z) (observe : string -> blob -> option blob).
Abbreviation dial := (dialSFTP key_ok presents accepts).

(** What a transfer leaves: each file has under its key the local content, and
    every other file is as before. *)
Definition sent (key loc : string -> string) (local : tree) (names : list string) (t t' : tree) : Prop :=
  (forall n, n ∈ names -> is_Some (local !! loc n) /\ t' !! key n = local !! loc n) /\
  (forall p, (forall n, n ∈ names -> p <> key n) -> t' !! p = t !! p).

Lemma sent_nil key loc local t : sent key loc local [] t t.
Proof. split; [by intros n Hn%elem_of_nil|done]. Qed.

Lemma sent_cons key loc local n names b t t' :
  (forall m, m ∈ names -> key m = key n -> m = n) -> local !! loc n = Some b ->
  sent key loc local names (<[key n := b]> t) t' -> sent key loc local (n :: names) t t'.
Proof.
  intros Hinj Hb [H1 H2]. split.
  - intros m [->|Hm]%elem_of_cons; [|by apply H1]. rewrite Hb. split; [done|].
    destruct (decide (n ∈ names)) as [Hin|Hin]; [destruct (H1 n Hin); congruence|].
    rewrite H2; [apply lookup_insert_eq|]. intros m Hm E. by rewrite (Hinj m Hm (eq_sym E)) in Hm.
  - intros p Hp. rewrite H2; [|by intros m Hm; apply Hp; right]. apply lookup_insert_ne. intros E. by apply (Hp n); [left|].
Qed.

Lemma sftp_send_ok path src s n s' : sftp_send net bsize path src s = (Ok n, s') ->
  exists b, src = Some b /\ rm_files s' = <[path := b]> (rm_files s).
Proof.
  unfold sftp_send. rewrite run_bind. unfold call at 1. destruct (net _); [|done]. rewrite run_bind. cbn [put se_modify].
  destruct src as [b|]; [|done]. rewrite run_bind. unfold call at 1. destruct (net _); [|done]. rewrite run_bind. cbn [put se_modify].
  rewrite run_bind. unfold call. destruct (net _); [|done]. intros [= <- <-]. exists b. split; [done|]. cbn. by rewrite insert_insert_eq.
Qed.

Lemma sftp_send_all_ok tgt local dir files : forall total s n s', sftp_send_all net bsize tgt local dir files total s = (Ok n, s') ->
  sent (remoteJoin tgt) (fun n => GoPath.Join [dir; n]) local (map jf_Filename files) (rm_files s) (rm_files s').
Proof.
  induction files as [|f files IH]; intros total s n s'; cbn [sftp_send_all map]; [intros [= _ <-]; apply sent_nil|].
  rewrite run_bind. destruct (sftp_send _ _ _ _ _) as [[k|] s1] eqn:E; [|done]. apply sftp_send_ok in E as (b & Eb & E1).
  intros H%IH. rewrite E1 in H. eapply sent_cons; [|exact Eb|exact H]. by intros m _ ?%remoteJoin_inj.
Qed.

Lemma s3_put_all_ok tgt local dir files : forall total s n s', s3_put_all net tgt local dir files total s = (Ok n, s') ->
  (forall f g, f ∈ files -> g ∈ files -> s3ObjectKey tgt (jf_Filename f) = s3ObjectKey tgt (jf_Filename g) -> jf_Filename f = jf_Filename g) ->
  sent (s3ObjectKey tgt) (fun n => GoPath.Join [dir; n]) local (map jf_Filename files) (rm_files s) (rm_files s').
Proof.
  induction files as [|f files IH]; intros total s n s' H Hinj; cbn [s3_put_all map] in *; [injection H as _ <-; apply sent_nil|].
  destruct (local !! _) as [b|] eqn:Eb; [|done]. rewrite run_bind in H. unfold call at 1 in H. destruct (net _); [|done].
  rewrite run_bind in H. cbn [put se_modify] in H. apply IH in H; [|by intros g h Hg Hh; apply Hinj; right].
  eapply sent_cons; [|exact Eb|exact H]. intros m (g & -> & Hg)%list_elem_of_fmap E. apply Hinj; [by right|by left|done].
Qed.

(** An upload over SFTP that succeeds leaves every file of the run on the other
    side with the content it has here, and touches nothing but these files and the
    latest configuration. *)
Lemma uploadSFTPRun_ok tgt local dir files s n s' :
  uploadSFTPRun key_ok presents accepts net bsize tgt local dir files s = (Ok n, s') ->
  (forall f, f ∈ files -> jf_Filename f <> configGlobalRel) ->
  (forall f, f ∈ files -> is_Some (local !! GoPath.Join [dir; jf_Filename f]) /\
     rm_files s' !! remoteJoin tgt (jf_Filename f) = local !! GoPath.Join [dir; jf_Filename f]) /\
  (forall p, p <> remoteJoin tgt configGlobalRel -> (forall f, f ∈ files -> p <> remoteJoin tgt (jf_Filename f)) ->
     rm_files s' !! p = rm_files s !! p).
Proof.
  unfold uploadSFTPRun. rewrite run_lift. destruct (dial tgt); [|done]. rewrite run_bind. unfold call at 1. destruct (net _); [|done].
  rewrite run_bind. destruct (sftp_send_all _ _ _ _ _ _ _ _) as [[total|] s1] eqn:E; [|done]. apply sftp_send_all_ok in E as [E1 E2].
  intros H Hg. assert (exists b, rm_files s' = rm_files s1 \/ rm_files s' = <[remoteJoin tgt configGlobalRel := b]> (rm_files s1)) as (b & Hs).
  { destruct (local !! _) as [b|]; [|injection H as _ <-; exists NoData; by left].
    rewrite run_bind in H. unfold call in H at 1. destruct (net _); [|done]. rewrite run_bind in H.
    destruct (sftp_send _ _ _ _ _) as [[k|] s2] eqn:E; [|done]. apply sftp_send_ok in E as (b' & [= <-] & E). injection H as _ <-.
    exists b. by right. }
  split.
  - intros f Hf. destruct (E1 (jf_Filename f)) as [H1 H2]; [by apply list_elem_of_fmap_2|]. split; [done|]. rewrite <- H2.
    destruct Hs as [->| ->]; [done|]. apply lookup_insert_ne. intros Eq%remoteJoin_inj. by apply (Hg f).
  - intros p Hp Hf. transitivity (rm_files s1 !! p).
    + destruct Hs as [->| ->]; [done|]. by apply lookup_insert_ne.
    + apply E2. intros n' (f & -> & Hin)%list_elem_of_fmap. by apply Hf.
Qed.

(** Removing a run takes away only files of the run. *)
Lemma remove_all_only path names : forall k s p,
  rm_files (remove_all net path names k s).2 !! p = rm_files s !! p \/ exists n, n ∈ names /\ p = path n.
Proof.
  induction names as [|n names IH]; intros k s p; cbn [remove_all]; [by left|]. rewrite run_bind. unfold call at 1.
  assert (forall k s, rm_files s !! p = rm_files s !! p -> rm_files (remove_all net path names k s).2 !! p = rm_files s !! p \/ exists m, m ∈ n :: names /\ p = path m) as H.
  { intros k' s' _. destruct (IH k' s' p) as [->|(m & Hm & ->)]; [by left|]. right. exists m. split; [by right|done]. }
  destruct (net _); cbn [drop se_modify]; [|by destruct (H k (MkRemote (rm_files s) (S (rm_calls s))) eq_refl); auto].
  destruct (H (k + 1) (MkRemote (delete (path n) (rm_files s)) (S (rm_calls s))) eq_refl) as [E|E]; [|by right].
  destruct (decide (p = path n)) as [->|Hne]; [right; exists n; split; [by left|done]|]. left. cbn in E |- *. rewrite E. by apply lookup_delete_ne.
Qed.

(** An operation that fails without a call. *)
Definition refused {A} (m : SE remote string A) : Prop := forall s, exists e, m s = (Err e, s).

(** C16: A host whose key is not pinned gets nothing.  When the key that the host
    of a stored SFTP target presents is not among the fingerprints the operator
    configured, an upload, a listing, a read, a removal of one file and a removal of a
    run all fail before the first call to that host, and nothing is sent. *)
Theorem unpinned_host_gets_nothing tgt local dir files name suffix :
  tg_ID tgt <> "" ->
  (forall key, presents (dial_addr tgt) = Some key -> key.2 ∉ configuredFingerprints (tg_KnownHosts tgt)) ->
  refused (uploadSFTPRun key_ok presents accepts net bsize tgt local dir files) /\
  refused (sftpList key_ok presents accepts net tgt) /\ refused (sftpVerify key_ok presents accepts net observe tgt name) /\
  refused (sftpDelete key_ok presents accepts net tgt name) /\ refused (sftpDeleteRun key_ok presents accepts net tgt suffix).
Proof.
  intros Hid Hk. assert (exists e, dial tgt = Err e) as [e He].
  { unfold dialSFTP. destruct (negb _); [by eexists|]. destruct (_ || _); [by eexists|]. destruct (sftpAuthMethods _ _) as [[]|]; [|by eexists].
    cbn. destruct (presents _) as [key|]; [|by eexists]. specialize (Hk key eq_refl).
    destruct (hostKeyCallbackFor tgt key) eqn:E; [by eexists|]. by apply hostKeyCallbackFor_pins in E. }
  split_and!; intros s; unfold uploadSFTPRun, sftpList, sftpVerify, sftpDelete, sftpDeleteRun; rewrite ?run_guard;
    repeat match goal with |- context [if ?c then (Err _, s) else _] => destruct c; [by eexists|] end; rewrite run_lift, He; by eexists.
Qed.

(** Removing a run on a remote target takes away archives of that run only,
    each with an accepted name that carries the suffix, whichever calls fail. *)
Theorem remote_run_removal_bounded tgt suffix s p :
  let left_alone (m : SE remote string Z) (path : string -> string) :=
    rm_files (m s).2 !! p = rm_files s !! p \/ exists n, contains_str suffix n = true /\ ValidBackupFilename n = true /\ p = path n in
  left_alone (sftpDeleteRun key_ok presents accepts net tgt suffix) (remoteJoin tgt) /\
  left_alone (s3DeleteRun net minio_ok tgt suffix) (fun n => s3Prefix tgt +:+ n).
Proof.
  assert (forall path names k s', rm_files s' = rm_files s ->
    rm_files (remove_all net path (List.filter (of_run suffix) names) k s').2 !! p = rm_files s !! p \/
    exists n, contains_str suffix n = true /\ ValidBackupFilename n = true /\ p = path n) as H.
  { intros path names k s' <-. destruct (remove_all_only path (List.filter (of_run suffix) names) k s' p) as [?|(n & Hn & ->)]; [by left|right].
    apply list_elem_of_In, filter_In in Hn as [_ Hn]. apply andb_prop in Hn as [? ?]. by exists n. }
  cbv zeta. unfold sftpDeleteRun, s3DeleteRun. rewrite !run_guard. destruct (negb _); [split; by left|]. rewrite !run_lift.
  split; [destruct (dial tgt)|destruct (s3ClientFor _ _)]; try (by left); rewrite run_bind; unfold call at 1;
    (destruct (net _); [rewrite run_get; by apply H|by left]).
Qed.
End TransportFacts.

(** ** Concrete transports *)
Module RemoteDemo.
Definition target (ttype path : string) : Target :=
  MkTarget "t1" "off-site" ttype path "nas" 22 "root" "" "bucket" "" "http://minio:9000/" (MkSecret "pw" "" "ak" "sk")
    ["ssh-ed25519 SHA256:abc" +:+ nl +:+ "SHA256:def"] true "all" [] [] true no_retention "" 0 0 0.
Definition sftp : Target := target TargetSFTP "/srv/backups/".
Definition yes {A} (_ : A) : bool := true.
Definition file : string := "webkvm-h-20260101T000000.000000000Z-0a0b0c-config.tar.zst".
Definition local : tree := {[ "/stage/" +:+ file := Tar [("manifest.txt", "x")] ]}.
Definition upload (key : string * string) : res string Z * remote :=
  uploadSFTPRun yes (fun _ => Some key) yes yes (fun _ => 1) sftp local "/stage" [MkJobFile file 1 "config" ""] (MkRemote ∅ 0).

Example pinned_upload : (upload ("ssh-ed25519", "SHA256:def")).1 = Ok 1
  /\ rm_files (upload ("ssh-ed25519", "SHA256:def")).2 !! ("/srv/backups/" +:+ file) = Some (Tar [("manifest.txt", "x")]).
Proof. by vm_compute. Qed.
Example other_key : upload ("ssh-ed25519", "SHA256:xyz") = (Err "host key", MkRemote ∅ 0).
Proof. by vm_compute. Qed.

(** A prefix with an empty component: archives are stored without it and looked
    for with it, so that none is ever listed. *)
Definition bucket : Target := target TargetS3 "site//vms".
Definition stored : remote := (s3UploadRun yes yes bucket local "/stage" [MkJobFile file 1 "config" ""] (MkRemote ∅ 0)).2.
Example stored_but_not_listed :
  is_Some (rm_files stored !! ("site/vms/" +:+ file)) /\ (s3List yes yes bucket stored).1 = Ok [].
Proof. split; [by eexists|by vm_compute]. Qed.
End RemoteDemo.

Lemma unpinned_host_gets_nothing_witness :
  (RemoteDemo.upload ("ssh-ed25519", "SHA256:xyz")).2 = MkRemote ∅ 0.
Proof.
  destruct (unpinned_host_gets_nothing RemoteDemo.yes (fun _ => Some ("ssh-ed25519", "SHA256:xyz")) RemoteDemo.yes RemoteDemo.yes (fun _ => 1)
    (fun _ b => Some b) RemoteDemo.sftp RemoteDemo.local "/stage" [MkJobFile RemoteDemo.file 1 "config" ""] "" "" ltac:(done)) as [H _].
  - intros key [= <-]. apply (bool_decide_unpack _). vm_compute. exact I.
  - destruct (H (MkRemote ∅ 0)) as [e He]. unfold RemoteDemo.upload. by rewrite He.
Defined.
