(* ===== verification/Runner.v ===== *)
(** * Runner: backup runs

    Models [backupstore/runner.go] up to the restore: which machines are in the
    scope of a run, how a run allocates and writes its archives, the incremental
    variant, the upload and the check of what was uploaded, how the job is reported,
    and the schedules that start runs.  The world of a run is the store, the job, the
    files below the target, the remote side, the chains of the target, the alerts and
    the targets handed to the retention; what the host, libvirt, the clock and the
    network do is the record [Env].  The code's second, final [os.Stat] of an archive
    always succeeds, and reports of progress carry no interpolation values. *)

From S2P Require Import Sessions Chain.
From S2P Require Export Remote BackupStore.
Open Scope Z_scope.

(** ** Names and XML *)

(** [strings.NewReplacer] of "/", "\", ".." and " " by "_". *)
Fixpoint sanitizeVMName (name : string) : string :=
  match name with
  | EmptyString => ""
  | String c rest =>
      if Ascii.eqb c "/" || Ascii.eqb c "\" || Ascii.eqb c " " then String "_" (sanitizeVMName rest)
      else if Ascii.eqb c "." then
        match rest with
        | String "." rest' => String "_" (sanitizeVMName rest')
        | _ => String c (sanitizeVMName rest)
        end
      else String c (sanitizeVMName rest)
  end.

Definition dquote : string := String "034" "".
Fixpoint xmlEscape (s : string) : string :=
  match s with
  | EmptyString => ""
  | String c rest =>
      (if Ascii.eqb c "&" then "&amp;" else if Ascii.eqb c "<" then "&lt;" else if Ascii.eqb c ">" then "&gt;"
       else if Ascii.eqb c "034" then "&quot;" else String c "") +:+ xmlEscape rest
  end.

Definition archive_name (host ts rand name : string) : string :=
  "webkvm-" +:+ host +:+ "-" +:+ ts +:+ "-" +:+ rand +:+ "-" +:+ name.

(** [libvirtbackup]: the device and the file of each disk. *)
Record DiskTarget := MkDiskTarget { dt_Device : string; dt_File : string }.

Definition BuildBackupXML (disks : list DiskTarget) (incrementalFrom : string) : string :=
  "<domainbackup mode='push'>" +:+ nl
  +:+ (if nonempty incrementalFrom then "  <incremental>" +:+ incrementalFrom +:+ "</incremental>" +:+ nl else "")
  +:+ "  <disks>" +:+ nl
  +:+ join_str "" (map (fun d => "    <disk name='" +:+ dt_Device d +:+ "' type='file'>" +:+ nl
        +:+ "      <target file='" +:+ dt_File d +:+ "'/>" +:+ nl +:+ "      <driver type='qcow2'/>" +:+ nl
        +:+ "    </disk>" +:+ nl) disks)
  +:+ "  </disks>" +:+ nl +:+ "</domainbackup>".

Definition BuildCheckpointXML (name : string) (devs : list string) : string :=
  "<domaincheckpoint>" +:+ nl +:+ "  <name>" +:+ name +:+ "</name>" +:+ nl
  +:+ match devs with
      | [] => ""
      | _ => "  <disks>" +:+ nl
             +:+ join_str "" (map (fun d => "    <disk name='" +:+ d +:+ "' checkpoint='bitmap'/>" +:+ nl) devs)
             +:+ "  </disks>" +:+ nl
      end
  +:+ "</domaincheckpoint>".

(** ** Disks in a domain's XML: the regular expressions of [parseDomainDisks] *)

Definition is_quote (c : ascii) : bool := Ascii.eqb c "'" || Ascii.eqb c "034".
Definition starts (p s : string) : option string := if has_prefix p s then Some (drop_str (slen p) s) else None.
(** A quote, and what follows it. *)
Definition quote (s : string) : option string := match s with String c t => if is_quote c then Some t else None | _ => None end.

(** The text up to the first [c], and what follows it. *)
Fixpoint until (c : ascii) (s : string) : option (string * string) :=
  match s with
  | EmptyString => None
  | String a t => if Ascii.eqb a c then Some ("", t) else p ← until c t; Some (String a p.1, p.2)
  end.
(** The text before the first [sub], and what follows it. *)
Fixpoint until_str (sub s : string) : option (string * string) :=
  match starts sub s with
  | Some rest => Some ("", rest)
  | None => match s with EmptyString => None | String a t => p ← until_str sub t; Some (String a p.1, p.2) end
  end.

(** [type=Q file Q] somewhere in the attributes of a tag. *)
Fixpoint has_type_file (s : string) : bool :=
  match (r ← starts "type=" s; r ← quote r; r ← starts "file" r; quote r) with
  | Some _ => true
  | None => match s with EmptyString => false | String _ t => has_type_file t end
  end.

(** A text without quotes and the quote that ends it. *)
Fixpoint quoted (s : string) : option string :=
  match s with
  | EmptyString => None
  | String c t => if is_quote c then Some "" else String c <$> quoted t
  end.
Definition value_here (attr s : string) : option string :=
  r ← starts (attr +:+ "=") s; r ← quote r; v ← quoted r; if String.eqb v "" then None else Some v.
(** The last place, before the first ">", where [attr] has a value. *)
Fixpoint last_value (attr s : string) : option string :=
  let here := value_here attr s in
  match s with
  | EmptyString => here
  | String c t => if Ascii.eqb c ">" then here else match last_value attr t with Some v => Some v | None => here end
  end.
(** The value of [attr] in the leftmost element [tag] that has one. *)
Fixpoint tag_value (tag attr s : string) : option string :=
  match (r ← starts ("<" +:+ tag) s; last_value attr r) with
  | Some v => Some v
  | None => match s with EmptyString => None | String _ t => tag_value tag attr t end
  end.

(** The disk elements of type file; at most [fuel]. *)
Fixpoint disk_elements (fuel : nat) (s : string) : list string :=
  match fuel, s with
  | S fuel, String _ t =>
      match (r ← starts "<disk" s; p ← until ">" r;
             if has_type_file p.1 then q ← until_str "</disk>" p.2; Some ("<disk" +:+ p.1 +:+ ">" +:+ q.1 +:+ "</disk>", q.2)
             else None) with
      | Some (m, rest) => m :: disk_elements fuel rest
      | None => disk_elements fuel t
      end
  | _, _ => []
  end.

Record diskInfo := MkDiskInfo { di_Device : string; di_Source : string; di_Size : Z }.

Definition parseDomainDisks (stat_size : string -> option Z) (xml : string) : list diskInfo :=
  omap (fun m =>
    if contains_str "device='cdrom'" m || contains_str ("device=" +:+ dquote +:+ "cdrom" +:+ dquote) m then None else
    dev ← tag_value "target" "dev" m;
    src ← tag_value "source" "file" m;
    Some (MkDiskInfo dev src (default 0 (stat_size src)))) (disk_elements (slen xml) xml).

(** ** Machines and their disks *)

Record VM := MkVM {
  vm_ID : string; vm_Type : string; Hypervisor : string; DiskGB : Z; vm_Disks : list DiskInfo;
  vm_Groups : list string; vm_Tags : list string
}.

(** The long s, which [strings.EqualFold] takes for an s. *)
Fixpoint fold_long_s (s : string) : string :=
  match s with
  | String c rest =>
      match rest with
      | String c2 t => if Ascii.eqb c "197" && Ascii.eqb c2 "191" then String "s" (fold_long_s t) else String c (fold_long_s rest)
      | EmptyString => s
      end
  | EmptyString => ""
  end.

Definition isISOPoolName (pool : string) : bool := has_suffix "-isos" (to_lower pool).
Definition isISOAttachment (d : DiskInfo) : bool :=
  if String.eqb (to_lower (fold_long_s (dk_Pool d))) "isos" || isISOPoolName (dk_Pool d) then true
  else let lower := to_lower (dk_Source d) in has_suffix ".iso" lower || contains_str "isos/" lower.

Definition real_disk (d : DiskInfo) : bool :=
  negb (String.eqb (dk_Device d) "cdrom" || String.eqb (dk_Source d) "" || isISOAttachment d).
Definition filterInTreeDisks (disks : list DiskInfo) : list DiskInfo := List.filter real_disk disks.

Definition is_in (l : list string) (x : string) : bool := existsb (String.eqb x) l.

(** [resolveScope] with the list of machines at hand. *)
Definition in_scope (tgt : Target) (all : list VM) : option (list VM) :=
  let filter := if String.eqb (tg_VMFilter tgt) "" then "all" else tg_VMFilter tgt in
  if String.eqb filter "all" then Some all
  else if String.eqb filter "include" then Some (List.filter (fun vm => is_in (tg_VMIDs tgt) (vm_ID vm)) all)
  else if String.eqb filter "exclude" then Some (List.filter (fun vm => negb (is_in (tg_VMIDs tgt) (vm_ID vm))) all)
  else if String.eqb filter "tags" || String.eqb filter "groups" then
    Some (List.filter (fun vm => existsb (is_in (tg_VMTags tgt)) (vm_Groups vm) || existsb (is_in (tg_VMTags tgt)) (vm_Tags vm)) all)
  else None.

(** ** The machine a run works on *)

Inductive copying := NoDir | Broken | Copied.

Record Env := MkEnv {
  e_hostname : option string; e_stamp : string; e_rand : string; e_stage_rand : string; e_created : string;
  e_started : Z; e_ended : Z;
  e_over : nat -> bool;                    (* the context is over before the i-th machine *)
  e_cancelled : nat -> nat -> bool;        (* ... before the j-th disk of the i-th machine *)
  e_mkdir : string -> bool; e_create : string -> bool; e_write : string -> nat -> bool; e_close : string -> bool;
  e_copy : copying;                        (* copying the configuration archive *)
  e_free : option Z;                       (* [Statfs] of the destination *)
  e_look : string -> source; e_dirsize : string -> Z;
  e_data_files : list (string * Z);        (* the regular files below the data directory *)
  e_entries : option (list (string * bool)); (* the data directory itself *)
  e_chunks : string -> list Z;             (* the writes an archive arrives in *)
  e_share : Z -> Z -> Z -> Z;              (* int(float64(written)/float64(total)*float64(span)) *)
  e_tar_size : list member -> Z; e_blob_size : blob -> Z; e_sha256 : blob -> string;
  e_checkpoint : nat -> string;            (* the name generated for the i-th machine *)
  e_volume : string -> option blob         (* what libvirt writes to a file it is given *)
}.

(** What the process wires into the runner; [None]: a nil closure. *)
Record Runner := MkRunner {
  rn_dataDir : string; MaxFileSizeMB : Z; VerifyOnWrite : bool;
  vms : option (res string (list VM));
  xmlSource : option (string -> option string);
  snapSource : string -> list SnapshotBackup;
  exportSource : option (VM -> option string);
  beginBackup : option (string -> string -> string -> bool);
  alertFunc : bool
}.

Definition with_progress (p : Z) (stage msg : string) (j : Job) : Job :=
  MkJob (jb_ID j) (jb_ScheduleID j) (jb_TargetID j) (jb_Mode j) (jb_CheckpointID j) (jb_StartedAt j) (jb_EndedAt j) (jb_Filename j)
    (jb_Size j) (jb_Filenames j) (jb_Files j) (jb_Status j) (jb_Error j) p msg stage (jb_VMID j) (jb_VMName j) (jb_Destination j)
    (jb_ScopeVMID j).
Definition with_mode (mode : string) (j : Job) : Job :=
  MkJob (jb_ID j) (jb_ScheduleID j) (jb_TargetID j) mode (jb_CheckpointID j) (jb_StartedAt j) (jb_EndedAt j) (jb_Filename j)
    (jb_Size j) (jb_Filenames j) (jb_Files j) (jb_Status j) (jb_Error j) (jb_Progress j) (jb_Message j) (jb_Stage j) (jb_VMID j)
    (jb_VMName j) (jb_Destination j) (jb_ScopeVMID j).
Definition with_message (msg : string) (j : Job) : Job := with_progress (jb_Progress j) (jb_Stage j) msg j.
Definition with_checkpoint (id : string) (j : Job) : Job :=
  MkJob (jb_ID j) (jb_ScheduleID j) (jb_TargetID j) (jb_Mode j) id (jb_StartedAt j) (jb_EndedAt j) (jb_Filename j)
    (jb_Size j) (jb_Filenames j) (jb_Files j) (jb_Status j) (jb_Error j) (jb_Progress j) (jb_Message j) (jb_Stage j) (jb_VMID j)
    (jb_VMName j) (jb_Destination j) (jb_ScopeVMID j).
Definition with_outcome (ended size : Z) (filename : string) (files : list JobFile) (status err stage : string) (j : Job) : Job :=
  MkJob (jb_ID j) (jb_ScheduleID j) (jb_TargetID j) (jb_Mode j) (jb_CheckpointID j) (jb_StartedAt j) ended filename
    size (map jf_Filename files) files status err 100 "" stage (jb_VMID j) (jb_VMName j) (jb_Destination j) (jb_ScopeVMID j).
Definition new_job (targetID scheduleID scopeVM : string) (now : Z) : Job :=
  MkJob "" scheduleID targetID "" "" now time_zero "" 0 [] [] "running" "" 0 "" "" "" "" "" scopeVM.

Section Run.
Context (EvalSymlinks : string -> option string) (sort_by : forall A, (A -> Z) -> list A -> list A).
Context {WT WS WJ WC WV CW : Type} `{!Disks WT WS WJ WC WV} `{!Persist (list Chain) CW}.
Context (key_ok : string -> bool) (presents : string -> option (string * string)) (accepts : Target -> bool)
        (net : nat -> bool) (minio_ok : string -> bool) (observe : string -> blob -> option blob) (bucket_there : bool).
Context (env : Env) (rn : Runner).

Record World := MkWorld {
  w_store : Store (WT := WT) (WS := WS) (WJ := WJ) (WC := WC) (WV := WV);
  w_job : Job; w_fs : tree; w_remote : remote; w_chain : CW; w_alerts : list (string * string); w_prune : list Target
}.
Definition set_store (v : Store) (w : World) : World :=
  MkWorld v (w_job w) (w_fs w) (w_remote w) (w_chain w) (w_alerts w) (w_prune w).
Definition set_job (v : Job) (w : World) : World :=
  MkWorld (w_store w) v (w_fs w) (w_remote w) (w_chain w) (w_alerts w) (w_prune w).
Definition set_fs (v : tree) (w : World) : World :=
  MkWorld (w_store w) (w_job w) v (w_remote w) (w_chain w) (w_alerts w) (w_prune w).
Definition set_remote (v : remote) (w : World) : World :=
  MkWorld (w_store w) (w_job w) (w_fs w) v (w_chain w) (w_alerts w) (w_prune w).
Definition set_chain (v : CW) (w : World) : World :=
  MkWorld (w_store w) (w_job w) (w_fs w) (w_remote w) v (w_alerts w) (w_prune w).

(** The files of a run and their bytes; a failure carries those that the code
    returns with it. *)
Definition acc : Type := list JobFile * Z.
Abbreviation M := (SE World (acc * string)).
Definition fail {A} (a : acc) (msg : string) : M A := se_fail (a, msg).

Definition update_job (j : Job) : M unit := se_modify (fun w => set_store (UpdateJob sort_by j (w_store w)).2 w).
(** The closure [report]: errors of the store are logged. *)
Definition report (p : Z) (stage : string) : M unit :=
  _ ← se_modify (fun w => set_job (with_progress p stage "" (w_job w)) w);
  w ← se_get; update_job (w_job w).
Fixpoint report_all (stage : string) (ps : list Z) : M unit :=
  match ps with [] => mret tt | p :: ps => _ ← report p stage; report_all stage ps end.

Definition put_file (p : string) (b : blob) : M unit := se_modify (fun w => set_fs (<[p := b]> (w_fs w)) w).
Definition remove_file (p : string) : M unit := se_modify (fun w => set_fs (delete p (w_fs w)) w).

(** [O_EXCL], up to [n] times on the same name. *)
Fixpoint attempts (n : nat) (p : string) (a : acc) : M unit :=
  match n with
  | O => fail a "could not allocate a unique output path"
  | S n => w ← se_get;
      if bool_decide (is_Some (w_fs w !! p)) then attempts n p a
      else if e_create env p then put_file p NoData else fail a "create"
  end.

Definition host_name : string := match e_hostname env with Some h => map_str (fun c => if Ascii.eqb c " " then "_"%char else c) h | None => "unknown" end.
Definition run_file (name : string) : string := archive_name host_name (e_stamp env) (e_rand env) name.
Definition allocateOutputPath (dir name : string) (a : acc) : M (string * string) :=
  let filename := run_file name in
  _ ← attempts 16 (GoPath.Join [dir; filename]) a; mret (filename, GoPath.Join [dir; filename]).
Definition open_file (p : string) (a : acc) : M unit :=
  _ ← se_guard (negb (e_create env p)) (a, "create"); put_file p NoData.

(** [byteProgressWriter]: the percentages it reports. *)
Fixpoint ticks (total base span written last : Z) (chunks : list Z) : list Z :=
  match chunks with
  | [] => []
  | n :: chunks =>
      let written := wrap64 (written + n) in
      if 0 <? total then
        let pct := Z.min (base + e_share env written total span) (base + span) in
        if last <? pct then pct :: ticks total base span written pct chunks else ticks total base span written last chunks
      else ticks total base span written last chunks
  end.

Definition max_size : Z := wrap64 (wrap64 ((if 0 <? MaxFileSizeMB rn then MaxFileSizeMB rn else 2 ^ 20) * 1024) * 1024).

Definition stat_size (p : string) : option Z :=
  match e_look env p with File d _ => Some (Producer.size d) | Directory => Some (e_dirsize env p) | _ => None end.
Definition disk_bytes (total : Z) (d : DiskInfo) : Z :=
  if String.eqb (dk_Source d) "" then total else match stat_size (dk_Source d) with Some n => wrap64 (total + n) | None => total end.

Definition estimateRunBytes (scope : list VM) : Z :=
  let total := foldl (fun t vm => foldl disk_bytes t (vm_Disks vm)) 0 scope in
  let pools := GoPath.Join [rn_dataDir rn; "pools"] in
  let total :=
    if String.eqb (rn_dataDir rn) "" then total
    else foldl (fun t f => if has_prefix (pools +:+ "/") f.1 then t else wrap64 (t + f.2)) total (e_data_files env) in
  Z.quot (wrap64 (total * 120)) 100.

Definition resolveScope (tgt : Target) : res string (list VM) :=
  match vms rn with
  | None => Ok []
  | Some (Err _) => Err "list vms"
  | Some (Ok all) => match in_scope tgt all with Some l => Ok l | None => Err "unknown vm_filter" end
  end.

(** ** A full run *)

Definition vm_xml (id : string) : string :=
  let placeholder := "<domain type='kvm'><name>" +:+ xmlEscape id +:+ "</name></domain>" in
  match xmlSource rn with Some f => default placeholder (f id) | None => placeholder end.

Definition vm_opts (tgt : Target) : ProducerOpts := MkOpts (normalizeCompression (tg_Compression tgt)) false max_size.
Definition vm_backup (vm : VM) : VMBackup :=
  MkBackup (vm_ID vm) (vm_xml (vm_ID vm)) (filterInTreeDisks (vm_Disks vm)) (snapSource rn (vm_ID vm)).
Definition produce (i : nat) (tgt : Target) (vm : VM) (outPath : string) : res string ProducerResult * list member :=
  ProduceVMArchive (e_look env) (fun _ => None) (e_write env outPath) (e_cancelled env i) (e_tar_size env) (vm_backup vm) (vm_opts tgt).

Definition vm_ext (tgt : Target) (vm : VM) : string :=
  if String.eqb (Hypervisor vm) "incus" then ".tar.gz" else archiveExt (normalizeCompression (tg_Compression tgt)).

Definition base_of (i n : nat) : Z := Z.of_nat i * 70 / Z.of_nat (Nat.max 1 n).
Definition span_of (i n : nat) : Z := Z.max 1 (base_of (S i) n - base_of i n).

Definition write_container (i n : nat) (vm : VM) (filename outPath : string) (a : acc) : M acc :=
  match exportSource rn with
  | None => fail ([], a.2) "no LXD export source wired"
  | Some export =>
      _ ← open_file outPath a;
      let est := let e := wrap64 (DiskGB vm * 2 ^ 30) in if e <=? 0 then 1 else e in
      _ ← report_all "compress_vm" (ticks est (base_of i n) (span_of i n) 0 (base_of i n) (e_chunks env outPath));
      match export vm, e_close env outPath with
      | Some data, true =>
          _ ← put_file outPath (Export data);
          _ ← report (base_of (S i) n) "compress_vm";
          mret (a.1 ++ [MkJobFile filename (Producer.size data) "vm" (vm_ID vm)], wrap64 (a.2 + Producer.size data))
      | _, _ => _ ← remove_file outPath; fail ([], a.2) "write container"
      end
  end.

Definition write_machine (i n : nat) (tgt : Target) (vm : VM) (filename outPath : string) (a : acc) : M acc :=
  _ ← open_file outPath a;
  let est := let e := foldl disk_bytes 0 (vm_Disks vm) in if e =? 0 then 1 else e in
  _ ← report_all "compress_vm" (ticks est (base_of i n) (span_of i n) 0 (base_of i n) (e_chunks env outPath));
  let '(r, ms) := produce i tgt vm outPath in
  match r, e_close env outPath with
  | Ok res, true =>
      _ ← put_file outPath (Tar ms);
      _ ← report (base_of (S i) n) "compress_vm";
      mret (a.1 ++ [MkJobFile filename (TotalBytes res) "vm" (vm_ID vm)], wrap64 (a.2 + TotalBytes res))
  | _, _ => _ ← remove_file outPath; fail a "write vm"
  end.

Definition write_vm (n : nat) (tgt : Target) (dir : string) (i : nat) (vm : VM) (a : acc) : M acc :=
  _ ← se_guard (e_over env i) (([], a.2), "context");
  fo ← allocateOutputPath dir (sanitizeVMName (vm_ID vm) +:+ vm_ext tgt vm) a;
  _ ← report (base_of i n) "compress_vm";
  if String.eqb (Hypervisor vm) "incus" then write_container i n vm fo.1 fo.2 a
  else write_machine i n tgt vm fo.1 fo.2 a.

Fixpoint write_all (f : nat -> VM -> acc -> M acc) (i : nat) (scope : list VM) (a : acc) : M acc :=
  match scope with [] => mret a | vm :: scope => a ← f i vm a; write_all f (S i) scope a end.

Definition config_name : string := "config.tar.zst".
(** [writeConfigArchive] on the file [outPath]; a failure leaves none. *)
Definition put_config (tgt : Target) (outPath : string) : World -> option blob * World := fun w =>
  match writeConfigArchive (e_look env) (e_write env outPath) (fun _ => false) (e_create env outPath) (e_close env outPath)
          (e_created env) (tg_ID tgt) (rn_dataDir rn) (e_entries env) with
  | Some ms => (Some (Tar ms), set_fs (<[outPath := Tar ms]> (w_fs w)) w)
  | None => (None, set_fs (delete outPath (w_fs w)) w)
  end.

Definition copyConfigGlobal (b : blob) (dir : string) : M unit := fun w =>
  let dst := GoPath.Join [GoPath.Join [dir; "config"]; "webkvm-config-latest.tar.zst"] in
  (Ok tt, match e_copy env with
          | NoDir => w
          | Broken => set_fs (delete dst (w_fs w)) w
          | Copied => set_fs (<[dst := b]> (w_fs w)) w
          end).

Definition config_file (filename : string) (b : blob) (a : acc) : acc :=
  (a.1 ++ [MkJobFile filename (e_blob_size env b) "config" ""], wrap64 (a.2 + e_blob_size env b)).

Definition config_archive (tgt : Target) (dir : string) (a : acc) (fo : string * string) : M acc := fun w =>
  match put_config tgt fo.2 w with
  | (None, w) => (Err (a, "write config"), w)
  | (Some b, w) => (_ ← report 80 "config_copy"; _ ← copyConfigGlobal b dir; mret (config_file fo.1 b a)) w
  end.
Definition write_config (tgt : Target) (dir : string) (a : acc) : M acc :=
  _ ← report 72 "config";
  fo ← allocateOutputPath dir config_name a;
  config_archive tgt dir a fo.

Definition prepare (dir : string) : M unit :=
  _ ← se_guard (bool_decide (is_Some (ValidateTargetPath EvalSymlinks dir (rn_dataDir rn)))) (([], 0), "target path not allowed");
  se_guard (negb (e_mkdir env dir)) (([], 0), "mkdir").
Definition scope_of (tgt : Target) : M (list VM) :=
  match resolveScope tgt with Ok l => mret l | Err e => fail ([], 0) e end.

Definition writeBackup (tgt : Target) (dir : string) : M acc :=
  _ ← prepare dir;
  scope ← scope_of tgt;
  _ ← se_guard (match e_free env with Some free => free <? estimateRunBytes scope | None => false end) (([], 0), "not enough free space");
  a ← write_all (write_vm (length scope) tgt dir) 0 scope ([], 0);
  write_config tgt dir a.

(** ** An incremental run *)

Definition discover (vm : VM) : list diskInfo :=
  let own := map (fun d => MkDiskInfo (if String.eqb (dk_Target d) "" then dk_Device d else dk_Target d) (dk_Source d)
                             (default 0 (stat_size (dk_Source d)))) (List.filter real_disk (vm_Disks vm)) in
  match own, xmlSource rn with
  | [], Some f => match f (vm_ID vm) with
                  | Some xml => if String.eqb xml "" then [] else parseDomainDisks stat_size xml
                  | None => []
                  end
  | _, _ => own
  end.

Definition disk_targets_of (dir name : string) (disks : list diskInfo) : list DiskTarget :=
  omap (fun d => if (0 <? max_size) && (max_size <? di_Size d) then None
                 else Some (MkDiskTarget (di_Device d) (GoPath.Join [dir; run_file (name +:+ "-" +:+ di_Device d +:+ ".qcow2")]))) disks.

Definition parent_of (vmID : string) (w : World) : string :=
  match GetChain vmID (w_chain w) with Ok (Some c) => Checkpoint c | _ => "" end.

(** What libvirt leaves in the files it is given. *)
Definition libvirt_writes (ts : list DiskTarget) (t : tree) : tree :=
  foldl (fun t d => match e_volume env (dt_File d) with Some b => <[dt_File d := b]> t | None => t end) t ts.

Definition volume_size (t : tree) (d : DiskTarget) : Z := match t !! dt_File d with Some b => e_blob_size env b | None => 0 end.

Definition checkpoint_entry (i : nat) (jobID parent : string) (ts : list DiskTarget) (t : tree) : CheckpointEntry :=
  MkEntry (e_checkpoint env i) jobID (match ts with d :: _ => Base (dt_File d) | [] => "" end)
    (foldl (fun m d => <[dt_Device d := Base (dt_File d)]> m) ∅ ts) parent
    (if String.eqb parent "" then "full" else "incremental") (foldl (fun n d => wrap64 (n + volume_size t d)) 0 ts) (e_ended env).

Definition append_entry (vmID targetID name : string) (e : CheckpointEntry) : M unit :=
  se_modify (fun w => set_chain (AppendEntry vmID targetID name e (e_ended env) (w_chain w)).2 w).

Definition inc_base (i n : nat) : Z := Z.of_nat i * 80 / Z.of_nat (Nat.max 1 n).

(** The [job] of the code is a copy, made when the run starts; a machine leaves
    its checkpoint in it. *)
Definition write_checkpoint (n : nat) (tgt : Target) (dir : string) (i : nat) (vm : VM) (a : acc * Job) : M (acc * Job) :=
  let name := sanitizeVMName (vm_ID vm) in
  if String.eqb (Hypervisor vm) "incus" || String.eqb (vm_Type vm) "container" then mret a else
  match disk_targets_of dir name (discover vm) with
  | [] => mret a
  | ts =>
      w ← se_get;
      let parent := parent_of (vm_ID vm) w in
      _ ← report (inc_base i n) "checkpoint";
      let begun := match beginBackup rn with
                   | Some f => f (vm_ID vm) (BuildBackupXML ts parent) (BuildCheckpointXML (e_checkpoint env i) (map dt_Device ts))
                   | None => false
                   end in
      _ ← se_modify (fun w => set_fs (libvirt_writes ts (w_fs w)) w);
      _ ← se_guard (negb begun) (a.1, "backup vm");
      let job := with_checkpoint (e_checkpoint env i) a.2 in
      _ ← update_job job;
      w ← se_get;
      let files := map (fun d => MkJobFile (Base (dt_File d)) (volume_size (w_fs w) d) "vm" (vm_ID vm)) ts in
      _ ← append_entry (vm_ID vm) (tg_ID tgt) name (checkpoint_entry i (jb_ID job) parent ts (w_fs w));
      _ ← report (inc_base (S i) n) "checkpoint";
      mret ((a.1.1 ++ files, foldl (fun n f => wrap64 (n + jf_Size f)) a.1.2 files), job)
  end.

Fixpoint checkpoint_all (f : nat -> VM -> acc * Job -> M (acc * Job)) (i : nat) (scope : list VM) (a : acc * Job) : M (acc * Job) :=
  match scope with [] => mret a | vm :: scope => a ← f i vm a; checkpoint_all f (S i) scope a end.

Definition inc_archive (tgt : Target) (dir : string) (a : acc) : M acc := fun w =>
  match put_config tgt (GoPath.Join [dir; run_file config_name]) w with
  | (None, w) => (Ok a, w)
  | (Some b, w) => (_ ← copyConfigGlobal b dir; mret (config_file (run_file config_name) b a)) w
  end.
Definition inc_config (tgt : Target) (dir : string) (a : acc) : M acc :=
  _ ← report 80 "config_copy"; inc_archive tgt dir a.

Definition writeIncrementalBackup (tgt : Target) (dir : string) (job : Job) : M acc :=
  _ ← prepare dir;
  scope ← scope_of tgt;
  a ← checkpoint_all (write_checkpoint (length scope) tgt dir) 0 scope (([], 0), job);
  inc_config tgt dir a.1.

(** ** The upload and its verification *)

Abbreviation U := (SE World string).
Definition on_remote {A} (m : SE remote string A) : U A := fun w =>
  let '(r, s) := m (w_remote w) in (r, set_remote s w).

Definition remote_verify (tgt : Target) (name : string) : SE remote string blob :=
  if String.eqb (tg_Type tgt) TargetSFTP then sftpVerify key_ok presents accepts net observe tgt name
  else s3Verify net minio_ok observe tgt name.
Definition remote_delete (tgt : Target) (name : string) : SE remote string unit :=
  if String.eqb (tg_Type tgt) TargetSFTP then sftpDelete key_ok presents accepts net tgt name
  else s3Delete net minio_ok tgt name.
Definition record (tgt : Target) (name sha : string) (ok : bool) (msg : string) : U unit :=
  se_modify (fun w => set_store (RecordVerification (tg_ID tgt) name sha ok msg (e_ended env) (w_store w)).2 w).

Definition purge (tgt : Target) (name : string) (w : World) : World := (on_remote (remote_delete tgt name) w).2.

Definition verifyWrittenPrimary (tgt : Target) (staging primary : string) : U unit := fun w =>
  match w_fs w !! GoPath.Join [staging; primary] with
  | None => (Err "local checksum", w)
  | Some b =>
      match on_remote (remote_verify tgt primary) w with
      | (Err e, w) => (_ ← record tgt primary "" false e; se_fail "verify") (purge tgt primary w)
      | (Ok got, w) =>
          if String.eqb (e_sha256 env got) (e_sha256 env b) then record tgt primary (e_sha256 env b) true "" w
          else (_ ← record tgt primary (e_sha256 env got) false "checksum mismatch"; se_fail "checksum mismatch") (purge tgt primary w)
      end
  end.

Definition in_tree (dir p : string) : bool := String.eqb p dir || has_prefix (dir +:+ "/") p.
Definition RemoveAll (dir : string) (w : World) : World := set_fs (map_delete_if (fun p _ => in_tree dir p) (w_fs w)) w.

Definition lift_report (p : Z) (stage : string) : U unit := fun w => (Ok tt, (report p stage w).2).

Definition upload (tgt : Target) (staging : string) (a : acc) : U Z :=
  if String.eqb (tg_Type tgt) TargetSFTP then
    _ ← lift_report 90 "uploading";
    w ← se_get; on_remote (uploadSFTPRun key_ok presents accepts net (e_blob_size env) tgt (w_fs w) staging a.1)
  else if String.eqb (tg_Type tgt) TargetS3 then
    _ ← lift_report 90 "uploading";
    _ ← on_remote (s3EnsureBucket net minio_ok bucket_there tgt);
    w ← se_get; on_remote (s3UploadRun net minio_ok tgt (w_fs w) staging a.1)
  else mret a.2.

Definition verify (tgt : Target) (staging : string) (a : acc) : U unit :=
  let primary := primaryOf a.1 in
  se_when (is_remote (tg_Type tgt) && (tg_VerifyOnWrite tgt || VerifyOnWrite rn) && nonempty primary)
    (_ ← lift_report 94 "verifying"; verifyWrittenPrimary tgt staging primary).

(** ** A job *)

Definition staging_of (tgt : Target) : string :=
  if is_remote (tg_Type tgt) then GoPath.Join [rn_dataDir rn; "backup-staging"; tg_ID tgt +:+ "-" +:+ e_stage_rand env] else "".

(** Its files, its bytes and its error. *)
Definition transfer (tgt : Target) (mode : string) : World -> (acc * option string) * World := fun w =>
  let staging := staging_of tgt in
  let dir := if is_remote (tg_Type tgt) then staging else tg_Path tgt in
  let '(r, w) := if String.eqb mode "incremental" then writeIncrementalBackup tgt dir (w_job w) w else writeBackup tgt dir w in
  let done w := if nonempty staging then RemoveAll staging w else w in
  match r with
  | Err (a, e) => ((a, Some e), done w)
  | Ok a =>
      match upload tgt staging a w with
      | (Err e, w) => ((a, Some e), done w)
      | (Ok total, w) =>
          match verify tgt staging a w with
          | (Err e, w) => (((a.1, total), Some e), done w)
          | (Ok _, w) => (((a.1, total), None), done w)
          end
      end
  end.

Definition job_filename (files : list JobFile) (j : Job) : string :=
  match last files with Some f => if String.eqb (Kind f) "config" then jf_Filename f else jb_Filename j | None => jb_Filename j end.

Definition finish (a : acc) (status err stage : string) (w : World) : World :=
  let j := with_outcome (e_ended env) a.2 (job_filename a.1 (w_job w)) a.1 status err stage (w_job w) in
  set_store (UpdateJob sort_by j (w_store w)).2 (set_job j w).
Definition last_run (scheduleID status err : string) (w : World) : World :=
  if nonempty scheduleID then set_store (SetScheduleLastRun sort_by scheduleID status err time_zero (e_ended env) (w_store w)).2 w else w.
Definition alert (level subject : string) (w : World) : World :=
  if alertFunc rn then MkWorld (w_store w) (w_job w) (w_fs w) (w_remote w) (w_chain w) (w_alerts w ++ [(level, subject)]) (w_prune w) else w.

Definition retention_enabled (p : RetentionPolicy) : bool := Retention.Enabled p.

Definition run_mode (tgt : Target) (scheduleID : string) (w : World) : string :=
  let mode := match (if nonempty scheduleID then GetSchedule scheduleID (w_store w) else None) with
              | Some sc => if nonempty (sc_Mode sc) then sc_Mode sc else "full"
              | None => "full"
              end in
  mode.
Definition canIncremental (tgt : Target) : bool := bool_decide (is_Some (beginBackup rn)) && String.eqb (tg_Type tgt) TargetLocal.

Definition runJob (tgt : Target) (job : Job) (scheduleID : string) (w : World) : (Job * option string) * World :=
  let w := (report 1 "preparing" (set_job job w)).2 in
  let mode := run_mode tgt scheduleID w in
  let w := set_job (with_mode mode (w_job w)) w in
  let fallback := String.eqb mode "incremental" && negb (canIncremental tgt) in
  let w := if fallback then set_job (with_mode "full" (with_message "incremental_unavailable_fallback_full" (w_job w))) w else w in
  let '((a, err), w) := transfer tgt (if fallback then "full" else mode) w in
  match err with
  | Some e =>
      let w := alert "error" "Backup failed" (last_run scheduleID "error" e (finish a "error" e "failed" w)) in
      ((w_job w, Some e), w)
  | None =>
      let w := alert "info" "Backup completed" (finish a "success" "" "done" w) in
      let w := if retention_enabled (tg_Retention tgt)
               then MkWorld (w_store w) (w_job w) (w_fs w) (w_remote w) (w_chain w) (w_alerts w) (w_prune w ++ [tgt]) else w in
      let w := last_run scheduleID "success" "" w in
      ((w_job w, None), w)
  end.

(** ** Starting a run *)

Inductive run_err := NoTarget | TargetDisabled | NotRecorded | VMRequired.

Definition narrowed (onlyVMs : list string) (tgt : Target) : Target :=
  match onlyVMs with [] => tgt | _ => set_tg_VMTags [] (set_tg_VMIDs onlyVMs (set_tg_VMFilter "include" tgt)) end.

(** The checks, the record of the job, and what there is to run. *)
Definition launch (newid targetID scheduleID : string) (onlyVMs : list string) : SE World run_err (Target * Job) := fun w =>
  match GetTarget targetID (w_store w) with
  | None => (Err NoTarget, w)
  | Some tgt =>
      if negb (tg_Enabled tgt) then (Err TargetDisabled, w) else
      let scopeVM := match onlyVMs with [v] => v | _ => "" end in
      match RecordJob sort_by (new_job targetID scheduleID scopeVM (e_started env)) newid (e_started env) (w_store w) with
      | (Ok j, s) => (Ok (narrowed onlyVMs tgt, j), set_store s w)
      | (Err _, s) => (Err NotRecorded, set_store s w)
      end
  end.

(** [RunOnce]; the asynchronous entry points are [launch], then [runJob] later. *)
Definition RunOnce (newid targetID scheduleID : string) : SE World run_err (Job * option string) := fun w =>
  match launch newid targetID scheduleID [] w with
  | (Err e, w) => (Err e, w)
  | (Ok (tgt, j), w) => let '(r, w) := runJob tgt j scheduleID w in (Ok r, w)
  end.
Definition RunOnceAsync (newid targetID scheduleID : string) : SE World run_err (Target * Job) := launch newid targetID scheduleID [].
Definition RunOnceForVM (newid targetID vmID : string) : SE World run_err (Target * Job) :=
  if String.eqb vmID "" then se_fail VMRequired else launch newid targetID "" [vmID].

(** ** Schedules *)

(** What the ticks of an entry of cron call. *)
Definition addSchedule (sc : Schedule) : string * (string -> World -> World) :=
  (sc_Cron sc, fun newid w => (RunOnce newid (sc_ID sc) (sc_ID sc) w).2).
Definition Reload (cron_ok : string -> bool) (w : World) : list (string * (string -> World -> World)) :=
  map addSchedule (List.filter (fun sc => sc_Enabled sc && cron_ok (sc_Cron sc)) (ListSchedules sort_by (w_store w))).
End Run.
