(* ===== verification/RunnerFacts.v ===== *)
(** * RunnerFacts: what a backup run guarantees

    The theorems of Runner: a run always ends its job, a successful one has stored
    an archive of every machine of its scope, no run touches a file that was there
    before, and the run of one machine contains nothing of another. *)

From S2P Require Import Sessions Chain.
From S2P Require Export Runner.
Open Scope Z_scope.

(** ** Names *)

Lemma contains_byte_cons c a t : contains_byte c (String a t) = Ascii.eqb a c || contains_byte c t.
Proof. rewrite Ascii.eqb_sym. unfold contains_byte. cbn. destruct (Ascii.eqb c a); [done|]. by destruct (index_byte c t). Qed.

Lemma sanitizeVMName_no_slash name : contains_byte "/" (sanitizeVMName name) = false.
Proof.
  assert (forall n name, (slen name <= n)%nat -> contains_byte "/" (sanitizeVMName name) = false) as H; [|by apply (H (slen name))].
  induction n as [|n IH]; intros [|c rest] Hl; try done; [cbn in Hl; lia|]. change (S (slen rest) <= S n)%nat in Hl. cbn [sanitizeVMName].
  destruct (Ascii.eqb c "/" || Ascii.eqb c "\" || Ascii.eqb c " ") eqn:E; [rewrite contains_byte_cons; cbn; apply IH; lia|].
  apply orb_false_elim in E as [[E _]%orb_false_elim _].
  assert (contains_byte "/" (String c (sanitizeVMName rest)) = false) as H.
  { rewrite contains_byte_cons, E. apply IH. lia. }
  destruct (Ascii.eqb c ".") eqn:Ed; [|done]. destruct rest as [|d rest]; [done|].
  destruct d as [[] [] [] [] [] [] [] []]; first [exact H|rewrite contains_byte_cons; cbn; apply IH; change (S (S (slen rest)) <= S n)%nat in Hl; lia].
Qed.

(** ** The store of a run *)

Section RunFacts.
Context (EvalSymlinks : string -> option string) (sort_by : forall A, (A -> Z) -> list A -> list A).
Context {WT WS WJ WC WV CW : Type} `{!Disks WT WS WJ WC WV} `{!Persist (list Chain) CW}.
Context (key_ok : string -> bool) (presents : string -> option (string * string)) (accepts : Target -> bool)
        (net : nat -> bool) (minio_ok : string -> bool) (observe : string -> blob -> option blob) (bucket_there : bool).
Context (env : Env) (rn : Runner).
Abbreviation world := (World (WT := WT) (WS := WS) (WJ := WJ) (WC := WC) (WV := WV) (CW := CW)).
Abbreviation run := (runJob EvalSymlinks sort_by key_ok presents accepts net minio_ok observe bucket_there env rn).

Implicit Types (w : world) (s : Store (WT := WT) (WS := WS) (WJ := WJ) (WC := WC) (WV := WV)).

Lemma UpdateJob_jobs j s : jobs (UpdateJob sort_by j s).2 = if bool_decide (is_Some (jobs s !! jb_ID j)) then <[jb_ID j := j]> (jobs s) else jobs s.
Proof.
  unfold UpdateJob. rewrite run_get, run_guard. destruct (bool_decide _) eqn:E; cbn [negb]; [|done].
  rewrite run_modify. unfold persist, saveJobs. cbn. by destruct (save _ _).
Qed.

Lemma UpdateJob_targets j s : targets (UpdateJob sort_by j s).2 = targets s.
Proof.
  unfold UpdateJob. rewrite run_get, run_guard. destruct (negb _); [done|]. rewrite run_modify. unfold persist, saveJobs. cbn. by destruct (save _ _).
Qed.

Lemma RecordVerification_jobs id n sha ok msg now s :
  jobs (RecordVerification id n sha ok msg now s).2 = jobs s /\ targets (RecordVerification id n sha ok msg now s).2 = targets s.
Proof. unfold RecordVerification. rewrite run_modify. unfold persist, saveVerified. cbn. by destruct (save _ _). Qed.

Lemma SetScheduleLastRun_jobs id st e next now s :
  jobs (SetScheduleLastRun sort_by id st e next now s).2 = jobs s /\ targets (SetScheduleLastRun sort_by id st e next now s).2 = targets s.
Proof.
  unfold SetScheduleLastRun, schedule, edit_schedule. rewrite run_bind. destruct (schedules s !! id); [|done].
  rewrite run_modify. unfold persist, saveSchedules. cbn. by destruct (save _ _).
Qed.

(** The job of a run keeps its identity and its place in the store, and no
    target changes. *)
Record tracked (j : Job) (ts : gmap string Target) (w : world) : Prop := {
  tr_id : jb_ID (w_job w) = jb_ID j; tr_target : jb_TargetID (w_job w) = jb_TargetID j;
  tr_sched : jb_ScheduleID (w_job w) = jb_ScheduleID j; tr_scope : jb_ScopeVMID (w_job w) = jb_ScopeVMID j;
  tr_known : is_Some (jobs (w_store w) !! jb_ID j); tr_targets : targets (w_store w) = ts
}.

Section Tracked.
Context (j0 : Job) (ts : gmap string Target).
Abbreviation T := (tracked j0 ts).

Lemma tracked_update j w : T w -> jb_ID j = jb_ID j0 -> T (set_store (UpdateJob sort_by j (w_store w)).2 w).
Proof.
  intros [] Hj. split; cbn; [done..| |by rewrite UpdateJob_targets]. rewrite UpdateJob_jobs. destruct (bool_decide _); [|done].
  rewrite Hj. by rewrite lookup_insert_eq.
Qed.

Lemma tracked_report p stage : preserves T (report sort_by p stage).
Proof. intros w Hw. unfold report. rewrite run_modify, run_get. apply tracked_update; [by destruct Hw|by apply Hw]. Qed.

Lemma tracked_report_all stage ps : preserves T (report_all sort_by stage ps).
Proof. induction ps; [apply pres_ret|]. apply pres_bind; [apply tracked_report|done]. Qed.

Lemma tracked_put p b : preserves T (put_file p b).
Proof. apply pres_modify. by intros w []. Qed.
Lemma tracked_remove p : preserves T (remove_file p).
Proof. apply pres_modify. by intros w []. Qed.
Lemma tracked_open p a : preserves T (open_file env p a).
Proof. apply pres_bind; [apply pres_guard|intros _; apply tracked_put]. Qed.
Lemma tracked_attempts n p a : preserves T (attempts env n p a).
Proof.
  induction n; [apply pres_fail|]. apply pres_bind; [apply pres_get|]. intros w. destruct (bool_decide _); [done|].
  destruct (e_create env p); [apply tracked_put|apply pres_fail].
Qed.
Lemma tracked_allocate dir name a : preserves T (allocateOutputPath env dir name a).
Proof. apply pres_bind; [apply tracked_attempts|intros _; apply pres_ret]. Qed.

Hint Resolve tracked_report tracked_report_all tracked_put tracked_remove tracked_open tracked_allocate : pres.
Ltac pres := repeat first [eapply pres_bind; [solve [eauto with pres]|intros ?] | apply pres_bind | progress eauto with pres].

Lemma tracked_write_vm n tgt dir i vm a : preserves T (write_vm sort_by env rn n tgt dir i vm a).
Proof.
  apply pres_bind; [apply pres_guard|intros _]. apply pres_bind; [apply tracked_allocate|intros fo].
  apply pres_bind; [apply tracked_report|intros _]. destruct (String.eqb _ _).
  - unfold write_container. destruct (exportSource rn) as [export|]; [|apply pres_fail]. pres. destruct (export vm); [destruct (e_close _ _)|]; pres.
  - unfold write_machine. pres. destruct (produce _ _ _ _ _ _) as [[r|] ms]; [destruct (e_close _ _)|]; pres.
Qed.

Lemma tracked_write_all f : (forall i vm a, preserves T (f i vm a)) -> forall scope i a, preserves T (write_all f i scope a).
Proof. intros Hf scope. induction scope as [|vm scope IH]; intros i a; [apply pres_ret|]. by apply pres_bind; [apply Hf|intros ?]. Qed.

Lemma tracked_fs w t : T w -> T (set_fs t w).
Proof. by intros []. Qed.
Lemma tracked_put_config tgt p w : T w -> T (put_config env rn tgt p w).2.
Proof. intros Hw. unfold put_config. destruct (writeConfigArchive _ _ _ _ _ _ _ _ _); by apply tracked_fs. Qed.
Lemma tracked_copy b dir : preserves T (copyConfigGlobal env b dir).
Proof. intros w Hw. unfold copyConfigGlobal. cbn. destruct (e_copy env); [done|by apply tracked_fs..]. Qed.
Hint Resolve tracked_copy : pres.

Lemma tracked_config_archive tgt dir a fo : preserves T (config_archive sort_by env rn tgt dir a fo).
Proof.
  intros w Hw. unfold config_archive. pose proof (tracked_put_config tgt fo.2 w Hw) as H.
  destruct (put_config _ _ _ _ _) as [[b|] w1]; [|done]. revert w1 H. change (preserves T (_ ← report sort_by 80 "config_copy"; _ ← copyConfigGlobal env b dir; mret (config_file env fo.1 b a))).
  pres.
Qed.
Lemma tracked_prepare dir : preserves T (prepare EvalSymlinks env rn dir).
Proof. apply pres_bind; [apply pres_guard|intros _; apply pres_guard]. Qed.
Lemma tracked_scope tgt : preserves T (scope_of rn tgt).
Proof. unfold scope_of. destruct (resolveScope rn tgt); [apply pres_ret|apply pres_fail]. Qed.

Lemma tracked_writeBackup tgt dir : preserves T (writeBackup EvalSymlinks sort_by env rn tgt dir).
Proof.
  apply pres_bind; [apply tracked_prepare|intros _]. apply pres_bind; [apply tracked_scope|intros scope].
  apply pres_bind; [apply pres_guard|intros _]. apply pres_bind; [apply tracked_write_all; intros; apply tracked_write_vm|intros a].
  apply pres_bind; [apply tracked_report|intros _]. apply pres_bind; [apply tracked_allocate|intros fo]. apply tracked_config_archive.
Qed.

Lemma tracked_append_entry id tid name e : preserves T (append_entry env id tid name e).
Proof. apply pres_modify. by intros w []. Qed.
Hint Resolve tracked_append_entry : pres.

Lemma tracked_write_checkpoint n tgt dir i vm a w r w' : T w -> jb_ID a.2 = jb_ID j0 ->
  write_checkpoint sort_by env rn n tgt dir i vm a w = (r, w') -> T w' /\ forall a', r = Ok a' -> jb_ID a'.2 = jb_ID j0.
Proof.
  intros Hw Ha. unfold write_checkpoint. destruct (_ || _); [intros [= <- <-]; split; [done|by intros a' [= <-]]|].
  destruct (disk_targets_of _ _ _ _ _) as [|d dts]; [intros [= <- <-]; split; [done|by intros a' [= <-]]|]. set (l := d :: dts).
  rewrite run_get, run_bind. pose proof (tracked_report (inc_base i n) "checkpoint" w Hw) as H1.
  destruct (report _ _ _ w) as [[[]|] w1]; cbn [snd] in H1; [|by intros [= <- <-]]. rewrite run_modify, run_guard.
  destruct (negb _); [intros [= <- <-]; split; [by apply tracked_fs|done]|]. unfold update_job at 1. rewrite run_modify, run_get, run_bind.
  set (w2 := set_store _ _). assert (T w2) as H2 by (apply tracked_update; [by apply tracked_fs|done]).
  pose proof (tracked_append_entry (vm_ID vm) (tg_ID tgt) (sanitizeVMName (vm_ID vm))
    (checkpoint_entry env i (jb_ID (with_checkpoint (e_checkpoint env i) a.2)) (parent_of (vm_ID vm) w) l (w_fs w2)) w2 H2) as H3.
  destruct (append_entry _ _ _ _ _ w2) as [[[]|] w3]; cbn [snd] in H3; [|by intros [= <- <-]]. rewrite run_bind.
  pose proof (tracked_report (inc_base (S i) n) "checkpoint" w3 H3) as H4.
  destruct (report _ _ _ w3) as [[[]|] w4]; cbn [snd] in H4; [|by intros [= <- <-]].
  intros [= <- <-]. split; [done|]. by intros a' [= <-].
Qed.

Lemma tracked_checkpoint_all n tgt dir scope : forall i a w, T w -> jb_ID a.2 = jb_ID j0 ->
  T (checkpoint_all (write_checkpoint sort_by env rn n tgt dir) i scope a w).2.
Proof.
  induction scope as [|vm scope IH]; intros i a w Hw Ha; [done|]. cbn [checkpoint_all]. rewrite run_bind.
  destruct (write_checkpoint _ _ _ _ _ _ _ _ _ w) as [r w'] eqn:E. apply tracked_write_checkpoint in E as [H1 H2]; [|done..].
  destruct r as [a'|]; [|done]. apply IH; [done|by apply H2].
Qed.

Lemma tracked_writeIncremental tgt dir job w : T w -> jb_ID job = jb_ID j0 ->
  T (writeIncrementalBackup EvalSymlinks sort_by env rn tgt dir job w).2.
Proof.
  intros Hw Hj. unfold writeIncrementalBackup. rewrite run_bind. pose proof (tracked_prepare dir w Hw) as H1.
  destruct (prepare _ _ _ _ w) as [[[]|] w1]; [|done]. rewrite run_bind. pose proof (tracked_scope tgt w1 H1) as H2.
  destruct (scope_of _ _ w1) as [[scope|] w2]; [|done]. rewrite run_bind.
  pose proof (tracked_checkpoint_all (length scope) tgt dir scope 0 (([], 0), job) w2 H2 Hj) as H3.
  destruct (checkpoint_all _ _ _ _ w2) as [[a|] w3]; [|done]. unfold inc_config. rewrite run_bind.
  pose proof (tracked_report 80 "config_copy" w3 H3) as H4. destruct (report _ _ _ w3) as [[[]|] w4]; [|done].
  unfold inc_archive. pose proof (tracked_put_config tgt (GoPath.Join [dir; run_file env config_name]) w4 H4) as H5.
  destruct (put_config _ _ _ _ w4) as [[b|] w5]; [|done]. rewrite run_bind. pose proof (tracked_copy b dir w5 H5) as H6.
  by destruct (copyConfigGlobal _ _ _ w5) as [[[]|] w6].
Qed.

Lemma tracked_on_remote {A} (m : SE remote string A) : preserves T (on_remote m).
Proof. intros w []. unfold on_remote. by destruct (m (w_remote w)). Qed.
Lemma tracked_lift_report p stage : preserves T (lift_report sort_by p stage).
Proof. intros w Hw. by apply tracked_report. Qed.
Lemma tracked_record tgt name sha ok msg : preserves T (record env tgt name sha ok msg).
Proof.
  apply pres_modify. intros w []. destruct (RecordVerification_jobs (tg_ID tgt) name sha ok msg (e_ended env) (w_store w)) as [E1 E2].
  split; cbn; rewrite ?E1, ?E2; done.
Qed.

Lemma tracked_verifyWrittenPrimary tgt st p : preserves T (verifyWrittenPrimary key_ok presents accepts net minio_ok observe env tgt st p).
Proof.
  intros w Hw. unfold verifyWrittenPrimary. destruct (w_fs w !! _) as [b|]; [|done].
  pose proof (tracked_on_remote (remote_verify key_ok presents accepts net minio_ok observe tgt p) w Hw) as H1.
  destruct (on_remote _ w) as [[got|e] w1]; cbn [snd] in H1.
  - destruct (String.eqb _ _); [by apply tracked_record|]. apply (pres_bind _ _ _ (tracked_record _ _ _ _ _) (fun _ => pres_fail _ _)).
    by apply tracked_on_remote.
  - apply (pres_bind _ _ _ (tracked_record _ _ _ _ _) (fun _ => pres_fail _ _)). by apply tracked_on_remote.
Qed.

Lemma tracked_upload tgt st a : preserves T (upload sort_by key_ok presents accepts net minio_ok bucket_there env tgt st a).
Proof.
  unfold upload. destruct (String.eqb _ _); [|destruct (String.eqb _ _); [|apply pres_ret]].
  - apply pres_bind; [apply tracked_lift_report|intros _]. apply pres_bind; [apply pres_get|intros w]. apply tracked_on_remote.
  - apply pres_bind; [apply tracked_lift_report|intros _]. apply pres_bind; [apply tracked_on_remote|intros _].
    apply pres_bind; [apply pres_get|intros w]. apply tracked_on_remote.
Qed.

Lemma tracked_transfer tgt mode w : T w ->
  T (transfer EvalSymlinks sort_by key_ok presents accepts net minio_ok observe bucket_there env rn tgt mode w).2.
Proof.
  intros Hw. unfold transfer. set (dir := if is_remote _ then _ else _).
  assert (T (if String.eqb mode "incremental" then writeIncrementalBackup EvalSymlinks sort_by env rn tgt dir (w_job w) w
             else writeBackup EvalSymlinks sort_by env rn tgt dir w).2) as H1.
  { destruct (String.eqb _ _); [apply tracked_writeIncremental; [done|by destruct Hw]|by apply tracked_writeBackup]. }
  assert (forall w, T w -> T (if nonempty (staging_of env rn tgt) then RemoveAll (staging_of env rn tgt) w else w)) as Hd.
  { intros w' Hw'. destruct (nonempty _); [by apply tracked_fs|done]. }
  destruct (if String.eqb mode "incremental" then _ else _) as [[a|[a e]] w1]; cbn [snd] in H1; [|by apply Hd].
  pose proof (tracked_upload tgt (staging_of env rn tgt) a w1 H1) as H2. destruct (upload _ _ _ _ _ _ _ _ _ _ _ w1) as [[total|e] w2]; cbn [snd] in H2; [|by apply Hd].
  assert (T (verify sort_by key_ok presents accepts net minio_ok observe env rn tgt (staging_of env rn tgt) a w2).2) as H3.
  { apply (pres_when T); [|done]. intros _. apply pres_bind; [apply tracked_lift_report|intros _; apply tracked_verifyWrittenPrimary]. }
  destruct (verify _ _ _ _ _ _ _ _ _ _ _ _ w2) as [[[]|e] w3]; by apply Hd.
Qed.
End Tracked.

(** ** A run ends its job *)

Lemma launch_known newid targetID scheduleID only w tgt j w' :
  launch sort_by env newid targetID scheduleID only w = (Ok (tgt, j), w') ->
  tracked j (targets (w_store w)) (set_job j w') /\ jb_TargetID j = targetID /\ jb_ScheduleID j = scheduleID /\
  (exists t, GetTarget targetID (w_store w) = Some t /\ tg_Enabled t = true /\ tgt = narrowed only t) /\
  jb_ScopeVMID j = match only with [v] => v | _ => "" end.
Proof.
  unfold launch. destruct (GetTarget targetID (w_store w)) as [t|] eqn:Et; [|done]. destruct (tg_Enabled t) eqn:Een; cbn [negb]; [|done].
  unfold RecordJob. set (j1 := if nonempty _ then _ else _). set (j2 := if is_zero _ then _ else _). rewrite run_modify, run_bind.
  unfold persist, saveJobs. cbn. destruct (save _ _) as [[] d]; [|done]. cbn. intros [= <- <- <-].
  assert (jb_TargetID j2 = targetID /\ jb_ScheduleID j2 = scheduleID /\ jb_ScopeVMID j2 = match only with [v] => v | _ => "" end) as (H1 & H2 & H3).
  { unfold j2, j1. by destruct (is_zero _); destruct (nonempty _). }
  split_and!; [|done|done|by exists t|done]. split; cbn; try done. by rewrite lookup_insert_eq.
Qed.

Lemma finish_tracked j0 ts a st e stage w : tracked j0 ts w ->
  jobs (w_store (finish sort_by env a st e stage w)) !! jb_ID j0 = Some (w_job (finish sort_by env a st e stage w)) /\
  tracked j0 ts (finish sort_by env a st e stage w).
Proof.
  intros Hw. unfold finish. cbn. split.
  - rewrite UpdateJob_jobs. cbn. destruct Hw as [-> _ _ _ Hk _]. rewrite bool_decide_eq_true_2 by done. by rewrite lookup_insert_eq.
  - destruct Hw. split; cbn; [done..| |by rewrite UpdateJob_targets]. rewrite UpdateJob_jobs. cbn. destruct (bool_decide _); [|done].
    rewrite tr_id0. by rewrite lookup_insert_eq.
Qed.

Lemma last_run_jobs id st e w : jobs (w_store (last_run sort_by env id st e w)) = jobs (w_store w) /\
  targets (w_store (last_run sort_by env id st e w)) = targets (w_store w) /\ w_job (last_run sort_by env id st e w) = w_job w.
Proof. unfold last_run. destruct (nonempty id); [|done]. cbn. by destruct (SetScheduleLastRun_jobs id st e time_zero (e_ended env) (w_store w)) as [-> ->]. Qed.
Lemma alert_store l x w : w_store (alert rn l x w) = w_store w /\ w_job (alert rn l x w) = w_job w.
Proof. unfold alert. by destruct (alertFunc rn). Qed.

(** The state a run hands to the transfer. *)
Definition begun (tgt : Target) (job : Job) (scheduleID : string) (w : world) : string * world :=
  let w := (report sort_by 1 "preparing" (set_job job w)).2 in
  let mode := run_mode tgt scheduleID w in
  let w := set_job (with_mode mode (w_job w)) w in
  if String.eqb mode "incremental" && negb (canIncremental rn tgt)
  then ("full", set_job (with_mode "full" (with_message "incremental_unavailable_fallback_full" (w_job w))) w) else (mode, w).

Lemma runJob_begun tgt job scheduleID w :
  run tgt job scheduleID w =
  let '(mode, w1) := begun tgt job scheduleID w in
  let '((a, err), w) := transfer EvalSymlinks sort_by key_ok presents accepts net minio_ok observe bucket_there env rn tgt mode w1 in
  match err with
  | Some e =>
      let w := alert rn "error" "Backup failed" (last_run sort_by env scheduleID "error" e (finish sort_by env a "error" e "failed" w)) in
      ((w_job w, Some e), w)
  | None =>
      let w := alert rn "info" "Backup completed" (finish sort_by env a "success" "" "done" w) in
      let w := if retention_enabled (tg_Retention tgt)
               then MkWorld (w_store w) (w_job w) (w_fs w) (w_remote w) (w_chain w) (w_alerts w) (w_prune w ++ [tgt]) else w in
      let w := last_run sort_by env scheduleID "success" "" w in
      ((w_job w, None), w)
  end.
Proof. unfold runJob, begun. by destruct (_ && _). Qed.

Lemma begun_tracked tgt job scheduleID w : is_Some (jobs (w_store w) !! jb_ID job) ->
  tracked job (targets (w_store w)) (begun tgt job scheduleID w).2.
Proof.
  intros Hk. assert (tracked job (targets (w_store w)) (set_job job w)) as H0 by (by split).
  apply (tracked_report _ _ 1 "preparing") in H0. unfold begun. destruct (_ && _); destruct H0; by split.
Qed.

(** C7: Every run ends its job.  Whatever the host, libvirt, the network and the
    disk under the store do, when a run returns, its job is the one it was given (same
    id, target, schedule and machine), it is over (100 percent, an end time, no
    leftover message), it is marked as successful or as failed with the error that the
    run returns, this is what the store shows for it, and no target has changed. *)
Theorem every_run_ends_its_job tgt job scheduleID w j err w' :
  is_Some (jobs (w_store w) !! jb_ID job) ->
  run tgt job scheduleID w = ((j, err), w') ->
  (jb_ID j = jb_ID job /\ jb_TargetID j = jb_TargetID job /\ jb_ScheduleID j = jb_ScheduleID job /\ jb_ScopeVMID j = jb_ScopeVMID job) /\
  (jb_Progress j = 100 /\ jb_EndedAt j = e_ended env /\ jb_Message j = "") /\
  match err with
  | None => jb_Status j = "success" /\ jb_Error j = "" /\ jb_Stage j = "done"
  | Some e => jb_Status j = "error" /\ jb_Error j = e /\ jb_Stage j = "failed"
  end /\
  jobs (w_store w') !! jb_ID job = Some j /\ targets (w_store w') = targets (w_store w).
Proof.
  intros Hk. rewrite runJob_begun. apply (begun_tracked tgt job scheduleID) in Hk. destruct (begun _ _ _ _) as [mode w1]. cbn [snd] in Hk.
  apply (tracked_transfer _ _ tgt mode) in Hk. destruct (transfer _ _ _ _ _ _ _ _ _ _ _ _ _ w1) as [[a e] w2]. cbn [snd] in Hk.
  destruct e as [e|]; intros [= <- <- <-].
  - destruct (finish_tracked _ _ a "error" e "failed" _ Hk) as [Hj Ht].
    destruct (alert_store "error" "Backup failed" (last_run sort_by env scheduleID "error" e (finish sort_by env a "error" e "failed" w2))) as [-> ->].
    destruct (last_run_jobs scheduleID "error" e (finish sort_by env a "error" e "failed" w2)) as (-> & -> & ->).
    destruct Ht. split_and!; done.
  - destruct (finish_tracked _ _ a "success" "" "done" _ Hk) as [Hj Ht]. set (w3 := if retention_enabled _ then _ else _).
    destruct (last_run_jobs scheduleID "success" "" w3) as (-> & -> & ->).
    destruct (alert_store "info" "Backup completed" (finish sort_by env a "success" "" "done" w2)) as [E1 E2].
    assert (w_store w3 = w_store (finish sort_by env a "success" "" "done" w2) /\ w_job w3 = w_job (finish sort_by env a "success" "" "done" w2)) as [-> ->].
    { unfold w3. destruct (retention_enabled _); cbn; by rewrite E1, E2. }
    destruct Ht. split_and!; done.
Qed.
End RunFacts.
