(* ===== verification/RunArchives.v ===== *)
(** * RunArchives: the files of a backup run

    What a full run of Runner leaves below its target: it touches no file that was
    there before, and when it succeeds the target holds an archive of every machine
    in its scope and the configuration, on this host or on the remote side. *)

From S2P Require Import Sessions Chain.
From S2P Require Export RunnerFacts.
Open Scope Z_scope.

Section Archives.
Context (EvalSymlinks : string -> option string) (sort_by : forall A, (A -> Z) -> list A -> list A).
Context {WT WS WJ WC WV CW : Type} `{!Disks WT WS WJ WC WV} `{!Persist (list Chain) CW}.
Context (key_ok : string -> bool) (presents : string -> option (string * string)) (accepts : Target -> bool)
        (net : nat -> bool) (minio_ok : string -> bool) (observe : string -> blob -> option blob) (bucket_there : bool).
Context (env : Env) (rn : Runner).
Abbreviation world := (World (WT := WT) (WS := WS) (WJ := WJ) (WC := WC) (WV := WV) (CW := CW)).
Abbreviation run := (runJob EvalSymlinks sort_by key_ok presents accepts net minio_ok observe bucket_there env rn).
Implicit Types (w : world).

Definition vm_file (tgt : Target) (vm : VM) : string := run_file env (sanitizeVMName (vm_ID vm) +:+ vm_ext tgt vm).
Definition vm_path (tgt : Target) (dir : string) (vm : VM) : string := GoPath.Join [dir; vm_file tgt vm].
Definition config_path (dir : string) : string := GoPath.Join [dir; run_file env config_name].
Definition latest (dir : string) : string := GoPath.Join [GoPath.Join [dir; "config"]; "webkvm-config-latest.tar.zst"].

(** The content an archive of the [i]-th machine must have. *)
Definition archive_of (i : nat) (tgt : Target) (dir : string) (vm : VM) (b : blob) : Prop :=
  if String.eqb (Hypervisor vm) "incus" then exists export data, exportSource rn = Some export /\ export vm = Some data /\ b = Export data
  else exists r ms, produce env rn i tgt vm (vm_path tgt dir vm) = (Ok r, ms) /\ b = Tar ms.

Definition config_blob (tgt : Target) (dir : string) (b : blob) : Prop :=
  exists ms, writeConfigArchive (e_look env) (e_write env (config_path dir)) (fun _ => false) (e_create env (config_path dir))
    (e_close env (config_path dir)) (e_created env) (tg_ID tgt) (rn_dataDir rn) (e_entries env) = Some ms /\ b = Tar ms.

(** ** One archive *)

Lemma report_fs p stage w : exists w', report sort_by p stage w = (Ok tt, w') /\ w_fs w' = w_fs w /\ w_remote w' = w_remote w.
Proof. unfold report. rewrite run_modify, run_get. by eexists. Qed.

Lemma report_all_fs stage ps : forall w, exists w', report_all sort_by stage ps w = (Ok tt, w') /\ w_fs w' = w_fs w /\ w_remote w' = w_remote w.
Proof.
  induction ps as [|p ps IH]; intros w; [by exists w|]. cbn [report_all]. rewrite run_bind.
  destruct (report_fs p stage w) as (w1 & -> & E1 & E2). destruct (IH w1) as (w2 & -> & E3 & E4). exists w2. by rewrite E3, E4.
Qed.

Lemma attempts_spec n p a w r w' : attempts env n p a w = (r, w') -> w_remote w' = w_remote w /\
  match r with Ok _ => w_fs w !! p = None /\ w_fs w' = <[p := NoData]> (w_fs w) | Err e => w_fs w' = w_fs w /\ e.1 = a end.
Proof.
  revert w. induction n as [|n IH]; intros w; [by intros [= <- <-]|]. cbn [attempts]. rewrite run_get.
  destruct (bool_decide _) eqn:E; [apply IH|]. apply bool_decide_eq_false in E. rewrite <- eq_None_not_Some in E.
  destruct (e_create env p); by intros [= <- <-].
Qed.

(** Only the file at [p] may differ. *)
Definition only_at (p : string) (t t' : tree) : Prop := forall q, q <> p -> t' !! q = t !! q.
Lemma only_at_refl p t : only_at p t t.
Proof. done. Qed.
Lemma only_at_trans p t1 t2 t3 : only_at p t1 t2 -> only_at p t2 t3 -> only_at p t1 t3.
Proof. intros H1 H2 q Hq. by rewrite H2, H1. Qed.
Lemma only_at_insert p b t : only_at p t (<[p := b]> t).
Proof. intros q Hq. by apply lookup_insert_ne. Qed.
Lemma only_at_delete p t : only_at p t (delete p t).
Proof. intros q Hq. by apply lookup_delete_ne. Qed.

(** What writing one archive does: on every outcome only its file may differ; a
    failure carries files reported before; a success adds one file. *)
Definition one_archive (i : nat) (tgt : Target) (dir : string) (vm : VM) (a : acc) (w : world) (r : res (acc * string) acc) (w' : world) : Prop :=
  only_at (vm_path tgt dir vm) (w_fs w) (w_fs w') /\ w_remote w' = w_remote w /\
  match r with
  | Ok a' => exists b n, w_fs w' !! vm_path tgt dir vm = Some b /\ archive_of i tgt dir vm b /\
      a'.1 = a.1 ++ [MkJobFile (vm_file tgt vm) n "vm" (vm_ID vm)]
  | Err e => e.1.1 = a.1 \/ e.1.1 = []
  end.

Lemma open_file_spec p a w r w' : open_file env p a w = (r, w') -> w_remote w' = w_remote w /\ only_at p (w_fs w) (w_fs w') /\
  match r with Ok _ => True | Err e => e.1 = a end.
Proof.
  unfold open_file. rewrite run_guard. destruct (negb _); intros [= <- <-]; cbn; [by split_and!|]. split_and!; [done|apply only_at_insert|done].
Qed.

Ltac run_reports w w' F R :=
  match goal with |- context [report_all sort_by ?stage ?ps w] => destruct (report_all_fs stage ps w) as (w' & -> & F & R) end.

Lemma write_container_spec i n tgt dir vm a w r w' : String.eqb (Hypervisor vm) "incus" = true ->
  write_container sort_by env rn i n vm (vm_file tgt vm) (vm_path tgt dir vm) a w = (r, w') -> one_archive i tgt dir vm a w r w'.
Proof.
  intros Hi. unfold write_container. destruct (exportSource rn) as [export|] eqn:Ex.
  2:{ intros [= <- <-]. split_and!; [apply only_at_refl|done|by right]. }
  rewrite run_bind. destruct (open_file _ _ _ w) as [[[]|e] w1] eqn:E1; apply open_file_spec in E1 as (R1 & O1 & X1).
  2:{ intros [= <- <-]. split_and!; [done|done|left; by rewrite X1]. }
  rewrite run_bind. run_reports w1 w2 F2 R2.
  destruct (export vm) as [data|] eqn:Ed; [destruct (e_close env _) eqn:Ec|].
  2,3: intros [= <- <-]; unfold one_archive, set_fs; cbn [w_fs w_remote]; rewrite F2; split_and!;
    [eapply only_at_trans; [exact O1|apply only_at_delete]|by rewrite R2, R1|by right].
  rewrite run_bind. cbn [put_file se_modify]. rewrite run_bind.
  destruct (report_fs (base_of (S i) n) "compress_vm" (set_fs (<[vm_path tgt dir vm:=Export data]> (w_fs w2)) w2)) as (w3 & -> & F3 & R3).
  intros [= <- <-]. unfold one_archive. rewrite F3, R3. unfold set_fs. cbn [w_fs w_remote]. rewrite F2. split_and!.
  - eapply only_at_trans; [exact O1|apply only_at_insert].
  - by rewrite R2, R1.
  - exists (Export data), (Producer.size data). split_and!; [apply lookup_insert_eq| |done]. unfold archive_of. rewrite Hi. by exists export, data.
Qed.

Lemma write_machine_spec i n tgt dir vm a w r w' : String.eqb (Hypervisor vm) "incus" = false ->
  write_machine sort_by env rn i n tgt vm (vm_file tgt vm) (vm_path tgt dir vm) a w = (r, w') -> one_archive i tgt dir vm a w r w'.
Proof.
  intros Hi. unfold write_machine. rewrite run_bind.
  destruct (open_file _ _ _ w) as [[[]|e] w1] eqn:E1; apply open_file_spec in E1 as (R1 & O1 & X1).
  2:{ intros [= <- <-]. split_and!; [done|done|left; by rewrite X1]. }
  rewrite run_bind. run_reports w1 w2 F2 R2.
  destruct (produce _ _ _ _ _ _) as [[x|] ms] eqn:Ep; [destruct (e_close env _) eqn:Ec|].
  2,3: intros [= <- <-]; unfold one_archive, set_fs; cbn [w_fs w_remote]; rewrite F2; split_and!;
    [eapply only_at_trans; [exact O1|apply only_at_delete]|by rewrite R2, R1|by left].
  rewrite run_bind. cbn [put_file se_modify]. rewrite run_bind.
  destruct (report_fs (base_of (S i) n) "compress_vm" (set_fs (<[vm_path tgt dir vm:=Tar ms]> (w_fs w2)) w2)) as (w3 & -> & F3 & R3).
  intros [= <- <-]. unfold one_archive. rewrite F3, R3. unfold set_fs. cbn [w_fs w_remote]. rewrite F2. split_and!.
  - eapply only_at_trans; [exact O1|apply only_at_insert].
  - by rewrite R2, R1.
  - exists (Tar ms), (TotalBytes x). split_and!; [apply lookup_insert_eq| |done]. unfold archive_of. rewrite Hi. by exists x, ms.
Qed.

(** The name is reserved first, so that a file that was there is kept. *)
Lemma write_vm_spec n tgt dir i vm a w r w' : write_vm sort_by env rn n tgt dir i vm a w = (r, w') ->
  one_archive i tgt dir vm a w r w' /\ (w_fs w !! vm_path tgt dir vm = None \/ (w_fs w' = w_fs w /\ is_ok r = false)).
Proof.
  unfold write_vm. rewrite run_guard. destruct (e_over env i).
  { intros [= <- <-]. split; [split_and!; [apply only_at_refl|done|by right]|by right]. }
  unfold allocateOutputPath. change (GoPath.Join [dir; run_file env (sanitizeVMName (vm_ID vm) +:+ vm_ext tgt vm)]) with (vm_path tgt dir vm).
  change (run_file env (sanitizeVMName (vm_ID vm) +:+ vm_ext tgt vm)) with (vm_file tgt vm). rewrite run_bind, run_bind.
  destruct (attempts _ _ _ _ w) as [[[]|e] w1] eqn:E1; apply attempts_spec in E1 as [R1 F1].
  2:{ destruct F1 as [F1 X1]. intros [= <- <-]. split; [split_and!; [by rewrite F1|done|left; by rewrite X1]|by right]. }
  destruct F1 as [F0 F1]. cbn [mret se_ret]. rewrite run_bind. destruct (report_fs (base_of i n) "compress_vm" w1) as (w2 & -> & F2 & R2). cbn [fst snd].
  intros H. split; [|by left]. assert (one_archive i tgt dir vm a w2 r w') as (O & R & P).
  { destruct (String.eqb (Hypervisor vm) "incus") eqn:Ei; [by eapply write_container_spec|by eapply write_machine_spec]. }
  split_and!; [|by rewrite R, R2, R1|exact P]. eapply only_at_trans; [|exact O]. rewrite F2, F1. apply only_at_insert.
Qed.

(** ** A whole run *)

Definition file_of (tgt : Target) (f : JobFile) (vm : VM) : Prop :=
  jf_Filename f = vm_file tgt vm /\ Kind f = "vm" /\ jf_VMID f = vm_ID vm.

Lemma write_vm_keeps n tgt dir i vm a w r w' : write_vm sort_by env rn n tgt dir i vm a w = (r, w') -> w_fs w ⊆ w_fs w'.
Proof.
  intros [(O & _ & _) H]%write_vm_spec. apply map_subseteq_spec. intros q b Hq. destruct H as [H|[-> _]]; [|done].
  rewrite O; [done|]. intros ->. congruence.
Qed.

Lemma write_all_spec n tgt dir scope : forall i a w r w', write_all (write_vm sort_by env rn n tgt dir) i scope a w = (r, w') ->
  w_fs w ⊆ w_fs w' /\ w_remote w' = w_remote w /\
  match r with
  | Ok a' => (forall k vm, scope !! k = Some vm -> exists b, w_fs w' !! vm_path tgt dir vm = Some b /\ archive_of (i + k) tgt dir vm b) /\
      exists l, a'.1 = a.1 ++ l /\ Forall2 (file_of tgt) l scope
  | Err e => forall f, f ∈ e.1.1 -> f ∈ a.1 \/ exists vm, vm ∈ scope /\ file_of tgt f vm
  end.
Proof.
  induction scope as [|vm scope IH]; intros i a w r w'; cbn [write_all].
  { intros [= <- <-]. split_and!; [done..|]. exists []. by rewrite app_nil_r. }
  rewrite run_bind. destruct (write_vm _ _ _ _ _ _ _ _ _ w) as [r1 w1] eqn:E1. pose proof (write_vm_keeps _ _ _ _ _ _ _ _ _ E1) as K1.
  apply write_vm_spec in E1 as [(_ & R1 & P1) _]. destruct r1 as [a1|e1].
  2:{ intros [= <- <-]. split_and!; [done..|]. intros f Hf. destruct P1 as [P1|P1]; rewrite P1 in Hf; [by left|by destruct (not_elem_of_nil f)]. }
  destruct P1 as (b & m & Hb & Ha & Hfiles). intros (K2 & R2 & P2)%IH. split_and!; [by transitivity (w_fs w1)|congruence|].
  destruct r as [a'|e].
  - destruct P2 as (P2 & l & Hl & Hf). split.
    + intros [|k] v; cbn; [intros [= <-]; rewrite Nat.add_0_r; exists b; split; [by eapply lookup_weaken|done]|].
      intros Hv. rewrite Nat.add_succ_r. by apply (P2 k v).
    + exists (MkJobFile (vm_file tgt vm) m "vm" (vm_ID vm) :: l). rewrite Hl, Hfiles, <- app_assoc. split; [done|]. by constructor.
  - intros f Hf. destruct (P2 f Hf) as [Hin|(v & Hv & Hfv)]; [|right; exists v; split; [by right|done]].
    rewrite Hfiles in Hin. apply elem_of_app in Hin as [Hin|Hin]; [by left|right]. apply list_elem_of_singleton in Hin as ->. exists vm. split; [by left|done].
Qed.

(** Every file but the stable copy of the configuration is kept. *)
Definition keeps (dir : string) (t t' : tree) : Prop := forall p b, p <> latest dir -> t !! p = Some b -> t' !! p = Some b.
Lemma keeps_sub dir t t' : t ⊆ t' -> keeps dir t t'.
Proof. intros H p b _ Hp. by eapply lookup_weaken. Qed.
Lemma keeps_trans dir t1 t2 t3 : keeps dir t1 t2 -> keeps dir t2 t3 -> keeps dir t1 t3.
Proof. intros H1 H2 p b Hp H. by apply H2, H1. Qed.

Lemma copy_latest b dir w : exists w', copyConfigGlobal env b dir w = (Ok tt, w') /\ only_at (latest dir) (w_fs w) (w_fs w') /\ w_remote w' = w_remote w.
Proof.
  unfold copyConfigGlobal. fold (latest dir). eexists. split; [done|]. destruct (e_copy env); [done|..]; split; try done;
    [apply only_at_delete|apply only_at_insert].
Qed.

Definition is_config (f : JobFile) : Prop := jf_Filename f = run_file env config_name /\ Kind f = "config" /\ jf_VMID f = "".

Lemma write_config_spec tgt dir a w r w' : write_config sort_by env rn tgt dir a w = (r, w') ->
  keeps dir (w_fs w) (w_fs w') /\ w_remote w' = w_remote w /\
  match r with
  | Ok a' => (config_path dir <> latest dir -> exists b, w_fs w' !! config_path dir = Some b /\ config_blob tgt dir b) /\
      exists f, a'.1 = a.1 ++ [f] /\ is_config f
  | Err e => e.1 = a
  end.
Proof.
  unfold write_config. rewrite run_bind. destruct (report_fs 72 "config" w) as (w1 & -> & F1 & R1). rewrite <- F1, <- R1.
  unfold allocateOutputPath. change (GoPath.Join [dir; run_file env config_name]) with (config_path dir). rewrite run_bind, run_bind.
  destruct (attempts _ _ _ _ w1) as [[[]|e] w2] eqn:E2; apply attempts_spec in E2 as [R2 F2].
  2:{ destruct F2 as [F2 X2]. intros [= <- <-]. rewrite F2. split_and!; [by apply keeps_sub|done|done]. }
  destruct F2 as [F0 F2]. cbn [mret se_ret]. unfold config_archive, put_config. cbn [fst snd].
  assert (forall t, only_at (config_path dir) (w_fs w2) t -> keeps dir (w_fs w1) t) as Hk.
  { intros t Ht p b Hp H. destruct (decide (p = config_path dir)) as [->|]; [congruence|]. rewrite Ht, F2, lookup_insert_ne by done. done. }
  destruct (writeConfigArchive _ _ _ _ _ _ _ _ _) as [ms|] eqn:Ew.
  2:{ intros [= <- <-]. split_and!; [|done|done]. apply Hk, only_at_delete. }
  rewrite run_bind. set (w3 := set_fs _ w2). destruct (report_fs 80 "config_copy" w3) as (w4 & -> & F4 & R4). rewrite run_bind.
  destruct (copy_latest (Tar ms) dir w4) as (w5 & -> & O5 & R5). intros [= <- <-]. split_and!.
  - eapply keeps_trans; [apply Hk, (only_at_insert _ (Tar ms))|]. change (keeps dir (w_fs w3) (w_fs w5)). rewrite <- F4. intros p b Hp H. by rewrite O5.
  - by rewrite R5, R4.
  - intros Hne. exists (Tar ms). split; [|by exists ms]. rewrite O5, F4 by done. apply lookup_insert_eq.
  - exists (MkJobFile (run_file env config_name) (e_blob_size env (Tar ms)) "config" ""). done.
Qed.

(** What a full run that succeeds leaves in the directory it writes into: an
    archive of every machine in its scope and the configuration, all of them
    reported. *)
Definition full_run (tgt : Target) (dir : string) (t : tree) (files : list JobFile) : Prop :=
  exists scope l f, resolveScope rn tgt = Ok scope /\ files = l ++ [f] /\ Forall2 (file_of tgt) l scope /\ is_config f /\
    (forall k vm, scope !! k = Some vm -> exists b, t !! vm_path tgt dir vm = Some b /\ archive_of k tgt dir vm b) /\
    (exists b, t !! config_path dir = Some b /\ config_blob tgt dir b).

(** The parts of a run's file names, as the host, the clock and [randHex] give
    them. *)
Definition plain_names : Prop :=
  Forall (fun p => contains_byte "/" p = false) [host_name env; e_stamp env; e_rand env].

Lemma run_file_comp name : plain_names -> contains_byte "/" name = false -> comp (run_file env name).
Proof.
  intros [H1 [H2 [H3 _]%Forall_cons]%Forall_cons]%Forall_cons Hn. unfold run_file, archive_name.
  split_and!; try done. by rewrite !contains_byte_app, H1, H2, H3, Hn.
Qed.

Lemma vm_file_comp tgt vm : plain_names -> comp (vm_file tgt vm).
Proof.
  intros Hp. apply run_file_comp; [done|]. rewrite contains_byte_app, sanitizeVMName_no_slash. unfold vm_ext, archiveExt.
  destruct (String.eqb _ _); [done|]. by destruct (String.eqb _ _).
Qed.

Lemma prepare_spec dir w r w' : prepare EvalSymlinks env rn dir w = (r, w') -> w' = w /\
  match r with Ok _ => IsAbs dir = true | Err e => e.1.1 = [] end.
Proof.
  unfold prepare. rewrite run_guard. destruct (bool_decide _) eqn:E; [by intros [= <- <-]|]. intros H. split; [by injection H|].
  destruct r as [[]|e]; [|unfold se_guard in H; by destruct (negb _); simplify_eq]. apply bool_decide_eq_false in E. rewrite <- eq_None_not_Some in E.
  unfold ValidateTargetPath in E. destruct (String.eqb _ _); [done|]. rewrite IsAbs_Clean in E. by destruct (IsAbs dir).
Qed.

(** The files a run reports are those of machines in its scope and the
    configuration. *)
Definition reported (tgt : Target) (files : list JobFile) : Prop :=
  forall f, f ∈ files -> is_config f \/ exists scope vm, resolveScope rn tgt = Ok scope /\ vm ∈ scope /\ file_of tgt f vm.

Lemma writeBackup_spec tgt dir w r w' : writeBackup EvalSymlinks sort_by env rn tgt dir w = (r, w') ->
  keeps dir (w_fs w) (w_fs w') /\ w_remote w' = w_remote w /\
  match r with
  | Ok a => reported tgt a.1 /\ (plain_names -> full_run tgt dir (w_fs w') a.1)
  | Err e => reported tgt e.1.1
  end.
Proof.
  unfold writeBackup. rewrite run_bind. destruct (prepare _ _ _ _ w) as [[[]|e] w1] eqn:E; apply prepare_spec in E as [-> E].
  2:{ intros [= <- <-]. split_and!; [by apply keeps_sub|done|]. rewrite E. by intros f Hf%not_elem_of_nil. }
  rewrite run_bind. unfold scope_of. destruct (resolveScope rn tgt) as [scope|e] eqn:Es.
  2:{ intros [= <- <-]. split_and!; [by apply keeps_sub|done|]. by intros f Hf%not_elem_of_nil. }
  cbn [mret se_ret]. rewrite run_guard. destruct (match e_free env with Some _ => _ | None => _ end).
  { intros [= <- <-]. split_and!; [by apply keeps_sub|done|]. by intros f Hf%not_elem_of_nil. }
  rewrite run_bind. destruct (write_all _ _ _ _ w) as [[a|e] w1] eqn:Ea; apply write_all_spec in Ea as (K1 & R1 & P1).
  2:{ intros [= <- <-]. split_and!; [by apply keeps_sub|done|]. intros f Hf. destruct (P1 f Hf) as [Hn|(vm & Hv & Hf')]; [by apply not_elem_of_nil in Hn|].
      right. by exists scope, vm. }
  intros (K2 & R2 & P2)%write_config_spec. split_and!; [eapply keeps_trans; [by apply keeps_sub|done]|congruence|].
  destruct P1 as (P1 & l & Hl & Hf). cbn [fst app] in Hl.
  assert (reported tgt l) as Hr.
  { intros f Hin. apply list_elem_of_lookup in Hin as [k Hk]. destruct (Forall2_lookup_l _ _ _ _ _ Hf Hk) as (vm & Hv & ?).
    right. exists scope, vm. split_and!; [done|by eapply list_elem_of_lookup_2|done]. }
  destruct r as [a'|e]; [|by rewrite P2, Hl].
  destruct P2 as (P2 & f & Hf1 & Hf2). split.
  { rewrite Hf1, Hl. intros g [Hg|Hg]%elem_of_app; [by apply Hr|]. apply list_elem_of_singleton in Hg as ->. by left. }
  intros Hn. exists scope, l, f. rewrite Hf1, Hl. split_and!; [done..| |].
  - intros k vm Hk. destruct (P1 k vm Hk) as (b & Hb & Ha). exists b. split; [|done]. apply K2; [|done].
    apply Join_below_sub; [done|by apply vm_file_comp|apply (bool_decide_unpack _); vm_compute; exact I..].
  - apply P2. apply Join_below_sub; [done|by apply run_file_comp|apply (bool_decide_unpack _); vm_compute; exact I..].
Qed.

(** ** The transfer *)

Definition dir_of (tgt : Target) : string := if is_remote (tg_Type tgt) then staging_of env rn tgt else tg_Path tgt.
Definition stored_at (tgt : Target) (w : world) (name : string) : option blob :=
  if String.eqb (tg_Type tgt) TargetSFTP then rm_files (w_remote w) !! remoteJoin tgt name
  else if String.eqb (tg_Type tgt) TargetS3 then rm_files (w_remote w) !! s3ObjectKey tgt name
  else w_fs w !! GoPath.Join [tg_Path tgt; name].

Lemma on_remote_fs {A} (m : SE remote string A) w : w_fs (on_remote m w).2 = w_fs w.
Proof. unfold on_remote. by destruct (m (w_remote w)). Qed.

Lemma upload_fs tgt st a w : w_fs (upload sort_by key_ok presents accepts net minio_ok bucket_there env tgt st a w).2 = w_fs w.
Proof.
  unfold upload. destruct (String.eqb _ _); [|destruct (String.eqb _ _); [|done]]; rewrite run_bind; unfold lift_report.
  - destruct (report_fs 90 "uploading" w) as (w1 & -> & <- & _). rewrite run_get. apply on_remote_fs.
  - destruct (report_fs 90 "uploading" w) as (w1 & -> & <- & _). rewrite run_bind.
    pose proof (on_remote_fs (s3EnsureBucket net minio_ok bucket_there tgt) w1) as E. destruct (on_remote _ _) as [[[]|] w2]; [|done].
    cbn [snd] in E. rewrite <- E, run_get. apply on_remote_fs.
Qed.

Lemma download_files p s : rm_files (download net observe p s).2 = rm_files s.
Proof.
  unfold download. rewrite run_bind. unfold call at 1. destruct (net _); [|done]. rewrite run_get.
  destruct (rm_files _ !! _) as [b|]; [|done]. by destruct (observe _ _).
Qed.
Lemma remote_verify_files tgt p s : rm_files (remote_verify key_ok presents accepts net minio_ok observe tgt p s).2 = rm_files s.
Proof.
  unfold remote_verify, sftpVerify, s3Verify. destruct (String.eqb _ _); rewrite run_lift.
  - destruct (dialSFTP _ _ _ _); [apply download_files|done].
  - destruct (s3ClientFor _ _); [apply download_files|done].
Qed.

Lemma verify_spec tgt st a w r w' : verify sort_by key_ok presents accepts net minio_ok observe env rn tgt st a w = (r, w') ->
  w_fs w' = w_fs w /\ (is_ok r = true -> rm_files (w_remote w') = rm_files (w_remote w)).
Proof.
  unfold verify, se_when. destruct (_ && _); [|by intros [= <- <-]]. rewrite run_bind. unfold lift_report.
  destruct (report_fs 94 "verifying" w) as (w1 & -> & <- & <-). unfold verifyWrittenPrimary. cbn [snd].
  destruct (w_fs w1 !! GoPath.Join [st; primaryOf a.1]) as [b|]; [|by intros [= <- <-]].
  pose proof (on_remote_fs (remote_verify key_ok presents accepts net minio_ok observe tgt (primaryOf a.1)) w1) as F.
  pose proof (remote_verify_files tgt (primaryOf a.1) (w_remote w1)) as R. unfold on_remote at 1 in F. unfold on_remote at 1.
  destruct (remote_verify _ _ _ _ _ _ _ _ _) as [[got|e] s]; cbn in F, R; [destruct (String.eqb _ _)|].
  - by intros [= <- <-].
  - intros [= <- <-]. split; [|done]. cbn. unfold purge. by rewrite on_remote_fs.
  - intros [= <- <-]. split; [|done]. cbn. unfold purge. by rewrite on_remote_fs.
Qed.

Abbreviation move := (transfer EvalSymlinks sort_by key_ok presents accepts net minio_ok observe bucket_there env rn).

Lemma transfer_keeps tgt mode w r w' p b : mode <> "incremental" -> move tgt mode w = (r, w') ->
  w_fs w !! p = Some b -> p <> latest (dir_of tgt) -> (is_remote (tg_Type tgt) = true -> in_tree (staging_of env rn tgt) p = false) ->
  w_fs w' !! p = Some b.
Proof.
  intros Hm. unfold transfer. rewrite (proj2 (String.eqb_neq _ _) Hm). fold (dir_of tgt). intros H Hp Hl Hs.
  destruct (writeBackup _ _ _ _ _ _ w) as [r1 w1] eqn:E1. apply writeBackup_spec in E1 as (K & _ & _). apply (K p b Hl) in Hp.
  assert (forall w2, w_fs w2 = w_fs w1 -> w_fs (if nonempty (staging_of env rn tgt) then RemoveAll (staging_of env rn tgt) w2 else w2) !! p = Some b) as Hd.
  { intros w2 E2. destruct (nonempty _) eqn:En; [|by rewrite E2]. unfold RemoveAll. cbn. rewrite lookup_map_delete_if, E2, Hp. cbn.
    unfold staging_of in *. destruct (is_remote _); [by rewrite Hs|done]. }
  destruct r1 as [a|[a e]]; [|injection H as _ <-; by apply Hd].
  pose proof (upload_fs tgt (staging_of env rn tgt) a w1) as E2. destruct (upload _ _ _ _ _ _ _ _ _ _ _ w1) as [[total|e] w2]; cbn [snd] in E2;
    [|injection H as _ <-; by apply Hd].
  destruct (verify _ _ _ _ _ _ _ _ _ _ _ _ w2) as [r3 w3] eqn:E3. apply verify_spec in E3 as [E3 _].
  destruct r3; injection H as _ <-; apply Hd; congruence.
Qed.

(** Object keys of a target tell plain names apart. *)
Lemma s3ObjectKey_inj tgt n m : comp n -> comp m -> s3ObjectKey tgt n = s3ObjectKey tgt m -> n = m.
Proof.
  set (keep := fun p : string => negb (String.eqb p "" || String.eqb p "." || String.eqb p "..")).
  assert (exists l, Forall comp l /\ forall n, comp n -> s3ObjectKey tgt n = join_str "/" (l ++ [n])) as (l & Hl & H).
  { assert (forall n, comp n -> List.filter keep [n] = [n]) as Hk.
    { intros x (H1 & H2 & H3 & _). cbn. unfold keep. by rewrite (proj2 (String.eqb_neq _ _) H1), (proj2 (String.eqb_neq _ _) H2), (proj2 (String.eqb_neq _ _) H3). }
    unfold s3ObjectKey. fold keep. destruct (String.eqb (trim_slashes (tg_Path tgt)) "") eqn:Ep.
    - exists []. split; [constructor|]. intros x Hx. rewrite split_byte_no by apply Hx. by rewrite Hk.
    - exists (List.filter keep (split_byte "/" (trim_slashes (tg_Path tgt)))). split.
      + apply Forall_forall. intros p [Hp Hf]%list_elem_of_In%filter_In. apply negb_true_iff in Hf.
        apply orb_false_elim in Hf as [[H1 H2]%orb_false_elim H3]. apply String.eqb_neq in H1, H2, H3.
        pose proof (split_byte_pieces "/" (trim_slashes (tg_Path tgt))) as Hs. rewrite Forall_forall in Hs. apply list_elem_of_In in Hp. by specialize (Hs _ Hp).
      + intros x Hx. change (trim_slashes (tg_Path tgt) +:+ "/" +:+ x) with (trim_slashes (tg_Path tgt) +:+ String "/" x).
        rewrite split_byte_app, (split_byte_no "/" x) by apply Hx. by rewrite List.filter_app, Hk. }
  intros Hn Hm. rewrite !H by done. intros E%(f_equal (split_byte "/")).
  rewrite !split_join in E; [by apply app_inj_tail in E as [_ ->]|try by destruct l..]; apply comps_no_slash; by rewrite Forall_app, Forall_singleton.
Qed.

Lemma full_run_files tgt dir t files : plain_names -> full_run tgt dir t files -> forall f, f ∈ files -> comp (jf_Filename f).
Proof.
  intros Hn (scope & l & c & _ & -> & Hf & (Hc & _) & _) f [Hin|Hin]%elem_of_app.
  - apply list_elem_of_lookup in Hin as [k Hk]. destruct (Forall2_lookup_l _ _ _ _ _ Hf Hk) as (vm & _ & -> & _). by apply vm_file_comp.
  - apply list_elem_of_singleton in Hin as ->. rewrite Hc. by apply run_file_comp.
Qed.

(** What was uploaded, or written in place. *)
Lemma upload_stored tgt a w total w' :
  upload sort_by key_ok presents accepts net minio_ok bucket_there env tgt (staging_of env rn tgt) a w = (Ok total, w') ->
  (forall f, f ∈ a.1 -> comp (jf_Filename f)) ->
  forall f, f ∈ a.1 -> stored_at tgt w' (jf_Filename f) = w_fs w !! GoPath.Join [dir_of tgt; jf_Filename f].
Proof.
  unfold upload, stored_at, dir_of, is_remote. destruct (String.eqb (tg_Type tgt) TargetSFTP) eqn:E1; cbn [orb].
  - rewrite run_bind. unfold lift_report. destruct (report_fs 90 "uploading" w) as (w1 & -> & F1 & R1). cbn [snd]. rewrite run_get. unfold on_remote.
    destruct (uploadSFTPRun _ _ _ _ _ _ _ _ _ _) as [[n|] s] eqn:Eu; intros [= <- <-]. intros Hc f Hf. cbn.
    apply uploadSFTPRun_ok in Eu as [Eu _]; [|intros g Hg E; destruct (Hc g Hg) as (_ & _ & _ & Hs); rewrite E in Hs; done].
    destruct (Eu f Hf) as [_ ->]. by rewrite F1.
  - destruct (String.eqb (tg_Type tgt) TargetS3) eqn:E2.
    + rewrite run_bind. unfold lift_report. destruct (report_fs 90 "uploading" w) as (w1 & -> & F1 & R1). cbn [snd]. rewrite run_bind.
      pose proof (on_remote_fs (s3EnsureBucket net minio_ok bucket_there tgt) w1) as E. destruct (on_remote _ _) as [[[]|] w2]; [|done].
      cbn [snd] in E. rewrite run_get. unfold on_remote. destruct (s3UploadRun _ _ _ _ _ _ _) as [[n|] s] eqn:Eu; intros [= <- <-]. intros Hc f Hf. cbn.
      unfold s3UploadRun in Eu. rewrite run_lift in Eu. destruct (s3ClientFor _ _); [|done].
      apply s3_put_all_ok in Eu as [Eu _]; [|intros g h Hg Hh; apply s3ObjectKey_inj; by apply Hc].
      destruct (Eu (jf_Filename f)) as [_ ->]; [by apply list_elem_of_fmap_2|]. by rewrite E, F1.
    + intros [= <- <-]. done.
Qed.

Lemma transfer_full tgt mode w a w' : plain_names -> mode <> "incremental" -> move tgt mode w = ((a, None), w') ->
  exists t, full_run tgt (dir_of tgt) t a.1 /\ forall f, f ∈ a.1 -> stored_at tgt w' (jf_Filename f) = t !! GoPath.Join [dir_of tgt; jf_Filename f].
Proof.
  intros Hn Hm. unfold transfer. rewrite (proj2 (String.eqb_neq _ _) Hm). fold (dir_of tgt).
  destruct (writeBackup _ _ _ _ _ _ w) as [[a1|[a1 e]] w1] eqn:E1; [|done]. apply writeBackup_spec in E1 as (_ & _ & _ & Hf). specialize (Hf Hn).
  destruct (upload _ _ _ _ _ _ _ _ _ _ _ w1) as [[total|e] w2] eqn:E2; [|done].
  destruct (verify _ _ _ _ _ _ _ _ _ _ _ _ w2) as [[[]|e] w3] eqn:E3; [|done]. apply verify_spec in E3 as [F3 R3]. intros [= <- <-].
  exists (w_fs w1). split; [done|]. cbn. intros f Hin.
  rewrite <- (upload_stored tgt a1 w1 total w2 E2 (full_run_files _ _ _ _ Hn Hf) f Hin).
  unfold stored_at, staging_of, is_remote. destruct (String.eqb (tg_Type tgt) TargetSFTP) eqn:Es; cbn [orb].
  - destruct (nonempty _); cbn; by rewrite R3.
  - destruct (String.eqb (tg_Type tgt) TargetS3); [destruct (nonempty _); cbn; by rewrite R3|]. cbn. by rewrite F3.
Qed.

(** ** The theorems *)


(** C11: A run never loses what was there.  Whatever happens in a full run, and
    however it ends, every file that was there before, on the target or beside it, is
    there afterwards with the same content, but for the copy of the latest
    configuration and what lies in the run's own staging directory. *)
Theorem full_run_keeps_files tgt job scheduleID w r w' p b :
  (begun sort_by rn tgt job scheduleID w).1 <> "incremental" ->
  run tgt job scheduleID w = (r, w') ->
  w_fs w !! p = Some b -> p <> latest (dir_of tgt) -> (is_remote (tg_Type tgt) = true -> in_tree (staging_of env rn tgt) p = false) ->
  w_fs w' !! p = Some b.
Proof.
  rewrite runJob_begun. assert (w_fs (begun sort_by rn tgt job scheduleID w).2 = w_fs w) as Ew.
  { unfold begun. destruct (report_fs 1 "preparing" (set_job job w)) as (w0 & -> & F0 & _). cbn [snd]. by destruct (_ && _). }
  destruct (begun _ _ _ _ _ _) as [mode w1]. cbn [fst snd] in *. intros Hm.
  destruct (move tgt mode w1) as [[a e] w2] eqn:E. intros H Hp Hl Hs. rewrite <- Ew in Hp.
  assert (w_fs w2 !! p = Some b) as <- by (by eapply transfer_keeps).
  destruct e; injection H as _ <-; unfold last_run, alert; destruct (nonempty scheduleID), (alertFunc rn); cbn; try done; by destruct (retention_enabled _).
Qed.

Lemma transfer_reported tgt mode w a e w' : mode <> "incremental" -> move tgt mode w = ((a, e), w') -> reported tgt a.1.
Proof.
  intros Hm. unfold transfer. rewrite (proj2 (String.eqb_neq _ _) Hm).
  destruct (writeBackup _ _ _ _ _ _ w) as [[a1|[a1 e1]] w1] eqn:E1; apply writeBackup_spec in E1 as (_ & _ & Hf); [destruct Hf as [Hf _]|by intros [= <- _ _]].
  destruct (upload _ _ _ _ _ _ _ _ _ _ _ w1) as [[total|e2] w2]; [|by intros [= <- _ _]].
  destruct (verify _ _ _ _ _ _ _ _ _ _ _ _ w2) as [[[]|e3] w3]; by intros [= <- _ _].
Qed.

(** The backup of one machine holds nothing of another.  A run that a user
    starts for one machine is recorded as such, runs on a copy of the target whose
    scope is that machine whatever the target's own filter is, leaves the target as
    it is defined, and on every outcome reports only archives of that machine and the
    configuration. *)
Theorem single_machine_run newid targetID vmID w0 tgt job w1 w j err w' :
  RunOnceForVM sort_by env newid targetID vmID w0 = (Ok (tgt, job), w1) ->
  run tgt job "" w = ((j, err), w') ->
  vmID <> "" /\ jb_ScopeVMID job = vmID /\
  (exists t, GetTarget targetID (w_store w0) = Some t /\ tg_Enabled t = true /\ tgt = narrowed [vmID] t) /\
  (forall scope vm, resolveScope rn tgt = Ok scope -> vm ∈ scope -> vm_ID vm = vmID) /\
  (forall f, f ∈ jb_Files j -> is_config f \/ (Kind f = "vm" /\ jf_VMID f = vmID)).
Proof.
  unfold RunOnceForVM. destruct (String.eqb_spec vmID ""); [done|]. intros (_ & _ & _ & Ht & Hs)%launch_known H.
  assert (forall scope vm, resolveScope rn tgt = Ok scope -> vm ∈ scope -> vm_ID vm = vmID) as Hv.
  { destruct Ht as (t & _ & _ & ->). unfold resolveScope. destruct (vms rn) as [[all|]|]; [|done|].
    - cbn. intros scope vm [= <-] [_ Hin]%list_elem_of_In%filter_In. rewrite orb_false_r in Hin. by apply String.eqb_eq in Hin.
    - intros scope vm [= <-] Hin. by apply not_elem_of_nil in Hin. }
  split_and!; [done..|]. intros f Hf. rewrite runJob_begun in H.
  assert ((begun sort_by rn tgt job "" w).1 <> "incremental") as Hm by done. destruct (begun _ _ _ _ _ _) as [mode w2]. cbn [fst] in Hm.
  destruct (move tgt mode w2) as [[a e] w3] eqn:E. apply transfer_reported in E; [|done].
  assert (jb_Files j = a.1) as Ej.
  { destruct e; injection H as <- _ _; unfold last_run, alert; cbn [nonempty]; destruct (alertFunc rn); cbn; try done; by destruct (retention_enabled _). }
  rewrite Ej in Hf. destruct (E f Hf) as [|(scope & vm & Hr & Hin & _ & Hk & Hid)]; [by left|right]. split; [done|]. by rewrite Hid, (Hv scope vm).
Qed.

(** ** Schedules *)

(** C23: No schedule ever backs anything up.  A tick of an enabled schedule asks for
    a run on the target that has the schedule's own identifier; identifiers of
    schedules and of targets never coincide, so that every tick fails before it has
    recorded a job and leaves no trace.  The runs that are left are those a user
    starts, and these are never incremental. *)
Theorem scheduled_ticks_do_nothing sc newid w tgt job :
  has_prefix "s_" (sc_ID sc) = true -> (forall id, is_Some (targets (w_store w) !! id) -> has_prefix "s_" id = false) ->
  (addSchedule EvalSymlinks sort_by key_ok presents accepts net minio_ok observe bucket_there env rn sc).2 newid w = w /\
  (begun sort_by rn tgt job "" w).1 = "full".
Proof.
  intros Hs Ht. split; [|done]. unfold addSchedule, RunOnce, launch. cbn [snd]. unfold GetTarget.
  destruct (targets (w_store w) !! sc_ID sc) eqn:E; [|done]. specialize (Ht (sc_ID sc) ltac:(by rewrite E)). congruence.
Qed.
End Archives.

(** ** The progress bar *)

Section Progress.
Context (env : Env).

(** From [lo], never back, up to [hi]. *)
Fixpoint ascending (lo : Z) (l : list Z) (hi : Z) : Prop :=
  match l with [] => lo <= hi | p :: l => lo <= p /\ ascending p l hi end.

Lemma ascending_app l1 : forall lo mid l2 hi, ascending lo l1 mid -> ascending mid l2 hi -> ascending lo (l1 ++ l2) hi.
Proof.
  induction l1 as [|p l1 IH]; intros lo mid l2 hi; cbn; [|intros [? H1] H2; split; [done|by eapply IH]].
  destruct l2; cbn; [lia|]. intros ? [? ?]. split; [lia|done].
Qed.

Lemma ticks_ascend total base span chunks : forall written last, base <= last <= base + span ->
  ascending last (ticks env total base span written last chunks) (base + span).
Proof.
  induction chunks as [|n chunks IH]; intros written last Hl; cbn [ticks]; [cbn; lia|].
  destruct (0 <? total); [|by apply IH]. set (pct := Z.min _ _). destruct (last <? pct) eqn:E; [|by apply IH].
  apply Z.ltb_lt in E. cbn. split; [lia|]. apply IH. unfold pct in *. lia.
Qed.

(** What the [i]-th of [n] machines reports, its archive arriving in [chunks]. *)
Definition vm_reports (n : nat) (i : nat) (x : Z * list Z) : list Z :=
  base_of i n :: ticks env x.1 (base_of i n) (span_of i n) 0 (base_of i n) x.2 ++ [base_of (S i) n].
Fixpoint all_reports (n i : nat) (l : list (Z * list Z)) : list Z :=
  match l with [] => [] | x :: l => vm_reports n i x ++ all_reports n (S i) l end.

Lemma span_exact n i : (0 < n <= 70)%nat -> base_of i n + span_of i n = base_of (S i) n /\ base_of i n <= base_of (S i) n.
Proof.
  intros Hn. unfold span_of, base_of. replace (Nat.max 1 n) with n by lia.
  assert (Z.of_nat i * 70 / Z.of_nat n + 1 <= Z.of_nat (S i) * 70 / Z.of_nat n); [|lia].
  rewrite <- Z.div_add by lia. apply Z.div_le_mono; lia.
Qed.

(** The progress bar of a run never goes back.  For at most 70 machines, the
    percentages that the code reports while it streams the archives, whatever their
    sizes and however they arrive, followed by those of the configuration, only grow,
    from 0 to 80. *)
Theorem progress_never_goes_back (l : list (Z * list Z)) :
  (length l <= 70)%nat -> ascending 0 (all_reports (length l) 0 l ++ [72; 80]) 80.
Proof.
  intros Hn. assert (forall l i, (i + length l <= 70)%nat -> forall n, (0 < n <= 70)%nat -> ascending (base_of i n) (all_reports n i l) (base_of (i + length l) n)) as H.
  { clear. induction l as [|x l IH]; intros i Hi n Hn; cbn [all_reports length]; [rewrite Nat.add_0_r; cbn; lia|].
    destruct (span_exact n i Hn) as [E Hle]. eapply ascending_app; [|rewrite Nat.add_succ_r; apply (IH (S i)); [cbn in Hi; lia|done]].
    cbn. split; [lia|]. eapply ascending_app; [apply ticks_ascend; unfold span_of; lia|]. cbn. rewrite E. lia. }
  destruct l as [|x l]; [cbn; lia|]. set (n := length (x :: l)) in *. assert (0 < n)%nat by (unfold n; cbn; lia).
  eapply ascending_app; [replace 0 with (base_of 0 n) by (by unfold base_of)|].
  - apply (H (x :: l) 0%nat); [done|lia].
  - cbn [Nat.add]. fold n. unfold base_of. replace (Nat.max 1 n) with n by lia. rewrite Z.mul_comm, Z.div_mul by lia. cbn. lia.
Qed.
End Progress.

(** ** Concrete runs

    A host with a virtual machine and a container, a local target and a disk that
    accepts every write: runs that succeed, that fail half way, that are started by a
    schedule, and the witnesses of the theorems on runs. *)

From S2P Require Import NetMount BackupStoreFacts.

Module RunDemo.
Export StoreDemo.

Definition web : VM := MkVM "web" "vm" "kvm" 10 [MkDisk "disk" "/pool/web.qcow2" "vda" "default"; MkDisk "cdrom" "/isos/deb.iso" "sda" "ISOS"] [] ["prod"].
Definition ct : VM := MkVM "ct" "container" "incus" 1 [] [] [].
Definition look (p : string) : source :=
  if String.eqb p "/pool/web.qcow2" then File "DISK" true
  else if String.eqb p "/opt/webkvm/alerts.json" then File "[]" true else Missing.
Definition env : Env :=
  MkEnv (Some "node 1") "20260101T000000.000000000Z" "0a0b0c0d0e0f" "beef" "2026-01-01T00:00:00Z" 100 200
    (fun _ => false) (fun _ _ => false) (fun _ => true) (fun _ => true) (fun _ _ => true) (fun _ => true) Copied (Some 1000000)
    look (fun _ => 4096) [] (Some [("alerts.json", false)]) (fun _ => [3; 4]) (fun written total span => written * span / total)
    (fun l => Z.of_nat (length l)) (fun _ => 7) (fun _ => "sha") (fun i => "chk-" +:+ Itoa (Z.of_nat i)) (fun p => Some (Volume p)).
Definition runner (scope : list VM) (export : option (VM -> option string)) (incremental : bool) : Runner :=
  MkRunner "/opt/webkvm" 0 false (Some (Ok scope)) None (fun _ => []) export
    (if incremental then Some (fun _ _ _ => true) else None) true.
Definition both := runner [web; ct] (Some (fun _ => Some "LXD")) false.
Definition no_export := runner [web; ct] None false.

Abbreviation demo_world := (World (WT := cell (list Target)) (WS := cell (list Schedule)) (WJ := cell (list Job))
  (WC := cell (gmap string TargetSecret)) (WV := cell (gmap string verifiedInfo)) (CW := cell (list Chain))).
Definition world0 : demo_world :=
  MkWorld s1 (new_job "" "" "" 0) {["/srv/b/old.tar.zst" := Export "old"]} (MkRemote ∅ 0) (holding []) [] [].
Abbreviation yes := (fun _ => true).
Definition tgt0 : Target := default (default_target "" 0) (GetTarget "t_1" s1).
Definition run_demo (rn : Runner) (scheduleID : string) (w : demo_world) :=
  runJob links sort_key yes (fun _ => None) yes yes yes (fun _ b => Some b) true env rn
    tgt0 (w_job w) scheduleID w.
Definition launched (w : demo_world) : demo_world :=
  match launch sort_key env "j_1" "t_1" "" [] w with (Ok (_, j), w) => set_job j w | (Err _, w) => w end.
Definition world1 := launched world0.

Definition name (x : string) : string := "/srv/b/webkvm-node_1-20260101T000000.000000000Z-0a0b0c0d0e0f-" +:+ x.

(** The disc image is left out; the container is stored as it is exported. *)
Example both_run :
  let r := run_demo both "" world1 in
  jb_Status r.1.1 = "success" /\
  (fun b => match b with Tar ms => map fst ms | _ => [] end) <$> (w_fs r.2 !! name "web.tar.zst") = Some ["domain.xml"; "disks/web.qcow2"; "manifest.txt"] /\
  w_fs r.2 !! name "ct.tar.gz" = Some (Export "LXD") /\ is_Some (w_fs r.2 !! name "config.tar.zst").
Proof. vm_compute. split_and!; by eauto. Qed.

(** A run that cannot export the container: the archive of the first machine stays
    on the target and an empty file under the name of the second, and the job lists
    neither. *)
Example failed_run_leaves_files :
  let r := run_demo no_export "" world1 in
  jb_Status r.1.1 = "error" /\ jb_Filenames r.1.1 = [] /\
  is_Some (w_fs r.2 !! name "web.tar.zst") /\ w_fs r.2 !! name "ct.tar.gz" = Some NoData.
Proof. vm_compute. split_and!; by eauto. Qed.

(** The record of a job that cannot be saved stays in memory, running. *)
Definition stuck : demo_world :=
  set_store (MkStore (dataDir s1) (targets s1) (schedules s1) (jobs s1) (secrets s1) (verified s1) (host s1) (d_targets s1) (d_schedules s1)
    (MkCell (Some (Whole [])) false) (d_secrets s1) (d_verified s1)) world0.
Example unsaved_job_keeps_running :
  let r := RunOnce links sort_key yes (fun _ => None) yes yes yes (fun _ b => Some b) true env both "j_1" "t_1" "" stuck in
  r.1 = Err NotRecorded /\ jb_Status <$> (jobs (w_store r.2) !! "j_1") = Some "running".
Proof. vm_compute. done. Qed.

(** Were an incremental schedule to run: the container is skipped and the run still
    succeeds, the chain knows the checkpoint and the job does not. *)
Definition nightly : Schedule := MkSchedule "s_1" "nightly" "0 3 * * *" "t_1" "incremental" true time_zero "" "" time_zero 0 0.
Definition world2 : demo_world := set_store (set_schedules {["s_1" := nightly]} (w_store world1)) world1.
Example incremental_forgets_checkpoint :
  let r := run_demo (runner [web; ct] None true) "s_1" world2 in
  jb_Status r.1.1 = "success" /\ jb_CheckpointID r.1.1 = "" /\ map jf_VMID (jb_Files r.1.1) = ["web"; ""] /\
  match GetChain "web" (w_chain r.2) with Ok (Some c) => Checkpoint c = "chk-0" | _ => False end.
Proof. vm_compute. done. Qed.
Example fallback_reason_lost :
  let r := run_demo both "s_1" world2 in jb_Mode r.1.1 = "full" /\ jb_Message r.1.1 = "".
Proof. vm_compute. done. Qed.

(** With more machines than points of the bar, it goes back. *)
Example bar_goes_back : ~ ascending 0 (all_reports env 141 0 [(1, [1]); (1, [1])]) 80.
Proof. vm_compute. intros (_ & _ & H & _). by apply H. Qed.
End RunDemo.

Lemma every_run_ends_its_job_witness :
  jobs (w_store (RunDemo.run_demo RunDemo.no_export "" RunDemo.world1).2) !! "j_1" = Some (RunDemo.run_demo RunDemo.no_export "" RunDemo.world1).1.1.
Proof.
  assert (jb_ID (w_job RunDemo.world1) = "j_1") as Hid by (vm_compute; reflexivity).
  assert (is_Some (jobs (w_store RunDemo.world1) !! jb_ID (w_job RunDemo.world1))) as Hk by (vm_compute; eexists; reflexivity).
  pose proof (every_run_ends_its_job StoreDemo.links StoreDemo.sort_key (fun _ => true) (fun _ => None) (fun _ => true) (fun _ => true) (fun _ => true)
    (fun _ b => Some b) true RunDemo.env RunDemo.no_export RunDemo.tgt0 (w_job RunDemo.world1) "" RunDemo.world1) as H.
  fold (RunDemo.run_demo RunDemo.no_export "" RunDemo.world1) in H. destruct (RunDemo.run_demo RunDemo.no_export "" RunDemo.world1) as [[j err] w'].
  destruct (H j err w' Hk eq_refl) as (_ & _ & _ & Hj & _). rewrite Hid in Hj. exact Hj.
Defined.


Lemma full_run_keeps_files_witness :
  w_fs (RunDemo.run_demo RunDemo.no_export "" RunDemo.world1).2 !! "/srv/b/old.tar.zst" = Some (Export "old").
Proof.
  assert ((begun StoreDemo.sort_key RunDemo.no_export RunDemo.tgt0 (w_job RunDemo.world1) "" RunDemo.world1).1 <> "incremental") as Hm by (vm_compute; discriminate).
  assert (w_fs RunDemo.world1 !! "/srv/b/old.tar.zst" = Some (Export "old")) as Hf by (vm_compute; reflexivity).
  assert ("/srv/b/old.tar.zst" <> latest (dir_of RunDemo.env RunDemo.no_export RunDemo.tgt0)) as Hl by (vm_compute; discriminate).
  assert (is_remote (tg_Type RunDemo.tgt0) = true -> in_tree (staging_of RunDemo.env RunDemo.no_export RunDemo.tgt0) "/srv/b/old.tar.zst" = false) as Hs by (vm_compute; discriminate).
  pose proof (full_run_keeps_files StoreDemo.links StoreDemo.sort_key (fun _ => true) (fun _ => None) (fun _ => true) (fun _ => true) (fun _ => true)
    (fun _ b => Some b) true RunDemo.env RunDemo.no_export RunDemo.tgt0 (w_job RunDemo.world1) "" RunDemo.world1) as H.
  fold (RunDemo.run_demo RunDemo.no_export "" RunDemo.world1) in H. destruct (RunDemo.run_demo RunDemo.no_export "" RunDemo.world1) as [r w'].
  exact (H r w' "/srv/b/old.tar.zst" (Export "old") Hm eq_refl Hf Hl Hs).
Defined.

Definition single_start := RunOnceForVM StoreDemo.sort_key RunDemo.env "j_1" "t_1" "web" RunDemo.world0.
Lemma single_machine_run_witness :
  match single_start with (Ok (tgt, job), w1) => resolveScope RunDemo.both tgt = Ok [RunDemo.web] /\ jb_ScopeVMID job = "web" | _ => False end.
Proof.
  destruct single_start as [[[tgt job]|] w1] eqn:E; [|vm_compute in E; discriminate].
  destruct (runJob StoreDemo.links StoreDemo.sort_key (fun _ => true) (fun _ => None) (fun _ => true) (fun _ => true) (fun _ => true)
    (fun _ b => Some b) true RunDemo.env RunDemo.both tgt job "" w1) as [[j err] w'] eqn:E2.
  destruct (single_machine_run _ _ _ _ _ _ _ _ _ _ _ _ _ _ _ _ _ _ _ _ _ _ E E2) as (_ & H & (t & Ht & _ & ->) & _).
  split; [|exact H]. vm_compute in Ht. injection Ht as <-. vm_compute. reflexivity.
Defined.

Lemma scheduled_ticks_do_nothing_witness :
  (addSchedule StoreDemo.links StoreDemo.sort_key (fun _ => true) (fun _ => None) (fun _ => true) (fun _ => true) (fun _ => true)
    (fun _ b => Some b) true RunDemo.env RunDemo.both RunDemo.nightly).2 "j_2" RunDemo.world2 = RunDemo.world2.
Proof.
  apply (scheduled_ticks_do_nothing StoreDemo.links StoreDemo.sort_key (fun _ => true) (fun _ => None) (fun _ => true) (fun _ => true) (fun _ => true)
    (fun _ b => Some b) true RunDemo.env RunDemo.both RunDemo.nightly "j_2" RunDemo.world2 (default_target "" 0) (new_job "" "" "" 0) eq_refl).
  intros id [t Ht]. revert Ht. change (targets (w_store RunDemo.world2)) with (targets StoreDemo.s1).
  assert (map_Forall (fun id _ => has_prefix "s_" id = false) (targets StoreDemo.s1)) as H by (apply (bool_decide_unpack _); vm_compute; exact I).
  apply H.
Defined.

Lemma progress_never_goes_back_witness :
  ascending 0 (all_reports RunDemo.env 2 0 [(8, [3; 4]); (2, [1; 5])] ++ [72; 80]) 80.
Proof. apply (progress_never_goes_back RunDemo.env [(8, [3; 4]); (2, [1; 5])]). cbn. lia. Defined.
