(* ===== verification/Restore.v ===== *)
(** * Restore: getting a backup back

    Models the second half of [backupstore/runner.go]: which archives a restore
    takes, the checks on each before the system's tar runs, the caps, what is left
    when one fails, and the rebuilding of a disk from an incremental chain; and the
    staging of remote archives ([stageSFTPFiles], [stageS3Files]).  Go's tar reader
    (the names and link targets of an archive), the tar program (what it leaves in the
    directory it is given), qemu-img and the file system are parameters. *)

From S2P Require Import Sessions Chain BackupNames.
From S2P Require Export Remote BackupStore PathSafety.
Open Scope Z_scope.

(** A header of an archive: its name, and the target of a link. *)
Record header := MkHeader { hd_name : string; hd_link : option string }.

(** The names directly below a directory. *)
Definition dir_prefix (dir : string) : string := let c := Clean dir in if String.eqb c "/" then c else c +:+ "/".
Definition ReadDir (dir : string) (t : tree) : list string := sort_strings (omap (fun e => below (dir_prefix dir) e.1) (map_to_list t)).

Record restoreFile := MkRestoreFile { rf_name : string; rf_size : Z }.
Record RestoreFileResult := MkRestored { rr_Filename : string; rr_Subdir : string; rr_Manifest : string }.

Definition MaxRestoreSourceBytes : Z := 100 * 2 ^ 30.
Definition MaxRestoreExtractedBytes : Z := 500 * 2 ^ 30.

Section Restore.
Context (EvalSymlinks : string -> option string).
(** The headers Go reads of an archive of that extension; what tar leaves, by
    relative name, or its failure; sizes; whether a directory can be made; the
    contents of the two manifests. *)
Context (read_tar : string -> blob -> option (list header)) (run_tar : string -> blob -> option (gmap string string))
        (bsize : blob -> Z) (mkdir_ok : string -> bool) (listing : list (string * string) -> string) (run_listing : list (string * string * Z) -> string).

(** The restored files, by path. *)
Abbreviation ftree := (gmap string string).
Abbreviation op := (SE ftree string).

Definition pickRestoreFiles (tgt : Target) (t : option tree) (runSuffix : string) (filenames : list string) : res string (list restoreFile) :=
  if nonempty runSuffix then
    if negb (isRunSuffix runSuffix) then Err "restore: invalid run suffix"
    else match t with
    | None => Err "target path does not exist"
    | Some t => Ok (map (fun n => MkRestoreFile n (default 0 (bsize <$> (t !! GoPath.Join [tg_Path tgt; n]))))
                      (List.filter (of_run runSuffix) (ReadDir (tg_Path tgt) t)))
    end
  else
    foldr (fun n acc =>
      if negb (ValidBackupFilename n) then Err "invalid filename" else
      match t ≫= fun t : tree => t !! GoPath.Join [tg_Path tgt; n] with
      | None => Err "stat"
      | Some b => l ← acc; Ok (MkRestoreFile n (bsize b) :: l)
      end) (Ok []) filenames.

Definition header_ok (h : header) : bool :=
  validateTarMemberName (hd_name h) && match hd_link h with Some l => validateTarMemberName l | None => true end.

Definition archive_kind (name : string) : option string :=
  if has_suffix ".tar.gz" name then Some ".tar.gz" else if has_suffix ".tar.zst" name then Some ".tar.zst" else None.

Definition validateTarMembers (src : option blob) (name : string) : res string unit :=
  match src, archive_kind name with
  | None, _ => Err "open for validation"
  | _, None => Err "unsupported archive extension"
  | Some b, Some k =>
      match read_tar k b with
      | None => Err "read tar entry"
      | Some hs => if forallb header_ok hs then Ok tt else Err "archive member escapes"
      end
  end.

Definition inside (dir p : string) : bool := String.eqb p dir || has_prefix (dir +:+ "/") p.
Definition remove_tree (dir : string) (m : ftree) : ftree := map_delete_if (fun p _ => inside dir p) m.
Definition put_all (dir : string) (out : gmap string string) (m : ftree) : ftree :=
  foldl (fun m e => <[GoPath.Join [dir; e.1] := e.2]> m) m (map_to_list out).
Definition tree_bytes (dir : string) (m : ftree) : Z :=
  foldl (fun n e => wrap64 (n + Producer.size e.2)) 0 (List.filter (fun e => inside dir e.1) (map_to_list m)).

Definition manifest_name : string := "RESTORE_MANIFEST.json".

(** tar, the cap on what it wrote, and the manifest. *)
Definition unpack (k : string) (b : blob) (destDir : string) : op string := fun m =>
  match run_tar k b with
  | None => (Err "tar", remove_tree destDir m)
  | Some out =>
      let m := put_all destDir out m in
      if MaxRestoreExtractedBytes <? tree_bytes destDir m then (Err "zip-bomb guard", remove_tree destDir m)
      else
        let manifest := GoPath.Join [destDir; manifest_name] in
        (Ok manifest, <[manifest := listing (List.filter (fun e => inside destDir e.1) (map_to_list m))]> m)
  end.

Definition extractOne (tgt : Target) (t : tree) (f : restoreFile) (destDir : string) : op string :=
  let src := t !! GoPath.Join [tg_Path tgt; rf_name f] in
  _ ← se_guard (MaxRestoreSourceBytes <? rf_size f) "source archive exceeds cap";
  _ ← se_lift (validateTarMembers src (rf_name f));
  match src, archive_kind (rf_name f) with
  | Some b, Some k => unpack k b destDir
  | _, _ => se_fail "unsupported archive extension"
  end.

Fixpoint extract_each (tgt : Target) (t : tree) (destination : string) (l : list restoreFile) (done : list RestoreFileResult)
    : op (list RestoreFileResult) :=
  match l with
  | [] => mret done
  | f :: l => fun m =>
      let subdir := (restoreSubdirFor (rf_name f)).1.1 in
      let subPath := GoPath.Join [destination; subdir] in
      if negb (mkdir_ok subPath) then (Err "mkdir", m)
      else match extractOne tgt t f subPath m with
           | (Err e, m) => (Err e, remove_tree destination m)
           | (Ok manifest, m) => extract_each tgt t destination l (done ++ [MkRestored (rf_name f) subdir manifest]) m
           end
  end.

(** [t]: the directory of the target, [None] when there is none. *)
Definition restore_local (tgt : Target) (t : option tree) (runSuffix dataDir stamp : string) (filenames : list string)
    : op (string * list RestoreFileResult) :=
  _ ← se_guard (bool_decide (is_Some (ValidateTargetPath EvalSymlinks (tg_Path tgt) dataDir))) "target path not allowed";
  _ ← se_guard (String.eqb runSuffix "" && match filenames with [] => true | _ => false end) "restore: must specify run or filenames";
  picks ← se_lift (pickRestoreFiles tgt t runSuffix filenames);
  _ ← se_guard (match picks with [] => true | _ => false end) "restore: no files matched";
  let destination := GoPath.Join [dataDir; "restore-" +:+ stamp] in
  _ ← se_guard (negb (mkdir_ok destination)) "mkdir";
  done ← extract_each tgt (default ∅ t) destination picks [];
  _ ← se_modify (fun m => <[GoPath.Join [destination; manifest_name] :=
        run_listing (zip_with (fun f r => (rf_name f, rr_Subdir r, rf_size f)) picks done)]> m);
  mret (destination, done).

(** ** Staging a remote run *)

Definition stage_picks (names : list string) (runSuffix : string) (filenames : list string) : res string (list string) :=
  if String.eqb runSuffix "" && match filenames with [] => true | _ => false end then Err "stage: must specify run or filenames"
  else if negb (forallb ValidBackupFilename filenames) then Err "invalid filename"
  else
    let pick n := ValidBackupFilename n && (if nonempty runSuffix then contains_str runSuffix n else existsb (String.eqb n) filenames) in
    match sort_strings (List.filter pick names) with
    | [] => Err "no files matched on remote target"
    | l => Ok l
    end.

(** The downloads, in order; one that fails leaves no staging directory. *)
Fixpoint stage_files (get : string -> option blob) (staging : string) (l : list string) (t : tree) : option tree :=
  match l with
  | [] => Some t
  | n :: l => b ← get n; stage_files get staging l (<[GoPath.Join [staging; n] := b]> t)
  end.

(** [RestoreRun]; [remote]: the names on the remote side and what downloading one
    gives, or the error of the connection; [staging]: the staging directory. *)
Definition RestoreRun (tgt : Target) (t : option tree) (remote : res string (list string * (string -> option blob))) (staging : string)
    (runSuffix dataDir stamp : string) (filenames : list string) : op (string * list RestoreFileResult) :=
  if is_remote (tg_Type tgt) then
    match remote with
    | Err e => se_fail e
    | Ok (names, get) =>
        match stage_picks names runSuffix filenames with
        | Err e => se_fail e
        | Ok picks =>
            match stage_files get staging picks ∅ with
            | None => se_fail "download"
            | Some t => restore_local (set_tg_Path staging tgt) (Some t) "" dataDir stamp picks
            end
        end
    end
  else restore_local tgt t runSuffix dataDir stamp filenames.

Definition RestoreBackup (tgt : Target) (t : option tree) (remote : res string (list string * (string -> option blob))) (staging : string)
    (filename dataDir stamp : string) : op (string * list RestoreFileResult) :=
  _ ← se_guard (bool_decide (is_Some (ValidateTargetPath EvalSymlinks (tg_Path tgt) dataDir))) "target path not allowed";
  _ ← se_guard (negb (ValidBackupFilename filename)) "invalid filename";
  RestoreRun tgt t remote staging "" dataDir stamp [filename].
End Restore.

(** ** Rebuilding a disk from a chain *)

(** What [RestoreCheckpoint] does, in order; each step may fail. *)
Inductive step :=
| Copy (src dst : string) | Rebase (parent child : string) | Convert (tip flat : string) | QemuCheck (flat : string)
| Publish (flat final : string).

Section Checkpoint.
(** Whether the [n]-th step succeeds. *)
Context (ok : nat -> bool).

Definition find_entry (name : string) (c : Chain) : option CheckpointEntry :=
  List.find (fun e => String.eqb (ce_Name e) name) (Entries c).

(** The file of [dev] in an entry, falling back on its main file. *)
Definition device_file (dev : string) (e : CheckpointEntry) : string :=
  let f := default "" (DiskFiles e !! dev) in if String.eqb f "" then Chain.BackupFile e else f.
Definition device_files (dev : string) (ordered : list CheckpointEntry) : list string :=
  List.filter nonempty (map (device_file dev) ordered).

Definition disks_to_restore (target : CheckpointEntry) (ordered : list CheckpointEntry) : list (string * list string) :=
  let devs := sort_strings (map fst (map_to_list (DiskFiles target))) in
  let l := match devs with
           | [] => [("", List.filter nonempty (map Chain.BackupFile ordered))]
           | _ => map (fun d => (d, device_files d ordered)) devs
           end in
  List.filter (fun d => match d.2 with [] => false | _ => true end) l.

Fixpoint rebases (staged : list string) : list step :=
  match staged with
  | [] => []
  | parent :: rest => match rest with [] => [] | child :: _ => Rebase parent child :: rebases rest end
  end.

Definition final_name (stamp rand device : string) : string :=
  "webkvm-restore-" +:+ stamp +:+ "-" +:+ rand +:+ (if nonempty device then "-" +:+ device else "") +:+ ".qcow2".

Definition sub_staging (staging : string) (device : string) : string :=
  if nonempty device then GoPath.Join [staging; device] else staging.

Definition restore_steps (path staging stamp rand : string) (d : string * list string) : list step :=
  let sub := sub_staging staging d.1 in
  let flat := GoPath.Join [sub; "restored-flat.qcow2"] in
  let staged := map (fun f => GoPath.Join [sub; f]) d.2 in
  map (fun f => Copy (GoPath.Join [path; f]) (GoPath.Join [sub; f])) d.2 ++ rebases staged
  ++ [Convert (List.last staged "") flat; QemuCheck flat; Publish flat (GoPath.Join [path; final_name stamp rand d.1])].

(** The steps that succeed, from the [n]-th on, and whether all did. *)
Fixpoint execute (n : nat) (l : list step) : list step * bool :=
  match l with
  | [] => ([], true)
  | s :: l => if ok n then let '(done, b) := execute (S n) l in (s :: done, b) else ([], false)
  end.

(** The path of the first restored image, and the steps. *)
Definition RestoreCheckpoint (fuel : nat) (mkdir_ok : string -> bool) (path stamp rand1 rand2 : string)
    (chain : res string (option Chain)) (checkpointName : string) : res string string * list step :=
  match chain with
  | Err e => (Err "load chain", [])
  | Ok None => (Err "chain not found", [])
  | Ok (Some c) =>
      match find_entry checkpointName c with
      | None => (Err "checkpoint not found in chain", [])
      | Some target =>
          match OrderedEntries fuel c checkpointName with
          | None => (Err "out of fuel", [])
          | Some [] => (Err "empty lineage", [])
          | Some ordered =>
              let staging := GoPath.Join [path; ".webkvm-restore-staging-" +:+ stamp +:+ "-" +:+ rand1] in
              if negb (mkdir_ok staging) then (Err "create staging", []) else
              match disks_to_restore target ordered with
              | [] => (Err "no backup files found", [])
              | (dev, l) :: ds =>
                  let '(done, b) := execute 0 (concat (map (restore_steps path staging stamp rand2) ((dev, l) :: ds))) in
                  (if b then Ok (GoPath.Join [path; final_name stamp rand2 dev]) else Err "restore", done)
              end
          end
      end
  end.
End Checkpoint.

(** ** Facts: where a restore writes *)

Lemma remove_tree_lookup dir m p : remove_tree dir m !! p = if inside dir p then None else m !! p.
Proof. unfold remove_tree. rewrite lookup_map_delete_if. destruct (m !! p); by destruct (inside dir p). Qed.

Lemma inside_abs l k : l <> [] -> inside (abs_path l) (abs_path (l ++ k)) = true.
Proof.
  intros Hl. unfold inside. destruct k as [|c k]; [rewrite app_nil_r; by rewrite String.eqb_refl|].
  apply orb_true_intro. right. rewrite abs_path_app by done. apply has_prefix_spec. exists (join_str "/" (c :: k)). by rewrite app_str_assoc.
Qed.

Lemma inside_trans a b c : inside a b = true -> inside b c = true -> inside a c = true.
Proof.
  unfold inside. intros [->%String.eqb_eq|H1]%orb_prop H2; [done|]. apply orb_prop in H2 as [->%String.eqb_eq|H2]; apply orb_true_intro; right; [done|].
  apply has_prefix_spec in H1 as [t1 ->], H2 as [t2 ->]. apply has_prefix_spec. exists (t1 +:+ "/" +:+ t2). by rewrite !app_str_assoc.
Qed.

Lemma prefix_trim n d x : n = d +:+ x -> has_prefix "webkvm-" n = true -> has_prefix "w" x = false -> contains_byte "/" n = false -> comp d.
Proof.
  intros -> Hp Hx Hn. rewrite contains_byte_app in Hn. apply orb_false_elim in Hn as [Hn _]. apply has_prefix_spec in Hp as [t Ht].
  destruct d as [|c d]; [|injection Ht as -> _; by split_and!].
  exfalso. cbn in Ht. rewrite Ht in Hx. by rewrite (proj2 (has_prefix_spec "w" _)) in Hx by (by eexists).
Qed.

Lemma hex_comp s : isRandomSuffix s = true -> comp s.
Proof.
  unfold isRandomSuffix. destruct (_ && _) eqn:E; [done|]. intros H.
  split_and!; [by intros ->|by intros ->|by intros ->|by apply (all_bytes_no_byte is_hex)].
Qed.

(** The directory of an archive is a single component. *)
Lemma subdir_comp name : ValidBackupFilename name = true -> comp (restoreSubdirFor name).1.1.
Proof.
  intros Hv. destruct (ValidBackupFilename_safe name Hv) as (_ & Hs & Hp).
  assert (comp (if String.eqb (trim_suffix ".tar.gz" name) name then trim_suffix ".tar.zst" name else trim_suffix ".tar.gz" name)) as Hl.
  { assert (forall x, has_prefix "w" x = false -> comp (trim_suffix x name)) as H; [|by destruct (String.eqb _ _); apply H].
    intros x Hx. unfold trim_suffix. destruct (has_suffix x name) eqn:E.
    - apply has_suffix_spec in E as [d ->]. rewrite slen_app. replace (slen d + slen x - slen x)%nat with (slen d) by lia.
      rewrite take_str_app_length. by eapply prefix_trim.
    - apply (prefix_trim name name ""); [by rewrite app_str_nil_r|done..]. }
  unfold restoreSubdirFor. destruct (has_suffix ".tar.zst" name); [|exact Hl].
  destruct (phase2_subdir _) as [d|] eqn:E; [|exact Hl]. assert (comp d) as Hd; [|by destruct (String.eqb d "config")].
  unfold phase2_subdir in E. set (base := trim_suffix ".tar.zst" name) in *. destruct (_ && isNanoTimestamp _) eqn:Eb; [|done]. injection E as <-.
  apply andb_prop in Eb as [[[[[H7 _]%andb_prop Hr]%andb_prop _]%andb_prop _]%andb_prop _]. apply Nat.leb_le in H7.
  change (comp (drop_str (S (slen base - 7)) base)). replace (S (slen base - 7)) with (slen base - 6)%nat by lia. by apply hex_comp.
Qed.

Section RestoreFacts.
Context (EvalSymlinks : string -> option string).
Context (read_tar : string -> blob -> option (list header)) (run_tar : string -> blob -> option (gmap string string))
        (bsize : blob -> Z) (mkdir_ok : string -> bool) (listing : list (string * string) -> string) (run_listing : list (string * string * Z) -> string).

(** tar writes the members of the archive and nothing else. *)
Definition tar_honest : Prop := forall k b hs out n, read_tar k b = Some hs -> run_tar k b = Some out -> is_Some (out !! n) -> exists h, h ∈ hs /\ hd_name h = n.
Hypothesis Htar : tar_honest.

(** Files outside [dir] are as before. *)
Definition outside_same (dir : string) (m m' : gmap string string) : Prop := forall p, inside dir p = false -> m' !! p = m !! p.
Lemma outside_refl dir m : outside_same dir m m.
Proof. done. Qed.
Lemma outside_trans dir m1 m2 m3 : outside_same dir m1 m2 -> outside_same dir m2 m3 -> outside_same dir m1 m3.
Proof. intros H1 H2 p Hp. by rewrite H2, H1. Qed.
Lemma outside_remove dir sub m : inside dir sub = true -> outside_same dir m (remove_tree sub m).
Proof. intros Hs p Hp. rewrite remove_tree_lookup. destruct (inside sub p) eqn:E; [|done]. by rewrite (inside_trans _ _ _ Hs E) in Hp. Qed.
Lemma outside_insert dir q v m : inside dir q = true -> outside_same dir m (<[q := v]> m).
Proof. intros Hq p Hp. apply lookup_insert_ne. intros <-. congruence. Qed.

Lemma put_all_outside dir sub out m :
  (forall n, is_Some (out !! n) -> inside dir (GoPath.Join [sub; n]) = true) -> outside_same dir m (put_all sub out m).
Proof.
  intros H. unfold put_all. assert (Forall (fun e => inside dir (GoPath.Join [sub; e.1]) = true) (map_to_list out)) as Hf.
  { apply Forall_forall. intros [n v] Hin. apply H. exists v. by apply elem_of_map_to_list. }
  revert m. induction Hf as [|e l He Hf IH]; intros m; [done|]. cbn. eapply outside_trans; [by apply outside_insert|apply IH].
Qed.

Section Destination.
Context (l : list string) (Hl : Forall comp l) (Hne : l <> []).

Lemma member_inside sub n : comp sub -> validateTarMemberName n = true -> inside (abs_path l) (GoPath.Join [abs_path (l ++ [sub]); n]) = true.
Proof.
  intros Hs Hn. assert (Forall comp (l ++ [sub])) as Hls by (by rewrite Forall_app, Forall_singleton).
  destruct (decide (n = "")) as [->|Hn0].
  - change (GoPath.Join [abs_path (l ++ [sub]); ""]) with (Clean (abs_path (l ++ [sub]) +:+ "/")).
    assert (Clean (abs_path (l ++ [sub]) +:+ "/") = abs_path (l ++ [sub])) as ->; [|by apply inside_abs].
    change (abs_path (l ++ [sub]) +:+ "/") with (abs_path (l ++ [sub]) +:+ String "/" ""). unfold Clean.
    assert (IsAbs (abs_path (l ++ [sub]) +:+ String "/" "") = true) as -> by (apply has_prefix_spec; by eexists).
    rewrite split_byte_app, split_abs by done. destruct (l ++ [sub]) as [|d r] eqn:E; [by destruct l|]. f_equal. rewrite <- E in *.
    change (clean_comps true [] ((l ++ [sub]) ++ [""]) = l ++ [sub]). rewrite clean_comps_app by done. cbn. by rewrite app_nil_r, rev_involutive.
  - destruct (validateTarMemberName_confined _ _ Hls Hn0 Hn) as (k & Hk & ->). rewrite <- app_assoc. by apply inside_abs.
Qed.

Lemma extractOne_outside tgt t f sub m r m' : comp sub ->
  extractOne read_tar run_tar listing tgt t f (abs_path (l ++ [sub])) m = (r, m') -> outside_same (abs_path l) m m'.
Proof.
  intros Hs. assert (inside (abs_path l) (abs_path (l ++ [sub])) = true) as Hin by (by apply inside_abs).
  unfold extractOne. rewrite run_guard. destruct (_ <? _); [by intros [= _ <-]|]. rewrite run_lift.
  destruct (validateTarMembers _ _ _) as [[]|] eqn:Ev; [|by intros [= _ <-]]. unfold validateTarMembers in Ev.
  destruct (t !! _) as [b|]; [|done]. destruct (archive_kind _) as [k|]; [|done]. destruct (read_tar k b) as [hs|] eqn:Er; [|done].
  destruct (forallb header_ok hs) eqn:Eh; [|done]. unfold unpack. destruct (run_tar k b) as [out|] eqn:Eo; [|intros [= _ <-]; by apply outside_remove].
  assert (outside_same (abs_path l) m (put_all (abs_path (l ++ [sub])) out m)) as Hp.
  { apply put_all_outside. intros n Hn. destruct (Htar _ _ _ _ n Er Eo Hn) as (h & Hh & <-).
    apply member_inside; [done|]. apply list_elem_of_In, (proj1 (forallb_forall _ _) Eh) in Hh. by apply andb_prop in Hh as [? _]. }
  destruct (_ <? _); intros [= _ <-].
  - eapply outside_trans; [exact Hp|by apply outside_remove].
  - eapply outside_trans; [exact Hp|]. apply outside_insert. by apply member_inside.
Qed.

Lemma extract_each_outside tgt t picks : Forall (fun f => ValidBackupFilename (rf_name f) = true) picks -> forall done m r m',
  extract_each read_tar run_tar mkdir_ok listing tgt t (abs_path l) picks done m = (r, m') -> outside_same (abs_path l) m m' /\
  (is_ok r = false -> (forall p, mkdir_ok p = true) -> forall p, inside (abs_path l) p = true -> m' !! p = None).
Proof.
  intros Hv. induction Hv as [|f picks Hf Hv IH]; intros done m r m'; cbn [extract_each]; [by intros [= <- <-]|].
  destruct (mkdir_ok _) eqn:Em; cbn [negb]; [|intros [= <- <-]; split; [done|]; intros _ H; by rewrite H in Em].
  assert (GoPath.Join [abs_path l; (restoreSubdirFor (rf_name f)).1.1] = abs_path (l ++ [(restoreSubdirFor (rf_name f)).1.1])) as Ej.
  { apply Join_file; [done..|by apply subdir_comp]. }
  rewrite Ej. destruct (extractOne _ _ _ _ _ _ _ m) as [[man|e] m1] eqn:E1; apply extractOne_outside in E1; try by apply subdir_comp.
  - intros [H1 H2]%IH. split; [by eapply outside_trans|done].
  - intros [= <- <-]. split; [eapply outside_trans; [exact E1|]; apply outside_remove; unfold inside; by rewrite String.eqb_refl|].
    intros _ _ p Hp. by rewrite remove_tree_lookup, Hp.
Qed.
End Destination.

Lemma picks_valid tgt t suffix names picks : pickRestoreFiles bsize tgt t suffix names = Ok picks ->
  Forall (fun f => ValidBackupFilename (rf_name f) = true) picks.
Proof.
  unfold pickRestoreFiles. destruct (nonempty suffix).
  - destruct (negb _); [done|]. destruct t as [t|]; [|done]. intros [= <-]. apply Forall_fmap, Forall_forall.
    intros n [_ Hn]%list_elem_of_In%filter_In. by apply andb_prop in Hn as [_ ?].
  - revert picks. induction names as [|n names IH]; intros picks; cbn [foldr]; [intros [= <-]; constructor|].
    destruct (ValidBackupFilename n) eqn:Hn; cbn [negb]; [|done]. destruct (t ≫= _) as [b|]; [|done].
    destruct (foldr _ _ names) as [l|]; [|done]. intros [= <-]. constructor; [done|by apply IH].
Qed.

Lemma restore_local_confined tgt t suffix dataDir stamp names m r m' l :
  Forall comp l -> l <> [] -> GoPath.Join [dataDir; "restore-" +:+ stamp] = abs_path l ->
  restore_local EvalSymlinks read_tar run_tar bsize mkdir_ok listing run_listing tgt t suffix dataDir stamp names m = (r, m') ->
  outside_same (abs_path l) m m' /\
  (is_ok r = false -> (forall p, mkdir_ok p = true) -> forall p, inside (abs_path l) p = true -> m' !! p = None \/ m' !! p = m !! p).
Proof.
  intros Hl Hne Ej. unfold restore_local. rewrite run_guard. destruct (bool_decide _); [intros [= <- <-]; split; [done|by right]|].
  rewrite run_guard. destruct (_ && _); [intros [= <- <-]; split; [done|by right]|]. rewrite run_lift.
  destruct (pickRestoreFiles _ _ _ _ _) as [picks|] eqn:Ep; [|intros [= <- <-]; split; [done|by right]]. apply picks_valid in Ep.
  rewrite run_guard. destruct (match picks with [] => true | _ => false end); [intros [= <- <-]; split; [done|by right]|].
  rewrite run_guard. destruct (negb _); [intros [= <- <-]; split; [done|by right]|]. rewrite Ej, run_bind.
  destruct (extract_each _ _ _ _ _ _ _ _ _ m) as [[d|e] m1] eqn:E; apply extract_each_outside in E as [E1 E2]; try done.
  - rewrite run_modify. intros [= <- <-]. split; [|done]. eapply outside_trans; [exact E1|]. apply outside_insert.
    rewrite (Join_file l manifest_name) by (done || (apply (bool_decide_unpack _); vm_compute; exact I)). by apply inside_abs.
  - intros [= <- <-]. split; [done|]. intros _ Hm p Hp. left. by apply E2.
Qed.


(** An archive with a member or a link that leaves the directory is refused
    before tar runs, and with it the whole restore. *)
Theorem escaping_archive_refused tgt t suffix dataDir stamp names m n b k hs h :
  pickRestoreFiles bsize tgt (Some t) suffix names = Ok n -> MkRestoreFile k (default 0 (bsize <$> (t !! GoPath.Join [tg_Path tgt; k]))) ∈ n ->
  t !! GoPath.Join [tg_Path tgt; k] = Some b -> (forall x, archive_kind k = Some x -> read_tar x b = Some hs) -> h ∈ hs -> header_ok h = false ->
  is_ok (restore_local EvalSymlinks read_tar run_tar bsize mkdir_ok listing run_listing tgt (Some t) suffix dataDir stamp names m).1 = false.
Proof.
  intros Hp Hin Hb Hr Hh Hbad. unfold restore_local. rewrite run_guard. destruct (bool_decide _); [done|]. rewrite run_guard. destruct (_ && _); [done|].
  rewrite run_lift, Hp, run_guard. destruct (match n with [] => true | _ => false end); [done|]. rewrite run_guard. destruct (negb _); [done|].
  rewrite run_bind. cbn [default]. generalize (GoPath.Join [dataDir; "restore-" +:+ stamp]) as dest. intros dest.
  assert (forall done m, is_ok (extract_each read_tar run_tar mkdir_ok listing tgt t dest n done m).1 = false) as H.
  { clear Hp m. induction n as [|f l IH]; [by apply not_elem_of_nil in Hin|]. intros done m. cbn [extract_each]. destruct (negb _); [done|].
    apply elem_of_cons in Hin as [<-|Hin].
    - unfold extractOne. cbn [rf_name rf_size]. rewrite run_guard. destruct (_ <? _); [done|]. rewrite Hb, run_lift. unfold validateTarMembers.
      destruct (archive_kind k) as [x|]; [|done]. rewrite (Hr x eq_refl). destruct (forallb header_ok hs) eqn:E; [|done].
      apply list_elem_of_In in Hh. by rewrite (proj1 (forallb_forall _ _) E h Hh) in Hbad.
    - destruct (extractOne _ _ _ _ _ _ _ m) as [[man|e] m1]; [|done]. by apply IH. }
  specialize (H [] m). destruct (extract_each _ _ _ _ _ _ _ _ _ m) as [[d|e] m1]; done.
Qed.

(** ** What was archived comes back *)

(** Members whose names are clean relative paths. *)
Definition clean_members (out : gmap string string) : Prop := forall n, is_Some (out !! n) -> exists k, k <> [] /\ Forall comp k /\ n = join_str "/" k.

Lemma Join_clean l k : Forall comp l -> Forall comp k -> k <> [] -> GoPath.Join [abs_path l; join_str "/" k] = abs_path (l ++ k).
Proof.
  intros Hl Hk Hne. change (GoPath.Join [abs_path l; join_str "/" k]) with (Clean (abs_path l +:+ String "/" (join_str "/" k))).
  unfold Clean. assert (IsAbs (abs_path l +:+ String "/" (join_str "/" k)) = true) as -> by (apply has_prefix_spec; by eexists).
  f_equal. rewrite split_byte_app, split_abs by done. destruct l as [|d l].
  - change (clean_comps true [] (split_byte "/" (join_str "/" k)) = k). by rewrite clean_comps_pieces.
  - change (clean_comps true [] ((d :: l) ++ split_byte "/" (join_str "/" k)) = (d :: l) ++ k).
    rewrite clean_comps_app, clean_comps_pieces by done. by rewrite app_nil_r, rev_involutive.
Qed.

Lemma join_str_inj k1 k2 : Forall comp k1 -> Forall comp k2 -> k1 <> [] -> k2 <> [] -> join_str "/" k1 = join_str "/" k2 -> k1 = k2.
Proof. intros H1 H2 N1 N2 E%(f_equal (split_byte "/")). by rewrite !split_join in E by (done || by apply comps_no_slash). Qed.

Lemma put_all_lookup l out m k : Forall comp l -> clean_members out -> Forall comp k -> k <> [] ->
  put_all (abs_path l) out m !! abs_path (l ++ k) = match out !! join_str "/" k with Some v => Some v | None => m !! abs_path (l ++ k) end.
Proof.
  intros Hl Hc Hk Hne. unfold put_all.
  assert (forall (es : list (string * string)) (m : gmap string string), (forall e, e ∈ es -> exists c, c <> [] /\ Forall comp c /\ e.1 = join_str "/" c) -> NoDup (map fst es) ->
    foldl (fun m e => <[GoPath.Join [abs_path l; e.1] := e.2]> m) m es !! abs_path (l ++ k) =
    match (list_to_map es : gmap string string) !! join_str "/" k with Some v => Some v | None => m !! abs_path (l ++ k) end) as H.
  { clear m. induction es as [|[n v] es IH]; intros m He Hd; [done|]. cbn [foldl map fst] in *. apply NoDup_cons in Hd as [Hn Hd].
    rewrite IH; [|by intros e Hin; apply He; right|done]. destruct (He (n, v) ltac:(by left)) as (c & Nc & Hcc & En). cbn [fst] in En. subst n. cbn [fst snd].
    rewrite Join_clean, list_to_map_cons by done. destruct (decide (c = k)) as [->|Hck].
    - rewrite !lookup_insert_eq. assert ((list_to_map es : gmap string string) !! join_str "/" k = None) as ->; [|done].
      by apply not_elem_of_list_to_map_1.
    - rewrite lookup_insert_ne; [|intros E%abs_path_inj; [by apply app_inv_head in E|by rewrite Forall_app..]].
      rewrite (lookup_insert_ne (list_to_map es)); [done|]. intros E. by apply Hck, join_str_inj. }
  rewrite H; [by rewrite list_to_map_to_list| |apply NoDup_fst_map_to_list].
  intros [n v] Hin. apply Hc. exists v. by apply elem_of_map_to_list.
Qed.

(** C20: What was archived comes back.  Restoring one archive of a local target puts
    every member where its name says, below the directory named after the archive,
    with its content, for the archives this program makes (tar gives back the members
    of an archive, the later of two of a name); only a member called like the manifest
    is replaced by it. *)
Theorem restore_gives_back tgt t name ms dataDir stamp m r m' :
  is_remote (tg_Type tgt) = false -> IsAbs dataDir = true -> contains_byte "/" stamp = false ->
  t !! GoPath.Join [tg_Path tgt; name] = Some (Tar ms) -> (forall k out, run_tar k (Tar ms) = Some out -> out = extract ms) -> clean_members (extract ms) ->
  RestoreBackup EvalSymlinks read_tar run_tar bsize mkdir_ok listing run_listing tgt (Some t) (Err "") "" name dataDir stamp m = (Ok r, m') ->
  exists l, r.1 = abs_path l /\ Forall comp l /\ map rr_Filename r.2 = [name] /\
    forall k data, Forall comp k -> k <> [] -> k <> [manifest_name] -> extract ms !! join_str "/" k = Some data ->
      m' !! abs_path (l ++ (restoreSubdirFor name).1.1 :: k) = Some data.
Proof.
  intros Hrem Ha Hs Ht Hrun Hcl. assert (comp ("restore-" +:+ stamp)) as Hc by (split_and!; [done..|by rewrite contains_byte_app, Hs]).
  destruct (Join_below dataDir _ Ha Hc) as (l0 & Hl0 & _ & Ej). set (l := l0 ++ ["restore-" +:+ stamp]) in *.
  assert (Forall comp l) as Hl by (by apply Forall_app; rewrite Forall_singleton). assert (l <> []) as Hne by (by unfold l; destruct l0).
  unfold RestoreBackup. rewrite run_guard. destruct (bool_decide _) eqn:Ev; [done|]. rewrite run_guard.
  destruct (ValidBackupFilename name) eqn:Hv; cbn [negb]; [|done]. unfold RestoreRun. rewrite Hrem. unfold restore_local.
  rewrite run_guard, Ev, run_guard. cbn [andb String.eqb]. rewrite run_lift.
  assert (pickRestoreFiles bsize tgt (Some t) "" [name] = Ok [MkRestoreFile name (bsize (Tar ms))]) as ->.
  { unfold pickRestoreFiles. cbn [nonempty foldr String.eqb negb]. rewrite Hv. cbn. by rewrite Ht. }
  rewrite run_guard, run_guard, Ej. destruct (negb _); [done|]. rewrite run_bind.
  cbn [default extract_each rf_name]. destruct (negb (mkdir_ok _)); [done|]. pose proof (subdir_comp name Hv) as Hsub.
  rewrite (Join_file l _ Hl Hne Hsub). unfold extractOne. cbn [rf_name rf_size]. rewrite run_guard. destruct (_ <? _); [done|]. unfold id. rewrite Ht, run_lift.
  destruct (validateTarMembers _ _ _) as [[]|]; [|done]. destruct (archive_kind name) as [x|]; [|done]. unfold unpack.
  destruct (run_tar x (Tar ms)) as [out|] eqn:Eo; [|done]. apply Hrun in Eo as ->. destruct (_ <? _); [done|].
  cbn [mret se_ret app]. rewrite run_modify. intros [= <- <-]. exists l. split_and!; [done..|].
  intros k data Hk Hkn Hkm Hd. set (L := l ++ [(restoreSubdirFor name).1.1]).
  assert (Forall comp L) as HL by (unfold L; by rewrite Forall_app, Forall_singleton).
  assert (comp manifest_name) as Hman by (apply (bool_decide_unpack _); vm_compute; exact I).
  replace (l ++ (restoreSubdirFor name).1.1 :: k) with (L ++ k) by (unfold L; by rewrite <- app_assoc).
  rewrite (Join_file l manifest_name Hl Hne Hman), lookup_insert_ne.
  2:{ intros E%abs_path_inj; [|by rewrite Forall_app, ?Forall_singleton..]. unfold L in E. rewrite <- app_assoc in E. apply app_inv_head in E. cbn in E. by injection E as _ <-. }
  rewrite (Join_file L manifest_name HL) by (done || by unfold L; destruct l). rewrite lookup_insert_ne.
  2:{ intros E%abs_path_inj; [|by rewrite Forall_app, ?Forall_singleton..]. apply app_inv_head in E. congruence. }
  by rewrite put_all_lookup, Hd.
Qed.
End RestoreFacts.

(** ** Facts: rebuilding a disk *)

Lemma ordered_prefix c pre e post fuel : wf_chain c -> Entries c = pre ++ e :: post -> (length (Entries c) < fuel)%nat ->
  OrderedEntries fuel c (ce_Name e) = Some (pre ++ [e]).
Proof.
  intros [Hl Hn Hc] He Hf. unfold OrderedEntries, by_name.
  assert (ce_Name e <> "") as Hname.
  { rewrite He in Hl. apply linked_app in Hl as [_ (_ & Hx & _)]. done. }
  destruct (Entries c) as [|x l] eqn:E; [by destruct pre|]. rewrite <- E in *. rewrite (proj2 (String.eqb_neq _ _) Hname).
  rewrite <- (last_name_snoc "" pre e), (lineage_prefix (pre ++ [e])).
  - cbn. by rewrite rev_involutive.
  - rewrite He in Hl. change (e :: post) with ([e] ++ post) in Hl. rewrite app_assoc in Hl. by apply linked_app in Hl as [? _].
  - intros y Hy. apply by_name_lookup; [done|]. rewrite He. set_solver.
  - rewrite He, length_app in Hf. rewrite length_app. cbn in *. lia.
Qed.

Lemma find_entry_name c e : NoDup (map ce_Name (Entries c)) -> e ∈ Entries c -> find_entry (ce_Name e) c = Some e.
Proof.
  unfold find_entry. induction (Entries c) as [|x l IH]; intros Hn He; [by apply not_elem_of_nil in He|]. cbn [map List.find] in *.
  apply NoDup_cons in Hn as [Hx Hn]. apply elem_of_cons in He as [->|He]; [by rewrite String.eqb_refl|].
  destruct (String.eqb_spec (ce_Name x) (ce_Name e)) as [E|_]; [|by apply IH]. exfalso. apply Hx. rewrite E. by apply list_elem_of_fmap_2.
Qed.

Lemma filter_all {A} (f : A -> bool) l : (forall a, a ∈ l -> f a = true) -> List.filter f l = l.
Proof. induction l as [|a l IH]; intros H; [done|]. cbn. rewrite (H a) by (by left). f_equal. apply IH. intros b Hb. apply H. by right. Qed.

Lemma execute_all ok n l done : execute ok n l = (done, true) -> done = l.
Proof.
  revert n done. induction l as [|s l IH]; intros n d; cbn; [by intros [= <-]|]. destruct (ok n); [|done].
  destruct (execute ok (S n) l) as [d' b] eqn:E. intros [= <- ->]. f_equal. by eapply IH.
Qed.

Lemma execute_prefix ok n l : (execute ok n l).1 `prefix_of` l.
Proof.
  revert n. induction l as [|s l IH]; intros n; cbn; [done|]. destruct (ok n); [|apply prefix_nil].
  specialize (IH (S n)). destruct (execute ok (S n) l) as [d b]. cbn in *. by apply prefix_cons.
Qed.


(** The files a step writes. *)
Definition step_writes (s : step) : list string :=
  match s with
  | Copy _ dst => [dst] | Rebase _ child => [child] | Convert _ flat => [flat] | QemuCheck _ => [] | Publish flat final => [flat; final]
  end.

Lemma rebases_children staged s : s ∈ rebases staged -> exists p c, s = Rebase p c /\ c ∈ staged.
Proof.
  induction staged as [|a l IH]; cbn; [by intros ?%not_elem_of_nil|]. destruct l as [|b l]; [by intros ?%not_elem_of_nil|].
  intros [->|H]%elem_of_cons; [exists a, b; split; [done|by right; left]|].
  destruct (IH H) as (p & c & -> & Hc). exists p, c. split; [done|by right].
Qed.

Lemma by_name_in l k e : by_name l !! k = Some e -> e ∈ l.
Proof.
  assert (forall es (m : gmap string CheckpointEntry), foldl (fun m e => <[ce_Name e:=e]> m) m es !! k = Some e -> e ∈ es \/ m !! k = Some e) as H.
  { induction es as [|a es IH]; intros m; cbn; [by right|]. intros [?|Hm]%IH; [left; by right|].
    apply lookup_insert_Some in Hm as [[_ ->]|[_ ?]]; [left; by left|by right]. }
  unfold by_name. intros [?|H0]%H; [done|]. by rewrite lookup_empty in H0.
Qed.

Lemma ordered_in fuel c name l e : OrderedEntries fuel c name = Some l -> e ∈ l -> e ∈ Entries c.
Proof.
  unfold OrderedEntries. destruct (Entries c) as [|e0 es] eqn:Es; [intros [= <-] ?%not_elem_of_nil; done|]. rewrite <- Es.
  destruct (lineage _ _ _) as [ll|] eqn:El; [|done]. intros [= <-] Hy%list_elem_of_In%in_rev%list_elem_of_In.
  revert ll El Hy. generalize (if String.eqb name "" then Checkpoint c else name) as cur.
  induction fuel as [|fuel IH]; intros cur ll; cbn; [done|]. destruct (String.eqb cur ""); [intros [= <-] ?%not_elem_of_nil; done|].
  destruct (by_name _ !! cur) as [z|] eqn:Ez; [|intros [= <-] ?%not_elem_of_nil; done].
  destruct (lineage fuel _ _) as [l'|] eqn:E'; [|done]. intros [= <-] [->|Hy]%elem_of_cons; [by eapply by_name_in|by eapply IH].
Qed.

Lemma device_comp (P : string -> Prop) target ordered d l :
  (d, l) ∈ disks_to_restore target ordered ->
  (forall e, e ∈ target :: ordered -> (Chain.BackupFile e = "" \/ P (Chain.BackupFile e)) /\ forall d f, DiskFiles e !! d = Some f -> P d /\ (f = "" \/ P f)) ->
  (d = "" \/ P d) /\ Forall P l /\ l <> [].
Proof.
  unfold disks_to_restore. intros H Hc. apply list_elem_of_In, filter_In in H as [H Hl]. apply list_elem_of_In in H. cbn in Hl.
  assert (l <> []) as Hne by (by destruct l). split_and!; [|clear Hl|done].
  - destruct (sort_strings _) as [|d0 ds] eqn:Ed; [apply list_elem_of_singleton in H; injection H as -> _; by left|].
    apply list_elem_of_fmap in H as (d' & [= -> _] & Hd). rewrite <- Ed, sort_strings_Permutation in Hd.
    apply list_elem_of_fmap in Hd as ([d'' f] & -> & Hd). apply elem_of_map_to_list in Hd. right.
    by destruct (Hc target ltac:(by left)) as [_ H]; destruct (H _ _ Hd).
  - assert (forall g, (forall e, e ∈ ordered -> g e = "" \/ P (g e)) -> Forall P (List.filter nonempty (map g ordered))) as Hg.
    { intros g Hg. apply Forall_forall. intros f [Hf Hn]%list_elem_of_In%filter_In. apply list_elem_of_In, list_elem_of_fmap in Hf as (e & -> & He).
      destruct (Hg e He) as [E|?]; [by rewrite E in Hn|done]. }
    destruct (sort_strings _) as [|d0 ds].
    + apply list_elem_of_singleton in H. injection H as _ ->. apply Hg. intros e He. by apply (Hc e); right.
    + apply list_elem_of_fmap in H as (d' & [= _ ->] & _). apply Hg. intros e He. unfold device_file.
      destruct (Hc e ltac:(by right)) as [Hb Hd]. destruct (DiskFiles e !! d') as [f|] eqn:Ef; cbn.
      * destruct (Hd _ _ Ef) as [_ [->|?]]; cbn; [done|]. destruct (String.eqb f ""); [done|by right].
      * done.
Qed.

(** The steps for one disk write in the staging directory [abs_path l], or to the
    image they publish. *)
Lemma restore_steps_inside l path stamp rand d s p : Forall comp l -> l <> [] -> (d.1 = "" \/ comp d.1) -> Forall comp d.2 ->
  s ∈ restore_steps path (abs_path l) stamp rand d -> p ∈ step_writes s ->
  inside (abs_path l) p = true \/ p = GoPath.Join [path; final_name stamp rand d.1].
Proof.
  intros Hl Hne Hd1 Hd2 Hin Hp.
  assert (exists k, Forall comp k /\ k <> [] /\ sub_staging (abs_path l) d.1 = abs_path k /\ forall n, comp n -> inside (abs_path l) (GoPath.Join [abs_path k; n]) = true) as (k & Hk & Hkn & Es & Hi).
  { unfold sub_staging. destruct Hd1 as [->|Hd1].
    - exists l. split_and!; [done..|]. intros n Hn. rewrite Join_file by done. by apply inside_abs.
    - assert (nonempty d.1 = true) as -> by (unfold nonempty; by rewrite (proj2 (String.eqb_neq _ _) (proj1 Hd1))).
      exists (l ++ [d.1]). rewrite Join_file by done. split_and!; [by rewrite Forall_app, Forall_singleton|by destruct l|done|].
      intros n Hn. rewrite Join_file; [|by rewrite Forall_app, Forall_singleton|by destruct l|done]. rewrite <- app_assoc. by apply inside_abs. }
  assert (inside (abs_path l) (GoPath.Join [abs_path k; "restored-flat.qcow2"]) = true) as Hflat.
  { apply Hi. apply (bool_decide_unpack _). vm_compute. exact I. }
  unfold restore_steps in Hin. rewrite Es in Hin. apply elem_of_app in Hin as [Hin|[Hin|Hin]%elem_of_app].
  - apply list_elem_of_fmap in Hin as (f & -> & Hf). apply list_elem_of_singleton in Hp as ->. left. apply Hi. by apply (proj1 (Forall_forall _ _) Hd2).
  - apply rebases_children in Hin as (a & ch & -> & Hch). apply list_elem_of_singleton in Hp as ->. apply list_elem_of_fmap in Hch as (f & -> & Hf).
    left. apply Hi. by apply (proj1 (Forall_forall _ _) Hd2).
  - apply elem_of_cons in Hin as [->|Hin]; [apply list_elem_of_singleton in Hp as ->; by left|].
    apply elem_of_cons in Hin as [->|Hin]; [by apply not_elem_of_nil in Hp|]. apply list_elem_of_singleton in Hin as ->.
    apply elem_of_cons in Hp as [->|Hp]; [by left|]. apply list_elem_of_singleton in Hp as ->. by right.
Qed.

(** The archives of a chain are never written to.  Every step a restore of a
    checkpoint gets to, whichever one fails, writes in its own staging directory, or
    to a new restored image of its own time and random part; the names in the chain
    are taken to be names of files. *)
Theorem checkpoint_restore_is_readonly ok fuel mkdir_ok path stamp rand1 rand2 c name s p :
  IsAbs path = true -> contains_byte "/" stamp = false -> contains_byte "/" rand1 = false ->
  (forall e, e ∈ Entries c -> (Chain.BackupFile e = "" \/ comp (Chain.BackupFile e)) /\ forall d f, DiskFiles e !! d = Some f -> comp d /\ (f = "" \/ comp f)) ->
  s ∈ (RestoreCheckpoint ok fuel mkdir_ok path stamp rand1 rand2 (Ok (Some c)) name).2 -> p ∈ step_writes s ->
  inside (GoPath.Join [path; ".webkvm-restore-staging-" +:+ stamp +:+ "-" +:+ rand1]) p = true \/
  exists dev, p = GoPath.Join [path; final_name stamp rand2 dev].
Proof.
  intros Ha H1 H2 Hc. unfold RestoreCheckpoint. destruct (find_entry name c) as [e|] eqn:Ee; [|by intros ?%not_elem_of_nil].
  destruct (OrderedEntries fuel c name) as [L|] eqn:Eo; [|by intros ?%not_elem_of_nil]. destruct L as [|x L]; [by intros ?%not_elem_of_nil|].
  destruct (negb _); [by intros ?%not_elem_of_nil|]. set (staging := GoPath.Join _).
  assert (comp (".webkvm-restore-staging-" +:+ stamp +:+ "-" +:+ rand1)) as Hst by (split_and!; try done; by rewrite !contains_byte_app, H1, H2).
  destruct (Join_below path _ Ha Hst) as (l0 & Hl0 & _ & Ej). fold staging in Ej. set (l := l0 ++ _) in Ej.
  assert (Forall comp l) as Hl by (unfold l; by rewrite Forall_app, Forall_singleton). assert (l <> []) as Hne by (unfold l; by destruct l0).
  assert (forall d, d ∈ disks_to_restore e (x :: L) -> (d.1 = "" \/ comp d.1) /\ Forall comp d.2 /\ d.2 <> []) as Hd.
  { intros [d fs] Hin. eapply device_comp; [exact Hin|]. intros y Hy. apply Hc. apply elem_of_cons in Hy as [->|Hy]; [|by eapply ordered_in].
    unfold find_entry in Ee. by apply find_some in Ee as [Ee%list_elem_of_In _]. }
  revert Hd. destruct (disks_to_restore e (x :: L)) as [|[dev fs] ds]; [by intros _ ?%not_elem_of_nil|]. intros Hd.
  set (all := concat _). pose proof (execute_prefix ok 0 all) as Hpre. destruct (execute ok 0 all) as [done b]. cbn [fst snd] in *. intros Hs Hp.
  assert (s ∈ all) as Hin by (destruct Hpre as [k Hpre]; rewrite Hpre; apply elem_of_app; by left).
  apply list_elem_of_In, in_concat in Hin as (ss & Hss & Hin). apply in_map_iff in Hss as (d & <- & Hdin%list_elem_of_In). apply list_elem_of_In in Hin.
  destruct (Hd d Hdin) as (Hd1 & Hd2 & _).
  rewrite Ej in Hin |- *. destruct (restore_steps_inside l path stamp rand2 d s p Hl Hne Hd1 Hd2 Hin Hp); [by left|right; by exists d.1].
Qed.

(** ** Concrete restores *)
Module RestoreDemo.
Definition links (p : string) : option string := Some p.
Definition local : Target :=
  MkTarget "t1" "here" TargetLocal "/srv/b" "" 0 "" "" "" "" "" no_secret [] false "all" [] [] true no_retention "" 0 0 0.
Definition read_tar (_ : string) (b : blob) : option (list header) :=
  match b with Tar ms => Some (map (fun m => MkHeader m.1 None) ms) | _ => None end.
Definition run_tar (_ : string) (b : blob) : option (gmap string string) := match b with Tar ms => Some (extract ms) | _ => None end.
Definition stamp : string := "20260102T000000.000000000Z".
Definition run : string := "20260101T000000.000000000Z-0a1b2c".
Definition name (vm ext : string) : string := "webkvm-h-" +:+ run +:+ "-" +:+ vm +:+ ext.
Definition web : list member := [("domain.xml", "<domain/>"); ("disks/web.qcow2", "DISK")].
Definition files : tree :=
  {[ "/srv/b/" +:+ name "web" ".tar.zst" := Tar web; "/srv/b/" +:+ name "zed" ".tar.zst" := Tar web ]}.
Definition out : string := "/data/restore-20260102T000000.000000000Z".
Definition restore (mkdir_ok : string -> bool) (t : tree) (suffix : string) (names : list string) :=
  RestoreRun links read_tar run_tar (fun _ => 10) mkdir_ok (fun _ => "manifest") (fun _ => "run manifest") local (Some t) (Err "") "" suffix "/data" stamp names ∅.
Definition yes (_ : string) : bool := true.

(** Each archive comes out in a directory named after its whole file name. *)
Example whole_run :
  is_ok (restore yes files run []).1 = true /\
  (restore yes files run []).2 !! (out +:+ "/" +:+ name "web" "" +:+ "/disks/web.qcow2") = Some "DISK".
Proof. by vm_compute. Qed.

Definition evil : tree := {[ "/srv/b/" +:+ name "web" ".tar.zst" := Tar [("a", "1"); ("../../etc/passwd", "x")] ]}.
Example slip : restore yes evil run [] = (Err "archive member escapes", ∅).
Proof. by vm_compute. Qed.

(** An incremental run cannot be restored by its suffix: its disks are no tar
    archives. *)
Definition incremental : tree := <["/srv/b/" +:+ name "web-vda" ".qcow2" := Volume "x"]> files.
Example incremental_run_refused : (restore yes incremental run []).1 = Err "unsupported archive extension".
Proof. by vm_compute. Qed.

(** When the second directory cannot be made, what the first archive held stays. *)
Example half_restored :
  let r := restore (fun p => negb (String.eqb p (out +:+ "/" +:+ name "zed" ""))) files run [] in
  r.1 = Err "mkdir" /\ r.2 !! (out +:+ "/" +:+ name "web" "" +:+ "/disks/web.qcow2") = Some "DISK".
Proof. by vm_compute. Qed.

(** A disk added after the base: its restore starts from the base of another disk. *)
Definition entry (n parent : string) (disks : list (string * string)) : CheckpointEntry :=
  MkEntry n "j" (match disks with d :: _ => d.2 | [] => "" end) (list_to_map disks) parent "" 1 0.
Definition base := entry "chk-1" "" [("vda", "a1.qcow2")].
Definition hot := entry "chk-2" "chk-1" [("vda", "a2.qcow2"); ("vdb", "b2.qcow2")].
Example other_disk_as_base : disks_to_restore hot [base; hot] = [("vda", ["a1.qcow2"; "a2.qcow2"]); ("vdb", ["a1.qcow2"; "b2.qcow2"])].
Proof. by vm_compute. Qed.

Definition second := entry "chk-2" "chk-1" [("vda", "a2.qcow2"); ("vdb", "b2.qcow2")].
Definition first := entry "chk-1" "" [("vda", "a1.qcow2"); ("vdb", "b1.qcow2")].
Definition chain : Chain := MkChain "web" "web" "t1" "a1.qcow2" "chk-2" [first; second] 0 0.
Definition rebuild (ok : nat -> bool) := RestoreCheckpoint ok 3 yes "/srv/b" "T" "ab" "cd" (Ok (Some chain)) "chk-2".
(** Of two disks, only the first restored image is reported. *)
Example one_path : (rebuild (fun _ => true)).1 = Ok "/srv/b/webkvm-restore-T-cd-vda.qcow2" /\ length (rebuild (fun _ => true)).2 = 12%nat.
Proof. by vm_compute. Qed.
Lemma chain_ok : wf_chain chain.
Proof. split; [by split_and!|apply (bool_decide_unpack _); vm_compute; exact I|done]. Qed.
Lemma tar_ok : tar_honest read_tar run_tar.
Proof.
  intros k [|ms|d|d] hs out n; try done. cbn. intros [= <-] [= <-]. unfold extract.
  assert (forall l (m : gmap string string), is_Some (foldl (fun m e => <[e.1:=e.2]> m) m l !! n) -> is_Some (m !! n) \/ exists e, e ∈ l /\ e.1 = n) as H.
  { induction l as [|e l IH]; intros m; cbn; [by left|]. intros [Hm|(x & Hx & <-)]%IH; [|right; exists x; split; [by right|done]].
    destruct (decide (e.1 = n)) as [<-|Hne]; [right; exists e; split; [by left|done]|]. left. by rewrite lookup_insert_ne in Hm. }
  intros [[v Hv]|(e & He & <-)]%H; [by rewrite lookup_empty in Hv|]. exists (MkHeader e.1 None). split; [|done].
  apply (list_elem_of_fmap_2 (fun m : member => MkHeader m.1 None)) in He. exact He.
Qed.
End RestoreDemo.


Lemma escaping_archive_refused_witness :
  is_ok (RestoreDemo.restore RestoreDemo.yes RestoreDemo.evil "" [RestoreDemo.name "web" ".tar.zst"]).1 = false.
Proof.
  apply (escaping_archive_refused RestoreDemo.links RestoreDemo.read_tar RestoreDemo.run_tar (fun _ => 10) RestoreDemo.yes (fun _ => "manifest") (fun _ => "run manifest")
    RestoreDemo.local RestoreDemo.evil "" "/data" RestoreDemo.stamp [RestoreDemo.name "web" ".tar.zst"] ∅
    [MkRestoreFile (RestoreDemo.name "web" ".tar.zst") 10] (Tar [("a", "1"); ("../../etc/passwd", "x")]) (RestoreDemo.name "web" ".tar.zst")
    [MkHeader "a" None; MkHeader "../../etc/passwd" None] (MkHeader "../../etc/passwd" None)).
  - vm_compute. reflexivity.
  - by left.
  - vm_compute. reflexivity.
  - by intros x _.
  - by right; left.
  - vm_compute. reflexivity.
Defined.

Definition one_restore :=
  RestoreBackup RestoreDemo.links RestoreDemo.read_tar RestoreDemo.run_tar (fun _ => 10) RestoreDemo.yes (fun _ => "manifest") (fun _ => "run manifest")
    RestoreDemo.local (Some RestoreDemo.files) (Err "") "" (RestoreDemo.name "web" ".tar.zst") "/data" RestoreDemo.stamp ∅.
Lemma web_members : clean_members (extract RestoreDemo.web).
Proof.
  intros n [v Hv]. unfold RestoreDemo.web, extract in Hv. cbn in Hv. apply lookup_insert_Some in Hv as [[<- _]|[_ Hv]]; [exists ["disks"; "web.qcow2"]|].
  { split_and!; [done|apply (bool_decide_unpack _); vm_compute; exact I|done]. }
  apply lookup_insert_Some in Hv as [[<- _]|[_ Hv]]; [|by rewrite lookup_empty in Hv]. exists ["domain.xml"].
  split_and!; [done|apply (bool_decide_unpack _); vm_compute; exact I|done].
Qed.
Lemma restore_gives_back_witness : exists p, one_restore.2 !! p = Some "DISK".
Proof.
  assert (is_ok one_restore.1 = true) as Hok by (vm_compute; reflexivity). revert Hok. unfold one_restore.
  assert (RestoreDemo.files !! GoPath.Join [tg_Path RestoreDemo.local; RestoreDemo.name "web" ".tar.zst"] = Some (Tar RestoreDemo.web)) as Hf by (vm_compute; reflexivity).
  destruct (RestoreBackup _ _ _ _ _ _ _ _ _ _ _ _ _ _ _) as [[r|e] m'] eqn:E; [intros _|done].
  destruct (restore_gives_back RestoreDemo.links RestoreDemo.read_tar RestoreDemo.run_tar (fun _ => 10) RestoreDemo.yes (fun _ => "manifest") (fun _ => "run manifest")
    RestoreDemo.local RestoreDemo.files (RestoreDemo.name "web" ".tar.zst") RestoreDemo.web "/data" RestoreDemo.stamp ∅ r m' eq_refl eq_refl eq_refl
    Hf ltac:(intros k out [= <-]; reflexivity) web_members E) as (l & _ & _ & _ & H).
  eexists. apply (H ["disks"; "web.qcow2"] "DISK"); [apply (bool_decide_unpack _); vm_compute; exact I|discriminate..|vm_compute; reflexivity].
Defined.


(** Every file the demonstration's rebuild writes is below its staging directory
    or one of the final volumes. *)
Lemma checkpoint_restore_is_readonly_witness :
  Forall (fun s => Forall (fun p => inside "/srv/b/.webkvm-restore-staging-T-ab" p = true \/
                                     exists dev, p = GoPath.Join ["/srv/b"; final_name "T" "cd" dev]) (step_writes s))
    (RestoreDemo.rebuild (fun _ => true)).2.
Proof.
  apply Forall_forall. intros s Hs. apply Forall_forall. intros p Hp.
  refine (checkpoint_restore_is_readonly (fun _ => true) 3 RestoreDemo.yes "/srv/b" "T" "ab" "cd" RestoreDemo.chain "chk-2" s p eq_refl eq_refl eq_refl _ Hs Hp).
  assert (Forall (fun e => (Chain.BackupFile e = "" \/ comp (Chain.BackupFile e)) /\
    map_Forall (fun d f => comp d /\ (f = "" \/ comp f)) (DiskFiles e)) (Entries RestoreDemo.chain)) as H.
  { apply (bool_decide_unpack _). vm_compute. exact I. }
  intros e He. destruct (proj1 (Forall_forall _ _) H e He) as [H1 H2]. split; [exact H1|exact H2].
Defined.
