(* ===== verification/Jobs.v ===== *)
(** * Jobs: the table of background work

    Models [api/storage_jobs.go] and [api/jobs.go]: the table of downloads and
    long operations, what a worker may write into its entry, the sweeper, and
    who may read an entry.  A percentage is a float of the code and a parameter
    here; the result of a job is the text it is sent as. *)

From S2P Require Export Acl.
Open Scope Z_scope.

Section Jobs.
(** Percentages: the conversion of a constant, and [pct >= 0]. *)
Context {F : Type} (pct_of : Z -> F) (nonnegative : F -> bool).

Record DownloadJob := MkDownload {
  dj_ID : string; dj_Name : string; dj_URL : string; dj_Progress : F; dj_Status : string; dj_Error : string; dj_Message : string;
  dj_UpdatedAt : Z; dj_BytesDone : Z; dj_BytesTotal : Z; dj_SpeedBps : Z; dj_ETASeconds : Z; dj_Owner : string; dj_Pool : string;
  dj_Stage : string; dj_Result : option string
}.
Abbreviation Jobs := (gmap string DownloadJob).

Definition jobTTL : Z := 24 * hour.

Definition touch (now : Z) (j : DownloadJob) : DownloadJob :=
  MkDownload (dj_ID j) (dj_Name j) (dj_URL j) (dj_Progress j) (dj_Status j) (dj_Error j) (dj_Message j) (time_unix now)
    (dj_BytesDone j) (dj_BytesTotal j) (dj_SpeedBps j) (dj_ETASeconds j) (dj_Owner j) (dj_Pool j) (dj_Stage j) (dj_Result j).

Definition storeJob (now : Z) (j : DownloadJob) (jobs : Jobs) : Jobs := <[dj_ID j := touch now j]> jobs.
Definition getJob (id : string) (jobs : Jobs) : option DownloadJob := jobs !! id.

Definition advance (now : Z) (progress : F) (status text : string) (bytesDone bytesTotal speedBps etaSeconds : Z) (j : DownloadJob)
    : DownloadJob :=
  let failed := String.eqb status "error" in
  let counted := (0 <? bytesDone) || (0 <? bytesTotal) in
  MkDownload (dj_ID j) (dj_Name j) (dj_URL j) progress status (if failed then text else "") (if failed then dj_Message j else text)
    (time_unix now) (if counted then bytesDone else dj_BytesDone j) (if counted then bytesTotal else dj_BytesTotal j)
    (if 0 <? speedBps then speedBps else dj_SpeedBps j) (if 0 <=? etaSeconds then etaSeconds else dj_ETASeconds j)
    (dj_Owner j) (dj_Pool j) (dj_Stage j) (dj_Result j).

Definition updateJobFull (now : Z) (id : string) (progress : F) (status text : string)
    (bytesDone bytesTotal speedBps etaSeconds : Z) (jobs : Jobs) : Jobs :=
  alter (advance now progress status text bytesDone bytesTotal speedBps etaSeconds) id jobs.
Definition updateJob (now : Z) (id : string) (progress : F) (status text : string) : Jobs -> Jobs :=
  updateJobFull now id progress status text 0 0 0 0.

(** ** The sweeper *)

Definition terminal (j : DownloadJob) : bool := existsb (String.eqb (dj_Status j)) ["completed"; "done"; "error"].
Definition expired (cutoff : Z) (j : DownloadJob) : bool := terminal j && (0 <? dj_UpdatedAt j) && (dj_UpdatedAt j <=? cutoff).
Definition pruneExpiredJobs (now ttl : Z) (jobs : Jobs) : Z * Jobs :=
  let kept := map_delete_if (fun _ j => expired (time_unix (time_add now (- ttl))) j) jobs in
  (Z.of_nat (base.size jobs) - Z.of_nat (base.size kept), kept).

(** ** Who reads a job *)

Definition isJobOwnerOrAdmin (c : Caller) (owner : string) : bool :=
  if String.eqb (cl_role c) RoleAdmin then true else String.eqb (cl_user c) owner.
Definition may_read (c : Caller) (j : DownloadJob) : bool := negb (nonempty (dj_Owner j)) || isJobOwnerOrAdmin c (dj_Owner j).
Definition GetDownloadJob (c : Caller) (id : string) (jobs : Jobs) : option DownloadJob :=
  match getJob id jobs with
  | None => None
  | Some j => if nonempty (dj_Owner j) && negb (isJobOwnerOrAdmin c (dj_Owner j)) then None else Some j
  end.
(** In the order of a walk over the map. *)
Definition ListJobs (c : Caller) (jobs : Jobs) : list DownloadJob :=
  List.filter (fun j => negb (nonempty (dj_Owner j) && negb (isJobOwnerOrAdmin c (dj_Owner j)))) (map snd (map_to_list jobs)).

(** ** Work in the background *)

(** The entry [submitJob] (no pool) and [submitJobWithPool] start with. *)
Definition submitJob (now : Z) (id owner name pool : string) (jobs : Jobs) : Jobs :=
  storeJob now (MkDownload id name "" (pct_of 0) "running" "" "" 0 0 0 0 0 owner pool "" None) jobs.

Definition set_stage (now : Z) (pct : F) (stage : string) (j : DownloadJob) : DownloadJob :=
  MkDownload (dj_ID j) (dj_Name j) (dj_URL j) (if nonnegative pct then pct else dj_Progress j) (dj_Status j) (dj_Error j)
    (dj_Message j) (time_unix now) (dj_BytesDone j) (dj_BytesTotal j) (dj_SpeedBps j) (dj_ETASeconds j) (dj_Owner j) (dj_Pool j)
    stage (dj_Result j).
Definition job_progress (now : Z) (id : string) (pct : F) (stage : string) : Jobs -> Jobs := alter (set_stage now pct stage) id.

Definition set_done (now : Z) (with_pool : bool) (result : string) (j : DownloadJob) : DownloadJob :=
  MkDownload (dj_ID j) (dj_Name j) (dj_URL j) (if with_pool then pct_of 100 else dj_Progress j) "done" (dj_Error j) (dj_Message j)
    (time_unix now) (dj_BytesDone j) (dj_BytesTotal j) (dj_SpeedBps j) (dj_ETASeconds j) (dj_Owner j) (dj_Pool j)
    (if with_pool then "move_done" else dj_Stage j) (Some result).
(** What the goroutine does with the outcome of the work. *)
Definition finish_job (now : Z) (with_pool : bool) (id : string) (r : res string string) : Jobs -> Jobs :=
  match r with
  | Err e => updateJob now id (pct_of 0) "error" e
  | Ok result => alter (set_done now with_pool result) id
  end.

(** ** Interleavings

    Any number of workers and sweeps; each critical section is a step.  A
    worker that panics is recovered and writes nothing. *)
Record State := MkJobs {
  js_table : Jobs; js_workers : gset string; js_ended : gmap string Z; js_panicked : gset string; js_sweeps : list Z
}.

Definition busy (status : string) : bool := negb (existsb (String.eqb status) ["completed"; "done"; "error"]).

Inductive jstep : State -> State -> Prop :=
| Submit now id owner name pool t w e l s :
    t !! id = None -> id ∉ w -> e !! id = None -> id ∉ l ->
    jstep (MkJobs t w e l s) (MkJobs (submitJob now id owner name pool t) (w ∪ {[id]}) e l s)
| Progress now id pct stage t w e l s :
    id ∈ w -> jstep (MkJobs t w e l s) (MkJobs (job_progress now id pct stage t) w e l s)
| Report now id pct status text done total speed eta t w e l s :
    id ∈ w -> busy status = true ->
    jstep (MkJobs t w e l s) (MkJobs (updateJobFull now id pct status text done total speed eta t) w e l s)
| Finish now with_pool id r t w e l s :
    id ∈ w -> jstep (MkJobs t w e l s) (MkJobs (finish_job now with_pool id r t) (w ∖ {[id]}) (<[id := now]> e) l s)
| Complete now id pct status text t w e l s :
    id ∈ w -> busy status = false ->
    jstep (MkJobs t w e l s) (MkJobs (updateJob now id pct status text t) (w ∖ {[id]}) (<[id := now]> e) l s)
| Panic id t w e l s : id ∈ w -> jstep (MkJobs t w e l s) (MkJobs t (w ∖ {[id]}) e (l ∪ {[id]}) s)
| Sweep now t w e l s : jstep (MkJobs t w e l s) (MkJobs (pruneExpiredJobs now jobTTL t).2 w e l (now :: s)).

(** ** Facts *)

Lemma pruneExpiredJobs_lookup now ttl jobs id :
  (pruneExpiredJobs now ttl jobs).2 !! id =
    match jobs !! id with Some j => if expired (time_unix (time_add now (- ttl))) j then None else Some j | None => None end.
Proof. unfold pruneExpiredJobs. cbn [snd]. by rewrite lookup_map_delete_if. Qed.

(** What the table says of a job: its worker is at it, it has ended, or its
    worker panicked; an ended job is missing only after a sweep that came [jobTTL]
    later. *)
Definition accounted (st : State) (id : string) : Prop :=
  match js_table st !! id with
  | Some j =>
      (terminal j = false /\ ~ (id ∈ js_workers st <-> id ∈ js_panicked st) /\ js_ended st !! id = None) \/
      (terminal j = true /\ id ∉ js_workers st /\ id ∉ js_panicked st /\ exists t, js_ended st !! id = Some t /\ dj_UpdatedAt j = time_unix t)
  | None =>
      id ∉ js_workers st /\ id ∉ js_panicked st /\
      forall t, js_ended st !! id = Some t -> exists now, now ∈ js_sweeps st /\ time_unix t <= time_unix (time_add now (- jobTTL))
  end.

Lemma accounted_same id st st' :
  js_table st' !! id = js_table st !! id -> (id ∈ js_workers st' <-> id ∈ js_workers st) ->
  js_ended st' !! id = js_ended st !! id -> (id ∈ js_panicked st' <-> id ∈ js_panicked st) ->
  js_sweeps st' = js_sweeps st -> accounted st id -> accounted st' id.
Proof. unfold accounted. intros -> Hw -> Hl ->. destruct (js_table st !! id); rewrite Hw, Hl; done. Qed.

(** An update by the worker of [i] changes nothing for others. *)
Lemma accounted_other i id f t w w' e e' l s : i <> id -> (id ∈ w' <-> id ∈ w) -> e' !! id = e !! id ->
  accounted (MkJobs t w e l s) id -> accounted (MkJobs (alter f i t) w' e' l s) id.
Proof. intros Hne Hw He. apply accounted_same; cbn; try done. by rewrite lookup_alter_ne. Qed.

(** ... and its own entry is there. *)
Lemma accounted_worker id t w e l s : id ∈ w -> accounted (MkJobs t w e l s) id ->
  exists j, t !! id = Some j /\ terminal j = false /\ e !! id = None /\ id ∉ l.
Proof. unfold accounted. cbn. destruct (t !! id) as [j|]; [|tauto]. intros Hw [(H & Hn & He)|(_ & Hn & _)]; [exists j; tauto|done]. Qed.

Lemma accounted_busy id f t w e l s : id ∈ w -> (forall j, terminal j = false -> terminal (f j) = false) ->
  accounted (MkJobs t w e l s) id -> accounted (MkJobs (alter f id t) w e l s) id.
Proof.
  intros Hw Hf H. destruct (accounted_worker _ _ _ _ _ _ Hw H) as (j & Hj & Ht & He & Hl).
  unfold accounted. cbn. rewrite lookup_alter_eq, Hj. cbn. left. split; [by apply Hf|]. split; [tauto|done].
Qed.

Lemma accounted_end now id f t w e l s : id ∈ w -> (forall j, terminal (f j) = true /\ dj_UpdatedAt (f j) = time_unix now) ->
  accounted (MkJobs t w e l s) id -> accounted (MkJobs (alter f id t) (w ∖ {[id]}) (<[id := now]> e) l s) id.
Proof.
  intros Hw Hf H. destruct (accounted_worker _ _ _ _ _ _ Hw H) as (j & Hj & _ & _ & Hl).
  unfold accounted. cbn. rewrite lookup_alter_eq, Hj. cbn. right. destruct (Hf j) as [H1 H2]. split_and!; [done|set_solver|done|].
  exists now. by rewrite lookup_insert_eq.
Qed.

Inductive jsteps : State -> State -> Prop :=
| jsteps_nil st : jsteps st st
| jsteps_cons st1 st2 st3 : jsteps st1 st2 -> jstep st2 st3 -> jsteps st1 st3.

Definition no_jobs : State := MkJobs ∅ ∅ ∅ ∅ [].

Lemma accounted_step st st' : jstep st st' -> (forall id, accounted st id) -> forall id, accounted st' id.
Proof.
  intros Hs H id. destruct Hs as [now i owner name pool t w e l s Ht Hw He Hl|now i pct stage t w e l s Hw|now i pct status text a b c d t w e l s Hw Hb
    |now with_pool i r t w e l s Hw|now i pct status text t w e l s Hw Hb|i t w e l s Hw|now t w e l s]; specialize (H id).
  - destruct (decide (i = id)) as [->|Hne].
    + unfold accounted. cbn. unfold submitJob, storeJob. cbn. rewrite lookup_insert_eq. left. split_and!; [done|set_solver|done].
    + eapply accounted_same, H; cbn; try done; [by rewrite lookup_insert_ne|set_solver].
  - destruct (decide (i = id)) as [->|Hne]; [by apply accounted_busy|by apply (accounted_other i id _ t w w e)].
  - destruct (decide (i = id)) as [->|Hne]; [|by apply (accounted_other i id _ t w w e)].
    apply accounted_busy; [done| |done]. intros j _. unfold terminal. cbn [dj_Status advance]. by apply negb_true_iff.
  - destruct (decide (i = id)) as [->|Hne].
    + destruct r as [r|x]; apply accounted_end; done.
    + destruct r as [r|x]; apply (accounted_other i id _ t w _ e); try done; [set_solver|by rewrite lookup_insert_ne|set_solver|by rewrite lookup_insert_ne].
  - destruct (decide (i = id)) as [->|Hne].
    + apply accounted_end; [done| |done]. intros j. split; [|done]. unfold terminal. cbn [dj_Status advance]. by apply negb_false_iff.
    + apply (accounted_other i id _ t w _ e); try done; [set_solver|by rewrite lookup_insert_ne].
  - destruct (decide (i = id)) as [->|Hne].
    + destruct (accounted_worker _ _ _ _ _ _ Hw H) as (j & Hj & Ht & He & Hl). unfold accounted. cbn. rewrite Hj. left.
      split_and!; [done|set_solver|done].
    + eapply accounted_same, H; cbn; try done; set_solver.
  - unfold accounted in *. cbn [js_table js_workers js_ended js_panicked js_sweeps] in *. rewrite pruneExpiredJobs_lookup.
    destruct (t !! id) as [j|] eqn:Ej.
    + destruct (expired _ j) eqn:Ex; [|exact H]. unfold expired in Ex. apply andb_prop in Ex as [Ex Hx]. apply andb_prop in Ex as [Hterm _].
      destruct H as [(Ht & _)|(_ & Hw & Hl & t0 & H0 & Hu)]; [congruence|]. split_and!; [done..|]. intros t1 [= <-]%(eq_trans (eq_sym H0)).
      exists now. split; [by left|]. apply Z.leb_le in Hx. lia.
    + destruct H as (Hw & Hl & H). split_and!; [done..|]. intros t0 Ht0. destruct (H t0 Ht0) as (n & Hn & Hle). exists n. split; [by right|done].
Qed.


(** Reading one job and listing all agree: a caller gets exactly the jobs
    without an owner and its own, and an administrator every one. *)
Theorem jobs_private c jobs :
  (forall id j, GetDownloadJob c id jobs = Some j <-> jobs !! id = Some j /\ may_read c j = true) /\
  (forall j, j ∈ ListJobs c jobs <-> exists id, GetDownloadJob c id jobs = Some j).
Proof.
  assert (forall id j, GetDownloadJob c id jobs = Some j <-> jobs !! id = Some j /\ may_read c j = true) as H.
  { intros id j. unfold GetDownloadJob, getJob, may_read. destruct (jobs !! id) as [j'|]; [|by split; [|intros []]].
    destruct (nonempty (dj_Owner j')) eqn:En, (isJobOwnerOrAdmin c (dj_Owner j')) eqn:Eo; cbn;
      (split; [intros [= <-] || done|intros [[= <-] Hr]]); rewrite ?En, ?Eo in *; done. }
  split; [exact H|]. intros j. unfold ListJobs. rewrite list_elem_of_In, filter_In, <- list_elem_of_In, list_elem_of_fmap. split.
  - intros [([id j'] & -> & Hin%elem_of_map_to_list) Hr]. exists id. apply H. split; [done|]. unfold may_read.
    by rewrite negb_andb, negb_involutive in Hr.
  - intros [id [Hj Hr]%H]. split; [exists (id, j); by rewrite elem_of_map_to_list|]. by rewrite negb_andb, negb_involutive.
Qed.
End Jobs.

(** ** Concrete tables *)
Module JobsDemo.
Definition pct (n : Z) : Z := n.
Definition nonneg (n : Z) : bool := 0 <=? n.
Definition at_s (n : Z) : Z := n * second.
Definition submit (n : Z) (id owner : string) := submitJob pct (at_s n) id owner "clone" "".
Definition two : gmap string (@DownloadJob Z) := submit 10 "b" "bob" (submit 10 "a" "ann" ∅).
Definition ended := finish_job pct (at_s 20) false "a" (Ok "vm1") two.

Example bob_sees_his : map dj_ID (ListJobs (MkCaller "bob" RoleOperator) two) = ["b"] /\ map dj_Status (ListJobs (MkCaller "bob" RoleOperator) two) = ["running"].
Proof. split; vm_compute; reflexivity. Qed.
(** A running job outlives any sweep, also when its worker has panicked and will
    never end it; an ended one goes after a day. *)
Example sweep_takes_ended : map fst (map_to_list (pruneExpiredJobs (at_s 86420) jobTTL ended).2) = ["b"].
Proof. vm_compute. reflexivity. Qed.
Example sweep_waits_a_day : (pruneExpiredJobs (at_s 86419) jobTTL ended).1 = 0.
Proof. vm_compute. reflexivity. Qed.

Definition after_a_day : State := MkJobs (pruneExpiredJobs (at_s 86420) jobTTL ended).2 (((∅ ∪ {[ "a" ]}) ∪ {[ "b" ]}) ∖ {[ "a" ]} : gset string) (<["a" := at_s 20]> ∅) ∅ [at_s 86420].
Lemma history : jsteps pct nonneg no_jobs after_a_day.
Proof.
  eapply jsteps_cons; [|apply Sweep]. eapply jsteps_cons; [|unfold ended; apply Finish; set_solver].
  eapply jsteps_cons; [|apply Submit; [vm_compute; reflexivity|set_solver|apply lookup_empty|set_solver]].
  eapply jsteps_cons; [apply jsteps_nil|apply Submit; [apply lookup_empty|set_solver|apply lookup_empty|set_solver]].
Qed.
End JobsDemo.

