(* ===== verification/Download.v ===== *)
(** * Download: what the server fetches for a user

    Models [api/storage_download_client.go]: names of files, addresses that are
    never dialled, the client that checks them for every connection and every
    redirect, and the copy into a new file.  [net/url], the resolver, the network
    and the other end are parameters, each question to the resolver answered on
    its own; so are the floats of progress and speed. *)

From S2P Require Export Jobs ImgSafe.
Open Scope Z_scope.

(** ** Names *)

Definition has_any (l : list ascii) (s : string) : bool := existsb (fun c => contains_byte c s) l.

Definition safeISOFilename (name : string) : res string string :=
  let trimmed := trim_space name in
  if String.eqb trimmed "" then Err "filename is required"
  else if has_any ["/"; "\"]%char trimmed then Err "filename must not contain path separators"
  else if contains_str ".." trimmed then Err "filename must not contain '..'"
  else if has_any ["000"; "010"; "013"; "009"]%char trimmed then Err "filename contains invalid characters"
  else
    let cleaned := Base trimmed in
    if String.eqb cleaned "" || String.eqb cleaned "." || String.eqb cleaned "/" then Err "invalid filename" else Ok cleaned.

(** ** New files *)

Inductive create_err := BadFileName | NotCreated | Taken.
(** [os.O_EXCL]: the empty file, unless there is one of the name. *)
Definition CreateExclusive (create_ok : bool) (destPath : string) (files : gmap string string) : res create_err (gmap string string) :=
  if negb (exclusive_name (Base destPath)) then Err BadFileName
  else if negb create_ok then Err NotCreated
  else match files !! destPath with Some _ => Err Taken | None => Ok (<[destPath := ""]> files) end.

(** ** Addresses *)

(** The bytes of an IPv4 and of an IPv6 address. *)
Definition b4 (i : Z) (v : Z) : Z := Z.land (Z.shiftr v (24 - 8 * i)) 255.
Definition b16 (i : Z) (a : ip) : Z := Z.land (Z.shiftr a (120 - 8 * i)) 255.

(** Of package [net]. *)
Definition IsLinkLocalUnicast (a : ip) : bool :=
  match to4 a with
  | Some v => (b4 0 v =? 169) && (b4 1 v =? 254)
  | None => (b16 0 a =? 254) && (Z.land (b16 1 a) 192 =? 128)
  end.
Definition IsLinkLocalMulticast (a : ip) : bool :=
  match to4 a with
  | Some v => (b4 0 v =? 224) && (b4 1 v =? 0) && (b4 2 v =? 0)
  | None => (b16 0 a =? 255) && (Z.land (b16 1 a) 15 =? 2)
  end.
Definition IsMulticast (a : ip) : bool :=
  match to4 a with Some v => Z.land (b4 0 v) 240 =? 224 | None => b16 0 a =? 255 end.
Definition IsUnspecified (a : ip) : bool := (a =? of4 0) || (a =? 0).
Definition IsPrivate (a : ip) : bool :=
  match to4 a with
  | Some v => (b4 0 v =? 10) || ((b4 0 v =? 172) && (Z.land (b4 1 v) 240 =? 16)) || ((b4 0 v =? 192) && (b4 1 v =? 168))
  | None => Z.land (b16 0 a) 254 =? 252
  end.

Definition isBlockedIP (a : ip) : bool :=
  if IsLoopback a || IsLinkLocalUnicast a || IsLinkLocalMulticast a || IsMulticast a || IsUnspecified a || IsPrivate a then true else
  match to4 a with
  | Some v =>
      if (b4 0 v =? 169) && (b4 1 v =? 254) then true
      else if (b4 0 v =? 100) && (64 <=? b4 1 v) && (b4 1 v <=? 127) then true
      else (b4 0 v =? 0) || ((b4 0 v =? 198) && ((b4 1 v =? 18) || (b4 1 v =? 19))) || (240 <=? b4 0 v)
  | None =>
      (b16 0 a =? 0) && (b16 1 a =? 100) && (b16 2 a =? 255) && (b16 3 a =? 155)
      && (((b16 4 a =? 0) && (b16 5 a =? 0)) || ((b16 4 a =? 0) && (b16 5 a =? 1)))
  end.

(** ** The client *)

Record URL := MkURL { Scheme : string; URL_Hostname : string; URL_Path : string }.

(** What the other end does with the n-th request: a redirect, with the scheme
    and the text of where to; a reply with its status, its length if it says one,
    its body, and whether the body was read to its end; or nothing. *)
Inductive reply := Redirect (scheme url : string) | Reply (status length : Z) (body : string) (complete : bool) | NoReply.

Section Client.
Context (ParseRequestURI : string -> option URL).
(** The resolver's answer to the n-th question; the [host:port] of a URL;
    whether an address answers; whether the n-th request uses a connection that
    is open. *)
Context (resolve : nat -> string -> option (list ip)) (address : string -> string) (answers : nat -> ip -> string -> bool)
        (reuse : nat -> bool) (serve : nat -> string -> reply).

Record Net := MkNet { asked : nat; dialled : list ip; conns : gmap string ip }.
Abbreviation op := (SE Net string).

Definition LookupIP (host : string) : op (list ip) := fun n =>
  (match resolve (asked n) host with Some l => Ok l | None => Err "lookup" end, MkNet (S (asked n)) (dialled n) (conns n)).

Definition local_name (host : string) : bool := existsb (String.eqb (to_lower host)) ["localhost"; "ip6-localhost"; "ip6-loopback"].

Definition safeDownloadURL (raw : string) : op unit :=
  match ParseRequestURI raw with
  | None => se_fail "invalid URL"
  | Some u =>
      _ ← se_guard (negb (String.eqb (Scheme u) "http") && negb (String.eqb (Scheme u) "https")) "URL scheme must be http or https";
      _ ← se_guard (String.eqb (URL_Hostname u) "") "URL must include a host";
      _ ← se_guard (local_name (URL_Hostname u)) "URL host is not allowed";
      ips ← LookupIP (URL_Hostname u);
      se_guard (existsb isBlockedIP ips) "URL resolves to a blocked address"
  end.

Definition attempt (a : ip) : op unit := fun n => (Ok tt, MkNet (asked n) (dialled n ++ [a]) (conns n)).

(** The loop of [DialContext]; [failed]: an address was tried in vain. *)
Fixpoint dial_each (port : string) (failed : bool) (ips : list ip) : op ip :=
  match ips with
  | [] => se_fail (if failed then "dial" else "connection is not allowed")
  | a :: ips =>
      if isBlockedIP a then dial_each port failed ips else
      n ← se_get;
      _ ← attempt a;
      if answers (length (dialled n)) a port then mret a else dial_each port true ips
  end.
Definition DialContext (addr : string) : op ip :=
  match SplitHostPort addr with
  | None => se_fail "address"
  | Some (host, port) => ips ← LookupIP host; dial_each port false ips
  end.

(** A connection for the n-th request. *)
Definition connect (n : nat) (addr : string) : op unit :=
  s ← se_get;
  if reuse n && bool_decide (is_Some (conns s !! addr)) then mret tt else
  a ← DialContext addr;
  se_modify (fun s => MkNet (asked s) (dialled s) (<[addr := a]> (conns s))).

Definition CheckRedirect (via : nat) (scheme url : string) : op unit :=
  _ ← se_guard (Nat.leb 10 via) "too many redirects";
  _ ← se_guard (negb (String.eqb scheme "http") && negb (String.eqb scheme "https")) "redirect to non-http scheme blocked";
  safeDownloadURL url.

(** [client.Get], the n-th request first. *)
Fixpoint fetch (fuel n : nat) (url : string) : op reply :=
  match fuel with
  | O => se_fail "too many redirects"
  | S fuel =>
      _ ← connect n (address url);
      match serve n url with
      | NoReply => se_fail "no reply"
      | Redirect scheme to => _ ← CheckRedirect (S n) scheme to; fetch fuel (S n) to
      | r => mret r
      end
  end.

(** ** The copy *)

Context {F : Type} (pct_of : Z -> F) (share : Z -> Z -> F) (over100 : F -> bool).
(** Speed and time left at the k-th report; the reads of the body and when they
    come; whether the file can be made and written. *)
Context (rate : nat -> Z * Z) (reads : list (Z * Z)) (create_ok write_ok : bool) (now : Z).

Abbreviation Jobs := (gmap string (@DownloadJob F)).
Record state := MkState { st_net : Net; st_files : gmap string string; st_jobs : Jobs }.
Abbreviation sop := (SE state string).

Definition on_net {A} (m : op A) : sop A := fun s => let '(r, n) := m (st_net s) in (r, MkState n (st_files s) (st_jobs s)).
Definition set_files (f : gmap string string -> gmap string string) : sop unit :=
  se_modify (fun s => MkState (st_net s) (f (st_files s)) (st_jobs s)).
Definition set_jobs (f : Jobs -> Jobs) : sop unit := se_modify (fun s => MkState (st_net s) (st_files s) (f (st_jobs s))).

Definition percent (n total : Z) : F :=
  if 0 <? total then let p := share n total in if over100 p then pct_of 100 else p else pct_of 0.

(** The reports of a copy: at most four in a second until the end. *)
Fixpoint reports (jobID : string) (total : Z) (k : nat) (n last : Z) (reads : list (Z * Z)) (jobs : Jobs) : Jobs :=
  match reads with
  | [] => jobs
  | (len, at_) :: reads =>
      let n := n + len in
      if (len <=? 0) || ((n <? total) && (time_sub at_ last <? 250 * 1000000)) then reports jobID total k n last reads jobs
      else reports jobID total (S k) n at_ reads
             (updateJobFull at_ jobID (percent n total) "downloading" "" n total (rate k).1 (rate k).2 jobs)
  end.

(** [createUploadFile], [CreateExclusive]: never an existing file. *)
Definition createUploadFile (destPath : string) : sop unit :=
  s ← se_get;
  match CreateExclusive create_ok destPath (st_files s) with
  | Ok files => set_files (fun _ => files)
  | Err Taken => se_fail "already exists; refusing to overwrite"
  | Err _ => se_fail "create file"
  end.

Definition downloadWithClient (jobID url destPath : string) (maxBytes : Z) : sop Z :=
  _ ← se_guard (contains_str ".." destPath) "invalid destination path: traversal not allowed";
  r ← on_net (fetch 10 0 url);
  match r with
  | Reply status length body complete =>
      _ ← se_guard (negb (status =? 200)) "HTTP";
      _ ← createUploadFile destPath;
      let total := Z.max 0 length in
      _ ← set_jobs (updateJobFull now jobID (pct_of 0) "downloading" "" 0 total 0 0);
      _ ← set_jobs (reports jobID total 0 0 time_zero reads);
      let n := Z.of_nat (slen body) in
      if maxBytes <? n then _ ← set_files (delete destPath); se_fail (if write_ok then "download exceeds the limit" else "download interrupted")
      else if negb (complete && write_ok) then _ ← set_files (delete destPath); se_fail "download interrupted"
      else _ ← set_files (<[destPath := body]>); mret n
  | _ => se_fail "download failed"
  end.

Definition secureDownloadWithProgress (jobID url destPath : string) (maxBytes : Z) : sop Z :=
  _ ← on_net (safeDownloadURL url); downloadWithClient jobID url destPath maxBytes.
End Client.

(** ** Facts *)

(** The networks that are never dialled. *)
Definition blocked_nets : list ipnet := omap ParseCIDR [
  "0.0.0.0/8"; "10.0.0.0/8"; "100.64.0.0/10"; "127.0.0.0/8"; "169.254.0.0/16"; "172.16.0.0/12"; "192.168.0.0/16";
  "198.18.0.0/15"; "224.0.0.0/4"; "240.0.0.0/4"; "::/128"; "::1/128"; "fc00::/7"; "fe80::/10"; "ff00::/8"; "64:ff9b::/48";
  "64:ff9b:1::/48"].

Lemma land_high x : 0 <= x < 256 -> Z.land x 240 = 16 * (x / 16) /\ Z.land x 192 = 64 * (x / 64) /\ Z.land x 254 = 2 * (x / 2).
Proof.
  intros H. assert (forallb (fun n => let x := Z.of_nat n in (Z.land x 240 =? 16 * (x / 16)) && (Z.land x 192 =? 64 * (x / 64))
    && (Z.land x 254 =? 2 * (x / 2))) (seq 0 256) = true) as Hall by (vm_compute; reflexivity).
  rewrite forallb_forall in Hall. specialize (Hall (Z.to_nat x)). cbn zeta in Hall. rewrite Z2Nat.id in Hall by lia.
  rewrite !andb_true_iff, !Z.eqb_eq in Hall. destruct Hall as [[? ?] ?]; [|done]. apply in_seq. lia.
Qed.

Lemma b4_div i v : 0 <= i <= 3 -> 0 <= v -> b4 i v = v / 2 ^ (24 - 8 * i) mod 256.
Proof. intros Hi Hv. unfold b4. change 255 with (Z.ones 8). rewrite Z.land_ones, Z.shiftr_div_pow2 by lia. done. Qed.
Lemma b16_div i a : 0 <= i <= 15 -> 0 <= a -> b16 i a = a / 2 ^ (120 - 8 * i) mod 256.
Proof. intros Hi Hv. unfold b16. change 255 with (Z.ones 8). rewrite Z.land_ones, Z.shiftr_div_pow2 by lia. done. Qed.

Lemma to4_div a : 0 <= a -> to4 a = if a / 2 ^ 32 =? 65535 then Some (a mod 2 ^ 32) else None.
Proof. intros Ha. unfold to4. rewrite Z.shiftr_div_pow2, Z.land_ones by lia. done. Qed.
Lemma of4_add v : 0 <= v < 2 ^ 32 -> of4 v = 65535 * 2 ^ 32 + v.
Proof.
  intros H. unfold of4, v4_in_v6_prefix. rewrite Z.shiftl_mul_pow2 by lia.
  rewrite <- Z.add_lor_land. replace (Z.land (65535 * 2 ^ 32) v) with 0; [lia|]. symmetry.
  apply Z.bits_inj'. intros i Hi. rewrite Z.land_spec, Z.bits_0. destruct (Z.lt_ge_cases i 32) as [Hlt|Hge]; [by rewrite Z.mul_pow2_bits_low|].
  replace v with (v mod 2 ^ 32) by (apply Z.mod_small; lia). rewrite Z.mod_pow2_bits_high by lia. apply andb_false_r.
Qed.

Lemma bytes4 v : 0 <= v < 2 ^ 32 -> exists x0 x1 x2 x3,
  b4 0 v = x0 /\ b4 1 v = x1 /\ b4 2 v = x2 /\ v = x0 * 2 ^ 24 + x1 * 2 ^ 16 + x2 * 2 ^ 8 + x3 /\
  0 <= x0 < 256 /\ 0 <= x1 < 256 /\ 0 <= x2 < 256 /\ 0 <= x3 < 256.
Proof.
  intros H. exists (b4 0 v), (b4 1 v), (b4 2 v), (v mod 256). rewrite !b4_div by lia. cbn -[Z.div Z.modulo Z.mul Z.add].
  split_and!; try done; Z.to_euclidean_division_equations; lia.
Qed.

Lemma bytes16 a : 0 <= a < 2 ^ 128 -> exists x0 x1 x2 x3 x4 x5 r,
  b16 0 a = x0 /\ b16 1 a = x1 /\ b16 2 a = x2 /\ b16 3 a = x3 /\ b16 4 a = x4 /\ b16 5 a = x5 /\
  a = ((((((x0 * 256 + x1) * 256 + x2) * 256 + x3) * 256) + x4) * 256 + x5) * 2 ^ 80 + r /\
  0 <= x0 < 256 /\ 0 <= x1 < 256 /\ 0 <= x2 < 256 /\ 0 <= x3 < 256 /\ 0 <= x4 < 256 /\ 0 <= x5 < 256 /\ 0 <= r < 2 ^ 80.
Proof.
  intros H. exists (b16 0 a), (b16 1 a), (b16 2 a), (b16 3 a), (b16 4 a), (b16 5 a), (a mod 2 ^ 80). rewrite !b16_div by lia.
  cbn -[Z.div Z.modulo Z.mul Z.add]. split_and!; try done; Z.to_euclidean_division_equations; lia.
Qed.

Lemma div_is v k q : 0 <= v - k * q < k -> v / k = q.
Proof. intros H. symmetry. apply (Z.div_unique_pos _ _ _ (v - k * q)); lia. Qed.

Lemma quotients v x0 x1 x2 x3 : v = x0 * 2 ^ 24 + x1 * 2 ^ 16 + x2 * 2 ^ 8 + x3 ->
  0 <= x0 < 256 -> 0 <= x1 < 256 -> 0 <= x2 < 256 -> 0 <= x3 < 256 ->
  v / 2 ^ 24 = x0 /\ v / 2 ^ 16 = 256 * x0 + x1 /\ v / 2 ^ 22 = 4 * x0 + x1 / 64 /\ v / 2 ^ 20 = 16 * x0 + x1 / 16 /\
  v / 2 ^ 17 = 128 * x0 + x1 / 2 /\ v / 2 ^ 28 = x0 / 16.
Proof.
  intros Hv H0 H1 H2 H3.
  pose proof (Z.mul_div_le x1 64). pose proof (Z.mul_succ_div_gt x1 64). pose proof (Z.mul_div_le x1 16). pose proof (Z.mul_succ_div_gt x1 16).
  pose proof (Z.mul_div_le x1 2). pose proof (Z.mul_succ_div_gt x1 2). pose proof (Z.mul_div_le x0 16). pose proof (Z.mul_succ_div_gt x0 16).
  split_and!; apply div_is; lia.
Qed.

(** Constant shifts and quotients, evaluated. *)
Ltac eval_consts :=
  repeat match goal with
  | |- context [Zpos ?c / 2 ^ ?k] => let y := eval vm_compute in (Zpos c / 2 ^ k) in change (Zpos c / 2 ^ k) with y
  | |- context [Z0 / 2 ^ ?k] => change (Z0 / 2 ^ k) with 0
  end.

Lemma if_orb (b c : bool) : (if b then true else c) = b || c.
Proof. by destruct b. Qed.

(** The test of an IPv4 address on its first two bytes; [c]: it is [0.0.0.0];
    [d]: its third byte is 0. *)
Definition v4_test (x0 x1 : Z) (c d : bool) : bool :=
  ((x0 =? 127) || ((x0 =? 169) && (x1 =? 254)) || ((x0 =? 224) && (x1 =? 0) && d) || (Z.land x0 240 =? 224) || c
   || ((x0 =? 10) || ((x0 =? 172) && (Z.land x1 240 =? 16)) || ((x0 =? 192) && (x1 =? 168))))
  || (((x0 =? 169) && (x1 =? 254)) || (((x0 =? 100) && (64 <=? x1) && (x1 <=? 127))
   || ((x0 =? 0) || ((x0 =? 198) && ((x1 =? 18) || (x1 =? 19))) || (240 <=? x0)))).
Definition v4_nets (x0 x1 : Z) : bool :=
  (x0 =? 0) || ((x0 =? 10) || ((4 * x0 + x1 / 64 =? 401) || ((x0 =? 127) || ((256 * x0 + x1 =? 43518) || ((16 * x0 + x1 / 16 =? 2753)
  || ((256 * x0 + x1 =? 49320) || ((128 * x0 + x1 / 2 =? 25353) || ((x0 / 16 =? 14) || (x0 / 16 =? 15))))))))).

Lemma v4_table x0 x1 c d : 0 <= x0 < 256 -> 0 <= x1 < 256 -> (c = true -> x0 = 0) -> v4_test x0 x1 c d = v4_nets x0 x1.
Proof.
  intros H0 H1 Hc. assert (forallb (fun i => forallb (fun j => let x0 := Z.of_nat i in let x1 := Z.of_nat j in
    Bool.eqb (v4_test x0 x1 false false) (v4_nets x0 x1) && Bool.eqb (v4_test x0 x1 false true) (v4_nets x0 x1)) (seq 0 256)) (seq 0 256) = true) as H
    by (vm_compute; reflexivity).
  rewrite forallb_forall in H. specialize (H (Z.to_nat x0) ltac:(apply in_seq; lia)). cbv beta in H.
  rewrite forallb_forall in H. specialize (H (Z.to_nat x1) ltac:(apply in_seq; lia)). cbn zeta in H.
  rewrite !Z2Nat.id in H by lia. apply andb_prop in H as [Hf%eqb_prop Ht%eqb_prop].
  destruct c; [|by destruct d]. rewrite (Hc eq_refl) in *. unfold v4_test, v4_nets. cbn. by rewrite !orb_true_r.
Qed.

(** The addresses the server refuses to fetch from are exactly those of the
    listed networks: this host, private, link-local, carrier, benchmark,
    multicast and reserved ones, and what a translator maps into IPv4. *)
Theorem isBlockedIP_exact a : 0 <= a < 2 ^ 128 -> isBlockedIP a = existsb (fun n => Contains n a) blocked_nets.
Proof.
  intros Ha. assert (blocked_nets = ltac:(let x := eval vm_compute in blocked_nets in exact x)) as -> by (vm_compute; reflexivity).
  unfold isBlockedIP, IsLoopback, IsLinkLocalUnicast, IsLinkLocalMulticast, IsMulticast, IsUnspecified, IsPrivate, Contains.
  cbn [existsb net_v4 net_addr net_plen]. rewrite !(to4_div a) by lia.
  repeat match goal with |- context [to4 ?x] => let y := eval vm_compute in (to4 x) in change (to4 x) with y end. cbv iota beta.
  rewrite of4_add by lia.
  destruct (Z.eqb_spec (a / 2 ^ 32) 65535) as [E|E].
  - set (v := a mod 2 ^ 32). assert (0 <= v < 2 ^ 32) as Hv by (subst v; apply Z.mod_pos_bound; lia).
    assert (a = 65535 * 2 ^ 32 + v) as Ev by (subst v; Z.to_euclidean_division_equations; lia). clearbody v. subst a.
    destruct (bytes4 v Hv) as (x0 & x1 & x2 & x3 & -> & -> & -> & Hx & H0 & H1 & H2 & H3).
    cbn [andb negb orb]. rewrite !orb_false_r, !if_orb, !Z.shiftr_div_pow2 by lia.
    eval_consts. change (32 - 8) with 24. change (32 - 10) with 22. change (32 - 16) with 16. change (32 - 12) with 20.
    change (32 - 15) with 17. change (32 - 4) with 28.
    assert (v / 2 ^ 24 = x0 /\ v / 2 ^ 16 = 256 * x0 + x1 /\ v / 2 ^ 22 = 4 * x0 + x1 / 64 /\ v / 2 ^ 20 = 16 * x0 + x1 / 16 /\
      v / 2 ^ 17 = 128 * x0 + x1 / 2 /\ v / 2 ^ 28 = x0 / 16) as (-> & -> & -> & -> & -> & ->)
      by (apply (quotients v x0 x1 x2 x3); done).
    replace ((65535 * 2 ^ 32 + v =? 65535 * 2 ^ 32 + 0) || (65535 * 2 ^ 32 + v =? 0)) with (v =? 0) by (clear -Hv; lia).
    apply v4_table; [done..|]. intros ->%Z.eqb_eq. lia.
  - destruct (bytes16 a Ha) as (x0 & x1 & x2 & x3 & x4 & x5 & r & -> & -> & -> & -> & -> & -> & Hx & H0 & H1 & H2 & H3 & H4 & H5 & Hr).
    destruct (land_high x0 H0) as (_ & _ & ->). destruct (land_high x1 H1) as (_ & -> & _).
    cbn [andb negb orb]. rewrite !orb_false_r, !if_orb, !Z.shiftr_div_pow2 by lia. eval_consts.
    change (128 - 128) with 0. change (128 - 7) with 121. change (128 - 10) with 118. change (128 - 8) with 120. change (128 - 48) with 80.
    assert (a <> 65535 * 2 ^ 32 + 0) as Hne by (intros ->; apply E; reflexivity).
    rewrite (proj2 (Z.eqb_neq _ _) Hne). clear E Hne. cbn [orb].
    assert (a / 2 ^ 80 = ((((x0 * 256 + x1) * 256 + x2) * 256 + x3) * 256 + x4) * 256 + x5) as -> by (apply div_is; lia).
    assert (a / 2 ^ 120 = x0) as -> by (apply div_is; lia).
    pose proof (Z.mul_div_le x1 64 ltac:(lia)). pose proof (Z.mul_succ_div_gt x1 64 ltac:(lia)).
    pose proof (Z.mul_div_le x0 2 ltac:(lia)). pose proof (Z.mul_succ_div_gt x0 2 ltac:(lia)).
    assert (a / 2 ^ 121 = x0 / 2) as -> by (apply div_is; lia). assert (a / 2 ^ 118 = 4 * x0 + x1 / 64) as -> by (apply div_is; lia).
    change (a / 2 ^ 0) with (a / 1). rewrite Z.div_1_r. set (q := x1 / 64) in *. set (h := x0 / 2) in *. set (c := Z.land x1 15 =? 2). clearbody q h c.
    apply eq_true_iff_eq. destruct c; repeat rewrite ?orb_true_iff, ?andb_true_iff, ?Z.eqb_eq; split; intros G;
      repeat match type of G with _ \/ _ => destruct G as [G|G] end; lia.
Qed.

(** ** Names that are accepted *)

Lemma Base_comp c : comp c -> Base c = c.
Proof.
  intros Hc. unfold Base. destruct (String.eqb_spec c "") as [->|Hne]; [by destruct Hc|].
  change c with ("" +:+ c). rewrite trim_right_set_no by apply Hc. rewrite (proj2 (last_index_byte_None _ _)) by apply Hc.
  cbn. by rewrite (proj2 (String.eqb_neq _ _) Hne).
Qed.

Lemma no_dotdot_ne c : contains_str ".." c = false -> c <> "..".
Proof. intros H ->. done. Qed.

Lemma safeISOFilename_comp n c : safeISOFilename n = Ok c -> comp c /\ contains_str ".." c = false.
Proof.
  unfold safeISOFilename. set (t := trim_space n). destruct (String.eqb_spec t "") as [|Hne]; [done|].
  destruct (has_any ["/"; "\"]%char t) eqn:Hs; [done|]. unfold has_any in Hs. cbn [existsb] in Hs. apply orb_false_elim in Hs as [Hs _].
  destruct (contains_str ".." t) eqn:Hd; [done|]. destruct (has_any _ t); [done|].
  destruct (String.eqb_spec t ".") as [->|Hdot]; [done|].
  assert (comp t) as Ht by (split_and!; [done..|by apply no_dotdot_ne|done]). rewrite (Base_comp _ Ht).
  destruct (_ || _); [done|]. by intros [= <-].
Qed.

(** ** The client *)

Definition grows (n n' : Net) : Prop := exists l, dialled n' = dialled n ++ l /\ Forall (fun a => isBlockedIP a = false) l.

Create HintDb grows discriminated.

Lemma grows_refl n : grows n n.
Proof. exists []. by rewrite app_nil_r. Qed.
Lemma grows_same n n' : dialled n' = dialled n -> grows n n'.
Proof. intros E. exists []. by rewrite app_nil_r. Qed.
Lemma grows_trans n1 n2 n3 : grows n1 n2 -> grows n2 n3 -> grows n1 n3.
Proof. intros (l & E & H) (k & E' & H'). exists (l ++ k). rewrite E', E, app_assoc. split; [done|by apply Forall_app]. Qed.

Lemma grows_bind {A B} (m : SE Net string A) (f : A -> SE Net string B) :
  se_within grows m -> (forall a, se_within grows (f a)) -> se_within grows (m ≫= f).
Proof. apply se_within_bind; [exact grows_trans|done]. Qed.
Lemma grows_guard c (e : string) : se_within grows (se_guard c e).
Proof. intros n. apply grows_refl. Qed.
Lemma grows_fail {A} (e : string) : se_within grows (se_fail (A := A) e).
Proof. intros n. apply grows_refl. Qed.
Lemma grows_ret {A} (a : A) : se_within grows (mret a : SE Net string A).
Proof. intros n. apply grows_refl. Qed.
#[local] Hint Resolve grows_bind grows_guard grows_fail grows_ret : grows.

Section ClientFacts.
Context (ParseRequestURI : string -> option URL).
Context (resolve : nat -> string -> option (list ip)) (address : string -> string) (answers : nat -> ip -> string -> bool)
        (reuse : nat -> bool) (serve : nat -> string -> reply).

Lemma grows_lookup h : se_within grows (LookupIP resolve h).
Proof. intros n. by apply grows_same. Qed.
#[local] Hint Resolve grows_lookup : grows.

Lemma grows_safe url : se_within grows (safeDownloadURL ParseRequestURI resolve url).
Proof. unfold safeDownloadURL. destruct (ParseRequestURI url); eauto 8 with grows. Qed.
#[local] Hint Resolve grows_safe : grows.

Lemma grows_dial port : forall ips failed, se_within grows (dial_each answers port failed ips).
Proof.
  induction ips as [|a ips IH]; intros failed; [apply grows_fail|]. cbn [dial_each]. destruct (isBlockedIP a) eqn:E; [apply IH|].
  apply grows_bind; [intros n; apply grows_refl|]. intros n. apply grows_bind; [|intros _; by destruct (answers _ _ _); [apply grows_ret|apply IH]].
  intros n'. exists [a]. by rewrite Forall_singleton.
Qed.

Lemma grows_connect n addr : se_within grows (connect resolve answers reuse n addr).
Proof.
  unfold connect. apply grows_bind; [intros s; apply grows_refl|]. intros s. destruct (_ && _); [apply grows_ret|].
  apply grows_bind; [|intros a s'; by apply grows_same]. unfold DialContext. destruct (SplitHostPort addr) as [[h p]|]; [|apply grows_fail].
  apply grows_bind; [apply grows_lookup|intros ips; apply grows_dial].
Qed.

Lemma grows_fetch fuel : forall n url, se_within grows (fetch ParseRequestURI resolve address answers reuse serve fuel n url).
Proof.
  induction fuel as [|fuel IH]; intros n url; [apply grows_fail|]. cbn [fetch]. apply grows_bind; [apply grows_connect|]. intros _.
  destruct (serve n url) as [sch to| |]; [|apply grows_ret|apply grows_fail]. apply grows_bind; [|intros _; apply IH].
  unfold CheckRedirect. eauto 6 with grows.
Qed.

Lemma fetch_S fuel n url : fetch ParseRequestURI resolve address answers reuse serve (S fuel) n url =
  (_ ← connect resolve answers reuse n (address url);
   match serve n url with
   | NoReply => se_fail "no reply"
   | Redirect scheme to => _ ← CheckRedirect ParseRequestURI resolve (S n) scheme to;
                           fetch ParseRequestURI resolve address answers reuse serve fuel (S n) to
   | r => mret r
   end).
Proof. done. Qed.

(** More fuel than ten requests is never used. *)
Lemma fetch_requests fuel : forall n url s, (10 <= n + fuel)%nat -> (fuel <> 0)%nat ->
  fetch ParseRequestURI resolve address answers reuse serve fuel n url s = fetch ParseRequestURI resolve address answers reuse serve (S fuel) n url s.
Proof.
  induction fuel as [|fuel IH]; intros n url s Hf Hne; [done|]. rewrite (fetch_S fuel), (fetch_S (S fuel)), !run_bind.
  destruct (connect _ _ _ _ _ s) as [[[]|e] s1]; [|done]. destruct (serve n url) as [sch to| |]; [|done..]. rewrite !run_bind.
  unfold CheckRedirect. rewrite !run_guard. destruct (Nat.leb_spec 10 (S n)); [done|]. destruct (_ && _); [done|].
  destruct (safeDownloadURL _ _ _ s1) as [[[]|e] s2]; [|done]. destruct fuel as [|fuel]; [lia|]. apply IH; lia.
Qed.

Context {F : Type} (pct_of : Z -> F) (share : Z -> Z -> F) (over100 : F -> bool).
Context (rate : nat -> Z * Z) (reads : list (Z * Z)) (create_ok write_ok : bool) (now : Z).
Abbreviation Download := (secureDownloadWithProgress ParseRequestURI resolve address answers reuse serve pct_of share over100
  rate reads create_ok write_ok now).

Lemma run_on_net {A B} (m : SE Net string A) (f : A -> SE (@state F) string B) s :
  (on_net m ≫= f) s = match m (st_net s) with (Ok a, n) => f a (MkState n (st_files s) (st_jobs s))
                                            | (Err e, n) => (Err e, MkState n (st_files s) (st_jobs s)) end.
Proof. rewrite run_bind. unfold on_net. by destruct (m (st_net s)) as [[a|e] n]. Qed.

(** Whatever the resolver answers each time, the servers reply and redirect
    to, every address that is dialled is public; a file that was there is never
    touched; a download that succeeds leaves the whole body of the reply, at most
    [maxBytes] long, in a file that was not there, and one that fails leaves the
    files as they were. *)
Theorem download_safe jobID url dest maxBytes s : let '(r, s') := Download jobID url dest maxBytes s in
  grows (st_net s) (st_net s') /\
  match r with
  | Ok n => st_files s !! dest = None /\ exists body, st_files s' = <[dest := body]> (st_files s) /\ n = Z.of_nat (slen body) /\ n <= maxBytes
  | Err _ => st_files s' = st_files s
  end.
Proof.
  unfold secureDownloadWithProgress. rewrite run_on_net. pose proof (grows_safe url (st_net s)) as H1.
  destruct (safeDownloadURL _ _ _ _) as [[[]|e] n1]; [|done]. unfold downloadWithClient. rewrite run_guard.
  destruct (contains_str ".." dest); [done|]. rewrite run_on_net. cbn [st_net st_files st_jobs].
  pose proof (grows_fetch 10 0 url n1) as H2. cbn [snd] in H1. destruct (fetch _ _ _ _ _ _ _ _ _ _) as [[r|e] n2]; cbn [snd] in H2.
  2:{ split; [by apply (grows_trans _ n1)|done]. }
  assert (grows (st_net s) n2) as Hg by (by apply (grows_trans _ n1)). clear H1 H2.
  destruct r as [sch to|status len body complete|]; [done| |done]. rewrite run_guard. destruct (negb (status =? 200)); [done|].
  rewrite run_bind. unfold createUploadFile, CreateExclusive. rewrite run_get. cbn [st_files]. destruct (negb (exclusive_name _)); [done|].
  destruct (negb create_ok); [done|]. destruct (st_files s !! dest) eqn:Hd; [done|].
  unfold set_files, set_jobs, se_modify. rewrite !run_bind. cbn [st_files st_net st_jobs].
  destruct (Z.ltb_spec maxBytes (Z.of_nat (slen body))).
  { rewrite run_bind. cbn. split; [done|]. by rewrite delete_insert_eq, delete_id. }
  destruct (negb _); [rewrite run_bind; cbn; split; [done|by rewrite delete_insert_eq, delete_id]|].
  rewrite run_bind. cbn. split; [done|]. split; [done|]. exists body. by rewrite insert_insert_eq.
Qed.
End ClientFacts.

(** ** Concrete downloads *)
Module DownloadDemo.
Definition addr (s : string) : ip := default 0 (ParseIP s).
Definition uri (s : string) : option URL :=
  if String.eqb s "http://mirror.example/a.iso" then Some (MkURL "http" "mirror.example" "/a.iso")
  else if String.eqb s "http://169.254.169.254/" then Some (MkURL "http" "169.254.169.254" "/") else None.
Definition host_port (s : string) : string := if String.eqb s "http://mirror.example/a.iso" then "mirror.example:80" else "169.254.169.254:80".
(** A resolver that turns to the inside from the second question on. *)
Definition rebind (n : nat) (h : string) : option (list ip) :=
  match n with O => Some [addr "93.184.216.34"] | _ => Some [addr "10.0.0.1"] end.
Definition honest (n : nat) (h : string) : option (list ip) :=
  if String.eqb h "mirror.example" then Some [addr "93.184.216.34"] else option_map (fun a => [a]) (ParseIP h).
Definition up (n : nat) (a : ip) (port : string) : bool := true.
Definition fresh (n : nat) : bool := false.
Definition start (files : gmap string string) : @state Z := MkState (MkNet 0 [] ∅) files ∅.
Definition get resolve serve (max : Z) (files : gmap string string) :=
  secureDownloadWithProgress uri resolve host_port up fresh serve (fun n => n) (fun n t => n * 100 / t) (fun p => 100 <? p)
    (fun _ => (0, 0)) [(4, second)] true true second "dl_1" "http://mirror.example/a.iso" "/pools/isos/a.iso" max (start files).
Definition body (n : nat) (url : string) : reply := Reply 200 4 "DATA" true.
Definition to_metadata (n : nat) (url : string) : reply := match n with O => Redirect "http" "http://169.254.169.254/" | _ => body n url end.
Definition loop (n : nat) (url : string) : reply := Redirect "http" "http://mirror.example/a.iso".

Example fetched : (get honest body 10 ∅).1 = Ok 4 /\ st_files (get honest body 10 ∅).2 = {[ "/pools/isos/a.iso" := "DATA" ]} /\ dialled (st_net (get honest body 10 ∅).2) = [addr "93.184.216.34"].
Proof. split_and!; vm_compute; reflexivity. Qed.
Example rebinding_refused : (get rebind body 10 ∅).1 = Err "connection is not allowed" /\ dialled (st_net (get rebind body 10 ∅).2) = [].
Proof. split_and!; vm_compute; reflexivity. Qed.
Example metadata_refused : (get honest to_metadata 10 ∅).1 = Err "URL resolves to a blocked address".
Proof. vm_compute. reflexivity. Qed.
Example loop_ends : let r := get honest loop 10 ∅ in r.1 = Err "too many redirects" /\ length (dialled (st_net r.2)) = 10%nat.
Proof. split_and!; vm_compute; reflexivity. Qed.
Example too_long_leaves_nothing : (get honest body 3 ∅).1 = Err "download exceeds the limit" /\ st_files (get honest body 3 ∅).2 = ∅.
Proof. split_and!; vm_compute; reflexivity. Qed.
Example not_overwritten : (get honest body 10 {[ "/pools/isos/a.iso" := "OLD" ]}).1 = Err "already exists; refusing to overwrite".
Proof. vm_compute. reflexivity. Qed.
End DownloadDemo.

Lemma isBlockedIP_exact_witness : isBlockedIP (DownloadDemo.addr "169.254.169.254") = true /\ isBlockedIP (DownloadDemo.addr "93.184.216.34") = false.
Proof.
  split; (rewrite (isBlockedIP_exact (DownloadDemo.addr _)); [vm_compute; reflexivity|]); vm_compute; split; discriminate || reflexivity.
Defined.
