(* ===== verification/Uploads.v ===== *)
(** * Uploads: images that users bring

    Models [api/storage_uploads.go], with the guards of [api/storage_pools.go]
    and [api/media_scope.go]: ISO images and disk images into a pool, archives
    with a disk in them, and downloads as jobs.  The back end, the disk, the tar
    reader and [qemu-img] are parameters; a pool is a directory of files. *)

From S2P Require Export Users Download.
From S2P Require Quota.
Open Scope Z_scope.

Definition PoolPurposeBackup : string := "backup".
Definition PoolPurposeTemplate : string := "template".

Definition purposeSuffixes : list (string * string) :=
  [("-vdi", PoolPurposeDisk); ("-discos", PoolPurposeDisk); ("-isos", PoolPurposeISO); ("-containers", PoolPurposeContainer);
   ("-contenedores", PoolPurposeContainer); ("-backups", PoolPurposeBackup); ("-plantillas", PoolPurposeTemplate);
   ("-templates", PoolPurposeTemplate)].
Definition InferPoolPurpose (name : string) : string :=
  let lower := to_lower name in
  match List.find (fun s => has_suffix s.1 lower) purposeSuffixes with
  | Some s => s.2
  | None => if contains_str "iso" lower then PoolPurposeISO else PoolPurposeDisk
  end.

Definition ISOPoolName : string := "webkvm-isos".
Definition DiskPoolName : string := "webkvm-disks".

(** What the registry says of a volume. *)
Inductive registry := Registered | Unregistered | Unclear.

(** A part of a multipart body; [pt_complete]: it was read to its end. *)
Record Part := MkPart { pt_form : string; pt_file : string; pt_data : string; pt_complete : bool }.
Record Uploaded := MkUploaded { up_name : string; up_path : string; up_size : Z; up_pool : string }.

Record TarEntry := MkEntry_ { te_name : string; te_regular : bool; te_data : string; te_complete : bool }.

(** [strings.ContainsAny(s, "/\\") || Contains(s, "..")] *)
Definition traverses (s : string) : bool := contains_str ".." s || contains_byte "/" s || contains_byte "\" s.

Section Uploads.
Context {W : Type} (store : option (@Users.Store W)) (backend : option Quota.Backend) (compute : option Compute).
Context (GetPoolPath : string -> option string) (volume : string -> string -> registry) (RefreshPool : string -> bool).
Context (EvalSymlinks : string -> option string) (sameFile : string -> string -> bool).
(** [qemu-img]: whether it is installed, what it says of a content read as a
    format, and what a conversion makes of it. *)
Context (Available : bool) (info : string -> string -> option Info) (convert : string -> string -> option string).
Context (create_ok write_ok : string -> bool) (remove_ok : string -> bool).
(** The entries of a tar archive up to its end or an error; the random name of a
    working directory, if it can be made. *)
Context (untar : string -> list TarEntry) (workdir : string -> option string).

Abbreviation Files := (gmap string string).
Abbreviation op := (SE Files Z).

Definition accounts : option (string -> option User) :=
  match store with None => None | Some s => Some (fun u => match Users.Get u s with Ok a => Some a | Err _ => None end) end.

(** ** Guards *)

Definition requireISOPool (name : string) : bool :=
  HasPurpose (match lookupPoolPurpose compute name with Some p => p | None => InferPoolPurpose name end) PoolPurposeISO.
Definition requireDiskPool (name : string) : bool :=
  match lookupPoolPurpose compute name with Some p => HasPurpose p PoolPurposeDisk | None => false end.
(** The status of a refusal. *)
Definition requireISOPoolForCaller (c : Caller) (name : string) : res Z unit :=
  if negb (requireISOPool name) then Err 400
  else if negb (poolVisibleTo accounts c name) then Err 403 else Ok tt.

(** Where a file of the pool goes. *)
Definition pool_dest (pool name : string) : res Z string :=
  match GetPoolPath pool with
  | None => Err 500
  | Some poolPath =>
      if contains_str ".." poolPath then Err 400 else
      let dest := GoPath.Join [poolPath; name] in
      if contains_str ".." dest then Err 400 else
      match Rel poolPath dest with
      | None => Err 400
      | Some rel => if has_prefix ".." rel then Err 400 else Ok dest
      end
  end.

(** ** New files, and those of uploads that failed *)

Definition create_status (e : create_err) : Z := match e with Taken => 409 | _ => 500 end.

Definition create (dest : string) : op unit := fun files =>
  match CreateExclusive (create_ok dest) dest files with Ok files => (Ok tt, files) | Err e => (Err (create_status e), files) end.

(** A file of the name is replaced only when no pool lists it and no machine
    uses it. *)
Definition ghost (pool name : string) : bool :=
  match volume pool name with
  | Unregistered => match compute with
                    | None => false
                    | Some c => match FindVolumeAttachments c pool name with Some [] => true | _ => false end
                    end
  | _ => false
  end.

Definition createUploadFileOverwriteExisting (dest pool : string) : op unit := fun files =>
  match CreateExclusive (create_ok dest) dest files with
  | Ok files => (Ok tt, files)
  | Err Taken =>
      if negb (ghost pool (Base dest)) then (Err 409, files)
      else if negb (remove_ok dest) then (Err 500, files)
      else create dest (delete dest files)
  | Err e => (Err (create_status e), files)
  end.

(** [io.Copy] into the new file. *)
Definition fill (dest data : string) (complete : bool) : op unit := fun files =>
  if complete && write_ok dest then (Ok tt, <[dest := data]> files) else (Err 500, delete dest files).

Definition remove (dest : string) : op unit := se_modify (delete dest).
Definition length_of (s : string) : Z := Z.of_nat (slen s).

(** ** ISO images *)

Definition iso_name (filename : string) : res Z string :=
  match safeISOFilename filename with
  | Err _ => Err 400
  | Ok name => if traverses name then Err 400 else Ok (if String.eqb (Ext name) "" then name +:+ ".iso" else name)
  end.
Definition iso_pool (pool : string) : string := if String.eqb pool "" then ISOPoolName else pool.

Definition store_iso (c : Caller) (filename pool data : string) (complete : bool) : op Uploaded :=
  name ← se_lift (iso_name filename);
  let pool := iso_pool pool in
  _ ← se_guard (traverses pool) 400;
  _ ← se_lift (requireISOPoolForCaller c pool);
  dest ← se_lift (pool_dest pool name);
  _ ← createUploadFileOverwriteExisting dest pool;
  _ ← fill dest data complete;
  mret (MkUploaded name dest (length_of data) pool).

(** [form]: the [pool] field and the [file] field, once the form has been read. *)
Definition UploadISO (c : Caller) (form : option (string * option (string * string))) : op Uploaded :=
  match form with
  | None => se_fail 400
  | Some (_, None) => se_fail 400
  | Some (pool, Some (filename, data)) =>
      u ← store_iso c filename pool data true;
      _ ← se_guard (negb (RefreshPool (up_pool u))) 500; mret u
  end.
Definition UploadISOByCURL (c : Caller) (name pool body : string) (complete : bool) : op Uploaded :=
  store_iso c (if String.eqb name "" then "uploaded.iso" else name) pool body complete.

(** ** Disk images *)

Definition diskUploadExts : list string := [".qcow2"; ".img"; ".raw"; ".qed"; ".vmdk"; ".ova"; ".vdi"; ".vhdx"].
Definition lower_ext (name : string) : string := to_lower (Ext name).

Definition regular (files : Files) (p : string) : option bool := match files !! p with Some _ => Some true | None => None end.
Definition info_of (files : Files) (declared p : string) : option Info := files !! p ≫= info declared.
Definition inspect (files : Files) (p declared : string) : res img_error Info :=
  Inspect EvalSymlinks (regular files) sameFile (info_of files) p declared.

Definition validateUploadedImage (p : string) (files : Files) : bool :=
  let declared := FormatFromExt p in
  if String.eqb declared "" then false
  else if negb Available then String.eqb declared "raw"
  else is_ok (inspect files p declared).

Definition convertToQcow2 (src dst : string) (files : Files) : bool * Files :=
  let declared := FormatFromExt src in
  if negb Available || String.eqb declared "" then (false, files) else
  match Convert EvalSymlinks (regular files) sameFile (info_of files) (fun d p => files !! p ≫= convert d) (create_ok dst) src dst declared files with
  | (None, files) => (true, files)
  | (Some _, files) => (false, files)
  end.

Definition disk_entry (e : TarEntry) : bool :=
  let name := Clean (te_name e) in
  te_regular e && negb (contains_str ".." name || IsAbs name) && existsb (String.eqb (lower_ext name)) [".vmdk"; ".raw"; ".img"; ".qcow2"].

(** The disk in the archive [data] at [ovaPath], converted; the working
    directory is gone afterwards. *)
Definition extractAndConvertOVA (ovaPath data poolPath originalName : string) (files : Files) : option (string * string * Z) * Files :=
  if contains_str ".." ovaPath || contains_str ".." poolPath || traverses originalName then (None, files) else
  let qcow2Name := trim_suffix (Ext originalName) originalName +:+ ".qcow2" in
  let qcow2Path := GoPath.Join [poolPath; qcow2Name] in
  match Rel poolPath qcow2Path with
  | None => (None, files)
  | Some rel =>
      if has_prefix ".." rel then (None, files) else
      match workdir poolPath with
      | None => (None, files)
      | Some dir =>
          match List.find disk_entry (untar data) with
          | None => (None, files)
          | Some e =>
              let disk := GoPath.Join [dir; Base (Clean (te_name e))] in
              if bool_decide (is_Some (files !! disk)) || negb (te_complete e) then (None, files) else
              let inner := <[disk := te_data e]> files in
              if negb (validateUploadedImage disk inner) then (None, files) else
              match convertToQcow2 disk qcow2Path inner with
              | (false, inner) => (None, delete disk inner)
              | (true, inner) =>
                  (match inner !! qcow2Path with Some out => Some (qcow2Path, qcow2Name, length_of out) | None => None end, delete disk inner)
              end
          end
      end
  end.

(** The loop over the parts: the pool named last, and the file stored last with
    its path and its size. *)
Record Loop := MkLoop { lp_pool : string; lp_name : string; lp_dest : string; lp_size : Z }.

Definition disk_pool (pool : string) : string := if String.eqb pool "" then DiskPoolName else pool.

Definition check_owner (c : Caller) (contentLength : Z) (pool : string) : res Z unit :=
  if String.eqb (cl_role c) RoleAdmin then Ok tt else
  match accounts ≫= fun get => get (cl_user c) with
  | None => Err 401
  | Some u =>
      if negb (assertPoolAllowed (Some u) pool) then Err 403
      else if (0 <? contentLength) && negb (is_ok (Quota.checkDiskQuota store backend (cl_user c) {[pool := Quota.bytesToGB contentLength]}))
      then Err 409 else Ok tt
  end.

Definition disk_name (filename : string) : res Z string :=
  match safeISOFilename filename with
  | Err _ => Err 400
  | Ok name => if traverses name || negb (existsb (String.eqb (lower_ext name)) diskUploadExts) then Err 400 else Ok name
  end.

Definition within_quota (c : Caller) (pool : string) (size : Z) : bool :=
  String.eqb (cl_role c) RoleAdmin || is_ok (Quota.checkDiskQuota store backend (cl_user c) {[pool := Quota.bytesToGB size]}).

Definition file_part (c : Caller) (contentLength : Z) (p : Part) (l : Loop) : op Loop :=
  let pool := disk_pool (lp_pool l) in
  _ ← se_guard (traverses pool) 400;
  _ ← se_guard (negb (requireDiskPool pool)) 400;
  name ← se_lift (disk_name (pt_file p));
  _ ← se_lift (check_owner c contentLength pool);
  dest ← se_lift (pool_dest pool name);
  _ ← createUploadFileOverwriteExisting dest pool;
  _ ← fill dest (pt_data p) (pt_complete p);
  if within_quota c pool (length_of (pt_data p)) then mret (MkLoop pool name dest (length_of (pt_data p)))
  else _ ← remove dest; se_fail 409.

(** [None]: the body cannot be read on. *)
Fixpoint each_part (c : Caller) (contentLength : Z) (parts : list (option Part)) (l : Loop) : op Loop :=
  match parts with
  | [] => mret l
  | None :: _ => se_fail 400
  | Some p :: parts =>
      if String.eqb (pt_form p) "pool" then
        let pool := trim_space (take_str 256 (pt_data p)) in
        _ ← se_guard (traverses pool) 400;
        each_part c contentLength parts (MkLoop pool (lp_name l) (lp_dest l) (lp_size l))
      else if negb (String.eqb (pt_form p) "file") then each_part c contentLength parts l
      else l ← file_part c contentLength p l; each_part c contentLength parts l
  end.

Definition repack (l : Loop) : op Loop := fun files =>
  match GetPoolPath (lp_pool l) with
  | None => (Ok l, files)
  | Some poolPath =>
      let ext := lower_ext (lp_name l) in
      if existsb (String.eqb ext) [".vmdk"; ".vdi"; ".vhdx"] then
        let qcow2Name := trim_suffix ext (lp_name l) +:+ ".qcow2" in
        let qcow2Path := GoPath.Join [poolPath; qcow2Name] in
        if contains_str ".." qcow2Path then (Err 400, files) else
        match Rel poolPath qcow2Path with
        | None => (Err 400, files)
        | Some rel =>
            if has_prefix ".." rel then (Err 400, files) else
            match convertToQcow2 (lp_dest l) qcow2Path files with
            | (false, files) => (Ok l, files)
            | (true, files) =>
                let files := delete (lp_dest l) files in
                (Ok (MkLoop (lp_pool l) qcow2Name qcow2Path (match files !! qcow2Path with Some d => length_of d | None => lp_size l end)), files)
            end
        end
      else if String.eqb ext ".ova" then
        match extractAndConvertOVA (lp_dest l) (default "" (files !! lp_dest l)) poolPath (lp_name l) files with
        | (Some (path, name, size), files) => (Ok (MkLoop (lp_pool l) name path size), delete (lp_dest l) files)
        | (None, files) => (Err 400, delete (lp_dest l) files)
        end
      else (Ok l, files)
  end.

Definition vet (l : Loop) : op unit := fun files =>
  if negb (String.eqb (lower_ext (lp_name l)) ".ova") && negb (validateUploadedImage (lp_dest l) files)
  then (Err 400, delete (lp_dest l) files) else (Ok tt, files).

Definition UploadDisk (c : Caller) (contentLength : Z) (body : option (list (option Part))) : op Uploaded :=
  match body with
  | None => se_fail 400
  | Some parts =>
      l ← each_part c contentLength parts (MkLoop "" "" "" 0);
      _ ← se_guard (String.eqb (lp_name l) "") 400;
      _ ← vet l;
      l ← repack l;
      _ ← se_guard (negb (RefreshPool (lp_pool l))) 500;
      mret (MkUploaded (lp_name l) (lp_dest l) (lp_size l) (lp_pool l))
  end.
End Uploads.

(** ** Facts: what an upload may touch *)

Section UploadFacts.
Context {W : Type} (store : option (@Users.Store W)) (backend : option Quota.Backend) (compute : option Compute).
Context (GetPoolPath : string -> option string) (volume : string -> string -> registry) (RefreshPool : string -> bool).
Context (EvalSymlinks : string -> option string) (sameFile : string -> string -> bool).
Context (Available : bool) (info : string -> string -> option Info) (convert : string -> string -> option string).
Context (create_ok write_ok : string -> bool) (remove_ok : string -> bool).
Context (untar : string -> list TarEntry) (workdir : string -> option string).
(** libvirt's pools have absolute paths. *)
Context (Habs : forall pool pp, GetPoolPath pool = Some pp -> IsAbs pp = true).

Abbreviation Files := (gmap string string).

(** A file directly in the directory of a pool, of no file that was there, or
    of one that is unknown to the pool and unused. *)
Definition free (files0 : Files) (p : string) : Prop :=
  exists pool pp n, GetPoolPath pool = Some pp /\ comp n /\ p = GoPath.Join [pp; n] /\
    (files0 !! p = None \/ ghost compute volume pool n = true).
Definition kept (files0 files : Files) : Prop := forall p, files !! p = files0 !! p \/ free files0 p.

Lemma pool_dest_spec pool name dest : comp name -> pool_dest GetPoolPath pool name = Ok dest ->
  exists pp, GetPoolPath pool = Some pp /\ dest = GoPath.Join [pp; name] /\ Base dest = name.
Proof.
  unfold pool_dest. intros Hn. destruct (GetPoolPath pool) as [pp|] eqn:E; [|done]. destruct (contains_str ".." pp); [done|].
  destruct (contains_str ".." (GoPath.Join _)); [done|]. destruct (Rel pp _) as [rel|]; [|done]. destruct (has_prefix ".." rel); [done|].
  intros [= <-]. exists pp. split_and!; [done..|]. destruct (Join_below pp name (Habs _ _ E) Hn) as (l & _ & _ & ->). by apply Base_abs.
Qed.

Lemma pool_dest_clean pool name dest : pool_dest GetPoolPath pool name = Ok dest -> contains_str ".." dest = false.
Proof.
  unfold pool_dest. destruct (GetPoolPath pool) as [pp|]; [|done]. destruct (contains_str ".." pp); [done|].
  destruct (contains_str ".." (GoPath.Join _)) eqn:E; [done|]. destruct (Rel pp _) as [rel|]; [|done]. destruct (has_prefix ".." rel); [done|].
  by intros [= <-].
Qed.

Lemma kept_at files0 files p d : free files0 p -> kept files0 files -> kept files0 (<[p := d]> files).
Proof. intros Hp H q. destruct (decide (q = p)) as [->|Hne]; [by right|]. rewrite lookup_insert_ne by done. apply H. Qed.
Lemma kept_delete files0 files p : free files0 p -> kept files0 files -> kept files0 (delete p files).
Proof. intros Hp H q. destruct (decide (q = p)) as [->|Hne]; [by right|]. rewrite lookup_delete_ne by done. apply H. Qed.

Lemma create_kept files0 pool pp name dest files : GetPoolPath pool = Some pp -> comp name -> dest = GoPath.Join [pp; name] -> Base dest = name ->
  kept files0 files ->
  let '(r, files') := createUploadFileOverwriteExisting compute volume create_ok remove_ok dest pool files in
  kept files0 files' /\ (is_ok r = true -> free files0 dest).
Proof.
  intros Hp Hn Hd Hb H. unfold createUploadFileOverwriteExisting, create, CreateExclusive. rewrite Hb.
  assert (files0 !! dest = None \/ ghost compute volume pool name = true -> free files0 dest) as Hfree by (intros; by exists pool, pp, name).
  destruct (negb (exclusive_name name)); [by split|]. destruct (negb (create_ok dest)); [by split|].
  destruct (files !! dest) as [x|] eqn:Ex.
  - destruct (ghost compute volume pool name) eqn:Eg; [|by split]. cbn [negb]. destruct (negb (remove_ok dest)); [by split|].
    rewrite lookup_delete_eq. cbn. split; [|intros _; apply Hfree; by right]. apply kept_at; [apply Hfree; by right|].
    by apply kept_delete; [apply Hfree; right|].
  - assert (free files0 dest) as Hf by (destruct (H dest) as [E|]; [apply Hfree; left; congruence|done]).
    split; [by apply kept_at|done].
Qed.

Lemma fill_kept files0 dest data complete : free files0 dest -> preserves (kept files0) (fill write_ok dest data complete).
Proof. intros Hf files H. unfold fill. destruct (_ && _); [by apply kept_at|by apply kept_delete]. Qed.

(** Making and filling a file. *)
Lemma stored_kept {B} files0 pool name dest data complete (f : unit -> SE Files Z B) : comp name -> pool_dest GetPoolPath pool name = Ok dest ->
  (free files0 dest -> preserves (kept files0) (f tt)) ->
  preserves (kept files0) (_ ← createUploadFileOverwriteExisting compute volume create_ok remove_ok dest pool;
                           _ ← fill write_ok dest data complete; f tt).
Proof.
  intros Hn Hd Hf files H. destruct (pool_dest_spec _ _ _ Hn Hd) as (pp & Hp & Ed & Hb).
  pose proof (create_kept files0 pool pp name dest files Hp Hn Ed Hb H) as Hc. rewrite run_bind.
  destruct (createUploadFileOverwriteExisting _ _ _ _ _ _ _) as [[[]|e] files1]; [|by apply Hc]. destruct Hc as [Hk Hfree].
  apply (pres_bind (kept files0)); [by apply fill_kept, Hfree|intros []; by apply Hf, Hfree|done].
Qed.

Lemma contains_app_ext n : comp n -> comp (n +:+ ".iso").
Proof.
  intros (H1 & H2 & H3 & H4). split_and!; [by destruct n| | |by rewrite contains_byte_app, H4].
  all: intros E; apply (f_equal slen) in E; rewrite slen_app in E; cbn in E; lia.
Qed.

Lemma iso_name_comp f n : iso_name f = Ok n -> comp n.
Proof.
  unfold iso_name. destruct (safeISOFilename f) as [m|] eqn:E; [|done]. apply safeISOFilename_comp in E as [Hc _].
  destruct (traverses m); [done|]. intros [= <-]. destruct (String.eqb (Ext m) ""); [by apply contains_app_ext|done].
Qed.
Lemma disk_name_comp f n : disk_name f = Ok n -> comp n.
Proof.
  unfold disk_name. destruct (safeISOFilename f) as [m|] eqn:E; [|done]. apply safeISOFilename_comp in E as [Hc _].
  destruct (_ || _); [done|]. by intros [= <-].
Qed.

Lemma iso_kept files0 c filename pool data complete :
  preserves (kept files0) (store_iso store compute GetPoolPath volume create_ok write_ok remove_ok c filename pool data complete).
Proof.
  unfold store_iso. apply pres_bind_lift. intros name Hn%iso_name_comp. apply pres_bind; [apply pres_guard|]. intros _.
  apply pres_bind_lift. intros _ _. apply pres_bind_lift. intros dest Hd.
  apply (stored_kept files0 _ name dest data complete (fun _ => mret _)); [done..|]. intros _. apply pres_ret.
Qed.

(** ** What a disk upload leaves *)

Lemma Join_split pp n : IsAbs pp = true -> comp n -> GoPath.Join [Dir (GoPath.Join [pp; n]); Base (GoPath.Join [pp; n])] = GoPath.Join [pp; n].
Proof.
  intros Ha Hn. destruct (Join_below pp n Ha Hn) as (l & Hl & _ & E). rewrite E, Dir_abs, Base_abs by done.
  destruct (Join_below (abs_path l) n (IsAbs_abs _) Hn) as (k & Hk & E2 & ->). rewrite Clean_abs in E2 by done.
  by apply abs_path_inj in E2 as <-.
Qed.

Lemma prefix_no_byte c a b : contains_byte c (a +:+ b) = false -> contains_byte c a = false.
Proof. rewrite contains_byte_app. by intros [H _]%orb_false_elim. Qed.
Lemma trim_suffix_cut x n : exists t, n = trim_suffix x n +:+ t.
Proof.
  unfold trim_suffix. destruct (has_suffix x n) eqn:E; [|exists ""; by rewrite app_str_nil_r].
  exists (drop_str (slen n - slen x) n). by rewrite take_drop_str.
Qed.
Lemma qcow2_comp x n : comp n -> comp (trim_suffix x n +:+ ".qcow2").
Proof.
  intros (_ & _ & _ & H). destruct (trim_suffix_cut x n) as [t E]. rewrite E in H. apply prefix_no_byte in H.
  split_and!; [by destruct (trim_suffix x n)| | |by rewrite contains_byte_app, H].
  all: intros E'; apply (f_equal slen) in E'; rewrite slen_app in E'; cbn in E'; lia.
Qed.

Abbreviation Inspect_ files := (inspect EvalSymlinks sameFile info files).
Abbreviation to_qcow2 := (convertToQcow2 EvalSymlinks sameFile Available info convert create_ok).

Lemma convert_spec src pp n files : IsAbs pp = true -> comp n ->
  let dst := GoPath.Join [pp; n] in
  let '(b, files') := to_qcow2 src dst files in
  if b then files !! dst = None /\ exists i d out, Inspect_ files src (FormatFromExt src) = Ok i /\ files !! src = Some d /\
              convert (FormatFromExt src) d = Some out /\ files' = <[dst := out]> files
  else files' = files.
Proof.
  intros Ha Hn. cbv zeta. unfold convertToQcow2. destruct (_ || _); [done|]. unfold Convert, inspect. rewrite Join_split by done.
  destruct (Inspect _ _ _ _ src _) as [i|e] eqn:Ei; [|done]. destruct (_ || _); [done|].
  destruct (files !! GoPath.Join [pp; n]) eqn:Ed; [done|]. destruct (files !! src) as [d|] eqn:Es; cbn [mbind option_bind].
  - destruct (convert _ d) as [out|] eqn:Eo; [|by rewrite delete_insert_eq, delete_id]. split; [done|].
    exists i, d, out. split_and!; try done. by rewrite insert_insert_eq.
  - by rewrite delete_insert_eq, delete_id.
Qed.

Abbreviation extract_ := (extractAndConvertOVA EvalSymlinks sameFile Available info convert create_ok untar workdir).
Abbreviation validate_ := (validateUploadedImage EvalSymlinks sameFile Available info).

Lemma extract_spec ova data pp name files : IsAbs pp = true -> comp name ->
  let '(r, files') := extract_ ova data pp name files in
  match r with
  | None => files' = files
  | Some (path, n, size) =>
      comp n /\ path = GoPath.Join [pp; n] /\ files !! path = None /\
      exists dir f disk d i out, disk = GoPath.Join [dir; f] /\ Inspect_ (<[disk := d]> files) disk (FormatFromExt disk) = Ok i /\
        convert (FormatFromExt disk) d = Some out /\ files' = <[path := out]> files /\ size = length_of out
  end.
Proof.
  intros Ha Hn. unfold extractAndConvertOVA. destruct (_ || _); [done|]. destruct (Rel _ _) as [rel|]; [|done].
  destruct (has_prefix ".." rel); [done|]. destruct (workdir pp) as [dir|]; [|done]. destruct (List.find _ _) as [e|]; [|done].
  set (disk := GoPath.Join [dir; _]). destruct (bool_decide_reflect (is_Some (files !! disk))) as [|Hd]; [done|]. cbn [orb].
  apply eq_None_not_Some in Hd. destruct (negb (te_complete e)); [done|]. set (inner := <[disk := te_data e]> files).
  destruct (negb (validate_ disk inner)); [done|]. set (n := trim_suffix _ _ +:+ _). assert (comp n) as Hc by (by apply qcow2_comp).
  pose proof (convert_spec disk pp n inner Ha Hc) as Hs. cbv zeta in Hs. destruct (to_qcow2 _ _ _) as [[] inner'].
  - destruct Hs as (Hn' & i & d & out & Hi & Hsrc & Ho & ->). unfold inner in Hn'.
    destruct (decide (disk = GoPath.Join [pp; n])) as [E|Hne]; [rewrite E, lookup_insert_eq in Hn'; done|].
    rewrite lookup_insert_ne in Hn' by done. rewrite lookup_insert_eq. split_and!; [done..|].
    exists dir, (Base (Clean (te_name e))), disk, (te_data e), i, out. assert (d = te_data e) as -> by (unfold inner in Hsrc; rewrite lookup_insert_eq in Hsrc; congruence).
    split_and!; try done. unfold inner. rewrite insert_insert_ne by done. by rewrite delete_insert_id by (by rewrite lookup_insert_ne).
  - subst inner'. unfold inner. by rewrite delete_insert_id.
Qed.

Lemma contains_prefix x a b : contains_str x (a +:+ b) = false -> contains_str x a = false.
Proof.
  assert (forall a, has_prefix x (a +:+ b) = false -> has_prefix x a = false) as Hp.
  { intros a' H. apply not_true_is_false. intros [t ->]%has_prefix_spec. apply eq_true_false_abs in H; [done|].
    apply has_prefix_spec. exists (t +:+ b). by rewrite app_str_assoc. }
  induction a as [|c a IH]; cbn [contains_str]; intros H.
  - rewrite (Hp ""); [done|]. change ("" +:+ b) with b in *. destruct b; cbn [contains_str] in H; by apply orb_false_elim in H as [H _].
  - cbn in H. apply orb_false_elim in H as [H1 H2]. rewrite (Hp (String c a)) by done. by apply IH.
Qed.

(** [a] ends with a dot. *)
Definition ends_dot (a : string) : Prop := exists t, a = t +:+ ".".

Lemma dotdot_join a b : contains_str ".." a = false -> contains_str ".." (String "." b) = false -> ~ ends_dot a -> contains_str ".." (a +:+ String "." b) = false.
Proof.
  intros Ha Hb He. induction a as [|c a IH]; [done|]. cbn [contains_str] in Ha. apply orb_false_elim in Ha as [Hc Ha].
  change (String c a +:+ String "." b) with (String c (a +:+ String "." b)). cbn [contains_str]. rewrite IH; [|done|].
  - rewrite orb_false_r. apply not_true_is_false. intros [t Ht]%has_prefix_spec. injection Ht as -> Ht. destruct a as [|d a].
    + apply He. by exists "".
    + injection Ht as -> _. cbn in Hc. by destruct a.
  - intros [t ->]. apply He. by exists (String c t).
Qed.

Lemma snoc_slash_dot a b : a +:+ "/" <> b +:+ ".".
Proof.
  revert b. induction a as [|c a IH]; intros [|d b] E; cbn in E; try discriminate E.
  - injection E as _ E. by destruct b.
  - injection E as _ E. by destruct a.
  - injection E as _ E. by apply (IH b).
Qed.

Lemma ends_dot_app a t : ends_dot (a +:+ t) -> t <> "" -> ends_dot t.
Proof.
  induction a as [|c a IH]; [done|]. intros [[|d w] E] Hne; cbn in E; injection E as -> E; [by destruct a, t|]. apply IH; [by exists w|done].
Qed.
Lemma contains_at x a b : contains_str x (a +:+ x +:+ b) = true.
Proof.
  induction a as [|c a IH]; cbn [contains_str app]; [|change (String c a +:+ x +:+ b) with (String c (a +:+ x +:+ b)); cbn [contains_str]; by rewrite IH, orb_true_r].
  change ("" +:+ x +:+ b) with (x +:+ b). assert (has_prefix x (x +:+ b) = true) as H by (apply has_prefix_spec; by exists b).
  destruct (x +:+ b); cbn [contains_str]; by rewrite H.
Qed.

Lemma Ext_dot t : contains_byte "/" t = false -> Ext (t +:+ ".") = ".".
Proof.
  intros H. unfold Ext. rewrite (proj2 (last_index_byte_None "/" (t +:+ "."))) by (by rewrite contains_byte_app, H).
  rewrite last_index_byte_app by done. by rewrite drop_str_app_length.
Qed.

(** A name whose extension is replaced gives no [".."] where there was none. *)
Lemma qcow2_no_dotdot a n : comp n -> contains_str ".." (a +:+ n) = false -> ~ ends_dot a ->
  existsb (String.eqb (lower_ext n)) [".vmdk"; ".vdi"; ".vhdx"] = true ->
  contains_str ".." (a +:+ trim_suffix (lower_ext n) n +:+ ".qcow2") = false.
Proof.
  intros (_ & _ & _ & Hs) Hd Ha He. rewrite <- app_str_assoc. set (t := trim_suffix _ n).
  assert (exists u, lower_ext n = String "." u) as [u Eu].
  { apply existsb_exists in He as (x & Hx & ->%String.eqb_eq). cbn in Hx. destruct Hx as [<-|[<-|[<-|[]]]]; by eexists. }
  assert (n = t +:+ lower_ext n \/ n = t) as Hn.
  { unfold t. generalize (lower_ext n). intros x. destruct (has_suffix x n) eqn:E; [left|right; unfold trim_suffix; by rewrite E].
    apply has_suffix_spec in E as [v ->]. by rewrite trim_suffix_app. }
  apply dotdot_join; [|done|].
  - destruct Hn as [Hn|Hn]; rewrite Hn in Hd; [|done]. rewrite <- app_str_assoc in Hd. by apply contains_prefix in Hd.
  - intros He'. destruct (decide (t = "")) as [E|Hne]; [rewrite E, app_str_nil_r in He'; done|].
    apply ends_dot_app in He' as [v Ev]; [|done]. rewrite Ev in Hn. destruct Hn as [Hn|Hn].
    + rewrite Hn, Eu in Hd. apply eq_true_false_abs in Hd; [done|]. replace (a +:+ (v +:+ ".") +:+ String "." u) with ((a +:+ v) +:+ ".." +:+ u) by (by rewrite !app_str_assoc). apply contains_at.
    + rewrite Hn in Hs. apply prefix_no_byte in Hs. unfold lower_ext in Eu. rewrite Hn, Ext_dot in Eu by done. injection Eu as <-.
      rewrite Hn in He. unfold lower_ext in He. by rewrite Ext_dot in He.
Qed.

(** [m] keeps what [kept] keeps, and a result of it satisfies [Q]. *)
Definition keeps {A} (files0 : Files) (m : SE Files Z A) (Q : A -> Prop) : Prop :=
  forall files, kept files0 files -> kept files0 (m files).2 /\ forall a, (m files).1 = Ok a -> Q a.

Lemma keeps_bind {A B} files0 (m : SE Files Z A) (f : A -> SE Files Z B) (P : A -> Prop) (Q : B -> Prop) :
  keeps files0 m P -> (forall a, P a -> keeps files0 (f a) Q) -> keeps files0 (m ≫= f) Q.
Proof.
  intros Hm Hf files H. rewrite run_bind. destruct (Hm files H) as [H1 H2]. destruct (m files) as [[a|e] files1]; [|by split].
  by apply (Hf a (H2 a eq_refl)).
Qed.
Lemma keeps_ret {A} files0 (a : A) (Q : A -> Prop) : Q a -> keeps files0 (mret a) Q.
Proof. intros Hq files H. split; [done|]. by intros b [= <-]. Qed.
Lemma keeps_pres {A} files0 (m : SE Files Z A) : preserves (kept files0) m -> keeps files0 m (fun _ => True).
Proof. intros Hm files H. split; [by apply Hm|done]. Qed.
Lemma keeps_guard {B} files0 (c : bool) e (f : SE Files Z B) Q : (c = false -> keeps files0 f Q) -> keeps files0 (_ ← se_guard c e; f) Q.
Proof. intros Hf files H. rewrite run_guard. destruct c; [done|by apply Hf]. Qed.
Lemma keeps_lift {A B} files0 (r : res Z A) (f : A -> SE Files Z B) Q : (forall a, r = Ok a -> keeps files0 (f a) Q) -> keeps files0 (a ← se_lift r; f a) Q.
Proof. intros Hf files H. rewrite run_lift. destruct r as [a|]; [by apply Hf|done]. Qed.

Definition loop_ok (files0 : Files) (l : Loop) : Prop := lp_name l <> "" -> comp (lp_name l) /\ free files0 (lp_dest l).

Abbreviation file_part_ := (file_part store backend compute GetPoolPath volume create_ok write_ok remove_ok).
Abbreviation each_part_ := (each_part store backend compute GetPoolPath volume create_ok write_ok remove_ok).
Abbreviation UploadDisk_ := (UploadDisk store backend compute GetPoolPath volume RefreshPool EvalSymlinks sameFile Available info convert
  create_ok write_ok remove_ok untar workdir).

Lemma file_part_keeps files0 c len p l : keeps files0 (file_part_ c len p l) (loop_ok files0).
Proof.
  unfold file_part. apply keeps_guard. intros _. apply keeps_guard. intros _. apply keeps_lift. intros name Hn%disk_name_comp.
  apply keeps_lift. intros _ _. apply keeps_lift. intros dest Hd. destruct (pool_dest_spec _ _ _ Hn Hd) as (pp & Hp & Ed & Hb).
  apply keeps_bind with (P := fun _ => free files0 dest).
  { intros files H. pose proof (create_kept files0 _ pp name dest files Hp Hn Ed Hb H) as Hc.
    destruct (createUploadFileOverwriteExisting _ _ _ _ _ _ _) as [[a|e] files1]; destruct Hc as [Hk Hf]; split; try done. intros _ _. by apply Hf. }
  intros _ Hf. apply keeps_bind with (P := fun _ => True); [by apply keeps_pres, fill_kept|]. intros _ _.
  destruct (within_quota _ _ _ _ _); [by apply keeps_ret|]. intros files H. cbn. split; [by apply kept_delete|done].
Qed.

Lemma each_part_keeps files0 c len parts : forall l, loop_ok files0 l -> keeps files0 (each_part_ c len parts l) (loop_ok files0).
Proof.
  induction parts as [|[p|] parts IH]; intros l Hl; cbn [each_part]; [by apply keeps_ret| |by intros files].
  destruct (String.eqb (pt_form p) "pool"); [apply keeps_guard; intros _; by apply IH|].
  destruct (negb _); [by apply IH|]. apply keeps_bind with (P := loop_ok files0); [apply file_part_keeps|exact IH].
Qed.

Lemma repack_kept files0 l : loop_ok files0 l -> lp_name l <> "" ->
  preserves (kept files0) (repack GetPoolPath EvalSymlinks sameFile Available info convert create_ok untar workdir l).
Proof.
  intros Hl Hne files H. destruct (Hl Hne) as [Hn Hf]. unfold repack. destruct (GetPoolPath (lp_pool l)) as [pp|] eqn:Ep; [|done].
  assert (forall n d files, comp n -> kept files0 files -> files !! GoPath.Join [pp; n] = None -> kept files0 (<[GoPath.Join [pp; n] := d]> files)) as Hnew.
  { intros n d fs Hc Hk Hd. apply kept_at; [|done]. destruct (Hk (GoPath.Join [pp; n])) as [E|]; [|done]. exists (lp_pool l), pp, n.
    split_and!; try done. left. congruence. }
  destruct (existsb _ [".vmdk"; ".vdi"; ".vhdx"]).
  - destruct (contains_str _ _); [done|]. destruct (Rel _ _) as [rel|]; [|done]. destruct (has_prefix _ _); [done|].
    pose proof (convert_spec (lp_dest l) pp (trim_suffix (lower_ext (lp_name l)) (lp_name l) +:+ ".qcow2") files (Habs _ _ Ep) (qcow2_comp _ _ Hn)) as Hs.
    cbv zeta in Hs. destruct (to_qcow2 _ _ _) as [[] files']; [|by subst files'].
    destruct Hs as (Hd & _ & _ & out & _ & _ & _ & ->). cbn [snd]. apply kept_delete; [done|]. apply Hnew; [by apply qcow2_comp|done..].
  - destruct (String.eqb _ ".ova"); [|done].
    pose proof (extract_spec (lp_dest l) (default "" (files !! lp_dest l)) pp (lp_name l) files (Habs _ _ Ep) Hn) as Hs.
    destruct (extract_ _ _ _ _ _) as [[[[path n] size]|] files'].
    + destruct Hs as (Hc & -> & Hd & _ & _ & _ & _ & _ & out & _ & _ & _ & -> & _). cbn [snd]. apply kept_delete; [done|]. by apply Hnew.
    + subst files'. by apply kept_delete.
Qed.

Lemma disk_kept files0 c len body : preserves (kept files0) (UploadDisk_ c len body).
Proof.
  destruct body as [parts|]; [|by intros files]. unfold UploadDisk. intros files H.
  destruct (each_part_keeps files0 c len parts (MkLoop "" "" "" 0) ltac:(by intros []) files H) as [Hk Hl]. rewrite run_bind.
  destruct (each_part_ c len parts _ files) as [[l|e] files1]; [|done]. cbn [fst snd] in Hk, Hl. specialize (Hl l eq_refl). rewrite run_guard.
  destruct (String.eqb_spec (lp_name l) "") as [|Hne]; [done|]. revert files1 Hk. apply (pres_bind (kept files0)).
  - intros files1 Hk. unfold vet. destruct (_ && _); [apply kept_delete; [by apply Hl|done]|done].
  - intros []. apply (pres_bind (kept files0)); [by apply repack_kept|]. intros l2. apply (pres_bind (kept files0)); [apply pres_guard|].
    intros _. apply pres_ret.
Qed.

(** C32: However an upload ends, the only files it has made, replaced or removed
    lie directly in the directory of a pool, and were not there before or were
    unknown to the pool and attached to no machine. *)
Theorem uploads_never_clobber c len body form name pool data complete files p :
  let iso := UploadISO store compute GetPoolPath volume RefreshPool create_ok write_ok remove_ok c form files in
  let raw := UploadISOByCURL store compute GetPoolPath volume create_ok write_ok remove_ok c name pool data complete files in
  let disk := UploadDisk_ c len body files in
  Forall (fun files' => files' !! p = files !! p \/ free files p) [iso.2; raw.2; disk.2].
Proof.
  cbv zeta. assert (kept files files) as Hk by (intros q; by left). rewrite !Forall_cons. split_and!; [| | |done].
  - destruct form as [[pl [[fn d]|]]|]; [|by left..]. revert p. unfold UploadISO.
    refine (pres_bind (kept files) _ _ (iso_kept files c fn pl d true) _ files Hk). intros u.
    apply (pres_bind (kept files)); [apply pres_guard|intros _; apply pres_ret].
  - by apply (iso_kept files c).
  - by apply (disk_kept files c len body).
Qed.

(** ** What of it is accepted *)

(** [qemu-img], told to read [data] as [declared], finds nothing that reaches
    outside the image. *)
Definition vetted (declared data : string) : Prop := exists p i, check sameFile (info declared data) p declared = Ok i.
(** Vetted, or made by a conversion from what was; only raw images without
    [qemu-img]. *)
Definition accepted (path data : string) : Prop :=
  (Available = false /\ FormatFromExt path = "raw") \/ vetted (FormatFromExt path) data \/
  exists declared src, vetted declared src /\ convert declared src = Some data.

Section NoLinks.
(** No symbolic links. *)
Context (Hlinks : forall p, IsAbs p = true -> EvalSymlinks p = Some (Clean p)).

Lemma Join_is_clean l p : GoPath.Join l = p -> IsAbs p = true -> Clean p = p.
Proof.
  unfold GoPath.Join. destruct (drop_empty l) as [|x t]; [by intros <-|]. intros <- Ha. apply Clean_Clean. by rewrite <- IsAbs_Clean.
Qed.

Lemma Inspect_vetted files l p declared i : GoPath.Join l = p -> Inspect_ files p declared = Ok i ->
  exists data, files !! p = Some data /\ vetted declared data.
Proof.
  intros Hj. unfold inspect, Inspect. destruct (negb (ok_format declared)); [done|]. unfold ResolveRegular. cbv zeta.
  destruct (IsAbs (Clean p)) eqn:Ha; [|done]. cbn [negb orb]. rewrite IsAbs_Clean in Ha. pose proof (Join_is_clean l p Hj Ha) as Hc.
  destruct (_ || _); [done|]. rewrite Hlinks by (by rewrite IsAbs_Clean). rewrite !Hc. destruct (_ || _); [done|].
  unfold regular. destruct (files !! p) as [d|] eqn:Ed; [|done]. intros H. exists d. split; [done|]. exists p, i.
  unfold info_of in H. by rewrite Ed in H.
Qed.

Lemma validate_accepted files l p data : GoPath.Join l = p -> files !! p = Some data -> validate_ p files = true -> accepted p data.
Proof.
  intros Hj Hd. unfold validateUploadedImage. destruct (String.eqb_spec (FormatFromExt p) "") as [|Hne]; [done|].
  destruct Available eqn:Ea; cbn [negb]; [|intros E%String.eqb_eq; by left].
  destruct (Inspect_ files p _) as [i|] eqn:Ei; [|done]. intros _. destruct (Inspect_vetted files l p _ i Hj Ei) as (d & E & Hv).
  right. left. congruence.
Qed.

Definition only_removed (files files' : Files) : Prop := forall q, files' !! q = files !! q \/ files' !! q = None.

Lemma only_removed_refl files : only_removed files files.
Proof. intros q. by left. Qed.
Lemma only_removed_delete files files' p : only_removed files files' -> only_removed files (delete p files').
Proof. intros H q. destruct (decide (q = p)) as [->|]; [right; apply lookup_delete_eq|rewrite lookup_delete_ne by done; apply H]. Qed.
Lemma only_removed_fresh files files' p d : only_removed files files' -> only_removed files (delete p (<[p := d]> files')).
Proof. intros H. rewrite delete_insert_eq. by apply only_removed_delete. Qed.

Lemma create_removes pool dest files :
  let '(r, files') := createUploadFileOverwriteExisting compute volume create_ok remove_ok dest pool files in
  if is_ok r then only_removed files (delete dest files') /\ (forall q, q <> dest -> files' !! q = files !! q) else only_removed files files'.
Proof.
  unfold createUploadFileOverwriteExisting, create, CreateExclusive.
  destruct (negb (exclusive_name _)); [apply only_removed_refl|]. destruct (negb (create_ok dest)); [apply only_removed_refl|].
  destruct (files !! dest) as [x|].
  - destruct (negb (ghost _ _ _ _)); [apply only_removed_refl|]. destruct (negb (remove_ok dest)); [apply only_removed_refl|].
    rewrite lookup_delete_eq. split; [apply only_removed_fresh, only_removed_delete, only_removed_refl|]. intros q Hq.
    by rewrite lookup_insert_ne, lookup_delete_ne.
  - split; [apply only_removed_fresh, only_removed_refl|]. intros q Hq. by rewrite lookup_insert_ne.
Qed.

(** A part that is stored. *)
Lemma file_part_spec c len p l files :
  let '(r, files') := file_part_ c len p l files in
  match r with
  | Err _ => only_removed files files'
  | Ok l' => comp (lp_name l') /\ lp_dest l' = GoPath.Join [default "" (GetPoolPath (lp_pool l')); lp_name l'] /\
             is_Some (GetPoolPath (lp_pool l')) /\ contains_str ".." (lp_dest l') = false /\
             files' !! lp_dest l' = Some (pt_data p) /\ (forall q, q <> lp_dest l' -> files' !! q = files !! q)
  end.
Proof.
  unfold file_part. rewrite !run_guard. destruct (traverses _); [apply only_removed_refl|]. destruct (negb _); [apply only_removed_refl|].
  rewrite run_lift. destruct (disk_name (pt_file p)) as [name|] eqn:En; [|apply only_removed_refl]. apply disk_name_comp in En.
  rewrite run_lift. destruct (check_owner _ _ _ _ _) as [[]|]; [|apply only_removed_refl]. rewrite run_lift.
  destruct (pool_dest _ _ _) as [dest|] eqn:Ed; [|apply only_removed_refl]. destruct (pool_dest_spec _ _ _ En Ed) as (pp & Hp & Edest & Hb).
  rewrite run_bind. pose proof (create_removes (disk_pool (lp_pool l)) dest files) as Hc.
  destruct (createUploadFileOverwriteExisting _ _ _ _ _ _ _) as [[[]|e] files1]; [|done]. cbn [is_ok] in Hc. destruct Hc as [Hr Hsame].
  rewrite run_bind. unfold fill. destruct (_ && _); [|done].
  destruct (within_quota _ _ _ _ _).
  - cbn. rewrite Hp. cbn. split_and!; [done|done|by eexists|by apply pool_dest_clean in Ed|by rewrite lookup_insert_eq|]. intros q Hq. rewrite lookup_insert_ne by done. by apply Hsame.
  - rewrite run_bind. cbn. by rewrite delete_insert_eq.
Qed.

Lemma each_part_before c len pre rest files : Forall (fun q => match q with Some q => pt_form q <> "file" | None => True end) pre ->
  forall l, (exists e, each_part_ c len (pre ++ rest) l files = (Err e, files)) \/
            (exists l', lp_name l' = lp_name l /\ each_part_ c len (pre ++ rest) l files = each_part_ c len rest l' files).
Proof.
  induction 1 as [|q pre Hq Hpre IH]; intros l; [right; by exists l|]. cbn [app each_part]. destruct q as [q|]; [|left; by eexists].
  destruct (String.eqb (pt_form q) "pool").
  - rewrite run_guard. destruct (traverses _); [left; by eexists|]. apply (IH (MkLoop _ (lp_name l) (lp_dest l) (lp_size l))).
  - destruct (String.eqb_spec (pt_form q) "file"); [done|]. apply IH.
Qed.

(** A body of one file, the last part. *)
Lemma one_file c len pre p files : Forall (fun q => match q with Some q => pt_form q <> "file" | None => True end) pre -> pt_form p = "file" ->
  let '(r, files') := each_part_ c len (pre ++ [Some p]) (MkLoop "" "" "" 0) files in
  match r with
  | Err _ => only_removed files files'
  | Ok l => comp (lp_name l) /\ (exists pp, GetPoolPath (lp_pool l) = Some pp /\ lp_dest l = GoPath.Join [pp; lp_name l]) /\
            contains_str ".." (lp_dest l) = false /\
            files' !! lp_dest l = Some (pt_data p) /\ (forall q, q <> lp_dest l -> files' !! q = files !! q)
  end.
Proof.
  intros Hpre Hp. destruct (each_part_before c len pre [Some p] files Hpre (MkLoop "" "" "" 0)) as [[e ->]|(l & _ & ->)]; [apply only_removed_refl|].
  cbn [each_part]. rewrite Hp. change (String.eqb "file" "pool") with false. change (negb (String.eqb "file" "file")) with false. cbn iota.
  pose proof (file_part_spec c len p l files) as Hs. rewrite run_bind.
  destruct (file_part_ c len p l files) as [[l'|e] files1]; [|done]. cbn. destruct Hs as (Hc & Hd & [pp Ep] & Hrest).
  split; [done|]. split; [exists pp; by rewrite Hd, Ep|done].
Qed.

Lemma accepted_dest path data : vetted (FormatFromExt path) data -> accepted path data.
Proof. by right; left. Qed.

(** The path of a conversion is never refused. *)
Lemma qcow2_path pp n : IsAbs pp = true -> comp n -> contains_str ".." (GoPath.Join [pp; n]) = false ->
  existsb (String.eqb (lower_ext n)) [".vmdk"; ".vdi"; ".vhdx"] = true ->
  let n2 := trim_suffix (lower_ext n) n +:+ ".qcow2" in
  contains_str ".." (GoPath.Join [pp; n2]) = false /\ Rel pp (GoPath.Join [pp; n2]) = Some n2 /\ has_prefix ".." n2 = false.
Proof.
  intros Ha Hn Hd He. cbv zeta. assert (comp (trim_suffix (lower_ext n) n +:+ ".qcow2")) as Hc by (by apply qcow2_comp).
  destruct (Join_below pp n Ha Hn) as (l & Hl & E & Ej), (Join_below pp _ Ha Hc) as (k & Hk & E' & Ek).
  rewrite E in E'. apply abs_path_inj in E' as <-; [|done..]. rewrite Ej, abs_path_snoc in Hd.
  assert (contains_str ".." (GoPath.Join [pp; trim_suffix (lower_ext n) n +:+ ".qcow2"]) = false) as H.
  { rewrite Ek, abs_path_snoc. apply qcow2_no_dotdot; [done..| |done]. intros [t Et]. by apply snoc_slash_dot in Et. }
  split; [done|]. split; [by apply Rel_below|]. apply not_true_is_false. intros [t Et]%has_prefix_spec. rewrite Et in H.
  apply eq_true_false_abs in H; [done|].
  destruct (Join_below pp (".." +:+ t) Ha) as (m & _ & _ & Em); [by rewrite <- Et|]. rewrite Em, abs_path_snoc. apply contains_at.
Qed.

Lemma repack_accepted l pp files data : comp (lp_name l) -> GetPoolPath (lp_pool l) = Some pp -> lp_dest l = GoPath.Join [pp; lp_name l] ->
  contains_str ".." (lp_dest l) = false -> files !! lp_dest l = Some data -> (lower_ext (lp_name l) <> ".ova" -> accepted (lp_dest l) data) ->
  let '(r, files') := repack GetPoolPath EvalSymlinks sameFile Available info convert create_ok untar workdir l files in
  match r with
  | Err _ => files' = delete (lp_dest l) files
  | Ok l' => (exists d, files' !! lp_dest l' = Some d /\ accepted (lp_dest l') d) /\
             (forall q, q <> lp_dest l' -> files' !! q = files !! q \/ files' !! q = None) /\
             (lp_dest l' = lp_dest l \/ files' !! lp_dest l = None)
  end.
Proof.
  intros Hn Ep Hd Hdd Hf Hacc. unfold repack. rewrite Ep. destruct (existsb _ [".vmdk"; ".vdi"; ".vhdx"]) eqn:Ev.
  - assert (lower_ext (lp_name l) <> ".ova") as Hno by (intros E; rewrite E in Ev; done).
    rewrite Hd in Hdd. destruct (qcow2_path pp (lp_name l) (Habs _ _ Ep) Hn Hdd Ev) as (-> & -> & ->).
    set (n := trim_suffix _ _ +:+ _). pose proof (convert_spec (lp_dest l) pp n files (Habs _ _ Ep) (qcow2_comp _ _ Hn)) as Hs.
    cbv zeta in Hs. destruct (to_qcow2 _ _ _) as [[] files'].
    + destruct Hs as (Hnone & i & d & out & Hi & Hsrc & Ho & ->). cbn [lp_dest].
      assert (lp_dest l <> GoPath.Join [pp; n]) as Hne by (intros E; rewrite <- E, Hf in Hnone; done).
      split; [|split].
      * exists out. rewrite lookup_delete_ne, lookup_insert_eq by done. split; [done|]. right. right.
        destruct (Inspect_vetted files _ _ _ i (eq_sym Hd) Hi) as (d' & Ed' & Hv). exists (FormatFromExt (lp_dest l)), d'.
        split; [done|]. congruence.
      * intros q Hq. destruct (decide (q = lp_dest l)) as [->|Hq2]; [right; apply lookup_delete_eq|left]. by rewrite lookup_delete_ne, lookup_insert_ne.
      * right. apply lookup_delete_eq.
    + subst files'. split; [exists data; by split; [|apply Hacc]|]. split; [by left|by left].
  - destruct (String.eqb_spec (lower_ext (lp_name l)) ".ova") as [E|Hno].
    + pose proof (extract_spec (lp_dest l) (default "" (files !! lp_dest l)) pp (lp_name l) files (Habs _ _ Ep) Hn) as Hs.
      destruct (extract_ _ _ _ _ _) as [[[[path n] size]|] files']; [|by subst].
      destruct Hs as (Hc & -> & Hnone & dir & f & disk & d & i & out & Hj & Hi & Ho & -> & _). cbn [lp_dest].
      assert (lp_dest l <> GoPath.Join [pp; n]) as Hne by (intros E'; rewrite <- E', Hf in Hnone; done).
      split; [|split].
      * exists out. rewrite lookup_delete_ne, lookup_insert_eq by done. split; [done|]. right. right. exists (FormatFromExt disk), d. split; [|done].
        destruct (Inspect_vetted _ _ _ _ i (eq_sym Hj) Hi) as (d' & Ed' & Hv). rewrite lookup_insert_eq in Ed'. congruence.
      * intros q Hq. destruct (decide (q = lp_dest l)) as [->|Hq2]; [right; apply lookup_delete_eq|left]. by rewrite lookup_delete_ne, lookup_insert_ne.
      * right. apply lookup_delete_eq.
    + split; [exists data; by split; [|apply Hacc]|]. split; [by left|by left].
Qed.

End NoLinks.
End UploadFacts.

(** ** Concrete uploads *)
Module UploadDemo.
Definition plain (fmt backing : string) : Info := MkInfo fmt 1024 backing backing "" [].
Definition info (declared data : string) : option Info :=
  if String.eqb data "QCOW" then Some (plain "qcow2" "")
  else if String.eqb data "EVIL" then Some (plain "qcow2" "/etc/shadow")
  else if String.eqb data "VMDK" then Some (plain "vmdk" "") else None.
Definition convert (declared data : string) : option string := Some "QCOW".
Definition path (pool : string) : option string :=
  if existsb (String.eqb pool) ["disks"; "other"; "isos"] then Some ("/pools/" +:+ pool) else None.
Definition pools : option Compute :=
  Some (MkCompute (fun _ => None) (Some [MkPool "disks" "/pools/disks" "disk"; MkPool "other" "/pools/other" "disk"; MkPool "isos" "/pools/isos" "iso"])
          (fun _ _ => Some [])).
Definition user (name : string) : User :=
  MkUser name "" RoleOperator "" "" true false "" None "" (MkQuota 0 0 0 0 ∅) ["disks"] [] [] [] 0 "" false [] 0 [].
Definition users : option (@Users.Store unit) := Some (Users.MkStore {[ "bob" := user "bob" ]} "/data" ∅ tt).
Definition bob : Caller := MkCaller "bob" RoleOperator.
Definition no_links (p : string) : option string := Some (Clean p).
Definition known (pool vol : string) : registry := if String.eqb vol "kept.qcow2" then Registered else Unregistered.
Definition yes (_ : string) : bool := true.
Definition upload (body : list (option Part)) : gmap string string -> res Z Uploaded * gmap string string :=
  UploadDisk users None pools path known yes no_links String.eqb true info convert yes yes yes (fun _ => []) (fun p => Some (p +:+ "/.w")) bob 0 (Some body).
Definition file (name data : string) : option Part := Some (MkPart "file" name data true).
Definition pool (name : string) : option Part := Some (MkPart "pool" "" name true).

Example stored : (upload [pool "disks"; file "a.qcow2" "QCOW"] ∅).2 = {[ "/pools/disks/a.qcow2" := "QCOW" ]}.
Proof. vm_compute. reflexivity. Qed.
Example converted : (upload [pool "disks"; file "a.vmdk" "VMDK"] ∅).2 = {[ "/pools/disks/a.qcow2" := "QCOW" ]}.
Proof. vm_compute. reflexivity. Qed.
Example refused : upload [pool "disks"; file "a.qcow2" "EVIL"] ∅ = (Err 400, ∅).
Proof. vm_compute. reflexivity. Qed.
Example registered_kept : (upload [pool "disks"; file "kept.qcow2" "QCOW"] {[ "/pools/disks/kept.qcow2" := "OLD" ]}).1 = Err 409.
Proof. vm_compute. reflexivity. Qed.
Example other_pool_refused : (upload [pool "other"; file "a.qcow2" "QCOW"] ∅).1 = Err 403.
Proof. vm_compute. reflexivity. Qed.

(** Of two files only the second is vetted: the first stays as it came, with a
    backing file of the host. *)
Example first_file_not_vetted :
  let r := upload [pool "disks"; file "evil.qcow2" "EVIL"; file "a.qcow2" "QCOW"] ∅ in
  is_ok r.1 = true /\ r.2 !! "/pools/disks/evil.qcow2" = Some "EVIL".
Proof. split; vm_compute; reflexivity. Qed.
(** A body that breaks off after the file leaves it unvetted too. *)
Example broken_body_leaves_file : (upload [pool "disks"; file "evil.qcow2" "EVIL"; None] ∅).2 !! "/pools/disks/evil.qcow2" = Some "EVIL".
Proof. vm_compute. reflexivity. Qed.
(** A pool named after the file is not checked: the conversion goes there. *)
Example later_pool_not_checked :
  let r := upload [pool "disks"; file "a.vmdk" "VMDK"; pool "other"] ∅ in
  is_ok r.1 = true /\ r.2 !! "/pools/other/a.qcow2" = Some "QCOW".
Proof. split; vm_compute; reflexivity. Qed.

Lemma abs_pools pl pp : path pl = Some pp -> IsAbs pp = true.
Proof. unfold path. destruct (existsb _ _); [|done]. by intros [= <-]. Qed.
End UploadDemo.

Lemma uploads_never_clobber_witness :
  (UploadDemo.upload [UploadDemo.pool "disks"; UploadDemo.file "a.qcow2" "QCOW"] {[ "/etc/shadow" := "x" ]}).2 !! "/etc/shadow" = Some "x" \/
  free UploadDemo.pools UploadDemo.path UploadDemo.known {[ "/etc/shadow" := "x" ]} "/etc/shadow".
Proof.
  pose proof (uploads_never_clobber UploadDemo.users None UploadDemo.pools UploadDemo.path UploadDemo.known UploadDemo.yes UploadDemo.no_links
    String.eqb true UploadDemo.info UploadDemo.convert UploadDemo.yes UploadDemo.yes UploadDemo.yes (fun _ => []) (fun p => Some (p +:+ "/.w"))
    UploadDemo.abs_pools UploadDemo.bob 0 (Some [UploadDemo.pool "disks"; UploadDemo.file "a.qcow2" "QCOW"]) None "" "" "" true
    {[ "/etc/shadow" := "x" ]} "/etc/shadow") as H.
  cbv zeta in H. apply Forall_cons in H as [_ H]. apply Forall_cons in H as [_ H]. apply Forall_cons in H as [H _].
  exact H.
Defined.

