(* ===== verification/IsoJobs.v ===== *)
(** * IsoJobs: ISO images fetched in the background

    Models [DownloadISO] and [doDownloadISO] of [api/storage_uploads.go]: the
    request, the job it leaves in the table, and the goroutine that fetches the
    image and ends the job. *)

From S2P Require Export Uploads.
Open Scope Z_scope.

Section IsoJobs.
Context {W : Type} (store : option (@Users.Store W)) (compute : option Compute) (GetPoolPath : string -> option string).
Context (ParseRequestURI : string -> option URL).
Context (resolve : nat -> string -> option (list ip)) (address : string -> string) (answers : nat -> ip -> string -> bool)
        (reuse : nat -> bool) (serve : nat -> string -> reply).
Context {F : Type} (pct_of : Z -> F) (share : Z -> Z -> F) (over100 : F -> bool).
Context (rate : nat -> Z * Z) (reads : list (Z * Z)) (create_ok write_ok : bool) (now : Z).

Abbreviation state := (@state F).

Record DownloadISORequest := MkISORequest { dr_URL : string; dr_Name : string; dr_Pool : string }.

(** The name of the file: the one asked for, or the last element of the path. *)
Definition download_name (name urlPath : string) : res string string :=
  let name := if String.eqb name "" then
                let b := Base urlPath in
                if String.eqb b "" || String.eqb b "." || String.eqb b "/" then "downloaded.iso" else b
              else name in
  safe ← safeISOFilename name;
  let lower := to_lower safe in
  Ok (if has_suffix ".iso" lower || has_suffix ".img" lower then safe else safe +:+ ".iso").

Definition jobs_of (f : gmap string (@DownloadJob F) -> gmap string (@DownloadJob F)) : SE state Z unit :=
  se_modify (fun s => MkState (st_net s) (st_files s) (f (st_jobs s))).

Definition queued (id name url owner pool : string) : @DownloadJob F :=
  MkDownload id name url (pct_of 0) "queued" "" "" 0 0 0 0 0 owner pool "" None.

(** What the goroutine is started with. *)
Definition DownloadISO (c : Caller) (id : string) (req : option DownloadISORequest) : SE state Z (string * string * string) :=
  match req with
  | None => se_fail 400
  | Some r =>
      _ ← se_guard (String.eqb (dr_URL r) "") 400;
      _ ← (fun s => let '(x, s) := on_net (safeDownloadURL ParseRequestURI resolve (dr_URL r)) s in
                    (match x with Ok _ => Ok tt | Err _ => Err 400 end, s));
      name ← se_lift (match download_name (dr_Name r) (match ParseRequestURI (dr_URL r) with Some u => URL_Path u | None => "" end) with
                      | Ok n => Ok n | Err _ => Err 400 end);
      let pool := iso_pool (dr_Pool r) in
      _ ← se_lift (requireISOPoolForCaller store compute c pool);
      _ ← jobs_of (storeJob now (queued id name (dr_URL r) (cl_user c) pool));
      _ ← jobs_of (fun jobs => (pruneExpiredJobs now jobTTL jobs).2);
      mret (id, name, pool)
  end.

Definition maxDownloadBytes : Z := 10 * 2 ^ 30.

Definition fail_job (id text : string) (s : state) : state :=
  MkState (st_net s) (st_files s) (updateJob now id (pct_of 0) "error" text (st_jobs s)).

Definition doDownloadISO (id name pool : string) (s : state) : state :=
  if traverses name then fail_job id "invalid filename" s else
  match GetPoolPath pool with
  | None => fail_job id "failed to resolve pool" s
  | Some poolPath =>
      let dest := GoPath.Join [poolPath; name] in
      if match Rel poolPath dest with Some rel => has_prefix ".." rel | None => true end then fail_job id "invalid destination path" s else
      match getJob id (st_jobs s) with
      | Some j =>
          if negb (String.eqb (dj_Status j) "queued") then s else
          match secureDownloadWithProgress ParseRequestURI resolve address answers reuse serve pct_of share over100 rate reads
                  create_ok write_ok now id (dj_URL j) dest maxDownloadBytes s with
          | (Err e, s) => fail_job id e s
          | (Ok _, s) => MkState (st_net s) (st_files s) (updateJob now id (pct_of 100) "completed" "" (st_jobs s))
          end
      | None => s
      end
  end.

(** ** Facts *)

(** Only the entry of [id] is written, and it stays. *)
Definition only_job (id : string) (jobs jobs' : gmap string (@DownloadJob F)) : Prop :=
  (forall i, i <> id -> jobs' !! i = jobs !! i) /\ (is_Some (jobs !! id) -> is_Some (jobs' !! id)).

Lemma only_job_refl id jobs : only_job id jobs jobs.
Proof. by split. Qed.
Lemma only_job_trans id a b c : only_job id a b -> only_job id b c -> only_job id a c.
Proof. intros [H1 H2] [H3 H4]. split; [|by auto]. intros i Hi. rewrite H3 by done. by apply H1. Qed.
Lemma only_job_alter id f jobs : only_job id jobs (alter f id jobs).
Proof. split; [intros i Hi; by rewrite lookup_alter_ne|]. intros [j Hj]. rewrite lookup_alter_eq, Hj. by eexists. Qed.

Lemma only_job_reports id total reads' : forall k n last jobs, only_job id jobs (reports pct_of share over100 rate id total k n last reads' jobs).
Proof.
  induction reads' as [|[len t] l IH]; intros k n last jobs; cbn [reports]; [apply only_job_refl|].
  destruct (_ || _); [apply IH|]. eapply only_job_trans; [apply only_job_alter|apply IH].
Qed.

Lemma download_jobs id url dest maxBytes (s : state) :
  only_job id (st_jobs s) (st_jobs (secureDownloadWithProgress ParseRequestURI resolve address answers reuse serve pct_of share over100 rate reads
    create_ok write_ok now id url dest maxBytes s).2).
Proof.
  unfold secureDownloadWithProgress. rewrite run_on_net. destruct (safeDownloadURL _ _ _ _) as [[[]|e] n1]; [|apply only_job_refl].
  unfold downloadWithClient. rewrite run_guard. destruct (contains_str _ _); [apply only_job_refl|]. rewrite run_on_net.
  destruct (fetch _ _ _ _ _ _ _ _ _ _) as [[r|e] n2]; [|apply only_job_refl]. destruct r as [| |]; [apply only_job_refl| |apply only_job_refl].
  rewrite run_guard. destruct (negb _); [apply only_job_refl|]. rewrite run_bind. unfold createUploadFile. rewrite run_get.
  destruct (CreateExclusive _ _ _) as [fs|[]]; try apply only_job_refl. unfold set_files, set_jobs, se_modify. rewrite !run_bind.
  cbn [st_net st_files st_jobs].
  match goal with |- context [reports _ _ _ _ _ ?t _ _ _ _ ?j] => assert (only_job id (st_jobs s) (reports pct_of share over100 rate id t 0 0 time_zero reads j)) as H
    by (eapply only_job_trans; [apply only_job_alter|apply only_job_reports]) end.
  destruct (_ <? _); [by rewrite run_bind|]. destruct (negb _); by rewrite run_bind.
Qed.

End IsoJobs.

(** ** A concrete job *)
Module IsoDemo.
Definition url : string := "http://mirror.example/a.iso".
Definition started : state (F := Z) :=
  MkState (MkNet 0 [] ∅) ∅ {[ "dl_1" := MkDownload "dl_1" "a.iso" url 0 "queued" "" "" 1 0 0 0 0 "bob" "isos" "" None ]}.
Definition path (pool : string) : option string := if String.eqb pool "isos" then Some "/pools/isos" else None.
Definition after resolve serve : state (F := Z) :=
  doDownloadISO path DownloadDemo.uri resolve DownloadDemo.host_port DownloadDemo.up DownloadDemo.fresh serve (fun n => n) (fun n t => n * 100 / t)
    (fun p => 100 <? p) (fun _ => (0, 0)) [(4, second)] true true second "dl_1" "a.iso" "isos" started.
Definition status (s : state (F := Z)) : option string := option_map dj_Status (st_jobs s !! "dl_1").

Example job_completes : status (after DownloadDemo.honest DownloadDemo.body) = Some "completed".
Proof. vm_compute. reflexivity. Qed.
Example job_fails : status (after DownloadDemo.rebind DownloadDemo.body) = Some "error".
Proof. vm_compute. reflexivity. Qed.
Example name_of_url : download_name "" "/images/debian.ISO" = Ok "debian.ISO" /\ download_name "disk" "/x" = Ok "disk.iso".
Proof. split; vm_compute; reflexivity. Qed.
End IsoDemo.

