(* ===== verification/DiskState.v ===== *)
(** * DiskState: who is going to mount a block device

    Models the package [diskstate]: the scanners of [/proc/self/mountinfo], of
    [/etc/fstab], of systemd's units and of libvirt's pools, the table of devices
    [Resolver.Resolve] builds of what they find, what [ForDisk] says of a disk and
    its partitions, and the search for orphaned automounts of [orphans.go].

    [EvalSymlinks] is the host's file system; the output of [systemctl] and
    [virsh] is an input, and the order in which Go ranges over a map is any order. *)

From S2P Require Export GoPath.
Open Scope Z_scope.

(** ** Texts *)

(** The lines [bufio.Scanner] gives of a text: without their end, up to the first
    one that does not fit its buffer. *)
Fixpoint up_to_long (max : Z) (l : list string) : list string :=
  match l with
  | [] => []
  | s :: l => if Z.of_nat (slen s) <? max then trim_suffix (String "013" "") s :: up_to_long max l else []
  end.
Definition Lines (max : Z) (text : string) : list string :=
  let l := split_byte "010" text in
  up_to_long max (if String.eqb (List.last l "") "" then removelast l else l).

(** [strings.Fields]. Each step takes a byte at least, so [S (slen s)] is enough. *)
Fixpoint fields_go (fuel : nat) (cur s : string) : list string :=
  let flush rest := if String.eqb cur "" then rest else cur :: rest in
  match fuel with
  | O => flush []
  | S n => match strip_space_left s with
           | Some s' => flush (fields_go n "" s')
           | None => match s with
                     | EmptyString => flush []
                     | String c s' => fields_go n (cur +:+ String c "") s'
                     end
           end
  end.
Definition Fields (s : string) : list string := fields_go (S (slen s)) "" s.

(** [\s+] of a regular expression, as a separator. *)
Definition re_space (c : ascii) : bool := existsb (Ascii.eqb c) ["009"; "010"; "012"; "013"; " "]%char.
Fixpoint split_spaces (cur : string) (insep : bool) (s : string) : list string :=
  match s with
  | EmptyString => [cur]
  | String c s =>
      if re_space c then (if insep then split_spaces cur true s else cur :: split_spaces "" true s)
      else split_spaces (cur +:+ String c "") false s
  end.

(** [strings.Cut] at a byte. *)
Definition Cut (c : ascii) (s : string) : option (string * string) :=
  match index_byte c s with Some i => Some (take_str i s, drop_str (S i) s) | None => None end.

Definition isOctal (c : ascii) : bool := in_range "0" "7" c.
Definition octal (a b c : ascii) : ascii :=
  ascii_of_N (Z.to_N (Z.lor (Z.lor (Z.shiftl (code a - 48) 6) (Z.shiftl (code b - 48) 3)) (code c - 48) mod 256)).
Fixpoint unescapeOctal (s : string) : string :=
  match s with
  | EmptyString => EmptyString
  | String c rest =>
      if Ascii.eqb c "\" then
        match rest with
        | String x (String y (String z t)) =>
            if isOctal x && isOctal y && isOctal z then String (octal x y z) (unescapeOctal t)
            else String c (unescapeOctal rest)
        | _ => String c (unescapeOctal rest)
        end
      else String c (unescapeOctal rest)
  end.

(** [strings.TrimPrefix] *)
Definition without_prefix (p s : string) : string := if has_prefix p s then drop_str (slen p) s else s.

Definition contains (l : list string) (w : string) : bool := existsb (String.eqb w) l.
Lemma contains_elem l x : contains l x = true <-> x ∈ l.
Proof.
  unfold contains. rewrite existsb_exists. setoid_rewrite String.eqb_eq. rewrite list_elem_of_In. naive_solver.
Qed.

(** [if s != "" && !contains(l, s) { l = append(l, s) }] *)
Definition append_new (s : string) (l : list string) : list string :=
  if nonempty s && negb (contains l s) then l ++ [s] else l.

(** ** The table *)

Inductive Source := SourceKernel | SourceAutomount | SourceMountUnit | SourceFstab | SourceLibvirt.
#[export] Instance Source_eq_dec : EqDecision Source.
Proof. solve_decision. Defined.

Record State := MkIntent {
  Device : string; Active : bool; Configured : bool;
  MountPoints : list string; Sources : list Source; Units : list string; Pools : list string }.
Definition no_state (d : string) : State := MkIntent d false false [] [] [] [].
Definition InUse (s : State) : bool := Active s || Configured s.
Definition hasSource (s : State) (want : Source) : bool := existsb (fun x => bool_decide (x = want)) (Sources s).

(** The order of the cases of [Reason]; the texts around them are left out. *)
Inductive why := MountedAt (mp : string) | CurrentlyMounted | UnitWillMount (unit : string) (mp : option string)
               | PoolTargets (pool : string) | InFstab | JustInUse.
Definition Reason (s : State) : why :=
  if Active s then match MountPoints s with mp :: _ => MountedAt mp | [] => CurrentlyMounted end else
  match Units s with
  | u :: _ => UnitWillMount u (head (MountPoints s))
  | [] => match Pools s with
          | p :: _ => PoolTargets p
          | [] => if hasSource s SourceFstab then InFstab else JustInUse
          end
  end.

Inductive Status_t := StatusActive | StatusConfigured | StatusFree.
Definition Status (s : State) : Status_t :=
  if Active s then StatusActive else if Configured s then StatusConfigured else StatusFree.

Definition IsSystemMount (mp : string) : bool :=
  contains ["/"; "/boot"; "/boot/efi"; "/etc"; "/usr"; "/var"; "/home"] mp
  || has_prefix "/boot/" mp || has_prefix "/var/lib/incus" mp || has_prefix "/var/lib/libvirt" mp || has_prefix "/opt/webkvm" mp.
Definition HasSystemMount (s : State) : bool := existsb IsSystemMount (MountPoints s).

Abbreviation Table := (gmap string State).

Definition sourceRank (s : Source) : nat :=
  match s with SourceKernel => 0 | SourceAutomount => 1 | SourceMountUnit => 2 | SourceFstab => 3 | SourceLibvirt => 4 end.
Definition rank_le (a b : Source) : Prop := (sourceRank a <= sourceRank b)%nat.
#[export] Instance rank_le_dec : RelDecision rank_le.
Proof. intros a b. unfold rank_le. apply _. Defined.

Section DiskState.
Context (EvalSymlinks : string -> option string).

Definition canonicalDevice (path : string) : string :=
  if String.eqb path "" then "" else match EvalSymlinks path with Some r => r | None => Clean path end.

Definition Lookup (t : Table) (device : string) : option State :=
  match t !! device with Some s => Some s | None => t !! canonicalDevice device end.

Definition observe (mountPoint : string) (src : Source) (unit pool : string) (s : State) : State :=
  MkIntent (Device s)
    (match src with SourceKernel => true | _ => Active s end)
    (match src with SourceKernel => Configured s | _ => true end)
    (append_new mountPoint (MountPoints s))
    (if hasSource s src then Sources s else Sources s ++ [src])
    (append_new unit (Units s)) (append_new pool (Pools s)).

Definition add (device mountPoint : string) (src : Source) (unit pool : string) (t : Table) : Table :=
  let d := canonicalDevice device in
  if String.eqb d "" then t else
  let s := default (no_state d) (t !! d) in
  <[d := observe mountPoint src unit pool (MkIntent d (Active s) (Configured s) (MountPoints s) (Sources s) (Units s) (Pools s))]> t.

(** ** The scanners *)

Fixpoint index_dash (i : nat) (l : list string) : option nat :=
  match l with [] => None | f :: l => if String.eqb f "-" then Some i else index_dash (S i) l end.

(** One line of mountinfo: the source and the mount point. *)
Definition kernel_entry (line : string) : option (string * string) :=
  let fields := Fields line in
  match index_dash 0 fields with
  | None => None
  | Some sep =>
      if (length fields <? sep + 3)%nat || (sep <? 5)%nat then None else
      let source := unescapeOctal (nth (sep + 2) fields "") in
      if has_prefix "/dev/" source then Some (source, unescapeOctal (nth 4 fields "")) else None
  end.

Abbreviation found := (gmap string (list string)).
(** [if !contains(out[dev], mp) { out[dev] = append(out[dev], mp) }] *)
Definition note (dev mp : string) (out : found) : found :=
  let l := default [] (out !! dev) in
  if contains l mp then out else <[dev := l ++ [mp]]> out.

Definition scanMountInfo (file : option string) : found :=
  match file with
  | None => ∅
  | Some text => foldl (fun out line => match kernel_entry line with
                                        | Some (src, mp) => note (canonicalDevice src) mp out
                                        | None => out end) ∅ (Lines (1024 * 1024) text)
  end.

(** [strings.ToUpper] of a tag, as far as it can be one of the tags: of the
    other letters only U+0131 and U+017F have an ASCII capital. *)
Fixpoint upper_tag (s : string) : string :=
  match s with
  | String "196" (String "177" s) => String "I" (upper_tag s)
  | String "197" (String "191" s) => String "S" (upper_tag s)
  | String c s => String (upper_ascii c) (upper_tag s)
  | EmptyString => EmptyString
  end.
Definition tag_dir (tag : string) : option string :=
  let t := upper_tag tag in
  if String.eqb t "UUID" then Some "by-uuid" else if String.eqb t "LABEL" then Some "by-label"
  else if String.eqb t "PARTUUID" then Some "by-partuuid" else if String.eqb t "PARTLABEL" then Some "by-partlabel"
  else if String.eqb t "ID" then Some "by-id" else None.

Fixpoint trim_quotes_left (s : string) : string :=
  match s with String c s' => if Ascii.eqb c "034" then trim_quotes_left s' else s | EmptyString => EmptyString end.
Definition trim_quotes (s : string) : string := trim_right_set (fun c => Ascii.eqb c "034") (trim_quotes_left s).

Definition resolveWhat (what : string) : string :=
  let what := trim_space (trim_quotes what) in
  if String.eqb what "" then "" else
  let path := match Cut "=" what with
              | Some (tag, value) =>
                  if has_prefix "/" what then Some what else
                  match tag_dir tag with Some dir => Some (GoPath.Join ["/dev/disk"; dir; value]) | None => None end
              | None => Some what
              end in
  match path with
  | Some p => if has_prefix "/" p then canonicalDevice p else ""
  | None => ""
  end.

Definition pseudo_fs : list string := ["swap"; "proc"; "sysfs"; "tmpfs"; "devpts"; "none"; "cgroup"; "cgroup2"].
(** One line of fstab: the device and the mount point. *)
Definition fstab_entry (line : string) : option (string * string) :=
  let line := trim_space line in
  if String.eqb line "" || has_prefix "#" line then None else
  match split_spaces "" false line with
  | what :: where_ :: fsType :: _ =>
      if contains pseudo_fs fsType then None else
      let dev := resolveWhat what in
      let mp := unescapeOctal where_ in
      if String.eqb dev "" || String.eqb mp "" || String.eqb mp "none" then None else Some (dev, mp)
  | _ => None
  end.
Definition scanFstab (file : option string) : found :=
  match file with
  | None => ∅
  | Some text => foldl (fun out line => match fstab_entry line with Some (dev, mp) => note dev mp out | None => out end)
                   ∅ (Lines (64 * 1024) text)
  end.

(** A unit as [systemctl list-units] lists it, and as the table uses it. *)
Record systemctlUnit := MkListed { u_Unit : string; u_Load : string; u_Active : string; u_Sub : string }.
Record SystemdUnit := MkUnit { Name : string; What : string; Where : string; Armed : bool }.

(** The last [What=] and the last [Where=] of [systemctl show]. *)
Definition shown_paths (out : string) : string * string :=
  foldl (fun '(what, where_) line =>
    match Cut "=" (trim_space line) with
    | Some (k, v) => if String.eqb k "What" then (v, where_) else if String.eqb k "Where" then (what, v) else (what, where_)
    | None => (what, where_)
    end) ("", "") (split_byte "010" out).

Section Systemd.
(** [systemctl show], [None] when it fails. *)
Context (show : string -> option string).
Definition own_paths (unit : string) : string * string :=
  match show unit with Some out => shown_paths out | None => ("", "") end.
(** An automount asks its mount, whose name does not end in [.automount], so
    that one step of the recursion is all there is. *)
Definition systemdUnitPaths (unit : string) : string * string :=
  match show unit with
  | None => ("", "")
  | Some out =>
      let '(what, where_) := shown_paths out in
      if String.eqb what "" && has_suffix ".automount" unit
      then ((own_paths (trim_suffix ".automount" unit +:+ ".mount")).1, where_)
      else (what, where_)
  end.

Definition scanSystemd (listed : option (list systemctlUnit)) : list SystemdUnit :=
  omap (fun u =>
    if negb (String.eqb (u_Load u) "loaded") then None else
    let '(what, where_) := systemdUnitPaths (u_Unit u) in
    if String.eqb what "" || String.eqb where_ "" then None
    else Some (MkUnit (u_Unit u) what where_ (String.eqb (u_Active u) "active"))) (default [] listed).

(** [findOrphans]: a loaded automount without a loaded mount of its name. *)
Definition loadedMount (listed : list systemctlUnit) (name : string) : bool :=
  existsb (fun u => has_suffix ".mount" (u_Unit u) && String.eqb (u_Load u) "loaded" && String.eqb (u_Unit u) name) listed.
Definition orphaned (listed : list systemctlUnit) (u : systemctlUnit) : bool :=
  has_suffix ".automount" (u_Unit u) && String.eqb (u_Load u) "loaded"
  && negb (loadedMount listed (trim_suffix ".automount" (u_Unit u) +:+ ".mount")).
Definition findOrphans (listed : list systemctlUnit) : list string :=
  sort_strings (map u_Unit (List.filter (orphaned listed) listed)).
End Systemd.

(** The path in the first [target] element, and [virsh pool-list] with the
    description of each pool. *)
Fixpoint past (sub s : string) : option string :=
  if has_prefix sub s then Some (drop_str (slen sub) s) else
  match s with String _ s => past sub s | EmptyString => None end.
Fixpoint path_element (s : string) : option string :=
  let here := match (if has_prefix "<path>" s then Cut "<" (drop_str 6 s) else None) with
              | Some (p, rest) => if has_prefix "/path>" rest then Some p else None
              | None => None
              end in
  match here with Some p => Some p | None => match s with String _ s => path_element s | EmptyString => None end end.
Definition pool_target (xml : string) : option string :=
  s ← past "<target>" xml; p ← path_element s; Some (trim_space p).
Definition scanLibvirt (names : option string) (dumpxml : string -> option string) : gmap string string :=
  match names with
  | None => ∅
  | Some out => foldl (fun pools name => match dumpxml name ≫= pool_target with Some t => <[name := t]> pools | None => pools end)
                  ∅ (Fields out)
  end.

(** ** The table of a host *)

Record host := MkHost {
  mountinfo : option string; fstab : option string;
  listed : option (list systemctlUnit); show_unit : string -> option string;
  pool_names : option string; dumpxml : string -> option string }.

(** How Go ranges over a map the [n]th time. *)
Context (range : nat -> forall V : Type, gmap string V -> list (string * V)).

Definition add_found (src : Source) (l : list (string * list string)) (t : Table) : Table :=
  foldl (fun t '(dev, mps) => foldl (fun t p => add dev p src "" "" t) t mps) t l.
Definition unit_source (name : string) : Source := if has_suffix ".automount" name then SourceAutomount else SourceMountUnit.
Definition add_unit (t : Table) (u : SystemdUnit) : Table :=
  let dev := resolveWhat (What u) in
  if String.eqb dev "" then t else add dev (Where u) (unit_source (Name u)) (Name u) "" t.

(** [path] is [mp] or lies below it. *)
Definition below (mp path : string) : bool := String.eqb path mp || has_prefix (mp +:+ "/") path.
Definition better (path : string) (best : string * Z) (x : string * State) : string * Z :=
  foldl (fun best mp => if String.eqb mp "/" then best else
                        if below mp path && (best.2 <? Z.of_nat (slen mp)) then (x.1, Z.of_nat (slen mp)) else best)
    best (MountPoints x.2).
Definition deviceProviding (n : nat) (t : Table) (path : string) : string :=
  (foldl (better path) ("", -1) (range n State t)).1.

Definition add_pool (t : nat * Table) (p : string * string) : nat * Table :=
  let '(n, t) := t in
  let dev := deviceProviding n t p.2 in
  (S n, if String.eqb dev "" then t else add dev p.2 SourceLibvirt "" p.1 t).

Definition mounts (h : host) : Table :=
  let t := add_found SourceKernel (range 0 _ (scanMountInfo (mountinfo h))) ∅ in
  let t := foldl add_unit t (scanSystemd (show_unit h) (listed h)) in
  add_found SourceFstab (range 1 _ (scanFstab (fstab h))) t.
Definition Resolve (h : host) : Table :=
  (foldl add_pool (3%nat, mounts h) (range 2 _ (scanLibvirt (pool_names h) (dumpxml h)))).2.

(** ** A disk and its partitions *)

Definition add_all (l into : list string) : list string :=
  foldl (fun into s => if contains into s then into else into ++ [s]) into l.
Definition aggregate (agg s : State) : State :=
  MkIntent (Device agg) (Active agg || Active s) (Configured agg || Configured s)
    (add_all (MountPoints s) (MountPoints agg))
    (foldl (fun l src => if existsb (fun x => bool_decide (x = src)) l then l else l ++ [src]) (Sources agg) (Sources s))
    (add_all (Units s) (Units agg)) (add_all (Pools s) (Pools agg)).
Definition ForDisk (t : Table) (diskPath : string) (partitions : list string) : State :=
  let agg := foldl (fun agg dev => match Lookup t dev with Some s => aggregate agg s | None => agg end)
               (no_state (canonicalDevice diskPath)) (diskPath :: partitions) in
  MkIntent (Device agg) (Active agg) (Configured agg) (sort_strings (MountPoints agg))
    (merge_sort rank_le (Sources agg)) (sort_strings (Units agg)) (sort_strings (Pools agg)).

(** ** What the table says *)

(** An observation: something found that mounts, or would mount, a device. *)
Record observation := MkObs { o_dev : string; o_mp : string; o_src : Source; o_unit : string; o_pool : string }.
Definition key (o : observation) : string := canonicalDevice (o_dev o).
Definition add_obs (t : Table) (o : observation) : Table := add (o_dev o) (o_mp o) (o_src o) (o_unit o) (o_pool o) t.
Definition view (t : Table) (d : string) : State := default (no_state d) (t !! d).

Definition used (t : Table) (d : string) : bool := InUse (view t d).
Definition coherent (t : Table) : Prop := forall d s, t !! d = Some s -> InUse s = true.

Lemma view_add t o d : d <> "" -> view (add_obs t o) d =
  if decide (key o = d) then observe (o_mp o) (o_src o) (o_unit o) (o_pool o)
                               (MkIntent d (Active (view t d)) (Configured (view t d)) (MountPoints (view t d))
                                  (Sources (view t d)) (Units (view t d)) (Pools (view t d)))
  else view t d.
Proof.
  intros Hd. unfold add_obs, add, view. fold (key o). case_decide as Hk.
  - subst d. destruct (String.eqb_spec (key o) ""); [done|]. by rewrite lookup_insert_eq.
  - destruct (String.eqb_spec (key o) ""); [done|]. by rewrite lookup_insert_ne.
Qed.

Lemma append_new_elem s l x : x ∈ append_new s l <-> x ∈ l \/ (x = s /\ s <> "").
Proof.
  unfold append_new, nonempty, contains. destruct (String.eqb_spec s "") as [->|Hs]; simpl; [naive_solver|].
  destruct (existsb _ l) eqn:He; simpl.
  - apply existsb_exists in He as (y & Hy & He). apply String.eqb_eq in He. subst y.
    apply list_elem_of_In in Hy. naive_solver.
  - rewrite elem_of_app, list_elem_of_singleton. naive_solver.
Qed.

(** What a run of observations adds to the state of a device. *)
Lemma view_adds l t d : d <> "" ->
  (Active (view (foldl add_obs t l) d) = true <->
     Active (view t d) = true \/ Exists (fun o => key o = d /\ o_src o = SourceKernel) l) /\
  (Configured (view (foldl add_obs t l) d) = true <->
     Configured (view t d) = true \/ Exists (fun o => key o = d /\ o_src o <> SourceKernel) l) /\
  (forall mp, mp ∈ MountPoints (view (foldl add_obs t l) d) <->
     mp ∈ MountPoints (view t d) \/ (mp <> "" /\ Exists (fun o => key o = d /\ o_mp o = mp) l)).
Proof.
  intros Hd. revert t. induction l as [|o l IH]; intros t; simpl.
  { setoid_rewrite Exists_nil. split_and!; intuition. }
  destruct (IH (add_obs t o)) as (Ha & Hc & Hm). rewrite Ha, Hc. setoid_rewrite Hm. setoid_rewrite Exists_cons.
  rewrite view_add by done. case_decide as Hk; simpl; [|naive_solver].
  split_and!.
  - destruct (o_src o) eqn:Hs; intuition congruence.
  - destruct (o_src o) eqn:Hs; intuition congruence.
  - intros mp. rewrite append_new_elem. naive_solver.
Qed.

Lemma coherent_add t o : coherent t -> coherent (add_obs t o).
Proof.
  intros Ht d s. unfold add_obs, add. destruct (String.eqb _ ""); [apply Ht|].
  destruct (decide (canonicalDevice (o_dev o) = d)) as [->|Hn]; [|rewrite lookup_insert_ne by done; apply Ht].
  rewrite lookup_insert_eq. intros [= <-]. unfold InUse. simpl. destruct (o_src o); simpl; auto using orb_true_r.
Qed.

Lemma coherent_adds l t : coherent t -> coherent (foldl add_obs t l).
Proof. revert t. induction l as [|o l IH]; intros t Ht; [done|]. apply IH. by apply coherent_add. Qed.

(** ** The scanners as observations *)

(** What the sources say of a host, line by line and unit by unit. *)
Inductive seen (h : host) : observation -> Prop :=
| seen_kernel text line src mp : mountinfo h = Some text -> line ∈ Lines (1024 * 1024) text ->
    kernel_entry line = Some (src, mp) -> seen h (MkObs (canonicalDevice src) mp SourceKernel "" "")
| seen_unit u : u ∈ scanSystemd (show_unit h) (listed h) -> resolveWhat (What u) <> "" ->
    seen h (MkObs (resolveWhat (What u)) (Where u) (unit_source (Name u)) (Name u) "")
| seen_fstab text line dev mp : fstab h = Some text -> line ∈ Lines (64 * 1024) text ->
    fstab_entry line = Some (dev, mp) -> seen h (MkObs dev mp SourceFstab "" "").

Context (range_perm : forall n V m, range n V m ≡ₚ map_to_list m).

Lemma note_spec dev mp out d p : p ∈ default [] (note dev mp out !! d) <-> p ∈ default [] (out !! d) \/ (d = dev /\ p = mp).
Proof.
  unfold note. destruct (contains _ mp) eqn:Hc.
  - apply contains_elem in Hc. naive_solver.
  - destruct (decide (d = dev)) as [->|]; [|rewrite lookup_insert_ne by done; naive_solver].
    rewrite lookup_insert_eq. simpl. rewrite elem_of_app, list_elem_of_singleton. naive_solver.
Qed.

(** The two scanners fold [note] over the entries of their lines. *)
Definition notes {A} (entry : A -> option (string * string)) (out : found) (l : list A) : found :=
  foldl (fun out line => match entry line with Some (dev, mp) => note dev mp out | None => out end) out l.
Lemma notes_spec {A} (entry : A -> option (string * string)) l out d p :
  p ∈ default [] (notes entry out l !! d) <-> p ∈ default [] (out !! d) \/ exists x, x ∈ l /\ entry x = Some (d, p).
Proof.
  unfold notes. revert out. induction l as [|x l IH]; intros out; simpl.
  { setoid_rewrite elem_of_nil. naive_solver. }
  rewrite IH. setoid_rewrite elem_of_cons. destruct (entry x) as [[dev mp]|] eqn:He; [rewrite note_spec|]; naive_solver.
Qed.

Definition kernel_key (line : string) : option (string * string) :=
  match kernel_entry line with Some (src, mp) => Some (canonicalDevice src, mp) | None => None end.
Lemma scanMountInfo_notes file :
  scanMountInfo file = notes kernel_key ∅ (match file with Some text => Lines (1024 * 1024) text | None => [] end).
Proof.
  unfold scanMountInfo, notes. destruct file as [text|]; [|done]. generalize (∅ : found).
  induction (Lines _ text) as [|x l IH]; intros out; [done|]. cbn [foldl]. rewrite IH. f_equal.
  unfold kernel_key. by destruct (kernel_entry x) as [[? ?]|].
Qed.
Lemma scanFstab_notes file :
  scanFstab file = notes fstab_entry ∅ (match file with Some text => Lines (64 * 1024) text | None => [] end).
Proof. by destruct file. Qed.

Definition flat (src : Source) (l : list (string * list string)) : list observation :=
  l ≫= fun x => map (fun p => MkObs x.1 p src "" "") x.2.
Lemma add_found_obs src l t : add_found src l t = foldl add_obs t (flat src l).
Proof.
  unfold add_found, flat. revert t. induction l as [|[dev mps] l IH]; intros t; [done|].
  cbn [foldl mbind list_bind]. rewrite foldl_app, IH. f_equal. cbn [fst snd]. revert t.
  induction mps as [|p mps IHm]; intros t; [done|]. cbn [foldl map]. by rewrite IHm.
Qed.
Lemma flat_elem src n m o : o ∈ flat src (range n _ m) <-> exists d p, p ∈ default [] (m !! d) /\ o = MkObs d p src "" "".
Proof.
  unfold flat. rewrite list_elem_of_bind. setoid_rewrite range_perm. split.
  - intros ([d mps] & Ho & Hx). apply elem_of_map_to_list in Hx. apply list_elem_of_In, in_map_iff in Ho as (p & <- & Hp).
    exists d, p. rewrite Hx. split; [by apply list_elem_of_In|done].
  - intros (d & p & Hp & ->). destruct (m !! d) as [mps|] eqn:Hd; [|by apply elem_of_nil in Hp].
    exists (d, mps). split; [apply list_elem_of_In, in_map_iff; exists p; split; [done|by apply list_elem_of_In]|].
    by apply elem_of_map_to_list.
Qed.

Definition unit_obs (u : SystemdUnit) : option observation :=
  if String.eqb (resolveWhat (What u)) "" then None
  else Some (MkObs (resolveWhat (What u)) (Where u) (unit_source (Name u)) (Name u) "").
Lemma add_units_obs l t : foldl add_unit t l = foldl add_obs t (omap unit_obs l).
Proof.
  revert t. induction l as [|u l IH]; intros t; [done|]. cbn. rewrite IH. unfold add_unit, unit_obs.
  by destruct (String.eqb _ "").
Qed.

Definition observations (h : host) : list observation :=
  flat SourceKernel (range 0 _ (scanMountInfo (mountinfo h))) ++ omap unit_obs (scanSystemd (show_unit h) (listed h))
  ++ flat SourceFstab (range 1 _ (scanFstab (fstab h))).
Lemma mounts_obs h : mounts h = foldl add_obs ∅ (observations h).
Proof. unfold mounts, observations. by rewrite !foldl_app, !add_found_obs, add_units_obs. Qed.
Lemma observations_seen h o : o ∈ observations h <-> seen h o.
Proof.
  unfold observations. rewrite !elem_of_app, !flat_elem, scanMountInfo_notes, scanFstab_notes.
  setoid_rewrite notes_spec. setoid_rewrite lookup_empty. setoid_rewrite elem_of_nil. rewrite list_elem_of_omap. split.
  - intros [(d & p & [[]|(line & Hl & He)] & ->)|[(u & Hu & He)|(d & p & [[]|(line & Hl & He)] & ->)]].
    + unfold kernel_key in He. destruct (kernel_entry line) as [[src mp]|] eqn:Hk; [|done]. injection He as <- <-.
      destruct (mountinfo h) as [text|] eqn:Hm; [|by apply elem_of_nil in Hl]. by eapply seen_kernel.
    + unfold unit_obs in He. destruct (String.eqb_spec (resolveWhat (What u)) ""); [done|]. injection He as <-. by apply seen_unit.
    + destruct (fstab h) as [text|] eqn:Hm; [|by apply elem_of_nil in Hl]. by eapply seen_fstab.
  - intros [text line src mp Hm Hl He|u Hu Hd|text line dev mp Hm Hl He].
    + left. exists (canonicalDevice src), mp. rewrite Hm. split; [|done]. right. exists line. unfold kernel_key. by rewrite He.
    + right; left. exists u. split; [done|]. unfold unit_obs. by destruct (String.eqb_spec (resolveWhat (What u)) "").
    + right; right. exists dev, mp. rewrite Hm. split; [|done]. right. by exists line.
Qed.

(** ** Pools, and a whole disk *)

(** Resolved paths are their own resolution, and none is empty. *)
Context (canonical_idem : forall p, canonicalDevice (canonicalDevice p) = canonicalDevice p)
        (canonical_nonempty : forall p, p <> "" -> canonicalDevice p <> "").

Definition keyed (t : Table) : Prop := forall d, is_Some (t !! d) -> canonicalDevice d = d /\ d <> "".

Lemma keyed_add t o : keyed t -> keyed (add_obs t o).
Proof.
  intros Ht d. unfold add_obs, add. destruct (String.eqb_spec (canonicalDevice (o_dev o)) "") as [|Hn]; [apply Ht|].
  destruct (decide (canonicalDevice (o_dev o) = d)) as [<-|Hd]; [by rewrite canonical_idem|].
  rewrite lookup_insert_ne by done. apply Ht.
Qed.
Lemma keyed_adds l t : keyed t -> keyed (foldl add_obs t l).
Proof. revert t. induction l as [|o l IH]; intros t Ht; [done|]. apply IH. by apply keyed_add. Qed.

Lemma better_in path l best : (foldl (better path) best l).1 = best.1 \/ exists s, ((foldl (better path) best l).1, s) ∈ l.
Proof.
  revert best. induction l as [|[d s] l IH]; intros best; [by left|]. cbn [foldl].
  assert (Hb : (better path best (d, s)).1 = best.1 \/ (better path best (d, s)).1 = d).
  { unfold better. cbn [snd fst]. generalize (MountPoints s). intros mps. revert best.
    induction mps as [|mp mps IHm]; intros best; [by left|]. cbn [foldl].
    destruct (String.eqb mp "/"); [apply IHm|].
    destruct (below mp path && (best.2 <? Z.of_nat (slen mp))); [|apply IHm].
    destruct (IHm (d, Z.of_nat (slen mp))) as [->| ->]; by right. }
  setoid_rewrite elem_of_cons. destruct (IH (better path best (d, s))) as [->|[s' Hs]]; [|right; exists s'; by right].
  destruct Hb as [->| ->]; [by left|]. right. exists s. by left.
Qed.
Lemma deviceProviding_in n t path : deviceProviding n t path = "" \/ is_Some (t !! deviceProviding n t path).
Proof.
  unfold deviceProviding. destruct (better_in path (range n State t) ("", -1)) as [->|[s Hs]]; [by left|].
  right. exists s. apply elem_of_map_to_list. by rewrite <- (range_perm n).
Qed.

Lemma used_add t o d : d <> "" -> used (add_obs t o) d = used t d || bool_decide (key o = d).
Proof.
  intros Hd. unfold used. rewrite view_add by done. destruct (decide (key o = d)) as [Hk|Hk].
  - rewrite bool_decide_eq_true_2, orb_true_r by done. unfold InUse. simpl. destruct (o_src o); simpl; auto using orb_true_r.
  - by rewrite bool_decide_eq_false_2, orb_false_r.
Qed.

(** A pool goes to a device that is already used: it adds nothing to use. *)
Lemma add_pool_used n t p : keyed t -> coherent t ->
  let t' := (add_pool (n, t) p).2 in keyed t' /\ coherent t' /\ forall d, d <> "" -> used t' d = used t d.
Proof.
  intros Hk Hc. cbn. destruct (String.eqb_spec (deviceProviding n t p.2) "") as [|Hd]; [done|].
  destruct (deviceProviding_in n t p.2) as [|[s Hs]]; [done|].
  change (add _ _ _ _ _ t) with (add_obs t (MkObs (deviceProviding n t p.2) p.2 SourceLibvirt "" p.1)).
  split_and!; [by apply keyed_add|by apply coherent_add|]. intros d Hne. rewrite used_add by done.
  case_bool_decide as He; [|by rewrite orb_false_r]. unfold key in He. cbn [o_dev] in He.
  destruct (Hk _ (ex_intro _ s Hs)) as [Hi _]. rewrite Hi in He. subst d. unfold used, view. rewrite Hs. simpl. by rewrite (Hc _ _ Hs).
Qed.

Lemma Resolve_used h : keyed (Resolve h) /\ coherent (Resolve h) /\
  forall d, d <> "" -> used (Resolve h) d = true <-> exists o, seen h o /\ key o = d.
Proof.
  unfold Resolve. generalize (range 2 _ (scanLibvirt (pool_names h) (dumpxml h))) as pools.
  assert (H0 : keyed (mounts h) /\ coherent (mounts h) /\
               forall d, d <> "" -> used (mounts h) d = true <-> exists o, seen h o /\ key o = d).
  { rewrite mounts_obs. split_and!; [apply keyed_adds; intros d; rewrite lookup_empty; by intros []|
      apply coherent_adds; intros d s; by rewrite lookup_empty|]. intros d Hd.
    setoid_rewrite <- observations_seen. destruct (view_adds (observations h) ∅ d Hd) as (Ha & Hc & _).
    unfold used, InUse. rewrite orb_true_iff, Ha, Hc, !Exists_exists. unfold view. rewrite lookup_empty. simpl.
    split; [naive_solver|]. intros (o & Ho & Hk). destruct (decide (o_src o = SourceKernel)); naive_solver. }
  intros pools. revert H0. generalize (mounts h) 3%nat. induction pools as [|p pools IH]; intros t n (Hk & Hc & Hu); [done|].
  cbn [foldl]. destruct (add_pool_used n t p Hk Hc) as (Hk' & Hc' & Hu').
  destruct (add_pool (n, t) p) as [n' t'] eqn:E. cbn [snd] in *. apply IH. split_and!; [done..|].
  intros d Hd. rewrite Hu' by done. by apply Hu.
Qed.

Lemma aggregates_use t l agg :
  InUse (foldl (fun agg dev => match Lookup t dev with Some s => aggregate agg s | None => agg end) agg l)
  = InUse agg || existsb (fun dev => match Lookup t dev with Some s => InUse s | None => false end) l.
Proof.
  revert agg. induction l as [|dev l IH]; intros agg; [by rewrite orb_false_r|]. cbn [foldl existsb]. rewrite IH.
  destruct (Lookup t dev) as [s|]; [|done]. unfold InUse. simpl.
  by destruct (Active agg), (Configured agg), (Active s), (Configured s).
Qed.

Lemma Lookup_canonical t dev : keyed t -> Lookup t dev = t !! canonicalDevice dev.
Proof.
  intros Hk. unfold Lookup. destruct (t !! dev) as [s|] eqn:Hs; [|done].
  destruct (Hk dev (ex_intro _ s Hs)) as [-> _]. by rewrite Hs.
Qed.

Lemma Status_free s : Status s = StatusFree <-> InUse s = false.
Proof. unfold Status, InUse. destruct (Active s), (Configured s); simpl; naive_solver. Qed.


(** Whatever declares a mount of a candidate makes it configured. *)
Lemma Configured_add t o d : d <> "" -> Configured (view t d) = true -> Configured (view (add_obs t o) d) = true.
Proof.
  intros Hd H. destruct (view_adds [o] t d Hd) as (_ & Hc & _). cbn [foldl] in Hc. apply Hc. by left.
Qed.
Lemma Configured_pools l n t d : d <> "" -> Configured (view t d) = true -> Configured (view (foldl add_pool (n, t) l).2 d) = true.
Proof.
  intros Hd. revert n t. induction l as [|p l IH]; intros n t H; [done|]. cbn [foldl add_pool]. apply IH.
  destruct (String.eqb _ ""); [done|].
  change (add _ _ _ _ _ t) with (add_obs t (MkObs (deviceProviding n t p.2) p.2 SourceLibvirt "" p.1)). by apply Configured_add.
Qed.
Lemma aggregates_configured t l agg :
  Configured (foldl (fun agg dev => match Lookup t dev with Some s => aggregate agg s | None => agg end) agg l)
  = Configured agg || existsb (fun dev => match Lookup t dev with Some s => Configured s | None => false end) l.
Proof.
  revert agg. induction l as [|dev l IH]; intros agg; [by rewrite orb_false_r|]. cbn [foldl existsb]. rewrite IH.
  destruct (Lookup t dev) as [s|]; [|done]. simpl. by rewrite orb_assoc.
Qed.
Lemma undeclared_sources h disk partitions dev o :
  Configured (ForDisk (Resolve h) disk partitions) = false -> dev ∈ disk :: partitions -> dev <> "" ->
  seen h o -> o_src o <> SourceKernel -> key o <> canonicalDevice dev.
Proof.
  intros Hc Hd Hne Ho Hs Hk. unfold ForDisk in Hc. cbn [Configured] in Hc. rewrite aggregates_configured in Hc.
  apply not_true_iff_false in Hc. apply Hc. cbn [no_state Configured]. rewrite orb_false_l.
  apply existsb_exists. exists dev. split; [by apply list_elem_of_In|].
  destruct (Resolve_used h) as (Hkeyed & _ & _). rewrite Lookup_canonical by done.
  assert (Configured (view (Resolve h) (canonicalDevice dev)) = true) as Hv; [|by unfold view in Hv; destruct (Resolve h !! _)].
  apply Configured_pools; [by apply canonical_nonempty|]. rewrite mounts_obs.
  destruct (view_adds (observations h) ∅ (canonicalDevice dev)) as (_ & Hcf & _); [by apply canonical_nonempty|].
  apply Hcf. right. apply Exists_exists. exists o. split; [by apply observations_seen|]. by split.
Qed.

End DiskState.

(** ** Escapes and orphans *)

(** What the kernel writes of a path. *)
Fixpoint escape (s : string) : string :=
  match s with
  | EmptyString => EmptyString
  | String c s =>
      (if Ascii.eqb c " " then "\040" else if Ascii.eqb c "009" then "\011" else if Ascii.eqb c "010" then "\012"
       else if Ascii.eqb c "\" then "\134" else String c "") +:+ escape s
  end.
Lemma unescape_escape s : unescapeOctal (escape s) = s.
Proof.
  induction s as [|c s IH]; [done|]. simpl.
  destruct (Ascii.eqb_spec c " ") as [->|]; [simpl; by rewrite IH|].
  destruct (Ascii.eqb_spec c "009") as [->|]; [simpl; by rewrite IH|].
  destruct (Ascii.eqb_spec c "010") as [->|]; [simpl; by rewrite IH|].
  destruct (Ascii.eqb_spec c "\") as [->|Hc]; [simpl; by rewrite IH|].
  simpl. apply Ascii.eqb_neq in Hc. by rewrite Hc, IH.
Qed.

Lemma findOrphans_exact listed name : name ∈ findOrphans listed <->
  exists u, u ∈ listed /\ u_Unit u = name /\ has_suffix ".automount" name = true /\ u_Load u = "loaded" /\
    forall m, m ∈ listed -> u_Unit m = trim_suffix ".automount" name +:+ ".mount" -> u_Load m <> "loaded".
Proof.
  unfold findOrphans. rewrite sort_strings_Permutation, list_elem_of_In, in_map_iff. setoid_rewrite filter_In.
  unfold orphaned. split.
  - intros (u & <- & Hu & Ho). apply andb_prop in Ho as [Ho Hn]. apply andb_prop in Ho as [Ha Hl]. apply String.eqb_eq in Hl.
    exists u. split_and!; [by apply list_elem_of_In|done..|]. intros m Hm He Hld. apply negb_true_iff, not_true_iff_false in Hn.
    apply Hn. unfold loadedMount. apply existsb_exists. exists m. split; [by apply list_elem_of_In|].
    rewrite He, Hld, (proj2 (has_suffix_spec ".mount" _)) by (by eexists). by rewrite !String.eqb_refl.
  - intros (u & Hu & <- & Ha & Hl & Hn). exists u. split_and!; [done|by apply list_elem_of_In|].
    rewrite Ha, Hl. simpl. apply negb_true_iff, not_true_iff_false. intros He. apply existsb_exists in He as (m & Hm & He).
    apply andb_prop in He as [He Hn']. apply andb_prop in He as [_ Hld]. apply String.eqb_eq in Hld, Hn'.
    apply (Hn m); [by apply list_elem_of_In|done|done].
Qed.

Module DiskStateDemo.
Definition resolved (p : string) : option string :=
  Some (if String.eqb p "/dev/disk/by-uuid/u1" then "/dev/sdb1" else p).
Definition ranged (n : nat) (V : Type) (m : gmap string V) : list (string * V) := map_to_list m.
Definition show (unit : string) : option string :=
  if String.eqb unit "mnt-data.automount" then Some (join_str (String "010" "") ["Where=/mnt/data"; ""])
  else if String.eqb unit "mnt-data.mount" then Some (join_str (String "010" "") ["Where=/mnt/data"; "What=/dev/disk/by-uuid/u1"; ""])
  else None.
(** Nothing but the root is mounted; an armed automount waits for [/dev/sdb1],
    and a pool expects its images in [/mnt/idle], where nothing is mounted. *)
Definition demo : host := MkHost
  (Some "22 1 8:1 / / rw,relatime shared:1 - ext4 /dev/sda1 rw") (Some "# none")
  (Some [MkListed "mnt-data.automount" "loaded" "active" "waiting"; MkListed "mnt-data.mount" "loaded" "inactive" "dead"])
  show (Some "idle") (fun _ => Some "<pool><target><path>/mnt/idle</path></target></pool>").
Definition of_disk (h : host) (disk part : string) : State := ForDisk resolved (Resolve resolved ranged h) disk [part].

Example automount_blocks : Reason (of_disk demo "/dev/sdb" "/dev/sdb1") = UnitWillMount "mnt-data.automount" (Some "/mnt/data")
  /\ Status (of_disk demo "/dev/sdb" "/dev/sdb1") = StatusConfigured.
Proof. split; vm_compute; reflexivity. Qed.

(** The disk of the idle pool is free to wipe. *)
Example idle_pool_unseen : Status (of_disk demo "/dev/sdc" "/dev/sdc1") = StatusFree.
Proof. vm_compute. reflexivity. Qed.

(** A mount point with a space the kernel does not escape (U+00A0) and a dash
    hides the mount. *)
Definition nbsp : string := bytes_str [194; 160]%N.
Example dash_hides_mount :
  kernel_entry "40 22 8:17 / /mnt/a rw,relatime shared:2 - ext4 /dev/sdb1 rw" = Some ("/dev/sdb1", "/mnt/a") /\
  kernel_entry ("40 22 8:17 / /mnt/a" +:+ nbsp +:+ "-" +:+ nbsp +:+ "b rw,relatime shared:2 - ext4 /dev/sdb1 rw") = None.
Proof. split; vm_compute; reflexivity. Qed.

Definition armed : observation := MkObs "/dev/sdb1" "/mnt/data" SourceAutomount "mnt-data.automount" "".
Lemma resolved_idem p : canonicalDevice resolved (canonicalDevice resolved p) = canonicalDevice resolved p.
Proof.
  unfold canonicalDevice, resolved. destruct (String.eqb_spec p ""); [done|].
  destruct (String.eqb p "/dev/disk/by-uuid/u1") eqn:E; [done|]. destruct (String.eqb_spec p ""); [done|]. by rewrite E.
Qed.
Lemma resolved_nonempty p : p <> "" -> canonicalDevice resolved p <> "".
Proof.
  intros Hp. unfold canonicalDevice, resolved. destruct (String.eqb_spec p ""); [done|].
  by destruct (String.eqb p "/dev/disk/by-uuid/u1").
Qed.
Lemma armed_seen : seen resolved demo armed.
Proof.
  apply (seen_unit resolved demo (MkUnit "mnt-data.automount" "/dev/disk/by-uuid/u1" "/mnt/data" true)).
  - assert (scanSystemd (show_unit demo) (listed demo) =
      [MkUnit "mnt-data.automount" "/dev/disk/by-uuid/u1" "/mnt/data" true; MkUnit "mnt-data.mount" "/dev/disk/by-uuid/u1" "/mnt/data" false])
      as -> by (vm_compute; reflexivity). left.
  - assert (String.eqb (resolveWhat resolved "/dev/disk/by-uuid/u1") "" = false) as H by (vm_compute; reflexivity).
    by apply String.eqb_neq in H.
Qed.

End DiskStateDemo.
