(* ===== verification/HostCmd.v ===== *)
(** * HostCmd: commands run on the host

    The vocabulary of the packages that drive the tools of the host: what is run,
    made, written and removed is kept in a history, and what the host answers to a
    command may depend on the whole history before it. A rule for each operation
    shows that a property of everything done holds along a program. *)

From S2P Require Export DiskState.
Open Scope Z_scope.

Record CreatePoolRequest := MkPoolRequest { cp_Name : string; cp_Path : string; cp_Type : string; cp_Purpose : string }.

Inductive act :=
| Run (argv : list string)
| Scan                                  (* the sources of [diskstate] are read *)
| MadeDir (path : string)
| Wrote (path content : string)
| Removed (path : string)
| PoolAsked (req : CreatePoolRequest)
| TargetAsked (name path : string).
Abbreviation history := (list act).
(** Errors are the status of the answer. *)
Abbreviation op := (SE (list act) Z).

(** [strings.ToLower], as far as the result is ASCII: U+0130 and U+212A are the
    letters outside ASCII with a small letter in it. *)
Fixpoint fold_lower (s : string) : string :=
  match s with
  | String "196" (String "176" s) => String "i" (fold_lower s)
  | String "226" (String "132" (String "170" s)) => String "k" (fold_lower s)
  | String c s => String (lower_ascii c) (fold_lower s)
  | EmptyString => EmptyString
  end.

Definition newline : string := String "010" "".

(** ** What holds of everything done *)

Section Trace.
(** [P h a]: [a] may be done after [h]. *)
Context (P : history -> act -> Prop).

Definition extends (h h' : history) : Prop :=
  exists l, h' = h ++ l /\ forall pre a post, l = pre ++ a :: post -> P (h ++ pre) a.
Definition does {A} (R : history -> Prop) (m : op A) (Q : A -> history -> Prop) : Prop :=
  forall h, R h -> extends h (m h).2 /\ match (m h).1 with Ok a => Q a (m h).2 | Err _ => True end.
(** Stays true of longer histories. *)
Definition lasting (R : history -> Prop) : Prop := forall h l, R h -> R (h ++ l).

Lemma ext_refl h : extends h h.
Proof. exists []. rewrite app_nil_r. split; [done|]. intros pre a post E. by destruct pre. Qed.
Lemma ext_trans h1 h2 h3 : extends h1 h2 -> extends h2 h3 -> extends h1 h3.
Proof.
  intros (l1 & -> & H1) (l2 & -> & H2). exists (l1 ++ l2). rewrite app_assoc. split; [done|].
  intros pre a post E. apply app_eq_app in E as (k & [[-> E]|[-> E]]).
  - destruct k as [|b k]; [|injection E as -> ->; by eapply H1]. cbn in E. subst l2.
    specialize (H2 [] a post eq_refl). by rewrite !app_nil_r in H2.
  - rewrite app_assoc. by eapply H2.
Qed.
Lemma extends_one h a : P h a -> extends h (h ++ [a]).
Proof.
  intros Ha. exists [a]. split; [done|]. intros pre b post E. destruct pre as [|c pre].
  - injection E as <- _. by rewrite app_nil_r.
  - injection E as _ E. by destruct pre.
Qed.
Lemma lasting_extends (R : history -> Prop) h h' : lasting R -> extends h h' -> R h -> R h'.
Proof. intros Hl (l & -> & _) HR. by apply Hl. Qed.

Lemma does_bind {A B} R (m : op A) (f : A -> op B) Q T :
  does R m Q -> (forall a, does (Q a) (f a) T) -> does R (m ≫= f) T.
Proof.
  intros Hm Hf h HR. rewrite run_bind. destruct (Hm h HR) as [He Hq]. destruct (m h) as [[a|e] h1]; [|done].
  destruct (Hf a h1 Hq) as [He' Hq']. split; [by eapply ext_trans|done].
Qed.
(** A statement that leaves what holds as it is. *)
Lemma does_then {A B} R (m : op A) (f : A -> op B) T :
  does R m (fun _ => R) -> (forall a, does R (f a) T) -> does R (m ≫= f) T.
Proof. apply does_bind. Qed.
Lemma does_ret {A} R (a : A) Q : (forall h, R h -> Q a h) -> does R (mret a) Q.
Proof. intros HQ h HR. split; [apply ext_refl|by apply HQ]. Qed.
Lemma does_fail {A} R e Q : does R (se_fail (A := A) e) Q.
Proof. intros h HR. split; [apply ext_refl|done]. Qed.
Lemma does_guard R c e Q : (c = false -> forall h, R h -> Q tt h) -> does R (se_guard c e) Q.
Proof. intros HQ h HR. destruct c; (split; [apply ext_refl|]); [done|by apply HQ]. Qed.
Lemma does_lift {A} R (r : res Z A) Q : (forall a, r = Ok a -> forall h, R h -> Q a h) -> does R (se_lift r) Q.
Proof. intros HQ h HR. destruct r; (split; [apply ext_refl|]); [by apply HQ|done]. Qed.
Lemma does_weaken {A} R R' (m : op A) Q Q' :
  does R' m Q' -> (forall h, R h -> R' h) -> (forall a h, Q' a h -> Q a h) -> does R m Q.
Proof. intros Hm HR HQ h H. destruct (Hm h (HR h H)) as [He Hq]. split; [done|]. destruct (m h).1; [by apply HQ|done]. Qed.
Lemma does_if {A} R (c : bool) (m1 m2 : op A) Q :
  (c = true -> does R m1 Q) -> (c = false -> does R m2 Q) -> does R (if c then m1 else m2) Q.
Proof. destruct c; auto. Qed.
(** One act, and an answer that may depend on all there was before. *)
Definition step {A} (a : act) (answer : history -> A) : op A := fun h => (Ok (answer h), h ++ [a]).
Lemma does_step {A} R a (answer : history -> A) (Q : A -> history -> Prop) :
  (forall h, R h -> P h a) -> (forall h, R h -> Q (answer h) (h ++ [a])) -> does R (step a answer) Q.
Proof. intros Ha HQ h HR. split; [by apply extends_one, Ha|by apply HQ]. Qed.
Lemma does_step_same {A} R a (answer : history -> A) :
  lasting R -> (forall h, R h -> P h a) -> does R (step a answer) (fun _ => R).
Proof. intros Hl Ha. apply does_step; [done|]. intros h HR. by apply Hl. Qed.

(** [for _, x := range l { m x }] *)
Fixpoint each {A} (m : A -> op unit) (l : list A) : op unit :=
  match l with [] => mret tt | x :: l => _ ← m x; each m l end.
Lemma does_each {A} R (m : A -> op unit) l :
  (forall x, x ∈ l -> does R (m x) (fun _ => R)) -> does R (each m l) (fun _ => R).
Proof.
  induction l as [|x l IH]; intros Hm; cbn [each]; [by apply does_ret|].
  eapply does_bind; [apply Hm; by left|]. intros []. apply IH. intros y Hy. apply Hm. by right.
Qed.
End Trace.

Lemma lasting_and R S : lasting R -> lasting S -> lasting (fun h => R h /\ S h).
Proof. intros HR HS h l [? ?]. split; [by apply HR|by apply HS]. Qed.
Lemma lasting_true : lasting (fun _ => True).
Proof. done. Qed.
Lemma lasting_all {A} (R : A -> history -> Prop) : (forall a, lasting (R a)) -> lasting (fun h => forall a, R a h).
Proof. intros HR h l H a. by apply HR. Qed.
#[export] Hint Resolve lasting_and lasting_true lasting_all ext_refl : core.

(** ** The host *)

(** What [encoding/json] makes of a field of type [any]; a number is the value
    of its [float64], which is whole for all [lsblk] prints. *)
Inductive any := JNull | JBool (b : bool) | JNum (n : Z) | JStr (s : string) | JOther.

Inductive lsblkDevice := MkDev {
  ld_Name : string; ld_Path : string; ld_Size : any; ld_Type : string; ld_FSType : option string;
  ld_MountPoints : list string; ld_Model : option string; ld_Serial : option string;
  ld_Rota : any; ld_Tran : option string; ld_RO : any; ld_Children : list lsblkDevice }.

(** What the host answers, given all that was done before. *)
Record machine := MkMachine {
  m_run : history -> list string -> bool * string;   (* exit status 0, and what was printed *)
  m_lsblk : history -> string -> string -> option (list lsblkDevice);  (* decoded, by columns and device *)
  m_stat : history -> string -> bool;                (* [os.Stat] succeeds *)
  m_file : history -> string -> bool;                (* ... and it is no directory *)
  m_read : history -> string -> option string;
  m_readdir : history -> string -> option (list string);
  m_mkdir : history -> string -> bool;
  m_lookpath : string -> bool;
  m_host : history -> host;                          (* the sources of [diskstate] *)
  m_cancelled : history -> bool;                     (* the context of the request is done *)
  m_pool : history -> CreatePoolRequest -> option string;   (* the error of [CreateStoragePool] *)
  m_poolpath : history -> string -> option string }.

Section Commands.
Context (M : machine).
Definition sh (argv : list string) : op (bool * string) := step (Run argv) (fun h => m_run M h argv).
(** Run, whatever comes of it. *)
Definition run_ (argv : list string) : op unit := _ ← sh argv; mret tt.
(** Run, or end with [e]. *)
Definition run_or (e : Z) (argv : list string) : op string := r ← sh argv; _ ← se_guard (negb r.1) e; mret r.2.
Definition ask {A} (f : history -> A) : op A := fun h => (Ok (f h), h).

Section Rules.
Context (P : history -> act -> Prop) (R : history -> Prop) (HR : lasting R).
Lemma does_sh argv : (forall h, R h -> P h (Run argv)) -> does P R (sh argv) (fun _ => R).
Proof. by apply does_step_same. Qed.
Lemma does_run_ argv : (forall h, R h -> P h (Run argv)) -> does P R (run_ argv) (fun _ => R).
Proof. intros H. eapply does_bind; [by apply does_sh|]. intros r. by apply does_ret. Qed.
Lemma does_run_or e argv : (forall h, R h -> P h (Run argv)) -> does P R (run_or e argv) (fun _ => R).
Proof.
  intros H. eapply does_bind; [by apply does_sh|]. intros r. eapply does_then; [by apply does_guard|].
  intros []. by apply does_ret.
Qed.
Lemma does_ask {A} (f : history -> A) : does P R (ask f) (fun _ => R).
Proof. intros h H. split; [apply ext_refl|done]. Qed.
End Rules.
End Commands.
