(* ===== verification/StorageTools.v ===== *)
(** * StorageTools: arrays of md, pools and volumes of ZFS

    Models [mdraid/mdraid.go] and [zvol/zvol.go], [zvol/pool.go]: the names they
    accept, the commands they run and what they read of their output.  The listing
    of arrays from sysfs and the scrub of a pool are not modelled; [filepath.Glob],
    [fmt.Sscanf] of counters and floats make up most of them. *)

From S2P Require Import Sessions.
From S2P Require Export Regex HostCmd.
Open Scope Z_scope.

Definition alnum : ascii -> bool := fun c => is_alpha c || is_digit c.
Definition one_of (l : list ascii) (c : ascii) : bool := existsb (Ascii.eqb c) l.
Definition class_with (l : list ascii) : re := Class (fun c => alnum c || one_of l c).

(** ** Software RAID *)

Definition safeMDDeviceRE : re :=
  Alt (Seq (lit "/dev/md") (Regex.plus (Class is_digit))) (Seq (lit "/dev/md/") (Regex.plus (class_with ["_"; "-"]%char))).

(** The level [mdadm] is given, and how many devices it takes. *)
Definition NormalizeLevel (level : string) : option (string * nat) :=
  let l := fold_lower (trim_space level) in
  if contains ["0"; "raid0"; "stripe"] l then Some ("0", 2)%nat
  else if contains ["1"; "raid1"; "mirror"] l then Some ("1", 2)%nat
  else if contains ["5"; "raid5"] l then Some ("5", 3)%nat
  else if contains ["6"; "raid6"] l then Some ("6", 4)%nat
  else if contains ["10"; "raid10"] l then Some ("10", 4)%nat
  else None.

Section Tools.
Context (M : machine).

Definition md_path (i : nat) : string := "/dev/md" +:+ Itoa (Z.of_nat i).
Definition md_busy (h : history) (mdstat : string) (i : nat) : bool :=
  let name := "md" +:+ Itoa (Z.of_nat i) in
  contains_str (name +:+ " :") mdstat || contains_str (name +:+ "[") mdstat
  || (m_stat M h (md_path i) && m_stat M h ("/sys/class/block/" +:+ name +:+ "/md")).
Definition NextAvailableDevice : op string :=
  free ← ask (fun h => List.find (fun i => negb (md_busy h (default "" (m_read M h "/proc/mdstat")) i)) (List.seq 0 128));
  match free with Some i => mret (md_path i) | None => se_fail 500 end.

(** [clean := filepath.Clean(strings.TrimSpace(dev))], below [/dev]. *)
Definition md_clean (dev : string) : string :=
  let clean := Clean (trim_space dev) in if has_prefix "/dev/" clean then clean else "/dev/" +:+ clean.

(** [fmt.Sscanf(dev, "/dev/md%d", &minor)] of a path the expression accepts. *)
Definition md_minor (dev : string) : option Z :=
  match digits_value 0 (without_prefix "/dev/md" dev) with
  | Some v => if v <=? int64_max then Some v else None
  | None => None
  end.
Definition ensureDeviceNode (dev : string) : op unit :=
  let d := Clean (trim_space dev) in
  if negb (re_match safeMDDeviceRE d) || negb (has_prefix "/dev/md" d) || contains_str ".." d then mret tt else
  there ← ask (fun h => m_stat M h d);
  if there : bool then mret tt else
  match md_minor d with
  | Some minor => run_ M ["mknod"; "-m"; "660"; d; "b"; "9"; Itoa minor]
  | None => mret tt
  end.

Definition raid_module (lvl : string) : option string :=
  if String.eqb lvl "0" then Some "raid0" else if String.eqb lvl "1" then Some "raid1"
  else if String.eqb lvl "5" || String.eqb lvl "6" then Some "raid456"
  else if String.eqb lvl "10" then Some "raid10" else None.
Definition ensureModules (lvl : string) : op unit :=
  _ ← run_ M ["modprobe"; "md_mod"];
  match raid_module lvl with Some m => run_ M ["modprobe"; m] | None => mret tt end.

(** The lines of [mdadm.conf] that are kept, and the arrays that are there now. *)
Definition array_line (l : string) : bool := has_prefix "ARRAY " (trim_space l).
Definition persisted (existing scan : string) : string :=
  let kept := join_str newline (List.filter (fun l => negb (array_line l)) (split_byte "010" existing)) in
  (if has_suffix newline kept then kept else kept +:+ newline) +:+ scan.
Definition persistConfig : op unit :=
  r ← sh M ["mdadm"; "--detail"; "--scan"];
  if negb (r : bool * string).1 || String.eqb r.2 "" then mret tt else
  conf ← ask (fun h => match List.find (m_file M h) ["/etc/mdadm/mdadm.conf"; "/etc/mdadm.conf"] with
                       | Some p => Some (p, default "" (m_read M h p)) | None => None end);
  match conf with
  | Some (p, existing) => step (Wrote p (persisted existing r.2)) (fun _ => tt)
  | None => mret tt
  end.

Definition md_device (name : string) : op string :=
  if String.eqb name "" then NextAvailableDevice else
  let d := trim_space name in
  let d := if has_prefix "/dev/" d then d else "/dev/" +:+ d in
  _ ← se_guard (negb (re_match safeMDDeviceRE d)) 500; mret d.
Definition mdraid_Create (mdDevice level : string) (devices : list string) : op string :=
  _ ← se_guard (negb (m_lookpath M "mdadm")) 500;
  match NormalizeLevel level with
  | None => se_fail 500
  | Some (lvl, minDevs) =>
      _ ← se_guard (length devices <? minDevs)%nat 500;
      d ← md_device mdDevice;
      _ ← ensureModules lvl;
      _ ← ensureDeviceNode d;
      _ ← run_or M 500 (["mdadm"; "--create"; d; "--auto=yes"; "--level=" +:+ lvl;
                         "--raid-devices=" +:+ Itoa (Z.of_nat (length devices)); "--metadata=1.2"; "--run"; "--force"] ++ devices);
      _ ← run_ M ["udevadm"; "settle"; "--timeout=5"];
      _ ← persistConfig;
      mret d
  end.

Definition SyncAction (dev action : string) : op unit :=
  let clean := md_clean dev in
  _ ← se_guard (negb (re_match safeMDDeviceRE clean) || contains_str ".." clean) 500;
  let file := GoPath.Join ["/sys/block"; Base clean; "md"; "sync_action"] in
  let action := fold_lower (trim_space action) in
  _ ← se_guard (negb (contains ["check"; "repair"; "idle"] action)) 500;
  there ← ask (fun h => m_stat M h file);
  _ ← se_guard (negb there) 500;
  step (Wrote file (action +:+ newline)) (fun _ => tt).

Definition mdraid_Stop (dev : string) : op unit :=
  let clean := md_clean dev in
  _ ← se_guard (negb (re_match safeMDDeviceRE clean)) 500;
  _ ← run_or M 500 ["mdadm"; "--stop"; clean];
  persistConfig.

Definition slaves (entries : option (list string)) : list string :=
  sort_strings (map (fun n => "/dev/" +:+ n)
    (List.filter (fun n => nonempty n && negb (has_prefix "." n)) (default [] entries))).
Definition GetArrayDevices (dev : string) : op (list string) :=
  ask (fun h => slaves (m_readdir M h (GoPath.Join ["/sys/block"; Base (Clean (trim_space dev)); "slaves"]))).

Definition mdraid_Destroy (dev : string) (wipeMembers : bool) : op (list string) :=
  let clean := md_clean dev in
  _ ← se_guard (negb (re_match safeMDDeviceRE clean)) 500;
  members ← GetArrayDevices clean;
  _ ← mdraid_Stop clean;
  _ ← (if wipeMembers then
         each (fun d => _ ← run_ M ["mdadm"; "--zero-superblock"; "--force"; d]; run_ M ["wipefs"; "-a"; "-f"; d]) members
       else mret tt);
  _ ← persistConfig;
  mret members.

(** ** ZFS *)

Definition zfs_forbidden : list ascii :=
  ["@"; "#"; " "; "009"; "013"; "010"; "000"; "034"; "'"; "`"; ";"; "|"; "&"; "$"; "<"; ">"]%char.
Definition has_one (l : list ascii) (s : string) : bool := existsb (fun c => contains_byte c s) l.
Definition name_start : re := Class (fun c => alnum c || Ascii.eqb c "_").
Definition name_rest : re := Star (class_with ["_"; "."; "-"; ":"]%char).
Definition safeVolNameRE : re := Seq name_start name_rest.
Definition safePoolNameRE : re := Seq (Class is_alpha) name_rest.
Definition safeZVolNameRE : re := Seq safeVolNameRE (Regex.plus (Seq (lit "/") safeVolNameRE)).
Definition reservedPoolNames : list string :=
  ["mirror"; "raidz"; "raidz1"; "raidz2"; "raidz3"; "spare"; "log"; "cache"; "special"; "dedup"].

Definition ValidName (name : string) : bool :=
  let name := trim_space name in
  nonempty name && (slen name <=? 255)%nat && negb (has_one zfs_forbidden name)
  && negb (contains_str ".." name) && re_match safeZVolNameRE name.
Definition ValidPoolName (name : string) : bool :=
  let name := trim_space name in
  nonempty name && (slen name <=? 64)%nat && negb (has_one ("/"%char :: zfs_forbidden) name)
  && negb (contains_str ".." name) && re_match safePoolNameRE name && negb (contains reservedPoolNames (fold_lower name)).
Definition ValidVolumeName (name : string) : bool :=
  let name := trim_space name in
  nonempty name && (slen name <=? 255)%nat && negb (has_one ("/"%char :: zfs_forbidden) name)
  && negb (contains_str ".." name) && re_match safeVolNameRE name.

Definition DevicePath (name : string) : string := "/dev/zvol/" +:+ without_prefix "/dev/zvol/" name.

Record Info := MkInfo { i_Name : string; i_Pool : string; i_VolSize : Z; i_Used : Z; i_Device : string }.
Definition pool_of (name : string) : string := hd "" (split_byte "/" name).

(** [strconv.ParseInt]: a value it takes whole. *)
Definition int_exact (s : string) : option Z :=
  let signed neg t := match t with
    | EmptyString => None
    | _ => v ← digits_value 0 t; let v := if neg : bool then - v else v in
           if (int64_min <=? v) && (v <=? int64_max) then Some v else None
    end in
  match s with String "-" t => signed true t | String "+" t => signed false t | _ => signed false s end.

(** The properties [zfs get] prints, a line each. *)
Definition tab_fields (line : string) : list string := split_byte "009" (trim_space line).
Definition take_property (acc : string * Info) (line : string) : string * Info :=
  let '(ty, i) := acc in
  if String.eqb (trim_space line) "" then acc else
  match tab_fields line with
  | prop :: val :: _ =>
      if String.eqb prop "type" then (val, i)
      else if String.eqb prop "volsize" then
        (ty, MkInfo (i_Name i) (i_Pool i) (default (i_VolSize i) (int_exact val)) (i_Used i) (i_Device i))
      else if String.eqb prop "used" then
        (ty, MkInfo (i_Name i) (i_Pool i) (i_VolSize i) (default (i_Used i) (int_exact val)) (i_Device i))
      else acc
  | _ => acc
  end.
Definition parseZfsGetOutput (name out : string) : option Info :=
  let '(ty, i) := foldl take_property ("", MkInfo name (pool_of name) 0 0 (DevicePath name)) (Lines (64 * 1024) out) in
  if String.eqb ty "volume" then Some i else None.

Definition parseZfsListOutput (out : string) : list Info :=
  omap (fun line =>
    if String.eqb (trim_space line) "" then None else
    match tab_fields line with
    | name :: volsize :: used :: _ =>
        if ValidName name then Some (MkInfo name (pool_of name) (Atoi volsize) (Atoi used) (DevicePath name)) else None
    | _ => None
    end) (Lines (64 * 1024) out).

(** The devices [zpool status] lists under its heading. *)
Fixpoint status_devices (inConfig : bool) (lines : list string) : list string :=
  match lines with
  | [] => []
  | l :: lines =>
      let line := trim_space l in
      if has_prefix "NAME" line then status_devices true lines
      else if negb inConfig || String.eqb line "" || has_prefix "errors:" line then
        if has_prefix "errors:" line then [] else status_devices inConfig lines
      else match Fields line with
           | dev :: _ => if has_prefix "/dev/" dev then dev :: status_devices inConfig lines else status_devices inConfig lines
           | [] => status_devices inConfig lines
           end
  end.
Definition getPoolDevices (pool : string) : op (list string) :=
  r ← sh M ["zpool"; "status"; "-P"; "-v"; pool];
  mret (if r.1 : bool then status_devices false (Lines (64 * 1024) r.2) else []).

Definition zpool_args (name topology : string) (devices : list string) (ashift : Z) (compression mountPoint : string) : list string :=
  let topo := fold_lower (trim_space topology) in
  ["zpool"; "create"; "-f"] ++ (if 0 <? ashift then ["-o"; "ashift=" +:+ Itoa ashift] else [])
  ++ (if nonempty compression then ["-O"; "compression=" +:+ compression] else [])
  ++ (if nonempty mountPoint then ["-m"; mountPoint] else [])
  ++ [name] ++ (if String.eqb topo "" || String.eqb topo "stripe" then [] else [topo]) ++ devices.
Definition CreatePoolOpts (name topology : string) (devices : list string) (ashift : Z) (compression mountPoint : string) : op unit :=
  _ ← se_guard (negb (ValidPoolName name)) 500;
  _ ← se_guard (negb (m_lookpath M "zpool")) 500;
  _ ← run_or M 500 (zpool_args name topology devices ashift compression mountPoint); mret tt.

Definition DestroyPool (name : string) (wipeDevices : bool) : op unit :=
  _ ← se_guard (negb (ValidPoolName name)) 500;
  _ ← se_guard (negb (m_lookpath M "zpool")) 500;
  devs ← getPoolDevices name;
  _ ← run_or M 500 ["zpool"; "destroy"; "-f"; name];
  if wipeDevices then
    each (fun d => if has_prefix "/dev/" d then _ ← run_ M ["wipefs"; "-a"; "-f"; d]; run_ M ["zpool"; "labelclear"; "-f"; d] else mret tt) devs
  else mret tt.
End Tools.

(** ** Where a volume is *)

Lemma segment_comp w : matches safeVolNameRE w -> comp w.
Proof.
  intros H. assert (all_bytes (fun c => negb (Ascii.eqb c "/")) w = true) as Hb.
  { apply (matches_bytes _ safeVolNameRE); [|done]. apply bytes_check_sound. vm_compute. reflexivity. }
  apply (all_bytes_excludes _ "/") in Hb; [|done].
  inversion H as [| |? ? u v Hu Hv E| | | |]; subst. inversion Hu as [|p c Hp| | | | |]; subst. cbn [String.append] in *.
  split_and!; [done| | |done]; intros [= -> _]; vm_compute in Hp; discriminate.
Qed.
Definition glued (l : list string) : string := fold_right String.append "" l.
Lemma segments_comps s : matches (Star (Seq (lit "/") safeVolNameRE)) s ->
  exists ws, Forall comp ws /\ s = glued (map (String "/") ws).
Proof.
  intros H. remember (Star (Seq (lit "/") safeVolNameRE)) as r eqn:Hr. induction H as [| | | | |r|r s1 s2 H1 _ H2 IH]; try discriminate.
  { by exists []. }
  injection Hr as ->. inversion H1 as [| |? ? a w Ha Hw| | | |]; subst. apply (matches_lit "/") in Ha. subst a.
  destruct (IH eq_refl) as (ws & Hws & ->). exists (w :: ws). split; [constructor; [by apply segment_comp|done]|]. done.
Qed.
Lemma join_segments w ws : join_str "/" (w :: ws) = w +:+ glued (map (String "/") ws).
Proof.
  revert w. induction ws as [|x ws IH]; intros w; [cbn; by rewrite app_str_nil_r|]. rewrite join_str_cons by done.
  rewrite IH. done.
Qed.

(** A name the program takes for a volume of ZFS gives a clean path below
    [/dev/zvol], of at least a pool and a volume. *)
Theorem zvol_device_confined name : ValidName name = true -> trim_space name = name ->
  exists pool ws, Forall comp (pool :: ws) /\ ws <> [] /\ name = join_str "/" (pool :: ws) /\ pool_of name = pool /\
    DevicePath name = abs_path (["dev"; "zvol"; pool] ++ ws) /\ Clean (DevicePath name) = DevicePath name.
Proof.
  unfold ValidName. intros Hv Ht. rewrite Ht in Hv. apply andb_prop in Hv as [_ Hm]. apply re_match_sound in Hm.
  inversion Hm as [| |? ? pool rest Hp Hr| | | |]; subst. inversion Hr as [| |? ? s1 s2 H1 H2| | | |]; subst.
  destruct (segments_comps (s1 +:+ s2)) as (ws & Hws & E); [by apply m_cons|]. apply segment_comp in Hp.
  assert (ws <> []) as Hne.
  { intros ->. inversion H1 as [| |? ? a w Ha Hw| | | |]; subst. apply (matches_lit "/") in Ha. subst a. discriminate. }
  assert (Forall comp (pool :: ws)) as Hall by (by constructor).
  assert (pool +:+ s1 +:+ s2 = join_str "/" (pool :: ws)) as En by (by rewrite join_segments, E).
  assert (split_byte "/" (join_str "/" (pool :: ws)) = pool :: ws) as Es.
  { apply split_join; [done|]. by apply comps_no_slash. }
  assert (DevicePath (join_str "/" (pool :: ws)) = abs_path (["dev"; "zvol"; pool] ++ ws)) as Ed.
  { unfold DevicePath, without_prefix. destruct (has_prefix "/dev/zvol/" (join_str "/" (pool :: ws))) eqn:Hpre; [|done].
    exfalso. apply has_prefix_spec in Hpre as [t Hpre]. rewrite Hpre in Es. cbn in Es. injection Es as Es _. by destruct Hp. }
  exists pool, ws. rewrite En. split_and!; try done.
  - unfold pool_of. by rewrite Es.
  - rewrite Ed. apply Clean_abs. cbn [app]. repeat (apply Forall_cons; split); done.
Qed.
