(* ===== verification/DiskGuards.v ===== *)
(** * DiskGuards: what is asked before a disk is destroyed

    Models the guards of [api/host_disks.go], which combine the tree [lsblk] prints
    with the declarations of [DiskState], the handlers that wipe and unmount a
    disk, and the list of the disks of the host. *)

From S2P Require Import Sessions.
From S2P Require Export StorageTools.
Open Scope Z_scope.

Definition class_of (s : list ascii) : re := Class (one_of s).
Definition letters : re := Regex.plus (Class is_lower).
Definition numbers : re := Regex.plus (Class is_digit).
Definition maybe_part : re := opt (Seq (lit "p") numbers).
Definition safeDiskPathRE : re :=
  Seq (lit "/dev/") (alts [
    Seq (lit "sd") (Seq letters (Star (Class is_digit)));
    Seq (lit "nvme") (Seq numbers (Seq (lit "n") (Seq numbers maybe_part)));
    Seq (lit "vd") (Seq letters (Star (Class is_digit)));
    Seq (lit "hd") (Seq letters (Star (Class is_digit)));
    Seq (lit "loop") (Seq numbers maybe_part);
    Seq (lit "md") (Seq numbers maybe_part);
    Seq (lit "md/") (Regex.plus (class_with ["_"; "-"]%char))]).
Definition safeDiskNameRE : re := Regex.plus (class_with ["_"; "-"; "."]%char).
Definition safeMountOptionRE : re :=
  Seq (Class alnum) (Star (class_with ["_"; "-"; "."; "="; "/"; ":"; "@"; "+"]%char)).

(** ** The tree of a disk *)

Definition nonEmpty (l : list string) : list string := List.filter nonempty l.
Fixpoint tree_mounts (d : lsblkDevice) : list string :=
  nonEmpty (ld_MountPoints d) ++ concat (map tree_mounts (ld_Children d)).
Fixpoint tree_paths (disk : string) (d : lsblkDevice) : list string :=
  (if nonempty (ld_Path d) && negb (String.eqb (ld_Path d) disk) then [ld_Path d] else [])
  ++ concat (map (tree_paths disk) (ld_Children d)).
Definition isSystemMount (m : string) : bool :=
  String.eqb m "/" || String.eqb m "/boot" || has_prefix "/boot/" m || String.eqb m "/etc".
Fixpoint system_tree (d : lsblkDevice) : bool :=
  existsb isSystemMount (ld_MountPoints d) || existsb system_tree (ld_Children d).

Definition firstConflictingMount (mounts : list string) (allowed : string) : option string :=
  List.find (fun m => negb (String.eqb m allowed)) mounts.
Definition onlyMountPoint (mounts : list string) (allowed : string) : bool := forallb (fun m => String.eqb m allowed) mounts.

Section Guards.
Context (M : machine) (EvalSymlinks : string -> option string)
        (range : nat -> forall V : Type, gmap string V -> list (string * V)).

Definition lsblk (columns dev : string) : op (option (list lsblkDevice)) :=
  step (Run ["lsblk"; "-J"; "-b"; "-o"; columns; dev]) (fun h => m_lsblk M h columns dev).
Definition mount_columns : string := "NAME,PATH,MOUNTPOINTS".
Definition path_columns : string := "NAME,PATH,TYPE".
Definition Unavailable : Z := 503.
Definition Conflict : Z := 409.

Definition mountedPaths (dev : string) : op (list string) :=
  tree ← lsblk mount_columns dev;
  match tree with None => se_fail Unavailable | Some devs => mret (concat (map tree_mounts devs)) end.
Definition partitionPaths (dev : string) : op (list string) :=
  tree ← lsblk path_columns dev;
  mret (match tree with None => [] | Some devs => concat (map (tree_paths dev) devs) end).
Definition scan : op Table := step Scan (fun h => Resolve EvalSymlinks range (m_host M h)).

Definition assertNoDeclaredMount (dev allowed : string) : op unit :=
  table ← scan;
  parts ← partitionPaths dev;
  let state := ForDisk EvalSymlinks table dev parts in
  if negb (Configured state) then mret tt
  else if nonempty allowed && onlyMountPoint (MountPoints state) allowed then mret tt
  else se_fail Conflict.
Definition assertDeviceNotMountedElsewhere (dev allowed : string) : op unit :=
  mounts ← mountedPaths dev;
  match firstConflictingMount mounts allowed with
  | Some _ => se_fail Conflict
  | None => assertNoDeclaredMount dev allowed
  end.
Definition assertDiskNotMounted (dev : string) : op unit := assertDeviceNotMountedElsewhere dev "".
Definition assertNotSystemDisk (dev : string) : op unit :=
  tree ← lsblk mount_columns dev;
  match tree with None => se_fail Unavailable | Some devs => se_guard (existsb system_tree devs) Conflict end.

(** ** Wiping *)

Definition wipefs (dev : string) : list string := ["wipefs"; "-a"; "-f"; dev].
Definition zap (dev : string) : list string := ["sgdisk"; "--zap-all"; dev].
Definition safe_disk (dev : string) : op unit := se_guard (negb (re_match safeDiskPathRE dev)) 400.

Definition WipeHostDisk (body : option string) : op string :=
  match body with
  | None => se_fail 400
  | Some path =>
      let disk := trim_space path in
      _ ← safe_disk disk;
      _ ← assertNotSystemDisk disk;
      _ ← assertDiskNotMounted disk;
      _ ← run_or M 500 (wipefs disk);
      _ ← (if m_lookpath M "sgdisk" then run_ M (zap disk) else mret tt);
      _ ← run_ M ["partprobe"; disk];
      mret disk
  end.

(** ** Unmounting *)

Definition unit_names (out : string) : option (string * string) :=
  let unit := trim_space out in
  if String.eqb unit "" then None else Some (unit, trim_suffix ".mount" unit +:+ ".automount").
Definition unit_file (name : string) : string := GoPath.Join ["/etc/systemd/system"; name].
(** The units of a mount point are stopped, disabled and removed. *)
Definition drop_units (mp : string) : op unit :=
  r ← sh M ["systemd-escape"; "--path"; "--suffix=mount"; mp];
  match unit_names (r : bool * string).2 with
  | None => mret tt
  | Some (unit, auto) =>
      _ ← run_ M ["systemctl"; "stop"; auto]; _ ← run_ M ["systemctl"; "disable"; auto];
      _ ← run_ M ["systemctl"; "stop"; unit]; _ ← run_ M ["systemctl"; "disable"; unit];
      _ ← step (Removed (unit_file auto)) (fun _ => tt); _ ← step (Removed (unit_file unit)) (fun _ => tt);
      run_ M ["systemctl"; "daemon-reload"]
  end.
Definition not_mounted (out : string) : bool := contains_str "not mounted" (fold_lower out).
(** Forced, then lazy. The error of the lazy one is looked for in what the
    forced one printed. *)
Definition umount (mp : string) : op unit :=
  r ← sh M ["umount"; "-f"; mp];
  if (r : bool * string).1 then mret tt
  else if not_mounted r.2 || contains_str "no mount point specified" (fold_lower r.2) then mret tt
  else l ← sh M ["umount"; "-l"; mp]; se_guard (negb (l : bool * string).1 && negb (not_mounted r.2)) 500.

Definition never_unmounted (m : string) : bool :=
  contains [""; "/"; "/boot"; "/etc"; "/sys"; "/proc"; "/dev"] m || has_prefix "/boot/" m.
Definition unmount_one (m : string) : op unit :=
  _ ← se_guard (never_unmounted m) 500; _ ← drop_units m; umount m.
Definition unmountDeviceAndChildren (dev : string) : op (list string) :=
  _ ← assertNotSystemDisk dev;
  mounts ← mountedPaths dev;
  _ ← each unmount_one mounts;
  mret mounts.

Definition UnmountHostDisk (body : option (string * string)) : op (list string) :=
  match body with
  | None => se_fail 400
  | Some (path, mountPoint) =>
      let target := trim_space path in
      let mp := trim_space mountPoint in
      _ ← se_guard (String.eqb target "" && String.eqb mp "") 400;
      l1 ← (if String.eqb target "" then mret []
            else fun h => match unmountDeviceAndChildren target h with (Err _, h) => (Err 500, h) | r => r end);
      l2 ← (if String.eqb mp "" then mret [] else
              _ ← se_guard (isSystemMount mp) 403; _ ← drop_units mp; _ ← umount mp; mret [mp]);
      mret (l1 ++ l2)
  end.
End Guards.

(** ** The list of the disks *)

Definition parseSize (v : any) : Z := match v with JNum n => n | JStr s => Atoi s | _ => 0 end.
Definition parseBool (v : any) : bool :=
  match v with
  | JBool b => b
  | JStr s => String.eqb s "1" || String.eqb (to_lower s) "true"
  | JNum n => n =? 1
  | _ => false
  end.

Record HostPartition := MkPart { hp_Name : string; hp_Path : string; hp_Size : Z; hp_FSType : string; hp_MountPoints : list string }.
Record HostDisk := MkHostDisk {
  hd_Name : string; hd_Path : string; hd_Size : Z; hd_Type : string; hd_FSType : string; hd_MountPoints : list string;
  hd_Model : string; hd_Serial : string; hd_Rotational : bool; hd_Transport : string; hd_IsSystem : bool;
  hd_Children : list HostPartition; hd_MountState : Status_t; hd_MountSources : list Source;
  hd_MountUnits : list string; hd_MountPools : list string; hd_MountDetail : option why }.

Definition isDisk (d : lsblkDevice) : bool :=
  contains ["disk"; "loop"; "mpath"; "md"; "raid"] (ld_Type d) || has_prefix "raid" (ld_Type d) || has_prefix "md" (ld_Name d).
Definition garbage_loop (d : lsblkDevice) : bool :=
  String.eqb (ld_Type d) "loop"
  && (match ld_FSType d with Some t => String.eqb t "squashfs" || String.eqb t "iso9660" | None => false end
      || parseBool (ld_RO d)
      || existsb (fun m => has_prefix "/snap" m || has_prefix "/var/lib/snapd" m || has_prefix "/tmp" m) (ld_MountPoints d)).
Definition shown (d : lsblkDevice) : bool := isDisk d && negb (has_prefix "zram" (ld_Name d)) && negb (garbage_loop d).

Definition mountDetail (s : State) : option why := match Status s with StatusConfigured => Some (Reason s) | _ => None end.
Definition partition_row (c : lsblkDevice) : HostPartition :=
  MkPart (ld_Name c) (ld_Path c) (parseSize (ld_Size c)) (default "" (ld_FSType c)) (ld_MountPoints c).
Definition partitionHasMount (parts : list HostPartition) (mp : string) : bool :=
  existsb (fun p => contains (hp_MountPoints p) mp) parts.
Definition disk_row (EvalSymlinks : string -> option string) (table : Table) (d : lsblkDevice) : HostDisk :=
  let parts := map partition_row (ld_Children d) in
  let ms := ForDisk EvalSymlinks table (ld_Path d) (List.filter nonempty (map ld_Path (ld_Children d))) in
  let points := foldl (fun l mp => if nonempty mp && negb (contains l mp) && negb (partitionHasMount parts mp) then l ++ [mp] else l)
                  (ld_MountPoints d) (MountPoints ms) in
  MkHostDisk (ld_Name d) (ld_Path d) (parseSize (ld_Size d)) (ld_Type d) (default "" (ld_FSType d)) points
    (trim_space (default "" (ld_Model d))) (trim_space (default "" (ld_Serial d))) (parseBool (ld_Rota d)) (default "" (ld_Tran d))
    (existsb isSystemMount (ld_MountPoints d) || existsb (fun c => existsb isSystemMount (ld_MountPoints c)) (ld_Children d)
     || HasSystemMount ms)
    parts (Status ms) (Sources ms) (Units ms) (Pools ms) (mountDetail ms).

(** An active array of md, as [mdraid.List] finds it, and what [blkid] says of it. *)
Record Array := MkArray { ar_Name : string; ar_Device : string; ar_Level : string; ar_State : string; ar_Size : Z }.
Definition array_row (EvalSymlinks : string -> option string) (table : Table) (blkid : string -> option string) (a : Array) : HostDisk :=
  let ms := ForDisk EvalSymlinks table (ar_Device a) [] in
  MkHostDisk (ar_Name a) (ar_Device a) (ar_Size a) "raid" (trim_space (default "" (blkid (ar_Device a))))
    (foldl (fun l mp => append_new mp l) [] (MountPoints ms)) ("Linux Software RAID (" +:+ ar_Level a +:+ ")") ("md-" +:+ ar_State a)
    false "md" (HasSystemMount ms) [] (Status ms) (Sources ms) (Units ms) (Pools ms) (mountDetail ms).

Definition ListHostDisks (EvalSymlinks : string -> option string) (range : nat -> forall V : Type, gmap string V -> list (string * V))
    (h : host) (tree : option (list lsblkDevice)) (arrays : option (list Array)) (blkid : string -> option string) : res Z (list HostDisk) :=
  match tree with
  | None => Err 500
  | Some devs =>
      let table := Resolve EvalSymlinks range h in
      let disks := map (disk_row EvalSymlinks table) (List.filter shown devs) in
      Ok (foldl (fun disks a => if existsb (fun d => String.eqb (hd_Path d) (ar_Device a)) disks then disks
                                else disks ++ [array_row EvalSymlinks table blkid a]) disks (default [] arrays))
  end.
