(* ===== verification/HostDisks.v ===== *)
(** * HostDisks: making storage of the disks of a host

    Models the handlers of [api/host_disks.go] that format, mount and combine
    disks: [InitHostDiskDirectory] with [executeInitHostDisk], [CreateHostZPool],
    [CreateHostZVol], [CreateHostRAID], [StopHostRAID] and [DestroyHostZPool], and the
    list of the disks; and [api/pools_init.go]: the folders an initialised disk
    may have, the pool each of them becomes and what is reported of their creation.
    The theorems show what was asked of the host before a
    destructive command. *)

From S2P Require Export DiskGuards.
From S2P Require Import Sessions.
Open Scope Z_scope.

(** ** One pool for each purpose of a disk *)

Definition PurposeDisk : string := "disk".
Definition PurposeISO : string := "iso".
Definition PurposeContainer : string := "container".
Definition PurposeBackup : string := "backup".
Definition PurposeTemplate : string := "template".
Definition purposes : list string := [PurposeDisk; PurposeISO; PurposeContainer; PurposeBackup; PurposeTemplate].

Definition parsePoolPurpose (raw : string) : option string :=
  let p := trim_space (fold_lower raw) in
  let p := if String.eqb p "lxc" then PurposeContainer else p in
  if contains purposes p then Some p else None.

Fixpoint assoc (k : string) (l : list (string * string)) : option string :=
  match l with [] => None | (k', v) :: l => if String.eqb k k' then Some v else assoc k l end.
Definition subfolderNature : list (string * string) :=
  [("isos", PurposeISO); ("discos", PurposeDisk); ("disks", PurposeDisk); ("images", PurposeDisk);
   ("contenedores", PurposeContainer); ("containers", PurposeContainer); ("backups", PurposeBackup);
   ("plantillas", PurposeTemplate); ("templates", PurposeTemplate)].
Definition folderPoolSuffix : list (string * string) :=
  [(PurposeDisk, "-vdi"); (PurposeISO, "-isos"); (PurposeContainer, "-containers"); (PurposeBackup, "-backups");
   (PurposeTemplate, "-plantillas")].

(** [strings.Trim(s, "/")] *)
Fixpoint trim_slashes_left (s : string) : string :=
  match s with String c s' => if Ascii.eqb c "/" then trim_slashes_left s' else s | EmptyString => EmptyString end.
Definition trim_slashes (s : string) : string := trim_right_set (fun c => Ascii.eqb c "/") (trim_slashes_left s).
Definition folder_name (sub : string) : string := trim_space (trim_slashes (trim_space sub)).
Definition allowedSubfolder (sub : string) : option string :=
  match assoc (folder_name sub) subfolderNature with Some _ => Some (folder_name sub) | None => None end.

Definition backendForPurpose (purpose : string) : string := if String.eqb purpose PurposeContainer then "incus" else "libvirt".
Definition subfolderPoolSpec (sub volume mp : string) : option (CreatePoolRequest * string) :=
  match assoc (folder_name sub) subfolderNature with
  | None => None
  | Some nature =>
      if String.eqb volume "" || String.eqb mp "" then None else
      Some (MkPoolRequest (volume +:+ default "" (assoc nature folderPoolSuffix)) (GoPath.Join [mp; folder_name sub]) "dir" nature,
            backendForPurpose nature)
  end.

Record PoolResult := MkPoolResult {
  pr_Name : string; pr_Purpose : string; pr_Backend : string; pr_Path : string; pr_Status : string;
  pr_Mismatch : bool; pr_Error : string }.

Section PoolsInit.
Context (M : machine).

Definition createOnePool (req : CreatePoolRequest) (backend : string) : op PoolResult :=
  err ← step (PoolAsked req) (fun h => m_pool M h req);
  let row path status mismatch e := MkPoolResult (cp_Name req) (cp_Purpose req) backend path status mismatch e in
  match err : option string with
  | None => mret (row (cp_Path req) "created" false "")
  | Some e =>
      if contains_str "already exists" (fold_lower e) then
        actual ← ask (fun h => m_poolpath M h (cp_Name req));
        match actual with
        | Some p =>
            if nonempty p && negb (String.eqb (Clean p) (Clean (cp_Path req)))
            then mret (row p "exists" true ("pool already exists at " +:+ p +:+ " (expected " +:+ cp_Path req +:+ ")"))
            else mret (row (cp_Path req) "exists" false "")
        | None => mret (row (cp_Path req) "exists" false "")
        end
      else mret (row (cp_Path req) "error" false e)
  end.

Fixpoint pools_for (volume mp : string) (seen : list string) (subs : list string) : op (list PoolResult) :=
  match subs with
  | [] => mret []
  | sub :: subs =>
      match subfolderPoolSpec sub volume mp with
      | Some (req, backend) =>
          if contains seen (cp_Name req) then pools_for volume mp seen subs else
          r ← createOnePool req backend;
          rest ← pools_for volume mp (cp_Name req :: seen) subs;
          mret (r :: rest)
      | None => pools_for volume mp seen subs
      end
  end.
Definition legacyFallbackPurpose (raw : string) : string := default PurposeDisk (parsePoolPurpose raw).
(** No list at all is not an empty list. *)
Definition createPoolsForSubfolders (volume mp : string) (subs : option (list string)) (fallback : string) : op (list PoolResult) :=
  match subs with
  | Some l => pools_for volume mp [] l
  | None =>
      let purpose := legacyFallbackPurpose fallback in
      r ← createOnePool (MkPoolRequest volume mp "dir" purpose) (backendForPurpose purpose);
      mret [r]
  end.

(** ** What is asked for *)

(** The folder of a pool request, of the volume and the mount point given. *)
Definition wanted (volume mp : string) (req : CreatePoolRequest) : Prop :=
  exists sub nature suffix, assoc sub subfolderNature = Some nature /\ assoc nature folderPoolSuffix = Some suffix /\
    cp_Name req = volume +:+ suffix /\ cp_Path req = GoPath.Join [mp; sub] /\ cp_Purpose req = nature /\ cp_Type req = "dir".

Lemma assoc_suffix sub nature : assoc sub subfolderNature = Some nature -> exists suffix, assoc nature folderPoolSuffix = Some suffix.
Proof.
  unfold subfolderNature. cbn [assoc].
  repeat (match goal with |- context [String.eqb sub ?k] => destruct (String.eqb sub k) end; [intros [= <-]; by eexists|]).
  done.
Qed.
Lemma spec_wanted sub volume mp req backend : subfolderPoolSpec sub volume mp = Some (req, backend) ->
  wanted volume mp req /\ backend = backendForPurpose (cp_Purpose req).
Proof.
  unfold subfolderPoolSpec. destruct (assoc (folder_name sub) subfolderNature) as [nature|] eqn:Hn; [|done].
  destruct (_ || _); [done|]. destruct (assoc_suffix _ _ Hn) as [suffix Hs]. rewrite Hs. intros [= <- <-].
  split; [|done]. by exists (folder_name sub), nature, suffix.
Qed.

Lemma createOnePool_row req backend h : exists r, createOnePool req backend h = (Ok r, h ++ [PoolAsked req]) /\
  pr_Name r = cp_Name req /\ pr_Purpose r = cp_Purpose req /\ pr_Backend r = backend.
Proof.
  unfold createOnePool. rewrite run_bind. cbn [step]. destruct (m_pool M h req) as [e|]; [|by eexists].
  destruct (contains_str _ _); [|by eexists]. rewrite run_bind. cbn [ask]. destruct (m_poolpath M _ _) as [p|]; [|by eexists].
  destruct (_ && _); by eexists.
Qed.

(** From a list of folders each known one becomes one pool of its own name,
    purpose and folder, asked for once; unknown folders and second folders of a
    purpose ask for nothing, and no request ends the others. *)
Theorem pools_one_per_purpose volume mp subs seen h : exists rows reqs,
  pools_for volume mp seen subs h = (Ok rows, h ++ map PoolAsked reqs) /\
  map pr_Name rows = map cp_Name reqs /\ map pr_Purpose rows = map cp_Purpose reqs /\
  NoDup (map cp_Name reqs) /\ Forall (fun n => n ∉ seen) (map cp_Name reqs) /\ Forall (wanted volume mp) reqs /\
  forall sub req backend, sub ∈ subs -> subfolderPoolSpec sub volume mp = Some (req, backend) ->
    cp_Name req ∈ seen \/ cp_Name req ∈ map cp_Name reqs.
Proof.
  revert seen h. induction subs as [|sub subs IH]; intros seen h; cbn [pools_for].
  { exists [], []. rewrite app_nil_r. split_and!; try done; [constructor|]. intros ? ? ? Hn. by apply elem_of_nil in Hn. }
  destruct (subfolderPoolSpec sub volume mp) as [[req backend]|] eqn:Hs.
  2:{ destruct (IH seen h) as (rows & reqs & Hr & Hn & Hp & Hd & Hf & Hw & Hc). exists rows, reqs. split_and!; try done.
      intros sub' req' b' [->|Hin]%elem_of_cons Hs'; [congruence|by eapply Hc]. }
  destruct (contains seen (cp_Name req)) eqn:Hc0.
  { destruct (IH seen h) as (rows & reqs & Hr & Hn & Hp & Hd & Hf & Hw & Hc). exists rows, reqs. split_and!; try done.
    intros sub' req' b' [->|Hin]%elem_of_cons Hs'; [|by eapply Hc]. left. apply contains_elem. congruence. }
  rewrite run_bind. destruct (createOnePool_row req backend h) as (r & -> & Hname & Hpur & _). rewrite run_bind.
  destruct (IH (cp_Name req :: seen) (h ++ [PoolAsked req])) as (rows & reqs & -> & Hn & Hp & Hd & Hf & Hw & Hc).
  exists (r :: rows), (req :: reqs). rewrite Forall_forall in Hf. split_and!; try done.
  - by rewrite <- app_assoc.
  - cbn [map]. by rewrite Hname, Hn.
  - cbn [map]. by rewrite Hpur, Hp.
  - cbn [map]. constructor; [|done]. intros Hin. apply (Hf _ Hin). by left.
  - cbn [map]. constructor.
    + intros Hin. apply contains_elem in Hin. congruence.
    + apply Forall_forall. intros n Hin Hs'. apply (Hf n Hin). by right.
  - constructor; [by eapply spec_wanted|done].
  - intros sub' req' b' [->|Hin]%elem_of_cons Hs'.
    { rewrite Hs in Hs'. injection Hs' as <- <-. right. by left. }
    rewrite map_cons, elem_of_cons. destruct (Hc sub' req' b' Hin Hs') as [Hx|Hx]; [apply elem_of_cons in Hx as [Hx|Hx]|]; auto.
Qed.
End PoolsInit.

(** ** Requests *)

Record InitHostDiskRequest := MkInit {
  in_DiskPath : string; in_Filesystem : string; in_VolumeName : string; in_MountPoint : string; in_CreatePool : bool;
  in_PoolPurpose : string; in_Mode : string; in_Subfolders : option (list string); in_RegisterBackupTarget : bool;
  in_Device : string; in_MountOptions : list string; in_NoFail : option bool; in_Automount : option bool; in_ReadOnly : option bool }.
Record CreateZPoolRequest := MkZPool {
  zp_Name : string; zp_Topology : string; zp_Devices : list string; zp_Ashift : Z; zp_Compression : string;
  zp_MountPoint : string; zp_AutoUnmount : bool }.
Record CreateRAIDRequest := MkRAID {
  ra_Name : string; ra_Level : string; ra_Devices : list string; ra_Format : bool; ra_VolumeName : string;
  ra_MountPoint : string; ra_Filesystem : string; ra_CreatePool : bool; ra_Subfolders : option (list string);
  ra_PoolPurpose : string; ra_AutoUnmount : bool }.

(** ** Filesystems and mount points *)

Record filesystemSpec := MkFS { fs_ID : string; fs_Bin : string; fs_Arg : string }.
Definition supportedFilesystems : list filesystemSpec :=
  [MkFS "ext4" "mkfs.ext4" "-F"; MkFS "xfs" "mkfs.xfs" "-f"; MkFS "btrfs" "mkfs.btrfs" "-f"; MkFS "f2fs" "mkfs.f2fs" "-f"].
Definition filesystemByID (id : string) : option filesystemSpec :=
  List.find (fun fs => String.eqb (fs_ID fs) id) supportedFilesystems.

Definition allowedMountRoots : list string := ["/mnt/"; "/srv/"].
Definition validateMountPoint (mp : string) : bool :=
  IsAbs mp && negb (has_one ["010"; "013"; "009"; "000"]%char mp) && String.eqb (Clean mp) mp && negb (String.eqb mp "/")
  && existsb (fun root => has_prefix root (mp +:+ "/") && negb (String.eqb mp (trim_suffix "/" root))) allowedMountRoots.

Definition mount_options (r : InitHostDiskRequest) : string :=
  let base := if default true (in_NoFail r)
              then "defaults,noatime,nofail,x-systemd.device-timeout=10,x-systemd.default-timeout=10" else "defaults,noatime" in
  let base := if default false (in_Automount r) then base +:+ ",x-systemd.automount,x-systemd.idle-timeout=60" else base in
  let base := if default false (in_ReadOnly r) then base +:+ ",ro" else base in
  foldl (fun opts opt => let opt := trim_space opt in
                         if String.eqb opt "" || negb (re_match safeMountOptionRE opt) then opts else opts +:+ "," +:+ opt)
    base (in_MountOptions r).

Definition text (lines : list string) : string := join_str newline lines +:+ newline.
Definition mount_unit (volume mp device fs opts : string) : string := text
  ["[Unit]"; "Description=WebKVM Mount for " +:+ volume +:+ " (" +:+ mp +:+ ")"; "After=local-fs.target"; "DefaultDependencies=no";
   "StartLimitIntervalSec=0"; ""; "[Mount]"; "What=" +:+ device; "Where=" +:+ mp; "Type=" +:+ fs; "Options=" +:+ opts; "";
   "[Install]"; "WantedBy=local-fs.target"].
Definition automount_unit (volume mp : string) : string := text
  ["[Unit]"; "Description=WebKVM Automount for " +:+ volume +:+ " (" +:+ mp +:+ ")"; "After=local-fs.target";
   "StartLimitIntervalSec=0"; ""; "[Automount]"; "Where=" +:+ mp; "TimeoutIdleSec=0"; ""; "[Install]"; "WantedBy=local-fs.target"].

(** The folders the handler makes: five of the nine that may be asked for. *)
Definition made_folders : list string := ["discos"; "contenedores"; "isos"; "backups"; "plantillas"].
Definition inside (base path : string) : bool :=
  match Rel base path with Some rel => negb (has_prefix ".." rel) | None => false end.

Section HostDisks.
Context (M : machine) (EvalSymlinks : string -> option string)
        (range : nat -> forall V : Type, gmap string V -> list (string * V)) (backup_store : bool).

Abbreviation assertNotSystemDisk := (assertNotSystemDisk M).
Abbreviation assertDiskNotMounted := (assertDiskNotMounted M EvalSymlinks range).
Definition isMountpoint (path : string) : op bool :=
  if String.eqb path "" then mret false else r ← sh M ["mountpoint"; "-q"; path]; mret (r : bool * string).1.

(** ** Mounting what is there *)

Definition usable_fs (d : lsblkDevice) : list string :=
  match ld_FSType d with Some t => if nonempty t && negb (has_prefix "linux_raid" t) then [ld_Path d] else [] | None => [] end.
Fixpoint first_fs (seen l : list string) : op (option (string * string)) :=
  match l with
  | [] => mret None
  | dev :: l =>
      if String.eqb dev "" || contains seen dev then first_fs seen l else
      r ← sh M ["blkid"; "-s"; "TYPE"; "-o"; "value"; dev];
      if negb (r : bool * string).1 || String.eqb (trim_space r.2) "" then first_fs (dev :: seen) l
      else mret (Some (dev, trim_space r.2))
  end.
Definition findExistingFilesystem (disk preferred : string) : op (string * string) :=
  _ ← se_guard (nonempty preferred && negb (re_match safeDiskPathRE preferred)) 500;
  tree ← lsblk M "NAME,PATH,FSTYPE,TYPE" disk;
  let parts := match tree with
               | Some devs => concat (map (fun d => usable_fs d ++ concat (map usable_fs (ld_Children d))) devs)
               | None => [] end in
  f ← first_fs [] ((if nonempty preferred then [preferred] else []) ++ [disk] ++ parts);
  match f with Some x => mret x | None => se_fail 500 end.

(** ** Formatting *)

Definition partition_of (disk : string) : string :=
  disk +:+ (if contains_str "nvme" disk || contains_str "loop" disk then "p1" else "1").
Definition new_table (disk : string) : op unit :=
  if m_lookpath M "sgdisk" then
    _ ← run_ M (zap disk); _ ← run_or M 500 ["sgdisk"; "-n"; "1:0:0"; "-t"; "1:8300"; disk]; mret tt
  else _ ← run_or M 500 ["parted"; "-s"; disk; "mklabel"; "gpt"; "mkpart"; "primary"; "ext4"; "1MiB"; "100%"]; mret tt.
Definition partitioned (disk : string) : op string :=
  if has_prefix "/dev/md" disk then mret (Clean disk) else
  let part := Clean (partition_of (Clean disk)) in
  _ ← se_guard (negb (re_match safeDiskPathRE part)) 500;
  _ ← new_table (Clean disk);
  _ ← run_ M ["partprobe"; Clean disk];
  gone ← ask (m_cancelled M);
  _ ← se_guard gone 500;
  there ← ask (fun h => m_stat M h part);
  mret (if there : bool then part else Clean disk).
Definition mkfs (fs : filesystemSpec) (dev : string) : list string := [fs_Bin fs; fs_Arg fs; dev].
Definition format_disk (disk fsname : string) : op string :=
  _ ← assertDiskNotMounted disk;
  _ ← run_or M 500 (wipefs disk);
  target ← partitioned disk;
  match filesystemByID fsname with
  | None => se_fail 500
  | Some fs => _ ← se_guard (negb (m_lookpath M (fs_Bin fs))) 500; _ ← run_or M 500 (mkfs fs target); mret target
  end.

(** ** The units, the mount and the folders *)

Definition install_units (r : InitHostDiskRequest) (device fs : string) : op unit :=
  let auto := default true (in_Automount r) in
  let mp := in_MountPoint r in
  e ← sh M ["systemd-escape"; "--path"; "--suffix=mount"; mp];
  if negb (e : bool * string).1 || String.eqb e.2 "" then mret tt else
  let unit := trim_space e.2 in
  let automount := trim_suffix ".mount" unit +:+ ".automount" in
  _ ← step (Wrote (unit_file unit) (mount_unit (in_VolumeName r) mp device fs (mount_options r))) (fun _ => tt);
  _ ← (if auto then step (Wrote (unit_file automount) (automount_unit (in_VolumeName r) mp)) (fun _ => tt)
       else step (Removed (unit_file automount)) (fun _ => tt));
  _ ← run_ M ["systemctl"; "daemon-reload"];
  if auto then
    _ ← run_ M ["systemctl"; "enable"; automount]; _ ← run_ M ["systemctl"; "start"; automount]; run_ M ["ls"; mp]
  else _ ← run_ M ["systemctl"; "enable"; unit]; run_ M ["systemctl"; "start"; unit].

Definition mount_now (target mp : string) : op bool :=
  m ← isMountpoint mp;
  _ ← (if m : bool then mret tt else run_ M ["mount"; target; mp]);
  let target := Clean target in
  _ ← se_guard (negb (re_match safeDiskPathRE target)) 500;
  m ← isMountpoint mp;
  there ← ask (fun h => m_stat M h target);
  _ ← se_guard (negb m && there) 500;
  mret m.

Definition MkdirAll (path : string) : op bool := step (MadeDir path) (fun h => m_mkdir M h path).
Fixpoint make_folders (mp : string) (made : list string) (subs : list string) : op (list string) :=
  match subs with
  | [] => mret made
  | raw :: subs =>
      match allowedSubfolder raw with
      | Some sub =>
          if contains made sub || negb (contains made_folders sub) then make_folders mp made subs else
          if negb (inside mp (GoPath.Join [mp; sub])) then make_folders mp made subs else
          ok ← MkdirAll (GoPath.Join [mp; sub]);
          make_folders mp (if ok : bool then made ++ [sub] else made) subs
      | None => make_folders mp made subs
      end
  end.
Definition register_target (r : InitHostDiskRequest) (made : list string) : op (list string) :=
  let path := GoPath.Join [in_MountPoint r; "backups"] in
  if negb (in_RegisterBackupTarget r && backup_store) || negb (inside (in_MountPoint r) path) then mret made else
  ok ← MkdirAll path;
  if negb ok then mret made else
  _ ← step (TargetAsked (in_VolumeName r +:+ "-backups") path) (fun _ => tt);
  mret (if contains made "backups" then made else made ++ [path]).

Record output := MkOutput {
  out_Target : string; out_Filesystem : string; out_Options : string; out_Mounted : bool; out_Deferred : bool;
  out_Pools : list PoolResult; out_Subfolders : list string }.

(** The device that is mounted, and what is on it. *)
Definition prepare (r : InitHostDiskRequest) : op (string * string) :=
  let fs := match filesystemByID (in_Filesystem r) with Some _ => in_Filesystem r | None => "" end in
  if String.eqb (fold_lower (trim_space (in_Mode r))) "mount" then
    f ← findExistingFilesystem (in_DiskPath r) (in_Device r);
    _ ← assertDeviceNotMountedElsewhere M EvalSymlinks range (f : string * string).1 (in_MountPoint r);
    mret f
  else
    let fs := if String.eqb fs "" then "ext4" else fs in
    target ← format_disk (in_DiskPath r) fs; mret (target, fs).

Definition executeInitHostDisk (r : InitHostDiskRequest) : op output :=
  p ← prepare r;
  let '(target, fs) := p in
  _ ← se_guard (contains_str ".." (in_MountPoint r)) 500;
  ok ← MkdirAll (in_MountPoint r);
  _ ← se_guard (negb ok) 500;
  u ← sh M ["blkid"; "-s"; "UUID"; "-o"; "value"; target];
  let uuid := trim_space (u : bool * string).2 in
  let device := if String.eqb uuid "" then target else "/dev/disk/by-uuid/" +:+ uuid in
  let fs := if String.eqb fs "" then "auto" else fs in
  _ ← install_units r device fs;
  mounted ← mount_now target (in_MountPoint r);
  made ← make_folders (in_MountPoint r) [] (default [] (in_Subfolders r));
  made ← register_target r made;
  pools ← (if in_CreatePool r then createPoolsForSubfolders M (in_VolumeName r) (in_MountPoint r) (in_Subfolders r) (in_PoolPurpose r)
           else mret []);
  mret (MkOutput (Clean target) fs (mount_options r) mounted (negb mounted) pools made).

Definition tidied (r : InitHostDiskRequest) : InitHostDiskRequest :=
  let volume := trim_space (in_VolumeName r) in
  let mp := trim_space (in_MountPoint r) in
  MkInit (trim_space (in_DiskPath r)) (fold_lower (trim_space (in_Filesystem r))) volume
    (if String.eqb mp "" then "/mnt/" +:+ volume else mp) (in_CreatePool r) (in_PoolPurpose r) (in_Mode r) (in_Subfolders r)
    (in_RegisterBackupTarget r) (in_Device r) (in_MountOptions r) (in_NoFail r) (in_Automount r) (in_ReadOnly r).
Definition InitHostDiskDirectory (body : option InitHostDiskRequest) : op output :=
  match body with
  | None => se_fail 400
  | Some r =>
      let r := tidied r in
      _ ← safe_disk (in_DiskPath r);
      _ ← se_guard (negb (re_match safeDiskNameRE (in_VolumeName r))) 400;
      _ ← se_guard (negb (validateMountPoint (in_MountPoint r))) 400;
      _ ← assertNotSystemDisk (in_DiskPath r);
      executeInitHostDisk r
  end.

(** ** Several disks *)

Definition ignore_errors {A} (m : op A) : op unit := fun h => (Ok tt, (m h).2).
(** Each device is trimmed for the checks; what is wiped is what was sent. *)
Definition vet_device (auto : bool) (dev : string) : op unit :=
  let dev := trim_space dev in
  _ ← safe_disk dev;
  _ ← assertNotSystemDisk dev;
  if auto then ignore_errors (unmountDeviceAndChildren M dev) else assertDiskNotMounted dev.
Definition wipe_all (devices : list string) : op unit := each (fun d => run_ M (wipefs d)) devices.

Definition CreateHostZPool (body : option CreateZPoolRequest) : op string :=
  match body with
  | None => se_fail 400
  | Some r =>
      let name := trim_space (zp_Name r) in
      _ ← se_guard (negb (ValidPoolName name)) 400;
      _ ← se_guard (bool_decide (zp_Devices r = [])) 400;
      _ ← each (vet_device (zp_AutoUnmount r)) (zp_Devices r);
      _ ← wipe_all (zp_Devices r);
      _ ← CreatePoolOpts M name (zp_Topology r) (zp_Devices r) (zp_Ashift r) (zp_Compression r) (zp_MountPoint r);
      mret name
  end.

(** The size asked for in GiB, as an [int64] of bytes. *)
Definition zvol_bytes (gb : Z) : Z := wrap64 (wrap64 (wrap64 (gb * 1024) * 1024) * 1024).
(** [CreateVolume] up to the lookup of the new device. *)
Definition CreateVolume (pool name : string) (bytes : Z) (sparse : bool) : op string :=
  _ ← se_guard (negb (ValidPoolName pool)) 500;
  _ ← se_guard (negb (ValidVolumeName name)) 500;
  _ ← se_guard (bytes <=? 0) 500;
  _ ← se_guard (negb (m_lookpath M "zfs")) 500;
  let full := pool +:+ "/" +:+ name in
  _ ← run_or M 500 (["zfs"; "create"] ++ (if sparse then ["-s"] else []) ++ ["-V"; Itoa bytes; full]);
  mret full.
Definition CreateHostZVol (pool name : string) (gb : Z) (sparse : bool) : op string :=
  let pool := trim_space pool in
  let name := trim_space name in
  _ ← se_guard (negb (ValidPoolName pool)) 400;
  _ ← se_guard (negb (ValidVolumeName name)) 400;
  _ ← se_guard (gb <=? 0) 400;
  CreateVolume pool name (zvol_bytes gb) sparse.

Fixpoint without_byte (c : ascii) (s : string) : string :=
  match s with EmptyString => EmptyString | String x s => if Ascii.eqb x c then without_byte c s else String x (without_byte c s) end.
(** The new array as a disk to format: its mount point is taken as it was sent. *)
Definition raid_init (r : CreateRAIDRequest) (md : string) : InitHostDiskRequest :=
  let volume := if nonempty (ra_VolumeName r) then ra_VolumeName r
                else "raid-" +:+ without_byte "-" (without_prefix "/dev/" md) in
  MkInit md (if nonempty (ra_Filesystem r) then ra_Filesystem r else "ext4") volume
    (if nonempty (ra_MountPoint r) then ra_MountPoint r else "/mnt/" +:+ volume)
    (ra_CreatePool r) (ra_PoolPurpose r) "format" (ra_Subfolders r) false "" [] None None None.
(** An error of the formatting is reported beside the array. *)
Definition try_init (r : InitHostDiskRequest) : op (option output) := fun h =>
  match executeInitHostDisk r h with (Ok out, h) => (Ok (Some out), h) | (Err _, h) => (Ok None, h) end.
Definition CreateHostRAID (body : option CreateRAIDRequest) : op (string * option output) :=
  match body with
  | None => se_fail 400
  | Some r =>
      _ ← se_guard (bool_decide (ra_Devices r = [])) 400;
      _ ← each (vet_device (ra_AutoUnmount r)) (ra_Devices r);
      _ ← wipe_all (ra_Devices r);
      md ← mdraid_Create M (ra_Name r) (ra_Level r) (ra_Devices r);
      out ← (if ra_Format r || nonempty (ra_Filesystem r) then try_init (raid_init r md) else mret None);
      mret (md, out)
  end.

Definition url_device (param : string) : string := "/dev/" +:+ without_prefix "dev/" (without_prefix "/" param).
Definition StopHostRAID (param : string) (destroy : bool) : op (list string) :=
  let device := url_device param in
  if destroy then _ ← ignore_errors (unmountDeviceAndChildren M device); mdraid_Destroy M device true
  else _ ← assertDiskNotMounted device; _ ← mdraid_Stop M device; mret [].
Definition DestroyHostZPool (name : string) (wipe : bool) : op string :=
  let name := trim_space name in
  _ ← se_guard (negb (ValidPoolName name)) 400; _ ← DestroyPool M name wipe; mret name.
End HostDisks.
