(* ===== verification/HostDiskFacts.v ===== *)
(** * HostDiskFacts: nothing in use is destroyed

    What the handlers of [HostDisks] have asked the host, and been told, before a
    command that destroys what is on a device. *)

From S2P Require Import TrimSpace Sessions.
From S2P Require Export HostDisks.
Open Scope Z_scope.

(** The device whose contents a command destroys. *)
Definition destroyers : list string := ["wipefs"; "sgdisk"; "mkfs.ext4"; "mkfs.xfs"; "mkfs.btrfs"; "mkfs.f2fs"].
Definition hits (a : act) : option string :=
  match a with
  | Run (tool :: args) =>
      if contains destroyers tool then list.last args else if String.eqb tool "parted" then args !! 1%nat else None
  | _ => None
  end.

Lemma tree_mounts_nonempty d : Forall (fun m => m <> "") (tree_mounts d).
Proof.
  revert d. fix IH 1. intros [? ? ? ? ? mps ? ? ? ? ? children]. simpl. apply Forall_app. split.
  - apply Forall_forall. intros m Hm ->. apply list_elem_of_In, filter_In in Hm as [_ Hm]. done.
  - induction children as [|d l IHl]; simpl; [constructor|]. apply Forall_app. split; [apply IH|apply IHl].
Qed.
Lemma no_conflict devs : firstConflictingMount (concat (map tree_mounts devs)) "" = None -> concat (map tree_mounts devs) = [].
Proof.
  intros Hf. destruct (concat (map tree_mounts devs)) as [|m l] eqn:He; [done|]. exfalso.
  specialize (find_none _ _ Hf m (or_introl eq_refl)). intros Hn. apply negb_false_iff, String.eqb_eq in Hn.
  assert (m ∈ concat (map tree_mounts devs)) as Hin by (rewrite He; by left).
  apply list_elem_of_In, in_concat in Hin as (l' & Hl & Hm). apply in_map_iff in Hl as (d & <- & _).
  pose proof (tree_mounts_nonempty d) as Hd. rewrite Forall_forall in Hd. apply (Hd m); [by apply list_elem_of_In|done].
Qed.

Section Facts.
Context (M : machine) (EvalSymlinks : string -> option string)
        (range : nat -> forall V : Type, gmap string V -> list (string * V)) (backup_store : bool).

Definition lsblk_act (columns dev : string) : act := Run ["lsblk"; "-J"; "-b"; "-o"; columns; dev].
(** At some moment of [h], [lsblk] showed no mount on the device or below it. *)
Definition unmounted (dev : string) (h : history) : Prop := exists h0 devs,
  (h0 ++ [lsblk_act mount_columns dev]) `prefix_of` h /\ m_lsblk M h0 mount_columns dev = Some devs /\
  concat (map tree_mounts devs) = [].
(** At some moment nothing declared a mount of it, or of what [lsblk] listed
    below it. *)
Definition undeclared (dev : string) (h : history) : Prop := exists h0,
  (h0 ++ [Scan; lsblk_act path_columns dev]) `prefix_of` h /\
  Configured (ForDisk EvalSymlinks (Resolve EvalSymlinks range (m_host M h0)) dev
    (match m_lsblk M (h0 ++ [Scan]) path_columns dev with Some devs => concat (map (tree_paths dev) devs) | None => [] end)) = false.
(** At some moment no mount of the running system was on it. *)
Definition not_system (dev : string) (h : history) : Prop := exists h0 devs,
  (h0 ++ [lsblk_act mount_columns dev]) `prefix_of` h /\ m_lsblk M h0 mount_columns dev = Some devs /\
  existsb system_tree devs = false.
Definition free (dev : string) (h : history) : Prop := unmounted dev h /\ undeclared dev h.
(** With automatic unmounting only the mounts of the system are looked for. *)
Definition vetted_disk (auto : bool) (dev : string) (h : history) : Prop :=
  not_system dev h /\ (auto = false -> free dev h).

Lemma lasting_prefix (Q : history -> Prop) : lasting (fun h => exists h0, h0 `prefix_of` h /\ Q h0).
Proof. intros h l (h0 & Hp & HQ). exists h0. split; [by apply prefix_app_r|done]. Qed.
Lemma lasting_unmounted dev : lasting (unmounted dev).
Proof. intros h l (h0 & devs & Hp & Hr). exists h0, devs. split; [by apply prefix_app_r|done]. Qed.
Lemma lasting_undeclared dev : lasting (undeclared dev).
Proof. intros h l (h0 & Hp & Hr). exists h0. split; [by apply prefix_app_r|done]. Qed.
Lemma lasting_not_system dev : lasting (not_system dev).
Proof. intros h l (h0 & devs & Hp & Hr). exists h0, devs. split; [by apply prefix_app_r|done]. Qed.
Lemma lasting_free dev : lasting (free dev).
Proof. apply lasting_and; [apply lasting_unmounted|apply lasting_undeclared]. Qed.
Lemma lasting_vetted auto dev : lasting (vetted_disk auto dev).
Proof. intros h l [H1 H2]. split; [by apply lasting_not_system|]. intros Ha. by apply lasting_free, H2. Qed.
Hint Resolve lasting_unmounted lasting_undeclared lasting_not_system lasting_free lasting_vetted : core.

(** ** What the operations leave as it was *)

Section Quiet.
Context (P : history -> act -> Prop) (harmless : forall h a, hits a = None -> P h a).
Abbreviation does := (does P).

Lemma does_quiet {A} R a (answer : history -> A) : lasting R -> hits a = None -> does R (step a answer) (fun _ => R).
Proof. intros HR Ha. apply does_step_same; [done|]. intros h _. by apply harmless. Qed.

Ltac quiet := repeat first
  [ apply does_ret; by auto | apply does_fail | apply does_guard; by auto | apply does_lift; by auto | apply does_ask
  | apply does_quiet; [by auto|reflexivity] | apply does_sh; [by auto|intros; apply harmless; reflexivity]
  | apply does_run_; [by auto|intros; apply harmless; reflexivity]
  | apply does_run_or; [by auto|intros; apply harmless; reflexivity]
  | eapply does_then; [|intros ?]
  | match goal with |- HostCmd.does _ _ (match ?x with _ => _ end) _ => destruct x end ].

Lemma does_notsystem R dev : lasting R -> does R (assertNotSystemDisk M dev) (fun _ h => R h /\ not_system dev h).
Proof.
  intros HR. unfold assertNotSystemDisk. eapply (does_bind _ _ _ _ (fun tree h => R h /\ exists h0,
    (h0 ++ [lsblk_act mount_columns dev]) `prefix_of` h /\ m_lsblk M h0 mount_columns dev = tree)).
  - apply does_step; [intros; by apply harmless|]. intros h Hr. split; [by apply HR|]. by exists h.
  - intros [devs|]; [|apply does_fail]. apply does_guard. intros Hs h [Hr (h0 & Hp & Ht)]. split; [done|]. by exists h0, devs.
Qed.

Lemma does_notmounted R dev : lasting R -> does R (assertDiskNotMounted M EvalSymlinks range dev) (fun _ h => R h /\ free dev h).
Proof.
  intros HR. unfold assertDiskNotMounted, assertDeviceNotMountedElsewhere, mountedPaths.
  eapply (does_bind _ _ _ _ (fun mounts h => R h /\ (firstConflictingMount mounts "" = None -> unmounted dev h))).
  { eapply (does_bind _ _ _ _ (fun tree h => R h /\ exists h0,
      (h0 ++ [lsblk_act mount_columns dev]) `prefix_of` h /\ m_lsblk M h0 mount_columns dev = tree)).
    - apply does_step; [intros; by apply harmless|]. intros h Hr. split; [by apply HR|]. by exists h.
    - intros [devs|]; [|apply does_fail]. apply does_ret. intros h [Hr (h0 & Hp & Ht)]. split; [done|].
      intros He. exists h0, devs. split_and!; [done..|by apply no_conflict]. }
  intros mounts. destruct (firstConflictingMount mounts "") as [m|]; [apply does_fail|].
  unfold assertNoDeclaredMount, scan, partitionPaths.
  eapply (does_bind _ _ _ _ (fun table h => R h /\ unmounted dev h /\ exists h0,
    h = h0 ++ [Scan] /\ table = Resolve EvalSymlinks range (m_host M h0))).
  { apply does_step; [intros; by apply harmless|]. intros h [Hr Hu]. split_and!; [by apply HR|by apply lasting_unmounted, Hu|by exists h]. }
  intros table. eapply (does_bind _ _ _ _ (fun parts h => R h /\ unmounted dev h /\
    (Configured (ForDisk EvalSymlinks table dev parts) = false -> undeclared dev h))).
  { eapply (does_bind _ _ _ _ (fun tree h => R h /\ unmounted dev h /\ exists h0, h = h0 ++ [Scan; lsblk_act path_columns dev] /\
      table = Resolve EvalSymlinks range (m_host M h0) /\ tree = m_lsblk M (h0 ++ [Scan]) path_columns dev)).
    - apply does_step; [intros; by apply harmless|]. intros h (Hr & Hu & h0 & -> & ->).
      split_and!; [by apply HR|by apply lasting_unmounted|]. exists h0. by rewrite <- app_assoc.
    - intros tree. apply does_ret. intros h (Hr & Hu & h0 & -> & -> & ->). split_and!; [done..|].
      intros Hc. exists h0. by split. }
  intros parts. cbn [nonempty andb]. destruct (Configured _) eqn:Hc; cbn [negb]; [apply does_fail|].
  apply does_ret. intros h (Hr & Hu & Hd). split; [done|]. split; [done|by apply Hd].
Qed.

(** Nothing else destroys, and nothing else is known of the answers. *)
Ltac each_quiet := apply does_each; intros ? _.

Lemma does_elsewhere R dev mp : lasting R -> does R (assertDeviceNotMountedElsewhere M EvalSymlinks range dev mp) (fun _ => R).
Proof. intros HR. unfold assertDeviceNotMountedElsewhere, mountedPaths, assertNoDeclaredMount, partitionPaths, lsblk, scan. quiet. Qed.
Lemma does_ignore {A} R (m : op A) : does R m (fun _ => R) -> lasting R -> does R (ignore_errors m) (fun _ => R).
Proof.
  intros Hm HR h Hh. destruct (Hm h Hh) as [He _]. unfold ignore_errors. split; [done|]. by eapply lasting_extends.
Qed.
Lemma does_unmount R dev : lasting R -> does R (unmountDeviceAndChildren M dev) (fun _ => R).
Proof.
  intros HR. unfold unmountDeviceAndChildren, mountedPaths, DiskGuards.assertNotSystemDisk, lsblk. quiet.
  each_quiet. unfold unmount_one, drop_units, umount. quiet.
Qed.
Lemma does_persist R : lasting R -> does R (persistConfig M) (fun _ => R).
Proof. intros HR. unfold persistConfig. quiet. Qed.
Lemma md_path_plain i : In i (List.seq 0 128) -> trim_space (md_path i) = md_path i.
Proof.
  assert (forallb (fun i => String.eqb (trim_space (md_path i)) (md_path i)) (List.seq 0 128) = true) as H by (vm_compute; reflexivity).
  rewrite forallb_forall in H. intros Hi. by apply String.eqb_eq, H.
Qed.
(** The path of the new array has no white space around it. *)
Lemma does_mdraid_Create R name level devs : lasting R ->
  does R (mdraid_Create M name level devs) (fun md h => R h /\ trim_space md = md).
Proof.
  intros HR. unfold mdraid_Create. eapply does_then; [by apply does_guard|]. intros [].
  destruct (NormalizeLevel level) as [[lvl n]|]; [|apply does_fail]. eapply does_then; [by apply does_guard|]. intros [].
  eapply (does_bind _ _ _ _ (fun md h => R h /\ trim_space md = md)).
  { unfold md_device, NextAvailableDevice. destruct (String.eqb name "").
    - eapply (does_bind _ _ _ _ (fun i h => R h /\ forall i', i = Some i' -> In i' (List.seq 0 128))).
      + intros h Hh. split; [apply ext_refl|]. split; [done|]. intros i Hi. by apply find_some in Hi as [Hi _].
      + intros [i|]; [|apply does_fail]. apply does_ret. intros h [Hh Hi]. split; [done|]. by apply md_path_plain, Hi.
    - eapply (does_bind _ _ _ _ (fun _ h => R h /\ re_match safeMDDeviceRE _ = true)).
      + apply does_guard. intros Hc h Hh. split; [done|]. by apply negb_false_iff in Hc.
      + intros []. apply does_ret. intros h [Hh Hm]. split; [done|]. apply trim_space_plain. by eapply regex_bytes. }
  intros md. set (R' := fun h => R h /\ trim_space md = md).
  assert (HR' : lasting R') by (intros h l [H ?]; split; [by apply HR|done]). change (fun h => R h /\ trim_space md = md) with R'.
  unfold ensureModules, ensureDeviceNode, persistConfig. quiet.
Qed.
Lemma does_pool R req backend : lasting R -> does R (createOnePool M req backend) (fun _ => R).
Proof. intros HR. unfold createOnePool. quiet. Qed.
Lemma does_pools R volume mp subs fallback : lasting R -> does R (createPoolsForSubfolders M volume mp subs fallback) (fun _ => R).
Proof.
  intros HR. unfold createPoolsForSubfolders. destruct subs as [l|]; [|eapply does_then; [by apply does_pool|intros r; quiet]].
  generalize (@nil string). induction l as [|sub l IH]; intros seen; cbn [pools_for]; [quiet|].
  destruct (subfolderPoolSpec sub volume mp) as [[req backend]|]; [|apply IH]. destruct (contains _ _); [apply IH|].
  eapply does_then; [by apply does_pool|]. intros r. eapply does_then; [apply IH|intros rest; quiet].
Qed.
Lemma does_find R disk preferred : lasting R -> does R (findExistingFilesystem M disk preferred) (fun _ => R).
Proof.
  intros HR. assert (Hf : forall l seen, does R (first_fs M seen l) (fun _ => R)).
  { induction l as [|dev l IH]; intros seen; cbn [first_fs]; [quiet|]. destruct (_ || _); [apply IH|].
    eapply does_then; [apply does_sh; [done|intros; by apply harmless]|]. intros r. destruct (_ || _); [apply IH|quiet]. }
  unfold findExistingFilesystem, lsblk. quiet. apply Hf.
Qed.
Lemma does_install R r device fs : lasting R -> does R (install_units M r device fs) (fun _ => R).
Proof. intros HR. unfold install_units. quiet. Qed.
Lemma does_mountpoint R mp : lasting R -> does R (isMountpoint M mp) (fun _ => R).
Proof. intros HR. unfold isMountpoint. quiet. Qed.
Lemma does_folders R mp subs : lasting R -> forall made, does R (make_folders M mp made subs) (fun _ => R).
Proof.
  intros HR. induction subs as [|raw subs IH]; intros made; cbn [make_folders]; [quiet|].
  destruct (allowedSubfolder raw) as [sub|]; [|apply IH]. destruct (_ || _); [apply IH|]. destruct (negb _); [apply IH|].
  eapply does_then; [by apply does_quiet|]. intros ok. apply IH.
Qed.
Lemma does_register R r made : lasting R -> does R (register_target M backup_store r made) (fun _ => R).
Proof. intros HR. unfold register_target, MkdirAll. quiet. Qed.

(** A disk that is formatted or mounted: all after [prepare] is harmless. *)
Lemma does_execute R r : lasting R -> does R (prepare M EvalSymlinks range r) (fun _ => R) ->
  does R (executeInitHostDisk M EvalSymlinks range backup_store r) (fun _ => R).
Proof.
  intros HR Hp. unfold executeInitHostDisk, MkdirAll. eapply does_then; [exact Hp|]. intros [target fs].
  quiet; first [by apply does_mountpoint|by apply does_install|by apply does_folders|by apply does_register|by apply does_pools].
Qed.
End Quiet.

(** ** The handlers *)

(** What destroying [d] stands for: the disk that was asked about, or the first
    partition its new table has. *)
Definition target_of (d0 d : string) : Prop := d0 = trim_space d \/ d = Clean d0 \/ d = Clean (partition_of (Clean d0)).
Definition guarded (auto : bool) (h : history) (a : act) : Prop := forall d, hits a = Some d ->
  exists d0, target_of d0 d /\ (free d0 h \/ (auto = true /\ not_system d0 h)).

Lemma guarded_harmless auto h a : hits a = None -> guarded auto h a.
Proof. intros H d Hd. congruence. Qed.
Hint Resolve guarded_harmless : core.

Lemma free_guards auto d0 argv d : hits (Run argv) = Some d -> target_of d0 d -> forall h, free d0 h -> guarded auto h (Run argv).
Proof. intros Hh Ht h Hf d' Hd'. exists d0. split; [congruence|by left]. Qed.

Lemma target_safe d0 : trim_space d0 = d0 -> target_of d0 d0.
Proof. intros H. by left. Qed.

(** Wiping and formatting a disk that was found free. *)
Lemma does_format auto R disk fsname : lasting R -> trim_space disk = disk ->
  does (guarded auto) R (format_disk M EvalSymlinks range disk fsname) (fun _ => R).
Proof.
  intros HR Ht. unfold format_disk. eapply does_bind; [by apply (does_notmounted _ (guarded_harmless auto))|]. intros [].
  set (R' := fun h => R h /\ free disk h). assert (HR' : lasting R') by (by apply lasting_and).
  assert (Hg : forall argv d, hits (Run argv) = Some d -> target_of disk d -> forall h, R' h -> guarded auto h (Run argv)).
  { intros argv d Hh Hd h [_ Hf]. by eapply free_guards. }
  assert (Hc : forall d, d = Clean disk \/ d = Clean (partition_of (Clean disk)) -> target_of disk d) by (intros d [->| ->]; unfold target_of; auto).
  apply (does_weaken _ _ R' _ _ (fun _ => R')); [|done|by intros a h [H _]].
  eapply does_then; [apply does_run_or; [done|]; eapply Hg; [reflexivity|by apply target_safe]|]. intros _.
  eapply (does_bind _ _ _ _ (fun target h => R' h /\ target_of disk target)).
  { unfold partitioned, new_table. destruct (has_prefix _ _); [apply does_ret; intros h Hh; split; [done|apply Hc; by left]|].
    eapply does_then; [by apply does_guard|]. intros []. eapply does_then.
    { destruct (m_lookpath M "sgdisk").
      - eapply does_then; [apply does_run_; [done|]; eapply Hg; [reflexivity|apply Hc; by left]|]. intros _.
        eapply does_then; [apply does_run_or; [done|]; eapply Hg; [reflexivity|apply Hc; by left]|]. intros _. by apply does_ret.
      - eapply does_then; [apply does_run_or; [done|]; eapply Hg; [reflexivity|apply Hc; by left]|]. intros _. by apply does_ret. }
    intros []. eapply does_then; [apply does_run_; [done|intros; by apply guarded_harmless]|]. intros [].
    eapply does_then; [apply does_ask|]. intros gone. eapply does_then; [by apply does_guard|]. intros [].
    eapply does_then; [apply does_ask|]. intros there. apply does_ret. intros h Hh. split; [done|]. apply Hc. destruct there; auto. }
  intros target. destruct (filesystemByID fsname) as [fs|] eqn:Hfs; [|apply does_fail].
  assert (Hbin : contains destroyers (fs_Bin fs) = true).
  { unfold filesystemByID in Hfs. apply find_some in Hfs as [Hin _]. cbn in Hin.
    destruct Hin as [<-|[<-|[<-|[<-|[]]]]]; reflexivity. }
  eapply (does_bind _ _ _ _ (fun _ h => R' h /\ target_of disk target)); [by apply does_guard|]. intros [].
  eapply does_bind; [apply (does_run_or _ _ (fun h => R' h /\ target_of disk target))|].
  - intros h l [H1 H2]. split; [by apply HR'|done].
  - intros h [Hh Htg]. apply (Hg _ target); [|done..]. unfold mkfs, hits. by rewrite Hbin.
  - intros ?. apply does_ret. by intros h [Hh _].
Qed.

Lemma does_prepare auto R r : lasting R -> trim_space (in_DiskPath r) = in_DiskPath r ->
  does (guarded auto) R (prepare M EvalSymlinks range r) (fun _ => R).
Proof.
  intros HR Ht. unfold prepare. destruct (String.eqb _ "mount").
  - eapply does_then; [by apply (does_find _ (guarded_harmless auto))|]. intros f.
    eapply does_then; [by apply (does_elsewhere _ (guarded_harmless auto))|]. intros []. by apply does_ret.
  - eapply does_then; [by apply does_format|]. intros target. by apply does_ret.
Qed.

Definition cleared (auto : bool) (dev : string) (h : history) : Prop :=
  free (trim_space dev) h \/ (auto = true /\ not_system (trim_space dev) h).
Lemma lasting_cleared auto dev : lasting (cleared auto dev).
Proof. intros h l [H|[Ha H]]; [left; by apply lasting_free|right; split; [done|by apply lasting_not_system]]. Qed.
Hint Resolve lasting_cleared : core.

Lemma does_vet auto R dev : lasting R ->
  does (guarded auto) R (vet_device M EvalSymlinks range auto dev) (fun _ h => R h /\ cleared auto dev h).
Proof.
  intros HR. unfold vet_device, safe_disk. eapply does_then; [by apply does_guard|]. intros [].
  eapply does_bind; [by apply (does_notsystem _ (guarded_harmless auto))|]. intros []. destruct auto.
  - eapply does_weaken; [apply (does_ignore _ (fun h => R h /\ not_system (trim_space dev) h))|done|].
    + apply (does_unmount _ (guarded_harmless true)). by apply lasting_and.
    + by apply lasting_and.
    + intros [] h [Hr Hn]. split; [done|]. by right.
  - eapply does_weaken; [by apply (does_notmounted _ (guarded_harmless false) R)|by intros h [? _]|].
    intros [] h [Hr Hf]. split; [done|]. by left.
Qed.
Lemma does_vet_all auto R devices : lasting R ->
  does (guarded auto) R (each (vet_device M EvalSymlinks range auto) devices) (fun _ h => R h /\ Forall (fun d => cleared auto d h) devices).
Proof.
  revert R. induction devices as [|d l IH]; intros R HR; cbn [each]; [by apply does_ret|].
  eapply does_bind; [by apply does_vet|]. intros []. eapply does_weaken; [apply (IH (fun h => R h /\ cleared auto d h))|done|].
  - by apply lasting_and.
  - intros [] h [[Hr Hd] Hl]. split; [done|]. by constructor.
Qed.
Lemma does_wipe_all auto R devices : lasting R -> (forall h, R h -> Forall (fun d => cleared auto d h) devices) ->
  does (guarded auto) R (wipe_all M devices) (fun _ => R).
Proof.
  intros HR Hc. unfold wipe_all. apply does_each. intros d Hd. apply does_run_; [done|].
  intros h Hh d' [= <-]. specialize (Hc h Hh). rewrite Forall_forall in Hc. exists (trim_space d). split; [by left|]. by apply Hc.
Qed.

(** Vetting every device and wiping all of them, as pools and arrays begin. *)
Lemma does_wipe_vetted {A} auto devices (rest : op A) :
  (forall R, lasting R -> does (guarded auto) R rest (fun _ => R)) ->
  does (guarded auto) (fun _ => True) (_ ← each (vet_device M EvalSymlinks range auto) devices; _ ← wipe_all M devices; rest) (fun _ _ => True).
Proof.
  intros Hrest. set (R := fun h => True /\ Forall (fun d => cleared auto d h) devices).
  assert (HR : lasting R).
  { intros h l [_ Hl]. split; [done|]. eapply Forall_impl; [done|]. intros d Hd. by apply lasting_cleared. }
  eapply does_bind; [by apply does_vet_all|]. intros []. fold R. eapply does_bind; [apply does_wipe_all; [done|by intros h [_ H]]|].
  intros []. eapply does_weaken; [by apply Hrest|done|done].
Qed.

Lemma does_drop auto {A} R (m : op A) : does (guarded auto) R m (fun _ => R) -> does (guarded auto) R m (fun _ _ => True).
Proof. intros Hm. by eapply does_weaken. Qed.

Lemma does_WipeHostDisk body : does (guarded false) (fun _ => True) (WipeHostDisk M EvalSymlinks range body) (fun _ _ => True).
Proof.
  unfold WipeHostDisk. destruct body as [path|]; [|apply does_fail]. unfold safe_disk. set (disk := trim_space path).
  assert (Ht : target_of disk disk) by (apply target_safe; apply trim_space_idem).
  eapply does_then; [by apply does_guard|]. intros [].
  eapply does_bind; [by apply (does_notsystem _ (guarded_harmless false))|]. intros [].
  eapply does_bind; [apply (does_notmounted _ (guarded_harmless false)); by apply lasting_and|]. intros [].
  set (R := fun h => (True /\ not_system disk h) /\ free disk h). assert (HR : lasting R) by (repeat apply lasting_and; auto).
  apply (does_weaken _ _ R _ _ (fun _ => R)); [|done|done].
  assert (Hg : forall argv, hits (Run argv) = Some disk -> forall h, R h -> guarded false h (Run argv)).
  { intros argv Hh h [_ Hf]. by eapply free_guards. }
  eapply does_then; [apply does_run_or; [done|by apply Hg]|]. intros _. eapply does_then.
  { destruct (m_lookpath M "sgdisk"); [apply does_run_; [done|by apply Hg]|by apply does_ret]. }
  intros []. eapply does_then; [apply does_run_; [done|intros; by apply guarded_harmless]|]. intros []. by apply does_ret.
Qed.

Lemma does_Init body : does (guarded false) (fun _ => True) (InitHostDiskDirectory M EvalSymlinks range backup_store body) (fun _ _ => True).
Proof.
  unfold InitHostDiskDirectory. destruct body as [r|]; [|apply does_fail]. unfold safe_disk.
  eapply does_then; [by apply does_guard|]. intros []. eapply does_then; [by apply does_guard|]. intros [].
  eapply does_then; [by apply does_guard|]. intros [].
  eapply does_bind; [by apply (does_notsystem _ (guarded_harmless false))|]. intros [].
  apply does_drop, (does_execute _ (guarded_harmless false)); [by apply lasting_and|].
  apply does_prepare; [by apply lasting_and|]. apply trim_space_idem.
Qed.

Lemma does_ZPool body : does (guarded (match body with Some r => zp_AutoUnmount r | None => false end)) (fun _ => True)
  (CreateHostZPool M EvalSymlinks range body) (fun _ _ => True).
Proof.
  unfold CreateHostZPool. destruct body as [r|]; [|apply does_fail].
  eapply does_then; [by apply does_guard|]. intros []. eapply does_then; [by apply does_guard|]. intros [].
  apply does_wipe_vetted. intros R HR. unfold CreatePoolOpts.
  eapply does_then; [|intros []; by apply does_ret]. eapply does_then; [by apply does_guard|]. intros [].
  eapply does_then; [by apply does_guard|]. intros [].
  eapply does_then; [apply does_run_or; [done|intros; by apply guarded_harmless]|]. intros ?. by apply does_ret.
Qed.

(** An array that was just made is asked about again before it is formatted. *)
Lemma does_RAID body : does (guarded (match body with Some r => ra_AutoUnmount r | None => false end)) (fun _ => True)
  (CreateHostRAID M EvalSymlinks range backup_store body) (fun _ _ => True).
Proof.
  unfold CreateHostRAID. destruct body as [r|]; [|apply does_fail].
  eapply does_then; [by apply does_guard|]. intros []. apply does_wipe_vetted. intros R HR.
  eapply does_bind; [by apply (does_mdraid_Create _ (guarded_harmless _))|]. intros md.
  eapply (does_bind _ _ _ _ (fun _ => R)); [|intros out; by apply does_ret].
  destruct (_ || _); [|apply does_ret; by intros h [? _]].
  intros h [Hh Ht]. unfold try_init.
  destruct (does_execute _ (guarded_harmless (ra_AutoUnmount r)) R (raid_init r md) HR (does_prepare _ _ (raid_init r md) HR Ht) h Hh) as [He Hq].
  destruct (executeInitHostDisk _ _ _ _ _ h) as [[out|e] h']; (split; [done|]); [done|]. by eapply lasting_extends.
Qed.

(** At some moment no unit, no line of fstab and so no pool named the device, or
    anything [lsblk] listed below it, under any alias. *)
Definition unclaimed (dev : string) (h : history) : Prop := exists h0,
  (h0 ++ [Scan; lsblk_act path_columns dev]) `prefix_of` h /\
  forall d o, d ∈ dev :: (match m_lsblk M (h0 ++ [Scan]) path_columns dev with
                         | Some devs => concat (map (tree_paths dev) devs) | None => [] end) -> d <> "" ->
    seen EvalSymlinks (m_host M h0) o -> o_src o <> SourceKernel -> key EvalSymlinks o <> canonicalDevice EvalSymlinks d.

(** What one request did, and how every destructive command in it was guarded. *)
Definition safely (auto : bool) (h : history) : Prop := forall pre a post d, h = pre ++ a :: post -> hits a = Some d ->
  exists d0, target_of d0 d /\ ((unmounted d0 pre /\ unclaimed d0 pre) \/ (auto = true /\ not_system d0 pre)).

Context (range_perm : forall n V m, range n V m ≡ₚ map_to_list m)
        (canonical_idem : forall p, canonicalDevice EvalSymlinks (canonicalDevice EvalSymlinks p) = canonicalDevice EvalSymlinks p)
        (canonical_nonempty : forall p, p <> "" -> canonicalDevice EvalSymlinks p <> "").

Lemma undeclared_unclaimed dev h : undeclared dev h -> unclaimed dev h.
Proof.
  intros (h0 & Hp & Hc). exists h0. split; [done|]. intros d o Hd Hne Ho Hs.
  by apply (undeclared_sources EvalSymlinks range range_perm canonical_idem canonical_nonempty (m_host M h0) _ _ d o Hc).
Qed.

Lemma does_safely auto {A} (m : op A) : does (guarded auto) (fun _ => True) m (fun _ _ => True) -> safely auto (m []).2.
Proof.
  intros Hm pre a post d He Hd. destruct (Hm [] I) as [(l & Hl & Hg) _]. rewrite Hl in He. cbn in He.
  destruct (Hg pre a post He d Hd) as (d0 & Ht & [[Hu Hc]|Hn]); exists d0; (split; [done|]); [left|by right].
  split; [done|]. by apply undeclared_unclaimed.
Qed.

End Facts.

(** ** Sizes of volumes *)

Lemma zvol_bytes_exact gb : 0 <= gb < 2 ^ 33 -> zvol_bytes gb = gb * 2 ^ 30.
Proof.
  intros H. unfold zvol_bytes. assert (2 ^ 33 * 2 ^ 30 = 2 ^ 63) as E by reflexivity.
  rewrite (wrap64_id (gb * 1024)) by (unfold is_int64, int64_min, int64_max; lia).
  rewrite (wrap64_id (gb * 1024 * 1024)) by (unfold is_int64, int64_min, int64_max; lia).
  rewrite wrap64_id by (unfold is_int64, int64_min, int64_max; lia). lia.
Qed.

(** A volume that is made has the size that was asked for, in a pool and under
    a name the program accepts, as long as the size is below [2^33] GiB; nothing
    else is run. *)
Theorem zvol_created_exact M pool name gb sparse full h h' : gb < 2 ^ 33 ->
  CreateHostZVol M pool name gb sparse h = (Ok full, h') ->
  0 < gb /\ full = trim_space pool +:+ "/" +:+ trim_space name /\ ValidPoolName (trim_space pool) = true /\
  ValidVolumeName (trim_space name) = true /\
  h' = h ++ [Run (["zfs"; "create"] ++ (if sparse then ["-s"] else []) ++ ["-V"; Itoa (gb * 2 ^ 30); full])].
Proof.
  intros Hgb. unfold CreateHostZVol, CreateVolume. rewrite !run_guard.
  destruct (ValidPoolName (trim_space pool)) eqn:Hp; [|done]. destruct (ValidVolumeName (trim_space name)) eqn:Hn; [|done].
  cbn [negb]. destruct (Z.leb_spec gb 0); [done|]. rewrite zvol_bytes_exact by lia.
  destruct (Z.leb_spec (gb * 2 ^ 30) 0); [done|]. destruct (m_lookpath M "zfs"); [|done]. cbn [negb].
  unfold run_or, sh. rewrite !run_bind. cbn [step]. destruct (m_run M h _).1; [|done]. cbn. by intros [= <- <-].
Qed.
Lemma zvol_created_exact_witness : exists h', h' = [Run ["zfs"; "create"; "-V"; "10737418240"; "tank/vm"]].
Proof.
  pose (M := MkMachine (fun _ _ => (true, "")) (fun _ _ _ => None) (fun _ _ => false) (fun _ _ => false) (fun _ _ => None)
    (fun _ _ => None) (fun _ _ => false) (fun _ => true) (fun _ => DiskStateDemo.demo) (fun _ => false) (fun _ _ => None) (fun _ _ => None)).
  exists (CreateHostZVol M "tank" "vm" 10 false []).2.
  destruct (zvol_created_exact M "tank" "vm" 10 false "tank/vm" [] (CreateHostZVol M "tank" "vm" 10 false []).2) as (_ & _ & _ & _ & E).
  - reflexivity.
  - vm_compute. reflexivity.
  - exact E.
Defined.

(** Beyond that the size wraps around: 16 EiB and 1 GiB make a volume of 1 GiB. *)
Example zvol_size_wraps : zvol_bytes (2 ^ 34 + 1) = 2 ^ 30.
Proof. vm_compute. reflexivity. Qed.

(** ** A host *)

Module DiskDemo.
Import DiskStateDemo.
Definition leaf (name : string) (mps : list string) : lsblkDevice :=
  MkDev name ("/dev/" +:+ name) (JNum 4096) "part" (Some "ext4") mps None None (JBool false) None (JBool false) [].
Definition whole (name : string) (children : list lsblkDevice) : lsblkDevice :=
  MkDev name ("/dev/" +:+ name) (JNum 8192) "disk" None [] None None (JBool false) None (JBool false) children.
(** [/dev/sdb] waits for its automount, [/dev/sdc] is free, and the root is on a
    volume inside [/dev/sda1]. *)
Definition tree_of (dev : string) : option (list lsblkDevice) :=
  if String.eqb dev "/dev/sda" then
    Some [whole "sda" [MkDev "sda1" "/dev/sda1" (JNum 1) "part" (Some "LVM2_member") [] None None (JBool false) None (JBool false)
                         [MkDev "vg-root" "/dev/mapper/vg-root" (JNum 1) "lvm" (Some "ext4") ["/"] None None (JBool false) None (JBool false) []]]]
  else if String.eqb dev "/dev/sdb" then Some [whole "sdb" [leaf "sdb1" [""]]]
  else if String.eqb dev "/dev/sdc" then Some [whole "sdc" [leaf "sdc1" [""]]]
  else if String.eqb dev "/dev/sdd1" then Some [leaf "sdd1" [""]]
  else if String.eqb dev "/dev/md0" then Some [leaf "md0" [""]] else None.
Definition box (tools : list string) : machine := MkMachine
  (fun _ argv => match argv with
                 | "systemd-escape" :: _ => (true, "mnt-x.mount")
                 | ["mountpoint"; _; _] => (true, "")
                 | _ => (true, "") end)
  (fun _ _ dev => tree_of dev) (fun _ _ => true) (fun _ _ => false) (fun _ _ => None) (fun _ _ => None) (fun _ _ => true)
  (fun t => contains tools t) (fun _ => demo) (fun _ => false) (fun _ _ => None) (fun _ _ => None).
Definition tools : list string := ["sgdisk"; "mkfs.ext4"; "zpool"; "mdadm"; "zfs"].
Definition hit (h : history) : list string := omap hits h.
Definition wipe (dev : string) := WipeHostDisk (box tools) resolved ranged (Some dev) [].
Definition request (dev mp : string) : InitHostDiskRequest :=
  MkInit dev "ext4" "data" mp true "" "format" (Some ["discos"; "templates"]) false "" [] None None None.
Definition init (t : list string) (dev mp : string) :=
  InitHostDiskDirectory (box t) resolved ranged false (Some (request dev mp)) [].

(** An armed automount stops the wipe, the free disk is wiped, the root under LVM
    is found, and a disk that cannot be probed is left alone. *)
Example wipes : (wipe "/dev/sdb").1 = Err 409 /\ hit (wipe "/dev/sdb").2 = [] /\
  (wipe " /dev/sdc ").1 = Ok "/dev/sdc" /\ hit (wipe " /dev/sdc ").2 = ["/dev/sdc"; "/dev/sdc"] /\
  (wipe "/dev/sda").1 = Err 409 /\ (wipe "/dev/sde").1 = Err 503 /\ (wipe "/dev/mem").1 = Err 400.
Proof. split_and!; vm_compute; reflexivity. Qed.

(** The list shows the disk with the root under LVM as an ordinary free one. *)
Definition lvm_host : host := MkHost (Some "22 1 253:0 / / rw,relatime shared:1 - ext4 /dev/mapper/vg-root rw") None None (fun _ => None) None (fun _ => None).
Example lvm_root_listed_free : match ListHostDisks resolved ranged lvm_host (tree_of "/dev/sda") None (fun _ => None) with
  | Ok [d] => hd_Path d = "/dev/sda" /\ hd_IsSystem d = false /\ hd_MountState d = StatusFree | _ => False end.
Proof. vm_compute. repeat split. Qed.

(** Formatting the partition [/dev/sdd1] formats [/dev/sdd11]. *)
Example sibling_formatted : is_ok (init tools "/dev/sdd1" "").1 = true /\
  last (hit (init tools "/dev/sdd1" "").2) = Some "/dev/sdd11".
Proof. split; vm_compute; reflexivity. Qed.

(** Without the program that makes the filesystem the disk is wiped all the same. *)
Example wiped_before_tool_missed : (init ["sgdisk"] "/dev/sdc" "").1 = Err 500 /\
  hit (init ["sgdisk"] "/dev/sdc" "").2 = ["/dev/sdc"; "/dev/sdc"; "/dev/sdc"].
Proof. split; vm_compute; reflexivity. Qed.

(** Of the folders asked for, [templates] becomes a pool without a folder. *)
Example pool_without_folder : match (init tools "/dev/sdc" "").1 with
  | Ok o => out_Subfolders o = ["discos"] /\ map pr_Path (out_Pools o) = ["/mnt/data/discos"; "/mnt/data/templates"]
  | Err _ => False end.
Proof. vm_compute. repeat split. Qed.

(** With automatic unmounting a declared mount stops nothing. *)
Definition zpool (topology : string) (devices : list string) (auto : bool) :=
  CreateHostZPool (box tools) resolved ranged (Some (MkZPool "tank" topology devices 0 "" "" auto)) [].
Example auto_unmount_ignores_declared : (zpool "" ["/dev/sdb"] false).1 = Err 409 /\
  (zpool "" ["/dev/sdb"] true).1 = Ok "tank" /\ hit (zpool "" ["/dev/sdb"] true).2 = ["/dev/sdb"].
Proof. split_and!; vm_compute; reflexivity. Qed.

(** A device in the place of the topology joins the pool without any check. *)
Example topology_is_a_device : (zpool "/dev/sda1" ["/dev/sdc"] false).1 = Ok "tank" /\
  last (zpool "/dev/sda1" ["/dev/sdc"] false).2 = Some (Run ["zpool"; "create"; "-f"; "tank"; "/dev/sda1"; "/dev/sdc"]).
Proof. split; vm_compute; reflexivity. Qed.

(** The mount point of an array is not checked, that of a disk is. *)
Definition raid (mp : string) := CreateHostRAID (box tools) resolved ranged false
  (Some (MkRAID "md0" "stripe" ["/dev/sdc"; "/dev/sdc"] true "data" mp "" false None "" false)) [].
Example raid_mount_point_unchecked :
  (init tools "/dev/sdc" "/etc").1 = Err 400 /\ existsb (fun a => match a with MadeDir p => String.eqb p "/etc" | _ => false end) (raid "/etc").2 = true.
Proof. split; vm_compute; reflexivity. Qed.

(** Mount points are compared as they are written. *)
Example other_spelling_of_root : let unmount mp := UnmountHostDisk (box tools) (Some ("", mp)) [] in
  (unmount "/").1 = Err 403 /\ (unmount "//").1 = Ok ["//"] /\ last (unmount "//").2 = Some (Run ["umount"; "-f"; "//"]).
Proof. split_and!; vm_compute; reflexivity. Qed.

End DiskDemo.
