(* ===== verification/Smart.v ===== *)
(** * Smart: what a disk says of its health

    Models [smart/smart.go]: which paths are asked, the reading of the report of
    [smartctl] once it is decoded, the cache of reports, and the self tests.  The
    decoding of the JSON text is a parameter. *)

From S2P Require Export HostCmd Regex.
Open Scope Z_scope.

(** ** Devices *)

Definition letters_of (p : ascii -> bool) : re := Regex.plus (Class p).
Definition safeDiskDeviceRE : re :=
  Seq (lit "/dev/") (alts [
    Seq (lit "sd") (letters_of is_lower); Seq (lit "nvme") (Seq (letters_of is_digit) (Seq (lit "n") (letters_of is_digit)));
    Seq (lit "vd") (letters_of is_lower); Seq (lit "hd") (letters_of is_lower); Seq (lit "xvd") (letters_of is_lower);
    Seq (lit "mmcblk") (letters_of is_digit)]).
Definition ValidateDevice (devPath : string) : option string :=
  let clean := Clean (trim_space devPath) in
  let clean := if has_prefix "/dev/" clean then clean else "/dev/" +:+ clean in
  if negb (re_match safeDiskDeviceRE clean) || contains_str ".." clean then None else Some clean.

(** ** The report *)

Record nvmeLog := MkNvme {
  nv_CriticalWarning : Z; nv_Temperature : Z; nv_PercentageUsed : Z; nv_DataUnitsWritten : Z; nv_PowerCycles : Z; nv_PowerOnHours : Z }.
Record attribute := MkAttr { at_ID : Z; at_Value : Z; at_Raw : Z }.
Record rawSmartJSON := MkRaw {
  rw_Model : string; rw_Serial : string; rw_Firmware : string; rw_Protocol : string; rw_Passed : bool; rw_Temperature : Z;
  rw_Hours : Z; rw_PowerCycles : Z; rw_NVMe : option nvmeLog; rw_ATA : option (list attribute) }.
Record Report := MkReport {
  sm_Device : string; sm_Model : string; sm_Serial : string; sm_Firmware : string; sm_Protocol : string; sm_Available : bool;
  sm_Healthy : bool; sm_Status : string; sm_TemperatureC : Z; sm_PowerOnHours : Z; sm_PowerCycles : Z; sm_WearPercentage : Z;
  sm_DataWrittenBytes : Z; sm_ReallocatedSectors : Z; sm_PendingSectors : Z; sm_CriticalWarning : Z; sm_FetchedAt : Z }.

Definition wrapu64 (x : Z) : Z := x mod 2 ^ 64.
(** [if x > 0 && old == 0 { old = x }] *)
Definition fill_in (old x : Z) : Z := if (0 <? x) && (old =? 0) then x else old.
(** [if old == 0 { old = x }] *)
Definition fill_zero (old x : Z) : Z := if old =? 0 then x else old.

Definition base_report (dev : string) (raw : rawSmartJSON) (now : Z) : Report :=
  MkReport dev (rw_Model raw) (rw_Serial raw) (rw_Firmware raw) (rw_Protocol raw) true (rw_Passed raw)
    (if rw_Passed raw then "PASSED" else "FAILED") (rw_Temperature raw) (rw_Hours raw) (rw_PowerCycles raw) (-1) 0 (-1) (-1) 0 now.
Definition with_protocol (p : string) (r : Report) : string := if String.eqb (sm_Protocol r) "" then p else sm_Protocol r.

Definition nvme_report (n : nvmeLog) (r : Report) : Report :=
  let warned := negb (nv_CriticalWarning n =? 0) in
  MkReport (sm_Device r) (sm_Model r) (sm_Serial r) (sm_Firmware r) (with_protocol "NVMe" r) (sm_Available r)
    (if warned then false else sm_Healthy r) (if warned then "WARNING" else sm_Status r)
    (fill_in (sm_TemperatureC r) (nv_Temperature n)) (fill_in (sm_PowerOnHours r) (nv_PowerOnHours n))
    (fill_in (sm_PowerCycles r) (nv_PowerCycles n)) (nv_PercentageUsed n) (wrapu64 (nv_DataUnitsWritten n * 512000))
    (sm_ReallocatedSectors r) (sm_PendingSectors r) (nv_CriticalWarning n) (sm_FetchedAt r).

Definition set_ata (status : string) (temp hours cycles wear written realloc pending : Z) (r : Report) : Report :=
  MkReport (sm_Device r) (sm_Model r) (sm_Serial r) (sm_Firmware r) (sm_Protocol r) (sm_Available r) (sm_Healthy r) status temp hours
    cycles wear written realloc pending (sm_CriticalWarning r) (sm_FetchedAt r).
Definition warn (raw : Z) (r : Report) : string :=
  if (0 <? raw) && String.eqb (sm_Status r) "PASSED" then "WARNING" else sm_Status r.
Definition take_attribute (r : Report) (a : attribute) : Report :=
  let '(t, h, c, w, d, rs, ps) := (sm_TemperatureC r, sm_PowerOnHours r, sm_PowerCycles r, sm_WearPercentage r, sm_DataWrittenBytes r,
                                   sm_ReallocatedSectors r, sm_PendingSectors r) in
  let v := at_Raw a in
  if at_ID a =? 5 then set_ata (warn v r) t h c w d v ps r
  else if at_ID a =? 197 then set_ata (warn v r) t h c w d rs v r
  else if at_ID a =? 194 then set_ata (sm_Status r) (if (t =? 0) && (0 <? v) then Z.land v 255 else t) h c w d rs ps r
  else if at_ID a =? 9 then set_ata (sm_Status r) t (fill_zero h v) c w d rs ps r
  else if at_ID a =? 12 then set_ata (sm_Status r) t h (fill_zero c v) w d rs ps r
  else if (at_ID a =? 177) || (at_ID a =? 231) || (at_ID a =? 233) then
    set_ata (sm_Status r) t h c
      (if (w =? -1) && (0 <? at_Value a) && (0 <=? 100 - at_Value a) && (100 - at_Value a <=? 100) then 100 - at_Value a else w) d rs ps r
  else if at_ID a =? 241 then set_ata (sm_Status r) t h c w (if (d =? 0) && (0 <? v) then wrapu64 (v * 512) else d) rs ps r
  else r.
Definition ata_report (table : list attribute) (r : Report) : Report :=
  foldl take_attribute
    (MkReport (sm_Device r) (sm_Model r) (sm_Serial r) (sm_Firmware r) (with_protocol "ATA" r) (sm_Available r) (sm_Healthy r)
       (sm_Status r) (sm_TemperatureC r) (sm_PowerOnHours r) (sm_PowerCycles r) (sm_WearPercentage r) (sm_DataWrittenBytes r)
       (sm_ReallocatedSectors r) (sm_PendingSectors r) (sm_CriticalWarning r) (sm_FetchedAt r)) table.
Definition ParseJSON (decode : string -> option rawSmartJSON) (dev data : string) (now : Z) : option Report :=
  match decode data with
  | None => None
  | Some raw =>
      let r := base_report dev raw now in
      Some (match rw_NVMe raw with
            | Some n => nvme_report n r
            | None => match rw_ATA raw with Some t => ata_report t r | None => r end
            end)
  end.
Definition unknown (dev : string) : Report := MkReport dev "" "" "" "" false false "UNKNOWN" 0 0 0 0 0 0 0 0 0.

(** ** The cache *)

Definition defaultCacheTTL : Z := 60 * second.
Abbreviation Cache := (gmap string (Report * Z)).
Definition no_device : Report := MkReport "" "" "" "" "" false false "" 0 0 0 0 0 0 0 0 0.

(** What is answered, whether it is an error, and the cache. [reply] is what
    [smartctl] prints, if it is asked. *)
Definition Probe (decode : string -> option rawSmartJSON) (available : bool) (dev reply : string) (now fetched : Z) (cache : Cache)
    : (Report * bool) * Cache :=
  match ValidateDevice dev with
  | None => ((no_device, true), cache)
  | Some clean =>
      match (match cache !! clean with Some (r, expires) => if before now expires then Some r else None | None => None end) with
      | Some r => ((r, false), cache)
      | None =>
          if negb available || String.eqb reply "" then ((unknown clean, true), cache) else
          match ParseJSON decode clean reply fetched with
          | None => ((unknown clean, true), cache)
          | Some r => ((r, false), <[clean := (r, fetched + defaultCacheTTL)]> cache)
          end
      end
  end.
Definition InvalidateCache (dev : string) (cache : Cache) : Cache :=
  if String.eqb dev "" then ∅ else delete (Clean (trim_space dev)) cache.

(** ** Self tests *)

Definition test_arg (testType : string) : option string :=
  let t := fold_lower (trim_space testType) in
  if String.eqb t "short" then Some "--test=short"
  else if contains ["long"; "extended"] t then Some "--test=long"
  else if contains ["abort"; "stop"; "-x"] t then Some "-X" else None.
(** A running test is ended before another begins; the device whose report is
    dropped from the cache is given back. *)
Definition RunSelfTest (M : machine) (dev testType : string) : op string :=
  match ValidateDevice dev with
  | None => se_fail 500
  | Some clean =>
      match test_arg testType with
      | None => se_fail 500
      | Some arg =>
          _ ← se_guard (negb (m_lookpath M "smartctl")) 500;
          _ ← (if String.eqb arg "-X" then mret tt else run_ M ["smartctl"; "-X"; clean]);
          _ ← run_or M 500 ["smartctl"; arg; clean]; mret clean
      end
  end.

(** ** What a report says *)

Lemma attribute_keeps (Q : Report -> Prop) table r :
  (forall r a, Q r -> Q (take_attribute r a)) -> Q r -> Q (foldl take_attribute r table).
Proof. intros HQ. revert r. induction table as [|a l IH]; intros r Hr; [done|]. apply IH. by apply HQ. Qed.

Definition sensible (r : Report) : Prop :=
  -1 <= sm_WearPercentage r <= 100 /\ 0 <= sm_DataWrittenBytes r < 2 ^ 64 /\
  (sm_Status r = "FAILED" <-> sm_Healthy r = false) /\
  (sm_Status r = "PASSED" -> sm_ReallocatedSectors r <= 0 /\ sm_PendingSectors r <= 0).
Lemma wrapu64_range x : 0 <= wrapu64 x < 2 ^ 64.
Proof. apply Z.mod_pos_bound. lia. Qed.
Lemma warn_spec v r : (warn v r = "FAILED" <-> sm_Status r = "FAILED") /\ (warn v r = "PASSED" -> sm_Status r = "PASSED" /\ v <= 0).
Proof.
  unfold warn. destruct (Z.ltb_spec 0 v); simpl; [|split; [done|auto]].
  destruct (String.eqb_spec (sm_Status r) "PASSED") as [->|Hn]; simpl; split; try done.
Qed.
Lemma sensible_attribute r a : sensible r -> sensible (take_attribute r a).
Proof.
  intros (Hw & Hd & Hf & Hp). unfold take_attribute. pose proof (warn_spec (at_Raw a) r) as [Hw1 Hw2].
  assert (Hset : forall status t h c w d rs ps, -1 <= w <= 100 -> 0 <= d < 2 ^ 64 -> (status = "FAILED" <-> sm_Status r = "FAILED") ->
    (status = "PASSED" -> rs <= 0 /\ ps <= 0) -> sensible (set_ata status t h c w d rs ps r)).
  { intros status t h c w d rs ps H1 H2 H3 H4. unfold sensible. cbn. split; [done|]. split; [done|]. split; [by rewrite H3|done]. }
  destruct (at_ID a =? 5). { apply Hset; [done..|]. intros E. apply Hw2 in E as [E ?]. by destruct (Hp E). }
  destruct (at_ID a =? 197). { apply Hset; [done..|]. intros E. apply Hw2 in E as [E ?]. by destruct (Hp E). }
  destruct (at_ID a =? 194); [by apply Hset|]. destruct (at_ID a =? 9); [by apply Hset|]. destruct (at_ID a =? 12); [by apply Hset|].
  destruct (_ || _ || _).
  { apply Hset; [|done..]. destruct (_ && _ && _ && _) eqn:E; [|done]. repeat (apply andb_prop in E as [E ?]). lia. }
  destruct (at_ID a =? 241); [|by unfold sensible].
  apply Hset; [done| |done..]. destruct (_ && _); [apply wrapu64_range|done].
Qed.

(** The report of a disk that is not NVMe has a wear between 0 and 100 or none,
    counts bytes as 64 bits can, is FAILED exactly when the disk is not healthy, and
    PASSED only without reallocated or pending sectors. *)
Theorem ata_report_sensible decode dev data now raw r : decode data = Some raw -> rw_NVMe raw = None ->
  ParseJSON decode dev data now = Some r -> sensible r.
Proof.
  intros Hd Hn. unfold ParseJSON. rewrite Hd, Hn. intros [= <-].
  assert (sensible (base_report dev raw now)) as Hb.
  { unfold sensible, base_report. cbn. split; [lia|]. split; [lia|]. by destruct (rw_Passed raw). }
  destruct (rw_ATA raw) as [t|]; [|done]. unfold ata_report. apply attribute_keeps; [apply sensible_attribute|]. exact Hb.
Qed.

(** A report that was answered is in the cache, and until it expires it is
    answered again whatever [smartctl] would say; errors are not kept. *)
Theorem Probe_cached decode available dev reply now fetched cache clean r e cache' : ValidateDevice dev = Some clean ->
  Probe decode available dev reply now fetched cache = ((r, e), cache') ->
  if e then cache' = cache else exists expires, cache' !! clean = Some (r, expires) /\
    forall available' reply' now' fetched', now' < expires -> Probe decode available' dev reply' now' fetched' cache' = ((r, false), cache').
Proof.
  intros Hv. unfold Probe. rewrite Hv.
  assert (Hhit : forall (c : Cache) x expires, c !! clean = Some (x, expires) -> exists expires', c !! clean = Some (x, expires') /\
    forall available' reply' now' fetched', now' < expires' ->
    match (match c !! clean with Some (r, expires) => if before now' expires then Some r else None | None => None end) with
    | Some r => ((r, false), c)
    | None => if negb available' || String.eqb reply' "" then ((unknown clean, true), c)
              else match ParseJSON decode clean reply' fetched' with
                   | None => ((unknown clean, true), c)
                   | Some r => ((r, false), <[clean := (r, fetched' + defaultCacheTTL)]> c) end
    end = ((x, false), c)).
  { intros c x expires Hc. exists expires. split; [done|]. intros ???? Hlt. rewrite Hc. unfold before. by rewrite (proj2 (Z.ltb_lt _ _) Hlt). }
  destruct (cache !! clean) as [[x expires]|] eqn:Hc; [destruct (before now expires)|].
  1: { intros [= <- <- <-]. by eapply Hhit. }
  all: destruct (_ || _); [by intros [= <- <- <-]|]; destruct (ParseJSON _ _ _ _) as [x'|]; [|by intros [= <- <- <-]];
    intros [= <- <- <-]; eapply Hhit; apply lookup_insert_eq.
Qed.

Module SmartDemo.
Definition ata (reallocated : Z) : rawSmartJSON := MkRaw "m" "s" "f" "ATA" true 30 100 10 None (Some [MkAttr 5 100 reallocated; MkAttr 177 93 0]).
Definition nvme (warning units : Z) : rawSmartJSON := MkRaw "m" "s" "f" "NVMe" true 30 100 10 (Some (MkNvme warning 30 3 units 10 100)) None.
(** A warning makes an NVMe disk unhealthy and leaves any other healthy; bytes
    written wrap around. *)
Example warnings : (fun r => (sm_Healthy r, sm_Status r)) <$> ParseJSON (fun _ => Some (ata 8)) "/dev/sda" "" 0 = Some (true, "WARNING") /\
  (fun r => (sm_Healthy r, sm_Status r)) <$> ParseJSON (fun _ => Some (nvme 1 0)) "/dev/nvme0n1" "" 0 = Some (false, "WARNING") /\
  sm_DataWrittenBytes <$> ParseJSON (fun _ => Some (nvme 0 (2 ^ 52))) "/dev/nvme0n1" "" 0 = Some 0.
Proof. split_and!; vm_compute; reflexivity. Qed.
Example devices : ValidateDevice " sda " = Some "/dev/sda" /\ ValidateDevice "/dev/sda1" = None /\ ValidateDevice "../etc/passwd" = None.
Proof. split_and!; vm_compute; reflexivity. Qed.
End SmartDemo.
