(* ===== verification/Nodes.v ===== *)
(** * Nodes: the hosts of a fleet, and the bridges of a host

    Models [nodes/registry.go], the registry of the nodes with what is probed of
    them, and [netstore/netstore.go], the record of the bridges the server made.
    The answers of the network to a probe are inputs; a probe that is running while
    the registry changes is the step in which it ends. *)

From S2P Require Import GoNet AtomicFile DiskState.
From S2P Require Export Prelude GoStrings.
Open Scope Z_scope.

(** ** Nodes *)

Inductive NodeType := NodeTypeLocal | NodeTypeRemote.
#[export] Instance NodeType_eq_dec : EqDecision NodeType.
Proof. solve_decision. Defined.

Record Node := MkNode {
  nd_ID : string; nd_Name : string; nd_URI : string; nd_Type : NodeType; nd_Enabled : bool; nd_CreatedAt : Z; nd_UpdatedAt : Z;
  nd_Status : string; nd_LatencyMs : Z; nd_LastSeen : option Z; nd_LastError : string; nd_Version : string; nd_UptimeSec : Z;
  nd_DiskFree : Z; nd_DiskTotal : Z; nd_LibvirtStatus : string }.
Definition IsLocal (n : Node) : bool := bool_decide (nd_Type n = NodeTypeLocal).
Definition fresh_node (id name uri : string) (t : NodeType) (status : string) (now : Z) : Node :=
  MkNode id name uri t true now now status 0 None "" "" 0 0 0 "".

(** The fields an administrator sets, and those a probe does. *)
Definition set_identity (name uri : string) (enabled : bool) (updated : Z) (n : Node) : Node :=
  MkNode (nd_ID n) name uri (nd_Type n) enabled (nd_CreatedAt n) updated (nd_Status n) (nd_LatencyMs n) (nd_LastSeen n)
    (nd_LastError n) (nd_Version n) (nd_UptimeSec n) (nd_DiskFree n) (nd_DiskTotal n) (nd_LibvirtStatus n).
Definition set_health (status : string) (latency : Z) (seen : option Z) (err version : string) (up free total : Z) (libvirt : string)
    (n : Node) : Node :=
  MkNode (nd_ID n) (nd_Name n) (nd_URI n) (nd_Type n) (nd_Enabled n) (nd_CreatedAt n) (nd_UpdatedAt n) status latency seen err
    version up free total libvirt.
Definition set_status (status err : string) (n : Node) : Node :=
  set_health status (nd_LatencyMs n) (nd_LastSeen n) err (nd_Version n) (nd_UptimeSec n) (nd_DiskFree n) (nd_DiskTotal n) (nd_LibvirtStatus n) n.
Definition default_status (status : string) (n : Node) : Node :=
  if String.eqb (nd_Status n) "" then set_status status (nd_LastError n) n else n.

Abbreviation Nodes := (gmap string Node).
Definition trimAll (s : string) : string := join_str " " (DiskState.Fields s).

(** ** Where a probe goes *)

Definition JoinHostPort (host port : string) : string :=
  if contains_byte ":" host then "[" +:+ host +:+ "]:" +:+ port else host +:+ ":" +:+ port.
Definition after_at (s : string) : string :=
  match last_index_byte "@" s with Some i => drop_str (S i) s | None => s end.
Definition health_url (host : string) : string := "https://" +:+ host +:+ ":8080/api/health".
(** The URL and the address tried after it, if any. *)
Definition probe_targets (uri : string) : string * option string :=
  let u := trim_space uri in
  if has_prefix "http://" u || has_prefix "https://" u then
    (trim_right_set (fun c => Ascii.eqb c "/") u +:+ "/api/health", None)
  else if has_prefix "qemu+ssh://" u || has_prefix "qemu+tcp://" u then
    let clean := without_prefix "qemu+tcp://" (without_prefix "qemu+ssh://" u) in
    let hostPart := after_at (hd "" (split_byte "/" clean)) in
    let '(host, port) := match SplitHostPort hostPart with
                         | Some hp => hp
                         | None => (hostPart, if has_prefix "qemu+tcp://" u then "16509" else "22")
                         end in
    (health_url host, Some (JoinHostPort host port))
  else match SplitHostPort u with
       | Some (host, port) => ("https://" +:+ host +:+ ":" +:+ port +:+ "/api/health", Some (JoinHostPort host port))
       | None => (health_url u, Some (JoinHostPort u "22"))
       end.

Record health := MkHealth { he_Status : string; he_Version : string; he_Uptime : Z; he_DiskFree : Z; he_DiskTotal : Z; he_Libvirt : string }.
(** What the network answers: [Some] of a reply with status 200. *)
Inductive remote_answer := Healthy (h : health) | Reachable | Unreachable.
Definition remote_probe (http : string -> option health) (dial : string -> bool) (uri : string) : remote_answer :=
  let '(url, addr) := probe_targets uri in
  match http url with
  | Some h => Healthy h
  | None => match addr with Some a => if dial a then Reachable else Unreachable | None => Unreachable end
  end.
Definition apply_answer (now latency : Z) (a : remote_answer) (n : Node) : Node :=
  match a with
  | Healthy h => set_health "online" latency (Some now) "" (he_Version h) (he_Uptime h) (he_DiskFree h) (he_DiskTotal h) (he_Libvirt h) n
  | Reachable => set_health "online" latency (Some now) "" (nd_Version n) (nd_UptimeSec n) (nd_DiskFree n) (nd_DiskTotal n) "reachable" n
  | Unreachable => set_health "offline" 0 (nd_LastSeen n) "connection timed out or refused" (nd_Version n) (nd_UptimeSec n)
                     (nd_DiskFree n) (nd_DiskTotal n) (nd_LibvirtStatus n) n
  end.
(** The local host answers through a callback, when there is one. *)
Definition local_answer (now : Z) (prober : option (res string health)) (n : Node) : Node :=
  let n := set_health "online" 0 (Some now) "" (nd_Version n) (nd_UptimeSec n) (nd_DiskFree n) (nd_DiskTotal n) (nd_LibvirtStatus n) n in
  match prober with
  | None => n
  | Some (Err e) => set_status "degraded" e n
  | Some (Ok h) => set_health (if String.eqb (he_Status h) "" then "online" else he_Status h) 0 (Some now) "" (he_Version h) (he_Uptime h)
                     (he_DiskFree h) (he_DiskTotal h) (he_Libvirt h) n
  end.

Record ClusterSummary := MkSummary { cs_Total : Z; cs_Online : Z; cs_Offline : Z; cs_AvgLatency : Z; cs_DiskFree : Z; cs_DiskTotal : Z }.

Section Registry.
Context {W : Type} `{Persist (list Node) W} (sort_by : (Node -> Z) -> list Node -> list Node).

Record Registry := MkRegistry { nodes : Nodes; disk : W }.
Abbreviation op := (SE Registry string).

Definition with_nodes (f : Nodes -> Nodes) (r : Registry) : Registry := MkRegistry (f (nodes r)) (disk r).
Definition values (m : Nodes) : list Node := map snd (map_to_list m).
Definition document (m : Nodes) : list Node := sort_by nd_CreatedAt (values m).
Definition save (r : Registry) : bool * Registry :=
  let '(ok, w) := AtomicFile.save (document (nodes r)) (disk r) in (ok, MkRegistry (nodes r) w).
Definition save_or_fail : op unit := fun r => let '(ok, r) := save r in (if ok then Ok tt else Err "save", r).

(** Saved, or undone in memory as well. *)
Definition save_or_undo (undo : Nodes -> Nodes) : op unit := fun r =>
  let '(ok, r) := save r in if ok then (Ok tt, r) else (Err "save", with_nodes undo r).

Definition load (l : list Node) : Nodes := foldl (fun m n => <[nd_ID n := default_status "unknown" n]> m) ∅ l.
(** The first local node of a walk over the map, in any order. *)
Definition ensureLocal (walk : Nodes -> list (string * Node)) (uri : string) (now : Z) (m : Nodes) : Nodes :=
  match List.find (fun x => IsLocal x.2) (walk m) with
  | Some (id, n) =>
      <[id := default_status "online" (if String.eqb (nd_URI n) uri then n else set_identity (nd_Name n) uri (nd_Enabled n) now n)]> m
  | None => <["local" := fresh_node "local" "local" uri NodeTypeLocal "online" now]> m
  end.
Definition New (walk : Nodes -> list (string * Node)) (uri : string) (now : Z) (w : W) : res string Registry * W :=
  match stored w with
  | Some Torn => (Err "parse", w)
  | c =>
      let m := ensureLocal walk uri now (load (match c with Some (Whole l) => l | _ => [] end)) in
      let '(ok, r) := save (MkRegistry m w) in
      (if ok then Ok r else Err "save", disk r)
  end.

Definition List_ (r : Registry) : list Node := document (nodes r).
Definition Get (id : string) (r : Registry) : option Node := nodes r !! id.

Definition Create (id name uri : string) (now : Z) : op Node :=
  let name := trimAll name in
  _ ← se_guard (String.eqb name "") "name is required";
  _ ← se_guard (String.eqb uri "") "uri is required";
  r ← se_get;
  _ ← se_guard (existsb (fun n => String.eqb (nd_Name n) name) (values (nodes r))) "a node of that name already exists";
  let n := fresh_node id name uri NodeTypeRemote "unknown" now in
  _ ← se_modify (with_nodes (insert id n));
  _ ← save_or_undo (delete id); mret n.

Definition Update (id name uri : string) (enabled : option bool) (now : Z) : op Node :=
  r ← se_get;
  match nodes r !! id with
  | None => se_fail "node not found"
  | Some n =>
      _ ← se_guard (IsLocal n && nonempty uri && negb (String.eqb uri (nd_URI n))) "cannot change the URI of the local node";
      let n := set_identity (if nonempty name then trimAll name else nd_Name n)
                 (if nonempty uri && negb (IsLocal n) then uri else nd_URI n) (default (nd_Enabled n) enabled) now n in
      _ ← se_modify (with_nodes (insert id n));
      _ ← save_or_fail; mret n
  end.

Definition Delete (id : string) : op unit :=
  r ← se_get;
  match nodes r !! id with
  | None => mret tt
  | Some n => _ ← se_guard (IsLocal n) "cannot delete the local node"; _ ← se_modify (with_nodes (delete id)); save_or_fail
  end.

(** A probe decides at its beginning what it asks, and changes the node when it
    ends; a node that is gone by then is not put back. *)
Inductive probe_end := EndLocal (prober : option (res string health)) | EndDisabled | EndRemote (a : remote_answer).
Definition begin_probe (n : Node) (prober : option (res string health)) (a : remote_answer) : probe_end :=
  if IsLocal n then EndLocal prober else if negb (nd_Enabled n) then EndDisabled else EndRemote a.
Definition end_probe (now latency : Z) (e : probe_end) (n : Node) : Node :=
  match e with
  | EndLocal prober => local_answer now prober n
  | EndDisabled => set_status "offline" "node is disabled" n
  | EndRemote a => apply_answer now latency a n
  end.
Definition finish_probe (id : string) (now latency : Z) (e : probe_end) : Registry -> Registry :=
  with_nodes (alter (end_probe now latency e) id).
(** A probe nothing interleaves with. *)
Definition ProbeNode (id : string) (prober : option (res string health)) (a : remote_answer) (now latency : Z) : op Node :=
  r ← se_get;
  match nodes r !! id with
  | None => se_fail "node not found"
  | Some n =>
      let e := begin_probe n prober a in
      _ ← se_modify (finish_probe id now latency e);
      _ ← se_guard (match e with EndRemote Unreachable => true | _ => false end) "probe failed";
      mret (end_probe now latency e n)
  end.

Definition summarise (s : Z * Z * Z * Z * Z) (n : Node) : Z * Z * Z * Z * Z :=
  let '(on, off, lat, free, total) := s in
  let online := String.eqb (nd_Status n) "online" in
  (if online then on + 1 else on, if online then off else off + 1, if online then wrap64 (lat + nd_LatencyMs n) else lat,
   wrap64 (free + nd_DiskFree n), wrap64 (total + nd_DiskTotal n)).
Definition Summary (r : Registry) : ClusterSummary :=
  let '(on, off, lat, free, total) := foldl summarise (0, 0, 0, 0, 0) (values (nodes r)) in
  MkSummary (Z.of_nat (size (nodes r))) on off (if 0 <? on then Z.quot lat on else 0) free total.

(** ** What holds of a registry *)

(** Every node is under its own identifier, and there is one local node. *)
Definition one_local (m : Nodes) : Prop :=
  (forall id n, m !! id = Some n -> nd_ID n = id) /\
  exists id, forall i n, m !! i = Some n -> (nd_Type n = NodeTypeLocal <-> i = id).
Definition has_local (uri : string) (m : Nodes) : Prop := exists id n, m !! id = Some n /\ nd_Type n = NodeTypeLocal /\ nd_URI n = uri.
Definition sound (uri : string) (r : Registry) : Prop := one_local (nodes r) /\ has_local uri (nodes r).

Inductive request :=
| DoCreate (id name uri : string) (now : Z)
| DoUpdate (id name uri : string) (enabled : option bool) (now : Z)
| DoDelete (id : string)
| DoProbe (id : string) (e : probe_end) (now latency : Z).   (* the end of a probe *)
(** A random identifier is not one of those there are. *)
Definition fresh_id (q : request) (r : Registry) : Prop :=
  match q with DoCreate id _ _ _ => nodes r !! id = None | _ => True end.
Definition respond (r : Registry) (q : request) : Registry :=
  match q with
  | DoCreate id name uri now => (Create id name uri now r).2
  | DoUpdate id name uri e now => (Update id name uri e now r).2
  | DoDelete id => (Delete id r).2
  | DoProbe id e now l => finish_probe id now l e r
  end.

Lemma save_nodes r : nodes (save r).2 = nodes r.
Proof. unfold save. by destruct (AtomicFile.save _ _). Qed.

(** Changing a node in place keeps what holds, as long as it stays what it is. *)
Lemma node_sound_insert uri r id n n' : sound uri r -> nodes r !! id = Some n -> nd_ID n' = nd_ID n -> nd_Type n' = nd_Type n ->
  (nd_Type n = NodeTypeLocal -> nd_URI n' = nd_URI n) -> sound uri (with_nodes (insert id n') r).
Proof.
  intros [[Hid [l Hl]] (il & nl & Hil & Ht & Hu)] Hn Ei Et Eu. unfold with_nodes. split; cbn [nodes].
  - split.
    + intros i x. destruct (decide (id = i)) as [<-|Hi]; [|rewrite lookup_insert_ne by done; apply Hid].
      rewrite lookup_insert_eq. intros [= <-]. rewrite Ei. by apply Hid.
    + exists l. intros i x. destruct (decide (id = i)) as [<-|Hi]; [|rewrite lookup_insert_ne by done; apply Hl].
      rewrite lookup_insert_eq. intros [= <-]. rewrite Et. by apply Hl.
  - destruct (decide (il = id)) as [->|Hi].
    + exists id, n'. rewrite lookup_insert_eq. rewrite Hil in Hn. injection Hn as ->. split_and!; [done|by rewrite Et|by rewrite Eu].
    + exists il, nl. by rewrite lookup_insert_ne.
Qed.
Lemma sound_save uri r : sound uri r -> sound uri (save r).2.
Proof. unfold sound. by rewrite save_nodes. Qed.
Lemma sound_nodes uri r r' : nodes r' = nodes r -> sound uri r -> sound uri r'.
Proof. unfold sound. by intros ->. Qed.

Lemma Create_nodes id name uri now r : nodes r !! id = None ->
  let '(a, r') := Create id name uri now r in
  match a with
  | Ok n => n = fresh_node id (trimAll name) uri NodeTypeRemote "unknown" now /\ nodes r' = <[id := n]> (nodes r) /\
            forall n', n' ∈ values (nodes r) -> nd_Name n' <> nd_Name n
  | Err _ => nodes r' = nodes r
  end.
Proof.
  intros Hid. unfold Create. rewrite run_guard. destruct (String.eqb _ ""); [done|]. rewrite run_guard. destruct (String.eqb _ ""); [done|].
  rewrite run_get, run_guard. destruct (existsb _ _) eqn:He; [done|]. rewrite run_modify, run_bind. unfold save_or_undo, save. cbn [nodes with_nodes disk].
  destruct (AtomicFile.save _ _) as [[] w]; cbn.
  - split_and!; [done..|]. intros n' Hn' E. apply not_true_iff_false in He. apply He. apply existsb_exists. exists n'.
    split; [by apply list_elem_of_In|]. rewrite E. apply String.eqb_refl.
  - by apply delete_insert_id.
Qed.

Lemma sound_serve uri r q : sound uri r -> fresh_id q r -> sound uri (respond r q).
Proof.
  intros Hs Hf. destruct q as [id name u now|id name u e now|id|id e now l]; cbn [respond fresh_id] in *.
  - pose proof (Create_nodes id name u now r Hf) as Hc. destruct (Create id name u now r) as [[n|e] r']; [|by eapply sound_nodes].
    destruct Hc as (-> & E & _). apply (sound_nodes _ (with_nodes (insert id (fresh_node id (trimAll name) u NodeTypeRemote "unknown" now)) r)); [done|].
    destruct Hs as [[Hid [k Hk]] (il & nl & Hil & Ht & Hu)]. assert (il <> id) as Hne by congruence. split; cbn [nodes with_nodes].
    + split.
      * intros i x. destruct (decide (id = i)) as [<-|Hi]; [|rewrite lookup_insert_ne by done; apply Hid]. rewrite lookup_insert_eq. by intros [= <-].
      * exists k. intros i x. destruct (decide (id = i)) as [<-|Hi]; [|rewrite lookup_insert_ne by done; apply Hk].
        rewrite lookup_insert_eq. intros [= <-]. cbn. split; [done|]. intros ->. exfalso. apply Hne. by eapply Hk.
    + exists il, nl. by rewrite lookup_insert_ne.
  - unfold Update. rewrite run_get. destruct (nodes r !! id) as [n|] eqn:Hn; [|done]. rewrite run_guard.
    destruct (IsLocal n && _ && _); [done|]. rewrite run_modify, run_bind. unfold save_or_fail.
    set (n' := set_identity _ _ _ _ n). pose proof (sound_save uri (with_nodes (insert id n') r)) as Hsv.
    destruct (save _) as [ok r']; cbn [snd] in *. assert (sound uri r') as Hr.
    { apply Hsv. apply (node_sound_insert _ _ _ n); try done. intros Ht. cbn. unfold IsLocal. rewrite bool_decide_eq_true_2 by done. by rewrite andb_false_r. }
    by destruct ok.
  - unfold Delete. rewrite run_get. destruct (nodes r !! id) as [n|] eqn:Hn; [|done]. rewrite run_guard.
    destruct (IsLocal n) eqn:Hl; [done|]. rewrite run_modify. unfold save_or_fail.
    pose proof (sound_save uri (with_nodes (delete id) r)) as Hsv. destruct (save _) as [ok r']; cbn [snd] in *.
    apply Hsv. destruct Hs as [[Hid [k Hk]] (il & nl & Hil & Ht & Hu)].
    assert (il <> id) as Hne by (intros ->; rewrite Hil in Hn; injection Hn as ->; by apply bool_decide_eq_false in Hl).
    split; cbn [nodes with_nodes].
    + split; [intros i x [_ Hx]%lookup_delete_Some; by apply Hid|]. exists k. intros i x [_ Hx]%lookup_delete_Some. by apply Hk.
    + exists il, nl. by rewrite lookup_delete_ne.
  - unfold finish_probe. destruct (nodes r !! id) as [n|] eqn:Hn.
    + apply (sound_nodes _ (with_nodes (insert id (end_probe now l e n)) r)).
      * cbn [with_nodes nodes]. apply map_eq. intros i. destruct (decide (id = i)) as [<-|Hi].
        -- by rewrite lookup_alter_eq, lookup_insert_eq, Hn.
        -- by rewrite lookup_alter_ne, lookup_insert_ne.
      * destruct e as [[[]|]| |[]]; by apply (node_sound_insert _ _ _ n).
    + apply (sound_nodes _ r); [|done]. cbn [with_nodes nodes]. apply map_eq. intros i.
      destruct (decide (id = i)) as [<-|Hi]; [by rewrite lookup_alter_eq, Hn|by rewrite lookup_alter_ne].
Qed.

(** Whatever is asked of the registry and however saving and probing go, there
    is exactly one local node, with the URI of the configuration, and every node
    is filed under its own identifier. *)
Theorem registry_keeps_local uri qs r : sound uri r ->
  (forall pre q post, qs = pre ++ q :: post -> fresh_id q (foldl respond r pre)) -> sound uri (foldl respond r qs).
Proof.
  revert r. induction qs as [|q qs IH]; intros r Hs Hf; [done|]. cbn [foldl]. apply IH.
  - apply sound_serve; [done|]. by apply (Hf [] q qs).
  - intros pre q' post ->. by apply (Hf (q :: pre) q' post).
Qed.

Hypothesis sort_perm : forall f l, sort_by f l ≡ₚ l.

Lemma load_values (m : Nodes) l : (forall id n, m !! id = Some n -> nd_ID n = id /\ nd_Status n <> "") -> l ≡ₚ values m -> load l = m.
Proof.
  intros Hm Hl. apply map_eq. intros id. unfold load.
  assert (Hg : forall (l : list Node) (acc : Nodes), NoDup (map nd_ID l) ->
    foldl (fun m n => <[nd_ID n := default_status "unknown" n]> m) acc l !! id =
    match List.find (fun n => String.eqb (nd_ID n) id) l with Some n => Some (default_status "unknown" n) | None => acc !! id end).
  { clear. induction l as [|n l IH]; intros acc Hnd; [done|]. cbn [foldl List.find map] in *. apply NoDup_cons in Hnd as [Hn Hnd].
    rewrite IH by done. destruct (String.eqb_spec (nd_ID n) id) as [<-|Hne].
    - destruct (List.find _ l) as [n'|] eqn:Hf; [|by rewrite lookup_insert_eq]. exfalso. apply find_some in Hf as [Hin He].
      apply String.eqb_eq in He. apply Hn. apply list_elem_of_In, in_map_iff. by exists n'.
    - destruct (List.find _ l); [done|]. by rewrite lookup_insert_ne. }
  assert (Hids : map nd_ID (values m) = map fst (map_to_list m)).
  { unfold values. rewrite map_map. apply map_ext_in. intros [i n] Hin. apply list_elem_of_In, elem_of_map_to_list in Hin. by apply Hm. }
  rewrite Hg.
  2:{ rewrite Hl, Hids. apply NoDup_fst_map_to_list. }
  destruct (List.find _ l) as [n|] eqn:Hf.
  - apply find_some in Hf as [Hin He]. apply String.eqb_eq in He. apply list_elem_of_In in Hin. rewrite Hl in Hin.
    apply list_elem_of_In, in_map_iff in Hin as ([i x] & <- & Hin). apply list_elem_of_In, elem_of_map_to_list in Hin.
    destruct (Hm i x Hin) as [Hi Hst]. cbn [snd] in *. rewrite <- He, Hi, Hin. unfold default_status. by destruct (String.eqb_spec (nd_Status x) "").
  - rewrite lookup_empty. symmetry. apply eq_None_not_Some. intros [n Hn]. destruct (Hm id n Hn) as [Hi _].
    assert (n ∈ l) as Hin. { rewrite Hl. apply list_elem_of_In, in_map_iff. exists (id, n). split; [done|]. by apply list_elem_of_In, elem_of_map_to_list. }
    apply list_elem_of_In in Hin. specialize (find_none _ _ Hf n Hin). cbn. by rewrite Hi, String.eqb_refl.
Qed.

(** A registry that was saved comes back whole when the server starts again
    with the same configuration: its nodes, with what was last probed of them. *)
Theorem registry_survives_restart walk uri now r r' w' : sound uri r -> (forall m, walk m ≡ₚ map_to_list m) ->
  (forall id n, nodes r !! id = Some n -> nd_Status n <> "") -> stored (disk r) = Some (Whole (document (nodes r))) ->
  New walk uri now (disk r) = (Ok r', w') -> nodes r' = nodes r /\ stored w' = stored (disk r).
Proof.
  intros [[Hid [k Hk]] (il & nl & Hil & Ht & Hu)] Hw Hst Hdisk. unfold New. rewrite Hdisk.
  rewrite (load_values (nodes r)); [|by intros id n Hn; split; [by apply Hid|by eapply Hst]|apply sort_perm].
  assert (ensureLocal walk uri now (nodes r) = nodes r) as ->.
  { unfold ensureLocal. destruct (List.find _ (walk (nodes r))) as [[i n]|] eqn:Hf.
    - apply find_some in Hf as [Hin Hl]. apply list_elem_of_In in Hin. rewrite Hw in Hin. apply elem_of_map_to_list in Hin.
      apply bool_decide_eq_true in Hl. cbn [snd] in Hl. assert (i = k) as -> by (by apply (Hk _ _ Hin)). assert (il = k) as -> by (by apply (Hk _ _ Hil)).
      rewrite Hil in Hin. injection Hin as ->. rewrite Hu, String.eqb_refl. unfold default_status.
      destruct (String.eqb_spec (nd_Status n) "") as [E|_]; [by destruct (Hst _ _ Hil)|]. by apply insert_id.
    - exfalso. assert ((il, nl) ∈ walk (nodes r)) as Hin by (rewrite Hw; by apply elem_of_map_to_list). apply list_elem_of_In in Hin.
      specialize (find_none _ _ Hf _ Hin). cbn. unfold IsLocal. by rewrite bool_decide_eq_true_2. }
  unfold save. cbn [nodes disk]. pose proof (save_spec (document (nodes r)) (disk r)) as Hsp.
  destruct (AtomicFile.save _ _) as [[] w]; [|done]. intros [= <- <-]. cbn [nodes disk]. split; [done|]. by rewrite Hsp.
Qed.

Lemma summarise_counts l on off lat free total : let '(on', off', _, _, _) := foldl summarise (on, off, lat, free, total) l in
  on' + off' = on + off + Z.of_nat (length l) /\ on' = on + Z.of_nat (length (List.filter (fun n => String.eqb (nd_Status n) "online") l)).
Proof.
  revert on off lat free total. induction l as [|n l IH]; intros on off lat free total; [cbn; lia|]. cbn [foldl summarise List.filter length].
  destruct (String.eqb (nd_Status n) "online").
  - specialize (IH (on + 1) off (wrap64 (lat + nd_LatencyMs n)) (wrap64 (free + nd_DiskFree n)) (wrap64 (total + nd_DiskTotal n))).
    destruct (foldl summarise _ l) as [[[[]]]]. cbn [length] in *. lia.
  - specialize (IH on (off + 1) lat (wrap64 (free + nd_DiskFree n)) (wrap64 (total + nd_DiskTotal n))).
    destruct (foldl summarise _ l) as [[[[]]]]. cbn [length] in *. lia.
Qed.
(** The summary counts every node once, as online or as offline. *)
Theorem Summary_counts r : cs_Online (Summary r) + cs_Offline (Summary r) = cs_Total (Summary r) /\
  cs_Online (Summary r) = Z.of_nat (length (List.filter (fun n => String.eqb (nd_Status n) "online") (values (nodes r)))).
Proof.
  unfold Summary. pose proof (summarise_counts (values (nodes r)) 0 0 0 0 0) as Hc.
  destruct (foldl _ _ _) as [[[[on off] lat] free] total]. cbn [cs_Online cs_Offline cs_Total].
  assert (length (values (nodes r)) = size (nodes r)) as Hlen by (unfold values; by rewrite length_map, length_map_to_list). rewrite Hlen in Hc. lia.
Qed.
End Registry.

(** ** Bridges *)

Record NetRecord := MkNet {
  nr_Name : string; nr_Kind : string; nr_CIDR : string; nr_Gateway : string; nr_Interface : string; nr_MovedIPv4 : string;
  nr_DHCPStart : string; nr_DHCPEnd : string; nr_DNS : list string; nr_MTU : Z; nr_VLanAware : bool;
  nr_Reservations : list (string * string); nr_CreatedAt : Z }.
Definition stamp_record (now : Z) (r : NetRecord) : NetRecord :=
  if is_zero (nr_CreatedAt r) then
    MkNet (nr_Name r) (nr_Kind r) (nr_CIDR r) (nr_Gateway r) (nr_Interface r) (nr_MovedIPv4 r) (nr_DHCPStart r) (nr_DHCPEnd r)
      (nr_DNS r) (nr_MTU r) (nr_VLanAware r) (nr_Reservations r) now
  else r.

Section Bridges.
Context {W : Type} `{Persist (gmap string NetRecord) W}.
Record NetStore := MkNetStore { records : gmap string NetRecord; net_disk : W }.

Definition Open (w : W) : res string NetStore :=
  match stored w with
  | None => Ok (MkNetStore ∅ w)
  | Some Torn => Err "parse"
  | Some (Whole m) => Ok (MkNetStore m w)
  end.
Definition save_records (m : gmap string NetRecord) (w : W) : bool * NetStore :=
  let '(ok, w) := AtomicFile.save m w in (ok, MkNetStore m w).
Definition SaveRecord (now : Z) (r : NetRecord) (s : NetStore) : bool * NetStore :=
  save_records (<[nr_Name r := stamp_record now r]> (records s)) (net_disk s).
Definition GetRecord (name : string) (s : NetStore) : option NetRecord := records s !! name.
Definition DeleteRecord (name : string) (s : NetStore) : bool * NetStore :=
  match records s !! name with
  | None => (true, s)
  | Some _ => save_records (delete name (records s)) (net_disk s)
  end.
(** The order is that of a walk over a map. *)
Definition All (walk : gmap string NetRecord -> list NetRecord) (s : NetStore) : list NetRecord := walk (records s).

Inductive net_request := DoSave (now : Z) (r : NetRecord) | DoRemove (name : string).
Definition net_step (q : net_request) (s : NetStore) : bool * NetStore :=
  match q with DoSave now r => SaveRecord now r s | DoRemove name => DeleteRecord name s end.
Definition net_effect (q : net_request) (m : gmap string NetRecord) : gmap string NetRecord :=
  match q with DoSave now r => <[nr_Name r := stamp_record now r]> m | DoRemove name => delete name m end.

(** A request on the store of bridges has its effect in memory whether or not
    it could be saved; one that was saved, on a store that was, is what a restart
    reads, and one that was not leaves the disk as it was. *)
Theorem bridges_saved_exact q s : let '(ok, s') := net_step q s in
  records s' = net_effect q (records s) /\
  (ok = true -> stored (net_disk s) = Some (Whole (records s)) -> exists s2, Open (net_disk s') = Ok s2 /\ records s2 = records s') /\
  (ok = false -> stored (net_disk s') = stored (net_disk s)).
Proof.
  assert (Hs : forall m, let '(ok, s') := save_records m (net_disk s) in records s' = m /\
    (ok = true -> exists s2, Open (net_disk s') = Ok s2 /\ records s2 = records s') /\
    (ok = false -> stored (net_disk s') = stored (net_disk s))).
  { intros m. unfold save_records. pose proof (save_spec m (net_disk s)) as Hsp. destruct (AtomicFile.save m (net_disk s)) as [[] w]; cbn.
    - split_and!; [done| |done]. intros _. unfold Open. rewrite Hsp. by eexists.
    - by split_and!. }
  destruct q as [now r|name]; cbn [net_step net_effect].
  - specialize (Hs (<[nr_Name r := stamp_record now r]> (records s))). unfold SaveRecord. destruct (save_records _ _) as [ok s'].
    destruct Hs as (? & ? & ?). by split_and!; auto.
  - unfold DeleteRecord. destruct (records s !! name) eqn:Hn.
    + specialize (Hs (delete name (records s))). destruct (save_records _ _) as [ok s']. destruct Hs as (? & ? & ?). by split_and!; auto.
    + split_and!; [by rewrite delete_id|intros _ Hd|done]. unfold Open. rewrite Hd. by eexists.
Qed.
End Bridges.

(** ** A registry *)

Module NodesDemo.
Import DemoDisk.
Definition sorted (f : Node -> Z) (l : list Node) : list Node := l.
Definition walk (m : Nodes) : list (string * Node) := map_to_list m.
Definition start : Registry (W := cell (list Node)) :=
  match New sorted walk "qemu:///system" 5 (MkCell None true) with (Ok r, _) => r | (Err _, w) => MkRegistry ∅ w end.
Definition full (r : Registry (W := cell (list Node))) : Registry := MkRegistry (nodes r) (MkCell (stored (disk r)) false).
Definition two : Registry := (Create sorted "n_2" "b" "qemu+ssh://b/system" 7 (Create sorted "n_1" "a" "qemu+ssh://a/system" 6 start).2).2.
Definition names (r : Registry (W := cell (list Node))) : list string := map nd_Name (values (nodes r)).

(** [Create] refuses a name that is taken and a blank one, [Update] does not. *)
Example update_takes_any_name :
  (Create sorted "n_3" " a " "u" 8 two).1 = Err "a node of that name already exists" /\ (Create sorted "n_3" " " "u" 8 two).1 = Err "name is required" /\
  is_ok (Update sorted "n_2" "a" "" None 8 two).1 = true /\
  nd_Name <$> nodes (Update sorted "n_2" "a" "" None 8 two).2 !! "n_2" = Some "a" /\
  nd_Name <$> nodes (Update sorted "n_2" " " "" None 8 two).2 !! "n_2" = Some "".
Proof. split_and!; vm_compute; reflexivity. Qed.

(** A deletion that could not be saved is reported as failed and has happened; the
    node is back after a restart. *)
Example failed_delete_deletes : (Delete sorted "n_1" (full two)).1 = Err "save" /\
  nodes (Delete sorted "n_1" (full two)).2 !! "n_1" = None /\
  match stored (disk (Delete sorted "n_1" (full two)).2) with Some (Whole l) => existsb (fun n => String.eqb (nd_ID n) "n_1") l = true | _ => False end.
Proof. split_and!; vm_compute; reflexivity. Qed.

(** An IPv6 address without a port gets two pairs of brackets, and a scheme that
    is not known is taken for a host. *)
Example odd_targets : probe_targets "qemu+ssh://root@[::1]/system" = ("https://[::1]:8080/api/health", Some "[[::1]]:22") /\
  probe_targets "qemu+tls://h/system" = ("https://qemu+tls://h/system/api/health", Some "qemu+tls://h/system") /\
  probe_targets "qemu+ssh://root@h:2222/system" = ("https://h:8080/api/health", Some "h:2222").
Proof. split_and!; vm_compute; reflexivity. Qed.

Lemma start_sound : sound "qemu:///system" start.
Proof.
  assert (nodes start = {["local" := fresh_node "local" "local" "qemu:///system" NodeTypeLocal "online" 5]}) as E by (vm_compute; reflexivity).
  unfold sound. rewrite E. split.
  - split; [intros id n [<- <-]%lookup_singleton_Some; done|]. exists "local". intros i n [<- <-]%lookup_singleton_Some. done.
  - exists "local". eexists. split; [apply lookup_singleton_eq|done].
Qed.
Definition asked : list request :=
  [DoCreate "n_1" "a" "qemu+ssh://a/system" 6; DoProbe "n_1" (EndRemote Unreachable) 7 0; DoProbe "gone" EndDisabled 7 0; DoDelete "local"; DoUpdate "local" "" "other" None 8; DoDelete "n_1"].
Lemma registry_keeps_local_witness : sound "qemu:///system" (foldl (respond sorted) start asked) /\
  nodes (foldl (respond sorted) start asked) = nodes start.
Proof.
  split; [|vm_compute; reflexivity]. apply (registry_keeps_local sorted "qemu:///system" asked start start_sound).
  intros pre q post E. destruct pre as [|x pre]; [injection E as <- _; vm_compute; reflexivity|].
  destruct q; try exact I. exfalso. injection E as _ E.
  repeat (destruct pre as [|? pre]; [discriminate|injection E as _ E]). by destruct pre.
Defined.
End NodesDemo.
